(* ===== verification/_CoqProject ===== *)
-Q . S2P
Prelude.v
Bitmap.v
Bytes.v
CString.v
Stdio.v
Syscall.v
Interrupt.v
Irq.v
LinkedList.v
Thread.v
Sync.v
Paging.v
PagingSpec.v
Malloc.v
Timer.v
MallocSpec.v
IoQueue.v
Keyboard.v
Ide.v
Layout.v
Inode.v
InodeSpec.v
Disks.v
DisksSpec.v
File.v
Pipe.v
Dir.v
Path.v
CmdLine.v
Fs.v
Shell.v
Os.v
ShellSpec.v
Process.v
WaitExit.v
WaitExitSpec.v
Exec.v
Fork.v
UserMem.v
FileSpec.v
ReadSpec.v
DirSpec.v
FormatSpec.v
FsInit.v
ExecSpec.v
ForkSpec.v
