(* ===== verification/Prelude.v ===== *)
(** A model of os-core, a small x86 kernel in C, with the theorems that make
    its components correct.

    * How the program is modelled

    C code becomes functions in the state monads of this file: [res] has the
    outcomes of a run (a value, a failed ASSERT or PANIC, an access outside the
    modelled object, giving up the processor, or exhausted fuel), [M S] passes a
    state [S] along.  [wp m Q s] says that [m] runs from [s] to a value and a
    state that satisfy [Q]; it is total, so no theorem is about runs that do
    not end.  Machine integers are [Z], and every place where the source
    narrows or wraps is written out with [u8], [u16], [u32], [s8], [s16], [s32].
    Memory objects are lists of bytes (a pointer is the rest of the object), or
    records in a map from addresses where the source shares them.

    * The components, bottom up

    - Bitmap.v (lib/kernel/bitmap.c), Bytes.v and CString.v (lib/string.c),
      Stdio.v (lib/stdio.c, lib/kernel/stdio-kernel.c): the libraries.
    - Syscall.v (userprog/syscall-init.c, lib/user/syscall.c, the entry of
      kernel.S): numbers, table and stubs of the system calls.
    - Interrupt.v, Irq.v (kernel/interrupt.c): EFLAGS.IF, the IDT's gates, the
      8259A and the handler table.
    - LinkedList.v (lib/kernel/list.c): the intrusive list over a memory of
      nodes, refined by sequences of addresses; the later files use the
      sequences.
    - Thread.v (thread/thread.c, userprog/process.c: activation; device/timer.c):
      task structs, the ready queue, [schedule].  A function that gives up the
      processor is two definitions, up to [switch_to] and from there on.
    - Sync.v (thread/sync.c; the pid pool of thread.c): semaphores and locks
      under every interleaving, as a step relation [kstep] with reachability
      [reach]; the submodule [Seq] has the uncontended versions that the
      sequential components call.
    - Paging.v, PagingSpec.v (kernel/memory.c): frames, virtual pages and page
      tables, reached through the self-mapped directory as in the code.
      UserMem.v: byte accesses of a process through its page tables.
    - Malloc.v, MallocSpec.v (kernel/memory.c): arenas, over Paging.v and
      LinkedList.v.
    - Timer.v (device/timer.c): the 8253, the tick handler, sleeping.
    - IoQueue.v (device/ioqueue.c), Keyboard.v (device/keyboard.c), Pipe.v
      (shell/pipe.c): ring buffers with the threads that wait on them.
    - Ide.v (device/ide.c): the driver against a model of an ATA controller,
      refined by a map from sector numbers to sectors.  Disks.v, DisksSpec.v:
      [ide_init] and the scan of the partition tables.
    - Layout.v (the headers of fs/), Inode.v and InodeSpec.v (fs/inode.c), File.v,
      FileSpec.v, ReadSpec.v (fs/file.c), Dir.v and DirSpec.v (fs/dir.c), Path.v
      and Fs.v (fs/fs.c): the file system over that map.  FormatSpec.v and
      FsInit.v: formatting, mounting and [filesys_init] over the disks.
    - Os.v (the dispatch in fs/fs.c between files, console, keyboard and pipes;
      device/console.c; ps), CmdLine.v and Shell.v (shell/shell.c,
      shell/buildin_cmd.c), ShellSpec.v: the shell over the system calls.
    - Process.v (userprog/process.c, userprog/tss.c, thread_start), WaitExit.v and
      WaitExitSpec.v (userprog/wait_exit.c, thread_exit), Exec.v and ExecSpec.v
      (userprog/exec.c), Fork.v and ForkSpec.v (userprog/fork.c): the life of a process.

    * Interfaces

    fs/ uses the kernel heap through the class [Heap] with its laws [HeapLaws]
    (Inode.v); every theorem of the file system holds for each instance.
    Malloc.v proves what the arenas promise in its own terms ([heap_inv],
    [live]); it is not made an instance, because its [sys_malloc] stops the
    kernel, and does not return NULL, when a frame pool is full.  The disk
    driver promises Ide.v's [ide_read_ok] and [ide_write_ok], which the file
    system uses as reads and writes of the map.  Shell.v is written over the
    class [Sys] of the system calls the shell makes; ShellSpec.v adds the laws
    of keyboard and screen that [readline] needs ([Console]), and the keyboard's
    queue with a screen is an instance.  ExecSpec.v lifts file system and memory theorems
    to the joint state of a process by views ([sees], [back]).

    * The theorems

    A doc comment with the number of a property, C1 to C40, stands before each
    main theorem; a lemma of the same name with the suffix [_witness] applies
    it to concrete data.
    - Mutual exclusion, absence of failed assertions and of lost wakeups for
      locks; round robin; exclusive use of a task's list node (Sync, Thread).
    - The page allocator keeps the page tables well formed and frames apart;
      allocation and release are inverse; [sys_malloc] returns blocks apart
      from all live ones and [sys_free] takes them back (PagingSpec, MallocSpec).
    - An executable file is in the process's memory after [load], and one that
      is not executable leaves the memory as it was (ExecSpec); after a fork the
      child's memory is a copy of the parent's in other frames (ForkSpec);
      exit hands the children over and wakes the parent, wait reaps a child,
      and releasing a process frees its frames (WaitExitSpec).
    - From a blank or a formatted disk, [filesys_init] ends with a mounted file
      system; a formatted partition mounts with the layout it was given; the
      scan finds the partitions of a chain of tables (FsInit, FormatSpec,
      DisksSpec).
    - Reading and writing sectors, files, inodes, directory entries, pipes:
      refinement of abstract state and round trips.
    - System calls and interrupts arrive at their functions (Syscall, Timer).
    - Typing, editing a line, formatting, splitting a command and resolving a
      path against reference definitions (Keyboard, ShellSpec, Stdio, CmdLine).
    - Where the code does not do what it means to, a theorem says what it does
      instead: e.g. [bitmap_scan_full_panics], [inode_sync_wrong_slot],
      [dir_entry_stored_twice], [pipe_write_blocks].

    * Fuel

    Loops that are not structural run with fuel, and the theorems show that it
    is enough: lists have [list_fuel], one more than the number of nodes in
    memory; [itoa_fuel] is 33, as a 32-bit value is divided by at least 2;
    [skip_full] gets the length of the bitmap and [first_zero] 8; [busy_wait] the
    30001 values of its counter; path loops the length of the path; the scan of
    extended partitions the length of the chain of tables, which only the
    disk's contents bound.  Only [count_indirect], which the source never
    leaves, is shown to exhaust any fuel.

    * Not modelled

    Boot code, print.S, kernel.S beyond the dispatch, switch.S and io.h are
    assembly: the screen is the text put on it, a port the bytes sent to it,
    [switch_to] the boundary between two definitions, [intr_exit] the frame it
    would pop.  The TLB is not modelled; [invlpg] and reloading CR3 have no effect
    beyond the tables themselves.  The blocks of a process's own heap are
    those of the running task.  The number of disks, which the BIOS leaves in
    memory, is an argument.  init.c only calls the components' initialisers, the
    programs of command/ only system calls. *)

From stdpp Require Export base gmap list strings fin_maps.
From Stdlib Require Export ZArith Lia.

Open Scope Z_scope.

(** ** Machine integers

    C integers are kept as [Z] and every place where the source narrows or
    wraps is written out with one of these functions. *)

Definition u8 (z : Z) : Z := z mod 256.
Definition u16 (z : Z) : Z := z mod 65536.
Definition u32 (z : Z) : Z := z mod 4294967296.
Definition s8 (z : Z) : Z := (z + 128) mod 256 - 128.
Definition s16 (z : Z) : Z := (z + 32768) mod 65536 - 32768.
Definition s32 (z : Z) : Z := (z + 2147483648) mod 4294967296 - 2147483648.

Lemma u8_small z : 0 <= z < 256 -> u8 z = z.
Proof. intros; unfold u8; by apply Z.mod_small. Qed.
Lemma u16_small z : 0 <= z < 65536 -> u16 z = z.
Proof. intros; unfold u16; by apply Z.mod_small. Qed.
Lemma u32_small z : 0 <= z < 4294967296 -> u32 z = z.
Proof. intros; unfold u32; by apply Z.mod_small. Qed.
Lemma s8_small z : -128 <= z < 128 -> s8 z = z.
Proof. intros; unfold s8; rewrite Z.mod_small; lia. Qed.
Lemma s16_small z : -32768 <= z < 32768 -> s16 z = z.
Proof. intros; unfold s16; rewrite Z.mod_small; lia. Qed.
Lemma s32_small z : -2147483648 <= z < 2147483648 -> s32 z = z.
Proof. intros; unfold s32; rewrite Z.mod_small; lia. Qed.

Lemma u8_range z : 0 <= u8 z < 256.
Proof. unfold u8; apply Z.mod_pos_bound; lia. Qed.
Lemma u16_range z : 0 <= u16 z < 65536.
Proof. unfold u16; apply Z.mod_pos_bound; lia. Qed.
Lemma u32_range z : 0 <= u32 z < 4294967296.
Proof. unfold u32; apply Z.mod_pos_bound; lia. Qed.
Lemma s32_range z : -2147483648 <= s32 z < 2147483648.
Proof. unfold s32; pose proof (Z.mod_pos_bound (z + 2147483648) 4294967296); lia. Qed.

Global Arguments Z.eqb : simpl never.
Global Arguments Z.ltb : simpl never.
Global Arguments Z.leb : simpl never.
Global Arguments Z.land : simpl never.
Global Arguments Z.lor : simpl never.
Global Arguments Z.testbit : simpl never.
Global Arguments u8 : simpl never.
Global Arguments u16 : simpl never.
Global Arguments u32 : simpl never.
Global Arguments s8 : simpl never.
Global Arguments s16 : simpl never.
Global Arguments s32 : simpl never.

(** Remove every conversion whose argument is provably in range. *)
Ltac wsimpl :=
  repeat first
    [ rewrite u32_small by lia | rewrite u8_small by lia
    | rewrite u16_small by lia | rewrite s32_small by lia
    | rewrite s16_small by lia | rewrite s8_small by lia ].
Ltac wsimpl_in H :=
  repeat first
    [ rewrite u32_small in H by lia | rewrite u8_small in H by lia
    | rewrite u16_small in H by lia | rewrite s32_small in H by lia
    | rewrite s16_small in H by lia | rewrite s8_small in H by lia ].

(** ** Outcomes

    A run of kernel code returns, stops in [panic_spin] (ASSERT and PANIC),
    touches memory outside the modelled object, gives up the processor
    before it is finished, or exhausts the fuel of a loop. *)

Inductive res (A : Type) : Type :=
| Ok (a : A)
| Panic (what : string)
| Fault
| Block
| NoFuel.
Global Arguments Ok {A} a.
Global Arguments Panic {A} what.
Global Arguments Fault {A}.
Global Arguments Block {A}.
Global Arguments NoFuel {A}.

Global Instance res_ret : MRet res := λ A a, Ok a.
Global Instance res_bind : MBind res := λ A B f m,
  match m with
  | Ok a => f a
  | Panic w => Panic w
  | Fault => Fault
  | Block => Block
  | NoFuel => NoFuel
  end.

(** [ASSERT(c)] of kernel/debug.h. *)
Definition ASSERT (c : bool) (what : string) : res unit :=
  if c then Ok tt else Panic what.

Definition of_option {A} (o : option A) : res A :=
  match o with Some a => Ok a | None => Fault end.

(** Reduce the monad and nothing else. *)
Ltac rcbn := cbn [mbind res_bind mret res_ret ASSERT of_option].

Lemma res_bind_ok {A B} (m : res A) (f : A -> res B) b :
  m ≫= f = Ok b <-> exists a, m = Ok a /\ f a = Ok b.
Proof.
  split; [|by intros (a & -> & ?)].
  destruct m; cbn; try discriminate; eauto.
Qed.

(** ** State and outcome *)

Definition M (S A : Type) : Type := S -> res (A * S).

Global Instance M_ret {S} : MRet (M S) := λ A a s, Ok (a, s).
Global Instance M_bind {S} : MBind (M S) := λ A B f m s,
  match m s with
  | Ok (a, s') => f a s'
  | Panic w => Panic w
  | Fault => Fault
  | Block => Block
  | NoFuel => NoFuel
  end.

Definition get {S} : M S S := λ s, Ok (s, s).
Definition gets {S A} (f : S -> A) : M S A := λ s, Ok (f s, s).
Definition modify {S} (f : S -> S) : M S unit := λ s, Ok (tt, f s).
Definition lift {S A} (r : res A) : M S A := λ s,
  match r with
  | Ok a => Ok (a, s)
  | Panic w => Panic w
  | Fault => Fault
  | Block => Block
  | NoFuel => NoFuel
  end.
Definition assertM {S} (c : bool) (what : string) : M S unit := lift (ASSERT c what).
Definition panicM {S A} (what : string) : M S A := λ _, Panic what.
Definition faultM {S A} : M S A := λ _, Fault.

(** Run a component's code inside a larger state. *)
Definition zoom {S T A} (g : S -> T) (p : T -> S -> S) (m : M T A) : M S A := λ s,
  match m (g s) with
  | Ok (a, t) => Ok (a, p t s)
  | Panic w => Panic w
  | Fault => Fault
  | Block => Block
  | NoFuel => NoFuel
  end.

(** The C loop: the body either goes round again with new locals or leaves
    with a value. *)
Fixpoint loop {S L R} (fuel : nat) (body : L -> M S (L + R)) (l : L) : M S R :=
  match fuel with
  | O => λ _, NoFuel
  | Datatypes.S fuel =>
      x ← body l;
      match x with
      | inl l' => loop fuel body l'
      | inr r => mret r
      end
  end.

Lemma bind_ok {S A B} (m : M S A) (f : A -> M S B) s a s' :
  m s = Ok (a, s') -> (m ≫= f) s = f a s'.
Proof. unfold mbind, M_bind. by intros ->. Qed.
Lemma bind_fault {S A B} (m : M S A) (f : A -> M S B) s :
  m s = Fault -> (m ≫= f) s = Fault.
Proof. unfold mbind, M_bind. by intros ->. Qed.
Lemma bind_panic {S A B} (m : M S A) (f : A -> M S B) s w :
  m s = Panic w -> (m ≫= f) s = Panic w.
Proof. unfold mbind, M_bind. by intros ->. Qed.
Lemma bind_nofuel {S A B} (m : M S A) (f : A -> M S B) s :
  m s = NoFuel -> (m ≫= f) s = NoFuel.
Proof. unfold mbind, M_bind. by intros ->. Qed.

(** ** Total correctness *)

Definition wp {S A} (m : M S A) (Q : A -> S -> Prop) (s : S) : Prop :=
  match m s with
  | Ok (a, s') => Q a s'
  | _ => False
  end.

Section wp.
Context {S : Type}.
Implicit Types s : S.

Lemma wp_run {A} (m : M S A) Q s :
  wp m Q s <-> exists a s', m s = Ok (a, s') /\ Q a s'.
Proof.
  unfold wp. split.
  - destruct (m s) as [[a s']| | | |]; naive_solver.
  - by intros (a & s' & -> & ?).
Qed.

Lemma wp_bind {A B} (m : M S A) (f : A -> M S B) Q s :
  wp m (λ a s', wp (f a) Q s') s -> wp (m ≫= f) Q s.
Proof. unfold wp, mbind, M_bind. by destruct (m s) as [[a s']| | | |]. Qed.

Lemma wp_bind_inv {A B} (m : M S A) (f : A -> M S B) Q s :
  wp (m ≫= f) Q s -> wp m (λ a s', wp (f a) Q s') s.
Proof. unfold wp, mbind, M_bind. by destruct (m s) as [[a s']| | | |]. Qed.

Lemma wp_ret {A} (a : A) (Q : A -> S -> Prop) s : Q a s -> wp (mret a) Q s.
Proof. done. Qed.
Lemma wp_gets {A} (f : S -> A) (Q : A -> S -> Prop) s : Q (f s) s -> wp (gets f) Q s.
Proof. done. Qed.
Lemma wp_get (Q : S -> S -> Prop) s : Q s s -> wp get Q s.
Proof. done. Qed.
Lemma wp_modify (f : S -> S) (Q : unit -> S -> Prop) s : Q tt (f s) -> wp (modify f) Q s.
Proof. done. Qed.
Lemma wp_lift {A} (r : res A) (a : A) (Q : A -> S -> Prop) s :
  r = Ok a -> Q a s -> wp (lift r) Q s.
Proof. by intros ->. Qed.
Lemma wp_assert (c : bool) what (Q : unit -> S -> Prop) s :
  c = true -> Q tt s -> wp (assertM c what) Q s.
Proof. by intros ->. Qed.

Lemma wp_mono {A} (m : M S A) (P Q : A -> S -> Prop) s :
  wp m P s -> (forall a s', P a s' -> Q a s') -> wp m Q s.
Proof. unfold wp. destruct (m s) as [[a s']| | | |]; naive_solver. Qed.

Lemma wp_zoom {T A} (g : S -> T) p (m : M T A) Q s :
  wp m (λ a t, Q a (p t s)) (g s) -> wp (zoom g p m) Q s.
Proof. unfold wp, zoom. by destruct (m (g s)) as [[a t]| | | |]. Qed.

Lemma wp_loop {L R} (I : nat -> L -> S -> Prop) (body : L -> M S (L + R)) Q :
  (forall n l s, I n l s ->
     wp (body l) (λ x s', match x with
                          | inl l' => exists n', (n' < n)%nat /\ I n' l' s'
                          | inr r => Q r s'
                          end) s) ->
  forall fuel n l s, I n l s -> (n < fuel)%nat -> wp (loop fuel body l) Q s.
Proof.
  intros Hb fuel. induction fuel as [|fuel IH]; intros n l s HI Hlt; [lia|].
  simpl. apply wp_bind. eapply wp_mono; [by apply Hb|].
  intros [l'|r] s'; simpl; [|done].
  intros (n' & Hn & HI'). eapply IH; [done|lia].
Qed.
End wp.

(** Linear arithmetic with division and remainder by constants. *)
Ltac dlia := Z.div_mod_to_equations; lia.

(** Case analysis on the boolean tests a model shares with its source. *)
Ltac zbool :=
  repeat match goal with
  | |- context [Z.eqb ?a ?b] => destruct (Z.eqb_spec a b)
  | |- context [Z.ltb ?a ?b] => destruct (Z.ltb_spec a b)
  | |- context [Z.leb ?a ?b] => destruct (Z.leb_spec a b)
  end.

(** ** Lists indexed by machine integers *)

Definition znth {A} (l : list A) (i : Z) : option A :=
  if i <? 0 then None else l !! Z.to_nat i.
Definition zupd {A} (l : list A) (i : Z) (x : A) : list A :=
  if i <? 0 then l else <[Z.to_nat i := x]> l.
Definition zlen {A} (l : list A) : Z := Z.of_nat (length l).

Section zlist.
Context {A : Type}.
Implicit Types l : list A.

Lemma zlen_nonneg l : 0 <= zlen l.
Proof. unfold zlen; lia. Qed.
Lemma zlen_upd l i x : zlen (zupd l i x) = zlen l.
Proof. unfold zlen, zupd. destruct (i <? 0); [done|]. by rewrite length_insert. Qed.
Lemma zlen_app l k : zlen (l ++ k) = zlen l + zlen k.
Proof. unfold zlen. rewrite length_app. lia. Qed.

Lemma znth_lt l i x : znth l i = Some x -> 0 <= i < zlen l.
Proof.
  unfold znth, zlen. destruct (Z.ltb_spec i 0); [done|].
  intros ?%lookup_lt_Some. lia.
Qed.
Lemma znth_is_Some l i : 0 <= i < zlen l -> exists x, znth l i = Some x.
Proof.
  unfold znth, zlen. intros H. destruct (Z.ltb_spec i 0); [lia|].
  apply lookup_lt_is_Some_2. lia.
Qed.
Lemma znth_None l i : znth l i = None <-> i < 0 \/ zlen l <= i.
Proof.
  unfold znth, zlen. destruct (Z.ltb_spec i 0); [split; auto|].
  rewrite lookup_ge_None. lia.
Qed.
Lemma znth_upd_eq l i x : 0 <= i < zlen l -> znth (zupd l i x) i = Some x.
Proof.
  unfold znth, zupd, zlen. intros H. destruct (Z.ltb_spec i 0); [lia|].
  apply list_lookup_insert_eq. lia.
Qed.
Lemma znth_upd_ne l i j x : i <> j -> znth (zupd l i x) j = znth l j.
Proof.
  unfold znth, zupd. intros H.
  destruct (Z.ltb_spec i 0), (Z.ltb_spec j 0); try done.
  apply list_lookup_insert_ne. lia.
Qed.
Lemma znth_app_l l k i : i < zlen l -> znth (l ++ k) i = znth l i.
Proof.
  unfold znth, zlen. intros H. destruct (Z.ltb_spec i 0); [done|].
  apply lookup_app_l. lia.
Qed.
Lemma znth_app_r l k i : zlen l <= i -> znth (l ++ k) i = znth k (i - zlen l).
Proof.
  unfold znth, zlen. intros H.
  destruct (Z.ltb_spec i 0), (Z.ltb_spec (i - Z.of_nat (length l)) 0); try lia.
  rewrite lookup_app_r by lia. f_equal. lia.
Qed.
Lemma zlist_eq l k :
  zlen l = zlen k -> (forall i, 0 <= i < zlen l -> znth l i = znth k i) -> l = k.
Proof.
  intros Hl H. apply list_eq. intros i. unfold zlen in *.
  destruct (decide (i < length l)%nat) as [Hi|Hi].
  - specialize (H (Z.of_nat i)). unfold znth in H.
    destruct (Z.ltb_spec (Z.of_nat i) 0); [lia|].
    rewrite Nat2Z.id in H. apply H. lia.
  - rewrite !lookup_ge_None_2 by lia. done.
Qed.
End zlist.

Lemma filter_ne_id (l : list Z) k : k ∉ l -> filter (λ x, x <> k) l = l.
Proof.
  induction l as [|x l IH]; intros Hk; [done|]. apply not_elem_of_cons in Hk as [Hx Hk].
  rewrite filter_cons_True by congruence. by rewrite IH.
Qed.

Section filters.
Context {A : Type} (P : A -> Prop) `{!forall x, Decision (P x)}.

Lemma filter_none (l : list A) : (forall x, x ∈ l -> ~ P x) -> filter P l = [].
Proof.
  induction l as [|x l IH]; intros Hl; [done|]. rewrite filter_cons_False by (apply Hl; set_solver).
  apply IH. intros y Hy. apply Hl. set_solver.
Qed.
Lemma filter_all (l : list A) : (forall x, x ∈ l -> P x) -> filter P l = l.
Proof.
  induction l as [|x l IH]; intros Hl; [done|]. rewrite filter_cons_True by (apply Hl; set_solver).
  f_equal. apply IH. intros y Hy. apply Hl. set_solver.
Qed.
End filters.
