(* ===== verification/Bitmap.v ===== *)
(** lib/kernel/bitmap.c: the bitmap behind every allocator of the kernel
    (pages, pids, inodes, blocks).  [bits] is the memory from the pointer
    [btmp->bits] on: it may extend beyond the [btmp_bytes_len] bytes the
    bitmap owns, because [bitmap_scan] reads past them. *)

From S2P Require Import Prelude.

Open Scope Z_scope.

Record bitmap := Bitmap { btmp_bytes_len : Z; bits : list Z }.

Definition BITMAP_MASK : Z := 1.

Definition bits_get (b : bitmap) (i : Z) : res Z := of_option (znth (bits b) i).

Definition bits_put (b : bitmap) (i x : Z) : bitmap :=
  Bitmap (btmp_bytes_len b) (zupd (bits b) i x).

Definition bitmap_init (b : bitmap) : res bitmap :=
  if zlen (bits b) <? btmp_bytes_len b then Fault
  else Ok (Bitmap (btmp_bytes_len b)
             (replicate (Z.to_nat (btmp_bytes_len b)) 0
              ++ drop (Z.to_nat (btmp_bytes_len b)) (bits b))).

Definition bitmap_scan_test (b : bitmap) (bit_idx : Z) : res Z :=
  let byte_idx := bit_idx / 8 in
  let bit_odd := bit_idx mod 8 in
  x ← bits_get b byte_idx;
  Ok (Z.land x (Z.shiftl BITMAP_MASK bit_odd)).

(** First loop of [bitmap_scan]: skip the bytes without a free bit.  The byte
    is read before the index is compared with the length. *)
Fixpoint skip_full (fuel : nat) (b : bitmap) (idx_byte : Z) : res Z :=
  match fuel with
  | O => NoFuel
  | S fuel =>
      x ← bits_get b idx_byte;
      if (255 =? x) && (idx_byte <? btmp_bytes_len b)
      then skip_full fuel b (u32 (idx_byte + 1))
      else Ok idx_byte
  end.

(** Second loop: the free bit inside the byte. *)
Fixpoint first_zero (fuel : nat) (x idx_bit : Z) : res Z :=
  match fuel with
  | O => NoFuel
  | S fuel =>
      if Z.land (u8 (Z.shiftl BITMAP_MASK idx_bit)) x =? 0
      then Ok idx_bit
      else first_zero fuel x (idx_bit + 1)
  end.

(** Third loop: extend the run of free bits; [bit_left] is the loop counter. *)
Fixpoint scan_run (bit_left : nat) (b : bitmap) (cnt next_bit count : Z) : res Z :=
  match bit_left with
  | O => Ok (-1)
  | S bit_left =>
      t ← bitmap_scan_test b next_bit;
      let count := if t =? 0 then u32 (count + 1) else 0 in
      if count =? cnt then Ok (s32 (u32 (next_bit - cnt + 1)))
      else scan_run bit_left b cnt (u32 (next_bit + 1)) count
  end.

Definition bitmap_scan (b : bitmap) (cnt : Z) : res Z :=
  let len := btmp_bytes_len b in
  idx_byte ← skip_full (S (S (Z.to_nat len))) b 0;
  _ ← ASSERT (idx_byte <? len) "idx_byte < btmp->btmp_bytes_len";
  if idx_byte =? len then Ok (-1)
  else
    x ← bits_get b idx_byte;
    idx_bit ← first_zero 9 x 0;
    let bit_idx_start := s32 (u32 (idx_byte * 8 + idx_bit)) in
    if cnt =? 1 then Ok bit_idx_start
    else
      let bit_left := u32 (len * 8 - bit_idx_start) in
      let next_bit := u32 (bit_idx_start + 1) in
      scan_run (Z.to_nat bit_left) b cnt next_bit 1.

Definition bitmap_set (b : bitmap) (bit_idx value : Z) : res bitmap :=
  _ ← ASSERT ((value =? 0) || (value =? 1)) "(value == 0) || (value == 1)";
  let byte_idx := bit_idx / 8 in
  let bit_odd := bit_idx mod 8 in
  x ← bits_get b byte_idx;
  if negb (value =? 0)
  then Ok (bits_put b byte_idx (u8 (Z.lor x (Z.shiftl BITMAP_MASK bit_odd))))
  else Ok (bits_put b byte_idx (u8 (Z.land x (Z.lnot (Z.shiftl BITMAP_MASK bit_odd))))).

(** ** Abstract view: bit [i] of the memory behind the bitmap. *)

Definition bit (b : bitmap) (i : Z) : bool :=
  match znth (bits b) (i / 8) with
  | Some x => Z.testbit x (i mod 8)
  | None => false
  end.

Definition is_byte (x : Z) : Prop := 0 <= x < 256.

Record bitmap_wf (b : bitmap) : Prop := {
  wf_len : 0 <= btmp_bytes_len b;
  wf_small : btmp_bytes_len b * 8 < 2147483640;
  wf_backed : btmp_bytes_len b <= zlen (bits b);
  wf_bytes : Forall is_byte (bits b)
}.

(** Bits [s .. s+cnt-1] are free. *)
Definition run_free (b : bitmap) (s cnt : Z) : Prop :=
  forall j, s <= j < s + cnt -> bit b j = false.

(** ** Bytes and bits *)

Lemma testbit_mask x k : 0 <= k -> (Z.land x (Z.shiftl 1 k) =? 0) = negb (Z.testbit x k).
Proof.
  intros Hk. destruct (Z.testbit x k) eqn:E; simpl.
  - apply Z.eqb_neq. intros H. apply (f_equal (λ z, Z.testbit z k)) in H.
    rewrite Z.land_spec, E, Z.shiftl_spec, Z.sub_diag, Z.bits_0 in H by lia.
    done.
  - apply Z.eqb_eq. apply Z.bits_inj'. intros n Hn.
    rewrite Z.land_spec, Z.shiftl_spec, Z.bits_0 by lia.
    destruct (decide (n = k)) as [->|Hne]; [by rewrite E|].
    destruct (Z.ltb_spec n k).
    + rewrite (Z.testbit_neg_r 1 (n - k)) by lia. apply andb_false_r.
    + replace 1 with (2 ^ 0) by done. rewrite Z.pow2_bits_false by lia.
      apply andb_false_r.
Qed.

Lemma byte_high_bits x n : is_byte x -> 8 <= n -> Z.testbit x n = false.
Proof.
  intros [Hx1 Hx2] Hn. destruct (decide (x = 0)) as [->|]; [apply Z.bits_0|].
  apply Z.bits_above_log2; [lia|].
  assert (Z.log2 x < 8) by (apply Z.log2_lt_pow2; [lia|]; exact Hx2). lia.
Qed.

Lemma byte_full x : is_byte x -> (forall k, 0 <= k < 8 -> Z.testbit x k = true) -> x = 255.
Proof.
  intros Hx Hall. apply Z.bits_inj'. intros n Hn.
  destruct (Z.ltb_spec n 8) as [|Hge].
  - rewrite Hall by lia. symmetry.
    replace 255 with (Z.ones 8) by done. apply Z.ones_spec_low. lia.
  - rewrite byte_high_bits by (done || lia). symmetry.
    apply byte_high_bits; [unfold is_byte; lia|done].
Qed.

Lemma byte_from_bits x : (forall n, 8 <= n -> Z.testbit x n = false) -> 0 <= x -> is_byte x.
Proof.
  intros Hb Hx. split; [done|].
  destruct (Z.ltb_spec x 256) as [|Hge]; [done|].
  assert (8 <= Z.log2 x) by (apply Z.log2_le_pow2; lia).
  specialize (Hb (Z.log2 x) ltac:(done)). rewrite Z.bit_log2 in Hb by lia. done.
Qed.

Lemma u8_testbit x k : 0 <= k < 8 -> Z.testbit (u8 x) k = Z.testbit x k.
Proof.
  intros Hk. unfold u8. change 256 with (2 ^ 8).
  apply Z.mod_pow2_bits_low. lia.
Qed.

Section bytes.
Context (b : bitmap).

Lemma bits_get_wf i : bitmap_wf b -> 0 <= i < zlen (bits b) ->
  exists x, bits_get b i = Ok x /\ is_byte x /\ znth (bits b) i = Some x.
Proof.
  intros Hwf Hi. destruct (znth_is_Some (bits b) i Hi) as [x Hx].
  exists x. unfold bits_get. rewrite Hx. split_and!; [done| |done].
  eapply Forall_lookup_1; [by apply wf_bytes|].
  unfold znth in Hx. destruct (i <? 0); [done|exact Hx].
Qed.

(** The test the code uses reads the abstract bit. *)
Lemma bitmap_scan_test_bit i : bitmap_wf b -> 0 <= i < 8 * zlen (bits b) ->
  exists t, bitmap_scan_test b i = Ok t /\ (t =? 0) = negb (bit b i).
Proof.
  intros Hwf Hi. destruct (bits_get_wf (i / 8) Hwf) as (x & Hx & _ & Hn).
  { split; [apply Z.div_pos; lia|]. apply Z.div_lt_upper_bound; lia. }
  unfold bitmap_scan_test, bit. rewrite Hx, Hn. eexists; split; [done|].
  apply testbit_mask. apply Z.mod_pos_bound. lia.
Qed.
End bytes.

(** A byte holds eight bits: bit [8*k+r] is bit [r] of byte [k]. *)
Lemma bit_byte b k r x : 0 <= r < 8 -> znth (bits b) k = Some x ->
  bit b (8 * k + r) = Z.testbit x r.
Proof.
  intros Hr Hx. unfold bit.
  replace ((8 * k + r) / 8) with k by (rewrite Z.mul_comm, Z.div_add_l, Z.div_small; lia).
  rewrite Hx. f_equal. rewrite Z.add_comm, Z.mul_comm, Z.mod_add, Z.mod_small; lia.
Qed.

(** ** [bitmap_set] *)

Lemma bitmap_set_ok b i v : bitmap_wf b -> 0 <= i < 8 * btmp_bytes_len b -> (v = 0 \/ v = 1) ->
  exists b', bitmap_set b i v = Ok b' /\ bitmap_wf b' /\
    btmp_bytes_len b' = btmp_bytes_len b /\ zlen (bits b') = zlen (bits b) /\
    forall j, 0 <= j -> bit b' j = if decide (j = i) then (v =? 1) else bit b j.
Proof.
  intros Hwf Hi Hv.
  assert (Hdiv : 0 <= i / 8 < btmp_bytes_len b).
  { split; [apply Z.div_pos; lia|]. apply Z.div_lt_upper_bound; lia. }
  pose proof (wf_backed b Hwf) as Hbk.
  destruct (bits_get_wf b (i / 8) Hwf) as (x & Hx & Hbx & Hn); [lia|].
  set (r := i mod 8). assert (Hr : 0 <= r < 8) by (apply Z.mod_pos_bound; lia).
  assert (exists y, bitmap_set b i v = Ok (bits_put b (i / 8) y) /\ is_byte y /\
    forall k, 0 <= k < 8 -> Z.testbit y k = if decide (k = r) then (v =? 1) else Z.testbit x k)
    as (y & Hset & Hby & Hy).
  { destruct Hv as [-> | ->]; unfold bitmap_set; rewrite Hx; simpl; eexists;
      (split; [reflexivity|]); (split; [apply u8_range|]); intros k Hk;
      rewrite u8_testbit by lia; fold r.
    - rewrite Z.land_spec, Z.lnot_spec, Z.shiftl_spec by lia. unfold BITMAP_MASK.
      case_decide as Hkr; [subst; rewrite Z.sub_diag; apply andb_false_r|].
      replace (Z.testbit 1 (k - r)) with false; [apply andb_true_r|].
      symmetry. destruct (Z.ltb_spec k r); [apply Z.testbit_neg_r; lia|].
      change 1 with (2 ^ 0). apply Z.pow2_bits_false. lia.
    - rewrite Z.lor_spec, Z.shiftl_spec by lia. unfold BITMAP_MASK.
      case_decide as Hkr; [subst; rewrite Z.sub_diag; apply orb_true_r|].
      replace (Z.testbit 1 (k - r)) with false; [apply orb_false_r|].
      symmetry. destruct (Z.ltb_spec k r); [apply Z.testbit_neg_r; lia|].
      change 1 with (2 ^ 0). apply Z.pow2_bits_false. lia. }
  exists (bits_put b (i / 8) y). split; [done|]. split_and!; try done.
  - destruct Hwf as [? ? ? Hall]. split; simpl; try done.
    + by rewrite zlen_upd.
    + unfold zupd. destruct (i / 8 <? 0); [done|]. by apply Forall_insert.
  - apply zlen_upd.
  - intros j Hj. unfold bit; simpl.
    destruct (decide (j / 8 = i / 8)) as [He|Hne].
    + rewrite He, znth_upd_eq, Hn by lia.
      rewrite Hy by (apply Z.mod_pos_bound; lia).
      pose proof (Z.div_mod j 8). pose proof (Z.div_mod i 8).
      destruct (decide (j mod 8 = r)), (decide (j = i)); subst; try done; unfold r in *; lia.
    + rewrite znth_upd_ne by congruence.
      destruct (decide (j = i)) as [->|]; [done|reflexivity].
Qed.

(** ** [bitmap_scan] *)

Lemma skip_full_spec b : bitmap_wf b ->
  forall fuel i, 0 <= i <= btmp_bytes_len b -> (Z.to_nat (btmp_bytes_len b - i) < fuel)%nat ->
  (btmp_bytes_len b < zlen (bits b) \/
   exists j, i <= j < btmp_bytes_len b /\ znth (bits b) j <> Some 255) ->
  exists k, skip_full fuel b i = Ok k /\ i <= k <= btmp_bytes_len b /\
    (forall j, i <= j < k -> znth (bits b) j = Some 255) /\
    (k < btmp_bytes_len b -> znth (bits b) k <> Some 255).
Proof.
  intros Hwf fuel. induction fuel as [|fuel IH]; intros i Hi Hf Hend; [lia|].
  pose proof (wf_small b Hwf). pose proof (wf_backed b Hwf).
  destruct (bits_get_wf b i Hwf) as (x & Hx & _ & Hn).
  { destruct Hend as [|(j & ? & ?)]; lia. }
  simpl. rewrite Hx. simpl.
  destruct (Z.eqb_spec 255 x) as [<-|Hne]; simpl.
  - destruct (Z.ltb_spec i (btmp_bytes_len b)) as [Hlt|Hge].
    + wsimpl. destruct (IH (i + 1)) as (k & Hk & Hrange & Hfull & Hfree); [lia|lia| |].
      { destruct Hend as [|(j & ? & Hj)]; [by left|right]. exists j.
        split; [|done]. destruct (decide (i = j)) as [->|]; [done|lia]. }
      exists k. split_and!; [done|lia|lia| |done].
      intros j Hj. destruct (decide (j = i)) as [->|]; [done|]. apply Hfull. lia.
    + exists i. split_and!; [done|lia|lia| |]; intros; lia.
  - exists i. split_and!; [done|lia|lia| |]; intros; [lia|congruence].
Qed.

Lemma first_zero_spec x : is_byte x -> x <> 255 ->
  exists r, first_zero 9 x 0 = Ok r /\ 0 <= r < 8 /\ Z.testbit x r = false /\
    forall k, 0 <= k < r -> Z.testbit x k = true.
Proof.
  intros Hx Hne.
  assert (Hgen : forall fuel i, 0 <= i <= 8 -> (Z.to_nat (8 - i) < fuel)%nat ->
    (forall k, 0 <= k < i -> Z.testbit x k = true) ->
    exists r, first_zero fuel x i = Ok r /\ i <= r < 8 /\ Z.testbit x r = false /\
      forall k, 0 <= k < r -> Z.testbit x k = true).
  { induction fuel as [|fuel IH]; intros i Hi Hf Hbelow; [lia|].
    destruct (decide (i = 8)) as [->|]; [by destruct Hne; apply byte_full|].
    assert (Hm : u8 (Z.shiftl BITMAP_MASK i) = Z.shiftl 1 i).
    { apply u8_small. unfold BITMAP_MASK. rewrite Z.shiftl_mul_pow2 by lia.
      assert (2 ^ i <= 2 ^ 7) by (apply Z.pow_le_mono_r; lia).
      pose proof (Z.pow_pos_nonneg 2 i). lia. }
    cbn [first_zero]. rewrite Hm, Z.land_comm, testbit_mask by lia.
    destruct (Z.testbit x i) eqn:E; simpl.
    - destruct (IH (i + 1)) as (r & Hr & ? & ? & ?); [lia|lia| |].
      + intros k Hk. destruct (decide (k = i)) as [->|]; [done|]. apply Hbelow. lia.
      + exists r. split_and!; try done; lia.
    - exists i. split_and!; try done; lia. }
  destruct (Hgen 9%nat 0) as (r & ? & ? & ? & ?); [lia|lia|lia|]. eauto with lia.
Qed.

(** Where the scan starts: the first free bit of the bitmap. *)
Lemma first_free_bit b k x r : bitmap_wf b -> 0 <= k ->
  (forall j, 0 <= j < k -> znth (bits b) j = Some 255) ->
  znth (bits b) k = Some x -> 0 <= r < 8 -> Z.testbit x r = false ->
  (forall q, 0 <= q < r -> Z.testbit x q = true) ->
  bit b (8 * k + r) = false /\ forall j, 0 <= j < 8 * k + r -> bit b j = true.
Proof.
  intros Hwf Hk Hfull Hx Hr Hz Hbelow. split; [by rewrite (bit_byte b k r x)|].
  intros j Hj. pose proof (Z.div_mod j 8 ltac:(lia)) as Hd.
  pose proof (Z.mod_pos_bound j 8 ltac:(lia)) as Hm.
  assert (0 <= j / 8 <= k) by (split; [apply Z.div_pos; lia|]; lia).
  rewrite Hd. destruct (decide (j / 8 = k)) as [He|Hne].
  - rewrite (bit_byte b (j / 8) (j mod 8) x); [apply Hbelow; lia|lia|by rewrite He].
  - rewrite (bit_byte b (j / 8) (j mod 8) 255); [|lia|apply Hfull; lia].
    replace 255 with (Z.ones 8) by done. apply Z.ones_spec_low. lia.
Qed.

Lemma bitmap_scan_start b cnt i : bitmap_wf b ->
  0 <= i < 8 * btmp_bytes_len b -> bit b i = false ->
  exists s, 0 <= s <= i /\ bit b s = false /\ (forall j, 0 <= j < s -> bit b j = true) /\
    bitmap_scan b cnt =
      if cnt =? 1 then Ok s
      else scan_run (Z.to_nat (8 * btmp_bytes_len b - s)) b cnt (s + 1) 1.
Proof.
  intros Hwf Hi Hfree. pose proof (wf_len b Hwf). pose proof (wf_small b Hwf).
  pose proof (wf_backed b Hwf).
  assert (Hi8 : 0 <= i / 8 < btmp_bytes_len b).
  { split; [apply Z.div_pos; lia|]. apply Z.div_lt_upper_bound; lia. }
  assert (Hnf : znth (bits b) (i / 8) <> Some 255).
  { intros Hb. pose proof (Z.mod_pos_bound i 8 ltac:(lia)) as Hm.
    pose proof (bit_byte b (i / 8) (i mod 8) 255 Hm Hb) as Hb'.
    rewrite <- Z.div_mod, Hfree in Hb' by lia.
    replace 255 with (Z.ones 8) in Hb' by done.
    by rewrite Z.ones_spec_low in Hb' by lia. }
  destruct (skip_full_spec b Hwf (S (S (Z.to_nat (btmp_bytes_len b)))) 0)
    as (k & Hk & Hkr & Hfull & Hkf); [lia|lia|eauto|].
  assert (Hklt : k < btmp_bytes_len b).
  { destruct (Z.ltb_spec k (btmp_bytes_len b)); [done|].
    destruct Hnf. apply Hfull. lia. }
  destruct (bits_get_wf b k Hwf) as (x & Hx & Hbx & Hn); [lia|].
  destruct (first_zero_spec x Hbx) as (r & Hr & Hr8 & Hz & Hbel).
  { intros ->. by apply Hkf. }
  destruct (first_free_bit b k x r) as [Hs1 Hs2]; try done; [lia|].
  exists (8 * k + r). split; [split; [lia|]|split; [done|split; [done|]]].
  { destruct (Z.leb_spec (8 * k + r) i); [done|]. rewrite Hs2 in Hfree by lia. done. }
  unfold bitmap_scan. rewrite Hk. rcbn.
  destruct (Z.ltb_spec k (btmp_bytes_len b)); [|lia]. rcbn.
  destruct (Z.eqb_spec k (btmp_bytes_len b)); [lia|].
  rewrite Hx. rcbn. rewrite Hr. rcbn. wsimpl.
  replace (k * 8 + r) with (8 * k + r) by lia.
  replace (btmp_bytes_len b * 8 - (8 * k + r)) with (8 * btmp_bytes_len b - (8 * k + r)) by lia.
  done.
Qed.

(** Invariant of the third loop: the [count] bits before [next_bit] are free
    and no shorter prefix holds a run of [cnt] free bits. *)
Lemma scan_run_spec b cnt : bitmap_wf b -> btmp_bytes_len b < zlen (bits b) ->
  1 < cnt < 4294967296 ->
  forall n next count,
  Z.of_nat n = 8 * btmp_bytes_len b + 1 - next -> 1 <= next -> 0 <= count < cnt -> count <= next ->
  run_free b (next - count) count ->
  (forall s, 0 <= s -> s + cnt <= next -> ~ run_free b s cnt) ->
  (next - count = 0 \/ bit b (next - count - 1) = true) ->
  exists r, scan_run n b cnt next count = Ok r /\
    (r = -1 /\ (forall s, 0 <= s -> s + cnt <= 8 * btmp_bytes_len b + 1 -> ~ run_free b s cnt) \/
     0 <= r /\ r + cnt <= 8 * btmp_bytes_len b + 1 /\ run_free b r cnt /\
       forall s, 0 <= s < r -> ~ run_free b s cnt).
Proof.
  intros Hwf Hlen Hcnt n. pose proof (wf_small b Hwf). pose proof (wf_len b Hwf).
  induction n as [|n IH]; intros next count Hn Hnext Hc Hcn Hrun Hmin Hstop.
  { exists (-1). split; [done|]. left. split; [done|]. intros s Hs1 Hs2. apply Hmin; lia. }
  destruct (bitmap_scan_test_bit b next Hwf) as (t & Ht & Htb); [lia|].
  simpl. rewrite Ht. simpl. rewrite Htb.
  destruct (bit b next) eqn:Eb; simpl.
  - destruct (Z.eqb_spec 0 cnt); [lia|]. wsimpl.
    destruct (IH (next + 1) 0) as (r & Hr & Hres); try lia.
    + intros j Hj. lia.
    + intros s Hs1 Hs2. destruct (decide (s + cnt <= next)); [by apply Hmin|].
      intros Hf. specialize (Hf next). rewrite Eb in Hf. discriminate Hf. lia.
    + right. by replace (next + 1 - 0 - 1) with next by lia.
    + exists r. done.
  - wsimpl. assert (Hrun' : run_free b (next - count) (count + 1)).
    { intros j Hj. destruct (decide (j = next)) as [->|]; [done|]. apply Hrun. lia. }
    assert (Hold : forall s, 0 <= s < next - count -> s + cnt <= next + 1 -> ~ run_free b s cnt).
    { intros s Hs1 Hs2 Hf. destruct (decide (s + cnt <= next)); [by apply (Hmin s); [lia|..]|].
      destruct Hstop as [|Hb]; [lia|].
      rewrite (Hf (next - count - 1)) in Hb; [done|]. lia. }
    destruct (Z.eqb_spec (count + 1) cnt) as [He|Hne].
    + wsimpl. exists (next - cnt + 1). split; [done|]. right.
      split_and!; [lia|lia| |].
      * intros j Hj. apply Hrun'. lia.
      * intros s Hs. apply Hold; lia.
    + wsimpl. destruct (IH (next + 1) (count + 1)) as (r & Hr & Hres); try lia.
      * replace (next + 1 - (count + 1)) with (next - count) by lia. done.
      * intros s Hs1 Hs2. destruct (decide (s < next - count)); [by apply Hold; lia|lia].
      * replace (next + 1 - (count + 1)) with (next - count) by lia. done.
      * exists r. done.
Qed.

(** ** What the allocators rely on *)

Lemma bitmap_scan_one_ok b i : bitmap_wf b ->
  0 <= i < 8 * btmp_bytes_len b -> bit b i = false ->
  exists s, bitmap_scan b 1 = Ok s /\ 0 <= s <= i /\ bit b s = false /\
    forall j, 0 <= j < s -> bit b j = true.
Proof.
  intros Hwf Hi Hf. destruct (bitmap_scan_start b 1 i Hwf Hi Hf) as (s & ? & ? & ? & Hs).
  exists s. done.
Qed.

(** A full bitmap: the scan runs off the end of the bitmap. *)
Lemma bitmap_scan_full b cnt : bitmap_wf b -> btmp_bytes_len b < zlen (bits b) ->
  (forall i, 0 <= i < 8 * btmp_bytes_len b -> bit b i = true) ->
  bitmap_scan b cnt = Panic "idx_byte < btmp->btmp_bytes_len".
Proof.
  intros Hwf Hlen Hfull. pose proof (wf_len b Hwf).
  destruct (skip_full_spec b Hwf (S (S (Z.to_nat (btmp_bytes_len b)))) 0)
    as (k & Hk & Hkr & _ & Hkf); [lia|lia|by left|].
  unfold bitmap_scan. rewrite Hk. rcbn.
  destruct (Z.ltb_spec k (btmp_bytes_len b)) as [Hlt|]; [|done].
  destruct (bits_get_wf b k Hwf) as (x & Hx & Hbx & Hn); [lia|].
  destruct Hkf; [done|]. rewrite Hn. f_equal. apply byte_full; [done|].
  intros r Hr. rewrite <- (bit_byte b k r x) by done. apply Hfull. lia.
Qed.

Lemma bitmap_wf_ext b b' : bitmap_wf b -> bitmap_wf b' ->
  btmp_bytes_len b = btmp_bytes_len b' -> zlen (bits b) = zlen (bits b') ->
  (forall j, 0 <= j -> bit b j = bit b' j) -> b = b'.
Proof.
  intros Hwf Hwf' Hl Hz Hb. destruct b as [n l], b' as [n' l']. simpl in *. subst. f_equal.
  apply zlist_eq; [done|]. intros i Hi.
  destruct (bits_get_wf _ i Hwf Hi) as (x & _ & Hbx & Hx).
  destruct (bits_get_wf _ i Hwf') as (y & _ & Hby & Hy); [simpl; lia|]. simpl in *.
  rewrite Hx, Hy. f_equal. apply Z.bits_inj'. intros r Hr.
  destruct (Z.ltb_spec r 8) as [Hr8|].
  - specialize (Hb (8 * i + r) ltac:(lia)).
    rewrite (bit_byte _ i r x), (bit_byte _ i r y) in Hb by (done || lia). done.
  - rewrite !byte_high_bits by done. done.
Qed.

(** The general answer for a run of more than one bit. *)
Lemma bitmap_scan_run_ok b cnt i : bitmap_wf b ->
  btmp_bytes_len b < zlen (bits b) -> 1 < cnt < 4294967296 ->
  0 <= i < 8 * btmp_bytes_len b -> bit b i = false ->
  exists r, bitmap_scan b cnt = Ok r /\
    (r = -1 /\ (forall s, 0 <= s -> s + cnt <= 8 * btmp_bytes_len b + 1 -> ~ run_free b s cnt) \/
     0 <= r /\ r + cnt <= 8 * btmp_bytes_len b + 1 /\ run_free b r cnt /\
       forall s, 0 <= s < r -> ~ run_free b s cnt).
Proof.
  intros Hwf Hlen Hcnt Hi Hf.
  destruct (bitmap_scan_start b cnt i Hwf Hi Hf) as (s & Hsi & Hs & Hlow & ->).
  destruct (Z.eqb_spec cnt 1); [lia|].
  apply scan_run_spec; try done; try lia.
  - intros j Hj. replace j with s by lia. done.
  - intros s' Hs1 Hs2 Hr. destruct (decide (s' = s)); [lia|].
    specialize (Hr s'). rewrite Hlow in Hr by lia. by discriminate Hr; lia.
  - destruct (decide (s = 0)); [left; lia|right]. rewrite <- (Hlow (s - 1)) by lia.
    f_equal. lia.
Qed.

(** A run that fits inside the bitmap is found, or a lower one. *)
Lemma bitmap_scan_fits b cnt s : bitmap_wf b -> btmp_bytes_len b < zlen (bits b) ->
  1 <= cnt < 4294967296 -> 0 <= s -> s + cnt <= 8 * btmp_bytes_len b -> run_free b s cnt ->
  exists r, bitmap_scan b cnt = Ok r /\ 0 <= r <= s /\ run_free b r cnt /\
    forall j, 0 <= j < r -> ~ run_free b j cnt.
Proof.
  intros Hwf Hlen Hcnt Hs Hend Hrun.
  assert (Hfs : bit b s = false) by (apply Hrun; lia).
  destruct (decide (cnt = 1)) as [->|].
  - destruct (bitmap_scan_one_ok b s Hwf) as (r & Hr & Hrs & Hrf & Hlow); [lia|done|].
    exists r. split_and!; [done|lia|lia| |].
    + intros j Hj. by replace j with r by lia.
    + intros j Hj Hf. specialize (Hf j ltac:(lia)). rewrite Hlow in Hf by lia. done.
  - destruct (bitmap_scan_run_ok b cnt s) as (r & Hr & [[-> Hno]|(Hr0 & _ & Hf & Hlow)]); try done; try lia.
    + destruct (Hno s); [lia|lia|done].
    + exists r. split_and!; try done. destruct (Z.leb_spec r s); [done|]. destruct (Hlow s); [lia|done].
Qed.

(** ** Properties *)

(** Allocating one bit takes the lowest free one, marks exactly it, and
    freeing it again restores the bitmap to the byte. *)
Theorem bitmap_alloc_first_fit b i : bitmap_wf b ->
  0 <= i < 8 * btmp_bytes_len b -> bit b i = false ->
  exists s b', bitmap_scan b 1 = Ok s /\ 0 <= s <= i /\ (forall j, 0 <= j < s -> bit b j = true) /\
    bitmap_set b s 1 = Ok b' /\ bitmap_wf b' /\
    (forall j, 0 <= j -> bit b' j = if decide (j = s) then true else bit b j) /\
    bitmap_set b' s 0 = Ok b.
Proof.
  intros Hwf Hi Hf. destruct (bitmap_scan_one_ok b i Hwf Hi Hf) as (s & Hs & Hsi & Hsf & Hlow).
  destruct (bitmap_set_ok b s 1) as (b1 & Hb1 & Hwf1 & Hl1 & Hz1 & Hbit1); [done|lia|by right|].
  destruct (bitmap_set_ok b1 s 0) as (b2 & Hb2 & Hwf2 & Hl2 & Hz2 & Hbit2); [done|lia|by left|].
  exists s, b1. split_and!; try done; [lia..|]. rewrite Hb2. f_equal.
  apply bitmap_wf_ext; [done|done|congruence|congruence|].
  intros j Hj. rewrite Hbit2, Hbit1 by done. by case_decide; subst.
Qed.

(** Asking for [cnt > 1] contiguous bits: the answer is the lowest run of
    free bits, or -1 when there is none; the run may use one bit beyond the
    end of the bitmap, because the loop tests bit [8 * btmp_bytes_len]. *)
Theorem bitmap_scan_run_first_fit b cnt i : bitmap_wf b ->
  btmp_bytes_len b < zlen (bits b) -> 1 < cnt < 4294967296 ->
  0 <= i < 8 * btmp_bytes_len b -> bit b i = false ->
  exists r, bitmap_scan b cnt = Ok r /\
    (r = -1 /\ (forall s, 0 <= s -> s + cnt <= 8 * btmp_bytes_len b + 1 -> ~ run_free b s cnt) \/
     0 <= r /\ r + cnt <= 8 * btmp_bytes_len b + 1 /\ run_free b r cnt /\
       forall s, 0 <= s < r -> ~ run_free b s cnt).
Proof. apply bitmap_scan_run_ok. Qed.

(** A full bitmap never makes [bitmap_scan] return -1, whatever [cnt] is: the
    assertion before the test stops the kernel. *)
Theorem bitmap_scan_full_panics b cnt : bitmap_wf b -> btmp_bytes_len b < zlen (bits b) ->
  (forall i, 0 <= i < 8 * btmp_bytes_len b -> bit b i = true) ->
  bitmap_scan b cnt = Panic "idx_byte < btmp->btmp_bytes_len".
Proof. apply bitmap_scan_full. Qed.

(** A bitmap of 8 bits hands out 9. *)
Example bitmap_scan_overrun : bitmap_scan (Bitmap 1 [0; 0]) 9 = Ok 0.
Proof. reflexivity. Qed.

(** *** Concrete bitmaps *)

Lemma wf_one_byte x y : is_byte x -> is_byte y -> bitmap_wf (Bitmap 1 [x; y]).
Proof. intros Hx Hy. split; simpl; [lia|lia|unfold zlen; simpl; lia|by rewrite !Forall_cons, Forall_nil]. Qed.

Lemma bitmap_alloc_first_fit_witness :
  exists s b', bitmap_scan (Bitmap 1 [7; 0]) 1 = Ok s /\ 0 <= s <= 5 /\
    (forall j, 0 <= j < s -> bit (Bitmap 1 [7; 0]) j = true) /\
    bitmap_set (Bitmap 1 [7; 0]) s 1 = Ok b' /\ bitmap_wf b' /\
    (forall j, 0 <= j -> bit b' j = if decide (j = s) then true else bit (Bitmap 1 [7; 0]) j) /\
    bitmap_set b' s 0 = Ok (Bitmap 1 [7; 0]).
Proof.
  apply (bitmap_alloc_first_fit (Bitmap 1 [7; 0]) 5);
    [apply wf_one_byte; unfold is_byte; lia|simpl; lia|reflexivity].
Defined.

Lemma bitmap_scan_run_first_fit_witness :
  exists r, bitmap_scan (Bitmap 1 [5; 0]) 3 = Ok r /\
    (r = -1 /\ (forall s, 0 <= s -> s + 3 <= 8 * 1 + 1 -> ~ run_free (Bitmap 1 [5; 0]) s 3) \/
     0 <= r /\ r + 3 <= 8 * 1 + 1 /\ run_free (Bitmap 1 [5; 0]) r 3 /\
       forall s, 0 <= s < r -> ~ run_free (Bitmap 1 [5; 0]) s 3).
Proof.
  apply (bitmap_scan_run_first_fit (Bitmap 1 [5; 0]) 3 1);
    [apply wf_one_byte; unfold is_byte; lia|reflexivity|lia|simpl; lia|reflexivity].
Defined.

Lemma bitmap_scan_full_panics_witness :
  bitmap_scan (Bitmap 0 [0]) 1 = Panic "idx_byte < btmp->btmp_bytes_len".
Proof.
  apply (bitmap_scan_full_panics (Bitmap 0 [0]) 1).
  - split; simpl; [lia|lia|unfold zlen; simpl; lia|rewrite Forall_cons, Forall_nil; unfold is_byte; lia].
  - reflexivity.
  - simpl. intros i Hi. lia.
Defined.
