(* ===== verification/Bytes.v ===== *)
(** Byte buffers: little-endian words, the memcpy/memset of lib/string.c as
    functions on buffers, and arrays of 32-bit words stored in sectors. *)

From S2P Require Import Prelude Bitmap.

Open Scope Z_scope.

Abbreviation bytes := (list Z).

Definition le32 (x : Z) : bytes :=
  [u8 x; u8 (Z.shiftr x 8); u8 (Z.shiftr x 16); u8 (Z.shiftr x 24)].

Definition of_le32 (b : bytes) : Z :=
  match b with
  | [b0; b1; b2; b3] => b0 + 256 * b1 + 65536 * b2 + 16777216 * b3
  | _ => 0
  end.

(** [n] bytes of [b] from offset [off]; total, like a C read that stays in
    the buffer. *)
Definition slice (b : bytes) (off n : Z) : bytes :=
  take (Z.to_nat n) (drop (Z.to_nat off) b).

(** memcpy of all of [src] into [b] at [off]. *)
Definition splice (b : bytes) (off : Z) (src : bytes) : bytes :=
  take (Z.to_nat off) b ++ src ++ drop (Z.to_nat off + length src) b.

Definition zeros (n : Z) : bytes := replicate (Z.to_nat n) 0.

Definition word_at (b : bytes) (off : Z) : Z := of_le32 (slice b off 4).

(** A [uint32_t] array and its image in memory. *)
Definition of_words (ws : list Z) : bytes := concat (map le32 ws).
Fixpoint to_words (b : bytes) : list Z :=
  match b with
  | b0 :: b1 :: b2 :: b3 :: r => of_le32 [b0; b1; b2; b3] :: to_words r
  | _ => []
  end.

Definition is_u32 (x : Z) : Prop := 0 <= x < 4294967296.

Lemma le32_length x : length (le32 x) = 4%nat.
Proof. done. Qed.

Lemma le32_roundtrip x : is_u32 x -> of_le32 (le32 x) = x.
Proof.
  unfold is_u32, of_le32, le32, u8. intros H.
  rewrite !Z.shiftr_div_pow2 by lia. change (2 ^ 8) with 256.
  change (2 ^ 16) with 65536. change (2 ^ 24) with 16777216.
  pose proof (Z.div_mod x 256). pose proof (Z.div_mod (x / 256) 256).
  pose proof (Z.div_mod (x / 256 / 256) 256).
  replace (x / 65536) with (x / 256 / 256) by (rewrite Z.div_div; lia || done).
  replace (x / 16777216) with (x / 256 / 256 / 256) by (rewrite !Z.div_div; lia || done).
  assert (0 <= x / 256 / 256 / 256 < 256).
  { rewrite !Z.div_div by lia. split; [apply Z.div_pos; lia|apply Z.div_lt_upper_bound; lia]. }
  rewrite (Z.mod_small (x / 256 / 256 / 256)) by lia. lia.
Qed.

Lemma le32_bytes x : Forall is_byte (le32 x).
Proof. unfold le32. repeat constructor; apply u8_range. Qed.

Lemma of_le32_range b : Forall is_byte b -> is_u32 (of_le32 b).
Proof.
  unfold is_u32, of_le32. intros H.
  destruct b as [|b0 [|b1 [|b2 [|b3 [|? ?]]]]]; try lia.
  rewrite !Forall_cons in H. unfold is_byte in H. lia.
Qed.

Lemma to_words_of_words ws : Forall is_u32 ws -> to_words (of_words ws) = ws.
Proof.
  induction 1 as [|w ws Hw _ IH]; [done|].
  unfold of_words in *. simpl concat. unfold le32 at 1. cbn [app to_words].
  fold (le32 w). f_equal; [|done]. by apply le32_roundtrip.
Qed.

Lemma le32_u32 x : le32 x = le32 (u32 x).
Proof.
  unfold le32, u8, u32. rewrite !Z.shiftr_div_pow2 by lia. change (2 ^ 8) with 256.
  change (2 ^ 16) with 65536. change (2 ^ 24) with 16777216.
  pose proof (Z.div_mod x 4294967296 ltac:(lia)) as Hx. set (q := x / 4294967296) in *.
  set (r := x mod 4294967296) in *. rewrite Hx.
  replace (4294967296 * q + r) with (r + (16777216 * q) * 256) at 1 by lia.
  replace (4294967296 * q + r) with (r + (16777216 * q) * 256) at 1 by lia.
  replace (4294967296 * q + r) with (r + (65536 * q) * 65536) at 1 by lia.
  replace (4294967296 * q + r) with (r + (256 * q) * 16777216) at 1 by lia.
  rewrite !Z.div_add, Z.mod_add by lia.
  replace (16777216 * q) with (65536 * q * 256) by lia. rewrite Z.mod_add by lia.
  replace (65536 * q) with (256 * q * 256) by lia. rewrite Z.mod_add by lia.
  rewrite (Z.mul_comm 256 q), Z.mod_add by lia. done.
Qed.

Lemma to_words_u32 ws : to_words (of_words ws) = map u32 ws.
Proof.
  replace (of_words ws) with (of_words (map u32 ws)).
  - apply to_words_of_words. apply Forall_map, Forall_true. intros x. apply u32_range.
  - unfold of_words. rewrite map_map. f_equal. apply map_ext. intros x. by rewrite <- le32_u32.
Qed.

Lemma of_words_length ws : length (of_words ws) = (4 * length ws)%nat.
Proof. induction ws as [|w ws IH]; [done|]. unfold of_words in *. simpl. lia. Qed.

Lemma of_words_bytes ws : Forall is_byte (of_words ws).
Proof.
  induction ws as [|w ws IH]; [by constructor|]. unfold of_words in *. cbn [map concat].
  apply Forall_app. split; [apply le32_bytes|done].
Qed.

Lemma to_words_length n b : length b = (4 * n)%nat -> length (to_words b) = n.
Proof.
  revert b. induction n as [|n IH]; intros b Hb; [by destruct b|].
  destruct b as [|b0 [|b1 [|b2 [|b3 b]]]]; simpl in Hb; try lia.
  simpl. f_equal. apply IH. lia.
Qed.

Lemma to_words_range b : Forall is_byte b -> Forall is_u32 (to_words b).
Proof.
  revert b. fix IH 1. intros [|b0 [|b1 [|b2 [|b3 b]]]] H; try by constructor.
  cbn [to_words]. rewrite !Forall_cons in H. destruct H as (? & ? & ? & ? & H).
  constructor; [|by apply IH]. apply of_le32_range. by rewrite !Forall_cons, Forall_nil.
Qed.

Lemma u8_byte x : is_byte x -> u8 x = x.
Proof. apply u8_small. Qed.

Lemma byte_divmod a b : is_byte a -> (a + 256 * b) mod 256 = a /\ (a + 256 * b) / 256 = b.
Proof.
  unfold is_byte. intros H. split.
  - rewrite (Z.mul_comm 256), Z.mod_add by lia. by apply Z.mod_small.
  - rewrite (Z.mul_comm 256), Z.div_add by lia. rewrite Z.div_small by lia. lia.
Qed.

Lemma le32_of_le32 b0 b1 b2 b3 : Forall is_byte [b0; b1; b2; b3] ->
  le32 (of_le32 [b0; b1; b2; b3]) = [b0; b1; b2; b3].
Proof.
  rewrite !Forall_cons. intros (H0 & H1 & H2 & H3 & _).
  unfold le32, of_le32, u8. rewrite !Z.shiftr_div_pow2 by lia. change (2 ^ 8) with 256.
  change (2 ^ 16) with (256 * 256). change (2 ^ 24) with (256 * 256 * 256).
  rewrite <- !Z.div_div by lia.
  replace (b0 + 256 * b1 + 65536 * b2 + 16777216 * b3)
    with (b0 + 256 * (b1 + 256 * (b2 + 256 * b3))) by lia.
  destruct (byte_divmod b0 (b1 + 256 * (b2 + 256 * b3)) H0) as [-> ->].
  destruct (byte_divmod b1 (b2 + 256 * b3) H1) as [-> ->].
  destruct (byte_divmod b2 b3 H2) as [-> ->].
  rewrite (Z.mod_small b3) by exact H3. done.
Qed.

Lemma of_words_to_words n b : Forall is_byte b -> length b = (4 * n)%nat -> of_words (to_words b) = b.
Proof.
  revert b. induction n as [|n IH]; intros b Hb Hl; [by destruct b|].
  destruct b as [|b0 [|b1 [|b2 [|b3 b]]]]; simpl in Hl; try lia.
  cbn [to_words]. unfold of_words in *. cbn [map concat].
  rewrite le32_of_le32 by (rewrite !Forall_cons in *; naive_solver).
  rewrite IH; [done| |lia]. rewrite !Forall_cons in Hb. naive_solver.
Qed.

(** ** Slices *)

Lemma slice_length b off n : 0 <= off -> 0 <= n -> off + n <= zlen b -> zlen (slice b off n) = n.
Proof.
  unfold slice, zlen. intros. rewrite length_take, length_drop. lia.
Qed.

Lemma splice_length b off src : 0 <= off -> off + zlen src <= zlen b ->
  zlen (splice b off src) = zlen b.
Proof.
  unfold splice, zlen. intros. rewrite !length_app, length_take, length_drop. lia.
Qed.

Lemma zeros_length n : 0 <= n -> zlen (zeros n) = n.
Proof. unfold zeros, zlen. rewrite length_replicate. lia. Qed.

Lemma zeros_bytes n : Forall is_byte (zeros n).
Proof. apply Forall_replicate. unfold is_byte; lia. Qed.

Lemma splice_bytes b off src : Forall is_byte b -> Forall is_byte src ->
  Forall is_byte (splice b off src).
Proof.
  intros Hb Hs. unfold splice. rewrite !Forall_app. split_and!; [|done|].
  - by apply Forall_take.
  - by apply Forall_drop.
Qed.

Lemma slice_bytes b off n : Forall is_byte b -> Forall is_byte (slice b off n).
Proof. intros Hb. by apply Forall_take, Forall_drop. Qed.

(** Pointwise reading of a splice. *)
Lemma znth_splice b off src i : 0 <= off -> off + zlen src <= zlen b ->
  znth (splice b off src) i =
    if decide (off <= i < off + zlen src) then znth src (i - off) else znth b i.
Proof.
  intros H1 H2. unfold znth, splice, zlen in *.
  destruct (Z.ltb_spec i 0); [case_decide; [lia|done]|].
  destruct (decide (off <= i < off + Z.of_nat (length src))) as [[? ?]|Hn].
  - destruct (Z.ltb_spec (i - off) 0); [lia|].
    rewrite lookup_app_r by (rewrite length_take; lia).
    rewrite lookup_app_l by (rewrite length_take; lia).
    rewrite length_take. f_equal. lia.
  - destruct (decide (i < off)).
    + rewrite lookup_app_l by (rewrite length_take; lia). rewrite lookup_take_lt by lia. done.
    + rewrite lookup_app_r by (rewrite length_take; lia).
      rewrite lookup_app_r by (rewrite length_take; lia).
      rewrite lookup_drop, length_take. f_equal. lia.
Qed.

Lemma znth_slice b off n i : 0 <= off -> 0 <= i < n -> znth (slice b off n) i = znth b (off + i).
Proof.
  intros H1 H2. unfold znth, slice.
  destruct (Z.ltb_spec i 0); [lia|]. destruct (Z.ltb_spec (off + i) 0); [lia|].
  rewrite lookup_take_lt by lia. rewrite lookup_drop. f_equal. lia.
Qed.

Lemma slice_splice b off src : 0 <= off -> off + zlen src <= zlen b ->
  slice (splice b off src) off (zlen src) = src.
Proof.
  intros H1 H2. pose proof (zlen_nonneg src). pose proof (splice_length b off src H1 H2) as Hl.
  apply zlist_eq; [rewrite slice_length; lia|].
  intros i Hi. rewrite slice_length in Hi by lia.
  rewrite znth_slice, znth_splice by lia. case_decide; [|lia]. f_equal. lia.
Qed.

(** A splice elsewhere is not seen. *)
Lemma slice_splice_disjoint b off src o n : 0 <= off -> off + zlen src <= zlen b ->
  0 <= o -> 0 <= n -> o + n <= zlen b -> (o + n <= off \/ off + zlen src <= o) ->
  slice (splice b off src) o n = slice b o n.
Proof.
  intros H1 H2 H3 H4 H5 H6. pose proof (splice_length b off src H1 H2) as Hl.
  apply zlist_eq; [rewrite !slice_length; lia|].
  intros i Hi. rewrite slice_length in Hi by lia.
  rewrite !znth_slice, znth_splice by lia. case_decide; [lia|done].
Qed.
