(* ===== verification/CString.v ===== *)
(** lib/string.c on byte sequences.

    A pointer into an object is the list of bytes from there to the end of the
    object.  Reading or writing past the end is [Fault]; a string that ends in
    time has the form [s ++ 0 :: rest] with no 0 in [s] ([cstr]).  The
    functions that return a pointer into their argument return its offset. *)

From Stdlib Require Ascii String.
From S2P Require Import Prelude Bitmap Bytes.

Open Scope Z_scope.

(** A string literal with its terminator; [nl] is the newline. *)
Definition nl : string := String (Ascii.ascii_of_nat 10) EmptyString.
Definition bs (s : string) : bytes := map (λ c, Z.of_nat (Ascii.nat_of_ascii c)) (String.list_ascii_of_string s) ++ [0].

Definition memset (dst : bytes) (value size : Z) : res bytes :=
  if zlen dst <? size then Fault
  else Ok (replicate (Z.to_nat size) (u8 value) ++ drop (Z.to_nat size) dst).

Definition memcpy (dst src : bytes) (size : Z) : res bytes :=
  if (zlen dst <? size) || (zlen src <? size) then Fault
  else Ok (take (Z.to_nat size) src ++ drop (Z.to_nat size) dst).

(** The loop of [memcmp]: plain [char] is signed. *)
Fixpoint memcmp (a b : bytes) (size : nat) : res Z :=
  match size with
  | O => Ok 0
  | S size =>
      match a, b with
      | x :: a, y :: b =>
          if negb (x =? y) then Ok (if s8 y <? s8 x then 1 else -1) else memcmp a b size
      | _, _ => Fault
      end
  end.

Fixpoint strlen (s : bytes) : res Z :=
  match s with
  | [] => Fault
  | c :: s => if c =? 0 then Ok 0 else n ← strlen s; Ok (n + 1)
  end.

Fixpoint strcpy (dst src : bytes) : res bytes :=
  match src, dst with
  | c :: src, _ :: dst => if c =? 0 then Ok (0 :: dst) else r ← strcpy dst src; Ok (c :: r)
  | _, _ => Fault
  end.

Fixpoint strcmp (a b : bytes) : res Z :=
  match a, b with
  | x :: a, y :: b =>
      if negb (x =? 0) && (x =? y) then strcmp a b
      else Ok (if s8 x <? s8 y then -1 else if s8 y <? s8 x then 1 else 0)
  | _, _ => Fault
  end.

Fixpoint strchr (s : bytes) (ch : Z) : res (option Z) :=
  match s with
  | [] => Fault
  | c :: s =>
      if c =? 0 then Ok None
      else if c =? ch then Ok (Some 0)
      else r ← strchr s ch; Ok (option_map Z.succ r)
  end.

(** [last] is the offset of the last occurrence seen so far. *)
Fixpoint strrchr_from (s : bytes) (ch pos : Z) (last : option Z) : res (option Z) :=
  match s with
  | [] => Fault
  | c :: s =>
      if c =? 0 then Ok last
      else strrchr_from s ch (pos + 1) (if c =? ch then Some pos else last)
  end.
Definition strrchr (s : bytes) (ch : Z) : res (option Z) := strrchr_from s ch 0 None.

Fixpoint strcat (dst src : bytes) : res bytes :=
  match dst with
  | [] => Fault
  | c :: dst' => if c =? 0 then strcpy dst src else r ← strcat dst' src; Ok (c :: r)
  end.

Fixpoint strchrs (s : bytes) (ch : Z) : res Z :=
  match s with
  | [] => Fault
  | c :: s => if c =? 0 then Ok 0 else n ← strchrs s ch; Ok (if c =? ch then n + 1 else n)
  end.

(** ** Strings *)

Definition cstr (s : bytes) : Prop := Forall (λ c, 0 < c < 256) s.
Definition csig (s : bytes) : list Z := map s8 s.

(** Lexicographic order of the strings by signed characters. *)
Fixpoint lex (a b : list Z) : Z :=
  match a, b with
  | [], [] => 0
  | [], y :: _ => if 0 <? y then -1 else 1
  | x :: _, [] => if 0 <? x then 1 else -1
  | x :: a, y :: b => if x <? y then -1 else if y <? x then 1 else lex a b
  end.

Lemma cstr_cons c s : cstr (c :: s) <-> 0 < c < 256 /\ cstr s.
Proof. unfold cstr. by rewrite Forall_cons. Qed.

Lemma s8_inj x y : 0 <= x < 256 -> 0 <= y < 256 -> s8 x = s8 y -> x = y.
Proof.
  unfold s8. intros Hx Hy E.
  pose proof (Z.div_mod (x + 128) 256). pose proof (Z.div_mod (y + 128) 256).
  pose proof (Z.mod_pos_bound (x + 128) 256). pose proof (Z.mod_pos_bound (y + 128) 256). lia.
Qed.

Lemma strlen_ok s r : cstr s -> strlen (s ++ 0 :: r) = Ok (zlen s).
Proof.
  unfold zlen. induction s as [|c s IH]; [done|]. rewrite cstr_cons. intros [Hc Hs]. simpl.
  rewrite (proj2 (Z.eqb_neq c 0)) by lia. rewrite IH by done. simpl. f_equal. lia.
Qed.

Lemma strcpy_ok dst s r : cstr s -> zlen s < zlen dst ->
  strcpy dst (s ++ 0 :: r) = Ok (s ++ 0 :: drop (S (length s)) dst).
Proof.
  revert dst. unfold zlen. induction s as [|c s IH]; intros dst Hs Hl.
  - destruct dst; [simpl in Hl; lia|]. done.
  - apply cstr_cons in Hs as [Hc Hs]. destruct dst as [|d dst]; [simpl in Hl; lia|]. simpl.
    rewrite (proj2 (Z.eqb_neq c 0)) by lia. rewrite IH by (done || simpl in Hl; lia). done.
Qed.

Lemma strcat_ok a s r room : cstr a -> cstr s -> zlen s <= zlen room ->
  strcat (a ++ 0 :: room) (s ++ 0 :: r) = Ok (a ++ s ++ 0 :: drop (length s) room).
Proof.
  intros Ha Hs Hl. induction a as [|c a IH].
  - simpl app. cbn [strcat]. change (0 =? 0) with true. cbv iota.
    rewrite strcpy_ok; [done|done|]. unfold zlen in *. simpl. lia.
  - apply cstr_cons in Ha as [Hc Ha]. simpl. rewrite (proj2 (Z.eqb_neq c 0)) by lia.
    by rewrite IH by done.
Qed.

Lemma strcmp_ok a b r1 r2 : cstr a -> cstr b ->
  strcmp (a ++ 0 :: r1) (b ++ 0 :: r2) = Ok (lex (csig a) (csig b)).
Proof.
  revert b. induction a as [|x a IH]; intros b Ha Hb.
  - destruct b as [|y b]; [done|]. apply cstr_cons in Hb as [Hy _].
    unfold csig. cbn [map lex app strcmp]. change (0 =? 0) with true.
    cbn [negb andb]. change (s8 0) with 0.
    destruct (Z.ltb_spec 0 (s8 y)); [done|]. destruct (Z.ltb_spec (s8 y) 0); [done|].
    assert (y = 0) by (apply s8_inj; [lia|lia|change (s8 0) with 0; lia]). lia.
  - apply cstr_cons in Ha as [Hx Ha]. destruct b as [|y b].
    + unfold csig. cbn [map lex app strcmp]. rewrite (proj2 (Z.eqb_neq x 0)) by lia.
      cbn [negb andb]. change (s8 0) with 0.
      destruct (Z.ltb_spec (s8 x) 0), (Z.ltb_spec 0 (s8 x)); try lia; try done.
      assert (x = 0) by (apply s8_inj; [lia|lia|change (s8 0) with 0; lia]). lia.
    + apply cstr_cons in Hb as [Hy Hb]. unfold csig in *. cbn [map lex app strcmp].
      rewrite (proj2 (Z.eqb_neq x 0)) by lia. cbn [negb andb].
      destruct (Z.eqb_spec x y) as [->|Hne].
      * rewrite Z.ltb_irrefl. by apply IH.
      * destruct (Z.ltb_spec (s8 x) (s8 y)), (Z.ltb_spec (s8 y) (s8 x)); try lia; try done.
        assert (x = y) by (apply s8_inj; lia). done.
Qed.

Lemma lex_zero a b : lex a b = 0 <-> a = b.
Proof.
  revert b. induction a as [|x a IH]; intros [|y b]; simpl.
  - done.
  - destruct (Z.ltb_spec 0 y); naive_solver.
  - destruct (Z.ltb_spec 0 x); naive_solver.
  - destruct (Z.ltb_spec x y), (Z.ltb_spec y x); try (split; [lia|intros [= ? ?]; lia]).
    rewrite IH. split; [intros ->; f_equal; lia|naive_solver].
Qed.

Lemma csig_inj a b : cstr a -> cstr b -> csig a = csig b -> a = b.
Proof.
  revert b. induction a as [|x a IH]; intros [|y b] Ha Hb; try done.
  apply cstr_cons in Ha as [? ?], Hb as [? ?]. intros [= E1 E2]. f_equal; [apply s8_inj; lia|by apply IH].
Qed.

Lemma strcmp_eq_0 a b r1 r2 : cstr a -> cstr b ->
  strcmp (a ++ 0 :: r1) (b ++ 0 :: r2) = Ok 0 <-> a = b.
Proof.
  intros Ha Hb. rewrite strcmp_ok by done. split.
  - intros [= E%lex_zero]. by apply csig_inj.
  - intros ->. f_equal. by apply lex_zero.
Qed.

Lemma strrchr_from_ok s ch r pos last : cstr s ->
  strrchr_from (s ++ 0 :: r) ch pos last =
    Ok (match list_find (λ c, c = ch) (reverse s) with
        | Some (k, _) => Some (pos + zlen s - 1 - Z.of_nat k)
        | None => last
        end).
Proof.
  revert pos last. induction s as [|c s IH]; intros pos last; [done|].
  rewrite cstr_cons. intros [Hc Hs]. simpl. rewrite (proj2 (Z.eqb_neq c 0)) by lia.
  rewrite IH by done. unfold zlen. rewrite reverse_cons. simpl.
  destruct (list_find (λ c, c = ch) (reverse s)) as [[k x]|] eqn:E.
  - rewrite (list_find_app_l _ _ _ k x E). do 2 f_equal. lia.
  - rewrite list_find_app_r by done. simpl. rewrite length_reverse.
    destruct (decide (c = ch)) as [->|]; [rewrite Z.eqb_refl|rewrite (proj2 (Z.eqb_neq c ch)) by done];
      simpl; [|done]. do 2 f_equal. lia.
Qed.

(** C0: [strcmp] decides string equality and orders strings
    lexicographically by signed characters, looking no further than the first
    difference or the terminator. *)
Theorem strcmp_lexicographic a b r1 r2 : cstr a -> cstr b ->
  strcmp (a ++ 0 :: r1) (b ++ 0 :: r2) = Ok (lex (csig a) (csig b)) /\
  (strcmp (a ++ 0 :: r1) (b ++ 0 :: r2) = Ok 0 <-> a = b).
Proof. intros Ha Hb. split; [by apply strcmp_ok|by apply strcmp_eq_0]. Qed.

Lemma strcmp_lexicographic_witness :
  strcmp ([97; 98] ++ 0 :: [7]) ([97; 200] ++ 0 :: []) = Ok (lex (csig [97; 98]) (csig [97; 200])) /\
  (strcmp ([97; 98] ++ 0 :: [7]) ([97; 200] ++ 0 :: []) = Ok 0 <-> [97; 98] = [97; 200]).
Proof.
  apply (strcmp_lexicographic [97; 98] [97; 200] [7] []);
    unfold cstr; rewrite !Forall_cons, Forall_nil; lia.
Defined.
