(* ===== verification/Stdio.v ===== *)
(** lib/stdio.c: formatted output.

    As in CString.v a pointer into an object is the list of bytes from there
    on, so a write beyond the destination is [Fault].  The variable arguments
    are a sequence of words and strings; a conversion that finds no argument
    of its kind reads wild memory ([Fault]).  [itoa] writes through
    [buf_ptr_addr] in order, so it returns the characters it writes. *)

From S2P Require Import Prelude Bitmap Bytes CString.

Open Scope Z_scope.

Inductive arg := AInt (z : Z) | AStr (s : bytes).

Definition percent : Z := 37.
Definition minus : Z := 45.

(** [m + '0'] or [m - 10 + 'A'] *)
Definition digit_char (m : Z) : Z := if m <? 10 then m + 48 else m - 10 + 65.

(** The recursion of [itoa] divides a 32-bit value by at least 2. *)
Fixpoint itoa (fuel : nat) (value base : Z) : res bytes :=
  match fuel with
  | O => NoFuel
  | S fuel =>
      let m := value mod base in
      let i := value / base in
      pre ← (if negb (i =? 0) then itoa fuel i base else Ok []);
      Ok (pre ++ [digit_char m])
  end.
Definition itoa_fuel : nat := 33.

(** Store characters one after the other. *)
Fixpoint put_all (cs : bytes) (buf : bytes) (k : bytes -> res bytes) : res bytes :=
  match cs with
  | [] => k buf
  | c :: cs =>
      match buf with
      | [] => Fault
      | _ :: buf => r ← put_all cs buf k; Ok (c :: r)
      end
  end.

(** The loop of [vsprintf]: [buf] is the memory at [buf_ptr], [fmt] the format
    from [index_ptr] on; the result is the memory at the old [buf_ptr]. *)
Fixpoint vsprintf_loop (buf fmt : bytes) (ap : list arg) : res bytes :=
  match fmt with
  | [] => Fault
  | index_char :: fmt1 =>
      if index_char =? 0 then Ok buf
      else if negb (index_char =? percent) then
        put_all [index_char] buf (λ buf, vsprintf_loop buf fmt1 ap)
      else
        match fmt1 with
        | [] => Fault
        | conv :: fmt2 =>
            if conv =? 115 then                       (* 's' *)
              match ap with
              | AStr arg_str :: ap =>
                  buf1 ← strcpy buf arg_str;
                  n ← strlen arg_str;
                  r ← vsprintf_loop (drop (Z.to_nat n) buf1) fmt2 ap;
                  Ok (take (Z.to_nat n) buf1 ++ r)
              | _ => Fault
              end
            else if conv =? 99 then                   (* 'c' *)
              match ap with
              | AInt z :: ap => put_all [u8 z] buf (λ buf, vsprintf_loop buf fmt2 ap)
              | _ => Fault
              end
            else if conv =? 100 then                  (* 'd' *)
              match ap with
              | AInt z :: ap =>
                  let arg_int := s32 z in
                  let neg := arg_int <? 0 in
                  cs ← itoa itoa_fuel (u32 (if neg then 0 - arg_int else arg_int)) 10;
                  put_all (if neg then minus :: cs else cs) buf (λ buf, vsprintf_loop buf fmt2 ap)
              | _ => Fault
              end
            else if conv =? 120 then                  (* 'x' *)
              match ap with
              | AInt z :: ap =>
                  cs ← itoa itoa_fuel (u32 z) 16;
                  put_all cs buf (λ buf, vsprintf_loop buf fmt2 ap)
              | _ => Fault
              end
            else vsprintf_loop buf fmt1 ap
        end
  end.

Definition vsprintf (str format : bytes) (ap : list arg) : res (Z * bytes) :=
  str ← vsprintf_loop str format ap;
  n ← strlen str;
  Ok (n, str).

Definition sprintf : bytes -> bytes -> list arg -> res (Z * bytes) := vsprintf.

(** [char buf[1024] = {0}], and the bytes handed to [write(1, ...)] by
    [printf] and to [console_put_str] by [printk]. *)
Definition print_buf (format : bytes) (args : list arg) : res bytes :=
  nb ← vsprintf (replicate 1024 0) format args;
  n ← strlen (snd nb);
  Ok (take (Z.to_nat n) (snd nb)).
Definition printf : bytes -> list arg -> res bytes := print_buf.
Definition printk : bytes -> list arg -> res bytes := print_buf.

(** ** Numerals *)

Definition char_val (c : Z) : Z := if c <? 58 then c - 48 else c - 65 + 10.
Definition num_of (base : Z) (cs : bytes) : Z := fold_left (λ n c, n * base + char_val c) cs 0.

Definition is_numeral (base : Z) (cs : bytes) : Prop :=
  Forall (λ c, 48 <= c < 48 + Z.min base 10 \/ 65 <= c < 65 + (base - 10)) cs.

Lemma digit_char_ok base m : 2 <= base <= 16 -> 0 <= m < base ->
  char_val (digit_char m) = m /\ 48 <= digit_char m < 128 /\
  (48 <= digit_char m < 48 + Z.min base 10 \/ 65 <= digit_char m < 65 + (base - 10)) /\
  (digit_char m = 48 <-> m = 0).
Proof. intros Hb Hm. unfold char_val, digit_char. zbool; lia. Qed.

Lemma num_of_snoc base cs c : num_of base (cs ++ [c]) = num_of base cs * base + char_val c.
Proof. unfold num_of. by rewrite fold_left_app. Qed.

(** The numeral has the value, no leading zero and at most as many characters
    as the base needs. *)
Lemma itoa_ok base fuel : 2 <= base <= 16 -> forall v, 0 <= v < 2 ^ Z.of_nat fuel -> (0 < fuel)%nat ->
  exists cs, itoa fuel v base = Ok cs /\ num_of base cs = v /\ is_numeral base cs /\
    cs <> [] /\ (v <> 0 -> hd 0 cs <> 48) /\ Forall (λ c, 0 < c < 128) cs.
Proof.
  intros Hb. induction fuel as [|fuel IH]; intros v Hv Hf; [lia|]. cbn [itoa].
  pose proof (Z.mod_pos_bound v base ltac:(lia)) as Hm. pose proof (Z.div_mod v base ltac:(lia)) as Hdm.
  destruct (digit_char_ok base (v mod base) Hb Hm) as (D1 & D2 & D3 & D4).
  assert (Hi : 0 <= v / base < 2 ^ Z.of_nat fuel).
  { split; [apply Z.div_pos; lia|]. apply Z.div_lt_upper_bound; [lia|].
    replace (2 ^ Z.of_nat (S fuel)) with (2 * 2 ^ Z.of_nat fuel) in Hv
      by (rewrite Nat2Z.inj_succ, Z.pow_succ_r by lia; lia). nia. }
  destruct (Z.eqb_spec (v / base) 0) as [E|Hne]; simpl.
  - exists [digit_char (v mod base)]. split; [done|]. split.
    { unfold num_of; simpl. rewrite D1. nia. }
    split; [by apply Forall_singleton|]. split; [done|]. split; [|apply Forall_singleton; lia].
    simpl. rewrite D4. intros Hv0 H0. apply Hv0. nia.
  - destruct fuel as [|fuel]; [change (2 ^ Z.of_nat 0) with 1 in Hi; lia|].
    destruct (IH (v / base) Hi) as (cs & -> & Hn & Hnum & Hcs & Hhd & Hc); [lia|]. simpl.
    exists (cs ++ [digit_char (v mod base)]). split; [done|]. split.
    { rewrite num_of_snoc, Hn, D1. nia. }
    split; [apply Forall_app; by rewrite Forall_singleton|]. split; [by destruct cs|]. split.
    + intros _. destruct cs as [|c cs]; [done|]. simpl in *. by apply Hhd.
    + apply Forall_app. rewrite Forall_singleton. split; [done|lia].
Qed.

Lemma itoa_u32 base v : 2 <= base <= 16 -> 0 <= v < 4294967296 ->
  exists cs, itoa itoa_fuel v base = Ok cs /\ num_of base cs = v /\ is_numeral base cs /\
    cs <> [] /\ (v <> 0 -> hd 0 cs <> 48) /\ Forall (λ c, 0 < c < 128) cs.
Proof. intros Hb Hv. apply itoa_ok; [done|change (2 ^ Z.of_nat itoa_fuel) with 8589934592; lia|unfold itoa_fuel; lia]. Qed.

(** ** Formats *)

(** A format is a sequence of literal characters and conversions, each
    with its argument. *)
Inductive piece := PLit (c : Z) | PStr (s after : bytes) | PChar (z : Z) | PDec (z : Z) | PHex (z : Z).

Definition piece_ok (p : piece) : Prop :=
  match p with
  | PLit c => 0 < c < 256 /\ c <> percent
  | PStr s _ => cstr s
  | PChar z => u8 z <> 0
  | _ => True
  end.
Definition piece_fmt (p : piece) : bytes :=
  match p with
  | PLit c => [c]
  | PStr _ _ => [percent; 115]
  | PChar _ => [percent; 99]
  | PDec _ => [percent; 100]
  | PHex _ => [percent; 120]
  end.
Definition piece_arg (p : piece) : list arg :=
  match p with
  | PLit _ => []
  | PStr s after => [AStr (s ++ 0 :: after)]
  | PChar z | PDec z | PHex z => [AInt z]
  end.
Definition format_of (ps : list piece) : bytes := concat (map piece_fmt ps).
Definition args_of (ps : list piece) : list arg := concat (map piece_arg ps).

(** [cs] is the numeral of [v]: its digits, and no leading zero unless [v] is
    0 itself. *)
Definition numeral (base v : Z) (cs : bytes) : Prop :=
  is_numeral base cs /\ num_of base cs = v /\ (if decide (v = 0) then cs = [48] else hd 0 cs <> 48).

(** What a piece has to print. *)
Definition shows (p : piece) (cs : bytes) : Prop :=
  match p with
  | PLit c => cs = [c]
  | PStr s _ => cs = s
  | PChar z => cs = [u8 z]
  | PDec z => exists ds, numeral 10 (Z.abs (s32 z)) ds /\ cs = (if s32 z <? 0 then minus :: ds else ds)
  | PHex z => numeral 16 (u32 z) cs
  end.

Lemma itoa_numeral base v : 2 <= base <= 16 -> 0 <= v < 4294967296 ->
  exists cs, itoa itoa_fuel v base = Ok cs /\ numeral base v cs /\ cstr cs.
Proof.
  intros Hb Hv. destruct (itoa_u32 base v Hb Hv) as (cs & E & Hn & Hnum & Hne & Hhd & Hc).
  exists cs. split; [done|]. split; [|eapply Forall_impl; [done|simpl; lia]].
  split; [done|]. split; [done|]. destruct (decide (v = 0)) as [->|]; [|by apply Hhd].
  revert E. unfold itoa_fuel. cbn [itoa]. rewrite Z.div_0_l, Z.mod_0_l by lia. by intros [= <-].
Qed.

Lemma put_all_ok cs n k tl : put_all cs (replicate (length cs + n) 0) k = (r ← k (replicate n 0); Ok (cs ++ r)) /\
  (k (replicate n 0) = Ok tl -> put_all cs (replicate (length cs + n) 0) k = Ok (cs ++ tl)).
Proof.
  assert (E : put_all cs (replicate (length cs + n) 0) k = (r ← k (replicate n 0); Ok (cs ++ r))).
  { induction cs as [|c cs IH]; simpl; [by destruct (k _)|]. rewrite IH. by destruct (k _). }
  split; [done|]. intros Hk. by rewrite E, Hk.
Qed.

(** The text of one piece, and what the loop does with it. *)
Lemma vsprintf_piece p : piece_ok p -> exists cs, shows p cs /\ cstr cs /\
  forall n fmt ap tl, vsprintf_loop (replicate n 0) fmt ap = Ok tl ->
    (0 < n)%nat ->
    vsprintf_loop (replicate (length cs + n) 0) (piece_fmt p ++ fmt) (piece_arg p ++ ap) = Ok (cs ++ tl).
Proof.
  destruct p as [c|s after|z|z|z]; cbn [piece_ok shows piece_fmt piece_arg app].
  - intros [Hc Hp]. exists [c]. split; [done|]. split; [by apply Forall_singleton|].
    intros n fmt ap tl E Hn. cbn [vsprintf_loop]. rewrite (proj2 (Z.eqb_neq c 0)) by lia.
    rewrite (proj2 (Z.eqb_neq c percent)) by done. simpl negb. cbv iota. by apply (put_all_ok [c] n _ tl).
  - intros Hs. exists s. split; [done|]. split; [done|].
    intros n fmt ap tl E Hn. cbn [vsprintf_loop]. change (percent =? 0) with false. change (percent =? percent) with true.
    change (115 =? 115) with true. simpl negb. cbv iota.
    rewrite strcpy_ok, strlen_ok by (done || unfold zlen; rewrite length_replicate; lia). rcbn.
    unfold zlen. rewrite !Nat2Z.id. rewrite drop_app_length, take_app_length.
    destruct n as [|n]; [lia|]. rewrite drop_replicate.
    replace (length s + S n - S (length s))%nat with n by lia. change (0 :: replicate n 0) with (replicate (S n) 0).
    by rewrite E.
  - intros Hz. exists [u8 z]. split; [done|]. pose proof (u8_range z).
    split; [apply Forall_singleton; lia|].
    intros n fmt ap tl E Hn. cbn [vsprintf_loop]. by apply (put_all_ok [u8 z] n _ tl).
  - intros _. pose proof (s32_range z) as Hr.
    destruct (itoa_numeral 10 (u32 (if s32 z <? 0 then 0 - s32 z else s32 z))) as (ds & E0 & Hn & Hc);
      [lia|apply u32_range|].
    assert (Ev : u32 (if s32 z <? 0 then 0 - s32 z else s32 z) = Z.abs (s32 z)).
    { zbool; rewrite u32_small by lia; lia. }
    rewrite Ev in Hn.
    exists (if s32 z <? 0 then minus :: ds else ds). split; [by exists ds|]. split.
    { zbool; [|done]. apply cstr_cons. split; [done|done]. }
    intros n fmt ap tl E Hn0. cbn [vsprintf_loop]. change (percent =? 0) with false. change (percent =? percent) with true.
    change (100 =? 115) with false. change (100 =? 99) with false. change (100 =? 100) with true.
    simpl negb. cbv iota zeta. rewrite E0. cbn [mbind res_bind]. by apply (put_all_ok _ n _ tl).
  - intros _. destruct (itoa_numeral 16 (u32 z)) as (ds & E0 & Hn & Hc); [lia|apply u32_range|].
    exists ds. split; [done|]. split; [done|].
    intros n fmt ap tl E Hn0. cbn [vsprintf_loop]. change (percent =? 0) with false. change (percent =? percent) with true.
    change (120 =? 115) with false. change (120 =? 99) with false. change (120 =? 100) with false.
    change (120 =? 120) with true. simpl negb. cbv iota zeta. rewrite E0. cbn [mbind res_bind]. by apply (put_all_ok _ n _ tl).
Qed.

Lemma vsprintf_loop_ok ps r rest : Forall piece_ok ps ->
  exists outs, Forall2 shows ps outs /\ cstr (concat outs) /\
    forall n, (0 < n)%nat ->
      vsprintf_loop (replicate (length (concat outs) + n) 0) (format_of ps ++ 0 :: r) (args_of ps ++ rest)
        = Ok (concat outs ++ replicate n 0).
Proof.
  unfold format_of, args_of. induction 1 as [|p ps Hp _ (outs & Hs & Hc & E)].
  - exists []. split; [constructor|]. split; [constructor|]. intros n Hn. by destruct n.
  - destruct (vsprintf_piece p Hp) as (cs & Hcs & Hcc & Ep).
    exists (cs :: outs). split; [by constructor|]. split; [by apply Forall_app|].
    intros n Hn. cbn [map concat]. rewrite <- !app_assoc, length_app, <- Nat.add_assoc.
    apply Ep; [by apply E|lia].
Qed.

(** C40: formatting into a zeroed buffer with room for the text and its
    terminator writes exactly the text the format asks for - literals, strings
    and characters as they are, %d as the signed decimal numeral of the
    32-bit argument (the least integer included) and %x as the unsigned
    hexadecimal one, without leading zeros - and returns its length. *)
Theorem vsprintf_renders ps r rest : Forall piece_ok ps ->
  exists outs, Forall2 shows ps outs /\
    forall n, (length (concat outs) < n)%nat ->
      vsprintf (replicate n 0) (format_of ps ++ 0 :: r) (args_of ps ++ rest)
        = Ok (zlen (concat outs), concat outs ++ replicate (n - length (concat outs)) 0).
Proof.
  intros Hp. destruct (vsprintf_loop_ok ps r rest Hp) as (outs & Hs & Hc & E).
  exists outs. split; [done|]. intros n Hn. unfold vsprintf.
  replace n with (length (concat outs) + (n - length (concat outs)))%nat at 1 by lia.
  rewrite E by lia. rcbn. destruct (n - length (concat outs))%nat as [|m] eqn:Em; [lia|].
  cbn [replicate]. by rewrite strlen_ok.
Qed.

(** ["%s %d %x"] of ["rm"], the least integer and 48879. *)
Lemma vsprintf_renders_witness :
  exists outs, Forall2 shows [PStr [114; 109] [7]; PLit 32; PDec (-2147483648); PLit 32; PHex 48879] outs /\
    forall n, (length (concat outs) < n)%nat ->
      vsprintf (replicate n 0) ([37; 115; 32; 37; 100; 32; 37; 120] ++ 0 :: [])
        ([AStr [114; 109; 0; 7]; AInt (-2147483648); AInt 48879] ++ [])
        = Ok (zlen (concat outs), concat outs ++ replicate (n - length (concat outs)) 0).
Proof.
  refine (vsprintf_renders [PStr [114; 109] [7]; PLit 32; PDec (-2147483648); PLit 32; PHex 48879] [] [] _).
  repeat apply Forall_cons_2; try apply Forall_nil_2; cbn; unfold percent; lia.
Defined.

Example vsprintf_example :
  vsprintf (replicate 20 0) [37; 100; 47; 37; 120; 0] [AInt (-120); AInt 48879]
    = Ok (9, [45; 49; 50; 48; 47; 66; 69; 69; 70] ++ replicate 11 0).
Proof. vm_compute. reflexivity. Qed.

(** No terminator is written: in a buffer that is not clean the text runs into
    what was there. *)
Lemma vsprintf_unterminated c d rest : 0 < c < 256 -> c <> percent -> 0 < d < 256 ->
  vsprintf (d :: d :: 0 :: rest) [c; 0] [] = Ok (2, c :: d :: 0 :: rest).
Proof.
  intros Hc Hp Hd. unfold vsprintf. cbn [vsprintf_loop put_all].
  rewrite (proj2 (Z.eqb_neq c 0)) by lia. rewrite (proj2 (Z.eqb_neq c percent)) by done.
  simpl. rewrite (proj2 (Z.eqb_neq c 0)) by lia. rewrite (proj2 (Z.eqb_neq d 0)) by lia. done.
Qed.

(** Formats without numbers have one rendering. *)
Definition plain (p : piece) : Prop := match p with PLit _ | PStr _ _ => True | _ => False end.
Definition text (p : piece) : bytes := match p with PLit c => [c] | PStr s _ => s | _ => [] end.

Lemma plain_shows ps outs : Forall plain ps -> Forall2 shows ps outs -> concat outs = concat (map text ps).
Proof.
  intros Hp Hs. induction Hs as [|p cs ps outs Hpc Hs IH]; [done|]. apply Forall_cons in Hp as [Hp Hps].
  simpl. rewrite IH by done. destruct p; cbn [shows text] in *; subst; done.
Qed.

Lemma print_buf_plain ps r rest : Forall piece_ok ps -> Forall plain ps ->
  zlen (concat (map text ps)) < 1024 ->
  print_buf (format_of ps ++ 0 :: r) (args_of ps ++ rest) = Ok (concat (map text ps)).
Proof.
  intros Hp Hpl Hlen. destruct (vsprintf_loop_ok ps r rest Hp) as (outs & Hs & Hc & E).
  rewrite (plain_shows ps outs Hpl Hs) in *. set (txt := concat (map text ps)) in *.
  specialize (E (1024 - length txt)%nat ltac:(unfold zlen in Hlen; lia)). unfold print_buf, vsprintf.
  replace (replicate 1024 0) with (replicate (length txt + (1024 - length txt)) 0)
    by (f_equal; unfold zlen in Hlen; lia).
  rewrite E. rcbn. destruct (1024 - length txt)%nat as [|m] eqn:Em; [unfold zlen in Hlen; lia|].
  cbn [replicate]. rewrite strlen_ok by done. rcbn. cbn [snd]. rewrite strlen_ok by done. rcbn.
  unfold zlen. by rewrite Nat2Z.id, take_app_length.
Qed.
