(* ===== verification/Syscall.v ===== *)
(** System calls from both sides: the stubs of lib/user/syscall.c, the numbers
    of lib/user/syscall.h, the table that userprog/syscall-init.c fills and
    the entry of interrupt 0x80 in kernel/kernel.S.

    A call passes words in registers; the C types of the stubs' parameters and
    of the handlers' are the conversions between values and words.  [kernel]
    has the handlers by their C prototypes, a pointer being its address.
    Registers that a stub does not set hold anything, and so does eax after a
    handler that returns nothing. *)

From S2P Require Import Prelude.

Open Scope Z_scope.

(** ** The numbers of enum SYSCALL_NR *)

Definition SYS_GETPID : Z := 0.
Definition SYS_WRITE : Z := 1.
Definition SYS_MALLOC : Z := 2.
Definition SYS_FREE : Z := 3.
Definition SYS_FORK : Z := 4.
Definition SYS_READ : Z := 5.
Definition SYS_PUTCHAR : Z := 6.
Definition SYS_CLEAR : Z := 7.
Definition SYS_GETCWD : Z := 8.
Definition SYS_OPEN : Z := 9.
Definition SYS_CLOSE : Z := 10.
Definition SYS_LSEEK : Z := 11.
Definition SYS_UNLINK : Z := 12.
Definition SYS_MKDIR : Z := 13.
Definition SYS_OPENDIR : Z := 14.
Definition SYS_CLOSEDIR : Z := 15.
Definition SYS_CHDIR : Z := 16.
Definition SYS_RMDIR : Z := 17.
Definition SYS_READDIR : Z := 18.
Definition SYS_REWINDDIR : Z := 19.
Definition SYS_STAT : Z := 20.
Definition SYS_PS : Z := 21.
Definition SYS_EXECV : Z := 22.
Definition SYS_EXIT : Z := 23.
Definition SYS_WAIT : Z := 24.
Definition SYS_PIPE : Z := 25.
Definition SYS_FD_REDIRECT : Z := 26.
Definition SYS_HELP : Z := 27.
Definition syscall_nr : Z := 32.

(** ** The handlers *)

Record kernel (K : Type) := Kernel {
  k_sys_getpid : M K Z;
  k_sys_write : Z -> Z -> Z -> M K Z;
  k_sys_malloc : Z -> M K Z;
  k_sys_free : Z -> M K unit;
  k_sys_fork : M K Z;
  k_sys_read : Z -> Z -> Z -> M K Z;
  k_sys_putchar : Z -> M K unit;
  k_cls_screen : M K unit;
  k_sys_getcwd : Z -> Z -> M K Z;
  k_sys_open : Z -> Z -> M K Z;
  k_sys_close : Z -> M K Z;
  k_sys_lseek : Z -> Z -> Z -> M K Z;
  k_sys_unlink : Z -> M K Z;
  k_sys_mkdir : Z -> M K Z;
  k_sys_opendir : Z -> M K Z;
  k_sys_closedir : Z -> M K Z;
  k_sys_chdir : Z -> M K Z;
  k_sys_rmdir : Z -> M K Z;
  k_sys_readdir : Z -> M K Z;
  k_sys_rewinddir : Z -> M K unit;
  k_sys_stat : Z -> Z -> M K Z;
  k_sys_ps : M K unit;
  k_sys_execv : Z -> Z -> M K Z;
  k_sys_exit : Z -> M K unit;
  k_sys_wait : Z -> M K Z;
  k_sys_pipe : Z -> M K Z;
  k_sys_fd_redirect : Z -> Z -> M K unit;
  k_sys_help : M K unit
}.
Global Arguments k_sys_getpid {K}.
Global Arguments k_sys_write {K}.
Global Arguments k_sys_malloc {K}.
Global Arguments k_sys_free {K}.
Global Arguments k_sys_fork {K}.
Global Arguments k_sys_read {K}.
Global Arguments k_sys_putchar {K}.
Global Arguments k_cls_screen {K}.
Global Arguments k_sys_getcwd {K}.
Global Arguments k_sys_open {K}.
Global Arguments k_sys_close {K}.
Global Arguments k_sys_lseek {K}.
Global Arguments k_sys_unlink {K}.
Global Arguments k_sys_mkdir {K}.
Global Arguments k_sys_opendir {K}.
Global Arguments k_sys_closedir {K}.
Global Arguments k_sys_chdir {K}.
Global Arguments k_sys_rmdir {K}.
Global Arguments k_sys_readdir {K}.
Global Arguments k_sys_rewinddir {K}.
Global Arguments k_sys_stat {K}.
Global Arguments k_sys_ps {K}.
Global Arguments k_sys_execv {K}.
Global Arguments k_sys_exit {K}.
Global Arguments k_sys_wait {K}.
Global Arguments k_sys_pipe {K}.
Global Arguments k_sys_fd_redirect {K}.
Global Arguments k_sys_help {K}.

Section syscall.
Context {K : Type} (k : kernel K) (junk_ebx junk_ecx junk_edx junk_eax : Z).

(** What [call] finds on the stack, and eax afterwards. *)
Definition handler : Type := Z -> Z -> Z -> M K Z.
Definition returns (m : M K Z) : M K Z := r ← m; mret (u32 r).
Definition nothing (m : M K unit) : M K Z := m;; mret (u32 junk_eax).

(** [syscall_table[nr] = f] *)
Definition install (nr : Z) (f : handler) (table : list (option handler)) : list (option handler) := zupd table nr (Some f).

Definition syscall_init : list (option handler) :=
  install SYS_HELP (λ _ _ _, nothing (k_sys_help k)) (
  install SYS_FD_REDIRECT (λ b c _, nothing (k_sys_fd_redirect k (u32 b) (u32 c))) (
  install SYS_PIPE (λ b _ _, returns (k_sys_pipe k (u32 b))) (
  install SYS_WAIT (λ b _ _, returns (k_sys_wait k (u32 b))) (
  install SYS_EXIT (λ b _ _, nothing (k_sys_exit k (s32 b))) (
  install SYS_EXECV (λ b c _, returns (k_sys_execv k (u32 b) (u32 c))) (
  install SYS_PS (λ _ _ _, nothing (k_sys_ps k)) (
  install SYS_STAT (λ b c _, returns (k_sys_stat k (u32 b) (u32 c))) (
  install SYS_REWINDDIR (λ b _ _, nothing (k_sys_rewinddir k (u32 b))) (
  install SYS_READDIR (λ b _ _, returns (k_sys_readdir k (u32 b))) (
  install SYS_RMDIR (λ b _ _, returns (k_sys_rmdir k (u32 b))) (
  install SYS_CHDIR (λ b _ _, returns (k_sys_chdir k (u32 b))) (
  install SYS_CLOSEDIR (λ b _ _, returns (k_sys_closedir k (u32 b))) (
  install SYS_OPENDIR (λ b _ _, returns (k_sys_opendir k (u32 b))) (
  install SYS_MKDIR (λ b _ _, returns (k_sys_mkdir k (u32 b))) (
  install SYS_UNLINK (λ b _ _, returns (k_sys_unlink k (u32 b))) (
  install SYS_LSEEK (λ b c d, returns (k_sys_lseek k (s32 b) (s32 c) (u8 d))) (
  install SYS_CLOSE (λ b _ _, returns (k_sys_close k (s32 b))) (
  install SYS_OPEN (λ b c _, returns (k_sys_open k (u32 b) (u8 c))) (
  install SYS_GETCWD (λ b c _, returns (k_sys_getcwd k (u32 b) (u32 c))) (
  install SYS_CLEAR (λ _ _ _, nothing (k_cls_screen k)) (
  install SYS_PUTCHAR (λ b _ _, nothing (k_sys_putchar k (s8 b))) (
  install SYS_READ (λ b c d, returns (k_sys_read k (s32 b) (u32 c) (u32 d))) (
  install SYS_FORK (λ _ _ _, returns (k_sys_fork k)) (
  install SYS_FREE (λ b _ _, nothing (k_sys_free k (u32 b))) (
  install SYS_MALLOC (λ b _ _, returns (k_sys_malloc k (u32 b))) (
  install SYS_WRITE (λ b c d, returns (k_sys_write k (s32 b) (u32 c) (u32 d))) (
  install SYS_GETPID (λ _ _ _, returns (k_sys_getpid k)) (
  replicate (Z.to_nat syscall_nr) None)))))))))))))))))))))))))))).

(** The entry of interrupt 0x80: the number is not checked. *)
Definition syscall_handler (eax ebx ecx edx : Z) : M K Z :=
  match znth syscall_init eax with
  | Some (Some f) => f ebx ecx edx
  | _ => faultM
  end.

(** ** The stubs; [retval] is an int. *)

Definition syscall0 (NUMBER : Z) : M K Z := r ← syscall_handler NUMBER junk_ebx junk_ecx junk_edx; mret (s32 r).
Definition syscall1 (NUMBER ARG1 : Z) : M K Z := r ← syscall_handler NUMBER (u32 ARG1) junk_ecx junk_edx; mret (s32 r).
Definition syscall2 (NUMBER ARG1 ARG2 : Z) : M K Z := r ← syscall_handler NUMBER (u32 ARG1) (u32 ARG2) junk_edx; mret (s32 r).
Definition syscall3 (NUMBER ARG1 ARG2 ARG3 : Z) : M K Z :=
  r ← syscall_handler NUMBER (u32 ARG1) (u32 ARG2) (u32 ARG3); mret (s32 r).

Definition getpid : M K Z := r ← syscall0 SYS_GETPID; mret (u32 r).
Definition write (fd buf count : Z) : M K Z := r ← syscall3 SYS_WRITE fd buf count; mret (u32 r).
Definition malloc (size : Z) : M K Z := r ← syscall1 SYS_MALLOC size; mret (u32 r).
Definition free (ptr : Z) : M K unit := _ ← syscall1 SYS_FREE ptr; mret tt.
Definition fork : M K Z := r ← syscall0 SYS_FORK; mret (s16 r).
Definition read (fd buf count : Z) : M K Z := r ← syscall3 SYS_READ fd buf count; mret (s32 r).
Definition putchar (char_asci : Z) : M K unit := _ ← syscall1 SYS_PUTCHAR char_asci; mret tt.
Definition clear : M K unit := _ ← syscall0 SYS_CLEAR; mret tt.
Definition getcwd (buf size : Z) : M K Z := r ← syscall2 SYS_GETCWD buf size; mret (u32 r).
Definition open (pathname flag : Z) : M K Z := r ← syscall2 SYS_OPEN pathname flag; mret (s32 r).
Definition close (fd : Z) : M K Z := r ← syscall1 SYS_CLOSE fd; mret (s32 r).
Definition lseek (fd offset whence : Z) : M K Z := r ← syscall3 SYS_LSEEK fd offset whence; mret (s32 r).
Definition unlink (pathname : Z) : M K Z := r ← syscall1 SYS_UNLINK pathname; mret (s32 r).
Definition mkdir (pathname : Z) : M K Z := r ← syscall1 SYS_MKDIR pathname; mret (s32 r).
Definition opendir (name : Z) : M K Z := r ← syscall1 SYS_OPENDIR name; mret (u32 r).
Definition closedir (dir : Z) : M K Z := r ← syscall1 SYS_CLOSEDIR dir; mret (s32 r).
Definition chdir (path : Z) : M K Z := r ← syscall1 SYS_CHDIR path; mret (s32 r).
Definition rmdir (pathname : Z) : M K Z := r ← syscall1 SYS_RMDIR pathname; mret (s32 r).
Definition readdir (dir : Z) : M K Z := r ← syscall1 SYS_READDIR dir; mret (u32 r).
Definition rewinddir (dir : Z) : M K unit := _ ← syscall1 SYS_REWINDDIR dir; mret tt.
Definition stat (path buf : Z) : M K Z := r ← syscall2 SYS_STAT path buf; mret (s32 r).
Definition ps : M K unit := _ ← syscall0 SYS_PS; mret tt.
Definition execv (pathname argv : Z) : M K Z := r ← syscall2 SYS_EXECV pathname argv; mret (s32 r).
Definition exit (status : Z) : M K unit := _ ← syscall1 SYS_EXIT status; mret tt.
Definition wait (status : Z) : M K Z := r ← syscall1 SYS_WAIT status; mret (s16 r).
Definition pipe (pipefd : Z) : M K Z := r ← syscall1 SYS_PIPE pipefd; mret (s32 r).
Definition fd_redirect (old_local_fd new_local_fd : Z) : M K unit := _ ← syscall2 SYS_FD_REDIRECT old_local_fd new_local_fd; mret tt.
Definition help : M K unit := _ ← syscall0 SYS_HELP; mret tt.

(** ** Words *)

Lemma s32_u32 z : s32 (u32 z) = s32 z.
Proof. unfold s32, u32. rewrite Z.add_mod_idemp_l by lia. done. Qed.
Lemma u32_s32 z : u32 (s32 z) = u32 z.
Proof. unfold s32, u32. rewrite Zminus_mod, Z.mod_mod, <- Zminus_mod by lia. f_equal. lia. Qed.
Lemma u32_u32 z : u32 (u32 z) = u32 z.
Proof. unfold u32. by rewrite Z.mod_mod by lia. Qed.
Lemma s16_s32 z : s16 (s32 z) = s16 z.
Proof. unfold s16, s32. f_equal. change 4294967296 with (65536 * 65536). rewrite Z.rem_mul_r by lia. dlia. Qed.
Lemma s16_u32 z : s16 (u32 z) = s16 z.
Proof. unfold s16, u32. f_equal. dlia. Qed.
Lemma u8_u32 z : u8 (u32 z) = u8 z.
Proof. unfold u8, u32. dlia. Qed.
Lemma s8_u32 z : s8 (u32 z) = s8 z.
Proof. unfold s8, u32. dlia. Qed.
Lemma s32_s32 z : s32 (s32 z) = s32 z.
Proof. rewrite <- s32_u32, u32_s32, s32_u32. done. Qed.

(** The runs of the stubs are the runs of the handlers. *)
Lemma syscall_handler_installed n f b c d s :
  znth syscall_init n = Some (Some f) -> syscall_handler n b c d s = f b c d s.
Proof. unfold syscall_handler. by intros ->. Qed.

Ltac arrive := intros;
  cbv beta delta [getpid write malloc free fork read putchar clear getcwd open close lseek unlink mkdir opendir closedir
    chdir rmdir readdir rewinddir stat ps execv exit wait pipe fd_redirect help syscall0 syscall1 syscall2 syscall3];
  unfold mbind, M_bind, mret, M_ret;
  erewrite syscall_handler_installed by reflexivity;
  unfold returns, nothing, mbind, M_bind, mret, M_ret;
  rewrite ?s32_u32, ?u32_u32, ?u8_u32, ?s8_u32;
  match goal with |- context [match ?m with _ => _ end] =>
    lazymatch m with
    | match _ with _ => _ end => fail
    | _ => destruct m as [p| | | |]; try done; destruct p as [p ?]; try destruct p
    end
  end; try done;
  rewrite ?s32_u32, ?u32_s32, ?u32_u32, ?s16_s32, ?s16_u32, ?s32_s32; auto.

(** C18: every system call arrives.  Whatever the registers a stub leaves
    alone hold, each of the 28 stubs runs the handler of its name - on the
    arguments given to the stub, in their order, each as a value of the
    handler's parameter type - and returns its result as a value of the
    stub's own type; a number above the last one is not a call.  [write] is
    declared unsigned: the -1 of a failed write comes back as 4294967295. *)
Theorem syscalls_arrive s :
  (getpid s = (r ← k_sys_getpid k; mret (u32 r)) s) /\
  (forall fd buf count, write fd buf count s = (r ← k_sys_write k (s32 fd) (u32 buf) (u32 count); mret (u32 r)) s) /\
  (forall size, malloc size s = (r ← k_sys_malloc k (u32 size); mret (u32 r)) s) /\
  (forall ptr, free ptr s = k_sys_free k (u32 ptr) s) /\
  (fork s = (r ← k_sys_fork k; mret (s16 r)) s) /\
  (forall fd buf count, read fd buf count s = (r ← k_sys_read k (s32 fd) (u32 buf) (u32 count); mret (s32 r)) s) /\
  (forall char_asci, putchar char_asci s = k_sys_putchar k (s8 char_asci) s) /\
  (clear s = k_cls_screen k s) /\
  (forall buf size, getcwd buf size s = (r ← k_sys_getcwd k (u32 buf) (u32 size); mret (u32 r)) s) /\
  (forall pathname flag, open pathname flag s = (r ← k_sys_open k (u32 pathname) (u8 flag); mret (s32 r)) s) /\
  (forall fd, close fd s = (r ← k_sys_close k (s32 fd); mret (s32 r)) s) /\
  (forall fd offset whence, lseek fd offset whence s = (r ← k_sys_lseek k (s32 fd) (s32 offset) (u8 whence); mret (s32 r)) s) /\
  (forall pathname, unlink pathname s = (r ← k_sys_unlink k (u32 pathname); mret (s32 r)) s) /\
  (forall pathname, mkdir pathname s = (r ← k_sys_mkdir k (u32 pathname); mret (s32 r)) s) /\
  (forall name, opendir name s = (r ← k_sys_opendir k (u32 name); mret (u32 r)) s) /\
  (forall dir, closedir dir s = (r ← k_sys_closedir k (u32 dir); mret (s32 r)) s) /\
  (forall path, chdir path s = (r ← k_sys_chdir k (u32 path); mret (s32 r)) s) /\
  (forall pathname, rmdir pathname s = (r ← k_sys_rmdir k (u32 pathname); mret (s32 r)) s) /\
  (forall dir, readdir dir s = (r ← k_sys_readdir k (u32 dir); mret (u32 r)) s) /\
  (forall dir, rewinddir dir s = k_sys_rewinddir k (u32 dir) s) /\
  (forall path buf, stat path buf s = (r ← k_sys_stat k (u32 path) (u32 buf); mret (s32 r)) s) /\
  (ps s = k_sys_ps k s) /\
  (forall pathname argv, execv pathname argv s = (r ← k_sys_execv k (u32 pathname) (u32 argv); mret (s32 r)) s) /\
  (forall status, exit status s = k_sys_exit k (s32 status) s) /\
  (forall status, wait status s = (r ← k_sys_wait k (u32 status); mret (s16 r)) s) /\
  (forall pipefd, pipe pipefd s = (r ← k_sys_pipe k (u32 pipefd); mret (s32 r)) s) /\
  (forall old_local_fd new_local_fd, fd_redirect old_local_fd new_local_fd s = k_sys_fd_redirect k (u32 old_local_fd) (u32 new_local_fd) s) /\
  (help s = k_sys_help k s) /\
  (forall n ebx ecx edx, n < 0 \/ SYS_HELP < n -> syscall_handler n ebx ecx edx s = Fault).
Proof.
  do 27 (split; [solve [arrive]|]). split; [arrive|].
  intros n b c d Hn. unfold syscall_handler, SYS_HELP in *.
  assert (n < 0 \/ n = 28 \/ n = 29 \/ n = 30 \/ n = 31 \/ 32 <= n) as [? | [-> | [-> | [-> | [-> | ?]]]]] by lia;
    try reflexivity; rewrite (proj2 (znth_None _ _)); auto.
Qed.
End syscall.
