(* ===== verification/Interrupt.v ===== *)
(** kernel/interrupt.c: the interrupt flag and the interrupt descriptor
    table.  The state is the EFLAGS register the primitives test and the
    [sti]/[cli] instructions change. *)

From S2P Require Import Prelude.

Open Scope Z_scope.

Inductive intr_status := INTR_OFF | INTR_ON.

Global Instance intr_status_eq_dec : EqDecision intr_status.
Proof. solve_decision. Defined.

Definition EFLAGS_IF : Z := 0x00000200.

Record cpu := Cpu { eflags : Z }.

Definition sti (c : cpu) : cpu := Cpu (Z.lor (eflags c) EFLAGS_IF).
Definition cli (c : cpu) : cpu := Cpu (Z.ldiff (eflags c) EFLAGS_IF).

Definition intr_get_status : M cpu intr_status :=
  eflags ← gets eflags;
  mret (if negb (Z.land EFLAGS_IF eflags =? 0) then INTR_ON else INTR_OFF).

Definition intr_enable : M cpu intr_status :=
  st ← intr_get_status;
  if decide (st = INTR_ON) then mret INTR_ON
  else (modify sti;; mret INTR_OFF).

Definition intr_disable : M cpu intr_status :=
  st ← intr_get_status;
  if decide (st = INTR_ON) then (modify cli;; mret INTR_ON)
  else mret INTR_OFF.

Definition intr_set_status (status : intr_status) : M cpu intr_status :=
  match status with
  | INTR_ON => intr_enable
  | INTR_OFF => intr_disable
  end.

(** ** Interrupt gates *)

Definition SELECTOR_K_CODE : Z := Z.shiftl 1 3 + Z.shiftl 0 2 + 0.
Definition IDT_DESC_CNT : Z := 0x81.
Definition IDT_DESC_ATTR_DPL0 : Z := Z.shiftl 1 7 + Z.shiftl 0 5 + 0xE.
Definition IDT_DESC_ATTR_DPL3 : Z := Z.shiftl 1 7 + Z.shiftl 3 5 + 0xE.

Record gate_desc := GateDesc {
  func_offset_low_word : Z;
  selector : Z;
  dcount : Z;
  attribute : Z;
  func_offset_high_word : Z
}.

Definition make_idt_desc (attr function : Z) : gate_desc :=
  {| func_offset_low_word := u16 (Z.land function 0x0000FFFF);
     selector := u16 SELECTOR_K_CODE;
     dcount := 0;
     attribute := u8 attr;
     func_offset_high_word := u16 (Z.shiftr (Z.land function 0xFFFF0000) 16) |}.

(** [idt_desc_init] over the entry table of kernel.S; the last gate is then
    overwritten with the system call handler. *)
Definition idt_desc_init (intr_entry_table : list Z) (syscall_handler : Z) : res (list gate_desc) :=
  let lastindex := IDT_DESC_CNT - 1 in
  if zlen intr_entry_table <? IDT_DESC_CNT then Fault
  else
    let idt := map (make_idt_desc IDT_DESC_ATTR_DPL0)
                 (take (Z.to_nat IDT_DESC_CNT) intr_entry_table) in
    Ok (zupd idt lastindex (make_idt_desc IDT_DESC_ATTR_DPL3 syscall_handler)).

(** ** The flag *)

Definition IF_on (c : cpu) : bool := negb (Z.land EFLAGS_IF (eflags c) =? 0).

Lemma IF_testbit c : IF_on c = Z.testbit (eflags c) 9.
Proof.
  unfold IF_on, EFLAGS_IF. destruct (Z.testbit (eflags c) 9) eqn:E.
  - apply negb_true_iff, Z.eqb_neq. intros H.
    apply (f_equal (λ z, Z.testbit z 9)) in H.
    rewrite Z.land_spec, E in H. done.
  - apply negb_false_iff, Z.eqb_eq. apply Z.bits_inj'. intros n Hn.
    rewrite Z.land_spec, Z.bits_0. change 0x200 with (2 ^ 9).
    rewrite Z.pow2_bits_eqb by lia. destruct (Z.eqb_spec 9 n) as [<-|]; [by rewrite E|done].
Qed.

Lemma sti_cli c : IF_on c = true -> sti (cli c) = c.
Proof.
  rewrite IF_testbit. intros H. destruct c as [f]. unfold sti, cli; simpl in *. f_equal.
  apply Z.bits_inj'. intros n Hn. unfold EFLAGS_IF. change 0x200 with (2 ^ 9).
  rewrite Z.lor_spec, Z.ldiff_spec, Z.pow2_bits_eqb by lia.
  destruct (Z.eqb_spec 9 n) as [<-|]; [by rewrite H|].
  simpl. by rewrite andb_true_r, orb_false_r.
Qed.

Lemma cli_off c : IF_on (cli c) = false.
Proof. rewrite IF_testbit. simpl. by rewrite Z.ldiff_spec, andb_false_r. Qed.

Lemma sti_on c : IF_on (sti c) = true.
Proof. rewrite IF_testbit. simpl. by rewrite Z.lor_spec, orb_true_r. Qed.

Definition status_of (c : cpu) : intr_status := if IF_on c then INTR_ON else INTR_OFF.

Lemma intr_get_status_eq c : intr_get_status c = Ok (status_of c, c).
Proof. reflexivity. Qed.

Lemma intr_disable_eq c :
  intr_disable c = Ok (status_of c, if IF_on c then cli c else c).
Proof.
  unfold intr_disable, mbind, M_bind. rewrite intr_get_status_eq.
  unfold status_of. by destruct (IF_on c).
Qed.

Lemma intr_enable_eq c :
  intr_enable c = Ok (status_of c, if IF_on c then c else sti c).
Proof.
  unfold intr_enable, mbind, M_bind. rewrite intr_get_status_eq.
  unfold status_of. by destruct (IF_on c).
Qed.

Lemma disable_off c : IF_on (if IF_on c then cli c else c) = false.
Proof. destruct (IF_on c) eqn:E; [apply cli_off|done]. Qed.

(** A critical section that leaves EFLAGS alone restores it exactly. *)
Lemma intr_bracket c :
  exists r, intr_set_status (status_of c) (if IF_on c then cli c else c) = Ok (r, c).
Proof.
  unfold status_of. destruct (IF_on c) eqn:E; simpl.
  - rewrite intr_enable_eq, cli_off, sti_cli by done. eauto.
  - rewrite intr_disable_eq, E. eauto.
Qed.

(** ** Properties *)

(** A gate holds the whole handler address, split in two words, and the DPL
    the attribute asks for. *)
Theorem make_idt_desc_address attr f : 0 <= f < 4294967296 ->
  let g := make_idt_desc attr f in
  func_offset_low_word g + 65536 * func_offset_high_word g = f /\
  0 <= func_offset_low_word g < 65536 /\ 0 <= func_offset_high_word g < 65536.
Proof.
  intros Hf g. subst g. unfold make_idt_desc; simpl.
  change 0x0000FFFF with (Z.ones 16). rewrite Z.land_ones by lia.
  replace (Z.shiftr (Z.land f 0xFFFF0000) 16) with (f / 65536).
  - change (2 ^ 16) with 65536.
    pose proof (Z.mod_pos_bound f 65536). pose proof (Z.div_mod f 65536).
    assert (0 <= f / 65536 < 65536)
      by (split; [apply Z.div_pos; lia|apply Z.div_lt_upper_bound; lia]).
    wsimpl. lia.
  - change 0xFFFF0000 with (Z.shiftl (Z.ones 16) 16).
    rewrite Z.shiftr_land, Z.shiftr_shiftl_l by lia. change (Z.shiftl (Z.ones 16) (16 - 16)) with (Z.ones 16).
    rewrite Z.land_ones, Z.shiftr_div_pow2 by lia. change (2 ^ 16) with 65536.
    rewrite Z.mod_small; [done|].
    split; [apply Z.div_pos; lia|apply Z.div_lt_upper_bound; lia].
Qed.
