(* ===== verification/Irq.v ===== *)
(** kernel/interrupt.c, second half: the 8259A interrupt controllers, the
    table of handlers the entries of kernel.S call, and what an interrupt ends
    up in.

    Port writes are collected as a list; [pic] is the state such a list leaves
    a controller in, by the initialisation sequence of the 8259A: a command
    word with bit 4 set starts it, three data words follow (vector offset,
    cascade, mode), and every later data word is the mask.  A handler is the
    address of a C function. *)

From S2P Require Import Prelude Interrupt.

Open Scope Z_scope.

Definition PIC_M_CTRL : Z := 0x20.
Definition PIC_M_DATA : Z := 0x21.
Definition PIC_S_CTRL : Z := 0xa0.
Definition PIC_S_DATA : Z := 0xa1.

(** [outb] of lib/kernel/io.h: the writes so far, the oldest first. *)
Definition outb (port data : Z) : M (list (Z * Z)) unit := modify (λ w, w ++ [(u16 port, u8 data)]).

Definition pic_init : M (list (Z * Z)) unit :=
  outb PIC_M_CTRL 0x11;;
  outb PIC_M_DATA 0x20;;
  outb PIC_M_DATA 0x04;;
  outb PIC_M_DATA 0x01;;
  outb PIC_S_CTRL 0x11;;
  outb PIC_S_DATA 0x28;;
  outb PIC_S_DATA 0x02;;
  outb PIC_S_DATA 0x01;;
  outb PIC_M_DATA 0xf8;;
  outb PIC_S_DATA 0xbf.

(** ** The table of handlers *)

Record itable := ITable { idt_table : list Z; intr_name : list string }.

Definition exception_names : list string :=
  ["#DE Divide Error"; "#DB Debug Exception"; "NMI Interrupt"; "#BP Breakpoint Exception";
   "#OF Overflow Exception"; "#BR BOUND Range Exceeded Exception"; "#UD Invalid Opcode Exception";
   "#NM Device Not Available Exception"; "#DF Double Fault Exception"; "Coprocessor Segment Overrun";
   "#TS Invalid TSS Exception"; "#NP Segment Not Present"; "#SS Stack Fault Exception";
   "#GP General Protection Exception"; "#PF Page-Fault Exception"; "unknown";
   "#MF x87 FPU Floating-Point Error"; "#AC Alignment Check Exception"; "#MC Machine-Check Exception";
   "#XF SIMD Floating-Point Exception"]%string.

Definition exception_init (general_intr_handler : Z) : itable :=
  ITable (replicate (Z.to_nat IDT_DESC_CNT) general_intr_handler)
    (exception_names ++ replicate (Z.to_nat IDT_DESC_CNT - 20) "unknown"%string).

(** [idt_table[vector_no] = function] *)
Definition register_handler (vector_no function : Z) : M itable unit := λ t,
  if u8 vector_no <? zlen (idt_table t) then Ok (tt, ITable (zupd (idt_table t) (u8 vector_no) function) (intr_name t))
  else Fault.

(** The handler of everything without one of its own: two spurious vectors
    are ignored, for any other the text goes to the screen and the machine
    stops. *)
Definition general_intr_handler (vec_nr : Z) : M itable unit := λ t,
  if (vec_nr =? 0x27) || (vec_nr =? 0x2f) then Ok (tt, t)
  else match znth (intr_name t) vec_nr with
       | Some what => Panic what
       | None => Fault
       end.

(** [call [idt_table + vec * 4]] of the entry of a vector. *)
Definition intr_entry (vec : Z) (t : itable) : res Z := of_option (znth (idt_table t) vec).

(** The machine as initialisation sees it: the gates, the handlers and the
    port writes so far. *)
Record hw := Hw { idt : list gate_desc; tab : itable; ports : list (Z * Z) }.
Definition on_tab {A} (m : M itable A) : M hw A := zoom tab (λ t h, Hw (idt h) t (ports h)) m.
Definition on_ports {A} (m : M (list (Z * Z)) A) : M hw A := zoom ports (λ w h, Hw (idt h) (tab h) w) m.

(** [idt_init] without [lidt]. *)
Definition idt_init (intr_entry_table : list Z) (syscall_handler general_intr_handler : Z) : M hw unit :=
  gates ← lift (idt_desc_init intr_entry_table syscall_handler);
  modify (λ h, Hw gates (exception_init general_intr_handler) (ports h));;
  on_ports pic_init.

(** ** The controllers *)

Record pic := Pic { offset : option Z; cascade : option Z; mode : option Z; imr : option Z; expects : nat }.
Definition pic_reset : pic := Pic None None None None 0.

Definition pic_write (ctrl : bool) (x : Z) (p : pic) : pic :=
  if ctrl then if Z.testbit x 4 then Pic None None None None 3 else p
  else match expects p with
       | 3%nat => Pic (Some x) (cascade p) (mode p) (imr p) 2
       | 2%nat => Pic (offset p) (Some x) (mode p) (imr p) 1
       | 1%nat => Pic (offset p) (cascade p) (Some x) (imr p) 0
       | _ => Pic (offset p) (cascade p) (mode p) (Some x) 0
       end.

(** A controller with its ports after some writes. *)
Definition pic_after (ctrl data : Z) (w : list (Z * Z)) : pic :=
  fold_left (λ p x, if fst x =? ctrl then pic_write true (snd x) p
                    else if fst x =? data then pic_write false (snd x) p else p) w pic_reset.

(** What line [irq], 0 to 15, raises: the second controller's lines come
    through line 2 of the first. *)
Definition irq_vector (w : list (Z * Z)) (irq : Z) : option Z :=
  let m := pic_after PIC_M_CTRL PIC_M_DATA w in
  let s := pic_after PIC_S_CTRL PIC_S_DATA w in
  let open p n := match imr p with Some k => negb (Z.testbit k n) | None => false end in
  if irq <? 8 then if open m irq then (λ o, o + irq) <$> offset m else None
  else if open m 2 && open s (irq - 8) && bool_decide (cascade m = Some 4) && bool_decide (cascade s = Some 2)
       then (λ o, o + (irq - 8)) <$> offset s else None.

(** The lines nobody registers a handler for, and the second disk channel,
    stay masked. *)
Definition served : list Z := [0; 1; 2; 14].

Lemma pic_init_run w : pic_init w = Ok (tt, w ++
  [(0x20, 0x11); (0x21, 0x20); (0x21, 0x04); (0x21, 0x01); (0xa0, 0x11); (0xa1, 0x28); (0xa1, 0x02);
   (0xa1, 0x01); (0x21, 0xf8); (0xa1, 0xbf)]).
Proof.
  unfold pic_init, outb, modify, mbind, M_bind. by rewrite <- !app_assoc.
Qed.

Lemma pic_after_init w :
  exists w', pic_init w = Ok (tt, w') /\
    pic_after PIC_M_CTRL PIC_M_DATA w' = Pic (Some 0x20) (Some 0x04) (Some 0x01) (Some 0xf8) 0 /\
    pic_after PIC_S_CTRL PIC_S_DATA w' = Pic (Some 0x28) (Some 0x02) (Some 0x01) (Some 0xbf) 0.
Proof.
  eexists. split; [apply pic_init_run|]. unfold pic_after. rewrite !fold_left_app.
  split; reflexivity.
Qed.

Lemma irq_vector_init w irq : 0 <= irq < 16 ->
  exists w', pic_init w = Ok (tt, w') /\
    irq_vector w' irq = if decide (irq ∈ served) then Some (0x20 + irq) else None.
Proof.
  intros Hi. destruct (pic_after_init w) as (w' & Hr & Hm & Hs). exists w'. split; [exact Hr|].
  unfold irq_vector. rewrite Hm, Hs.
  assert (Hc : irq ∈ seqZ 0 16) by (apply elem_of_seqZ; lia). vm_compute in Hc.
  repeat (apply elem_of_cons in Hc as [->|Hc]; [reflexivity|]). by apply elem_of_nil in Hc.
Qed.
