(* ===== verification/LinkedList.v ===== *)
(** lib/kernel/list.c: the intrusive doubly linked list of the kernel.  The
    state is the processor (for the interrupt flag the operations save and
    restore) and the memory that holds [struct list_elem] nodes; addresses
    are numbers and NULL is 0.  A [struct list] at [plist] has its [head]
    node at [plist] and its [tail] node at [plist + 8]. *)

From S2P Require Import Prelude Interrupt.

Open Scope Z_scope.

Record list_elem := ListElem { e_prev : Z; e_next : Z }.

Record lst := Lst { l_cpu : cpu; nodes : gmap Z list_elem }.

Definition NULL : Z := 0.
Definition list_head (plist : Z) : Z := plist.
Definition list_tail (plist : Z) : Z := plist + 8.

(** [elem2entry(type, member, elem)]: the address of the enclosing structure
    from the offset of the member. *)
Definition elem2entry (offset elem_ptr : Z) : Z := elem_ptr - offset.

Definition on_cpu {A} (m : M cpu A) : M lst A :=
  zoom l_cpu (λ c s, Lst c (nodes s)) m.

Definition rd_prev (a : Z) : M lst Z := λ s,
  match nodes s !! a with Some n => Ok (e_prev n, s) | None => Fault end.
Definition rd_next (a : Z) : M lst Z := λ s,
  match nodes s !! a with Some n => Ok (e_next n, s) | None => Fault end.

Definition set_prev (a v : Z) (m : gmap Z list_elem) : gmap Z list_elem :=
  alter (λ n, ListElem v (e_next n)) a m.
Definition set_next (a v : Z) (m : gmap Z list_elem) : gmap Z list_elem :=
  alter (λ n, ListElem (e_prev n) v) a m.

Definition wr_prev (a v : Z) : M lst unit := λ s,
  match nodes s !! a with
  | Some _ => Ok (tt, Lst (l_cpu s) (set_prev a v (nodes s)))
  | None => Fault
  end.
Definition wr_next (a v : Z) : M lst unit := λ s,
  match nodes s !! a with
  | Some _ => Ok (tt, Lst (l_cpu s) (set_next a v (nodes s)))
  | None => Fault
  end.

Definition list_init (l : Z) : M lst unit :=
  wr_prev (list_head l) NULL;;
  wr_next (list_head l) (list_tail l);;
  wr_prev (list_tail l) (list_head l);;
  wr_next (list_tail l) NULL.

Definition list_insert_before (before elem : Z) : M lst unit :=
  old_status ← on_cpu intr_disable;
  p ← rd_prev before;
  wr_next p elem;;
  p ← rd_prev before;
  wr_prev elem p;;
  wr_next elem before;;
  wr_prev before elem;;
  _ ← on_cpu (intr_set_status old_status);
  mret tt.

Definition list_push (plist elem : Z) : M lst unit :=
  first ← rd_next (list_head plist);
  list_insert_before first elem.

Definition list_append (plist elem : Z) : M lst unit :=
  list_insert_before (list_tail plist) elem.

Definition list_remove (pelem : Z) : M lst unit :=
  old_status ← on_cpu intr_disable;
  p ← rd_prev pelem;
  n ← rd_next pelem;
  wr_next p n;;
  n ← rd_next pelem;
  p ← rd_prev pelem;
  wr_prev n p;;
  _ ← on_cpu (intr_set_status old_status);
  mret tt.

Definition list_pop (plist : Z) : M lst Z :=
  elem ← rd_next (list_head plist);
  list_remove elem;;
  mret elem.

Definition list_empty (plist : Z) : M lst bool :=
  n ← rd_next (list_head plist);
  mret (n =? list_tail plist).

(** Every loop below visits each node at most once. *)
Definition list_fuel (s : lst) : nat := S (size (nodes s)).

Definition elem_find (plist obj_elem : Z) : M lst bool :=
  elem ← rd_next (list_head plist);
  fuel ← gets list_fuel;
  loop fuel (λ elem,
    if elem =? list_tail plist then mret (inr false)
    else if elem =? obj_elem then mret (inr true)
    else (n ← rd_next elem; mret (inl n))) elem.

Definition list_len (plist : Z) : M lst Z :=
  elem ← rd_next (list_head plist);
  fuel ← gets list_fuel;
  loop fuel (λ '(elem, length),
    if elem =? list_tail plist then mret (inr length)
    else (n ← rd_next elem; mret (inl (n, u32 (length + 1))))) (elem, 0).

(** The callback may change the rest of the caller's state [S]; [g] and [p]
    reach the list memory inside it. *)
Definition list_traversal {S} (g : S -> lst) (p : lst -> S -> S)
    (func : Z -> Z -> M S bool) (plist arg : Z) : M S Z :=
  elem ← zoom g p (rd_next (list_head plist));
  empty ← zoom g p (list_empty plist);
  if (empty : bool) then mret NULL
  else
    fuel ← gets (λ s, list_fuel (g s));
    loop fuel (λ elem,
      if elem =? list_tail plist then mret (inr NULL)
      else
        hit ← func elem arg;
        if (hit : bool) then mret (inr elem)
        else (n ← zoom g p (rd_next elem); mret (inl n))) elem.

(** ** The list a memory represents *)

Definition nxt (m : gmap Z list_elem) (a : Z) : option Z := e_next <$> m !! a.
Definition prv (m : gmap Z list_elem) (a : Z) : option Z := e_prev <$> m !! a.

Fixpoint chain (m : gmap Z list_elem) (ns : list Z) : Prop :=
  match ns with
  | a :: ((b :: _) as r) => nxt m a = Some b /\ prv m b = Some a /\ chain m r
  | _ => True
  end.

(** All nodes of the list at [pl] with elements [xs]. *)
Definition list_nodes (pl : Z) (xs : list Z) : list Z :=
  list_head pl :: xs ++ [list_tail pl].

Record dlist (m : gmap Z list_elem) (pl : Z) (xs : list Z) : Prop := {
  dl_nodup : NoDup (list_nodes pl xs);
  dl_chain : chain m (list_nodes pl xs);
  dl_head : prv m (list_head pl) = Some NULL;
  dl_tail : nxt m (list_tail pl) = Some NULL
}.

(** Memory outside [ns] is the same. *)
Definition same_outside (ns : list Z) (m m' : gmap Z list_elem) : Prop :=
  forall x, x ∉ ns -> m' !! x = m !! x.

(** ** Chains *)

Lemma nxt_set_next m a v x : nxt (set_next a v m) x =
  if decide (a = x) then (λ _, v) <$> m !! x else nxt m x.
Proof.
  unfold nxt, set_next. rewrite lookup_alter. case_decide; subst; [|done].
  by destruct (m !! x).
Qed.
Lemma prv_set_next m a v x : prv (set_next a v m) x = prv m x.
Proof.
  unfold prv, set_next. rewrite lookup_alter. case_decide; subst; [|done].
  by destruct (m !! x).
Qed.
Lemma prv_set_prev m a v x : prv (set_prev a v m) x =
  if decide (a = x) then (λ _, v) <$> m !! x else prv m x.
Proof.
  unfold prv, set_prev. rewrite lookup_alter. case_decide; subst; [|done].
  by destruct (m !! x).
Qed.
Lemma nxt_set_prev m a v x : nxt (set_prev a v m) x = nxt m x.
Proof.
  unfold nxt, set_prev. rewrite lookup_alter. case_decide; subst; [|done].
  by destruct (m !! x).
Qed.
Lemma is_Some_set_next m a v x : is_Some (set_next a v m !! x) <-> is_Some (m !! x).
Proof.
  unfold set_next. rewrite lookup_alter. case_decide; subst; [|done].
  rewrite fmap_is_Some. done.
Qed.
Lemma is_Some_set_prev m a v x : is_Some (set_prev a v m !! x) <-> is_Some (m !! x).
Proof.
  unfold set_prev. rewrite lookup_alter. case_decide; subst; [|done].
  rewrite fmap_is_Some. done.
Qed.
Lemma nxt_is_Some m x v : nxt m x = Some v -> is_Some (m !! x).
Proof. unfold nxt. destruct (m !! x); [eauto|done]. Qed.
Lemma prv_is_Some m x v : prv m x = Some v -> is_Some (m !! x).
Proof. unfold prv. destruct (m !! x); [eauto|done]. Qed.

Lemma chain_split m L p R : chain m (L ++ p :: R) <-> chain m (L ++ [p]) /\ chain m (p :: R).
Proof.
  induction L as [|a L IH]; [simpl; tauto|].
  destruct L as [|b L]; simpl in *; [tauto|]. rewrite IH. simpl. tauto.
Qed.

Lemma chain_set_next m a v L p : a ∉ L -> chain m (L ++ [p]) -> chain (set_next a v m) (L ++ [p]).
Proof.
  induction L as [|b L IH]; [done|]. intros [Hne Hni]%not_elem_of_cons Hc.
  destruct L as [|c L]; simpl in *.
  - destruct Hc as (Hn & Hp & _). rewrite nxt_set_next, prv_set_next, decide_False; done.
  - destruct Hc as (Hn & Hp & Hr). rewrite nxt_set_next, prv_set_next, decide_False by done.
    split_and!; try done. by apply IH.
Qed.

Lemma chain_set_prev m a v p R : a ∉ R -> chain m (p :: R) -> chain (set_prev a v m) (p :: R).
Proof.
  revert p. induction R as [|b R IH]; [done|]. intros p [Hne Hni]%not_elem_of_cons.
  intros (Hn & Hp & Hr).
  change (nxt (set_prev a v m) p = Some b /\ prv (set_prev a v m) b = Some p /\
          chain (set_prev a v m) (b :: R)).
  rewrite nxt_set_prev, prv_set_prev, decide_False by done.
  split_and!; try done. by apply IH.
Qed.

Lemma chain_ext m m' ns : (forall x, x ∈ ns -> m' !! x = m !! x) -> chain m ns -> chain m' ns.
Proof.
  induction ns as [|a ns IH]; [done|]. destruct ns as [|b ns]; [done|].
  intros Hx (Hn & Hp & Hr). split; [|split].
  - unfold nxt in *. by rewrite Hx by set_solver.
  - unfold prv in *. by rewrite Hx by set_solver.
  - apply IH; [|done]. intros x Hi. apply Hx. set_solver.
Qed.

(** Splice [e] between two neighbours; drop [x] between two neighbours. *)
Lemma chain_insert m L p e b R :
  NoDup (L ++ p :: b :: R) -> e ∉ L ++ p :: b :: R -> is_Some (m !! e) ->
  chain m (L ++ p :: b :: R) ->
  chain (set_prev b e (set_next e b (set_prev e p (set_next p e m)))) (L ++ p :: e :: b :: R).
Proof.
  intros Hnd Hni He Hc. apply chain_split in Hc as [HL Hpb].
  destruct Hpb as (Hpn & Hbp & HR).
  apply NoDup_app in Hnd as (HndL & HdL & HndR).
  apply NoDup_cons in HndR as [Hp HndR]. apply NoDup_cons in HndR as [Hb HndR].
  apply not_elem_of_app in Hni as [HeL HeR].
  apply not_elem_of_cons in HeR as [Hep HeR]. apply not_elem_of_cons in HeR as [Heb HeR].
  assert (HpL : p ∉ L) by (intros ?; apply (HdL p); set_solver).
  assert (HbL : b ∉ L) by (intros ?; apply (HdL b); set_solver).
  assert (Hpb : p <> b) by set_solver.
  apply chain_split. split; [|split; [|split; [|split; [|split]]]].
  - destruct L as [|a L]; [done|]. simpl.
    apply chain_set_prev; [set_solver|]. apply (chain_set_next _ _ _ (a :: L) p); [done|].
    apply chain_set_prev; [set_solver|]. by apply (chain_set_next _ _ _ (a :: L) p).
  - rewrite nxt_set_prev, nxt_set_next, decide_False by done.
    rewrite nxt_set_prev, nxt_set_next, decide_True by done.
    apply nxt_is_Some in Hpn as [? ->]. done.
  - rewrite prv_set_prev, decide_False, prv_set_next, prv_set_prev, decide_True by done.
    apply (is_Some_set_next m p e) in He as [? ->]. done.
  - rewrite nxt_set_prev, nxt_set_next, decide_True by done.
    assert (Hs : is_Some (set_prev e p (set_next p e m) !! e))
      by (apply is_Some_set_prev, is_Some_set_next; done).
    destruct Hs as [? ->]. done.
  - rewrite prv_set_prev, decide_True by done.
    assert (Hs : is_Some (set_next e b (set_prev e p (set_next p e m)) !! b)).
    { apply is_Some_set_next, is_Some_set_prev, is_Some_set_next. by eapply prv_is_Some. }
    destruct Hs as [? ->]. done.
  - apply chain_set_prev; [done|].
    assert (Hgen : forall m0 y z, y ∉ b :: R -> chain m0 (b :: R) -> chain (set_next y z m0) (b :: R)).
    { intros m0 y z Hy Hc0. destruct (exists_last (l := b :: R)) as (L0 & z0 & Heq); [done|].
      rewrite Heq in *. apply chain_set_next; [set_solver|done]. }
    apply Hgen; [set_solver|]. apply chain_set_prev; [set_solver|]. apply Hgen; [set_solver|done].
Qed.

Lemma chain_delete m L p x n R :
  NoDup (L ++ p :: x :: n :: R) -> chain m (L ++ p :: x :: n :: R) ->
  chain (set_prev n p (set_next p n m)) (L ++ p :: n :: R).
Proof.
  intros Hnd Hc. apply chain_split in Hc as [HL (Hpx & Hxp & Hxn & Hnx & HR)].
  apply NoDup_app in Hnd as (HndL & HdL & HndR).
  apply NoDup_cons in HndR as [Hp HndR]. apply NoDup_cons in HndR as [Hx HndR].
  apply NoDup_cons in HndR as [Hn HndR].
  assert (HpL : p ∉ L) by (intros ?; apply (HdL p); set_solver).
  assert (HnL : n ∉ L) by (intros ?; apply (HdL n); set_solver).
  assert (Hpn : p <> n) by set_solver.
  apply chain_split. split; [|split; [|split]].
  - destruct L as [|a L]; [done|]. apply chain_set_prev; [set_solver|].
    by apply (chain_set_next _ _ _ (a :: L) p).
  - rewrite nxt_set_prev, nxt_set_next, decide_True by done.
    apply nxt_is_Some in Hpx as [? ->]. done.
  - rewrite prv_set_prev, decide_True by done.
    assert (Hs : is_Some (set_next p n m !! n)) by (apply is_Some_set_next; by eapply prv_is_Some).
    destruct Hs as [? ->]. done.
  - apply chain_set_prev; [done|].
    destruct (exists_last (l := n :: R)) as (L0 & z0 & Heq); [done|].
    rewrite Heq in *. apply chain_set_next; [set_solver|done].
Qed.

(** ** Weakest preconditions of the memory accesses *)

Section ops.
Implicit Types (s : lst) (m : gmap Z list_elem).

Lemma wp_rd_prev a v Q s : prv (nodes s) a = Some v -> Q v s -> wp (rd_prev a) Q s.
Proof.
  unfold prv, wp, rd_prev. destruct (nodes s !! a); simpl; [|done]. by intros [= ->].
Qed.
Lemma wp_rd_next a v Q s : nxt (nodes s) a = Some v -> Q v s -> wp (rd_next a) Q s.
Proof.
  unfold nxt, wp, rd_next. destruct (nodes s !! a); simpl; [|done]. by intros [= ->].
Qed.
Lemma wp_wr_prev a v (Q : unit -> lst -> Prop) s : is_Some (nodes s !! a) ->
  Q tt (Lst (l_cpu s) (set_prev a v (nodes s))) -> wp (wr_prev a v) Q s.
Proof. unfold wp, wr_prev. by intros [? ->]. Qed.
Lemma wp_wr_next a v (Q : unit -> lst -> Prop) s : is_Some (nodes s !! a) ->
  Q tt (Lst (l_cpu s) (set_next a v (nodes s))) -> wp (wr_next a v) Q s.
Proof. unfold wp, wr_next. by intros [? ->]. Qed.

Lemma rd_next_eq a v s : nxt (nodes s) a = Some v -> rd_next a s = Ok (v, s).
Proof. unfold nxt, rd_next. destruct (nodes s !! a); simpl; [|done]. by intros [= ->]. Qed.
Lemma rd_prev_eq a v s : prv (nodes s) a = Some v -> rd_prev a s = Ok (v, s).
Proof. unfold prv, rd_prev. destruct (nodes s !! a); simpl; [|done]. by intros [= ->]. Qed.

(** Code between [intr_disable] and [intr_set_status] that only touches
    memory. *)
Lemma wp_critical (body : M lst unit) m' (Q : unit -> lst -> Prop) s :
  (forall c, wp body (λ _ s', s' = Lst c m') (Lst c (nodes s))) ->
  Q tt (Lst (l_cpu s) m') ->
  wp (old_status ← on_cpu intr_disable;
      body;; _ ← on_cpu (intr_set_status old_status); mret tt) Q s.
Proof.
  intros Hb HQ. apply wp_bind, wp_zoom. unfold wp at 1.
  rewrite intr_disable_eq. simpl.
  set (c := if IF_on (l_cpu s) then cli (l_cpu s) else l_cpu s).
  apply wp_bind. eapply wp_mono; [apply Hb|]. simpl. intros _ s' ->.
  apply wp_bind, wp_zoom. unfold wp at 1. simpl.
  destruct (intr_bracket (l_cpu s)) as [r Hr]. fold c in Hr. rewrite Hr. by apply wp_ret.
Qed.

Lemma dom_set_next m a v : dom (set_next a v m) = dom m.
Proof. unfold set_next. apply dom_alter_L. Qed.
Lemma dom_set_prev m a v : dom (set_prev a v m) = dom m.
Proof. unfold set_prev. apply dom_alter_L. Qed.

Definition insert_mem (p e b : Z) m :=
  set_prev b e (set_next e b (set_prev e p (set_next p e m))).
Definition delete_mem (p n : Z) m := set_prev n p (set_next p n m).

Lemma lookup_insert_mem p e b m x : x <> p -> x <> e -> x <> b ->
  insert_mem p e b m !! x = m !! x.
Proof.
  intros. unfold insert_mem, set_prev, set_next.
  by rewrite !lookup_alter_ne by congruence.
Qed.
Lemma lookup_delete_mem p n m x : x <> p -> x <> n -> delete_mem p n m !! x = m !! x.
Proof.
  intros. unfold delete_mem, set_prev, set_next.
  by rewrite !lookup_alter_ne by congruence.
Qed.

Lemma bind_assoc_bracket {A B C} (m1 : M lst A) (m2 : A -> M lst B) (k : B -> M lst C) s :
  (m1 ≫= (λ a, m2 a ≫= k)) s = ((m1 ≫= m2) ≫= k) s.
Proof. unfold mbind, M_bind. by destruct (m1 s) as [[]| | | |]. Qed.

Lemma wp_list_insert_before p b e (Q : unit -> lst -> Prop) s :
  prv (nodes s) b = Some p -> is_Some (nodes s !! p) -> is_Some (nodes s !! e) -> e <> b ->
  Q tt (Lst (l_cpu s) (insert_mem p e b (nodes s))) ->
  wp (list_insert_before b e) Q s.
Proof.
  intros Hp Hps He Hne HQ.
  set (body := p ← rd_prev b; wr_next p e;; p ← rd_prev b;
               wr_prev e p;; wr_next e b;; wr_prev b e).
  assert (Heq : list_insert_before b e s =
    (old_status ← on_cpu intr_disable;
     body;; _ ← on_cpu (intr_set_status old_status); mret tt) s).
  { unfold list_insert_before, body, mbind, M_bind.
    destruct (on_cpu intr_disable s) as [[o s1]| | | |]; try done.
    destruct (rd_prev b s1) as [[p1 s2]| | | |]; try done.
    destruct (wr_next p1 e s2) as [[[] s3]| | | |]; try done.
    destruct (rd_prev b s3) as [[p2 s4]| | | |]; try done.
    destruct (wr_prev e p2 s4) as [[[] s5]| | | |]; try done.
    destruct (wr_next e b s5) as [[[] s6]| | | |]; try done. }
  unfold wp. rewrite Heq. fold (wp (old_status ← on_cpu intr_disable;
     body;; _ ← on_cpu (intr_set_status old_status); mret tt) Q s).
  apply (wp_critical body (insert_mem p e b (nodes s))); [|done]. intros c.
  unfold body. apply wp_bind, (wp_rd_prev _ p); [done|].
  apply wp_bind, wp_wr_next; [done|]. simpl.
  apply wp_bind, (wp_rd_prev _ p); simpl; [by rewrite prv_set_next|].
  apply wp_bind, wp_wr_prev; simpl; [by apply is_Some_set_next|].
  apply wp_bind, wp_wr_next; simpl; [by apply is_Some_set_prev, is_Some_set_next|].
  apply wp_wr_prev; simpl; [|done].
  apply is_Some_set_next, is_Some_set_prev, is_Some_set_next. by eapply prv_is_Some.
Qed.

Lemma wp_list_remove p x n (Q : unit -> lst -> Prop) s :
  prv (nodes s) x = Some p -> nxt (nodes s) x = Some n -> p <> x ->
  is_Some (nodes s !! p) -> is_Some (nodes s !! n) ->
  Q tt (Lst (l_cpu s) (delete_mem p n (nodes s))) ->
  wp (list_remove x) Q s.
Proof.
  intros Hp Hn Hne Hps Hns HQ.
  set (body := p ← rd_prev x; n ← rd_next x; wr_next p n;;
               n ← rd_next x; p ← rd_prev x; wr_prev n p).
  assert (Heq : list_remove x s =
    (old_status ← on_cpu intr_disable;
     body;; _ ← on_cpu (intr_set_status old_status); mret tt) s).
  { unfold list_remove, body, mbind, M_bind.
    destruct (on_cpu intr_disable s) as [[o s1]| | | |]; try done.
    destruct (rd_prev x s1) as [[p1 s2]| | | |]; try done.
    destruct (rd_next x s2) as [[n1 s3]| | | |]; try done.
    destruct (wr_next p1 n1 s3) as [[[] s4]| | | |]; try done.
    destruct (rd_next x s4) as [[n2 s5]| | | |]; try done.
    destruct (rd_prev x s5) as [[p2 s6]| | | |]; try done. }
  unfold wp. rewrite Heq. fold (wp (old_status ← on_cpu intr_disable;
     body;; _ ← on_cpu (intr_set_status old_status); mret tt) Q s).
  apply (wp_critical body (delete_mem p n (nodes s))); [|done]. intros c.
  unfold body. apply wp_bind, (wp_rd_prev _ p); [done|].
  apply wp_bind, (wp_rd_next _ n); [done|].
  apply wp_bind, wp_wr_next; [done|]. simpl.
  apply wp_bind, (wp_rd_next _ n); simpl.
  { rewrite nxt_set_next, decide_False by done. done. }
  apply wp_bind, (wp_rd_prev _ p); simpl; [by rewrite prv_set_next|].
  apply wp_wr_prev; simpl; [by apply is_Some_set_next|done].
Qed.
End ops.

(** ** Lists *)

Section dlist.
Implicit Types (m : gmap Z list_elem) (xs : list Z).

Lemma chain_nxt m L a b R : chain m (L ++ a :: b :: R) -> nxt m a = Some b /\ prv m b = Some a.
Proof. intros [_ (? & ? & ?)]%chain_split. done. Qed.

Lemma dlist_mapped m pl xs x : dlist m pl xs -> x ∈ list_nodes pl xs -> is_Some (m !! x).
Proof.
  intros Hd Hx. apply list_elem_of_split in Hx as (L & R & Heq).
  pose proof (dl_chain _ _ _ Hd) as Hc. rewrite Heq in Hc.
  destruct R as [|b R].
  - destruct (exists_last (l := L)) as (L' & a & ->).
    + intros ->. unfold list_nodes in Heq. apply (f_equal length) in Heq.
      simpl in Heq. rewrite length_app in Heq. simpl in Heq. lia.
    + rewrite <- app_assoc in Hc. apply chain_nxt in Hc as [_ Hp]. by eapply prv_is_Some.
  - apply chain_nxt in Hc as [Hn _]. by eapply nxt_is_Some.
Qed.

Lemma dlist_ext m m' pl xs :
  (forall x, x ∈ list_nodes pl xs -> m' !! x = m !! x) -> dlist m pl xs -> dlist m' pl xs.
Proof.
  intros Hx [Hnd Hc Hh Ht]. split; [done|by eapply chain_ext| |].
  - unfold prv in *. rewrite Hx; [done|]. apply list_elem_of_here.
  - unfold nxt in *. rewrite Hx; [done|]. unfold list_nodes. set_solver.
Qed.

Lemma dlist_first m pl xs : dlist m pl xs -> nxt m (list_head pl) = Some (hd (list_tail pl) xs).
Proof.
  intros Hd. pose proof (dl_chain _ _ _ Hd) as Hc. unfold list_nodes in Hc.
  destruct xs as [|x xs]; [by apply (chain_nxt m [] _ _ [])|].
  by apply (chain_nxt m [] _ _ (xs ++ [list_tail pl])).
Qed.

Lemma dlist_next m pl xs1 x xs2 : dlist m pl (xs1 ++ x :: xs2) ->
  nxt m x = Some (hd (list_tail pl) xs2).
Proof.
  intros Hd. pose proof (dl_chain _ _ _ Hd) as Hc. unfold list_nodes in Hc.
  rewrite <- app_assoc in Hc. simpl in Hc.
  destruct xs2 as [|y xs2]; simpl in *.
  - by apply (chain_nxt m (list_head pl :: xs1) x (list_tail pl) []).
  - by apply (chain_nxt m (list_head pl :: xs1) x y (xs2 ++ [list_tail pl])).
Qed.

Lemma NoDup_halves (L : list Z) p R h t : NoDup (L ++ p :: R) -> h ∈ L ++ [p] -> t ∈ R ->
  (h ∉ R) /\ (t ∉ L ++ [p]).
Proof.
  rewrite cons_middle, app_assoc. intros (_ & Hdisj & _)%NoDup_app Hh Ht.
  split; [by apply Hdisj|]. intros Ht'. by apply (Hdisj t).
Qed.

Lemma dlist_insert m pl xs1 xs2 e :
  dlist m pl (xs1 ++ xs2) -> e ∉ list_nodes pl (xs1 ++ xs2) -> is_Some (m !! e) ->
  exists p, prv m (hd (list_tail pl) xs2) = Some p /\ p ∈ list_nodes pl (xs1 ++ xs2) /\
    hd (list_tail pl) xs2 ∈ list_nodes pl (xs1 ++ xs2) /\
    dlist (insert_mem p e (hd (list_tail pl) xs2) m) pl (xs1 ++ e :: xs2).
Proof.
  intros [Hnd Hc Hh Ht] Hni He. set (b := hd (list_tail pl) xs2).
  destruct (exists_last (l := list_head pl :: xs1)) as (L & p & HL); [done|].
  assert (exists R, xs2 ++ [list_tail pl] = b :: R) as [R HR].
  { subst b. destruct xs2; simpl; eauto. }
  assert (Hns : list_nodes pl (xs1 ++ xs2) = L ++ p :: b :: R).
  { unfold list_nodes. rewrite <- app_assoc, HR, app_comm_cons, HL, <- app_assoc. done. }
  assert (Hns' : list_nodes pl (xs1 ++ e :: xs2) = L ++ p :: e :: b :: R).
  { unfold list_nodes. rewrite <- app_assoc. simpl. rewrite HR, app_comm_cons, HL, <- app_assoc. done. }
  assert (Hhead : list_head pl ∈ L ++ [p]) by (rewrite <- HL; apply list_elem_of_here).
  assert (Htail : list_tail pl ∈ b :: R) by (rewrite <- HR; set_solver).
  exists p. rewrite Hns in *. split_and!.
  - by apply chain_nxt in Hc as [_ ?].
  - set_solver.
  - set_solver.
  - assert (Hperm : NoDup (L ++ p :: e :: b :: R)).
    { apply (NoDup_Permutation_proper _ (e :: L ++ p :: b :: R)).
      - rewrite (cons_middle p L), (cons_middle p L (b :: R)), !app_assoc.
        symmetry. apply Permutation_middle.
      - by apply NoDup_cons. }
    pose proof (chain_insert m L p e b R Hnd Hni He Hc) as Hc'.
    pose proof (NoDup_halves L p (b :: R) (list_head pl) (list_tail pl) Hnd Hhead Htail)
      as [Hhb Htp].
    split; rewrite ?Hns'; [done|done| |].
    + unfold insert_mem. rewrite prv_set_prev, decide_False by set_solver.
      rewrite prv_set_next, prv_set_prev, decide_False by set_solver.
      by rewrite prv_set_next.
    + unfold insert_mem. rewrite nxt_set_prev, nxt_set_next, decide_False by set_solver.
      by rewrite nxt_set_prev, nxt_set_next, decide_False by set_solver.
Qed.

Lemma dlist_delete m pl xs1 x xs2 : dlist m pl (xs1 ++ x :: xs2) ->
  exists p n, prv m x = Some p /\ nxt m x = Some n /\ p <> x /\
    p ∈ list_nodes pl (xs1 ++ xs2) /\ n ∈ list_nodes pl (xs1 ++ xs2) /\
    dlist (delete_mem p n m) pl (xs1 ++ xs2).
Proof.
  intros [Hnd Hc Hh Ht].
  destruct (exists_last (l := list_head pl :: xs1)) as (L & p & HL); [done|].
  assert (exists n R, xs2 ++ [list_tail pl] = n :: R) as (n & R & HR).
  { destruct xs2; simpl; eauto. }
  assert (Hns : list_nodes pl (xs1 ++ x :: xs2) = L ++ p :: x :: n :: R).
  { unfold list_nodes. rewrite <- app_assoc. simpl. rewrite HR, app_comm_cons, HL, <- app_assoc. done. }
  assert (Hns' : list_nodes pl (xs1 ++ xs2) = L ++ p :: n :: R).
  { unfold list_nodes. rewrite <- app_assoc, HR, app_comm_cons, HL, <- app_assoc. done. }
  assert (Hhead : list_head pl ∈ L ++ [p]) by (rewrite <- HL; apply list_elem_of_here).
  assert (Htail : list_tail pl ∈ n :: R) by (rewrite <- HR; set_solver).
  rewrite Hns in *. rewrite Hns'. exists p, n.
  pose proof Hc as Hc0. apply chain_nxt in Hc0 as [_ Hxp].
  pose proof Hc as Hc1. rewrite cons_middle, app_assoc in Hc1. apply chain_nxt in Hc1 as [Hxn _].
  assert (Hnd' : NoDup (L ++ p :: n :: R)).
  { rewrite (cons_middle p) in Hnd |- *. rewrite app_assoc in *.
    apply (NoDup_Permutation_proper _ (x :: (L ++ [p]) ++ n :: R)) in Hnd;
      [by apply NoDup_cons in Hnd as [_ ?]|]. symmetry. apply Permutation_middle. }
  split_and!; [done|done| |set_solver|set_solver|].
  - apply NoDup_app in Hnd as (_ & _ & Hnd%NoDup_cons). set_solver.
  - pose proof (chain_delete m L p x n R Hnd Hc) as Hc'.
    pose proof (NoDup_halves L p (n :: R) (list_head pl) (list_tail pl) Hnd' Hhead Htail)
      as [Hhb Htp].
    split; rewrite ?Hns'; [done|done| |].
    + unfold delete_mem. rewrite prv_set_prev, decide_False by set_solver.
      by rewrite prv_set_next.
    + unfold delete_mem. by rewrite nxt_set_prev, nxt_set_next, decide_False by set_solver.
Qed.

(** A list is no longer than the memory that holds it. *)
Lemma dlist_length m pl xs : dlist m pl xs -> (length xs < size m)%nat.
Proof.
  intros Hd. assert (Hle : (length (list_nodes pl xs) <= size m)%nat).
  { rewrite <- size_dom. rewrite <- (size_list_to_set (C := gset Z)) by apply (dl_nodup _ _ _ Hd).
    apply subseteq_size. intros x Hx%elem_of_list_to_set.
    apply elem_of_dom. by eapply dlist_mapped. }
  unfold list_nodes in Hle. simpl in Hle. rewrite length_app in Hle. simpl in Hle. lia.
Qed.
End dlist.

(** ** The operations on represented lists *)

Section specs.
Implicit Types (s : lst) (xs : list Z).

(** What an operation on one list leaves alone: the processor, the set of
    mapped nodes and every node outside [ns]. *)
Definition framed (ns : list Z) s s' : Prop :=
  l_cpu s' = l_cpu s /\ dom (nodes s') = dom (nodes s) /\
  same_outside ns (nodes s) (nodes s').

Lemma framed_dlist ns s s' pl xs : framed ns s s' ->
  (forall x, x ∈ ns -> x ∉ list_nodes pl xs) ->
  dlist (nodes s) pl xs -> dlist (nodes s') pl xs.
Proof.
  intros (_ & _ & Hso) Hd. apply dlist_ext. intros x Hx. apply Hso.
  intros Hin. by apply (Hd x).
Qed.

Lemma framed_is_Some ns s s' x : framed ns s s' ->
  is_Some (nodes s !! x) -> is_Some (nodes s' !! x).
Proof. intros (_ & Hdom & _). rewrite <- !elem_of_dom, Hdom. done. Qed.

Lemma dom_insert_mem p e b m : dom (insert_mem p e b m) = dom m.
Proof. unfold insert_mem. by rewrite dom_set_prev, dom_set_next, dom_set_prev, dom_set_next. Qed.
Lemma dom_delete_mem p n m : dom (delete_mem p n m) = dom m.
Proof. unfold delete_mem. by rewrite dom_set_prev, dom_set_next. Qed.

Lemma list_insert_before_at pl xs1 xs2 e s :
  dlist (nodes s) pl (xs1 ++ xs2) -> e ∉ list_nodes pl (xs1 ++ xs2) ->
  is_Some (nodes s !! e) ->
  wp (list_insert_before (hd (list_tail pl) xs2) e)
    (λ _ s', dlist (nodes s') pl (xs1 ++ e :: xs2) /\
             framed (e :: list_nodes pl (xs1 ++ xs2)) s s') s.
Proof.
  intros Hd Hni He. destruct (dlist_insert _ _ _ _ _ Hd Hni He) as (p & Hp & Hpn & Hb & Hd').
  apply (wp_list_insert_before p); [done|by eapply dlist_mapped|done| |].
  - intros ->. done.
  - split; [done|]. split_and!; [done|apply dom_insert_mem|].
    intros x Hx. apply lookup_insert_mem; set_solver.
Qed.

Lemma list_append_ok pl xs e s :
  dlist (nodes s) pl xs -> e ∉ list_nodes pl xs -> is_Some (nodes s !! e) ->
  wp (list_append pl e)
    (λ _ s', dlist (nodes s') pl (xs ++ [e]) /\ framed (e :: list_nodes pl xs) s s') s.
Proof.
  intros Hd Hni He. pose proof (list_insert_before_at pl xs [] e s) as H.
  rewrite app_nil_r in H. by apply H.
Qed.

Lemma list_push_ok pl xs e s :
  dlist (nodes s) pl xs -> e ∉ list_nodes pl xs -> is_Some (nodes s !! e) ->
  wp (list_push pl e)
    (λ _ s', dlist (nodes s') pl (e :: xs) /\ framed (e :: list_nodes pl xs) s s') s.
Proof.
  intros Hd Hni He. unfold list_push. apply wp_bind.
  eapply wp_rd_next; [by apply dlist_first|].
  by apply (list_insert_before_at pl [] xs e s).
Qed.

Lemma list_remove_ok pl xs1 x xs2 s : dlist (nodes s) pl (xs1 ++ x :: xs2) ->
  wp (list_remove x)
    (λ _ s', dlist (nodes s') pl (xs1 ++ xs2) /\ framed (list_nodes pl (xs1 ++ xs2)) s s') s.
Proof.
  intros Hd. destruct (dlist_delete _ _ _ _ _ Hd) as (p & n & Hp & Hn & Hne & Hpn & Hnn & Hd').
  assert (Hsub : forall y, y ∈ list_nodes pl (xs1 ++ xs2) -> y ∈ list_nodes pl (xs1 ++ x :: xs2))
    by (unfold list_nodes; set_solver).
  apply (wp_list_remove p x n); try done; try (eapply dlist_mapped; [done|auto]).
  split; [done|]. split_and!; [done|apply dom_delete_mem|].
  intros y Hy. apply lookup_delete_mem; set_solver.
Qed.

Lemma list_pop_ok pl x xs s : dlist (nodes s) pl (x :: xs) ->
  wp (list_pop pl)
    (λ r s', r = x /\ dlist (nodes s') pl xs /\ framed (list_nodes pl xs) s s') s.
Proof.
  intros Hd. unfold list_pop. apply wp_bind.
  eapply wp_rd_next; [by apply dlist_first|]. simpl.
  apply wp_bind. eapply wp_mono; [apply (list_remove_ok pl [] x xs s Hd)|].
  intros _ s' [Hd' Hf]. by apply wp_ret.
Qed.

Lemma list_empty_ok pl xs s : dlist (nodes s) pl xs ->
  list_empty pl s = Ok (bool_decide (xs = []), s).
Proof.
  intros Hd. assert (H : wp (list_empty pl) (λ r s', r = bool_decide (xs = []) /\ s' = s) s).
  { unfold list_empty. apply wp_bind. eapply wp_rd_next; [by apply dlist_first|].
    apply wp_ret. split; [|done]. destruct xs as [|x xs]; simpl.
    - by rewrite Z.eqb_refl.
    - apply Z.eqb_neq. intros ->.
      pose proof (dl_nodup _ _ _ Hd) as Hnd. unfold list_nodes in Hnd.
      apply NoDup_cons in Hnd as [_ Hnd]. simpl in Hnd. apply NoDup_cons in Hnd as [Hn _].
      set_solver. }
  apply wp_run in H as (r & s' & Heq & -> & ->). done.
Qed.

Lemma dlist_not_tail pl xs s x : dlist (nodes s) pl xs -> x ∈ xs -> x <> list_tail pl.
Proof.
  intros Hd Hx ->. pose proof (dl_nodup _ _ _ Hd) as Hnd. unfold list_nodes in Hnd.
  apply NoDup_cons in Hnd as [_ Hnd]. apply NoDup_app in Hnd as (_ & Hdisj & _).
  apply (Hdisj (list_tail pl)); set_solver.
Qed.

Lemma elem_find_ok pl xs x s : dlist (nodes s) pl xs ->
  elem_find pl x s = Ok (bool_decide (x ∈ xs), s).
Proof.
  intros Hd.
  assert (H : wp (elem_find pl x) (λ r s', r = bool_decide (x ∈ xs) /\ s' = s) s).
  { unfold elem_find. apply wp_bind. eapply wp_rd_next; [by apply dlist_first|].
    apply wp_bind, wp_gets.
    apply (wp_loop (λ n e s', s' = s /\ exists ys zs, xs = ys ++ zs /\ (x ∉ ys) /\
             e = hd (list_tail pl) zs /\ n = length zs)) with (n := length xs).
    - intros n e s' (-> & ys & zs & Hxs & Hni & -> & ->).
      destruct zs as [|z zs]; simpl.
      + rewrite Z.eqb_refl. apply wp_ret. split; [|done].
        rewrite app_nil_r in Hxs. subst. by rewrite bool_decide_eq_false_2.
      + destruct (Z.eqb_spec z (list_tail pl)) as [He|_].
        { exfalso. eapply dlist_not_tail; [done| |exact He]. set_solver. }
        destruct (Z.eqb_spec z x) as [->|Hne].
        * apply wp_ret. split; [|done]. rewrite bool_decide_eq_true_2; [done|set_solver].
        * subst xs. apply wp_bind. eapply wp_rd_next; [by eapply dlist_next|].
          apply wp_ret. exists (length zs). split; [lia|]. split; [done|].
          exists (ys ++ [z]), zs. rewrite <- app_assoc. set_solver.
    - split; [done|]. exists [], xs. set_solver.
    - unfold list_fuel. pose proof (dlist_length _ _ _ Hd). lia. }
  apply wp_run in H as (r & s' & Heq & -> & ->). done.
Qed.

Lemma list_len_ok pl xs s : dlist (nodes s) pl xs -> zlen xs < 4294967296 ->
  list_len pl s = Ok (zlen xs, s).
Proof.
  intros Hd Hsmall.
  assert (H : wp (list_len pl) (λ r s', r = zlen xs /\ s' = s) s).
  { unfold list_len. apply wp_bind. eapply wp_rd_next; [by apply dlist_first|].
    apply wp_bind, wp_gets.
    apply (wp_loop (λ n '(e, len) s', s' = s /\ exists ys zs, xs = ys ++ zs /\
             e = hd (list_tail pl) zs /\ len = zlen ys /\ n = length zs)) with (n := length xs).
    - intros n [e len] s' (-> & ys & zs & Hxs & -> & -> & ->).
      destruct zs as [|z zs]; simpl.
      + rewrite Z.eqb_refl. apply wp_ret. split; [|done].
        rewrite app_nil_r in Hxs. by subst.
      + destruct (Z.eqb_spec z (list_tail pl)) as [He|_].
        { exfalso. eapply dlist_not_tail; [done| |exact He]. set_solver. }
        subst xs. apply wp_bind. eapply wp_rd_next; [by eapply dlist_next|].
        apply wp_ret. exists (length zs). split; [lia|]. split; [done|].
        exists (ys ++ [z]), zs. rewrite <- app_assoc, zlen_app.
        rewrite u32_small; [done|]. rewrite zlen_app in Hsmall.
        pose proof (zlen_nonneg ys). unfold zlen in *. simpl in *. lia.
    - split; [done|]. by exists [], xs.
    - unfold list_fuel. pose proof (dlist_length _ _ _ Hd). lia. }
  apply wp_run in H as (r & s' & Heq & -> & ->). done.
Qed.

Lemma list_init_ok pl s : is_Some (nodes s !! list_head pl) -> is_Some (nodes s !! list_tail pl) ->
  wp (list_init pl) (λ _ s', dlist (nodes s') pl [] /\ framed (list_nodes pl []) s s') s.
Proof.
  intros Hh Ht. assert (Hne : list_head pl <> list_tail pl) by (unfold list_head, list_tail; lia).
  unfold list_init.
  apply wp_bind, wp_wr_prev; [done|]. simpl.
  apply wp_bind, wp_wr_next; simpl; [by apply is_Some_set_prev|].
  apply wp_bind, wp_wr_prev; simpl; [by apply is_Some_set_next, is_Some_set_prev|].
  apply wp_wr_next; simpl; [by apply is_Some_set_prev, is_Some_set_next, is_Some_set_prev|].
  destruct Hh as [nh Hh], Ht as [nt Ht].
  split; [|split_and!].
  - split; simpl; unfold prv, nxt, set_prev, set_next, list_nodes.
    + apply NoDup_cons. split; [set_solver|apply NoDup_singleton].
    + simpl. unfold prv, nxt.
      repeat (rewrite lookup_alter; case_decide; try done). by rewrite Hh, Ht.
    + repeat (rewrite lookup_alter; case_decide; try done). by rewrite Hh.
    + repeat (rewrite lookup_alter; case_decide; try done). by rewrite Ht.
  - done.
  - simpl. by rewrite dom_set_next, dom_set_prev, dom_set_next, dom_set_prev.
  - intros x Hx. simpl. unfold list_nodes in Hx. unfold set_prev, set_next.
    rewrite !lookup_alter_ne by set_solver. done.
Qed.
End specs.

(** ** Refinement: sequences of operations *)

Inductive list_op :=
| OpPush (e : Z)
| OpAppend (e : Z)
| OpRemove (e : Z)
| OpPop.

Definition op_run (pl : Z) (op : list_op) : M lst unit :=
  match op with
  | OpPush e => list_push pl e
  | OpAppend e => list_append pl e
  | OpRemove e => list_remove e
  | OpPop => _ ← list_pop pl; mret tt
  end.

Definition ops_run (pl : Z) (ops : list list_op) : M lst unit :=
  foldr (λ op k, op_run pl op;; k) (mret tt) ops.

(** The same operations on the sequence of elements. *)
Definition op_spec (op : list_op) (xs : list Z) : list Z :=
  match op with
  | OpPush e => e :: xs
  | OpAppend e => xs ++ [e]
  | OpRemove e => filter (λ x, x <> e) xs
  | OpPop => tail xs
  end.

Definition ops_spec (ops : list list_op) (xs : list Z) : list Z :=
  foldl (λ xs op, op_spec op xs) xs ops.

(** What the callers guarantee: a node enters a list it is not on, only
    members are removed, and only a non-empty list is popped. *)
Definition op_enabled (D : gset Z) (pl : Z) (op : list_op) (xs : list Z) : Prop :=
  match op with
  | OpPush e | OpAppend e => e ∈ D /\ e ∉ list_nodes pl xs
  | OpRemove e => e ∈ xs
  | OpPop => xs <> []
  end.

Fixpoint ops_enabled (D : gset Z) (pl : Z) (ops : list list_op) (xs : list Z) : Prop :=
  match ops with
  | [] => True
  | op :: ops => op_enabled D pl op xs /\ ops_enabled D pl ops (op_spec op xs)
  end.

Global Instance op_enabled_dec D pl op xs : Decision (op_enabled D pl op xs).
Proof. destruct op; unfold op_enabled; apply _. Defined.
Global Instance ops_enabled_dec D pl ops xs : Decision (ops_enabled D pl ops xs).
Proof. revert xs. induction ops; intros xs; simpl; apply _. Defined.

Definition op_nodes (op : list_op) : list Z :=
  match op with OpPush e | OpAppend e => [e] | _ => [] end.

Lemma filter_split (xs1 xs2 : list Z) x : NoDup (xs1 ++ x :: xs2) ->
  filter (λ y, y <> x) (xs1 ++ x :: xs2) = xs1 ++ xs2.
Proof.
  intros Hnd. apply NoDup_app in Hnd as (_ & Hdisj & Hnd). apply NoDup_cons in Hnd as [Hx _].
  rewrite filter_app, filter_cons, decide_False by (intros ?; done).
  assert (Hall : forall ys : list Z, x ∉ ys -> filter (λ y, y <> x) ys = ys).
  { induction ys as [|y ys IH]; [done|]. intros [Hne Hni]%not_elem_of_cons.
    rewrite filter_cons, decide_True by congruence. by rewrite IH. }
  rewrite !Hall; [done|done|]. intros Hin. apply (Hdisj x); set_solver.
Qed.

Lemma dlist_NoDup m pl xs : dlist m pl xs -> NoDup xs.
Proof.
  intros Hd. pose proof (dl_nodup _ _ _ Hd) as Hnd. unfold list_nodes in Hnd.
  apply NoDup_cons in Hnd as [_ Hnd]. by apply NoDup_app in Hnd as (? & _ & _).
Qed.

Lemma framed_weaken ns ns' s s' : (forall x, x ∈ ns -> x ∈ ns') -> framed ns s s' -> framed ns' s s'.
Proof. intros Hsub (? & ? & Hso). split_and!; [done..|]. intros x Hx. apply Hso. auto. Qed.

Lemma framed_trans ns s1 s2 s3 : framed ns s1 s2 -> framed ns s2 s3 -> framed ns s1 s3.
Proof.
  intros (Hc1 & Hd1 & Ho1) (Hc2 & Hd2 & Ho2). split_and!; [congruence..|].
  intros x Hx. rewrite Ho2, Ho1; done.
Qed.

Lemma op_run_ok pl op xs s : dlist (nodes s) pl xs ->
  op_enabled (dom (nodes s)) pl op xs ->
  wp (op_run pl op) (λ _ s', dlist (nodes s') pl (op_spec op xs) /\
                             framed (op_nodes op ++ list_nodes pl xs) s s') s.
Proof.
  intros Hd He. destruct op as [e|e|e|]; simpl in *.
  - destruct He as [HD Hni]. apply list_push_ok; [done|done|by apply elem_of_dom].
  - destruct He as [HD Hni]. apply list_append_ok; [done|done|by apply elem_of_dom].
  - apply list_elem_of_split in He as (xs1 & xs2 & ->).
    rewrite filter_split by (by eapply dlist_NoDup).
    eapply wp_mono; [by apply (list_remove_ok pl xs1 e xs2)|]. intros _ s' [Hd' Hf].
    split; [done|]. eapply framed_weaken; [|done]. unfold list_nodes. set_solver.
  - destruct xs as [|x xs]; [done|]. apply wp_bind.
    eapply wp_mono; [by apply (list_pop_ok pl x xs)|]. intros r s' (-> & Hd' & Hf).
    apply wp_ret. split; [done|]. eapply framed_weaken; [|done]. unfold list_nodes. set_solver.
Qed.

Lemma op_spec_nodes pl op xs x :
  x ∈ list_nodes pl (op_spec op xs) -> x ∈ op_nodes op ++ list_nodes pl xs.
Proof.
  unfold list_nodes. destruct op as [e|e|e|]; simpl.
  - set_solver.
  - set_solver.
  - rewrite !elem_of_cons, !elem_of_app, list_elem_of_filter. set_solver.
  - destruct xs; simpl; set_solver.
Qed.

(** ** Properties *)

(** C33: any sequence of push, append, remove and pop that the callers are
    entitled to make runs to its end, leaves in memory exactly the list the
    same operations give on the sequence of elements, restores the interrupt
    flag, and changes no node outside the list and the inserted elements. *)
Theorem list_ops_refine pl ops xs s :
  dlist (nodes s) pl xs -> ops_enabled (dom (nodes s)) pl ops xs ->
  exists s', ops_run pl ops s = Ok (tt, s') /\
    dlist (nodes s') pl (ops_spec ops xs) /\
    framed (concat (map op_nodes ops) ++ list_nodes pl xs) s s'.
Proof.
  intros Hd He.
  cut (wp (ops_run pl ops) (λ _ s', dlist (nodes s') pl (ops_spec ops xs) /\
         framed (concat (map op_nodes ops) ++ list_nodes pl xs) s s') s).
  { intros ([] & s' & Hr & ? & ?)%wp_run. eauto. }
  revert xs s Hd He. induction ops as [|op ops IH]; intros xs s Hd He; simpl.
  { apply wp_ret. split; [done|]. by split_and!. }
  destruct He as [He1 He2]. apply wp_bind.
  eapply wp_mono; [by apply op_run_ok|]. intros _ s1 [Hd1 Hf1].
  assert (Hdom : dom (nodes s1) = dom (nodes s)) by apply Hf1.
  eapply wp_mono; [apply (IH (op_spec op xs) s1); [done|by rewrite Hdom]|].
  intros _ s2 [Hd2 Hf2]. split; [done|].
  eapply framed_trans; (eapply framed_weaken; [|done]); intros x Hx.
  - set_solver.
  - apply elem_of_app in Hx as [Hx|Hx]; [set_solver|].
    apply op_spec_nodes in Hx. set_solver.
Qed.

Definition demo_nodes : gmap Z list_elem :=
  list_to_map (map (λ a, (a, ListElem 7 7)) [100; 108; 200; 216; 232]).
Definition demo_lst : lst :=
  match list_init 100 (Lst (Cpu 0x202) demo_nodes) with
  | Ok (_, s) => s
  | _ => Lst (Cpu 0) ∅
  end.
Definition demo_ops : list list_op :=
  [OpAppend 200; OpPush 216; OpAppend 232; OpRemove 200; OpPop].

Lemma demo_lst_empty : dlist (nodes demo_lst) 100 [].
Proof.
  split; try (vm_compute; done).
  - by apply (bool_decide_unpack _).
Qed.

Lemma list_ops_refine_witness :
  ops_spec demo_ops [] = [232] /\
  exists s', ops_run 100 demo_ops demo_lst = Ok (tt, s') /\
    dlist (nodes s') 100 (ops_spec demo_ops []) /\
    framed (concat (map op_nodes demo_ops) ++ list_nodes 100 []) demo_lst s'.
Proof.
  split; [reflexivity|].
  apply (list_ops_refine 100 demo_ops [] demo_lst demo_lst_empty).
  by apply (bool_decide_unpack _); vm_compute.
Defined.

(** Popping an empty list is not an error the code reports: it unlinks the
    tail sentinel and writes through the NULL pointer behind it. *)
Theorem list_pop_empty_faults pl s :
  dlist (nodes s) pl [] -> nodes s !! NULL = None -> list_pop pl s = Fault.
Proof.
  intros Hd Hnull. pose proof (dlist_first _ _ _ Hd) as Hf. simpl in Hf.
  pose proof (dl_tail _ _ _ Hd) as Ht. pose proof (dl_chain _ _ _ Hd) as Hc.
  simpl in Hc. destruct Hc as (Hh & Hp & _).
  assert (Hne : list_head pl <> list_tail pl) by (unfold list_head, list_tail; lia).
  set (c := if IF_on (l_cpu s) then cli (l_cpu s) else l_cpu s).
  set (s1 := Lst c (nodes s)).
  set (s2 := Lst c (set_next (list_head pl) NULL (nodes s))).
  assert (Hh1 : is_Some (nodes s !! list_head pl)) by (by eapply nxt_is_Some).
  unfold list_pop. rewrite (bind_ok _ _ _ _ _ (rd_next_eq _ _ _ Hf)); cbv beta.
  apply bind_fault. unfold list_remove.
  rewrite (bind_ok _ _ _ (status_of (l_cpu s)) s1)
    by (unfold on_cpu, zoom; by rewrite intr_disable_eq); cbv beta.
  rewrite (bind_ok _ _ s1 _ _ (rd_prev_eq _ _ s1 Hp)); cbv beta.
  rewrite (bind_ok _ _ s1 _ _ (rd_next_eq _ _ s1 Ht)); cbv beta.
  rewrite (bind_ok _ _ s1 tt s2)
    by (destruct Hh1 as [? Hh1]; unfold wr_next; simpl; by rewrite Hh1); cbv beta.
  rewrite (bind_ok _ _ s2 NULL s2)
    by (apply rd_next_eq; simpl; by rewrite nxt_set_next, decide_False); cbv beta.
  rewrite (bind_ok _ _ s2 (list_head pl) s2)
    by (apply rd_prev_eq; simpl; by rewrite prv_set_next); cbv beta.
  apply bind_fault. unfold wr_prev. simpl. unfold set_next.
  rewrite lookup_alter. case_decide as Hz; [|by rewrite Hnull].
  rewrite <- Hz in Hnull. destruct Hh1. congruence.
Qed.

Lemma list_pop_empty_faults_witness : list_pop 100 demo_lst = Fault.
Proof. apply (list_pop_empty_faults 100 demo_lst demo_lst_empty). reflexivity. Defined.
