(* ===== verification/Thread.v ===== *)
(** thread/thread.c: task control blocks, the ready queue and the scheduler.

    PCBs are addressed by the page they occupy; [k_cur] is the page of the
    running stack, which is what [running_thread] computes from ESP.  The two
    queues are the sequences of PCB addresses that LinkedList.v shows the
    linked lists of tags to represent: [general_tag] nodes for the ready queue
    and [all_list_tag] nodes for the list of all tasks.

    A call of [schedule] ends with [switch_to]: what the caller does after it
    is done when it is switched in again.  The definitions here stop at the
    switch ([..._enter]) and the rest of the function is a definition of its
    own ([..._exit]); Sync.v composes the halves. *)

From S2P Require Import Prelude Bitmap Interrupt.

Open Scope Z_scope.

Inductive task_status :=
| TASK_RUNNING | TASK_READY | TASK_BLOCKED | TASK_WAITING | TASK_HANGING | TASK_DIED.

Global Instance task_status_eq_dec : EqDecision task_status.
Proof. solve_decision. Defined.

Definition PG_SIZE : Z := 4096.
Definition MAX_FILES_OPEN_PER_PROC : Z := 8.
Definition TASK_NAME_LEN : Z := 16.
Definition STACK_MAGIC : Z := 0x19870916.

(** struct virtual_addr of kernel/memory.h *)
Record virtual_addr := VirtualAddr { vaddr_bitmap : bitmap; vaddr_start : Z }.

Record task_struct := Task {
  self_kstack : Z;
  pid : Z;
  status : task_status;
  name : list Z;
  priority : Z;
  ticks : Z;
  elapsed_ticks : Z;
  fd_table : list Z;
  pgdir : Z;
  userprog_vaddr : virtual_addr;
  cwd_inode_nr : Z;
  parent_pid : Z;
  exit_status : Z;
  stack_magic : Z
}.

Definition set_status (st : task_status) (t : task_struct) : task_struct :=
  Task (self_kstack t) (pid t) st (name t) (priority t) (ticks t) (elapsed_ticks t)
    (fd_table t) (pgdir t) (userprog_vaddr t) (cwd_inode_nr t) (parent_pid t)
    (exit_status t) (stack_magic t).
Definition set_ticks (n : Z) (t : task_struct) : task_struct :=
  Task (self_kstack t) (pid t) (status t) (name t) (priority t) n (elapsed_ticks t)
    (fd_table t) (pgdir t) (userprog_vaddr t) (cwd_inode_nr t) (parent_pid t)
    (exit_status t) (stack_magic t).
Definition set_elapsed (n : Z) (t : task_struct) : task_struct :=
  Task (self_kstack t) (pid t) (status t) (name t) (priority t) (ticks t) n
    (fd_table t) (pgdir t) (userprog_vaddr t) (cwd_inode_nr t) (parent_pid t)
    (exit_status t) (stack_magic t).
Definition set_kstack (a : Z) (t : task_struct) : task_struct :=
  Task a (pid t) (status t) (name t) (priority t) (ticks t) (elapsed_ticks t)
    (fd_table t) (pgdir t) (userprog_vaddr t) (cwd_inode_nr t) (parent_pid t)
    (exit_status t) (stack_magic t).

Record kthreads := KT {
  k_cpu : cpu;
  k_tasks : gmap Z task_struct;
  k_cur : Z;
  thread_ready_list : list Z;
  thread_all_list : list Z;
  idle_thread : Z;
  main_thread : Z;
  k_cr3 : Z;         (* page directory loaded by page_dir_activate *)
  tss_esp0 : Z;      (* stack loaded on entry from user mode *)
  k_ticks : Z        (* the global counter of device/timer.c *)
}.

Definition upd_cpu (c : cpu) (k : kthreads) : kthreads :=
  KT c (k_tasks k) (k_cur k) (thread_ready_list k) (thread_all_list k)
     (idle_thread k) (main_thread k) (k_cr3 k) (tss_esp0 k) (k_ticks k).
Definition upd_tasks (ts : gmap Z task_struct) (k : kthreads) : kthreads :=
  KT (k_cpu k) ts (k_cur k) (thread_ready_list k) (thread_all_list k)
     (idle_thread k) (main_thread k) (k_cr3 k) (tss_esp0 k) (k_ticks k).
Definition upd_cur (t : Z) (k : kthreads) : kthreads :=
  KT (k_cpu k) (k_tasks k) t (thread_ready_list k) (thread_all_list k)
     (idle_thread k) (main_thread k) (k_cr3 k) (tss_esp0 k) (k_ticks k).
Definition upd_ready (l : list Z) (k : kthreads) : kthreads :=
  KT (k_cpu k) (k_tasks k) (k_cur k) l (thread_all_list k)
     (idle_thread k) (main_thread k) (k_cr3 k) (tss_esp0 k) (k_ticks k).
Definition upd_all (l : list Z) (k : kthreads) : kthreads :=
  KT (k_cpu k) (k_tasks k) (k_cur k) (thread_ready_list k) l
     (idle_thread k) (main_thread k) (k_cr3 k) (tss_esp0 k) (k_ticks k).
Definition upd_mmu (c e : Z) (k : kthreads) : kthreads :=
  KT (k_cpu k) (k_tasks k) (k_cur k) (thread_ready_list k) (thread_all_list k)
     (idle_thread k) (main_thread k) c e (k_ticks k).

Definition upd_kticks (n : Z) (k : kthreads) : kthreads :=
  KT (k_cpu k) (k_tasks k) (k_cur k) (thread_ready_list k) (thread_all_list k)
     (idle_thread k) (main_thread k) (k_cr3 k) (tss_esp0 k) n.

Definition on_kcpu {A} (m : M cpu A) : M kthreads A := zoom k_cpu upd_cpu m.

Definition running_thread : M kthreads Z := gets k_cur.

Definition rd_task (a : Z) : M kthreads task_struct := λ k,
  match k_tasks k !! a with Some t => Ok (t, k) | None => Fault end.
Definition upd_task (a : Z) (f : task_struct -> task_struct) : M kthreads unit := λ k,
  match k_tasks k !! a with
  | Some t => Ok (tt, upd_tasks (<[a := f t]> (k_tasks k)) k)
  | None => Fault
  end.

Definition ready_append (t : Z) : M kthreads unit :=
  modify (λ k, upd_ready (thread_ready_list k ++ [t]) k).
Definition ready_push (t : Z) : M kthreads unit :=
  modify (λ k, upd_ready (t :: thread_ready_list k) k).
Definition on_ready (t : Z) (k : kthreads) : bool := bool_decide (t ∈ thread_ready_list k).

Definition is_blocked (st : task_status) : bool :=
  bool_decide (st = TASK_BLOCKED) || bool_decide (st = TASK_WAITING)
  || bool_decide (st = TASK_HANGING).

(** ** Scheduling *)

Definition thread_unblock (pthread : Z) : M kthreads unit :=
  old_status ← on_kcpu intr_disable;
  t ← rd_task pthread;
  assertM (is_blocked (status t)) "thread_unblock: status";;
  (if bool_decide (status t = TASK_READY) then mret tt
   else
     found ← gets (on_ready pthread);
     assertM (negb found) "thread_unblock: !elem_find";;
     (if (found : bool) then panicM "thread_unblock: blocked thread in ready_list" else mret tt);;
     ready_push pthread;;
     upd_task pthread (set_status TASK_READY));;
  _ ← on_kcpu (intr_set_status old_status);
  mret tt.

Section schedule.
(** [addr_v2p] of kernel/memory.c on the running page tables. *)
Context (addr_v2p : Z -> Z).

Definition page_dir_activate (p_thread : task_struct) : Z :=
  if pgdir p_thread =? 0 then 0x100000 else addr_v2p (pgdir p_thread).

Definition process_activate (p_thread : Z) : M kthreads unit :=
  assertM (negb (p_thread =? 0)) "p_thread != NULL";;
  t ← rd_task p_thread;
  modify (λ k, upd_mmu (page_dir_activate t)
                 (if pgdir t =? 0 then tss_esp0 k else u32 (p_thread + PG_SIZE)) k).

(** The second half of [schedule]: take the head of the ready queue and give
    it the processor. *)
Definition schedule_pick : M kthreads unit :=
  ready ← gets thread_ready_list;
  assertM (negb (bool_decide (ready = []))) "!list_empty(&thread_ready_list)";;
  match ready with
  | [] => faultM
  | next :: rest =>
      modify (upd_ready rest);;
      upd_task next (set_status TASK_RUNNING);;
      process_activate next;;
      modify (upd_cur next)          (* switch_to(cur, next) *)
  end.

Definition schedule : M kthreads unit :=
  st ← on_kcpu intr_get_status;
  assertM (bool_decide (st = INTR_OFF)) "intr_get_status() == INTR_OFF";;
  cur ← running_thread;
  t ← rd_task cur;
  (if bool_decide (status t = TASK_RUNNING) then
     found ← gets (on_ready cur);
     assertM (negb found) "schedule: !elem_find";;
     ready_append cur;;
     upd_task cur (λ t, set_ticks (priority t) t);;
     upd_task cur (set_status TASK_READY)
   else mret tt);;
  ready ← gets thread_ready_list;
  (if bool_decide (ready = []) then
     idle ← gets idle_thread;
     thread_unblock idle
   else mret tt);;
  schedule_pick.

Definition thread_block_enter (stat : task_status) : M kthreads intr_status :=
  assertM (is_blocked stat) "thread_block: stat";;
  old_status ← on_kcpu intr_disable;
  cur_thread ← running_thread;
  upd_task cur_thread (set_status stat);;
  schedule;;
  mret old_status.

Definition thread_block_exit (old_status : intr_status) : M kthreads unit :=
  _ ← on_kcpu (intr_set_status old_status);
  mret tt.

Definition thread_yield_enter : M kthreads intr_status :=
  cur ← running_thread;
  old_status ← on_kcpu intr_disable;
  found ← gets (on_ready cur);
  assertM (negb found) "thread_yield: !elem_find";;
  ready_append cur;;
  upd_task cur (set_status TASK_READY);;
  schedule;;
  mret old_status.

Definition thread_yield_exit (old_status : intr_status) : M kthreads unit :=
  _ ← on_kcpu (intr_set_status old_status);
  mret tt.

(** [intr_timer_handler] of device/timer.c.  The answer tells whether the
    processor was given to another thread. *)
Definition intr_timer_handler : M kthreads bool :=
  cur_thread ← running_thread;
  t ← rd_task cur_thread;
  assertM (stack_magic t =? STACK_MAGIC) "cur_thread->stack_magic == 0x19870916";;
  upd_task cur_thread (λ t, set_elapsed (u32 (elapsed_ticks t + 1)) t);;
  modify (λ k, upd_kticks (u32 (k_ticks k + 1)) k);;
  t ← rd_task cur_thread;
  if ticks t =? 0 then (schedule;; mret true)
  else (upd_task cur_thread (λ t, set_ticks (u8 (ticks t - 1)) t);; mret false).
End schedule.

(** ** Task creation *)

Definition sizeof_intr_stack : Z := 76.
Definition sizeof_thread_stack : Z := 32.

(** [self_kstack] is a [uint32_t*]: subtracting [n] moves it by [4 * n] bytes. *)
Definition thread_create_kstack (kstack : Z) : Z :=
  u32 (u32 (kstack - 4 * sizeof_intr_stack) - 4 * sizeof_thread_stack).

Definition fd_table_init : list Z := [0; 1; 2; -1; -1; -1; -1; -1].

(** [init_thread] on a zeroed PCB at [pthread] with the pid [allocate_pid]
    returned; [strcpy] into [name] is the copy of a string that fits. *)
Definition init_thread (pthread main new_pid : Z) (nm : list Z) (prio : Z) : task_struct :=
  Task (u32 (pthread + PG_SIZE)) (s16 new_pid)
    (if pthread =? main then TASK_RUNNING else TASK_READY)
    nm (u8 prio) (u8 prio) 0 fd_table_init 0
    (VirtualAddr (Bitmap 0 []) 0) 0 0 0 STACK_MAGIC.

(** [list_traversal(&thread_all_list, f, arg)] with a callback that only
    inspects the task; NULL is 0. *)
Fixpoint find_thread (p : task_struct -> bool) (ts : gmap Z task_struct) (l : list Z) : res Z :=
  match l with
  | [] => Ok 0
  | a :: l =>
      match ts !! a with
      | Some t => if p t then Ok a else find_thread p ts l
      | None => Fault
      end
  end.

Definition pid_check (p : Z) (t : task_struct) : bool := pid t =? p.

Definition pid2thread (p : Z) : M kthreads Z := λ k,
  lift (find_thread (pid_check p) (k_tasks k) (thread_all_list k)) k.

(** ** The scheduler's invariant

    [offq t k]: task [t] is neither running nor ready. *)

Definition offq (t : Z) (k : kthreads) : Prop :=
  is_Some (k_tasks k !! t) /\ t <> k_cur k /\ t ∉ thread_ready_list k.

(** [queued k st]: the queue is well formed and the running task has a status
    satisfying [st]. *)
Record queued (st : task_status -> Prop) (k : kthreads) : Prop := {
  q_nodup : NoDup (thread_ready_list k);
  q_cur : k_cur k ∉ thread_ready_list k;
  q_ready : forall t, t ∈ thread_ready_list k ->
    exists ts, k_tasks k !! t = Some ts /\ status ts = TASK_READY;
  q_run : exists ts, k_tasks k !! k_cur k = Some ts /\ st (status ts);
  q_off : forall t ts, k_tasks k !! t = Some ts -> t <> k_cur k -> t ∉ thread_ready_list k ->
    is_blocked (status ts) = true;
  q_null : k_tasks k !! 0 = None;
  q_idle : is_Some (k_tasks k !! idle_thread k);
  q_magic : forall t ts, k_tasks k !! t = Some ts -> stack_magic ts = STACK_MAGIC
}.

Definition kinv : kthreads -> Prop := queued (λ st, st = TASK_RUNNING).

(** What no scheduling step changes. *)
Definition sched_frame (k k' : kthreads) : Prop :=
  dom (k_tasks k') = dom (k_tasks k) /\ idle_thread k' = idle_thread k /\
  main_thread k' = main_thread k /\ thread_all_list k' = thread_all_list k.

Global Instance sched_frame_preorder : PreOrder sched_frame.
Proof.
  split; [intros k; by split_and!|]. intros k1 k2 k3 (? & ? & ? & ?) (? & ? & ? & ?).
  split_and!; congruence.
Qed.

Lemma is_Some_frame k k' t : sched_frame k k' ->
  is_Some (k_tasks k !! t) <-> is_Some (k_tasks k' !! t).
Proof. intros (Hd & _). rewrite <- !elem_of_dom, Hd. done. Qed.

Section monad.
Implicit Types k : kthreads.

Lemma wp_rd_task a t Q k : k_tasks k !! a = Some t -> Q t k -> wp (rd_task a) Q k.
Proof. unfold wp, rd_task. by intros ->. Qed.
Lemma wp_upd_task a f t (Q : unit -> kthreads -> Prop) k : k_tasks k !! a = Some t ->
  Q tt (upd_tasks (<[a := f t]> (k_tasks k)) k) -> wp (upd_task a f) Q k.
Proof. unfold wp, upd_task. by intros ->. Qed.
Lemma wp_kcpu_disable (Q : intr_status -> kthreads -> Prop) k :
  Q (status_of (k_cpu k)) (upd_cpu (if IF_on (k_cpu k) then cli (k_cpu k) else k_cpu k) k) ->
  wp (on_kcpu intr_disable) Q k.
Proof. intros H. apply wp_zoom. unfold wp. by rewrite intr_disable_eq. Qed.
Lemma wp_kcpu_get (Q : intr_status -> kthreads -> Prop) k :
  Q (status_of (k_cpu k)) k -> wp (on_kcpu intr_get_status) Q k.
Proof.
  intros H. apply wp_zoom. unfold wp. rewrite intr_get_status_eq. by destruct k.
Qed.
(** Restoring the status changes only the processor. *)
Lemma wp_kcpu_set st (Q : intr_status -> kthreads -> Prop) k :
  (forall r c, IF_on c = bool_decide (st = INTR_ON) -> Q r (upd_cpu c k)) ->
  wp (on_kcpu (intr_set_status st)) Q k.
Proof.
  intros H. apply wp_zoom. unfold wp. destruct st; simpl.
  - rewrite intr_disable_eq. apply H. apply disable_off.
  - rewrite intr_enable_eq. apply H. destruct (IF_on (k_cpu k)) eqn:E; [done|apply sti_on].
Qed.
End monad.

Lemma queued_cpu st c k : queued st k -> queued st (upd_cpu c k).
Proof. intros [? ? ? ? ? ? ? ?]. by split. Qed.

Lemma queued_mono (P Q : task_status -> Prop) k :
  (forall st, P st -> Q st) -> queued P k -> queued Q k.
Proof. intros HPQ [? ? ? (ts & ? & ?) ? ? ? ?]. split; eauto. Qed.

(** Changing the status of a task, with the running task in mind. *)
Lemma set_status_magic k a t st :
  (forall x ts, k_tasks k !! x = Some ts -> stack_magic ts = STACK_MAGIC) ->
  k_tasks k !! a = Some t ->
  forall x ts, <[a := set_status st t]> (k_tasks k) !! x = Some ts -> stack_magic ts = STACK_MAGIC.
Proof.
  intros Hm Ha x ts. rewrite lookup_insert. case_decide; subst; [|by apply Hm].
  intros [= <-]. simpl. by apply (Hm x).
Qed.

(** ** Unblocking *)

Lemma thread_unblock_ok st u k : queued st k -> offq u k ->
  wp (thread_unblock u) (λ _ k', queued st k' /\ sched_frame k k' /\ k_cur k' = k_cur k /\
    IF_on (k_cpu k') = IF_on (k_cpu k) /\
    thread_ready_list k' = u :: thread_ready_list k /\
    forall t, offq t k' <-> offq t k /\ t <> u) k.
Proof.
  intros Hq ([tu Hu] & Hne & Hni).
  pose proof (q_off _ _ Hq u tu Hu Hne Hni) as Hb.
  unfold thread_unblock. apply wp_bind, wp_kcpu_disable. simpl.
  apply wp_bind, (wp_rd_task _ tu); [done|].
  apply wp_bind, wp_assert; [done|].
  assert (Hnr : status tu <> TASK_READY) by (intros E; rewrite E in Hb; done).
  apply wp_bind. rewrite bool_decide_eq_false_2 by done.
  apply wp_bind, wp_gets. unfold on_ready; simpl.
  rewrite bool_decide_eq_false_2 by done.
  apply wp_bind, wp_assert; [done|]. apply wp_bind, wp_ret.
  apply wp_bind, wp_modify. simpl. apply (wp_upd_task _ _ tu); [done|].
  apply wp_bind, wp_kcpu_set. intros r c Hc. apply wp_ret.
  assert (HIF : IF_on c = IF_on (k_cpu k)).
  { rewrite Hc. unfold status_of. by destruct (IF_on (k_cpu k)). }
  clear Hc.
  destruct Hq as [Hnd Hcur Hrd (tc & Htc & Hst) Hoff Hz Hid Hmg].
  split_and!; simpl; try done.
  - split; simpl.
    + by apply NoDup_cons.
    + apply not_elem_of_cons. split; [congruence|done].
    + intros t Ht. rewrite lookup_insert. case_decide; [by eexists|].
      apply elem_of_cons in Ht as [->|Ht]; [done|]. by apply Hrd.
    + exists tc. rewrite lookup_insert_ne by done. done.
    + intros t ts Ht Htne Htni. apply not_elem_of_cons in Htni as [Hn1 Hn2].
      rewrite lookup_insert_ne in Ht by done. by apply (Hoff t).
    + rewrite lookup_insert_ne; [done|]. congruence.
    + rewrite lookup_insert_is_Some. destruct (decide (u = idle_thread k)); tauto.
    + by apply set_status_magic.
  - split_and!; simpl; try done. rewrite dom_insert_L.
    assert (u ∈ dom (k_tasks k)) by (apply elem_of_dom; eauto). set_solver.
  - intros t. unfold offq; simpl. rewrite lookup_insert_is_Some, not_elem_of_cons.
    split; [intros ([|[? ?]] & ? & ? & ?); naive_solver|].
    intros ((? & ? & ?) & ?). split_and!; try done. right. naive_solver.
Qed.

(** ** Switching *)

(** Nobody runs: every task is ready or blocked. *)
Record pool (k : kthreads) : Prop := {
  p_nodup : NoDup (thread_ready_list k);
  p_ready : forall t, t ∈ thread_ready_list k ->
    exists ts, k_tasks k !! t = Some ts /\ status ts = TASK_READY;
  p_off : forall t ts, k_tasks k !! t = Some ts -> t ∉ thread_ready_list k ->
    is_blocked (status ts) = true;
  p_null : k_tasks k !! 0 = None;
  p_idle : is_Some (k_tasks k !! idle_thread k);
  p_magic : forall t ts, k_tasks k !! t = Some ts -> stack_magic ts = STACK_MAGIC
}.

Section switch.
Context (v2p : Z -> Z).
Implicit Types k : kthreads.

Lemma schedule_pick_ok next rest k : pool k -> thread_ready_list k = next :: rest ->
  wp (schedule_pick v2p) (λ _ k', kinv k' /\ sched_frame k k' /\ k_cpu k' = k_cpu k /\
    k_cur k' = next /\ thread_ready_list k' = rest /\
    (forall t, t <> next -> k_tasks k' !! t = k_tasks k !! t) /\
    forall t, offq t k' <-> is_Some (k_tasks k !! t) /\ t ∉ thread_ready_list k) k.
Proof.
  intros [Hnd Hrd Hoff Hz Hid Hmg] Hq.
  destruct (Hrd next) as (tn & Htn & Hst); [rewrite Hq; set_solver|].
  unfold schedule_pick. apply wp_bind, wp_gets. rewrite Hq.
  apply wp_bind, wp_assert; [done|]. apply wp_bind, wp_modify.
  apply wp_bind, (wp_upd_task _ _ tn); [done|]. simpl.
  apply wp_bind. unfold process_activate. apply wp_bind, wp_assert.
  { apply negb_true_iff, Z.eqb_neq. congruence. }
  apply wp_bind, (wp_rd_task _ (set_status TASK_RUNNING tn)).
  { simpl. by rewrite lookup_insert_eq. }
  apply wp_modify, wp_modify. rewrite Hq in *.
  apply NoDup_cons in Hnd as [Hni Hnd].
  split_and!; simpl; try done.
  - split; simpl; try done.
    + intros t Ht. rewrite lookup_insert_ne by (intros ->; done). apply Hrd. set_solver.
    + exists (set_status TASK_RUNNING tn). by rewrite lookup_insert_eq.
    + intros t ts Ht Hne Hnt. rewrite lookup_insert_ne in Ht by done.
      apply (Hoff t); [done|]. by apply not_elem_of_cons.
    + rewrite lookup_insert_ne; [done|]. congruence.
    + rewrite lookup_insert_is_Some. destruct (decide (next = idle_thread k)); tauto.
    + by apply set_status_magic.
  - split_and!; simpl; try done. rewrite dom_insert_L.
    assert (next ∈ dom (k_tasks k)) by (apply elem_of_dom; eauto). set_solver.
  - intros t Hne. by rewrite lookup_insert_ne.
  - intros t. unfold offq; simpl. rewrite lookup_insert_is_Some, not_elem_of_cons.
    split; [intros ([|[? ?]] & ? & ?); naive_solver|].
    intros (? & ? & ?). split_and!; try done. right. split; [congruence|done].
Qed.

Definition blocked_st (st : task_status) : Prop := is_blocked st = true.

(** The running task has blocked itself: the next ready task runs, or the
    idle task when there is none. *)
Lemma schedule_blocked k : queued blocked_st k -> IF_on (k_cpu k) = false ->
  wp (schedule v2p) (λ _ k', kinv k' /\ sched_frame k k' /\ IF_on (k_cpu k') = false /\
    k_cur k' = hd (idle_thread k) (thread_ready_list k) /\
    thread_ready_list k' = tail (thread_ready_list k) /\
    (forall t, t <> idle_thread k -> offq t k' <-> offq t k \/ t = k_cur k)) k.
Proof.
  intros Hq Hoffc. destruct (q_run _ _ Hq) as (tc & Htc & Hst).
  unfold schedule. apply wp_bind, wp_kcpu_get. apply wp_bind, wp_assert.
  { unfold status_of. by rewrite Hoffc. }
  apply wp_bind, wp_gets, wp_bind, (wp_rd_task _ tc); [done|].
  apply wp_bind. rewrite bool_decide_eq_false_2.
  2: { intros E. unfold blocked_st in Hst. by rewrite E in Hst. }
  apply wp_ret, wp_bind, wp_gets.
  assert (Hpool : thread_ready_list k <> [] -> pool k).
  { intros _. destruct Hq as [Hnd Hcur Hrd _ Hoff Hz Hid Hmg]. split; try done.
    intros t ts Ht Hni. destruct (decide (t = k_cur k)) as [->|]; [|by apply (Hoff t)].
    congruence. }
  destruct (thread_ready_list k) as [|next rest] eqn:Er.
  - rewrite bool_decide_eq_true_2 by done. apply wp_bind, wp_bind, wp_gets.
    set (idle := idle_thread k). set (k1 := upd_cpu (k_cpu k) k).
    assert (Hidle : exists ti, k_tasks k !! idle = Some ti /\ is_blocked (status ti) = true).
    { destruct (q_idle _ _ Hq) as [ti Hti]. exists ti. split; [done|].
      destruct (decide (idle = k_cur k)) as [He|Hne]; [subst idle; congruence|].
      apply (q_off _ _ Hq idle ti); try done. rewrite Er. set_solver. }
    destruct Hidle as (ti & Hti & Hbi).
    (* the running task counts as off the queue for this purpose *)
    unfold thread_unblock. apply wp_bind, wp_kcpu_disable. simpl.
    apply wp_bind, (wp_rd_task _ ti); [done|]. apply wp_bind, wp_assert; [done|].
    apply wp_bind. rewrite bool_decide_eq_false_2 by (intros E; by rewrite E in Hbi).
    apply wp_bind, wp_gets. unfold on_ready; simpl. rewrite Er, bool_decide_eq_false_2 by set_solver.
    apply wp_bind, wp_assert; [done|]. apply wp_bind, wp_ret.
    apply wp_bind, wp_modify. simpl. apply (wp_upd_task _ _ ti); [done|].
    apply wp_bind, wp_kcpu_set. intros r c Hc.
    assert (HIF : IF_on c = false).
    { rewrite Hc. unfold status_of. by rewrite Hoffc. }
    clear Hc. apply wp_ret.
    eapply wp_mono; [apply (schedule_pick_ok idle [])|].
    + destruct Hq as [Hnd Hcur Hrd _ Hoff Hz Hid Hmg]. split; simpl.
      * rewrite Er. apply NoDup_singleton.
      * intros t Ht. rewrite Er in Ht. apply list_elem_of_singleton in Ht as ->.
        rewrite lookup_insert_eq. by eexists.
      * intros t ts Ht Hni. rewrite Er in Hni.
        rewrite lookup_insert_ne in Ht by set_solver.
        destruct (decide (t = k_cur k)) as [->|]; [congruence|].
        apply (Hoff t); try done. rewrite Er. set_solver.
      * rewrite lookup_insert_ne; [done|]. congruence.
      * rewrite lookup_insert_is_Some. by left.
      * by apply set_status_magic.
    + simpl. by rewrite Er.
    + simpl. intros _ k' (Hk & Hf & Hcpu & Hcur & Hrd & Htk & Hof). split_and!; try done.
      * etransitivity; [|exact Hf]. split_and!; simpl; try done. rewrite dom_insert_L.
        assert (idle ∈ dom (k_tasks k)) by (apply elem_of_dom; eauto). set_solver.
      * by rewrite Hcpu.
      * intros t Hne. rewrite Hof; simpl. rewrite lookup_insert_is_Some, Er. unfold offq.
        rewrite Er. destruct (decide (t = k_cur k)) as [->|].
        -- split; [by right|]. intros _. split; [right; split; [done|by eexists]|set_solver].
        -- set_solver.
  - rewrite bool_decide_eq_false_2 by done. apply wp_bind, wp_ret.
    eapply wp_mono; [apply (schedule_pick_ok next rest); [by apply Hpool|done]|].
    intros _ k' (Hk & Hf & Hcpu & Hcur & Hrd & Htk & Hof). split_and!; try done; [by rewrite Hcpu|].
    intros t Hne. rewrite Hof. unfold offq. rewrite Er.
    destruct (decide (t = k_cur k)) as [->|]; [|set_solver].
    split; [by right|]. intros _. split; [by eexists|].
    rewrite <- Er. apply (q_cur _ _ Hq).
Qed.

(** The running task is already back on the queue. *)
Lemma requeue_pool k : kinv k -> forall f,
  (forall t, status (f t) = TASK_READY /\ stack_magic (f t) = stack_magic t) ->
  forall tc, k_tasks k !! k_cur k = Some tc -> forall c,
  pool (upd_tasks (<[k_cur k := f tc]> (k_tasks k))
         (upd_ready (thread_ready_list k ++ [k_cur k]) (upd_cpu c k))).
Proof.
  intros [Hnd Hcur Hrd _ Hoff Hz Hid Hmg] f Hf tc Htc c. split; simpl.
  - apply NoDup_app. split_and!; [done|set_solver|apply NoDup_singleton].
  - intros t Ht. rewrite lookup_insert. case_decide as Hd.
    + exists (f tc). split; [done|]. apply Hf.
    + apply Hrd. set_solver.
  - intros t ts Ht Hni. rewrite lookup_insert_ne in Ht by set_solver.
    apply (Hoff t); set_solver.
  - rewrite lookup_insert_ne; [done|]. congruence.
  - rewrite lookup_insert_is_Some. destruct (decide (k_cur k = idle_thread k)); tauto.
  - intros x ts. rewrite lookup_insert. case_decide; subst; [|by apply Hmg].
    intros [= <-]. destruct (Hf tc) as [_ ->]. by apply (Hmg (k_cur k)).
Qed.

(** What giving up the processor while staying runnable does: round robin. *)
Definition rotated (k k' : kthreads) : Prop :=
  k_cur k' :: thread_ready_list k' = thread_ready_list k ++ [k_cur k] /\
  forall t, offq t k' <-> offq t k.

Lemma pick_rotated k k1 : kinv k -> pool k1 ->
  IF_on (k_cpu k1) = false -> sched_frame k k1 ->
  thread_ready_list k1 = thread_ready_list k ++ [k_cur k] ->
  wp (schedule_pick v2p) (λ _ k', kinv k' /\ sched_frame k k' /\ IF_on (k_cpu k') = false /\
    rotated k k' /\ forall t, t <> k_cur k' -> k_tasks k' !! t = k_tasks k1 !! t) k1.
Proof.
  intros Hk Hp Hif Hf Hr.
  destruct (thread_ready_list k1) as [|next rest] eqn:Er.
  { by destruct (thread_ready_list k). }
  eapply wp_mono; [by apply (schedule_pick_ok next rest)|].
  intros _ k' (Hk' & Hf' & Hcpu & Hcur & Hrd & Htk & Hof).
  split_and!; [done|by etransitivity|by rewrite Hcpu| |by rewrite Hcur].
  split; [by rewrite Hcur, Hrd|]. intros t. rewrite Hof, Er, Hr. unfold offq.
  rewrite (is_Some_frame k k1 t Hf). set_solver.
Qed.

Lemma schedule_requeued k t0 : pool k -> IF_on (k_cpu k) = false ->
  k_tasks k !! k_cur k = Some t0 -> status t0 <> TASK_RUNNING -> thread_ready_list k <> [] ->
  forall Q, wp (schedule_pick v2p) Q k -> wp (schedule v2p) Q k.
Proof.
  intros Hp Hif Ht0 Hst Hne Q HQ. unfold schedule. apply wp_bind, wp_kcpu_get.
  apply wp_bind, wp_assert; [unfold status_of; by rewrite Hif|].
  apply wp_bind, wp_gets, wp_bind, (wp_rd_task _ t0); [done|].
  apply wp_bind. rewrite bool_decide_eq_false_2 by done.
  apply wp_ret, wp_bind, wp_gets. rewrite bool_decide_eq_false_2 by done.
  apply wp_bind, wp_ret. done.
Qed.

(** Preemption: the running task goes to the tail with a full time slice. *)
Lemma schedule_running k tc : kinv k -> IF_on (k_cpu k) = false ->
  k_tasks k !! k_cur k = Some tc ->
  wp (schedule v2p) (λ _ k', kinv k' /\ sched_frame k k' /\ IF_on (k_cpu k') = false /\
    rotated k k' /\
    (forall t, t <> k_cur k' -> k_tasks k' !! t =
       <[k_cur k := set_status TASK_READY (set_ticks (priority tc) tc)]> (k_tasks k) !! t)) k.
Proof.
  intros Hk Hif Htc. unfold schedule. apply wp_bind, wp_kcpu_get.
  apply wp_bind, wp_assert; [unfold status_of; by rewrite Hif|].
  apply wp_bind, wp_gets, wp_bind, (wp_rd_task _ tc); [done|].
  destruct (q_run _ _ Hk) as (tc' & Htc' & Hrun). replace tc' with tc in * by congruence.
  apply wp_bind. rewrite bool_decide_eq_true_2 by done.
  apply wp_bind, wp_gets. unfold on_ready.
  rewrite bool_decide_eq_false_2 by apply (q_cur _ _ Hk).
  apply wp_bind, wp_assert; [done|]. apply wp_bind, wp_modify.
  apply wp_bind, (wp_upd_task _ _ tc); [done|]. simpl.
  eapply (wp_upd_task _ _ (set_ticks (priority tc) tc)); [simpl; by rewrite lookup_insert_eq|].
  simpl. rewrite insert_insert_eq.
  apply wp_bind, wp_gets. simpl. rewrite bool_decide_eq_false_2 by (by destruct (thread_ready_list k)).
  apply wp_bind, wp_ret.
  eapply pick_rotated; try done.
  - apply (requeue_pool k Hk (λ t, set_status TASK_READY (set_ticks (priority t) t)) (λ _, conj eq_refl eq_refl) tc Htc (k_cpu k)).
  - split_and!; simpl; try done. rewrite dom_insert_L.
    assert (k_cur k ∈ dom (k_tasks k)) by (apply elem_of_dom; eauto). set_solver.
Qed.

Lemma thread_yield_ok k tc : kinv k -> k_tasks k !! k_cur k = Some tc ->
  wp (thread_yield_enter v2p) (λ old k', old = status_of (k_cpu k) /\ kinv k' /\
    sched_frame k k' /\ IF_on (k_cpu k') = false /\ rotated k k' /\
    (forall t, t <> k_cur k' -> k_tasks k' !! t =
       <[k_cur k := set_status TASK_READY tc]> (k_tasks k) !! t)) k.
Proof.
  intros Hk Htc. unfold thread_yield_enter. apply wp_bind, wp_gets, wp_bind, wp_kcpu_disable.
  apply wp_bind, wp_gets. unfold on_ready. simpl.
  rewrite bool_decide_eq_false_2 by apply (q_cur _ _ Hk).
  apply wp_bind, wp_assert; [done|]. apply wp_bind, wp_modify.
  apply wp_bind, (wp_upd_task _ _ tc); [done|]. simpl. apply wp_bind.
  pose proof (requeue_pool k Hk (set_status TASK_READY) (λ _, conj eq_refl eq_refl) tc Htc
    (if IF_on (k_cpu k) then cli (k_cpu k) else k_cpu k)) as Hp.
  eapply (schedule_requeued _ (set_status TASK_READY tc)); try done.
  - apply disable_off.
  - simpl. by rewrite lookup_insert_eq.
  - simpl. by destruct (thread_ready_list k).
  - eapply wp_mono; [apply (pick_rotated k); try done|].
    + apply disable_off.
    + split_and!; simpl; try done. rewrite dom_insert_L.
      assert (k_cur k ∈ dom (k_tasks k)) by (apply elem_of_dom; eauto). set_solver.
    + simpl. intros _ k' (? & ? & ? & ? & ?). apply wp_ret. by split_and!.
Qed.

Lemma thread_block_ok stat k : kinv k -> is_blocked stat = true ->
  wp (thread_block_enter v2p stat) (λ old k', old = status_of (k_cpu k) /\ kinv k' /\
    sched_frame k k' /\ IF_on (k_cpu k') = false /\
    k_cur k' = hd (idle_thread k) (thread_ready_list k) /\
    thread_ready_list k' = tail (thread_ready_list k) /\
    (forall t, t <> idle_thread k -> offq t k' <-> offq t k \/ t = k_cur k)) k.
Proof.
  intros Hk Hb. destruct (q_run _ _ Hk) as (tc & Htc & Hrun).
  unfold thread_block_enter. apply wp_bind, wp_assert; [done|].
  apply wp_bind, wp_kcpu_disable, wp_bind, wp_gets.
  apply wp_bind, (wp_upd_task _ _ tc); [done|]. simpl. apply wp_bind.
  eapply wp_mono; [apply schedule_blocked|].
  - destruct Hk as [Hnd Hcur Hrd _ Hoff Hz Hid Hmg]. split; simpl; try done.
    + intros t Ht. rewrite lookup_insert_ne by (intros <-; done). by apply Hrd.
    + exists (set_status stat tc). by rewrite lookup_insert_eq.
    + intros t ts Ht Hne Hni. rewrite lookup_insert_ne in Ht by done. by apply (Hoff t).
    + rewrite lookup_insert_ne; [done|]. congruence.
    + rewrite lookup_insert_is_Some. destruct (decide (k_cur k = idle_thread k)); tauto.
    + by apply set_status_magic.
  - apply disable_off.
  - simpl. intros _ k' (Hk' & Hf & Hc & Hcur & Hrd & Hof). apply wp_ret.
    split_and!; try done.
    + etransitivity; [|exact Hf]. split_and!; simpl; try done. rewrite dom_insert_L.
      assert (k_cur k ∈ dom (k_tasks k)) by (apply elem_of_dom; eauto). set_solver.
    + intros t Hne. rewrite Hof by done. unfold offq; simpl. rewrite lookup_insert_is_Some.
      split; [|naive_solver]. intros [([|[? ?]] & ? & ?)|]; naive_solver.
Qed.

Lemma timer_ok k tc : kinv k -> IF_on (k_cpu k) = false -> k_tasks k !! k_cur k = Some tc ->
  wp (intr_timer_handler v2p) (λ sw k', kinv k' /\ sched_frame k k' /\
    IF_on (k_cpu k') = false /\ sw = (ticks tc =? 0) /\
    (if sw : bool then rotated k k'
     else k_cur k' = k_cur k /\ thread_ready_list k' = thread_ready_list k) /\
    (forall t, offq t k' <-> offq t k)) k.
Proof.
  intros Hk Hif Htc. unfold intr_timer_handler. apply wp_bind, wp_gets.
  apply wp_bind, (wp_rd_task _ tc); [done|]. apply wp_bind, wp_assert.
  { apply Z.eqb_eq. by apply (q_magic _ _ Hk (k_cur k)). }
  apply wp_bind, (wp_upd_task _ _ tc); [done|]. apply wp_bind, wp_modify. simpl.
  set (t1 := set_elapsed _ tc).
  apply wp_bind, (wp_rd_task _ t1); [simpl; by rewrite lookup_insert_eq|]. simpl.
  assert (Hgen : forall f n, (forall t, status (f t) = status t /\ stack_magic (f t) = stack_magic t) ->
    kinv (upd_kticks n (upd_tasks (<[k_cur k := f tc]> (k_tasks k)) k)) /\
    sched_frame k (upd_kticks n (upd_tasks (<[k_cur k := f tc]> (k_tasks k)) k)) /\
    forall t, offq t (upd_kticks n (upd_tasks (<[k_cur k := f tc]> (k_tasks k)) k)) <-> offq t k).
  { intros f n Hf. destruct Hk as [Hnd Hcur Hrd (tc' & Htc' & Hrun) Hoff Hz Hid Hmg].
    replace tc' with tc in * by congruence.
    split_and!.
    - split; simpl; try done.
      + intros t Ht. rewrite lookup_insert_ne by (intros <-; done). by apply Hrd.
      + exists (f tc). rewrite lookup_insert_eq. destruct (Hf tc) as [-> _]. done.
      + intros t ts Ht Hne Hni. rewrite lookup_insert_ne in Ht by done. by apply (Hoff t).
      + rewrite lookup_insert_ne; [done|]. congruence.
      + rewrite lookup_insert_is_Some. destruct (decide (k_cur k = idle_thread k)); tauto.
      + intros x ts. rewrite lookup_insert. case_decide; subst; [|by apply Hmg].
        intros [= <-]. destruct (Hf tc) as [_ ->]. by apply (Hmg (k_cur k)).
    - split_and!; simpl; try done. rewrite dom_insert_L.
      assert (k_cur k ∈ dom (k_tasks k)) by (apply elem_of_dom; eauto). set_solver.
    - intros t. unfold offq; simpl. rewrite lookup_insert_is_Some.
      destruct (decide (k_cur k = t)); naive_solver. }
  destruct (ticks tc =? 0).
  - apply wp_bind. destruct (Hgen (set_elapsed (u32 (elapsed_ticks tc + 1))) (u32 (k_ticks k + 1)) (λ _, conj eq_refl eq_refl)) as (Hk1 & Hf1 & Ho1).
    eapply wp_mono; [apply (schedule_running _ t1 Hk1)|]; [done|simpl; by rewrite lookup_insert_eq|].
    intros _ k' (? & ? & ? & [Hr Ho] & _). apply wp_ret. split_and!; try done.
    + by etransitivity.
    + split; [done|]. intros t. by rewrite Ho.
    + intros t. by rewrite Ho.
  - apply wp_bind, (wp_upd_task _ _ t1); [simpl; by rewrite lookup_insert_eq|]. apply wp_ret.
    simpl. rewrite insert_insert_eq.
    destruct (Hgen (λ t, set_ticks (u8 (ticks t - 1)) (set_elapsed (u32 (elapsed_ticks t + 1)) t)) (u32 (k_ticks k + 1)) (λ _, conj eq_refl eq_refl)) as (Hk1 & Hf1 & Ho1).
    by split_and!.
Qed.
End switch.

(** ** Properties of the scheduler *)

Section properties.
Context (v2p : Z -> Z).

(** [n] expired time slices in a row. *)
Fixpoint schedule_n (n : nat) : M kthreads unit :=
  match n with
  | O => mret tt
  | S n => schedule v2p;; schedule_n n
  end.

Definition turn (k : kthreads) : list Z := k_cur k :: thread_ready_list k.

Lemma schedule_n_turn n k : kinv k -> IF_on (k_cpu k) = false ->
  wp (schedule_n n) (λ _ k', kinv k' /\ IF_on (k_cpu k') = false /\
    turn k' = Nat.iter n (λ l, tail l ++ take 1 l) (turn k)) k.
Proof.
  revert k. induction n as [|n IH]; intros k Hk Hif; [by split_and!|].
  destruct (q_run _ _ Hk) as (tc & Htc & _). cbn [schedule_n]. apply wp_bind.
  eapply wp_mono; [by apply (schedule_running v2p k tc)|].
  intros _ k1 (Hk1 & _ & Hif1 & [Hrot _] & _).
  eapply wp_mono; [by apply IH|]. intros _ k2 (? & ? & Ht). split_and!; [done..|].
  rewrite Ht, Nat.iter_succ_r. unfold turn. by rewrite Hrot.
Qed.

Lemma rotate_nth (l : list Z) n : (n < length l)%nat ->
  Nat.iter n (λ l, tail l ++ take 1 l) l = drop n l ++ take n l.
Proof.
  induction n as [|n IH]; intros Hn; [simpl; by rewrite take_0, app_nil_r|].
  rewrite Nat.iter_succ, IH by lia.
  destruct (lookup_lt_is_Some_2 l n) as [x Hx]; [lia|].
  rewrite (drop_S l x n Hx), (take_S_r l n x Hx). simpl. by rewrite take_0, <- app_assoc.
Qed.

(** C20: preemption is round robin.  From any well-formed scheduler state the
    thread at position [i] of the ready queue holds the processor after
    exactly [i + 1] expired time slices, without a panic on the way, and the
    threads in front of it have gone to the tail in order. *)
Theorem schedule_round_robin k i t : kinv k -> IF_on (k_cpu k) = false ->
  thread_ready_list k !! i = Some t ->
  exists k', schedule_n (S i) k = Ok (tt, k') /\ kinv k' /\ k_cur k' = t /\
    thread_ready_list k' = drop (S i) (thread_ready_list k) ++ [k_cur k] ++ take i (thread_ready_list k).
Proof.
  intros Hk Hif Ht. destruct (proj1 (wp_run _ _ _) (schedule_n_turn (S i) k Hk Hif))
    as ([] & k' & Hrun & Hk' & _ & Hturn).
  exists k'. split; [done|]. split; [done|].
  assert (Hlt : (i < length (thread_ready_list k))%nat) by (by eapply lookup_lt_Some).
  rewrite rotate_nth in Hturn by (simpl; lia). unfold turn in Hturn.
  cbn [drop take] in Hturn. rewrite (drop_S _ t i Ht) in Hturn. simpl in Hturn.
  injection Hturn as ? ->. done.
Qed.

(** A woken thread is served first.  When a running thread blocks itself
    and the thread that gets the processor unblocks it, the blocked thread is
    the one that runs as soon as its waker yields. *)
Theorem unblocked_runs_next stat k : kinv k -> is_blocked stat = true ->
  k_cur k <> idle_thread k ->
  exists old k1 k2 old3 k3, thread_block_enter v2p stat k = Ok (old, k1) /\
    k_cur k1 = hd (idle_thread k) (thread_ready_list k) /\
    thread_unblock (k_cur k) k1 = Ok (tt, k2) /\ k_cur k2 = k_cur k1 /\
    thread_yield_enter v2p k2 = Ok (old3, k3) /\ k_cur k3 = k_cur k /\ kinv k3.
Proof.
  intros Hk Hb Hni.
  destruct (proj1 (wp_run _ _ _) (thread_block_ok v2p stat k Hk Hb))
    as (old & k1 & Hr1 & _ & Hk1 & _ & _ & Hc1 & _ & Hoff1).
  assert (Hof : offq (k_cur k) k1) by (apply Hoff1; [done|by right]).
  destruct (proj1 (wp_run _ _ _) (thread_unblock_ok _ (k_cur k) k1 Hk1 Hof))
    as ([] & k2 & Hr2 & Hk2 & _ & Hc2 & _ & Hrd2 & _).
  destruct (q_run _ _ Hk2) as (tc & Htc & _).
  destruct (proj1 (wp_run _ _ _) (thread_yield_ok v2p k2 tc Hk2 Htc))
    as (old3 & k3 & Hr3 & _ & Hk3 & _ & _ & [Hrot _] & _).
  exists old, k1, k2, old3, k3. split_and!; try done.
  rewrite Hrd2 in Hrot. simpl in Hrot. by injection Hrot.
Qed.
End properties.

(** *** A concrete system: main is running, init and idle are ready *)

Definition demo_task (p : Z) (st : task_status) (prio : Z) : task_struct :=
  set_status st (init_thread 0xc0100000 0xc009e000 p [] prio).
Definition demo_threads : kthreads :=
  KT (Cpu 0x2)
     (<[0xc009e000 := demo_task 2 TASK_RUNNING 31]>
      (<[0xc0100000 := demo_task 1 TASK_READY 31]>
       (<[0xc0101000 := demo_task 3 TASK_READY 10]> ∅)))
     0xc009e000 [0xc0100000; 0xc0101000] [0xc0100000; 0xc009e000; 0xc0101000]
     0xc0101000 0xc009e000 0x100000 0 0.

Ltac lookup_cases H :=
  repeat (rewrite lookup_insert in H; case_decide; [|]);
  try (rewrite lookup_empty in H; discriminate H).

Lemma demo_threads_kinv : kinv demo_threads.
Proof.
  split; simpl.
  - by apply (bool_decide_unpack _).
  - by apply (bool_decide_unpack _).
  - intros t [->|[->|[]%not_elem_of_nil]%elem_of_cons]%elem_of_cons; by eexists.
  - by eexists.
  - intros t ts Ht Hc Hni. unfold demo_threads in Ht; simpl in Ht. lookup_cases Ht; set_solver.
  - done.
  - by eexists.
  - intros t ts Ht. unfold demo_threads in Ht; simpl in Ht.
    lookup_cases Ht; by injection Ht as <-.
Qed.

Lemma schedule_round_robin_witness :
  exists k', schedule_n (λ z, z) 2 demo_threads = Ok (tt, k') /\ kinv k' /\
    k_cur k' = 0xc0101000 /\ thread_ready_list k' = [] ++ [0xc009e000] ++ [0xc0100000].
Proof.
  apply (schedule_round_robin (λ z, z) demo_threads 1 0xc0101000 demo_threads_kinv); reflexivity.
Defined.

Lemma unblocked_runs_next_witness :
  exists old k1 k2 old3 k3, thread_block_enter (λ z, z) TASK_WAITING demo_threads = Ok (old, k1) /\
    k_cur k1 = 0xc0100000 /\
    thread_unblock 0xc009e000 k1 = Ok (tt, k2) /\ k_cur k2 = k_cur k1 /\
    thread_yield_enter (λ z, z) k2 = Ok (old3, k3) /\ k_cur k3 = 0xc009e000 /\ kinv k3.
Proof.
  apply (unblocked_runs_next (λ z, z) TASK_WAITING demo_threads demo_threads_kinv); [reflexivity|].
  discriminate.
Defined.
