(* ===== verification/Sync.v ===== *)
(** thread/sync.c: semaphores and recursive locks, run by threads that
    interleave.

    [ksys] is the scheduler's state, the locks, and for every thread the point
    of the lock code it has reached.  Between two points the code runs with
    interrupts off, or touches only what its own thread may touch, so a
    [kstep] is one such stretch: the points are where the timer can strike or
    where [switch_to] has given the processor away.

    The second half of the file has the uncontended versions of the same
    operations, which the sequential components use, and the pid pool of
    thread.c. *)

From S2P Require Import Prelude Bitmap Interrupt Thread.

Open Scope Z_scope.

Record semaphore := Sema { value : Z; waiters : list Z }.
Record lock := Lock { holder : Z; lsema : semaphore; holder_repeat_nr : Z }.

Definition sema_init (v : Z) : semaphore := Sema (u8 v) [].
Definition lock_init : lock := Lock 0 (sema_init 1) 0.

Definition set_value (v : Z) (k : lock) : lock :=
  Lock (holder k) (Sema v (waiters (lsema k))) (holder_repeat_nr k).
Definition set_waiters (w : list Z) (k : lock) : lock :=
  Lock (holder k) (Sema (value (lsema k)) w) (holder_repeat_nr k).
Definition set_holder (h : Z) (k : lock) : lock := Lock h (lsema k) (holder_repeat_nr k).
Definition set_repeat (n : Z) (k : lock) : lock := Lock (holder k) (lsema k) n.

(** ** Where a thread is *)

Inductive pc :=
| PRun                                    (* outside the lock code *)
| PStart                                  (* before kernel_thread's intr_enable *)
| PDown (l : Z)                           (* lock_acquire: about to call sema_down *)
| PWait (l : Z) (old bold : intr_status)  (* inside sema_down's thread_block *)
| PGot (l : Z)                            (* sema_down returned, holder not set *)
| PHeld (l : Z)                           (* holder set, holder_repeat_nr not *)
| PRel1 (l : Z)                           (* lock_release: holder cleared *)
| PRel2 (l : Z)                           (* holder_repeat_nr cleared, sema_up to come *)
| PBlock (old : intr_status)              (* inside a thread_block of its own *)
| PYield (old : intr_status)              (* inside thread_yield *)
| PIntr (p : pc).                         (* preempted by the timer at p *)

Record ksys := KS { thr : kthreads; locks : gmap Z lock; pcs : gmap Z pc }.

Definition upd_thr (k : kthreads) (s : ksys) : ksys := KS k (locks s) (pcs s).
Definition upd_locks (ls : gmap Z lock) (s : ksys) : ksys := KS (thr s) ls (pcs s).
Definition upd_pcs (ps : gmap Z pc) (s : ksys) : ksys := KS (thr s) (locks s) ps.

Definition on_thr {A} (m : M kthreads A) : M ksys A := zoom thr upd_thr m.
Definition me_running : M ksys Z := gets (λ s, k_cur (thr s)).
Definition rd_lock (l : Z) : M ksys lock := λ s,
  match locks s !! l with Some k => Ok (k, s) | None => Fault end.
Definition upd_lock (l : Z) (f : lock -> lock) : M ksys unit := λ s,
  match locks s !! l with
  | Some k => Ok (tt, upd_locks (<[l := f k]> (locks s)) s)
  | None => Fault
  end.
Definition set_pc (t : Z) (p : pc) : M ksys unit := modify (λ s, upd_pcs (<[t := p]> (pcs s)) s).

Section code.
Context (v2p : Z -> Z).

(** *** lock_acquire *)

(** [lock_acquire] up to the call of [sema_down]. *)
Definition lock_acquire_test (l : Z) : M ksys unit :=
  me ← me_running;
  k ← rd_lock l;
  if negb (holder k =? me) then set_pc me (PDown l)
  else
    upd_lock l (λ k, set_repeat (u32 (holder_repeat_nr k + 1)) k).

(** The loop of [sema_down], from its test to the next switch or the end. *)
Definition sema_down_loop (l : Z) (old_status : intr_status) : M ksys unit :=
  me ← me_running;
  k ← rd_lock l;
  if value (lsema k) =? 0 then
    assertM (negb (bool_decide (me ∈ waiters (lsema k)))) "sema_down: !elem_find";;
    (if bool_decide (me ∈ waiters (lsema k)) then panicM "sema_down: in waiters" else mret tt);;
    upd_lock l (λ k, set_waiters (waiters (lsema k) ++ [me]) k);;
    bold ← on_thr (thread_block_enter v2p TASK_BLOCKED);
    set_pc me (PWait l old_status bold)
  else
    upd_lock l (λ k, set_value (u8 (value (lsema k) - 1)) k);;
    k ← rd_lock l;
    assertM (value (lsema k) =? 0) "sema_down: value == 0";;
    _ ← on_thr (on_kcpu (intr_set_status old_status));
    set_pc me (PGot l).

Definition sema_down (l : Z) : M ksys unit :=
  old_status ← on_thr (on_kcpu intr_disable);
  sema_down_loop l old_status.

(** Switched in again inside [thread_block]: it returns and the loop goes round. *)
Definition sema_down_resume (l : Z) (old bold : intr_status) : M ksys unit :=
  on_thr (thread_block_exit bold);;
  sema_down_loop l old.

Definition lock_acquire_holder (l : Z) : M ksys unit :=
  me ← me_running;
  upd_lock l (set_holder me);;
  set_pc me (PHeld l).

Definition lock_acquire_repeat (l : Z) : M ksys unit :=
  me ← me_running;
  k ← rd_lock l;
  assertM (holder_repeat_nr k =? 0) "lock_acquire: holder_repeat_nr == 0";;
  upd_lock l (set_repeat 1);;
  set_pc me PRun.

(** *** lock_release *)

Definition lock_release_holder (l : Z) : M ksys unit :=
  me ← me_running;
  k ← rd_lock l;
  assertM (holder k =? me) "lock_release: holder == running_thread()";;
  if 1 <? holder_repeat_nr k then upd_lock l (set_repeat (u32 (holder_repeat_nr k - 1)))
  else
    assertM (holder_repeat_nr k =? 1) "lock_release: holder_repeat_nr == 1";;
    upd_lock l (set_holder 0);;
    set_pc me (PRel1 l).

Definition lock_release_repeat (l : Z) : M ksys unit :=
  me ← me_running;
  upd_lock l (set_repeat 0);;
  set_pc me (PRel2 l).

Definition sema_up (l : Z) : M ksys unit :=
  me ← me_running;
  old_status ← on_thr (on_kcpu intr_disable);
  k ← rd_lock l;
  assertM (value (lsema k) =? 0) "sema_up: value == 0";;
  match waiters (lsema k) with
  | [] => mret tt
  | thread_blocked :: rest =>
      upd_lock l (set_waiters rest);;
      on_thr (thread_unblock thread_blocked)
  end;;
  upd_lock l (λ k, set_value (u8 (value (lsema k) + 1)) k);;
  k ← rd_lock l;
  assertM (value (lsema k) =? 1) "sema_up: value == 1";;
  _ ← on_thr (on_kcpu (intr_set_status old_status));
  set_pc me PRun.

(** *** The other things a thread does *)

(** The timer interrupts the running thread: the gate clears IF, and [iretd]
    restores it when the handler comes back without a switch. *)
Definition timer (p : pc) : M ksys unit :=
  me ← me_running;
  _ ← on_thr (on_kcpu intr_disable);
  switched ← on_thr (intr_timer_handler v2p);
  if (switched : bool) then set_pc me (PIntr p)
  else (_ ← on_thr (on_kcpu intr_enable); mret tt).

Inductive action :=
| AAcquire (l : Z) | ARelease (l : Z)
| ABlock (st : task_status) | AUnblock (u : Z) | AYield
| AIntr (st : intr_status)
| AStep                                   (* go on from the point reached *)
| ATimer.

Definition step_from (p : pc) : M ksys unit :=
  me ← me_running;
  match p with
  | PRun => mret tt
  | PStart => _ ← on_thr (on_kcpu intr_enable); set_pc me PRun
  | PDown l => sema_down l
  | PWait l old bold => sema_down_resume l old bold
  | PGot l => lock_acquire_holder l
  | PHeld l => lock_acquire_repeat l
  | PRel1 l => lock_release_repeat l
  | PRel2 l => sema_up l
  | PBlock old => on_thr (thread_block_exit old);; set_pc me PRun
  | PYield old => on_thr (thread_yield_exit old);; set_pc me PRun
  | PIntr p => _ ← on_thr (on_kcpu intr_enable); set_pc me p
  end.

Definition perform (a : action) (p : pc) : M ksys unit :=
  me ← me_running;
  match a with
  | AAcquire l => lock_acquire_test l
  | ARelease l => lock_release_holder l
  | ABlock st =>
      old ← on_thr (thread_block_enter v2p st);
      set_pc me (PBlock old)
  | AUnblock u => on_thr (thread_unblock u)
  | AYield =>
      old ← on_thr (thread_yield_enter v2p);
      set_pc me (PYield old)
  | AIntr st => _ ← on_thr (on_kcpu (intr_set_status st)); mret tt
  | AStep => step_from p
  | ATimer => timer p
  end.

(** What the callers respect: a thread calls a primitive when it is not in
    the middle of another, the idle thread uses no lock, a lock is released
    by its holder, a count does not wrap, and only a thread parked by its own
    [thread_block] is unblocked by hand. *)
Definition allowed (s : ksys) (a : action) (p : pc) : Prop :=
  let me := k_cur (thr s) in
  match a with
  | AAcquire l => p = PRun /\ me <> idle_thread (thr s) /\
      exists k, locks s !! l = Some k /\ (holder k = me -> holder_repeat_nr k < 4294967295)
  | ARelease l => p = PRun /\ me <> idle_thread (thr s) /\
      exists k, locks s !! l = Some k /\ holder k = me
  | ABlock st => p = PRun /\ is_blocked st = true
  | AUnblock u => p = PRun /\ u <> idle_thread (thr s) /\ offq u (thr s) /\
      exists old, pcs s !! u = Some (PBlock old)
  | AYield => p = PRun
  | AIntr _ => p = PRun
  | AStep => True
  | ATimer => IF_on (k_cpu (thr s)) = true
  end.

Inductive kstep (s : ksys) : ksys -> Prop :=
| kstep_perform a p s' :
    pcs s !! k_cur (thr s) = Some p -> allowed s a p ->
    perform a p s = Ok (tt, s') -> kstep s s'.
End code.

(** ** The invariant *)

(** The part of an acquisition or release a thread is in, for one lock. *)
Inductive stage := SNone | SGot | SHeld | SRel1 | SRel2.

Global Instance stage_eq_dec : EqDecision stage.
Proof. solve_decision. Defined.

Definition at_lock (l l' : Z) (st : stage) : stage := if l =? l' then st else SNone.

Fixpoint stage_of (l : Z) (p : pc) : stage :=
  match p with
  | PGot l' => at_lock l l' SGot
  | PHeld l' => at_lock l l' SHeld
  | PRel1 l' => at_lock l l' SRel1
  | PRel2 l' => at_lock l l' SRel2
  | PIntr p => stage_of l p
  | _ => SNone
  end.

(** The locks named by a point. *)
Fixpoint pc_locks (p : pc) : list Z :=
  match p with
  | PDown l | PWait l _ _ | PGot l | PHeld l | PRel1 l | PRel2 l => [l]
  | PIntr p => pc_locks p
  | _ => []
  end.

(** A thread at such a point has just been switched in (or out). *)
Definition parked (p : pc) : bool :=
  match p with
  | PStart | PWait _ _ _ | PBlock _ | PYield _ | PIntr _ => true
  | _ => false
  end.

Definition pc_ok (p : pc) : Prop :=
  match p with
  | PWait _ _ bold => bold = INTR_OFF
  | PIntr p => parked p = false
  | _ => True
  end.

(** Who owns the lock, and what its fields are at each stage. *)
Definition owned (ps : gmap Z pc) (l : Z) (k : lock) (o : option Z) : Prop :=
    value (lsema k) = match o with Some _ => 0 | None => 1 end /\
    (forall t p, ps !! t = Some p -> stage_of l p <> SNone -> o = Some t) /\
    match o with
    | None => holder k = 0 /\ holder_repeat_nr k = 0
    | Some t => t <> 0 /\ exists p, ps !! t = Some p /\
        match stage_of l p with
        | SGot | SRel2 => holder k = 0 /\ holder_repeat_nr k = 0
        | SHeld => holder k = t /\ holder_repeat_nr k = 0
        | SRel1 => holder k = 0 /\ holder_repeat_nr k = 1
        | SNone => holder k = t /\ 1 <= holder_repeat_nr k < 4294967296
        end
    end.
Definition owner_ok (ps : gmap Z pc) (l : Z) (k : lock) : Prop := exists o, owned ps l k o.

Definition queue_ok (h : kthreads) (ps : gmap Z pc) (l : Z) (k : lock) : Prop :=
  NoDup (waiters (lsema k)) /\
  forall t, t ∈ waiters (lsema k) -> offq t h /\ exists old bold, ps !! t = Some (PWait l old bold).

(** A free lock with waiters has one of them awake and about to retry. *)
Definition wake_ok (h : kthreads) (ps : gmap Z pc) (l : Z) (k : lock) : Prop :=
  value (lsema k) <> 0 -> waiters (lsema k) <> [] ->
  exists t old bold, ps !! t = Some (PWait l old bold) /\ is_Some (k_tasks h !! t) /\ ~ offq t h.

Definition lock_ok (h : kthreads) (ps : gmap Z pc) (l : Z) (k : lock) : Prop :=
  owner_ok ps l k /\ queue_ok h ps l k /\ wake_ok h ps l k.

(** Why a thread is off the queues. *)
Definition parked_why (ls : gmap Z lock) (t : Z) (p : pc) : Prop :=
  (exists old, p = PBlock old) \/
  exists l old bold k, p = PWait l old bold /\ ls !! l = Some k /\ t ∈ waiters (lsema k).

Record kwf (s : ksys) : Prop := {
  w_thr : kinv (thr s);
  w_pcs : forall t, is_Some (k_tasks (thr s) !! t) -> is_Some (pcs s !! t);
  w_pc : forall t p, pcs s !! t = Some p -> pc_ok p /\ forall l, l ∈ pc_locks p -> is_Some (locks s !! l);
  w_if : forall p, pcs s !! k_cur (thr s) = Some p -> parked p = true -> IF_on (k_cpu (thr s)) = false;
  w_idle : forall p, pcs s !! idle_thread (thr s) = Some p -> pc_locks p = [];
  w_off : forall t p, t <> idle_thread (thr s) -> offq t (thr s) -> pcs s !! t = Some p ->
    parked_why (locks s) t p;
  w_lock : forall l k, locks s !! l = Some k -> lock_ok (thr s) (pcs s) l k
}.

(** The effect of a stretch of code on who is off the queues: [w] was woken,
    and the caller [me] blocked itself if [b]. *)
Definition trel (w : option Z) (b : bool) (me : Z) (h h' : kthreads) : Prop :=
  kinv h' /\ sched_frame h h' /\
  forall t, t <> idle_thread h -> offq t h' <-> (offq t h /\ w <> Some t) \/ (b = true /\ t = me).

Definition waits_on (l : Z) (p : pc) : bool :=
  match p with PWait l' _ _ => l =? l' | _ => false end.

Lemma stage_pc_locks l p : l ∉ pc_locks p -> stage_of l p = SNone.
Proof.
  induction p; simpl; intros H; try done; try (by apply IHp);
    unfold at_lock; destruct (Z.eqb_spec l l0); set_solver.
Qed.

Lemma owner_frame ps l k me p p' : owner_ok ps l k -> ps !! me = Some p ->
  stage_of l p' = stage_of l p -> owner_ok (<[me := p']> ps) l k.
Proof.
  intros (o & Hv & Hu & Ho) Hp Hst. exists o. unfold owned. split_and!; [done| |].
  - intros t q. rewrite lookup_insert. case_decide as Hd; [|by apply Hu].
    intros [= <-]. rewrite Hst. subst. by apply Hu.
  - destruct o as [t|]; [|done]. destruct Ho as (? & q & Hq & Ho). split; [done|].
    destruct (decide (me = t)) as [<-|].
    + exists p'. rewrite lookup_insert_eq, Hst. split; [done|]. by replace p with q by congruence.
    + exists q. by rewrite lookup_insert_ne.
Qed.

Lemma kwf_waiter s l k t : kwf s -> locks s !! l = Some k -> t ∈ waiters (lsema k) ->
  t <> k_cur (thr s) /\ t <> idle_thread (thr s) /\ offq t (thr s) /\
  exists old bold, pcs s !! t = Some (PWait l old bold).
Proof.
  intros Hw Hl Ht. destruct (w_lock s Hw l k Hl) as (_ & [_ Hq] & _).
  destruct (Hq t Ht) as (Hoff & old & bold & Hp). split_and!; [apply Hoff| |done|by eauto].
  intros ->. specialize (w_idle s Hw _ Hp). done.
Qed.

(** A lock the stretch of code did not touch. *)
Lemma lock_frame s l k w b h' p p' : kwf s -> locks s !! l = Some k ->
  pcs s !! k_cur (thr s) = Some p -> trel w b (k_cur (thr s)) (thr s) h' ->
  stage_of l p' = stage_of l p -> waits_on l p = false ->
  (forall u, w = Some u -> u ∉ waiters (lsema k)) ->
  lock_ok h' (<[k_cur (thr s) := p']> (pcs s)) l k.
Proof.
  intros Hw Hl Hp (Hk' & Hf & Ho) Hst Hwt Hwk.
  destruct (w_lock s Hw l k Hl) as (Hown & [Hnd _] & Hwake). split_and!.
  - by eapply owner_frame.
  - split; [done|]. intros t Ht. destruct (kwf_waiter s l k t Hw Hl Ht) as (Hne & Hni & Hoff & old & bold & Hpt).
    split; [|by exists old, bold; rewrite lookup_insert_ne].
    apply Ho; [done|]. left. split; [done|]. intros E. by apply (Hwk t).
  - intros Hv Hne. destruct (Hwake Hv Hne) as (t & old & bold & Hpt & Hs & Hno).
    assert (t <> k_cur (thr s)).
    { intros ->. rewrite Hp in Hpt. injection Hpt as ->. simpl in Hwt. by rewrite Z.eqb_refl in Hwt. }
    exists t, old, bold. rewrite lookup_insert_ne by done. split_and!; [done| |].
    + by apply (is_Some_frame _ _ _ Hf).
    + intros Hof. apply Ho in Hof; [naive_solver|].
      intros ->. by specialize (w_idle s Hw _ Hpt).
Qed.

Lemma kwf_step s w b h' ls' p p' : kwf s -> pcs s !! k_cur (thr s) = Some p ->
  trel w b (k_cur (thr s)) (thr s) h' ->
  pc_ok p' -> (forall l, l ∈ pc_locks p' -> is_Some (ls' !! l)) ->
  (IF_on (k_cpu h') = false \/ (k_cur h' = k_cur (thr s) /\ parked p' = false)) ->
  (k_cur (thr s) = idle_thread (thr s) -> pc_locks p' = []) ->
  (forall l, is_Some (locks s !! l) -> is_Some (ls' !! l)) ->
  (b = true -> k_cur (thr s) <> idle_thread (thr s) -> parked_why ls' (k_cur (thr s)) p') ->
  (forall l k, ls' !! l = Some k ->
     (locks s !! l = Some k /\ stage_of l p' = stage_of l p /\ waits_on l p = false /\
      (forall u, w = Some u -> u ∉ waiters (lsema k)))
     \/ lock_ok h' (<[k_cur (thr s) := p']> (pcs s)) l k) ->
  (forall t l k, locks s !! l = Some k -> t ∈ waiters (lsema k) -> w <> Some t ->
     exists k', ls' !! l = Some k' /\ t ∈ waiters (lsema k')) ->
  kwf (KS h' ls' (<[k_cur (thr s) := p']> (pcs s))).
Proof.
  intros Hw Hp Ht Hok Hpl Hif Hidle Hdom Hblk Hlocks Hwait. pose proof Ht as (Hk' & Hf & Ho).
  pose proof Hf as (_ & Hfi & _).
  split; simpl; [done| | | | | |].
  - intros t Hs. rewrite lookup_insert_is_Some. apply (is_Some_frame _ _ _ Hf) in Hs.
    destruct (decide (k_cur (thr s) = t)); [by left|right]. split; [done|]. by apply (w_pcs s Hw).
  - intros t q. rewrite lookup_insert. case_decide; [intros [= <-]; done|].
    intros Hq. destruct (w_pc s Hw t q Hq) as [? Hl]. split; [done|]. intros l Hin. by apply Hdom, Hl.
  - intros q Hq Hpk. destruct Hif as [|[Hc Hnp]]; [done|].
    rewrite Hc, lookup_insert_eq in Hq. congruence.
  - intros q. rewrite Hfi, lookup_insert. case_decide as Hd; [intros [= <-]; auto|].
    apply (w_idle s Hw).
  - intros t q Hne Hoff Hq. rewrite Hfi in Hne. rewrite lookup_insert in Hq.
    apply Ho in Hoff; [|done]. case_decide as Hd.
    + subst t. injection Hq as <-. destruct Hoff as [[(_ & Hc & _) _]|[Hb _]]; [done|]. by apply Hblk.
    + destruct Hoff as [[Hoff Hnw]|[_ ->]]; [|done].
      destruct (w_off s Hw t q Hne Hoff Hq) as [?|(l & old & bold & k & -> & Hl & Hin)]; [by left|].
      right. destruct (Hwait t l k Hl Hin Hnw) as (k' & ? & ?). by exists l, old, bold, k'.
  - intros l k Hl. destruct (Hlocks l k Hl) as [(Hl0 & Hst & Hwt & Hwk)|]; [|done].
    by eapply lock_frame.
Qed.

Lemma wp_rd_lock l k Q s : locks s !! l = Some k -> Q k s -> wp (rd_lock l) Q s.
Proof. unfold wp, rd_lock. by intros ->. Qed.
Lemma wp_upd_lock l f k (Q : unit -> ksys -> Prop) s : locks s !! l = Some k ->
  Q tt (upd_locks (<[l := f k]> (locks s)) s) -> wp (upd_lock l f) Q s.
Proof. unfold wp, upd_lock. by intros ->. Qed.

Lemma trel_cpu c me h : kinv h -> trel None false me h (upd_cpu c h).
Proof.
  intros Hk. split_and!; [by apply queued_cpu|by split_and!|].
  intros t _. unfold offq; simpl. naive_solver.
Qed.

Lemma trel_refl me h : kinv h -> trel None false me h h.
Proof. intros Hk. split_and!; [done|done|]. intros t _. naive_solver. Qed.

Lemma trel_same me h h' : kinv h' -> sched_frame h h' -> (forall t, offq t h' <-> offq t h) ->
  trel None false me h h'.
Proof. intros ? ? Ho. split_and!; [done..|]. intros t _. rewrite Ho. naive_solver. Qed.

Lemma trel_pre_cpu w b c me h h' : trel w b me (upd_cpu c h) h' -> trel w b me h h'.
Proof. done. Qed.

Lemma trel_post_cpu w b c me h h' : trel w b me h h' -> trel w b me h (upd_cpu c h').
Proof. intros (Hk & Hf & Ho). split_and!; [by apply queued_cpu|exact Hf|exact Ho]. Qed.

Lemma cur_neq0 s : kinv (thr s) -> k_cur (thr s) <> 0.
Proof.
  intros Hk E. destruct (q_run _ _ Hk) as (ts & Hts & _).
  rewrite E, (q_null _ _ Hk) in Hts. done.
Qed.

(** Rewriting a point over itself. *)
Lemma pcs_same s p : pcs s !! k_cur (thr s) = Some p ->
  forall h' ls', KS h' ls' (pcs s) = KS h' ls' (<[k_cur (thr s) := p]> (pcs s)).
Proof. intros Hp h' ls'. by rewrite insert_id. Qed.

Section steps.
Context (v2p : Z -> Z).

(** A step that leaves every lock alone. *)
Lemma kwf_step_nolock s w b h' p p' : kwf s -> pcs s !! k_cur (thr s) = Some p ->
  trel w b (k_cur (thr s)) (thr s) h' ->
  pc_ok p' -> (forall l, l ∈ pc_locks p' -> is_Some (locks s !! l)) ->
  (IF_on (k_cpu h') = false \/ (k_cur h' = k_cur (thr s) /\ parked p' = false)) ->
  (k_cur (thr s) = idle_thread (thr s) -> pc_locks p' = []) ->
  (b = true -> exists old, p' = PBlock old) ->
  (forall l, stage_of l p' = stage_of l p /\ waits_on l p = false) ->
  (forall u, w = Some u -> exists old, pcs s !! u = Some (PBlock old)) ->
  kwf (KS h' (locks s) (<[k_cur (thr s) := p']> (pcs s))).
Proof.
  intros Hw Hp Ht Hok Hpl Hif Hidle Hb Hst Hu. eapply kwf_step; try done.
  - intros Hb' _. left. auto.
  - intros l k Hl. left. destruct (Hst l). split_and!; try done.
    intros u Hwu Hin. destruct (Hu u Hwu) as [old Ho].
    destruct (kwf_waiter s l k u Hw Hl Hin) as (_ & _ & _ & ? & ? & ?). congruence.
  - intros t l k Hl Hin _. by exists k.
Qed.

(** A step that changes one lock. *)
Lemma kwf_step_one s w b h' l k k' p p' : kwf s -> pcs s !! k_cur (thr s) = Some p ->
  trel w b (k_cur (thr s)) (thr s) h' -> locks s !! l = Some k ->
  pc_ok p' -> (forall l', l' ∈ pc_locks p' -> l' = l) ->
  (IF_on (k_cpu h') = false \/ (k_cur h' = k_cur (thr s) /\ parked p' = false)) ->
  k_cur (thr s) <> idle_thread (thr s) \/ pc_locks p' = [] ->
  (b = true -> parked_why (<[l := k']> (locks s)) (k_cur (thr s)) p') ->
  (forall l', l' <> l -> stage_of l' p' = stage_of l' p /\ waits_on l' p = false) ->
  (forall u, w = Some u -> u ∈ waiters (lsema k)) ->
  (forall t, t ∈ waiters (lsema k) -> w <> Some t -> t ∈ waiters (lsema k')) ->
  lock_ok h' (<[k_cur (thr s) := p']> (pcs s)) l k' ->
  kwf (KS h' (<[l := k']> (locks s)) (<[k_cur (thr s) := p']> (pcs s))).
Proof.
  intros Hw Hp Ht Hl Hok Hpl Hif Hidle Hb Hst Hwk Hin Hlk. eapply kwf_step; try done.
  - intros l' ->%Hpl. rewrite lookup_insert_eq. by eexists.
  - naive_solver.
  - intros l' Hl'. rewrite lookup_insert_is_Some. destruct (decide (l = l')); tauto.
  - auto.
  - intros l' k1. rewrite lookup_insert. case_decide as Hd.
    + subst l'. intros [= <-]. by right.
    + intros Hl'. left. destruct (Hst l'); [done|]. split_and!; try done.
      intros u Hwu Hu'. specialize (Hwk u Hwu).
      destruct (kwf_waiter s l k u Hw Hl Hwk) as (_ & _ & _ & ? & ? & ?).
      destruct (kwf_waiter s l' k1 u Hw Hl' Hu') as (_ & _ & _ & ? & ? & ?). congruence.
  - intros t l' k1 Hl' Ht' Hne. destruct (decide (l = l')) as [<-|].
    + exists k'. rewrite lookup_insert_eq. split; [done|]. apply Hin; [|done]. congruence.
    + exists k1. by rewrite lookup_insert_ne.
Qed.

(** The queue and the waking condition do not see a change of the other fields,
    nor of the point of a thread that does not wait for the lock. *)
Lemma rest_frame s l k k' p p' : kwf s -> locks s !! l = Some k ->
  pcs s !! k_cur (thr s) = Some p -> waits_on l p = false -> lsema k' = lsema k ->
  forall c, queue_ok (upd_cpu c (thr s)) (<[k_cur (thr s) := p']> (pcs s)) l k' /\
  wake_ok (upd_cpu c (thr s)) (<[k_cur (thr s) := p']> (pcs s)) l k'.
Proof.
  intros Hw Hl Hp Hwt He c.
  destruct (w_lock s Hw l k Hl) as (_ & [Hnd Hin] & Hwk).
  unfold queue_ok, wake_ok. rewrite He. split.
  - split; [done|]. intros t Ht. destruct (Hin t Ht) as (Ho & old & bold & Hpt). split; [done|].
    exists old, bold. rewrite lookup_insert_ne; [done|]. destruct Ho as (_ & ? & _). congruence.
  - intros Hv Hne. destruct (Hwk Hv Hne) as (t & old & bold & Hpt & Hs & Hno).
    exists t, old, bold. split_and!; [|done|done].
    rewrite lookup_insert_ne; [done|]. intros <-. rewrite Hp in Hpt. injection Hpt as ->.
    simpl in Hwt. by rewrite Z.eqb_refl in Hwt.
Qed.

(** A thread inside the lock code of [l] owns it. *)
Lemma stage_owner s l k p : kwf s -> locks s !! l = Some k ->
  pcs s !! k_cur (thr s) = Some p -> stage_of l p <> SNone ->
  k_cur (thr s) <> idle_thread (thr s) /\ value (lsema k) = 0 /\
  (forall t q, pcs s !! t = Some q -> stage_of l q <> SNone -> t = k_cur (thr s)) /\
  match stage_of l p with
  | SGot | SRel2 => holder k = 0 /\ holder_repeat_nr k = 0
  | SHeld => holder k = k_cur (thr s) /\ holder_repeat_nr k = 0
  | SRel1 => holder k = 0 /\ holder_repeat_nr k = 1
  | SNone => False
  end.
Proof.
  intros Hw Hl Hp Hst. destruct (w_lock s Hw l k Hl) as ((o & Hv & Hu & Ho) & _ & _).
  pose proof (Hu _ p Hp Hst) as ->. destruct Ho as (H0 & q & Hq & Ho).
  replace q with p in * by congruence. split_and!; [|done| |by destruct (stage_of l p)].
  - intros Hi. pose proof (w_idle s Hw p) as Hi'. rewrite <- Hi in Hi'. specialize (Hi' Hp).
    apply Hst, stage_pc_locks. rewrite Hi'. set_solver.
  - intros t q' Hq' Hs'. by injection (Hu t q' Hq' Hs').
Qed.

(** The lock seen by its owner at the next stage. *)
Lemma owner_next s l k' p' : kwf s -> value (lsema k') = 0 ->
  (forall t q, pcs s !! t = Some q -> stage_of l q <> SNone -> t = k_cur (thr s)) ->
  match stage_of l p' with
  | SGot | SRel2 => holder k' = 0 /\ holder_repeat_nr k' = 0
  | SHeld => holder k' = k_cur (thr s) /\ holder_repeat_nr k' = 0
  | SRel1 => holder k' = 0 /\ holder_repeat_nr k' = 1
  | SNone => holder k' = k_cur (thr s) /\ 1 <= holder_repeat_nr k' < 4294967296
  end -> owner_ok (<[k_cur (thr s) := p']> (pcs s)) l k'.
Proof.
  intros Hw Hv Hu Hs. exists (Some (k_cur (thr s))). split; [done|]. split.
  - intros t q. rewrite lookup_insert. case_decide; [by subst|].
    intros Hq Hne. f_equal. symmetry. by apply (Hu t q).
  - split; [apply cur_neq0, (w_thr s Hw)|]. exists p'. by rewrite lookup_insert_eq.
Qed.

Lemma acquire_test_ok s l k : kwf s -> pcs s !! k_cur (thr s) = Some PRun ->
  k_cur (thr s) <> idle_thread (thr s) -> locks s !! l = Some k ->
  (holder k = k_cur (thr s) -> holder_repeat_nr k < 4294967295) ->
  wp (lock_acquire_test l) (λ _, kwf) s.
Proof.
  intros Hw Hp Hni Hl Hrep. unfold lock_acquire_test. apply wp_bind, wp_gets.
  apply wp_bind, (wp_rd_lock _ k); [done|].
  destruct (Z.eqb_spec (holder k) (k_cur (thr s))) as [He|Hne]; simpl.
  - eapply wp_upd_lock; [done|]. unfold upd_locks. rewrite (pcs_same s PRun) by done.
    destruct (w_lock s Hw l k Hl) as (Hown & Hq & Hwk).
    eapply (kwf_step_one s None false _ l k _ PRun PRun); try done.
    + apply trel_refl, (w_thr s Hw).
    + set_solver.
    + by right.
    + by left.
    + split_and!.
      2,3: eapply (rest_frame s l k _ PRun PRun Hw Hl Hp eq_refl eq_refl (k_cpu (thr s))).
      destruct Hown as (o & Hv & Hu & Ho). pose proof (cur_neq0 s (w_thr s Hw)).
      rewrite insert_id by done. exists o. unfold owned. split_and!; [done|done|].
      destruct o as [t|]; [|simpl in *; lia].
      destruct Ho as (H0 & q & Hq' & Ho). split; [done|]. exists q. split; [done|].
      specialize (Hrep He). simpl in *.
      assert (stage_of l q = SHeld -> False).
      { intros E. rewrite E in Ho. destruct Ho as [Ho _].
        rewrite <- Ho, He, Hp in Hq'. injection Hq' as <-. done. }
      destruct (stage_of l q); try (lia || tauto).
      rewrite u32_small by lia. lia.
  - eapply (kwf_step_nolock s None false); try done.
    + apply trel_refl, (w_thr s Hw).
    + intros l' ->%list_elem_of_singleton. by eexists.
    + by right.
Qed.

Lemma acquire_holder_ok s l : kwf s -> pcs s !! k_cur (thr s) = Some (PGot l) ->
  wp (lock_acquire_holder l) (λ _, kwf) s.
Proof.
  intros Hw Hp. destruct (w_pc s Hw _ _ Hp) as [_ Hs]. destruct (Hs l) as [k Hl]; [set_solver|].
  destruct (stage_owner s l k _ Hw Hl Hp) as (Hni & Hv & Hu & Ho).
  { simpl. unfold at_lock. by rewrite Z.eqb_refl. }
  simpl in Ho. unfold at_lock in Ho. rewrite Z.eqb_refl in Ho.
  unfold lock_acquire_holder. apply wp_bind, wp_gets, wp_bind. eapply wp_upd_lock; [done|].
  apply wp_modify. unfold upd_locks, upd_pcs; simpl.
  eapply (kwf_step_one s None false _ l k _ (PGot l)); try done.
  - apply trel_refl, (w_thr s Hw).
  - set_solver.
  - by right.
  - by left.
  - intros l' Hne. simpl. unfold at_lock. by rewrite (proj2 (Z.eqb_neq _ _) Hne).
  - split_and!.
    2,3: eapply (rest_frame s l k _ (PGot l) _ Hw Hl Hp eq_refl eq_refl (k_cpu (thr s))).
    apply owner_next; [done|done|done|]. simpl. unfold at_lock. rewrite Z.eqb_refl. simpl. tauto.
Qed.

Lemma acquire_repeat_ok s l : kwf s -> pcs s !! k_cur (thr s) = Some (PHeld l) ->
  wp (lock_acquire_repeat l) (λ _, kwf) s.
Proof.
  intros Hw Hp. destruct (w_pc s Hw _ _ Hp) as [_ Hs]. destruct (Hs l) as [k Hl]; [set_solver|].
  destruct (stage_owner s l k _ Hw Hl Hp) as (Hni & Hv & Hu & Ho).
  { simpl. unfold at_lock. by rewrite Z.eqb_refl. }
  simpl in Ho. unfold at_lock in Ho. rewrite Z.eqb_refl in Ho.
  unfold lock_acquire_repeat. apply wp_bind, wp_gets. apply wp_bind, (wp_rd_lock _ k); [done|].
  apply wp_bind, wp_assert; [apply Z.eqb_eq; tauto|].
  apply wp_bind. eapply wp_upd_lock; [done|].
  apply wp_modify. unfold upd_locks, upd_pcs; simpl.
  eapply (kwf_step_one s None false _ l k _ (PHeld l)); try done.
  - apply trel_refl, (w_thr s Hw).
  - set_solver.
  - by right.
  - by left.
  - intros l' Hne. simpl. unfold at_lock. by rewrite (proj2 (Z.eqb_neq _ _) Hne).
  - split_and!.
    2,3: eapply (rest_frame s l k _ (PHeld l) _ Hw Hl Hp eq_refl eq_refl (k_cpu (thr s))).
    apply owner_next; [done|done|done|]. simpl. split; [tauto|lia].
Qed.

Lemma release_holder_ok s l k : kwf s -> pcs s !! k_cur (thr s) = Some PRun ->
  k_cur (thr s) <> idle_thread (thr s) -> locks s !! l = Some k -> holder k = k_cur (thr s) ->
  wp (lock_release_holder l) (λ _, kwf) s.
Proof.
  intros Hw Hp Hni Hl Hh. destruct (w_lock s Hw l k Hl) as ((o & Hv & Hu & Ho) & _ & _).
  pose proof (cur_neq0 s (w_thr s Hw)) as H0.
  destruct o as [t|]; [|destruct Ho; congruence]. destruct Ho as (_ & q & Hq & Ho).
  assert (t = k_cur (thr s)) as ->.
  { destruct (stage_of l q); destruct Ho; congruence. }
  replace q with PRun in * by congruence. simpl in Ho. destruct Ho as [_ Hrep].
  assert (Hu' : forall t q, pcs s !! t = Some q -> stage_of l q <> SNone -> t = k_cur (thr s)).
  { intros t q' ? ?. assert (E : Some (k_cur (thr s)) = Some t) by (by apply (Hu t q')). congruence. }
  unfold lock_release_holder. apply wp_bind, wp_gets. apply wp_bind, (wp_rd_lock _ k); [done|].
  apply wp_bind, wp_assert; [by apply Z.eqb_eq|].
  destruct (Z.ltb_spec 1 (holder_repeat_nr k)).
  - eapply wp_upd_lock; [done|]. unfold upd_locks. rewrite (pcs_same s PRun) by done.
    eapply (kwf_step_one s None false _ l k _ PRun PRun); try done.
    + apply trel_refl, (w_thr s Hw).
    + set_solver.
    + by right.
    + by right.
    + split_and!.
      2,3: eapply (rest_frame s l k _ PRun PRun Hw Hl Hp eq_refl eq_refl (k_cpu (thr s))).
      apply owner_next; [done|done|done|]. simpl. split; [done|]. rewrite u32_small; lia.
  - apply wp_bind, wp_assert; [apply Z.eqb_eq; lia|].
    apply wp_bind. eapply wp_upd_lock; [done|].
    apply wp_modify. unfold upd_locks, upd_pcs; simpl.
    eapply (kwf_step_one s None false _ l k _ PRun); try done.
    + apply trel_refl, (w_thr s Hw).
    + set_solver.
    + by right.
    + by left.
    + intros l' Hne. simpl. unfold at_lock. by rewrite (proj2 (Z.eqb_neq _ _) Hne).
    + split_and!.
      2,3: eapply (rest_frame s l k _ PRun _ Hw Hl Hp eq_refl eq_refl (k_cpu (thr s))).
      apply owner_next; [done|done|done|]. simpl. unfold at_lock. rewrite Z.eqb_refl. simpl.
      split; [done|lia].
  Qed.

Lemma release_repeat_ok s l : kwf s -> pcs s !! k_cur (thr s) = Some (PRel1 l) ->
  wp (lock_release_repeat l) (λ _, kwf) s.
Proof.
  intros Hw Hp. destruct (w_pc s Hw _ _ Hp) as [_ Hs]. destruct (Hs l) as [k Hl]; [set_solver|].
  destruct (stage_owner s l k _ Hw Hl Hp) as (Hni & Hv & Hu & Ho).
  { simpl. unfold at_lock. by rewrite Z.eqb_refl. }
  simpl in Ho. unfold at_lock in Ho. rewrite Z.eqb_refl in Ho.
  unfold lock_release_repeat. apply wp_bind, wp_gets, wp_bind. eapply wp_upd_lock; [done|].
  apply wp_modify. unfold upd_locks, upd_pcs; simpl.
  eapply (kwf_step_one s None false _ l k _ (PRel1 l)); try done.
  - apply trel_refl, (w_thr s Hw).
  - set_solver.
  - by right.
  - by left.
  - intros l' Hne. simpl. unfold at_lock. by rewrite (proj2 (Z.eqb_neq _ _) Hne).
  - split_and!.
    2,3: eapply (rest_frame s l k _ (PRel1 l) _ Hw Hl Hp eq_refl eq_refl (k_cpu (thr s))).
    apply owner_next; [done|done|done|]. simpl. unfold at_lock. rewrite Z.eqb_refl. simpl. tauto.
Qed.

(** Freeing the lock: no thread is inside its code any more. *)
Lemma owner_free s l k' : pcs s !! k_cur (thr s) = Some (PRel2 l) ->
  (forall t q, pcs s !! t = Some q -> stage_of l q <> SNone -> t = k_cur (thr s)) ->
  value (lsema k') = 1 -> holder k' = 0 -> holder_repeat_nr k' = 0 ->
  owner_ok (<[k_cur (thr s) := PRun]> (pcs s)) l k'.
Proof.
  intros Hp Hu Hv Hh Hr. exists None. split; [done|]. split; [|done].
  intros t q. rewrite lookup_insert. case_decide as Hd; [by intros [= <-]|].
  intros Hq Hne. destruct Hd. symmetry. by apply (Hu t q).
Qed.

Lemma sema_up_ok s l : kwf s -> pcs s !! k_cur (thr s) = Some (PRel2 l) ->
  wp (sema_up l) (λ _, kwf) s.
Proof.
  intros Hw Hp. destruct (w_pc s Hw _ _ Hp) as [_ Hs]. destruct (Hs l) as [k Hl]; [set_solver|].
  destruct (stage_owner s l k _ Hw Hl Hp) as (Hni & Hv & Hu & Ho).
  { simpl. unfold at_lock. by rewrite Z.eqb_refl. }
  simpl in Ho. unfold at_lock in Ho. rewrite Z.eqb_refl in Ho. destruct Ho as [Hh Hr].
  unfold sema_up. apply wp_bind, wp_gets, wp_bind, wp_zoom, wp_kcpu_disable.
  set (c := if IF_on _ then _ else _).
  apply wp_bind, (wp_rd_lock _ k); [done|]. apply wp_bind, wp_assert; [by apply Z.eqb_eq|].
  assert (Hst : forall l', l' <> l -> stage_of l' PRun = stage_of l' (PRel2 l) /\ waits_on l' (PRel2 l) = false).
  { intros l' Hne. simpl. unfold at_lock. by rewrite (proj2 (Z.eqb_neq _ _) Hne). }
  destruct (waiters (lsema k)) as [|u rest] eqn:Ew.
  - apply wp_bind, wp_ret, wp_bind. eapply wp_upd_lock; [done|]. simpl.
    apply wp_bind. eapply wp_rd_lock; [simpl; by rewrite lookup_insert_eq|].
    apply wp_bind, wp_assert; [simpl; by rewrite Hv|].
    apply wp_bind, wp_zoom, wp_kcpu_set. intros r c' Hc'. apply wp_modify.
    unfold upd_thr, upd_locks, upd_pcs; simpl.
    eapply (kwf_step_one s None false _ l k _ (PRel2 l)); try done.
    + exact (trel_cpu c' _ (thr s) (w_thr s Hw)).
    + set_solver.
    + by right.
    + by left.
    + split_and!; [apply owner_free; simpl; try done; by rewrite Hv| |].
      * split; simpl; rewrite Ew; [apply NoDup_nil_2|set_solver].
      * intros _. simpl. by rewrite Ew.
  - assert (Hin : u ∈ waiters (lsema k)) by (rewrite Ew; set_solver).
    destruct (kwf_waiter s l k u Hw Hl Hin) as (Hune & Huni & Huoff & oldu & boldu & Hpu).
    destruct (w_lock s Hw l k Hl) as (_ & [Hnd Hq] & _).
    apply wp_bind, wp_bind. eapply wp_upd_lock; [done|]. simpl. apply wp_zoom. simpl.
    eapply wp_mono.
    { apply (thread_unblock_ok (λ st, st = TASK_RUNNING) u); [apply queued_cpu, (w_thr s Hw)|exact Huoff]. }
    simpl. intros _ h' (Hk' & Hf' & Hcur' & Hif' & Hrd' & Hoff').
    assert (Ht : trel (Some u) false (k_cur (thr s)) (thr s) h').
    { split_and!; [done|exact Hf'|]. intros t _. rewrite Hoff'. unfold offq; simpl. naive_solver. }
    apply wp_bind. eapply wp_upd_lock; [simpl; by rewrite lookup_insert_eq|]. simpl.
    apply wp_bind. eapply wp_rd_lock; [simpl; by rewrite lookup_insert_eq|].
    apply wp_bind, wp_assert; [simpl; by rewrite Hv|].
    apply wp_bind, wp_zoom, wp_kcpu_set. intros r c' Hc'. apply wp_modify.
    unfold upd_thr, upd_locks, upd_pcs; simpl. rewrite insert_insert_eq.
    rewrite Ew in Hnd. apply NoDup_cons in Hnd as [Hnin Hnd].
    eapply (kwf_step_one s (Some u) false _ l k _ (PRel2 l)); try done.
    + by apply trel_post_cpu.
    + set_solver.
    + by right.
    + by left.
    + by intros u' [= <-].
    + simpl. rewrite Ew. intros t Ht' Hne. apply elem_of_cons in Ht' as [->|]; done.
    + split_and!; [apply owner_free; simpl; try done; by rewrite Hv| |].
      * split; simpl; [done|]. intros t Ht'.
        assert (Ht2 : t ∈ waiters (lsema k)) by (rewrite Ew; set_solver).
        destruct (Hq t Ht2) as (Ho1 & old & bold & Hpt).
        split; [apply Hoff'; split; [exact Ho1|set_solver]|].
        exists old, bold. rewrite lookup_insert_ne; [done|]. destruct Ho1 as (_ & ? & _). done.
      * intros _ _. exists u, oldu, boldu. rewrite lookup_insert_ne by done. split_and!; [done| |].
        -- apply (is_Some_frame _ _ u Hf'), Huoff.
        -- intros Hx. apply Hoff' in Hx as [_ Hx]. done.
Qed.

Lemma sema_down_loop_ok s l old c p : kwf s -> pcs s !! k_cur (thr s) = Some p ->
  (p = PDown l \/ exists o b, p = PWait l o b) -> IF_on c = false ->
  wp (sema_down_loop v2p l old) (λ _, kwf) (KS (upd_cpu c (thr s)) (locks s) (pcs s)).
Proof.
  intros Hw Hp Hpc Hc.
  assert (Hpl : pc_locks p = [l]) by (destruct Hpc as [->|(? & ? & ->)]; done).
  assert (Hst : forall l', stage_of l' p = SNone) by (destruct Hpc as [->|(? & ? & ->)]; done).
  assert (Hwo : forall l', l' <> l -> waits_on l' p = false).
  { intros l' Hne. destruct Hpc as [->|(? & ? & ->)]; simpl; [done|]. by apply Z.eqb_neq. }
  destruct (w_pc s Hw _ _ Hp) as [_ Hs]. destruct (Hs l) as [k Hl]; [rewrite Hpl; set_solver|].
  assert (Hni : k_cur (thr s) <> idle_thread (thr s)).
  { intros E. pose proof (w_idle s Hw p) as Hi. rewrite <- E in Hi. specialize (Hi Hp). congruence. }
  destruct (w_lock s Hw l k Hl) as (Hown & [Hnd Hq] & _).
  pose proof Hown as (o & Hv & Hu & Ho).
  unfold sema_down_loop. apply wp_bind, wp_gets. apply wp_bind, (wp_rd_lock _ k); [done|]. simpl.
  assert (Hnw : k_cur (thr s) ∉ waiters (lsema k)).
  { intros Hin. destruct (Hq _ Hin) as [(_ & Hc' & _) _]. done. }
  destruct (Z.eqb_spec (value (lsema k)) 0) as [Hv0|Hv0].
  - rewrite bool_decide_eq_false_2 by done. apply wp_bind, wp_assert; [done|].
    apply wp_bind, wp_ret, wp_bind. eapply wp_upd_lock; [done|]. apply wp_bind, wp_zoom. simpl.
    eapply wp_mono; [apply (thread_block_ok v2p TASK_BLOCKED); [apply queued_cpu, (w_thr s Hw)|done]|].
    simpl. intros bold h' (-> & Hk' & Hf' & Hif' & _ & _ & Hoff').
    assert (Ht : trel None true (k_cur (thr s)) (thr s) h').
    { split_and!; [done|exact Hf'|]. intros t Hne. rewrite Hoff' by done. unfold offq; simpl. naive_solver. }
    apply wp_modify. unfold upd_pcs; simpl. unfold status_of. rewrite Hc.
    set (k' := set_waiters _ k).
    eapply (kwf_step_one s None true _ l k _ p); try done.
    + set_solver.
    + by left.
    + by left.
    + intros _. right. exists l, old, INTR_OFF, k'. rewrite lookup_insert_eq. simpl. set_solver.
    + intros l' Hne. rewrite Hst. auto.
    + simpl. set_solver.
    + split_and!.
      * eapply (owner_frame _ l _ _ p); [done|done|]. by rewrite Hst.
      * split; simpl.
        { apply NoDup_app. split_and!; [done|set_solver|apply NoDup_singleton]. }
        intros t [Hin| ->%list_elem_of_singleton]%elem_of_app.
        -- destruct (kwf_waiter s l k t Hw Hl Hin) as (Hne & Hni' & Hoff & o1 & b1 & Hpt).
           split; [apply Hoff'; [done|by left]|]. exists o1, b1. by rewrite lookup_insert_ne.
        -- split; [apply Hoff'; [done|by right]|]. exists old, INTR_OFF. by rewrite lookup_insert_eq.
      * intros Hx. done.
  - assert (o = None /\ value (lsema k) = 1) as [-> Hv1] by (destruct o; split; congruence).
    apply wp_bind. eapply wp_upd_lock; [done|].
    apply wp_bind. eapply wp_rd_lock; [simpl; by rewrite lookup_insert_eq|].
    apply wp_bind, wp_assert; [simpl; by rewrite Hv1|].
    apply wp_bind, wp_zoom, wp_kcpu_set. intros r c' Hc'. apply wp_modify.
    unfold upd_thr, upd_locks, upd_pcs; simpl. rewrite Hv1. change (u8 (1 - 1)) with 0.
    eapply (kwf_step_one s None false _ l k _ p); try done.
    + exact (trel_cpu c' _ (thr s) (w_thr s Hw)).
    + set_solver.
    + by right.
    + by left.
    + intros l' Hne. rewrite Hst. simpl. unfold at_lock.
      rewrite (proj2 (Z.eqb_neq _ _) Hne). auto.
    + split_and!.
      * apply owner_next; [done|done| |].
        -- intros t q Hq' Hne. by specialize (Hu t q Hq' Hne).
        -- simpl. unfold at_lock. by rewrite Z.eqb_refl.
      * split; [done|]. simpl. intros t Hin.
        destruct (kwf_waiter s l k t Hw Hl Hin) as (Hne & _ & Hoff & o1 & b1 & Hpt).
        split; [exact Hoff|]. exists o1, b1. by rewrite lookup_insert_ne.
      * intros Hx. done.
Qed.

(** Steps that only move the interrupt flag and the caller's point. *)
Lemma cpu_step_ok s c p p' : kwf s -> pcs s !! k_cur (thr s) = Some p ->
  pc_ok p' -> parked p' = false -> pc_locks p' = pc_locks p ->
  (forall l, stage_of l p' = stage_of l p /\ waits_on l p = false) ->
  kwf (KS (upd_cpu c (thr s)) (locks s) (<[k_cur (thr s) := p']> (pcs s))).
Proof.
  intros Hw Hp Hok Hpk Hpl Hst. destruct (w_pc s Hw _ _ Hp) as [_ Hs].
  eapply (kwf_step_nolock s None false); try done.
  - apply trel_cpu, (w_thr s Hw).
  - rewrite Hpl. done.
  - by right.
  - rewrite Hpl. intros E. apply (w_idle s Hw). by rewrite <- E.
Qed.

Lemma step_from_ok s p : kwf s -> pcs s !! k_cur (thr s) = Some p ->
  wp (step_from v2p p) (λ _, kwf) s.
Proof.
  intros Hw Hp. destruct (w_pc s Hw _ _ Hp) as [Hok Hs].
  unfold step_from. apply wp_bind, wp_gets.
  destruct p as [| |l|l old bold|l|l|l|l|old|old|p].
  - by apply wp_ret.
  - apply wp_bind, wp_zoom, wp_zoom. unfold wp. rewrite intr_enable_eq.
    by apply (cpu_step_ok s _ PStart).
  - unfold sema_down. apply wp_bind, wp_zoom, wp_kcpu_disable.
    apply (sema_down_loop_ok s l _ _ (PDown l)); [done|done|by left|apply disable_off].
  - unfold sema_down_resume. apply wp_bind, wp_zoom. unfold thread_block_exit.
    apply wp_bind, wp_kcpu_set. intros r c Hc. apply wp_ret. simpl in Hok. subst bold.
    apply (sema_down_loop_ok s l _ _ (PWait l old INTR_OFF)); [done|done|eauto|done].
  - by apply acquire_holder_ok.
  - by apply acquire_repeat_ok.
  - by apply release_repeat_ok.
  - by apply sema_up_ok.
  - apply wp_bind, wp_zoom. unfold thread_block_exit.
    apply wp_bind, wp_kcpu_set. intros r c Hc. apply wp_ret, wp_modify.
    by apply (cpu_step_ok s _ (PBlock old)).
  - apply wp_bind, wp_zoom. unfold thread_yield_exit.
    apply wp_bind, wp_kcpu_set. intros r c Hc. apply wp_ret, wp_modify.
    by apply (cpu_step_ok s _ (PYield old)).
  - apply wp_bind, wp_zoom, wp_zoom. unfold wp. rewrite intr_enable_eq.
    apply (cpu_step_ok s _ (PIntr p)); try done. by destruct p.
Qed.

(** Steps that leave every thread but the caller on its queue. *)
Lemma requeue_step_ok s h' p p' : kwf s -> pcs s !! k_cur (thr s) = Some p ->
  trel None false (k_cur (thr s)) (thr s) h' -> IF_on (k_cpu h') = false ->
  pc_ok p' -> pc_locks p' = pc_locks p ->
  (forall l, stage_of l p' = stage_of l p /\ waits_on l p = false) ->
  kwf (KS h' (locks s) (<[k_cur (thr s) := p']> (pcs s))).
Proof.
  intros Hw Hp Ht Hif Hok Hpl Hst. destruct (w_pc s Hw _ _ Hp) as [_ Hs].
  eapply (kwf_step_nolock s None false); try done.
  - rewrite Hpl. done.
  - by left.
  - rewrite Hpl. intros E. apply (w_idle s Hw). by rewrite <- E.
Qed.

Lemma timer_step_ok s p : kwf s -> pcs s !! k_cur (thr s) = Some p ->
  IF_on (k_cpu (thr s)) = true -> wp (timer v2p p) (λ _, kwf) s.
Proof.
  intros Hw Hp Hif.
  assert (Hpk : parked p = false).
  { destruct (parked p) eqn:E; [|done]. rewrite (w_if s Hw p Hp E) in Hif. done. }
  destruct (q_run _ _ (w_thr s Hw)) as (tc & Htc & _).
  unfold timer. apply wp_bind, wp_gets, wp_bind, wp_zoom, wp_kcpu_disable, wp_bind, wp_zoom. simpl.
  eapply wp_mono; [apply (timer_ok v2p _ tc)|]; [apply queued_cpu, (w_thr s Hw)|apply disable_off|done|].
  simpl. intros sw h' (Hk' & Hf' & Hif' & _ & Hsw & Hoff').
  assert (Ht : trel None false (k_cur (thr s)) (thr s) h') by (by apply trel_same).
  destruct sw.
  - apply wp_modify. apply (requeue_step_ok s _ p); try done. intros l. split; [done|by destruct p].
  - apply wp_bind, wp_zoom, wp_zoom. simpl. unfold wp. rewrite intr_enable_eq. apply wp_ret.
    unfold upd_thr; simpl. rewrite (pcs_same s p) by done. destruct Hsw as [Hc _].
    destruct (w_pc s Hw _ _ Hp) as [Hok Hs].
    eapply (kwf_step_nolock s None false); try done.
    + by apply trel_post_cpu.
    + by right.
    + intros E. apply (w_idle s Hw). by rewrite <- E.
    + intros l. split; [done|by destruct p].
Qed.

Lemma perform_ok s a p : kwf s -> pcs s !! k_cur (thr s) = Some p -> allowed s a p ->
  wp (perform v2p a p) (λ _, kwf) s.
Proof.
  intros Hw Hp Ha. unfold perform. apply wp_bind, wp_gets.
  destruct (q_run _ _ (w_thr s Hw)) as (tc & Htc & _).
  destruct a as [l|l|st|u| |st| |]; simpl in Ha.
  - destruct Ha as (-> & Hni & k & Hl & Hr). by apply (acquire_test_ok s l k).
  - destruct Ha as (-> & Hni & k & Hl & Hr). by apply (release_holder_ok s l k).
  - destruct Ha as [-> Hb]. apply wp_bind, wp_zoom.
    eapply wp_mono; [apply (thread_block_ok v2p st _ (w_thr s Hw) Hb)|].
    intros old h' (_ & Hk' & Hf' & Hif' & _ & _ & Hoff'). apply wp_modify.
    eapply (kwf_step_nolock s None true _ PRun); try done.
    + split_and!; [done|done|]. intros t Hne. rewrite Hoff' by done. naive_solver.
    + set_solver.
    + by left.
    + eauto.
  - destruct Ha as (-> & Hni & Hoff & old & Hpu). apply wp_zoom.
    eapply wp_mono; [by apply (thread_unblock_ok (λ st, st = TASK_RUNNING) u _ (w_thr s Hw))|].
    intros _ h' (Hk' & Hf' & Hcur' & Hif' & _ & Hoff').
    unfold upd_thr; simpl. rewrite (pcs_same s PRun) by done.
    eapply (kwf_step_nolock s (Some u) false _ PRun); try done.
    + split_and!; [done|done|]. intros t _. rewrite Hoff'. naive_solver.
    + set_solver.
    + by right.
    + intros u' [= <-]. eauto.
  - subst p. apply wp_bind, wp_zoom.
    eapply wp_mono; [apply (thread_yield_ok v2p _ tc (w_thr s Hw) Htc)|].
    intros old h' (_ & Hk' & Hf' & Hif' & [_ Ho] & _). apply wp_modify.
    apply (requeue_step_ok s _ PRun); try done. by apply trel_same.
  - subst p. apply wp_bind, wp_zoom, wp_kcpu_set. intros r c _. apply wp_ret.
    unfold upd_thr. rewrite (pcs_same s PRun) by done. by apply (cpu_step_ok s c PRun).
  - by apply step_from_ok.
  - by apply timer_step_ok.
Qed.

Lemma kstep_kwf s s' : kwf s -> kstep v2p s s' -> kwf s'.
Proof.
  intros Hw [a p s1 Hp Ha Hr]. pose proof (perform_ok s a p Hw Hp Ha) as H.
  unfold wp in H. by rewrite Hr in H.
Qed.

Lemma reach_kwf s s' : kwf s -> rtc (kstep v2p) s s' -> kwf s'.
Proof. intros Hw Hr. induction Hr as [|? ? ? Hs]; [done|]. eauto using kstep_kwf. Qed.
End steps.

(** ** Properties of the interleaved system *)

(** The state at the end of [init_all]: every thread is at the start of its
    code or running, none is blocked, and every lock is fresh. *)
Record boot (s : ksys) : Prop := {
  b_thr : kinv (thr s);
  b_pcs : forall t, is_Some (k_tasks (thr s) !! t) -> is_Some (pcs s !! t);
  b_pc : forall t p, pcs s !! t = Some p -> p = PRun \/ (p = PStart /\ t <> k_cur (thr s));
  b_off : forall t, ~ offq t (thr s);
  b_lock : forall l k, locks s !! l = Some k -> k = lock_init
}.

Lemma boot_kwf s : boot s -> kwf s.
Proof.
  intros [Hk Hps Hpc Hoff Hl].
  assert (Hpc' : forall t p, pcs s !! t = Some p -> p = PRun \/ p = PStart) by naive_solver.
  split; [done|done| | | | |].
  - intros t p Hp. destruct (Hpc' t p Hp) as [-> | ->]; (split; [done|set_solver]).
  - intros p Hp. destruct (Hpc _ p Hp) as [-> | [_ ?]]; done.
  - intros p Hp. destruct (Hpc' _ p Hp) as [-> | ->]; done.
  - intros t p _ Ho. by destruct (Hoff t).
  - intros l k Hlk. rewrite (Hl l k Hlk). split_and!.
    + exists None. split; [done|]. split; [|done].
      intros t p Hp. destruct (Hpc' t p Hp) as [-> | ->]; done.
    + split; simpl; [apply NoDup_nil_2|set_solver].
    + intros _. done.
Qed.

(** Thread [t] has got past [sema_down] on lock [l] and has not yet reached
    the [sema_up] of its release. *)
Definition inside (s : ksys) (l t : Z) : Prop :=
  (exists k, locks s !! l = Some k /\ holder k = t /\ t <> 0) \/
  (exists p, is_Some (locks s !! l) /\ pcs s !! t = Some p /\ stage_of l p <> SNone).

Lemma inside_owned s l k o t : locks s !! l = Some k -> owned (pcs s) l k o ->
  inside s l t -> o = Some t.
Proof.
  intros Hl (Hv & Hu & Ho) [(k' & Hl' & Hh & H0)|(p & _ & Hp & Hst)]; [|by apply (Hu t p)].
  replace k' with k in * by congruence.
  destruct o as [t1|]; [|destruct Ho; congruence]. destruct Ho as (_ & p & Hp & Ho).
  f_equal. destruct (stage_of l p); destruct Ho; congruence.
Qed.

Lemma inside_lock s l t : inside s l t -> is_Some (locks s !! l).
Proof. intros [(k & Hl & _)|(p & Hl & _)]; [by exists k|done]. Qed.

Section theorems.
Context (v2p : Z -> Z).

(** C1: mutual exclusion.  Started from boot and run under any interleaving
    of lock operations, yields, blocking, wake-ups and timer interrupts, at
    most one thread is inside a lock, counting also the windows between
    [sema_down] and the assignment of [holder], and between the clearing of
    [holder] and [sema_up]. *)
Theorem lock_mutual_exclusion s0 s l t1 t2 : boot s0 -> rtc (kstep v2p) s0 s ->
  inside s l t1 -> inside s l t2 -> t1 = t2.
Proof.
  intros Hb Hr H1 H2. pose proof (reach_kwf v2p s0 s (boot_kwf s0 Hb) Hr) as Hw.
  destruct (inside_lock s l t1 H1) as [k Hl]. destruct (w_lock s Hw l k Hl) as ((o & Ho) & _ & _).
  pose proof (inside_owned s l k o t1 Hl Ho H1). pose proof (inside_owned s l k o t2 Hl Ho H2).
  congruence.
Qed.

(** C3: the synchronisation code never stops the machine.  In every reachable
    state each step the callers may take returns: no ASSERT of sync.c,
    thread.c or the timer handler fails and no list or PCB access faults. *)
Theorem sync_never_panics s0 s a p : boot s0 -> rtc (kstep v2p) s0 s ->
  pcs s !! k_cur (thr s) = Some p -> allowed s a p ->
  exists s', perform v2p a p s = Ok (tt, s').
Proof.
  intros Hb Hr Hp Ha. pose proof (reach_kwf v2p s0 s (boot_kwf s0 Hb) Hr) as Hw.
  destruct (proj1 (wp_run _ _ _) (perform_ok v2p s a p Hw Hp Ha)) as ([] & s' & Hx & _). by exists s'.
Qed.

(** C28: no wake-up is lost.  Whenever threads queue for a lock, either some
    thread is inside it (and its release will wake the head of the queue), or
    a thread that was already woken is running or on the ready queue and
    tries again. *)
Theorem lock_no_lost_wakeup s0 s l k : boot s0 -> rtc (kstep v2p) s0 s ->
  locks s !! l = Some k -> waiters (lsema k) <> [] ->
  (exists t, inside s l t) \/
  (exists t old bold, pcs s !! t = Some (PWait l old bold) /\
     (t = k_cur (thr s) \/ t ∈ thread_ready_list (thr s))).
Proof.
  intros Hb Hr Hl Hne. pose proof (reach_kwf v2p s0 s (boot_kwf s0 Hb) Hr) as Hw.
  destruct (w_lock s Hw l k Hl) as ((o & Hv & Hu & Ho) & _ & Hwk).
  destruct o as [t|].
  - left. exists t. destruct Ho as (H0 & p & Hp & Ho).
    destruct (stage_of l p) eqn:E; [left; exists k; naive_solver|..];
      right; exists p; (split_and!; [by exists k|done|by rewrite E]).
  - right. destruct Hwk as (t & old & bold & Hp & Hs & Hno); [lia|done|].
    exists t, old, bold. split; [done|]. unfold offq in Hno.
    destruct (decide (t = k_cur (thr s))); [by left|right].
    destruct (decide (t ∈ thread_ready_list (thr s))); [done|]. by destruct Hno.
Qed.

(** A PCB's [general_tag] is on at most one queue.  The ready queue and
    the wait queues of all locks have no duplicates, share no thread, and
    never hold the running thread, so linking the tag into one list cannot
    corrupt another. *)
Theorem general_tag_exclusive s0 s l k t : boot s0 -> rtc (kstep v2p) s0 s ->
  locks s !! l = Some k ->
  NoDup (thread_ready_list (thr s)) /\ NoDup (waiters (lsema k)) /\
  (t ∈ waiters (lsema k) -> (t ∉ thread_ready_list (thr s)) /\ t <> k_cur (thr s) /\
     forall l' k', locks s !! l' = Some k' -> t ∈ waiters (lsema k') -> l' = l).
Proof.
  intros Hb Hr Hl. pose proof (reach_kwf v2p s0 s (boot_kwf s0 Hb) Hr) as Hw.
  destruct (w_lock s Hw l k Hl) as (_ & [Hnd _] & _).
  split_and!; [apply (q_nodup _ _ (w_thr s Hw))|done|].
  intros Hin. destruct (kwf_waiter s l k t Hw Hl Hin) as (Hne & _ & (_ & _ & Hni) & o1 & b1 & Hp).
  split_and!; [done|done|]. intros l' k' Hl' Hin'.
  destruct (kwf_waiter s l' k' t Hw Hl' Hin') as (_ & _ & _ & o2 & b2 & Hp'). congruence.
Qed.
End theorems.

(** *** Two threads and a lock *)

Definition demo_sys : ksys :=
  KS demo_threads {[ 500 := lock_init ]}
     (<[0xc009e000 := PRun]> (<[0xc0100000 := PStart]> (<[0xc0101000 := PStart]> ∅))).

Lemma demo_boot : boot demo_sys.
Proof.
  split; [apply demo_threads_kinv| | | |]; simpl.
  - intros t [ts Ht]. unfold demo_sys, demo_threads in *; simpl in *. lookup_cases Ht; subst; by eexists.
  - intros t p Hp. unfold demo_sys in Hp; simpl in Hp. lookup_cases Hp; injection Hp as <-; subst; auto.
  - intros t ([ts Ht] & Hc & Hni). unfold demo_threads in *; simpl in *. lookup_cases Ht; set_solver.
  - intros l k Hl. apply lookup_singleton_Some in Hl as [_ <-]. done.
Qed.

Definition run_action (a : action) (s : ksys) : res ksys :=
  match pcs s !! k_cur (thr s) with
  | Some p => match perform (λ z, z) a p s with
              | Ok (_, s') => Ok s' | Panic w => Panic w | Fault => Fault
              | Block => Block | NoFuel => NoFuel end
  | None => Fault
  end.
Definition run_actions (l : list action) (s : ksys) : res ksys :=
  foldl (λ r a, r ≫= run_action a) (Ok s) l.

(** main takes the lock and yields; init starts, blocks on the lock; idle
    starts and yields back to main. *)
Definition demo_trace : list action :=
  [AAcquire 500; AStep; AStep; AStep; AYield; AStep; AAcquire 500; AStep; AStep; AYield].

Definition demo_after (n : nat) : ksys :=
  match run_actions (take n demo_trace) demo_sys with Ok s => s | _ => demo_sys end.

Lemma demo_kstep n a p : take (S n) demo_trace = take n demo_trace ++ [a] ->
  pcs (demo_after n) !! k_cur (thr (demo_after n)) = Some p ->
  allowed (demo_after n) a p ->
  perform (λ z, z) a p (demo_after n) = Ok (tt, demo_after (S n)) ->
  kstep (λ z, z) (demo_after n) (demo_after (S n)).
Proof. intros _ Hp Ha Hr. by apply (kstep_perform _ _ a p). Qed.

Ltac demo_allowed :=
  first
    [ exact I | reflexivity
    | split; [reflexivity|]; split; [vm_compute; discriminate|];
      eexists; split; [vm_compute; reflexivity|]; vm_compute; first [reflexivity | discriminate] ].
Ltac demo_step n a p :=
  eapply (rtc_l _ _ (demo_after (S n)));
  [apply (demo_kstep n a p); [vm_compute; reflexivity..|demo_allowed|vm_compute; reflexivity]|].

(** main holds the lock and is running again, init waits for it. *)
Lemma demo_reach : rtc (kstep (λ z, z)) demo_sys (demo_after 10).
Proof.
  change demo_sys with (demo_after 0).
  demo_step 0%nat (AAcquire 500) PRun. demo_step 1%nat AStep (PDown 500).
  demo_step 2%nat AStep (PGot 500). demo_step 3%nat AStep (PHeld 500).
  demo_step 4%nat AYield PRun. demo_step 5%nat AStep PStart.
  demo_step 6%nat (AAcquire 500) PRun. demo_step 7%nat AStep (PDown 500).
  demo_step 8%nat AStep PStart. demo_step 9%nat AYield PRun.
  apply rtc_refl.
Qed.

Lemma lock_mutual_exclusion_witness : inside (demo_after 10) 500 0xc009e000 /\
  0xc009e000 = 0xc009e000.
Proof.
  assert (H : inside (demo_after 10) 500 0xc009e000).
  { left. eexists. split; [vm_compute; reflexivity|]. split; [reflexivity|discriminate]. }
  split; [exact H|]. exact (lock_mutual_exclusion (λ z, z) demo_sys _ 500 _ _ demo_boot demo_reach H H).
Defined.

Lemma sync_never_panics_witness :
  exists s', perform (λ z, z) AStep (PYield INTR_OFF) (demo_after 10) = Ok (tt, s').
Proof.
  apply (sync_never_panics (λ z, z) demo_sys (demo_after 10) AStep (PYield INTR_OFF) demo_boot demo_reach).
  - vm_compute; reflexivity.
  - exact I.
Defined.

Definition demo_lock : lock :=
  match locks (demo_after 10) !! 500 with Some k => k | None => lock_init end.

Lemma demo_lock_eq : locks (demo_after 10) !! 500 = Some demo_lock.
Proof. vm_compute. reflexivity. Qed.

Lemma lock_no_lost_wakeup_witness : waiters (lsema demo_lock) = [0xc0100000] /\
  ((exists t, inside (demo_after 10) 500 t) \/
   (exists t old bold, pcs (demo_after 10) !! t = Some (PWait 500 old bold) /\
      (t = k_cur (thr (demo_after 10)) \/ t ∈ thread_ready_list (thr (demo_after 10))))).
Proof.
  split; [vm_compute; reflexivity|].
  apply (lock_no_lost_wakeup (λ z, z) demo_sys (demo_after 10) 500 demo_lock demo_boot demo_reach demo_lock_eq).
  vm_compute. discriminate.
Defined.

Lemma general_tag_exclusive_witness :
  NoDup (thread_ready_list (thr (demo_after 10))) /\ NoDup (waiters (lsema demo_lock)) /\
  (0xc0100000 ∈ waiters (lsema demo_lock) ->
     (0xc0100000 ∉ thread_ready_list (thr (demo_after 10))) /\ 0xc0100000 <> k_cur (thr (demo_after 10)) /\
     forall l' k', locks (demo_after 10) !! l' = Some k' -> 0xc0100000 ∈ waiters (lsema k') -> l' = 500).
Proof.
  exact (general_tag_exclusive (λ z, z) demo_sys (demo_after 10) 500 demo_lock 0xc0100000
           demo_boot demo_reach demo_lock_eq).
Defined.

(** ** One thread at a time

    The operations as a thread sees them that is never made to wait: what a
    sequential component calls.  [Block] is the outcome of a call that would
    have to wait for another thread; the thread woken by a release is
    returned. *)

Module Seq.

Definition sema_down (s : semaphore) : res semaphore :=
  if value s =? 0 then Block
  else
    let v := u8 (value s - 1) in
    ASSERT (v =? 0) "sema_down: value == 0" ≫= λ _,
    Ok (Sema v (waiters s)).

Definition sema_up (s : semaphore) : res (option Z * semaphore) :=
  ASSERT (value s =? 0) "sema_up: value == 0" ≫= λ _,
  let v := u8 (value s + 1) in
  ASSERT (v =? 1) "sema_up: value == 1" ≫= λ _,
  match waiters s with
  | [] => Ok (None, Sema v [])
  | t :: rest => Ok (Some t, Sema v rest)
  end.

Definition lock_acquire (me : Z) (k : lock) : res lock :=
  if negb (holder k =? me) then
    s ← sema_down (lsema k);
    ASSERT (holder_repeat_nr k =? 0) "lock_acquire: holder_repeat_nr == 0" ≫= λ _,
    Ok (Lock me s 1)
  else Ok (set_repeat (u32 (holder_repeat_nr k + 1)) k).

Definition lock_release (me : Z) (k : lock) : res (option Z * lock) :=
  ASSERT (holder k =? me) "lock_release: holder == running_thread()" ≫= λ _,
  if 1 <? holder_repeat_nr k then Ok (None, set_repeat (u32 (holder_repeat_nr k - 1)) k)
  else
    ASSERT (holder_repeat_nr k =? 1) "lock_release: holder_repeat_nr == 1" ≫= λ _,
    ws ← sema_up (lsema k);
    Ok (fst ws, Lock 0 (snd ws) 0).

(** A lock that nobody else holds or waits for. *)
Definition quiet (me : Z) (k : lock) : Prop :=
  waiters (lsema k) = [] /\
  ((holder k = 0 /\ value (lsema k) = 1 /\ holder_repeat_nr k = 0) \/
   (holder k = me /\ value (lsema k) = 0 /\ 1 <= holder_repeat_nr k < 4294967295)).

Lemma acquire_release me k : me <> 0 -> quiet me k ->
  exists k', lock_acquire me k = Ok k' /\ holder k' = me /\ lock_release me k' = Ok (None, k).
Proof.
  intros Hme [Hw [(Hh & Hv & Hr)|(Hh & Hv & Hr)]]; unfold lock_acquire, lock_release;
    destruct k as [h [v w] r]; simpl in *; subst.
  - rewrite (proj2 (Z.eqb_neq 0 me)) by done. simpl.
    eexists. split; [done|]. simpl. split; [done|]. by rewrite Z.eqb_refl.
  - rewrite Z.eqb_refl. simpl. eexists. split; [done|]. simpl. split; [done|].
    rewrite Z.eqb_refl. simpl. rewrite u32_small by lia.
    destruct (Z.ltb_spec 1 (r + 1)); [|lia]. rewrite u32_small by lia. unfold set_repeat; simpl. repeat f_equal; lia.
Qed.
End Seq.

(** ** Process numbers: the pid pool of thread.c *)

Record pid_pool := PidPool { pid_bitmap : bitmap; pid_start : Z; pid_lock : lock }.

Definition pid_pool_init (pid_bitmap_bits : list Z) : res pid_pool :=
  b ← bitmap_init (Bitmap 128 pid_bitmap_bits);
  Ok (PidPool b 1 lock_init).

(** The caller's page is [me]; the new pool comes with the pid. *)
Definition allocate_pid (me : Z) (p : pid_pool) : res (Z * pid_pool) :=
  lk ← Seq.lock_acquire me (pid_lock p);
  bit_idx ← bitmap_scan (pid_bitmap p) 1;
  b ← bitmap_set (pid_bitmap p) (u32 bit_idx) 1;
  wk ← Seq.lock_release me lk;
  Ok (s16 (bit_idx + pid_start p), PidPool b (pid_start p) (snd wk)).

Definition release_pid (me pid : Z) (p : pid_pool) : res pid_pool :=
  lk ← Seq.lock_acquire me (pid_lock p);
  let bit_idx := s32 (u32 (pid - pid_start p)) in
  b ← bitmap_set (pid_bitmap p) (u32 bit_idx) 0;
  wk ← Seq.lock_release me lk;
  Ok (PidPool b (pid_start p) (snd wk)).

Definition fork_pid := allocate_pid.

Record pid_wf (me : Z) (p : pid_pool) : Prop := {
  pw_bits : bitmap_wf (pid_bitmap p);
  pw_len : btmp_bytes_len (pid_bitmap p) = 128;
  pw_start : pid_start p = 1;
  pw_lock : Seq.quiet me (pid_lock p)
}.

(** Pid [n] is in use. *)
Definition pid_used (p : pid_pool) (n : Z) : bool := bit (pid_bitmap p) (n - 1).

(** Process numbers are unique and reusable.  While one of the 1024
    numbers is free, [allocate_pid] returns the smallest free one, marks it
    and nothing else, leaves the lock free again, and [release_pid] of it
    restores the pool exactly. *)
Theorem allocate_pid_fresh me p n : me <> 0 -> pid_wf me p -> 1 <= n <= 1024 ->
  pid_used p n = false ->
  exists m p', allocate_pid me p = Ok (m, p') /\ 1 <= m <= n /\ pid_used p m = false /\
    pid_wf me p' /\
    (forall j, 1 <= j -> pid_used p' j = if decide (j = m) then true else pid_used p j) /\
    release_pid me m p' = Ok p.
Proof.
  intros Hme [Hwf Hlen Hst Hq] Hn Hu.
  destruct (Seq.acquire_release me (pid_lock p) Hme Hq) as (lk & Hacq & _ & Hrel).
  destruct (bitmap_scan_one_ok (pid_bitmap p) (n - 1) Hwf) as (s & Hs & Hsn & Hsf & _); [lia|done|].
  destruct (bitmap_set_ok (pid_bitmap p) s 1) as (b1 & Hb1 & Hwf1 & Hl1 & Hz1 & Hbit1); [done|lia|by right|].
  destruct (bitmap_set_ok b1 s 0) as (b2 & Hb2 & Hwf2 & Hl2 & Hz2 & Hbit2); [done|lia|by left|].
  exists (s + 1), (PidPool b1 (pid_start p) (pid_lock p)).
  assert (Hb : b2 = pid_bitmap p).
  { apply bitmap_wf_ext; [done|done|congruence|congruence|].
    intros j Hj. rewrite Hbit2, Hbit1 by done. by case_decide; subst. }
  unfold allocate_pid, release_pid. rewrite Hacq, Hs. rcbn. rewrite u32_small by lia.
  rewrite Hb1. rcbn. rewrite Hrel. rcbn. cbn [snd]. rewrite Hst, s16_small by lia.
  split_and!; [done|lia|lia| | | |].
  - unfold pid_used. by replace (s + 1 - 1) with s by lia.
  - split; simpl; congruence || done.
  - intros j Hj. unfold pid_used; simpl. rewrite Hbit1 by lia.
    repeat case_decide; lia || done.
  - simpl. rewrite Hacq. rcbn. replace (s + 1 - 1) with s by lia.
    rewrite (u32_small s), s32_small, u32_small by lia. rewrite Hb2. rcbn. rewrite Hrel. rcbn.
    simpl. rewrite Hb, <- Hst. by destruct p.
Qed.

Definition demo_pids : pid_pool :=
  PidPool (Bitmap 128 (7 :: replicate 128 0)) 1 lock_init.

Lemma demo_pids_wf : pid_wf 0xc009e000 demo_pids.
Proof.
  split; simpl; try done.
  - split; simpl; [lia|lia|vm_compute; discriminate|].
    rewrite Forall_cons. split; [unfold is_byte; lia|].
    apply (Forall_replicate is_byte 128 0). unfold is_byte; lia.
  - split; [done|]. by left.
Qed.

Lemma allocate_pid_fresh_witness :
  exists m p', allocate_pid 0xc009e000 demo_pids = Ok (m, p') /\ 1 <= m <= 9 /\
    pid_used demo_pids m = false /\ pid_wf 0xc009e000 p' /\
    (forall j, 1 <= j -> pid_used p' j = if decide (j = m) then true else pid_used demo_pids j) /\
    release_pid 0xc009e000 m p' = Ok demo_pids.
Proof.
  apply (allocate_pid_fresh 0xc009e000 demo_pids 9); [lia|apply demo_pids_wf|lia|reflexivity].
Defined.
