(* ===== verification/Paging.v ===== *)
(** kernel/memory.c, first half: page frames, virtual addresses and page
    tables.

    [vm] is the machine the code runs on.  Physical memory is a store of
    32-bit words by aligned physical address; [mmu] is the translation the
    processor makes from [cr3], and every access the code makes through a
    pointer ([load], [store]) goes through it.  The page tables are therefore
    reached the way the code reaches them, by the last entry of the page
    directory, which points back to the directory.  The TLB is not modelled:
    a translation is always the one the tables in memory give.

    The locks of the pools are the sequential ones of Sync.v ([Seq]); the
    bitmaps are the values of Bitmap.v and not the bytes at
    MEM_BITMAP_BASE. *)

From S2P Require Import Prelude Bitmap Interrupt Thread Sync.

Open Scope Z_scope.

(** ** Data *)

Definition PG_P_1 : Z := 1.
Definition PG_RW_W : Z := 2.
Definition PG_US_U : Z := 4.
Definition PF_KERNEL : Z := 1.
Definition PF_USER : Z := 2.
Definition MEM_BITMAP_BASE : Z := 0xc009a000.
Definition K_HEAP_START : Z := 0xc0100000.

Record pool := Pool {
  pool_bitmap : bitmap;
  phy_addr_start : Z;
  pool_size : Z;
  plock : lock
}.

Record vm := VM {
  ram : gmap Z Z;
  cr3 : Z;
  kernel_pool : pool;
  user_pool : pool;
  kernel_vaddr : virtual_addr;
  me : Z;                       (* running_thread() *)
  mcur : task_struct            (* and the PCB there *)
}.

Definition set_ram (x : gmap Z Z) (s : vm) : vm :=
  VM x (cr3 s) (kernel_pool s) (user_pool s) (kernel_vaddr s) (me s) (mcur s).
Definition set_kpool (x : pool) (s : vm) : vm :=
  VM (ram s) (cr3 s) x (user_pool s) (kernel_vaddr s) (me s) (mcur s).
Definition set_upool (x : pool) (s : vm) : vm :=
  VM (ram s) (cr3 s) (kernel_pool s) x (kernel_vaddr s) (me s) (mcur s).
Definition set_kvaddr (x : virtual_addr) (s : vm) : vm :=
  VM (ram s) (cr3 s) (kernel_pool s) (user_pool s) x (me s) (mcur s).
Definition set_mcur (x : task_struct) (s : vm) : vm :=
  VM (ram s) (cr3 s) (kernel_pool s) (user_pool s) (kernel_vaddr s) (me s) x.

Definition set_uvaddr (v : virtual_addr) (t : task_struct) : task_struct :=
  Task (self_kstack t) (pid t) (status t) (name t) (priority t) (ticks t) (elapsed_ticks t)
    (fd_table t) (pgdir t) v (cwd_inode_nr t) (parent_pid t) (exit_status t) (stack_magic t).

Definition set_pbits (b : bitmap) (p : pool) : pool :=
  Pool b (phy_addr_start p) (pool_size p) (plock p).
Definition set_plock (k : lock) (p : pool) : pool :=
  Pool (pool_bitmap p) (phy_addr_start p) (pool_size p) k.

(** [pf & PF_KERNEL ? &kernel_pool : &user_pool] *)
Definition is_kernel (pf : Z) : bool := negb (Z.land pf PF_KERNEL =? 0).
Definition mem_pool (pf : Z) (s : vm) : pool :=
  if is_kernel pf then kernel_pool s else user_pool s.
Definition set_pool (pf : Z) (p : pool) (s : vm) : vm :=
  if is_kernel pf then set_kpool p s else set_upool p s.

(** ** The processor's address translation *)

Definition PDE_IDX (addr : Z) : Z := Z.shiftr (Z.land addr 0xffc00000) 22.
Definition PTE_IDX (addr : Z) : Z := Z.shiftr (Z.land addr 0x003ff000) 12.

Definition word (s : vm) (pa : Z) : Z := default 0 (ram s !! pa).
Definition present (e : Z) : bool := negb (Z.land e 0x00000001 =? 0).
Definition frame (e : Z) : Z := Z.land e 0xfffff000.

Definition pde_of (s : vm) (va : Z) : Z := word s (cr3 s + 4 * PDE_IDX va).
Definition pte_addr (s : vm) (va : Z) : Z := frame (pde_of s va) + 4 * PTE_IDX va.

Definition mmu (s : vm) (va : Z) : option Z :=
  if present (pde_of s va) then
    let pte := word s (pte_addr s va) in
    if present pte then Some (frame pte + Z.land va 0x00000fff) else None
  else None.

(** An access to an unmapped page is a page fault; the code's accesses are
    aligned words. *)
Definition load (va : Z) : M vm Z := λ s,
  if negb (va mod 4 =? 0) then Fault
  else match mmu s va with Some pa => Ok (word s pa, s) | None => Fault end.
Definition store (va x : Z) : M vm unit := λ s,
  if negb (va mod 4 =? 0) then Fault
  else match mmu s va with
       | Some pa => Ok (tt, set_ram (<[pa := x]> (ram s)) s)
       | None => Fault
       end.

(** [memset(va, 0, 4 * n)] on aligned memory. *)
Fixpoint clear_words (n : nat) (va : Z) : M vm unit :=
  match n with
  | O => mret tt
  | S n => store va 0;; clear_words n (u32 (va + 4))
  end.

(** ** Page tables *)

Definition pte_ptr (vaddr : Z) : Z :=
  u32 (0xffc00000 + Z.shiftr (Z.land vaddr 0xffc00000) 10 + PTE_IDX vaddr * 4).
Definition pde_ptr (vaddr : Z) : Z := u32 (0xfffff000 + PDE_IDX vaddr * 4).

Definition addr_v2p (vaddr : Z) : M vm Z :=
  pte ← load (pte_ptr vaddr);
  mret (u32 (Z.land pte 0xfffff000 + Z.land vaddr 0x00000fff)).

(** ** Page frames *)

Definition palloc (pf : Z) : M vm Z :=
  p ← gets (mem_pool pf);
  bit_idx ← lift (bitmap_scan (pool_bitmap p) 1);
  if bit_idx =? -1 then mret 0
  else
    b ← lift (bitmap_set (pool_bitmap p) (u32 bit_idx) 1);
    modify (set_pool pf (set_pbits b p));;
    mret (u32 (bit_idx * PG_SIZE + phy_addr_start p)).

(** [pfree] and [free_a_phy_page] have the same body. *)
Definition pfree (pg_phy_addr : Z) : M vm unit :=
  ustart ← gets (λ s, phy_addr_start (user_pool s));
  let pf := if ustart <=? pg_phy_addr then PF_USER else PF_KERNEL in
  p ← gets (mem_pool pf);
  let bit_idx := u32 (pg_phy_addr - phy_addr_start p) / PG_SIZE in
  b ← lift (bitmap_set (pool_bitmap p) bit_idx 0);
  modify (set_pool pf (set_pbits b p)).

Definition free_a_phy_page : Z -> M vm unit := pfree.

Definition page_table_add (vaddr page_phyaddr : Z) : M vm unit :=
  let pde := pde_ptr vaddr in
  let pte := pte_ptr vaddr in
  let entry (pa : Z) := Z.lor (Z.lor (Z.lor pa PG_US_U) PG_RW_W) PG_P_1 in
  d ← load pde;
  if present d then
    t ← load pte;
    assertM (negb (present t)) "!(*pte & 0x00000001)";;
    t ← load pte;
    (if negb (present t) then store pte (entry page_phyaddr) else panicM "pte repeat")
  else
    pde_phyaddr ← palloc PF_KERNEL;
    store pde (entry pde_phyaddr);;
    clear_words 1024 (Z.land pte 0xfffff000);;
    t ← load pte;
    assertM (negb (present t)) "!(*pte & 0x00000001)";;
    store pte (entry page_phyaddr).

Definition page_table_pte_remove (vaddr : Z) : M vm unit :=
  let pte := pte_ptr vaddr in
  t ← load pte;
  store pte (Z.land t (u32 (Z.lnot PG_P_1))).

(** ** Virtual addresses *)

(** [while (cnt < pg_cnt) bitmap_set(b, start + cnt++, v)] *)
Fixpoint set_bits (n : nat) (b : bitmap) (i v : Z) : res bitmap :=
  match n with
  | O => Ok b
  | S n => b' ← bitmap_set b (u32 i) v; set_bits n b' (i + 1) v
  end.

(** The pool of virtual addresses of [pf]: the kernel's, or the one of the
    running task. *)
Definition vpool (pf : Z) (s : vm) : virtual_addr :=
  if pf =? PF_KERNEL then kernel_vaddr s else userprog_vaddr (mcur s).
Definition set_vbits (pf : Z) (b : bitmap) (s : vm) : vm :=
  if pf =? PF_KERNEL then set_kvaddr (VirtualAddr b (vaddr_start (kernel_vaddr s))) s
  else set_mcur (set_uvaddr (VirtualAddr b (vaddr_start (userprog_vaddr (mcur s)))) (mcur s)) s.

Definition vaddr_get (pf pg_cnt : Z) : M vm Z :=
  v ← gets (vpool pf);
  bit_idx_start ← lift (bitmap_scan (vaddr_bitmap v) pg_cnt);
  if bit_idx_start =? -1 then mret 0
  else
    b ← lift (set_bits (Z.to_nat pg_cnt) (vaddr_bitmap v) bit_idx_start 1);
    modify (set_vbits pf b);;
    let addr := u32 (vaddr_start v + bit_idx_start * PG_SIZE) in
    assertM ((pf =? PF_KERNEL) || (addr <? 0xc0000000 - PG_SIZE))
      "(uint32_t)vaddr_start < (0xc0000000 - PG_SIZE)";;
    mret addr.

Definition vaddr_remove (pf vaddr pg_cnt : Z) : M vm unit :=
  v ← gets (vpool pf);
  let bit_idx_start := u32 (vaddr - vaddr_start v) / PG_SIZE in
  b ← lift (set_bits (Z.to_nat pg_cnt) (vaddr_bitmap v) bit_idx_start 0);
  modify (set_vbits pf b).

(** ** Allocation *)

Fixpoint map_pages (n : nat) (pf vaddr : Z) : M vm bool :=
  match n with
  | O => mret true
  | S n =>
      page_phyaddr ← palloc pf;
      if page_phyaddr =? 0 then mret false
      else page_table_add vaddr page_phyaddr;; map_pages n pf (u32 (vaddr + PG_SIZE))
  end.

Definition malloc_page (pf pg_cnt : Z) : M vm Z :=
  assertM ((0 <? pg_cnt) && (pg_cnt <? 3840)) "pg_cnt > 0 && pg_cnt < 3840";;
  vaddr_start ← vaddr_get pf pg_cnt;
  if vaddr_start =? 0 then mret 0
  else
    done ← map_pages (Z.to_nat pg_cnt) pf vaddr_start;
    mret (if (done : bool) then vaddr_start else 0).

Definition acquire (pf : Z) : M vm unit :=
  p ← gets (mem_pool pf);
  m ← gets me;
  k ← lift (Seq.lock_acquire m (plock p));
  modify (λ s, set_pool pf (set_plock k (mem_pool pf s)) s).
Definition release (pf : Z) : M vm unit :=
  p ← gets (mem_pool pf);
  m ← gets me;
  wk ← lift (Seq.lock_release m (plock p));
  modify (λ s, set_pool pf (set_plock (snd wk) (mem_pool pf s)) s).

(** [get_kernel_pages] and [get_user_pages]: zeroed pages. *)
Definition get_pages (pf pg_cnt : Z) : M vm Z :=
  acquire pf;;
  vaddr ← malloc_page pf pg_cnt;
  (if negb (vaddr =? 0) then clear_words (Z.to_nat (u32 (pg_cnt * PG_SIZE) / 4)) vaddr else mret tt);;
  release pf;;
  mret vaddr.
Definition get_kernel_pages : Z -> M vm Z := get_pages PF_KERNEL.
Definition get_user_pages : Z -> M vm Z := get_pages PF_USER.

Definition get_a_page (pf vaddr : Z) : M vm Z :=
  acquire pf;;
  cur ← gets mcur;
  (if negb (pgdir cur =? 0) && (pf =? PF_USER) then
     let v := userprog_vaddr cur in
     let bit_idx := s32 (u32 (vaddr - vaddr_start v) / PG_SIZE) in
     assertM (0 <=? bit_idx) "bit_idx >= 0";;
     b ← lift (bitmap_set (vaddr_bitmap v) (u32 bit_idx) 1);
     modify (set_vbits PF_USER b)
   else if (pgdir cur =? 0) && (pf =? PF_KERNEL) then
     v ← gets kernel_vaddr;
     let bit_idx := s32 (u32 (vaddr - vaddr_start v) / PG_SIZE) in
     assertM (0 <? bit_idx) "bit_idx > 0";;
     b ← lift (bitmap_set (vaddr_bitmap v) (u32 bit_idx) 1);
     modify (set_vbits PF_KERNEL b)
   else panicM "get_a_page: not allow kernel alloc userspace or user alloc kernelspace by get_a_page");;
  page_phyaddr ← palloc pf;
  if page_phyaddr =? 0 then release pf;; mret 0
  else
    page_table_add vaddr page_phyaddr;;
    release pf;;
    mret vaddr.

Definition get_a_page_without_opvaddrbitmap (pf vaddr : Z) : M vm Z :=
  acquire pf;;
  page_phyaddr ← palloc pf;
  if page_phyaddr =? 0 then release pf;; mret 0
  else
    page_table_add vaddr page_phyaddr;;
    release pf;;
    mret vaddr.

(** ** Release *)

(** One of the two loops of [mfree_page]: [ok] is the assertion on the
    physical address of each page. *)
Fixpoint unmap_pages (n : nat) (ok : Z -> vm -> bool) (vaddr : Z) : M vm unit :=
  match n with
  | O => mret tt
  | S n =>
      let vaddr := u32 (vaddr + PG_SIZE) in
      pg_phy_addr ← addr_v2p vaddr;
      good ← gets (ok pg_phy_addr);
      assertM good "mfree_page: pg_phy_addr";;
      pfree pg_phy_addr;;
      page_table_pte_remove vaddr;;
      unmap_pages n ok vaddr
  end.

Definition mfree_page (pf vaddr pg_cnt : Z) : M vm unit :=
  assertM ((1 <=? pg_cnt) && (vaddr mod PG_SIZE =? 0)) "(pg_cnt >= 1) && (vaddr % PG_SIZE) == 0";;
  pg_phy_addr ← addr_v2p vaddr;
  assertM ((pg_phy_addr mod PG_SIZE =? 0) && (0x102000 <=? pg_phy_addr))
    "(pg_phy_addr % PG_SIZE) == 0 && pg_phy_addr >= 0x102000";;
  ustart ← gets (λ s, phy_addr_start (user_pool s));
  (if ustart <=? pg_phy_addr then
     unmap_pages (Z.to_nat pg_cnt)
       (λ pa s, (pa mod PG_SIZE =? 0) && (phy_addr_start (user_pool s) <=? pa))
       (u32 (vaddr - PG_SIZE))
   else
     unmap_pages (Z.to_nat pg_cnt)
       (λ pa s, (pa mod PG_SIZE =? 0) && (phy_addr_start (kernel_pool s) <=? pa)
                && (pa <? phy_addr_start (user_pool s)))
       (u32 (vaddr - PG_SIZE)));;
  vaddr_remove pf vaddr pg_cnt.

(** ** Start-up *)

(** [bits_at] is the memory at an address, where the bitmaps are put. *)
Definition mem_pool_init (bits_at : Z -> list Z) (all_mem : Z) (s : vm) : res vm :=
  let page_table_size := PG_SIZE * 256 in
  let used_mem := page_table_size + 0x100000 in
  let free_mem := u32 (all_mem - used_mem) in
  let all_free_pages := u16 (free_mem / PG_SIZE) in
  let kernel_free_pages := u16 (all_free_pages / 2) in
  let user_free_pages := u16 (all_free_pages - kernel_free_pages) in
  let kbm_length := kernel_free_pages / 8 in
  let ubm_length := user_free_pages / 8 in
  let kp_start := used_mem in
  let up_start := u32 (kp_start + kernel_free_pages * PG_SIZE) in
  kb ← bitmap_init (Bitmap kbm_length (bits_at MEM_BITMAP_BASE));
  ub ← bitmap_init (Bitmap ubm_length (bits_at (MEM_BITMAP_BASE + kbm_length)));
  vb ← bitmap_init (Bitmap kbm_length (bits_at (MEM_BITMAP_BASE + kbm_length + ubm_length)));
  Ok (VM (ram s) (cr3 s)
        (Pool kb kp_start (u32 (kernel_free_pages * PG_SIZE)) lock_init)
        (Pool ub up_start (u32 (user_free_pages * PG_SIZE)) lock_init)
        (VirtualAddr vb K_HEAP_START) (me s) (mcur s)).
