(* ===== verification/PagingSpec.v ===== *)
(** Correctness of the page allocator of Paging.v: the self-mapped page tables
    ([mmu_pde], [mmu_pte]), [page_table_add] and [page_table_pte_remove]
    ([added], [unmapped_run]), the frame pools ([took], [is_free]), the pools of
    virtual addresses, and the invariant [vm_wf] that [malloc_page],
    [mfree_page] and their callers keep. *)

From S2P Require Import Prelude Bitmap Interrupt Thread Sync Paging.

Open Scope Z_scope.

(** ** Address arithmetic *)

Section addresses.
Implicit Types a e f va : Z.

Definition is_addr a : Prop := 0 <= a < 4294967296.
Definition page_aligned a : Prop := a mod 4096 = 0.

Lemma field_div a n k : 0 <= n -> 0 <= k -> is_addr a ->
  Z.shiftr (Z.land a (Z.shiftl (Z.ones k) n)) n = (a / 2 ^ n) mod 2 ^ k.
Proof.
  intros Hn Hk Ha. rewrite Z.shiftr_land, Z.shiftr_shiftl_l, Z.sub_diag, Z.shiftl_0_r by lia.
  by rewrite Z.land_ones, Z.shiftr_div_pow2 by lia.
Qed.

Lemma PDE_IDX_div a : is_addr a -> PDE_IDX a = a / 4194304.
Proof.
  intros Ha. unfold PDE_IDX. change 0xffc00000 with (Z.shiftl (Z.ones 10) 22).
  rewrite field_div by (done || lia). apply Z.mod_small. unfold is_addr in Ha.
  change (2 ^ 22) with 4194304. change (2 ^ 10) with 1024. dlia.
Qed.
Lemma PTE_IDX_div a : is_addr a -> PTE_IDX a = (a / 4096) mod 1024.
Proof.
  intros Ha. unfold PTE_IDX. change 0x003ff000 with (Z.shiftl (Z.ones 10) 12).
  by rewrite field_div by (done || lia).
Qed.
Lemma offset_mod a : Z.land a 0x00000fff = a mod 4096.
Proof. change 0xfff with (Z.ones 12). by rewrite Z.land_ones by lia. Qed.

Lemma frame_div e : frame e = 4096 * ((e / 4096) mod 1048576).
Proof.
  unfold frame. change 0xfffff000 with (Z.shiftl (Z.ones 20) 12).
  replace (Z.land e (Z.shiftl (Z.ones 20) 12))
    with (Z.shiftl (Z.land (Z.shiftr e 12) (Z.ones 20)) 12).
  - rewrite Z.land_ones, Z.shiftl_mul_pow2, Z.shiftr_div_pow2 by lia.
    change (2 ^ 12) with 4096. change (2 ^ 20) with 1048576. lia.
  - apply Z.bits_inj'. intros n Hn. rewrite Z.shiftl_spec, !Z.land_spec, Z.shiftl_spec by lia.
    destruct (Z.ltb_spec n 12).
    + rewrite (Z.testbit_neg_r (Z.ones 20) (n - 12)), !andb_false_r by lia. done.
    + rewrite Z.shiftr_spec by lia. by replace (n - 12 + 12) with n by lia.
Qed.
Lemma frame_aligned e : page_aligned (frame e).
Proof. unfold page_aligned. rewrite frame_div. rewrite Z.mul_comm. apply Z_mod_mult. Qed.
Lemma frame_range e : 0 <= frame e <= 4294963200.
Proof. rewrite frame_div. pose proof (Z.mod_pos_bound (e / 4096) 1048576). lia. Qed.
Lemma frame_id f k : page_aligned f -> is_addr f -> 0 <= k < 4096 -> frame (f + k) = f.
Proof.
  unfold page_aligned, is_addr. intros Hf Ha Hk. rewrite frame_div.
  rewrite (Z.mod_small _ 1048576) by dlia. dlia.
Qed.

(** Two addresses in page frames are equal only in the same frame. *)
Lemma frame_split f f' o o' : page_aligned f -> page_aligned f' ->
  0 <= o < 4096 -> 0 <= o' < 4096 -> f + o = f' + o' -> f = f' /\ o = o'.
Proof. unfold page_aligned. intros. dlia. Qed.

(** The value stored in an entry: frame and attribute bits. *)
Definition entry (pa : Z) : Z := Z.lor (Z.lor (Z.lor pa PG_US_U) PG_RW_W) PG_P_1.

Lemma entry_frame pa : page_aligned pa -> is_addr pa -> frame (entry pa) = pa.
Proof.
  intros Hp Ha. unfold entry, frame. rewrite !Z.land_lor_distr_l.
  change (Z.land PG_US_U 0xfffff000) with 0. change (Z.land PG_RW_W 0xfffff000) with 0.
  change (Z.land PG_P_1 0xfffff000) with 0. rewrite !Z.lor_0_r.
  pose proof (frame_id pa 0 Hp Ha ltac:(lia)) as Hf. by rewrite Z.add_0_r in Hf.
Qed.
Lemma present_testbit e : present e = Z.testbit e 0.
Proof.
  unfold present. change 0x00000001 with (Z.shiftl 1 0).
  by rewrite testbit_mask, negb_involutive by lia.
Qed.
Lemma entry_present pa : present (entry pa) = true.
Proof. rewrite present_testbit. unfold entry. by rewrite Z.lor_spec, orb_true_r. Qed.
Lemma present_0 : present 0 = false.
Proof. done. Qed.
Lemma present_cleared e : present (Z.land e (u32 (Z.lnot PG_P_1))) = false.
Proof. rewrite present_testbit, Z.land_spec. apply andb_false_r. Qed.

Lemma pde_ptr_eq va : is_addr va -> pde_ptr va = 0xfffff000 + 4 * PDE_IDX va.
Proof.
  intros Ha. unfold pde_ptr. rewrite PDE_IDX_div by done. unfold is_addr in Ha. rewrite u32_small; dlia.
Qed.
Lemma pte_ptr_eq va : is_addr va -> pte_ptr va = 0xffc00000 + 4096 * PDE_IDX va + 4 * PTE_IDX va.
Proof.
  intros Ha. unfold pte_ptr.
  replace (Z.shiftr (Z.land va 0xffc00000) 10) with (4096 * PDE_IDX va).
  - rewrite PDE_IDX_div, PTE_IDX_div by done. unfold is_addr in Ha. rewrite u32_small; dlia.
  - unfold PDE_IDX. rewrite !Z.shiftr_div_pow2 by lia.
    change 0xffc00000 with (Z.shiftl (Z.ones 10) 22).
    assert (Hs : Z.land va (Z.shiftl (Z.ones 10) 22) mod 2 ^ 22 = 0).
    { rewrite <- Z.land_ones, <- Z.land_assoc by lia. change (Z.land (Z.shiftl (Z.ones 10) 22) (Z.ones 22)) with 0.
      apply Z.land_0_r. }
    change (2 ^ 22) with 4194304 in *. change (2 ^ 10) with 1024. dlia.
Qed.

Lemma idx_range va : is_addr va -> 0 <= PDE_IDX va < 1024 /\ 0 <= PTE_IDX va < 1024.
Proof. intros Ha. rewrite PDE_IDX_div, PTE_IDX_div by done. unfold is_addr in Ha. dlia. Qed.

(** The page of an address is given by the two indices. *)
Lemma page_of va : is_addr va ->
  va / 4096 = 1024 * PDE_IDX va + PTE_IDX va.
Proof. intros Ha. rewrite PDE_IDX_div, PTE_IDX_div by done. unfold is_addr in Ha. dlia. Qed.

(** Indices of the addresses of page table entries. *)
Lemma window_idx i k : 0 <= i < 1024 -> 0 <= k < 4096 ->
  let a := 0xffc00000 + 4096 * i + k in
  is_addr a /\ PDE_IDX a = 1023 /\ PTE_IDX a = i /\ Z.land a 0xfff = k.
Proof.
  intros Hi Hk a. assert (Ha : is_addr a) by (unfold a, is_addr; lia).
  rewrite PDE_IDX_div, PTE_IDX_div, offset_mod by done. unfold a. split_and!; [done|dlia..].
Qed.
End addresses.

(** ** The page tables as the code sees them *)

Definition pdir (s : vm) (i : Z) : Z := word s (cr3 s + 4 * i).
Definition tframe (s : vm) (i : Z) : Z := frame (pdir s i).

(** The last entry of the directory points to the directory. *)
Record selfmap (s : vm) : Prop := {
  sm_cr3 : page_aligned (cr3 s);
  sm_addr : is_addr (cr3 s);
  sm_present : present (pdir s 1023) = true;
  sm_frame : tframe s 1023 = cr3 s
}.

Section tables.
Implicit Types (s : vm) (va : Z).

Lemma mmu_window s i k : selfmap s -> 0 <= i < 1024 -> 0 <= k < 4096 ->
  mmu s (0xffc00000 + 4096 * i + k) =
    if present (pdir s i) then Some (tframe s i + k) else None.
Proof.
  intros [_ _ Hp Hf] Hi Hk. destruct (window_idx i k Hi Hk) as (_ & H1 & H2 & H3).
  unfold mmu, pte_addr, pde_of. rewrite H1, H2, H3. fold (pdir s 1023). rewrite Hp.
  unfold tframe in Hf. rewrite Hf. done.
Qed.

Lemma mmu_pde s va : selfmap s -> is_addr va ->
  mmu s (pde_ptr va) = Some (cr3 s + 4 * PDE_IDX va).
Proof.
  intros Hs Ha. destruct (idx_range va Ha). rewrite pde_ptr_eq by done.
  replace (0xfffff000 + 4 * PDE_IDX va) with (0xffc00000 + 4096 * 1023 + 4 * PDE_IDX va) by lia.
  rewrite mmu_window by (done || lia). by rewrite (sm_present s Hs), (sm_frame s Hs).
Qed.

Lemma mmu_pte s va : selfmap s -> is_addr va ->
  mmu s (pte_ptr va) = if present (pde_of s va) then Some (pte_addr s va) else None.
Proof.
  intros Hs Ha. destruct (idx_range va Ha). rewrite pte_ptr_eq by done.
  by rewrite mmu_window by (done || lia).
Qed.

Lemma ptr_aligned va : is_addr va -> pde_ptr va mod 4 = 0 /\ pte_ptr va mod 4 = 0.
Proof. intros Ha. rewrite pde_ptr_eq, pte_ptr_eq by done. split; dlia. Qed.

Lemma wp_load va pa s (Q : Z -> vm -> Prop) : va mod 4 = 0 -> mmu s va = Some pa ->
  Q (word s pa) s -> wp (load va) Q s.
Proof. intros Ha Hm HQ. unfold wp, load. by rewrite Ha, Hm. Qed.
Lemma wp_store va pa x s (Q : unit -> vm -> Prop) : va mod 4 = 0 -> mmu s va = Some pa ->
  Q tt (set_ram (<[pa := x]> (ram s)) s) -> wp (store va x) Q s.
Proof. intros Ha Hm HQ. unfold wp, store. by rewrite Ha, Hm. Qed.

Lemma word_insert s pa x y :
  word (set_ram (<[pa := x]> (ram s)) s) y = if decide (y = pa) then x else word s y.
Proof.
  unfold word; simpl. case_decide; subst; [by rewrite lookup_insert_eq|].
  by rewrite lookup_insert_ne by congruence.
Qed.

(** Translation only reads the entry of the directory and the entry of the
    table. *)
Lemma mmu_ext s s' va : cr3 s' = cr3 s -> pde_of s' va = pde_of s va ->
  (present (pde_of s va) = true -> word s' (pte_addr s va) = word s (pte_addr s va)) ->
  mmu s' va = mmu s va.
Proof.
  intros Hc Hd Ht. unfold mmu, pte_addr. rewrite Hd. destruct (present _); [|done].
  unfold pte_addr in Ht. by rewrite Ht.
Qed.

(** All addresses of a page are translated alike. *)
Lemma same_page_idx va va' : is_addr va -> is_addr va' -> va' / 4096 = va / 4096 ->
  PDE_IDX va' = PDE_IDX va /\ PTE_IDX va' = PTE_IDX va.
Proof.
  intros Ha Ha' Hp. rewrite !PDE_IDX_div, !PTE_IDX_div by done. rewrite Hp. split; [|done]. dlia.
Qed.
Lemma mmu_page s va va' pa : is_addr va -> is_addr va' -> va' / 4096 = va / 4096 ->
  mmu s va = Some pa -> mmu s va' = Some (pa - va mod 4096 + va' mod 4096).
Proof.
  intros Ha Ha' Hp. destruct (same_page_idx va va') as [H1 H2]; try done.
  unfold mmu, pte_addr, pde_of. rewrite H1, H2, !offset_mod.
  destruct (present _); [|done]. destruct (present _); [|done].
  intros [= <-]. f_equal. lia.
Qed.

(** [s'] is [s] with other contents of memory. *)
Definition only_ram s s' : Prop := s' = set_ram (ram s') s.

Lemma only_ram_refl s : only_ram s s.
Proof. by destruct s. Qed.
Lemma only_ram_insert s pa x : only_ram s (set_ram (<[pa := x]> (ram s)) s).
Proof. done. Qed.
Lemma only_ram_trans s1 s2 s3 : only_ram s1 s2 -> only_ram s2 s3 -> only_ram s1 s3.
Proof. unfold only_ram. intros -> ->. done. Qed.

(** Clearing the words of one page. *)
Lemma clear_words_ok n va pa s :
  is_addr va -> va mod 4 = 0 -> va mod 4096 + 4 * Z.of_nat n <= 4096 ->
  mmu s va = Some pa ->
  (forall x, pa <= x < pa + 4 * Z.of_nat n -> x <> cr3 s + 4 * PDE_IDX va /\ x <> pte_addr s va) ->
  wp (clear_words n va) (λ _ s', only_ram s s' /\
    forall x, word s' x = if decide (pa <= x < pa + 4 * Z.of_nat n /\ (x - pa) mod 4 = 0) then 0
                          else word s x) s.
Proof.
  revert va pa s. induction n as [|n IH]; intros va pa s Ha Hal Hfit Hm Hsep.
  { apply wp_ret. split; [apply only_ram_refl|]. intros x. rewrite decide_False by lia. done. }
  cbn [clear_words]. apply wp_bind. eapply wp_store; [done|exact Hm|].
  set (s1 := set_ram _ s). pose proof (word_insert s pa 0) as Hw1. fold s1 in Hw1.
  assert (Hmm : mmu s1 va = mmu s va).
  { destruct (Hsep pa ltac:(lia)) as [H1 H2]. apply mmu_ext; [done|..].
    - unfold pde_of at 1. rewrite Hw1, decide_False by done. done.
    - intros _. rewrite Hw1, decide_False by done. done. }
  destruct n as [|n].
  { apply wp_ret. split; [done|]. intros x. rewrite Hw1. clearbody s1.
    repeat case_decide; try done; exfalso; dlia. }
  assert (Hpg : is_addr (va + 4) /\ (va + 4) / 4096 = va / 4096 /\ (va + 4) mod 4096 = va mod 4096 + 4).
  { unfold is_addr in *. dlia. }
  destruct Hpg as (Ha4 & Hpg & Hoff).
  rewrite u32_small by done.
  destruct (same_page_idx va (va + 4)) as [Hi1 Hi2]; try done.
  assert (Hm4 : mmu s1 (va + 4) = Some (pa + 4)).
  { rewrite <- Hmm in Hm. rewrite (mmu_page s1 va (va + 4) pa) by done. f_equal. lia. }
  assert (Hte : pte_addr s1 va = pte_addr s va).
  { unfold pte_addr, pde_of. rewrite Hw1, decide_False; [done|]. apply not_eq_sym, Hsep. lia. }
  eapply wp_mono; [apply (IH (va + 4) (pa + 4)); [done|dlia|lia|done|]|].
  - intros x Hx. replace (pte_addr s1 (va + 4)) with (pte_addr s1 va)
      by (unfold pte_addr, pde_of; by rewrite Hi1, Hi2).
    rewrite Hi1, Hte. apply Hsep. lia.
  - intros _ s' [Ho Hw']. split; [eapply only_ram_trans; [apply only_ram_insert|exact Ho]|].
    intros x. rewrite Hw', Hw1. clearbody s1. repeat case_decide; try done; exfalso; dlia.
Qed.
End tables.

(** ** Page frames *)

Definition pool_frame (p : pool) (i : Z) : Z := phy_addr_start p + 4096 * i.
Definition pool_bits (p : pool) : Z := 8 * btmp_bytes_len (pool_bitmap p).

Record pool_wf (p : pool) : Prop := {
  po_bits : bitmap_wf (pool_bitmap p);
  po_aligned : page_aligned (phy_addr_start p);
  po_start : 0x102000 <= phy_addr_start p;
  po_end : phy_addr_start p + 4096 * pool_bits p <= 4294967296
}.

Record pools_wf (s : vm) : Prop := {
  ps_kernel : pool_wf (kernel_pool s);
  ps_user : pool_wf (user_pool s);
  ps_order : phy_addr_start (kernel_pool s) + 4096 * pool_bits (kernel_pool s)
             <= phy_addr_start (user_pool s)
}.

Definition pool_free (p : pool) (f : Z) : Prop :=
  exists i, 0 <= i < pool_bits p /\ f = pool_frame p i /\ bit (pool_bitmap p) i = false.
(** [f] is a frame of one of the pools that is not allocated. *)
Definition is_free (s : vm) (f : Z) : Prop :=
  pool_free (kernel_pool s) f \/ pool_free (user_pool s) f.
(** At least [n] frames are left. *)
Definition pool_room (p : pool) (n : nat) : Prop :=
  exists l, NoDup l /\ length l = n /\
    forall i, i ∈ l -> 0 <= i < pool_bits p /\ bit (pool_bitmap p) i = false.

Definition valid_pf (pf : Z) : Prop := pf = PF_KERNEL \/ pf = PF_USER.

(** Frame [f] of the pool of [pf] has been allocated between [s] and [s']. *)
Record took (pf : Z) (s s' : vm) (f : Z) : Prop := {
  tk_free : pool_free (mem_pool pf s) f;
  tk_state : exists b, s' = set_pool pf (set_pbits b (mem_pool pf s)) s /\
    btmp_bytes_len b = btmp_bytes_len (pool_bitmap (mem_pool pf s));
  tk_pools : pools_wf s';
  tk_isfree : forall g, is_free s' g <-> is_free s g /\ g <> f;
  tk_room : forall n, pool_room (mem_pool pf s) (S n) -> pool_room (mem_pool pf s') n
}.

Lemma pool_free_addr p f : pool_wf p -> pool_free p f ->
  page_aligned f /\ is_addr f /\ 0x102000 <= f /\
  phy_addr_start p <= f < phy_addr_start p + 4096 * pool_bits p.
Proof.
  intros [_ Ha Hs He] (i & Hi & -> & _). unfold pool_frame, page_aligned, is_addr in *. dlia.
Qed.

Lemma room_free p n : pool_room p (S n) ->
  exists i, 0 <= i < pool_bits p /\ bit (pool_bitmap p) i = false.
Proof. intros ([|i l] & _ & Hl & Hi); [done|]. exists i. apply Hi. set_solver. Qed.

Lemma room_take p b i n : btmp_bytes_len b = btmp_bytes_len (pool_bitmap p) ->
  (forall j, 0 <= j -> j <> i -> bit b j = bit (pool_bitmap p) j) ->
  pool_room p (S n) -> pool_room (set_pbits b p) n.
Proof.
  intros Hl Hb (l & Hnd & Hlen & Hf).
  assert (Hgen : exists l', NoDup l' /\ length l' = n /\ forall j, j ∈ l' -> j ∈ l /\ j <> i).
  { destruct (decide (i ∈ l)) as [Hi|Hi].
    - apply list_elem_of_split in Hi as (l1 & l2 & ->). exists (l1 ++ l2).
      rewrite length_app in *. simpl in Hlen. split; [|split; [lia|]].
      + rewrite <- Permutation_middle in Hnd. by apply NoDup_cons in Hnd as [_ ?].
      + rewrite <- Permutation_middle in Hnd. apply NoDup_cons in Hnd as [Hni _].
        intros j Hj. split; [set_solver|]. intros ->. done.
    - destruct l as [|x l]; [done|]. exists l. simpl in Hlen. apply NoDup_cons in Hnd as [_ ?].
      split_and!; [done|lia|]. intros j Hj. split; [set_solver|]. intros ->. set_solver. }
  destruct Hgen as (l' & Hnd' & Hlen' & Hin). exists l'. split_and!; [done|done|].
  intros j Hj. destruct (Hin j Hj) as [Hjl Hji]. destruct (Hf j Hjl) as [Hr Hz].
  unfold pool_bits; simpl. rewrite Hl. unfold pool_bits in Hr. split; [done|].
  rewrite Hb by (done || lia). done.
Qed.

Lemma pool_free_set p b i v f : pool_wf p -> 0 <= i < pool_bits p ->
  btmp_bytes_len b = btmp_bytes_len (pool_bitmap p) ->
  (forall j, 0 <= j -> bit b j = if decide (j = i) then v else bit (pool_bitmap p) j) ->
  pool_free (set_pbits b p) f <->
    if decide (f = pool_frame p i) then v = false else pool_free p f.
Proof.
  intros Hp Hi Hl Hb. unfold pool_free, pool_bits in *; simpl. rewrite Hl.
  unfold pool_frame in *; simpl. case_decide as Hf; split.
  - intros (j & Hj & Hfj & Hz). assert (j = i) as -> by lia.
    rewrite Hb, decide_True in Hz by (done || lia). done.
  - intros ->. exists i. split_and!; [lia|lia|done|]. rewrite Hb, decide_True by (done || lia). done.
  - intros (j & Hj & -> & Hz). rewrite Hb, decide_False in Hz by (lia || congruence).
    exists j. done.
  - intros (j & Hj & -> & Hz). exists j. split_and!; [lia|lia|done|].
    rewrite Hb, decide_False by (lia || congruence). done.
Qed.

Lemma pool_frame_idx p i : pool_frame p i - phy_addr_start p = 4096 * i.
Proof. unfold pool_frame. lia. Qed.

Lemma set_pbits_wf p b : pool_wf p -> bitmap_wf b ->
  btmp_bytes_len b = btmp_bytes_len (pool_bitmap p) -> pool_wf (set_pbits b p).
Proof. intros [H1 H2 H3 H4] Hb Hl. split; simpl; try done. unfold pool_bits in *; simpl. by rewrite Hl. Qed.

Lemma pools_disjoint s f : pools_wf s -> pool_free (kernel_pool s) f -> pool_free (user_pool s) f -> False.
Proof.
  intros [Hk Hu Ho] H1%pool_free_addr H2%pool_free_addr; try done.
  destruct H1 as (_ & _ & _ & ?), H2 as (_ & _ & _ & ?). lia.
Qed.

Lemma mem_pool_wf pf s : pools_wf s -> pool_wf (mem_pool pf s).
Proof. intros [? ? ?]. unfold mem_pool. by destruct (is_kernel pf). Qed.

Lemma set_pool_wf pf b s : pools_wf s -> bitmap_wf b ->
  btmp_bytes_len b = btmp_bytes_len (pool_bitmap (mem_pool pf s)) ->
  pools_wf (set_pool pf (set_pbits b (mem_pool pf s)) s).
Proof.
  intros [Hk Hu Ho] Hb Hl. unfold mem_pool, set_pool in *. destruct (is_kernel pf); split; simpl;
    try done; try by apply set_pbits_wf.
  unfold pool_bits in *; simpl. by rewrite Hl.
Qed.

(** Writing bit [i] of a pool changes the set of free frames in one frame. *)
Lemma is_free_set pf s b i v g : pools_wf s -> 0 <= i < pool_bits (mem_pool pf s) ->
  btmp_bytes_len b = btmp_bytes_len (pool_bitmap (mem_pool pf s)) ->
  (forall j, 0 <= j -> bit b j = if decide (j = i) then v else bit (pool_bitmap (mem_pool pf s)) j) ->
  is_free (set_pool pf (set_pbits b (mem_pool pf s)) s) g <->
    if decide (g = pool_frame (mem_pool pf s) i) then v = false else is_free s g.
Proof.
  intros Hp Hi Hl Hb.
  pose proof (pool_free_set (mem_pool pf s) b i v g (mem_pool_wf pf s Hp) Hi Hl Hb) as Hs.
  destruct Hp as [Hk Hu Ho]. unfold mem_pool, set_pool, is_free in *.
  destruct (is_kernel pf); simpl; rewrite Hs; case_decide as Hg; try done.
  - split; [intros [?|Hx]; [done|]|by left]. apply pool_free_addr in Hx; [|done].
    destruct Hx as (_ & _ & _ & ?). unfold pool_frame in Hg. lia.
  - split; [intros [Hx|?]; [|done]|by right]. apply pool_free_addr in Hx; [|done].
    destruct Hx as (_ & _ & _ & ?). unfold pool_frame in Hg. lia.
Qed.

Lemma mem_pool_set pf p s : mem_pool pf (set_pool pf p s) = p.
Proof. unfold mem_pool, set_pool. by destruct (is_kernel pf). Qed.

Lemma palloc_ok pf s : pools_wf s -> pool_room (mem_pool pf s) 1 ->
  wp (palloc pf) (λ f s', f <> 0 /\ took pf s s' f) s.
Proof.
  intros Hp Hroom. pose proof (mem_pool_wf pf s Hp) as Hpw.
  destruct (room_free _ _ Hroom) as (i & Hi & Hz). unfold pool_bits in Hi.
  destruct (bitmap_scan_one_ok _ i (po_bits _ Hpw) Hi Hz) as (k & Hk & Hki & Hkf & _).
  destruct (bitmap_set_ok _ k 1 (po_bits _ Hpw)) as (b & Hb & Hwfb & Hlb & Hzb & Hbit);
    [pose proof (wf_backed _ (po_bits _ Hpw)); lia|by right|].
  pose proof (wf_small _ (po_bits _ Hpw)).
  unfold palloc. apply wp_bind, wp_gets, wp_bind. eapply wp_lift; [exact Hk|].
  destruct (Z.eqb_spec k (-1)); [lia|]. apply wp_bind.
  eapply wp_lift; [rewrite u32_small by lia; exact Hb|]. apply wp_bind, wp_modify, wp_ret.
  assert (Hfr : pool_free (mem_pool pf s) (pool_frame (mem_pool pf s) k)).
  { exists k. unfold pool_bits. split_and!; [lia|lia|done|done]. }
  destruct (pool_free_addr _ _ Hpw Hfr) as (_ & Ha & Hlow & _).
  replace (u32 (k * PG_SIZE + phy_addr_start (mem_pool pf s))) with (pool_frame (mem_pool pf s) k).
  2: { unfold pool_frame, PG_SIZE in *. symmetry. rewrite u32_small; [lia|]. unfold is_addr in Ha. lia. }
  split; [lia|]. split; [done|eauto|by apply set_pool_wf| |].
  - intros g. rewrite (is_free_set pf s b k true g Hp); [|unfold pool_bits; lia|done|exact Hbit].
    case_decide; subst; [|tauto]. split; [done|]. by intros [_ ?].
  - intros m Hm. rewrite mem_pool_set. eapply (room_take _ b k); [done| |done].
    intros j Hj Hne. by rewrite Hbit, decide_False by done.
Qed.

(** ** Page tables *)

(** The addresses of user programs and of the kernel: all but the first 4 MB,
    which share a table with the kernel, and the window on the page tables. *)
Definition in_range (va : Z) : Prop := 0x400000 <= va < 0xffc00000.

Record tables_wf (s : vm) : Prop := {
  t_self : selfmap s;
  t_dir : forall i, 0 <= i < 1023 -> present (pdir s i) = true -> tframe s i <> cr3 s;
  t_inj : forall i j, 1 <= i < 1023 -> 1 <= j < 1023 -> present (pdir s i) = true ->
    present (pdir s j) = true -> tframe s i = tframe s j -> i = j;
  t_cr3 : ~ is_free s (cr3 s);
  t_used : forall i, 0 <= i < 1023 -> present (pdir s i) = true -> ~ is_free s (tframe s i)
}.

Section add.
Implicit Types (s : vm) (va : Z).

Lemma in_range_addr va : in_range va -> is_addr va /\ 1 <= PDE_IDX va < 1023 /\ 0 <= PTE_IDX va < 1024.
Proof.
  intros Hr. assert (Ha : is_addr va) by (unfold in_range, is_addr in *; lia).
  split; [done|]. destruct (idx_range va Ha). split; [|done].
  rewrite PDE_IDX_div by done. unfold in_range in Hr. dlia.
Qed.

Lemma tframe_aligned s i : page_aligned (tframe s i).
Proof. apply frame_aligned. Qed.

(** Storing the entry of a page changes the translation of that page and of
    no other. *)
Lemma store_pte s va x : tables_wf s -> in_range va -> present (pde_of s va) = true ->
  let s' := set_ram (<[pte_addr s va := x]> (ram s)) s in
  tables_wf s' /\
  (forall i, 0 <= i < 1024 -> pdir s' i = pdir s i) /\
  (forall va', in_range va' -> mmu s' va' =
     if decide (va' / 4096 = va / 4096)
     then (if present x then Some (frame x + va' mod 4096) else None) else mmu s va').
Proof.
  intros [Hs Hd Hi Hc Hu] Hr Hp s'. destruct (in_range_addr va Hr) as (Ha & Hi1 & Hi2).
  pose proof (word_insert s (pte_addr s va) x) as Hw. fold s' in Hw.
  pose proof (Hd (PDE_IDX va) ltac:(lia) Hp) as Hne.
  assert (Hpd : forall i, 0 <= i < 1024 -> pdir s' i = pdir s i).
  { intros i Hi0. unfold pdir at 1. rewrite Hw. rewrite decide_False; [done|]. intros He.
    destruct (frame_split (cr3 s) (tframe s (PDE_IDX va)) (4 * i) (4 * PTE_IDX va)); try lia;
      [apply (sm_cr3 s Hs)|apply tframe_aligned|exact He]. }
  assert (Htf : forall i, 0 <= i < 1024 -> tframe s' i = tframe s i)
    by (intros i Hi0; unfold tframe; by rewrite Hpd).
  split; [|split; [done|]].
  - destruct Hs as [Hs1 Hs2 Hs3 Hs4]. split; [split; try done| | | |].
    + by rewrite Hpd by lia.
    + by rewrite Htf by lia.
    + intros i Hi0. rewrite Hpd, Htf by lia. by apply Hd.
    + intros i j Hi0 Hj0. rewrite !Hpd, !Htf by lia. by apply Hi.
    + done.
    + intros i Hi0. rewrite Hpd, Htf by lia. by apply Hu.
  - intros va' Hr'. destruct (in_range_addr va' Hr') as (Ha' & Hj1 & Hj2).
    assert (Hpde : pde_of s' va' = pde_of s va') by (apply Hpd; lia).
    case_decide as Hpg.
    + destruct (same_page_idx va va') as [E1 E2]; try done.
      assert (Et : pte_addr s' va' = pte_addr s va).
      { unfold pte_addr. rewrite Hpde. unfold pde_of. by rewrite E1, E2. }
      unfold mmu. rewrite Et, Hpde. unfold pde_of in *. rewrite E1, Hp, Hw, decide_True by done.
      by rewrite offset_mod.
    + apply mmu_ext; [done|done|]. intros Hp'. rewrite Hw, decide_False; [done|]. intros He.
      destruct (frame_split (tframe s (PDE_IDX va')) (tframe s (PDE_IDX va)) (4 * PTE_IDX va')
        (4 * PTE_IDX va)) as [Ef Eo]; try lia; [apply tframe_aligned..|exact He|].
      apply Hi in Ef; [|lia|lia|done|done]. apply Hpg. rewrite !page_of by done. lia.
Qed.

(** A new, empty page table: nothing is mapped or unmapped. *)
Lemma new_table s s1 s3 va tf : tables_wf s -> pools_wf s -> in_range va ->
  present (pde_of s va) = false -> took PF_KERNEL s s1 tf ->
  only_ram s1 s3 ->
  (forall x, word s3 x =
     if decide (tf <= x < tf + 4096 /\ (x - tf) mod 4 = 0) then 0
     else if decide (x = cr3 s + 4 * PDE_IDX va) then entry tf else word s x) ->
  tables_wf s3 /\ present (pde_of s3 va) = true /\ word s3 (pte_addr s3 va) = 0 /\
  tframe s3 (PDE_IDX va) = tf /\
  (forall i, 0 <= i < 1024 -> i <> PDE_IDX va -> pdir s3 i = pdir s i) /\
  (forall va', in_range va' -> mmu s3 va' = mmu s va').
Proof.
  intros [Hs Hd Hi Hc Hu] Hps Hr Hnp [Hfree (b & Hst & Hlb) Hps1 Hfr _] Ho Hw.
  destruct (in_range_addr va Hr) as (Ha & Hi1 & Hi2).
  destruct (pool_free_addr _ _ (mem_pool_wf PF_KERNEL s Hps) Hfree) as (Hta & Hti & _ & _).
  assert (Hisf : is_free s tf) by (by left).
  assert (Hcr : cr3 s3 = cr3 s) by (rewrite Ho, Hst; done).
  assert (Hfr3 : forall g, is_free s3 g <-> is_free s g /\ g <> tf).
  { intros g. rewrite <- Hfr. rewrite Ho. done. }
  assert (Htc : tf <> cr3 s) by (intros ->; done).
  assert (Hin : forall f o, page_aligned f -> f <> tf -> 0 <= o < 4096 ->
    ~ (tf <= f + o < tf + 4096 /\ (f + o - tf) mod 4 = 0)).
  { intros f o Hf Hne Ho' [Hx _]. unfold page_aligned in *. dlia. }
  assert (Hpd : forall i, 0 <= i < 1024 ->
    pdir s3 i = if decide (i = PDE_IDX va) then entry tf else pdir s i).
  { intros i Hi0. unfold pdir at 1. rewrite Hcr, Hw, decide_False; [|].
    - destruct (decide (i = PDE_IDX va)) as [->|Hne]; [by rewrite decide_True|].
      rewrite decide_False by lia. done.
    - apply Hin; [apply (sm_cr3 s Hs)|congruence|lia]. }
  assert (Hpdo : forall i, 0 <= i < 1024 -> i <> PDE_IDX va -> pdir s3 i = pdir s i)
    by (intros i Hi0 Hne; by rewrite Hpd, decide_False by done).
  assert (Hpdn : pdir s3 (PDE_IDX va) = entry tf) by (rewrite Hpd, decide_True by (done || lia); done).
  assert (Htn : tframe s3 (PDE_IDX va) = tf) by (unfold tframe; rewrite Hpdn; by apply entry_frame).
  assert (Hto : forall i, 0 <= i < 1024 -> i <> PDE_IDX va -> tframe s3 i = tframe s i)
    by (intros i Hi0 Hne; unfold tframe; by rewrite Hpdo).
  assert (Hold : forall i, 0 <= i < 1023 -> present (pdir s i) = true -> tframe s i <> tf).
  { intros i Hi0 Hp He. apply (Hu i Hi0 Hp). by rewrite He. }
  split; [|split; [|split; [|split; [done|split; [done|]]]]].
  - destruct Hs as [Hs1 Hs2 Hs3 Hs4]. split.
    + split; [by rewrite Hcr|by rewrite Hcr|by rewrite Hpdo by lia|by rewrite Hto, Hcr by lia].
    + intros i Hi0 Hp. rewrite Hcr. destruct (decide (i = PDE_IDX va)) as [->|Hne]; [by rewrite Htn|].
      rewrite Hto by lia. rewrite Hpdo in Hp by lia. by apply Hd.
    + intros i j Hi0 Hj0 Hp Hq. destruct (decide (i = PDE_IDX va)) as [->|Hne], (decide (j = PDE_IDX va)) as [->|Hne']; try done.
      * rewrite Htn, Hto by lia. rewrite Hpdo in Hq by lia. intros He. symmetry in He.
        apply Hold in He; [done|lia|done].
      * rewrite Htn, Hto by lia. rewrite Hpdo in Hp by lia. intros He. apply Hold in He; [done|lia|done].
      * rewrite !Hto by lia. rewrite Hpdo in Hp, Hq by lia. by apply Hi.
    + rewrite Hcr, Hfr3. by intros [? _].
    + intros i Hi0 Hp. rewrite Hfr3. destruct (decide (i = PDE_IDX va)) as [->|Hne].
      * rewrite Htn. by intros [_ ?].
      * rewrite Hto by lia. rewrite Hpdo in Hp by lia. intros [? _]. by apply (Hu i).
  - change (pde_of s3 va) with (pdir s3 (PDE_IDX va)). rewrite Hpdn. apply entry_present.
  - change (pte_addr s3 va) with (tframe s3 (PDE_IDX va) + 4 * PTE_IDX va). rewrite Htn, Hw.
    rewrite decide_True; [done|]. split; [lia|]. dlia.
  - intros va' Hr'. destruct (in_range_addr va' Hr') as (Ha' & Hj1 & Hj2).
    destruct (decide (PDE_IDX va' = PDE_IDX va)) as [E|Hne].
    + assert (Hn : mmu s va' = None).
      { unfold mmu. change (pde_of s va') with (pdir s (PDE_IDX va')). rewrite E.
        change (pdir s (PDE_IDX va)) with (pde_of s va). by rewrite Hnp. }
      rewrite Hn. unfold mmu. destruct (present (pde_of s3 va')); [|done].
      change (pte_addr s3 va') with (tframe s3 (PDE_IDX va') + 4 * PTE_IDX va').
      rewrite E, Htn, Hw, decide_True; [done|]. split; [lia|dlia].
    + apply mmu_ext; [done|apply Hpdo; lia|]. intros Hp.
      change (pte_addr s va') with (tframe s (PDE_IDX va') + 4 * PTE_IDX va').
      assert (Hft : tframe s (PDE_IDX va') <> tf) by (apply Hold; [lia|done]).
      assert (Hfc : tframe s (PDE_IDX va') <> cr3 s) by (apply Hd; [lia|done]).
      rewrite Hw, decide_False, decide_False; [done| |apply Hin; [apply tframe_aligned|done|lia]].
      intros He. destruct (frame_split (tframe s (PDE_IDX va')) (cr3 s) (4 * PTE_IDX va') (4 * PDE_IDX va));
        try lia; [apply tframe_aligned|apply (sm_cr3 s Hs)].
Qed.

(** Frame [g] holds a page table. *)
Definition table_frame s (g : Z) : Prop :=
  exists i, 0 <= i < 1023 /\ present (pdir s i) = true /\ tframe s i = g.

(** [x] is in the page directory or in a page table. *)
Definition table_word s (x : Z) : Prop := exists g, (g = cr3 s \/ table_frame s g) /\ g <= x < g + 4096.

Lemma table_word_keep s s' x : cr3 s' = cr3 s -> (forall i, 0 <= i < 1024 -> present (pdir s i) = true -> pdir s' i = pdir s i) ->
  table_word s x -> table_word s' x.
Proof.
  intros Hc Hk (g & [->|(i & Hi & Hp & <-)] & Hx); [exists (cr3 s); split; [by left|done]|].
  exists (tframe s i). split; [right|done]. exists i. unfold tframe. by rewrite Hk by (done || lia).
Qed.

(** The page of [va] has been mapped to frame [pa], with a page table from the
    kernel pool where one was missing. *)
Record added s s' va (pa : Z) : Prop := {
  ad_tables : tables_wf s';
  ad_pools : pools_wf s';
  ad_mmu : forall va', in_range va' -> mmu s' va' =
    if decide (va' / 4096 = va / 4096) then Some (pa + va' mod 4096) else mmu s va';
  ad_state : exists r b, s' = set_ram r (set_kpool (set_pbits b (kernel_pool s)) s) /\
    btmp_bytes_len b = btmp_bytes_len (pool_bitmap (kernel_pool s));
  ad_isfree : forall g, is_free s' g -> is_free s g;
  ad_room : forall n, pool_room (kernel_pool s) (S n) -> pool_room (kernel_pool s') n;
  ad_tabs : forall i, 0 <= i < 1023 -> present (pdir s' i) = true ->
    (present (pdir s i) = true /\ tframe s' i = tframe s i) \/ is_free s (tframe s' i);
  ad_lost : forall g, is_free s g -> is_free s' g \/ table_frame s' g;
  ad_keep : forall i, 0 <= i < 1024 -> present (pdir s i) = true -> pdir s' i = pdir s i;
  ad_words : forall x, word s' x <> word s x -> table_word s' x;
  ad_pdes : forall i, 0 <= i < 1024 -> i <> PDE_IDX va -> pdir s' i = pdir s i
}.

Lemma room_less p n : pool_room p (S n) -> pool_room p n.
Proof.
  intros ([|i l] & Hnd & Hl & Hi); [done|]. exists l. apply NoDup_cons in Hnd as [_ Hnd].
  split_and!; [done|simpl in Hl; lia|]. intros j Hj. apply Hi. set_solver.
Qed.

(** The last step of both branches. *)
Lemma added_entry s s1 va pa : tables_wf s1 -> pools_wf s1 -> in_range va ->
  page_aligned pa -> is_addr pa -> present (pde_of s1 va) = true ->
  (forall va', in_range va' -> mmu s1 va' = mmu s va') ->
  (exists r b, s1 = set_ram r (set_kpool (set_pbits b (kernel_pool s)) s) /\
     btmp_bytes_len b = btmp_bytes_len (pool_bitmap (kernel_pool s))) ->
  (forall g, is_free s1 g -> is_free s g) ->
  (forall n, pool_room (kernel_pool s) (S n) -> pool_room (kernel_pool s1) n) ->
  (forall i, 0 <= i < 1023 -> present (pdir s1 i) = true ->
    (present (pdir s i) = true /\ tframe s1 i = tframe s i) \/ is_free s (tframe s1 i)) ->
  (forall g, is_free s g -> is_free s1 g \/ table_frame s1 g) ->
  (forall i, 0 <= i < 1024 -> present (pdir s i) = true -> pdir s1 i = pdir s i) ->
  (forall x, word s1 x <> word s x -> table_word s1 x) ->
  (forall i, 0 <= i < 1024 -> i <> PDE_IDX va -> pdir s1 i = pdir s i) ->
  added s (set_ram (<[pte_addr s1 va := entry pa]> (ram s1)) s1) va pa.
Proof.
  intros Ht Hp Hr Hal Had Hpr Hm (r & b & Hst & Hlb) Hf Hro Htb Hlo Hke Hwd Hpe.
  destruct (store_pte s1 va (entry pa) Ht Hr Hpr) as (Ht' & Hpd & Hmm).
  rewrite entry_present, entry_frame in Hmm by done.
  split; [done|by destruct Hp| | |exact Hf|exact Hro| | | | |].
  - intros va' Hr'. rewrite Hmm by done. case_decide; [done|]. by apply Hm.
  - exists (<[pte_addr s1 va := entry pa]> (ram s1)), b. split; [|done]. rewrite Hst at 3. done.
  - intros i Hi Hpi. unfold tframe. rewrite Hpd in * by lia. by apply Htb.
  - intros g Hg. destruct (Hlo g Hg) as [?|(i & Hi & Hpi & E)]; [by left|right].
    exists i. unfold tframe. rewrite Hpd by lia. done.
  - intros i Hi Hpi. rewrite Hpd by lia. by apply Hke.
  - intros x. rewrite word_insert. destruct (in_range_addr va Hr) as (_ & Hi1 & Hi2). case_decide as E.
    + intros _. exists (tframe s1 (PDE_IDX va)). split.
      * right. exists (PDE_IDX va). unfold tframe. rewrite !Hpd by lia. split_and!; [lia|lia|exact Hpr|done].
      * rewrite E. change (pte_addr s1 va) with (tframe s1 (PDE_IDX va) + 4 * PTE_IDX va). lia.
    + intros Hx%Hwd. apply (table_word_keep s1); [done| |done]. intros i Hi _. by apply Hpd.
  - intros i Hi Hne. rewrite Hpd by done. by apply Hpe.
Qed.

Lemma page_table_add_ok s va pa : tables_wf s -> pools_wf s -> in_range va ->
  page_aligned pa -> is_addr pa -> mmu s va = None ->
  (present (pde_of s va) = true \/ pool_room (kernel_pool s) 1) ->
  wp (page_table_add va pa) (λ _ s', added s s' va pa) s.
Proof.
  intros Ht Hp Hr Hal Had Hm Hroom. destruct (in_range_addr va Hr) as (Ha & Hi1 & Hi2).
  pose proof (t_self s Ht) as Hs. destruct (ptr_aligned va Ha) as [Hpa Hta].
  unfold page_table_add. fold (entry pa). apply wp_bind.
  eapply wp_load; [done|by apply mmu_pde|]. fold (pde_of s va).
  destruct (present (pde_of s va)) eqn:Epr.
  - assert (Hmp : mmu s (pte_ptr va) = Some (pte_addr s va)) by (by rewrite mmu_pte, Epr).
    assert (Hnp : present (word s (pte_addr s va)) = false).
    { unfold mmu in Hm. rewrite Epr in Hm. by destruct (present (word s (pte_addr s va))). }
    apply wp_bind. eapply wp_load; [done..|]. apply wp_bind, wp_assert; [by rewrite Hnp|].
    apply wp_bind. eapply wp_load; [done..|]. rewrite Hnp. simpl.
    eapply wp_store; [done..|]. apply added_entry; try done.
    + exists (ram s), (pool_bitmap (kernel_pool s)). split; [|done].
      by destruct s as [? ? [] ? ? ? ?].
    + intros n. apply room_less.
    + intros i Hi Hpi. by left.
    + intros g Hg. by left.
  - destruct Hroom as [?|Hroom]; [done|]. apply wp_bind. eapply wp_mono; [by apply palloc_ok|].
    intros tf s1 [_ Htk]. pose proof Htk as [Hfree (b & Hst & Hlb) Hps1 Hfr Hro].
    destruct (pool_free_addr _ _ (mem_pool_wf PF_KERNEL s Hp) Hfree) as (Hfa & Hfi & _ & _).
    assert (Hws : forall x, word s1 x = word s x) by (intros; by rewrite Hst).
    assert (Hc1 : cr3 s1 = cr3 s) by (by rewrite Hst).
    assert (Hs1 : selfmap s1).
    { destruct Hs as [A B C D]. unfold tframe, pdir in *. split; unfold tframe, pdir; rewrite ?Hws, ?Hc1; done. }
    fold (entry tf). apply wp_bind.
    eapply wp_store; [done|by apply mmu_pde|]. rewrite Hc1.
    set (s2 := set_ram _ s1). pose proof (word_insert s1 (cr3 s + 4 * PDE_IDX va) (entry tf)) as Hw2.
    fold s2 in Hw2.
    assert (Hc2 : cr3 s2 = cr3 s) by done.
    assert (Htc : tf <> cr3 s) by (intros E; apply (t_cr3 s Ht); rewrite <- E; by left).
    assert (Hpd2 : forall i, 0 <= i < 1024 -> pdir s2 i = if decide (i = PDE_IDX va) then entry tf else pdir s i).
    { intros i Hi. unfold pdir. rewrite Hc2, Hw2, Hws.
      destruct (decide (i = PDE_IDX va)) as [->|]; [by rewrite decide_True|]. by rewrite decide_False by lia. }
    assert (Hs2 : selfmap s2).
    { destruct Hs as [A B C D]. unfold tframe in *. split; rewrite ?Hc2; try done; unfold tframe;
        rewrite Hpd2, decide_False by lia; done. }
    destruct (window_idx (PDE_IDX va) 0 ltac:(lia) ltac:(lia)) as (Hwa & Hw_1 & Hw_2 & Hw_3).
    assert (Hwin : mmu s2 (0xffc00000 + 4096 * PDE_IDX va + 0) = Some tf).
    { rewrite mmu_window by (done || lia). unfold tframe. rewrite Hpd2, decide_True by (done || lia).
      rewrite entry_present, entry_frame, Z.add_0_r by done. done. }
    assert (Hbase : Z.land (pte_ptr va) 0xfffff000 = 0xffc00000 + 4096 * PDE_IDX va + 0).
    { fold (frame (pte_ptr va)). rewrite pte_ptr_eq, frame_id by (done || unfold page_aligned, is_addr; dlia || lia). lia. }
    rewrite Hbase. apply wp_bind.
    eapply wp_mono; [apply (clear_words_ok 1024 _ tf s2); [done|dlia|dlia|done|]|].
    + intros x Hx. rewrite Hc2, Hw_1. unfold pte_addr, pde_of. rewrite Hw_1, Hw_2.
      fold (pdir s2 1023). fold (tframe s2 1023). rewrite (sm_frame s2 Hs2), Hc2.
      pose proof (sm_cr3 s Hs). unfold page_aligned in *. dlia.
    + intros _ s3 [Ho3 Hw3].
      assert (Ho13 : only_ram s1 s3) by (eapply only_ram_trans; [apply only_ram_insert|exact Ho3]).
      destruct (new_table s s1 s3 va tf) as (Ht3 & Hp3 & Hz3 & Htf3 & Hpd3 & Hm3); try done.
      { intros x. rewrite Hw3, Hw2, Hws. done. }
      assert (Hmp : mmu s3 (pte_ptr va) = Some (pte_addr s3 va))
        by (rewrite mmu_pte, Hp3 by (done || apply (t_self s3 Ht3)); done).
      apply wp_bind. eapply wp_load; [done..|]. rewrite Hz3. apply wp_bind, wp_assert; [done|].
      eapply wp_store; [done..|]. apply added_entry; try done.
      * rewrite Ho13. destruct Hps1. split; done.
      * exists (ram s3), b. split; [|exact Hlb]. etransitivity; [exact Ho13|]. by rewrite Hst.
      * intros g Hg. rewrite Ho13 in Hg. apply Hfr. exact Hg.
      * intros n Hn. rewrite Ho13. apply Hro. exact Hn.
      * intros i Hi Hpi. destruct (decide (i = PDE_IDX va)) as [->|Hne].
        -- right. rewrite Htf3. by left.
        -- left. unfold tframe. rewrite Hpd3 in * by lia. done.
      * intros g Hg. destruct (decide (g = tf)) as [->|Hne].
        -- right. exists (PDE_IDX va). split_and!; [lia|lia|exact Hp3|done].
        -- left. rewrite Ho13. apply Hfr. done.
      * intros i Hi Hpi. apply Hpd3; [done|]. intros ->.
        unfold pde_of in Epr. unfold pdir in Hpi. congruence.
      * intros x. rewrite Hw3, Hw2, Hws. destruct (decide (tf <= x < tf + 4 * Z.of_nat 1024 /\ (x - tf) mod 4 = 0)) as [[Hx _]|_].
        { intros _. exists tf. split; [right|lia]. exists (PDE_IDX va). split; [lia|]. by split. }
        case_decide as E; [|done]. intros _. exists (cr3 s3). split; [by left|]. assert (Ec : cr3 s3 = cr3 s) by (rewrite Ho13; exact Hc1). rewrite Ec. lia.
Qed.
End add.

(** ** The invariant of the memory manager *)

(** The pools of virtual addresses in use: the kernel's, and the one of the
    running process. *)
Definition active (pf : Z) (s : vm) : Prop :=
  pf = PF_KERNEL \/ (pf = PF_USER /\ pgdir (mcur s) <> 0).

Definition vbits (pf : Z) (s : vm) : bitmap := vaddr_bitmap (vpool pf s).
Definition vcount (pf : Z) (s : vm) : Z := 8 * btmp_bytes_len (vbits pf s).
Definition vpage (pf : Z) (s : vm) (i : Z) : Z := vaddr_start (vpool pf s) + 4096 * i.

Record vpool_wf (pf : Z) (s : vm) : Prop := {
  vp_bits : bitmap_wf (vbits pf s);
  vp_byte : btmp_bytes_len (vbits pf s) < zlen (bits (vbits pf s));
  vp_aligned : page_aligned (vaddr_start (vpool pf s));
  vp_start : (if is_kernel pf then 0xc0000000 else 0x400000) <= vaddr_start (vpool pf s);
  vp_end : vpage pf s (vcount pf s) <= if is_kernel pf then 0xffc00000 else 0xc0000000;
  vp_unmapped : forall i, 0 <= i < vcount pf s -> bit (vbits pf s) i = false ->
    mmu s (vpage pf s i) = None
}.

Record vm_wf (s : vm) : Prop := {
  v_tables : tables_wf s;
  v_pools : pools_wf s;
  v_used : forall va pa, in_range va -> mmu s va = Some pa -> ~ is_free s (frame pa);
  v_inj : forall va va' pa pa', in_range va -> in_range va' -> mmu s va = Some pa ->
    mmu s va' = Some pa' -> frame pa = frame pa' -> va / 4096 = va' / 4096;
  v_vpool : forall pf, active pf s -> vpool_wf pf s
}.

(** No pool of virtual addresses would hand out the page of [va]. *)
Definition reserved (s : vm) (va : Z) : Prop :=
  forall pf i, active pf s -> 0 <= i < vcount pf s -> va / 4096 = vpage pf s i / 4096 ->
  bit (vbits pf s) i = true.

(** Frames enough for [n] pages of [pf] and the page tables they may need. *)
Definition rooms (pf : Z) (s : vm) (n : nat) : Prop :=
  if is_kernel pf then pool_room (kernel_pool s) (n + n)
  else pool_room (user_pool s) n /\ pool_room (kernel_pool s) n.

(** Only memory and the bitmaps of the frame pools differ. *)
Definition same_cfg (s s' : vm) : Prop :=
  exists r kb ub,
    s' = set_ram r (set_kpool (set_pbits kb (kernel_pool s)) (set_upool (set_pbits ub (user_pool s)) s)) /\
    btmp_bytes_len kb = btmp_bytes_len (pool_bitmap (kernel_pool s)) /\
    btmp_bytes_len ub = btmp_bytes_len (pool_bitmap (user_pool s)).

(** [n] pages from [va] on have been given the frames [fs]. *)
Record mapped_run (pf : Z) (s s' : vm) (va : Z) (fs : list Z) : Prop := {
  mr_wf : vm_wf s';
  mr_cfg : same_cfg s s';
  mr_nodup : NoDup fs;
  mr_free : forall f, f ∈ fs -> pool_free (mem_pool pf s) f /\ ~ is_free s' f;
  mr_isfree : forall g, is_free s' g -> is_free s g;
  mr_mmu : forall va', in_range va' -> mmu s' va' =
    match znth fs ((va' - va) / 4096) with
    | Some f => Some (f + va' mod 4096)
    | None => mmu s va'
    end;
  mr_tabs : forall i, 0 <= i < 1023 -> present (pdir s' i) = true ->
    ((present (pdir s i) = true /\ tframe s' i = tframe s i) \/ is_free s (tframe s' i)) /\
    tframe s' i ∉ fs;
  mr_room : forall n, rooms pf s (length fs + n) -> rooms pf s' n;
  mr_lost : forall g, is_free s g -> is_free s' g \/ g ∈ fs \/ table_frame s' g;
  mr_keep : forall i, 0 <= i < 1024 -> present (pdir s i) = true -> pdir s' i = pdir s i;
  mr_words : forall x, word s' x <> word s x -> table_word s' x;
  mr_pdes : forall i, 0 <= i < 1024 -> pdir s' i = pdir s i \/ exists k, 0 <= k < zlen fs /\ i = PDE_IDX (va + 4096 * k);
  mr_upool : is_kernel pf = true -> user_pool s' = user_pool s
}.

Section alloc.
Implicit Types (s : vm) (va pf : Z).

Lemma active_valid pf s : active pf s -> valid_pf pf.
Proof. intros [->|[-> _]]; [by left|by right]. Qed.

Lemma same_cfg_refl s : same_cfg s s.
Proof.
  exists (ram s), (pool_bitmap (kernel_pool s)), (pool_bitmap (user_pool s)).
  split; [|done]. by destruct s as [? ? [] [] ? ? ?].
Qed.
Lemma same_cfg_trans s1 s2 s3 : same_cfg s1 s2 -> same_cfg s2 s3 -> same_cfg s1 s3.
Proof.
  intros (r & kb & ub & -> & Hk & Hu) (r' & kb' & ub' & -> & Hk' & Hu').
  exists r', kb', ub'. simpl in *. split; [done|]. split; congruence.
Qed.
Lemma same_cfg_vpool pf s s' : same_cfg s s' -> vpool pf s' = vpool pf s /\ mcur s' = mcur s /\
  cr3 s' = cr3 s /\ me s' = me s /\ active pf s' = active pf s.
Proof. intros (r & kb & ub & -> & _ & _). done. Qed.
Lemma took_cfg pf s s' f : took pf s s' f -> same_cfg s s'.
Proof.
  intros [_ (b & -> & Hl) _ _ _]. unfold set_pool, mem_pool in *. destruct (is_kernel pf).
  - exists (ram s), b, (pool_bitmap (user_pool s)). split; [|done]. by destruct s as [? ? ? [] ? ? ?].
  - exists (ram s), (pool_bitmap (kernel_pool s)), b. split; [|done]. by destruct s as [? ? [] ? ? ? ?].
Qed.
Lemma added_cfg s s' va pa : added s s' va pa -> same_cfg s s'.
Proof.
  intros [_ _ _ (r & b & -> & Hl) _ _ _ _ _ _ _]. exists r, b, (pool_bitmap (user_pool s)).
  split; [|done]. by destruct s as [? ? ? [] ? ? ?].
Qed.

(** The bitmaps of virtual addresses stay right when only pages they do not
    hand out change. *)
Lemma vpool_keep s s' : same_cfg s s' ->
  (forall pf, active pf s -> vpool_wf pf s) ->
  (forall va, in_range va -> ~ reserved s va -> mmu s' va = mmu s va) ->
  forall pf, active pf s' -> vpool_wf pf s'.
Proof.
  intros Hc Hv Hm pf Hact. destruct (same_cfg_vpool pf s s' Hc) as (E & _ & _ & _ & Ea).
  rewrite Ea in Hact. destruct (Hv pf Hact) as [H1 H2 H3 H4 H5 H6].
  split; unfold vcount, vpage, vbits in *; rewrite ?E; try done.
  intros i Hi Hz. rewrite Hm; [by apply H6| |].
  - unfold in_range. destruct (active_valid pf s Hact) as [-> | ->]; simpl in H4, H5; lia.
  - intros Hres. pose proof (Hres pf i Hact Hi eq_refl) as Hb. unfold vbits in Hb. congruence.
Qed.

Lemma frame_mmu s va pa : mmu s va = Some pa -> pa = frame pa + va mod 4096.
Proof.
  unfold mmu. destruct (present _); [|done]. destruct (present _); [|done]. intros [= <-].
  rewrite offset_mod, frame_id; [lia|apply frame_aligned|pose proof (frame_range (word s (pte_addr s va))); unfold is_addr; lia|].
  apply Z.mod_pos_bound. lia.
Qed.

Lemma rooms_step pf s s1 s' f va : took pf s s1 f -> added s1 s' va f ->
  forall n, rooms pf s (S n) -> rooms pf s' n.
Proof.
  intros Htk Had n. pose proof (tk_room _ _ _ _ Htk) as Hr1. pose proof (ad_room _ _ _ _ Had) as Hr2.
  destruct (tk_state _ _ _ _ Htk) as (b & Hst & _).
  unfold rooms, mem_pool, set_pool in *. destruct (is_kernel pf).
  - replace (S n + S n)%nat with (S (S (n + n))) by lia. intros H. by apply Hr2, Hr1.
  - intros [Hu Hk]. split.
    + destruct (ad_state _ _ _ _ Had) as (r & b' & -> & _). simpl. by apply Hr1.
    + apply Hr2. rewrite Hst. done.
Qed.

Lemma same_cfg_pool pf s s' : same_cfg s s' ->
  phy_addr_start (mem_pool pf s') = phy_addr_start (mem_pool pf s) /\
  pool_bits (mem_pool pf s') = pool_bits (mem_pool pf s).
Proof.
  intros (r & kb & ub & -> & Hk & Hu). unfold mem_pool, pool_bits.
  destruct (is_kernel pf); simpl; by rewrite ?Hk, ?Hu.
Qed.

(** A frame of a pool can only be free there. *)
Lemma free_same_pool pf s s' f : same_cfg s s' -> pools_wf s -> pools_wf s' ->
  pool_free (mem_pool pf s') f -> is_free s f -> pool_free (mem_pool pf s) f.
Proof.
  intros Hc Hp Hp' Hf Hs. destruct (same_cfg_pool pf s s' Hc) as [E1 E2].
  apply pool_free_addr in Hf as (_ & _ & _ & Hf); [|by apply mem_pool_wf]. rewrite E1, E2 in Hf.
  destruct Hp as [Hk Hu Ho]. unfold mem_pool in *. destruct (is_kernel pf), Hs as [Hs|Hs]; try done;
    apply pool_free_addr in Hs as (_ & _ & _ & Hs); try done; lia.
Qed.

Lemma mem_free_is_free pf s f : pool_free (mem_pool pf s) f -> is_free s f.
Proof. unfold mem_pool, is_free. destruct (is_kernel pf); tauto. Qed.

Lemma mapped_run_trans pf s s1 s2 va fs1 fs2 : pools_wf s -> page_aligned va ->
  mapped_run pf s s1 va fs1 -> mapped_run pf s1 s2 (va + 4096 * zlen fs1) fs2 ->
  mapped_run pf s s2 va (fs1 ++ fs2).
Proof.
  intros Hp Hal [W1 C1 N1 F1 I1 M1 T1 R1 L1 K1 X1 P1 U1] [W2 C2 N2 F2 I2 M2 T2 R2 L2 K2 X2 P2 U2].
  split; [done|by eapply same_cfg_trans| | |by auto| | | | | | | |].
  - apply NoDup_app. split_and!; [done| |done]. intros f Hf Hf2.
    destruct (F1 f Hf) as [_ Hn]. apply Hn. destruct (F2 f Hf2) as [Hfr _].
    by eapply mem_free_is_free.
  - intros f [Hf|Hf]%elem_of_app.
    + destruct (F1 f Hf) as [? Hn]. split; [done|]. intros ?. by apply Hn, I2.
    + destruct (F2 f Hf) as [Hfr ?]. split; [|done].
      apply (free_same_pool pf s s1); [done|done|apply (v_pools _ W1)|done|].
      apply I1. by eapply mem_free_is_free.
  - intros va' Hr. rewrite M2 by done.
    replace ((va' - (va + 4096 * zlen fs1)) / 4096) with ((va' - va) / 4096 - zlen fs1) by dlia.
    destruct (Z.ltb_spec ((va' - va) / 4096) (zlen fs1)) as [Hlt|Hge].
    + rewrite znth_app_l by done. rewrite (proj2 (znth_None fs2 _)) by lia. by apply M1.
    + rewrite znth_app_r by done. destruct (znth fs2 _); [done|].
      rewrite M1 by done. rewrite (proj2 (znth_None fs1 _)) by lia. done.
  - intros i Hi Hpr. destruct (T2 i Hi Hpr) as [[[Hp1 E]|Hfr] Hn2].
    + destruct (T1 i Hi Hp1) as [Hc Hn1]. rewrite E in *. split; [done|]. set_solver.
    + split; [right; by apply I1|]. rewrite elem_of_app. intros [Hx|Hx]; [|done].
      by destruct (F1 _ Hx) as [_ ?].
  - intros n. rewrite length_app. rewrite <- Nat.add_assoc. intros H. by apply R2, R1.
  - intros g Hg. rewrite elem_of_app. destruct (L1 g Hg) as [H1|[?|(i & Hi & Hpi & E)]]; [|by auto|].
    + destruct (L2 g H1) as [?|[?|?]]; auto.
    + right. right. exists i. unfold tframe in *. rewrite K2 by (done || lia). done.
  - intros i Hi Hpi. rewrite K2, K1; try done. by rewrite K1.
  - intros x Hx. destruct (decide (word s2 x = word s1 x)) as [E|Hne]; [|by apply X2].
    rewrite E in Hx. apply X1 in Hx. eapply table_word_keep, Hx; [|done]. by destruct (same_cfg_vpool pf _ _ C2) as (_ & _ & -> & _).
  - intros i Hi. rewrite zlen_app. pose proof (zlen_nonneg fs1). pose proof (zlen_nonneg fs2).
    destruct (P2 i Hi) as [E2|(k & Hk & ->)]; [rewrite E2; destruct (P1 i Hi) as [?|(k & Hk & ->)]; [by left|]|]; right.
    + exists k. split; [lia|done].
    + exists (zlen fs1 + k). split; [lia|]. f_equal. lia.
  - intros Hk. by rewrite U2, U1.
Qed.

Lemma mapped_nil pf s va : vm_wf s -> mapped_run pf s s va [].
Proof.
  intros Hwf. split; [done|apply same_cfg_refl|apply NoDup_nil_2|by intros f ?%elem_of_nil|done| | |done|by left|done|done|by left|done].
  - intros va' Hr. by rewrite (proj2 (znth_None [] _)) by (unfold zlen; simpl; lia).
  - intros i Hi Hp. split; [by left|apply not_elem_of_nil].
Qed.

Lemma took_pdir pf s s1 f i : took pf s s1 f -> pdir s1 i = pdir s i.
Proof. intros Htk. destruct (tk_state _ _ _ _ Htk) as (b & -> & _). unfold set_pool. by destruct (is_kernel pf). Qed.

(** One frame for one page. *)
Lemma map_one pf s s1 s' va f : vm_wf s -> active pf s -> in_range va -> page_aligned va ->
  mmu s va = None -> reserved s va -> took pf s s1 f -> added s1 s' va f ->
  mapped_run pf s s' va [f].
Proof.
  intros [Wt Wp Wu Wi Wv] Hact Hr Hal Hm Hres Htk Had.
  pose proof (took_cfg _ _ _ _ Htk) as C1. pose proof (added_cfg _ _ _ _ Had) as C2.
  assert (C : same_cfg s s') by (by eapply same_cfg_trans).
  pose proof (pool_free_addr _ _ (mem_pool_wf pf s Wp) (tk_free _ _ _ _ Htk)) as (Hfa & Hfi & _ & _).
  assert (Hm1 : forall va', mmu s1 va' = mmu s va').
  { intros va'. destruct (tk_state _ _ _ _ Htk) as (b & -> & _). unfold set_pool. by destruct (is_kernel pf). }
  assert (Hmm : forall va', in_range va' -> mmu s' va' =
    if decide (va' / 4096 = va / 4096) then Some (f + va' mod 4096) else mmu s va').
  { intros va' Hr'. rewrite (ad_mmu _ _ _ _ Had) by done. by rewrite Hm1. }
  assert (Hff : forall k, frame (f + k mod 4096) = f)
    by (intros k; apply frame_id; [done|done|apply Z.mod_pos_bound; lia]).
  assert (Hfree : is_free s f) by (eapply mem_free_is_free, tk_free, Htk).
  assert (Hsub : forall g, is_free s' g -> is_free s g /\ g <> f).
  { intros g Hg. apply (tk_isfree _ _ _ _ Htk). by apply (ad_isfree _ _ _ _ Had). }
  split; [split| | | | | | | | | | | |].
  - apply (ad_tables _ _ _ _ Had).
  - apply (ad_pools _ _ _ _ Had).
  - intros va' pa Hr'. rewrite Hmm by done. case_decide.
    + intros [= <-]. rewrite Hff. intros Hx. by apply Hsub in Hx as [_ ?].
    + intros Hpa Hx. apply Hsub in Hx as [Hx _]. by apply (Wu va' pa).
  - intros va1 va2 pa1 pa2 Hr1 Hr2. rewrite !Hmm by done.
    repeat case_decide; intros H1 H2 He; try congruence.
    + injection H1 as <-. rewrite Hff in He. destruct (Wu va2 pa2 Hr2 H2). by rewrite <- He.
    + injection H2 as <-. rewrite Hff in He. destruct (Wu va1 pa1 Hr1 H1). by rewrite He.
    + by eapply Wi.
  - eapply vpool_keep; [exact C|done|]. intros va' Hr' Hnr. rewrite Hmm by done.
    case_decide as E; [|done]. destruct Hnr. intros pf' i Hact' Hi Hpg. apply Hres; [done|done|congruence].
  - done.
  - apply NoDup_singleton.
  - intros g ->%list_elem_of_singleton. split; [apply (tk_free _ _ _ _ Htk)|].
    intros Hx. by apply Hsub in Hx as [_ ?].
  - intros g Hg. by apply Hsub.
  - intros va' Hr'. rewrite Hmm by done. case_decide as E.
    + replace ((va' - va) / 4096) with 0 by (unfold page_aligned in *; dlia). done.
    + rewrite (proj2 (znth_None [f] _)); [done|]. unfold zlen, page_aligned in *. simpl. dlia.
  - intros i Hi Hp. destruct (ad_tabs _ _ _ _ Had i Hi Hp) as [[Hp1 E]|Hfr].
    + assert (Hpd : pdir s1 i = pdir s i).
      { destruct (tk_state _ _ _ _ Htk) as (b & -> & _). unfold set_pool. by destruct (is_kernel pf). }
      assert (E' : tframe s' i = tframe s i) by (rewrite E; unfold tframe; by rewrite Hpd).
      rewrite Hpd in Hp1. rewrite E'. split; [by left|]. intros Hx%list_elem_of_singleton. apply (t_used s Wt i Hi Hp1).
      by rewrite Hx.
    + apply (tk_isfree _ _ _ _ Htk) in Hfr as [Hfr Hne]. split; [by right|].
      by intros ?%list_elem_of_singleton.
  - intros n. simpl. by eapply rooms_step.
  - intros g Hg. destruct (decide (g = f)) as [->|Hne]; [right; left; set_solver|].
    destruct (ad_lost _ _ _ _ Had g) as [?|?]; [by apply (tk_isfree _ _ _ _ Htk)|by left|by right; right].
  - pose proof (λ i, took_pdir _ _ _ _ i Htk) as Hpd.
    intros i Hi Hpi. rewrite <- (Hpd i) in *. by apply (ad_keep _ _ _ _ Had).
  - assert (Hws : forall x, word s1 x = word s x).
    { intros x. destruct (tk_state _ _ _ _ Htk) as (b & -> & _). unfold set_pool. by destruct (is_kernel pf). }
    intros x Hx. apply (ad_words _ _ _ _ Had). by rewrite Hws.
  - pose proof (λ i, took_pdir _ _ _ _ i Htk) as Hpd.
    intros i Hi. destruct (decide (i = PDE_IDX va)) as [->|Hne].
    + right. exists 0. split; [unfold zlen; cbn; lia|]. f_equal. lia.
    + left. rewrite (ad_pdes _ _ _ _ Had i Hi Hne). apply Hpd.
  - intros Hk. destruct (ad_state _ _ _ _ Had) as (r & b & -> & _), (tk_state _ _ _ _ Htk) as (b' & -> & _).
    unfold set_pool. by rewrite Hk.
Qed.
End alloc.

(** ** Allocating and mapping pages *)

Section malloc.
Implicit Types (s : vm) (va pf : Z).

Lemma frames_room_le p n m : (m <= n)%nat -> pool_room p n -> pool_room p m.
Proof. induction 1; [done|]. intros H'%room_less. auto. Qed.

Lemma rooms_first pf s n : rooms pf s (S n) -> pool_room (mem_pool pf s) 1.
Proof.
  unfold rooms, mem_pool. destruct (is_kernel pf); [|intros [H _]; by eapply frames_room_le, H; lia].
  intros H; eapply frames_room_le, H; lia.
Qed.
Lemma rooms_table pf s s1 f n : took pf s s1 f -> rooms pf s (S n) -> pool_room (kernel_pool s1) 1.
Proof.
  intros Htk. pose proof (tk_room _ _ _ _ Htk) as Hr. destruct (tk_state _ _ _ _ Htk) as (b & -> & _).
  unfold rooms, mem_pool, set_pool in *. destruct (is_kernel pf).
  - intros H. eapply frames_room_le, (Hr (n + S n)%nat), H. lia.
  - intros [_ H]. simpl. eapply frames_room_le, H. lia.
Qed.

Lemma reserved_cfg s s' va : same_cfg s s' -> reserved s va -> reserved s' va.
Proof.
  intros Hc Hr pf i. destruct (same_cfg_vpool pf s s' Hc) as (E & _ & _ & _ & Ea).
  unfold vcount, vpage, vbits. rewrite E, Ea. apply Hr.
Qed.

Lemma map_pages_ok n : forall pf va s, vm_wf s -> active pf s -> page_aligned va ->
  (forall k, 0 <= k < Z.of_nat n -> in_range (va + 4096 * k) /\ mmu s (va + 4096 * k) = None /\
     reserved s (va + 4096 * k)) ->
  rooms pf s n ->
  wp (map_pages n pf va) (λ r s', r = true /\ exists fs, length fs = n /\ mapped_run pf s s' va fs) s.
Proof.
  induction n as [|n IH]; intros pf va s Hwf Hact Hal Hpg Hroom.
  { apply wp_ret. split; [done|]. exists []. split; [done|]. by apply mapped_nil. }
  destruct (Hpg 0 ltac:(lia)) as (Hr & Hm & Hres). rewrite Z.mul_0_r, Z.add_0_r in Hr, Hm, Hres.
  cbn [map_pages]. apply wp_bind.
  eapply wp_mono; [apply palloc_ok; [apply (v_pools _ Hwf)|by eapply rooms_first]|].
  intros f s1 [Hf0 Htk]. destruct (Z.eqb_spec f 0) as [?|_]; [done|].
  assert (Hmm : forall va', mmu s1 va' = mmu s va').
  { intros va'. destruct (tk_state _ _ _ _ Htk) as (b & -> & _). unfold set_pool. by destruct (is_kernel pf). }
  destruct (pool_free_addr _ _ (mem_pool_wf pf s (v_pools _ Hwf)) (tk_free _ _ _ _ Htk)) as (Hfa & Hfi & _ & _).
  assert (Ht1 : tables_wf s1).
  { destruct (v_tables _ Hwf) as [[A B C D] T2 T3 T4 T5]. pose proof (tk_isfree _ _ _ _ Htk) as Hfr.
    assert (Hpd : cr3 s1 = cr3 s /\ forall i, pdir s1 i = pdir s i).
    { destruct (tk_state _ _ _ _ Htk) as (b & -> & _). unfold set_pool. by destruct (is_kernel pf). }
    destruct Hpd as [Hc Hpd]. unfold tframe in *.
    split; [split|..]; unfold tframe; rewrite ?Hc; try done; try by rewrite Hpd.
    - intros i. rewrite Hpd. apply T2.
    - intros i j. rewrite !Hpd. apply T3.
    - rewrite Hfr. by intros [? _].
    - intros i Hi. rewrite Hpd, Hfr. intros Hp [? _]. by apply (T5 i Hi Hp). }
  apply wp_bind. eapply wp_mono.
  { apply page_table_add_ok; [done|apply (tk_pools _ _ _ _ Htk)|done|done|done|by rewrite Hmm|].
    right. by eapply rooms_table. }
  intros [] s2 Had. pose proof (map_one pf s s1 s2 va f Hwf Hact Hr Hal Hm Hres Htk Had) as H1.
  rewrite u32_small by (unfold in_range, PG_SIZE in *; lia).
  eapply wp_mono; [apply (IH pf (va + PG_SIZE) s2)|].
  - apply (mr_wf _ _ _ _ _ H1).
  - destruct (same_cfg_vpool pf s s2 (mr_cfg _ _ _ _ _ H1)) as (_ & _ & _ & _ & ->). done.
  - unfold page_aligned, PG_SIZE in *. dlia.
  - intros k Hk. unfold PG_SIZE. replace (va + 4096 + 4096 * k) with (va + 4096 * (k + 1)) by lia.
    destruct (Hpg (k + 1) ltac:(lia)) as (Hr' & Hm' & Hres'). split_and!; [done| |].
    + rewrite (mr_mmu _ _ _ _ _ H1) by done.
      replace ((va + 4096 * (k + 1) - va) / 4096) with (k + 1) by dlia.
      rewrite (proj2 (znth_None [f] _)); [done|]. unfold zlen; simpl; lia.
    + eapply reserved_cfg, Hres'. apply (mr_cfg _ _ _ _ _ H1).
  - apply (mr_room _ _ _ _ _ H1). done.
  - intros r s' [-> (fs & Hl & H2)]. split; [done|]. exists (f :: fs). split; [simpl; lia|].
    eapply (mapped_run_trans pf s s2 s' va [f] fs); [apply (v_pools _ Hwf)|done|done|].
    replace (va + 4096 * zlen [f]) with (va + PG_SIZE) by (unfold zlen, PG_SIZE; simpl; lia). done.
Qed.

(** *** Runs of virtual pages *)

Lemma set_bits_ok n : forall b i v, bitmap_wf b -> 0 <= i -> i + Z.of_nat n <= 8 * btmp_bytes_len b ->
  (v = 0 \/ v = 1) ->
  exists b', set_bits n b i v = Ok b' /\ bitmap_wf b' /\
    btmp_bytes_len b' = btmp_bytes_len b /\ zlen (bits b') = zlen (bits b) /\
    forall j, 0 <= j -> bit b' j = if decide (i <= j < i + Z.of_nat n) then v =? 1 else bit b j.
Proof.
  induction n as [|n IH]; intros b i v Hwf Hi Hn Hv.
  { exists b. split_and!; try done. intros j Hj. rewrite decide_False by lia. done. }
  pose proof (wf_small b Hwf).
  destruct (bitmap_set_ok b i v) as (b1 & H1 & Hwf1 & Hl1 & Hz1 & Hb1); [done|lia|done|].
  destruct (IH b1 (i + 1) v) as (b2 & H2 & Hwf2 & Hl2 & Hz2 & Hb2); [done|lia|lia|done|].
  exists b2. cbn [set_bits]. rewrite u32_small, H1 by lia. rcbn.
  split_and!; [done|done|congruence|congruence|]. intros j Hj. rewrite Hb2, Hb1 by done.
  repeat case_decide; done || lia.
Qed.

(** [vaddr_get] reserves the lowest run of free pages. *)
Lemma vaddr_get_ok pf s cnt r0 : vpool_wf pf s -> valid_pf pf -> 1 <= cnt < 3840 ->
  0 <= r0 -> r0 + cnt <= vcount pf s -> run_free (vbits pf s) r0 cnt ->
  (pf = PF_USER -> vpage pf s r0 < 0xbffff000) ->
  exists r b, vaddr_get pf cnt s = Ok (vpage pf s r, set_vbits pf b s) /\ 0 <= r <= r0 /\
    run_free (vbits pf s) r cnt /\ (forall j, 0 <= j < r -> ~ run_free (vbits pf s) j cnt) /\
    bitmap_wf b /\ btmp_bytes_len b = btmp_bytes_len (vbits pf s) /\
    zlen (bits b) = zlen (bits (vbits pf s)) /\
    forall j, 0 <= j -> bit b j = if decide (r <= j < r + cnt) then true else bit (vbits pf s) j.
Proof.
  intros [Hwf Hby Hal Hst Hen _] Hpf Hcnt Hr0 Hend Hrun Husr.
  destruct (bitmap_scan_fits (vbits pf s) cnt r0) as (r & Hr & Hrr & Hrf & Hlow); try done; [lia|].
  destruct (set_bits_ok (Z.to_nat cnt) (vbits pf s) r 1) as (b & Hb & Hwfb & Hlb & Hzb & Hbit);
    [done|lia|unfold vcount in *; lia|by right|].
  rewrite Z2Nat.id in Hbit by lia.
  exists r, b. split; [|done]. unfold vaddr_get. rewrite (bind_ok _ _ _ (vpool pf s) s) by done.
  fold (vbits pf s). unfold lift at 1. rewrite (bind_ok _ _ _ r s) by (by rewrite Hr).
  destruct (Z.eqb_spec r (-1)); [lia|].
  rewrite (bind_ok _ _ _ b s) by (unfold lift; by rewrite Hb).
  rewrite (bind_ok _ _ _ tt (set_vbits pf b s)) by done.
  replace (u32 (vaddr_start (vpool pf s) + r * PG_SIZE)) with (vpage pf s r).
  2: { unfold vpage, PG_SIZE in *. symmetry. rewrite u32_small; [lia|].
       destruct Hpf as [->| ->]; simpl in *; unfold vpage in *; lia. }
  rewrite (bind_ok _ _ _ tt (set_vbits pf b s)); [done|].
  unfold assertM, lift, ASSERT. destruct Hpf as [->| ->]; [done|]. simpl.
  specialize (Husr eq_refl). unfold vpage in *.
  destruct (Z.ltb_spec (vaddr_start (vpool PF_USER s) + 4096 * r) (0xc0000000 - PG_SIZE)); [done|].
  unfold PG_SIZE in *. lia.
Qed.

Lemma vpool_set_eq pf b s : valid_pf pf ->
  vpool pf (set_vbits pf b s) = VirtualAddr b (vaddr_start (vpool pf s)).
Proof. by intros [->| ->]. Qed.
Lemma vpool_set_ne pf pf' b s : valid_pf pf -> valid_pf pf' -> pf <> pf' ->
  vpool pf' (set_vbits pf b s) = vpool pf' s.
Proof. by intros [->| ->] [->| ->]. Qed.
Lemma set_vbits_same pf b s : ram (set_vbits pf b s) = ram s /\ cr3 (set_vbits pf b s) = cr3 s /\
  kernel_pool (set_vbits pf b s) = kernel_pool s /\ user_pool (set_vbits pf b s) = user_pool s /\
  me (set_vbits pf b s) = me s /\ pgdir (mcur (set_vbits pf b s)) = pgdir (mcur s).
Proof. unfold set_vbits. by destruct (pf =? PF_KERNEL). Qed.

(** Rewriting a bitmap of virtual addresses: the pages it now calls free must
    not be mapped. *)
Lemma vm_wf_vbits pf b s : vm_wf s -> active pf s -> bitmap_wf b ->
  btmp_bytes_len b = btmp_bytes_len (vbits pf s) -> zlen (bits b) = zlen (bits (vbits pf s)) ->
  (forall j, 0 <= j < vcount pf s -> bit b j = false -> mmu s (vpage pf s j) = None) ->
  vm_wf (set_vbits pf b s).
Proof.
  intros [Wt Wp Wu Wi Wv] Hact Hwf Hl Hz Hun.
  destruct (set_vbits_same pf b s) as (Er & Ec & Ek & Eu & Em & Ep).
  pose proof (active_valid pf s Hact) as Hpf.
  assert (Hw : forall x, word (set_vbits pf b s) x = word s x) by (intros; unfold word; by rewrite Er).
  assert (Hmm : forall va, mmu (set_vbits pf b s) va = mmu s va).
  { intros va. unfold mmu, pte_addr, pde_of. by rewrite Ec, !Hw. }
  assert (Hfr : forall g, is_free (set_vbits pf b s) g <-> is_free s g)
    by (intros; unfold is_free; by rewrite Ek, Eu).
  split.
  - destruct Wt as [[A B C D] T2 T3 T4 T5]. unfold tframe, pdir in *.
    split; [split|..]; unfold tframe, pdir; rewrite ?Ec, ?Hw, ?Hfr; try done.
    + intros i. rewrite Hw. apply T2.
    + intros i j. rewrite !Hw. apply T3.
    + intros i. rewrite Hw, Hfr. apply T5.
  - destruct Wp. split; by rewrite ?Ek, ?Eu.
  - intros va pa. rewrite Hmm, Hfr. apply Wu.
  - intros va va' pa pa'. rewrite !Hmm. apply Wi.
  - intros pf' Hact'. assert (Ha : active pf' s) by (unfold active in *; by rewrite Ep in Hact').
    destruct (decide (pf = pf')) as [<-|Hne].
    + destruct (Wv pf Ha) as [V1 V2 V3 V4 V5 V6].
      assert (Hvp : forall i, vpage pf (set_vbits pf b s) i = vpage pf s i)
        by (intros; unfold vpage; by rewrite vpool_set_eq).
      assert (Hvc : vcount pf (set_vbits pf b s) = vcount pf s)
        by (unfold vcount, vbits in *; rewrite vpool_set_eq by done; simpl; by rewrite Hl).
      split; unfold vbits; rewrite ?Hvc, ?Hvp, ?(vpool_set_eq pf b s) by done; simpl; try done.
      * by rewrite Hl, Hz.
      * intros i Hi Hb. rewrite Hvp, Hmm. by apply Hun.
    + pose proof (vpool_set_ne pf pf' b s Hpf (active_valid _ _ Ha) Hne) as E.
      destruct (Wv pf' Ha) as [V1 V2 V3 V4 V5 V6].
      split; unfold vcount, vpage, vbits in *; rewrite ?E; try done.
      intros i Hi Hb. rewrite Hmm. by apply V6.
Qed.

(** The pages of the two pools are different. *)
Lemma vpools_disjoint s pf pf' i i' : vm_wf s -> active pf s -> active pf' s -> pf <> pf' ->
  0 <= i < vcount pf s -> 0 <= i' < vcount pf' s -> vpage pf s i / 4096 <> vpage pf' s i' / 4096.
Proof.
  intros Hwf Ha Ha' Hne Hi Hi'.
  destruct (v_vpool _ Hwf pf Ha) as [_ _ A1 S1 E1 _], (v_vpool _ Hwf pf' Ha') as [_ _ A2 S2 E2 _].
  unfold vpage, page_aligned in *.
  destruct (active_valid _ _ Ha) as [->| ->], (active_valid _ _ Ha') as [->| ->]; try done; simpl in *; dlia.
Qed.

Lemma vpage_in_range s pf i : vm_wf s -> active pf s -> 0 <= i < vcount pf s ->
  in_range (vpage pf s i) /\ page_aligned (vpage pf s i).
Proof.
  intros Hwf Ha Hi. destruct (v_vpool _ Hwf pf Ha) as [_ _ A1 S1 E1 _].
  unfold vpage, page_aligned, in_range in *.
  destruct (active_valid _ _ Ha) as [->| ->]; simpl in *; dlia.
Qed.

(** Nothing is mapped in a free run. *)
Lemma run_unmapped pf s r cnt x : vm_wf s -> active pf s -> 0 <= r -> r + cnt <= vcount pf s ->
  run_free (vbits pf s) r cnt -> in_range x -> 0 <= (x - vpage pf s r) / 4096 < cnt -> mmu s x = None.
Proof.
  intros Hwf Hact Hr Hend Hrf Hx Hk. set (k := (x - vpage pf s r) / 4096) in *.
  destruct (vpage_in_range s pf (r + k)) as [Hir Hal]; try done; [lia|].
  pose proof (vp_unmapped _ _ (v_vpool _ Hwf pf Hact) (r + k) ltac:(lia) (Hrf (r + k) ltac:(lia))) as Hu.
  destruct (mmu s x) as [pa|] eqn:Em; [|done].
  apply (mmu_page s x (vpage pf s (r + k))) in Em; [congruence|unfold in_range, is_addr in *; lia..|].
  unfold k, vpage, page_aligned in *. dlia.
Qed.

(** A page whose bit is set is reserved. *)
Lemma reserved_run pf b s i : vm_wf s -> active pf s ->
  btmp_bytes_len b = btmp_bytes_len (vbits pf s) -> 0 <= i < vcount pf s -> bit b i = true ->
  reserved (set_vbits pf b s) (vpage pf s i).
Proof.
  intros Hwf Hact Hlb Hi Hbi pf' j Hact' Hj Hpg. pose proof (active_valid _ _ Hact) as Hpf.
  pose proof (vp_aligned _ _ (v_vpool _ Hwf pf Hact)) as Hva.
  assert (Ha' : active pf' s).
  { destruct (set_vbits_same pf b s) as (_ & _ & _ & _ & _ & Ep). unfold active in *. by rewrite Ep in Hact'. }
  destruct (decide (pf = pf')) as [<-|Hne].
  - unfold vpage, vbits in *. rewrite vpool_set_eq in * by done. simpl in *.
    assert (j = i) as -> by (unfold page_aligned in Hva; dlia). done.
  - exfalso. pose proof (vpool_set_ne pf pf' b s Hpf (active_valid _ _ Ha') Hne) as E.
    unfold vcount, vpage, vbits in Hj, Hpg. rewrite E in Hj, Hpg.
    by eapply (vpools_disjoint s pf pf' i j).
Qed.

Lemma malloc_page_ok pf s cnt r0 : vm_wf s -> active pf s -> 1 <= cnt < 3840 ->
  0 <= r0 -> r0 + cnt <= vcount pf s -> run_free (vbits pf s) r0 cnt ->
  (pf = PF_USER -> vpage pf s r0 < 0xbffff000) -> rooms pf s (Z.to_nat cnt) ->
  exists r b fs s', malloc_page pf cnt s = Ok (vpage pf s r, s') /\ 0 <= r <= r0 /\
    run_free (vbits pf s) r cnt /\ (forall j, 0 <= j < r -> ~ run_free (vbits pf s) j cnt) /\
    bitmap_wf b /\ btmp_bytes_len b = btmp_bytes_len (vbits pf s) /\
    zlen (bits b) = zlen (bits (vbits pf s)) /\
    (forall j, 0 <= j -> bit b j = if decide (r <= j < r + cnt) then true else bit (vbits pf s) j) /\
    zlen fs = cnt /\ mapped_run pf (set_vbits pf b s) s' (vpage pf s r) fs.
Proof.
  intros Hwf Hact Hcnt Hr0 Hend Hrun Husr Hroom.
  pose proof (active_valid _ _ Hact) as Hpf. pose proof (v_vpool _ Hwf pf Hact) as Hv.
  destruct (vaddr_get_ok pf s cnt r0) as (r & b & Hg & Hrr & Hrf & Hlow & Hwb & Hlb & Hzb & Hbit); try done.
  destruct (set_vbits_same pf b s) as (Er & Ec & Ek & Eu & Em & Ep).
  set (s1 := set_vbits pf b s) in *.
  assert (Hmm : forall va, mmu s1 va = mmu s va).
  { intros va. unfold mmu, pte_addr, pde_of, word. by rewrite Ec, Er. }
  assert (Hwf1 : vm_wf s1).
  { apply vm_wf_vbits; try done. intros j Hj Hbj. rewrite Hbit in Hbj by lia.
    case_decide; [done|]. by apply (vp_unmapped _ _ Hv). }
  assert (Hact1 : forall q, active q s1 <-> active q s) by (intros q; unfold active; by rewrite Ep).
  destruct (vpage_in_range s pf r) as [Hir Hal]; try done; [lia|].
  pose proof (map_pages_ok (Z.to_nat cnt) pf (vpage pf s r) s1 Hwf1) as Hmp.
  assert (Hw : wp (map_pages (Z.to_nat cnt) pf (vpage pf s r)) (λ x s', x = true /\
    exists fs, length fs = Z.to_nat cnt /\ mapped_run pf s1 s' (vpage pf s r) fs) s1).
  { apply Hmp; [by apply Hact1|done| |].
    - intros k Hk. replace (vpage pf s r + 4096 * k) with (vpage pf s (r + k)) by (unfold vpage; lia).
      destruct (vpage_in_range s pf (r + k)) as [Hirk Halk]; try done; [lia|].
      split_and!; [done| |].
      + rewrite Hmm. apply (vp_unmapped _ _ Hv); [lia|]. apply Hrf. lia.
      + apply reserved_run; try done; [lia|]. by rewrite Hbit, decide_True by lia.
    - unfold rooms in *. by rewrite Ek, Eu. }
  apply wp_run in Hw as (x & s' & Hx & -> & fs & Hfs & Hrn).
  exists r, b, fs, s'. split; [|split_and!; try done; [lia|lia|unfold zlen; lia]].
  unfold malloc_page. rewrite (bind_ok _ _ _ tt s).
  - rewrite (bind_ok _ _ _ _ _ Hg). destruct (Z.eqb_spec (vpage pf s r) 0) as [E|_].
    { unfold in_range in Hir. lia. }
    rewrite (bind_ok _ _ _ _ _ Hx). done.
  - unfold assertM, lift, ASSERT. destruct (Z.ltb_spec 0 cnt), (Z.ltb_spec cnt 3840); done || lia.
Qed.
End malloc.

(** ** Releasing pages *)

(** [f] is a frame of the pool of [pf]. *)
Definition owned (pf : Z) (s : vm) (f : Z) : Prop :=
  exists i, 0 <= i < pool_bits (mem_pool pf s) /\ f = pool_frame (mem_pool pf s) i.

(** The pages from [va] on, mapped to [fs], have been given back. *)
Record unmapped_run (s s' : vm) (va : Z) (fs : list Z) : Prop := {
  ur_wf : vm_wf s';
  ur_cfg : same_cfg s s';
  ur_isfree : forall g, is_free s' g <-> is_free s g \/ g ∈ fs;
  ur_mmu : forall va', in_range va' -> mmu s' va' =
    match znth fs ((va' - va) / 4096) with Some _ => None | None => mmu s va' end;
  ur_pdir : forall i, 0 <= i < 1024 -> pdir s' i = pdir s i
}.

Section free.
Implicit Types (s : vm) (va pf f : Z).

Lemma owned_addr pf s f : pools_wf s -> valid_pf pf -> owned pf s f ->
  page_aligned f /\ is_addr f /\ 0x102000 <= f /\
  (phy_addr_start (user_pool s) <=? f) = negb (is_kernel pf) /\
  phy_addr_start (mem_pool pf s) <= f.
Proof.
  intros [[K1 K2 K3 K4] [U1 U2 U3 U4] Ho] Hpf (i & Hi & ->).
  unfold pool_frame, page_aligned, is_addr in *.
  destruct Hpf as [->| ->]; unfold mem_pool in *; simpl in *.
  - destruct (Z.leb_spec (phy_addr_start (user_pool s)) (phy_addr_start (kernel_pool s) + 4096 * i)); [lia|].
    split_and!; done || dlia.
  - destruct (Z.leb_spec (phy_addr_start (user_pool s)) (phy_addr_start (user_pool s) + 4096 * i)); [|lia].
    split_and!; done || dlia.
Qed.

(** The code finds the pool of a frame from its address. *)
Lemma pfree_ok pf s f : pools_wf s -> valid_pf pf -> owned pf s f ->
  wp (pfree f) (λ _ s', exists b, s' = set_pool pf (set_pbits b (mem_pool pf s)) s /\
    pools_wf s' /\ same_cfg s s' /\ forall g, is_free s' g <-> is_free s g \/ g = f) s.
Proof.
  intros Hp Hpf Hown. pose proof (owned_addr pf s f Hp Hpf Hown) as (Hal & Had & _ & Hu & Hst).
  destruct Hown as (i & Hi & Hf). pose proof (mem_pool_wf pf s Hp) as Hw.
  destruct (bitmap_set_ok (pool_bitmap (mem_pool pf s)) i 0) as (b & Hb & Hwb & Hlb & Hzb & Hbit);
    [apply (po_bits _ Hw)|unfold pool_bits in Hi; lia|by left|].
  unfold pfree. apply wp_bind, wp_gets. rewrite Hu.
  assert (Hq : (if negb (is_kernel pf) then PF_USER else PF_KERNEL) = pf) by (by destruct Hpf as [->| ->]).
  rewrite Hq. apply wp_bind, wp_gets, wp_bind. eapply wp_lift.
  { assert (Hx : u32 (f - phy_addr_start (mem_pool pf s)) / PG_SIZE = i).
    { rewrite Hf, pool_frame_idx. unfold PG_SIZE. pose proof (wf_small _ (po_bits _ Hw)).
      pose proof (po_end _ Hw). pose proof (po_start _ Hw). rewrite u32_small by lia. dlia. }
    rewrite Hx. exact Hb. }
  apply wp_modify. exists b. split; [done|]. split; [by apply set_pool_wf|]. split.
  - unfold set_pool, mem_pool in *. destruct (is_kernel pf).
    + exists (ram s), b, (pool_bitmap (user_pool s)). split; [|done]. by destruct s as [? ? ? [] ? ? ?].
    + exists (ram s), (pool_bitmap (kernel_pool s)), b. split; [|done]. by destruct s as [? ? [] ? ? ? ?].
  - intros g. rewrite (is_free_set pf s b i false g Hp Hi Hlb Hbit), <- Hf.
    case_decide; subst; tauto.
Qed.

Lemma addr_v2p_ok s va pa (Q : Z -> vm -> Prop) : selfmap s -> is_addr va -> mmu s va = Some pa ->
  Q pa s -> wp (addr_v2p va) Q s.
Proof.
  intros Hs Ha Hm HQ. unfold addr_v2p. apply wp_bind.
  pose proof Hm as Hm'. unfold mmu in Hm'. destruct (present (pde_of s va)) eqn:Ep; [|done].
  destruct (present (word s (pte_addr s va))); [|done].
  eapply wp_load; [by apply ptr_aligned|by rewrite mmu_pte, Ep|]. apply wp_ret.
  injection Hm' as <-. fold (frame (word s (pte_addr s va))).
  pose proof (frame_range (word s (pte_addr s va))).
  rewrite u32_small; [done|]. rewrite offset_mod. pose proof (Z.mod_pos_bound va 4096). lia.
Qed.

(** One round of the loop of [mfree_page]. *)
Lemma unmap_one pf s s1 va f : vm_wf s -> active pf s -> in_range va -> page_aligned va ->
  mmu s va = Some f -> page_aligned f -> is_addr f -> reserved s va -> ~ table_frame s f -> f <> cr3 s ->
  (exists b, s1 = set_pool pf (set_pbits b (mem_pool pf s)) s) -> pools_wf s1 -> same_cfg s s1 ->
  (forall g, is_free s1 g <-> is_free s g \/ g = f) ->
  let s' := set_ram (<[pte_addr s1 va := Z.land (word s1 (pte_addr s1 va)) (u32 (Z.lnot PG_P_1))]> (ram s1)) s1 in
  unmapped_run s s' va [f].
Proof.
  intros [Wt Wp Wu Wi Wv] Hact Hr Hal Hm Hfa Hfi Hres Htab Hcr (b & Hst) Hp1 Hc1 Hfr s'.
  assert (Hram : ram s1 = ram s /\ cr3 s1 = cr3 s)
    by (rewrite Hst; unfold set_pool; by destruct (is_kernel pf)).
  destruct Hram as [Hram Hcr3].
  assert (Hpd1 : forall i, pdir s1 i = pdir s i) by (intros; unfold pdir, word; by rewrite Hram, Hcr3).
  assert (Hm1 : forall va', mmu s1 va' = mmu s va')
    by (intros; unfold mmu, pte_addr, pde_of, word; by rewrite Hram, Hcr3).
  assert (Ht1 : tables_wf s1).
  { destruct Wt as [[A B C D] T2 T3 T4 T5]. unfold tframe in *.
    split; [split|..]; unfold tframe; rewrite ?Hcr3; try done; try by rewrite Hpd1.
    - intros i. rewrite Hpd1. apply T2.
    - intros i j. rewrite !Hpd1. apply T3.
    - rewrite Hfr. intros [?|E]; [done|congruence].
    - intros i Hi. rewrite Hpd1, Hfr. intros Hpi [?|E]; [by apply (T5 i Hi Hpi)|].
      apply Htab. exists i. done. }
  assert (Hpr : present (pde_of s1 va) = true).
  { unfold mmu in Hm. change (pde_of s1 va) with (pdir s1 (PDE_IDX va)). rewrite Hpd1.
    change (pdir s (PDE_IDX va)) with (pde_of s va). by destruct (present (pde_of s va)). }
  destruct (store_pte s1 va (Z.land (word s1 (pte_addr s1 va)) (u32 (Z.lnot PG_P_1))) Ht1 Hr Hpr)
    as (Ht' & Hpd' & Hmm). fold s' in Ht', Hpd', Hmm. rewrite present_cleared in Hmm.
  assert (Hfr' : forall g, is_free s' g <-> is_free s g \/ g = f) by (intros g; rewrite <- Hfr; done).
  assert (Hmm' : forall va', in_range va' -> mmu s' va' =
    if decide (va' / 4096 = va / 4096) then None else mmu s va').
  { intros va' Hr'. rewrite Hmm by done. by rewrite Hm1. }
  assert (C : same_cfg s s').
  { eapply same_cfg_trans; [exact Hc1|]. exists (ram s'), (pool_bitmap (kernel_pool s1)), (pool_bitmap (user_pool s1)).
    split; [|done]. clear. unfold s'. by destruct s1 as [? ? [] [] ? ? ?]. }
  assert (Hff : frame f = f) by (rewrite <- (Z.add_0_r f) at 1; by apply frame_id).
  split; [split| | | |].
  - done.
  - by destruct Hp1.
  - intros va' pa Hr'. rewrite Hmm' by done. case_decide as E; [done|]. intros Hpa.
    rewrite Hfr'. intros [Hx|Hx]; [by apply (Wu va' pa)|].
    apply E. apply (Wi va' va pa f); try done. by rewrite Hff.
  - intros va1 va2 pa1 pa2 Hr1 Hr2. rewrite !Hmm' by done.
    repeat case_decide; try done. by apply Wi.
  - eapply vpool_keep; [exact C|done|]. intros va' Hr' Hnr. rewrite Hmm' by done.
    case_decide as E; [|done]. destruct Hnr. intros pf' i Ha' Hi Hpg. apply Hres; [done|done|congruence].
  - done.
  - intros g. rewrite Hfr'. by rewrite list_elem_of_singleton.
  - intros va' Hr'. rewrite Hmm' by done. case_decide as E.
    + replace ((va' - va) / 4096) with 0 by (unfold page_aligned in *; dlia). done.
    + rewrite (proj2 (znth_None [f] _)); [done|]. unfold zlen, page_aligned in *. simpl. dlia.
  - intros i Hi. rewrite Hpd' by done. apply Hpd1.
Qed.

Lemma unmapped_trans s s1 s2 va fs1 fs2 : page_aligned va ->
  unmapped_run s s1 va fs1 -> unmapped_run s1 s2 (va + 4096 * zlen fs1) fs2 ->
  unmapped_run s s2 va (fs1 ++ fs2).
Proof.
  intros Hal [W1 C1 F1 M1 P1] [W2 C2 F2 M2 P2]. split; [done|by eapply same_cfg_trans| | |].
  - intros g. rewrite F2, F1, elem_of_app. tauto.
  - intros va' Hr. rewrite M2 by done.
    replace ((va' - (va + 4096 * zlen fs1)) / 4096) with ((va' - va) / 4096 - zlen fs1) by dlia.
    destruct (Z.ltb_spec ((va' - va) / 4096) (zlen fs1)) as [Hlt|Hge].
    + rewrite znth_app_l by done. rewrite (proj2 (znth_None fs2 _)) by lia. by apply M1.
    + rewrite znth_app_r by done. destruct (znth fs2 _); [done|].
      rewrite M1 by done. rewrite (proj2 (znth_None fs1 _)) by lia. done.
  - intros i Hi. rewrite P2, P1 by done. done.
Qed.

Lemma owned_cfg pf s s' f : same_cfg s s' -> owned pf s f -> owned pf s' f.
Proof.
  intros Hc (i & Hi & ->). destruct (same_cfg_pool pf s s' Hc) as [E1 E2].
  exists i. rewrite E2. unfold pool_frame. by rewrite E1.
Qed.

(** What [mfree_page] needs of each page: mapped to a frame of the pool that is
    not a page table, and not free in a bitmap of virtual addresses. *)
Record page_held pf s va f : Prop := {
  ph_range : in_range va;
  ph_mmu : mmu s va = Some f;
  ph_res : reserved s va;
  ph_own : owned pf s f;
  ph_tab : ~ table_frame s f;
  ph_cr3 : f <> cr3 s
}.

Lemma unmap_pages_ok pf ok fs : forall va s, vm_wf s -> active pf s -> page_aligned va ->
  (forall k f, znth fs k = Some f -> page_held pf s (va + 4096 * k) f) ->
  (forall pa s', same_cfg s s' -> owned pf s pa -> ok pa s' = true) ->
  wp (unmap_pages (length fs) ok (va - PG_SIZE)) (λ _ s', unmapped_run s s' va fs) s.
Proof.
  induction fs as [|f fs IH]; intros va s Hwf Hact Hal Hpg Hok.
  { apply wp_ret. split; [done|apply same_cfg_refl| | |done].
    - intros g. split; [by left|]. intros [?|?%elem_of_nil]; done.
    - intros va' Hr. by rewrite (proj2 (znth_None [] _)) by (unfold zlen; simpl; lia). }
  destruct (Hpg 0 f eq_refl) as [Hr Hm Hres Hown Htab Hcr].
  rewrite Z.mul_0_r, Z.add_0_r in Hr, Hm, Hres.
  pose proof (active_valid _ _ Hact) as Hpf.
  destruct (owned_addr pf s f (v_pools _ Hwf) Hpf Hown) as (Hfa & Hfi & _ & _ & _).
  destruct (in_range_addr va Hr) as (Ha & _ & _).
  cbn [length unmap_pages]. replace (u32 (va - PG_SIZE + PG_SIZE)) with va
    by (unfold PG_SIZE, is_addr in *; rewrite u32_small; lia).
  apply wp_bind. eapply addr_v2p_ok; [apply (t_self _ (v_tables _ Hwf))|done|done|].
  apply wp_bind, wp_gets, wp_bind, wp_assert; [apply Hok; [apply same_cfg_refl|done]|].
  apply wp_bind. eapply wp_mono; [apply (pfree_ok pf); [apply (v_pools _ Hwf)|done|done]|].
  intros [] s1 (b & Hst & Hp1 & Hc1 & Hfr1). apply wp_bind. unfold page_table_pte_remove.
  pose proof (unmap_one pf s s1 va f Hwf Hact Hr Hal Hm Hfa Hfi Hres Htab Hcr (ex_intro _ b Hst) Hp1 Hc1 Hfr1) as H1.
  assert (Hmp : mmu s1 (pte_ptr va) = Some (pte_addr s1 va)).
  { assert (Hsame : ram s1 = ram s /\ cr3 s1 = cr3 s)
      by (rewrite Hst; unfold set_pool; by destruct (is_kernel pf)).
    destruct Hsame as [Er Ec].
    assert (Hpr : present (pde_of s va) = true) by (unfold mmu in Hm; by destruct (present (pde_of s va))).
    pose proof (mmu_pte s va (t_self _ (v_tables _ Hwf)) Ha) as Hx. rewrite Hpr in Hx.
    unfold mmu, pte_addr, pde_of, word in *. by rewrite Er, Ec. }
  destruct (ptr_aligned va Ha) as [_ Hta].
  apply wp_bind. eapply wp_load; [done..|]. eapply wp_store; [done..|].
  simpl in H1. set (s2 := set_ram _ s1) in *. destruct H1 as [W2 C2 F2 M2 P2].
  assert (Hc2 : cr3 s2 = cr3 s) by (by apply (same_cfg_vpool pf)).
  replace (wp (unmap_pages (length fs) ok va)) with (wp (unmap_pages (length fs) ok (va + PG_SIZE - PG_SIZE)))
    by (do 2 f_equal; lia).
  eapply wp_mono; [apply (IH (va + PG_SIZE) s2)|].
  - done.
  - destruct (same_cfg_vpool pf s s2 C2) as (_ & _ & _ & _ & ->). done.
  - unfold page_aligned, PG_SIZE in *. dlia.
  - intros k g Hk. pose proof (znth_lt _ _ _ Hk) as Hkr.
    assert (Hk' : znth (f :: fs) (k + 1) = Some g).
    { change (f :: fs) with ([f] ++ fs). rewrite znth_app_r by (unfold zlen; simpl; lia).
      replace (k + 1 - zlen [f]) with k by (unfold zlen; simpl; lia). done. }
    destruct (Hpg _ _ Hk') as [Gr Gm Gres Gown Gtab Gcr].
    replace (va + PG_SIZE + 4096 * k) with (va + 4096 * (k + 1)) by (unfold PG_SIZE; lia).
    split; [done| |by eapply reserved_cfg|by eapply owned_cfg| |congruence].
    + rewrite M2 by done. replace ((va + 4096 * (k + 1) - va) / 4096) with (k + 1) by dlia.
      rewrite (proj2 (znth_None [f] _)); [done|]. unfold zlen; simpl; lia.
    + intros (i & Hi & Hpi & E). apply Gtab. exists i. unfold tframe in *. rewrite P2 in * by lia. done.
  - intros pa s' Hc Ho. apply Hok; [by eapply same_cfg_trans|].
    destruct C2 as (r & kb & ub & E & Ek & Eu). unfold owned, pool_bits, pool_frame, mem_pool in *.
    rewrite E in Ho. destruct (is_kernel pf); simpl in Ho; rewrite ?Ek, ?Eu in Ho; done.
  - intros [] s' H2. eapply (unmapped_trans s s2 s' va [f] fs); [done|by split|].
    replace (va + 4096 * zlen [f]) with (va + PG_SIZE) by (unfold zlen, PG_SIZE; simpl; lia). done.
Qed.

(** The assertion of each of the two loops. *)
Lemma owned_checks pf s s' pa : vm_wf s -> valid_pf pf -> same_cfg s s' -> owned pf s pa ->
  (pa mod PG_SIZE =? 0) = true /\ (phy_addr_start (user_pool s') <=? pa) = negb (is_kernel pf) /\
  (phy_addr_start (mem_pool pf s') <=? pa) = true.
Proof.
  intros Hwf Hpf Hc Ho.
  destruct (owned_addr pf s pa (v_pools _ Hwf) Hpf Ho) as (Hp & _ & _ & Hu & Hlo).
  destruct (same_cfg_pool pf s s' Hc) as [E _]. rewrite E.
  destruct (same_cfg_pool PF_USER s s' Hc) as [E' _].
  change (mem_pool PF_USER s') with (user_pool s') in E'. change (mem_pool PF_USER s) with (user_pool s) in E'.
  rewrite E'. split_and!; [by apply Z.eqb_eq|done|by apply Z.leb_le].
Qed.

(** Whichever of the two loops runs. *)
Lemma free_loops_ok pf s va fs : vm_wf s -> active pf s -> page_aligned va -> in_range va ->
  (forall k f, znth fs k = Some f -> page_held pf s (va + 4096 * k) f) ->
  wp (if negb (is_kernel pf) then
     unmap_pages (Z.to_nat (zlen fs))
       (λ pa s, (pa mod PG_SIZE =? 0) && (phy_addr_start (user_pool s) <=? pa))
       (u32 (va - PG_SIZE))
   else
     unmap_pages (Z.to_nat (zlen fs))
       (λ pa s, (pa mod PG_SIZE =? 0) && (phy_addr_start (kernel_pool s) <=? pa)
                && (pa <? phy_addr_start (user_pool s)))
       (u32 (va - PG_SIZE))) (λ _ s', unmapped_run s s' va fs) s.
Proof.
  intros Hwf Hact Hal Hir Hpg. pose proof (active_valid _ _ Hact) as Hpf.
  unfold zlen. rewrite Nat2Z.id. rewrite u32_small by (unfold in_range, PG_SIZE in *; lia).
  assert (Hok := λ pa s' Hc Ho, owned_checks pf s s' pa Hwf Hpf Hc Ho).
  unfold mem_pool in Hok. destruct (is_kernel pf); simpl; apply (unmap_pages_ok pf); try done;
    intros pa s' Hc Ho; destruct (Hok pa s' Hc Ho) as (-> & H2 & ->); simpl; [|done].
  apply Z.ltb_lt. by apply Z.leb_gt.
Qed.

Lemma vaddr_remove_ok pf s r cnt : vpool_wf pf s -> valid_pf pf -> 0 <= r -> 0 <= cnt ->
  r + cnt <= vcount pf s ->
  wp (vaddr_remove pf (vpage pf s r) cnt) (λ _ s', exists b, s' = set_vbits pf b s /\
    bitmap_wf b /\ btmp_bytes_len b = btmp_bytes_len (vbits pf s) /\
    zlen (bits b) = zlen (bits (vbits pf s)) /\
    forall j, 0 <= j -> bit b j = if decide (r <= j < r + cnt) then false else bit (vbits pf s) j) s.
Proof.
  intros [V1 V2 V3 V4 V5 V6] Hpf Hr Hc Hend. unfold vaddr_remove. apply wp_bind, wp_gets, wp_bind.
  destruct (set_bits_ok (Z.to_nat cnt) (vbits pf s) r 0) as (b & Hb & Hwb & Hlb & Hzb & Hbit);
    [done|lia|unfold vcount in *; lia|by left|].
  eapply wp_lift.
  { assert (Hx : u32 (vpage pf s r - vaddr_start (vpool pf s)) / PG_SIZE = r).
    { unfold vpage, PG_SIZE in *. rewrite u32_small; [dlia|].
      destruct Hpf as [->| ->]; simpl in *; lia. }
    rewrite Hx. exact Hb. }
  apply wp_modify. exists b. split_and!; try done.
  intros j Hj. rewrite Hbit by done. by rewrite Z2Nat.id by lia.
Qed.

Lemma mfree_page_ok pf s r fs : vm_wf s -> active pf s -> 0 <= r -> fs <> [] ->
  r + zlen fs <= vcount pf s ->
  (forall k f, znth fs k = Some f -> page_held pf s (vpage pf s (r + k)) f) ->
  wp (mfree_page pf (vpage pf s r) (zlen fs)) (λ _ s', exists s1 b, s' = set_vbits pf b s1 /\
    unmapped_run s s1 (vpage pf s r) fs /\ vm_wf s' /\
    bitmap_wf b /\ btmp_bytes_len b = btmp_bytes_len (vbits pf s) /\
    zlen (bits b) = zlen (bits (vbits pf s)) /\
    forall j, 0 <= j -> bit b j = if decide (r <= j < r + zlen fs) then false else bit (vbits pf s) j) s.
Proof.
  intros Hwf Hact Hr Hne Hend Hpg. pose proof (active_valid _ _ Hact) as Hpf.
  assert (Hz : zlen fs > 0) by (destruct fs; [done|unfold zlen; simpl; lia]).
  destruct (vpage_in_range s pf r Hwf Hact) as [Hir Hal]; [lia|].
  destruct (in_range_addr _ Hir) as (Ha & _ & _).
  destruct (znth_is_Some fs 0) as [f0 Hf0]; [lia|].
  destruct (Hpg 0 f0 Hf0) as [_ Hm0 _ Hown0 _ _]. rewrite Z.add_0_r in Hm0.
  destruct (owned_addr pf s f0 (v_pools _ Hwf) Hpf Hown0) as (Hfa & Hfi & Hflow & Hfu & _).
  unfold mfree_page. apply wp_bind, wp_assert.
  { apply andb_true_intro. split; [apply Z.leb_le; lia|apply Z.eqb_eq; exact Hal]. }
  apply wp_bind. eapply addr_v2p_ok; [apply (t_self _ (v_tables _ Hwf))|done|exact Hm0|].
  apply wp_bind, wp_assert.
  { apply andb_true_intro. split; [apply Z.eqb_eq; exact Hfa|apply Z.leb_le; lia]. }
  apply wp_bind, wp_gets. rewrite Hfu. apply wp_bind.
  eapply wp_mono; [apply (free_loops_ok pf); try done|].
  { intros k f Hk. replace (vpage pf s r + 4096 * k) with (vpage pf s (r + k)) by (unfold vpage; lia).
    by apply Hpg. }
  intros [] s1 Hu. destruct (same_cfg_vpool pf s s1 (ur_cfg _ _ _ _ Hu)) as (Ev & _ & _ & _ & Ea).
  assert (Hvp : forall i, vpage pf s1 i = vpage pf s i) by (intros; unfold vpage; by rewrite Ev).
  assert (Hvc : vcount pf s1 = vcount pf s) by (unfold vcount, vbits; by rewrite Ev).
  assert (Hact1 : active pf s1) by (by rewrite Ea).
  pose proof (v_vpool _ (ur_wf _ _ _ _ Hu) pf Hact1) as Hv1. rewrite <- (Hvp r).
  eapply wp_mono; [apply vaddr_remove_ok; try done; rewrite ?Hvc; lia|].
  unfold vbits. rewrite Ev. intros [] s' (b & -> & Hwb & Hlb & Hzb & Hbit). exists s1, b.
  rewrite Hvp. split_and!; try done.
  apply vm_wf_vbits; unfold vbits; rewrite ?Ev; try done; [apply (ur_wf _ _ _ _ Hu)|].
  intros j Hj Hbj. rewrite Hvp. rewrite Hvc in Hj.
  destruct (vpage_in_range s pf j Hwf Hact) as [Hirj _]; [done|].
  rewrite (ur_mmu _ _ _ _ Hu) by done.
  replace ((vpage pf s j - vpage pf s r) / 4096) with (j - r) by (unfold vpage; dlia).
  destruct (znth fs (j - r)) as [|] eqn:E; [done|]. apply znth_None in E.
  rewrite Hbit in Hbj by lia. case_decide; [lia|]. by apply (vp_unmapped _ _ (v_vpool _ Hwf pf Hact)).
Qed.
End free.

(** ** Writing to data pages *)

Section data.
Implicit Types (s : vm) (va pf f : Z).

(** Memory changed only inside the frames [fs], none of which holds page
    tables. *)
Record data_write s s' (fs : list Z) : Prop := {
  dw_only : only_ram s s';
  dw_words : forall x, word s' x <> word s x -> exists f, f ∈ fs /\ f <= x < f + 4096;
  dw_frames : forall f, f ∈ fs -> page_aligned f /\ f <> cr3 s /\ ~ table_frame s f
}.

Lemma only_ram_cfg s s' : only_ram s s' -> same_cfg s s'.
Proof.
  intros Ho. exists (ram s'), (pool_bitmap (kernel_pool s)), (pool_bitmap (user_pool s)).
  split; [|done]. etransitivity; [exact Ho|]. by destruct s as [? ? [] [] ? ? ?].
Qed.

Lemma data_write_pdir s s' fs i : page_aligned (cr3 s) -> data_write s s' fs -> 0 <= i < 1024 ->
  pdir s' i = pdir s i.
Proof.
  intros Hc [Ho Hw Hf] Hi. assert (Ec : cr3 s' = cr3 s) by (by rewrite Ho).
  unfold pdir. rewrite Ec. destruct (decide (word s' (cr3 s + 4 * i) = word s (cr3 s + 4 * i))) as [|Hne]; [done|].
  destruct (Hw _ Hne) as (f & Hin & Hx). destruct (Hf f Hin) as (Ha & Hcr & _).
  unfold page_aligned in *. exfalso. dlia.
Qed.

Lemma data_write_mmu s s' fs va : tables_wf s -> data_write s s' fs -> in_range va -> mmu s' va = mmu s va.
Proof.
  intros Ht Hd Hr. destruct (in_range_addr va Hr) as (Ha & Hi1 & Hi2).
  pose proof (data_write_pdir s s' fs (PDE_IDX va) (sm_cr3 s (t_self s Ht)) Hd ltac:(lia)) as Hp.
  destruct Hd as [Ho Hw Hf]. apply mmu_ext; [by rewrite Ho|exact Hp|]. intros Hpr.
  destruct (decide (word s' (pte_addr s va) = word s (pte_addr s va))) as [|Hne]; [done|].
  destruct (Hw _ Hne) as (f & Hin & Hx). destruct (Hf f Hin) as (Hal & _ & Htab). destruct Htab.
  exists (PDE_IDX va). split; [lia|]. split; [exact Hpr|].
  pose proof (tframe_aligned s (PDE_IDX va)) as Hta.
  change (pte_addr s va) with (tframe s (PDE_IDX va) + 4 * PTE_IDX va) in Hx.
  unfold page_aligned in *. dlia.
Qed.

Lemma vm_wf_data s s' fs : vm_wf s -> data_write s s' fs -> vm_wf s'.
Proof.
  intros [Wt Wp Wu Wi Wv] Hd.
  pose proof (data_write_pdir s s' fs) as Hpd. pose proof (data_write_mmu s s' fs) as Hmm.
  specialize (λ i, Hpd i (sm_cr3 s (t_self s Wt)) Hd). specialize (λ va, Hmm va Wt Hd).
  pose proof (dw_only _ _ _ Hd) as Ho.
  assert (Hfr : forall g, is_free s' g <-> is_free s g) by (intros g; by rewrite Ho).
  assert (Ec : cr3 s' = cr3 s) by (by rewrite Ho).
  split.
  - destruct Wt as [[A B C D] T2 T3 T4 T5]. unfold tframe in *.
    split; [split|..]; unfold tframe; rewrite ?Ec, ?Hpd, ?Hfr by lia; try done.
    + intros i Hi. rewrite Hpd by lia. by apply T2.
    + intros i j Hi Hj. rewrite !Hpd by lia. by apply T3.
    + intros i Hi. rewrite Hpd, Hfr by lia. by apply T5.
  - rewrite Ho. by destruct Wp.
  - intros va pa Hr. rewrite Hmm, Hfr by done. by apply Wu.
  - intros va va' pa pa' Hr Hr'. rewrite !Hmm by done. by apply Wi.
  - apply (vpool_keep s s'); [by apply only_ram_cfg|done|].
    intros va Hr _. by apply Hmm.
Qed.


Lemma data_write_refl s fs :
  (forall f, f ∈ fs -> page_aligned f /\ f <> cr3 s /\ ~ table_frame s f) -> data_write s s fs.
Proof. intros Hf. split; [apply only_ram_refl|done|done]. Qed.
Lemma data_write_trans s1 s2 s3 fs : page_aligned (cr3 s1) ->
  data_write s1 s2 fs -> data_write s2 s3 fs -> data_write s1 s3 fs.
Proof.
  intros Hc [O1 W1 F1] [O2 W2 F2]. split; [by eapply only_ram_trans| |done].
  intros x Hx. destruct (decide (word s2 x = word s1 x)) as [E|]; [|by apply W1].
  apply W2. congruence.
Qed.

Lemma clear_words_add n m va s : is_addr va ->
  clear_words (n + m) va s = (clear_words n va;; clear_words m (u32 (va + 4 * Z.of_nat n))) s.
Proof.
  revert va s. induction n as [|n IH]; intros va s Ha.
  { simpl. rewrite Z.add_0_r, u32_small by done. done. }
  replace (u32 (va + 4 * Z.of_nat (S n))) with (u32 (u32 (va + 4) + 4 * Z.of_nat n))
    by (unfold u32; rewrite Zplus_mod_idemp_l; f_equal; lia).
  cbn [Nat.add clear_words]. unfold mbind, M_bind.
  destruct (store va 0 s) as [[[] s1]| | | |]; try done. rewrite IH by (apply u32_range). done.
Qed.

(** Reading a word of pages whose frames hold zeros. *)
Lemma load_cleared s0 fs va s j : page_aligned va ->
  (forall x, in_range x -> mmu s x =
     match znth fs ((x - va) / 4096) with Some f => Some (f + x mod 4096) | None => mmu s0 x end) ->
  (forall f, f ∈ fs -> page_aligned f) ->
  (forall f x, f ∈ fs -> f <= x < f + 4096 -> x mod 4 = 0 -> word s x = 0) ->
  0 <= j < 1024 * zlen fs -> in_range (va + 4 * j) -> load (va + 4 * j) s = Ok (0, s).
Proof.
  intros Hal Hm Hfa Hz Hj Hr. destruct (znth_is_Some fs (j / 1024)) as [f Hf]; [dlia|].
  assert (Hin : f ∈ fs).
  { unfold znth in Hf. destruct (j / 1024 <? 0); [done|]. by eapply list_elem_of_lookup_2. }
  specialize (Hfa f Hin). unfold load. rewrite Hm by done.
  replace ((va + 4 * j - va) / 4096) with (j / 1024) by dlia. rewrite Hf. unfold page_aligned in *.
  assert (Hm4 : (va + 4 * j) mod 4 = 0) by dlia. rewrite Hm4. simpl. do 2 f_equal.
  apply (Hz f); [done| |dlia]. pose proof (Z.mod_pos_bound (va + 4 * j) 4096). lia.
Qed.

(** [memset(va, 0, cnt * PG_SIZE)] on mapped pages. *)
Lemma clear_pages_ok fs : forall va s, tables_wf s -> page_aligned va ->
  (forall k f, znth fs k = Some f -> in_range (va + 4096 * k) /\ mmu s (va + 4096 * k) = Some f) ->
  (forall f, f ∈ fs -> page_aligned f /\ f <> cr3 s /\ ~ table_frame s f) ->
  wp (clear_words (1024 * length fs) va) (λ _ s', data_write s s' fs /\
    forall f x, f ∈ fs -> f <= x < f + 4096 -> x mod 4 = 0 -> word s' x = 0) s.
Proof.
  intros va s Ht. assert (Hgen : forall fs' va s', fs' ⊆ fs -> page_aligned va -> data_write s s' fs ->
    (forall k f, znth fs' k = Some f -> in_range (va + 4096 * k) /\ mmu s (va + 4096 * k) = Some f) ->
    (forall f, f ∈ fs -> page_aligned f /\ f <> cr3 s /\ ~ table_frame s f) ->
    wp (clear_words (1024 * length fs') va) (λ _ s2, data_write s s2 fs /\
      (forall x, word s2 x <> 0 -> word s2 x = word s' x) /\
      forall f x, f ∈ fs' -> f <= x < f + 4096 -> x mod 4 = 0 -> word s2 x = 0) s').
  { clear va. induction fs' as [|f fs' IH]; intros va s' Hsub Hal Hd Hpg Hf.
    { apply wp_ret. split; [done|]. split; [done|]. by intros f x ?%elem_of_nil. }
    assert (Hsf : f ∈ fs) by (apply Hsub; apply list_elem_of_here).
    assert (Hsfs : fs' ⊆ fs) by (intros y Hy; apply Hsub; by apply list_elem_of_further).
    destruct (Hpg 0 f eq_refl) as [Hr Hm]. rewrite Z.mul_0_r, Z.add_0_r in Hr, Hm.
    destruct (in_range_addr va Hr) as (Ha & Hi1 & Hi2).
    destruct (Hf f Hsf) as (Hfa & Hfc & Hft).
    rewrite length_cons, Nat.mul_succ_r, (Nat.add_comm (1024 * length fs')).
    unfold wp. rewrite clear_words_add by done. fold (wp (clear_words 1024 va;;
      clear_words (1024 * length fs') (u32 (va + 4 * Z.of_nat 1024))) (λ _ s2, data_write s s2 fs /\
      (forall x, word s2 x <> 0 -> word s2 x = word s' x) /\
      forall f0 x, f0 ∈ f :: fs' -> f0 <= x < f0 + 4096 -> x mod 4 = 0 -> word s2 x = 0) s').
    pose proof (data_write_mmu s s' fs va Ht Hd Hr) as Hmm.
    pose proof (data_write_pdir s s' fs (PDE_IDX va) (sm_cr3 s (t_self s Ht)) Hd ltac:(lia)) as Hpd.
    assert (Ec : cr3 s' = cr3 s) by (destruct Hd as [Ho _ _]; by rewrite Ho).
    apply wp_bind. eapply wp_mono; [apply (clear_words_ok 1024 va f s')|].
    - done.
    - unfold page_aligned in Hal. dlia.
    - unfold page_aligned in Hal. lia.
    - congruence.
    - intros x Hx. rewrite Ec. pose proof (sm_cr3 s (t_self s Ht)) as Hca.
      assert (Hte : pte_addr s' va = tframe s (PDE_IDX va) + 4 * PTE_IDX va).
      { unfold pte_addr, tframe. change (pde_of s' va) with (pdir s' (PDE_IDX va)). by rewrite Hpd. }
      assert (Hne : tframe s (PDE_IDX va) <> f).
      { intros E. apply Hft. exists (PDE_IDX va). split; [lia|]. split; [|done].
        change (pdir s (PDE_IDX va)) with (pde_of s va). unfold mmu in Hm.
        by destruct (present (pde_of s va)). }
      pose proof (tframe_aligned s (PDE_IDX va)). rewrite Hte. unfold page_aligned in *. split; dlia.
    - intros [] s1 [Ho1 Hw1]. rewrite u32_small by (unfold in_range in Hr; lia).
      assert (Hd1 : data_write s s1 fs).
      { destruct Hd as [O W F]. split; [by eapply only_ram_trans| |done]. intros x Hx.
        rewrite Hw1 in Hx. case_decide; [|by apply W]. exists f. split; [exact Hsf|]. lia. }
      eapply wp_mono; [apply (IH (va + 4 * Z.of_nat 1024) s1)|].
      + exact Hsfs.
      + unfold page_aligned in *. dlia.
      + done.
      + intros k g Hk. pose proof (znth_lt _ _ _ Hk) as Hkr.
        replace (va + 4 * Z.of_nat 1024 + 4096 * k) with (va + 4096 * (k + 1)) by lia. apply Hpg.
        change (f :: fs') with ([f] ++ fs'). rewrite znth_app_r by (unfold zlen; simpl; lia).
        replace (k + 1 - zlen [f]) with k by (unfold zlen; simpl; lia). done.
      + done.
      + intros [] s2 (Hd2 & Hz2 & Hc2). split; [done|]. split.
        * intros x Hx. pose proof (Hz2 x Hx) as E. rewrite E in Hx |- *. rewrite Hw1 in Hx |- *.
          by case_decide.
        * intros g x [->|Hg]%elem_of_cons Hx Hx4; [|by eapply Hc2].
          destruct (decide (word s2 x = 0)) as [|Hne]; [done|]. rewrite (Hz2 x Hne).
          rewrite Hw1, decide_True; [done|]. unfold page_aligned in Hfa. split; [lia|dlia]. }
  intros Hal Hpg Hf. eapply wp_mono; [apply (Hgen fs va s); try done|].
  - by apply data_write_refl.
  - intros [] s' (H1 & _ & H2). done.
Qed.
End data.

(** ** Under the lock of the pool *)

Section locked.
Implicit Types (s : vm) (va pf f : Z).

Definition relock pf (k : lock) s : vm := set_pool pf (set_plock k (mem_pool pf s)) s.

Lemma relock_same pf k s : ram (relock pf k s) = ram s /\ cr3 (relock pf k s) = cr3 s /\
  kernel_vaddr (relock pf k s) = kernel_vaddr s /\ mcur (relock pf k s) = mcur s /\ me (relock pf k s) = me s.
Proof. unfold relock, set_pool. by destruct (is_kernel pf). Qed.

Lemma relock_is_free pf k s g : is_free (relock pf k s) g <-> is_free s g.
Proof. unfold relock, set_pool, mem_pool. by destruct (is_kernel pf). Qed.
Lemma relock_pool_free pf k s g : pool_free (mem_pool pf (relock pf k s)) g <-> pool_free (mem_pool pf s) g.
Proof. unfold relock. by rewrite mem_pool_set. Qed.
Lemma relock_rooms pf k s n : rooms pf (relock pf k s) n <-> rooms pf s n.
Proof. unfold rooms, relock, set_pool, mem_pool. by destruct (is_kernel pf). Qed.
Lemma relock_vpool pf k s q : vpool q (relock pf k s) = vpool q s.
Proof. unfold vpool. by destruct (relock_same pf k s) as (_ & _ & -> & -> & _). Qed.
Lemma relock_mmu pf k s va : mmu (relock pf k s) va = mmu s va.
Proof. destruct (relock_same pf k s) as (E1 & E2 & _). unfold mmu, pte_addr, pde_of, word. by rewrite E1, E2. Qed.
Lemma relock_pdir pf k s i : pdir (relock pf k s) i = pdir s i.
Proof. destruct (relock_same pf k s) as (E1 & E2 & _). unfold pdir, word. by rewrite E1, E2. Qed.
Lemma relock_active pf k s q : active q (relock pf k s) <-> active q s.
Proof. unfold active. by destruct (relock_same pf k s) as (_ & _ & _ & -> & _). Qed.

Lemma vm_wf_relock pf k s : vm_wf s -> vm_wf (relock pf k s).
Proof.
  intros [[[A B C D] T2 T3 T4 T5] Wp Wu Wi Wv].
  pose proof (relock_same pf k s) as (Er & Ec & Ev & Em & _).
  split; [split; [split|..]|..]; unfold tframe in *; rewrite ?Ec, ?relock_pdir, ?relock_is_free; try done.
  - intros i. rewrite relock_pdir. apply T2.
  - intros i j. rewrite !relock_pdir. apply T3.
  - intros i. rewrite relock_pdir, relock_is_free. apply T5.
  - destruct Wp as [Hk Hu Ho]. unfold relock, set_pool, mem_pool.
    destruct (is_kernel pf); split; simpl; try done; [destruct Hk|destruct Hu]; by split.
  - intros va pa. rewrite relock_mmu, relock_is_free. apply Wu.
  - intros va va' pa pa'. rewrite !relock_mmu. apply Wi.
  - intros q Hq. apply relock_active in Hq. destruct (Wv q Hq) as [V1 V2 V3 V4 V5 V6].
    split; unfold vcount, vpage, vbits in *; rewrite ?relock_vpool; try done.
    intros i. rewrite relock_mmu. apply V6.
Qed.

Definition plock_of pf s : lock := plock (mem_pool pf s).

Lemma acquire_ok pf s k (Q : unit -> vm -> Prop) : Seq.lock_acquire (me s) (plock_of pf s) = Ok k ->
  Q tt (relock pf k s) -> wp (acquire pf) Q s.
Proof.
  intros Hk HQ. unfold acquire. apply wp_bind, wp_gets, wp_bind, wp_gets, wp_bind.
  eapply wp_lift; [exact Hk|]. by apply wp_modify.
Qed.
Lemma release_ok pf s w k (Q : unit -> vm -> Prop) : Seq.lock_release (me s) (plock_of pf s) = Ok (w, k) ->
  Q tt (relock pf k s) -> wp (release pf) Q s.
Proof.
  intros Hk HQ. unfold release. apply wp_bind, wp_gets, wp_bind, wp_gets, wp_bind.
  eapply wp_lift; [exact Hk|]. by apply wp_modify.
Qed.

Lemma same_cfg_lock pf s s' : same_cfg s s' -> plock_of pf s' = plock_of pf s.
Proof. intros (r & kb & ub & -> & _ & _). unfold plock_of, mem_pool. by destruct (is_kernel pf). Qed.
Lemma set_vbits_lock pf q b s : plock_of pf (set_vbits q b s) = plock_of pf s.
Proof.
  destruct (set_vbits_same q b s) as (_ & _ & Ek & Eu & _ & _). unfold plock_of, mem_pool.
  by rewrite Ek, Eu.
Qed.
End locked.

(** The new pages can be given back. *)
Lemma malloc_page_held pf s cnt r b fs s' : vm_wf s -> active pf s -> 0 <= r -> r + cnt <= vcount pf s ->
  btmp_bytes_len b = btmp_bytes_len (vbits pf s) ->
  (forall j, 0 <= j -> bit b j = if decide (r <= j < r + cnt) then true else bit (vbits pf s) j) ->
  zlen fs = cnt -> mapped_run pf (set_vbits pf b s) s' (vpage pf s r) fs ->
  forall k f, znth fs k = Some f -> page_held pf s' (vpage pf s (r + k)) f.
Proof.
  intros Hwf Hact Hr Hre Hlb Hbit Hfs [W C N F I Mm T R L K X] k f Hk. pose proof (znth_lt _ _ _ Hk) as Hkr.
  destruct (set_vbits_same pf b s) as (Er & Ec & Ek & Eu & _ & _).
  destruct (vpage_in_range s pf (r + k)) as [Hir Hal]; try done; [lia|].
  assert (Hin : f ∈ fs).
  { unfold znth in Hk. destruct (k <? 0); [done|]. by eapply list_elem_of_lookup_2. }
  assert (Hfree : pool_free (mem_pool pf s) f).
  { unfold mem_pool in *. rewrite Ek, Eu in F. by apply F. }
  destruct (same_cfg_vpool pf _ _ C) as (_ & _ & Ec' & _ & _).
  split; [done| | | | |].
  - rewrite Mm by done. replace ((vpage pf s (r + k) - vpage pf s r) / 4096) with k by (unfold vpage; dlia).
    rewrite Hk. unfold page_aligned in Hal. rewrite Hal. f_equal. lia.
  - eapply reserved_cfg; [exact C|]. apply reserved_run; try done; [lia|].
    by rewrite Hbit, decide_True by lia.
  - eapply owned_cfg; [exact C|]. destruct Hfree as (i & Hi & E & _). exists i.
    unfold mem_pool in *. by rewrite Ek, Eu.
  - intros (i & Hi & Hp & E). destruct (T i Hi Hp) as [_ Hn]. by rewrite E in Hn.
  - rewrite Ec', Ec. intros E. apply (t_cr3 _ (v_tables _ Hwf)). rewrite <- E. by eapply mem_free_is_free.
Qed.

(** ** The page allocator as the heap sees it *)

(** A run of [n] free pages, and frames for them. *)
Definition vroom (pf : Z) (s : vm) (n : Z) : Prop :=
  exists r0, 0 <= r0 /\ r0 + n <= vcount pf s /\ run_free (vbits pf s) r0 n /\
    (pf = PF_USER -> vpage pf s r0 < 0xbffff000) /\ rooms pf s (Z.to_nat n).

(** What no call of the page allocator changes. *)
Record same_owner (pf : Z) (s s' : vm) : Prop := {
  so_page : forall i, vpage pf s' i = vpage pf s i;
  so_count : vcount pf s' = vcount pf s;
  so_pgdir : pgdir (mcur s') = pgdir (mcur s);
  so_me : me s' = me s;
  so_lock : plock_of pf s' = plock_of pf s;
  so_size : pool_size (mem_pool pf s') = pool_size (mem_pool pf s)
}.

(** The pages [r .. r + n - 1] have been allocated. *)
Record got_pages (pf : Z) (s s' : vm) (r n : Z) : Prop := {
  gp_wf : vm_wf s';
  gp_same : same_owner pf s s';
  gp_range : 0 <= r /\ r + n <= vcount pf s;
  gp_fresh : forall k, 0 <= k < n -> ~ reserved s (vpage pf s (r + k));
  gp_held : exists fs, zlen fs = n /\
    forall k f, znth fs k = Some f -> page_held pf s' (vpage pf s (r + k)) f;
  gp_old : forall va f, page_held pf s va f -> page_held pf s' va f;
  gp_res : forall va, reserved s va -> reserved s' va
}.

(** They have been released. *)
Record gave_pages (pf : Z) (s s' : vm) (r n : Z) : Prop := {
  gv_wf : vm_wf s';
  gv_same : same_owner pf s s';
  gv_old : forall va f, ~ (0 <= (va - vpage pf s r) / 4096 < n) ->
    page_held pf s va f -> page_held pf s' va f;
  gv_res : forall va, ~ (0 <= (va - vpage pf s r) / 4096 < n) -> reserved s va -> reserved s' va
}.

Section client.
Implicit Types (s : vm) (va pf f : Z).

Lemma vbits_owner pf b s : valid_pf pf -> btmp_bytes_len b = btmp_bytes_len (vbits pf s) ->
  same_owner pf s (set_vbits pf b s).
Proof.
  intros Hpf Hl. destruct (set_vbits_same pf b s) as (_ & _ & Ek & Eu & Em & Ep).
  split; try done.
  - intros i. unfold vpage. by rewrite vpool_set_eq.
  - unfold vcount, vbits in *. rewrite vpool_set_eq by done. simpl. by rewrite Hl.
  - apply set_vbits_lock.
  - unfold mem_pool. by rewrite Ek, Eu.
Qed.
Lemma cfg_owner pf s s' : same_cfg s s' -> same_owner pf s s'.
Proof.
  intros Hc. destruct (same_cfg_vpool pf s s' Hc) as (Ev & Em & _ & Eme & _).
  split; try done; try (by unfold vcount, vpage, vbits; intros; rewrite Ev); try by rewrite Em.
  - by apply same_cfg_lock.
  - destruct Hc as (r & kb & ub & -> & _ & _). unfold mem_pool. by destruct (is_kernel pf).
Qed.
Lemma owner_trans pf s1 s2 s3 : same_owner pf s1 s2 -> same_owner pf s2 s3 -> same_owner pf s1 s3.
Proof. intros [] []. split; intros; congruence. Qed.
Lemma owner_active pf s s' : same_owner pf s s' -> active pf s -> active pf s'.
Proof. intros [_ _ E _ _ _]. unfold active. by rewrite E. Qed.

(** More bits set, more pages reserved. *)
Lemma reserved_set pf b s va : valid_pf pf -> btmp_bytes_len b = btmp_bytes_len (vbits pf s) ->
  (forall j, 0 <= j < vcount pf s -> va / 4096 = vpage pf s j / 4096 -> bit (vbits pf s) j = true -> bit b j = true) ->
  reserved s va -> reserved (set_vbits pf b s) va.
Proof.
  intros Hpf Hl Hb Hres q i Hq Hi Hpg. destruct (set_vbits_same pf b s) as (_ & _ & _ & _ & _ & Ep).
  assert (Hq' : active q s) by (unfold active in *; by rewrite Ep in Hq).
  pose proof (active_valid _ _ Hq') as Hvq. destruct (decide (pf = q)) as [<-|Hne].
  - unfold vcount, vpage, vbits in *. rewrite vpool_set_eq in * by done. simpl in *. rewrite Hl in Hi.
    apply Hb; [done|done|]. by apply Hres.
  - unfold vcount, vpage, vbits in *. rewrite (vpool_set_ne pf q) in * by done. by apply Hres.
Qed.

Lemma malloc_page_got pf s n : vm_wf s -> active pf s -> 1 <= n < 3840 -> vroom pf s n ->
  exists r s', malloc_page pf n s = Ok (vpage pf s r, s') /\ got_pages pf s s' r n.
Proof.
  intros Hwf Hact Hn (r0 & Hr0 & Hend & Hrun & Husr & Hroom).
  pose proof (active_valid _ _ Hact) as Hpf.
  destruct (malloc_page_ok pf s n r0) as
    (r & b & fs & s' & Hm & Hr & Hrf & Hlow & Hwb & Hlb & Hzb & Hbit & Hfs & Hmr); try done.
  exists r, s'. split; [done|].
  assert (Hheld := malloc_page_held pf s n r b fs s' Hwf Hact ltac:(lia) ltac:(lia) Hlb Hbit Hfs Hmr).
  destruct Hmr as [W C N F I Mm T R L K X P V].
  destruct (set_vbits_same pf b s) as (Er & Ec & Ek & Eu & _ & _).
  destruct (same_cfg_vpool pf _ _ C) as (_ & _ & Ec' & _ & _).
  assert (Hres : forall va, reserved s va -> reserved s' va).
  { intros va Hva. eapply reserved_cfg; [exact C|]. apply reserved_set; try done.
    intros j Hj _ Hbj. rewrite Hbit by lia. by case_decide. }
  split; try done.
  - eapply owner_trans; [by apply vbits_owner|by apply cfg_owner].
  - lia.
  - intros k Hk Hx. specialize (Hx pf (r + k) Hact ltac:(lia) eq_refl). rewrite (Hrf (r + k)) in Hx by lia. done.
  - by exists fs.
  - intros va f [Hir Hmm Hre Hown Htab Hcr].
    assert (Hnf : ~ is_free s f).
    { intros Hx. apply (v_used _ Hwf va f Hir Hmm).
      destruct (owned_addr pf s f (v_pools _ Hwf) Hpf Hown) as (Ha & Hi & _).
      rewrite <- (Z.add_0_r f). rewrite frame_id by done. done. }
    split; [done| |by apply Hres| | |].
    + rewrite Mm by done. destruct (znth fs _) as [g|] eqn:E.
      * apply znth_lt in E. rewrite (run_unmapped pf s r n va) in Hmm; try done; lia.
      * unfold mmu, pte_addr, pde_of, word in *. by rewrite Er, Ec.
    + eapply owned_cfg; [exact C|]. unfold owned, mem_pool in *. by rewrite Ek, Eu.
    + intros (i & Hi & Hp & E). destruct (T i Hi Hp) as [[[Hp' E']|Hfr] _].
      * apply Htab. exists i. split; [done|]. unfold tframe, pdir, word in *. rewrite Er, Ec in *.
        split; [done|]. congruence.
      * apply Hnf. rewrite E in Hfr. unfold is_free in *. by rewrite Ek, Eu in Hfr.
    + congruence.
Qed.

Lemma mfree_page_gave pf s r n fs : vm_wf s -> active pf s -> 0 <= r -> 1 <= n ->
  r + n <= vcount pf s -> zlen fs = n ->
  (forall k f, znth fs k = Some f -> page_held pf s (vpage pf s (r + k)) f) ->
  wp (mfree_page pf (vpage pf s r) n) (λ _ s', gave_pages pf s s' r n) s.
Proof.
  intros Hwf Hact Hr Hn Hend Hfs Hheld. pose proof (active_valid _ _ Hact) as Hpf.
  rewrite <- Hfs. eapply wp_mono; [apply mfree_page_ok; try done; [|by rewrite Hfs]|].
  { intros ->. unfold zlen in Hfs. simpl in Hfs. lia. }
  intros [] s' (s1 & b & -> & [W1 C1 F1 M1 P1] & W & Hwb & Hlb & Hzb & Hbit).
  destruct (set_vbits_same pf b s1) as (Er & Ec & Ek & Eu & _ & _).
  destruct (same_cfg_vpool pf _ _ C1) as (Ev & _ & Ec1 & _ & _).
  assert (Hlb' : btmp_bytes_len b = btmp_bytes_len (vbits pf s1)) by (unfold vbits in *; by rewrite Ev).
  assert (Hres : forall va, ~ (0 <= (va - vpage pf s r) / 4096 < zlen fs) -> reserved s va ->
    reserved (set_vbits pf b s1) va).
  { intros va Hva Hre. apply reserved_set; try done; [|by eapply reserved_cfg].
    intros j Hj Hpg Hbj. unfold vbits in *. rewrite Ev in Hbj. rewrite Hbit by lia.
    case_decide; [|done]. destruct Hva.
    pose proof (vp_aligned _ _ (v_vpool _ Hwf pf Hact)) as Hal.
    unfold vpage, page_aligned in *. rewrite Ev in Hpg. dlia. }
  split; [done| | |done].
  - eapply owner_trans; [by apply cfg_owner|by apply vbits_owner].
  - intros va f Hva [Hir Hmm Hre Hown Htab Hcr]. split; [done| |by apply Hres| | |].
    + transitivity (mmu s1 va); [unfold mmu, pte_addr, pde_of, word; by rewrite Er, Ec|].
      rewrite M1 by done. destruct (znth fs _) eqn:E; [|done]. by apply znth_lt in E.
    + assert (Ho1 : owned pf s1 f) by (by eapply owned_cfg). unfold owned, mem_pool in *. by rewrite Ek, Eu.
    + intros (i & Hi & Hp & E). apply Htab. exists i. split; [done|].
      unfold tframe in *. assert (Hpd : pdir (set_vbits pf b s1) i = pdir s i).
      { transitivity (pdir s1 i); [unfold pdir, word; by rewrite Er, Ec|]. apply P1. lia. }
      rewrite Hpd in *. done.
    + congruence.
Qed.

End client.

(** ** Properties of the page allocator *)

Section properties.
Context (pf : Z) (s : vm) (cnt r0 : Z).
Context (Hwf : vm_wf s) (Hact : active pf s) (Hcnt : 1 <= cnt < 3840).
(** There is a run of free virtual pages, below the user stack for a user
    program, and there are frames enough. *)
Context (Hr0 : 0 <= r0) (Hend : r0 + cnt <= vcount pf s) (Hrun : run_free (vbits pf s) r0 cnt).
Context (Husr : pf = PF_USER -> vpage pf s r0 < 0xbffff000).
Context (Hroom : rooms pf s (Z.to_nat cnt)).

(** C15: [malloc_page] with pages and frames left returns the lowest run of free
    virtual pages and gives each page a frame of its own that was free in the
    pool of [pf].  Every other page of user and kernel space is translated as
    before, a frame that stops being free is one of the new pages or a new page
    table, and the invariant [vm_wf] (page tables intact, no frame mapped
    twice, no mapped frame free, no page both mapped and free) is kept. *)
Theorem malloc_page_maps :
  exists r fs s', malloc_page pf cnt s = Ok (vpage pf s r, s') /\ vm_wf s' /\
    0 <= r <= r0 /\ run_free (vbits pf s) r cnt /\ (forall j, 0 <= j < r -> ~ run_free (vbits pf s) j cnt) /\
    zlen fs = cnt /\ NoDup fs /\
    (forall f, f ∈ fs -> pool_free (mem_pool pf s) f /\ ~ is_free s' f) /\
    (forall va, in_range va -> mmu s' va =
       match znth fs ((va - vpage pf s r) / 4096) with
       | Some f => Some (f + va mod 4096)
       | None => mmu s va
       end) /\
    (forall g, is_free s g -> is_free s' g \/ g ∈ fs \/ table_frame s' g).
Proof.
  destruct (malloc_page_ok pf s cnt r0) as
    (r & b & fs & s' & Hm & Hr & Hrf & Hlow & Hwb & Hlb & Hzb & Hbit & Hfs & Hmr); try done.
  destruct (set_vbits_same pf b s) as (Er & Ec & Ek & Eu & _ & _).
  destruct Hmr as [W C N F I Mm T R L K X P V].
  exists r, fs, s'. split_and!; try done; try lia.
  - intros f Hf. unfold mem_pool in *. rewrite Ek, Eu in F. by apply F.
  - intros va Hva. rewrite Mm by done. destruct (znth fs _); [done|].
    unfold mmu, pte_addr, pde_of, word. by rewrite Er, Ec.
  - intros g Hg. apply L. unfold is_free in *. by rewrite Ek, Eu.
Qed.

(** The bitmap of virtual addresses that comes back has the old bits. *)
Lemma vbits_restored r b b2 : run_free (vbits pf s) r cnt ->
  btmp_bytes_len b2 = btmp_bytes_len (vbits pf s) -> zlen (bits b2) = zlen (bits (vbits pf s)) -> bitmap_wf b2 ->
  (forall j, 0 <= j -> bit b j = if decide (r <= j < r + cnt) then true else bit (vbits pf s) j) ->
  (forall j, 0 <= j -> bit b2 j = if decide (r <= j < r + cnt) then false else bit b j) ->
  b2 = vbits pf s.
Proof.
  intros Hrf Hl Hz Hw Hb Hb2. destruct (v_vpool _ Hwf pf Hact) as [V1 _ _ _ _ _].
  apply bitmap_wf_ext; try done. intros j Hj. rewrite Hb2, Hb by done. case_decide; [|done].
  symmetry. by apply Hrf.
Qed.

(** C30: [mfree_page] undoes [malloc_page]: the bitmap of virtual addresses is
    again what it was to the bit, every page is translated as before, every
    frame is free again except those that became page tables, and the
    invariant holds. *)
Theorem malloc_mfree_roundtrip :
  exists va s1 s2, malloc_page pf cnt s = Ok (va, s1) /\ mfree_page pf va cnt s1 = Ok (tt, s2) /\
    vm_wf s2 /\ vpool pf s2 = vpool pf s /\
    (forall x, in_range x -> mmu s2 x = mmu s x) /\
    (forall g, is_free s2 g -> is_free s g) /\
    (forall g, is_free s g -> is_free s2 g \/ table_frame s2 g).
Proof.
  destruct (malloc_page_ok pf s cnt r0) as
    (r & b & fs & s1 & Hm & Hr & Hrf & Hlow & Hwb & Hlb & Hzb & Hbit & Hfs & Hmr); try done.
  assert (Hheld := malloc_page_held pf s cnt r b fs s1 Hwf Hact ltac:(lia) ltac:(lia) Hlb Hbit Hfs Hmr).
  destruct Hmr as [W C N F I Mm T R L K X P V].
  destruct (set_vbits_same pf b s) as (Er & Ec & Ek & Eu & _ & Ep).
  pose proof (active_valid _ _ Hact) as Hpf.
  destruct (same_cfg_vpool pf _ _ C) as (Ev & _ & _ & _ & Ea). rewrite (vpool_set_eq pf b s Hpf) in Ev.
  assert (Hvp : forall i, vpage pf s1 i = vpage pf s i) by (intros; unfold vpage; by rewrite Ev).
  assert (Hact1 : active pf s1) by (rewrite Ea; unfold active in *; by rewrite Ep).
  assert (Hw : wp (mfree_page pf (vpage pf s1 r) (zlen fs)) (λ _ s', exists s2 b2, s' = set_vbits pf b2 s2 /\
    unmapped_run s1 s2 (vpage pf s1 r) fs /\ vm_wf s' /\
    bitmap_wf b2 /\ btmp_bytes_len b2 = btmp_bytes_len (vbits pf s1) /\
    zlen (bits b2) = zlen (bits (vbits pf s1)) /\
    forall j, 0 <= j -> bit b2 j = if decide (r <= j < r + zlen fs) then false else bit (vbits pf s1) j) s1).
  { apply mfree_page_ok; try done; [lia|intros ->; unfold zlen in Hfs; simpl in Hfs; lia| |].
    - unfold vcount, vbits in *. rewrite Ev. simpl. rewrite Hlb. lia.
    - intros k f Hk. rewrite Hvp. by apply Hheld. }
  apply wp_run in Hw as ([] & s3 & Hf & s2 & b2 & -> & [W2 C2 F2 M2 P2] & Wf & Hwb2 & Hlb2 & Hzb2 & Hbit2).
  exists (vpage pf s r), s1, (set_vbits pf b2 s2). rewrite Hvp, Hfs in Hf.
  destruct (set_vbits_same pf b2 s2) as (Er2 & Ec2 & Ek2 & Eu2 & _ & _).
  destruct (same_cfg_vpool pf _ _ C2) as (Ev2 & _).
  assert (Hfr2 : forall g, is_free (set_vbits pf b2 s2) g <-> is_free s2 g)
    by (intros; unfold is_free; by rewrite Ek2, Eu2).
  assert (Hfr1 : forall g, is_free (set_vbits pf b s) g <-> is_free s g)
    by (intros; unfold is_free; by rewrite Ek, Eu).
  split_and!; try done.
  - rewrite (vpool_set_eq pf b2 s2 Hpf), Ev2, Ev. simpl.
    assert (Eb : vbits pf s1 = b) by (unfold vbits; by rewrite Ev).
    rewrite (vbits_restored r b b2); try done; [unfold vbits; by destruct (vpool pf s)|congruence|congruence|].
    intros j Hj. by rewrite Hbit2, Eb, Hfs.
  - intros x Hx. transitivity (mmu s2 x); [unfold mmu, pte_addr, pde_of, word; by rewrite Er2, Ec2|].
    rewrite M2, Hvp by done. rewrite Mm by done.
    destruct (znth fs _) as [f|] eqn:E.
    + apply znth_lt in E. symmetry. by eapply (run_unmapped pf s r cnt); try done; lia.
    + unfold mmu, pte_addr, pde_of, word. by rewrite Er, Ec.
  - intros g Hg. apply Hfr1. apply Hfr2, F2 in Hg as [Hg|Hg]; [by apply I|].
    destruct (F g Hg) as [Hx _]. by eapply mem_free_is_free.
  - intros g Hg. apply Hfr1, L in Hg. destruct Hg as [Hg|[Hg|(i & Hi & Hp & E)]].
    + left. apply Hfr2, F2. by left.
    + left. apply Hfr2, F2. by right.
    + right. exists i. assert (Hpd : pdir (set_vbits pf b2 s2) i = pdir s1 i).
      { transitivity (pdir s2 i); [unfold pdir, word; by rewrite Er2, Ec2|]. apply P2. lia. }
      unfold tframe. rewrite Hpd. done.
Qed.

(** Clearing pages that are held. *)
Lemma clear_held va fs s1 : vm_wf s1 -> active pf s -> page_aligned va ->
  (forall j f, znth fs j = Some f -> page_held pf s1 (va + 4096 * j) f) ->
  wp (clear_words (1024 * length fs) va) (λ _ s', data_write s1 s' fs /\
    forall f x, f ∈ fs -> f <= x < f + 4096 -> x mod 4 = 0 -> word s' x = 0) s1.
Proof.
  intros W Ha Hal Hheld. apply clear_pages_ok; [apply (v_tables _ W)|done| |].
  - intros j f Hj. by destruct (Hheld j f Hj).
  - intros f [j Hj]%list_elem_of_lookup_1. specialize (Hheld (Z.of_nat j) f).
    unfold znth in Hheld. destruct (Z.ltb_spec (Z.of_nat j) 0); [lia|]. rewrite Nat2Z.id in Hheld.
    destruct (Hheld Hj) as [_ _ _ Ho Ht Hc]. split; [|done].
    by apply (owned_addr pf s1 f (v_pools _ W) (active_valid _ _ Ha)).
Qed.

(** [get_pages] from what its steps do. *)
Lemma get_pages_run k v n s1 s2 : Seq.lock_acquire (me s) (plock_of pf s) = Ok k ->
  malloc_page pf cnt (relock pf k s) = Ok (v, s1) -> v <> 0 -> Z.of_nat n = cnt ->
  clear_words (1024 * n) v s1 = Ok (tt, s2) ->
  Seq.lock_release (me s2) (plock_of pf s2) = Ok (None, plock_of pf s) ->
  get_pages pf cnt s = Ok (v, relock pf (plock_of pf s) s2).
Proof.
  intros Hacq Hm Hv Hn Hcl Hrel.
  assert (Hw : wp (get_pages pf cnt) (λ v' s', v' = v /\ s' = relock pf (plock_of pf s) s2) s).
  { unfold get_pages. apply wp_bind. eapply acquire_ok; [exact Hacq|]. apply wp_bind.
    unfold wp at 1. rewrite Hm. rewrite (proj2 (Z.eqb_neq v 0) Hv). apply wp_bind.
    replace (Z.to_nat (u32 (cnt * PG_SIZE) / 4)) with (1024 * n)%nat.
    2: { unfold PG_SIZE. rewrite u32_small by lia. replace (cnt * 4096 / 4) with (1024 * cnt) by dlia. lia. }
    cbn [negb]. unfold wp at 1. rewrite Hcl. apply wp_bind. eapply release_ok; [exact Hrel|]. by apply wp_ret. }
  by apply wp_run in Hw as (v' & s' & Hg & -> & ->).
Qed.

(** The lock is the one [acquire] left, through allocation and clearing. *)
Lemma lock_kept k b s1 s2 fs : same_cfg (set_vbits pf b (relock pf k s)) s1 -> data_write s1 s2 fs ->
  me s2 = me s /\ plock_of pf s2 = k.
Proof.
  intros C [Ho _ _]. pose proof (only_ram_cfg s1 s2 Ho) as C2.
  destruct (set_vbits_same pf b (relock pf k s)) as (_ & _ & _ & _ & Eme & _).
  rewrite (same_cfg_lock pf s1 s2 C2), (same_cfg_lock pf _ _ C), set_vbits_lock.
  destruct (same_cfg_vpool pf _ _ C2) as (_ & _ & _ & -> & _).
  destruct (same_cfg_vpool pf _ _ C) as (_ & _ & _ & -> & _). rewrite Eme.
  split; [by apply relock_same|]. unfold plock_of, relock. by rewrite mem_pool_set.
Qed.

(** The steps of [get_pages]: bits [r] on are set, the pages mapped to [fs] and
    cleared, the lock is as it was. *)
Record pages_got (k : lock) (r : Z) (b : bitmap) (fs : list Z) (s1 s2 : vm) : Prop := {
  pg_run : get_pages pf cnt s = Ok (vpage pf s r, relock pf (plock_of pf s) s2);
  pg_range : 0 <= r /\ r + cnt <= vcount pf s /\ zlen fs = cnt;
  pg_was : run_free (vbits pf s) r cnt;
  pg_bits : btmp_bytes_len b = btmp_bytes_len (vbits pf s);
  pg_map : mapped_run pf (set_vbits pf b (relock pf k s)) s1 (vpage pf s r) fs;
  pg_clear : data_write s1 s2 fs;
  pg_zero : forall f x, f ∈ fs -> f <= x < f + 4096 -> x mod 4 = 0 -> word s2 x = 0
}.

Lemma get_pages_ok : me s <> 0 -> Seq.quiet (me s) (plock_of pf s) -> exists k r b fs s1 s2, pages_got k r b fs s1 s2.
Proof.
  intros Hme Hq. destruct (Seq.acquire_release (me s) (plock_of pf s) Hme Hq) as (k & Hacq & _ & Hrel).
  set (s0 := relock pf k s).
  assert (Hvb : vbits pf s0 = vbits pf s /\ (forall i, vpage pf s0 i = vpage pf s i) /\ vcount pf s0 = vcount pf s).
  { unfold vbits, vpage, vcount, vbits, s0. by rewrite relock_vpool. }
  destruct Hvb as (Evb & Evp & Evc).
  assert (Hwf0 : vm_wf s0) by (by apply vm_wf_relock).
  assert (Hact0 : active pf s0) by (by apply relock_active).
  destruct (malloc_page_ok pf s0 cnt r0) as
    (r & b & fs & s1 & Hm & Hr & Hrf & Hlow & Hwb & Hlb & Hzb & Hbit & Hfs & Hmr); try done.
  { by rewrite Evc. } { by rewrite Evb. } { by rewrite Evp. } { by apply relock_rooms. }
  assert (Hheld : forall j f, znth fs j = Some f -> page_held pf s1 (vpage pf s (r + j)) f).
  { intros j f Hj. rewrite <- Evp. eapply (malloc_page_held pf s0 cnt r b fs s1); try done;
      rewrite ?Evc, ?Evb, ?Evp; done || lia. }
  rewrite Evp in Hm, Hmr. rewrite Evb in *.
  destruct (vpage_in_range s pf r Hwf Hact) as [Hir Hal]; [lia|].
  assert (Hpages : forall j f, znth fs j = Some f -> page_held pf s1 (vpage pf s r + 4096 * j) f).
  { intros j f Hj. replace (vpage pf s r + 4096 * j) with (vpage pf s (r + j)) by (unfold vpage; lia). by apply Hheld. }
  pose proof (clear_held (vpage pf s r) fs s1 (mr_wf _ _ _ _ _ Hmr) Hact Hal Hpages) as Hclear.
  apply wp_run in Hclear as ([] & s2 & Hcl & Hdw & Hzero).
  destruct (lock_kept k b s1 s2 fs (mr_cfg _ _ _ _ _ Hmr) Hdw) as [Eme2 Elk2].
  exists k, r, b, fs, s1, s2. split; try done; [|lia].
  eapply get_pages_run; [exact Hacq|exact Hm|unfold in_range in Hir; lia|exact Hfs|exact Hcl|by rewrite Eme2, Elk2].
Qed.

(** C31: [get_kernel_pages] and [get_user_pages] with pages and frames left
    return mapped memory that reads as zero everywhere, in frames that were
    free; the rest of the address space is translated as before, the lock of
    the pool is as it was found and the invariant is kept: clearing the pages
    does not touch the page tables. *)
Theorem get_pages_zeroed : me s <> 0 -> Seq.quiet (me s) (plock_of pf s) ->
  exists r fs s', get_pages pf cnt s = Ok (vpage pf s r, s') /\ vm_wf s' /\
    plock_of pf s' = plock_of pf s /\ run_free (vbits pf s) r cnt /\
    (forall k, 0 <= k < 1024 * cnt -> load (vpage pf s r + 4 * k) s' = Ok (0, s')) /\
    zlen fs = cnt /\ NoDup fs /\ (forall f, f ∈ fs -> pool_free (mem_pool pf s) f) /\
    (forall va, in_range va -> mmu s' va =
       match znth fs ((va - vpage pf s r) / 4096) with
       | Some f => Some (f + va mod 4096)
       | None => mmu s va
       end).
Proof.
  intros Hme Hq. destruct (get_pages_ok Hme Hq) as (k & r & b & fs & s1 & s2 & [Hg (Hr & Hend' & Hfs) Hrf Hlb [W C N F I Mm T R L K X P V] Hdw Hzero]).
  destruct (set_vbits_same pf b (relock pf k s)) as (Er & Ec & Ek & Eu & _ & _).
  destruct (vpage_in_range s pf r Hwf Hact) as [Hir Hal]; [lia|].
  exists r, fs, (relock pf (plock_of pf s) s2).
  assert (Hmmu : forall va, in_range va -> mmu (relock pf (plock_of pf s) s2) va =
    match znth fs ((va - vpage pf s r) / 4096) with Some f => Some (f + va mod 4096) | None => mmu s va end).
  { intros va Hva. rewrite relock_mmu, (data_write_mmu s1 s2 fs va (v_tables _ W) Hdw Hva), Mm by done.
    destruct (znth fs _); [done|]. transitivity (mmu (relock pf k s) va); [unfold mmu, pte_addr, pde_of, word; by rewrite Er, Ec|].
    apply relock_mmu. }
  split_and!; try done.
  - by apply vm_wf_relock, (vm_wf_data s1 s2 fs).
  - unfold plock_of, relock. by rewrite mem_pool_set.
  - intros j Hj. apply (load_cleared s fs); try done.
    + intros f Hf. by apply (dw_frames _ _ _ Hdw f).
    + intros f x. unfold word. destruct (relock_same pf (plock_of pf s) s2) as (-> & _). apply Hzero.
    + by rewrite Hfs.
    + destruct (vpage_in_range s pf (r + j / 1024) Hwf Hact) as [Hirj Halj]; [dlia|].
      unfold in_range, vpage, page_aligned in *. dlia.
  - intros f Hf. destruct (F f Hf) as [Hx _]. unfold mem_pool in Hx. rewrite Ek, Eu in Hx.
    by apply (relock_pool_free pf k s f).
Qed.
End properties.

(** ** Start-up *)

Lemma bitmap_init_ok n (l : list Z) : 0 <= n -> n * 8 < 2147483640 -> n < zlen l -> Forall is_byte l ->
  exists b, bitmap_init (Bitmap n l) = Ok b /\ bitmap_wf b /\ btmp_bytes_len b = n /\
    n < zlen (bits b) /\ forall i, 0 <= i < 8 * n -> bit b i = false.
Proof.
  intros Hn Hs Hl Hb. unfold bitmap_init; simpl. destruct (Z.ltb_spec (zlen l) n); [lia|].
  set (l' := replicate (Z.to_nat n) 0 ++ drop (Z.to_nat n) l).
  assert (Hz : zlen l' = zlen l).
  { unfold l', zlen in *. rewrite length_app, length_replicate, length_drop. lia. }
  exists (Bitmap n l'). split_and!; try done; [|simpl; lia|].
  - split; simpl; [lia|lia|lia|]. apply Forall_app. split; [apply Forall_replicate; unfold is_byte; lia|].
    by apply Forall_drop.
  - intros i Hi. unfold bit; simpl. unfold l', znth. destruct (Z.ltb_spec (i / 8) 0); [done|].
    assert (Hi8 : i / 8 < n) by dlia.
    rewrite lookup_app_l by (rewrite length_replicate; lia).
    rewrite lookup_replicate_2 by lia. apply Z.bits_0.
Qed.

(** C32: [mem_pool_init] splits the memory above the first 2 MB: the kernel's
    frames start there, the user's follow, none reaches beyond the memory the
    machine has, all are free, and the kernel heap starts at 0xc0100000 with a
    virtual page for each kernel frame.  The number of frames is taken modulo
    65536, because [all_free_pages] has 16 bits: memory beyond 258 MB is
    lost, and at exactly 258 MB no frame is left. *)
Theorem mem_pool_init_partition bits_at all_mem s : 0x200000 <= all_mem < 4294967296 ->
  (forall a, 4096 < zlen (bits_at a) /\ Forall is_byte (bits_at a)) ->
  let n := ((all_mem - 0x200000) / 4096) mod 65536 in
  exists s', mem_pool_init bits_at all_mem s = Ok s' /\ pools_wf s' /\
    phy_addr_start (kernel_pool s') = 0x200000 /\ pool_bits (kernel_pool s') = 8 * (n / 2 / 8) /\
    pool_bits (user_pool s') = 8 * ((n - n / 2) / 8) /\
    phy_addr_start (user_pool s') + 4096 * pool_bits (user_pool s') <= all_mem /\
    (forall pf i, 0 <= i < pool_bits (mem_pool pf s') -> is_free s' (pool_frame (mem_pool pf s') i)) /\
    vpage PF_KERNEL s' 0 = 0xc0100000 /\ vcount PF_KERNEL s' = pool_bits (kernel_pool s') /\
    run_free (vbits PF_KERNEL s') 0 (vcount PF_KERNEL s') /\
    plock_of PF_KERNEL s' = lock_init /\ plock_of PF_USER s' = lock_init.
Proof.
  intros Hm Hbits n. set (k := n / 2).
  assert (Hn : 0 <= n < 65536) by (apply Z.mod_pos_bound; lia).
  assert (Hnm : 4096 * n <= all_mem - 0x200000) by (unfold n; dlia).
  assert (Hk : 0 <= k /\ 2 * k <= n < 2 * k + 2) by (unfold k; dlia).
  unfold mem_pool_init. replace (PG_SIZE * 256 + 0x100000) with 0x200000 by (unfold PG_SIZE; lia).
  rewrite (u32_small (all_mem - 0x200000)) by lia. unfold PG_SIZE.
  change (u16 ((all_mem - 0x200000) / 4096)) with n. fold k.
  rewrite (u16_small k), (u16_small (n - k)) by lia.
  rewrite (u32_small (0x200000 + k * 4096)) by lia.
  destruct (bitmap_init_ok (k / 8) (bits_at MEM_BITMAP_BASE)) as (kb & -> & Wk & Lk & Zk & Fk);
    [dlia|dlia|destruct (Hbits MEM_BITMAP_BASE); dlia|apply Hbits|]. rcbn.
  destruct (bitmap_init_ok ((n - k) / 8) (bits_at (MEM_BITMAP_BASE + k / 8))) as (ub & -> & Wu & Lu & Zu & Fu);
    [dlia|dlia|destruct (Hbits (MEM_BITMAP_BASE + k / 8)); dlia|apply Hbits|]. rcbn.
  destruct (bitmap_init_ok (k / 8) (bits_at (MEM_BITMAP_BASE + k / 8 + (n - k) / 8))) as (vb & -> & Wv & Lv & Zv & Fv);
    [dlia|dlia|destruct (Hbits (MEM_BITMAP_BASE + k / 8 + (n - k) / 8)); dlia|apply Hbits|]. rcbn.
  eexists. split; [reflexivity|].
  assert (Hp : pools_wf (VM (ram s) (cr3 s) (Pool kb 0x200000 (u32 (k * 4096)) lock_init)
    (Pool ub (0x200000 + k * 4096) (u32 ((n - k) * 4096)) lock_init) (VirtualAddr vb K_HEAP_START) (me s) (mcur s))).
  { split; simpl; [split|split|]; unfold page_aligned, pool_bits; simpl; rewrite ?Lk, ?Lu; done || dlia. }
  split; [exact Hp|].
  unfold pool_bits, vpage, vcount, vbits; simpl. rewrite Lk, Lu, Lv.
  split_and!; try done; try dlia.
  intros pf i. unfold mem_pool, is_free. destruct (is_kernel pf); simpl; rewrite ?Lk, ?Lu; intros Hi.
  - left. exists i. unfold pool_bits; simpl. rewrite Lk. split_and!; [lia|lia|done|by apply Fk].
  - right. exists i. unfold pool_bits; simpl. rewrite Lu. split_and!; [lia|lia|done|by apply Fu].
Qed.

(** On a machine with 258 MB. *)
Lemma mem_pool_init_partition_witness :
  exists s', mem_pool_init (λ _, replicate 4097 0) 0x10200000
      (VM ∅ 0 (Pool (Bitmap 0 []) 0 0 lock_init) (Pool (Bitmap 0 []) 0 0 lock_init)
         (VirtualAddr (Bitmap 0 []) 0) 0
         (Task 0 0 TASK_RUNNING [] 0 0 0 [] 0 (VirtualAddr (Bitmap 0 []) 0) 0 0 0 0)) = Ok s' /\
    pool_bits (kernel_pool s') = 0.
Proof.
  destruct (mem_pool_init_partition (λ _, replicate 4097 0) 0x10200000
    (VM ∅ 0 (Pool (Bitmap 0 []) 0 0 lock_init) (Pool (Bitmap 0 []) 0 0 lock_init)
       (VirtualAddr (Bitmap 0 []) 0) 0
       (Task 0 0 TASK_RUNNING [] 0 0 0 [] 0 (VirtualAddr (Bitmap 0 []) 0) 0 0 0 0)))
    as (s' & H1 & _ & _ & H2 & _).
  - lia.
  - intros a. split; [vm_compute; reflexivity|]. apply Forall_replicate. unfold is_byte; lia.
  - exists s'. split; [exact H1|]. rewrite H2. vm_compute. reflexivity.
Defined.

(** ** A small machine

    The directory at 1 MB maps itself and one empty kernel page table; each
    pool has 16 frames or pages; the running process uses two of its pages. *)

Definition demo_task : task_struct :=
  Task 0 3 TASK_RUNNING [] 31 31 0 [] 0xc0109000 (VirtualAddr (Bitmap 2 [5; 0; 0]) 0x8048000) 0 0 0 0.

Definition demo_vm : vm :=
  VM (<[0x100c00 := 0x101007]> (<[0x100ffc := 0x100007]> ∅)) 0x100000
    (Pool (Bitmap 2 [0; 0; 0]) 0x200000 0x10000 lock_init)
    (Pool (Bitmap 2 [1; 0; 0]) 0x210000 0x10000 lock_init)
    (VirtualAddr (Bitmap 2 [0; 0; 0]) 0xc0100000) 0xc009e000 demo_task.

Lemma demo_word x : word demo_vm x =
  if decide (x = 0x100c00) then 0x101007 else if decide (x = 0x100ffc) then 0x100007 else 0.
Proof.
  unfold word, demo_vm; cbn [ram]. rewrite !lookup_insert, lookup_empty.
  repeat case_decide; congruence || done.
Qed.

Lemma demo_pdir i : 0 <= i < 1024 -> present (pdir demo_vm i) = true ->
  (i = 768 /\ tframe demo_vm i = 0x101000) \/ (i = 1023 /\ tframe demo_vm i = 0x100000).
Proof.
  intros Hi. unfold tframe, pdir. rewrite demo_word. change (cr3 demo_vm) with 0x100000.
  case_decide; [left; split; [lia|reflexivity]|]. case_decide; [right; split; [lia|reflexivity]|done].
Qed.

Lemma demo_mmu va : in_range va -> mmu demo_vm va = None.
Proof.
  intros Hr. destruct (in_range_addr va Hr) as (Ha & Hi1 & Hi2). unfold mmu.
  destruct (present (pde_of demo_vm va)) eqn:E; [|done].
  change (pde_of demo_vm va) with (pdir demo_vm (PDE_IDX va)) in E.
  destruct (demo_pdir (PDE_IDX va) ltac:(lia) E) as [[_ Et]|[? _]]; [|lia].
  change (pte_addr demo_vm va) with (tframe demo_vm (PDE_IDX va) + 4 * PTE_IDX va).
  rewrite Et, demo_word, !decide_False by lia. done.
Qed.

Lemma demo_bitmap_wf x : is_byte x -> bitmap_wf (Bitmap 2 [x; 0; 0]).
Proof.
  intros Hx. split; simpl; [lia|lia|unfold zlen; simpl; lia|].
  rewrite !Forall_cons, Forall_nil. unfold is_byte in *. split_and!; try done; lia.
Qed.

Lemma demo_vm_wf : vm_wf demo_vm.
Proof.
  assert (Hfree : forall g, is_free demo_vm g -> 0x200000 <= g).
  { intros g [(i & Hi & -> & _)|(i & Hi & -> & _)]; unfold pool_frame; simpl; lia. }
  split.
  - split; [split|..].
    + reflexivity.
    + unfold is_addr; simpl; lia.
    + reflexivity.
    + reflexivity.
    + intros i Hi Hp. destruct (demo_pdir i ltac:(lia) Hp) as [[_ ->]|[? _]]; [simpl; lia|lia].
    + intros i j Hi Hj Hp Hq _. destruct (demo_pdir i ltac:(lia) Hp) as [[-> _]|[? _]]; [|lia].
      destruct (demo_pdir j ltac:(lia) Hq) as [[-> _]|[? _]]; [done|lia].
    + intros H%Hfree. simpl in H. lia.
    + intros i Hi Hp H%Hfree. destruct (demo_pdir i ltac:(lia) Hp) as [[_ E]|[? _]]; lia.
  - split; [split|split|]; simpl; try (apply demo_bitmap_wf; unfold is_byte; lia);
      unfold pool_bits, page_aligned; simpl; done || lia.
  - intros va pa Hr. rewrite demo_mmu by done. done.
  - intros va va' pa pa' Hr. rewrite demo_mmu by done. done.
  - intros pf [->|[-> _]]; split; unfold vcount, vpage, vbits; simpl;
      try (apply demo_bitmap_wf; unfold is_byte; lia); unfold zlen, page_aligned; simpl; try done; try lia;
      intros i Hi _; apply demo_mmu; unfold in_range; lia.
Qed.

Lemma demo_frames_room p n : (n <= 15)%nat -> (forall i, 1 <= i < 16 -> 0 <= i < pool_bits p /\ bit (pool_bitmap p) i = false) ->
  pool_room p n.
Proof.
  intros Hn Hp. exists (Z.of_nat <$> seq 1 n). split_and!.
  - apply NoDup_fmap; [apply _|]. apply NoDup_seq.
  - by rewrite length_fmap, length_seq.
  - intros i (j & -> & Hj)%list_elem_of_fmap. apply elem_of_seq in Hj. apply Hp. lia.
Qed.

(** All bits of a demonstration bitmap from the first byte's top on are clear. *)
Lemma demo_bits x i : 0 <= x < 8 -> 3 <= i < 16 -> bit (Bitmap 2 [x; 0; 0]) i = false.
Proof.
  intros Hx Hi. unfold bit; cbn [bits].
  destruct (decide (i < 8)).
  - replace (i / 8) with 0 by dlia. replace (i mod 8) with i by dlia. cbn.
    destruct (decide (x = 0)) as [->|]; [apply Z.bits_0|].
    apply Z.bits_above_log2; [lia|]. assert (Z.log2 x < 3) by (apply Z.log2_lt_pow2; simpl; lia). lia.
  - replace (i / 8) with 1 by dlia. cbn. apply Z.bits_0.
Qed.

Lemma demo_rooms : rooms PF_USER demo_vm 3.
Proof.
  split; (eapply (frames_room_le _ 13); [lia|]); (exists (Z.of_nat <$> seq 3 13)); split_and!;
    try (apply NoDup_fmap; [apply _|]; apply NoDup_seq); try done;
    intros i (j & -> & Hj)%list_elem_of_fmap; apply elem_of_seq in Hj;
    (split; [unfold pool_bits; simpl; lia|]); apply demo_bits; lia.
Qed.

Lemma demo_run : run_free (vbits PF_USER demo_vm) 3 3.
Proof. intros j Hj. apply demo_bits; lia. Qed.

(** The process asks for three pages: bits 3 to 5 are the lowest run, and a
    page table has to be made for them. *)
Lemma malloc_page_maps_witness :
  exists r (fs : list Z) s', malloc_page PF_USER 3 demo_vm = Ok (vpage PF_USER demo_vm r, s') /\ vm_wf s' /\
    zlen fs = 3 /\ NoDup fs.
Proof.
  destruct (malloc_page_maps PF_USER demo_vm 3 3 demo_vm_wf) as (r & fs & s' & H1 & H2 & _ & _ & _ & H3 & H4 & _).
  - right. split; [reflexivity|]. simpl. lia.
  - lia.
  - lia.
  - unfold vcount; simpl; lia.
  - exact demo_run.
  - intros _. unfold vpage; simpl; lia.
  - exact demo_rooms.
  - exists r, fs, s'. exact (conj H1 (conj H2 (conj H3 H4))).
Defined.

Lemma malloc_mfree_roundtrip_witness :
  exists va s1 s2, malloc_page PF_USER 3 demo_vm = Ok (va, s1) /\ mfree_page PF_USER va 3 s1 = Ok (tt, s2) /\
    vpool PF_USER s2 = vpool PF_USER demo_vm.
Proof.
  destruct (malloc_mfree_roundtrip PF_USER demo_vm 3 3 demo_vm_wf) as (va & s1 & s2 & H1 & H2 & _ & H3 & _).
  - right. split; [reflexivity|]. simpl. lia.
  - lia.
  - lia.
  - unfold vcount; simpl; lia.
  - exact demo_run.
  - intros _. unfold vpage; simpl; lia.
  - exact demo_rooms.
  - exists va, s1, s2. exact (conj H1 (conj H2 H3)).
Defined.

Lemma get_pages_zeroed_witness :
  exists r s', get_pages PF_USER 3 demo_vm = Ok (vpage PF_USER demo_vm r, s') /\
    load (vpage PF_USER demo_vm r + 4 * 2000) s' = Ok (0, s').
Proof.
  destruct (get_pages_zeroed PF_USER demo_vm 3 3 demo_vm_wf) as (r & fs & s' & H1 & _ & _ & _ & H2 & _).
  - right. split; [reflexivity|]. simpl. lia.
  - lia.
  - lia.
  - unfold vcount; simpl; lia.
  - exact demo_run.
  - intros _. unfold vpage; simpl; lia.
  - exact demo_rooms.
  - simpl. lia.
  - split; [reflexivity|]. left. split_and!; reflexivity.
  - exists r, s'. split; [exact H1|]. apply H2. lia.
Defined.

(** The same run, evaluated: the pages start at 0x804b000 and the first is in
    frame 0x211000, the second frame of the user pool. *)
Example malloc_page_run :
  (match malloc_page PF_USER 3 demo_vm with
   | Ok (va, s') => (va, mmu s' va, mmu s' 0x804d123)
   | _ => (0, None, None)
   end) = (0x804b000, Some 0x211000, Some 0x213123).
Proof. vm_compute. reflexivity. Qed.
