(* ===== verification/Malloc.v ===== *)
(** kernel/memory.c, second half: arenas and memory blocks ([sys_malloc],
    [sys_free]).

    The pages an arena occupies are seen as the code lays them out: the
    [struct arena] in the first 12 bytes and from there on cells of 8 bytes,
    the size of a [struct mem_block], which is one list node.  A cell holds a
    link of a free list or whatever the owner of the block stores in it; all
    block sizes are multiples of 8, so cells never overlap.  Arenas and cells
    exist while their page is mapped: an access to any other address faults.

    [descs] is the array of seven block descriptors in use, by address:
    [k_block_descs] for the kernel, [u_block_desc] of the running task for a
    process.  A descriptor takes 24 bytes, its free list is at offset 8. *)

From S2P Require Import Prelude Bitmap Interrupt LinkedList Thread Sync Paging PagingSpec.

Open Scope Z_scope.

Definition DESC_CNT : Z := 7.
Definition sizeof_arena : Z := 12.
Definition sizeof_desc : Z := 24.

(** struct mem_block_desc without its list, which is in the cells *)
Record mem_block_desc := Desc { block_size : Z; blocks_per_arena : Z }.
Definition free_list (desc : Z) : Z := desc + 8.

Record arena := Arena { a_desc : Z; a_cnt : Z; a_large : Z }.

Record mheap := MHeap {
  hv : vm;
  descs : gmap Z mem_block_desc;
  arenas : gmap Z arena;
  cells : lst
}.

Definition set_hv (x : vm) (h : mheap) : mheap := MHeap x (descs h) (arenas h) (cells h).
Definition set_descs (x : gmap Z mem_block_desc) (h : mheap) : mheap := MHeap (hv h) x (arenas h) (cells h).
Definition set_arenas (x : gmap Z arena) (h : mheap) : mheap := MHeap (hv h) (descs h) x (cells h).
Definition set_cells (x : lst) (h : mheap) : mheap := MHeap (hv h) (descs h) (arenas h) x.

Definition on_vm {A} (m : M vm A) : M mheap A := zoom hv set_hv m.
Definition on_cells {A} (m : M lst A) : M mheap A := zoom cells set_cells m.

Definition rd_desc (d : Z) : M mheap mem_block_desc := λ h, lift (of_option (descs h !! d)) h.
Definition rd_arena (a : Z) : M mheap arena := λ h, lift (of_option (arenas h !! a)) h.
Definition wr_arena (a : Z) (x : arena) : M mheap unit := λ h,
  match arenas h !! a with
  | Some _ => Ok (tt, set_arenas (<[a := x]> (arenas h)) h)
  | None => Fault
  end.

(** The cells from [a] on. *)
Definition cell_range (a : Z) (n : nat) : list Z := (λ k, a + 8 * Z.of_nat k) <$> seq 0 n.
Definition zero_cells (l : list Z) (m : gmap Z list_elem) : gmap Z list_elem :=
  foldr (λ a, <[a := ListElem 0 0]>) m l.
Definition drop_cells (l : list Z) (m : gmap Z list_elem) : gmap Z list_elem :=
  foldr delete m l.
Definition upd_nodes (f : gmap Z list_elem -> gmap Z list_elem) (h : mheap) : mheap :=
  set_cells (Lst (l_cpu (cells h)) (f (nodes (cells h)))) h.

(** The cells behind the arena at [a] of [n] pages. *)
Definition arena_cells (a n : Z) : list Z := cell_range (a + sizeof_arena) (Z.to_nat (512 * n - 2)).

(** [memset(a, 0, n * PG_SIZE)] on freshly mapped pages, and [mfree_page] of
    them. *)
Definition clear_pages (a n : Z) : M mheap unit :=
  modify (λ h, upd_nodes (zero_cells (arena_cells a n))
                 (set_arenas (<[a := Arena 0 0 0]> (arenas h)) h)).
Definition free_pages (pf a n : Z) : M mheap unit :=
  on_vm (mfree_page pf a n);;
  modify (λ h, upd_nodes (drop_cells (arena_cells a n)) (set_arenas (delete a (arenas h)) h)).

(** [memset(b, 0, size)] on a block. *)
Definition clear_block (b size : Z) : M mheap unit :=
  modify (upd_nodes (zero_cells (cell_range b (Z.to_nat (size / 8))))).

Definition arena2block (a idx : Z) : M mheap Z :=
  ar ← rd_arena a;
  D ← rd_desc (a_desc ar);
  mret (u32 (a + sizeof_arena + idx * block_size D)).
Definition block2arena (b : Z) : Z := Z.land b 0xfffff000.

(** [block_desc_init]: [block_size] is a [uint16_t] that doubles each round. *)
Fixpoint block_desc_loop (n : nat) (desc block_size : Z) : M mheap unit :=
  match n with
  | O => mret tt
  | S n =>
      modify (λ h, set_descs (<[desc := Desc block_size ((PG_SIZE - sizeof_arena) / block_size)]> (descs h)) h);;
      on_cells (list_init (free_list desc));;
      block_desc_loop n (desc + sizeof_desc) (u16 (block_size * 2))
  end.
Definition block_desc_init (desc_array : Z) : M mheap unit :=
  block_desc_loop (Z.to_nat DESC_CNT) desc_array 16.

(** The memory size is where the loader left it. *)
Definition mem_init (bits_at : Z -> list Z) (k_block_descs : Z) : M mheap unit :=
  mem_bytes_total ← on_vm (load 0xb00);
  v ← gets hv;
  v ← lift (mem_pool_init bits_at mem_bytes_total v);
  modify (set_hv v);;
  block_desc_init k_block_descs.

(** The smallest descriptor that fits; the index runs to DESC_CNT. *)
Fixpoint fit_desc (n : nat) (base idx size : Z) : M mheap Z :=
  match n with
  | O => mret idx
  | S n =>
      D ← rd_desc (base + sizeof_desc * idx);
      if size <=? block_size D then mret idx else fit_desc n base (idx + 1) size
  end.

(** Cut a new arena into blocks. *)
Fixpoint split_arena (n : nat) (a idx : Z) : M mheap unit :=
  match n with
  | O => mret tt
  | S n =>
      b ← arena2block a idx;
      ar ← rd_arena a;
      found ← on_cells (elem_find (free_list (a_desc ar)) b);
      assertM (negb found) "!elem_find(&a->desc->free_list, &b->free_elem)";;
      ar ← rd_arena a;
      on_cells (list_append (free_list (a_desc ar)) b);;
      split_arena n a (idx + 1)
  end.

(** Take all blocks of an arena out of the free list. *)
Fixpoint unsplit_arena (n : nat) (a idx : Z) : M mheap unit :=
  match n with
  | O => mret tt
  | S n =>
      b ← arena2block a idx;
      ar ← rd_arena a;
      found ← on_cells (elem_find (free_list (a_desc ar)) b);
      assertM found "elem_find(&a->desc->free_list, &b->free_elem)";;
      on_cells (list_remove b);;
      unsplit_arena n a (idx + 1)
  end.

(** The part of [sys_malloc] that makes a new arena for an empty free list;
    false when there is no page. *)
Definition new_arena (PF desc : Z) : M mheap bool :=
  a ← on_vm (malloc_page PF 1);
  if a =? 0 then mret false
  else
    clear_pages a 1;;
    D ← rd_desc desc;
    wr_arena a (Arena desc (blocks_per_arena D) 0);;
    old_status ← on_cells (on_cpu intr_disable);
    split_arena (Z.to_nat (blocks_per_arena D)) a 0;;
    _ ← on_cells (on_cpu (intr_set_status old_status));
    mret true.

(** The part that takes a block out of the free list. *)
Definition take_block (desc : Z) : M mheap Z :=
  b ← on_cells (list_pop (free_list desc));
  D ← rd_desc desc;
  clear_block b (block_size D);;
  let a := block2arena b in
  ar ← rd_arena a;
  wr_arena a (Arena (a_desc ar) (u32 (a_cnt ar - 1)) (a_large ar));;
  mret b.

(** The part of [sys_free] for blocks: [a] is the arena of [b]. *)
Definition put_block (PF a b : Z) : M mheap unit :=
  ar ← rd_arena a;
  on_cells (list_append (free_list (a_desc ar)) b);;
  ar ← rd_arena a;
  let cnt := u32 (a_cnt ar + 1) in
  wr_arena a (Arena (a_desc ar) cnt (a_large ar));;
  D ← rd_desc (a_desc ar);
  if cnt =? blocks_per_arena D then
    unsplit_arena (Z.to_nat (blocks_per_arena D)) a 0;;
    free_pages PF a 1
  else mret tt.

Section malloc.
(** The addresses of [k_block_descs] and of [u_block_desc] in the PCB. *)
Context (k_block_descs u_block_desc : Z).

Definition DIV_ROUND_UP (X STEP : Z) : Z := u32 (X + STEP - 1) / STEP.

Definition sys_malloc (size : Z) : M mheap Z :=
  cur_thread ← gets (λ h, mcur (hv h));
  let kern := pgdir cur_thread =? 0 in
  let PF := if kern then PF_KERNEL else PF_USER in
  let descs := if kern then k_block_descs else u_block_desc in
  pool_sz ← gets (λ h, pool_size (if kern then kernel_pool (hv h) else user_pool (hv h)));
  if negb ((0 <? size) && (size <? pool_sz)) then mret 0
  else
    on_vm (acquire PF);;
    if 1024 <? size then
      let page_cnt := DIV_ROUND_UP (u32 (size + sizeof_arena)) PG_SIZE in
      a ← on_vm (malloc_page PF page_cnt);
      if negb (a =? 0) then
        clear_pages a page_cnt;;
        wr_arena a (Arena 0 page_cnt 1);;
        on_vm (release PF);;
        mret (a + sizeof_arena)
      else on_vm (release PF);; mret 0
    else
      desc_idx ← fit_desc (Z.to_nat DESC_CNT) descs 0 size;
      let desc := descs + sizeof_desc * desc_idx in
      empty ← on_cells (list_empty (free_list desc));
      ok ← (if (empty : bool) then new_arena PF desc else mret true);
      if negb ok then on_vm (release PF);; mret 0
      else
        b ← take_block desc;
        on_vm (release PF);;
        mret b.

Definition sys_free (ptr : Z) : M mheap unit :=
  assertM (negb (ptr =? 0)) "ptr != NULL";;
  cur_thread ← gets (λ h, mcur (hv h));
  let kern := pgdir cur_thread =? 0 in
  let PF := if kern then PF_KERNEL else PF_USER in
  (if kern then assertM (K_HEAP_START <=? ptr) "(uint32_t)ptr >= K_HEAP_START" else mret tt);;
  on_vm (acquire PF);;
  let b := ptr in
  let a := block2arena b in
  ar ← rd_arena a;
  assertM ((a_large ar =? 0) || (a_large ar =? 1)) "a->large == 0 || a->large == 1";;
  (if (a_desc ar =? 0) && (a_large ar =? 1) then free_pages PF a (a_cnt ar)
   else put_block PF a b);;
  on_vm (release PF).
End malloc.
