(* ===== verification/Timer.v ===== *)
(** device/timer.c: the programmable interval timer, sleeping, and the
    handlers of the timer, the keyboard and the disk behind the interrupt
    controllers of Irq.v.

    [pit] is counter 0 of the 8253 with the access mode low byte, then high
    byte: two data writes after the control word set the divisor of its input
    clock. *)

From S2P Require Import Prelude Interrupt Thread Paging Malloc Irq.

Open Scope Z_scope.

Definition IRQ0_FREQUENCY : Z := 100.
Definition INPUT_FREQUENCY : Z := 1193180.
Definition COUNTER0_VALUE : Z := INPUT_FREQUENCY / IRQ0_FREQUENCY.
Definition CONTRER0_PORT : Z := 0x40.
Definition PIT_CONTROL_PORT : Z := 0x43.
Definition mil_seconds_per_intr : Z := 1000 / IRQ0_FREQUENCY.

Definition frequency_set (counter_port counter_no rwl counter_mode counter_value : Z) : M (list (Z * Z)) unit :=
  outb PIT_CONTROL_PORT (u8 (Z.lor (Z.lor (Z.shiftl counter_no 6) (Z.shiftl rwl 4)) (Z.shiftl counter_mode 1)));;
  outb counter_port (u8 counter_value);;
  outb counter_port (Z.shiftr (u8 counter_value) 8).

Definition timer_init (intr_timer_handler : Z) : M hw unit :=
  on_ports (frequency_set CONTRER0_PORT 0 3 2 (u16 COUNTER0_VALUE));;
  on_tab (register_handler 0x20 intr_timer_handler).

(** The handlers of keyboard_init and of ide_init's channels. *)
Definition keyboard_register (intr_keyboard_handler : Z) : M hw unit :=
  on_tab (register_handler 0x21 intr_keyboard_handler).
Definition channel_irq (channel_no : Z) : Z := if channel_no =? 0 then 0x20 + 14 else 0x20 + 15.
Definition ide_register (channel_no intr_hd_handler : Z) : M hw unit :=
  on_tab (register_handler (channel_irq channel_no) intr_hd_handler).

(** ** Sleeping *)

Section sleep.
Context (addr_v2p : Z -> Z).

(** The test of the loop of [ticks_to_sleep]: give up the processor, or go
    on. *)
Definition ticks_to_sleep_round (start_tick sleep_ticks : Z) : M kthreads (intr_status + unit) :=
  ticks ← gets k_ticks;
  if u32 (ticks - start_tick) <? sleep_ticks then
    old ← thread_yield_enter addr_v2p;
    mret (inl old)
  else mret (inr tt).

Definition ms_ticks (m_seconds : Z) : Z := u32 (m_seconds + mil_seconds_per_intr - 1) / mil_seconds_per_intr.

(** [mtime_sleep] up to the first switch; later rounds use the same start. *)
Definition mtime_sleep (m_seconds : Z) : M kthreads (intr_status + unit) :=
  let sleep_ticks := ms_ticks m_seconds in
  assertM (0 <? sleep_ticks) "sleep_ticks > 0";;
  start_tick ← gets k_ticks;
  ticks_to_sleep_round start_tick sleep_ticks.

(** The length of a sleep.  A thread that sleeps [m] milliseconds from
    tick count [t0] on is still asleep at every test made fewer than [m]/10,
    rounded up, ticks later and goes on at the first test after that - also
    when the 32-bit counter wraps around in between. *)
Theorem sleep_lasts m t0 n k : 0 < m <= 4294967286 -> 0 <= t0 < 4294967296 -> 0 <= n < 4294967296 ->
  k_ticks k = u32 (t0 + n) ->
  (if bool_decide (10 * n < m)
   then ticks_to_sleep_round t0 (ms_ticks m) k = (old ← thread_yield_enter addr_v2p; mret (inl old)) k
   else ticks_to_sleep_round t0 (ms_ticks m) k = Ok (inr tt, k)) /\ 0 < ms_ticks m.
Proof.
  intros Hm Ht Hn Hk. assert (Hs : ms_ticks m = (m + 9) / 10).
  { unfold ms_ticks, mil_seconds_per_intr, IRQ0_FREQUENCY. change (1000 / 100) with 10. rewrite u32_small by lia.
    f_equal. lia. }
  rewrite Hs. assert (Hd : u32 (k_ticks k - t0) = n).
  { rewrite Hk. unfold u32. dlia. }
  split; [|dlia]. unfold ticks_to_sleep_round, gets, mbind, M_bind. rewrite Hd.
  destruct (Z.ltb_spec n ((m + 9) / 10)) as [Hlt|Hge].
  - rewrite bool_decide_eq_true_2 by dlia. done.
  - rewrite bool_decide_eq_false_2 by dlia. done.
Qed.
End sleep.

(** ** The rate of the timer *)

(** The divisor after some port writes, [None] before it is set. *)
Record pit := Pit { latch : option Z; divisor : option Z }.
Definition pit_write (p : pit) (x : Z * Z) : pit :=
  if fst x =? PIT_CONTROL_PORT then
    if (Z.shiftr (snd x) 6 =? 0) && (Z.land (Z.shiftr (snd x) 4) 3 =? 3) then Pit None None else p
  else if fst x =? CONTRER0_PORT then
    match latch p with
    | None => Pit (Some (snd x)) (divisor p)
    | Some lo => Pit None (Some (lo + 256 * snd x))
    end
  else p.
Definition pit_after (w : list (Z * Z)) : pit := fold_left pit_write w (Pit None None).

(** Interrupts per second; a divisor of 0 counts as 65536. *)
Definition timer_rate (w : list (Z * Z)) : option Z :=
  (λ d, INPUT_FREQUENCY / (if d =? 0 then 65536 else d)) <$> divisor (pit_after w).

(** Programming counter 0 for any [value] loads only its low byte. *)
Lemma frequency_set_divisor value w : 0 <= value < 65536 ->
  exists w', frequency_set CONTRER0_PORT 0 3 2 value w = Ok (tt, w') /\
    divisor (pit_after w') = Some (value mod 256) /\
    (forall ctrl data, ctrl <> 0x40 -> ctrl <> 0x43 -> data <> 0x40 -> data <> 0x43 ->
       pic_after ctrl data w' = pic_after ctrl data w).
Proof.
  intros Hv. set (v := u8 value). assert (Hr : 0 <= v < 256) by (apply u8_range).
  exists (w ++ [(0x43, 0x34); (0x40, v); (0x40, 0)]). split; [|split].
  - unfold frequency_set, outb, modify, mbind, M_bind. rewrite <- !app_assoc. fold v.
    assert (E : Z.shiftr v 8 = 0) by (rewrite Z.shiftr_div_pow2 by lia; apply Z.div_small; lia). rewrite E.
    rewrite (u8_small v) by lia. done.
  - unfold pit_after. rewrite fold_left_app. set (p := fold_left _ _ _). cbn -[v Z.mul Z.add Z.shiftr Z.land].
    unfold pit_write at 3. cbn [fst snd]. change (0x43 =? PIT_CONTROL_PORT) with true. cbv iota.
    change ((Z.shiftr 0x34 6 =? 0) && (Z.land (Z.shiftr 0x34 4) 3 =? 3)) with true. cbv iota.
    change (Some (v + 256 * 0) = Some (value mod 256)). unfold v, u8. f_equal. lia.
  - intros c d H1 H2 H3 H4. unfold pic_after. rewrite fold_left_app. cbn [fold_left fst snd].
    rewrite !(proj2 (Z.eqb_neq _ c)), !(proj2 (Z.eqb_neq _ d)) by congruence. done.
Qed.

Lemma wp_register v f t : 0 <= v < 256 -> v < zlen (idt_table t) ->
  register_handler v f t = Ok (tt, ITable (zupd (idt_table t) v f) (intr_name t)).
Proof. intros Hv Hl. unfold register_handler. rewrite u8_small by lia. by rewrite (proj2 (Z.ltb_lt _ _) Hl). Qed.

(** The initialisation of interrupts in the order of [init_all], with one disk
    channel or two. *)
Definition init_interrupts (entries : list Z) (syscall general timer kbd hd : Z) (channels : Z) : M hw unit :=
  idt_init entries syscall general;;
  timer_init timer;;
  keyboard_register kbd;;
  ide_register 0 hd;;
  if 1 <? channels then ide_register 1 hd else mret tt.

Lemma handlers_registered general timer kbd hd channels gates w :
  exists t, (on_tab (register_handler 0x20 timer);; keyboard_register kbd;; ide_register 0 hd;;
      if 1 <? channels then ide_register 1 hd else mret tt) (Hw gates (exception_init general) w)
      = Ok (tt, Hw gates t w) /\
    intr_entry 0x20 t = Ok timer /\ intr_entry 0x21 t = Ok kbd /\ intr_entry 0x2e t = Ok hd.
Proof.
  destruct (1 <? channels); eexists; (split; [reflexivity|]); repeat split.
Qed.

(** C27: which interrupts arrive where.  With an entry table that is long
    enough, initialisation ends with the timer on line 0, the keyboard on
    line 1 and the disk on line 14 raising the vectors 0x20, 0x21 and 0x2e,
    whose entries call the handlers registered for them, the gate of 0x80
    leading to the system call handler and open to user programs - but with
    line 15, of the second disk channel, masked although its handler is
    registered, and the timer counting down from 155 and not from
    11931 = 1193180/100: it fires 7697 times a second and not 100 times. *)
Theorem interrupts_arrive entries syscall general timer kbd hd channels h0 : zlen entries = IDT_DESC_CNT ->
  0 <= syscall < 4294967296 ->
  exists h, init_interrupts entries syscall general timer kbd hd channels h0 = Ok (tt, h) /\
    (forall irq handler, (irq, handler) ∈ [(0, timer); (1, kbd); (14, hd)] ->
       exists v, irq_vector (ports h) irq = Some v /\ intr_entry v (tab h) = Ok handler) /\
    (forall irq, 0 <= irq < 16 -> is_Some (irq_vector (ports h) irq) -> irq = 2 \/ irq ∈ [0; 1; 14]) /\
    znth (idt h) 0x80 = Some (make_idt_desc IDT_DESC_ATTR_DPL3 syscall) /\
    timer_rate (ports h) = Some 7697 /\ COUNTER0_VALUE = 11931.
Proof.
  intros He Hs. destruct (pic_after_init (ports h0)) as (w1 & Hr1 & Hm & Hsl).
  destruct (frequency_set_divisor (u16 COUNTER0_VALUE) w1 ltac:(apply u16_range)) as (w2 & Hr2 & Hd & Hpic).
  set (gates := zupd (map (make_idt_desc IDT_DESC_ATTR_DPL0) entries) 0x80 (make_idt_desc IDT_DESC_ATTR_DPL3 syscall)).
  destruct (handlers_registered general timer kbd hd channels gates w2) as (t & Ht & H0 & H1 & H14).
  exists (Hw gates t w2). split; [|split; [|split; [|split; [|split]]]].
  - unfold init_interrupts, idt_init, idt_desc_init. rewrite He. change (IDT_DESC_CNT <? IDT_DESC_CNT) with false. cbv iota.
    rewrite take_ge by (unfold zlen in He; change IDT_DESC_CNT with 129 in *; lia).
    unfold timer_init, on_ports, zoom, mbind, M_bind, lift, modify. cbn [ports tab idt]. rewrite Hr1. cbn [ports tab idt].
    rewrite Hr2. exact Ht.
  - assert (Hv : forall irq, irq_vector w2 irq = irq_vector w1 irq).
    { intros irq. unfold irq_vector. by rewrite !Hpic. }
    intros irq handler Hin. cbn [ports tab]. rewrite Hv. unfold irq_vector. rewrite Hm, Hsl.
    repeat (apply elem_of_cons in Hin as [[= -> ->]|Hin]; [eexists; split; [reflexivity|done]|]). by apply elem_of_nil in Hin.
  - intros irq Hirq. cbn [ports]. assert (Hv : irq_vector w2 irq = irq_vector w1 irq).
    { unfold irq_vector. by rewrite !Hpic. }
    rewrite Hv. destruct (irq_vector_init (ports h0) irq Hirq) as (w1' & Hr1' & E). rewrite Hr1 in Hr1'. injection Hr1' as <-.
    rewrite E. case_decide as Hin; [|by intros []]. intros _. unfold served in Hin. set_solver.
  - apply znth_upd_eq. unfold zlen. rewrite length_map. unfold zlen in He. rewrite He. done.
  - unfold timer_rate. cbn [ports]. rewrite Hd. reflexivity.
  - reflexivity.
Qed.

Lemma interrupts_arrive_witness :
  exists h, init_interrupts (replicate 129 0xc0001000) 0xc0002000 1 2 3 4 1 (Hw [] (ITable [] []) []) = Ok (tt, h) /\
    irq_vector (ports h) 1 = Some 0x21 /\ intr_entry 0x21 (tab h) = Ok 3 /\ timer_rate (ports h) = Some 7697.
Proof.
  destruct (interrupts_arrive (replicate 129 0xc0001000) 0xc0002000 1 2 3 4 1 (Hw [] (ITable [] []) []))
    as (h & Hr & Hin & _ & _ & Hrate & _); [reflexivity|lia|].
  exists h. destruct (Hin 1 3) as (v & Hv & He); [set_solver|]. split; [exact Hr|].
  assert (E : irq_vector (ports h) 1 = Some 0x21).
  { injection Hr as <-. vm_compute. reflexivity. }
  split; [exact E|]. rewrite Hv in E. injection E as ->. by split.
Defined.

(** The table of entries in kernel.S ends at vector 0x2f: filling 129 gates
    from it reads past its end. *)
Lemma short_entry_table entries syscall : zlen entries = 0x30 -> idt_desc_init entries syscall = Fault.
Proof. intros He. unfold idt_desc_init. by rewrite He. Qed.
