(* ===== verification/MallocSpec.v ===== *)
(** Correctness of [sys_malloc] and [sys_free] of Malloc.v.

    [heap_inv pf base h F] is the invariant of the heap of the kernel
    ([pf = PF_KERNEL]) or of the running process, with block descriptors at
    [base]; [F i] is the sequence of free blocks of descriptor [i].  [live] are
    the objects handed out and not freed. *)

From S2P Require Import Prelude Bitmap Interrupt LinkedList Thread Sync Paging PagingSpec Malloc.

Open Scope Z_scope.

(** ** Cells *)

Lemma lookup_zero_cells (l : list Z) m x :
  zero_cells l m !! x = if decide (x ∈ l) then Some (ListElem 0 0) else m !! x.
Proof.
  induction l as [|a l IH]; [by destruct (decide (x ∈ [])) as [?%elem_of_nil|]|].
  cbn [zero_cells foldr]. destruct (decide (a = x)) as [->|Hne].
  - rewrite lookup_insert_eq, decide_True by set_solver. done.
  - fold (zero_cells l m). rewrite lookup_insert_ne, IH by done. repeat case_decide; set_solver.
Qed.
Lemma lookup_drop_cells l m x :
  drop_cells l m !! x = if decide (x ∈ l) then None else m !! x.
Proof.
  induction l as [|a l IH]; [by destruct (decide (x ∈ [])) as [?%elem_of_nil|]|].
  cbn [drop_cells foldr]. destruct (decide (a = x)) as [->|Hne].
  - rewrite lookup_delete_eq, decide_True by set_solver. done.
  - fold (drop_cells l m). rewrite lookup_delete_ne, IH by done. repeat case_decide; set_solver.
Qed.

Global Arguments arena_cells : simpl never.
Global Arguments zero_cells : simpl never.
Global Arguments drop_cells : simpl never.

Lemma elem_of_cell_range a n x :
  x ∈ cell_range a n <-> a <= x < a + 8 * Z.of_nat n /\ (x - a) mod 8 = 0.
Proof.
  unfold cell_range. rewrite list_elem_of_fmap. split.
  - intros (k & -> & Hk%elem_of_seq). split; [lia|]. dlia.
  - intros [Hx Hm]. exists (Z.to_nat ((x - a) / 8)). rewrite elem_of_seq. split; dlia.
Qed.

(** Objects lie inside the pages of their arena. *)
Lemma elem_of_arena_cells a n x : 1 <= n -> page_aligned a -> x ∈ arena_cells a n <->
  a + 12 <= x < a + 4096 * n - 4 /\ (x - (a + 12)) mod 8 = 0.
Proof.
  intros Hn Ha. unfold arena_cells, sizeof_arena. rewrite elem_of_cell_range.
  rewrite Z2Nat.id by lia. split; intros [H1 H2]; split; done || lia.
Qed.

(** ** Block sizes *)

Definition bsize (i : Z) : Z := 16 * 2 ^ i.
Definition bcount (i : Z) : Z := (PG_SIZE - sizeof_arena) / bsize i.
Definition desc_at (base i : Z) : Z := base + sizeof_desc * i.
Definition block_at (a i k : Z) : Z := a + sizeof_arena + bsize i * k.

Lemma bsize_facts i : 0 <= i < DESC_CNT ->
  16 <= bsize i <= 1024 /\ bsize i mod 8 = 0 /\ 3 <= bcount i <= 255 /\ bsize i * bcount i <= 4084.
Proof.
  unfold DESC_CNT. intros Hi.
  assert (Hc : i = 0 \/ i = 1 \/ i = 2 \/ i = 3 \/ i = 4 \/ i = 5 \/ i = 6) by lia.
  destruct Hc as [->|[->|[->|[->|[->|[->| ->]]]]]]; vm_compute; repeat split; discriminate.
Qed.

Lemma block_at_range a i k : 0 <= i < DESC_CNT -> 0 <= k < bcount i ->
  a + 12 <= block_at a i k /\ block_at a i k + bsize i <= a + 4096 /\
  (block_at a i k - (a + 12)) mod 8 = 0.
Proof.
  intros Hi Hk. destruct (bsize_facts i Hi) as (H1 & H2 & H3 & H4). unfold block_at, sizeof_arena.
  split_and!; [nia|nia|]. replace (a + 12 + bsize i * k - (a + 12)) with (bsize i * k) by lia.
  rewrite Z.mul_mod, H2 by lia. done.
Qed.

Lemma block_at_inj a i k k' : 0 <= i < DESC_CNT -> block_at a i k = block_at a i k' -> k = k'.
Proof. intros Hi. destruct (bsize_facts i Hi). unfold block_at. intros. nia. Qed.

(** The blocks of one arena do not overlap. *)
Lemma block_at_sep a i k k' : 0 <= i < DESC_CNT -> k <> k' ->
  block_at a i k + bsize i <= block_at a i k' \/ block_at a i k' + bsize i <= block_at a i k.
Proof. intros Hi Hk. destruct (bsize_facts i Hi). unfold block_at. nia. Qed.

Lemma block_at_page a i k : page_aligned a -> 0 <= i < DESC_CNT -> 0 <= k < bcount i ->
  block_at a i k / 4096 = a / 4096.
Proof.
  intros Ha Hi Hk. destruct (block_at_range a i k Hi Hk) as (H1 & H2 & _).
  destruct (bsize_facts i Hi). unfold page_aligned in Ha. dlia.
Qed.

Lemma block2arena_in a x : page_aligned a -> is_addr a -> a <= x < a + 4096 -> block2arena x = a.
Proof.
  intros Ha Hi Hx. unfold block2arena. replace x with (a + (x - a)) by lia.
  apply (frame_id a (x - a)); done || lia.
Qed.

(** All blocks of an arena. *)
Definition blocks (a i : Z) : list Z := (λ k, block_at a i (Z.of_nat k)) <$> seq 0 (Z.to_nat (bcount i)).

Lemma elem_of_blocks a i x : 0 <= i < DESC_CNT ->
  x ∈ blocks a i <-> exists k, 0 <= k < bcount i /\ x = block_at a i k.
Proof.
  intros Hi. unfold blocks. rewrite list_elem_of_fmap. split.
  - intros (k & -> & Hk%elem_of_seq). exists (Z.of_nat k). split; [lia|done].
  - intros (k & Hk & ->). exists (Z.to_nat k). rewrite elem_of_seq. split; [f_equal; lia|lia].
Qed.
Lemma blocks_nodup a i : 0 <= i < DESC_CNT -> NoDup (blocks a i).
Proof.
  intros Hi. apply NoDup_fmap_2_strong; [|apply NoDup_seq].
  intros k k' _ _ H%block_at_inj; [lia|done].
Qed.
Lemma blocks_length a i : 0 <= i < DESC_CNT -> zlen (blocks a i) = bcount i.
Proof.
  intros Hi. destruct (bsize_facts i Hi). unfold blocks, zlen. rewrite length_fmap, length_seq. lia.
Qed.

(** ** The invariant *)

Definition arena_pages (ar : arena) : Z := if a_large ar =? 1 then a_cnt ar else 1.

(** [n] pages of [pf] from [a] on are mapped and taken. *)
Definition pages_held (pf : Z) (s : vm) (a n : Z) : Prop :=
  exists r fs, 0 <= r /\ r + n <= vcount pf s /\ a = vpage pf s r /\ zlen fs = n /\
    forall k f, znth fs k = Some f -> page_held pf s (vpage pf s (r + k)) f.

Definition in_page (a x : Z) : Prop := x / 4096 = a / 4096.
Global Instance in_page_dec a x : Decision (in_page a x).
Proof. unfold in_page. apply _. Defined.

Section invariant.
Context (pf base : Z).

Inductive arena_kind (F : Z -> list Z) (a : Z) (ar : arena) : Prop :=
| small_arena i : 0 <= i < DESC_CNT -> a_desc ar = desc_at base i -> a_large ar = 0 ->
    a_cnt ar = zlen (filter (in_page a) (F i)) -> arena_kind F a ar
| large_arena : a_desc ar = 0 -> a_large ar = 1 -> arena_kind F a ar.

Record arena_ok (h : mheap) (F : Z -> list Z) (a : Z) (ar : arena) : Prop := {
  ao_kind : arena_kind F a ar;
  ao_pages : 1 <= arena_pages ar < 3840;
  ao_held : pages_held pf (hv h) a (arena_pages ar);
  ao_cells : forall x, x ∈ arena_cells a (arena_pages ar) -> is_Some (nodes (cells h) !! x);
  ao_desc : forall x, base <= x < base + sizeof_desc * DESC_CNT ->
    x / 4096 < a / 4096 \/ a / 4096 + arena_pages ar <= x / 4096
}.

Record heap_inv (h : mheap) (F : Z -> list Z) : Prop := {
  hi_vm : vm_wf (hv h);
  hi_active : active pf (hv h);
  hi_base : 0 < base;
  hi_reserved : forall x, base <= x < base + sizeof_desc * DESC_CNT -> is_addr x /\ reserved (hv h) x;
  hi_descs : forall i, 0 <= i < DESC_CNT -> descs h !! desc_at base i = Some (Desc (bsize i) (bcount i));
  hi_lists : forall i, 0 <= i < DESC_CNT -> dlist (nodes (cells h)) (free_list (desc_at base i)) (F i);
  hi_arenas : forall a ar, arenas h !! a = Some ar -> arena_ok h F a ar;
  hi_apart : forall a a' ar ar', arenas h !! a = Some ar -> arenas h !! a' = Some ar' -> a <> a' ->
    a / 4096 + arena_pages ar <= a' / 4096 \/ a' / 4096 + arena_pages ar' <= a / 4096;
  hi_free : forall i x, 0 <= i < DESC_CNT -> x ∈ F i ->
    exists a ar k, arenas h !! a = Some ar /\ a_desc ar = desc_at base i /\ a_large ar = 0 /\
      0 <= k < bcount i /\ x = block_at a i k
}.

(** [p] is an object of [n] bytes handed out by [sys_malloc]. *)
Inductive live (h : mheap) (F : Z -> list Z) (p n : Z) : Prop :=
| live_small a ar i k : arenas h !! a = Some ar -> a_large ar = 0 -> 0 <= i < DESC_CNT ->
    a_desc ar = desc_at base i -> 0 <= k < bcount i -> p = block_at a i k -> p ∉ F i ->
    n = bsize i -> live h F p n
| live_large a ar : arenas h !! a = Some ar -> a_large ar = 1 -> p = a + sizeof_arena ->
    n = 4096 * a_cnt ar - sizeof_arena -> live h F p n.

(** The contents of an object. *)
Definition same_contents (h h' : mheap) (p n : Z) : Prop :=
  forall x, p <= x < p + n -> nodes (cells h') !! x = nodes (cells h) !! x.
End invariant.

Definition fset (i : Z) (ys : list Z) (F : Z -> list Z) : Z -> list Z :=
  λ j, if decide (j = i) then ys else F j.

Section heap.
Context (pf base : Z).
Implicit Types (h : mheap) (F : Z -> list Z) (a x : Z) (ar : arena).

Abbreviation fl i := (free_list (desc_at base i)).

Lemma desc_at_range i x : 0 <= i < DESC_CNT -> (x = fl i \/ x = fl i + 8) ->
  base <= x < base + sizeof_desc * DESC_CNT.
Proof. unfold free_list, desc_at, sizeof_desc, DESC_CNT. lia. Qed.

Lemma arena_addr h F a ar : heap_inv pf base h F -> arenas h !! a = Some ar ->
  page_aligned a /\ is_addr a /\ 0x400000 <= a /\ a + 4096 * arena_pages ar <= 0xffc00000.
Proof.
  intros Hi Ha. destruct (hi_arenas _ _ _ _ Hi a ar Ha) as [_ Hn (r & fs & Hr & Hend & -> & _) _ _].
  destruct (vpage_in_range (hv h) pf r (hi_vm _ _ _ _ Hi) (hi_active _ _ _ _ Hi)) as [Hir Hal]; [lia|].
  pose proof (vp_end _ _ (v_vpool _ (hi_vm _ _ _ _ Hi) pf (hi_active _ _ _ _ Hi))) as He.
  unfold in_range, is_addr, vpage in *. split; [done|].
  destruct (active_valid _ _ (hi_active _ _ _ _ Hi)) as [->| ->]; simpl in He; lia.
Qed.

(** A node of a free list is one of its two ends or a block. *)
Lemma list_node_cases i (xs : list Z) x : x ∈ list_nodes (fl i) xs <-> x = fl i \/ x ∈ xs \/ x = fl i + 8.
Proof.
  unfold list_nodes, list_head, list_tail. rewrite elem_of_cons, elem_of_app, list_elem_of_singleton. tauto.
Qed.

Lemma small_pages ar : a_large ar = 0 -> arena_pages ar = 1.
Proof. unfold arena_pages. by intros ->. Qed.

(** A free block lies in the page of a small arena with its descriptor. *)
Lemma free_block h F i x : heap_inv pf base h F -> 0 <= i < DESC_CNT -> x ∈ F i ->
  exists a ar k, arenas h !! a = Some ar /\ a_desc ar = desc_at base i /\ a_large ar = 0 /\
    0 <= k < bcount i /\ x = block_at a i k /\ in_page a x /\ a + 12 <= x < a + 4096 /\ page_aligned a.
Proof.
  intros Hi Hr Hx. destruct (hi_free _ _ _ _ Hi i x Hr Hx) as (a & ar & k & Ha & Hd & Hl & Hk & ->).
  destruct (arena_addr h F a ar Hi Ha) as (Hal & _).
  exists a, ar, k. destruct (block_at_range a i k Hr Hk) as (? & ? & _). destruct (bsize_facts i Hr).
  do 5 (split; [done|]). split; [by apply block_at_page|]. split; [lia|done].
Qed.

Lemma desc_at_inj i j : desc_at base i = desc_at base j -> i = j.
Proof. unfold desc_at, sizeof_desc. lia. Qed.

(** Nothing of a descriptor is inside an arena. *)
Lemma desc_not_in_arena h F a ar x y : heap_inv pf base h F -> arenas h !! a = Some ar ->
  base <= x < base + sizeof_desc * DESC_CNT -> a <= y < a + 4096 * arena_pages ar -> x <> y.
Proof.
  intros Hi Ha Hx Hy ->. destruct (arena_addr h F a ar Hi Ha) as (Hal & _).
  pose proof (ao_desc _ _ _ _ _ _ (hi_arenas _ _ _ _ Hi a ar Ha) y Hx). unfold page_aligned in Hal. dlia.
Qed.

Lemma lists_disjoint h F i j x : heap_inv pf base h F -> 0 <= i < DESC_CNT -> 0 <= j < DESC_CNT -> i <> j ->
  x ∈ list_nodes (fl i) (F i) -> x ∉ list_nodes (fl j) (F j).
Proof.
  intros Hi Hri Hrj Hne. rewrite !list_node_cases.
  assert (Hdb : forall i j, 0 <= i < DESC_CNT -> 0 <= j < DESC_CNT -> forall y, x = y ->
    (y = fl i \/ y = fl i + 8) -> x ∉ F j).
  { intros i' j' Hi' Hj' y -> Hy Hx. destruct (free_block h F j' y Hi Hj' Hx) as (a & ar & k & Ha & _ & Hl & _ & _ & _ & Hr & _).
    eapply (desc_not_in_arena h F a ar y y); try done; [by eapply (desc_at_range i')|].
    rewrite small_pages by done. lia. }
  intros [H1|[H1|H1]] [H2|[H2|H2]].
  - unfold free_list, desc_at, sizeof_desc in *. lia.
  - by eapply (Hdb i j Hri Hrj x); [..|exact H2]; auto.
  - unfold free_list, desc_at, sizeof_desc in *. lia.
  - by eapply (Hdb j i Hrj Hri x); [..|exact H1]; auto.
  - destruct (free_block h F i x Hi Hri H1) as (a & ar & k & Ha & Hd & Hl & _ & _ & Hp & _).
    destruct (free_block h F j x Hi Hrj H2) as (a' & ar' & k' & Ha' & Hd' & Hl' & _ & _ & Hp' & _).
    assert (a <> a') by (intros <-; simplify_eq; apply Hne, desc_at_inj; congruence).
    destruct (hi_apart _ _ _ _ Hi a a' ar ar') as [Hx|Hx]; try done;
      rewrite small_pages in Hx by done; unfold in_page in *; lia.
  - by eapply (Hdb j i Hrj Hri x); [..|exact H1]; auto.
  - unfold free_list, desc_at, sizeof_desc in *. lia.
  - by eapply (Hdb i j Hri Hrj x); [..|exact H2]; auto.
  - unfold free_list, desc_at, sizeof_desc in *. lia.
Qed.

(** Exchange the free list of descriptor [i] and the contents of one of its
    arenas. *)
Lemma heap_inv_list h F a ar i ys m' c : heap_inv pf base h F ->
  0 <= i < DESC_CNT -> arenas h !! a = Some ar -> a_desc ar = desc_at base i -> a_large ar = 0 ->
  (forall x, is_Some (nodes (cells h) !! x) -> is_Some (m' !! x)) ->
  dlist m' (fl i) ys ->
  (forall x, x ∉ list_nodes (fl i) (F i) -> ~ (a <= x < a + 4096) -> m' !! x = nodes (cells h) !! x) ->
  (forall x, x ∈ ys -> x ∈ F i \/ x ∈ blocks a i) ->
  (forall a', a' / 4096 <> a / 4096 -> zlen (filter (in_page a') ys) = zlen (filter (in_page a') (F i))) ->
  heap_inv pf base
    (MHeap (hv h) (descs h) (<[a := Arena (desc_at base i) (zlen (filter (in_page a) ys)) 0]> (arenas h))
       (Lst c m')) (fset i ys F).
Proof.
  intros Hi Hri Ha Hd Hl Hdom Hdl Hout Hys Hcnt.
  pose proof (arena_addr h F a ar Hi Ha) as (Hal & Had & _).
  assert (Hpg : forall a' ar', <[a := Arena (desc_at base i) (zlen (filter (in_page a) ys)) 0]> (arenas h) !! a' = Some ar' ->
    exists ar0, arenas h !! a' = Some ar0 /\ arena_pages ar0 = arena_pages ar').
  { intros a' ar' [[<- <-]|[Hne H']]%lookup_insert_Some; [|by eauto].
    exists ar. split; [done|]. by rewrite !small_pages. }
  split; simpl; try apply Hi.
  - (* lists *) intros j Hrj. unfold fset. case_decide as E; [by subst|].
    eapply dlist_ext; [|by apply (hi_lists _ _ _ _ Hi)]. intros x Hx. apply Hout.
    + by eapply (lists_disjoint h F j i).
    + intros Hxa. apply list_node_cases in Hx as [Hx|[Hx|Hx]].
      * eapply (desc_not_in_arena h F a ar x x); try done; [eapply (desc_at_range j); auto|].
        rewrite small_pages by done. lia.
      * destruct (free_block h F j x Hi Hrj Hx) as (a2 & ar2 & k & Ha2 & Hd2 & Hl2 & _ & _ & Hp2 & _).
        assert (a <> a2) by (intros <-; simplify_eq; apply E, desc_at_inj; congruence).
        assert (x / 4096 = a / 4096) by (clear -Hal Hxa; unfold page_aligned in Hal; dlia).
        destruct (hi_apart _ _ _ _ Hi a a2 ar ar2) as [Hs|Hs]; try done;
          rewrite small_pages in Hs by done; unfold in_page in Hp2; lia.
      * eapply (desc_not_in_arena h F a ar x x); try done; [eapply (desc_at_range j); auto|].
        rewrite small_pages by done. lia.
  - (* arenas *) intros a' ar' Ha'. destruct (Hpg a' ar' Ha') as (ar0 & Ha0 & Ep).
    destruct (hi_arenas _ _ _ _ Hi a' ar0 Ha0) as [K P Hh Hc Hde].
    split; rewrite <- ?Ep; try done; [|intros x Hx; by apply Hdom, Hc].
    apply lookup_insert_Some in Ha' as [[<- <-]|[Hne Ha']].
    + apply (small_arena _ _ _ _ i); try done. unfold fset. by rewrite decide_True.
    + assert (ar' = ar0) as -> by congruence. destruct K as [j Hj Ej El Ec|]; [|by apply large_arena].
      apply (small_arena _ _ _ _ j); try done. unfold fset. case_decide; [subst|done].
      rewrite Hcnt; [done|]. intros Hs.
      destruct (hi_apart _ _ _ _ Hi a a' ar ar0) as [Hx|Hx]; try done;
        rewrite small_pages in Hx by done; lia.
  - intros a1 a2 ar1 ar2 H1 H2 Hne. destruct (Hpg a1 ar1 H1) as (b1 & Hb1 & <-), (Hpg a2 ar2 H2) as (b2 & Hb2 & <-).
    by apply (hi_apart _ _ _ _ Hi).
  - intros j x Hrj. unfold fset. case_decide as E.
    + subst. intros [Hx|Hx]%Hys.
      * destruct (hi_free _ _ _ _ Hi i x Hri Hx) as (a' & ar' & k & Ha' & Hd' & Hl' & Hk & ->).
        destruct (decide (a' = a)) as [->|Hne].
        -- eexists a, _, k. rewrite lookup_insert_eq. done.
        -- exists a', ar', k. by rewrite lookup_insert_ne.
      * apply elem_of_blocks in Hx as (k & Hk & ->); [|done].
        eexists a, _, k. rewrite lookup_insert_eq. done.
    + intros Hx. destruct (hi_free _ _ _ _ Hi j x Hrj Hx) as (a' & ar' & k & Ha' & Hd' & Hl' & Hk & ->).
      exists a', ar', k. rewrite lookup_insert_ne; [done|]. intros <-. simplify_eq. apply E, desc_at_inj. congruence.
Qed.

(** *** Pages of arenas *)

Lemma reserved_page s va va' : va' / 4096 = va / 4096 -> reserved s va -> reserved s va'.
Proof. intros E H q i Hq Hi Hp. apply H; [done|done|congruence]. Qed.

Lemma vpage_div s r k : vpage pf s (r + k) / 4096 = vpage pf s r / 4096 + k.
Proof. unfold vpage. dlia. Qed.

Lemma arena_reserved h F a ar p : heap_inv pf base h F -> arenas h !! a = Some ar ->
  a / 4096 <= p / 4096 < a / 4096 + arena_pages ar -> reserved (hv h) p.
Proof.
  intros Hi Ha Hp. destruct (hi_arenas _ _ _ _ Hi a ar Ha) as [_ _ (r & fs & Hr & He & -> & Hfs & Hh) _ _].
  set (k := p / 4096 - vpage pf (hv h) r / 4096) in *.
  destruct (znth_is_Some fs k) as [f Hf]; [lia|].
  eapply reserved_page; [|apply (ph_res _ _ _ _ (Hh k f Hf))]. rewrite vpage_div. lia.
Qed.

Lemma got_apart h F s' r n a ar : heap_inv pf base h F -> got_pages pf (hv h) s' r n ->
  arenas h !! a = Some ar -> 1 <= n ->
  a / 4096 + arena_pages ar <= vpage pf (hv h) r / 4096 \/ vpage pf (hv h) r / 4096 + n <= a / 4096.
Proof.
  intros Hi Hg Ha Hn. pose proof (ao_pages _ _ _ _ _ _ (hi_arenas _ _ _ _ Hi a ar Ha)) as Hp.
  set (v := vpage pf (hv h) r) in *.
  destruct (decide (a / 4096 + arena_pages ar <= v / 4096)) as [|H1]; [by left|].
  destruct (decide (v / 4096 + n <= a / 4096)) as [|H2]; [by right|]. exfalso.
  set (k := Z.max (a / 4096) (v / 4096) - v / 4096).
  apply (gp_fresh _ _ _ _ _ Hg k); [lia|]. apply (arena_reserved h F a ar); try done.
  rewrite vpage_div. fold v. lia.
Qed.

Lemma got_desc_apart h F s' r n x : heap_inv pf base h F -> got_pages pf (hv h) s' r n ->
  base <= x < base + sizeof_desc * DESC_CNT ->
  x / 4096 < vpage pf (hv h) r / 4096 \/ vpage pf (hv h) r / 4096 + n <= x / 4096.
Proof.
  intros Hi Hg Hx. destruct (hi_reserved _ _ _ _ Hi x Hx) as [_ Hre].
  set (v := vpage pf (hv h) r) in *.
  destruct (decide (x / 4096 < v / 4096)) as [|H1]; [by left|].
  destruct (decide (v / 4096 + n <= x / 4096)) as [|H2]; [by right|]. exfalso.
  apply (gp_fresh _ _ _ _ _ Hg (x / 4096 - v / 4096)); [lia|].
  eapply reserved_page; [|exact Hre]. rewrite vpage_div. fold v. lia.
Qed.

Lemma got_pages_held s s' r n : got_pages pf s s' r n -> pages_held pf s' (vpage pf s r) n.
Proof.
  intros Hg. destruct (gp_held _ _ _ _ _ Hg) as (fs & Hfs & Hh). destruct (gp_same _ _ _ _ _ Hg) as [E1 E2 _ _ _ _].
  destruct (gp_range _ _ _ _ _ Hg). exists r, fs. rewrite E1, E2. split_and!; try done.
  intros k f Hk. rewrite E1. by apply Hh.
Qed.

(** A list node is in no page of a run that meets no arena and no descriptor. *)
Lemma node_not_in_run h F i x p n : heap_inv pf base h F -> 0 <= i < DESC_CNT ->
  (forall a ar, arenas h !! a = Some ar -> a_large ar = 0 ->
     (exists y, y ∈ F i /\ in_page a y) -> a / 4096 < p \/ p + n <= a / 4096) ->
  (forall y, base <= y < base + sizeof_desc * DESC_CNT -> y / 4096 < p \/ p + n <= y / 4096) ->
  x ∈ list_nodes (fl i) (F i) -> ~ (p <= x / 4096 < p + n).
Proof.
  intros Hi Hri Har Hde [Hx|[Hx|Hx]]%list_node_cases Hp.
  - destruct (Hde x); [eapply desc_at_range; [done|by left]|lia|lia].
  - destruct (free_block h F i x Hi Hri Hx) as (a & ar & k & Ha & _ & Hl & _ & _ & Hpg & _).
    unfold in_page in *. destruct (Har a ar Ha Hl) as [?|?]; [by eauto|lia|lia].
  - destruct (Hde x); [eapply desc_at_range; [done|by right]|lia|lia].
Qed.

Lemma arena_cells_page a n x : page_aligned a -> 1 <= n -> x ∈ arena_cells a n ->
  a / 4096 <= x / 4096 < a / 4096 + n.
Proof.
  intros Ha Hn [Hx _]%elem_of_arena_cells; try done. unfold page_aligned in Ha. dlia.
Qed.

(** A new arena, none of whose blocks is in a free list. *)
Lemma heap_inv_add h F s' r n ar c : heap_inv pf base h F -> got_pages pf (hv h) s' r n ->
  1 <= n < 3840 -> arena_pages ar = n ->
  (a_desc ar = 0 /\ a_large ar = 1 \/
   a_large ar = 0 /\ a_cnt ar = 0 /\ exists i, 0 <= i < DESC_CNT /\ a_desc ar = desc_at base i) ->
  let a := vpage pf (hv h) r in
  arenas h !! a = None /\
  heap_inv pf base (MHeap s' (descs h) (<[a := ar]> (arenas h))
    (Lst c (zero_cells (arena_cells a n) (nodes (cells h))))) F.
Proof.
  intros Hi Hg Hn Hap Hk a.
  destruct (gp_same _ _ _ _ _ Hg) as [E1 E2 E3 E4 _ _]. destruct (gp_range _ _ _ _ _ Hg) as [Hr Hend].
  destruct (vpage_in_range (hv h) pf r (hi_vm _ _ _ _ Hi) (hi_active _ _ _ _ Hi)) as [Hir Hal]; [lia|].
  fold a in Hir, Hal.
  assert (Hnone : arenas h !! a = None).
  { destruct (arenas h !! a) as [ar'|] eqn:Ha; [|done]. exfalso.
    pose proof (ao_pages _ _ _ _ _ _ (hi_arenas _ _ _ _ Hi a ar' Ha)).
    destruct (got_apart h F s' r n a ar' Hi Hg Ha) as [Hx|Hx]; [lia|fold a in Hx; lia..]. }
  split; [done|].
  assert (Hnofree : forall i x, 0 <= i < DESC_CNT -> x ∈ F i -> ~ (a / 4096 <= x / 4096 < a / 4096 + n)).
  { intros i x Hri Hx Hp. destruct (free_block h F i x Hi Hri Hx) as (a' & ar' & k & Ha' & _ & Hl & _ & _ & Hpg & _).
    unfold in_page in Hpg. destruct (got_apart h F s' r n a' ar' Hi Hg Ha') as [Hs|Hs]; [lia|..];
      fold a in Hs; rewrite ?small_pages in Hs by done; lia. }
  split; simpl; try apply Hi.
  - apply (gp_wf _ _ _ _ _ Hg).
  - eapply owner_active; [apply (gp_same _ _ _ _ _ Hg)|apply Hi].
  - intros x Hx. destruct (hi_reserved _ _ _ _ Hi x Hx). split; [done|]. by apply (gp_res _ _ _ _ _ Hg).
  - intros i Hri. eapply dlist_ext; [|by apply (hi_lists _ _ _ _ Hi)]. intros x Hx.
    rewrite lookup_zero_cells, decide_False; [done|]. intros Hc%arena_cells_page; try done; [|lia].
    eapply (node_not_in_run h F i x (a / 4096) n); try done.
    + intros a' ar' Ha' Hl _. destruct (got_apart h F s' r n a' ar' Hi Hg Ha') as [Hs|Hs]; [lia|..];
        fold a in Hs; rewrite ?small_pages in Hs by done; lia.
    + intros y Hy. by eapply (got_desc_apart h F s' r n).
  - intros a' ar' [[<- <-]|[Hne Ha']]%lookup_insert_Some.
    + split; simpl.
      * destruct Hk as [[? ?]|(Hl & Hc & i & Hri & Hd)]; [by apply large_arena|].
        apply (small_arena _ _ _ _ i); try done. rewrite Hc.
        assert (Hnil : filter (in_page a) (F i) = []); [|by rewrite Hnil].
        apply filter_none. intros x Hx Hpg. unfold in_page in Hpg.
        apply (Hnofree i x Hri Hx). lia.
      * by rewrite Hap.
      * rewrite Hap. by apply got_pages_held.
      * rewrite Hap. intros x Hx. rewrite lookup_zero_cells, decide_True by done. eauto.
      * intros x Hx. rewrite Hap. by eapply (got_desc_apart h F s' r n).
    + destruct (hi_arenas _ _ _ _ Hi a' ar' Ha') as [K P (r' & fs & R1 & R2 & R3 & R4 & R5) Hc Hde].
      split; simpl; try done.
      * exists r', fs. rewrite E1, E2. split_and!; try done. intros k f Hkf. rewrite E1.
        by apply (gp_old _ _ _ _ _ Hg), R5.
      * intros x Hx. rewrite lookup_zero_cells. case_decide; [eauto|by apply Hc].
  - intros a1 a2 ar1 ar2 [[<- <-]|[Hn1 H1]]%lookup_insert_Some [[<- <-]|[Hn2 H2]]%lookup_insert_Some Hne; try done.
    + rewrite Hap. destruct (got_apart h F s' r n a2 ar2 Hi Hg H2) as [Hs|Hs]; [lia|by right|by left].
    + rewrite Hap. destruct (got_apart h F s' r n a1 ar1 Hi Hg H1) as [Hs|Hs]; [lia|by left|by right].
    + by apply (hi_apart _ _ _ _ Hi).
  - intros i x Hri Hx. destruct (hi_free _ _ _ _ Hi i x Hri Hx) as (a' & ar' & k & Ha' & Hrest).
    exists a', ar', k. rewrite lookup_insert_ne; [done|]. intros E. congruence.
Qed.

(** An arena none of whose blocks is in a free list goes away. *)
Lemma heap_inv_remove h F s' r a ar c : heap_inv pf base h F -> arenas h !! a = Some ar ->
  a = vpage pf (hv h) r -> gave_pages pf (hv h) s' r (arena_pages ar) ->
  (forall i x, 0 <= i < DESC_CNT -> x ∈ F i -> ~ in_page a x) ->
  heap_inv pf base (MHeap s' (descs h) (delete a (arenas h))
    (Lst c (drop_cells (arena_cells a (arena_pages ar)) (nodes (cells h))))) F.
Proof.
  intros Hi Ha Er Hg Hnof. destruct (gv_same _ _ _ _ _ Hg) as [E1 E2 E3 E4 _ _].
  destruct (arena_addr h F a ar Hi Ha) as (Hal & _).
  pose proof (hi_arenas _ _ _ _ Hi a ar Ha) as [Kind Hn _ _ Hdes]. set (n := arena_pages ar) in *.
  assert (Hout : forall va, va / 4096 < a / 4096 \/ a / 4096 + n <= va / 4096 ->
    ~ (0 <= (va - vpage pf (hv h) r) / 4096 < n)).
  { intros va. rewrite <- Er. unfold page_aligned in Hal. clear -Hal. intros H Hx. dlia. }
  assert (Hcell : forall i x, 0 <= i < DESC_CNT -> x ∈ list_nodes (fl i) (F i) -> x ∉ arena_cells a n).
  { intros i x Hri Hx Hc%arena_cells_page; try done; [|lia].
    eapply (node_not_in_run h F i x (a / 4096) n); try done.
    intros a' ar' Ha' Hl (y & Hy & Hpg). destruct (decide (a' = a)) as [->|Hne].
    - by destruct (Hnof i y Hri Hy).
    - destruct (hi_apart _ _ _ _ Hi a a' ar ar') as [Hs|Hs]; try done;
        fold n in Hs; rewrite ?small_pages in Hs by done; lia. }
  split; simpl; try apply Hi.
  - apply (gv_wf _ _ _ _ _ Hg).
  - eapply owner_active; [apply (gv_same _ _ _ _ _ Hg)|apply Hi].
  - intros x Hx. destruct (hi_reserved _ _ _ _ Hi x Hx). split; [done|].
    apply (gv_res _ _ _ _ _ Hg); [|done]. by apply Hout, Hdes.
  - intros i Hri. eapply dlist_ext; [|by apply (hi_lists _ _ _ _ Hi)]. intros x Hx.
    rewrite lookup_drop_cells, decide_False; [done|]. by eapply Hcell.
  - intros a' ar' [Hne Ha']%lookup_delete_Some.
    destruct (hi_arenas _ _ _ _ Hi a' ar' Ha') as [K P (r' & fs & R1 & R2 & R3 & R4 & R5) Hc Hde].
    destruct (arena_addr h F a' ar' Hi Ha') as (Hal' & _).
    pose proof (hi_apart _ _ _ _ Hi a a' ar ar' Ha Ha' Hne) as Hap. fold n in Hap.
    split; simpl; try done.
    + exists r', fs. rewrite E1, E2. split_and!; try done. intros k f Hkf. rewrite E1.
      apply (gv_old _ _ _ _ _ Hg); [|by apply R5]. apply Hout. rewrite vpage_div, <- R3.
      apply znth_lt in Hkf. lia.
    + intros x Hx. rewrite lookup_drop_cells, decide_False; [by apply Hc|].
      intros Hc1%arena_cells_page; try done; [|lia]. apply arena_cells_page in Hx; try done; lia.
  - intros a1 a2 ar1 ar2 [_ H1]%lookup_delete_Some [_ H2]%lookup_delete_Some. by apply (hi_apart _ _ _ _ Hi).
  - intros i x Hri Hx. destruct (free_block h F i x Hi Hri Hx) as (a' & ar' & k & Ha' & Hd & Hl & Hk & Hx' & Hpg & _).
    exists a', ar', k. rewrite lookup_delete_ne; [done|]. intros <-. by apply (Hnof i x).
Qed.

(** *** The loops over the blocks of an arena *)

(** What the loops read of the heap. *)
Record arena_here h a i : Prop := {
  ah_arena : exists cnt, arenas h !! a = Some (Arena (desc_at base i) cnt 0);
  ah_desc : descs h !! desc_at base i = Some (Desc (bsize i) (bcount i));
  ah_addr : page_aligned a /\ is_addr a /\ a + 4096 <= 0xffc00000;
  ah_idx : 0 <= i < DESC_CNT
}.

Lemma wp_arena2block h a i k (Q : Z -> mheap -> Prop) : arena_here h a i -> 0 <= k < bcount i ->
  Q (block_at a i k) h -> wp (arena2block a k) Q h.
Proof.
  intros [[cnt Ha] Hd (Hal & Had & Hend) Hri] Hk HQ. unfold arena2block.
  apply wp_bind. unfold wp at 1, rd_arena, lift, of_option. rewrite Ha. simpl.
  apply wp_bind. unfold wp at 1, rd_desc, lift, of_option. rewrite Hd. simpl. apply wp_ret.
  destruct (block_at_range a i k Hri Hk) as (H1 & H2 & _). unfold block_at in *.
  destruct (bsize_facts i Hri). rewrite (Z.mul_comm k). rewrite u32_small; [done|]. unfold is_addr in Had. lia.
Qed.

Lemma wp_rd_arena h a i (Q : arena -> mheap -> Prop) : arena_here h a i ->
  (forall cnt, Q (Arena (desc_at base i) cnt 0) h) -> wp (rd_arena a) Q h.
Proof. intros [[cnt Ha] _ _ _] HQ. unfold wp, rd_arena, lift, of_option. rewrite Ha. apply HQ. Qed.

Lemma here_cells h a i c : arena_here h a i -> arena_here (set_cells c h) a i.
Proof. intros [[cnt Ha] Hd Had Hi]. by split; [exists cnt|..]. Qed.

Definition some_blocks (a i k : Z) (n : nat) : list Z := (λ j, block_at a i (k + Z.of_nat j)) <$> seq 0 n.

Lemma some_blocks_S a i k n : some_blocks a i k (S n) = block_at a i k :: some_blocks a i (k + 1) n.
Proof.
  unfold some_blocks. cbn [seq fmap list_fmap]. rewrite Z.add_0_r. f_equal.
  rewrite <- fmap_S_seq, <- list_fmap_compose. apply list_fmap_ext. intros j x _. simpl. f_equal. lia.
Qed.
Lemma some_blocks_all a i : some_blocks a i 0 (Z.to_nat (bcount i)) = blocks a i.
Proof. done. Qed.
Lemma elem_of_some_blocks a i k n x : x ∈ some_blocks a i k n <->
  exists j, k <= j < k + Z.of_nat n /\ x = block_at a i j.
Proof.
  unfold some_blocks. rewrite list_elem_of_fmap. split.
  - intros (j & -> & Hj%elem_of_seq). exists (k + Z.of_nat j). split; [lia|done].
  - intros (j & Hj & ->). exists (Z.to_nat (j - k)). rewrite elem_of_seq. split; [f_equal; lia|lia].
Qed.

Lemma split_arena_ok n : forall a i k h xs, arena_here h a i -> 0 <= k -> k + Z.of_nat n <= bcount i ->
  dlist (nodes (cells h)) (fl i) xs ->
  (forall x, x ∈ some_blocks a i k n -> (x ∉ list_nodes (fl i) xs) /\ is_Some (nodes (cells h) !! x)) ->
  wp (split_arena n a k) (λ _ h', exists c, h' = set_cells c h /\
    dlist (nodes c) (fl i) (xs ++ some_blocks a i k n) /\
    framed (some_blocks a i k n ++ list_nodes (fl i) xs) (cells h) c) h.
Proof.
  induction n as [|n IH]; intros a i k h xs Hh Hk Hn Hd Hnew.
  { apply wp_ret. exists (cells h). unfold some_blocks; simpl. rewrite app_nil_r.
    split; [by destruct h|]. split; [done|]. split_and!; done. }
  pose proof (ah_idx _ _ _ Hh) as Hri. rewrite some_blocks_S in *.
  destruct (Hnew (block_at a i k)) as [Hni Hso]; [apply list_elem_of_here|].
  cbn [split_arena]. apply wp_bind. eapply wp_arena2block; [done|lia|].
  apply wp_bind. eapply wp_rd_arena; [done|]. intros c1. cbn [a_desc].
  apply wp_bind, wp_zoom. unfold wp at 1. rewrite (elem_find_ok _ xs) by done.
  rewrite bool_decide_eq_false_2 by (intros ?; apply Hni, list_node_cases; auto).
  replace (set_cells (cells h) h) with h by (by destruct h).
  apply wp_bind, wp_assert; [done|].
  apply wp_bind. eapply wp_rd_arena; [done|]. intros c2. cbn [a_desc].
  apply wp_bind, wp_zoom. eapply wp_mono; [by apply (list_append_ok (fl i) xs)|].
  intros [] c [Hd' Hf]. set (b := block_at a i k) in *.
  eapply wp_mono; [apply (IH a i (k + 1) (set_cells c h) (xs ++ [b]))|].
  - by apply here_cells.
  - lia.
  - lia.
  - done.
  - intros x Hx. destruct (Hnew x) as [Hx1 Hx2]; [by apply elem_of_cons; right|]. split.
    + rewrite list_node_cases, elem_of_app, list_elem_of_singleton. rewrite list_node_cases in Hx1.
      intros [?|[[?|?]|?]]; [tauto|tauto| |tauto]. subst x.
      apply elem_of_some_blocks in Hx as (j & Hj & E). apply block_at_inj in E; [lia|done].
    + by eapply framed_is_Some.
  - intros [] h' (c' & -> & Hdl & Hfr). exists c'. split; [done|]. split; [by rewrite <- app_assoc in Hdl|].
    eapply framed_trans; [eapply framed_weaken; [|exact Hf]|eapply framed_weaken; [|exact Hfr]].
    + intros x. rewrite !elem_of_app, !elem_of_cons. tauto.
    + intros x. rewrite !elem_of_app, !elem_of_cons, !list_node_cases, elem_of_app, list_elem_of_singleton. tauto.
Qed.

Lemma unsplit_arena_ok n : forall a i k h xs, arena_here h a i -> 0 <= k -> k + Z.of_nat n <= bcount i ->
  dlist (nodes (cells h)) (fl i) xs -> (forall x, x ∈ some_blocks a i k n -> x ∈ xs) ->
  wp (unsplit_arena n a k) (λ _ h', exists c ys, h' = set_cells c h /\ dlist (nodes c) (fl i) ys /\
    (forall x, x ∈ ys <-> x ∈ xs /\ x ∉ some_blocks a i k n) /\
    (forall a', a' / 4096 <> a / 4096 -> filter (in_page a') ys = filter (in_page a') xs) /\
    framed (list_nodes (fl i) xs) (cells h) c) h.
Proof.
  induction n as [|n IH]; intros a i k h xs Hh Hk Hn Hd Hall.
  { apply wp_ret. exists (cells h), xs. unfold some_blocks; simpl. split; [by destruct h|]. split; [done|].
    split; [|by split_and!]. intros x. rewrite elem_of_nil. tauto. }
  pose proof (ah_idx _ _ _ Hh) as Hri. rewrite some_blocks_S in *.
  assert (Hin : block_at a i k ∈ xs) by (apply Hall, list_elem_of_here).
  cbn [unsplit_arena]. apply wp_bind. eapply wp_arena2block; [done|lia|].
  apply wp_bind. eapply wp_rd_arena; [done|]. intros c1. cbn [a_desc].
  apply wp_bind, wp_zoom. unfold wp at 1. rewrite (elem_find_ok _ xs), bool_decide_eq_true_2 by done.
  replace (set_cells (cells h) h) with h by (by destruct h).
  apply wp_bind, wp_assert; [done|]. set (b := block_at a i k) in *.
  apply list_elem_of_split in Hin as (xs1 & xs2 & ->).
  pose proof (dlist_NoDup _ _ _ Hd) as Hnd.
  apply wp_bind, wp_zoom. eapply wp_mono; [by apply (list_remove_ok (fl i) xs1 b xs2)|].
  intros [] c [Hd' Hf].
  assert (Hb : forall x, x ∈ xs1 ++ xs2 <-> x ∈ xs1 ++ b :: xs2 /\ x <> b).
  { rewrite <- Permutation_middle in Hnd. apply NoDup_cons in Hnd as [Hnb _].
    rewrite elem_of_app in Hnb. intros x. rewrite !elem_of_app, elem_of_cons.
    destruct (decide (x = b)) as [->|]; tauto. }
  eapply wp_mono; [apply (IH a i (k + 1) (set_cells c h) (xs1 ++ xs2))|].
  - by apply here_cells.
  - lia.
  - lia.
  - done.
  - intros x Hx. apply Hb. split; [by apply Hall, elem_of_cons; right|]. intros ->.
    apply elem_of_some_blocks in Hx as (j & Hj & E). apply block_at_inj in E; [lia|done].
  - intros [] h' (c' & ys & -> & Hdl & Hys & Hcnt & Hfr). exists c', ys. split; [done|]. split; [done|]. split_and!.
    + intros x. rewrite Hys, Hb, elem_of_cons. tauto.
    + intros a' Ha'. rewrite Hcnt by done. rewrite !filter_app. f_equal.
      rewrite filter_cons_False; [done|]. unfold in_page, b.
      rewrite block_at_page; [congruence|apply (ah_addr _ _ _ Hh)|done|lia].
    + eapply framed_trans; [eapply framed_weaken; [|exact Hf]|eapply framed_weaken; [|exact Hfr]];
        intros x; rewrite !list_node_cases, !elem_of_app, elem_of_cons; tauto.
Qed.

(** *** Live objects *)

(** An object lies in the pages of its arena. *)
Lemma live_extent h F p n : heap_inv pf base h F -> live base h F p n ->
  exists a ar, arenas h !! a = Some ar /\ a + 12 <= p /\ 16 <= n /\ p + n <= a + 4096 * arena_pages ar.
Proof.
  intros Hi [a ar i k Ha Hl Hri Hd Hk -> Hf ->|a ar Ha Hl -> ->].
  - exists a, ar. destruct (block_at_range a i k Hri Hk) as (? & ? & _). destruct (bsize_facts i Hri).
    rewrite small_pages by done. split; [done|lia].
  - exists a, ar. pose proof (ao_pages _ _ _ _ _ _ (hi_arenas _ _ _ _ Hi a ar Ha)) as Hp.
    unfold arena_pages in *. rewrite Hl in *. simpl in *. unfold sizeof_arena. split; [done|lia].
Qed.

Lemma arenas_apart h F a a' ar ar' x : heap_inv pf base h F -> arenas h !! a = Some ar ->
  arenas h !! a' = Some ar' -> a <= x < a + 4096 * arena_pages ar ->
  a' <= x < a' + 4096 * arena_pages ar' -> a = a'.
Proof.
  intros Hi Ha Ha' Hx Hx'. destruct (decide (a = a')) as [|Hne]; [done|]. exfalso.
  destruct (arena_addr h F a ar Hi Ha) as (Hal & _), (arena_addr h F a' ar' Hi Ha') as (Hal' & _).
  pose proof (hi_apart _ _ _ _ Hi a a' ar ar' Ha Ha' Hne) as Hap. unfold page_aligned in *.
  clear -Hx Hx' Hal Hal' Hap. dlia.
Qed.

(** The only list node inside a block is its own first cell. *)
Lemma block_node h F a ar i k j x : heap_inv pf base h F -> arenas h !! a = Some ar -> a_large ar = 0 ->
  0 <= i < DESC_CNT -> a_desc ar = desc_at base i -> 0 <= k < bcount i -> 0 <= j < DESC_CNT ->
  block_at a i k <= x < block_at a i k + bsize i -> x ∈ list_nodes (fl j) (F j) ->
  x = block_at a i k /\ j = i /\ x ∈ F i.
Proof.
  intros Hi Ha Hl Hri Hd Hk Hrj Hx Hn. destruct (block_at_range a i k Hri Hk) as (B1 & B2 & _).
  assert (Hxa : a <= x < a + 4096 * arena_pages ar) by (rewrite small_pages by done; lia).
  apply list_node_cases in Hn as [Hn|[Hn|Hn]].
  - exfalso. eapply (desc_not_in_arena h F a ar x x); try done. eapply (desc_at_range j); auto.
  - destruct (hi_free _ _ _ _ Hi j x Hrj Hn) as (a' & ar' & k' & Ha' & Hd' & Hl' & Hk' & E).
    destruct (block_at_range a' j k' Hrj Hk') as (C1 & C2 & _). destruct (bsize_facts j Hrj).
    assert (a = a') as <-.
    { eapply (arenas_apart h F a a' ar ar' x); try done. rewrite small_pages by done. lia. }
    assert (ar' = ar) as -> by congruence.
    assert (j = i) as -> by (apply desc_at_inj; congruence).
    destruct (decide (k = k')) as [->|Hne]; [done|].
    destruct (block_at_sep a i k k' Hrj Hne); lia.
  - exfalso. eapply (desc_not_in_arena h F a ar x x); try done. eapply (desc_at_range j); auto.
Qed.

(** No free list runs through an object. *)
Lemma live_not_node h F p n i x : heap_inv pf base h F -> live base h F p n -> 0 <= i < DESC_CNT ->
  p <= x < p + n -> x ∉ list_nodes (fl i) (F i).
Proof.
  intros Hi [a ar j k Ha Hl Hrj Hd Hk -> Hf ->|a ar Ha Hl -> ->] Hri Hx Hn.
  - destruct (block_node h F a ar j k i x Hi Ha Hl Hrj Hd Hk Hri Hx Hn) as (-> & -> & ?). done.
  - pose proof (ao_pages _ _ _ _ _ _ (hi_arenas _ _ _ _ Hi a ar Ha)) as Hp.
    assert (Hxa : a <= x < a + 4096 * arena_pages ar).
    { unfold arena_pages in *. rewrite Hl in *. simpl in *. unfold sizeof_arena in Hx. lia. }
    apply list_node_cases in Hn as [Hn|[Hn|Hn]].
    + eapply (desc_not_in_arena h F a ar x x); try done. eapply (desc_at_range i); auto.
    + destruct (free_block h F i x Hi Hri Hn) as (a' & ar' & k' & Ha' & _ & Hl' & _ & _ & _ & Hr & _).
      assert (a = a') as <-; [|congruence].
      eapply (arenas_apart h F a a' ar ar' x); try done. rewrite small_pages by done. lia.
    + eapply (desc_not_in_arena h F a ar x x); try done. eapply (desc_at_range i); auto.
Qed.

(** What can be live in an arena. *)
Lemma live_in_arena h F a ar p n : heap_inv pf base h F -> arenas h !! a = Some ar ->
  live base h F p n -> a <= p < a + 4096 * arena_pages ar ->
  (a_large ar = 0 /\ exists i k, 0 <= i < DESC_CNT /\ a_desc ar = desc_at base i /\ 0 <= k < bcount i /\
     p = block_at a i k /\ n = bsize i) \/
  (a_large ar = 1 /\ p = a + sizeof_arena /\ n = 4096 * a_cnt ar - sizeof_arena).
Proof.
  intros Hi Ha [b br j k Hb Hl Hrj Hd Hk -> Hf ->|b br Hb Hl -> ->] Hp.
  - destruct (block_at_range b j k Hrj Hk) as (C1 & C2 & _). destruct (bsize_facts j Hrj).
    assert (b = a) as ->.
    { eapply (arenas_apart h F b a br ar (block_at b j k)); try done; rewrite ?small_pages by done; lia. }
    assert (br = ar) as -> by congruence. left. split; [done|]. by exists j, k.
  - pose proof (ao_pages _ _ _ _ _ _ (hi_arenas _ _ _ _ Hi b br Hb)) as Hp2.
    assert (b = a) as ->.
    { eapply (arenas_apart h F b a br ar (b + sizeof_arena)); try done; unfold sizeof_arena in *; lia. }
    assert (br = ar) as -> by congruence. by right.
Qed.

(** Different objects do not overlap. *)
Lemma live_disjoint h F p n q m : heap_inv pf base h F -> live base h F p n -> live base h F q m ->
  p <> q -> p + n <= q \/ q + m <= p.
Proof.
  intros Hi Hp Hq Hne.
  destruct (live_extent h F p n Hi Hp) as (a & ar & Ha & H1 & Hn16 & H2).
  destruct (live_extent h F q m Hi Hq) as (b & br & Hb & H3 & Hm16 & H4).
  destruct (decide (p + n <= q)) as [|Hc1]; [by left|]. destruct (decide (q + m <= p)) as [|Hc2]; [by right|].
  exfalso. assert (a = b) as <-.
  { eapply (arenas_apart h F a b ar br (Z.max p q)); try done; lia. }
  assert (br = ar) as -> by congruence.
  destruct (live_in_arena h F a ar p n Hi Ha Hp) as [(L1 & i & k & Hri & Hd & Hk & -> & ->)|(L1 & -> & ->)],
    (live_in_arena h F a ar q m Hi Ha Hq) as [(L2 & j & k' & Hrj & Hd' & Hk' & -> & ->)|(L2 & -> & ->)];
    try congruence; try lia.
  assert (i = j) as <- by (apply desc_at_inj; congruence).
  destruct (block_at_sep a i k k' Hri) as [?|?]; [intros ->; done|lia|lia].
Qed.

Lemma live_unique h F p n m : heap_inv pf base h F -> live base h F p n -> live base h F p m -> n = m.
Proof.
  intros Hi Hp Hq. destruct (live_extent h F p n Hi Hp) as (a & ar & Ha & H1 & Hn16 & H2).
  destruct (live_in_arena h F a ar p n Hi Ha Hp) as [(L1 & i & k & Hri & Hd & _ & _ & ->)|(L1 & _ & ->)],
    (live_in_arena h F a ar p m Hi Ha Hq) as [(L2 & j & k' & Hrj & Hd' & _ & _ & ->)|(L2 & _ & ->)];
    try congruence; try lia.
  f_equal. apply desc_at_inj; congruence.
Qed.

(** Being live depends on the arenas and on the free lists. *)
Definition same_kinds h h' : Prop :=
  forall a ar, arenas h !! a = Some ar -> exists ar', arenas h' !! a = Some ar' /\
    a_desc ar' = a_desc ar /\ a_large ar' = a_large ar /\ (a_large ar = 1 -> a_cnt ar' = a_cnt ar).

Lemma live_kinds h F h' F' p n : same_kinds h h' ->
  (forall i, 0 <= i < DESC_CNT -> p ∉ F i -> p ∉ F' i) -> live base h F p n -> live base h' F' p n.
Proof.
  intros Hk HF [a ar i k Ha Hl Hri Hd Hkr -> Hf ->|a ar Ha Hl -> ->];
    destruct (Hk a ar Ha) as (ar' & Ha' & Ed & El & Ec).
  - apply (live_small _ _ _ _ _ a ar' i k); try done; [congruence|congruence|by apply HF].
  - apply (live_large _ _ _ _ _ a ar'); try done; [congruence|]. by rewrite Ec.
Qed.

Lemma same_kinds_insert h a d c c' s' m : arenas h !! a = Some (Arena d c 0) ->
  let h' := MHeap s' (descs h) (<[a := Arena d c' 0]> (arenas h)) m in
  same_kinds h h' /\ same_kinds h' h.
Proof.
  intros Ha h'. split; intros b br Hb; simpl in *.
  - destruct (decide (b = a)) as [->|Hne].
    + assert (br = Arena d c 0) as -> by congruence. exists (Arena d c' 0). rewrite lookup_insert_eq. done.
    + exists br. by rewrite lookup_insert_ne.
  - apply lookup_insert_Some in Hb as [[<- <-]|[Hne Hb]]; [exists (Arena d c 0)|exists br]; done.
Qed.

(** *** The steps of [sys_malloc] *)

(** Objects of [h] are objects of [h'] with the same contents. *)
Definition keeps h F h' F' : Prop :=
  forall p n, live base h F p n -> live base h' F' p n /\ same_contents h h' p n.

(** The processor and the ownership of pages are as before. *)
Definition same_env h h' : Prop :=
  same_owner pf (hv h) (hv h') /\ l_cpu (cells h') = l_cpu (cells h) /\ descs h' = descs h.

Lemma owner_refl s : same_owner pf s s.
Proof. by split. Qed.

Lemma wp_on_cells {A} (m : M lst A) (Q : A -> mheap -> Prop) h :
  wp m (λ r c, Q r (set_cells c h)) (cells h) -> wp (on_cells m) Q h.
Proof. apply wp_zoom. Qed.

Lemma wp_rd_desc h i (Q : mem_block_desc -> mheap -> Prop) :
  descs h !! desc_at base i = Some (Desc (bsize i) (bcount i)) ->
  Q (Desc (bsize i) (bcount i)) h -> wp (rd_desc (desc_at base i)) Q h.
Proof. intros Hd HQ. unfold wp, rd_desc, lift, of_option. by rewrite Hd. Qed.
Lemma wp_wr_arena h a ar ar' (Q : unit -> mheap -> Prop) : arenas h !! a = Some ar ->
  Q tt (set_arenas (<[a := ar']> (arenas h)) h) -> wp (wr_arena a ar') Q h.
Proof. intros Ha HQ. unfold wp, wr_arena. by rewrite Ha. Qed.

Lemma blocks_in_page a i x : page_aligned a -> 0 <= i < DESC_CNT -> x ∈ blocks a i -> in_page a x.
Proof. intros Ha Hi (k & Hk & ->)%elem_of_blocks; [|done]. by apply block_at_page. Qed.

Lemma block_cell a i k : page_aligned a -> 0 <= i < DESC_CNT -> 0 <= k < bcount i ->
  block_at a i k ∈ arena_cells a 1.
Proof.
  intros Ha Hi Hk. destruct (block_at_range a i k Hi Hk) as (B1 & B2 & B3). destruct (bsize_facts i Hi).
  apply elem_of_arena_cells; [lia|done|]. split; [lia|done].
Qed.

(** A new arena whose blocks all go to its free list adds no object. *)
Lemma new_arena_live h F s' c a i m' : heap_inv pf base h F -> 0 <= i < DESC_CNT -> F i = [] ->
  arenas h !! a = None ->
  (forall p n, live base h F p n -> forall x, p <= x < p + n -> m' !! x = nodes (cells h) !! x) ->
  let h' := MHeap s' (descs h) (<[a := Arena (desc_at base i) (bcount i) 0]> (arenas h)) (Lst c m') in
  heap_inv pf base h' (fset i (blocks a i) F) ->
  keeps h F h' (fset i (blocks a i) F) /\
  (forall p n, live base h' (fset i (blocks a i) F) p n -> live base h F p n).
Proof.
  intros Hi Hri Hnil Hnone Hm h' Hi'. split.
  - intros p n Hl. split; [|by intros x Hx; apply (Hm p n)].
    destruct Hl as [b br j k Hb Hbl Hrj Hbd Hk -> Hf ->|b br Hb Hbl -> ->].
    + assert (Hne : b <> a) by congruence.
      assert (Hb' : arenas h' !! b = Some br) by (simpl; by rewrite lookup_insert_ne).
      apply (live_small _ _ _ _ _ b br j k); try done.
      unfold fset. case_decide as E; [subst|done]. intros (k' & Hk' & E)%elem_of_blocks; [|done].
      apply Hne. destruct (block_at_range b i k Hri Hk) as (B1 & B2 & _).
      destruct (block_at_range a i k' Hri Hk') as (C1 & C2 & _). destruct (bsize_facts i Hri).
      apply (arenas_apart h' _ b a br (Arena (desc_at base i) (bcount i) 0) (block_at b i k) Hi' Hb').
      * simpl. by rewrite lookup_insert_eq.
      * rewrite small_pages by done. lia.
      * rewrite small_pages by done. lia.
    + apply (live_large _ _ _ _ _ b br); try done. simpl. rewrite lookup_insert_ne; [done|congruence].
  - intros p n [b br j k Hb Hbl Hrj Hbd Hk -> Hf ->|b br Hb Hbl -> ->]; simpl in Hb;
      apply lookup_insert_Some in Hb as [[<- <-]|[Hne Hb]]; simpl in *; try done.
    + apply desc_at_inj in Hbd as <-. destruct Hf. unfold fset. rewrite decide_True by done.
      apply elem_of_blocks; [done|]. by exists k.
    + apply (live_small _ _ _ _ _ b br j k); try done. unfold fset in Hf. case_decide; [|done].
      subst. rewrite Hnil. apply not_elem_of_nil.
    + by apply (live_large _ _ _ _ _ b br).
Qed.

Lemma new_arena_ok h F i : heap_inv pf base h F -> 0 <= i < DESC_CNT -> F i = [] -> vroom pf (hv h) 1 ->
  wp (new_arena pf (desc_at base i)) (λ ok h', ok = true /\ exists a,
    heap_inv pf base h' (fset i (blocks a i) F) /\ keeps h F h' (fset i (blocks a i) F) /\
    (forall p n, live base h' (fset i (blocks a i) F) p n -> live base h F p n) /\ same_env h h') h.
Proof.
  intros Hi Hri Hnil Hroom.
  destruct (malloc_page_got pf (hv h) 1 (hi_vm _ _ _ _ Hi) (hi_active _ _ _ _ Hi)) as (r & s' & Hm & Hg); [lia|done|].
  pose proof (gp_range _ _ _ _ _ Hg) as [Hr Hend]. set (a := vpage pf (hv h) r) in *.
  destruct (vpage_in_range (hv h) pf r (hi_vm _ _ _ _ Hi) (hi_active _ _ _ _ Hi)) as [Hir Hal]; [lia|].
  fold a in Hir, Hal. unfold new_arena.
  apply wp_bind, wp_zoom. unfold wp at 1. rewrite Hm.
  destruct (Z.eqb_spec a 0) as [E|_]; [rewrite E in Hir; unfold in_range in Hir; lia|].
  apply wp_bind, wp_modify. pose proof (hi_descs _ _ _ _ Hi i Hri) as Hd.
  apply wp_bind. apply wp_rd_desc; [exact Hd|]. cbn [blocks_per_arena].
  apply wp_bind. eapply wp_wr_arena; [simpl; by rewrite lookup_insert_eq|].
  destruct (heap_inv_add h F s' r 1 (Arena (desc_at base i) 0 0) (l_cpu (cells h)) Hi Hg) as [Hnone Hi0];
    [lia|done|right; split_and!; [done|done|eauto]|]. fold a in Hnone, Hi0.
  set (h0 := MHeap _ _ _ _) in Hi0.
  apply wp_bind. do 2 apply wp_zoom. unfold wp at 1. rewrite intr_disable_eq. simpl.
  set (m0 := zero_cells (arena_cells a 1) (nodes (cells h))) in *.
  set (h2 := set_cells _ _). apply wp_bind.
  assert (Hdl0 : dlist m0 (fl i) (F i)) by (apply (hi_lists _ _ _ _ Hi0 i Hri)). rewrite Hnil in Hdl0.
  assert (Hh2 : arena_here h2 a i).
  { split; [exists (bcount i)|exact Hd|split; [done|]|done].
    - simpl. by rewrite lookup_insert_eq.
    - destruct (arena_addr h0 F a (Arena (desc_at base i) 0 0) Hi0) as (_ & H1 & _ & H2);
        [simpl; by rewrite lookup_insert_eq|]. rewrite small_pages in H2 by done. split; [done|lia]. }
  assert (Hnew : forall x, x ∈ blocks a i -> (x ∉ list_nodes (fl i) []) /\ is_Some (m0 !! x)).
  { intros x (k & Hk & ->)%elem_of_blocks; [|done]. pose proof (block_cell a i k Hal Hri Hk) as Hc. split.
    - intros Hx. eapply (node_not_in_run h F i (block_at a i k) (a / 4096) 1); try done.
      + rewrite Hnil. by intros a' ar' _ _ (y & ?%elem_of_nil & _).
      + intros y Hy. by eapply (got_desc_apart h F s' r 1).
      + by rewrite Hnil.
      + rewrite block_at_page by done. lia.
    - unfold m0. rewrite lookup_zero_cells, decide_True by done. eauto. }
  eapply wp_mono; [apply (split_arena_ok _ a i 0 h2 []); try done|].
  { destruct (bsize_facts i Hri). lia. }
  intros [] h3 (c3 & -> & Hdl3 & Hcpu3 & Hdom3 & Hout3). rewrite some_blocks_all in *. rewrite app_nil_l in Hdl3.
  assert (Hc2 : cells h2 = Lst (if IF_on (l_cpu (cells h)) then cli (l_cpu (cells h)) else l_cpu (cells h)) m0)
    by reflexivity.
  rewrite Hc2 in Hcpu3, Hdom3, Hout3. cbn [l_cpu nodes] in Hcpu3, Hdom3, Hout3. destruct (intr_bracket (l_cpu (cells h))) as [st Hst].
  apply wp_bind. do 2 apply wp_zoom. unfold wp at 1. cbn [cells set_cells]. rewrite Hcpu3, Hst. apply wp_ret.
  set (h4 := set_cells _ _). split; [done|]. exists a.
  assert (Hi4 : heap_inv pf base h4 (fset i (blocks a i) F)).
  { pose proof (heap_inv_list h0 F a (Arena (desc_at base i) 0 0) i (blocks a i) (nodes c3) (l_cpu (cells h)) Hi0 Hri) as Hx.
    rewrite (filter_all _ (blocks a i)), blocks_length in Hx
      by (done || (intros y Hy; by eapply blocks_in_page)).
    simpl in Hx. rewrite insert_insert_eq in Hx.
    replace h4 with (MHeap s' (descs h) (<[a := Arena (desc_at base i) (bcount i) 0]> (arenas h)) (Lst (l_cpu (cells h)) (nodes c3)))
      by (unfold h4, h2; simpl; by rewrite insert_insert_eq).
    apply Hx; try done.
    - by rewrite lookup_insert_eq.
    - intros x Hxs. apply elem_of_dom. rewrite Hdom3. by apply elem_of_dom.
    - intros x Hx1 Hx2. apply Hout3. rewrite elem_of_app. rewrite Hnil in Hx1. intros [Hb|Hb]; [|done].
      apply Hx2. apply elem_of_blocks in Hb as (k & Hk & ->); [|done].
      destruct (block_at_range a i k Hri Hk) as (? & ? & _). destruct (bsize_facts i Hri). lia.
    - auto.
    - intros a' Ha'. rewrite Hnil, filter_none; [done|]. intros x Hx' Hp.
      apply blocks_in_page in Hx'; [|done|done]. unfold in_page in *. congruence. }
  assert (Hlv : forall p n, live base h F p n -> forall x, p <= x < p + n -> nodes c3 !! x = nodes (cells h) !! x).
  { intros p n Hl x Hx. destruct (live_extent h F p n Hi Hl) as (b & br & Hb & X1 & X2 & X3).
    assert (Hna : x ∉ arena_cells a 1).
    { intros Hc%arena_cells_page; try done. destruct (arena_addr h F b br Hi Hb) as (Halb & _).
      destruct (got_apart h F s' r 1 b br Hi Hg Hb) as [Hs|Hs]; [lia|..]; fold a in Hs;
        unfold page_aligned in Halb; clear -Hx X1 X2 X3 Hc Hs Halb; dlia. }
    rewrite Hout3.
    - simpl. unfold m0. by rewrite lookup_zero_cells, decide_False.
    - rewrite elem_of_app. intros [Hbk|Hbk].
      + apply Hna. apply elem_of_blocks in Hbk as (k & Hk & ->); [|done]. by apply block_cell.
      + rewrite <- Hnil in Hbk. by eapply (live_not_node h F p n i x). }
  assert (Hh4 : h4 = MHeap s' (descs h) (<[a := Arena (desc_at base i) (bcount i) 0]> (arenas h)) (Lst (l_cpu (cells h)) (nodes c3)))
    by (unfold h4, h2; simpl; by rewrite insert_insert_eq).
  clearbody h4. subst h4.
  destruct (new_arena_live h F s' (l_cpu (cells h)) a i (nodes c3) Hi Hri Hnil Hnone Hlv Hi4) as [Hk Hb].
  split; [done|]. split; [done|]. split; [done|]. split; [apply (gp_same _ _ _ _ _ Hg)|done].
Qed.

(** The free blocks of one arena. *)
Lemma free_in_page h F a ar i x : heap_inv pf base h F -> arenas h !! a = Some ar -> a_large ar = 0 ->
  0 <= i < DESC_CNT -> a_desc ar = desc_at base i -> x ∈ F i -> in_page a x -> x ∈ blocks a i.
Proof.
  intros Hi Ha Hl Hri Hd Hx Hp.
  destruct (free_block h F i x Hi Hri Hx) as (a' & ar' & k & Ha' & Hd' & Hl' & Hk & E & Hp' & Hr & Hal').
  destruct (arena_addr h F a ar Hi Ha) as (Hal & _).
  assert (a' = a) as -> by (unfold in_page, page_aligned in *; clear -Hp Hp' Hal Hal'; dlia).
  apply elem_of_blocks; [done|]. by exists k.
Qed.

Lemma free_count h F a ar i : heap_inv pf base h F -> arenas h !! a = Some ar -> a_large ar = 0 ->
  0 <= i < DESC_CNT -> a_desc ar = desc_at base i ->
  filter (in_page a) (F i) ⊆+ blocks a i /\ zlen (filter (in_page a) (F i)) <= bcount i.
Proof.
  intros Hi Ha Hl Hri Hd.
  assert (Hs : filter (in_page a) (F i) ⊆+ blocks a i).
  { apply NoDup_submseteq.
    - apply list.NoDup_filter. eapply dlist_NoDup. by apply (hi_lists _ _ _ _ Hi).
    - intros x [Hp Hx]%list_elem_of_filter. by eapply free_in_page. }
  split; [done|]. apply submseteq_length in Hs. rewrite <- (blocks_length a i Hri). unfold zlen. lia.
Qed.

Lemma arena_cnt h F a ar i : heap_inv pf base h F -> arenas h !! a = Some ar -> a_large ar = 0 ->
  0 <= i < DESC_CNT -> a_desc ar = desc_at base i ->
  ar = Arena (desc_at base i) (zlen (filter (in_page a) (F i))) 0.
Proof.
  intros Hi Ha Hl Hri Hd. destruct (ao_kind _ _ _ _ _ _ (hi_arenas _ _ _ _ Hi a ar Ha)) as [j Hj Ej El Ec|? ?]; [|congruence].
  assert (i = j) as <- by (apply desc_at_inj; congruence). destruct ar; simpl in *; congruence.
Qed.

Lemma take_block_ok h F i x xs : heap_inv pf base h F -> 0 <= i < DESC_CNT -> F i = x :: xs ->
  wp (take_block (desc_at base i)) (λ p h', p = x /\ heap_inv pf base h' (fset i xs F) /\
    live base h' (fset i xs F) x (bsize i) /\ (forall n, ~ live base h F x n) /\
    keeps h F h' (fset i xs F) /\
    (forall q m, live base h' (fset i xs F) q m -> live base h F q m \/ q = x) /\
    (forall y, x <= y < x + bsize i -> (y - x) mod 8 = 0 -> nodes (cells h') !! y = Some (ListElem 0 0)) /\
    same_env h h') h.
Proof.
  intros Hi Hri Hx. assert (Hin : x ∈ F i) by (rewrite Hx; apply list_elem_of_here).
  destruct (free_block h F i x Hi Hri Hin) as (a & ar & k & Ha & Hd & Hl & Hk & Ex & Hp & Hr & Hal).
  pose proof (hi_lists _ _ _ _ Hi i Hri) as Hdl. rewrite Hx in Hdl.
  pose proof (dlist_NoDup _ _ _ Hdl) as Hnd. apply NoDup_cons in Hnd as [Hnx Hnd].
  destruct (bsize_facts i Hri) as (S1 & S2 & S3 & S4).
  destruct (block_at_range a i k Hri Hk) as (B1 & B2 & B3). rewrite <- Ex in B1, B2, B3.
  unfold take_block. apply wp_bind, wp_on_cells. eapply wp_mono; [by apply (list_pop_ok (fl i) x xs)|].
  intros p c (-> & Hdl' & Hcpu & Hdom & Hout). apply wp_bind. apply wp_rd_desc; [apply (hi_descs _ _ _ _ Hi i Hri)|].
  cbn [block_size]. apply wp_bind, wp_modify.
  assert (Hb2a : block2arena x = a).
  { destruct (arena_addr h F a ar Hi Ha) as (_ & Hia & _). apply block2arena_in; [done|done|lia]. }
  rewrite Hb2a. pose proof (arena_cnt h F a ar i Hi Ha Hl Hri Hd) as Har.
  destruct (free_count h F a ar i Hi Ha Hl Hri Hd) as [_ Hcb].
  assert (Hfc : zlen (filter (in_page a) (F i)) = 1 + zlen (filter (in_page a) xs)).
  { rewrite Hx, filter_cons_True by done. unfold zlen; simpl; lia. }
  apply wp_bind. unfold wp at 1, rd_arena, lift, of_option. cbn [arenas upd_nodes set_cells].
  rewrite Ha, Har. cbn [a_desc a_cnt a_large]. apply wp_bind. eapply wp_wr_arena; [exact Ha|]. apply wp_ret.
  replace (u32 (zlen (filter (in_page a) (F i)) - 1)) with (zlen (filter (in_page a) xs))
    by (pose proof (zlen_nonneg (filter (in_page a) xs)); rewrite u32_small; lia).
  set (m' := zero_cells (cell_range x (Z.to_nat (bsize i / 8))) (nodes c)).
  assert (Hrange : forall y, y ∈ cell_range x (Z.to_nat (bsize i / 8)) <-> x <= y < x + bsize i /\ (y - x) mod 8 = 0).
  { intros y. rewrite elem_of_cell_range, Z2Nat.id by dlia.
    replace (8 * (bsize i / 8)) with (bsize i) by (clear -S2; dlia). done. }
  assert (Hlook : forall y, y ∉ list_nodes (fl i) xs -> ~ (x <= y < x + bsize i) -> m' !! y = nodes (cells h) !! y).
  { intros y Hy Hy2. unfold m'. rewrite lookup_zero_cells, decide_False by (rewrite Hrange; tauto).
    by apply Hout. }
  pose proof (heap_inv_list h F a ar i xs m' (l_cpu c) Hi Hri Ha Hd Hl) as Hi'.
  assert (Hi2 : heap_inv pf base (MHeap (hv h) (descs h) (<[a := Arena (desc_at base i) (zlen (filter (in_page a) xs)) 0]> (arenas h))
    (Lst (l_cpu c) m')) (fset i xs F)).
  { apply Hi'.
    - intros y Hy. unfold m'. rewrite lookup_zero_cells. case_decide; [eauto|].
      apply elem_of_dom. rewrite Hdom. by apply elem_of_dom.
    - eapply dlist_ext; [|exact Hdl']. intros y Hy. unfold m'. rewrite lookup_zero_cells, decide_False; [done|].
      intros [Hyr _]%Hrange. destruct (block_node h F a ar i k i y Hi Ha Hl Hri Hd Hk Hri) as (E & _ & _).
      + rewrite <- Ex. done.
      + rewrite Hx. rewrite list_node_cases in *. rewrite elem_of_cons. tauto.
      + rewrite <- Ex in E. subst y. apply list_node_cases in Hy as [Hy|[Hy|Hy]]; [|done|];
          (eapply (desc_not_in_arena h F a ar x x); try done; [eapply (desc_at_range i); auto|rewrite small_pages by done; lia]).
    - intros y Hy1 Hy2. apply Hlook; [|lia]. rewrite Hx in Hy1. rewrite list_node_cases in *. rewrite elem_of_cons in Hy1. tauto.
    - intros y Hy. left. rewrite Hx. by apply elem_of_cons; right.
    - intros a' Ha'. rewrite Hx, filter_cons_False; [done|]. unfold in_page in *. congruence. }
  clear Hi'. set (h' := MHeap _ _ _ _) in Hi2.
  assert (Hnl : forall n, ~ live base h F x n).
  { intros n Hlv. destruct (live_extent h F x n Hi Hlv) as (_ & _ & _ & _ & Hn & _).
    apply (live_not_node h F x n i x Hi Hlv Hri); [lia|]. apply list_node_cases. auto. }
  destruct (same_kinds_insert h a (desc_at base i) (zlen (filter (in_page a) (F i))) (zlen (filter (in_page a) xs)) (hv h)
    (Lst (l_cpu c) m')) as [Hk1 Hk2]; [congruence|]. fold h' in Hk1, Hk2.
  assert (Hlive : live base h' (fset i xs F) x (bsize i)).
  { eapply (live_small _ _ _ _ _ a _ i k); [simpl; apply lookup_insert_eq|done|done|done|done|done| |done].
    unfold fset. by rewrite decide_True. }
  assert (Hkeep : forall q m, live base h F q m -> live base h' (fset i xs F) q m).
  { intros q m. apply live_kinds; [done|]. intros j Hrj Hq. unfold fset. case_decide as E; [subst|done].
    rewrite Hx in Hq. by apply not_elem_of_cons in Hq as [_ ?]. }
  split; [done|]. split; [done|]. split; [exact Hlive|]. split; [exact Hnl|]. split; [|split; [|split]].
  - intros q m Hq. split; [by apply Hkeep|]. intros y Hy. apply Hlook.
    + intros Hn. apply (live_not_node h F q m i y Hi Hq Hri Hy). rewrite Hx. rewrite list_node_cases in *.
      rewrite elem_of_cons. tauto.
    + intros Hyx. assert (Hne : q <> x) by (intros ->; by apply (Hnl m)).
      destruct (live_disjoint h' _ q m x (bsize i) Hi2 (Hkeep q m Hq) Hlive Hne); lia.
  - intros q m Hq. destruct (decide (q = x)) as [->|Hne]; [by right|left].
    eapply live_kinds; [exact Hk2| |exact Hq]. intros j Hrj. unfold fset. case_decide as E; [subst|done].
    rewrite Hx. intros Hn [?|?]%elem_of_cons; done.
  - intros y Hy1 Hy2. simpl. unfold m'. rewrite lookup_zero_cells, decide_True by (by apply Hrange). done.
  - split; [apply owner_refl|]. split; [exact Hcpu|done].
Qed.

(** *** The steps of [sys_free] *)

Lemma free_pages_run h a n : vm_wf (hv h) -> active pf (hv h) -> 1 <= n -> pages_held pf (hv h) a n ->
  wp (free_pages pf a n) (λ _ h', exists s' r, a = vpage pf (hv h) r /\ gave_pages pf (hv h) s' r n /\
    h' = MHeap s' (descs h) (delete a (arenas h))
           (Lst (l_cpu (cells h)) (drop_cells (arena_cells a n) (nodes (cells h))))) h.
Proof.
  intros Hwf Hact Hn (r & fs & Hr & Hend & -> & Hfs & Hheld). unfold free_pages.
  apply wp_bind, wp_zoom. eapply wp_mono; [by apply (mfree_page_gave pf (hv h) r n fs)|].
  intros [] s' Hg. apply wp_modify. by exists s', r.
Qed.

Lemma remove_arena_ok h F a ar : heap_inv pf base h F -> arenas h !! a = Some ar ->
  (forall i x, 0 <= i < DESC_CNT -> x ∈ F i -> ~ in_page a x) ->
  wp (free_pages pf a (arena_pages ar)) (λ _ h', heap_inv pf base h' F /\
    arenas h' = delete a (arenas h) /\ descs h' = descs h /\ same_env h h' /\
    forall y, y ∉ arena_cells a (arena_pages ar) -> nodes (cells h') !! y = nodes (cells h) !! y) h.
Proof.
  intros Hi Ha Hno. destruct (hi_arenas _ _ _ _ Hi a ar Ha) as [_ Hn Hheld _ _].
  eapply wp_mono; [apply (free_pages_run h a (arena_pages ar)); try apply Hi; [lia|done]|].
  intros [] h' (s' & r & Er & Hg & ->). split; [by eapply heap_inv_remove|]. simpl.
  split; [done|]. split; [done|]. split.
  - split; [apply (gv_same _ _ _ _ _ Hg)|done].
  - intros y Hy. by rewrite lookup_drop_cells, decide_False.
Qed.

(** Objects outside the arena [a] are the objects once it is gone. *)
Lemma live_delete h F a ar h' F' p n : heap_inv pf base h F -> arenas h !! a = Some ar ->
  arenas h' = delete a (arenas h) ->
  (forall i, 0 <= i < DESC_CNT -> ~ (a <= p < a + 4096 * arena_pages ar) -> p ∈ F i <-> p ∈ F' i) ->
  live base h' F' p n <-> live base h F p n /\ ~ (a <= p < a + 4096 * arena_pages ar).
Proof.
  intros Hi Ha Hd HF. split.
  - intros Hl. assert (Hp : exists b br, b <> a /\ arenas h !! b = Some br /\ b <= p < b + 4096 * arena_pages br).
    { destruct Hl as [b br i k Hb Hl Hri Hbd Hk -> Hf ->|b br Hb Hl -> ->]; rewrite Hd in Hb;
        apply lookup_delete_Some in Hb as [Hne Hb]; exists b, br; (split; [done|]); (split; [done|]).
      - destruct (block_at_range b i k Hri Hk) as (B1 & B2 & _). destruct (bsize_facts i Hri).
        rewrite small_pages by done. lia.
      - pose proof (ao_pages _ _ _ _ _ _ (hi_arenas _ _ _ _ Hi b br Hb)). unfold sizeof_arena. lia. }
    destruct Hp as (b & br & Hne & Hb & Hpb).
    assert (Hout : ~ (a <= p < a + 4096 * arena_pages ar)).
    { intros Hpa. apply Hne. by eapply (arenas_apart h F b a br ar p). }
    split; [|done]. destruct Hl as [b' br' i k Hb' Hl Hri Hbd Hk -> Hf ->|b' br' Hb' Hl -> ->]; rewrite Hd in Hb';
      apply lookup_delete_Some in Hb' as [_ Hb'].
    + apply (live_small _ _ _ _ _ b' br' i k); try done. by rewrite HF.
    + by apply (live_large _ _ _ _ _ b' br').
  - intros [Hl Hout]. destruct Hl as [b br i k Hb Hl Hri Hbd Hk -> Hf ->|b br Hb Hl -> ->].
    + apply (live_small _ _ _ _ _ b br i k); try done; [|by rewrite <- HF].
      rewrite Hd, lookup_delete_ne; [done|]. intros <-. apply Hout. assert (br = ar) as -> by congruence.
      destruct (block_at_range a i k Hri Hk) as (B1 & B2 & _). destruct (bsize_facts i Hri).
      rewrite small_pages by done. lia.
    + apply (live_large _ _ _ _ _ b br); try done. rewrite Hd, lookup_delete_ne; [done|]. intros <-. apply Hout.
      assert (br = ar) as -> by congruence.
      pose proof (ao_pages _ _ _ _ _ _ (hi_arenas _ _ _ _ Hi a ar Hb)). unfold sizeof_arena. lia.
Qed.

(** A cell of an arena is not in an object of another one. *)
Lemma cell_apart h F a ar p n y : heap_inv pf base h F -> arenas h !! a = Some ar -> live base h F p n ->
  ~ (a <= p < a + 4096 * arena_pages ar) -> p <= y < p + n -> ~ (a <= y < a + 4096 * arena_pages ar).
Proof.
  intros Hi Ha Hl Hout Hy Hya. destruct (live_extent h F p n Hi Hl) as (b & br & Hb & X1 & X2 & X3).
  assert (a = b) as <-; [|assert (br = ar) as -> by congruence; lia].
  eapply (arenas_apart h F a b ar br y); try done. lia.
Qed.

(** Taking the blocks of a wholly free arena out of the list and releasing its
    page. *)
Lemma drop_arena_ok h F a i : heap_inv pf base h F -> 0 <= i < DESC_CNT ->
  arenas h !! a = Some (Arena (desc_at base i) (bcount i) 0) -> (forall x, x ∈ blocks a i -> x ∈ F i) ->
  wp (unsplit_arena (Z.to_nat (bcount i)) a 0;; free_pages pf a 1) (λ _ h', exists F',
    heap_inv pf base h' F' /\ keeps h F h' F' /\ (forall q m, live base h' F' q m -> live base h F q m) /\
    same_env h h') h.
Proof.
  intros Hi Hri Ha Hall. set (ar := Arena (desc_at base i) (bcount i) 0) in *.
  destruct (arena_addr h F a ar Hi Ha) as (Hal & Hia & _ & Hend). rewrite small_pages in Hend by done.
  assert (Hh : arena_here h a i).
  { split; [by exists (bcount i)|apply (hi_descs _ _ _ _ Hi i Hri)|split; [done|split; [done|lia]]|done]. }
  apply wp_bind. eapply wp_mono; [apply (unsplit_arena_ok _ a i 0 h (F i) Hh)|].
  { lia. } { destruct (bsize_facts i Hri). lia. } { by apply (hi_lists _ _ _ _ Hi). }
  { rewrite some_blocks_all. done. }
  intros [] h1 (c & ys & -> & Hdl & Hys & Hcnt & Hcpu & Hdom & Hout). rewrite some_blocks_all in *.
  assert (Hz : filter (in_page a) ys = []).
  { apply filter_none. intros x Hx Hp. apply Hys in Hx as [Hx Hnb]. apply Hnb.
    by apply (free_in_page h F a ar i x). }
  pose proof (heap_inv_list h F a ar i ys (nodes c) (l_cpu c) Hi Hri Ha eq_refl eq_refl) as Hi2.
  rewrite Hz in Hi2. change (zlen []) with 0 in Hi2.
  assert (Hi3 : heap_inv pf base (MHeap (hv h) (descs h) (<[a := Arena (desc_at base i) 0 0]> (arenas h)) (Lst (l_cpu c) (nodes c)))
    (fset i ys F)).
  { apply Hi2; try done.
    - intros x Hx. apply elem_of_dom. rewrite Hdom. by apply elem_of_dom.
    - intros x Hx _. by apply Hout.
    - intros x Hx. apply Hys in Hx as [? _]. by left.
    - intros a' Ha'. by rewrite Hcnt. }
  clear Hi2. set (h2 := MHeap _ _ _ _) in Hi3.
  assert (Hno : forall j x, 0 <= j < DESC_CNT -> x ∈ fset i ys F j -> ~ in_page a x).
  { intros j x Hrj Hx Hp. unfold fset in Hx. case_decide as E.
    - subst. assert (Hf : x ∈ filter (in_page a) ys) by (by apply list_elem_of_filter). rewrite Hz in Hf.
      by apply elem_of_nil in Hf.
    - destruct (free_block h F j x Hi Hrj Hx) as (b & br & k & Hb & Hbd & _ & _ & _ & Hpb & _ & Halb).
      assert (b = a) as -> by (unfold in_page, page_aligned in *; clear -Hp Hpb Hal Halb; dlia).
      rewrite Ha in Hb. injection Hb as <-. apply E. symmetry. apply desc_at_inj. done. }
  assert (Ha2 : arenas h2 !! a = Some (Arena (desc_at base i) 0 0)) by (simpl; by rewrite lookup_insert_eq).
  pose proof (remove_arena_ok h2 (fset i ys F) a (Arena (desc_at base i) 0 0) Hi3 Ha2 Hno) as Hrm.
  rewrite small_pages in Hrm by done.
  assert (Hsame : free_pages pf a 1 (set_cells c h) = free_pages pf a 1 h2).
  { unfold free_pages, mbind, M_bind, on_vm, zoom. simpl. destruct (mfree_page pf a 1 (hv h)) as [[[] s']| | | |]; try done.
    unfold modify, upd_nodes, set_arenas, set_cells, set_hv. simpl. do 3 f_equal. by rewrite delete_insert_eq. }
  unfold wp in Hrm |- *. rewrite Hsame. destruct (free_pages pf a 1 h2) as [[[] h3]| | | |]; try done.
  destruct Hrm as (Hi4 & Har & Hds & [Ho Hc3] & Hnd). exists (fset i ys F). split; [done|].
  assert (Hdel : arenas h3 = delete a (arenas h)) by (rewrite Har; simpl; by rewrite delete_insert_eq).
  assert (Hlv : forall q m, live base h3 (fset i ys F) q m <->
    live base h F q m /\ ~ (a <= q < a + 4096 * arena_pages ar)).
  { intros q m. apply (live_delete h F a ar h3 (fset i ys F) q m Hi Ha Hdel).
    intros j Hrj Hq. unfold fset. case_decide as E; [subst j|done]. rewrite Hys.
    split; [|by intros [? _]]. intros Hf. split; [done|]. intros (k & Hk & ->)%elem_of_blocks; [|done]. apply Hq.
    destruct (block_at_range a i k Hri Hk) as (B1 & B2 & _). destruct (bsize_facts i Hri).
    rewrite small_pages by done. lia. }
  split; [|split].
  - intros q m Hq. assert (Hqa : ~ (a <= q < a + 4096 * arena_pages ar)).
    { intros Hqr. destruct (live_in_arena h F a ar q m Hi Ha Hq Hqr) as [(_ & j & k & Hrj & Hd & Hk & -> & ->)|(? & _)]; [|done].
      apply desc_at_inj in Hd as <-. destruct (bsize_facts i Hri).
      apply (live_not_node h F (block_at a i k) (bsize i) i (block_at a i k) Hi Hq Hri); [lia|].
      apply list_node_cases. right. left. apply Hall. apply elem_of_blocks; [done|]. by exists k. }
    split; [by apply Hlv|]. intros y Hy. rewrite Hnd.
    + simpl. apply Hout. by apply (live_not_node h F q m i y Hi Hq).
    + intros Hc. apply (cell_apart h F a ar q m y Hi Ha Hq Hqa Hy). rewrite small_pages by done.
      apply elem_of_arena_cells in Hc as [Hc _]; [lia|lia|done].
  - intros q m Hq. by apply Hlv in Hq as [? _].
  - split; [exact Ho|]. destruct Hc3 as [-> Hd3]. split; [exact Hcpu|done].
Qed.

(** *** A block comes back *)

Lemma put_node_fresh h F a ar i k : heap_inv pf base h F -> arenas h !! a = Some ar -> a_large ar = 0 ->
  0 <= i < DESC_CNT -> a_desc ar = desc_at base i -> 0 <= k < bcount i -> block_at a i k ∉ F i ->
  (block_at a i k ∉ list_nodes (fl i) (F i)) /\ is_Some (nodes (cells h) !! block_at a i k).
Proof.
  intros Hi Ha Hl Hri Hd Hk Hnf. destruct (bsize_facts i Hri).
  destruct (arena_addr h F a ar Hi Ha) as (Hal & _). split.
  - intros Hn. destruct (block_node h F a ar i k i (block_at a i k) Hi Ha Hl Hri Hd Hk Hri) as (_ & _ & ?); [lia|done|done].
  - apply (ao_cells _ _ _ _ _ _ (hi_arenas _ _ _ _ Hi a ar Ha)). rewrite small_pages by done. by apply block_cell.
Qed.

(** The state after the append and the increment of [cnt]. *)
Lemma put_state h F a i k c : heap_inv pf base h F -> 0 <= i < DESC_CNT -> 0 <= k < bcount i ->
  arenas h !! a = Some (Arena (desc_at base i) (zlen (filter (in_page a) (F i))) 0) ->
  let p := block_at a i k in p ∉ F i ->
  dlist (nodes c) (fl i) (F i ++ [p]) -> framed (p :: list_nodes (fl i) (F i)) (cells h) c ->
  let h' := MHeap (hv h) (descs h)
    (<[a := Arena (desc_at base i) (zlen (filter (in_page a) (F i)) + 1) 0]> (arenas h)) c in
  let F' := fset i (F i ++ [p]) F in
  heap_inv pf base h' F' /\
  (forall q m, live base h F q m -> q <> p -> live base h' F' q m /\ same_contents h h' q m) /\
  (forall q m, live base h' F' q m -> live base h F q m /\ q <> p).
Proof.
  intros Hi Hri Hk Ha p Hnf Hdl (Hcpu & Hdom & Hout) h' F'. set (ar := Arena _ _ _) in Ha.
  destruct (arena_addr h F a ar Hi Ha) as (Hal & _).
  destruct (block_at_range a i k Hri Hk) as (B1 & B2 & B3). fold p in B1, B2, B3. destruct (bsize_facts i Hri) as (S1 & S2 & S3 & S4).
  assert (Hpa : in_page a p) by (by apply block_at_page).
  assert (Hfc : zlen (filter (in_page a) (F i ++ [p])) = zlen (filter (in_page a) (F i)) + 1).
  { rewrite filter_app, zlen_app. f_equal. by rewrite filter_cons_True. }
  assert (Hi' : heap_inv pf base h' F').
  { pose proof (heap_inv_list h F a ar i (F i ++ [p]) (nodes c) (l_cpu c) Hi Hri Ha eq_refl eq_refl) as Hx.
    rewrite Hfc in Hx. destruct c as [cc cn]. apply Hx; simpl in *; try done.
    - intros x Hs. apply elem_of_dom. rewrite Hdom. by apply elem_of_dom.
    - intros x Hx1 Hx2. apply Hout. rewrite elem_of_cons. intros [->|?]; [lia|done].
    - intros x [?|Hx1]%elem_of_app; [by left|right]. apply list_elem_of_singleton in Hx1 as ->. apply elem_of_blocks; [done|]. by exists k.
    - intros a' Ha'. rewrite filter_app, zlen_app, (filter_cons_False _ p); [unfold zlen; simpl; lia|].
      unfold in_page in *. congruence. }
  destruct (same_kinds_insert h a (desc_at base i) (zlen (filter (in_page a) (F i))) (zlen (filter (in_page a) (F i)) + 1)
    (hv h) c Ha) as [Hk1 Hk2]. fold h' in Hk1, Hk2.
  assert (Hp : live base h F p (bsize i)) by (by apply (live_small _ _ _ _ _ a ar i k)).
  split; [done|]. split.
  - intros q m Hq Hne. split.
    + apply (live_kinds h F); [done| |done]. intros j Hrj Hn. unfold F', fset. case_decide; [subst|done].
      rewrite elem_of_app, list_elem_of_singleton. tauto.
    + intros y Hy. simpl. apply Hout. rewrite elem_of_cons. intros [->|Hn].
      * destruct (live_disjoint h F q m p (bsize i) Hi Hq Hp Hne); lia.
      * by apply (live_not_node h F q m i y Hi Hq Hri).
  - intros q m Hq. assert (Hne : q <> p).
    { intros ->. destruct (live_extent h' F' p m Hi' Hq) as (_ & _ & _ & _ & ? & _).
      apply (live_not_node h' F' p m i p Hi' Hq Hri); [lia|]. apply list_node_cases. right. left.
      unfold F', fset. rewrite decide_True by done. apply elem_of_app. right. by apply list_elem_of_singleton. }
    split; [|done]. apply (live_kinds h' F'); [done| |done]. intros j Hrj Hn. unfold F', fset in Hn.
    case_decide; [subst|done]. rewrite elem_of_app in Hn. tauto.
Qed.

Lemma put_block_ok h F a ar i k : heap_inv pf base h F -> arenas h !! a = Some ar -> a_large ar = 0 ->
  0 <= i < DESC_CNT -> a_desc ar = desc_at base i -> 0 <= k < bcount i ->
  let p := block_at a i k in p ∉ F i ->
  wp (put_block pf a p) (λ _ h', exists F', heap_inv pf base h' F' /\
    (forall q m, live base h F q m -> q <> p -> live base h' F' q m /\ same_contents h h' q m) /\
    (forall q m, live base h' F' q m -> live base h F q m /\ q <> p) /\ same_env h h') h.
Proof.
  intros Hi Ha Hl Hri Hd Hk p Hnf. pose proof (arena_cnt h F a ar i Hi Ha Hl Hri Hd) as Har.
  destruct (free_count h F a ar i Hi Ha Hl Hri Hd) as [_ Hcb].
  destruct (put_node_fresh h F a ar i k Hi Ha Hl Hri Hd Hk Hnf) as [Hfresh Hsome]. fold p in Hfresh, Hsome.
  destruct (bsize_facts i Hri) as (_ & _ & S3 & _). pose proof (zlen_nonneg (filter (in_page a) (F i))) as Hnn.
  subst ar. cbn [a_desc a_large] in *. set (n := zlen (filter (in_page a) (F i))) in *.
  unfold put_block. apply wp_bind. unfold wp at 1, rd_arena, lift, of_option. rewrite Ha. cbn [a_desc].
  apply wp_bind, wp_on_cells. eapply wp_mono; [by apply (list_append_ok (fl i) (F i)); [apply (hi_lists _ _ _ _ Hi)|..]|].
  intros [] c [Hdl Hf]. apply wp_bind. unfold wp at 1, rd_arena, lift, of_option. cbn [arenas set_cells]. rewrite Ha.
  cbn [a_desc a_cnt a_large]. rewrite u32_small by lia. apply wp_bind. eapply wp_wr_arena; [exact Ha|].
  apply wp_bind. apply wp_rd_desc; [apply (hi_descs _ _ _ _ Hi i Hri)|]. cbn [blocks_per_arena].
  destruct (put_state h F a i k c Hi Hri Hk Ha Hnf Hdl Hf) as (Hi' & Hfw & Hbw). fold p n in Hi', Hfw, Hbw.
  set (h1 := set_arenas _ _). change (MHeap _ _ _ _) with h1 in Hi', Hfw, Hbw.
  set (F1 := fset i (F i ++ [p]) F) in *.
  assert (Henv1 : same_env h h1) by (split; [apply owner_refl|split; [apply Hf|done]]).
  destruct (Z.eqb_spec (n + 1) (bcount i)) as [E|Hne].
  - assert (Ha1 : arenas h1 !! a = Some (Arena (desc_at base i) (bcount i) 0)) by (simpl; rewrite lookup_insert_eq, E; done).
    destruct (free_count h1 F1 a _ i Hi' Ha1 eq_refl Hri eq_refl) as [Hsub _].
    assert (Hall : forall x, x ∈ blocks a i -> x ∈ F1 i).
    { intros x Hx. assert (Hperm : filter (in_page a) (F1 i) ≡ₚ blocks a i).
      { apply submseteq_length_Permutation; [done|].
        pose proof (blocks_length a i Hri) as Hbl.
        pose proof (arena_cnt h1 F1 a _ i Hi' Ha1 eq_refl Hri eq_refl) as Hc1. injection Hc1 as Hc1.
        unfold zlen in *. lia. }
      rewrite <- Hperm in Hx. by apply list_elem_of_filter in Hx as [_ ?]. }
    eapply wp_mono; [by apply (drop_arena_ok h1 F1 a i)|].
    intros [] h2 (F2 & Hi2 & Hk2 & Hb2 & [Ho2 [Hc2 Hd2]]). exists F2. split; [done|]. split; [|split].
    + intros q m Hq Hqp. destruct (Hfw q m Hq Hqp) as [Hq1 Hs1]. destruct (Hk2 q m Hq1) as [Hq2 Hs2].
      split; [done|]. intros y Hy. rewrite Hs2, Hs1; done.
    + intros q m Hq. by apply Hbw, Hb2.
    + destruct Henv1 as [O1 [C1 D1]]. split; [by eapply owner_trans|]. split; congruence.
  - apply wp_ret. exists F1. done.
Qed.

(** *** The descriptor that fits *)

Lemma fit_desc_ok n : forall h idx size, 0 <= idx -> idx + Z.of_nat n = DESC_CNT -> 1 <= size <= 1024 ->
  (forall i, 0 <= i < DESC_CNT -> descs h !! desc_at base i = Some (Desc (bsize i) (bcount i))) ->
  (0 < n)%nat ->
  wp (fit_desc n base idx size) (λ i h', h' = h /\ idx <= i < DESC_CNT /\ size <= bsize i /\
    forall j, idx <= j < i -> bsize j < size) h.
Proof.
  induction n as [|n IH]; intros h idx size Hidx Hn Hsz Hd Hpos; [lia|].
  cbn [fit_desc]. apply wp_bind. change (base + sizeof_desc * idx) with (desc_at base idx).
  apply wp_rd_desc; [apply Hd; lia|]. cbn [block_size].
  destruct (Z.leb_spec size (bsize idx)) as [Hle|Hgt].
  - apply wp_ret. split_and!; [done|lia|lia|done|]. intros j Hj. lia.
  - destruct (decide (n = 0%nat)) as [->|Hn0].
    { exfalso. assert (idx = 6) as -> by (unfold DESC_CNT in Hn; lia). change (bsize 6) with 1024 in Hgt. lia. }
    eapply wp_mono; [apply (IH h (idx + 1) size); try done; lia|].
    intros i h' (-> & Hi & Hsi & Hmin). split_and!; [done|lia|lia|done|].
    intros j Hj. destruct (decide (j = idx)) as [->|]; [done|]. apply Hmin. lia.
Qed.

(** *** The lock *)

Lemma relock_reserved k s va : reserved (relock pf k s) va <-> reserved s va.
Proof.
  unfold reserved. split; intros H q i Hq Hi Hp.
  - rewrite <- (relock_active pf k s q) in Hq. specialize (H q i Hq).
    unfold vcount, vpage, vbits in *. rewrite relock_vpool in H. by apply H.
  - apply relock_active in Hq. specialize (H q i Hq). unfold vcount, vpage, vbits in *.
    rewrite relock_vpool in *. by apply H.
Qed.

Lemma relock_held k s va f : page_held pf s va f -> page_held pf (relock pf k s) va f.
Proof.
  intros [H1 H2 H3 H4 H5 H6]. split; [done|by rewrite relock_mmu|by apply relock_reserved| | |].
  - destruct H4 as (i & Hi & E). exists i. unfold relock. rewrite mem_pool_set. done.
  - intros (i & Hi & Hp & E). apply H5. exists i. unfold tframe in *. rewrite relock_pdir in *. done.
  - by destruct (relock_same pf k s) as (_ & -> & _).
Qed.

Lemma heap_inv_relock h F k : heap_inv pf base h F -> heap_inv pf base (set_hv (relock pf k (hv h)) h) F.
Proof.
  intros [H1 H2 H3 H4 H5 H6 H7 H8 H9]. split; simpl; try done.
  - by apply vm_wf_relock.
  - by apply relock_active.
  - intros x Hx. destruct (H4 x Hx). split; [done|]. by apply relock_reserved.
  - intros a ar Ha. destruct (H7 a ar Ha) as [K P (r & fs & R1 & R2 & R3 & R4 & R5) C D]. split; simpl; try done.
    exists r, fs. unfold vcount, vpage, vbits in *. rewrite relock_vpool. split_and!; try done.
    intros j f Hj. apply relock_held. by apply R5.
Qed.

Lemma live_relock h F k p n : live base (set_hv (relock pf k (hv h)) h) F p n <-> live base h F p n.
Proof. split; apply live_kinds; try done; intros a ar Ha; by exists ar. Qed.

Lemma relock_size k s q : pool_size (mem_pool q (relock pf k s)) = pool_size (mem_pool q s).
Proof. unfold relock, set_pool, mem_pool. by destruct (is_kernel pf), (is_kernel q). Qed.

Lemma wp_acquire h (Q : unit -> mheap -> Prop) k :
  Seq.lock_acquire (me (hv h)) (plock_of pf (hv h)) = Ok k ->
  Q tt (set_hv (relock pf k (hv h)) h) -> wp (on_vm (acquire pf)) Q h.
Proof. intros Hk HQ. apply wp_zoom. by eapply acquire_ok. Qed.

(** Release after work that kept the lock and its owner. *)
Lemma wp_release h0 h k lk (Q : unit -> mheap -> Prop) :
  same_owner pf (relock pf k (hv h0)) (hv h) ->
  Seq.lock_release (me (hv h0)) k = Ok (None, lk) ->
  Q tt (set_hv (relock pf lk (hv h)) h) -> wp (on_vm (release pf)) Q h.
Proof.
  intros [_ _ _ Em El _] Hr HQ. apply wp_zoom. eapply release_ok; [|exact HQ].
  destruct (relock_same pf k (hv h0)) as (_ & _ & _ & _ & Em0). rewrite Em, El, Em0.
  unfold plock_of, relock. rewrite mem_pool_set. exact Hr.
Qed.

(** *** Large objects *)

Lemma large_live h F a n p m s' c m' : arenas h !! a = None ->
  let h' := MHeap s' (descs h) (<[a := Arena 0 n 1]> (arenas h)) (Lst c m') in
  live base h' F p m <-> live base h F p m \/ (p = a + sizeof_arena /\ m = 4096 * n - sizeof_arena).
Proof.
  intros Hnone h'. split.
  - intros [b br i k Hb Hl Hri Hd Hk -> Hf ->|b br Hb Hl -> ->]; simpl in Hb;
      apply lookup_insert_Some in Hb as [[<- <-]|[Hne Hb]]; simpl in *; try done; [|by right|].
    + left. by apply (live_small _ _ _ _ _ b br i k).
    + left. by apply (live_large _ _ _ _ _ b br).
  - intros [[b br i k Hb Hl Hri Hd Hk -> Hf ->|b br Hb Hl -> ->]|[-> ->]].
    + apply (live_small _ _ _ _ _ b br i k); try done. simpl. rewrite lookup_insert_ne; [done|congruence].
    + apply (live_large _ _ _ _ _ b br); try done. simpl. rewrite lookup_insert_ne; [done|congruence].
    + apply (live_large _ _ _ _ _ a (Arena 0 n 1)); try done. simpl. apply lookup_insert_eq.
Qed.

Lemma big_alloc_ok h F n : heap_inv pf base h F -> 1 <= n < 3840 -> vroom pf (hv h) n ->
  exists a h', heap_inv pf base h' F /\ a <> 0 /\
    (forall (Q : Z -> mheap -> Prop) f e,
       wp (f a) Q h' -> wp (a ← on_vm (malloc_page pf n);
         if negb (a =? 0) then clear_pages a n;; wr_arena a (Arena 0 n 1);; f a else e) Q h) /\
    live base h' F (a + sizeof_arena) (4096 * n - sizeof_arena) /\
    (forall m, ~ live base h F (a + sizeof_arena) m) /\ keeps h F h' F /\
    (forall q m, live base h' F q m -> live base h F q m \/ q = a + sizeof_arena) /\
    (forall y, y ∈ arena_cells a n -> nodes (cells h') !! y = Some (ListElem 0 0)) /\
    page_aligned a /\ same_env h h'.
Proof.
  intros Hi Hn Hroom.
  destruct (malloc_page_got pf (hv h) n (hi_vm _ _ _ _ Hi) (hi_active _ _ _ _ Hi) Hn Hroom) as (r & s' & Hm & Hg).
  destruct (gp_range _ _ _ _ _ Hg) as [Hr Hend]. set (a := vpage pf (hv h) r) in *.
  destruct (vpage_in_range (hv h) pf r (hi_vm _ _ _ _ Hi) (hi_active _ _ _ _ Hi)) as [Hir Hal]; [lia|].
  fold a in Hir, Hal.
  destruct (heap_inv_add h F s' r n (Arena 0 n 1) (l_cpu (cells h)) Hi Hg Hn) as [Hnone Hi']; [done|by left|].
  fold a in Hnone, Hi'. set (h' := MHeap _ _ _ _) in Hi'. exists a, h'.
  assert (Hll := λ p m, large_live h F a n p m s' (l_cpu (cells h)) (zero_cells (arena_cells a n) (nodes (cells h))) Hnone).
  simpl in Hll. fold h' in Hll.
  assert (Hlarge : live base h' F (a + sizeof_arena) (4096 * n - sizeof_arena)) by (apply Hll; by right).
  assert (Hnl : forall m, ~ live base h F (a + sizeof_arena) m).
  { intros m Hl. destruct (live_extent h F _ _ Hi Hl) as (b & br & Hb & X1 & X2 & X3).
    assert (Hb' : arenas h' !! b = Some br) by (simpl; rewrite lookup_insert_ne; [done|congruence]).
    assert (b = a); [|congruence].
    apply (arenas_apart h' F b a br (Arena 0 n 1) (a + sizeof_arena) Hi' Hb'); [simpl; apply lookup_insert_eq|lia|].
    unfold arena_pages, sizeof_arena; simpl. lia. }
  split; [done|]. split; [unfold in_range in Hir; lia|]. split.
  { intros Q f e Hf. apply wp_bind, wp_zoom. unfold wp at 1. rewrite Hm.
    destruct (Z.eqb_spec a 0) as [E|_]; [rewrite E in Hir; unfold in_range in Hir; lia|]. cbn [negb].
    apply wp_bind, wp_modify. apply wp_bind. eapply wp_wr_arena; [simpl; apply lookup_insert_eq|].
    replace (set_arenas _ _) with h'; [done|]. unfold h', set_arenas, upd_nodes, set_cells, set_hv; simpl.
    by rewrite insert_insert_eq. }
  split; [done|]. split; [done|]. split; [|split; [|split; [|split]]].
  - intros q m Hq. assert (Hq' : live base h' F q m) by (apply Hll; by left). split; [done|]. intros y Hy.
    simpl. rewrite lookup_zero_cells, decide_False; [done|]. intros Hc%elem_of_arena_cells; [|lia|done].
    assert (Hne : q <> a + sizeof_arena) by (intros ->; by apply (Hnl m)).
    destruct (live_disjoint h' F q m _ _ Hi' Hq' Hlarge Hne); unfold sizeof_arena in *; lia.
  - intros q m [?|[-> _]]%Hll; auto.
  - intros y Hy. simpl. by rewrite lookup_zero_cells, decide_True.
  - done.
  - split; [apply (gp_same _ _ _ _ _ Hg)|done].
Qed.

(** *** Allocation as a whole *)

(** [p], of [n] bytes, is new, zeroed, and the only change to what is live. *)
Record alloc_post h F h' F' p n : Prop := {
  ap_inv : heap_inv pf base h' F';
  ap_live : live base h' F' p n;
  ap_new : forall m, ~ live base h F p m;
  ap_keep : keeps h F h' F';
  ap_old : forall q m, live base h' F' q m -> live base h F q m \/ q = p;
  ap_zero : forall y, p <= y -> y + 8 <= p + n -> (y - p) mod 8 = 0 ->
    nodes (cells h') !! y = Some (ListElem 0 0);
  ap_env : same_env h h'
}.

Lemma alloc_nonzero h F h' F' p n : alloc_post h F h' F' p n -> p <> 0.
Proof.
  intros [Hi Hl _ _ _ _ _]. destruct (live_extent h' F' p n Hi Hl) as (a & ar & Ha & X1 & _).
  destruct (arena_addr h' F' a ar Hi Ha) as (_ & _ & ? & _). lia.
Qed.

(** Work between taking and giving back the lock. *)
Lemma alloc_relock h F k k' h1 F1 p n :
  alloc_post (set_hv (relock pf k (hv h)) h) F h1 F1 p n ->
  let h' := set_hv (relock pf k' (hv h1)) h1 in
  heap_inv pf base h' F1 /\ live base h' F1 p n /\ (forall m, ~ live base h F p m) /\
  (forall q m, live base h F q m -> live base h' F1 q m /\ same_contents h h' q m /\ (p + n <= q \/ q + m <= p)) /\
  (forall q m, live base h' F1 q m -> live base h F q m \/ q = p) /\
  (forall y, p <= y -> y + 8 <= p + n -> (y - p) mod 8 = 0 -> nodes (cells h') !! y = Some (ListElem 0 0)) /\
  plock_of pf (hv h') = k'.
Proof.
  intros [Hi Hl Hnew Hk Ho Hz He] h'. pose proof (heap_inv_relock h1 F1 k' Hi) as Hi'.
  assert (Hl' : live base h' F1 p n) by (by apply live_relock).
  assert (Hnew' : forall m, ~ live base h F p m) by (intros m Hx; apply (Hnew m); by apply live_relock).
  split; [done|]. split; [done|]. split; [done|]. split; [|split; [|split; [done|]]].
  - intros q m Hq. destruct (Hk q m) as [H1 H2]; [by apply live_relock|].
    assert (H1' : live base h' F1 q m) by (by apply live_relock). split; [done|]. split; [done|].
    apply (live_disjoint h' F1 p n q m Hi' Hl' H1'). intros ->. by apply (Hnew' m).
  - intros q m Hq. apply live_relock in Hq. destruct (Ho q m Hq) as [Hx|]; [left; by apply live_relock in Hx|by right].
  - simpl. unfold plock_of, relock. by rewrite mem_pool_set.
Qed.

Lemma small_alloc_ok h F size (Q : Z -> mheap -> Prop) (g : Z -> M mheap Z) e : heap_inv pf base h F -> 1 <= size <= 1024 ->
  vroom pf (hv h) 1 ->
  (forall p n h' F', alloc_post h F h' F' p n -> size <= n -> wp (g p) Q h') ->
  wp (desc_idx ← fit_desc (Z.to_nat DESC_CNT) base 0 size;
      let desc := base + sizeof_desc * desc_idx in
      empty ← on_cells (list_empty (free_list desc));
      ok ← (if (empty : bool) then new_arena pf desc else mret true);
      if negb ok then e else (b ← take_block desc; g b)) Q h.
Proof.
  intros Hi Hsz Hroom Hg. apply wp_bind.
  eapply wp_mono; [apply (fit_desc_ok _ h 0 size); try done; [apply (hi_descs _ _ _ _ Hi)|vm_compute; lia]|].
  intros i h' (-> & Hri & Hfit & _). cbv zeta. change (base + sizeof_desc * i) with (desc_at base i).
  assert (Htake : forall h1 F1 x xs, heap_inv pf base h1 F1 -> F1 i = x :: xs -> keeps h F h1 F1 ->
    (forall p n, live base h1 F1 p n -> live base h F p n) -> same_env h h1 ->
    wp (b ← take_block (desc_at base i); g b) Q h1).
  { intros h1 F1 x xs Hi1 Hx Hk1 Hb1 He1. apply wp_bind.
    eapply wp_mono; [by apply (take_block_ok h1 F1 i x xs)|].
    intros p h2 (-> & Hi2 & Hl2 & Hn2 & Hk2 & Hb2 & Hz2 & He2).
    apply (Hg x (bsize i) h2 (fset i xs F1)); [|done]. split; try done.
    - intros m Hl. by apply (Hn2 m), Hk1.
    - intros q m Hq. destruct (Hk1 q m Hq) as [Hq1 S1]. destruct (Hk2 q m Hq1) as [Hq2 S2]. split; [done|].
      intros y Hy. by rewrite S2, S1.
    - intros q m Hq. destruct (Hb2 q m Hq) as [?|?]; [left; by apply Hb1|by right].
    - intros y H1 H2 H3. apply Hz2; [lia|done].
    - destruct He1 as (O1 & C1 & D1), He2 as (O2 & C2 & D2).
      split; [by eapply owner_trans|]. split; congruence. }
  apply wp_bind, wp_on_cells. unfold wp at 1. rewrite (list_empty_ok _ (F i)) by (by apply (hi_lists _ _ _ _ Hi)).
  replace (set_cells (cells h) h) with h by (by destruct h).
  destruct (F i) as [|x xs] eqn:Ex.
  - rewrite bool_decide_eq_true_2 by done. apply wp_bind.
    eapply wp_mono; [by apply (new_arena_ok h F i)|]. intros ok h1 (-> & a & Hi1 & Hk1 & Hb1 & He1). simpl.
    destruct (blocks a i) as [|x xs] eqn:Eb.
    { pose proof (blocks_length a i Hri) as Hbl. rewrite Eb in Hbl. destruct (bsize_facts i Hri) as (_ & _ & ? & _).
      change (zlen []) with 0 in Hbl. lia. }
    apply (Htake h1 (fset i (x :: xs) F) x xs); try done. unfold fset. by rewrite decide_True.
  - rewrite bool_decide_eq_false_2 by done. apply wp_bind, wp_ret. simpl.
    by apply (Htake h F x xs).
Qed.

(** *** Release as a whole *)

(** What freeing [p] does. *)
Record free_post h F h' F' p : Prop := {
  fp_inv : heap_inv pf base h' F';
  fp_live : forall q m, live base h' F' q m <-> live base h F q m /\ q <> p;
  fp_cont : forall q m, live base h F q m -> q <> p -> same_contents h h' q m;
  fp_env : same_env h h'
}.

Lemma large_free_ok h F a ar : heap_inv pf base h F -> arenas h !! a = Some ar -> a_large ar = 1 ->
  wp (free_pages pf a (a_cnt ar)) (λ _ h', free_post h F h' F (a + sizeof_arena)) h.
Proof.
  intros Hi Ha Hl. destruct (arena_addr h F a ar Hi Ha) as (Hal & _).
  assert (Hpg : arena_pages ar = a_cnt ar) by (unfold arena_pages; by rewrite Hl). rewrite <- Hpg.
  pose proof (ao_pages _ _ _ _ _ _ (hi_arenas _ _ _ _ Hi a ar Ha)) as Hn.
  assert (Hno : forall i x, 0 <= i < DESC_CNT -> x ∈ F i -> ~ in_page a x).
  { intros i x Hri Hx Hp. destruct (free_block h F i x Hi Hri Hx) as (b & br & k & Hb & _ & Hbl & _ & _ & Hpb & _ & Halb).
    assert (b = a) as -> by (unfold in_page, page_aligned in *; clear -Hp Hpb Hal Halb; dlia). congruence. }
  eapply wp_mono; [by apply (remove_arena_ok h F a ar)|].
  intros [] h' (Hi' & Hd & Hds & Henv & Hcont).
  assert (Hlv := λ q m, live_delete h F a ar h' F q m Hi Ha Hd (λ _ _ _, iff_refl _)).
  assert (Hin : forall q m, live base h F q m -> q <> a + sizeof_arena -> ~ (a <= q < a + 4096 * arena_pages ar)).
  { intros q m Hq Hne Hr. destruct (live_in_arena h F a ar q m Hi Ha Hq Hr) as [(? & _)|(_ & ? & _)]; congruence. }
  split; [done| | |done].
  - intros q m. rewrite Hlv. split; intros [Hq Hx]; split; try done; [|by apply (Hin q m)].
    intros ->. apply Hx. unfold sizeof_arena. lia.
  - intros q m Hq Hne y Hy. apply Hcont. intros Hc%elem_of_arena_cells; [|lia|done].
    apply (cell_apart h F a ar q m y Hi Ha Hq (Hin q m Hq Hne) Hy). lia.
Qed.

Lemma free_body_ok h F p n : heap_inv pf base h F -> live base h F p n ->
  wp (ar ← rd_arena (block2arena p);
      assertM ((a_large ar =? 0) || (a_large ar =? 1)) "a->large == 0 || a->large == 1";;
      (if (a_desc ar =? 0) && (a_large ar =? 1) then free_pages pf (block2arena p) (a_cnt ar)
       else put_block pf (block2arena p) p)) (λ _ h', exists F', free_post h F h' F' p) h.
Proof.
  intros Hi [a ar i k Ha Hl Hri Hd Hk Ep Hf ->|a ar Ha Hl Ep ->];
    destruct (arena_addr h F a ar Hi Ha) as (Hal & Hia & _).
  - destruct (block_at_range a i k Hri Hk) as (B1 & B2 & _). destruct (bsize_facts i Hri).
    assert (block2arena p = a) as -> by (apply block2arena_in; [done|done|lia]).
    apply wp_bind. unfold wp at 1, rd_arena, lift, of_option. rewrite Ha.
    apply wp_bind, wp_assert; [by rewrite Hl|]. rewrite Hl. rewrite andb_false_r. subst p.
    eapply wp_mono; [by apply (put_block_ok h F a ar i k)|].
    intros [] h' (F' & Hi' & Hfw & Hbw & He). exists F'. split; [done| | |done].
    + intros q m. split; [apply Hbw|]. intros [Hq Hne]. by apply Hfw.
    + intros q m Hq Hne. by apply Hfw.
  - assert (block2arena p = a) as -> by (apply block2arena_in; [done|done|unfold sizeof_arena in *; lia]).
    apply wp_bind. unfold wp at 1, rd_arena, lift, of_option. rewrite Ha.
    apply wp_bind, wp_assert; [by rewrite Hl|].
    destruct (ao_kind _ _ _ _ _ _ (hi_arenas _ _ _ _ Hi a ar Ha)) as [i _ _ El _|Ed El]; [congruence|].
    rewrite Ed, El. simpl. subst p.
    eapply wp_mono; [by apply (large_free_ok h F a ar)|]. intros [] h' Hp. by exists F.
Qed.

Lemma free_relock h F k k' h1 F1 p : free_post (set_hv (relock pf k (hv h)) h) F h1 F1 p ->
  let h' := set_hv (relock pf k' (hv h1)) h1 in
  heap_inv pf base h' F1 /\ (forall q m, live base h' F1 q m <-> live base h F q m /\ q <> p) /\
  (forall q m, live base h F q m -> q <> p -> same_contents h h' q m) /\ plock_of pf (hv h') = k'.
Proof.
  intros [Hi Hl Hc He] h'. split; [by apply heap_inv_relock|]. split; [|split].
  - intros q m. unfold h'. rewrite live_relock, Hl, live_relock. done.
  - intros q m Hq Hne. apply (Hc q m); [by apply live_relock|done].
  - simpl. unfold plock_of, relock. by rewrite mem_pool_set.
Qed.
End heap.

(** ** Properties of [sys_malloc] and [sys_free] *)

Section theorems.
(** The tables of descriptors, the heap of the running task, its pool and the
    pool's lock, which nobody else holds. *)
Context (k_block_descs u_block_desc : Z) (h : mheap) (F : Z -> list Z).
Let kern : bool := pgdir (mcur (hv h)) =? 0.
Let pf : Z := if kern then PF_KERNEL else PF_USER.
Let base : Z := if kern then k_block_descs else u_block_desc.
Context (Hinv : heap_inv pf base h F) (Hme : me (hv h) <> 0).
Context (Hlock : Seq.quiet (me (hv h)) (plock_of pf (hv h))).

(** Pages [sys_malloc(size)] may need. *)
Definition need (size : Z) : Z := if 1024 <? size then (size + sizeof_arena + 4095) / 4096 else 1.

(** C5: [sys_malloc] while there are pages: the block it returns is at least
    [size] bytes, was not live before, overlaps no live object, and reads as
    zero; all live objects keep their contents; the invariant of the heap
    (free lists, counters of the arenas, page mappings) and the lock are as
    before.  This covers a block from a free list, a new arena, and whole
    pages for more than 1024 bytes. *)
Theorem sys_malloc_fresh size : 0 < size < pool_size (mem_pool pf (hv h)) -> need size < 3840 ->
  vroom pf (hv h) (need size) ->
  exists p n h' F', sys_malloc k_block_descs u_block_desc size h = Ok (p, h') /\
    p <> 0 /\ size <= n /\ heap_inv pf base h' F' /\ live base h' F' p n /\ (forall m, ~ live base h F p m) /\
    (forall q m, live base h F q m ->
       live base h' F' q m /\ same_contents h h' q m /\ (p + n <= q \/ q + m <= p)) /\
    (forall q m, live base h' F' q m -> live base h F q m \/ q = p) /\
    (forall y, p <= y -> y + 8 <= p + n -> (y - p) mod 8 = 0 -> nodes (cells h') !! y = Some (ListElem 0 0)) /\
    plock_of pf (hv h') = plock_of pf (hv h).
Proof.
  intros Hsz Hneed Hroom.
  destruct (Seq.acquire_release (me (hv h)) (plock_of pf (hv h)) Hme Hlock) as (k & Hacq & _ & Hrel).
  set (h0 := set_hv (relock pf k (hv h)) h).
  pose proof (heap_inv_relock pf base h F k Hinv) as Hi0. fold h0 in Hi0.
  assert (Hroom0 : vroom pf (hv h0) (need size)).
  { destruct Hroom as (r0 & R1 & R2 & R3 & R4 & R5). exists r0. unfold h0, vcount, vpage, vbits in *; simpl.
    rewrite relock_vpool. split_and!; try done. by apply relock_rooms. }
  assert (Hw : wp (sys_malloc k_block_descs u_block_desc size) (λ p h', exists n h1 F1,
    h' = set_hv (relock pf (plock_of pf (hv h)) (hv h1)) h1 /\ alloc_post pf base h0 F h1 F1 p n /\ size <= n) h).
  { assert (Hfin : forall p n h1 F1, alloc_post pf base h0 F h1 F1 p n -> size <= n ->
      wp (on_vm (release pf);; mret p) (λ p h', exists n h1 F1,
        h' = set_hv (relock pf (plock_of pf (hv h)) (hv h1)) h1 /\ alloc_post pf base h0 F h1 F1 p n /\ size <= n) h1).
    { intros p n h1 F1 Hap Hn. apply wp_bind. eapply wp_release; [|exact Hrel|].
      - apply (ap_env _ _ _ _ _ _ _ _ Hap).
      - apply wp_ret. by exists n, h1, F1. }
    unfold sys_malloc. apply wp_bind, wp_gets. fold kern. fold pf base. apply wp_bind, wp_gets.
    assert (Eps : (if kern then kernel_pool (hv h) else user_pool (hv h)) = mem_pool pf (hv h))
      by (unfold pf, mem_pool; by destruct kern).
    rewrite Eps. destruct (Z.ltb_spec 0 size); [|lia]. destruct (Z.ltb_spec size (pool_size (mem_pool pf (hv h)))); [|lia].
    cbn [andb negb]. apply wp_bind. eapply wp_acquire; [exact Hacq|]. fold h0.
    unfold need in *. destruct (Z.ltb_spec 1024 size) as [Hbig|Hsmall].
    - unfold sizeof_arena in *. set (n := (size + 12 + 4095) / 4096) in *.
      assert (Hn : DIV_ROUND_UP (u32 (size + 12)) PG_SIZE = n /\ 1 <= n).
      { unfold DIV_ROUND_UP, PG_SIZE, n in *. clear -Hbig Hneed. rewrite (u32_small (size + 12)) by dlia. rewrite u32_small by dlia.
        replace (size + 12 + 4096 - 1) with (size + 12 + 4095) by lia. split; [done|dlia]. }
      destruct Hn as [-> Hn].
      destruct (big_alloc_ok pf base h0 F n Hi0) as (a & h1 & Hi1 & Ha0 & Hrun & Hl1 & Hn1 & Hk1 & Hb1 & Hz1 & Hal & He1); [lia|done|].
      apply Hrun. apply (Hfin _ (4096 * n - sizeof_arena) h1 F).
      + split; try done. intros y Hy1 Hy2 Hy3. apply Hz1. unfold sizeof_arena in *.
        apply elem_of_arena_cells; [lia|done|]. split; [lia|done].
      + unfold sizeof_arena, n. clear -Hbig. dlia.
    - apply (small_alloc_ok pf base h0 F size _ (λ b, on_vm (release pf);; mret b)); [done|lia|done|].
      intros p n h1 F1 Hap Hn. by eapply Hfin. }
  apply wp_run in Hw as (p & h' & Hrun & n & h1 & F1 & -> & Hap & Hn).
  exists p, n, (set_hv (relock pf (plock_of pf (hv h)) (hv h1)) h1), F1.
  split; [done|]. split; [by eapply alloc_nonzero|]. split; [done|].
  by apply (alloc_relock pf base h F k).
Qed.

End theorems.

(** ** The empty heap *)

Lemma bsize_next i : 0 <= i < DESC_CNT -> u16 (bsize i * 2) = bsize (i + 1).
Proof.
  intros Hi. destruct (bsize_facts i Hi) as (H & _). rewrite u16_small by lia.
  unfold bsize. rewrite Z.pow_add_r by lia. lia.
Qed.

Lemma block_desc_loop_ok base n : forall i h, 0 <= i -> i + Z.of_nat n <= DESC_CNT ->
  (forall j, i <= j < i + Z.of_nat n -> is_Some (nodes (cells h) !! free_list (desc_at base j)) /\
     is_Some (nodes (cells h) !! (free_list (desc_at base j) + 8))) ->
  wp (block_desc_loop n (desc_at base i) (bsize i)) (λ _ h', hv h' = hv h /\ arenas h' = arenas h /\
    (forall j, i <= j < i + Z.of_nat n -> descs h' !! desc_at base j = Some (Desc (bsize j) (bcount j))) /\
    (forall d, (forall j, i <= j < i + Z.of_nat n -> d <> desc_at base j) -> descs h' !! d = descs h !! d) /\
    (forall j, i <= j < i + Z.of_nat n -> dlist (nodes (cells h')) (free_list (desc_at base j)) []) /\
    (forall x, (forall j, i <= j < i + Z.of_nat n -> x ∉ list_nodes (free_list (desc_at base j)) []) ->
       nodes (cells h') !! x = nodes (cells h) !! x)) h.
Proof.
  induction n as [|n IH]; intros i h Hi Hn Hs.
  { apply wp_ret. split_and!; try done; intros; lia. }
  destruct (Hs i ltac:(lia)) as [Hs1 Hs2]. cbn [block_desc_loop].
  apply wp_bind, wp_modify. apply wp_bind, wp_on_cells.
  eapply wp_mono; [by apply (list_init_ok (free_list (desc_at base i)))|].
  intros [] c (Hdl & Hcpu & Hdom & Hout). cbn [cells set_descs set_cells] in Hdom, Hout.
  rewrite bsize_next by (unfold DESC_CNT in *; lia).
  replace (desc_at base i + sizeof_desc) with (desc_at base (i + 1)) by (unfold desc_at; lia).
  set (h1 := set_cells _ _). eapply wp_mono; [apply (IH (i + 1) h1); [lia|lia|]|].
  { intros j Hj. destruct (Hs j ltac:(lia)) as [J1 J2].
    split; apply elem_of_dom; simpl; rewrite Hdom; by apply elem_of_dom. }
  intros [] h2 (E1 & E2 & Hd & Hdo & Hl & Ho).
  assert (Hfar : forall j k, i + 1 <= j -> k < i + 1 -> forall x,
    x ∈ list_nodes (free_list (desc_at base k)) [] -> x ∉ list_nodes (free_list (desc_at base j)) []).
  { intros j k Hj Hk x. rewrite !list_node_cases, !elem_of_nil. unfold free_list, desc_at, sizeof_desc. lia. }
  split; [done|]. split; [done|]. split; [|split; [|split]].
  - intros j Hj. destruct (decide (j = i)) as [->|Hne]; [|apply Hd; lia].
    rewrite Hdo by (intros k Hk E%desc_at_inj; lia). simpl. rewrite lookup_insert_eq. done.
  - intros d Hne. rewrite Hdo by (intros k Hk; apply Hne; lia). simpl.
    rewrite lookup_insert_ne; [done|]. intros E. by apply (Hne i); [lia|].
  - intros j Hj. destruct (decide (j = i)) as [->|Hne]; [|apply Hl; lia].
    eapply dlist_ext; [|exact Hdl]. intros x Hx. apply Ho. intros k Hk. by apply (Hfar k i); [lia|lia|].
  - intros x Hx. rewrite Ho by (intros k Hk; apply Hx; lia). simpl. apply Hout. apply Hx. lia.
Qed.

(** [block_desc_init] makes the empty heap. *)
Lemma block_desc_init_ok pf base h : vm_wf (hv h) -> active pf (hv h) -> 0 < base -> arenas h = ∅ ->
  (forall x, base <= x < base + sizeof_desc * DESC_CNT -> is_addr x /\ reserved (hv h) x) ->
  (forall j, 0 <= j < DESC_CNT -> is_Some (nodes (cells h) !! free_list (desc_at base j)) /\
     is_Some (nodes (cells h) !! (free_list (desc_at base j) + 8))) ->
  wp (block_desc_init base) (λ _ h', heap_inv pf base h' (λ _, []) /\ hv h' = hv h /\ arenas h' = ∅) h.
Proof.
  intros Hwf Hact Hb Ha Hres Hs. unfold block_desc_init.
  pose proof (block_desc_loop_ok base (Z.to_nat DESC_CNT) 0 h) as Hl.
  change (desc_at base 0) with (base + 0) in Hl. rewrite Z.add_0_r in Hl. change (bsize 0) with 16 in Hl.
  eapply wp_mono; [apply Hl; [lia|vm_compute; discriminate|exact Hs]|].
  intros [] h' (E1 & E2 & Hd & _ & Hdl & _). split; [|split; [done|congruence]]. split; rewrite ?E1; try done.
  - intros a ar H. rewrite E2, Ha in H. done.
  - intros a a' ar ar' H. rewrite E2, Ha in H. done.
  - intros i x _ Hx. by apply elem_of_nil in Hx.
Qed.

(** ** The heap of a small process *)

Definition demo_descs : Z := 0xc009e100.
Definition demo_nodes : gmap Z list_elem :=
  list_to_map ((λ k, (demo_descs + 8 + 24 * (Z.of_nat k / 2) + 8 * (Z.of_nat k mod 2), ListElem 0 0)) <$> seq 0 14).
Definition demo_heap0 : mheap := MHeap demo_vm ∅ ∅ (Lst (Cpu 0x202) demo_nodes).
Definition demo_heap : mheap :=
  match block_desc_init demo_descs demo_heap0 with Ok (_, h) => h | _ => demo_heap0 end.

Lemma demo_active : active PF_USER demo_vm.
Proof. right. split; [done|]. simpl. lia. Qed.

Lemma demo_heap_inv : heap_inv PF_USER demo_descs demo_heap (λ _, []) /\ hv demo_heap = demo_vm.
Proof.
  assert (Hw : wp (block_desc_init demo_descs) (λ _ h', heap_inv PF_USER demo_descs h' (λ _, []) /\
    hv h' = demo_vm /\ arenas h' = ∅) demo_heap0).
  { apply (block_desc_init_ok PF_USER demo_descs demo_heap0).
    - exact demo_vm_wf.
    - exact demo_active.
    - unfold demo_descs; lia.
    - reflexivity.
    - unfold demo_descs, sizeof_desc, DESC_CNT. intros x Hx. split; [unfold is_addr; lia|].
      intros q i Hq Hi Hp. exfalso. destruct Hq as [->|[-> _]]; unfold vcount, vpage, vbits in *; simpl in *; dlia.
    - unfold DESC_CNT. intros j Hj.
      assert (Hc : j = 0 \/ j = 1 \/ j = 2 \/ j = 3 \/ j = 4 \/ j = 5 \/ j = 6) by lia.
      destruct Hc as [->|[->|[->|[->|[->|[->| ->]]]]]]; vm_compute; eauto. }
  unfold demo_heap. unfold wp in Hw. destruct (block_desc_init demo_descs demo_heap0) as [[[] h]| | | |]; try done.
  by destruct Hw as (H1 & H2 & _).
Qed.

Lemma demo_vroom n : 1 <= n <= 3 -> vroom PF_USER demo_vm n.
Proof.
  intros Hn. exists 3. split; [lia|]. split; [unfold vcount; simpl; lia|]. split; [|split].
  - intros j Hj. apply demo_run. lia.
  - intros _. unfold vpage; simpl; lia.
  - destruct demo_rooms as [H1 H2]. split; (eapply frames_room_le; [|done]); lia.
Qed.

(** The first allocation: 100 bytes come as a block of 128. *)
Lemma sys_malloc_fresh_witness :
  exists p n h' F', sys_malloc 0 demo_descs 100 demo_heap = Ok (p, h') /\ 100 <= n /\
    live demo_descs h' F' p n.
Proof.
  destruct demo_heap_inv as [Hi Hh].
  destruct (sys_malloc_fresh 0 demo_descs demo_heap (λ _, [])) with (size := 100)
    as (p & n & h' & F' & H1 & _ & H2 & _ & H3 & _).
  - rewrite Hh. exact Hi.
  - rewrite Hh. simpl. lia.
  - rewrite Hh. split; [reflexivity|]. left. split_and!; reflexivity.
  - rewrite Hh. simpl. lia.
  - reflexivity.
  - rewrite Hh. apply demo_vroom. vm_compute. split; discriminate.
  - rewrite Hh in H3. exists p, n, h', F'. exact (conj H1 (conj H2 H3)).
Defined.

Example sys_malloc_run :
  (match sys_malloc 0 demo_descs 100 demo_heap with
   | Ok (p, h) => (p, a_cnt <$> arenas h !! 0x8049000, mmu (hv h) p)
   | _ => (0, None, None)
   end) = (0x804900c, Some 30, Some 0x21100c).
Proof. vm_compute. reflexivity. Qed.

(** A heap with one live block, cut from a new arena. *)
Definition demo_alloc : M mheap Z :=
  _ ← new_arena PF_USER (desc_at demo_descs 3); take_block (desc_at demo_descs 3).

Lemma demo_live : exists p h F, demo_alloc demo_heap = Ok (p, h) /\ heap_inv PF_USER demo_descs h F /\
  live demo_descs h F p 128 /\ same_owner PF_USER demo_vm (hv h).
Proof.
  destruct demo_heap_inv as [Hi Hh].
  assert (Hw : wp demo_alloc (λ p h, exists F, heap_inv PF_USER demo_descs h F /\ live demo_descs h F p 128 /\
    same_owner PF_USER demo_vm (hv h)) demo_heap).
  { apply wp_bind. eapply wp_mono; [apply (new_arena_ok PF_USER demo_descs demo_heap (λ _, []) 3 Hi)|].
    - unfold DESC_CNT; lia.
    - reflexivity.
    - rewrite Hh. apply demo_vroom. lia.
    - intros ok h1 (_ & a & Hi1 & _ & _ & [Ho1 _]). rewrite Hh in Ho1.
      destruct (blocks a 3) as [|x xs] eqn:Eb.
      { pose proof (blocks_length a 3 ltac:(unfold DESC_CNT; lia)) as Hl. rewrite Eb in Hl. vm_compute in Hl. discriminate. }
      eapply wp_mono; [apply (take_block_ok PF_USER demo_descs h1 (fset 3 (x :: xs) (λ _, [])) 3 x xs Hi1)|].
      + unfold DESC_CNT; lia.
      + unfold fset. by rewrite decide_True.
      + intros p h2 (-> & Hi2 & Hl2 & _ & _ & _ & _ & [Ho2 _]).
        exists (fset 3 xs (fset 3 (x :: xs) (λ _, []))). split; [done|]. split; [done|]. by eapply owner_trans. }
  unfold wp in Hw. destruct (demo_alloc demo_heap) as [[p h]| | | |] eqn:Hrun; [|destruct Hw..].
  destruct Hw as (F & H). exists p, h, F. split; [reflexivity|exact H].
Qed.

