(* ===== verification/IoQueue.v ===== *)
(** device/ioqueue.c: the ring buffer behind the keyboard and the pipes.

    [iosys] is one queue together with the threads.  The code runs with
    interrupts off (it asserts so), hence a call is atomic up to the point
    where it gives the processor away in [ioq_wait]; [inr old] is a call
    parked there, and [ioq_getchar_resume]/[ioq_putchar_resume] is the rest of
    it, from the return of [thread_block] on.  The queue's lock is the
    sequential one of the component Sync: acquiring a lock another thread
    holds is [Block]. *)

From S2P Require Import Prelude Bitmap Bytes Interrupt Thread Sync.

Open Scope Z_scope.

Definition bufsize : Z := 2048.

Record ioqueue := IoQ {
  io_lock : lock; producer : Z; consumer : Z; io_buf : list Z; io_head : Z; io_tail : Z
}.

Record iosys := IoS { io_thr : kthreads; ioq : ioqueue }.

Definition upd_iothr (k : kthreads) (s : iosys) : iosys := IoS k (ioq s).
Definition upd_ioq (q : ioqueue) (s : iosys) : iosys := IoS (io_thr s) q.
Definition io_on_thr {A} (m : M kthreads A) : M iosys A := zoom io_thr upd_iothr m.
Definition set_iolock (l : lock) (q : ioqueue) : ioqueue :=
  IoQ l (producer q) (consumer q) (io_buf q) (io_head q) (io_tail q).

(** [ioqueue_init] on a page of memory that holds [buf]. *)
Definition ioqueue_init (buf : list Z) : ioqueue := IoQ lock_init 0 0 buf 0 0.

Definition next_pos (pos : Z) : Z := Z.rem (s32 (pos + 1)) bufsize.

Definition io_intr_off : M iosys unit :=
  st ← io_on_thr (on_kcpu intr_get_status);
  assertM (bool_decide (st = INTR_OFF)) "intr_get_status() == INTR_OFF".

Definition ioq_full : M iosys bool :=
  io_intr_off;; gets (λ s, next_pos (io_head (ioq s)) =? io_tail (ioq s)).
Definition ioq_empty : M iosys bool :=
  io_intr_off;; gets (λ s, io_head (ioq s) =? io_tail (ioq s)).

Inductive side := Producer | Consumer.
Definition waiter (d : side) (q : ioqueue) : Z := match d with Producer => producer q | Consumer => consumer q end.
Definition set_waiter (d : side) (t : Z) (q : ioqueue) : ioqueue :=
  match d with
  | Producer => IoQ (io_lock q) t (consumer q) (io_buf q) (io_head q) (io_tail q)
  | Consumer => IoQ (io_lock q) (producer q) t (io_buf q) (io_head q) (io_tail q)
  end.

Section code.
Context (v2p : Z -> Z).

Definition ioq_wait (d : side) : M iosys intr_status :=
  q ← gets ioq;
  assertM (waiter d q =? 0) "*waiter == NULL && waiter != NULL";;
  me ← io_on_thr running_thread;
  modify (λ s, upd_ioq (set_waiter d me (ioq s)) s);;
  io_on_thr (thread_block_enter v2p TASK_BLOCKED).

Definition wakeup (d : side) : M iosys unit :=
  q ← gets ioq;
  assertM (negb (waiter d q =? 0)) "*waiter != NULL";;
  io_on_thr (thread_unblock (waiter d q));;
  modify (λ s, upd_ioq (set_waiter d 0 (ioq s)) s).

Definition io_lock_acquire : M iosys unit :=
  me ← io_on_thr running_thread;
  q ← gets ioq;
  l ← lift (Seq.lock_acquire me (io_lock q));
  modify (λ s, upd_ioq (set_iolock l (ioq s)) s).
Definition io_lock_release : M iosys unit :=
  me ← io_on_thr running_thread;
  q ← gets ioq;
  wl ← lift (Seq.lock_release me (io_lock q));
  modify (λ s, upd_ioq (set_iolock (snd wl) (ioq s)) s);;
  match fst wl with Some t => io_on_thr (thread_unblock t) | None => mret tt end.

(** The part of [ioq_getchar] behind its loop. *)
Definition ioq_take : M iosys Z :=
  q ← gets ioq;
  byte ← lift (of_option (znth (io_buf q) (io_tail q)));
  modify (λ s, upd_ioq (IoQ (io_lock q) (producer q) (consumer q) (io_buf q) (io_head q) (next_pos (io_tail q))) s);;
  (if negb (producer q =? 0) then wakeup Producer else mret tt);;
  mret byte.

(** From a test of the loop's condition on. *)
Definition getchar_loop : M iosys (Z + intr_status) :=
  e ← ioq_empty;
  if (e : bool) then
    io_lock_acquire;;
    old ← ioq_wait Consumer;
    mret (inr old)
  else
    byte ← ioq_take;
    mret (inl byte).

Definition ioq_getchar : M iosys (Z + intr_status) := io_intr_off;; getchar_loop.
Definition ioq_getchar_resume (old : intr_status) : M iosys (Z + intr_status) :=
  io_on_thr (thread_block_exit old);;
  io_lock_release;;
  getchar_loop.

Definition ioq_store (byte : Z) : M iosys unit :=
  q ← gets ioq;
  (if (0 <=? io_head q) && (io_head q <? zlen (io_buf q)) then mret tt else faultM);;
  modify (λ s, upd_ioq (IoQ (io_lock q) (producer q) (consumer q) (zupd (io_buf q) (io_head q) byte)
                            (next_pos (io_head q)) (io_tail q)) s);;
  if negb (consumer q =? 0) then wakeup Consumer else mret tt.

Definition putchar_loop (byte : Z) : M iosys (unit + intr_status) :=
  f ← ioq_full;
  if (f : bool) then
    io_lock_acquire;;
    old ← ioq_wait Producer;
    mret (inr old)
  else (ioq_store byte;; mret (inl tt)).

Definition ioq_putchar (byte : Z) : M iosys (unit + intr_status) := io_intr_off;; putchar_loop byte.
Definition ioq_putchar_resume (byte : Z) (old : intr_status) : M iosys (unit + intr_status) :=
  io_on_thr (thread_block_exit old);;
  io_lock_release;;
  putchar_loop byte.
End code.

Definition ioq_length (q : ioqueue) : Z :=
  if io_tail q <=? io_head q then u32 (io_head q - io_tail q)
  else u32 (bufsize - (io_tail q - io_head q)).

(** ** The queue as a list of at most 2047 bytes *)

Record qwf (q : ioqueue) : Prop := {
  qw_buf : zlen (io_buf q) = bufsize;
  qw_head : 0 <= io_head q < bufsize;
  qw_tail : 0 <= io_tail q < bufsize
}.

Definition qlen (q : ioqueue) : Z := (io_head q - io_tail q) mod bufsize.
Definition qat (q : ioqueue) (k : Z) : Z := default 0 (znth (io_buf q) ((io_tail q + k) mod bufsize)).
Definition contents (q : ioqueue) : list Z := map (qat q) (seqZ 0 (qlen q)).

Lemma qlen_range q : 0 <= qlen q < bufsize.
Proof. apply Z.mod_pos_bound. done. Qed.

Lemma contents_len q : zlen (contents q) = qlen q.
Proof. pose proof (qlen_range q). unfold zlen, contents. rewrite length_map, length_seqZ. lia. Qed.

Lemma next_pos_ok p : 0 <= p < bufsize -> next_pos p = (p + 1) mod bufsize /\ 0 <= next_pos p < bufsize.
Proof.
  unfold next_pos, bufsize. intros Hp. rewrite s32_small by lia. rewrite Z.rem_mod_nonneg by lia.
  split; [done|]. apply Z.mod_pos_bound. lia.
Qed.

(** [(x + 1) mod 2048] by cases, for positions. *)
Lemma wrap_cases x : 0 <= x < bufsize ->
  (x + 1) mod bufsize = if decide (x = bufsize - 1) then 0 else x + 1.
Proof.
  unfold bufsize. intros Hx. case_decide as Hd; [subst; reflexivity|]. apply Z.mod_small. lia.
Qed.

Lemma sub_wrap x y : 0 <= x < bufsize -> 0 <= y < bufsize ->
  (x - y) mod bufsize = if decide (y <= x) then x - y else x - y + bufsize.
Proof.
  unfold bufsize. intros Hx Hy. case_decide; [apply Z.mod_small; lia|].
  replace (x - y) with (x - y + 2048 + (-1) * 2048) by lia. rewrite Z.mod_add, Z.mod_small by lia. lia.
Qed.

Lemma add_wrap x y : 0 <= x < bufsize -> 0 <= y < bufsize ->
  (x + y) mod bufsize = if decide (x + y < bufsize) then x + y else x + y - bufsize.
Proof.
  unfold bufsize. intros Hx Hy. case_decide; [apply Z.mod_small; lia|].
  replace (x + y) with (x + y - 2048 + 1 * 2048) by lia. rewrite Z.mod_add, Z.mod_small by lia. lia.
Qed.

Lemma ioq_length_ok q : qwf q -> ioq_length q = qlen q.
Proof.
  intros [_ Hh Ht]. unfold ioq_length, qlen. rewrite sub_wrap by done. unfold bufsize in *.
  destruct (Z.leb_spec (io_tail q) (io_head q)); case_decide; try lia; rewrite u32_small by lia; lia.
Qed.

Lemma full_iff q : qwf q -> (next_pos (io_head q) =? io_tail q) = (qlen q =? 2047).
Proof.
  intros [_ Hh Ht]. destruct (next_pos_ok (io_head q) Hh) as [-> _]. rewrite wrap_cases by done.
  unfold qlen. rewrite sub_wrap by done. unfold bufsize in *. repeat case_decide; zbool; lia.
Qed.

Lemma empty_iff q : qwf q -> (io_head q =? io_tail q) = (qlen q =? 0).
Proof.
  intros [_ Hh Ht]. unfold qlen. rewrite sub_wrap by done. unfold bufsize in *. repeat case_decide; zbool; lia.
Qed.

Definition pushed (q : ioqueue) (byte : Z) : ioqueue :=
  IoQ (io_lock q) (producer q) (consumer q) (zupd (io_buf q) (io_head q) byte) (next_pos (io_head q)) (io_tail q).
Definition popped (q : ioqueue) : ioqueue :=
  IoQ (io_lock q) (producer q) (consumer q) (io_buf q) (io_head q) (next_pos (io_tail q)).

Lemma znth_contents q k : 0 <= k < qlen q -> znth (contents q) k = Some (qat q k).
Proof.
  intros Hk. unfold znth, contents. destruct (Z.ltb_spec k 0); [lia|].
  rewrite list_lookup_fmap, lookup_seqZ_lt by lia. simpl. do 2 f_equal. lia.
Qed.

Lemma qlen_pushed q b : qwf q -> qlen q <> 2047 -> qlen (pushed q b) = qlen q + 1.
Proof.
  intros [_ Hh Ht] Hl. destruct (next_pos_ok (io_head q) Hh) as [E Hr].
  unfold qlen in *. cbn [io_head io_tail pushed]. rewrite sub_wrap by done. rewrite sub_wrap in Hl |- * by done.
  rewrite E, wrap_cases by done. unfold bufsize in *. repeat case_decide; lia.
Qed.

Lemma pushed_wf q b : qwf q -> qwf (pushed q b).
Proof.
  intros [Hb Hh Ht]. split; simpl; [by rewrite zlen_upd|apply next_pos_ok; done|done].
Qed.

Lemma pushed_contents q b : qwf q -> qlen q <> 2047 -> contents (pushed q b) = contents q ++ [b].
Proof.
  intros Hw Hl. pose proof Hw as [Hb Hh Ht]. pose proof (qlen_range q). pose proof (qlen_pushed q b Hw Hl) as E.
  apply zlist_eq; [rewrite zlen_app, !contents_len, E; reflexivity|].
  intros k Hk. rewrite contents_len, E in Hk. rewrite znth_contents by lia.
  unfold qat. cbn [io_buf io_tail pushed].
  assert (Hpos : (io_tail q + k) mod bufsize = io_head q <-> k = qlen q).
  { unfold qlen in *. rewrite sub_wrap in * by done. rewrite add_wrap by lia. unfold bufsize in *.
    repeat case_decide; lia. }
  destruct (decide (k = qlen q)) as [Hk'|Hk'].
  - rewrite (proj2 Hpos Hk'). rewrite znth_upd_eq by lia.
    rewrite znth_app_r by (rewrite contents_len; lia). rewrite contents_len, Hk', Z.sub_diag. done.
  - rewrite znth_upd_ne by (intros Eh; apply Hk', Hpos; by rewrite Eh).
    rewrite znth_app_l by (rewrite contents_len; lia). rewrite znth_contents by lia. done.
Qed.

Lemma popped_wf q : qwf q -> qwf (popped q).
Proof. intros [Hb Hh Ht]. split; simpl; [done|done|apply next_pos_ok; done]. Qed.

Lemma popped_contents q : qwf q -> qlen q <> 0 ->
  exists b, znth (io_buf q) (io_tail q) = Some b /\ contents q = b :: contents (popped q).
Proof.
  intros Hw Hl. pose proof Hw as [Hb Hh Ht]. pose proof (qlen_range q).
  destruct (znth_is_Some (io_buf q) (io_tail q)) as [b Hb']; [lia|]. exists b. split; [done|].
  destruct (next_pos_ok (io_tail q) Ht) as [E Hr].
  assert (El : qlen (popped q) = qlen q - 1).
  { unfold qlen in *. cbn [io_head io_tail popped]. rewrite sub_wrap by done. rewrite sub_wrap in Hl |- * by done.
    rewrite E, wrap_cases by done. unfold bufsize in *. repeat case_decide; lia. }
  apply zlist_eq.
  { change (b :: contents (popped q)) with ([b] ++ contents (popped q)).
    rewrite zlen_app, !contents_len, El. change (zlen [b]) with 1. lia. }
  intros k Hk. rewrite contents_len in Hk. rewrite znth_contents by lia.
  destruct (decide (k = 0)) as [->|Hk0].
  - unfold qat. rewrite Z.add_0_r, Z.mod_small, Hb' by done. done.
  - change (b :: contents (popped q)) with ([b] ++ contents (popped q)). rewrite znth_app_r by (change (zlen [b]) with 1; lia).
    change (zlen [b]) with 1. rewrite znth_contents by lia. unfold qat. cbn [io_tail io_buf popped]. rewrite E.
    rewrite Z.add_mod_idemp_l by done. do 4 f_equal. lia.
Qed.

(** ** Operations *)

Section ops.
Context (v2p : Z -> Z).
Implicit Types s : iosys.

(** A thread runs with interrupts off and the queue is in order; a thread that
    waits for the queue is off the ready queue. *)
Record io_ok (s : iosys) : Prop := {
  io_kinv : kinv (io_thr s);
  io_off : IF_on (k_cpu (io_thr s)) = false;
  io_qwf : qwf (ioq s);
  io_wait : forall d, waiter d (ioq s) <> 0 -> offq (waiter d (ioq s)) (io_thr s);
  io_sides : producer (ioq s) <> 0 -> consumer (ioq s) <> 0 -> producer (ioq s) <> consumer (ioq s)
}.

Lemma wp_io_thr {A} (m : M kthreads A) (Q : A -> iosys -> Prop) s :
  wp m (λ a k, Q a (IoS k (ioq s))) (io_thr s) -> wp (io_on_thr m) Q s.
Proof. intros Hm. apply wp_zoom. eapply wp_mono; [exact Hm|]. done. Qed.

Lemma wp_intr_off (Q : unit -> iosys -> Prop) s : IF_on (k_cpu (io_thr s)) = false -> Q tt s -> wp io_intr_off Q s.
Proof.
  intros Hoff HQ. unfold io_intr_off. apply wp_bind, wp_io_thr, wp_kcpu_get. apply wp_assert.
  - unfold status_of. by rewrite Hoff.
  - by destruct s.
Qed.

(** What waking up the other side does. *)
Definition woken (d : side) (s s' : iosys) : Prop :=
  kinv (io_thr s') /\ IF_on (k_cpu (io_thr s')) = false /\ k_cur (io_thr s') = k_cur (io_thr s) /\
  thread_ready_list (io_thr s') = (if waiter d (ioq s) =? 0 then [] else [waiter d (ioq s)]) ++ thread_ready_list (io_thr s) /\
  (forall t, offq t (io_thr s') <-> offq t (io_thr s) /\ t <> waiter d (ioq s)) /\
  sched_frame (io_thr s) (io_thr s') /\ (waiter d (ioq s) = 0 -> io_thr s' = io_thr s).

Lemma off_nonzero k t : kinv k -> offq t k -> t <> 0.
Proof. intros Hk [[x Hx] _] ->. rewrite (q_null _ _ Hk) in Hx. done. Qed.

Lemma wake_ok d s q' : io_ok s -> waiter d q' = waiter d (ioq s) ->
  wp (if negb (waiter d (ioq s) =? 0) then wakeup d else mret tt)
     (λ _ s', ioq s' = set_waiter d 0 q' /\ woken d s s') (IoS (io_thr s) q').
Proof.
  intros [Hk Hoff _ Hw _] Eq. unfold woken. destruct (Z.eqb_spec (waiter d (ioq s)) 0) as [E0|E0]; cbn [negb].
  - apply wp_ret. cbn [ioq io_thr]. split; [destruct q', d; simpl in *; congruence|].
    split_and!; try done. intros t. rewrite E0. split; [|by intros [? ?]]. intros Ht. split; [done|].
    by apply (off_nonzero (io_thr s)).
  - unfold wakeup. apply wp_bind, wp_gets. cbn [ioq]. rewrite Eq. apply wp_bind, wp_assert.
    { by apply negb_true_iff, Z.eqb_neq. }
    apply wp_bind, wp_io_thr. eapply wp_mono; [apply (thread_unblock_ok _ _ _ Hk (Hw d E0))|].
    intros _ k' (Hk' & Hf & Hc & Hi & Hr & Ho). apply wp_modify. cbn [ioq io_thr upd_ioq]. split; [done|].
    split_and!; try done. congruence.
Qed.

(** Waiters other than the one woken stay parked. *)
Lemma io_ok_after d s s' q' : io_ok s -> qwf q' -> (forall d', waiter d' q' = waiter d' (ioq s)) ->
  ioq s' = set_waiter d 0 q' -> woken d s s' -> io_ok s'.
Proof.
  intros [_ _ _ Hw Hs] Hq' Hsame Hioq (Hk & Hi & Hc & Hr & Ho & Hf & _).
  assert (Hp : producer q' = producer (ioq s)) by apply (Hsame Producer).
  assert (Hcs : consumer q' = consumer (ioq s)) by apply (Hsame Consumer).
  split; rewrite ?Hioq; try done.
  - destruct Hq', q', d; by split.
  - intros d' Hd'. destruct d, d'; simpl in *; try done.
    + apply Ho. split; [rewrite Hcs; apply (Hw Consumer); simpl; congruence|].
      simpl. intros E. rewrite Hcs in *. apply Hs; congruence.
    + apply Ho. split; [rewrite Hp; apply (Hw Producer); simpl; congruence|].
      simpl. intros E. rewrite Hp in *. apply Hs; congruence.
  - destruct d; simpl; congruence.
Qed.

(** A byte goes in: the queue is not full. *)
Lemma putchar_ok b s : io_ok s -> qlen (ioq s) <> 2047 ->
  wp (putchar_loop v2p b) (λ r s', r = inl tt /\ io_ok s' /\ woken Consumer s s' /\
    ioq s' = set_waiter Consumer 0 (pushed (ioq s) b)) s.
Proof.
  intros Hs Hl. pose proof Hs as [Hk Hoff Hq Hw _]. pose proof Hq as [Hbuf Hh Ht].
  unfold putchar_loop. apply wp_bind. unfold ioq_full. apply wp_bind, wp_intr_off; [done|]. apply wp_gets.
  rewrite full_iff by done. rewrite (proj2 (Z.eqb_neq _ 2047) Hl).
  apply wp_bind. unfold ioq_store. apply wp_bind, wp_gets. apply wp_bind.
  rewrite (proj2 (Z.leb_le 0 (io_head (ioq s)))), (proj2 (Z.ltb_lt (io_head (ioq s)) (zlen (io_buf (ioq s))))) by lia.
  apply wp_ret, wp_bind, wp_modify.
  eapply wp_mono; [apply (wake_ok Consumer s (pushed (ioq s) b) Hs); done|].
  intros _ s' [Hioq Hwk]. apply wp_ret. split_and!; try done.
  eapply (io_ok_after Consumer s s' (pushed (ioq s) b)); try done; by apply pushed_wf.
Qed.

Lemma getchar_ok s : io_ok s -> qlen (ioq s) <> 0 ->
  wp (getchar_loop v2p) (λ r s', io_ok s' /\ woken Producer s s' /\
    ioq s' = set_waiter Producer 0 (popped (ioq s)) /\
    exists b, r = inl b /\ contents (ioq s) = b :: contents (ioq s')) s.
Proof.
  intros Hs Hl. pose proof Hs as [Hk Hoff Hq Hw _]. pose proof Hq as [Hbuf Hh Ht].
  destruct (popped_contents (ioq s) Hq Hl) as (b & Hb & Hc).
  unfold getchar_loop. apply wp_bind. unfold ioq_empty. apply wp_bind, wp_intr_off; [done|]. apply wp_gets.
  rewrite empty_iff by done. rewrite (proj2 (Z.eqb_neq _ 0) Hl).
  apply wp_bind. unfold ioq_take. apply wp_bind, wp_gets. apply wp_bind. eapply wp_lift; [by rewrite Hb|].
  apply wp_bind, wp_modify. apply wp_bind.
  eapply wp_mono; [apply (wake_ok Producer s (popped (ioq s)) Hs); done|].
  intros _ s' [Hioq Hwk]. apply wp_ret, wp_ret. split_and!; try done.
  - eapply (io_ok_after Producer s s' (popped (ioq s))); try done; by apply popped_wf.
  - exists b. split; [done|]. rewrite Hc, Hioq. done.
Qed.

(** *** Waiting *)

Lemma cur_nonzero k : kinv k -> k_cur k <> 0.
Proof. intros Hk E. destruct (q_run _ _ Hk) as (t & Ht & _). rewrite E, (q_null _ _ Hk) in Ht. done. Qed.

(** A thread that cannot go on waits with the queue's lock in its hands. *)
Definition parked_on (d : side) (s s' : iosys) : Prop :=
  io_ok s' /\ offq (k_cur (io_thr s)) (io_thr s') /\
  ioq s' = set_waiter d (k_cur (io_thr s)) (set_iolock (Lock (k_cur (io_thr s)) (Sema 0 []) 1) (ioq s)).

Lemma park_ok {A} d s : io_ok s -> producer (ioq s) = 0 -> consumer (ioq s) = 0 ->
  io_lock (ioq s) = lock_init -> k_cur (io_thr s) <> idle_thread (io_thr s) ->
  wp (io_lock_acquire;; old ← ioq_wait v2p d; mret (inr old : A + intr_status))
    (λ r s', r = inr INTR_OFF /\ parked_on d s s') s.
Proof.
  intros Hs Hp Hc Hlk Hidle. pose proof Hs as [Hk Hoff Hq Hw _]. unfold parked_on. set (me := k_cur (io_thr s)) in *.
  apply wp_bind. unfold io_lock_acquire. apply wp_bind, wp_io_thr, wp_gets. apply wp_bind, wp_gets. cbn [ioq].
  apply wp_bind. eapply wp_lift.
  { rewrite Hlk. unfold Seq.lock_acquire. cbn [holder lock_init]. fold me.
    rewrite (proj2 (Z.eqb_neq 0 me)) by (apply not_eq_sym, (cur_nonzero _ Hk)). reflexivity. }
  apply wp_modify. cbn [ioq upd_ioq].
  apply wp_bind. unfold ioq_wait. apply wp_bind, wp_gets. cbn [ioq].
  apply wp_bind, wp_assert; [apply Z.eqb_eq; by destruct d|].
  apply wp_bind, wp_io_thr, wp_gets. apply wp_bind, wp_modify. apply wp_io_thr. cbn [io_thr upd_ioq ioq].
  eapply wp_mono; [by apply (thread_block_ok v2p TASK_BLOCKED _ Hk)|].
  intros old k' (-> & Hk' & Hf & Hoff' & _ & _ & Ho). apply wp_ret. cbn [ioq io_thr].
  assert (Hme : offq me k') by (apply Ho; [done|by right]).
  split_and!; [by unfold status_of; rewrite Hoff| |done|done].
  split; cbn [ioq io_thr]; try done.
  - destruct d, Hq; by split.
  - intros d' Hd. destruct d, d'; simpl in *; congruence || done.
  - destruct d; simpl; congruence.
Qed.

(** The consumer finds nothing, the producer no room. *)
Lemma getchar_waits s : io_ok s -> qlen (ioq s) = 0 -> producer (ioq s) = 0 -> consumer (ioq s) = 0 ->
  io_lock (ioq s) = lock_init -> k_cur (io_thr s) <> idle_thread (io_thr s) ->
  wp (getchar_loop v2p) (λ r s', r = inr INTR_OFF /\ parked_on Consumer s s') s.
Proof.
  intros Hs Hl Hp Hc Hlk Hidle. unfold getchar_loop. apply wp_bind. unfold ioq_empty.
  apply wp_bind, wp_intr_off; [apply (io_off s Hs)|]. apply wp_gets. rewrite empty_iff, Hl by apply (io_qwf s Hs).
  by apply park_ok.
Qed.

Lemma putchar_waits b s : io_ok s -> qlen (ioq s) = 2047 -> producer (ioq s) = 0 -> consumer (ioq s) = 0 ->
  io_lock (ioq s) = lock_init -> k_cur (io_thr s) <> idle_thread (io_thr s) ->
  wp (putchar_loop v2p b) (λ r s', r = inr INTR_OFF /\ parked_on Producer s s') s.
Proof.
  intros Hs Hl Hp Hc Hlk Hidle. unfold putchar_loop. apply wp_bind. unfold ioq_full.
  apply wp_bind, wp_intr_off; [apply (io_off s Hs)|]. apply wp_gets. rewrite full_iff, Hl by apply (io_qwf s Hs).
  by apply park_ok.
Qed.

(** The rest of a call that waited, when the byte is there. *)
Lemma getchar_resume_ok s : io_ok s -> qlen (ioq s) <> 0 ->
  io_lock (ioq s) = Lock (k_cur (io_thr s)) (Sema 0 []) 1 ->
  wp (ioq_getchar_resume v2p INTR_OFF) (λ r s', io_ok s' /\
    ioq s' = set_waiter Producer 0 (popped (set_iolock lock_init (ioq s))) /\
    exists b, r = inl b /\ contents (ioq s) = b :: contents (ioq s')) s.
Proof.
  intros Hs Hl Hlk. unfold ioq_getchar_resume. apply wp_bind, wp_io_thr. unfold thread_block_exit.
  apply wp_bind, wp_kcpu_set. intros r c Hc. apply wp_ret. cbn in Hc.
  apply wp_bind. unfold io_lock_release. apply wp_bind, wp_io_thr, wp_gets. apply wp_bind, wp_gets. cbn [ioq io_thr upd_cpu k_cur].
  apply wp_bind. eapply wp_lift.
  { rewrite Hlk. unfold Seq.lock_release. cbn [holder]. rewrite (Z.eqb_refl (k_cur (io_thr s))). reflexivity. }
  apply wp_bind, wp_modify. cbn [fst snd ioq upd_ioq]. apply wp_ret.
  eapply wp_mono; [apply getchar_ok|].
  - destruct Hs as [Hk Hoff [? ? ?] Hw Hsd]. split; cbn; try done; by apply queued_cpu.
  - done.
  - intros x s' (Hok & _ & Hq & b & -> & Hb). split_and!; [done|done|]. exists b. split; [done|]. exact Hb.
Qed.

(** C34: the ring buffer is a first-in first-out queue of at most 2047 bytes.
    [ioq_putchar] on a queue that is not full appends the byte and puts a
    waiting consumer at the head of the ready queue; [ioq_getchar] on a
    queue that is not empty gives the oldest byte and does the same to a
    waiting producer; [ioq_length] is the number of bytes. *)
Theorem ioq_fifo s : io_ok s ->
  (zlen (contents (ioq s)) < 2047 -> forall b, exists s', ioq_putchar v2p b s = Ok (inl tt, s') /\ io_ok s' /\
     contents (ioq s') = contents (ioq s) ++ [b] /\ woken Consumer s s') /\
  (forall b l, contents (ioq s) = b :: l -> exists s', ioq_getchar v2p s = Ok (inl b, s') /\ io_ok s' /\
     contents (ioq s') = l /\ woken Producer s s') /\
  ioq_length (ioq s) = zlen (contents (ioq s)) /\ zlen (contents (ioq s)) <= 2047.
Proof.
  intros Hs. pose proof (qlen_range (ioq s)) as Hr. change bufsize with 2048 in Hr. split_and!.
  - intros Hl b. rewrite contents_len in Hl.
    assert (Hwp : wp (ioq_putchar v2p b) (λ r s', r = inl tt /\ io_ok s' /\ woken Consumer s s' /\
      ioq s' = set_waiter Consumer 0 (pushed (ioq s) b)) s).
    { unfold ioq_putchar. apply wp_bind, wp_intr_off; [apply (io_off s Hs)|]. apply putchar_ok; [done|lia]. }
    apply wp_run in Hwp as (r & s' & Hrun & -> & Hok & Hwk & Hq). exists s'. split_and!; try done.
    rewrite Hq. change (contents (set_waiter Consumer 0 (pushed (ioq s) b))) with (contents (pushed (ioq s) b)).
    apply pushed_contents; [apply (io_qwf s Hs)|lia].
  - intros b l Hc. assert (Hl : qlen (ioq s) <> 0).
    { rewrite <- contents_len, Hc. unfold zlen. simpl. lia. }
    assert (Hwp : wp (ioq_getchar v2p) (λ r s', io_ok s' /\ woken Producer s s' /\
      ioq s' = set_waiter Producer 0 (popped (ioq s)) /\
      exists b, r = inl b /\ contents (ioq s) = b :: contents (ioq s')) s).
    { unfold ioq_getchar. apply wp_bind, wp_intr_off; [apply (io_off s Hs)|]. by apply getchar_ok. }
    apply wp_run in Hwp as (r & s' & Hrun & Hok & Hwk & _ & b' & -> & Hb). rewrite Hc in Hb. simplify_eq.
    by exists s'.
  - rewrite contents_len. apply ioq_length_ok, (io_qwf s Hs).
  - rewrite contents_len. lia.
Qed.

(** C26: no wakeup is lost.  A consumer that finds the queue empty parks, with
    the queue's lock; the next [ioq_putchar], by whichever thread runs, puts
    it at the head of the ready queue; and when it runs again its call
    returns that byte and the lock is free as before. *)
Theorem ioq_handoff s b : io_ok s -> contents (ioq s) = [] -> producer (ioq s) = 0 -> consumer (ioq s) = 0 ->
  io_lock (ioq s) = lock_init -> k_cur (io_thr s) <> idle_thread (io_thr s) ->
  exists s1 s2, ioq_getchar v2p s = Ok (inr INTR_OFF, s1) /\ ioq_putchar v2p b s1 = Ok (inl tt, s2) /\
    head (thread_ready_list (io_thr s2)) = Some (k_cur (io_thr s)) /\
    forall s3, io_ok s3 -> ioq s3 = ioq s2 -> k_cur (io_thr s3) = k_cur (io_thr s) ->
      exists s4, ioq_getchar_resume v2p INTR_OFF s3 = Ok (inl b, s4) /\ io_ok s4 /\
        contents (ioq s4) = [] /\ io_lock (ioq s4) = lock_init.
Proof.
  intros Hs Hc Hp Hcs Hlk Hidle. assert (Hl : qlen (ioq s) = 0) by (rewrite <- contents_len, Hc; done).
  assert (Hwp : wp (ioq_getchar v2p) (λ r s', r = inr INTR_OFF /\ parked_on Consumer s s') s).
  { unfold ioq_getchar. apply wp_bind, wp_intr_off; [apply (io_off s Hs)|]. by apply getchar_waits. }
  apply wp_run in Hwp as (r & s1 & Hrun1 & -> & Hok1 & _ & Hq1).
  set (me := k_cur (io_thr s)) in *. assert (Hme : me <> 0) by apply (cur_nonzero _ (io_kinv s Hs)).
  assert (Hl1 : qlen (ioq s1) <> 2047) by (rewrite Hq1; change (qlen (ioq s) <> 2047); lia).
  assert (Hwp : wp (ioq_putchar v2p b) (λ r s', r = inl tt /\ io_ok s' /\ woken Consumer s1 s' /\
    ioq s' = set_waiter Consumer 0 (pushed (ioq s1) b)) s1).
  { unfold ioq_putchar. apply wp_bind, wp_intr_off; [apply (io_off s1 Hok1)|]. by apply putchar_ok. }
  apply wp_run in Hwp as (r & s2 & Hrun2 & -> & Hok2 & (_ & _ & _ & Hrd & _) & Hq2).
  exists s1, s2. split_and!; [done|done| |].
  - rewrite Hrd, Hq1. cbn [waiter set_waiter consumer set_iolock]. by rewrite (proj2 (Z.eqb_neq me 0)).
  - intros s3 Hok3 Hq3 Hcur.
    assert (Hc3 : contents (ioq s3) = [b]).
    { rewrite Hq3, Hq2, Hq1.
      change (contents (pushed (ioq s) b) = [b]). rewrite pushed_contents, Hc; [done|apply (io_qwf s Hs)|lia]. }
    assert (Hl3 : qlen (ioq s3) <> 0) by (rewrite <- contents_len, Hc3; done).
    pose proof (getchar_resume_ok s3 Hok3 Hl3) as Hwp.
    rewrite Hcur in Hwp. specialize (Hwp ltac:(rewrite Hq3, Hq2, Hq1; done)).
    apply wp_run in Hwp as (r & s4 & Hrun4 & Hok4 & Hq4 & b' & -> & Hb). rewrite Hc3 in Hb. simplify_eq.
    exists s4. split_and!; [done|done|done|]. by rewrite Hq4.
Qed.
End ops.

(** ** The theorems on an example: main runs, the queue is new *)

Definition demo_io : iosys := IoS demo_threads (ioqueue_init (zeros 2048)).

Lemma demo_io_ok : io_ok demo_io.
Proof.
  split; [apply demo_threads_kinv|reflexivity| |by intros []|done].
  split; cbn; [reflexivity|unfold bufsize; lia|unfold bufsize; lia].
Qed.

Lemma ioq_fifo_witness :
  exists s', ioq_putchar (λ z, z) 65 demo_io = Ok (inl tt, s') /\ io_ok s' /\ contents (ioq s') = [65].
Proof.
  destruct (ioq_fifo (λ z, z) demo_io demo_io_ok) as [Hput _].
  destruct (Hput ltac:(reflexivity) 65) as (s' & Hr & Hok & Hc & _). by exists s'.
Defined.

Lemma ioq_handoff_witness :
  exists s1 s2, ioq_getchar (λ z, z) demo_io = Ok (inr INTR_OFF, s1) /\
    ioq_putchar (λ z, z) 65 s1 = Ok (inl tt, s2) /\
    head (thread_ready_list (io_thr s2)) = Some 0xc009e000.
Proof.
  destruct (ioq_handoff (λ z, z) demo_io 65 demo_io_ok) as (s1 & s2 & Hg & Hp & Hh & _);
    [reflexivity|reflexivity|reflexivity|reflexivity|discriminate|].
  by exists s1, s2.
Defined.
