(* ===== verification/Keyboard.v ===== *)
(** device/keyboard.c: from scan codes to characters.

    [kbd] is the five status variables, the keyboard's queue with the threads
    (IoQueue.v) and the messages [put_str] showed.  The handler takes the byte
    it reads from port 0x60; it runs with interrupts off, so a call is one
    step.  Characters are written as their ASCII codes. *)

From S2P Require Import Prelude Bitmap Bytes Interrupt Thread Sync IoQueue.

Open Scope Z_scope.

Definition esc : Z := 27.
Definition backspace : Z := 8.
Definition tab : Z := 9.
Definition enter : Z := 13.
Definition char_invisible : Z := 0.
Definition ctrl_l_char : Z := char_invisible.
Definition shift_l_char : Z := char_invisible.
Definition shift_r_char : Z := char_invisible.
Definition alt_l_char : Z := char_invisible.
Definition caps_lock_char : Z := char_invisible.

Definition shift_l_make : Z := 0x2a.
Definition shift_r_make : Z := 0x36.
Definition alt_l_make : Z := 0x38.
Definition alt_r_make : Z := 0xe038.
Definition ctrl_l_make : Z := 0x1d.
Definition ctrl_r_make : Z := 0xe01d.
Definition caps_lock_make : Z := 0x3a.

(** Rows of (unshifted, shifted), indexed by the make code. *)
Definition keymap : list (Z * Z) := [
  (0, 0);                       (* 0x00 *)
  (esc, esc);
  (49, 33); (50, 64); (51, 35); (52, 36); (53, 37); (54, 94); (55, 38); (56, 42); (57, 40); (48, 41);
  (45, 95); (61, 43);
  (backspace, backspace);       (* 0x0E *)
  (tab, tab);
  (113, 81); (119, 87); (101, 69); (114, 82); (116, 84); (121, 89); (117, 85); (105, 73); (111, 79); (112, 80);
  (91, 123); (93, 125);         (* 0x1A *)
  (enter, enter);
  (ctrl_l_char, ctrl_l_char);
  (97, 65); (115, 83); (100, 68); (102, 70); (103, 71); (104, 72); (106, 74); (107, 75); (108, 76);
  (59, 58); (39, 34); (96, 126);
  (shift_l_char, shift_l_char); (* 0x2A *)
  (92, 124);
  (122, 90); (120, 88); (99, 67); (118, 86); (98, 66); (110, 78); (109, 77);
  (44, 60); (46, 62); (47, 63);
  (shift_r_char, shift_r_char); (* 0x36 *)
  (42, 42);
  (alt_l_char, alt_l_char);
  (32, 32);
  (caps_lock_char, caps_lock_char)
].

Record kflags := KFlags {
  ctrl_status : bool; shift_status : bool; alt_status : bool; caps_lock_status : bool; ext_scancode : bool
}.
Record kbd := Kbd { k_fl : kflags; kbd_buf : iosys; kbd_screen : list string }.

Definition set_ctrl (b : bool) (f : kflags) : kflags :=
  KFlags b (shift_status f) (alt_status f) (caps_lock_status f) (ext_scancode f).
Definition set_shift (b : bool) (f : kflags) : kflags :=
  KFlags (ctrl_status f) b (alt_status f) (caps_lock_status f) (ext_scancode f).
Definition set_alt (b : bool) (f : kflags) : kflags :=
  KFlags (ctrl_status f) (shift_status f) b (caps_lock_status f) (ext_scancode f).
Definition set_caps (b : bool) (f : kflags) : kflags :=
  KFlags (ctrl_status f) (shift_status f) (alt_status f) b (ext_scancode f).
Definition set_ext (b : bool) (f : kflags) : kflags :=
  KFlags (ctrl_status f) (shift_status f) (alt_status f) (caps_lock_status f) b.

Definition on_flags (g : kflags -> kflags) : M kbd unit := modify (λ k, Kbd (g (k_fl k)) (kbd_buf k) (kbd_screen k)).
Definition on_kbd_buf {A} (m : M iosys A) : M kbd A := zoom kbd_buf (λ b k, Kbd (k_fl k) b (kbd_screen k)) m.
Definition put_str (msg : string) : M kbd unit := modify (λ k, Kbd (k_fl k) (kbd_buf k) (kbd_screen k ++ [msg])).

(** The keys that show one of two characters whatever caps lock says. *)
Definition two_char_key (scancode : Z) : bool :=
  (scancode <? 0x0e) || (scancode =? 0x29) || (scancode =? 0x1a) || (scancode =? 0x1b) ||
  (scancode =? 0x2b) || (scancode =? 0x27) || (scancode =? 0x28) || (scancode =? 0x33) ||
  (scancode =? 0x34) || (scancode =? 0x35).

Section code.
Context (v2p : Z -> Z).

Definition intr_keyboard_handler (port : Z) : M kbd unit :=
  ctrl_down_last ← gets (λ k, ctrl_status (k_fl k));
  shift_down_last ← gets (λ k, shift_status (k_fl k));
  caps_lock_last ← gets (λ k, caps_lock_status (k_fl k));
  let scancode := u16 (u8 port) in
  if scancode =? 0xe0 then on_flags (set_ext true)
  else
    ext ← gets (λ k, ext_scancode (k_fl k));
    scancode ← (if ext : bool then on_flags (set_ext false);; mret (Z.lor 0xe000 scancode) else mret scancode);
    let break_code := negb (Z.land scancode 0x0080 =? 0) in
    if break_code then
      let make_code := Z.land scancode 0xff7f in
      if (make_code =? ctrl_l_make) || (make_code =? ctrl_r_make) then on_flags (set_ctrl false)
      else if (make_code =? shift_l_make) || (make_code =? shift_r_make) then on_flags (set_shift false)
      else if (make_code =? alt_l_make) || (make_code =? alt_r_make) then on_flags (set_alt false)
      else mret tt
    else if ((0x00 <? scancode) && (scancode <? 0x3b)) || (scancode =? alt_r_make) || (scancode =? ctrl_r_make) then
      let shift :=
        if two_char_key scancode then shift_down_last
        else if shift_down_last && caps_lock_last then false
        else shift_down_last || caps_lock_last in
      let scancode := Z.land scancode 0x00ff in
      let index := u8 scancode in
      row ← lift (of_option (znth keymap index));
      let cur_char := if shift : bool then snd row else fst row in
      if negb (cur_char =? 0) then
        let cur_char :=
          if (ctrl_down_last && (cur_char =? 108)) || (ctrl_down_last && (cur_char =? 117))
          then s8 (cur_char - 97) else cur_char in
        full ← on_kbd_buf ioq_full;
        if negb full then
          r ← on_kbd_buf (ioq_putchar v2p cur_char);
          lift (match r with inl _ => Ok tt | inr _ => Block end)
        else mret tt
      else if (scancode =? ctrl_l_make) || (scancode =? ctrl_r_make) then on_flags (set_ctrl true)
      else if (scancode =? shift_l_make) || (scancode =? shift_r_make) then on_flags (set_shift true)
      else if (scancode =? alt_l_make) || (scancode =? alt_r_make) then on_flags (set_alt true)
      else if scancode =? caps_lock_make then
        caps ← gets (λ k, caps_lock_status (k_fl k));
        on_flags (set_caps (negb caps))
      else mret tt
    else put_str "unknown key".

(** One interrupt per byte of the keyboard. *)
Fixpoint interrupts (codes : list Z) : M kbd unit :=
  match codes with
  | [] => mret tt
  | c :: codes => intr_keyboard_handler c;; interrupts codes
  end.
End code.

(** The queue is emptied; [register_handler(0x21, ...)] is the dispatcher's
    business. *)
Definition keyboard_init : M kbd unit :=
  put_str "keyboard init start";;
  modify (λ k, Kbd (k_fl k) (upd_ioq (ioqueue_init (io_buf (ioq (kbd_buf k)))) (kbd_buf k)) (kbd_screen k));;
  put_str "keyboard init done".

(** ** What a scan code means

    [decode] is the handler without its effects on the queue and the screen:
    the new flags and the character or the message that comes out. *)

Inductive kout := KNone | KChar (c : Z) | KUnknown.

Definition decode (port : Z) (f : kflags) : kflags * kout :=
  let sc := u8 port in
  if sc =? 0xe0 then (set_ext true f, KNone)
  else
    let f1 := if ext_scancode f then set_ext false f else f in
    let sc := if ext_scancode f then Z.lor 0xe000 sc else sc in
    if negb (Z.land sc 0x80 =? 0) then
      let mk := Z.land sc 0xff7f in
      (if (mk =? ctrl_l_make) || (mk =? ctrl_r_make) then set_ctrl false f1
       else if (mk =? shift_l_make) || (mk =? shift_r_make) then set_shift false f1
       else if (mk =? alt_l_make) || (mk =? alt_r_make) then set_alt false f1
       else f1, KNone)
    else if ((0x00 <? sc) && (sc <? 0x3b)) || (sc =? alt_r_make) || (sc =? ctrl_r_make) then
      let shift := if two_char_key sc then shift_status f else xorb (shift_status f) (caps_lock_status f) in
      let sc := Z.land sc 0xff in
      let row := default (0, 0) (znth keymap sc) in
      let c := if shift then snd row else fst row in
      if negb (c =? 0) then (f1, KChar (if ctrl_status f && ((c =? 108) || (c =? 117)) then c - 97 else c))
      else (if (sc =? ctrl_l_make) || (sc =? ctrl_r_make) then set_ctrl true f1
            else if (sc =? shift_l_make) || (sc =? shift_r_make) then set_shift true f1
            else if (sc =? alt_l_make) || (sc =? alt_r_make) then set_alt true f1
            else if sc =? caps_lock_make then set_caps (negb (caps_lock_status f)) f1
            else f1, KNone)
    else (f1, KUnknown).

Fixpoint decodes (codes : list Z) (f : kflags) : kflags * list kout :=
  match codes with
  | [] => (f, [])
  | c :: codes =>
      let '(f1, o) := decode c f in
      let '(f2, os) := decodes codes f1 in
      (f2, o :: os)
  end.

(** The characters a sequence of outputs contains. *)
Definition chars_of (os : list kout) : list Z := omap (λ o, match o with KChar c => Some c | _ => None end) os.

Lemma all_bytes (P : Z -> bool) : forallb P (seqZ 0 256) = true -> forall z, 0 <= z < 256 -> P z = true.
Proof. intros H z Hz. apply (proj1 (forallb_forall P _) H), list_elem_of_In, elem_of_seqZ. lia. Qed.

(** The make codes the handler goes on with index the key map. *)
Lemma row_ok (ext : bool) port :
  let sc := if ext then Z.lor 0xe000 (u8 port) else u8 port in
  ((0x00 <? sc) && (sc <? 0x3b)) || (sc =? alt_r_make) || (sc =? ctrl_r_make) = true ->
  znth keymap (u8 (Z.land sc 0x00ff)) = Some (default (0, 0) (znth keymap (Z.land sc 0xff))).
Proof.
  pose (P sc := negb (((0x00 <? sc) && (sc <? 0x3b)) || (sc =? alt_r_make) || (sc =? ctrl_r_make)) ||
    bool_decide (znth keymap (u8 (Z.land sc 0x00ff)) = Some (default (0, 0) (znth keymap (Z.land sc 0xff))))).
  assert (HP : P (if ext then Z.lor 0xe000 (u8 port) else u8 port) = true).
  { destruct ext; [apply (all_bytes (λ z, P (Z.lor 0xe000 z)))|apply (all_bytes P)]; (apply u8_range || by vm_compute). }
  intros sc Hsc. unfold P in HP. fold sc in HP. rewrite Hsc in HP. by apply bool_decide_eq_true in HP.
Qed.

(** A character goes to the queue, or is lost when the queue is full. *)
Definition enqueued (c : Z) (s s' : iosys) : Prop :=
  io_ok s' /\
  (if decide (zlen (contents (ioq s)) = 2047) then s' = s
   else contents (ioq s') = contents (ioq s) ++ [c] /\ woken Consumer s s' /\
        ioq s' = set_waiter Consumer 0 (pushed (ioq s) c)).

(** Nobody waits for the queue. *)
Definition unwatched (s : iosys) : Prop := producer (ioq s) = 0 /\ consumer (ioq s) = 0.

Definition emitted (o : kout) (k k' : kbd) : Prop :=
  match o with
  | KChar c => enqueued c (kbd_buf k) (kbd_buf k') /\ kbd_screen k' = kbd_screen k
  | KNone => kbd_buf k' = kbd_buf k /\ kbd_screen k' = kbd_screen k
  | KUnknown => kbd_buf k' = kbd_buf k /\ kbd_screen k' = kbd_screen k ++ ["unknown key"%string]
  end.

Lemma ctrl_char (ctrl : bool) c :
  (if (ctrl && (c =? 108)) || (ctrl && (c =? 117)) then s8 (c - 97) else c)
    = if ctrl && ((c =? 108) || (c =? 117)) then c - 97 else c.
Proof.
  destruct ctrl; [|done]. cbn [andb].
  destruct (Z.eqb_spec c 108) as [->|]; [done|]. by destruct (Z.eqb_spec c 117) as [->|].
Qed.

Section ops.
Context (v2p : Z -> Z).
Implicit Types k : kbd.

Lemma wp_flags g (Q : unit -> kbd -> Prop) k : Q tt (Kbd (g (k_fl k)) (kbd_buf k) (kbd_screen k)) -> wp (on_flags g) Q k.
Proof. intros HQ. by apply wp_modify. Qed.

Lemma wp_kbd_buf {A} (m : M iosys A) (Q : A -> kbd -> Prop) k :
  wp m (λ a b, Q a (Kbd (k_fl k) b (kbd_screen k))) (kbd_buf k) -> wp (on_kbd_buf m) Q k.
Proof. intros Hm. by apply wp_zoom. Qed.

Lemma enqueue_ok c k : io_ok (kbd_buf k) ->
  wp (full ← on_kbd_buf ioq_full;
      if negb full then
        r ← on_kbd_buf (ioq_putchar v2p c);
        lift (match r with inl _ => Ok tt | inr _ => Block end)
      else mret tt)
    (λ _ k', k_fl k' = k_fl k /\ kbd_screen k' = kbd_screen k /\ enqueued c (kbd_buf k) (kbd_buf k')) k.
Proof.
  intros Hok. pose proof (io_qwf _ Hok) as Hq. apply wp_bind, wp_kbd_buf. unfold ioq_full.
  apply wp_bind, wp_intr_off; [apply (io_off _ Hok)|]. apply wp_gets. rewrite full_iff by done.
  unfold enqueued. rewrite contents_len.
  destruct (Z.eqb_spec (qlen (ioq (kbd_buf k))) 2047) as [E|E]; cbn [negb].
  - apply wp_ret. cbv beta. by rewrite decide_True.
  - apply wp_bind, wp_kbd_buf. cbn [kbd_buf k_fl kbd_screen].
    unfold ioq_putchar. apply wp_bind, wp_intr_off; [apply (io_off _ Hok)|].
    eapply wp_mono; [by apply putchar_ok|]. intros r s' (-> & Hok' & Hw & Hs').
    eapply wp_lift; [reflexivity|]. cbn [kbd_buf k_fl kbd_screen]. rewrite decide_False by done. split_and!; try done.
    rewrite Hs'. by apply pushed_contents.
Qed.

(** The handler is [decode] with its output delivered. *)
Lemma handler_decode port k : io_ok (kbd_buf k) ->
  wp (intr_keyboard_handler v2p port)
    (λ _ k', k_fl k' = fst (decode port (k_fl k)) /\ emitted (snd (decode port (k_fl k))) k k') k.
Proof.
  intros Hok. unfold intr_keyboard_handler, decode. do 3 apply wp_bind, wp_gets. cbv zeta.
  rewrite (u16_small (u8 port)) by (pose proof (u8_range port); lia).
  destruct (u8 port =? 0xe0); [by apply wp_flags|].
  apply wp_bind, wp_gets. apply wp_bind.
  destruct k as [f b sc]. cbn [k_fl kbd_buf kbd_screen] in *.
  assert (Hext : forall (Q : Z -> kbd -> Prop),
    Q (if ext_scancode f then Z.lor 0xe000 (u8 port) else u8 port) (Kbd (if ext_scancode f then set_ext false f else f) b sc) ->
    wp (if ext_scancode f then on_flags (set_ext false);; mret (Z.lor 0xe000 (u8 port)) else mret (u8 port)) Q (Kbd f b sc)).
  { intros Q HQ. destruct (ext_scancode f); [apply wp_bind, wp_flags|]; by apply wp_ret. }
  apply Hext. clear Hext. pose proof (row_ok (ext_scancode f) port) as Hrow. cbv zeta in Hrow.
  set (sc' := if ext_scancode f then Z.lor 0xe000 (u8 port) else u8 port) in *.
  set (f1 := if ext_scancode f then set_ext false f else f).
  assert (Hcaps : caps_lock_status f1 = caps_lock_status f) by (unfold f1; by destruct (ext_scancode f)).
  destruct (negb (Z.land sc' 128 =? 0)).
  { repeat case_match; (apply wp_flags || apply wp_ret); done. }
  destruct (_ || (sc' =? ctrl_r_make)) eqn:Hcond; [|by apply wp_modify].
  apply wp_bind. eapply wp_lift; [by rewrite (Hrow eq_refl)|]. cbv beta zeta.
  replace (if two_char_key sc' then shift_status f
           else if shift_status f && caps_lock_status f then false else shift_status f || caps_lock_status f)
    with (if two_char_key sc' then shift_status f else xorb (shift_status f) (caps_lock_status f))
    by (by destruct (two_char_key sc'), (shift_status f), (caps_lock_status f)).
  set (row := default (0, 0) _).
  set (c := if (if two_char_key sc' then shift_status f else xorb (shift_status f) (caps_lock_status f)) then snd row else fst row).
  destruct (negb (c =? 0)).
  - rewrite ctrl_char.
    eapply wp_mono; [by apply (enqueue_ok _ (Kbd f1 b sc))|]. intros _ k' (? & ? & ?). done.
  - repeat case_match; try (by apply wp_flags || by apply wp_ret).
    apply wp_bind, wp_gets. apply wp_flags. cbn [k_fl]. by rewrite Hcaps.
Qed.
End ops.

(** A run of interrupts: the flags follow [decodes], the queue takes the
    characters as long as it has room. *)
Lemma interrupts_decodes v2p codes k : io_ok (kbd_buf k) ->
  wp (interrupts v2p codes)
    (λ _ k', k_fl k' = fst (decodes codes (k_fl k)) /\ io_ok (kbd_buf k') /\
      contents (ioq (kbd_buf k')) = take 2047 (contents (ioq (kbd_buf k)) ++ chars_of (snd (decodes codes (k_fl k)))) /\
      (KUnknown ∉ snd (decodes codes (k_fl k)) -> kbd_screen k' = kbd_screen k) /\
      (unwatched (kbd_buf k) -> unwatched (kbd_buf k') /\ io_thr (kbd_buf k') = io_thr (kbd_buf k))) k.
Proof.
  revert k. induction codes as [|c codes IH]; intros k Hok; cbn [interrupts decodes].
  - apply wp_ret. split; [done|]. split; [done|]. split; [|done].
    change (chars_of (snd (k_fl k, []))) with (@nil Z). rewrite app_nil_r, take_ge; [done|].
    pose proof (contents_len (ioq (kbd_buf k))). pose proof (qlen_range (ioq (kbd_buf k))).
    unfold zlen, bufsize in *. lia.
  - apply wp_bind. eapply wp_mono; [by apply handler_decode|]. intros [] k1 [Hf He].
    destruct (decode c (k_fl k)) as [f1 o] eqn:Ed. cbn [fst snd] in *.
    assert (Hok1 : io_ok (kbd_buf k1)).
    { destruct o; cbn [emitted] in He; [destruct He as [-> _]; done|by destruct He as [[? _] _]|destruct He as [-> _]; done]. }
    eapply wp_mono; [by apply IH|]. intros [] k2 (Hf2 & Hok2 & Hc2 & Hs2 & Hu2). rewrite Hf in *.
    destruct (decodes codes f1) as [f2 os]. cbn [fst snd] in *.
    split; [done|]. split; [done|]. split.
    + rewrite Hc2. destruct o as [|ch|]; cbn [emitted] in He.
      * by destruct He as [-> _].
      * destruct He as [[_ He] _]. change (chars_of (KChar ch :: os)) with (ch :: chars_of os).
        case_decide as Hfull.
        -- rewrite He. unfold zlen in Hfull. by rewrite !take_app_le, !take_ge by lia.
        -- destruct He as [He _]. by rewrite He, <- app_assoc.
      * by destruct He as [-> _].
    + split.
      * intros Hu. rewrite Hs2 by (intros Hin; apply Hu; by right).
        destruct o; cbn [emitted] in He; [by destruct He|by destruct He as [_ ?]|].
        exfalso. apply Hu. by left.
      * intros Hu. assert (Hu1 : unwatched (kbd_buf k1) /\ io_thr (kbd_buf k1) = io_thr (kbd_buf k)).
        { destruct o as [|ch|]; cbn [emitted] in He; [by destruct He as [-> _]| |by destruct He as [-> _]].
          destruct He as [[_ He] _]. case_decide; [by rewrite He|]. destruct He as (_ & Hw & Hq).
          destruct Hu as [Hp Hc]. split; [unfold unwatched; by rewrite Hq|]. by apply Hw. }
        destruct Hu1 as [Hu1 <-]. by apply Hu2.
Qed.

(** ** Typing *)

Inductive hand := HLeft | HRight.

(** What a user does: a character, a character with a ctrl key held, caps
    lock, an alt key.  The hand says which of the two shift or ctrl keys. *)
Inductive stroke := SType (c : Z) (h : hand) | SCtrl (c : Z) (h hc : hand) | SCaps | SAlt (h : hand).

Global Instance kflags_eq_dec : EqDecision kflags.
Proof. solve_decision. Defined.
Global Instance kout_eq_dec : EqDecision kout.
Proof. solve_decision. Defined.

(** The key of a character and whether it needs shift without caps lock. *)
Definition key_of (c : Z) : option (Z * bool) :=
  match list_find (λ r, fst r = c) keymap with
  | Some (i, _) => Some (Z.of_nat i, false)
  | None =>
      match list_find (λ r, snd r = c) keymap with
      | Some (i, _) => Some (Z.of_nat i, true)
      | None => None
      end
  end.
Definition typable : list Z := filter (λ c, c <> 0 /\ is_Some (key_of c)) (seqZ 0 128).

Definition break (code : Z) : Z := code + 0x80.
Definition shift_code (h : hand) : Z := match h with HLeft => shift_l_make | HRight => shift_r_make end.
Definition prefix (h : hand) : list Z := match h with HLeft => [] | HRight => [0xe0] end.
Definition hold (h : hand) (code : Z) (inner : list Z) : list Z :=
  prefix h ++ [code] ++ inner ++ prefix h ++ [break code].

Definition chord (caps : bool) (c : Z) (h : hand) : list Z :=
  match key_of c with
  | Some (code, level) =>
      if if two_char_key code then level else xorb level caps
      then [shift_code h; code; break code; break (shift_code h)]
      else [code; break code]
  | None => []
  end.
Definition stroke_codes (caps : bool) (s : stroke) : list Z :=
  match s with
  | SType c h => chord caps c h
  | SCtrl c h hc => hold hc ctrl_l_make (chord caps c h)
  | SCaps => [caps_lock_make; break caps_lock_make]
  | SAlt h => hold h alt_l_make []
  end.
Definition stroke_caps (caps : bool) (s : stroke) : bool := match s with SCaps => negb caps | _ => caps end.
Definition stroke_chars (s : stroke) : list Z :=
  match s with
  | SType c _ => [c]
  | SCtrl c _ _ => [if (c =? 108) || (c =? 117) then c - 97 else c]
  | SCaps | SAlt _ => []
  end.
Definition stroke_ok (s : stroke) : Prop :=
  match s with SType c _ | SCtrl c _ _ => c ∈ typable | _ => True end.

Fixpoint codes_of (caps : bool) (ss : list stroke) : list Z :=
  match ss with
  | [] => []
  | s :: ss => stroke_codes caps s ++ codes_of (stroke_caps caps s) ss
  end.
Definition caps_after (caps : bool) (ss : list stroke) : bool := fold_left stroke_caps ss caps.

(** No modifier is down, except that caps lock may be on. *)
Definition resting (f : kflags) : Prop :=
  ctrl_status f = false /\ shift_status f = false /\ alt_status f = false /\ ext_scancode f = false.

Definition rest (caps : bool) : kflags := KFlags false false false caps false.

Definition stroke_test (caps : bool) (s : stroke) : bool :=
  let '(f, os) := decodes (stroke_codes caps s) (rest caps) in
  bool_decide (f = rest (stroke_caps caps s)) && bool_decide (chars_of os = stroke_chars s) &&
  bool_decide (KUnknown ∉ os).

Lemma strokes_tested :
  forallb (λ caps, forallb (λ h, forallb (λ hc, forallb (λ c,
    stroke_test caps (SType c h) && stroke_test caps (SCtrl c h hc)) typable &&
    stroke_test caps (SAlt h) && stroke_test caps SCaps) [HLeft; HRight]) [HLeft; HRight]) [false; true] = true.
Proof. vm_compute. reflexivity. Qed.

Lemma stroke_decodes caps s : stroke_ok s ->
  fst (decodes (stroke_codes caps s) (rest caps)) = rest (stroke_caps caps s) /\
  chars_of (snd (decodes (stroke_codes caps s) (rest caps))) = stroke_chars s /\
  KUnknown ∉ snd (decodes (stroke_codes caps s) (rest caps)).
Proof.
  intros Hs. assert (Ht : stroke_test caps s = true).
  { pose proof strokes_tested as T. rewrite forallb_forall in T.
    specialize (T caps ltac:(destruct caps; simpl; tauto)).
    assert (Hh : forall h, In h [HLeft; HRight]) by (intros []; simpl; tauto).
    assert (T2 : forall h hc, forallb (λ c, stroke_test caps (SType c h) && stroke_test caps (SCtrl c h hc)) typable &&
      stroke_test caps (SAlt h) && stroke_test caps SCaps = true).
    { intros h hc. rewrite forallb_forall in T. specialize (T h (Hh h)). rewrite forallb_forall in T. apply (T hc), Hh. }
    assert (T3 : forall c h hc, c ∈ typable -> stroke_test caps (SType c h) = true /\ stroke_test caps (SCtrl c h hc) = true).
    { intros c h hc Hc. specialize (T2 h hc). rewrite !andb_true_iff, forallb_forall in T2.
      apply andb_true_iff, (proj1 (proj1 T2)), list_elem_of_In, Hc. }
    destruct s as [c h|c h hc| |h]; cbn [stroke_ok] in Hs.
    - by apply (T3 c h HLeft).
    - by apply (T3 c h hc).
    - specialize (T2 HLeft HLeft). apply andb_true_iff in T2 as [_ T2]. exact T2.
    - specialize (T2 h HLeft). apply andb_true_iff in T2 as [T2 _]. apply andb_true_iff in T2 as [_ T2]. exact T2. }
  unfold stroke_test in Ht. destruct (decodes _ _) as [f os]. cbn [fst snd].
  apply andb_true_iff in Ht as [Ht H3]. apply andb_true_iff in Ht as [H1 H2].
  split; [exact (bool_decide_unpack _ (proj2 (Is_true_true _) H1))|].
  split; [exact (bool_decide_unpack _ (proj2 (Is_true_true _) H2))|exact (bool_decide_unpack _ (proj2 (Is_true_true _) H3))].
Qed.

Lemma decodes_app c1 c2 f :
  decodes (c1 ++ c2) f =
    (fst (decodes c2 (fst (decodes c1 f))), snd (decodes c1 f) ++ snd (decodes c2 (fst (decodes c1 f)))).
Proof.
  revert f. induction c1 as [|c c1 IH]; intros f; simpl; [by destruct (decodes c2 f)|].
  destruct (decode c f) as [f1 o]. rewrite IH. by destruct (decodes c1 f1).
Qed.

Lemma strokes_decode ss caps : Forall stroke_ok ss ->
  fst (decodes (codes_of caps ss) (rest caps)) = rest (caps_after caps ss) /\
  chars_of (snd (decodes (codes_of caps ss) (rest caps))) = concat (map stroke_chars ss) /\
  KUnknown ∉ snd (decodes (codes_of caps ss) (rest caps)).
Proof.
  intros Hss. revert caps. induction Hss as [|s ss Hs _ IH]; intros caps; simpl.
  - split; [done|]. split; [done|apply not_elem_of_nil].
  - destruct (stroke_decodes caps s Hs) as (E1 & E2 & E3). rewrite decodes_app. cbn [fst snd]. rewrite E1.
    destruct (IH (stroke_caps caps s)) as (F1 & F2 & F3).
    split; [done|]. split.
    + unfold chars_of in *. by rewrite omap_app, E2, F2.
    + rewrite elem_of_app. tauto.
Qed.

(** C22: typing works.  Whatever sequence of characters a user types - each
    character of the key map through its key, with the shift key the caps
    lock state asks for and either hand, with or without a ctrl key - the
    interrupts that the make and break codes raise append exactly those
    characters to the queue, in order, as far as it has room (ctrl+l and
    ctrl+u as the two control characters the shell acts on), nothing is
    reported as unknown, and every modifier but caps lock is up again. *)
Theorem typing_roundtrip v2p ss k : io_ok (kbd_buf k) -> resting (k_fl k) -> Forall stroke_ok ss ->
  exists k', interrupts v2p (codes_of (caps_lock_status (k_fl k)) ss) k = Ok (tt, k') /\
    io_ok (kbd_buf k') /\ kbd_screen k' = kbd_screen k /\ resting (k_fl k') /\
    caps_lock_status (k_fl k') = caps_after (caps_lock_status (k_fl k)) ss /\
    contents (ioq (kbd_buf k')) = take 2047 (contents (ioq (kbd_buf k)) ++ concat (map stroke_chars ss)).
Proof.
  intros Hok (Hc & Hsh & Ha & He) Hss. set (caps := caps_lock_status (k_fl k)).
  assert (Hf : k_fl k = rest caps) by (unfold rest, caps; destruct (k_fl k); simpl in *; congruence).
  destruct (strokes_decode ss caps Hss) as (D1 & D2 & D3).
  pose proof (interrupts_decodes v2p (codes_of caps ss) k Hok) as Hwp. rewrite Hf in Hwp.
  apply wp_run in Hwp as ([] & k' & Hrun & Hf' & Hok' & Hc' & Hscr & _).
  exists k'. rewrite Hf', D1. split; [done|]. split; [done|]. split; [by apply Hscr|]. split; [done|].
  split; [done|]. by rewrite Hc', D2.
Qed.

(** "l|L", caps lock, "a", ctrl+l with the right hand. *)
Lemma typing_roundtrip_witness :
  exists k', interrupts (λ z, z)
      (codes_of false [SType 108 HLeft; SType 124 HRight; SType 76 HLeft; SCaps; SType 97 HLeft; SCtrl 108 HLeft HRight])
      (Kbd (rest false) demo_io []) = Ok (tt, k') /\ io_ok (kbd_buf k') /\
    kbd_screen k' = [] /\ resting (k_fl k') /\ caps_lock_status (k_fl k') = true /\
    contents (ioq (kbd_buf k')) = take 2047 (contents (ioq demo_io) ++ [108; 124; 76; 97; 11]).
Proof.
  refine (typing_roundtrip (λ z, z) [SType 108 HLeft; SType 124 HRight; SType 76 HLeft; SCaps; SType 97 HLeft; SCtrl 108 HLeft HRight]
    (Kbd (rest false) demo_io []) demo_io_ok _ _).
  - split_and!; reflexivity.
  - repeat apply Forall_cons_2; try apply Forall_nil_2; simpl; try exact I; apply (bool_decide_unpack _); vm_compute; exact I.
Defined.

Example typable_count : length typable = 99%nat.
Proof. vm_compute. reflexivity. Qed.
