(* ===== verification/Ide.v ===== *)
(** device/ide.c: the disk driver.

    [ata] is the controller the driver talks to through ports, with the
    behaviour the ATA standard gives to the registers and commands the driver
    uses: 28-bit LBA addressing, a sector count of 0 meaning 256, the data
    port, BSY and DRQ in the status register, and an interrupt when a command
    has data or has finished.  How long the drive stays busy after each command
    is an input ([delays]).

    The driver's state is one channel.  Section [disk] gives what the file
    system sees of it: a map from sector numbers to sectors. *)

From S2P Require Import Prelude Bitmap Bytes Interrupt Thread Sync.

Open Scope Z_scope.

Abbreviation disk := (gmap Z bytes).

(** ** The controller *)

Inductive ata_mode :=
| ModeIdle
| ModeIn (fifo : bytes)                   (* data waits for the host *)
| ModeOut (drv lba n : Z).                (* the drive waits for [n] sectors *)

Record ata := Ata {
  hw_base : Z;
  r_cnt : Z; r_lba_l : Z; r_lba_m : Z; r_lba_h : Z; r_dev : Z;
  drives : list disk;
  idents : list bytes;
  mode : ata_mode;
  irq : bool;
  busy : nat;
  delays : list nat
}.

Definition BIT_STAT_BSY : Z := 0x80.
Definition BIT_STAT_DRDY : Z := 0x40.
Definition BIT_STAT_DRQ : Z := 0x8.
Definition BIT_DEV_MBS : Z := 0xa0.
Definition BIT_DEV_LBA : Z := 0x40.
Definition BIT_DEV_DEV : Z := 0x10.
Definition CMD_IDENTIFY : Z := 0xec.
Definition CMD_READ_SECTOR : Z := 0x20.
Definition CMD_WRITE_SECTOR : Z := 0x30.
Definition max_lba : Z := 80 * 1024 * 1024 / 512 - 1.

(** [n] sectors from [lba]. *)
Fixpoint sectors (d : disk) (lba : Z) (n : nat) : option bytes :=
  match n with
  | O => Some []
  | S n => s ← d !! lba; r ← sectors d (lba + 1) n; Some (s ++ r)
  end.

Fixpoint put_sectors (d : disk) (lba : Z) (n : nat) (b : bytes) : disk :=
  match n with
  | O => d
  | S n => put_sectors (<[lba := take 512 b]> d) (lba + 1) n (drop 512 b)
  end.

Definition a_drive (a : ata) : Z := if Z.testbit (r_dev a) 4 then 1 else 0.
Definition a_lba (a : ata) : Z :=
  r_lba_l a + 256 * r_lba_m a + 65536 * r_lba_h a + 16777216 * Z.land (r_dev a) 15.
Definition a_count (a : ata) : Z := if r_cnt a =? 0 then 256 else r_cnt a.

Definition set_mode (m : ata_mode) (i : bool) (a : ata) : ata :=
  Ata (hw_base a) (r_cnt a) (r_lba_l a) (r_lba_m a) (r_lba_h a) (r_dev a)
    (drives a) (idents a) m i (hd 0%nat (delays a)) (tail (delays a)).

Definition ata_cmd (c : Z) (a : ata) : ata :=
  let d := znth (drives a) (a_drive a) in
  let present := d ≫= λ d, sectors d (a_lba a) (Z.to_nat (a_count a)) in
  if c =? CMD_READ_SECTOR then
    match present with
    | Some data => set_mode (ModeIn data) true a
    | None => set_mode ModeIdle true a
    end
  else if c =? CMD_WRITE_SECTOR then
    match present with
    | Some _ => set_mode (ModeOut (a_drive a) (a_lba a) (a_count a)) false a
    | None => set_mode ModeIdle false a
    end
  else if c =? CMD_IDENTIFY then
    match znth (idents a) (a_drive a) with
    | Some data => set_mode (ModeIn data) true a
    | None => set_mode ModeIdle true a
    end
  else set_mode ModeIdle true a.

Definition ata_out (port v : Z) (a : ata) : ata :=
  let r := port - hw_base a in
  if r =? 2 then Ata (hw_base a) v (r_lba_l a) (r_lba_m a) (r_lba_h a) (r_dev a)
                   (drives a) (idents a) (mode a) (irq a) (busy a) (delays a)
  else if r =? 3 then Ata (hw_base a) (r_cnt a) v (r_lba_m a) (r_lba_h a) (r_dev a)
                   (drives a) (idents a) (mode a) (irq a) (busy a) (delays a)
  else if r =? 4 then Ata (hw_base a) (r_cnt a) (r_lba_l a) v (r_lba_h a) (r_dev a)
                   (drives a) (idents a) (mode a) (irq a) (busy a) (delays a)
  else if r =? 5 then Ata (hw_base a) (r_cnt a) (r_lba_l a) (r_lba_m a) v (r_dev a)
                   (drives a) (idents a) (mode a) (irq a) (busy a) (delays a)
  else if r =? 6 then Ata (hw_base a) (r_cnt a) (r_lba_l a) (r_lba_m a) (r_lba_h a) v
                   (drives a) (idents a) (mode a) (irq a) (busy a) (delays a)
  else if r =? 7 then ata_cmd v a
  else a.

Definition wants_data (m : ata_mode) : bool :=
  match m with ModeIdle => false | ModeIn [] => false | _ => true end.

(** Reading the status register also acknowledges the interrupt. *)
Definition ata_status (a : ata) : Z * ata :=
  let a' b := Ata (hw_base a) (r_cnt a) (r_lba_l a) (r_lba_m a) (r_lba_h a) (r_dev a)
                (drives a) (idents a) (mode a) false b (delays a) in
  match busy a with
  | S b => (BIT_STAT_BSY, a' b)
  | O => (Z.lor BIT_STAT_DRDY (if wants_data (mode a) then BIT_STAT_DRQ else 0), a' O)
  end.

Definition ata_data_in (n : Z) (a : ata) : bytes * ata :=
  match mode a with
  | ModeIn fifo =>
      (take (Z.to_nat n) fifo,
       Ata (hw_base a) (r_cnt a) (r_lba_l a) (r_lba_m a) (r_lba_h a) (r_dev a)
         (drives a) (idents a) (ModeIn (drop (Z.to_nat n) fifo)) (irq a) (busy a) (delays a))
  | _ => (replicate (Z.to_nat n) 255, a)
  end.

(** The drive stores the sectors when all of them have arrived. *)
Definition ata_data_out (b : bytes) (a : ata) : ata :=
  match mode a with
  | ModeOut drv lba n =>
      if zlen b =? n * 512 then
        match znth (drives a) drv with
        | Some d =>
            Ata (hw_base a) (r_cnt a) (r_lba_l a) (r_lba_m a) (r_lba_h a) (r_dev a)
              (zupd (drives a) drv (put_sectors d lba (Z.to_nat n) b)) (idents a)
              ModeIdle true (busy a) (delays a)
        | None => a
        end
      else a
  | _ => a
  end.

(** ** The driver *)

Record ide_channel := Channel {
  port_base : Z;
  irq_no : Z;
  ch_lock : lock;
  expecting_intr : bool;
  disk_done : semaphore
}.

Record ide := Ide { ch : ide_channel; dev : ata; ide_me : Z; slept : Z }.

Definition on_ata (f : ata -> ata) : M ide unit :=
  modify (λ s, Ide (ch s) (f (dev s)) (ide_me s) (slept s)).
Definition set_ch (f : ide_channel -> ide_channel) : M ide unit :=
  modify (λ s, Ide (f (ch s)) (dev s) (ide_me s) (slept s)).

Definition set_lock (l : lock) (c : ide_channel) : ide_channel :=
  Channel (port_base c) (irq_no c) l (expecting_intr c) (disk_done c).
Definition set_expecting (b : bool) (c : ide_channel) : ide_channel :=
  Channel (port_base c) (irq_no c) (ch_lock c) b (disk_done c).
Definition set_done (d : semaphore) (c : ide_channel) : ide_channel :=
  Channel (port_base c) (irq_no c) (ch_lock c) (expecting_intr c) d.

Definition outb (port v : Z) : M ide unit := on_ata (ata_out port (u8 v)).
Definition inb_status : M ide Z := λ s,
  let '(v, a) := ata_status (dev s) in Ok (v, Ide (ch s) a (ide_me s) (slept s)).

Definition select_disk (dev_no : Z) : M ide unit :=
  let reg_device := Z.lor BIT_DEV_MBS BIT_DEV_LBA in
  let reg_device := if dev_no =? 1 then Z.lor reg_device BIT_DEV_DEV else reg_device in
  base ← gets (λ s, port_base (ch s));
  outb (base + 6) reg_device.

Definition select_sector (dev_no lba sec_cnt : Z) : M ide unit :=
  assertM (lba <=? max_lba) "lba <= max_lba";;
  base ← gets (λ s, port_base (ch s));
  outb (base + 2) sec_cnt;;
  outb (base + 3) lba;;
  outb (base + 4) (Z.shiftr lba 8);;
  outb (base + 5) (Z.shiftr lba 16);;
  outb (base + 6) (Z.lor (Z.lor (Z.lor BIT_DEV_MBS BIT_DEV_LBA)
                     (if dev_no =? 1 then BIT_DEV_DEV else 0)) (Z.shiftr lba 24)).

Definition cmd_out (cmd : Z) : M ide unit :=
  set_ch (set_expecting true);;
  base ← gets (λ s, port_base (ch s));
  outb (base + 7) cmd.

Definition sec_bytes (sec_cnt : Z) : Z := if sec_cnt =? 0 then 256 * 512 else sec_cnt * 512.

Definition read_from_sector (sec_cnt : Z) : M ide bytes := λ s,
  let size_in_byte := sec_bytes (u8 sec_cnt) in
  let '(b, a) := ata_data_in (2 * (size_in_byte / 2)) (dev s) in
  Ok (b, Ide (ch s) a (ide_me s) (slept s)).

(** [outsw] reads [size] bytes from the caller's buffer. *)
Definition write2sector (buf : bytes) (sec_cnt : Z) : M ide unit :=
  let size_in_byte := sec_bytes (u8 sec_cnt) in
  if zlen buf <? size_in_byte then faultM
  else on_ata (ata_data_out (take (Z.to_nat (2 * (size_in_byte / 2))) buf)).

(** [mtime_sleep(10)]: one tick of the 100 Hz clock. *)
Definition mtime_sleep_tick : M ide unit :=
  modify (λ s, Ide (ch s) (dev s) (ide_me s) (slept s + 1)).

(** [while (time_limit -= 10 >= 0)]: the comparison binds tighter than the
    assignment, so each round takes 1 from [time_limit]. *)
Fixpoint busy_wait_loop (fuel : nat) (time_limit : Z) : M ide bool :=
  match fuel with
  | O => λ _, NoFuel
  | S fuel =>
      let time_limit := u16 (time_limit - (if 0 <=? 10 then 1 else 0)) in
      if time_limit =? 0 then mret false
      else
        st ← inb_status;
        if Z.land st BIT_STAT_BSY =? 0 then
          st ← inb_status;
          mret (negb (Z.land st BIT_STAT_DRQ =? 0))
        else
          mtime_sleep_tick;;
          busy_wait_loop fuel time_limit
  end.

Definition busy_wait : M ide bool := busy_wait_loop (Z.to_nat 30001) (30 * 1000).

Definition intr_hd_handler (irq_no' : Z) : M ide unit :=
  assertM ((irq_no' =? 0x2e) || (irq_no' =? 0x2f)) "irq_no == 0x2e || irq_no == 0x2f";;
  c ← gets ch;
  assertM (irq_no c =? irq_no') "channel->irq_no == irq_no";;
  if (expecting_intr c : bool) then
    set_ch (set_expecting false);;
    r ← lift (Seq.sema_up (disk_done c));
    set_ch (set_done (snd r));;
    _ ← inb_status;
    mret tt
  else mret tt.

(** [sema_down(&disk_done)]: the drive's interrupt, if it has been raised, is
    taken before the thread goes on. *)
Definition wait_disk_done : M ide unit :=
  a ← gets dev;
  (if (irq a : bool) then (c ← gets ch; intr_hd_handler (irq_no c)) else mret tt);;
  c ← gets ch;
  d ← lift (Seq.sema_down (disk_done c));
  set_ch (set_done d).

Definition ch_acquire : M ide unit :=
  s ← get;
  l ← lift (Seq.lock_acquire (ide_me s) (ch_lock (ch s)));
  set_ch (set_lock l).
Definition ch_release : M ide unit :=
  s ← get;
  r ← lift (Seq.lock_release (ide_me s) (ch_lock (ch s)));
  set_ch (set_lock (snd r)).

(** One round of [ide_read]'s loop: steps 2 to 5. *)
Definition ide_read_op (dev_no lba secs_op : Z) : M ide bytes :=
  select_sector dev_no lba secs_op;;
  cmd_out CMD_READ_SECTOR;;
  wait_disk_done;;
  ok ← busy_wait;
  (if (ok : bool) then mret tt else panicM "read sector failed");;
  read_from_sector secs_op.

Definition ide_read_chunk (dev_no lba sec_cnt : Z) (l : Z * bytes) : M ide ((Z * bytes) + bytes) :=
  let '(secs_done, buf) := l in
  if secs_done <? sec_cnt then
    let secs_op := if secs_done + 256 <=? sec_cnt then 256 else sec_cnt - secs_done in
    data ← ide_read_op dev_no (u32 (lba + secs_done)) secs_op;
    mret (inl (secs_done + secs_op, buf ++ data))
  else mret (inr buf).

Definition ide_read (dev_no lba sec_cnt : Z) : M ide bytes :=
  assertM (lba <=? max_lba) "lba <= max_lba";;
  assertM (0 <? sec_cnt) "sec_cnt > 0";;
  ch_acquire;;
  select_disk dev_no;;
  buf ← loop (S (Z.to_nat sec_cnt)) (ide_read_chunk dev_no lba sec_cnt) (0, []);
  ch_release;;
  mret buf.

(** One round of [ide_write]'s loop. *)
Definition ide_write_op (dev_no lba : Z) (buf : bytes) (secs_op : Z) : M ide unit :=
  select_sector dev_no lba secs_op;;
  cmd_out CMD_WRITE_SECTOR;;
  ok ← busy_wait;
  (if (ok : bool) then mret tt else panicM "write sector failed");;
  write2sector buf secs_op;;
  wait_disk_done.

Definition ide_write_chunk (dev_no lba : Z) (buf : bytes) (sec_cnt secs_done : Z) : M ide (Z + unit) :=
  if secs_done <? sec_cnt then
    let secs_op := if secs_done + 256 <=? sec_cnt then 256 else sec_cnt - secs_done in
    ide_write_op dev_no (u32 (lba + secs_done)) (drop (Z.to_nat (secs_done * 512)) buf) secs_op;;
    mret (inl (secs_done + secs_op))
  else mret (inr tt).

Definition ide_write (dev_no lba : Z) (buf : bytes) (sec_cnt : Z) : M ide unit :=
  assertM (lba <=? max_lba) "lba <= max_lba";;
  assertM (0 <? sec_cnt) "sec_cnt > 0";;
  ch_acquire;;
  select_disk dev_no;;
  loop (S (Z.to_nat sec_cnt)) (ide_write_chunk dev_no lba buf sec_cnt) 0;;
  ch_release.

(** ** Identification and partitions *)

(** [swap_pairs_bytes] on an even number of bytes below 256, as its callers
    have it, with the terminating 0. *)
Fixpoint swap_pairs (dst : bytes) : bytes :=
  match dst with
  | a :: b :: r => b :: a :: swap_pairs r
  | _ => []
  end.
Definition swap_pairs_bytes (dst : bytes) : bytes := swap_pairs dst ++ [0].

Record disk_info := DiskInfo { di_serial : bytes; di_model : bytes; di_sectors : Z; di_mb : Z }.

Definition identify_disk (dev_no : Z) : M ide disk_info :=
  select_disk dev_no;;
  cmd_out CMD_IDENTIFY;;
  wait_disk_done;;
  ok ← busy_wait;
  (if (ok : bool) then mret tt else panicM "identify failed");;
  id_info ← read_from_sector 1;
  let sectors := word_at id_info (60 * 2) in
  mret (DiskInfo (swap_pairs_bytes (slice id_info (10 * 2) 20))
                 (swap_pairs_bytes (slice id_info (27 * 2) 40))
                 sectors (u32 (sectors * 512) / 1024 / 1024)).

(** ** What the file system sees: the contents of one disk *)

Section disk.
Definition disk_read (d : disk) (lba sec_cnt : Z) : res bytes :=
  ASSERT (lba <=? max_lba) "lba <= max_lba" ≫= λ _,
  ASSERT (0 <? sec_cnt) "sec_cnt > 0" ≫= λ _,
  ASSERT (lba + (sec_cnt - 1) / 256 * 256 <=? max_lba) "lba <= max_lba" ≫= λ _,
  match sectors d lba (Z.to_nat sec_cnt) with
  | Some b => Ok b
  | None => Panic "read sector failed"
  end.

Definition disk_write (d : disk) (lba : Z) (buf : bytes) (sec_cnt : Z) : res disk :=
  ASSERT (lba <=? max_lba) "lba <= max_lba" ≫= λ _,
  ASSERT (0 <? sec_cnt) "sec_cnt > 0" ≫= λ _,
  ASSERT (lba + (sec_cnt - 1) / 256 * 256 <=? max_lba) "lba <= max_lba" ≫= λ _,
  match sectors d lba (Z.to_nat sec_cnt) with
  | Some _ => if zlen buf <? sec_cnt * 512 then Fault
              else Ok (put_sectors d lba (Z.to_nat sec_cnt) buf)
  | None => Panic "write sector failed"
  end.
End disk.

(** ** The driver implements the disk *)

Definition disk_wf (d : disk) : Prop := map_Forall (λ _ s, zlen s = 512 /\ Forall is_byte s) d.

(** The channel between two commands. *)
Record link (s : ide) : Prop := {
  lk_base : port_base (ch s) = hw_base (dev s);
  lk_irq : irq_no (ch s) = 0x2e \/ irq_no (ch s) = 0x2f;
  lk_done : disk_done (ch s) = Sema 0 [];
  lk_quiet : irq (dev s) = false;
  lk_delay : Forall (λ d, Z.of_nat d < 29999) (delays (dev s))
}.

(** What a transfer leaves alone. *)
Definition same_env (s s' : ide) : Prop :=
  ch_lock (ch s') = ch_lock (ch s) /\ ide_me s' = ide_me s /\
  idents (dev s') = idents (dev s) /\ irq_no (ch s') = irq_no (ch s).

Global Instance same_env_preorder : PreOrder same_env.
Proof.
  split; [intros s; by split_and!|]. intros s1 s2 s3 (? & ? & ? & ?) (? & ? & ? & ?).
  split_and!; congruence.
Qed.

Lemma sectors_length d lba n b : disk_wf d -> sectors d lba n = Some b -> zlen b = 512 * Z.of_nat n.
Proof.
  intros Hd. revert lba b. induction n as [|n IH]; intros lba b; [by intros [= <-]|].
  simpl. intros (s & Hs & (r & Hr & [= <-])%bind_Some)%bind_Some.
  rewrite zlen_app. destruct (Hd _ _ Hs) as [-> _]. rewrite (IH _ _ Hr). lia.
Qed.

Lemma sectors_app d lba n m : sectors d lba (n + m) =
  (b ← sectors d lba n; c ← sectors d (lba + Z.of_nat n) m; Some (b ++ c)).
Proof.
  revert lba. induction n as [|n IH]; intros lba; simpl.
  - rewrite Z.add_0_r. by destruct (sectors d lba m).
  - destruct (d !! lba) as [s|]; simpl; [|done]. rewrite IH.
    replace (lba + Z.of_nat (S n)) with (lba + 1 + Z.of_nat n) by lia.
    destruct (sectors d (lba + 1) n) as [b|]; simpl; [|done].
    destruct (sectors d (lba + 1 + Z.of_nat n) m) as [c|]; simpl; [|done]. by rewrite app_assoc.
Qed.

Lemma lba_regs l : 0 <= l <= max_lba ->
  u8 l + 256 * u8 (Z.shiftr l 8) + 65536 * u8 (Z.shiftr l 16) = l /\ Z.shiftr l 24 = 0.
Proof.
  intros Hl. change max_lba with 163839 in Hl.
  assert (H24 : Z.shiftr l 24 = 0).
  { rewrite Z.shiftr_div_pow2 by lia. apply Z.div_small. change (2 ^ 24) with 16777216. lia. }
  split; [|done]. pose proof (le32_roundtrip l) as H. unfold le32, of_le32, is_u32 in H.
  rewrite H24 in H. change (u8 0) with 0 in H. lia.
Qed.

(** The registers after [select_sector]. *)
Definition aimed (dev_no l n : Z) (a : ata) : Prop :=
  a_drive a = dev_no /\ a_lba a = l /\ a_count a = n.

Lemma ata_out_reg hw k v a : hw_base a = hw -> ata_out (hw + k) v a = ata_out (hw_base a + k) v a.
Proof. by intros ->. Qed.

Ltac port_step :=
  apply wp_bind, wp_modify; cbn [ch dev ide_me slept];
  unfold ata_out; cbn [hw_base]; rewrite Z.add_simpl_l; cbn [hw_base r_cnt r_lba_l r_lba_m r_lba_h r_dev
    drives idents mode irq busy delays].

Lemma select_sector_ok s dev_no l n : link s -> (dev_no = 0 \/ dev_no = 1) ->
  0 <= l <= max_lba -> 0 < n <= 256 ->
  wp (select_sector dev_no l n) (λ _ s', link s' /\ same_env s s' /\
    drives (dev s') = drives (dev s) /\ aimed dev_no l n (dev s')) s.
Proof.
  intros [Hb Hi Hd Hq Hdl] Hdev Hl Hn. destruct (lba_regs l Hl) as [Hlba H24].
  unfold select_sector. apply wp_bind, wp_assert; [apply Z.leb_le; lia|].
  apply wp_bind, wp_gets. destruct s as [c a me sl]. simpl in *. rewrite Hb, H24.
  unfold outb, on_ata.
  port_step. change (2 =? 2) with true. cbv iota.
  port_step. change (3 =? 2) with false. change (3 =? 3) with true. cbv iota.
  port_step. change (4 =? 2) with false. change (4 =? 3) with false. change (4 =? 4) with true. cbv iota.
  port_step. change (5 =? 2) with false. change (5 =? 3) with false. change (5 =? 4) with false.
  change (5 =? 5) with true. cbv iota.
  apply wp_modify; cbn [ch dev ide_me slept]; unfold ata_out; cbn [hw_base]; rewrite Z.add_simpl_l.
  change (6 =? 2) with false. change (6 =? 3) with false. change (6 =? 4) with false.
  change (6 =? 5) with false. change (6 =? 6) with true. cbv iota.
  split_and!; try done.
  unfold aimed, a_drive, a_lba, a_count. cbn [r_cnt r_lba_l r_lba_m r_lba_h r_dev].
  assert (Hu : (if u8 n =? 0 then 256 else u8 n) = n).
  { destruct (decide (n = 256)) as [->|]; [done|]. rewrite u8_small by lia.
    destruct (Z.eqb_spec n 0); lia. }
  split_and!; [|rewrite <- Hlba at 4|done].
  - destruct Hdev as [-> | ->]; reflexivity.
  - enough (Hz : forall x, (x = 0 \/ x = 1) -> Z.land (u8 (Z.lor (Z.lor (Z.lor BIT_DEV_MBS BIT_DEV_LBA)
      (if x =? 1 then BIT_DEV_DEV else 0)) 0)) 15 = 0) by (rewrite Hz by done; lia).
    intros x [-> | ->]; reflexivity.
Qed.

(** Waiting for the drive succeeds when it is busy for fewer polls than the
    limit allows and has data or wants some. *)
Lemma busy_wait_loop_ok fuel tl s : wants_data (mode (dev s)) = true ->
  Z.of_nat (busy (dev s)) < tl - 1 -> tl < 65536 -> Z.of_nat (busy (dev s)) < Z.of_nat fuel ->
  wp (busy_wait_loop fuel tl) (λ r s', r = true /\ ch s' = ch s /\ ide_me s' = ide_me s /\
    exists a, dev s' = a /\ hw_base a = hw_base (dev s) /\ drives a = drives (dev s) /\
      idents a = idents (dev s) /\ mode a = mode (dev s) /\ irq a = false /\
      delays a = delays (dev s)) s.
Proof.
  revert tl s. induction fuel as [|fuel IH]; intros tl s Hm Hb Htl Hf; [lia|].
  cbn [busy_wait_loop]. change (0 <=? 10) with true. cbv iota.
  rewrite u16_small by lia. destruct (Z.eqb_spec (tl - 1) 0); [lia|].
  destruct s as [c a me sl]. simpl in Hm, Hb, Hf.
  destruct (busy a) as [|b] eqn:Eb.
  - apply wp_bind. unfold wp at 1. unfold inb_status, ata_status. cbn [dev]. rewrite Eb, Hm.
    change (Z.land (Z.lor BIT_STAT_DRDY BIT_STAT_DRQ) BIT_STAT_BSY =? 0) with true. cbv iota.
    apply wp_bind. unfold wp at 1. cbn [dev busy mode]. rewrite Hm.
    apply wp_ret. split_and!; [done|done|done|]. by eexists.
  - apply wp_bind. unfold wp at 1. unfold inb_status, ata_status. cbn [dev]. rewrite Eb.
    change (Z.land BIT_STAT_BSY BIT_STAT_BSY =? 0) with false. cbv iota.
    apply wp_bind, wp_modify. cbn [ch dev ide_me slept].
    eapply wp_mono; [apply IH; cbn [dev busy mode]; lia || done|].
    simpl. intros r s' (? & ? & ? & a' & ? & ? & ? & ? & ? & ? & ?).
    split_and!; [done|done|done|]. by exists a'.
Qed.

(** [busy_wait] with the drive in the state a command leaves it in. *)
Lemma busy_wait_ok s : wants_data (mode (dev s)) = true -> Z.of_nat (busy (dev s)) < 29999 ->
  wp busy_wait (λ r s', r = true /\ ch s' = ch s /\ ide_me s' = ide_me s /\
    exists a, dev s' = a /\ hw_base a = hw_base (dev s) /\ drives a = drives (dev s) /\
      idents a = idents (dev s) /\ mode a = mode (dev s) /\ irq a = false /\
      delays a = delays (dev s)) s.
Proof. intros Hm Hb. apply busy_wait_loop_ok; [done|lia..]. Qed.

Lemma link_busy s : link s -> Z.of_nat (hd 0%nat (delays (dev s))) < 29999 /\
  Forall (λ d, Z.of_nat d < 29999) (tail (delays (dev s))).
Proof.
  intros Hl. pose proof (lk_delay s Hl) as H. destruct (delays (dev s)) as [|d ds]; simpl; [by split|].
  by apply Forall_cons in H.
Qed.

Lemma intr_hd_handler_ok s : (irq_no (ch s) = 0x2e \/ irq_no (ch s) = 0x2f) ->
  expecting_intr (ch s) = true -> disk_done (ch s) = Sema 0 [] ->
  wp (intr_hd_handler (irq_no (ch s))) (λ _ s',
    ch s' = set_done (Sema 1 []) (set_expecting false (ch s)) /\ ide_me s' = ide_me s /\
    exists b, dev s' = Ata (hw_base (dev s)) (r_cnt (dev s)) (r_lba_l (dev s)) (r_lba_m (dev s))
      (r_lba_h (dev s)) (r_dev (dev s)) (drives (dev s)) (idents (dev s)) (mode (dev s)) false
      b (delays (dev s)) /\ (b <= busy (dev s))%nat) s.
Proof.
  intros Hi He Hd. unfold intr_hd_handler. apply wp_bind, wp_assert.
  { destruct Hi as [-> | ->]; reflexivity. }
  apply wp_bind, wp_gets, wp_bind, wp_assert; [apply Z.eqb_refl|]. rewrite He.
  apply wp_bind, wp_modify, wp_bind. eapply wp_lift; [by rewrite Hd|].
  apply wp_bind, wp_modify, wp_bind. cbn [ch dev ide_me slept snd]. unfold wp, inb_status, ata_status.
  cbn [dev]. destruct (busy (dev s)) as [|b] eqn:Eb;
    (split; [done|]; split; [done|]; eexists; split; [reflexivity|lia]).
Qed.

Lemma wait_disk_done_ok s : expecting_intr (ch s) = true -> irq (dev s) = true -> disk_done (ch s) = Sema 0 [] ->
  (irq_no (ch s) = 0x2e \/ irq_no (ch s) = 0x2f) ->
  wp wait_disk_done (λ _ s',
    ch s' = set_done (Sema 0 []) (set_expecting false (ch s)) /\ ide_me s' = ide_me s /\
    exists b, dev s' = Ata (hw_base (dev s)) (r_cnt (dev s)) (r_lba_l (dev s)) (r_lba_m (dev s))
      (r_lba_h (dev s)) (r_dev (dev s)) (drives (dev s)) (idents (dev s)) (mode (dev s)) false
      b (delays (dev s)) /\ (b <= busy (dev s))%nat) s.
Proof.
  intros He Hirq Hd Hi. unfold wait_disk_done. apply wp_bind, wp_gets. rewrite Hirq.
  apply wp_bind, wp_bind, wp_gets. eapply wp_mono; [by apply intr_hd_handler_ok|].
  intros _ s' (Hc & Hme & b & Hdev & Hb). apply wp_bind, wp_gets, wp_bind. rewrite Hc.
  eapply wp_lift; [reflexivity|]. apply wp_modify. cbn [ch dev ide_me]. rewrite Hc.
  split_and!; [done|done|]. by exists b.
Qed.

Lemma cmd_out_ok s cmd : link s ->
  wp (cmd_out cmd) (λ _ s', ch s' = set_expecting true (ch s) /\ ide_me s' = ide_me s /\
    dev s' = ata_cmd (u8 cmd) (dev s)) s.
Proof.
  intros Hl. unfold cmd_out. apply wp_bind, wp_modify, wp_bind, wp_gets. apply wp_modify.
  cbn [ch dev ide_me slept port_base set_expecting]. rewrite (lk_base s Hl).
  split_and!; [done|done|]. unfold ata_out. by rewrite Z.add_simpl_l.
Qed.

(** One read command. *)
Lemma read_chunk_ok s dev_no d l n data : link s -> (dev_no = 0 \/ dev_no = 1) ->
  0 <= l <= max_lba -> 0 < n <= 256 -> znth (drives (dev s)) dev_no = Some d -> disk_wf d ->
  sectors d l (Z.to_nat n) = Some data ->
  wp (ide_read_op dev_no l n)
     (λ b s', b = data /\ link s' /\ same_env s s' /\ drives (dev s') = drives (dev s)) s.
Proof.
  intros Hl Hdev Hlba Hn Hd Hwf Hsec. unfold ide_read_op.
  pose proof (sectors_length d l _ data Hwf Hsec) as Hlen. rewrite Z2Nat.id in Hlen by lia.
  apply wp_bind. eapply wp_mono; [by apply (select_sector_ok s dev_no l n)|].
  intros _ s1 (Hl1 & He1 & Hdr1 & (Ha1 & Ha2 & Ha3)).
  apply wp_bind. eapply wp_mono; [by apply cmd_out_ok|]. intros _ s2 (Hc2 & Hme2 & Hdev2).
  assert (Hcmd : dev s2 = set_mode (ModeIn data) true (dev s1)).
  { rewrite Hdev2. change (u8 CMD_READ_SECTOR) with CMD_READ_SECTOR. unfold ata_cmd.
    rewrite Ha1, Ha2, Ha3, Hdr1, Hd. change (CMD_READ_SECTOR =? CMD_READ_SECTOR) with true. simpl.
    by rewrite Hsec. }
  destruct (link_busy s1 Hl1) as [Hb1 Hds1]. pose proof Hl1 as [Hbase Hirq Hdone Hq _].
  apply wp_bind. eapply wp_mono; [apply wait_disk_done_ok|]; try (rewrite ?Hc2, ?Hcmd; done).
  intros _ s3 (Hc3 & Hme3 & b & Hdev3 & Hb3). rewrite Hcmd in Hdev3, Hb3. simpl in Hdev3, Hb3.
  apply wp_bind. eapply wp_mono; [apply busy_wait_ok|].
  { rewrite Hdev3. simpl. destruct data as [|x data]; [|done]. unfold zlen in Hlen; simpl in Hlen. lia. }
  { rewrite Hdev3. simpl. lia. }
  intros ok s4 (-> & Hc4 & Hme4 & a & Ha & Hbase4 & Hdr4 & Hid4 & Hm4 & Hq4 & Hdl4).
  apply wp_bind, wp_ret.
  assert (Hsz : 2 * (sec_bytes (u8 n) / 2) = 512 * n).
  { unfold sec_bytes. destruct (decide (n = 256)) as [->|]; [done|]. rewrite u8_small by lia.
    destruct (Z.eqb_spec n 0); [lia|]. replace (n * 512) with (n * 256 * 2) by lia.
    rewrite Z.div_mul by lia. lia. }
  unfold wp, read_from_sector. rewrite Hsz, Ha. unfold ata_data_in. rewrite Hm4, Hdev3.
  cbn [mode]. rewrite Hdev3 in *. cbn [hw_base drives idents delays] in *.
  destruct He1 as (He1a & He1b & He1c & He1d).
  split_and!.
  - rewrite take_ge; [done|]. unfold zlen in Hlen. lia.
  - split; cbn [ch dev hw_base irq delays].
    + rewrite Hc4, Hc3, Hc2. simpl. congruence.
    + rewrite Hc4, Hc3, Hc2. done.
    + rewrite Hc4, Hc3, Hc2. done.
    + done.
    + rewrite Hdl4. done.
  - split_and!; cbn [ch dev ide_me idents]; rewrite ?Hc4, ?Hc3, ?Hc2, ?Hid4; simpl; try congruence.
  - cbn [dev drives]. rewrite Hdr4. simpl. done.
Qed.

(** One write command. *)
Lemma write_chunk_ok s dev_no d l n buf data : link s -> (dev_no = 0 \/ dev_no = 1) ->
  0 <= l <= max_lba -> 0 < n <= 256 -> znth (drives (dev s)) dev_no = Some d ->
  sectors d l (Z.to_nat n) = Some data -> n * 512 <= zlen buf ->
  wp (ide_write_op dev_no l buf n)
     (λ _ s', link s' /\ same_env s s' /\
        drives (dev s') = zupd (drives (dev s)) dev_no (put_sectors d l (Z.to_nat n) (take (Z.to_nat (n * 512)) buf))) s.
Proof.
  intros Hl Hdev Hlba Hn Hd Hsec Hbuf. unfold ide_write_op.
  apply wp_bind. eapply wp_mono; [by apply (select_sector_ok s dev_no l n)|].
  intros _ s1 (Hl1 & He1 & Hdr1 & (Ha1 & Ha2 & Ha3)).
  apply wp_bind. eapply wp_mono; [by apply cmd_out_ok|]. intros _ s2 (Hc2 & Hme2 & Hdev2).
  assert (Hcmd : dev s2 = set_mode (ModeOut dev_no l n) false (dev s1)).
  { rewrite Hdev2. change (u8 CMD_WRITE_SECTOR) with CMD_WRITE_SECTOR. unfold ata_cmd.
    rewrite Ha1, Ha2, Ha3, Hdr1, Hd. change (CMD_WRITE_SECTOR =? CMD_READ_SECTOR) with false.
    change (CMD_WRITE_SECTOR =? CMD_WRITE_SECTOR) with true. simpl. by rewrite Hsec. }
  destruct (link_busy s1 Hl1) as [Hb1 Hds1]. pose proof Hl1 as [Hbase Hirq Hdone Hq _].
  apply wp_bind. eapply wp_mono; [apply busy_wait_ok|]; try (rewrite Hcmd; done).
  intros ok s4 (-> & Hc4 & Hme4 & a & Ha & Hbase4 & Hdr4 & Hid4 & Hm4 & Hq4 & Hdl4).
  apply wp_bind, wp_ret. rewrite Hcmd in *. cbn in Hm4, Hbase4, Hdr4, Hid4, Hdl4.
  assert (Hsz : sec_bytes (u8 n) = n * 512).
  { unfold sec_bytes. destruct (decide (n = 256)) as [->|]; [done|]. rewrite u8_small by lia.
    destruct (Z.eqb_spec n 0); [lia|done]. }
  assert (Heven : 2 * (n * 512 / 2) = n * 512).
  { replace (n * 512) with (n * 256 * 2) by lia. rewrite Z.div_mul by lia. lia. }
  unfold write2sector. rewrite Hsz, Heven.
  destruct (Z.ltb_spec (zlen buf) (n * 512)); [lia|].
  apply wp_bind, wp_modify. rewrite Ha. unfold ata_data_out. rewrite Hm4, Hdr4, Hdr1, Hd.
  replace (zlen (take (Z.to_nat (n * 512)) buf) =? n * 512) with true.
  2: { symmetry. apply Z.eqb_eq. unfold zlen in *. rewrite length_take. lia. }
  destruct He1 as (He1a & He1b & He1c & He1d).
  eapply wp_mono; [apply wait_disk_done_ok|]; try (cbn [ch dev irq]; rewrite ?Hc4, ?Hc2; done).
  cbn [ch dev ide_me hw_base drives idents delays].
  intros _ s5 (Hc5 & Hme5 & b & Hdev5 & _). rewrite Hc4, Hc2 in Hc5.
  split_and!.
  - split; rewrite ?Hc5, ?Hdev5; simpl; try done.
    + congruence.
    + rewrite Hdl4. done.
  - split_and!; rewrite ?Hc5, ?Hdev5; simpl; congruence.
  - rewrite Hdev5. done.
Qed.

Lemma put_sectors_take d lba n b : put_sectors d lba n (take (512 * n) b) = put_sectors d lba n b.
Proof.
  revert d lba b. induction n as [|n IH]; intros d lba b; [done|]. cbn [put_sectors].
  rewrite take_take, Nat.min_l by lia. rewrite <- (IH _ _ (drop 512 b)).
  f_equal. rewrite skipn_firstn_comm. f_equal. lia.
Qed.

Lemma put_sectors_app d lba n m b : put_sectors d lba (n + m) b =
  put_sectors (put_sectors d lba n b) (lba + Z.of_nat n) m (drop (512 * n) b).
Proof.
  revert d lba b. induction n as [|n IH]; intros d lba b.
  - cbn [put_sectors Nat.add Z.of_nat]. by rewrite Z.add_0_r, Nat.mul_0_r, drop_0.
  - cbn [put_sectors Nat.add]. rewrite IH, drop_drop. f_equal; [lia|]. f_equal. lia.
Qed.

Lemma lookup_put_sectors d lba n b i : put_sectors d lba n b !! i =
  if decide (lba <= i < lba + Z.of_nat n) then Some (slice b (512 * (i - lba)) 512) else d !! i.
Proof.
  revert d lba b. induction n as [|n IH]; intros d lba b.
  - cbn [put_sectors]. case_decide; [lia|done].
  - cbn [put_sectors]. rewrite IH. repeat case_decide; try lia.
    + f_equal. unfold slice. rewrite drop_drop. do 2 f_equal. lia.
    + assert (i = lba) as -> by lia. rewrite lookup_insert_eq. unfold slice.
      replace (512 * (lba - lba)) with 0 by lia. done.
    + by rewrite lookup_insert_ne by lia.
Qed.

Lemma sectors_is_Some d lba n :
  is_Some (sectors d lba n) <-> forall i, lba <= i < lba + Z.of_nat n -> is_Some (d !! i).
Proof.
  revert lba. induction n as [|n IH]; intros lba.
  - split; [lia|by eexists].
  - cbn [sectors]. split.
    + intros [x (s & Hs & (r & Hr & _)%bind_Some)%bind_Some] i Hi.
      destruct (decide (i = lba)) as [->|]; [by eexists|].
      apply (proj1 (IH (lba + 1))); [by eexists|lia].
    + intros H. destruct (H lba) as [s ->]; [lia|]. simpl.
      destruct (proj2 (IH (lba + 1))) as [r ->]; [intros; apply H; lia|]. by eexists.
Qed.

Lemma sectors_put d lba n b i m : is_Some (sectors d i m) -> is_Some (sectors (put_sectors d lba n b) i m).
Proof.
  rewrite !sectors_is_Some. intros H j Hj. rewrite lookup_put_sectors.
  case_decide; [by eexists|]. by apply H.
Qed.

Lemma zupd_zupd {A} (l : list A) i x y : zupd (zupd l i x) i y = zupd l i y.
Proof. unfold zupd. destruct (i <? 0); [done|]. apply list_insert_insert_eq. Qed.

Lemma select_disk_ok s dev_no : link s ->
  wp (select_disk dev_no) (λ _ s', link s' /\ same_env s s' /\ drives (dev s') = drives (dev s)) s.
Proof.
  intros [Hb Hi Hd Hq Hdl]. unfold select_disk. apply wp_bind, wp_gets, wp_modify. rewrite Hb.
  unfold ata_out. rewrite Z.add_simpl_l. change (6 =? 2) with false. change (6 =? 3) with false.
  change (6 =? 4) with false. change (6 =? 5) with false. change (6 =? 6) with true. cbv iota.
  by split_and!.
Qed.

(** What holds between two calls of the driver. *)
Record ide_ready (s : ide) : Prop := {
  ir_link : link s;
  ir_lock : Seq.quiet (ide_me s) (ch_lock (ch s));
  ir_me : ide_me s <> 0
}.

Lemma chunk_bound sd n : 0 <= sd < n -> sd mod 256 = 0 -> sd <= (n - 1) / 256 * 256.
Proof. intros H Hm. pose proof (Z.div_mod sd 256). pose proof (Z.div_le_mono sd (n - 1) 256). lia. Qed.

Definition secs_op_of (sd n : Z) : Z := if sd + 256 <=? n then 256 else n - sd.
Lemma secs_op_range sd n : 0 <= sd < n -> sd mod 256 = 0 ->
  0 < secs_op_of sd n <= 256 /\ sd + secs_op_of sd n <= n /\
  ((sd + secs_op_of sd n) mod 256 = 0 \/ sd + secs_op_of sd n = n).
Proof.
  intros H Hm. unfold secs_op_of. destruct (Z.leb_spec (sd + 256) n); split_and!; try lia.
  left. replace (sd + 256) with (sd + 1 * 256) by lia. by rewrite Z.mod_add.
Qed.

Lemma ide_read_ok s dev_no d lba n b : ide_ready s -> (dev_no = 0 \/ dev_no = 1) ->
  znth (drives (dev s)) dev_no = Some d -> disk_wf d -> 0 <= lba -> disk_read d lba n = Ok b ->
  wp (ide_read dev_no lba n) (λ r s', r = b /\ ide_ready s' /\ drives (dev s') = drives (dev s)) s.
Proof.
  intros [Hl Hq Hme] Hdev Hd Hwf Hlba Hr. unfold disk_read, ASSERT in Hr.
  destruct (Z.leb_spec lba max_lba); [|done]. destruct (Z.ltb_spec 0 n); [|done].
  destruct (Z.leb_spec (lba + (n - 1) / 256 * 256) max_lba) as [Hmax|]; [|done]. simpl in Hr.
  destruct (sectors d lba (Z.to_nat n)) as [data|] eqn:Hsec; [|done]. injection Hr as <-.
  destruct (Seq.acquire_release _ _ Hme Hq) as (lk & Hacq & _ & Hrel).
  unfold ide_read. apply wp_bind, wp_assert; [by apply Z.leb_le|].
  apply wp_bind, wp_assert; [by apply Z.ltb_lt|].
  unfold ch_acquire. apply wp_bind, wp_bind, wp_get, wp_bind. eapply wp_lift; [exact Hacq|].
  apply wp_modify. apply wp_bind. set (s1 := Ide _ _ _ _).
  assert (Hl1 : link s1) by (destruct Hl; by split).
  eapply wp_mono; [by apply select_disk_ok|]. intros _ s2 (Hl2 & He2 & Hdr2).
  set (I := λ (k : nat) (l : Z * bytes) (s' : ide), k = Z.to_nat (n - l.1) /\ 0 <= l.1 <= n /\
    (l.1 mod 256 = 0 \/ l.1 = n) /\ sectors d lba (Z.to_nat l.1) = Some l.2 /\
    link s' /\ same_env s1 s' /\ drives (dev s') = drives (dev s)).
  set (Q := λ (r : bytes) s', r = data /\ link s' /\ same_env s1 s' /\ drives (dev s') = drives (dev s)).
  assert (Hbody : forall k l s', I k l s' -> wp (ide_read_chunk dev_no lba n l)
    (λ x s'', match x with inl l' => exists k', (k' < k)%nat /\ I k' l' s'' | inr r => Q r s'' end) s').
  { intros k [sd buf] s' (-> & Hsd & Hmod & Hb & Hl' & He' & Hdr'). simpl in Hsd, Hmod, Hb.
    unfold ide_read_chunk. simpl.
    destruct (Z.ltb_spec sd n) as [Hlt|Hge].
    2: { apply wp_ret. replace sd with n in Hb by lia. split_and!; try done. congruence. }
    destruct Hmod as [Hmod| ->]; [|lia].
    destruct (secs_op_range sd n) as (Ho & Hon & Hom); [lia|done|].
    change (if sd + 256 <=? n then 256 else n - sd) with (secs_op_of sd n).
    set (op := secs_op_of sd n) in *.
    pose proof (chunk_bound sd n ltac:(lia) Hmod). change max_lba with 163839 in *.
    rewrite u32_small by lia.
    assert (is_Some (sectors d lba (Z.to_nat (sd + op)))) as [bc Hbc].
    { apply sectors_is_Some. intros i Hi. apply (proj1 (sectors_is_Some d lba (Z.to_nat n))); [by eexists|lia]. }
    pose proof Hbc as Hbc'. rewrite Z2Nat.inj_add, sectors_app, Hb in Hbc' by lia. simpl in Hbc'.
    rewrite Z2Nat.id in Hbc' by lia.
    destruct (sectors d (lba + sd) (Z.to_nat op)) as [c|] eqn:Hc; [|done]. injection Hbc' as <-.
    pose proof (read_chunk_ok s' dev_no d (lba + sd) op c Hl' Hdev) as Hchunk.
    change max_lba with 163839 in Hchunk.
    specialize (Hchunk ltac:(lia) ltac:(lia) ltac:(by rewrite Hdr') Hwf Hc).
    apply wp_bind. eapply wp_mono; [exact Hchunk|].
    intros r t6 (-> & Hl6 & He6 & Hdr6). apply wp_ret.
    exists (Z.to_nat (n - (sd + op))). split; [lia|]. split_and!; simpl; try done; try lia.
    - by etransitivity.
    - congruence. }
  apply wp_bind. eapply wp_mono.
  { apply (wp_loop I _ Q Hbody _ (Z.to_nat n)); [|lia].
    split_and!; simpl; lia || (by left) || done. }
  intros r s3 (-> & Hl3 & He3 & Hdr3). unfold ch_release. apply wp_bind, wp_bind, wp_get, wp_bind.
  destruct He3 as (Hlk & Hm3 & _). rewrite Hlk, Hm3.
  eapply wp_lift; [exact Hrel|]. apply wp_modify, wp_ret. split_and!; [done| |done].
  split; cbn [ch ide_me].
  - destruct Hl3. by split.
  - simpl. rewrite Hm3. done.
  - rewrite Hm3. done.
Qed.

Lemma ide_write_ok s dev_no d lba buf n d' : ide_ready s -> (dev_no = 0 \/ dev_no = 1) ->
  znth (drives (dev s)) dev_no = Some d -> 0 <= lba -> disk_write d lba buf n = Ok d' ->
  wp (ide_write dev_no lba buf n) (λ _ s', ide_ready s' /\ drives (dev s') = zupd (drives (dev s)) dev_no d') s.
Proof.
  intros [Hl Hq Hme] Hdev Hd Hlba Hr. unfold disk_write, ASSERT in Hr.
  destruct (Z.leb_spec lba max_lba); [|done]. destruct (Z.ltb_spec 0 n); [|done].
  destruct (Z.leb_spec (lba + (n - 1) / 256 * 256) max_lba) as [Hmax|]; [|done]. simpl in Hr.
  destruct (sectors d lba (Z.to_nat n)) as [data|] eqn:Hsec; [|done].
  destruct (Z.ltb_spec (zlen buf) (n * 512)) as [|Hbuf]; [done|]. injection Hr as <-.
  destruct (Seq.acquire_release _ _ Hme Hq) as (lk & Hacq & _ & Hrel).
  unfold ide_write. apply wp_bind, wp_assert; [by apply Z.leb_le|].
  apply wp_bind, wp_assert; [by apply Z.ltb_lt|].
  unfold ch_acquire. apply wp_bind, wp_bind, wp_get, wp_bind. eapply wp_lift; [exact Hacq|].
  apply wp_modify. apply wp_bind. set (s1 := Ide _ _ _ _).
  assert (Hl1 : link s1) by (destruct Hl; by split).
  eapply wp_mono; [by apply select_disk_ok|]. intros _ s2 (Hl2 & He2 & Hdr2).
  set (dk := λ sd, put_sectors d lba (Z.to_nat sd) buf).
  assert (Hlen : 0 <= dev_no < zlen (drives (dev s))) by (by apply znth_lt in Hd).
  set (I := λ (k : nat) (sd : Z) (s' : ide), k = Z.to_nat (n - sd) /\ 0 <= sd <= n /\
    (sd mod 256 = 0 \/ sd = n) /\
    link s' /\ same_env s1 s' /\ drives (dev s') = zupd (drives (dev s)) dev_no (dk sd)).
  set (Q := λ (r : unit) s', link s' /\ same_env s1 s' /\ drives (dev s') = zupd (drives (dev s)) dev_no (dk n)).
  assert (Hbody : forall k sd s', I k sd s' -> wp (ide_write_chunk dev_no lba buf n sd)
    (λ x s'', match x with inl sd' => exists k', (k' < k)%nat /\ I k' sd' s'' | inr r => Q r s'' end) s').
  { intros k sd s' (-> & Hsd & Hmod & Hl' & He' & Hdr'). unfold ide_write_chunk.
    destruct (Z.ltb_spec sd n) as [Hlt|Hge].
    2: { apply wp_ret. replace sd with n in Hdr' by lia. done. }
    destruct Hmod as [Hmod| ->]; [|lia].
    destruct (secs_op_range sd n) as (Ho & Hon & Hom); [lia|done|].
    change (if sd + 256 <=? n then 256 else n - sd) with (secs_op_of sd n).
    set (op := secs_op_of sd n) in *.
    pose proof (chunk_bound sd n ltac:(lia) Hmod). change max_lba with 163839 in *.
    rewrite u32_small by lia.
    assert (is_Some (sectors (dk sd) (lba + sd) (Z.to_nat op))) as [c Hc].
    { apply sectors_put, sectors_is_Some. intros i Hi.
      apply (proj1 (sectors_is_Some d lba (Z.to_nat n))); [by eexists|lia]. }
    pose proof (write_chunk_ok s' dev_no (dk sd) (lba + sd) op (drop (Z.to_nat (sd * 512)) buf) c Hl' Hdev) as Hchunk.
    change max_lba with 163839 in Hchunk.
    apply wp_bind. eapply wp_mono; [apply Hchunk; try done; try lia|].
    - rewrite Hdr'. by apply znth_upd_eq.
    - unfold zlen in *. rewrite length_drop. lia.
    - intros _ t (Ht1 & Ht2 & Ht3). apply wp_ret. exists (Z.to_nat (n - (sd + op))).
      split; [lia|]. split_and!; try done; try lia; [by etransitivity|].
      rewrite Ht3, Hdr', zupd_zupd. f_equal. unfold dk. rewrite Z2Nat.inj_add, put_sectors_app by lia.
      rewrite Z2Nat.id by lia.
      replace (Z.to_nat (op * 512)) with (512 * Z.to_nat op)%nat by lia. rewrite put_sectors_take.
      do 2 f_equal. lia. }
  apply wp_bind. eapply wp_mono.
  { apply (wp_loop I _ Q Hbody _ (Z.to_nat n)); [|lia].
    split_and!; try (lia || (by left) || done). unfold dk; simpl.
    rewrite Hdr2. simpl. unfold zupd. destruct (Z.ltb_spec dev_no 0); [done|].
    rewrite list_insert_id; [done|]. unfold znth in Hd. by destruct (Z.ltb_spec dev_no 0); [lia|]. }
  intros _ s3 (Hl3 & He3 & Hdr3). unfold ch_release. apply wp_bind, wp_get, wp_bind.
  destruct He3 as (Hlk & Hm3 & _). rewrite Hlk, Hm3.
  eapply wp_lift; [exact Hrel|]. apply wp_modify. split; [|done].
  split; cbn [ch ide_me].
  - destruct Hl3. by split.
  - simpl. rewrite Hm3. done.
  - rewrite Hm3. done.
Qed.

Lemma take_add (l : bytes) n m : take (n + m) l = take n l ++ take m (drop n l).
Proof.
  revert l. induction n as [|n IH]; intros l; [done|]. destruct l as [|x l]; simpl; [by rewrite take_nil|].
  by rewrite IH.
Qed.

Lemma slice_app b off n m : 0 <= off -> 0 <= n -> 0 <= m ->
  slice b off n ++ slice b (off + n) m = slice b off (n + m).
Proof.
  intros ? ? ?. unfold slice. rewrite !Z2Nat.inj_add by lia. by rewrite take_add, drop_drop.
Qed.

Lemma sectors_put_same d lba n buf k : (k <= n)%nat -> forall i, lba <= i -> i + Z.of_nat k <= lba + Z.of_nat n ->
  sectors (put_sectors d lba n buf) i k = Some (slice buf (512 * (i - lba)) (512 * Z.of_nat k)).
Proof.
  induction k as [|k IH]; intros Hk i Hi Hik.
  - cbn [sectors]. unfold slice. by rewrite take_0.
  - cbn [sectors]. rewrite lookup_put_sectors. case_decide; [|lia]. simpl.
    rewrite IH by lia. simpl. f_equal.
    replace (512 * (i + 1 - lba)) with (512 * (i - lba) + 512) by lia.
    rewrite slice_app by lia. f_equal. lia.
Qed.

Lemma disk_write_wf d lba buf n d' : disk_wf d -> Forall is_byte buf -> 0 <= lba ->
  disk_write d lba buf n = Ok d' ->
  disk_wf d' /\ disk_read d' lba n = Ok (take (Z.to_nat (n * 512)) buf) /\
  forall i, i < lba \/ lba + n <= i -> d' !! i = d !! i.
Proof.
  intros Hd Hb Hlba H. unfold disk_write, disk_read, ASSERT in *.
  destruct (Z.leb_spec lba max_lba); [|done]. destruct (Z.ltb_spec 0 n); [|done].
  destruct (Z.leb_spec (lba + (n - 1) / 256 * 256) max_lba) as [Hmax|]; [|done]. simpl in *.
  destruct (sectors d lba (Z.to_nat n)) as [data|] eqn:Hsec; [|done].
  destruct (Z.ltb_spec (zlen buf) (n * 512)) as [|Hbuf]; [done|]. injection H as <-. split_and!.
  - intros i s. rewrite lookup_put_sectors. case_decide; [|by apply Hd]. intros [= <-].
    split; [apply slice_length; lia|by apply slice_bytes].
  - rewrite (sectors_put_same d lba (Z.to_nat n) buf (Z.to_nat n)) by lia.
    unfold slice. replace (512 * (lba - lba)) with 0 by lia. rewrite drop_0. do 2 f_equal. lia.
  - intros i Hi. rewrite lookup_put_sectors. case_decide; [lia|done].
Qed.


(** What is written is read back.  After [ide_write] of [sec_cnt] sectors
    from [buf], [ide_read] of the same range returns exactly those bytes, and
    every other sector and the other drive are unchanged. *)
Theorem ide_write_read s dev_no d lba buf n d' : ide_ready s -> (dev_no = 0 \/ dev_no = 1) ->
  znth (drives (dev s)) dev_no = Some d -> disk_wf d -> Forall is_byte buf -> zlen buf = n * 512 ->
  0 <= lba -> disk_write d lba buf n = Ok d' ->
  exists s1 s2, ide_write dev_no lba buf n s = Ok (tt, s1) /\
    drives (dev s1) = zupd (drives (dev s)) dev_no d' /\
    (forall i, i < lba \/ lba + n <= i -> d' !! i = d !! i) /\
    ide_read dev_no lba n s1 = Ok (buf, s2) /\ ide_ready s2.
Proof.
  intros Hr Hdev Hd Hwf Hbytes Hlen Hlba Hw.
  destruct (disk_write_wf d lba buf n d' Hwf Hbytes Hlba Hw) as (Hwf' & Hread & Hother).
  destruct (proj1 (wp_run _ _ _) (ide_write_ok s dev_no d lba buf n d' Hr Hdev Hd Hlba Hw))
    as ([] & s1 & Hrun1 & Hr1 & Hdr1).
  rewrite take_ge in Hread by (unfold zlen in Hlen; lia).
  assert (Hd' : znth (drives (dev s1)) dev_no = Some d').
  { rewrite Hdr1. apply znth_upd_eq. by apply znth_lt in Hd. }
  destruct (proj1 (wp_run _ _ _) (ide_read_ok s1 dev_no d' lba n buf Hr1 Hdev Hd' Hwf' Hlba Hread))
    as (r & s2 & Hrun2 & -> & Hr2 & _).
  by exists s1, s2.
Qed.

Lemma busy_wait_gives_up fuel tl s : 0 < tl < 65536 -> tl <= Z.of_nat (busy (dev s)) + 1 ->
  tl <= Z.of_nat fuel ->
  wp (busy_wait_loop fuel tl) (λ r s', r = false /\ slept s' = slept s + (tl - 1)) s.
Proof.
  revert tl s. induction fuel as [|fuel IH]; intros tl s Htl Hb Hf; [lia|].
  cbn [busy_wait_loop]. change (0 <=? 10) with true. cbv iota. rewrite u16_small by lia.
  destruct (Z.eqb_spec (tl - 1) 0) as [E|E]; [apply wp_ret; split; [done|lia]|].
  destruct s as [c a me sl]. cbn [dev slept] in *.
  destruct (busy a) as [|b] eqn:Eb; [lia|].
  apply wp_bind. unfold wp at 1. unfold inb_status, ata_status. cbn [dev]. rewrite Eb.
  change (Z.land BIT_STAT_BSY BIT_STAT_BSY =? 0) with false. cbv iota.
  apply wp_bind, wp_modify. cbn [ch dev ide_me slept].
  eapply wp_mono; [apply IH; cbn [dev busy]; lia|].
  cbn [slept]. intros r s' [-> Hs]. split; [done|lia].
Qed.

(** The time limit of [busy_wait].  A drive that never gets ready is given
    up only after 29999 sleeps of 10 ms, five minutes, because [time_limit -=
    10 >= 0] subtracts the comparison's value 1 and not 10. *)
Theorem busy_wait_timeout s : 29999 <= Z.of_nat (busy (dev s)) ->
  exists s', busy_wait s = Ok (false, s') /\ slept s' = slept s + 29999.
Proof.
  intros Hb. assert (H : wp busy_wait (λ r s', r = false /\ slept s' = slept s + (30 * 1000 - 1)) s).
  { apply busy_wait_gives_up; lia. }
  apply wp_run in H as (r & s' & Hrun & -> & Hs). exists s'. split; [done|lia].
Qed.

(** *** A drive of four sectors *)

Definition demo_sector (x : Z) : bytes := x :: zeros 511.
Definition demo_disk : disk :=
  <[0 := demo_sector 10]> (<[1 := demo_sector 11]> (<[2 := demo_sector 12]> (<[3 := demo_sector 13]> ∅))).
Definition demo_ata (b : nat) : ata :=
  Ata 0x1f0 0 0 0 0 0 [∅; demo_disk] [] ModeIdle false b [3%nat; 0%nat].
Definition demo_ide (b : nat) : ide :=
  Ide (Channel 0x1f0 0x2e lock_init false (sema_init 0)) (demo_ata b) 0xc009e000 0.

Lemma demo_ide_ready b : ide_ready (demo_ide b).
Proof.
  split; [|split; [done|by left]|done]. split; try done; [by left|].
  simpl. rewrite !Forall_cons, Forall_nil. lia.
Qed.

Lemma demo_disk_wf : disk_wf demo_disk.
Proof.
  assert (H : forall x, is_byte x -> zlen (demo_sector x) = 512 /\ Forall is_byte (demo_sector x)).
  { intros x Hx. split; [reflexivity|]. apply Forall_cons. split; [done|apply zeros_bytes]. }
  unfold demo_disk. intros i s Hi. lookup_cases Hi; injection Hi as <-; apply H; unfold is_byte; lia.
Qed.


Lemma ide_write_read_witness :
  exists d' s1 s2, ide_write 1 2 (demo_sector 7) 1 (demo_ide 0) = Ok (tt, s1) /\
    drives (dev s1) = zupd [∅; demo_disk] 1 d' /\
    (forall i, i < 2 \/ 2 + 1 <= i -> d' !! i = demo_disk !! i) /\
    ide_read 1 2 1 s1 = Ok (demo_sector 7, s2) /\ ide_ready s2.
Proof.
  eexists. apply (ide_write_read (demo_ide 0) 1 demo_disk 2 (demo_sector 7) 1 _ (demo_ide_ready 0));
    [by right|reflexivity|apply demo_disk_wf| |reflexivity|lia|vm_compute; reflexivity].
  apply Forall_cons. split; [unfold is_byte; lia|apply zeros_bytes].
Defined.

Lemma busy_wait_timeout_witness :
  exists s', busy_wait (demo_ide (Z.to_nat 29999)) = Ok (false, s') /\ slept s' = 0 + 29999.
Proof.
  apply (busy_wait_timeout (demo_ide (Z.to_nat 29999))). unfold demo_ide, demo_ata. cbn [dev busy]. lia.
Defined.
