(* ===== verification/Layout.v ===== *)
(** The on-disk structures of the file system (fs/super_block.h, fs/inode.h,
    fs/dir.h) with their byte images, the position of an inode in the inode
    table (fs/inode.c) and byte-level reasoning about a disk. *)

From S2P Require Import Prelude Bitmap Bytes Interrupt Thread Sync Ide.

Open Scope Z_scope.

Definition SECTOR_SIZE : Z := 512.
Definition BLOCK_SIZE : Z := SECTOR_SIZE.
Definition BITS_PER_SECTOR : Z := 4096.
Definition MAX_FILES_PER_PART : Z := 4096.
Definition MAX_FILE_NAME_LEN : Z := 16.
Definition MAX_PATH_LEN : Z := 512.
Definition MAX_FILE_OPEN : Z := 32.

Record super_block := SuperBlock {
  magic : Z; sb_sec_cnt : Z; inode_cnt : Z; part_lba_base : Z;
  block_bitmap_lba : Z; block_bitmap_sects : Z;
  inode_bitmap_lba : Z; inode_bitmap_sects : Z;
  inode_table_lba : Z; inode_table_sects : Z;
  data_start_lba : Z; root_inode_no : Z; dir_entry_size : Z
}.

Definition sb_words (s : super_block) : list Z :=
  [magic s; sb_sec_cnt s; inode_cnt s; part_lba_base s; block_bitmap_lba s; block_bitmap_sects s;
   inode_bitmap_lba s; inode_bitmap_sects s; inode_table_lba s; inode_table_sects s;
   data_start_lba s; root_inode_no s; dir_entry_size s].

(** [pad] is the 460 bytes the source never assigns. *)
Definition encode_sb (s : super_block) (pad : bytes) : bytes := of_words (sb_words s) ++ pad.
Definition decode_sb (b : bytes) : super_block :=
  let w k := word_at b (4 * k) in
  SuperBlock (w 0) (w 1) (w 2) (w 3) (w 4) (w 5) (w 6) (w 7) (w 8) (w 9) (w 10) (w 11) (w 12).

(** struct inode; [inode_tag] is the link that puts the inode on the list of
    open inodes, which the state keeps as a sequence. *)
Record inode := Inode {
  i_no : Z; i_size : Z; i_open_cnts : Z; write_deny : Z; i_sectors : list Z
}.

Definition sizeof_inode : Z := 76.

Definition set_isize (n : Z) (i : inode) : inode :=
  Inode (i_no i) n (i_open_cnts i) (write_deny i) (i_sectors i).
Definition set_open_cnts (n : Z) (i : inode) : inode :=
  Inode (i_no i) (i_size i) n (write_deny i) (i_sectors i).
Definition set_write_deny (n : Z) (i : inode) : inode :=
  Inode (i_no i) (i_size i) (i_open_cnts i) n (i_sectors i).
Definition set_sectors (l : list Z) (i : inode) : inode :=
  Inode (i_no i) (i_size i) (i_open_cnts i) (write_deny i) l.

(** The 76 bytes of an inode whose tag is cleared. *)
Definition encode_inode (i : inode) : bytes :=
  of_words ([i_no i; i_size i; i_open_cnts i; write_deny i] ++ i_sectors i ++ [0; 0]).
Definition decode_inode (b : bytes) : inode :=
  match to_words b with
  | n :: sz :: oc :: wd :: rest => Inode n sz oc wd (take 13 rest)
  | _ => Inode 0 0 0 0 []
  end.

Inductive file_types := FT_UNKNOWN | FT_REGULAR | FT_DIRECTORY.
Global Instance file_types_eq_dec : EqDecision file_types.
Proof. solve_decision. Defined.

Definition ft_code (t : file_types) : Z :=
  match t with FT_UNKNOWN => 0 | FT_REGULAR => 1 | FT_DIRECTORY => 2 end.

(** struct dir_entry: the type field keeps whatever number the disk has. *)
Record dir_entry := DirEntry { filename : bytes; de_i_no : Z; f_type : Z }.

Definition sizeof_dir_entry : Z := 24.

Definition encode_de (e : dir_entry) : bytes := filename e ++ le32 (de_i_no e) ++ le32 (f_type e).
Definition decode_de (b : bytes) : dir_entry :=
  DirEntry (slice b 0 16) (word_at b 16) (word_at b 20).

Record partition := Partition {
  start_lba : Z;
  sec_cnt : Z;
  sb : super_block;
  block_bitmap : bitmap;
  inode_bitmap : bitmap
}.

(** ** [inode_locate] *)

Record inode_position := InodePos { two_sec : bool; sec_lba : Z; off_size : Z }.

Definition inode_locate (table_lba inode_no : Z) : res inode_position :=
  ASSERT (inode_no <? 4096) "inode_no < 4096" ≫= λ _,
  let inode_size := sizeof_inode in
  let off_size := u32 (inode_no * inode_size) in
  let off_sec := off_size / 512 in
  let off_size_in_sec := off_size mod 512 in
  let left_in_sec := 512 - off_size_in_sec in
  Ok (InodePos (left_in_sec <? inode_size) (u32 (table_lba + off_sec)) off_size_in_sec).

(** ** Round trips *)

Record inode_wf (i : inode) : Prop := {
  iw_no : is_u32 (i_no i);
  iw_size : is_u32 (i_size i);
  iw_open : is_u32 (i_open_cnts i);
  iw_deny : is_u32 (write_deny i);
  iw_len : length (i_sectors i) = 13%nat;
  iw_secs : Forall is_u32 (i_sectors i)
}.

Lemma inode_words i : inode_wf i ->
  Forall is_u32 ([i_no i; i_size i; i_open_cnts i; write_deny i] ++ i_sectors i ++ [0; 0]).
Proof.
  intros [? ? ? ? ? ?]. rewrite !Forall_app, !Forall_cons, !Forall_nil. unfold is_u32 in *.
  split_and!; done || lia.
Qed.

Lemma encode_inode_length i : inode_wf i -> zlen (encode_inode i) = sizeof_inode.
Proof.
  intros Hi. unfold zlen, encode_inode. rewrite of_words_length, !length_app, (iw_len i Hi). reflexivity.
Qed.

Lemma decode_encode_inode i : inode_wf i -> decode_inode (encode_inode i) = i.
Proof.
  intros Hi. unfold decode_inode, encode_inode. rewrite to_words_of_words by (by apply inode_words).
  simpl. rewrite take_app_le by (rewrite (iw_len i Hi); lia).
  rewrite take_ge by (rewrite (iw_len i Hi); lia). by destruct i.
Qed.

Lemma decode_inode_wf b : zlen b = sizeof_inode -> Forall is_byte b -> inode_wf (decode_inode b).
Proof.
  intros Hl Hb. pose proof (to_words_range b Hb) as Hr.
  assert (Hw : length (to_words b) = 19%nat).
  { apply to_words_length. unfold zlen, sizeof_inode in Hl. lia. }
  unfold decode_inode. destruct (to_words b) as [|n [|sz [|oc [|wd rest]]]]; simpl in Hw; try lia.
  rewrite !Forall_cons in Hr. destruct Hr as (? & ? & ? & ? & Hr).
  split; simpl; try done; [rewrite length_take; lia|by apply Forall_take].
Qed.

Record de_wf (e : dir_entry) : Prop := {
  dw_name : length (filename e) = 16%nat;
  dw_bytes : Forall is_byte (filename e);
  dw_ino : is_u32 (de_i_no e);
  dw_type : is_u32 (f_type e)
}.

Lemma encode_de_length e : de_wf e -> zlen (encode_de e) = sizeof_dir_entry.
Proof. intros He. unfold zlen, encode_de. rewrite !length_app, (dw_name e He). reflexivity. Qed.

Lemma decode_encode_de e : de_wf e -> decode_de (encode_de e) = e.
Proof.
  intros [Hn Hb Hi Ht]. destruct e as [fn ino ty]. unfold decode_de, encode_de, word_at, slice. simpl in *.
  rewrite drop_0, take_app_le, take_ge by lia.
  rewrite drop_app_le, drop_ge by lia. cbn [app].
  rewrite (drop_app_ge fn) by lia. rewrite Hn. cbn [Nat.sub].
  f_equal.
  - change (take _ (le32 ino ++ le32 ty)) with (le32 ino). by apply le32_roundtrip.
  - change (take _ (drop _ (le32 ino ++ le32 ty))) with (le32 ty). by apply le32_roundtrip.
Qed.

Lemma word_at_of_words ws pad k w : Forall is_u32 ws -> znth ws k = Some w ->
  word_at (of_words ws ++ pad) (4 * k) = w.
Proof.
  intros Hws Hk. pose proof (znth_lt _ _ _ Hk) as Hr. revert k Hk Hr.
  induction Hws as [|x ws Hx _ IH]; intros k Hk Hr; [unfold zlen in Hr; simpl in Hr; lia|].
  destruct (decide (k = 0)) as [->|].
  - injection Hk as <-. unfold word_at, slice. cbn [Z.mul Z.to_nat drop].
    change (take _ (of_words (x :: ws) ++ pad)) with (le32 x). by apply le32_roundtrip.
  - replace (word_at (of_words (x :: ws) ++ pad) (4 * k))
      with (word_at (of_words ws ++ pad) (4 * (k - 1))).
    + apply IH.
      * rewrite <- Hk. unfold znth. destruct (Z.ltb_spec (k - 1) 0), (Z.ltb_spec k 0); try lia.
        replace (Z.to_nat k) with (S (Z.to_nat (k - 1))) by lia. done.
      * unfold zlen in *. simpl in Hr. lia.
    + unfold word_at, slice. replace (Z.to_nat (4 * k)) with (4 + Z.to_nat (4 * (k - 1)))%nat by lia.
      done.
Qed.

Lemma decode_encode_sb s pad : Forall is_u32 (sb_words s) -> decode_sb (encode_sb s pad) = s.
Proof.
  intros H. unfold decode_sb, encode_sb.
  rewrite (word_at_of_words _ pad 0 (magic s) H), (word_at_of_words _ pad 1 (sb_sec_cnt s) H),
    (word_at_of_words _ pad 2 (inode_cnt s) H), (word_at_of_words _ pad 3 (part_lba_base s) H),
    (word_at_of_words _ pad 4 (block_bitmap_lba s) H), (word_at_of_words _ pad 5 (block_bitmap_sects s) H),
    (word_at_of_words _ pad 6 (inode_bitmap_lba s) H), (word_at_of_words _ pad 7 (inode_bitmap_sects s) H),
    (word_at_of_words _ pad 8 (inode_table_lba s) H), (word_at_of_words _ pad 9 (inode_table_sects s) H),
    (word_at_of_words _ pad 10 (data_start_lba s) H), (word_at_of_words _ pad 11 (root_inode_no s) H),
    (word_at_of_words _ pad 12 (dir_entry_size s) H) by reflexivity.
  by destruct s.
Qed.

(** ** A disk as a sequence of bytes *)

Definition dbyte (d : disk) (i : Z) : option Z := d !! (i / 512) ≫= λ s, znth s (i mod 512).

Lemma divmod_512 l j : 0 <= j < 512 -> (512 * l + j) / 512 = l /\ (512 * l + j) mod 512 = j.
Proof.
  intros Hj. split.
  - rewrite Z.mul_comm, Z.div_add_l by lia. rewrite Z.div_small by lia. lia.
  - rewrite Z.add_comm, Z.mul_comm, Z.mod_add by lia. by apply Z.mod_small.
Qed.

Lemma sectors_dbyte d lba n b j : disk_wf d -> sectors d lba n = Some b ->
  0 <= j < 512 * Z.of_nat n -> znth b j = dbyte d (512 * lba + j).
Proof.
  intros Hd. revert lba b j. induction n as [|n IH]; intros lba b j; [lia|]. cbn [sectors].
  intros (s & Hs & (r & Hr & [= <-])%bind_Some)%bind_Some Hj.
  destruct (Hd _ _ Hs) as [Hls _].
  destruct (decide (j < 512)).
  - rewrite znth_app_l by lia. unfold dbyte.
    destruct (divmod_512 lba j) as [-> ->]; [lia|]. by rewrite Hs.
  - rewrite znth_app_r by lia. rewrite (IH _ _ (j - zlen s) Hr) by lia. f_equal. lia.
Qed.

Lemma dbyte_put d lba n b i : 512 * Z.of_nat n <= zlen b ->
  dbyte (put_sectors d lba n b) i =
    if decide (512 * lba <= i < 512 * (lba + Z.of_nat n)) then znth b (i - 512 * lba) else dbyte d i.
Proof.
  intros Hb. unfold dbyte. rewrite lookup_put_sectors.
  pose proof (Z.div_mod i 512 ltac:(lia)) as Hdm. pose proof (Z.mod_pos_bound i 512 ltac:(lia)).
  repeat case_decide; try lia; try done. simpl. rewrite znth_slice by lia. f_equal. lia.
Qed.

(** Two well-formed disks with the same sectors present and the same bytes
    are equal. *)
Lemma disk_ext d d' : disk_wf d -> disk_wf d' -> dom d = dom d' ->
  (forall i, dbyte d i = dbyte d' i) -> d = d'.
Proof.
  intros Hd Hd' Hdom Hb. apply map_eq. intros l.
  destruct (d !! l) as [s|] eqn:Hs, (d' !! l) as [s'|] eqn:Hs'.
  - f_equal. destruct (Hd _ _ Hs) as [Hl _], (Hd' _ _ Hs') as [Hl' _].
    apply zlist_eq; [lia|]. intros j Hj. specialize (Hb (512 * l + j)). unfold dbyte in Hb.
    destruct (divmod_512 l j) as [E1 E2]; [lia|]. rewrite E1, E2, Hs, Hs' in Hb. done.
  - exfalso. apply elem_of_dom_2 in Hs. rewrite Hdom in Hs. by apply elem_of_dom in Hs as [? ?]; congruence.
  - exfalso. apply elem_of_dom_2 in Hs'. rewrite <- Hdom in Hs'. by apply elem_of_dom in Hs' as [? ?]; congruence.
  - done.
Qed.

Lemma dom_put_sectors d lba n b : is_Some (sectors d lba n) -> dom (put_sectors d lba n b) = dom d.
Proof.
  rewrite sectors_is_Some. intros H. apply set_eq. intros i. rewrite !elem_of_dom, lookup_put_sectors.
  case_decide; [|done]. split; [intros _; by apply H|intros _; by eexists].
Qed.
