(* ===== verification/Inode.v ===== *)
(** fs/inode.c: inodes in memory and on disk.

    [fs] is the state the whole of fs/ works on: the disk behind the driver,
    the mounted partition, the heap objects (inodes, directories) by address,
    the list of open inodes, the file table, the running task and the
    messages printed.  The kernel heap is used through the interface [Heap]:
    an address or NULL from [sys_malloc], and [sys_free].  Buffers that never
    leave a function are local values; their addresses only matter for the
    NULL tests and for [sys_free]. *)

From S2P Require Import Prelude Bitmap Bytes Interrupt Thread Sync Ide Layout.

Open Scope Z_scope.

(** ** The heap as its clients see it *)

Class Heap (H : Type) := {
  h_malloc : bool -> Z -> H -> Z * H;      (* kernel pool?, size; 0 is NULL *)
  h_free : bool -> Z -> H -> res H;
  h_live : H -> Z -> Prop;
  h_room : H -> nat -> Prop                (* that many allocations will succeed *)
}.

Class HeapLaws (H : Type) `{Heap H} : Prop := {
  malloc_live kern sz h : let '(a, h') := h_malloc kern sz h in
    (a = 0 /\ forall x, h_live h' x <-> h_live h x) \/
    (a <> 0 /\ ~ h_live h a /\ forall x, h_live h' x <-> h_live h x \/ x = a);
  malloc_room kern sz h n : 0 < sz <= 4096 -> h_room h (S n) ->
    fst (h_malloc kern sz h) <> 0 /\ h_room (snd (h_malloc kern sz h)) n;
  free_live kern a h : h_live h a -> exists h', h_free kern a h = Ok h' /\
    (forall x, h_live h' x <-> h_live h x /\ x <> a) /\ forall n, h_room h n -> h_room h' n;
  room_le h n m : h_room h n -> (m <= n)%nat -> h_room h m
}.

Record file := File { fd_pos : Z; fd_flag : Z; fd_inode : Z }.
Record dir := Dir { d_inode : Z; dir_pos : Z; dir_buf : bytes }.

(** The address of the static [root_dir]. *)
Definition ROOT_DIR : Z := 4.

Record fs {H : Type} := Fs {
  dsk : disk;
  part : partition;
  open_inodes : list Z;
  inodes : gmap Z inode;
  dirs : gmap Z dir;
  file_table : list file;
  cur : task_struct;
  fcpu : cpu;
  heap : H;
  klog : list string
}.
Global Arguments fs : clear implicits.

Section fs.
Context {H : Type} `{Heap H}.

Definition set_dsk (x : disk) (f : fs H) : fs H :=
  Fs _ x (part f) (open_inodes f) (inodes f) (dirs f) (file_table f) (cur f) (fcpu f) (heap f) (klog f).
Definition set_part (x : partition) (f : fs H) : fs H :=
  Fs _ (dsk f) x (open_inodes f) (inodes f) (dirs f) (file_table f) (cur f) (fcpu f) (heap f) (klog f).
Definition set_open (x : list Z) (f : fs H) : fs H :=
  Fs _ (dsk f) (part f) x (inodes f) (dirs f) (file_table f) (cur f) (fcpu f) (heap f) (klog f).
Definition set_inodes (x : gmap Z inode) (f : fs H) : fs H :=
  Fs _ (dsk f) (part f) (open_inodes f) x (dirs f) (file_table f) (cur f) (fcpu f) (heap f) (klog f).
Definition set_dirs (x : gmap Z dir) (f : fs H) : fs H :=
  Fs _ (dsk f) (part f) (open_inodes f) (inodes f) x (file_table f) (cur f) (fcpu f) (heap f) (klog f).
Definition set_files (x : list file) (f : fs H) : fs H :=
  Fs _ (dsk f) (part f) (open_inodes f) (inodes f) (dirs f) x (cur f) (fcpu f) (heap f) (klog f).
Definition set_cur (x : task_struct) (f : fs H) : fs H :=
  Fs _ (dsk f) (part f) (open_inodes f) (inodes f) (dirs f) (file_table f) x (fcpu f) (heap f) (klog f).
Definition set_fcpu (x : cpu) (f : fs H) : fs H :=
  Fs _ (dsk f) (part f) (open_inodes f) (inodes f) (dirs f) (file_table f) (cur f) x (heap f) (klog f).
Definition set_heap (x : H) (f : fs H) : fs H :=
  Fs _ (dsk f) (part f) (open_inodes f) (inodes f) (dirs f) (file_table f) (cur f) (fcpu f) x (klog f).
Definition set_klog (x : list string) (f : fs H) : fs H :=
  Fs _ (dsk f) (part f) (open_inodes f) (inodes f) (dirs f) (file_table f) (cur f) (fcpu f) (heap f) x.

Definition set_bbmp (b : bitmap) (p : partition) : partition :=
  Partition (start_lba p) (sec_cnt p) (sb p) b (inode_bitmap p).
Definition set_ibmp (b : bitmap) (p : partition) : partition :=
  Partition (start_lba p) (sec_cnt p) (sb p) (block_bitmap p) b.

(** *** What fs/ calls *)

Definition ide_rd (lba n : Z) : M (fs H) bytes := λ f, lift (disk_read (dsk f) lba n) f.
Definition ide_wr (lba : Z) (buf : bytes) (n : Z) : M (fs H) unit := λ f,
  match disk_write (dsk f) lba buf n with
  | Ok d => Ok (tt, set_dsk d f)
  | Panic w => Panic w | Fault => Fault | Block => Block | NoFuel => NoFuel
  end.
Definition printk (msg : string) : M (fs H) unit := modify (λ f, set_klog (klog f ++ [msg]) f).

(** [sys_malloc] takes kernel memory when the running task has no page
    directory. *)
Definition sys_malloc (size : Z) : M (fs H) Z := λ f,
  let '(a, h) := h_malloc (pgdir (cur f) =? 0) size (heap f) in Ok (a, set_heap h f).
Definition sys_free (a : Z) : M (fs H) unit := λ f,
  match h_free (pgdir (cur f) =? 0) a (heap f) with
  | Ok h => Ok (tt, set_heap h f)
  | Panic w => Panic w | Fault => Fault | Block => Block | NoFuel => NoFuel
  end.

Definition rd_inode (a : Z) : M (fs H) inode := λ f,
  match inodes f !! a with Some i => Ok (i, f) | None => Fault end.
Definition upd_inode (a : Z) (g : inode -> inode) : M (fs H) unit := λ f,
  match inodes f !! a with
  | Some i => Ok (tt, set_inodes (<[a := g i]> (inodes f)) f)
  | None => Fault
  end.
Definition get_sb : M (fs H) super_block := gets (λ f, sb (part f)).
Definition on_fcpu {A} (m : M cpu A) : M (fs H) A := zoom fcpu set_fcpu m.

Definition set_pgdir (p : Z) (t : task_struct) : task_struct :=
  Task (self_kstack t) (pid t) (status t) (name t) (priority t) (ticks t) (elapsed_ticks t)
    (fd_table t) p (userprog_vaddr t) (cwd_inode_nr t) (parent_pid t) (exit_status t) (stack_magic t).

(** An allocation or release in the kernel pool: the running task's page
    directory is put aside meanwhile. *)
Definition with_kernel_heap {A} (m : M (fs H) A) : M (fs H) A :=
  cur_pagedir_bak ← gets (λ f, pgdir (cur f));
  modify (λ f, set_cur (set_pgdir 0 (cur f)) f);;
  a ← m;
  modify (λ f, set_cur (set_pgdir cur_pagedir_bak (cur f)) f);;
  mret a.

(** *** [bitmap_sync] of fs/file.c *)

Inductive bitmap_type := INODE_BITMAP | BLOCK_BITMAP.

Definition bitmap_sync (bit_idx : Z) (btmp : bitmap_type) : M (fs H) unit :=
  let off_sec := bit_idx / 4096 in
  let off_size := off_sec * BLOCK_SIZE in
  p ← gets part;
  match btmp with
  | INODE_BITMAP =>
      ide_wr (u32 (inode_bitmap_lba (sb p) + off_sec)) (slice (bits (inode_bitmap p)) off_size 512) 1
  | BLOCK_BITMAP =>
      ide_wr (u32 (block_bitmap_lba (sb p) + off_sec)) (slice (bits (block_bitmap p)) off_size 512) 1
  end.

Definition set_block_bit (bit_idx v : Z) : M (fs H) unit :=
  p ← gets part;
  b ← lift (bitmap_set (block_bitmap p) bit_idx v);
  modify (set_part (set_bbmp b p)).
Definition set_inode_bit (bit_idx v : Z) : M (fs H) unit :=
  p ← gets part;
  b ← lift (bitmap_set (inode_bitmap p) bit_idx v);
  modify (set_part (set_ibmp b p)).

(** *** fs/inode.c *)

(** [inode_no] is a [uint8_t] in the source. *)
Definition inode_sync (inode : inode) : M (fs H) unit :=
  let inode_no := u8 (i_no inode) in
  p ← gets part;
  pos ← lift (inode_locate (inode_table_lba (sb p)) inode_no);
  assertM (sec_lba pos <=? u32 (start_lba p + sec_cnt p)) "sec_lba <= start_lba + sec_cnt";;
  let pure_inode := set_write_deny 0 (set_open_cnts 0 inode) in
  let n := if two_sec pos then 2 else 1 in
  inode_buf ← ide_rd (sec_lba pos) n;
  ide_wr (sec_lba pos) (splice inode_buf (off_size pos) (encode_inode pure_inode)) n.

(** The walk over [open_inodes]. *)
Fixpoint find_open (ins : gmap Z inode) (l : list Z) (no : Z) : res (option Z) :=
  match l with
  | [] => Ok None
  | a :: l =>
      match ins !! a with
      | Some i => if i_no i =? no then Ok (Some a) else find_open ins l no
      | None => Fault
      end
  end.

Definition inode_open (inode_no : Z) : M (fs H) Z :=
  f ← get;
  found ← lift (find_open (inodes f) (open_inodes f) inode_no);
  match found with
  | Some a =>
      upd_inode a (λ i, set_open_cnts (u32 (i_open_cnts i + 1)) i);;
      mret a
  | None =>
      pos ← lift (inode_locate (inode_table_lba (sb (part f))) inode_no);
      inode_found ← with_kernel_heap (sys_malloc sizeof_inode);
      let n := if two_sec pos then 2 else 1 in
      inode_buf ← sys_malloc (512 * n);
      buf ← ide_rd (sec_lba pos) n;
      (if inode_buf =? 0 then faultM else mret tt);;
      assertM (negb (inode_found =? 0)) "memcpy: dst_ != NULL && src_ != NULL";;
      modify (λ f, set_inodes (<[inode_found := decode_inode (slice buf (off_size pos) sizeof_inode)]> (inodes f)) f);;
      modify (λ f, set_open (inode_found :: open_inodes f) f);;
      upd_inode inode_found (set_open_cnts 1);;
      sys_free inode_buf;;
      mret inode_found
  end.

Definition open_remove (a : Z) : M (fs H) unit := λ f,
  if bool_decide (a ∈ open_inodes f)
  then Ok (tt, set_open (filter (λ x, x <> a) (open_inodes f)) f)
  else Fault.

Definition inode_close (a : Z) : M (fs H) unit :=
  old_status ← on_fcpu intr_disable;
  upd_inode a (λ i, set_open_cnts (u32 (i_open_cnts i - 1)) i);;
  i ← rd_inode a;
  (if i_open_cnts i =? 0 then
     open_remove a;;
     with_kernel_heap (sys_free a);;
     modify (λ f, set_inodes (delete a (inodes f)) f)
   else mret tt);;
  _ ← on_fcpu (intr_set_status old_status);
  mret tt.

Definition inode_delete (inode_no : Z) : M (fs H) unit :=
  assertM (inode_no <? 4096) "inode_no < 4096";;
  p ← gets part;
  pos ← lift (inode_locate (inode_table_lba (sb p)) inode_no);
  assertM (sec_lba pos <=? u32 (start_lba p + sec_cnt p)) "sec_lba <= start_lba + sec_cnt";;
  let n := if two_sec pos then 2 else 1 in
  inode_buf ← ide_rd (sec_lba pos) n;
  ide_wr (sec_lba pos) (splice inode_buf (off_size pos) (zeros sizeof_inode)) n.

(** Give block [lba] back to the block bitmap. *)
Definition free_block (lba : Z) : M (fs H) unit :=
  s ← get_sb;
  let block_bitmap_idx := u32 (lba - data_start_lba s) in
  assertM (0 <? block_bitmap_idx) "block_bitmap_idx > 0";;
  set_block_bit block_bitmap_idx 0;;
  bitmap_sync block_bitmap_idx BLOCK_BITMAP.

Fixpoint free_blocks (l : list Z) : M (fs H) unit :=
  match l with
  | [] => mret tt
  | b :: l => (if negb (b =? 0) then free_block b else mret tt);; free_blocks l
  end.

(** The block addresses of an inode: 12 direct ones and, when there is an
    indirect table, the 128 it holds. *)
Definition sector_of (i : inode) (k : Z) : Z := default 0 (znth (i_sectors i) k).

Definition inode_release (inode_no : Z) : M (fs H) unit :=
  a ← inode_open inode_no;
  i ← rd_inode a;
  assertM (i_no i =? inode_no) "inode_to_del->i_no == inode_no";;
  let direct := take 12 (i_sectors i) in
  all_blocks ←
    (if negb (sector_of i 12 =? 0) then
       buf ← ide_rd (sector_of i 12) 1;
       free_block (sector_of i 12);;
       mret (direct ++ to_words buf)
     else mret direct);
  free_blocks all_blocks;;
  set_inode_bit inode_no 0;;
  bitmap_sync inode_no INODE_BITMAP;;
  io_buf ← sys_malloc 1024;
  (if io_buf =? 0 then faultM else mret tt);;
  inode_delete inode_no;;
  sys_free io_buf;;
  inode_close a.

Definition inode_init (inode_no : Z) : inode := Inode inode_no 0 0 0 (replicate 13 0).
End fs.

(** ** A heap that never runs out

    The set of live addresses; each allocation takes an address outside it. *)

Global Instance set_heap_ops : Heap (gset Z) := {|
  h_malloc _ _ h := let a := fresh (h ∪ {[0]}) in (a, h ∪ {[a]});
  h_free _ a h := if bool_decide (a ∈ h) then Ok (h ∖ {[a]}) else Fault;
  h_live h a := a ∈ h;
  h_room _ _ := True
|}.

Global Instance set_heap_laws : HeapLaws (gset Z).
Proof.
  split; simpl.
  - intros _ _ h. right. pose proof (is_fresh (h ∪ {[0]})) as Hf. split_and!; set_solver.
  - intros _ _ h _ _ _. pose proof (is_fresh (h ∪ {[0]})) as Hf. split; [set_solver|done].
  - intros _ a h Ha. rewrite bool_decide_eq_true_2 by done. eexists. split; [done|]. set_solver.
  - done.
Qed.
