(* ===== verification/InodeSpec.v ===== *)
(** The inode table on disk: what [inode_sync], [inode_delete] and
    [inode_open] of fs/inode.c write to it and read from it.

    The table is seen as a function from inode numbers to inodes,
    [disk_inode]: slot [no] is the 76 bytes from byte [76 * no] of the table
    on, which may straddle two sectors. *)

From S2P Require Import Prelude Bitmap Bytes Interrupt Thread Sync Ide Layout Inode.

Open Scope Z_scope.

(** ** Bytes of a disk *)

Definition disk_bytes (d : disk) (o n : Z) : bytes := map (λ k, default 0 (dbyte d (o + k))) (seqZ 0 n).

Definition disk_inode (d : disk) (table_lba no : Z) : inode :=
  decode_inode (disk_bytes d (512 * table_lba + sizeof_inode * no) sizeof_inode).

Lemma zlen_disk_bytes d o n : 0 <= n -> zlen (disk_bytes d o n) = n.
Proof. intros Hn. unfold zlen, disk_bytes. rewrite length_map, length_seqZ. lia. Qed.

Lemma znth_disk_bytes d o n k : 0 <= k < n -> znth (disk_bytes d o n) k = Some (default 0 (dbyte d (o + k))).
Proof.
  intros Hk. unfold znth, disk_bytes. destruct (Z.ltb_spec k 0); [lia|].
  rewrite list_lookup_fmap, lookup_seqZ_lt by lia. simpl. do 3 f_equal. lia.
Qed.

Lemma disk_bytes_ext d d' o n : 0 <= n -> (forall k, 0 <= k < n -> dbyte d' (o + k) = dbyte d (o + k)) ->
  disk_bytes d' o n = disk_bytes d o n.
Proof.
  intros Hn Hk. apply zlist_eq; [by rewrite !zlen_disk_bytes|]. intros k Hr.
  rewrite zlen_disk_bytes in Hr by done. rewrite !znth_disk_bytes by done. by rewrite Hk.
Qed.

Lemma disk_bytes_eq d o n b : zlen b = n -> (forall k, 0 <= k < n -> dbyte d (o + k) = znth b k) ->
  disk_bytes d o n = b.
Proof.
  intros <- Hk. pose proof (zlen_nonneg b). apply zlist_eq; [by rewrite zlen_disk_bytes|]. intros k Hr.
  rewrite zlen_disk_bytes in Hr by done. rewrite znth_disk_bytes, Hk by done.
  destruct (znth_is_Some b k Hr) as [x ->]. done.
Qed.

(** [n] sectors, with bytes [off .. off + |src|) of them, as the code reads,
    changes and writes them. *)
Lemma rmw_ok d lba n off src : disk_wf d -> 0 <= lba <= max_lba -> n = 1 \/ n = 2 ->
  (forall l, lba <= l < lba + n -> is_Some (d !! l)) ->
  0 <= off -> off + zlen src <= 512 * n -> Forall is_byte src ->
  exists b d', disk_read d lba n = Ok b /\ disk_write d lba (splice b off src) n = Ok d' /\
    zlen b = 512 * n /\ Forall is_byte b /\ (forall j, 0 <= j < 512 * n -> znth b j = dbyte d (512 * lba + j)) /\
    disk_wf d' /\ dom d' = dom d /\
    (forall l, l < lba \/ lba + n <= l -> d' !! l = d !! l) /\
    (forall i, dbyte d' i = if decide (512 * lba + off <= i < 512 * lba + off + zlen src)
                            then znth src (i - (512 * lba + off)) else dbyte d i).
Proof.
  intros Hd Hlba Hn Hs Hoff Hfit Hsrc. pose proof (zlen_nonneg src).
  destruct (proj2 (sectors_is_Some d lba (Z.to_nat n))) as [b Hb]; [intros; apply Hs; lia|].
  pose proof (sectors_length _ _ _ _ Hd Hb) as Hlen.
  assert (Hbb : Forall is_byte b).
  { apply Forall_forall. intros x [k Hk]%list_elem_of_lookup.
    assert (Hkz : znth b (Z.of_nat k) = Some x).
    { unfold znth. destruct (Z.ltb_spec (Z.of_nat k) 0); [lia|]. by rewrite Nat2Z.id. }
    pose proof (znth_lt _ _ _ Hkz). rewrite (sectors_dbyte d lba (Z.to_nat n) b) in Hkz by (done || lia).
    unfold dbyte in Hkz. apply bind_Some in Hkz as (s & Hs1 & Hx). destruct (Hd _ _ Hs1) as [_ Hf].
    unfold znth in Hx. destruct (_ <? 0); [done|]. by apply (Forall_lookup_1 _ _ _ _ Hf Hx). }
  assert (Hspl : zlen (splice b off src) = 512 * n) by (rewrite splice_length; lia).
  assert (Hmax : (lba + (n - 1) / 256 * 256 <=? max_lba) = true).
  { apply Z.leb_le. replace ((n - 1) / 256) with 0; [lia|]. destruct Hn as [-> | ->]; reflexivity. }
  exists b, (put_sectors d lba (Z.to_nat n) (splice b off src)).
  assert (Hw : disk_write d lba (splice b off src) n = Ok (put_sectors d lba (Z.to_nat n) (splice b off src))).
  { unfold disk_write, ASSERT. rewrite (proj2 (Z.leb_le lba max_lba)) by lia. rcbn.
    rewrite (proj2 (Z.ltb_lt 0 n)) by lia. rcbn. rewrite Hmax. rcbn. rewrite Hb.
    by rewrite (proj2 (Z.ltb_ge (zlen (splice b off src)) (n * 512))) by lia. }
  destruct (disk_write_wf d lba _ n _ Hd (splice_bytes b off src Hbb Hsrc) ltac:(lia) Hw) as (Hwf & _ & Hoth).
  split_and!; try done; try lia.
  - unfold disk_read, ASSERT. rewrite (proj2 (Z.leb_le lba max_lba)) by lia. rcbn.
    rewrite (proj2 (Z.ltb_lt 0 n)) by lia. rcbn. rewrite Hmax. rcbn. by rewrite Hb.
  - intros j Hj. apply (sectors_dbyte d lba (Z.to_nat n)); [done|done|lia].
  - apply dom_put_sectors. by eexists.
  - intros i. rewrite dbyte_put by lia.
    case_decide as Hin; [rewrite znth_splice by lia|]; repeat case_decide; try lia; try done; [f_equal; lia|].
    rewrite (sectors_dbyte d lba (Z.to_nat n)) by (done || lia). f_equal. lia.
Qed.

(** ** Position of a slot *)

Lemma inode_locate_ok tbl no : 0 <= no < 4096 -> 0 <= tbl -> tbl + 608 < 4294967296 ->
  exists pos, inode_locate tbl no = Ok pos /\
    512 * sec_lba pos + off_size pos = 512 * tbl + sizeof_inode * no /\
    0 <= off_size pos < 512 /\ tbl <= sec_lba pos /\
    off_size pos + sizeof_inode <= 512 * (if two_sec pos then 2 else 1) /\
    sec_lba pos + (if two_sec pos then 2 else 1) <= tbl + 608.
Proof.
  intros Hno Ht Htm. unfold inode_locate, ASSERT. rewrite (proj2 (Z.ltb_lt no 4096)) by lia. rcbn.
  unfold sizeof_inode. rewrite (u32_small (no * 76)) by lia.
  pose proof (Z.div_mod (no * 76) 512 ltac:(lia)). pose proof (Z.mod_pos_bound (no * 76) 512 ltac:(lia)).
  rewrite u32_small by lia. eexists. split; [done|]. cbn [sec_lba off_size two_sec].
  destruct (Z.ltb_spec (512 - (no * 76) mod 512) 76); lia.
Qed.

(** ** Operations *)

Definition pure_inode (i : inode) : inode := set_write_deny 0 (set_open_cnts 0 i).

Lemma pure_inode_wf i : inode_wf i -> inode_wf (pure_inode i).
Proof. intros [? ? ? ? ? ?]. split; simpl; try done; unfold is_u32; lia. Qed.

Section table.
Context {H : Type} `{HeapLaws H}.
Implicit Types s : fs H.

Definition TL (s : fs H) : Z := inode_table_lba (sb (part s)).

(** The mounted partition has a whole inode table. *)
Record table_geom (s : fs H) : Prop := {
  tg_disk : disk_wf (dsk s);
  tg_range : 0 <= TL s /\ TL s + 608 <= max_lba;
  tg_part : TL s + 608 <= start_lba (part s) + sec_cnt (part s) < 4294967296;
  tg_secs : forall l, TL s <= l < TL s + 608 -> is_Some (dsk s !! l)
}.

(** Disk [d'] is [d] with slot [no] of the table replaced by [i]. *)
Record slot_set (tbl : Z) (d d' : disk) (no : Z) (i : inode) : Prop := {
  ss_wf : disk_wf d';
  ss_dom : dom d' = dom d;
  ss_frame : forall l, ~ (tbl <= l < tbl + 608) -> d' !! l = d !! l;
  ss_this : disk_inode d' tbl no = i;
  ss_others : forall no', 0 <= no' < 4096 -> no' <> no -> disk_inode d' tbl no' = disk_inode d tbl no'
}.

Lemma wp_ide_rd s lba n b (Q : bytes -> fs H -> Prop) :
  disk_read (dsk s) lba n = Ok b -> Q b s -> wp (ide_rd lba n) Q s.
Proof. intros Hr HQ. unfold wp, ide_rd. by rewrite Hr. Qed.

Lemma wp_ide_wr s lba n b d' (Q : unit -> fs H -> Prop) :
  disk_write (dsk s) lba b n = Ok d' -> Q tt (set_dsk d' s) -> wp (ide_wr lba b n) Q s.
Proof. intros Hr HQ. unfold wp, ide_wr. by rewrite Hr. Qed.

(** The end of [inode_sync] and of [inode_delete]: the slot's sectors are
    read, its bytes replaced by [src], and written back. *)
Lemma put_slot_ok s no src : table_geom s -> 0 <= no < 4096 -> zlen src = sizeof_inode ->
  Forall is_byte src -> exists pos, inode_locate (TL s) no = Ok pos /\
    sec_lba pos <= start_lba (part s) + sec_cnt (part s) /\
    let n := if two_sec pos then 2 else 1 in
    wp (inode_buf ← ide_rd (sec_lba pos) n; ide_wr (sec_lba pos) (splice inode_buf (off_size pos) src) n)
       (λ _ s', exists d', s' = set_dsk d' s /\ slot_set (TL s) (dsk s) d' no (decode_inode src)) s.
Proof.
  intros [Hd Hr Hp Hs] Hno Hlen Hby. change max_lba with 163839 in Hr.
  destruct (inode_locate_ok (TL s) no) as (pos & Hpos & Heq & Hoff & Hlo & Hfit & Hhi); [done|lia|lia|].
  exists pos. split; [done|]. set (n := if two_sec pos then 2 else 1) in *.
  assert (Hn : n = 1 \/ n = 2) by (unfold n; destruct (two_sec pos); auto). clearbody n.
  split; [lia|]. change sizeof_inode with 76 in *.
  destruct (rmw_ok (dsk s) (sec_lba pos) n (off_size pos) src) as
    (b & d' & Hrd & Hwr & Hlb & Hbb & Hbd & Hwf & Hdom & Hfr & Hbytes); try done; try lia.
  { change max_lba with 163839. lia. }
  { intros l Hl. apply Hs. lia. }
  cbv zeta. apply wp_bind. eapply wp_ide_rd; [done|]. eapply wp_ide_wr; [done|].
  exists d'. split; [done|]. rewrite Heq in Hbytes. split; try done.
  - intros l Hl. apply Hfr. lia.
  - unfold disk_inode. change sizeof_inode with 76. f_equal. apply disk_bytes_eq; [done|]. intros k Hk.
    rewrite Hbytes. rewrite decide_True by lia. f_equal. lia.
  - intros no' Hno' Hne. unfold disk_inode. change sizeof_inode with 76. f_equal.
    apply disk_bytes_ext; [lia|]. intros k Hk. rewrite Hbytes. rewrite decide_False; [done|]. lia.
Qed.

Lemma inode_sync_ok s i : table_geom s -> inode_wf i ->
  wp (inode_sync i) (λ _ s', exists d', s' = set_dsk d' s /\
    slot_set (TL s) (dsk s) d' (u8 (i_no i)) (pure_inode i)) s.
Proof.
  intros Hs Hi. pose proof (pure_inode_wf i Hi) as Hpi. pose proof (u8_range (i_no i)).
  destruct (put_slot_ok s (u8 (i_no i)) (encode_inode (pure_inode i))) as (pos & Hpos & Hle & Hwp);
    [done|lia|by apply encode_inode_length|apply of_words_bytes|].
  pose proof (tg_part s Hs) as Hp. pose proof (tg_range s Hs).
  unfold inode_sync. apply wp_bind, wp_gets. apply wp_bind. eapply wp_lift; [exact Hpos|].
  apply wp_bind, wp_assert; [apply Z.leb_le; rewrite u32_small; lia|].
  rewrite (decode_encode_inode _ Hpi) in Hwp. apply Hwp.
Qed.

Lemma zero_inode : decode_inode (zeros sizeof_inode) = Inode 0 0 0 0 (replicate 13 0).
Proof. reflexivity. Qed.

Lemma inode_delete_ok s no : table_geom s -> 0 <= no < 4096 ->
  wp (inode_delete no) (λ _ s', exists d', s' = set_dsk d' s /\
    slot_set (TL s) (dsk s) d' no (Inode 0 0 0 0 (replicate 13 0))) s.
Proof.
  intros Hs Hno. destruct (put_slot_ok s no (zeros sizeof_inode)) as (pos & Hpos & Hle & Hwp);
    [done|done|reflexivity|apply zeros_bytes|].
  pose proof (tg_part s Hs) as Hp. pose proof (tg_range s Hs).
  unfold inode_delete. apply wp_bind, wp_assert; [apply Z.ltb_lt; lia|].
  apply wp_bind, wp_gets. apply wp_bind. eapply wp_lift; [exact Hpos|].
  apply wp_bind, wp_assert; [apply Z.leb_le; rewrite u32_small; lia|].
  rewrite <- zero_inode. apply Hwp.
Qed.

(** *** Opening *)

Lemma wp_sys_malloc s n (Q : Z -> fs H -> Prop) :
  (forall a h, h_malloc (pgdir (cur s) =? 0) n (heap s) = (a, h) -> Q a (set_heap h s)) ->
  wp (sys_malloc n) Q s.
Proof. intros HQ. unfold wp, sys_malloc. destruct (h_malloc _ _ _) as [a h] eqn:E. by apply HQ. Qed.

(** An allocation that succeeds: a new address. *)
Lemma malloc_new kern sz h n a h' : h_malloc kern sz h = (a, h') -> 0 < sz <= 4096 -> h_room h (S n) ->
  a <> 0 /\ ~ h_live h a /\ (forall x, h_live h' x <-> h_live h x \/ x = a) /\ h_room h' n.
Proof.
  intros Hm Hsz Hr. pose proof (malloc_live kern sz h) as Hl. pose proof (malloc_room kern sz h n Hsz Hr) as [Ha Hr'].
  rewrite Hm in Hl, Ha, Hr'. simpl in *. destruct Hl as [[? _]|(? & ? & ?)]; [done|]. by split_and!.
Qed.

Lemma wp_sys_free s a (Q : unit -> fs H -> Prop) : h_live (heap s) a ->
  (forall h, (forall x, h_live h x <-> h_live (heap s) x /\ x <> a) -> (forall n, h_room (heap s) n -> h_room h n) ->
    Q tt (set_heap h s)) -> wp (sys_free a) Q s.
Proof.
  intros Ha HQ. destruct (free_live (pgdir (cur s) =? 0) a (heap s) Ha) as (h & Hh & Hl & Hr).
  unfold wp, sys_free. rewrite Hh. by apply HQ.
Qed.

(** Two buffers taken from heap [h], which [h2] has besides. *)
Record two_bufs (h : H) (p1 p2 : Z) (h2 : H) : Prop := {
  tb_1 : p1 <> 0 /\ ~ h_live h p1;
  tb_2 : p2 <> 0 /\ ~ h_live h p2 /\ p2 <> p1;
  tb_live : forall x, h_live h2 x <-> h_live h x \/ x = p1 \/ x = p2;
  tb_room : forall n, h_room h (S (S n)) -> h_room h2 n
}.

Lemma two_bufs_ok k1 k2 (s1 s2 : Z) h p1 h1 p2 h2 : h_malloc k1 s1 h = (p1, h1) -> h_malloc k2 s2 h1 = (p2, h2) ->
  0 < s1 <= 4096 -> 0 < s2 <= 4096 -> h_room h 2 -> two_bufs h p1 p2 h2.
Proof.
  intros Hm1 Hm2 Hs1 Hs2 Hr.
  destruct (malloc_new _ _ _ 1 _ _ Hm1 Hs1 Hr) as (Hp1 & Hn1 & Hl1 & Hr1).
  destruct (malloc_new _ _ _ 0 _ _ Hm2 Hs2 Hr1) as (Hp2 & Hn2 & Hl2 & _).
  split; [done| | |].
  - split_and!; [done| |]; [intros Hx|intros ->]; apply Hn2, Hl1; auto.
  - intros x. rewrite Hl2, Hl1. tauto.
  - intros n Hn. apply (malloc_new _ _ _ n _ _ Hm2 Hs2), (malloc_new _ _ _ (S n) _ _ Hm1 Hs1 Hn).
Qed.

(** Both are given back, the second first. *)
Lemma wp_free_bufs {A} s h p1 p2 (r : A) (Q : A -> fs H -> Prop) : two_bufs h p1 p2 (heap s) ->
  (forall h', (forall x, h_live h' x <-> h_live h x) ->
    (forall n, h_room h (S (S n)) -> h_room h' n) -> Q r (set_heap h' s)) ->
  wp (sys_free p2;; sys_free p1;; mret r) Q s.
Proof.
  intros [[_ Hn1] (_ & Hn2 & Hne) Hl Hr] HQ.
  apply wp_bind, wp_sys_free; [apply Hl; auto|]. intros h3 Hl3 Hr3.
  apply wp_bind, wp_sys_free; [apply Hl3; rewrite Hl; auto|]. intros h4 Hl4 Hr4. apply wp_ret.
  apply (HQ h4); [|by intros n Hn; apply Hr4, Hr3, Hr]. intros x. rewrite Hl4. cbn. rewrite Hl3, Hl. split; [naive_solver|]. intros Hx. split_and!; [tauto|..]; by intros ->.
Qed.

(** The parts of the state an open leaves alone. *)
Definition same_volume (s s' : fs H) : Prop :=
  dsk s' = dsk s /\ part s' = part s /\ cur s' = cur s /\ file_table s' = file_table s /\
  dirs s' = dirs s /\ fcpu s' = fcpu s /\ klog s' = klog s.

Lemma slot_read s no : table_geom s -> 0 <= no < 4096 -> exists pos b,
  inode_locate (TL s) no = Ok pos /\
  disk_read (dsk s) (sec_lba pos) (if two_sec pos then 2 else 1) = Ok b /\
  decode_inode (slice b (off_size pos) sizeof_inode) = disk_inode (dsk s) (TL s) no.
Proof.
  intros [Hd Hr Hp Hs] Hno. change max_lba with 163839 in Hr.
  destruct (inode_locate_ok (TL s) no) as (pos & Hpos & Heq & Hoff & Hlo & Hfit & Hhi); [done|lia|lia|].
  remember (if two_sec pos then 2 else 1) as n eqn:En. change sizeof_inode with 76 in *.
  assert (Hn : n = 1 \/ n = 2) by (subst n; destruct (two_sec pos); auto).
  destruct (rmw_ok (dsk s) (sec_lba pos) n 0 []) as
    (b & _ & Hrd & _ & Hlb & _ & Hbd & _); try done; try (change (zlen []) with 0; lia).
  { change max_lba with 163839. lia. }
  { intros l Hl. apply Hs. lia. }
  exists pos, b. rewrite <- En. split_and!; [done|done|]. unfold disk_inode. change sizeof_inode with 76. f_equal.
  assert (Hsl : zlen (slice b (off_size pos) 76) = 76) by (apply slice_length; lia).
  symmetry. apply disk_bytes_eq; [done|]. intros k Hk.
  rewrite znth_slice by lia. rewrite Hbd by lia. f_equal. lia.
Qed.

Lemma inode_open_new s no : table_geom s -> 0 <= no < 4096 ->
  find_open (inodes s) (open_inodes s) no = Ok None -> h_room (heap s) 2 ->
  wp (inode_open no) (λ a s', same_volume s s' /\ a <> 0 /\ ~ h_live (heap s) a /\
    inodes s' = <[a := set_open_cnts 1 (disk_inode (dsk s) (TL s) no)]> (inodes s) /\
    open_inodes s' = a :: open_inodes s /\ forall x, h_live (heap s') x <-> h_live (heap s) x \/ x = a) s.
Proof.
  intros Hs Hno Hf Hr. destruct (slot_read s no Hs Hno) as (pos & b & Hpos & Hrd & Hdec).
  unfold inode_open. apply wp_bind, wp_get. apply wp_bind. eapply wp_lift; [exact Hf|].
  apply wp_bind. eapply wp_lift; [exact Hpos|]. cbv zeta.
  apply wp_bind. unfold with_kernel_heap. apply wp_bind, wp_gets. apply wp_bind, wp_modify.
  apply wp_bind, wp_sys_malloc. intros a h1 Hm1. cbn in Hm1.
  destruct (malloc_new _ _ _ 1 _ _ Hm1) as (Ha & Hna & Hl1 & Hr1); [done|done|].
  apply wp_bind, wp_modify, wp_ret. apply wp_bind, wp_sys_malloc. intros a2 h2 Hm2. cbn in Hm2.
  destruct (malloc_new _ _ _ 0 _ _ Hm2) as (Ha2 & Hna2 & Hl2 & _); [destruct (two_sec pos); lia|done|].
  apply wp_bind. eapply wp_ide_rd; [exact Hrd|].
  apply wp_bind. rewrite (proj2 (Z.eqb_neq a2 0)) by done. apply wp_ret.
  apply wp_bind, wp_assert; [by apply negb_true_iff, Z.eqb_neq|].
  apply wp_bind, wp_modify. apply wp_bind, wp_modify. apply wp_bind.
  unfold upd_inode, wp. cbn [set_open set_inodes inodes set_heap set_cur cur heap open_inodes].
  rewrite lookup_insert_eq. rewrite insert_insert_eq. apply (wp_bind (sys_free a2)).
  apply wp_sys_free; [apply Hl2; by right|]. intros h3 Hl3 _. apply wp_ret. cbn.
  split_and!; try done.
  - split_and!; try done. cbn. by destruct (cur s).
  - by rewrite Hdec.
  - intros x. rewrite Hl3. cbn. rewrite Hl2, Hl1. cbn. split; [naive_solver|].
    intros Hx. split; [tauto|]. intros ->. apply Hna2, Hl1. done.
Qed.

(** C36: an inode survives the disk.  [inode_sync] followed by [inode_open] of
    an inode that is not open gives the same size, blocks and number back,
    opened once and with no writer, for inode numbers below 256. *)
Theorem inode_sync_open_roundtrip s i : table_geom s -> inode_wf i -> i_no i < 256 ->
  find_open (inodes s) (open_inodes s) (i_no i) = Ok None -> h_room (heap s) 2 ->
  exists a s', (inode_sync i;; inode_open (i_no i)) s = Ok (a, s') /\
    inodes s' !! a = Some (set_write_deny 0 (set_open_cnts 1 i)) /\
    forall x j, x <> a -> inodes s !! x = Some j -> inodes s' !! x = Some j.
Proof.
  intros Hs Hi Hno Hf Hr. apply wp_run. apply wp_bind. eapply wp_mono; [by apply inode_sync_ok|].
  intros _ s1 (d' & -> & Hset). pose proof (iw_no i Hi) as Hn0. unfold is_u32 in Hn0.
  rewrite u8_small in Hset by lia.
  assert (Hs' : table_geom (set_dsk d' s)).
  { destruct Hs as [? ? ? Hsec]. split; try done; [apply (ss_wf _ _ _ _ _ Hset)|].
    intros l Hl. apply elem_of_dom. cbn. rewrite (ss_dom _ _ _ _ _ Hset). apply elem_of_dom. by apply Hsec. }
  eapply wp_mono; [by apply (inode_open_new (set_dsk d' s) (i_no i)); [done|lia| |]|].
  intros a s2 (_ & _ & _ & Hin & _). rewrite Hin. cbn [dsk set_dsk inodes].
  change (TL (set_dsk d' s)) with (TL s). rewrite (ss_this _ _ _ _ _ Hset). split.
  - by rewrite lookup_insert_eq.
  - intros x j Hx Hj. by rewrite lookup_insert_ne.
Qed.

(** C0: [inode_sync] keeps the inode number in a [uint8_t].  For an inode
    number from 256 on it stores the inode into slot [i_no mod 256] and
    leaves the inode's own slot as it was. *)
Theorem inode_sync_wrong_slot s i : table_geom s -> inode_wf i -> 256 <= i_no i < 4096 ->
  exists d', inode_sync i s = Ok (tt, set_dsk d' s) /\
    disk_inode d' (TL s) (i_no i mod 256) = pure_inode i /\
    disk_inode d' (TL s) (i_no i) = disk_inode (dsk s) (TL s) (i_no i).
Proof.
  intros Hs Hi Hno. pose proof (inode_sync_ok s i Hs Hi) as Hwp. apply wp_run in Hwp as ([] & s' & Hrun & d' & -> & Hset).
  exists d'. split; [done|]. destruct Hset as [_ _ _ Hthis Hoth]. split; [done|].
  apply Hoth; [lia|]. pose proof (u8_range (i_no i)). unfold u8 in *. lia.
Qed.
End table.

(** ** An example state

    A partition of 720 sectors: block bitmap in sector 10, inode table from
    sector 12, data from sector 620 on, of which block 0 is taken, block 1
    holds the two bytes of a file, and 95 blocks are there at all. *)

Definition demo_dsk : disk := <[621 := [104; 105] ++ zeros 510]> (list_to_map (map (λ k, (k, zeros 512)) (seqZ 0 720))).

Definition demo_sb : super_block := SuperBlock 0x19590318 720 4096 0 10 1 11 1 12 608 620 0 24.
Definition demo_bbmp : bitmap := Bitmap 512 ([3] ++ replicate 11 0 ++ replicate 500 255).
Definition demo_ino1 : inode := Inode 1 2 1 1 (621 :: replicate 12 0).
Definition demo_ino2 : inode := Inode 2 0 1 0 (replicate 13 0).
Definition demo_task : task_struct :=
  Task 0xc0100000 1 TASK_RUNNING [] 31 31 0 ([0; 1; 2; 3] ++ replicate 4 (-1)) 0
    (VirtualAddr (Bitmap 0 []) 0) 0 0 0 STACK_MAGIC.

Definition demo_fs : fs (gset Z) :=
  Fs _ demo_dsk (Partition 0 720 demo_sb demo_bbmp (Bitmap 512 (7 :: zeros 511)))
    [100; 200] (<[100 := demo_ino1]> (<[200 := demo_ino2]> ∅)) ∅
    ([File 0 0 0; File 0 0 0; File 0 0 0; File 0 2 100; File 0 0 200] ++ replicate 27 (File 0 0 0))
    demo_task (Cpu 2) {[100; 200]} [].

Lemma demo_lookup l : demo_dsk !! l =
  if decide (l = 621) then Some ([104; 105] ++ zeros 510)
  else if decide (0 <= l < 720) then Some (zeros 512) else None.
Proof.
  unfold demo_dsk. rewrite lookup_insert. destruct (decide (621 = l)) as [<-|]; [by rewrite decide_True|].
  rewrite decide_False by done. set (l0 := map _ _). destruct (decide (0 <= l < 720)) as [Hl|Hl].
  - apply elem_of_list_to_map_1.
    + replace (l0.*1) with (seqZ 0 720) by (vm_compute; reflexivity). apply NoDup_seqZ.
    + unfold l0. apply list_elem_of_fmap. exists l. split; [done|]. apply elem_of_seqZ. lia.
  - apply not_elem_of_list_to_map_1. unfold l0. intros (y & -> & Hy)%list_elem_of_fmap.
    apply list_elem_of_fmap in Hy as (k & -> & Hk%elem_of_seqZ). simpl in Hl. lia.
Qed.

Lemma demo_sector l : 0 <= l < 720 -> is_Some (demo_dsk !! l).
Proof. intros Hl. rewrite demo_lookup. repeat case_decide; try done; eexists; reflexivity. Qed.

Lemma demo_dsk_wf : disk_wf demo_dsk.
Proof.
  intros l s. rewrite demo_lookup. repeat case_decide; intros [= <-]; (split; [reflexivity|]).
  - constructor; [|constructor; [|apply zeros_bytes]]; unfold is_byte; lia.
  - apply zeros_bytes.
Qed.

Lemma demo_table_geom : table_geom demo_fs.
Proof.
  split; [apply demo_dsk_wf|split; vm_compute; congruence|split; vm_compute; congruence|].
  intros l Hl. apply demo_sector. unfold TL in Hl. cbn in Hl. lia.
Qed.

Lemma inode_sync_open_roundtrip_witness :
  exists a s', (inode_sync (Inode 9 700 3 1 (replicate 13 5));; inode_open 9) demo_fs = Ok (a, s') /\
    inodes s' !! a = Some (Inode 9 700 1 0 (replicate 13 5)).
Proof.
  destruct (inode_sync_open_roundtrip demo_fs (Inode 9 700 3 1 (replicate 13 5))) as (a & s' & Hr & Hi & _);
    [apply demo_table_geom|split; try (unfold is_u32; simpl; lia); repeat constructor; unfold is_u32; lia
    |simpl; lia|reflexivity|done|].
  exists a, s'. split; [exact Hr|exact Hi].
Defined.

Lemma inode_sync_wrong_slot_witness :
  exists d', inode_sync (Inode 258 0 1 0 (replicate 13 0)) demo_fs = Ok (tt, set_dsk d' demo_fs) /\
    i_no (disk_inode d' 12 2) = 258.
Proof.
  destruct (inode_sync_wrong_slot demo_fs (Inode 258 0 1 0 (replicate 13 0))) as (d' & Hr & Hs & _);
    [apply demo_table_geom|split; try (unfold is_u32; simpl; lia); repeat constructor; unfold is_u32; lia
    |simpl; lia|].
  exists d'. split; [exact Hr|]. change 2 with (258 mod 256). change 12 with (TL demo_fs).
  cbn [i_no] in Hs. rewrite Hs. reflexivity.
Defined.
