(* ===== verification/Disks.v ===== *)
(** device/ide.c: [ide_init] and the scan for partitions.

    The channels are those of Ide.v, each with its controller, and what is
    read comes through the driver.  A partition is named by its disk (channel
    and device number) and its place in the disk's arrays: 0 to 3 in
    [prim_parts], 4 to 11 in [logic_parts]. *)

From S2P Require Import Prelude Bitmap Bytes CString Stdio Irq Thread Sync Ide Layout Inode.

Open Scope Z_scope.

(** ** Boot sectors *)

Record partition_table_entry := PTE {
  bootable : Z; start_head : Z; start_sec : Z; start_chs : Z;
  fs_type : Z; end_head : Z; end_sec : Z; end_chs : Z;
  pe_start_lba : Z; pe_sec_cnt : Z
}.
Definition sizeof_boot_sector : Z := 512.

Definition table_entry (bs : bytes) (k : Z) : partition_table_entry :=
  let p := 446 + 16 * k in
  let b i := default 0 (znth bs (p + i)) in
  PTE (b 0) (b 1) (b 2) (b 3) (b 4) (b 5) (b 6) (b 7) (word_at bs (p + 8)) (word_at bs (p + 12)).
Definition partition_table (bs : bytes) : list partition_table_entry := map (table_entry bs) [0; 1; 2; 3].

(** ** Disks *)

Abbreviation hd_id := (Z * Z)%type.
Abbreviation part_id := (Z * Z * Z)%type.

(** A [struct partition] before it is mounted; [my_disk] is in its name. *)
Record part_slot := Slot { ps_start : Z; ps_cnt : Z; ps_name : bytes }.

Record disks {H : Type} := Disks {
  chans : list ide;
  chan_names : gmap Z bytes;
  channel_cnt : Z;
  hd_names : gmap hd_id bytes;
  slots : gmap part_id part_slot;
  partition_list : list part_id;
  ext_lba_base : Z; p_no : Z; l_no : Z;
  d_irqs : itable;
  d_heap : H;
  d_out : bytes
}.
Global Arguments disks : clear implicits.

(** [list_traversal] *)
Fixpoint traverse {T A} (f : A -> M T bool) (l : list A) : M T unit :=
  match l with
  | [] => mret tt
  | x :: l => r ← f x; if r : bool then mret tt else traverse f l
  end.

Section disks.
Context {H : Type} `{Heap H}.
Implicit Types s : disks H.

Definition put_chans x s := Disks H x (chan_names s) (channel_cnt s) (hd_names s) (slots s) (partition_list s) (ext_lba_base s) (p_no s) (l_no s) (d_irqs s) (d_heap s) (d_out s).
Definition put_chan_names x s := Disks H (chans s) x (channel_cnt s) (hd_names s) (slots s) (partition_list s) (ext_lba_base s) (p_no s) (l_no s) (d_irqs s) (d_heap s) (d_out s).
Definition put_channel_cnt x s := Disks H (chans s) (chan_names s) x (hd_names s) (slots s) (partition_list s) (ext_lba_base s) (p_no s) (l_no s) (d_irqs s) (d_heap s) (d_out s).
Definition put_hd_names x s := Disks H (chans s) (chan_names s) (channel_cnt s) x (slots s) (partition_list s) (ext_lba_base s) (p_no s) (l_no s) (d_irqs s) (d_heap s) (d_out s).
Definition put_slots x s := Disks H (chans s) (chan_names s) (channel_cnt s) (hd_names s) x (partition_list s) (ext_lba_base s) (p_no s) (l_no s) (d_irqs s) (d_heap s) (d_out s).
Definition put_list x s := Disks H (chans s) (chan_names s) (channel_cnt s) (hd_names s) (slots s) x (ext_lba_base s) (p_no s) (l_no s) (d_irqs s) (d_heap s) (d_out s).
Definition put_base x s := Disks H (chans s) (chan_names s) (channel_cnt s) (hd_names s) (slots s) (partition_list s) x (p_no s) (l_no s) (d_irqs s) (d_heap s) (d_out s).
Definition put_nos p l s := Disks H (chans s) (chan_names s) (channel_cnt s) (hd_names s) (slots s) (partition_list s) (ext_lba_base s) p l (d_irqs s) (d_heap s) (d_out s).
Definition put_irqs x s := Disks H (chans s) (chan_names s) (channel_cnt s) (hd_names s) (slots s) (partition_list s) (ext_lba_base s) (p_no s) (l_no s) x (d_heap s) (d_out s).
Definition put_dheap x s := Disks H (chans s) (chan_names s) (channel_cnt s) (hd_names s) (slots s) (partition_list s) (ext_lba_base s) (p_no s) (l_no s) (d_irqs s) x (d_out s).
Definition put_out x s := Disks H (chans s) (chan_names s) (channel_cnt s) (hd_names s) (slots s) (partition_list s) (ext_lba_base s) (p_no s) (l_no s) (d_irqs s) (d_heap s) x.

(** There are two channels. *)
Definition on_chan {A} (channel_no : Z) (m : M ide A) : M (disks H) A := λ s,
  match znth (chans s) channel_no with
  | Some c => zoom (λ _, c) (λ c s, put_chans (zupd (chans s) channel_no c) s) m s
  | None => Fault
  end.

(** Disk initialisation runs in the main thread: the heap is the kernel's. *)
Definition d_malloc (size : Z) : M (disks H) Z := λ s,
  let '(a, h) := h_malloc true size (d_heap s) in Ok (a, put_dheap h s).
Definition d_free (a : Z) : M (disks H) unit := λ s, h ← h_free true a (d_heap s); Ok (tt, put_dheap h s).

Definition d_printk (format : string) (args : list arg) : M (disks H) unit :=
  out ← lift (Stdio.printk (bs format) args);
  modify (λ s, put_out (d_out s ++ out) s).

Definition hd_name (hd : hd_id) : M (disks H) bytes := gets (λ s, default (zeros 8) (hd_names s !! hd)).
Definition slot_at s (p : part_id) : part_slot := default (Slot 0 0 (zeros 8)) (slots s !! p).

(** ** identify_disk: what it prints *)

Definition print_disk_info (hd : hd_id) (d : disk_info) : M (disks H) unit :=
  nm ← hd_name hd;
  d_printk ("    disk %s info:" +:+ nl +:+ "     SN: %s" +:+ nl) [AStr nm; AStr (di_serial d)];;
  d_printk ("    MODULE: %s" +:+ nl) [AStr (di_model d)];;
  d_printk ("    SECTORS: %d" +:+ nl) [AInt (di_sectors d)];;
  d_printk ("    CAPACITY: %dMB" +:+ nl) [AInt (di_mb d)].

(** ** partition_scan *)

(** The five assignments of a partition found: its number is [number]. *)
Definition add_part (hd : hd_id) (idx number ext_lba : Z) (p : partition_table_entry) : M (disks H) unit :=
  nm ← hd_name hd;
  old ← gets (λ s, slot_at s (hd, idx));
  r ← lift (sprintf (ps_name old) (bs "%s%d") [AStr nm; AInt number]);
  modify (λ s, put_slots (<[(hd, idx) := Slot (u32 (ext_lba + pe_start_lba p)) (pe_sec_cnt p) (snd r)]> (slots s)) s);;
  modify (λ s, put_list (partition_list s ++ [(hd, idx)]) s).

(** The loop over the entries of one table; true: the function returns from
    within it.  [scan] is the recursive call. *)
Fixpoint scan_entries (scan : Z -> M (disks H) unit) (hd : hd_id) (ext_lba : Z) (l : list partition_table_entry) : M (disks H) bool :=
  match l with
  | [] => mret false
  | p :: l =>
      if fs_type p =? 0x5 then
        base ← gets ext_lba_base;
        (if negb (base =? 0) then scan (u32 (pe_start_lba p + base))
         else modify (put_base (s32 (pe_start_lba p)));; scan (pe_start_lba p));;
        scan_entries scan hd ext_lba l
      else if negb (fs_type p =? 0) then
        if ext_lba =? 0 then
          n ← gets p_no;
          (if n <? 4 then mret tt else faultM);;
          add_part hd n (n + 1) ext_lba p;;
          modify (λ s, put_nos (u8 (p_no s + 1)) (l_no s) s);;
          n ← gets p_no;
          assertM (n <? 4) "p_no < 4";;
          scan_entries scan hd ext_lba l
        else
          n ← gets l_no;
          (if n <? 8 then mret tt else faultM);;
          add_part hd (4 + n) (n + 5) ext_lba p;;
          modify (λ s, put_nos (p_no s) (u8 (l_no s + 1)) s);;
          n ← gets l_no;
          if 8 <=? n then mret true else scan_entries scan hd ext_lba l
      else scan_entries scan hd ext_lba l
  end.

(** The depth of the recursion is that of the chain of boot sectors: nothing
    bounds it. *)
Fixpoint partition_scan (fuel : nat) (hd : hd_id) (ext_lba : Z) : M (disks H) unit :=
  match fuel with
  | O => λ _, NoFuel
  | S fuel =>
      bs ← d_malloc sizeof_boot_sector;
      (if bs =? 0 then faultM else mret tt);;
      b ← on_chan (fst hd) (ide_read (snd hd) ext_lba 1);
      done ← scan_entries (partition_scan fuel hd) hd ext_lba (partition_table b);
      if done : bool then mret tt else d_free bs
  end.

Definition partition_info (p : part_id) : M (disks H) bool :=
  part ← gets (λ s, slot_at s p);
  d_printk ("    %s start_lba:0x%x, sec_cnt:0x%x" +:+ nl) [AStr (ps_name part); AInt (ps_start part); AInt (ps_cnt part)];;
  mret false.

(** ** ide_init *)

(** The channel before its disks are looked at. *)
Definition init_channel (channel_no intr_hd_handler : Z) : M (disks H) unit :=
  _ ← on_chan channel_no get;
  nm ← gets (λ s, default (zeros 8) (chan_names s !! channel_no));
  r ← lift (sprintf nm (bs "ide%d") [AInt channel_no]);
  modify (λ s, put_chan_names (<[channel_no := snd r]> (chan_names s)) s);;
  on_chan channel_no (set_ch (λ c,
    let '(port, irq) := if channel_no =? 0 then (0x1f0, 0x20 + 14)
                        else if channel_no =? 1 then (0x170, 0x20 + 15) else (port_base c, irq_no c) in
    Channel port irq lock_init false (sema_init 0)));;
  c ← on_chan channel_no (gets ch);
  zoom d_irqs put_irqs (register_handler (irq_no c) intr_hd_handler).

(** One disk; [fuel] is the depth of the scan. *)
Definition init_disk (fuel : nat) (channel_no dev_no : Z) : M (disks H) unit :=
  let hd := (channel_no, dev_no) in
  nm ← hd_name hd;
  r ← lift (sprintf nm (bs "sd%c") [AInt (97 + channel_no * 2 + dev_no)]);
  modify (λ s, put_hd_names (<[hd := snd r]> (hd_names s)) s);;
  d ← on_chan channel_no (identify_disk dev_no);
  print_disk_info hd d;;
  (if negb (dev_no =? 0) then partition_scan fuel hd 0 else mret tt);;
  modify (put_nos 0 0).

Fixpoint init_channels (n fuel : nat) (channel_no intr_hd_handler : Z) : M (disks H) unit :=
  match n with
  | O => mret tt
  | S n =>
      init_channel channel_no intr_hd_handler;;
      init_disk fuel channel_no 0;;
      init_disk fuel channel_no 1;;
      init_channels n fuel (u8 (channel_no + 1)) intr_hd_handler
  end.

Definition ide_init (fuel : nat) (hd_cnt intr_hd_handler : Z) : M (disks H) unit :=
  d_printk ("ide_init start" +:+ nl) [];;
  assertM (0 <? hd_cnt) "hd_cnt > 0";;
  modify (put_list []);;
  modify (put_channel_cnt (u8 ((hd_cnt + 2 - 1) / 2)));;
  n ← gets channel_cnt;
  init_channels (Z.to_nat n) fuel 0 intr_hd_handler;;
  d_printk (nl +:+ "  all partition info" +:+ nl) [];;
  l ← gets partition_list;
  traverse partition_info l;;
  d_printk ("ide_init done" +:+ nl) [].
End disks.
