(* ===== verification/DisksSpec.v ===== *)
(** The scan for partitions finds what the boot sectors of a disk say. *)

From S2P Require Import Prelude Bitmap Bytes CString Stdio Irq Thread Sync Ide Layout Inode InodeSpec Disks.

Open Scope Z_scope.

(** ** Partitioned disks *)

Definition used (p : partition_table_entry) : Prop := fs_type p <> 0 /\ fs_type p <> 5.
Definition blank (p : partition_table_entry) : Prop := fs_type p = 0.
Definition table_at (d : disk) (lba : Z) (t : list partition_table_entry) : Prop :=
  exists b, d !! lba = Some b /\ 0 <= lba <= max_lba /\ partition_table b = t.

(** The boot sectors of the logical partitions: each has its partition,
    relative to itself, and perhaps a link to the next one, relative to the
    start [base] of the extended partition. *)
Inductive chain (d : disk) (base : Z) : Z -> list (Z * Z) -> Prop :=
| chain_end lba p r : lba <> 0 -> table_at d lba (p :: r) -> used p -> Forall blank r -> is_u32 (lba + pe_start_lba p) ->
    chain d base lba [(lba + pe_start_lba p, pe_sec_cnt p)]
| chain_link lba p q r logs : lba <> 0 -> table_at d lba (p :: q :: r) -> used p -> fs_type q = 5 -> Forall blank r ->
    is_u32 (lba + pe_start_lba p) -> chain d base (pe_start_lba q + base) logs ->
    chain d base lba ((lba + pe_start_lba p, pe_sec_cnt p) :: logs).

Lemma chain_lba d base lba logs : chain d base lba logs -> lba <> 0 /\ 0 <= lba <= max_lba /\ (0 < length logs)%nat.
Proof. intros [? ? ? ? (? & _ & ? & _)|? ? ? ? ? ? (? & _ & ? & _)]; (split; [done|]); (split; [done|]); simpl; lia. Qed.

(** "sd", a letter and the number of the partition. *)
Definition hd_text (x : Z) : bytes := [115; 100; x; 0; 0; 0; 0; 0].
Definition part_name (x n : Z) : bytes :=
  [115; 100; x] ++ (if n <? 10 then [48 + n; 0; 0; 0; 0] else [49; 38 + n; 0; 0; 0]).

Lemma part_name_ok x n : 97 <= x <= 100 -> 1 <= n <= 12 ->
  exists r, sprintf (zeros 8) (bs "%s%d") [AStr (hd_text x); AInt n] = Ok (r, part_name x n).
Proof.
  intros Hx Hn. assert (Hc : x = 97 \/ x = 98 \/ x = 99 \/ x = 100) by lia.
  assert (Hm : exists m, (m < 12)%nat /\ n = Z.of_nat m + 1) by (exists (Z.to_nat (n - 1)); lia). destruct Hm as (m & Hm & ->).
  destruct Hc as [->|[->|[->| ->]]]; do 12 (destruct m as [|m]; [eexists; vm_compute; reflexivity|]); lia.
Qed.

(** ** The scan *)

Section scan.
Context {H : Type} `{HeapLaws H} (c dv x : Z) (d : disk) (D : list disk).
Context (Hdv : dv = 0 \/ dv = 1) (Hx : 97 <= x <= 100) (HD : znth D dv = Some d) (Hd : disk_wf d).
Abbreviation hd := (c, dv).
Implicit Types s : disks H.

(** The driver can read the disk. *)
Record ready s : Prop := {
  re_chan : exists i, znth (chans s) c = Some i /\ ide_ready i /\ drives (dev i) = D;
  re_name : hd_names s !! hd = Some (hd_text x)
}.

Definition put_parts (new : list (Z * part_slot)) (m : gmap part_id part_slot) : gmap part_id part_slot :=
  foldl (λ m y, <[(hd, fst y) := snd y]> m) m new.

(** From [s] to [s'] the partitions [new] have been found; nothing is said of
    the heap and the counters. *)
Record found s s' (new : list (Z * part_slot)) : Prop := {
  fo_ready : ready s';
  fo_slots : slots s' = put_parts new (slots s);
  fo_list : partition_list s' = partition_list s ++ map (λ y, (hd, fst y)) new;
  fo_rest : d_out s' = d_out s /\ d_irqs s' = d_irqs s /\ channel_cnt s' = channel_cnt s /\ chan_names s' = chan_names s
}.
Definition same_live (h h' : H) : Prop := forall a, h_live h' a <-> h_live h a.
Definition same_nos s s' : Prop := ext_lba_base s' = ext_lba_base s /\ p_no s' = p_no s /\ l_no s' = l_no s.

Lemma found_refl s : ready s -> found s s [].
Proof. intros Hr. split; try done. by rewrite app_nil_r. Qed.
Lemma found_trans s1 s2 s3 a b : found s1 s2 a -> found s2 s3 b -> found s1 s3 (a ++ b).
Proof.
  intros [_ S1 L1 (O1 & I1 & C1 & N1)] [R2 S2 L2 (O2 & I2 & C2 & N2)]. split; [done| | |split_and!; congruence].
  - rewrite S2, S1. unfold put_parts. by rewrite foldl_app.
  - by rewrite L2, L1, map_app, app_assoc.
Qed.

(** A change of the heap or the counters is not seen. *)
Definition same_disk s s' : Prop := exists h b p l, s' = put_nos p l (put_base b (put_dheap h s)).
Lemma found_step s s1 s2 new : found s s1 new -> same_disk s1 s2 -> found s s2 new.
Proof. intros [[R1 R2] S1 L1 X1] (h & b & p & l & ->). by split. Qed.

Lemma read_table s lba t : ready s -> table_at d lba t ->
  wp (on_chan c (ide_read dv lba 1)) (λ b s', partition_table b = t /\ found s s' [] /\ d_heap s' = d_heap s /\ same_nos s s') s.
Proof.
  intros [(i & Hi & Hr & Hdr) Hn] (b & Hb & Hlba & Ht). unfold on_chan, wp. rewrite Hi.
  assert (Hrd : disk_read d lba 1 = Ok b).
  { unfold disk_read, ASSERT. rewrite (proj2 (Z.leb_le lba max_lba)) by lia. change (0 <? 1) with true.
    change ((1 - 1) / 256 * 256) with 0. rewrite Z.add_0_r, (proj2 (Z.leb_le lba max_lba)) by lia.
    cbn [mbind res_bind]. change (Z.to_nat 1) with 1%nat. cbn [sectors]. rewrite Hb. cbn. by rewrite app_nil_r. }
  rewrite <- Hdr in HD. pose proof (ide_read_ok i dv d lba 1 b Hr Hdv HD Hd ltac:(lia) Hrd) as Hw.
  unfold zoom. unfold wp in Hw. destruct (ide_read dv lba 1 i) as [[r i']| | | |]; try done. destruct Hw as (-> & Hr' & Hdr').
  split; [done|]. split; [|done]. split; [split; [|done]|done|by rewrite app_nil_r|done].
  exists i'. split; [|split; [done|congruence]]. apply znth_upd_eq. by apply znth_lt in Hi.
Qed.

(** One table: the buffer comes and goes around its entries. *)
Lemma scan_frame fuel s lba t k (P : disks H -> Prop) : ready s -> table_at d lba t -> h_room (d_heap s) (S k) ->
  (forall h u, P u -> P (put_dheap h u)) ->
  (forall s1, found s s1 [] -> same_nos s s1 -> h_room (d_heap s1) k ->
    wp (scan_entries (partition_scan fuel hd) hd lba t)
      (λ r s2, r = false /\ P s2 /\ same_live (d_heap s1) (d_heap s2) /\ forall n, h_room (d_heap s1) (k + n) -> h_room (d_heap s2) n) s1) ->
  wp (partition_scan (S fuel) hd lba)
    (λ _ s', P s' /\ same_live (d_heap s) (d_heap s') /\ forall n, h_room (d_heap s) (S (k + n)) -> h_room (d_heap s') n) s.
Proof.
  intros Hr Ht Hroom HP Hbody. cbn [partition_scan]. apply wp_bind. unfold d_malloc, wp at 1.
  pose proof (malloc_live true sizeof_boot_sector (d_heap s)) as Hl.
  pose proof (fun n => malloc_room true sizeof_boot_sector (d_heap s) n ltac:(unfold sizeof_boot_sector; lia)) as Hm.
  destruct (h_malloc _ _ _) as [a h1]. cbn [fst snd] in Hm. destruct (Hm k Hroom) as [Ha Hk1].
  destruct Hl as [[? _]|(_ & Hnew & Hlive)]; [done|]. rewrite (proj2 (Z.eqb_neq a 0) Ha). apply wp_bind, wp_ret.
  set (s0 := put_dheap h1 s). assert (Hr0 : ready s0) by (by destruct Hr). apply wp_bind.
  eapply wp_mono; [by apply (read_table s0 lba t)|]. intros b s1 (-> & Hf & Hh & Hn).
  assert (Hf1 : found s s1 []).
  { destruct Hf as [R S1 L X]. by split. }
  apply wp_bind. eapply wp_mono; [apply (Hbody s1 Hf1 Hn); by rewrite Hh|]. intros r s2 (-> & HP2 & Hl2 & Hr2).
  rewrite Hh in Hl2, Hr2. cbn [d_heap s0 put_dheap] in Hl2, Hr2.
  destruct (free_live true a (d_heap s2)) as (h3 & Hfree & Hl3 & Hr3); [apply Hl2, Hlive; by right|].
  unfold d_free, wp. rewrite Hfree. cbn [mbind res_bind]. split; [by apply HP|]. cbn [d_heap put_dheap]. split.
  - intros y. rewrite Hl3, (Hl2 y), Hlive. split; [intros [[?|?] ?]; done|intros Hy; split; [by left|]]. intros ->. done.
  - intros n Hn'. apply Hr3, Hr2, Hm. exact Hn'.
Qed.

Lemma scan_unused fuel lba t s (Q : bool -> disks H -> Prop) : Forall blank t -> Q false s ->
  wp (scan_entries (partition_scan fuel hd) hd lba t) Q s.
Proof.
  intros Hb HQ. induction Hb as [|p t Hp _ IH]; [by apply wp_ret|]. cbn [scan_entries]. unfold blank in Hp. rewrite Hp.
  change (0 =? 5) with false. change (negb (0 =? 0)) with false. exact IH.
Qed.

Lemma add_part_ok s idx n ext p : ready s -> slots s !! (hd, idx) = None -> 1 <= n <= 12 -> is_u32 (ext + pe_start_lba p) ->
  wp (add_part hd idx n ext p)
    (λ _ s', found s s' [(idx, Slot (ext + pe_start_lba p) (pe_sec_cnt p) (part_name x n))] /\ d_heap s' = d_heap s /\ same_nos s s') s.
Proof.
  intros [Hr Hn] Hs Hno Hu. unfold add_part, hd_name. apply wp_bind, wp_gets.
  rewrite Hn. apply wp_bind, wp_gets.
  unfold slot_at. rewrite Hs. cbn [default from_option ps_name]. destruct (part_name_ok x n Hx Hno) as (r & Er). apply wp_bind. eapply wp_lift; [exact Er|].
  rewrite u32_small by exact Hu. apply wp_bind, wp_modify, wp_modify. split; [|done]. by split.
Qed.
Lemma put_parts_other new m idx : (idx ∉ map fst new) -> put_parts new m !! (hd, idx) = m !! (hd, idx).
Proof.
  revert m. induction new as [|[j y] new IH]; intros m Hn; [done|]. cbn [map fst] in Hn. apply not_elem_of_cons in Hn as [Hj Hn].
  unfold put_parts in *. cbn [foldl]. rewrite IH by done. rewrite lookup_insert_ne; [done|]. intros [= ->]. done.
Qed.

Lemma used_tests p : used p -> (fs_type p =? 5) = false /\ (fs_type p =? 0) = false.
Proof. intros [? ?]. split; by apply Z.eqb_neq. Qed.

(** A primary and a logical partition. *)
Lemma scan_primary fuel s p t (Q : bool -> disks H -> Prop) : ready s -> used p -> 0 <= p_no s < 3 -> slots s !! (hd, p_no s) = None ->
  is_u32 (pe_start_lba p) ->
  (forall s', found s s' [(p_no s, Slot (pe_start_lba p) (pe_sec_cnt p) (part_name x (p_no s + 1)))] -> d_heap s' = d_heap s ->
    ext_lba_base s' = ext_lba_base s -> p_no s' = p_no s + 1 -> l_no s' = l_no s ->
    wp (scan_entries (partition_scan fuel hd) hd 0 t) Q s') ->
  wp (scan_entries (partition_scan fuel hd) hd 0 (p :: t)) Q s.
Proof.
  intros Hr Hp Hn Hs Hu HQ. destruct (used_tests p Hp) as [E5 E0]. cbn [scan_entries]. rewrite E5, E0. change (0 =? 0) with true. cbn [negb].
  apply wp_bind, wp_gets. rewrite (proj2 (Z.ltb_lt (p_no s) 4)) by lia. apply wp_bind, wp_ret, wp_bind.
  eapply wp_mono; [apply (add_part_ok s (p_no s) (p_no s + 1) 0 p Hr Hs); [lia|exact Hu]|].
  intros _ s1 (Hf & Hh & (B1 & P1 & L1)). rewrite Z.add_0_l in Hf. apply wp_bind, wp_modify, wp_bind, wp_gets. cbn [p_no put_nos].
  rewrite P1, u8_small by lia. rewrite (proj2 (Z.ltb_lt (p_no s + 1) 4)) by lia. apply wp_bind, wp_assert; [done|].
  apply HQ; try done. eapply found_step; [exact Hf|]. exists (d_heap s1), (ext_lba_base s1), (p_no s + 1), (l_no s1). by destruct s1.
Qed.

Lemma scan_logical fuel s lba p t (Q : bool -> disks H -> Prop) : lba <> 0 -> ready s -> used p -> 0 <= l_no s < 7 ->
  slots s !! (hd, 4 + l_no s) = None -> is_u32 (lba + pe_start_lba p) ->
  (forall s', found s s' [(4 + l_no s, Slot (lba + pe_start_lba p) (pe_sec_cnt p) (part_name x (l_no s + 5)))] -> d_heap s' = d_heap s ->
    ext_lba_base s' = ext_lba_base s -> p_no s' = p_no s -> l_no s' = l_no s + 1 ->
    wp (scan_entries (partition_scan fuel hd) hd lba t) Q s') ->
  wp (scan_entries (partition_scan fuel hd) hd lba (p :: t)) Q s.
Proof.
  intros Hlba Hr Hp Hn Hs Hu HQ. destruct (used_tests p Hp) as [E5 E0]. cbn [scan_entries]. rewrite E5, E0, (proj2 (Z.eqb_neq lba 0) Hlba). cbn [negb].
  apply wp_bind, wp_gets. rewrite (proj2 (Z.ltb_lt (l_no s) 8)) by lia. apply wp_bind, wp_ret, wp_bind.
  eapply wp_mono; [apply (add_part_ok s (4 + l_no s) (l_no s + 5) lba p Hr Hs); [lia|exact Hu]|].
  intros _ s1 (Hf & Hh & (B1 & P1 & L1)). apply wp_bind, wp_modify, wp_bind, wp_gets. cbn [l_no put_nos].
  rewrite L1, u8_small by lia. rewrite (proj2 (Z.leb_gt 8 (l_no s + 1))) by lia.
  apply HQ; try done. eapply found_step; [exact Hf|]. exists (d_heap s1), (ext_lba_base s1), (p_no s1), (l_no s + 1). by destruct s1.
Qed.

Fixpoint logic (k : Z) (logs : list (Z * Z)) : list (Z * part_slot) :=
  match logs with [] => [] | y :: logs => (4 + k, Slot (fst y) (snd y) (part_name x (k + 5))) :: logic (k + 1) logs end.
Fixpoint primary (k : Z) (ps : list partition_table_entry) : list (Z * part_slot) :=
  match ps with [] => [] | p :: ps => (k, Slot (pe_start_lba p) (pe_sec_cnt p) (part_name x (k + 1))) :: primary (k + 1) ps end.

Lemma scan_chain base lba logs : chain d base lba logs -> 0 < base -> forall fuel s, (length logs <= fuel)%nat -> ready s ->
  ext_lba_base s = base -> 0 <= l_no s -> l_no s + zlen logs <= 7 -> (forall j, l_no s <= j -> slots s !! (hd, 4 + j) = None) ->
  h_room (d_heap s) (length logs) ->
  wp (partition_scan fuel hd lba) (λ _ s', (found s s' (logic (l_no s) logs) /\ ext_lba_base s' = base /\ p_no s' = p_no s) /\
    same_live (d_heap s) (d_heap s') /\ forall n, h_room (d_heap s) (length logs + n) -> h_room (d_heap s') n) s.
Proof.
  intros Hch Hb. induction Hch as [lba p r Hlba Ht Hp Hblank Hu|lba p q r logs Hlba Ht Hp Hq Hblank Hu Hch IH];
    intros fuel s Hf Hr Hbase Hl Hle Hfree Hroom; (destruct fuel as [|fuel]; [simpl in Hf; lia|]); unfold zlen in Hle; cbn [length] in *.
  - apply (scan_frame fuel s lba (p :: r) 0 (λ u, found s u _ /\ ext_lba_base u = base /\ p_no u = p_no s) Hr Ht Hroom).
    { intros h u (U1 & U2 & U3). split; [|done]. eapply found_step; [exact U1|]. exists h, (ext_lba_base u), (p_no u), (l_no u). by destruct u. }
    intros s1 Hf1 (B1 & P1 & L1) _. pose proof (fo_ready _ _ _ Hf1) as Hr1. pose proof (fo_slots _ _ _ Hf1) as Hs1. cbn in Hs1.
    apply scan_logical; try done; try lia; [rewrite Hs1; apply Hfree; lia|]. rewrite L1.
    intros s2 Hf2 Hh B2 P2 L2. apply scan_unused; [done|]. rewrite Hh. split; [done|]. split; [|done]. split; [|split; congruence].
    exact (found_trans _ _ _ _ _ Hf1 Hf2).
  - apply (scan_frame fuel s lba (p :: q :: r) (length logs) (λ u, found s u _ /\ ext_lba_base u = base /\ p_no u = p_no s) Hr Ht Hroom).
    { intros h u (U1 & U2 & U3). split; [|done]. eapply found_step; [exact U1|]. exists h, (ext_lba_base u), (p_no u), (l_no u). by destruct u. }
    intros s1 Hf1 (B1 & P1 & L1) Hroom1. pose proof (fo_ready _ _ _ Hf1) as Hr1. pose proof (fo_slots _ _ _ Hf1) as Hs1. cbn in Hs1.
    apply scan_logical; try done; try lia; [rewrite Hs1; apply Hfree; lia|]. rewrite L1.
    intros s2 Hf2 Hh B2 P2 L2. cbn [scan_entries]. rewrite Hq. change (5 =? 5) with true. cbv iota.
    apply wp_bind, wp_gets. rewrite B2, B1, Hbase. rewrite (proj2 (Z.eqb_neq base 0)) by lia. cbn [negb]. apply wp_bind.
    destruct (chain_lba _ _ _ _ Hch) as (Hn0 & Hnr & _). change max_lba with 163839 in Hnr. rewrite u32_small by lia.
    eapply wp_mono; [apply (IH fuel s2 ltac:(lia) (fo_ready _ _ _ Hf2)); rewrite ?L2, ?L1; try lia|].
    { unfold zlen. lia. }
    { intros j Hj. rewrite (fo_slots _ _ _ Hf2), put_parts_other, Hs1; [apply Hfree; lia|]. cbn. rewrite list_elem_of_singleton. lia. }
    { by rewrite Hh. }
    intros [] s3 ((Hf3 & B3 & P3) & Hl3 & Hr3). rewrite Hh in Hl3, Hr3. apply scan_unused; [done|]. split; [done|]. split; [|done].
    split; [|split; congruence]. rewrite L2 in Hf3. exact (found_trans _ _ _ _ _ Hf1 (found_trans _ _ _ _ _ Hf2 Hf3)).
Qed.
Lemma scan_primaries fuel ps t (Q : bool -> disks H -> Prop) : forall s, ready s -> Forall (λ p, used p /\ is_u32 (pe_start_lba p)) ps ->
  0 <= p_no s -> p_no s + zlen ps <= 3 -> (forall j, p_no s <= j -> slots s !! (hd, j) = None) ->
  (forall s', found s s' (primary (p_no s) ps) -> d_heap s' = d_heap s -> ext_lba_base s' = ext_lba_base s -> l_no s' = l_no s ->
    wp (scan_entries (partition_scan fuel hd) hd 0 t) Q s') ->
  wp (scan_entries (partition_scan fuel hd) hd 0 (ps ++ t)) Q s.
Proof.
  induction ps as [|p ps IH]; intros s Hr Hps Hn Hle Hfree HQ; [by apply HQ; [apply found_refl|..]|].
  apply Forall_cons in Hps as [[Hp Hu] Hps]. unfold zlen in *. cbn [length app] in *.
  apply scan_primary; try done; [lia|apply Hfree; lia|]. intros s1 Hf1 Hh1 B1 P1 L1.
  apply IH; [apply Hf1|done|lia|lia| |].
  - intros j Hj. rewrite (fo_slots _ _ _ Hf1), put_parts_other; [apply Hfree; lia|]. cbn. rewrite list_elem_of_singleton. lia.
  - intros s2 Hf2 Hh2 B2 L2. apply HQ; try congruence. rewrite P1 in Hf2. exact (found_trans _ _ _ _ _ Hf1 Hf2).
Qed.

Lemma put_parts_lookup new m j idx sl : NoDup (map fst new) -> new !! j = Some (idx, sl) -> put_parts new m !! (hd, idx) = Some sl.
Proof.
  revert m j. induction new as [|[i y] new IH]; intros m j Hnd Hj; [done|]. cbn [map fst] in Hnd. apply NoDup_cons in Hnd as [Hni Hnd].
  destruct j as [|j]; [injection Hj as -> ->|by eapply IH]. unfold put_parts. cbn [foldl fst snd]. fold (put_parts new (<[(hd, idx) := sl]> m)).
  rewrite put_parts_other by done. apply lookup_insert_eq.
Qed.
Lemma put_parts_elsewhere new m p : (p ∉ map (λ y, (hd, fst y)) new) -> put_parts new m !! p = m !! p.
Proof.
  revert m. induction new as [|[j y] new IH]; intros m Hn; [done|]. cbn [map fst] in Hn. apply not_elem_of_cons in Hn as [Hj Hn].
  unfold put_parts in *. cbn [foldl]. rewrite IH by done. by rewrite lookup_insert_ne.
Qed.

Lemma logic_lookup logs : forall k j y, logs !! j = Some y ->
  logic k logs !! j = Some (4 + (k + Z.of_nat j), Slot (fst y) (snd y) (part_name x (k + Z.of_nat j + 5))).
Proof.
  induction logs as [|z logs IH]; intros k j y Hj; [done|]. destruct j as [|j].
  - injection Hj as ->. cbn. by rewrite Z.add_0_r.
  - change (logic k (z :: logs) !! S j) with (logic (k + 1) logs !! j). rewrite (IH (k + 1) j y Hj). by replace (k + 1 + Z.of_nat j) with (k + Z.of_nat (S j)) by lia.
Qed.
Lemma primary_lookup ps : forall k j p, ps !! j = Some p ->
  primary k ps !! j = Some (k + Z.of_nat j, Slot (pe_start_lba p) (pe_sec_cnt p) (part_name x (k + Z.of_nat j + 1))).
Proof.
  induction ps as [|z ps IH]; intros k j p Hj; [done|]. destruct j as [|j].
  - injection Hj as ->. cbn. by rewrite Z.add_0_r.
  - change (primary k (z :: ps) !! S j) with (primary (k + 1) ps !! j). rewrite (IH (k + 1) j p Hj). by replace (k + 1 + Z.of_nat j) with (k + Z.of_nat (S j)) by lia.
Qed.
Lemma logic_ids logs : forall k, map fst (logic k logs) = seqZ (4 + k) (zlen logs).
Proof.
  induction logs as [|z logs IH]; intros k; [done|]. rewrite seqZ_cons by (unfold zlen; simpl; lia). cbn [logic map fst]. rewrite IH.
  unfold zlen. simpl. do 2 f_equal; lia.
Qed.
Lemma primary_ids ps : forall k, map fst (primary k ps) = seqZ k (zlen ps).
Proof.
  induction ps as [|z ps IH]; intros k; [done|]. rewrite seqZ_cons by (unfold zlen; simpl; lia). cbn [primary map fst]. rewrite IH.
  unfold zlen. simpl. do 2 f_equal; lia.
Qed.
End scan.

(** The boot sector of the disk: at most three primary partitions, then
    perhaps an extended one, at [base], with the logical partitions [logs]. *)
Inductive mbr (d : disk) (ps : list partition_table_entry) : Z -> list (Z * Z) -> Prop :=
| mbr_flat r : table_at d 0 (ps ++ r) -> Forall blank r -> mbr d ps 0 []
| mbr_ext p r logs : table_at d 0 (ps ++ p :: r) -> fs_type p = 5 -> Forall blank r ->
    chain d (pe_start_lba p) (pe_start_lba p) logs -> mbr d ps (pe_start_lba p) logs.

Lemma scan_mbr {H : Type} `{HeapLaws H} (s : disks H) c dv x d D ps base logs fuel :
  dv = 0 \/ dv = 1 -> 97 <= x <= 100 -> znth D dv = Some d -> disk_wf d -> ready c dv x D s ->
  (forall k, slots s !! (c, dv, k) = None) -> ext_lba_base s = 0 -> p_no s = 0 -> l_no s = 0 ->
  mbr d ps base logs -> Forall (λ p, used p /\ is_u32 (pe_start_lba p)) ps -> zlen ps <= 3 -> zlen logs <= 7 ->
  (length logs < S fuel)%nat -> h_room (d_heap s) (S (length logs)) ->
  wp (partition_scan (S fuel) (c, dv) 0) (λ _ s', (found c dv x D s s' (primary x 0 ps ++ logic x 0 logs) /\ ext_lba_base s' = base) /\
    same_live (d_heap s) (d_heap s') /\ forall n, h_room (d_heap s) (S (length logs + n)) -> h_room (d_heap s') n) s.
Proof.
  intros Hdv Hx HD Hwf Hr Hfree Hb0 Hp0 Hl0 Hm Hps Hps3 Hl7 Hfuel Hroom.
  assert (HP : forall (h : H) (u : disks H), found c dv x D s u (primary x 0 ps ++ logic x 0 logs) /\ ext_lba_base u = base ->
    found c dv x D s (put_dheap h u) (primary x 0 ps ++ logic x 0 logs) /\ ext_lba_base (put_dheap h u) = base).
  { intros h u [U1 U2]. split; [|done]. eapply found_step; [exact U1|]. exists h, (ext_lba_base u), (p_no u), (l_no u). by destruct u. }
  destruct Hm as [r Ht Hblank|p r logs Ht Hp Hblank Hch].
  - apply (scan_frame c dv x d D Hdv HD Hwf fuel s 0 _ 0 _ Hr Ht Hroom HP).
    intros s1 Hf1 (B1 & P1 & L1) _. apply (scan_primaries c dv x D Hx); try done; try lia; [apply Hf1|intros; by rewrite (fo_slots _ _ _ _ _ _ _ Hf1)|].
    rewrite P1, Hp0. intros s2 Hf2 Hh2 B2 L2. apply scan_unused; [done|]. rewrite Hh2. split; [done|]. split; [|done].
    split; [|congruence]. rewrite app_nil_r. exact (found_trans _ _ _ _ _ _ _ _ _ Hf1 Hf2).
  - destruct (chain_lba _ _ _ _ Hch) as (Hn0 & Hnr & Hlen). change max_lba with 163839 in Hnr.
    apply (scan_frame c dv x d D Hdv HD Hwf fuel s 0 _ (length logs) _ Hr Ht Hroom HP).
    intros s1 Hf1 (B1 & P1 & L1) Hroom1. apply (scan_primaries c dv x D Hx); try done; try lia; [apply Hf1|intros; by rewrite (fo_slots _ _ _ _ _ _ _ Hf1)|].
    rewrite P1, Hp0. intros s2 Hf2 Hh2 B2 L2. cbn [scan_entries]. rewrite Hp. change (5 =? 5) with true. cbv iota.
    apply wp_bind, wp_gets. rewrite B2, B1, Hb0. change (negb (0 =? 0)) with false. cbv iota. rewrite s32_small by lia.
    apply wp_bind, wp_bind, wp_modify. set (s3 := put_base _ s2).
    assert (Hf3 : found c dv x D s1 s3 (primary x 0 ps)).
    { eapply found_step; [exact Hf2|]. exists (d_heap s2), (pe_start_lba p), (p_no s2), (l_no s2). by destruct s2. }
    assert (El3 : l_no s3 = 0) by (change (l_no s3) with (l_no s2); congruence). change (d_heap s2) with (d_heap s3) in Hh2.
    eapply wp_mono; [apply (scan_chain c dv x d D Hdv Hx HD Hwf _ _ _ Hch ltac:(lia) fuel s3 ltac:(lia) (fo_ready _ _ _ _ _ _ _ Hf3)); rewrite ?El3; try done; try lia|].
    { intros j Hj. rewrite (fo_slots _ _ _ _ _ _ _ Hf3), put_parts_other; [by rewrite (fo_slots _ _ _ _ _ _ _ Hf1)|].
      rewrite primary_ids, elem_of_seqZ. lia. }
    { by rewrite Hh2. }
    intros [] s4 ((Hf4 & B4 & P4) & Hl4 & Hr4). rewrite Hh2 in Hl4, Hr4. apply scan_unused; [done|]. split; [done|]. split; [|done].
    split; [|done]. rewrite El3 in Hf4. exact (found_trans _ _ _ _ _ _ _ _ _ Hf1 (found_trans _ _ _ _ _ _ _ _ _ Hf3 Hf4)).
Qed.

(** C11: the partitions of a disk are found.  On a disk with at most three
    primary partitions and a chain of at most seven logical ones, the scan
    reads every boot sector through the driver and ends with exactly these
    partitions in the disk's arrays, at the sectors the tables say (a logical
    one relative to its own boot sector), named after the disk and numbered
    from 1 and from 5, and appended to the partition list in that order; the
    buffers are given back, the drives unchanged, and the start of the extended
    partition is left behind for the next disk. *)
Theorem partition_scan_finds {H : Type} `{HeapLaws H} (s : disks H) c dv x i d ps base logs fuel :
  znth (chans s) c = Some i -> ide_ready i -> dv = 0 \/ dv = 1 -> znth (drives (dev i)) dv = Some d -> disk_wf d ->
  97 <= x <= 100 -> hd_names s !! (c, dv) = Some (hd_text x) -> (forall k, slots s !! (c, dv, k) = None) ->
  ext_lba_base s = 0 -> p_no s = 0 -> l_no s = 0 ->
  mbr d ps base logs -> Forall (λ p, used p /\ is_u32 (pe_start_lba p)) ps -> zlen ps <= 3 -> zlen logs <= 7 ->
  (length logs < fuel)%nat -> h_room (d_heap s) (S (length logs)) ->
  let new := map (λ k, (c, dv, k)) (seqZ 0 (zlen ps) ++ seqZ 4 (zlen logs)) in
  exists s', partition_scan fuel (c, dv) 0 s = Ok (tt, s') /\
    partition_list s' = partition_list s ++ new /\
    (forall j p, ps !! j = Some p -> slots s' !! (c, dv, Z.of_nat j) =
      Some (Slot (pe_start_lba p) (pe_sec_cnt p) (part_name x (Z.of_nat j + 1)))) /\
    (forall j st n, logs !! j = Some (st, n) -> slots s' !! (c, dv, 4 + Z.of_nat j) =
      Some (Slot st n (part_name x (Z.of_nat j + 5)))) /\
    (forall p, (p ∉ new) -> slots s' !! p = slots s !! p) /\
    (forall a, h_live (d_heap s') a <-> h_live (d_heap s) a) /\
    (exists i', znth (chans s') c = Some i' /\ ide_ready i' /\ drives (dev i') = drives (dev i)) /\
    ext_lba_base s' = base.
Proof.
  intros Hi Hr Hdv Hd Hwf Hx Hn Hfree Hb0 Hp0 Hl0 Hm Hps Hps3 Hl7 Hfuel Hroom new.
  set (D := drives (dev i)) in *. assert (Hready : ready c dv x D s) by (split; [by exists i|done]).
  set (found_new := primary x 0 ps ++ logic x 0 logs).
  assert (Hids : map fst found_new = seqZ 0 (zlen ps) ++ seqZ 4 (zlen logs)).
  { unfold found_new. by rewrite map_app, primary_ids, logic_ids. }
  assert (Hnew : map (λ y, (c, dv, fst y)) found_new = new) by (unfold new; by rewrite <- Hids, map_map).
  assert (Hw : wp (partition_scan fuel (c, dv) 0) (λ _ s', (found c dv x D s s' found_new /\ ext_lba_base s' = base) /\
    same_live (d_heap s) (d_heap s') /\ forall n, h_room (d_heap s) (S (length logs + n)) -> h_room (d_heap s') n) s).
  { destruct fuel as [|fuel]; [lia|]. by apply (scan_mbr s c dv x d D). }
  apply wp_run in Hw as ([] & s' & Hrun & ([Hr' Hs' Hl' _] & Hb') & Hlive & _). exists s'. rewrite Hs', Hl', Hnew.
  assert (Hnd : NoDup (map fst found_new)).
  { rewrite Hids. apply NoDup_app. split; [apply NoDup_seqZ|]. split; [|apply NoDup_seqZ]. intros y. rewrite !elem_of_seqZ. lia. }
  split_and!; try done.
  - intros j p Hj. apply (put_parts_lookup c dv found_new _ j _ _ Hnd). unfold found_new.
    rewrite lookup_app_l; [by rewrite (primary_lookup x ps 0 j p Hj)|]. apply lookup_lt_Some in Hj.
    rewrite <- (length_map fst), primary_ids, length_seqZ. unfold zlen. lia.
  - intros j st n Hj. apply (put_parts_lookup c dv found_new _ (length ps + j) _ _ Hnd). unfold found_new.
    assert (El : length (primary x 0 ps) = length ps) by (rewrite <- (length_map fst), primary_ids, length_seqZ; unfold zlen; lia).
    rewrite lookup_app_r, El by lia. replace (length ps + j - length ps)%nat with j by lia. by rewrite (logic_lookup x logs 0 j _ Hj).
  - intros p Hp. apply put_parts_elsewhere. by rewrite Hnew.
  - by destruct Hr'.
Qed.

(** ** An example: the second disk of the first channel

    One primary partition, and two logical ones in sectors 5 and 9. *)

Definition d_entry (e : Z * Z * Z) : bytes :=
  let '(ty, start, cnt) := e in [0; 0; 0; 0; ty; 0; 0; 0] ++ le32 start ++ le32 cnt.
Definition d_boot (es : list (Z * Z * Z)) : bytes :=
  zeros 446 ++ concat (map d_entry es) ++ zeros (64 - 16 * zlen es) ++ [0x55; 0xaa].
Definition d_mbr : bytes := d_boot [(0x83, 1, 3); (5, 4, 8)].
Definition d_ebr1 : bytes := d_boot [(0x83, 1, 2); (5, 4, 4)].
Definition d_ebr2 : bytes := d_boot [(0x83, 1, 3)].
Definition d_disk : disk := <[0 := d_mbr]> (<[4 := d_ebr1]> (<[8 := d_ebr2]> ∅)).
Definition d_ide (port irq : Z) : ide :=
  Ide (Channel port irq lock_init false (sema_init 0)) (Ata 0x1f0 0 0 0 0 0 [∅; d_disk] [zeros 512; zeros 512] ModeIdle false 0 [])
    0xc009e000 0.
Definition d_state (i : ide) names : disks (gset Z) := Disks _ [i] ∅ 1 names ∅ [] 0 0 0 (exception_init 7) ∅ [].

(** All of [ide_init], from channels that have not been set up. *)
Example ide_init_runs : match ide_init 5 2 0xc0001234 (d_state (d_ide 0 0) ∅) with
  | Ok (_, s) => partition_list s = [(0, 1, 0); (0, 1, 4); (0, 1, 5)] /\
      map (slot_at s) (partition_list s) = [Slot 1 3 (part_name 98 1); Slot 5 2 (part_name 98 5); Slot 9 3 (part_name 98 6)] /\
      d_heap s = ∅
  | _ => False
  end.
Proof. vm_compute. repeat split. Qed.

Lemma d_disk_wf : disk_wf d_disk.
Proof.
  assert (Hb : forall es, bool_decide (zlen (d_boot es) = 512 /\ Forall is_byte (d_boot es)) = true -> zlen (d_boot es) = 512 /\ Forall is_byte (d_boot es)).
  { intros es. apply bool_decide_eq_true_1. }
  unfold d_disk. intros i b Hi. lookup_cases Hi; injection Hi as <-; apply Hb; by vm_compute.
Qed.

Lemma d_chain : chain d_disk 4 4 [(5, 2); (9, 3)].
Proof.
  apply (chain_link d_disk 4 4 (table_entry d_ebr1 0) (table_entry d_ebr1 1) [table_entry d_ebr1 2; table_entry d_ebr1 3] [(9, 3)]); try done.
  - by exists d_ebr1.
  - by repeat constructor.
  - apply (chain_end d_disk 4 8 (table_entry d_ebr2 0) [table_entry d_ebr2 1; table_entry d_ebr2 2; table_entry d_ebr2 3]); try done.
    + by exists d_ebr2.
    + by repeat constructor.
Qed.

Lemma partition_scan_finds_witness : exists s', partition_scan 3 (0, 1) 0 (d_state (d_ide 0x1f0 0x2e) {[(0, 1) := hd_text 98]}) = Ok (tt, s') /\
  partition_list s' = [(0, 1, 0); (0, 1, 4); (0, 1, 5)] /\
  slots s' !! (0, 1, 0) = Some (Slot 1 3 (part_name 98 1)) /\ slots s' !! (0, 1, 5) = Some (Slot 9 3 (part_name 98 6)).
Proof.
  destruct (partition_scan_finds (d_state (d_ide 0x1f0 0x2e) {[(0, 1) := hd_text 98]}) 0 1 98 (d_ide 0x1f0 0x2e) d_disk
    [table_entry d_mbr 0] 4 [(5, 2); (9, 3)] 3) as (s' & Hr & Hl & Hp & Hlog & _).
  - reflexivity.
  - split; [|split; [done|by left]|done]. split; try done. by left.
  - by right.
  - reflexivity.
  - exact d_disk_wf.
  - lia.
  - reflexivity.
  - intros k. apply lookup_empty.
  - reflexivity.
  - reflexivity.
  - reflexivity.
  - apply (mbr_ext d_disk [table_entry d_mbr 0] (table_entry d_mbr 1) [table_entry d_mbr 2; table_entry d_mbr 3]); [by exists d_mbr|done| |exact d_chain].
    by repeat constructor.
  - apply Forall_singleton. by split.
  - by vm_compute.
  - by vm_compute.
  - cbn. lia.
  - exact I.
  - exists s'. split; [exact Hr|]. split; [exact Hl|]. split; [exact (Hp 0%nat _ eq_refl)|exact (Hlog 1%nat 9 3 eq_refl)].
Defined.
