(* ===== verification/File.v ===== *)
(** fs/file.c: the file table, block and inode allocation, and the
    operations on open files.

    A [struct file*] is the index of its entry in [file_table]. *)

From S2P Require Import Prelude Bitmap Bytes Interrupt Thread Sync Ide Layout Inode.

Open Scope Z_scope.

Definition O_RDONLY : Z := 0.
Definition O_WRONLY : Z := 1.
Definition O_RDWR : Z := 2.
Definition O_CREAT : Z := 4.

Section file.
Context {H : Type} `{Heap H}.

(** ** Descriptors *)

(** First index from [k] on whose entry is free. *)
Fixpoint free_slot (l : list file) (k : Z) : Z :=
  match l with
  | [] => k
  | e :: l => if fd_inode e =? 0 then k else free_slot l (k + 1)
  end.

Definition get_free_slot_in_global : M (fs H) Z :=
  ft ← gets file_table;
  let fd_idx := free_slot (drop 3 ft) 3 in
  if fd_idx =? MAX_FILE_OPEN then (printk "exceed max open files";; mret (-1))
  else mret fd_idx.

Fixpoint free_local (l : list Z) (k : Z) : Z :=
  match l with
  | [] => k
  | e :: l => if e =? -1 then k else free_local l (k + 1)
  end.

Definition set_fd_table (l : list Z) (t : task_struct) : task_struct :=
  Task (self_kstack t) (pid t) (status t) (name t) (priority t) (ticks t) (elapsed_ticks t)
    l (pgdir t) (userprog_vaddr t) (cwd_inode_nr t) (parent_pid t) (exit_status t) (stack_magic t).

Definition pcb_fd_install (globa_fd_idx : Z) : M (fs H) Z :=
  t ← gets cur;
  let local_fd_idx := free_local (drop 3 (fd_table t)) 3 in
  if local_fd_idx =? MAX_FILES_OPEN_PER_PROC then
    (printk "exceed max open files_per_proc";; mret (-1))
  else
    modify (λ f, set_cur (set_fd_table (zupd (fd_table t) local_fd_idx globa_fd_idx) t) f);;
    mret local_fd_idx.

Definition rd_file (idx : Z) : M (fs H) file := λ f,
  match znth (file_table f) idx with Some e => Ok (e, f) | None => Fault end.
Definition upd_file (idx : Z) (g : file -> file) : M (fs H) unit := λ f,
  match znth (file_table f) idx with
  | Some e => Ok (tt, set_files (zupd (file_table f) idx (g e)) f)
  | None => Fault
  end.
Definition set_fd_pos (p : Z) (e : file) : file := File p (fd_flag e) (fd_inode e).

(** ** Allocation *)

Definition inode_bitmap_alloc : M (fs H) Z :=
  p ← gets part;
  bit_idx ← lift (bitmap_scan (inode_bitmap p) 1);
  if bit_idx =? -1 then mret (-1)
  else (set_inode_bit (u32 bit_idx) 1;; mret bit_idx).

Definition block_bitmap_alloc : M (fs H) Z :=
  p ← gets part;
  bit_idx ← lift (bitmap_scan (block_bitmap p) 1);
  if bit_idx =? -1 then mret (-1)
  else
    set_block_bit (u32 bit_idx) 1;;
    mret (s32 (u32 (data_start_lba (sb p) + bit_idx))).

(** Write the bitmap sector of block [lba] back. *)
Definition sync_block (block_lba : Z) : M (fs H) unit :=
  s ← get_sb;
  bitmap_sync (u32 (block_lba - data_start_lba s)) BLOCK_BITMAP.

(** ** file_open and file_close *)

Definition file_open (inode_no flag : Z) : M (fs H) Z :=
  fd_idx ← get_free_slot_in_global;
  if fd_idx =? -1 then (printk "exceed max open files";; mret (-1))
  else
    a ← inode_open inode_no;
    upd_file fd_idx (λ _, File 0 flag a);;
    if negb (Z.land flag O_WRONLY =? 0) || negb (Z.land flag O_RDWR =? 0) then
      old_status ← on_fcpu intr_disable;
      i ← rd_inode a;
      if write_deny i =? 0 then
        upd_inode a (set_write_deny 1);;
        _ ← on_fcpu (intr_set_status old_status);
        pcb_fd_install fd_idx
      else
        _ ← on_fcpu (intr_set_status old_status);
        printk "file can`t be write now, try again later";;
        mret (-1)
    else pcb_fd_install fd_idx.

(** [file_close] of a non-NULL file. *)
Definition file_close (idx : Z) : M (fs H) Z :=
  e ← rd_file idx;
  upd_inode (fd_inode e) (set_write_deny 0);;
  inode_close (fd_inode e);;
  upd_file idx (λ e, File (fd_pos e) (fd_flag e) 0);;
  mret 0.

(** ** file_write *)

Definition all_blocks_0 : list Z := replicate 140 0.

(** [ide_read(.., all_blocks + 12, 1)] *)
Definition read_table (table : Z) (all_blocks : list Z) : M (fs H) (list Z) :=
  buf ← ide_rd table 1;
  mret (take 12 all_blocks ++ to_words buf).
(** [ide_write(.., all_blocks + 12, 1)] *)
Definition write_table (table : Z) (all_blocks : list Z) : M (fs H) unit :=
  ide_wr table (of_words (drop 12 all_blocks)) 1.

Definition set_sector (a k v : Z) : M (fs H) unit :=
  upd_inode a (λ i, set_sectors (zupd (i_sectors i) k v) i).

(** The three allocation loops; [None] is the early [return -1]. *)
Definition alloc_direct (a will : Z) (l : Z * list Z) : M (fs H) (Z * list Z + option (list Z)) :=
  let '(block_idx, ab) := l in
  if block_idx <? will then
    block_lba ← block_bitmap_alloc;
    if block_lba =? -1 then
      (printk "file_write: block_bitmap_alloc for situation 1 failed";; mret (inr None))
    else
      i ← rd_inode a;
      assertM (sector_of i block_idx =? 0) "i_sectors[block_idx] == 0";;
      set_sector a block_idx (u32 block_lba);;
      sync_block block_lba;;
      mret (inl (block_idx + 1, zupd ab block_idx (u32 block_lba)))
  else mret (inr (Some ab)).

Definition alloc_mixed (a will : Z) (l : Z * list Z) : M (fs H) (Z * list Z + option (list Z)) :=
  let '(block_idx, ab) := l in
  if block_idx <? will then
    block_lba ← block_bitmap_alloc;
    if block_lba =? -1 then
      (printk "file_write: block_bitmap_alloc for situation 2 failed";; mret (inr None))
    else
      (if block_idx <? 12 then
         i ← rd_inode a;
         assertM (sector_of i block_idx =? 0) "i_sectors[block_idx] == 0";;
         set_sector a block_idx (u32 block_lba)
       else mret tt);;
      sync_block block_lba;;
      mret (inl (block_idx + 1, zupd ab block_idx (u32 block_lba)))
  else mret (inr (Some ab)).

Definition alloc_indirect (will : Z) (l : Z * list Z) : M (fs H) (Z * list Z + option (list Z)) :=
  let '(block_idx, ab) := l in
  if block_idx <? will then
    block_lba ← block_bitmap_alloc;
    if block_lba =? -1 then
      (printk "file_write: block_bitmap_alloc for situation 3 failed";; mret (inr None))
    else
      sync_block block_lba;;
      mret (inl (block_idx + 1, zupd ab block_idx (u32 block_lba)))
  else mret (inr (Some ab)).

(** Blocks for a file of [has] blocks that is to have [will]: the addresses
    the write loop needs, or [None] when the disk is full. *)
Definition collect_blocks (a has will : Z) : M (fs H) (option (list Z)) :=
  i ← rd_inode a;
  let add_blocks := u32 (will - has) in
  if add_blocks =? 0 then
    if has <=? 12 then mret (Some (zupd all_blocks_0 (has - 1) (sector_of i (has - 1))))
    else
      assertM (negb (sector_of i 12 =? 0)) "i_sectors[12] != 0";;
      ab ← read_table (sector_of i 12) all_blocks_0;
      mret (Some ab)
  else if will <=? 12 then
    assertM (negb (sector_of i (has - 1) =? 0)) "i_sectors[block_idx] != 0";;
    loop 141 (alloc_direct a will) (has, zupd all_blocks_0 (has - 1) (sector_of i (has - 1)))
  else if (has <=? 12) && (12 <? will) then
    let ab := zupd all_blocks_0 (has - 1) (sector_of i (has - 1)) in
    block_lba ← block_bitmap_alloc;
    if block_lba =? -1 then
      (printk "file_write: block_bitmap_alloc for situation 2 failed";; mret None)
    else
      i ← rd_inode a;
      assertM (sector_of i 12 =? 0) "i_sectors[12] == 0";;
      let indirect_block_table := u32 block_lba in
      set_sector a 12 indirect_block_table;;
      r ← loop 141 (alloc_mixed a will) (has, ab);
      match r with
      | None => mret None
      | Some ab => write_table indirect_block_table ab;; mret (Some ab)
      end
  else
    assertM (negb (sector_of i 12 =? 0)) "i_sectors[12] != 0";;
    let indirect_block_table := sector_of i 12 in
    ab ← read_table indirect_block_table all_blocks_0;
    r ← loop 141 (alloc_indirect will) (has, ab);
    match r with
    | None => mret None
    | Some ab => write_table indirect_block_table ab;; mret (Some ab)
    end.

(** The loop that writes the data: locals are the rest of [src], the number
    of bytes written and [first_write_block]. *)
Definition write_chunk (idx a count : Z) (all_blocks : list Z) (l : bytes * Z * bool)
    : M (fs H) (bytes * Z * bool + Z) :=
  let '(src, bytes_written, first_write_block) := l in
  if bytes_written <? count then
    i ← rd_inode a;
    let sec_idx := i_size i / BLOCK_SIZE in
    let sec_lba := default 0 (znth all_blocks sec_idx) in
    let sec_off_bytes := i_size i mod BLOCK_SIZE in
    let sec_left_bytes := BLOCK_SIZE - sec_off_bytes in
    let size_left := count - bytes_written in
    let chunk_size := if size_left <? sec_left_bytes then size_left else sec_left_bytes in
    io_buf ← (if (first_write_block : bool) then ide_rd sec_lba 1 else mret (zeros BLOCK_SIZE));
    ide_wr sec_lba (splice io_buf sec_off_bytes (take (Z.to_nat chunk_size) src)) 1;;
    printk "file write at lba";;
    upd_inode a (λ i, set_isize (u32 (i_size i + chunk_size)) i);;
    upd_file idx (λ e, set_fd_pos (u32 (fd_pos e + chunk_size)) e);;
    mret (inl (drop (Z.to_nat chunk_size) src, bytes_written + chunk_size, false))
  else mret (inr bytes_written).

(** The first block of an empty file. *)
Definition first_block (a : Z) (i : inode) : M (fs H) bool :=
  if sector_of i 0 =? 0 then
    block_lba ← block_bitmap_alloc;
    if block_lba =? -1 then (printk "file_write: block_bitmap_alloc failed";; mret false)
    else
      set_sector a 0 (u32 block_lba);;
      s ← get_sb;
      let block_bitmap_idx := u32 (block_lba - data_start_lba s) in
      assertM (negb (block_bitmap_idx =? 0)) "block_bitmap_idx != 0";;
      bitmap_sync block_bitmap_idx BLOCK_BITMAP;;
      mret true
  else mret true.

(** [buf] holds the [count] bytes the caller passes. *)
Definition file_write (idx : Z) (buf : bytes) (count : Z) : M (fs H) Z :=
  e ← rd_file idx;
  let a := fd_inode e in
  i ← rd_inode a;
  if BLOCK_SIZE * 140 <? u32 (i_size i + count) then
    (printk "exceed max file_size 71680 bytes, write file failed";; mret (-1))
  else
    io_buf ← sys_malloc BLOCK_SIZE;
    if io_buf =? 0 then (printk "file_write: sys_malloc for io_buf failed";; mret (-1))
    else
      all_blocks ← sys_malloc (BLOCK_SIZE + 48);
      if all_blocks =? 0 then (printk "file_write: sys_malloc for all_blocks failed";; mret (-1))
      else
        ok ← first_block a i;
        if negb ok then mret (-1)
        else
          let file_has_used_blocks := i_size i / BLOCK_SIZE + 1 in
          let file_will_use_blocks := u32 (i_size i + count) / BLOCK_SIZE + 1 in
          assertM (file_will_use_blocks <=? 140) "file_will_use_blocks <= 140";;
          r ← collect_blocks a file_has_used_blocks file_will_use_blocks;
          match r with
          | None => mret (-1)
          | Some ab =>
              upd_file idx (set_fd_pos (u32 (i_size i - 1)));;
              bytes_written ← loop (S (Z.to_nat count)) (write_chunk idx a count ab) (buf, 0, true);
              i ← rd_inode a;
              inode_sync i;;
              sys_free all_blocks;;
              sys_free io_buf;;
              mret bytes_written
          end.

(** ** file_read *)

(** Direct blocks [from .. to - 1] of the inode, copied into [all_blocks]. *)
Definition copy_direct (i : inode) (from to : Z) (all_blocks : list Z) : list Z :=
  foldl (λ ab k, zupd ab k (sector_of i k)) all_blocks (seqZ from (to - from)).

Definition gather_blocks (i : inode) (start_idx end_idx : Z) : M (fs H) (list Z) :=
  let read_blocks := u32 (start_idx - end_idx) in
  if read_blocks =? 0 then
    assertM (end_idx =? start_idx) "block_read_end_idx == block_read_start_idx";;
    if end_idx <? 12 then mret (zupd all_blocks_0 end_idx (sector_of i end_idx))
    else read_table (sector_of i 12) all_blocks_0
  else if end_idx <? 12 then mret (copy_direct i start_idx (end_idx + 1) all_blocks_0)
  else if (start_idx <? 12) && (12 <=? end_idx) then
    assertM (negb (sector_of i 12 =? 0)) "i_sectors[12] != 0";;
    read_table (sector_of i 12) (copy_direct i start_idx 12 all_blocks_0)
  else
    assertM (negb (sector_of i 12 =? 0)) "i_sectors[12] != 0";;
    read_table (sector_of i 12) all_blocks_0.

Definition read_chunk (idx size : Z) (all_blocks : list Z) (l : bytes * Z) : M (fs H) (bytes * Z + bytes) :=
  let '(dst, bytes_read) := l in
  if bytes_read <? size then
    e ← rd_file idx;
    let sec_idx := fd_pos e / BLOCK_SIZE in
    let sec_lba := default 0 (znth all_blocks sec_idx) in
    let sec_off_bytes := fd_pos e mod BLOCK_SIZE in
    let sec_left_bytes := BLOCK_SIZE - sec_off_bytes in
    let size_left := size - bytes_read in
    let chunk_size := if size_left <? sec_left_bytes then size_left else sec_left_bytes in
    io_buf ← ide_rd sec_lba 1;
    upd_file idx (λ e, set_fd_pos (u32 (fd_pos e + chunk_size)) e);;
    mret (inl (dst ++ slice io_buf sec_off_bytes chunk_size, bytes_read + chunk_size))
  else mret (inr dst).

(** The value returned and the bytes stored in the caller's buffer. *)
Definition file_read (idx count : Z) : M (fs H) (Z * bytes) :=
  e ← rd_file idx;
  i ← rd_inode (fd_inode e);
  let over := i_size i <? u32 (fd_pos e + count) in
  let size := if over then u32 (i_size i - fd_pos e) else count in
  if over && (size =? 0) then mret (-1, [])
  else
    io_buf ← sys_malloc BLOCK_SIZE;
    (if io_buf =? 0 then printk "file_read: sys_malloc for io_buf failed" else mret tt);;
    all_blocks ← sys_malloc (BLOCK_SIZE + 48);
    if all_blocks =? 0 then (printk "file_read: sys_malloc for all_blocks failed";; mret (-1, []))
    else
      let block_read_start_idx := fd_pos e / BLOCK_SIZE in
      let block_read_end_idx := u32 (fd_pos e + size) / BLOCK_SIZE in
      assertM ((block_read_start_idx <? 139) && (block_read_end_idx <? 139))
        "block_read_start_idx < 139 && block_read_end_idx < 139";;
      ab ← gather_blocks i block_read_start_idx block_read_end_idx;
      (if (io_buf =? 0) && (0 <? size) then faultM else mret tt);;
      dst ← loop (S (Z.to_nat size)) (read_chunk idx size ab) ([], 0);
      sys_free all_blocks;;
      sys_free io_buf;;
      mret (zlen dst, dst).
End file.
