(* ===== verification/Pipe.v ===== *)
(** shell/pipe.c: pipes, which are file table entries whose [fd_inode] is the
    address of a ring buffer in a kernel page.

    [psys] is the file table, the ring buffers by address and the threads,
    whose tables of descriptors lead to the file table.  A read or write that
    has to wait in the ring buffer is [inr]: what it still has to do. *)

From S2P Require Import Prelude Bitmap Bytes Interrupt Thread Sync IoQueue Ide Layout Inode File.

Open Scope Z_scope.

Definition PIPE_FLAG : Z := 0xFFFF.

Record psys := PS { p_thr : kthreads; p_files : list file; p_qs : gmap Z ioqueue }.

Definition p_on_thr {A} (m : M kthreads A) : M psys A :=
  zoom p_thr (λ k s, PS k (p_files s) (p_qs s)) m.
Definition on_q {A} (a : Z) (m : M iosys A) : M psys A := λ s,
  match p_qs s !! a with
  | None => Fault
  | Some q => zoom (λ s, IoS (p_thr s) q) (λ t s, PS (io_thr t) (p_files s) (<[a := ioq t]> (p_qs s))) m s
  end.

Definition p_cur : M psys task_struct := me ← p_on_thr running_thread; p_on_thr (rd_task me).
Definition p_set_fd (k v : Z) : M psys unit :=
  me ← p_on_thr running_thread;
  t ← p_on_thr (rd_task me);
  (if (0 <=? k) && (k <? zlen (fd_table t)) then mret tt else faultM);;
  p_on_thr (upd_task me (λ t, set_fd_table (zupd (fd_table t) k v) t)).
Definition p_file (g : Z) : M psys file := λ s,
  match znth (p_files s) g with Some e => Ok (e, s) | None => Fault end.
Definition p_upd_file (g : Z) (f : file -> file) : M psys unit := λ s,
  match znth (p_files s) g with
  | Some e => Ok (tt, PS (p_thr s) (zupd (p_files s) g (f e)) (p_qs s))
  | None => Fault
  end.

Definition p_local2global (local_fd : Z) : M psys Z :=
  t ← p_cur;
  global_fd ← lift (of_option (znth (fd_table t) local_fd));
  assertM ((0 <=? global_fd) && (global_fd <? MAX_FILE_OPEN)) "global_fd >= 0 && global_fd < MAX_FILE_OPEN";;
  mret global_fd.

Definition is_pipe (local_fd : Z) : M psys bool :=
  global_fd ← p_local2global local_fd;
  e ← p_file global_fd;
  mret (fd_flag e =? PIPE_FLAG).

Definition p_fd_install (globa_fd_idx : Z) : M psys Z :=
  t ← p_cur;
  let local_fd_idx := free_local (drop 3 (fd_table t)) 3 in
  if local_fd_idx =? MAX_FILES_OPEN_PER_PROC then mret (-1)
  else (p_set_fd local_fd_idx globa_fd_idx;; mret local_fd_idx).

(** [page] is what [get_kernel_pages(1)] returns, [buf] the bytes of that page
    the ring buffer's array lies on.  Slot -1 and address NULL are used
    before they are tested. *)
Definition sys_pipe (page : Z) (buf : bytes) : M psys (Z * list Z) :=
  ft ← gets p_files;
  let fd_idx := free_slot (drop 3 ft) 3 in
  let global_fd := if fd_idx =? MAX_FILE_OPEN then -1 else fd_idx in
  p_upd_file global_fd (λ e, File (fd_pos e) (fd_flag e) page);;
  (if page =? 0 then faultM else mret tt);;
  modify (λ s, PS (p_thr s) (p_files s) (<[page := ioqueue_init buf]> (p_qs s)));;
  p_upd_file global_fd (λ e, File (fd_pos e) PIPE_FLAG (fd_inode e));;
  p_upd_file global_fd (λ e, File 2 (fd_flag e) (fd_inode e));;
  fd0 ← p_fd_install global_fd;
  fd1 ← p_fd_install global_fd;
  mret (0, [fd0; fd1]).

Section code.
Context (v2p : Z -> Z).

(** A read that waits: the bytes it has and how many it was to get. *)
Record read_rest := ReadRest { rr_got : bytes; rr_size : Z; rr_old : intr_status }.
Record write_rest := WriteRest { wr_byte : Z; wr_left : bytes; wr_done : Z; wr_size : Z; wr_old : intr_status }.

Definition read_round (a size : Z) (got : bytes) : M psys (bytes + (Z * bytes + read_rest)) :=
  if zlen got <? size then
    r ← on_q a (ioq_getchar v2p);
    match r with
    | inl byte => mret (inl (got ++ [byte]))
    | inr old => mret (inr (inr (ReadRest got size old)))
    end
  else mret (inr (inl (zlen got, got))).

Definition pipe_queue (fd : Z) : M psys Z :=
  global_fd ← p_local2global fd;
  e ← p_file global_fd;
  mret (fd_inode e).

Definition q_length (a : Z) : M psys Z := λ s,
  match p_qs s !! a with Some q => Ok (ioq_length q, s) | None => Fault end.

Definition pipe_read (fd count : Z) : M psys (Z * bytes + read_rest) :=
  a ← pipe_queue fd;
  ioq_len ← q_length a;
  let size := if count <? ioq_len then count else ioq_len in
  loop (S (Z.to_nat size)) (read_round a size) [].

Definition write_round (a size : Z) (l : bytes * Z) : M psys (bytes * Z + (Z + write_rest)) :=
  let '(buffer, bytes_write) := l in
  if bytes_write <? size then
    match buffer with
    | [] => faultM
    | byte :: buffer =>
        r ← on_q a (ioq_putchar v2p byte);
        match r with
        | inl tt => mret (inl (buffer, bytes_write + 1))
        | inr old => mret (inr (inr (WriteRest byte buffer bytes_write size old)))
        end
    end
  else mret (inr (inl bytes_write)).

Definition pipe_write (fd : Z) (buf : bytes) (count : Z) : M psys (Z + write_rest) :=
  a ← pipe_queue fd;
  ioq_len ← q_length a;
  let ioq_left := u32 (bufsize - ioq_len) in
  let size := if count <? ioq_left then count else ioq_left in
  loop (S (Z.to_nat size)) (write_round a size) (buf, 0).
End code.

(** [sys_fd_redirect]; both arguments are [uint32_t]. *)
Definition sys_fd_redirect (old_local_fd new_local_fd : Z) : M psys unit :=
  if new_local_fd <? 3 then p_set_fd old_local_fd new_local_fd
  else
    t ← p_cur;
    new_global_fd ← lift (of_option (znth (fd_table t) new_local_fd));
    p_set_fd old_local_fd new_global_fd.

(** ** A pipe is the queue behind it *)

Section spec.
Context (v2p : Z -> Z).
Implicit Types s : psys.

(** Nobody waits for queue [a] or has its lock, and it holds [c]. *)
Definition pipe_holds (s : psys) (a : Z) (c : bytes) : Prop :=
  exists q, p_qs s !! a = Some q /\ io_ok (IoS (p_thr s) q) /\ producer q = 0 /\ consumer q = 0 /\
    io_lock q = lock_init /\ contents q = c.

Lemma wp_on_q {A} a (m : M iosys A) q (Q : A -> psys -> Prop) s : p_qs s !! a = Some q ->
  wp m (λ x t, Q x (PS (io_thr t) (p_files s) (<[a := ioq t]> (p_qs s)))) (IoS (p_thr s) q) -> wp (on_q a m) Q s.
Proof. intros Hq Hm. unfold wp, on_q. rewrite Hq. by apply (wp_zoom (λ s, IoS (p_thr s) q)). Qed.

(** The parts of the state a transfer does not touch. *)
Definition same_tables s s' : Prop := p_thr s' = p_thr s /\ p_files s' = p_files s.

Lemma pipe_put s a c b : pipe_holds s a c -> zlen c < 2047 ->
  wp (on_q a (ioq_putchar v2p b)) (λ r s', r = inl tt /\ pipe_holds s' a (c ++ [b]) /\ same_tables s s') s.
Proof.
  intros (q & Hq & Hok & Hp & Hc & Hlk & <-) Hl. rewrite contents_len in Hl. eapply wp_on_q; [done|].
  unfold ioq_putchar. apply wp_bind, wp_intr_off; [apply (io_off _ Hok)|].
  eapply wp_mono; [apply putchar_ok; [done|cbn; lia]|].
  intros r t (-> & Hok' & (_ & _ & _ & _ & _ & _ & Hsame) & Hioq). cbn [ioq] in *.
  specialize (Hsame Hc). split_and!; [done| |done]. exists (ioq t). cbn [p_qs p_thr].
  split_and!; [apply lookup_insert_eq|by destruct t|by rewrite Hioq|by rewrite Hioq|by rewrite Hioq|].
  rewrite Hioq. change (contents (pushed q b) = contents q ++ [b]).
  apply pushed_contents; [apply (io_qwf _ Hok)|lia].
Qed.

Lemma pipe_get s a b c : pipe_holds s a (b :: c) ->
  wp (on_q a (ioq_getchar v2p)) (λ r s', r = inl b /\ pipe_holds s' a c /\ same_tables s s') s.
Proof.
  intros (q & Hq & Hok & Hp & Hc & Hlk & Hcont). eapply wp_on_q; [done|].
  unfold ioq_getchar. apply wp_bind, wp_intr_off; [apply (io_off _ Hok)|].
  eapply wp_mono; [apply getchar_ok; [done|cbn; rewrite <- contents_len, Hcont; unfold zlen; simpl; lia]|].
  intros r t (Hok' & (_ & _ & _ & _ & _ & _ & Hsame) & Hioq & b' & -> & Hb). cbn [ioq] in *.
  rewrite Hcont in Hb. simplify_eq. specialize (Hsame Hp). split_and!; [done| |done].
  exists (ioq t). cbn [p_qs p_thr].
  split_and!; [apply lookup_insert_eq|by destruct t|by rewrite Hioq|by rewrite Hioq|by rewrite Hioq|done].
Qed.

Lemma same_tables_trans s1 s2 s3 : same_tables s1 s2 -> same_tables s2 s3 -> same_tables s1 s3.
Proof. intros [? ?] [? ?]. split; congruence. Qed.

(** Rounds of the write loop that find room, for the bytes [buf] of [buf ++ rest]. *)
Lemma write_rounds s a c buf rest size n fuel (Q : Z + write_rest -> psys -> Prop) :
  pipe_holds s a c -> n + zlen buf <= size -> zlen c + zlen buf <= 2047 ->
  (forall s', pipe_holds s' a (c ++ buf) -> same_tables s s' ->
     wp (loop fuel (write_round v2p a size) (rest, n + zlen buf)) Q s') ->
  wp (loop (length buf + fuel) (write_round v2p a size) (buf ++ rest, n)) Q s.
Proof.
  revert s c n. induction buf as [|b buf IH]; intros s c n Hs Hsz Hfit HQ.
  - specialize (HQ s). rewrite app_nil_r, Z.add_0_r in HQ. by apply HQ.
  - change (b :: buf) with ([b] ++ buf) in Hsz, Hfit. rewrite zlen_app in Hsz, Hfit.
    change (zlen [b]) with 1 in *. pose proof (zlen_nonneg buf).
    cbn [length Nat.add loop app]. apply wp_bind. unfold write_round at 1.
    rewrite (proj2 (Z.ltb_lt n size)) by lia. apply wp_bind.
    eapply wp_mono; [apply (pipe_put s a c b Hs); lia|]. intros r s1 (-> & Hs1 & Ht1). apply wp_ret.
    apply (IH s1 (c ++ [b])); [done|lia|rewrite zlen_app; change (zlen [b]) with 1; lia|].
    intros s2 Hs2 Ht2. replace (n + 1 + zlen buf) with (n + zlen (b :: buf)) by (unfold zlen; simpl; lia).
    apply HQ; [by rewrite <- app_assoc in Hs2|by eapply same_tables_trans].
Qed.

Lemma read_loop_all s a got c rest size : pipe_holds s a (c ++ rest) -> size = zlen got + zlen c ->
  forall fuel, (length c < fuel)%nat ->
  wp (loop fuel (read_round v2p a size) got)
    (λ r s', r = inl (size, got ++ c) /\ pipe_holds s' a rest /\ same_tables s s') s.
Proof.
  revert s got. induction c as [|b c IH]; intros s got Hs Hsz fuel Hf;
    (destruct fuel as [|fuel]; [simpl in Hf; lia|]); cbn [loop]; apply wp_bind; unfold read_round at 1.
  - unfold zlen in Hsz at 2. simpl in Hsz. rewrite (proj2 (Z.ltb_ge (zlen got) size)) by lia. apply wp_ret, wp_ret.
    rewrite app_nil_r. split_and!; [do 2 f_equal; lia|done|by split].
  - change (b :: c) with ([b] ++ c) in Hsz. rewrite zlen_app in Hsz. change (zlen [b]) with 1 in *.
    pose proof (zlen_nonneg c). rewrite (proj2 (Z.ltb_lt (zlen got) size)) by lia. apply wp_bind.
    eapply wp_mono; [apply (pipe_get s a b (c ++ rest) Hs)|]. intros r s1 (-> & Hs1 & Ht1). apply wp_ret.
    eapply wp_mono; [apply (IH s1 (got ++ [b]) Hs1); simpl in Hf; try lia|].
    + rewrite zlen_app. change (zlen [b]) with 1. lia.
    + intros r s2 (-> & Hs2 & Ht2). rewrite <- app_assoc. split_and!; [done|done|].
      by eapply same_tables_trans.
Qed.

(** Descriptor [fd] of the running task is an end of the pipe with queue [a]. *)
Definition pipe_end (s : psys) (fd a : Z) : Prop :=
  exists t g e, k_tasks (p_thr s) !! k_cur (p_thr s) = Some t /\ znth (fd_table t) fd = Some g /\
    0 <= g < MAX_FILE_OPEN /\ znth (p_files s) g = Some e /\ fd_inode e = a.

Lemma pipe_end_same s s' fd a : same_tables s s' -> pipe_end s fd a -> pipe_end s' fd a.
Proof. intros [Ht Hf] He. unfold pipe_end. rewrite Ht, Hf. exact He. Qed.

Lemma pipe_start s fd a c : pipe_end s fd a -> pipe_holds s a c ->
  pipe_queue fd s = Ok (a, s) /\ q_length a s = Ok (zlen c, s).
Proof.
  intros (t & g & e & Ht & Hfd & Hg & He & Ha) (q & Hq & Hok & _ & _ & _ & <-). split.
  - assert (Hl : p_local2global fd s = Ok (g, s)).
    { unfold p_local2global, p_cur.
      assert (Hc : (me ← p_on_thr running_thread; p_on_thr (rd_task me)) s = Ok (t, s)).
      { erewrite bind_ok by reflexivity. unfold p_on_thr, zoom, rd_task. cbn. rewrite Ht. by destruct s. }
      rewrite (bind_ok _ _ _ _ _ Hc), Hfd. erewrite bind_ok by reflexivity.
      rewrite (proj2 (Z.leb_le 0 g)), (proj2 (Z.ltb_lt g MAX_FILE_OPEN)) by lia. done. }
    unfold pipe_queue. rewrite (bind_ok _ _ _ _ _ Hl). unfold p_file.
    erewrite bind_ok by (by rewrite He). by rewrite Ha.
  - unfold q_length. rewrite Hq, contents_len. by rewrite ioq_length_ok by apply (io_qwf _ Hok).
Qed.

Lemma pipe_max s a c : pipe_holds s a c -> zlen c <= 2047.
Proof.
  intros (q & _ & _ & _ & _ & _ & <-). rewrite contents_len. pose proof (qlen_range q). unfold bufsize in *. lia.
Qed.

(** C37: what goes into a pipe comes out, in order.  With room for it,
    [pipe_write] stores all of its bytes behind those already in the pipe,
    and a [pipe_read] at the other end gives the oldest [n] bytes, or as many
    as there are, and leaves the rest. *)
Theorem pipe_write_read s fdw fdr a c buf n : pipe_end s fdw a -> pipe_end s fdr a -> pipe_holds s a c ->
  zlen c + zlen buf <= 2047 -> 0 <= n ->
  let m := Z.min n (zlen c + zlen buf) in
  exists s1 s2, pipe_write v2p fdw buf (zlen buf) s = Ok (inl (zlen buf), s1) /\ pipe_holds s1 a (c ++ buf) /\
    pipe_read v2p fdr n s1 = Ok (inl (m, take (Z.to_nat m) (c ++ buf)), s2) /\
    pipe_holds s2 a (drop (Z.to_nat m) (c ++ buf)).
Proof.
  intros Hw Hr Hs Hfit Hn m. pose proof (zlen_nonneg c). pose proof (zlen_nonneg buf).
  destruct (pipe_start s fdw a c Hw Hs) as [Hq Hl].
  assert (Hwp : wp (loop (S (Z.to_nat (zlen buf))) (write_round v2p a (zlen buf)) (buf, 0))
    (λ r s', r = inl (zlen buf) /\ pipe_holds s' a (c ++ buf) /\ same_tables s s') s).
  { replace (S (Z.to_nat (zlen buf))) with (length buf + 1)%nat by (unfold zlen; lia).
    replace (buf, 0) with (buf ++ [], 0) by (by rewrite app_nil_r). apply (write_rounds s a c); [done|lia|done|]. intros s' Hs' Ht'.
    cbn [loop]. apply wp_bind. unfold write_round. rewrite (proj2 (Z.ltb_ge (0 + zlen buf) (zlen buf))) by lia.
    by apply wp_ret, wp_ret. }
  apply wp_run in Hwp as (r & s1 & Hrun1 & -> & Hs1 & Ht1).
  destruct (pipe_start s1 fdr a (c ++ buf)) as [Hq1 Hl1]; [by eapply pipe_end_same|done|].
  assert (Hm : 0 <= m <= zlen (c ++ buf)) by (rewrite zlen_app; unfold m; lia).
  pose proof Hs1 as Hs1'. rewrite <- (take_drop (Z.to_nat m) (c ++ buf)) in Hs1'.
  assert (Hzt : zlen (take (Z.to_nat m) (c ++ buf)) = m) by (unfold zlen in *; rewrite length_take; lia).
  pose proof (read_loop_all s1 a [] (take (Z.to_nat m) (c ++ buf)) (drop (Z.to_nat m) (c ++ buf)) m Hs1'
    ltac:(rewrite Hzt; reflexivity) (S (Z.to_nat m)) ltac:(unfold zlen in Hzt; lia)) as Hrp.
  apply wp_run in Hrp as (r & s2 & Hrun2 & -> & Hs2 & _).
  exists s1, s2. split_and!; try done.
  - unfold pipe_write. rewrite (bind_ok _ _ _ _ _ Hq), (bind_ok _ _ _ _ _ Hl). cbv zeta. unfold bufsize.
    rewrite u32_small by lia. by rewrite (proj2 (Z.ltb_lt (zlen buf) (2048 - zlen c))) by lia.
  - unfold pipe_read. rewrite (bind_ok _ _ _ _ _ Hq1), (bind_ok _ _ _ _ _ Hl1). cbv zeta.
    replace (if n <? zlen (c ++ buf) then n else zlen (c ++ buf)) with m; [done|].
    rewrite zlen_app. unfold m. zbool; lia.
Qed.

(** A pipe takes 2047 bytes, but [pipe_write] counts on 2048.  A write
    that has more bytes than there is room for, which the code shortens in
    order not to block, stores bytes until the pipe is full and then does
    block: the writer is parked with one more byte to store. *)
Theorem pipe_write_blocks s fd a c buf : pipe_end s fd a -> pipe_holds s a c -> 2047 < zlen c + zlen buf ->
  k_cur (p_thr s) <> idle_thread (p_thr s) ->
  exists rest s' q', pipe_write v2p fd buf (zlen buf) s = Ok (inr rest, s') /\
    p_qs s' !! a = Some q' /\ contents q' = c ++ take (Z.to_nat (2047 - zlen c)) buf /\
    producer q' = k_cur (p_thr s) /\ offq (k_cur (p_thr s)) (p_thr s') /\
    wr_done rest = 2047 - zlen c /\ wr_size rest = 2048 - zlen c.
Proof.
  intros He Hs Hlong Hidle. pose proof (zlen_nonneg c). pose proof (zlen_nonneg buf).
  pose proof (pipe_max s a c Hs) as Hmax. destruct (pipe_start s fd a c He Hs) as [Hq Hl].
  set (k := Z.to_nat (2047 - zlen c)). set (buf1 := take k buf).
  assert (Hz1 : zlen buf1 = 2047 - zlen c) by (unfold buf1, k, zlen in *; rewrite length_take; lia).
  destruct (drop k buf) as [|b rest] eqn:Hd.
  { apply (f_equal length) in Hd. rewrite length_drop in Hd. unfold k, zlen in *. simpl in Hd. lia. }
  assert (Hbuf : buf = buf1 ++ b :: rest) by (unfold buf1; rewrite <- Hd; by rewrite take_drop).
  assert (Hwp : wp (pipe_write v2p fd buf (zlen buf)) (λ r s', exists q', 
    r = inr (WriteRest b rest (2047 - zlen c) (2048 - zlen c) INTR_OFF) /\
    p_qs s' !! a = Some q' /\ contents q' = c ++ buf1 /\ producer q' = k_cur (p_thr s) /\
    offq (k_cur (p_thr s)) (p_thr s')) s).
  { unfold pipe_write. apply wp_bind. unfold wp at 1. rewrite Hq. apply wp_bind. unfold wp at 1. rewrite Hl.
    cbv zeta. unfold bufsize.
    rewrite u32_small by lia.
    replace (if zlen buf <? 2048 - zlen c then zlen buf else 2048 - zlen c) with (2048 - zlen c) by (zbool; lia).
    replace (S (Z.to_nat (2048 - zlen c))) with (length buf1 + 2)%nat by (unfold zlen in *; lia).
    replace (buf, 0) with (buf1 ++ b :: rest, 0) by (by rewrite <- Hbuf). apply (write_rounds s a c); [done|lia|lia|].
    intros s' (q & Hq' & Hok & Hp & Hc & Hlk & Hcont) [Ht Hf]. cbn [loop]. apply wp_bind. unfold write_round at 1.
    rewrite (proj2 (Z.ltb_lt (0 + zlen buf1) (2048 - zlen c))) by lia. apply wp_bind.
    eapply wp_on_q; [done|]. unfold ioq_putchar. apply wp_bind, wp_intr_off; [apply (io_off _ Hok)|].
    eapply wp_mono; [apply putchar_waits; cbn [ioq io_thr]; try done|].
    - rewrite <- contents_len, Hcont, zlen_app. lia.
    - by rewrite Ht.
    - intros r t (-> & _ & Ho & Hioq). cbn [ioq io_thr] in *. apply wp_ret, wp_ret. rewrite Ht in Ho, Hioq.
      exists (ioq t). cbn [p_qs p_thr]. split_and!.
      + do 2 f_equal. lia.
      + apply lookup_insert_eq.
      + rewrite Hioq. exact Hcont.
      + by rewrite Hioq.
      + done. }
  apply wp_run in Hwp as (r & s' & Hrun & q' & -> & Hq' & Hcont & Hp & Ho). by eexists _, s', q'.
Qed.
End spec.

(** ** The theorems on an example: descriptors 3 and 4 of main are a pipe *)

Definition demo_main : task_struct :=
  set_fd_table [0; 1; 2; 5; 5; -1; -1; -1] (Thread.demo_task 2 TASK_RUNNING 31).
Definition demo_pipe_thr : kthreads :=
  upd_tasks (<[0xc009e000 := demo_main]> (k_tasks demo_threads)) demo_threads.
Definition demo_pipe (n : Z) : psys :=
  PS demo_pipe_thr (replicate 5 (File 0 0 0) ++ [File 2 PIPE_FLAG 0xc0200000] ++ replicate 26 (File 0 0 0))
    {[0xc0200000 := IoQ lock_init 0 0 (zeros 2048) n 0]}.

Lemma demo_pipe_kinv : kinv demo_pipe_thr.
Proof.
  destruct demo_threads_kinv as [Hnd Hcur Hrd Hrun Hoff Hz Hid Hmg]. split.
  - exact Hnd.
  - exact Hcur.
  - intros t Ht. cbn. rewrite lookup_insert_ne; [by apply Hrd|]. intros <-. by apply Hcur.
  - exists demo_main. split; [apply lookup_insert_eq|reflexivity].
  - intros t ts Ht Hc Hni. cbn in Ht, Hc. rewrite lookup_insert_ne in Ht by done. by apply (Hoff t).
  - exact Hz.
  - exists (Thread.demo_task 3 TASK_READY 10). reflexivity.
  - intros t ts Ht. cbn in Ht. destruct (decide (t = 0xc009e000)) as [->|Hne].
    + rewrite lookup_insert_eq in Ht. by injection Ht as <-.
    + rewrite lookup_insert_ne in Ht by done. by apply (Hmg t).
Qed.

Lemma demo_pipe_holds n : 0 <= n < 2048 -> pipe_holds (demo_pipe n) 0xc0200000 (replicate (Z.to_nat n) 0).
Proof.
  intros Hn. set (q := IoQ lock_init 0 0 (zeros 2048) n 0).
  assert (Hw : qwf q) by (split; cbn; [reflexivity|unfold bufsize; lia|unfold bufsize; lia]).
  exists q. split; [apply lookup_insert_eq|]. split_and!; try done.
  - split; cbn; [apply demo_pipe_kinv|reflexivity|done|by intros []|done].
  - assert (Hl : qlen q = n) by (unfold qlen; cbn; rewrite Z.sub_0_r; apply Z.mod_small; done).
    apply zlist_eq; [rewrite contents_len, Hl; unfold zlen; rewrite length_replicate; lia|].
    intros k Hk. rewrite contents_len in Hk. rewrite znth_contents by done. rewrite Hl in Hk.
    unfold znth. destruct (Z.ltb_spec k 0); [lia|]. rewrite lookup_replicate_2 by lia.
    unfold qat. cbn [io_buf io_tail q]. rewrite Z.mod_small by (unfold bufsize; lia).
    unfold znth, zeros. destruct (Z.ltb_spec (0 + k) 0); [lia|]. by rewrite lookup_replicate_2 by lia.
Qed.

Lemma demo_pipe_end n fd : fd = 3 \/ fd = 4 -> pipe_end (demo_pipe n) fd 0xc0200000.
Proof.
  intros Hfd. exists demo_main, 5, (File 2 PIPE_FLAG 0xc0200000).
  split; [apply lookup_insert_eq|]. split; [by destruct Hfd as [-> | ->]|].
  split; [unfold MAX_FILE_OPEN; lia|]. by split.
Qed.

Lemma pipe_write_read_witness :
  exists s1 s2, pipe_write (λ z, z) 4 [104; 105; 10] 3 (demo_pipe 0) = Ok (inl 3, s1) /\
    pipe_read (λ z, z) 3 2 s1 = Ok (inl (2, [104; 105]), s2) /\ pipe_holds s2 0xc0200000 [10].
Proof.
  destruct (pipe_write_read (λ z, z) (demo_pipe 0) 4 3 0xc0200000 [] [104; 105; 10] 2
    (demo_pipe_end 0 4 ltac:(auto)) (demo_pipe_end 0 3 ltac:(auto)) (demo_pipe_holds 0 ltac:(lia)))
    as (s1 & s2 & Hw & _ & Hr & Hs); [vm_compute; congruence|lia|].
  exists s1, s2. split; [exact Hw|]. split; [exact Hr|exact Hs].
Defined.

Lemma pipe_write_blocks_witness :
  exists rest s', pipe_write (λ z, z) 4 [104; 105; 10] 3 (demo_pipe 2046) = Ok (inr rest, s') /\
    wr_done rest = 1 /\ wr_size rest = 2.
Proof.
  destruct (pipe_write_blocks (λ z, z) (demo_pipe 2046) 4 0xc0200000 (replicate (Z.to_nat 2046) 0) [104; 105; 10]
    (demo_pipe_end 2046 4 ltac:(auto)) (demo_pipe_holds 2046 ltac:(lia)))
    as (rest & s' & q' & Hw & _ & _ & _ & _ & Hd & Hs); [vm_compute; congruence|discriminate|].
  exists rest, s'. split; [exact Hw|]. split; [exact Hd|exact Hs].
Defined.
