(* ===== verification/Dir.v ===== *)
(** fs/dir.c: directories.

    A [struct dir*] is an address in [dirs]; [ROOT_DIR] is the static
    [root_dir].  Directory entries are read from and written into sector
    images, entry [k] at byte [24 * k]. *)

From S2P Require Import Prelude Bitmap Bytes CString Interrupt Thread Sync Ide Layout Inode File.

Open Scope Z_scope.

Section dir.
Context {H : Type} `{Heap H}.

Definition rd_dir (a : Z) : M (fs H) dir := λ f,
  match dirs f !! a with Some d => Ok (d, f) | None => Fault end.
Definition wr_dir (a : Z) (d : dir) : M (fs H) unit := modify (λ f, set_dirs (<[a := d]> (dirs f)) f).
Definition dir_inode (a : Z) : M (fs H) inode := d ← rd_dir a; rd_inode (d_inode d).

Definition open_root_dir : M (fs H) unit :=
  s ← get_sb;
  a ← inode_open (root_inode_no s);
  wr_dir ROOT_DIR (Dir a 0 (zeros 512)).

Definition sizeof_dir : Z := 520.

Definition dir_open (inode_no : Z) : M (fs H) Z :=
  pdir ← sys_malloc sizeof_dir;
  a ← inode_open inode_no;
  (if pdir =? 0 then faultM else mret tt);;
  wr_dir pdir (Dir a 0 (zeros 512));;
  mret pdir.

Definition dir_close (a : Z) : M (fs H) unit :=
  if a =? ROOT_DIR then mret tt
  else
    d ← rd_dir a;
    inode_close (d_inode d);;
    sys_free a;;
    modify (λ f, set_dirs (delete a (dirs f)) f).

(** Entry [k] of a sector image. *)
Definition entry_at (buf : bytes) (k : Z) : dir_entry := decode_de (slice buf (24 * k) 24).
(** The name of entry [k], as [strcmp] sees it: it may run on past 16 bytes. *)
Definition name_at (buf : bytes) (k : Z) : bytes := drop (Z.to_nat (24 * k)) buf.

(** *** search_dir_entry *)

(** The scan of one sector; [n] entries from [k] on are left. *)
Fixpoint search_sector (buf name : bytes) (k : Z) (n : nat) : res (option dir_entry) :=
  match n with
  | O => Ok None
  | S n =>
      c ← strcmp (name_at buf k) name;
      if c =? 0 then Ok (Some (entry_at buf k)) else search_sector buf name (k + 1) n
  end.

Fixpoint search_blocks (name : bytes) (cnt : nat) (blocks : list Z) : M (fs H) (option dir_entry) :=
  match blocks with
  | [] => mret None
  | b :: blocks =>
      if b =? 0 then search_blocks name cnt blocks
      else
        buf ← ide_rd b 1;
        r ← lift (search_sector buf name 0 cnt);
        match r with
        | Some e => mret (Some e)
        | None => search_blocks name cnt blocks
        end
  end.

(** The 140 block addresses of a directory inode, as [search_dir_entry] and
    [delete_dir_entry] collect them. *)
Definition collect_all (i : inode) : M (fs H) (list Z) :=
  let direct := take 12 (i_sectors i) in
  if negb (sector_of i 12 =? 0) then
    buf ← ide_rd (sector_of i 12) 1;
    mret (direct ++ to_words buf)
  else mret (direct ++ replicate 128 0).

(** [name] is a C string with its terminator. *)
Definition search_dir_entry (pdir : Z) (name : bytes) : M (fs H) (option dir_entry) :=
  all_blocks ← sys_malloc (48 + 512);
  if all_blocks =? 0 then (printk "search_dir_entry: sys_malloc for all_blocks failed";; mret None)
  else
    i ← dir_inode pdir;
    blocks ← collect_all i;
    buf ← sys_malloc SECTOR_SIZE;
    s ← get_sb;
    (if buf =? 0 then faultM else mret tt);;
    r ← search_blocks name (Z.to_nat (SECTOR_SIZE / dir_entry_size s)) blocks;
    sys_free buf;;
    sys_free all_blocks;;
    mret r.

(** *** create_dir_entry on a zeroed entry *)

Definition create_dir_entry (name : bytes) (inode_no file_type : Z) : res dir_entry :=
  n ← strlen name;
  ASSERT (n <=? MAX_FILE_NAME_LEN) "strlen(filename) <= MAX_FILE_NAME_LEN" ≫= λ _,
  Ok (DirEntry (take (Z.to_nat n) name ++ zeros (16 - n)) inode_no (u8 file_type)).

(** *** sync_dir_entry *)

(** First entry from [k] on whose type is FT_UNKNOWN. *)
Fixpoint free_entry (buf : bytes) (k : Z) (n : nat) : option Z :=
  match n with
  | O => None
  | S n => if f_type (entry_at buf k) =? ft_code FT_UNKNOWN then Some k else free_entry buf (k + 1) n
  end.

(** Allocate block [block_idx] of the directory: the address of the data block
    and the new [all_blocks], or [None] on the early [return false]. *)
Definition dir_new_block (a block_idx : Z) (ab : list Z) : M (fs H) (option (list Z)) :=
  block_lba ← block_bitmap_alloc;
  if block_lba =? -1 then (printk "alloc block bitmap for sync_dir_entry failed";; mret None)
  else
    s ← get_sb;
    let block_bitmap_idx := s32 (u32 (block_lba - data_start_lba s)) in
    assertM (negb (block_bitmap_idx =? -1)) "block_bitmap_idx != -1";;
    bitmap_sync (u32 block_bitmap_idx) BLOCK_BITMAP;;
    if block_idx <? 12 then
      set_sector a block_idx (u32 block_lba);;
      mret (Some (zupd ab block_idx (u32 block_lba)))
    else if block_idx =? 12 then
      set_sector a 12 (u32 block_lba);;
      block_lba ← block_bitmap_alloc;
      if block_lba =? -1 then
        i ← rd_inode a;
        let block_bitmap_idx := u32 (sector_of i 12 - data_start_lba s) in
        set_block_bit block_bitmap_idx 0;;
        set_sector a 12 0;;
        printk "alloc block bitmap for sync_dir_entry failed";;
        mret None
      else
        let block_bitmap_idx := s32 (u32 (block_lba - data_start_lba s)) in
        assertM (negb (block_bitmap_idx =? -1)) "block_bitmap_idx != -1";;
        bitmap_sync (u32 block_bitmap_idx) BLOCK_BITMAP;;
        let ab := zupd ab 12 (u32 block_lba) in
        i ← rd_inode a;
        write_table (sector_of i 12) ab;;
        mret (Some ab)
    else
      let ab := zupd ab block_idx (u32 block_lba) in
      i ← rd_inode a;
      write_table (sector_of i 12) ab;;
      mret (Some ab).

Definition grow_dir (a : Z) : M (fs H) unit :=
  s ← get_sb;
  upd_inode a (λ i, set_isize (u32 (i_size i + dir_entry_size s)) i).

(** One round of the loop over the blocks of the directory. *)
Definition sync_block_round (a : Z) (p_de : dir_entry) (l : Z * list Z) : M (fs H) (Z * list Z + bool) :=
  let '(block_idx, ab) := l in
  if block_idx <? 140 then
    s ← get_sb;
    r ← (if default 0 (znth ab block_idx) =? 0 then
           r ← dir_new_block a block_idx ab;
           match r with
           | None => mret None
           | Some ab =>
               let io_buf := splice (zeros 512) 0 (encode_de p_de) in
               ide_wr (default 0 (znth ab block_idx)) io_buf 1;;
               grow_dir a;;
               mret (Some ab)
           end
         else mret (Some ab));
    match r with
    | None => mret (inr false)
    | Some ab =>
        io_buf ← ide_rd (default 0 (znth ab block_idx)) 1;
        match free_entry io_buf 0 (Z.to_nat (512 / dir_entry_size s)) with
        | Some k =>
            ide_wr (default 0 (znth ab block_idx)) (splice io_buf (24 * k) (encode_de p_de)) 1;;
            grow_dir a;;
            mret (inr true)
        | None => mret (inl (block_idx + 1, ab))
        end
    end
  else (printk "directory is full!";; mret (inr false)).

Definition sync_dir_entry (parent_dir : Z) (p_de : dir_entry) : M (fs H) bool :=
  d ← rd_dir parent_dir;
  i ← rd_inode (d_inode d);
  s ← get_sb;
  assertM (i_size i mod dir_entry_size s =? 0) "dir_size % dir_entry_size == 0";;
  loop 141 (sync_block_round (d_inode d) p_de) (0, take 12 (i_sectors i) ++ replicate 128 0).

(** *** delete_dir_entry *)

Record scan_state := Scan { is_dir_first_block : bool; dir_entry_cnt : Z; entry_found : option Z }.

(** Names "." and ".." with their terminators. *)
Definition dot : bytes := [46; 0].
Definition dotdot : bytes := [46; 46; 0].

Fixpoint delete_scan (buf : bytes) (inode_no k : Z) (n : nat) (st : scan_state) : res scan_state :=
  match n with
  | O => Ok st
  | S n =>
      st' ←
        (if negb (f_type (entry_at buf k) =? ft_code FT_UNKNOWN) then
           c1 ← strcmp (name_at buf k) dot;
           if c1 =? 0 then Ok (Scan true (dir_entry_cnt st) (entry_found st))
           else
             c2 ← strcmp (name_at buf k) dotdot;
             if negb (c2 =? 0) then
               let cnt := u8 (dir_entry_cnt st + 1) in
               if de_i_no (entry_at buf k) =? inode_no then
                 ASSERT (bool_decide (entry_found st = None)) "dir_entry_found == NULL" ≫= λ _,
                 Ok (Scan (is_dir_first_block st) cnt (Some k))
               else Ok (Scan (is_dir_first_block st) cnt (entry_found st))
             else Ok st
         else Ok st);
      delete_scan buf inode_no (k + 1) n st'
  end.

(** The loop that counts the indirect blocks: its index is never advanced. *)
Definition count_indirect (fuel : nat) (ab : list Z) : M (fs H) Z :=
  loop fuel (λ '(indirect_block_idx, indirect_blocks),
    if indirect_block_idx <? 140 then
      mret (inl (indirect_block_idx,
                 if negb (default 0 (znth ab indirect_block_idx) =? 0)
                 then u32 (indirect_blocks + 1) else indirect_blocks))
    else mret (inr indirect_blocks)) (12, 0).

(** Give block [block_idx] of the directory back. *)
Definition drop_dir_block (a block_idx : Z) (ab : list Z) : M (fs H) unit :=
  s ← get_sb;
  let block_bitmap_idx := u32 (default 0 (znth ab block_idx) - data_start_lba s) in
  set_block_bit block_bitmap_idx 0;;
  bitmap_sync block_bitmap_idx BLOCK_BITMAP;;
  if block_idx <? 12 then set_sector a block_idx 0
  else
    indirect_blocks ← count_indirect 1000 ab;
    assertM (1 <=? indirect_blocks) "indirect_blocks >= 1";;
    i ← rd_inode a;
    if 1 <? indirect_blocks then write_table (sector_of i 12) (zupd ab block_idx 0)
    else
      let block_bitmap_idx := u32 (sector_of i 12 - data_start_lba s) in
      set_block_bit block_bitmap_idx 0;;
      bitmap_sync block_bitmap_idx BLOCK_BITMAP;;
      set_sector a 12 0.

Definition delete_round (a inode_no : Z) (ab : list Z) (block_idx : Z) : M (fs H) (Z + bool) :=
  if block_idx <? 140 then
    let b := default 0 (znth ab block_idx) in
    if b =? 0 then mret (inl (block_idx + 1))
    else
      s ← get_sb;
      io_buf ← ide_rd b 1;
      st ← lift (delete_scan io_buf inode_no 0 (Z.to_nat (SECTOR_SIZE / dir_entry_size s)) (Scan false 0 None));
      match entry_found st with
      | None => mret (inl (block_idx + 1))
      | Some k =>
          assertM (1 <=? dir_entry_cnt st) "dir_entry_cnt >= 1";;
          (if (dir_entry_cnt st =? 1) && negb (is_dir_first_block st)
           then drop_dir_block a block_idx ab
           else ide_wr b (splice io_buf (24 * k) (zeros 24)) 1);;
          i ← rd_inode a;
          assertM (dir_entry_size s <=? i_size i) "i_size >= dir_entry_size";;
          upd_inode a (λ i, set_isize (u32 (i_size i - dir_entry_size s)) i);;
          i ← rd_inode a;
          inode_sync i;;
          mret (inr true)
      end
  else mret (inr false).

Definition delete_dir_entry (pdir inode_no : Z) : M (fs H) bool :=
  d ← rd_dir pdir;
  i ← rd_inode (d_inode d);
  ab ← collect_all i;
  loop 141 (delete_round (d_inode d) inode_no ab) 0.

(** *** dir_read *)

(** The entries of one sector from [k] on; [pos] is [cur_dir_entry_pos]. *)
Fixpoint read_sector (buf : bytes) (k pos want esz : Z) (n : nat) : res (Z * option Z) :=
  match n with
  | O => Ok (pos, None)
  | S n =>
      if negb (f_type (entry_at buf k) =? 0) then
        if pos <? want then read_sector buf (k + 1) (u32 (pos + esz)) want esz n
        else
          ASSERT (pos =? want) "cur_dir_entry_pos == dir->dir_pos" ≫= λ _,
          Ok (pos, Some k)
      else read_sector buf (k + 1) pos want esz n
  end.

Definition dir_read_round (a : Z) (ab : list Z) (block_cnt : Z) (l : Z * Z) : M (fs H) (Z * Z + option dir_entry) :=
  let '(block_idx, pos) := l in
  if block_idx <? block_cnt then
    d ← rd_dir a;
    i ← rd_inode (d_inode d);
    if i_size i <=? dir_pos d then mret (inr None)
    else
      let b := default 0 (znth ab block_idx) in
      if b =? 0 then mret (inl (block_idx + 1, pos))
      else
        s ← get_sb;
        buf ← ide_rd b 1;
        wr_dir a (Dir (d_inode d) (dir_pos d) buf);;
        r ← lift (read_sector buf 0 pos (dir_pos d) (dir_entry_size s)
                    (Z.to_nat (SECTOR_SIZE / dir_entry_size s)));
        let '(pos, found) := r in
        match found with
        | Some k =>
            wr_dir a (Dir (d_inode d) (u32 (dir_pos d + dir_entry_size s)) buf);;
            mret (inr (Some (entry_at buf k)))
        | None => mret (inl (block_idx + 1, pos))
        end
  else mret (inr None).

Definition dir_read (a : Z) : M (fs H) (option dir_entry) :=
  i ← dir_inode a;
  let direct := take 12 (i_sectors i) in
  r ← (if negb (sector_of i 12 =? 0) then
         buf ← ide_rd (sector_of i 12) 1;
         mret (direct ++ to_words buf, 140)
       else mret (direct ++ replicate 128 0, 12));
  loop 141 (dir_read_round a (fst r) (snd r)) (0, 0).

(** *** dir_is_empty and dir_remove *)

Definition dir_is_empty (a : Z) : M (fs H) bool :=
  i ← dir_inode a;
  s ← get_sb;
  mret (i_size i =? u32 (dir_entry_size s * 2)).

Definition dir_remove (parent_dir child_dir : Z) : M (fs H) Z :=
  i ← dir_inode child_dir;
  assertM (forallb (λ k, sector_of i k =? 0) (seqZ 1 12)) "child_dir_inode->i_sectors[block_idx] == 0";;
  io_buf ← sys_malloc (SECTOR_SIZE * 2);
  if io_buf =? 0 then (printk "dir_remove: malloc for io_buf failed";; mret (-1))
  else
    _ ← delete_dir_entry parent_dir (i_no i);
    inode_release (i_no i);;
    sys_free io_buf;;
    mret 0.

(** *** file_create of fs/file.c *)

(** [name] is the C string of the last path component. *)
Definition file_create (parent_dir : Z) (name : bytes) (flag : Z) : M (fs H) Z :=
  io_buf ← sys_malloc 1024;
  if io_buf =? 0 then (printk "in file_creat: sys_malloc for io_buf failed";; mret (-1))
  else
    inode_no ← inode_bitmap_alloc;
    if inode_no =? -1 then (printk "in file_creat: allocate inode failed";; mret (-1))
    else
      a ← sys_malloc sizeof_inode;
      if a =? 0 then
        printk "file_create: sys_malloc for inode failed";;
        set_inode_bit (u32 inode_no) 0;;
        sys_free io_buf;;
        mret (-1)
      else
        modify (λ f, set_inodes (<[a := inode_init inode_no]> (inodes f)) f);;
        fd_idx ← get_free_slot_in_global;
        if fd_idx =? -1 then
          printk "exceed max open files";;
          sys_free a;;
          modify (λ f, set_inodes (delete a (inodes f)) f);;
          set_inode_bit (u32 inode_no) 0;;
          sys_free io_buf;;
          mret (-1)
        else
          upd_file fd_idx (λ _, File 0 flag a);;
          upd_inode a (set_write_deny 0);;
          e ← lift (create_dir_entry name inode_no (ft_code FT_REGULAR));
          ok ← sync_dir_entry parent_dir e;
          if negb ok then
            printk "sync dir_entry to disk failed";;
            upd_file fd_idx (λ _, File 0 0 0);;
            sys_free a;;
            modify (λ f, set_inodes (delete a (inodes f)) f);;
            set_inode_bit (u32 inode_no) 0;;
            sys_free io_buf;;
            mret (-1)
          else
            pi ← dir_inode parent_dir;
            inode_sync pi;;
            i ← rd_inode a;
            inode_sync i;;
            bitmap_sync inode_no INODE_BITMAP;;
            modify (λ f, set_open (a :: open_inodes f) f);;
            upd_inode a (set_open_cnts 1);;
            sys_free io_buf;;
            pcb_fd_install fd_idx.
End dir.
