(* ===== verification/Path.v ===== *)
(** fs/fs.c, first part: path names.

    A path is a C string in a buffer; [path_parse] copies one component into
    the caller's 16-byte [name] and returns the rest of the path.  A component
    that does not fit runs over the buffer, which is [Fault] here. *)

From S2P Require Import Prelude Bitmap Bytes CString Layout.

Open Scope Z_scope.

Definition SLASH : Z := 47.

(** [while ( *(++pathname) == '/')] *)
Fixpoint skip_slashes (p : bytes) : res bytes :=
  match p with
  | [] => Fault
  | c :: r => if c =? SLASH then skip_slashes r else Ok p
  end.

(** The copying loop: the rest of the path and the name buffer. *)
Fixpoint copy_name (p name : bytes) : res (bytes * bytes) :=
  match p with
  | [] => Fault
  | c :: r =>
      if negb (c =? SLASH) && negb (c =? 0) then
        match name with
        | [] => Fault
        | _ :: n => x ← copy_name r n; Ok (fst x, c :: snd x)
        end
      else Ok (p, name)
  end.

Definition path_parse (pathname name_store : bytes) : res (option bytes * bytes) :=
  p ← match pathname with
      | [] => Fault
      | c :: r => if c =? SLASH then skip_slashes r else Ok pathname
      end;
  x ← copy_name p name_store;
  match fst x with
  | [] => Fault
  | c :: _ => Ok (if c =? 0 then None else Some (fst x), snd x)
  end.

Definition first_char (b : bytes) : Z := hd 0 b.

(** The counting loop; a round that runs out of path keeps [p] NULL. *)
Fixpoint depth_loop (fuel : nat) (p : option bytes) (name : bytes) (depth : Z) : res Z :=
  match fuel with
  | O => NoFuel
  | S fuel =>
      if first_char name =? 0 then Ok depth
      else
        x ← match p with
            | Some p => path_parse p (zeros 16)
            | None => Ok (None, zeros 16)
            end;
        depth_loop fuel (fst x) (snd x) (u32 (depth + 1))
  end.

(** [junk] is what the uninitialised local [name] holds. *)
Definition path_depth_cnt (junk pathname : bytes) : res Z :=
  x ← path_parse pathname junk;
  depth_loop (S (S (length pathname))) (fst x) (snd x) 0.

(** ** What a path means *)

Definition good_component (c : bytes) : Prop := cstr c /\ (SLASH ∉ c) /\ 0 < zlen c <= 16.

(** [/c1/c2/../cn]; [slashes] allows repeated separators. *)
Fixpoint render (slashes : list nat) (cs : list bytes) : bytes :=
  match cs with
  | [] => []
  | c :: cs => SLASH :: replicate (hd 0%nat slashes) SLASH ++ c ++ render (tail slashes) cs
  end.

(** [path] starts with a component boundary or is empty. *)
Definition at_boundary (r : bytes) : Prop := r = [] \/ exists r', r = SLASH :: r'.

Lemma skip_slashes_ok n r rest : (forall r', r <> SLASH :: r') ->
  skip_slashes (replicate n SLASH ++ r ++ 0 :: rest) = Ok (r ++ 0 :: rest).
Proof.
  intros Hr. induction n as [|n IH]; cbn [replicate app skip_slashes].
  - destruct r as [|c r]; [done|]. simpl. destruct (Z.eqb_spec c SLASH) as [->|]; [|done].
    by destruct (Hr r).
  - change (SLASH =? SLASH) with true. done.
Qed.

Lemma copy_name_ok c r rest name : cstr c -> SLASH ∉ c -> zlen c <= zlen name -> at_boundary r ->
  copy_name (c ++ r ++ 0 :: rest) name = Ok (r ++ 0 :: rest, c ++ drop (length c) name).
Proof.
  revert name. unfold zlen. induction c as [|x c IH]; intros name Hc Hs Hl Hr.
  - destruct Hr as [-> | [r' ->]]; reflexivity.
  - apply cstr_cons in Hc as [Hx Hc]. apply not_elem_of_cons in Hs as [Hxs Hs].
    cbn [app copy_name]. rewrite (proj2 (Z.eqb_neq x SLASH)), (proj2 (Z.eqb_neq x 0)) by (congruence || lia).
    destruct name as [|y name]; [simpl in Hl; lia|]. cbn [negb andb].
    rewrite IH by (done || simpl in Hl; lia). done.
Qed.

Lemma path_parse_component n c r rest name : good_component c -> zlen c <= zlen name -> at_boundary r ->
  path_parse (SLASH :: replicate n SLASH ++ c ++ r ++ 0 :: rest) name =
    Ok (match r with [] => None | _ => Some (r ++ 0 :: rest) end, c ++ drop (length c) name).
Proof.
  intros (Hc & Hs & Hl0) Hl Hr. unfold path_parse. change (SLASH =? SLASH) with true. cbv iota.
  rewrite (app_assoc c), skip_slashes_ok.
  2: { intros r' E. destruct c as [|x c]; [unfold zlen in Hl0; simpl in Hl0; lia|].
       injection E as -> _. set_solver. }
  cbn [mbind res_bind]. rewrite <- app_assoc, copy_name_ok by done. cbn [mbind res_bind fst snd].
  destruct Hr as [-> | [r' ->]]; reflexivity.
Qed.

(** The end of a path: a single trailing separator leaves an empty name. *)
Lemma first_char_component c b : good_component c -> (first_char (c ++ b) =? 0) = false.
Proof.
  intros (Hc & _ & Hl). destruct c as [|x c]; [unfold zlen in Hl; simpl in Hl; lia|].
  apply cstr_cons in Hc as [Hx _]. simpl. apply Z.eqb_neq. lia.
Qed.

Lemma render_boundary sl cs : at_boundary (render sl cs).
Proof. destruct cs as [|c cs]; [by left|right]. by eexists. Qed.

Lemma render_nil sl cs : render sl cs = [] -> cs = [].
Proof. by destruct cs. Qed.

Lemma depth_loop_ok sl cs rest : Forall good_component cs ->
  forall name k fuel, first_char name <> 0 -> 0 <= k -> k + zlen cs + 1 < 4294967296 ->
  (length cs + 2 <= fuel)%nat ->
  depth_loop fuel (match render sl cs with [] => None | _ => Some (render sl cs ++ 0 :: rest) end) name k =
    Ok (k + zlen cs + 1).
Proof.
  intros Hcs. revert sl. induction Hcs as [|c cs Hc Hcs IH]; intros sl name k fuel Hn Hk Hb Hf.
  - destruct fuel as [|[|fuel]]; [simpl in Hf; lia..|]. cbn [render depth_loop].
    rewrite (proj2 (Z.eqb_neq _ _) Hn). cbn [mbind res_bind fst snd depth_loop].
    change (first_char (zeros 16) =? 0) with true. cbv iota. unfold zlen in *. simpl in *.
    rewrite u32_small by lia. f_equal. lia.
  - destruct fuel as [|fuel]; [simpl in Hf; lia|]. cbn [render depth_loop].
    rewrite (proj2 (Z.eqb_neq _ _) Hn). cbn [app]. rewrite <- !app_assoc.
    rewrite (path_parse_component _ c (render (tail sl) cs)); [|done| |apply render_boundary].
    2: { destruct Hc as (_ & _ & ?). rewrite zeros_length; lia. }
    cbn [mbind res_bind fst snd]. unfold zlen in *. simpl in Hb, Hf.
    rewrite u32_small by lia. rewrite IH; [f_equal; simpl; lia| |lia|lia|lia].
    apply Z.eqb_neq. by apply first_char_component.
Qed.

Lemma render_length sl cs : Forall good_component cs -> (length cs <= length (render sl cs))%nat.
Proof.
  intros Hcs. revert sl. induction Hcs as [|c cs _ _ IH]; intros sl; [done|]. simpl.
  rewrite !length_app. specialize (IH (tail sl)). lia.
Qed.

(** C0: [path_depth_cnt] counts the components of an absolute path.  For
    [/c1/../cn] with any number of repeated separators between components of
    at most 16 characters it returns [n], whatever the uninitialised name
    buffer held. *)
Theorem path_depth_counts junk sl cs rest : Forall good_component cs -> cs <> [] ->
  zlen junk = 16 -> zlen (render sl cs ++ 0 :: rest) < 4294967296 ->
  path_depth_cnt junk (render sl cs ++ 0 :: rest) = Ok (zlen cs).
Proof.
  intros Hcs Hne Hj Hlen. destruct cs as [|c cs]; [done|]. apply Forall_cons in Hcs as [Hc Hcs].
  unfold path_depth_cnt. pose proof (render_length (tail sl) cs Hcs) as Hrl.
  assert (Hc16 : zlen c <= zlen junk) by (destruct Hc as (_ & _ & ?); lia).
  cbn [render]. replace ((SLASH :: replicate (hd 0%nat sl) SLASH ++ c ++ render (tail sl) cs) ++ 0 :: rest)
    with (SLASH :: replicate (hd 0%nat sl) SLASH ++ c ++ render (tail sl) cs ++ 0 :: rest)
    by (simpl; by rewrite <- !app_assoc).
  rewrite path_parse_component by (done || apply render_boundary). cbn [mbind res_bind fst snd].
  rewrite depth_loop_ok; [f_equal; unfold zlen; simpl; lia|done| |lia| |].
  - apply Z.eqb_neq. by apply first_char_component.
  - unfold zlen in *. rewrite length_app in Hlen. simpl in Hlen. rewrite !length_app in Hlen. lia.
  - simpl. rewrite !length_app. simpl. lia.
Qed.

Lemma path_depth_counts_witness :
  path_depth_cnt (replicate 16 170) (render [0; 2]%nat [[97]; [98; 99]] ++ 0 :: []) = Ok (zlen [[97]; [98; 99]]).
Proof.
  apply (path_depth_counts (replicate 16 170) [0; 2]%nat [[97]; [98; 99]] []);
    [|discriminate|reflexivity|reflexivity].
  rewrite !Forall_cons, Forall_nil. unfold good_component, cstr, zlen, SLASH. rewrite !Forall_cons, !Forall_nil.
  simpl. split_and!; (lia || set_solver).
Defined.
