(* ===== verification/CmdLine.v ===== *)
(** The two text routines of the shell: [cmd_parse] of shell/shell.c, which
    cuts a line into words in place, and [wash_path] of shell/buildin_cmd.c,
    which resolves [.] and [..] in a path.

    As in CString.v a pointer is the rest of its object.  [cmd_parse] gives
    [argv] as offsets into the line, with [None] for NULL. *)

From S2P Require Import Prelude Bitmap Bytes CString Layout Path.

Open Scope Z_scope.

Definition MAX_ARG_NR : Z := 16.

(** The characters a scanning loop passes over, and the pointer after it. *)
Fixpoint scan_while (f : Z -> bool) (p : bytes) : res (bytes * bytes) :=
  match p with
  | [] => Fault
  | c :: r => if f c then x ← scan_while f r; Ok (c :: fst x, snd x) else Ok ([], p)
  end.

(** [argv[i] = p] *)
Definition argv_store (argv : list (option Z)) (i : Z) (p : Z) : res (list (option Z)) :=
  if (0 <=? i) && (i <? zlen argv) then Ok (zupd argv i (Some p)) else Fault.

(** The outer loop: [next] is at offset [off]; the result has the memory from
    the old [next] on. *)
Fixpoint parse_loop (fuel : nat) (token : Z) (next : bytes) (off argc : Z) (argv : list (option Z))
    : res (Z * list (option Z) * bytes) :=
  match fuel with
  | O => NoFuel
  | S fuel =>
      if first_char next =? 0 then match next with [] => Fault | _ => Ok (argc, argv, next) end
      else
        x ← scan_while (λ c, c =? token) next;
        let '(blank, next) := x in
        let off := off + zlen blank in
        if first_char next =? 0 then Ok (argc, argv, blank ++ next)
        else
          argv ← argv_store argv argc off;
          x ← scan_while (λ c, negb (c =? 0) && negb (c =? token)) next;
          let '(word, next) := x in
          let off := off + zlen word in
          let sep := if first_char next =? 0 then [] else [0] in
          let next := if first_char next =? 0 then next else drop 1 next in
          if MAX_ARG_NR <? argc then Ok (-1, argv, blank ++ word ++ sep ++ next)
          else
            r ← parse_loop fuel token next (off + zlen sep) (argc + 1) argv;
            Ok (fst r, blank ++ word ++ sep ++ snd r)
  end.

Definition cmd_parse (cmd_str : bytes) (token : Z) : res (Z * list (option Z) * bytes) :=
  parse_loop (S (length cmd_str)) token cmd_str 0 0 (replicate (Z.to_nat MAX_ARG_NR) None).

(** ** Words *)

Definition emit (w : bytes) : list bytes := match w with [] => [] | _ => [w] end.

(** The words of a line, one character at a time; [w] is the word so far. *)
Fixpoint words_from (token : Z) (w s : bytes) : list bytes :=
  match s with
  | [] => emit w
  | c :: s => if c =? token then emit w ++ words_from token [] s else words_from token (w ++ [c]) s
  end.
Definition words (token : Z) (s : bytes) : list bytes := words_from token [] s.

(** From index [i] on [argv] points to the words, each terminated, in the
    memory [mem] that starts at offset [base]; then come NULLs. *)
Definition argv_holds (argv : list (option Z)) (base : Z) (mem : bytes) (i : Z) (ws : list bytes) : Prop :=
  (forall k w, znth ws k = Some w ->
     exists off rest, znth argv (i + k) = Some (Some (base + off)) /\ 0 <= off /\
       drop (Z.to_nat off) mem = w ++ 0 :: rest) /\
  (forall k, i + zlen ws <= k < zlen argv -> znth argv k = Some None).

Lemma words_skip token (a s : bytes) : Forall (λ c, c = token) a -> words token (a ++ s) = words token s.
Proof. unfold words. induction 1 as [|c a -> _ IH]; [done|]. simpl. by rewrite Z.eqb_refl. Qed.

Lemma words_from_word token v w s : Forall (λ c, c <> token) w ->
  words_from token v (w ++ s) = words_from token (v ++ w) s.
Proof.
  intros Hw. revert v. induction Hw as [|c w Hc _ IH]; intros v; simpl; [by rewrite app_nil_r|].
  rewrite (proj2 (Z.eqb_neq c token)), IH by done. by rewrite <- app_assoc.
Qed.

Lemma scan_while_ok f a s : Forall (λ c, f c = true) a -> (exists c r, s = c :: r /\ f c = false) ->
  scan_while f (a ++ s) = Ok (a, s).
Proof.
  intros Ha (c & r & -> & Hc). induction Ha as [|x a Hx _ IH]; simpl; [by rewrite Hc|]. by rewrite Hx, IH.
Qed.

(** A line is blanks, then nothing or a word and the rest. *)
Lemma split_blank token (s : bytes) : exists a t : bytes, s = a ++ t /\ Forall (λ c, c = token) a /\
  (t = [] \/ exists c t', t = c :: t' /\ c <> token).
Proof.
  induction s as [|c s (a & t & -> & Ha & Ht)]; [exists [], []; auto|].
  destruct (decide (c = token)) as [->|Hc].
  - exists (token :: a), t. auto.
  - exists [], (c :: a ++ t). split; [done|]. split; [constructor|]. right. eauto.
Qed.

Lemma split_word token (t : bytes) : exists w u : bytes, t = w ++ u /\ Forall (λ c, c <> token) w /\
  (u = [] \/ exists u', u = token :: u').
Proof.
  induction t as [|c t (w & u & -> & Hw & Hu)]; [exists [], []; auto|].
  destruct (decide (c = token)) as [->|Hc].
  - exists [], (token :: w ++ u). eauto.
  - exists (c :: w), u. auto.
Qed.

Lemma first_char_cstr s rest : cstr s -> first_char (s ++ 0 :: rest) = 0 -> s = [].
Proof. destruct s as [|c s]; [done|]. intros [Hc _]%cstr_cons. simpl. lia. Qed.

Lemma scan_blank token a t rest : Forall (λ c, c = token) a -> token <> 0 ->
  (t = [] \/ exists c t', t = c :: t' /\ c <> token) ->
  scan_while (λ c, c =? token) (a ++ t ++ 0 :: rest) = Ok (a, t ++ 0 :: rest).
Proof.
  intros Ha Ht Hs. apply scan_while_ok.
  - eapply Forall_impl; [exact Ha|]. intros c ->. apply Z.eqb_refl.
  - destruct Hs as [-> | (c & t' & -> & Hc)]; eexists _, _; (split; [reflexivity|]); apply Z.eqb_neq; congruence.
Qed.

Lemma scan_word token w u rest : cstr w -> Forall (λ c, c <> token) w ->
  (u = [] \/ exists u', u = token :: u') ->
  scan_while (λ c, negb (c =? 0) && negb (c =? token)) (w ++ u ++ 0 :: rest) = Ok (w, u ++ 0 :: rest).
Proof.
  intros Hw Hn Hu. apply scan_while_ok.
  - unfold cstr in Hw. rewrite Forall_forall in *. intros c Hc. specialize (Hw c Hc). specialize (Hn c Hc). simpl.
    by rewrite (proj2 (Z.eqb_neq c 0)), (proj2 (Z.eqb_neq c token)) by lia.
  - destruct Hu as [-> | (u' & ->)]; eexists _, _; (split; [reflexivity|]); [done|].
    by rewrite Z.eqb_refl, andb_false_r.
Qed.

Lemma first_char_0 s rest : cstr s -> (first_char (s ++ 0 :: rest) =? 0) = bool_decide (s = []).
Proof.
  intros Hs. destruct s as [|c s]; [done|]. apply cstr_cons in Hs as [Hc _]. simpl.
  apply Z.eqb_neq. lia.
Qed.

Section parse.
Context (token : Z) (Htok : 0 < token < 256).
Implicit Types s rest : bytes.

(** One round: nothing is left but blanks, or a word is taken. *)
Lemma parse_step fuel s rest off argc argv : cstr s ->
  (words token s = [] /\ parse_loop (S fuel) token (s ++ 0 :: rest) off argc argv = Ok (argc, argv, s ++ 0 :: rest)) \/
  exists (a w v sep : bytes), words token s = w :: words token v /\ cstr v /\ w <> [] /\
    length s = (length a + length w + length sep + length v)%nat /\
    (sep = [0] \/ sep = [] /\ v = []) /\
    parse_loop (S fuel) token (s ++ 0 :: rest) off argc argv =
      (argv ← argv_store argv argc (off + zlen a);
       if MAX_ARG_NR <? argc then Ok (-1, argv, a ++ w ++ sep ++ v ++ 0 :: rest)
       else
         r ← parse_loop fuel token (v ++ 0 :: rest) (off + zlen a + zlen w + zlen sep) (argc + 1) argv;
         Ok (fst r, a ++ w ++ sep ++ snd r)).
Proof.
  intros Hs. destruct (split_blank token s) as (a & t & -> & Ha & Ht).
  apply Forall_app in Hs as [Hca Hct]. rewrite words_skip by done. cbn [parse_loop].
  rewrite first_char_0 by (by apply Forall_app). rewrite <- app_assoc.
  rewrite scan_blank by (done || lia). rcbn. rewrite first_char_0 by done.
  destruct Ht as [-> | (c & t' & -> & Hc)].
  { left. split; [done|]. rewrite (bool_decide_true (([] : bytes) = [])) by done.
    rewrite app_nil_r. case_bool_decide as E; [by subst|done]. }
  right. destruct (split_word token (c :: t')) as (w & u & E & Hw & Hu). rewrite E in Hct |- *.
  apply Forall_app in Hct as [Hcw Hcu].
  assert (Hwn : w <> []).
  { intros ->. simpl in E. destruct Hu as [-> | (u' & ->)]; [done|]. by injection E as -> _. }
  rewrite !bool_decide_false.
  2: { intros E'. apply app_eq_nil in E' as [E' _]. done. }
  2: { intros E'. apply app_eq_nil in E' as [_ E']. apply app_eq_nil in E' as [E' _]. done. }
  assert (Hlw : (0 < length w)%nat) by (destruct w; [done|simpl; lia]).
  rewrite <- app_assoc. rewrite scan_word by done.
  destruct Hu as [-> | (u' & ->)].
  - exists a, w, [], []. split.
    { unfold words. rewrite words_from_word, app_nil_l by done. by destruct w. }
    split; [constructor|]. split; [done|]. split; [rewrite !length_app; simpl; lia|]. split; [by right|]. done.
  - apply cstr_cons in Hcu as [_ Hcu]. exists a, w, u', [0]. split.
    { unfold words. rewrite words_from_word, app_nil_l by done. simpl. rewrite Z.eqb_refl. by destruct w. }
    split; [done|]. split; [done|]. split; [rewrite !length_app; simpl; lia|]. split; [by left|].
    rcbn. cbn [app first_char hd]. rewrite (proj2 (Z.eqb_neq token 0)) by lia. done.
Qed.

Lemma argv_store_ok argv i p : 0 <= i < zlen argv -> argv_store argv i p = Ok (zupd argv i (Some p)).
Proof. intros Hi. unfold argv_store. by rewrite (proj2 (Z.leb_le 0 i)), (proj2 (Z.ltb_lt i (zlen argv))) by lia. Qed.

(** The word just taken, in the memory that results. *)
Lemma word_in_place (a w sep m v rest : bytes) : (sep = [0] \/ sep = [] /\ v = []) -> (v = [] -> m = 0 :: rest) ->
  exists r, drop (Z.to_nat (zlen a)) (a ++ w ++ sep ++ m) = w ++ 0 :: r.
Proof.
  intros Hs Hm. unfold zlen. rewrite Nat2Z.id, drop_app_length. destruct Hs as [-> | [-> Hv]].
  - by exists m.
  - rewrite (Hm Hv). by exists rest.
Qed.

Lemma parse_ok rest fuel : forall s off argc argv, cstr s -> (length s < fuel)%nat ->
  zlen argv = MAX_ARG_NR -> 0 <= argc -> argc + zlen (words token s) <= MAX_ARG_NR ->
  (forall k, argc <= k < MAX_ARG_NR -> znth argv k = Some None) ->
  exists argv' mem, parse_loop fuel token (s ++ 0 :: rest) off argc argv = Ok (argc + zlen (words token s), argv', mem) /\
    zlen argv' = MAX_ARG_NR /\ (forall k, 0 <= k < argc -> znth argv' k = znth argv k) /\
    argv_holds argv' off mem argc (words token s) /\ (s = [] -> mem = 0 :: rest) /\ length mem = length (s ++ 0 :: rest).
Proof.
  unfold MAX_ARG_NR. induction fuel as [|fuel IH]; intros s off argc argv Hs Hf Hlen Ha Hw Hnull; [lia|].
  destruct (parse_step fuel s rest off argc argv Hs) as [[Ew Ep]|(a & w & v & sep & Ew & Hv & Hwn & Hl & Hsep & Ep)].
  { exists argv, (s ++ 0 :: rest). rewrite Ep, Ew. unfold zlen at 1. simpl length. rewrite Z.add_0_r.
    split; [done|]. split; [done|]. split; [done|]. split; [|split; [by intros ->|done]].
    split; [intros k w Hk; apply znth_lt in Hk; unfold zlen in Hk; simpl in Hk; lia|].
    intros k. rewrite Hlen. unfold zlen. simpl. intros Hk. apply Hnull. lia. }
  assert (Hlw : zlen (words token s) = 1 + zlen (words token v)) by (rewrite Ew; unfold zlen; simpl; lia).
  assert (Hlw0 : (0 < length w)%nat) by (destruct w; [done|simpl; lia]).
  assert (H0 : 0 <= zlen (words token v)) by apply zlen_nonneg.
  rewrite Ep, argv_store_ok by lia. rcbn. unfold MAX_ARG_NR. rewrite (proj2 (Z.ltb_ge 16 argc)) by lia.
  destruct (IH v (off + zlen a + zlen w + zlen sep) (argc + 1) (zupd argv argc (Some (off + zlen a))))
    as (argv' & m & -> & Hlen' & Hkeep & [Hptr Hrest] & Hm & Hml); try done; try lia.
  { by rewrite zlen_upd. }
  { intros k Hk. rewrite znth_upd_ne by lia. apply Hnull. lia. }
  rcbn. exists argv', (a ++ w ++ sep ++ m). cbn [fst snd]. split; [do 2 f_equal; f_equal; lia|].
  split; [done|]. split.
  { intros k Hk. rewrite Hkeep by lia. by rewrite znth_upd_ne by lia. }
  split; [split|].
  - intros k x Hk. rewrite Ew in Hk. destruct (decide (k = 0)) as [->|Hk0].
    + injection Hk as <-. destruct (word_in_place a w sep m v rest Hsep Hm) as [r Hr].
      exists (zlen a), r. rewrite Z.add_0_r, Hkeep, znth_upd_eq by lia. split; [done|]. split; [apply zlen_nonneg|done].
    + assert (Hx : znth (words token v) (k - 1) = Some x).
      { assert (0 <= k) by (apply znth_lt in Hk; lia). change (w :: words token v) with ([w] ++ words token v) in Hk.
        rewrite znth_app_r in Hk by (unfold zlen; simpl; lia). exact Hk. }
      destruct (Hptr _ _ Hx) as (o & r & Ho & Ho0 & Hd). exists (zlen a + zlen w + zlen sep + o), r.
      replace (argc + k) with (argc + 1 + (k - 1)) by lia. rewrite Ho. split; [do 2 f_equal; lia|].
      pose proof (zlen_nonneg a). pose proof (zlen_nonneg w). pose proof (zlen_nonneg sep). split; [lia|].
      rewrite !app_assoc, drop_app_ge by (rewrite !length_app; unfold zlen in *; lia).
      rewrite <- Hd. f_equal. rewrite !length_app. unfold zlen in *. lia.
  - intros k Hk. apply Hrest. lia.
  - split; [intros ->; unfold words in Ew; simpl in Ew; done|]. rewrite !length_app, Hml, length_app.
    simpl. lia.
Qed.

(** The 17th word is stored behind the array. *)
Lemma parse_overflow rest fuel : forall s off argc argv, cstr s -> (length s < fuel)%nat ->
  zlen argv = MAX_ARG_NR -> 0 <= argc <= MAX_ARG_NR -> MAX_ARG_NR < argc + zlen (words token s) ->
  parse_loop fuel token (s ++ 0 :: rest) off argc argv = Fault.
Proof.
  unfold MAX_ARG_NR. induction fuel as [|fuel IH]; intros s off argc argv Hs Hf Hlen Ha Hw; [lia|].
  destruct (parse_step fuel s rest off argc argv Hs) as [[Ew _]|(a & w & v & sep & Ew & Hv & Hwn & Hl & _ & Ep)].
  { rewrite Ew in Hw. unfold zlen in Hw. simpl in Hw. lia. }
  assert (Hlw : zlen (words token s) = 1 + zlen (words token v)) by (rewrite Ew; unfold zlen; simpl; lia).
  assert (Hlw0 : (0 < length w)%nat) by (destruct w; [done|simpl; lia]).
  rewrite Ep. destruct (decide (argc = 16)) as [->|Hne].
  - unfold argv_store. rewrite Hlen. done.
  - rewrite argv_store_ok by lia. rcbn. unfold MAX_ARG_NR. rewrite (proj2 (Z.ltb_ge 16 argc)) by lia.
    rewrite IH; [done|done|lia|by rewrite zlen_upd|lia|lia].
Qed.

(** C23: [cmd_parse] splits like the reference [words].  A line of at most 16
    words gives [argc], the number of the words of the line in the sense of
    [words], [argv] pointing to each word, cut off in place by a terminator,
    and NULL behind them; a line of more words is written behind [argv], so
    the return value -1 that is meant for it is never seen. *)
Theorem cmd_parse_words s rest : cstr s ->
  if decide (zlen (words token s) <= MAX_ARG_NR) then
    exists argv mem, cmd_parse (s ++ 0 :: rest) token = Ok (zlen (words token s), argv, mem) /\
      zlen argv = MAX_ARG_NR /\ zlen mem = zlen (s ++ 0 :: rest) /\ argv_holds argv 0 mem 0 (words token s)
  else cmd_parse (s ++ 0 :: rest) token = Fault.
Proof.
  intros Hs. unfold cmd_parse.
  assert (Hlen : zlen (replicate (Z.to_nat MAX_ARG_NR) (@None Z)) = MAX_ARG_NR) by reflexivity.
  assert (Hf : (length s < S (length (s ++ 0%Z :: rest)))%nat) by (rewrite length_app; simpl; lia).
  case_decide as Hw.
  - destruct (parse_ok rest _ s 0 0 _ Hs Hf Hlen) as (argv & mem & E & Hl & _ & Ha & _ & Hm); [lia|lia| |].
    { intros k Hk. unfold znth. destruct (Z.ltb_spec k 0); [lia|]. rewrite lookup_replicate_2; [done|]. lia. }
    exists argv, mem. split; [exact E|]. split; [done|]. split; [unfold zlen; by rewrite Hm|done].
  - apply parse_overflow; try done. unfold MAX_ARG_NR in *. lia.
Qed.
End parse.

(** ["ls  -l "] *)
Lemma cmd_parse_words_witness :
  exists argv mem, cmd_parse ([108; 115; 32; 32; 45; 108; 32] ++ 0 :: [9]) 32 = Ok (2, argv, mem) /\
    zlen argv = MAX_ARG_NR /\ zlen mem = 9 /\ argv_holds argv 0 mem 0 [[108; 115]; [45; 108]].
Proof.
  refine (cmd_parse_words 32 _ [108; 115; 32; 32; 45; 108; 32] [9] _); [lia|].
  repeat apply Forall_cons_2; try apply Forall_nil_2; lia.
Defined.

Example cmd_parse_example :
  cmd_parse [108; 115; 32; 32; 45; 108; 32; 0; 9] 32 =
    Ok (2, [Some 0; Some 4] ++ replicate 14 None, [108; 115; 0; 32; 45; 108; 0; 0; 9]).
Proof. vm_compute. reflexivity. Qed.

(** ** wash_path *)

(** [p[i] = x] *)
Definition poke (p : bytes) (i x : Z) : res bytes :=
  if (0 <=? i) && (i <? zlen p) then Ok (zupd p i x) else Fault.

Definition dot : bytes := [46].
Definition dotdot : bytes := [46; 46].

(** One round of the loop on [new_abs_path] for the component in [name]. *)
Definition wash_round (name new_abs_path : bytes) : res bytes :=
  up ← strcmp (dotdot ++ [0]) name;
  if up =? 0 then
    slash_ptr ← strrchr new_abs_path SLASH;
    match slash_ptr with
    | None => Fault
    | Some o => if negb (o =? 0) then poke new_abs_path o 0 else poke new_abs_path (o + 1) 0
    end
  else
    here ← strcmp (dot ++ [0]) name;
    if negb (here =? 0) then
      root ← strcmp new_abs_path [SLASH; 0];
      new_abs_path ← (if negb (root =? 0) then strcat new_abs_path [SLASH; 0] else Ok new_abs_path);
      strcat new_abs_path name
    else Ok new_abs_path.

Fixpoint wash_loop (fuel : nat) (sub_path : option bytes) (name new_abs_path : bytes) : res bytes :=
  match fuel with
  | O => NoFuel
  | S fuel =>
      if first_char name =? 0 then Ok new_abs_path
      else
        new_abs_path ← wash_round name new_abs_path;
        x ← match sub_path with
            | Some p => path_parse p (zeros MAX_FILE_NAME_LEN)
            | None => Ok (None, zeros MAX_FILE_NAME_LEN)
            end;
        wash_loop fuel (fst x) (snd x) new_abs_path
  end.

Definition wash_path (old_abs_path new_abs_path : bytes) : res bytes :=
  match old_abs_path with
  | [] => Fault
  | c :: _ =>
      _ ← ASSERT (c =? SLASH) "old_abs_path[0] == '/'";
      x ← path_parse old_abs_path (zeros MAX_FILE_NAME_LEN);
      let '(sub_path, name) := x in
      if first_char name =? 0 then
        new_abs_path ← poke new_abs_path 0 SLASH;
        poke new_abs_path 1 0
      else
        new_abs_path ← poke new_abs_path 0 0;
        new_abs_path ← strcat new_abs_path [SLASH; 0];
        wash_loop (S (S (length old_abs_path))) sub_path name new_abs_path
  end.

(** ** What a path resolves to *)

(** The directory reached from [st] by one component. *)
Definition resolve (st : list bytes) (c : bytes) : list bytes :=
  if decide (c = dotdot) then removelast st else if decide (c = dot) then st else st ++ [c].

(** The path of a directory below the root, without [.], [..] and doubled
    separators. *)
Definition path_str (st : list bytes) : bytes :=
  match st with [] => [SLASH] | _ => concat (map (λ c, SLASH :: c) st) end.

(** A name that fits [name] with its terminator. *)
Definition short_component (c : bytes) : Prop := good_component c /\ zlen c < MAX_FILE_NAME_LEN.

(** A path with any separators between its components and at its end. *)
Definition any_path (slashes : list nat) (cs : list bytes) (trail : nat) : bytes :=
  render slashes cs ++ replicate trail SLASH.

Definition clean_len (st : list bytes) : Z := zlen (concat (map (λ c, SLASH :: c) st)).

Lemma zupd_at (a : bytes) x b y : zupd (a ++ x :: b) (zlen a) y = a ++ y :: b.
Proof.
  apply zlist_eq.
  - rewrite zlen_upd. unfold zlen. rewrite !length_app. simpl. lia.
  - intros k Hk. rewrite zlen_upd in Hk. pose proof (zlen_nonneg a). destruct (decide (k = zlen a)) as [->|Hne].
    + rewrite znth_upd_eq by lia. rewrite znth_app_r, Z.sub_diag by lia. done.
    + rewrite znth_upd_ne by done. destruct (decide (k < zlen a)).
      * by rewrite !znth_app_l by lia.
      * rewrite !znth_app_r by lia. change (x :: b) with ([x] ++ b). change (y :: b) with ([y] ++ b).
        rewrite !znth_app_r by (unfold zlen in *; simpl; lia). done.
Qed.

Lemma poke_at (a : bytes) x b y : poke (a ++ x :: b) (zlen a) y = Ok (a ++ y :: b).
Proof.
  unfold poke. rewrite zupd_at. pose proof (zlen_nonneg a).
  rewrite (proj2 (Z.leb_le 0 (zlen a))), (proj2 (Z.ltb_lt (zlen a) (zlen (a ++ x :: b)))); [done| |lia].
  unfold zlen. rewrite length_app. simpl. lia.
Qed.

Lemma poke_0 x b y : poke (x :: b) 0 y = Ok (y :: b).
Proof. apply (poke_at [] x b y). Qed.
Lemma poke_1 a x b y : poke (a :: x :: b) 1 y = Ok (a :: y :: b).
Proof. apply (poke_at [a] x b y). Qed.

Lemma path_str_snoc st c : path_str (st ++ [c]) = concat (map (λ c, SLASH :: c) st) ++ SLASH :: c.
Proof.
  destruct st as [|x st]; [simpl; by rewrite app_nil_r|]. unfold path_str. cbn [app].
  change (x :: st ++ [c]) with ((x :: st) ++ [c]). rewrite map_app, concat_app. simpl. by rewrite app_nil_r.
Qed.

Lemma path_str_eq st : st <> [] -> path_str st = concat (map (λ c, SLASH :: c) st).
Proof. by destruct st. Qed.

Lemma clean_len_snoc st c : clean_len (st ++ [c]) = clean_len st + 1 + zlen c.
Proof. unfold clean_len, zlen. rewrite map_app, concat_app, length_app. simpl. rewrite app_nil_r. lia. Qed.

Lemma path_str_len st : zlen (path_str st) = Z.max 1 (clean_len st).
Proof. unfold clean_len. destruct st as [|c st]; [done|]. unfold path_str, zlen. simpl. lia. Qed.

Lemma path_str_cstr st : Forall good_component st -> cstr (path_str st).
Proof.
  intros Hst. assert (Hc : cstr (concat (map (λ c, SLASH :: c) st))).
  { induction Hst as [|c st [Hc _] _ IH]; [constructor|]. simpl. apply cstr_cons. split; [done|]. by apply Forall_app. }
  destruct st; [by apply Forall_singleton|done].
Qed.

Lemma strcmp_decides a b r1 r2 : cstr a -> cstr b ->
  exists v, strcmp (a ++ 0 :: r1) (b ++ 0 :: r2) = Ok v /\ (v =? 0) = bool_decide (a = b).
Proof.
  intros Ha Hb. pose proof (strcmp_eq_0 a b r1 r2 Ha Hb) as E. rewrite strcmp_ok in E by done.
  eexists. split; [by rewrite strcmp_ok|]. apply eq_bool_prop_intro. rewrite bool_decide_spec, Is_true_true, Z.eqb_eq.
  rewrite <- E. split; [by intros ->|by intros [= ->]].
Qed.

Lemma strrchr_last a c r : cstr a -> cstr c -> SLASH ∉ c ->
  strrchr ((a ++ SLASH :: c) ++ 0 :: r) SLASH = Ok (Some (zlen a)).
Proof.
  intros Ha Hc Hs. unfold strrchr. rewrite strrchr_from_ok.
  2: { apply Forall_app. split; [done|]. by apply cstr_cons. }
  rewrite reverse_app, reverse_cons, <- app_assoc.
  rewrite (list_find_app_r (λ c, c = SLASH) (reverse c)).
  2: { apply list_find_None. rewrite Forall_forall. intros x Hx Hp. cbv beta in Hp. subst x. by apply Hs, elem_of_reverse. }
  simpl. rewrite length_reverse.
  do 2 f_equal. unfold zlen. rewrite length_app. simpl. lia.
Qed.

Lemma good_cstr c : good_component c -> cstr c.
Proof. by intros [? _]. Qed.

Lemma good_resolve st c : Forall good_component st -> good_component c -> Forall good_component (resolve st c).
Proof.
  intros Hst Hc. unfold resolve. case_decide; [|case_decide; [done|]].
  - destruct st as [|x st _] using rev_ind; [done|]. rewrite removelast_last. by apply Forall_app in Hst as [? _].
  - apply Forall_app. by rewrite Forall_singleton.
Qed.

Lemma clean_len_resolve st c : clean_len (resolve st c) <= clean_len st + 1 + zlen c.
Proof.
  pose proof (zlen_nonneg c). unfold resolve. case_decide; [|case_decide; [lia|by rewrite clean_len_snoc]].
  destruct st as [|x st _] using rev_ind; [simpl; lia|]. rewrite removelast_last, clean_len_snoc.
  pose proof (zlen_nonneg x). lia.
Qed.

(** Lengths of concatenations. *)
Ltac zlens := unfold zlen in *; repeat (progress (simpl in *; rewrite ?length_app, ?length_drop in *)); simpl in *; lia.

(** One component more, in a buffer with room for it. *)
Lemma wash_round_ok st c z junk : Forall good_component st -> good_component c ->
  clean_len st + 1 + zlen c <= zlen (path_str st ++ junk) ->
  2 <= zlen (path_str st ++ 0 :: junk) ->
  exists junk', wash_round (c ++ 0 :: z) (path_str st ++ 0 :: junk) = Ok (path_str (resolve st c) ++ 0 :: junk') /\
    zlen (path_str (resolve st c) ++ 0 :: junk') = zlen (path_str st ++ 0 :: junk).
Proof.
  intros Hst Hgc Hroom H2. pose proof (good_cstr c Hgc) as Hc. pose proof (path_str_cstr st Hst) as Hp.
  assert (Hd : cstr dot /\ cstr dotdot) by (split; repeat constructor).
  unfold wash_round, resolve.
  destruct (strcmp_decides dotdot c [] z) as (v & -> & Ev); [apply Hd|done|]. rcbn. rewrite Ev. clear v Ev.
  case_bool_decide as Eup; [rewrite decide_True by done|rewrite decide_False by done].
  - destruct st as [|x st _] using rev_ind.
    + change (strrchr (path_str [] ++ 0 :: junk) SLASH) with (strrchr (([] ++ SLASH :: []) ++ 0 :: junk) SLASH).
      rewrite strrchr_last; [|constructor|constructor|apply not_elem_of_nil]. rcbn. exists junk. split; [|done].
      apply (poke_at [SLASH] 0 junk 0).
    + rewrite removelast_last. apply Forall_app in Hst as [Hst Hx]. rewrite Forall_singleton in Hx.
      rewrite path_str_snoc in *. set (a := concat _) in *.
      assert (Ha : cstr a) by (by apply Forall_app in Hp as [? _]).
      rewrite strrchr_last by (done || apply Hx). rcbn.
      destruct st as [|y st].
      * exists (drop 1 (x ++ 0 :: junk)). change (negb (zlen a =? 0)) with false. cbv iota.
        change (zlen a + 1) with (zlen [SLASH]). change ((a ++ SLASH :: x) ++ 0 :: junk) with ([SLASH] ++ x ++ 0 :: junk).
        change (path_str []) with [SLASH].
        destruct x as [|b x]; [destruct Hx as (_ & _ & Hx); unfold zlen in Hx; simpl in Hx; lia|].
        split; [apply poke_at|]. unfold a. zlens.
      * exists (x ++ 0 :: junk). rewrite (path_str_eq (y :: st)) by done. fold a.
        rewrite (proj2 (Z.eqb_neq (zlen a) 0)); [|unfold a, zlen; simpl; lia]. cbn [negb].
        rewrite <- app_assoc. split; [apply (poke_at a SLASH)|]. zlens.
  - destruct (strcmp_decides dot c [] z) as (v & -> & Ev); [apply Hd|done|]. rcbn. rewrite Ev. clear v Ev.
    case_bool_decide as Ehere; [rewrite decide_True by done; by exists junk|rewrite decide_False by done]. cbn [negb].
    destruct (strcmp_decides (path_str st) [SLASH] junk []) as (v & E & Ev); [done|by apply Forall_singleton|].
    change ([SLASH] ++ [0]) with [SLASH; 0] in E. rewrite E. rcbn. rewrite Ev. clear v E Ev.
    assert (Hcl : (0 < length c)%nat) by (destruct Hgc as (_ & _ & ?); unfold zlen in *; lia).
    rewrite path_str_snoc. destruct st as [|y st].
    + change (path_str []) with [SLASH] in *. rewrite bool_decide_true by done. cbn [negb]. rcbn.
      rewrite strcat_ok; [|by apply Forall_singleton|done|].
      2: { unfold clean_len in *. zlens. }
      exists (drop (length c) junk). split; [done|]. unfold clean_len in *. zlens.
    + rewrite path_str_eq in * by done. unfold clean_len in Hroom. set (a := concat _) in *.
      rewrite bool_decide_false.
      2: { intros Ea. destruct y as [|b y]; [|by destruct y]. apply Forall_cons in Hst as [(_ & _ & Hy) _]. unfold zlen in Hy. simpl in Hy. lia. }
      cbn [negb]. change [SLASH; 0] with ([SLASH] ++ 0 :: []). rewrite (strcat_ok a [SLASH] [] junk); [|done|by apply Forall_singleton|].
      2: { zlens. }
      rcbn. rewrite app_assoc. rewrite strcat_ok; [|apply Forall_app; split; [done|by apply Forall_singleton]|done|].
      2: { zlens. }
      exists (drop (length c) (drop 1 junk)). rewrite <- !app_assoc. split; [done|]. zlens.
Qed.

Lemma any_path_cons sl c cs n :
  any_path sl (c :: cs) n = SLASH :: replicate (hd 0%nat sl) SLASH ++ c ++ any_path (tail sl) cs n.
Proof. unfold any_path. simpl. by rewrite <- !app_assoc. Qed.

Lemma any_path_boundary sl cs n : at_boundary (any_path sl cs n).
Proof.
  destruct cs as [|c cs]; [|right; rewrite any_path_cons; by eexists].
  unfold any_path. simpl. destruct n as [|n]; [by left|right]. by exists (replicate n SLASH).
Qed.

Lemma path_parse_slashes n rest name : path_parse (SLASH :: replicate n SLASH ++ 0 :: rest) name = Ok (None, name).
Proof.
  unfold path_parse. change (SLASH =? SLASH) with true. cbv iota.
  change (replicate n SLASH ++ 0 :: rest) with (replicate n SLASH ++ [] ++ 0 :: rest).
  by rewrite skip_slashes_ok.
Qed.

(** A pointer to the path, NULL at its end. *)
Definition path_ptr (p rest : bytes) : option bytes := match p with [] => None | _ => Some (p ++ 0 :: rest) end.

(** The next component, or none. *)
Lemma next_component sl cs n rest : Forall short_component cs ->
  match path_ptr (any_path sl cs n) rest with
  | Some p => path_parse p (zeros MAX_FILE_NAME_LEN)
  | None => Ok (None, zeros MAX_FILE_NAME_LEN)
  end =
    match cs with
    | [] => Ok (None, zeros MAX_FILE_NAME_LEN)
    | c :: cs => Ok (path_ptr (any_path (tail sl) cs n) rest,
                     c ++ drop (length c) (zeros MAX_FILE_NAME_LEN))
    end.
Proof.
  intros Hcs. destruct Hcs as [|c cs [Hc Hl] Hcs].
  - unfold any_path. simpl. destruct n as [|n]; [done|]. cbn [replicate app path_ptr]. by rewrite path_parse_slashes.
  - rewrite any_path_cons. cbn [path_ptr app]. rewrite <- !app_assoc.
    rewrite path_parse_component; [done|done| |apply any_path_boundary].
    rewrite zeros_length; unfold MAX_FILE_NAME_LEN in *; lia.
Qed.

Lemma short_name c : short_component c -> exists z, c ++ drop (length c) (zeros MAX_FILE_NAME_LEN) = c ++ 0 :: z.
Proof.
  intros [_ Hl]. unfold zeros, MAX_FILE_NAME_LEN, zlen in *. rewrite drop_replicate.
  destruct (Z.to_nat 16 - length c)%nat as [|k] eqn:E; [lia|]. by exists (replicate k 0).
Qed.

Lemma wash_loop_ok cs : Forall short_component cs -> forall sl n rest fuel st c junk,
  (length cs + 1 < fuel)%nat -> Forall good_component st -> short_component c ->
  clean_len st + 1 + zlen c + zlen (any_path sl cs n) < zlen (path_str st ++ 0 :: junk) ->
  2 <= zlen (path_str st ++ 0 :: junk) ->
  exists junk', wash_loop fuel (path_ptr (any_path sl cs n) rest)
      (c ++ drop (length c) (zeros MAX_FILE_NAME_LEN)) (path_str st ++ 0 :: junk) =
    Ok (path_str (fold_left resolve (c :: cs) st) ++ 0 :: junk') /\
    zlen (path_str (fold_left resolve (c :: cs) st) ++ 0 :: junk') = zlen (path_str st ++ 0 :: junk).
Proof.
  induction 1 as [|d cs Hd Hcs IH]; intros sl n rest fuel st c junk Hf Hst Hc Hroom H2;
    (destruct fuel as [|fuel]; [lia|]); cbn [wash_loop]; rewrite first_char_component by apply Hc;
    destruct (short_name c Hc) as [z Ez]; rewrite Ez;
    (destruct (wash_round_ok st c z junk) as (j & -> & Ej); [done|apply Hc|pose proof Hroom as Hr; zlens|done|]); rcbn.
  - rewrite (next_component sl [] n rest) by constructor. rcbn. exists j.
    destruct fuel as [|fuel]; [simpl in Hf; lia|]. done.
  - rewrite (next_component sl (d :: cs) n rest) by (by constructor). rcbn. cbn [fst snd].
    rewrite any_path_cons in Hroom.
    pose proof (clean_len_resolve st c). pose proof (zlen_nonneg c).
    destruct (IH (tail sl) n rest fuel (resolve st c) d j) as (j' & -> & Ej'); try done.
    + simpl in Hf. lia.
    + apply good_resolve; [done|apply Hc].
    + rewrite Ej. unfold zlen in Hroom |- *. simpl in Hroom. rewrite !length_app in Hroom.
      rewrite length_app. simpl in *. rewrite length_replicate in Hroom. unfold zlen in *. lia.
    + by rewrite Ej.
    + exists j'. split; [done|]. etransitivity; [exact Ej'|exact Ej].
Qed.

(** A washed path has no [.] or [..] left: washing it again changes nothing. *)
Lemma resolve_clean cs st : Forall (λ c, c <> dot /\ c <> dotdot) st ->
  Forall (λ c, c <> dot /\ c <> dotdot) (fold_left resolve cs st).
Proof.
  revert st. induction cs as [|c cs IH]; intros st Hst; simpl; [done|]. apply IH. unfold resolve.
  case_decide; [|case_decide; [done|by apply Forall_app; rewrite Forall_singleton]].
  destruct st as [|x st _] using rev_ind; [done|]. rewrite removelast_last. by apply Forall_app in Hst as [? _].
Qed.

Lemma resolve_same st : Forall (λ c, c <> dot /\ c <> dotdot) st -> forall acc, fold_left resolve st acc = acc ++ st.
Proof.
  induction 1 as [|c st [Hd Hdd] _ IH]; intros acc; simpl; [by rewrite app_nil_r|].
  unfold resolve at 2. rewrite !decide_False by done. by rewrite IH, <- app_assoc.
Qed.

(** C14: [wash_path] resolves a path like the reference [resolve].  For an
    absolute path of names of up to 15 characters, with any number of
    separators between them and at the end, it writes the canonical path of
    the directory reached by going up at each [..] (staying at the root) and
    nowhere at each [.]; a buffer as long as the given path is always enough,
    and washing the result again gives the same path. *)
Theorem wash_path_resolves sl cs n rest buf : Forall short_component cs ->
  any_path sl cs n <> [] -> zlen (any_path sl cs n) < zlen buf ->
  let st := fold_left resolve cs [] in
  (exists junk, wash_path (any_path sl cs n ++ 0 :: rest) buf = Ok (path_str st ++ 0 :: junk) /\
     zlen (path_str st ++ 0 :: junk) = zlen buf) /\
  fold_left resolve st [] = st.
Proof.
  intros Hcs Hne Hroom st. split.
  2: { unfold st. rewrite resolve_same; [done|]. by apply resolve_clean. }
  assert (Hb : exists b0 b1 buf', buf = b0 :: b1 :: buf').
  { destruct (any_path sl cs n); [done|]. destruct buf as [|? [|? ?]]; unfold zlen in Hroom; simpl in Hroom; try lia. eauto. }
  destruct Hb as (b0 & b1 & buf' & ->). unfold st. clear st.
  assert (Hfirst : exists p, any_path sl cs n = SLASH :: p).
  { destruct (any_path_boundary sl cs n) as [?|?]; done. }
  pose proof (next_component sl cs n rest Hcs) as Hnext.
  assert (Hptr : path_ptr (any_path sl cs n) rest = Some (any_path sl cs n ++ 0 :: rest))
    by (by destruct (any_path sl cs n)).
  rewrite Hptr in Hnext. unfold wash_path. destruct Hfirst as [p Hp].
  destruct (any_path sl cs n ++ 0 :: rest) as [|c path] eqn:Epath; [by rewrite Hp in Epath|].
  assert (Hc : c = SLASH) by (rewrite Hp in Epath; simpl in Epath; congruence).
  rewrite Hnext, Hc. change (SLASH =? SLASH) with true. rcbn.
  destruct Hcs as [|d cs Hd Hcs]; rcbn.
  - exists buf'. split; [|done]. change (first_char (zeros MAX_FILE_NAME_LEN) =? 0) with true. cbv iota.
    rewrite poke_0. rcbn. apply poke_1.
  - rewrite first_char_component by apply Hd. rewrite poke_0. rcbn.
    change [SLASH; 0] with ([SLASH] ++ 0 :: []).
    change (0 :: b1 :: buf') with ([] ++ 0 :: b1 :: buf').
    rewrite (strcat_ok [] [SLASH] [] (b1 :: buf')); [|constructor|by apply Forall_singleton|unfold zlen; simpl; lia].
    rcbn. rewrite any_path_cons in Hroom. cbn [app drop length].
    assert (Hpl : (length cs <= length path)%nat).
    { assert (Hl : length (any_path sl (d :: cs) n ++ 0 :: rest) = length (c :: path)) by (by rewrite Epath).
      pose proof (render_length (tail sl) cs) as Hr. specialize (Hr (Forall_impl _ _ _ Hcs (λ c, @proj1 _ _))).
      rewrite any_path_cons in Hl. unfold any_path in Hl. simpl in Hl. rewrite !length_app in Hl. lia. }
    destruct (wash_loop_ok cs Hcs (tail sl) n rest (S (S (length (c :: path)))) [] d buf') as (junk & E & El); try done.
    + simpl. lia.
    + unfold clean_len, zlen in *. simpl in *. rewrite !length_app in Hroom. lia.
    + unfold zlen. simpl. lia.
    + exists junk. split; [exact E|]. rewrite El. unfold zlen. simpl. lia.
Qed.

(** ["//a/./bc/../d/"] *)
Lemma wash_path_resolves_witness :
  (exists junk, wash_path (any_path [1%nat] [[97]; dot; [98; 99]; dotdot; [100]] 1 ++ 0 :: []) (zeros 512)
     = Ok ([47; 97; 47; 100] ++ 0 :: junk) /\ zlen ([47; 97; 47; 100] ++ 0 :: junk) = zlen (zeros 512)) /\
  fold_left resolve [[97]; [100]] [] = [[97]; [100]].
Proof.
  refine (wash_path_resolves [1%nat] [[97]; dot; [98; 99]; dotdot; [100]] 1 [] (zeros 512) _ _ _); [|discriminate|reflexivity].
  repeat apply Forall_cons_2; try apply Forall_nil_2; (split; [|reflexivity]);
    (split; [repeat constructor|]); (split; [set_solver|]); (split; reflexivity || discriminate).
Defined.
