(* ===== verification/Fs.v ===== *)
(** fs/fs.c: formatting, mounting, path search and the file system calls.

    C strings come with their terminator.  [junk] stands for the contents of
    uninitialised locals. *)

From S2P Require Import Prelude Bitmap Bytes CString Interrupt Thread Sync Ide Layout Inode File Dir Path.

Open Scope Z_scope.

Definition DIV_ROUND_UP (x step : Z) : Z := u32 (x + step - 1) / step.
Definition FS_MAGIC : Z := 0x19590318.

(** ** partition_format *)

(** The superblock computed from the partition's position and size. *)
Definition format_sb (p_start p_cnt : Z) : super_block * Z :=
  let boot_sector_sects := 1 in
  let super_block_sects := 1 in
  let inode_bitmap_sects := DIV_ROUND_UP MAX_FILES_PER_PART BITS_PER_SECTOR in
  let inode_table_sects := DIV_ROUND_UP (sizeof_inode * MAX_FILES_PER_PART) SECTOR_SIZE in
  let used_sects := boot_sector_sects + super_block_sects + inode_bitmap_sects + inode_table_sects in
  let free_sects := u32 (p_cnt - used_sects) in
  let block_bitmap_sects := DIV_ROUND_UP free_sects BITS_PER_SECTOR in
  let block_bitmap_bit_len := u32 (free_sects - block_bitmap_sects) in
  let block_bitmap_sects := DIV_ROUND_UP block_bitmap_bit_len BITS_PER_SECTOR in
  let block_bitmap_lba := u32 (p_start + 2) in
  let inode_bitmap_lba := u32 (block_bitmap_lba + block_bitmap_sects) in
  let inode_table_lba := u32 (inode_bitmap_lba + inode_bitmap_sects) in
  (SuperBlock FS_MAGIC p_cnt MAX_FILES_PER_PART p_start
     block_bitmap_lba block_bitmap_sects inode_bitmap_lba inode_bitmap_sects
     inode_table_lba inode_table_sects (u32 (inode_table_lba + inode_table_sects))
     0 sizeof_dir_entry,
   block_bitmap_bit_len).

(** [buf[k] &= ~(1 << bit)] for [bit = 0 .. last], as the loop with
    [bit_idx <= block_bitmap_last_bit] does it. *)
Definition clear_low_bits (x : Z) (last : Z) : Z :=
  foldl (λ x k, u8 (Z.land x (Z.lnot (Z.shiftl 1 k)))) x (seqZ 0 (last + 1)).

(** The first block bitmap: bit 0 taken, everything past the last block taken. *)
Definition format_block_bitmap (buf : bytes) (bit_len : Z) : res bytes :=
  b0 ← of_option (znth buf 0);
  let buf := zupd buf 0 (u8 (Z.lor b0 1)) in
  let last_byte := bit_len / 8 in
  let last_bit := u8 (bit_len mod 8) in
  let last_size := SECTOR_SIZE - last_byte mod SECTOR_SIZE in
  if zlen buf <? last_byte + last_size then Fault
  else
    let buf := splice buf last_byte (replicate (Z.to_nat last_size) 255) in
    x ← of_option (znth buf last_byte);
    Ok (zupd buf last_byte (clear_low_bits x last_bit)).

Definition pad_name (s : bytes) : bytes := s ++ zeros (16 - zlen s).

Section fs_calls.
Context {H : Type} `{Heap H}.

(** [pad] is the unassigned tail of the superblock on the stack. *)
Definition partition_format (p_start p_cnt : Z) (pad : bytes) : M (fs H) unit :=
  let '(sb, bit_len) := format_sb p_start p_cnt in
  printk "info";;
  ide_wr (u32 (p_start + 1)) (encode_sb sb pad) 1;;
  printk "super_block_lba";;
  let buf_sects := if inode_bitmap_sects sb <=? block_bitmap_sects sb
                   then block_bitmap_sects sb else inode_bitmap_sects sb in
  let buf_size := u32 ((if inode_table_sects sb <=? buf_sects then buf_sects else inode_table_sects sb)
                       * SECTOR_SIZE) in
  buf ← sys_malloc buf_size;
  (if buf =? 0 then faultM else mret tt);;
  bb ← lift (format_block_bitmap (zeros buf_size) bit_len);
  ide_wr (block_bitmap_lba sb) bb (block_bitmap_sects sb);;
  ide_wr (inode_bitmap_lba sb) (1 :: zeros (buf_size - 1)) (inode_bitmap_sects sb);;
  let root := Inode 0 (u32 (dir_entry_size sb * 2)) 0 0 (data_start_lba sb :: replicate 12 0) in
  ide_wr (inode_table_lba sb) (splice (zeros buf_size) 0 (encode_inode root)) (inode_table_sects sb);;
  let e1 := DirEntry (pad_name [46]) 0 (ft_code FT_DIRECTORY) in
  let e2 := DirEntry (pad_name [46; 46]) 0 (ft_code FT_DIRECTORY) in
  ide_wr (data_start_lba sb) (splice (zeros buf_size) 0 (encode_de e1 ++ encode_de e2)) 1;;
  printk "root_dir_lba";;
  printk "format done";;
  sys_free buf.

(** [mount_partition] once the names match. *)
Definition mount_partition (p_start p_cnt : Z) : M (fs H) unit :=
  sb_addr ← sys_malloc SECTOR_SIZE;
  psb ← sys_malloc 512;
  (if psb =? 0 then panicM "alloc memory failed!" else mret tt);;
  (if sb_addr =? 0 then faultM else mret tt);;
  sb_buf ← ide_rd (u32 (p_start + 1)) 1;
  let sb := decode_sb sb_buf in
  bb ← sys_malloc (u32 (block_bitmap_sects sb * SECTOR_SIZE));
  (if bb =? 0 then panicM "alloc memory failed!" else mret tt);;
  bbits ← ide_rd (block_bitmap_lba sb) (block_bitmap_sects sb);
  ib ← sys_malloc (u32 (inode_bitmap_sects sb * SECTOR_SIZE));
  (if ib =? 0 then panicM "alloc memory failed!" else mret tt);;
  ibits ← ide_rd (inode_bitmap_lba sb) (inode_bitmap_sects sb);
  modify (set_part (Partition p_start p_cnt sb
    (Bitmap (u32 (block_bitmap_sects sb * SECTOR_SIZE)) bbits)
    (Bitmap (u32 (inode_bitmap_sects sb * SECTOR_SIZE)) ibits)));;
  modify (set_open []);;
  printk "mount done!".

(** ** search_file *)

Record path_search_record := Searched { searched_path : bytes; parent_dir : Z; file_type : Z }.

Definition is_root_path (pathname : bytes) : res bool :=
  c1 ← strcmp pathname [47; 0];
  if c1 =? 0 then Ok true
  else
    c2 ← strcmp pathname [47; 46; 0];
    if c2 =? 0 then Ok true
    else c3 ← strcmp pathname [47; 46; 46; 0]; Ok (c3 =? 0).

Record search_locals := SL {
  sl_sub : option bytes; sl_name : bytes; sl_path : bytes; sl_dir : Z;
  sl_parent_no : Z; sl_e : dir_entry; sl_record_dir : Z
}.

(** One round of the loop; the result of an early return is the inode number
    and the record. *)
Definition search_round (l : search_locals) : M (fs H) (search_locals + (search_locals * option (Z * Z))) :=
  if first_char (sl_name l) =? 0 then mret (inr (l, None))
  else
    n ← lift (strlen (sl_path l));
    assertM (n <? 512) "strlen(searched_path) < 512";;
    path ← lift (strcat (sl_path l) [47; 0]);
    path ← lift (strcat path (sl_name l));
    r ← search_dir_entry (sl_dir l) (sl_name l);
    match r with
    | None => mret (inr (SL (sl_sub l) (sl_name l) path (sl_dir l) (sl_parent_no l) (sl_e l) (sl_record_dir l),
                         Some (-1, ft_code FT_UNKNOWN)))
    | Some e =>
        x ← match sl_sub l with
            | Some p => lift (path_parse p (zeros 16))
            | None => mret (None, zeros 16)
            end;
        if f_type e =? ft_code FT_DIRECTORY then
          i ← dir_inode (sl_dir l);
          dir_close (sl_dir l);;
          d ← dir_open (de_i_no e);
          mret (inl (SL (fst x) (snd x) path d (i_no i) e d))
        else if f_type e =? ft_code FT_REGULAR then
          mret (inr (SL (fst x) (snd x) path (sl_dir l) (sl_parent_no l) e (sl_record_dir l),
                     Some (s32 (de_i_no e), ft_code FT_REGULAR)))
        else mret (inl (SL (fst x) (snd x) path (sl_dir l) (sl_parent_no l) e (sl_record_dir l)))
    end.

(** [junk] is the uninitialised [dir_e].  A component of 16
    characters fills the name buffer and leaves it without terminator, so that
    [strcat] runs past it: [Fault]. *)
Definition search_file (junk : dir_entry) (pathname : bytes) : M (fs H) (Z * path_search_record) :=
  root ← lift (is_root_path pathname);
  if (root : bool) then mret (0, Searched (zeros 512) ROOT_DIR (ft_code FT_DIRECTORY))
  else
    path_len ← lift (strlen pathname);
    assertM ((first_char pathname =? SLASH) && (1 <? path_len) && (path_len <? MAX_PATH_LEN))
      "pathname[0] == '/' && path_len > 1 && path_len < MAX_PATH_LEN";;
    x ← lift (path_parse pathname (zeros 16));
    r ← loop (S (S (length pathname))) search_round
          (SL (fst x) (snd x) (zeros 512) ROOT_DIR 0 junk ROOT_DIR);
    let '(l, early) := r in
    match early with
    | Some (no, ty) => mret (no, Searched (sl_path l) (sl_record_dir l) ty)
    | None =>
        dir_close (sl_record_dir l);;
        d ← dir_open (sl_parent_no l);
        mret (s32 (de_i_no (sl_e l)), Searched (sl_path l) d (ft_code FT_DIRECTORY))
    end.

(** ** The calls *)

Definition sys_open (junk : dir_entry) (name_junk : bytes) (pathname : bytes) (flags : Z) : M (fs H) Z :=
  n ← lift (strlen pathname);
  last ← lift (of_option (znth pathname (n - 1)));
  if last =? SLASH then (printk "can`t open a directory";; mret (-1))
  else
    assertM (flags <=? 7) "flags <= 7";;
    pathname_depth ← lift (path_depth_cnt name_junk pathname);
    sr ← search_file junk pathname;
    let '(inode_no, rec) := sr in
    let found := negb (inode_no =? -1) in
    if file_type rec =? ft_code FT_DIRECTORY then
      printk "can`t open a directory with open(), use opendir() to instead";;
      dir_close (parent_dir rec);; mret (-1)
    else
      path_searched_depth ← lift (path_depth_cnt name_junk (searched_path rec));
      if negb (pathname_depth =? path_searched_depth) then
        printk "cannot access: Not a directory, subpath is`t exist";;
        dir_close (parent_dir rec);; mret (-1)
      else if negb found && (Z.land flags O_CREAT =? 0) then
        printk "in path, file is`t exist";;
        dir_close (parent_dir rec);; mret (-1)
      else if found && negb (Z.land flags O_CREAT =? 0) then
        printk "has already exist!";;
        dir_close (parent_dir rec);; mret (-1)
      else if Z.land flags O_CREAT =? O_CREAT then
        printk "creating file";;
        s ← lift (strrchr pathname SLASH);
        k ← lift (of_option s);
        fd ← file_create (parent_dir rec) (drop (Z.to_nat (k + 1)) pathname) flags;
        dir_close (parent_dir rec);; mret fd
      else file_open (u32 inode_no) flags.

Definition fd_local2global (local_fd : Z) : M (fs H) Z :=
  t ← gets cur;
  global_fd ← lift (of_option (znth (fd_table t) local_fd));
  assertM ((0 <=? global_fd) && (global_fd <? MAX_FILE_OPEN)) "global_fd >= 0 && global_fd < MAX_FILE_OPEN";;
  mret global_fd.

Definition SEEK_SET : Z := 1.
Definition SEEK_CUR : Z := 2.
Definition SEEK_END : Z := 3.

Definition sys_lseek (fd offset whence : Z) : M (fs H) Z :=
  if fd <? 0 then (printk "sys_lseek: fd error";; mret (-1))
  else
    assertM ((0 <? whence) && (whence <? 4)) "whence > 0 && whence < 4";;
    _fd ← fd_local2global fd;
    pf ← rd_file _fd;
    i ← rd_inode (fd_inode pf);
    let file_size := s32 (i_size i) in
    let new_pos := if whence =? SEEK_SET then offset
                   else if whence =? SEEK_CUR then s32 (s32 (fd_pos pf) + offset)
                   else s32 (file_size + offset) in
    if (new_pos <? 0) || (s32 (file_size - 1) <? new_pos) then mret (-1)
    else
      upd_file _fd (set_fd_pos (u32 new_pos));;
      mret new_pos.

(** Is an open file using this inode? *)
Fixpoint inode_in_use (ins : gmap Z inode) (l : list file) (no : Z) : res bool :=
  match l with
  | [] => Ok false
  | e :: l =>
      if fd_inode e =? 0 then inode_in_use ins l no
      else match ins !! fd_inode e with
           | Some i => if i_no i =? no then Ok true else inode_in_use ins l no
           | None => Fault
           end
  end.

Definition sys_unlink (junk : dir_entry) (pathname : bytes) : M (fs H) Z :=
  n ← lift (strlen pathname);
  assertM (n <? MAX_PATH_LEN) "strlen(pathname) < MAX_PATH_LEN";;
  sr ← search_file junk pathname;
  let '(inode_no, rec) := sr in
  assertM (negb (inode_no =? 0)) "inode_no != 0";;
  if inode_no =? -1 then (printk "file not found!";; dir_close (parent_dir rec);; mret (-1))
  else if file_type rec =? ft_code FT_DIRECTORY then
    printk "can`t delete a directory with unlink(), use rmdir() to instead";;
    dir_close (parent_dir rec);; mret (-1)
  else
    f ← get;
    used ← lift (inode_in_use (inodes f) (file_table f) (u32 inode_no));
    if (used : bool) then
      dir_close (parent_dir rec);;
      printk "file is in use, not allow to delete!";; mret (-1)
    else
      io_buf ← sys_malloc (SECTOR_SIZE + SECTOR_SIZE);
      if io_buf =? 0 then
        dir_close (parent_dir rec);;
        printk "sys_unlink: malloc for io_buf failed";; mret (-1)
      else
        _ ← delete_dir_entry (parent_dir rec) (u32 inode_no);
        inode_release (u32 inode_no);;
        sys_free io_buf;;
        dir_close (parent_dir rec);;
        mret 0.

Definition sys_mkdir (junk : dir_entry) (name_junk : bytes) (pathname : bytes) : M (fs H) Z :=
  io_buf ← sys_malloc (SECTOR_SIZE * 2);
  if io_buf =? 0 then (printk "sys_mkdir: sys_malloc for io_buf failed";; mret (-1))
  else
    sr ← search_file junk pathname;
    let '(inode_no, rec) := sr in
    let rollback1 := dir_close (parent_dir rec);; sys_free io_buf;; mret (-1) in
    if negb (inode_no =? -1) then
      printk "sys_mkdir: file or directory exist!";; rollback1
    else
      pathname_depth ← lift (path_depth_cnt name_junk pathname);
      path_searched_depth ← lift (path_depth_cnt name_junk (searched_path rec));
      if negb (pathname_depth =? path_searched_depth) then
        printk "sys_mkdir: can`t access, subpath is not exist";; rollback1
      else
        s ← lift (strrchr (searched_path rec) SLASH);
        k ← lift (of_option s);
        let dirname := drop (Z.to_nat (k + 1)) (searched_path rec) in
        inode_no ← inode_bitmap_alloc;
        if inode_no =? -1 then
          printk "sys_mkdir: allocate inode failed";; rollback1
        else
          let rollback2 := set_inode_bit (u32 inode_no) 0;; rollback1 in
          block_lba ← block_bitmap_alloc;
          if block_lba =? -1 then
            printk "sys_mkdir: block_bitmap_alloc for create directory failed";; rollback2
          else
            s ← get_sb;
            let block_bitmap_idx := u32 (block_lba - data_start_lba s) in
            assertM (negb (block_bitmap_idx =? 0)) "block_bitmap_idx != 0";;
            bitmap_sync block_bitmap_idx BLOCK_BITMAP;;
            pi ← dir_inode (parent_dir rec);
            let e1 := DirEntry (pad_name [46]) inode_no (ft_code FT_DIRECTORY) in
            let e2 := DirEntry (pad_name [46; 46]) (i_no pi) (ft_code FT_DIRECTORY) in
            ide_wr (u32 block_lba) (splice (zeros 1024) 0 (encode_de e1 ++ encode_de e2)) 1;;
            let new_dir_inode := Inode inode_no (u32 (2 * dir_entry_size s)) 0 0 (u32 block_lba :: replicate 12 0) in
            e ← lift (create_dir_entry dirname inode_no (ft_code FT_DIRECTORY));
            ok ← sync_dir_entry (parent_dir rec) e;
            if negb ok then
              printk "sys_mkdir: sync_dir_entry to disk failed";; rollback2
            else
              pi ← dir_inode (parent_dir rec);
              inode_sync pi;;
              inode_sync new_dir_inode;;
              bitmap_sync inode_no INODE_BITMAP;;
              sys_free io_buf;;
              dir_close (parent_dir rec);;
              mret 0.

(** The test for the root looks at [name[0]] twice, so ["/."] is searched. *)
Definition sys_opendir (junk : dir_entry) (name : bytes) : M (fs H) Z :=
  n ← lift (strlen name);
  assertM (n <? MAX_PATH_LEN) "strlen(name) < MAX_PATH_LEN";;
  if (first_char name =? SLASH) && ((default 0 (znth name 1) =? 0) || (first_char name =? 46))
  then mret ROOT_DIR
  else
    sr ← search_file junk name;
    let '(inode_no, rec) := sr in
    ret ← (if inode_no =? -1 then (printk "sub path not exist";; mret 0)
           else if file_type rec =? ft_code FT_REGULAR then (printk "is regular file!";; mret 0)
           else if file_type rec =? ft_code FT_DIRECTORY then dir_open (u32 inode_no)
           else mret 0);
    dir_close (parent_dir rec);;
    mret ret.

Definition sys_closedir (dir : Z) : M (fs H) Z :=
  if dir =? 0 then mret (-1) else (dir_close dir;; mret 0).
Definition sys_readdir (dir : Z) : M (fs H) (option dir_entry) :=
  assertM (negb (dir =? 0)) "dir != NULL";; dir_read dir.
Definition sys_rewinddir (dir : Z) : M (fs H) unit :=
  d ← rd_dir dir; wr_dir dir (Dir (d_inode d) 0 (dir_buf d)).

Definition sys_rmdir (junk : dir_entry) (pathname : bytes) : M (fs H) Z :=
  sr ← search_file junk pathname;
  let '(inode_no, rec) := sr in
  assertM (negb (inode_no =? 0)) "inode_no != 0";;
  retval ←
    (if inode_no =? -1 then (printk "sub path not exist";; mret (-1))
     else if file_type rec =? ft_code FT_REGULAR then (printk "is regular file!";; mret (-1))
     else
       dir ← dir_open (u32 inode_no);
       empty ← dir_is_empty dir;
       retval ← (if negb empty then (printk "dir is not empty";; mret (-1))
                 else r ← dir_remove (parent_dir rec) dir; mret (if r =? 0 then 0 else -1));
       dir_close dir;;
       mret retval);
  dir_close (parent_dir rec);;
  mret retval.

Definition set_cwd (n : Z) (t : task_struct) : task_struct :=
  Task (self_kstack t) (pid t) (status t) (name t) (priority t) (ticks t) (elapsed_ticks t)
    (fd_table t) (pgdir t) (userprog_vaddr t) n (parent_pid t) (exit_status t) (stack_magic t).

Definition sys_chdir (junk : dir_entry) (path : bytes) : M (fs H) Z :=
  sr ← search_file junk path;
  let '(inode_no, rec) := sr in
  ret ← (if negb (inode_no =? -1) then
           if file_type rec =? ft_code FT_DIRECTORY then
             modify (λ f, set_cur (set_cwd (u32 inode_no) (cur f)) f);; mret 0
           else (printk "sys_chdir: is regular file or other!";; mret (-1))
         else mret (-1));
  dir_close (parent_dir rec);;
  mret ret.

Record stat := Stat { st_ino : Z; st_size : Z; st_filetype : Z }.

(** The value returned and what is stored in [buf]. *)
Definition sys_stat (junk : dir_entry) (path : bytes) : M (fs H) (Z * option stat) :=
  root ← lift (is_root_path path);
  if (root : bool) then
    i ← dir_inode ROOT_DIR;
    mret (0, Some (Stat 0 (i_size i) (ft_code FT_DIRECTORY)))
  else
    sr ← search_file junk path;
    let '(inode_no, rec) := sr in
    ret ← (if negb (inode_no =? -1) then
             a ← inode_open (u32 inode_no);
             i ← rd_inode a;
             inode_close a;;
             mret (0, Some (Stat (u32 inode_no) (i_size i) (file_type rec)))
           else (printk "sys_stat: not found";; mret (-1, None)));
    dir_close (parent_dir rec);;
    mret ret.

(** ** The working directory *)

Definition get_parent_dir_inode_nr (child_inode_nr : Z) : M (fs H) Z :=
  a ← inode_open child_inode_nr;
  i ← rd_inode a;
  let block_lba := sector_of i 0 in
  s ← get_sb;
  assertM (data_start_lba s <=? block_lba) "block_lba >= data_start_lba";;
  inode_close a;;
  io_buf ← ide_rd block_lba 1;
  let e := entry_at io_buf 1 in
  assertM ((de_i_no e <? 4096) && (f_type e =? ft_code FT_DIRECTORY)) "dir_e[1].i_no < 4096";;
  mret (de_i_no e).

(** First entry from [k] on with that inode number. *)
Fixpoint entry_of_inode (buf : bytes) (no k : Z) (n : nat) : option Z :=
  match n with
  | O => None
  | S n => if de_i_no (entry_at buf k) =? no then Some k else entry_of_inode buf no (k + 1) n
  end.

Fixpoint child_name_blocks (no : Z) (cnt : nat) (blocks : list Z) (path : bytes) : M (fs H) (option bytes) :=
  match blocks with
  | [] => mret None
  | b :: blocks =>
      if negb (b =? 0) then
        buf ← ide_rd b 1;
        match entry_of_inode buf no 0 cnt with
        | Some k =>
            path ← lift (strcat path [47; 0]);
            path ← lift (strcat path (name_at buf k));
            mret (Some path)
        | None => child_name_blocks no cnt blocks path
        end
      else child_name_blocks no cnt blocks path
  end.

Definition get_child_dir_name (p_inode_nr c_inode_nr : Z) (path : bytes) : M (fs H) (option bytes) :=
  a ← inode_open p_inode_nr;
  i ← rd_inode a;
  blocks ← (if negb (sector_of i 12 =? 0) then
              buf ← ide_rd (sector_of i 12) 1;
              mret (take 12 (i_sectors i) ++ to_words buf)
            else mret (take 12 (i_sectors i)));
  inode_close a;;
  s ← get_sb;
  child_name_blocks c_inode_nr (Z.to_nat (512 / dir_entry_size s)) blocks path.

(** From the bottom up: [/c/b/a] for [/a/b/c]. *)
Definition cwd_round (l : Z * bytes) : M (fs H) (Z * bytes + option bytes) :=
  let '(child, path) := l in
  if child =? 0 then mret (inr (Some path))
  else
    parent ← get_parent_dir_inode_nr child;
    r ← get_child_dir_name parent child path;
    match r with
    | None => mret (inr None)
    | Some path => mret (inl (parent, path))
    end.

(** Reverse the components: repeatedly append what follows the last '/'. *)
Fixpoint reverse_path (fuel : nat) (full buf : bytes) : res bytes :=
  match fuel with
  | O => NoFuel
  | S fuel =>
      s ← strrchr full SLASH;
      match s with
      | None => Ok buf
      | Some k =>
          n ← strlen buf;
          let len := u16 n in
          tl ← strcpy (drop (Z.to_nat len) buf) (drop (Z.to_nat k) full);
          reverse_path fuel (zupd full k 0) (take (Z.to_nat len) buf ++ tl)
      end
  end.

(** [fuel] bounds the depth of the directory tree; the answer is the buffer
    of [size] bytes. *)
Definition sys_getcwd (fuel : nat) (size : Z) : M (fs H) (option bytes) :=
  io_buf ← sys_malloc SECTOR_SIZE;
  if io_buf =? 0 then mret None
  else
    t ← gets cur;
    let child := s32 (cwd_inode_nr t) in
    assertM ((0 <=? child) && (child <? 4096)) "child_inode_nr >= 0 && child_inode_nr < 4096";;
    if child =? 0 then
      (if size <? 2 then faultM else mret tt);;
      sys_free io_buf;; mret (Some ([47; 0] ++ zeros (size - 2)))
    else
      r ← loop fuel cwd_round (child, zeros 512);
      match r with
      | None => sys_free io_buf;; mret None
      | Some full =>
          n ← lift (strlen full);
          assertM (n <=? size) "strlen(full_path_reverse) <= size";;
          buf ← lift (reverse_path (S (length full)) full (zeros size));
          sys_free io_buf;;
          mret (Some buf)
      end.
End fs_calls.
