(* ===== verification/Shell.v ===== *)
(** shell/shell.c and shell/buildin_cmd.c: the shell, a user program.

    It sees the kernel through the system calls only, here the class [Sys]
    over a state [K]; a call that stores into a buffer of the caller returns
    the bytes it stores.  [fork] is seen from the process that follows the
    model: 0 in the child.  [sh] is that state with the shell's variables; an
    entry of [argv] points into [cmd_line], to [final_path], or is NULL. *)

From Stdlib Require Import Ascii.
From Stdlib Require String.
From S2P Require Import Prelude Bitmap Bytes CString Stdio Interrupt Thread Sync IoQueue Keyboard Ide Layout Inode File Dir Path CmdLine Fs.

Open Scope Z_scope.

(** ** System calls *)

Class Sys (K : Type) := {
  u_write : Z -> bytes -> M K Z;
  u_read : Z -> Z -> M K (Z * bytes);
  u_putchar : Z -> M K unit;
  u_clear : M K unit;
  u_getcwd : Z -> M K (option bytes);
  u_close : Z -> M K Z;
  u_unlink : bytes -> M K Z;
  u_mkdir : bytes -> M K Z;
  u_rmdir : bytes -> M K Z;
  u_opendir : bytes -> M K Z;
  u_closedir : Z -> M K Z;
  u_readdir : Z -> M K (option dir_entry);
  u_rewinddir : Z -> M K unit;
  u_chdir : bytes -> M K Z;
  u_stat : bytes -> M K (Z * option stat);
  u_ps : M K unit;
  u_help : M K unit;
  u_fork : M K Z;
  u_wait : M K (Z * Z);                       (* pid and status *)
  u_execv : bytes -> list (option bytes) -> M K Z;
  u_exit : Z -> M K unit;
  u_pipe : M K (list Z);
  u_fd_redirect : Z -> Z -> M K unit
}.

Inductive ptr := PNull | PLine (off : Z) | PFinal.

Record sh (K : Type) := Sh {
  kern : K; cmd_line : bytes; final_path : bytes; cwd_cache : bytes; sh_argv : list ptr
}.
Global Arguments Sh {K}.
Global Arguments kern {K}.
Global Arguments cmd_line {K}.
Global Arguments final_path {K}.
Global Arguments cwd_cache {K}.
Global Arguments sh_argv {K}.

Definition stdin_no : Z := 0.

Section shell.
Context {K : Type} `{Sys K}.

Definition call {A} (m : M K A) : M (sh K) A :=
  zoom kern (λ k s, Sh k (cmd_line s) (final_path s) (cwd_cache s) (sh_argv s)) m.
Definition set_line (b : bytes) : M (sh K) unit := modify (λ s, Sh (kern s) b (final_path s) (cwd_cache s) (sh_argv s)).
Definition set_final (b : bytes) : M (sh K) unit := modify (λ s, Sh (kern s) (cmd_line s) b (cwd_cache s) (sh_argv s)).
Definition set_cache (b : bytes) : M (sh K) unit := modify (λ s, Sh (kern s) (cmd_line s) (final_path s) b (sh_argv s)).
Definition set_argv (a : list ptr) : M (sh K) unit := modify (λ s, Sh (kern s) (cmd_line s) (final_path s) (cwd_cache s) a).

(** [printf] and what the string functions do with NULL. *)
Definition say (format : string) (args : list arg) : M (sh K) unit :=
  out ← lift (printf (bs format) args);
  _ ← call (u_write 1 out);
  mret tt.

Definition deref (p : ptr) : M (sh K) bytes := λ s,
  match p with
  | PNull => Panic "NULL"
  | PLine off => Ok (drop (Z.to_nat off) (cmd_line s), s)
  | PFinal => Ok (final_path s, s)
  end.
Definition arg_at (i : Z) : M (sh K) ptr := λ s, lift (of_option (znth (sh_argv s) i)) s.
Definition arg_str (i : Z) : M (sh K) bytes := p ← arg_at i; deref p.

(** ** buildin_cmd.c *)

(** [abs_path] is a zeroed local of 512 bytes; [getcwd] fills it. *)
Definition make_clear_abs_path (path : bytes) : M (sh K) unit :=
  abs_path ← (if negb (first_char path =? SLASH) then
                cwd ← call (u_getcwd MAX_PATH_LEN);
                match cwd with
                | Some abs_path =>
                    if negb ((first_char abs_path =? SLASH) && (first_char (drop 1 abs_path) =? 0))
                    then lift (strcat abs_path [SLASH; 0]) else mret abs_path
                | None => mret (zeros MAX_PATH_LEN)
                end
              else mret (zeros MAX_PATH_LEN));
  abs_path ← lift (strcat abs_path path);
  final_path ← gets final_path;
  washed ← lift (wash_path abs_path final_path);
  set_final washed.

Definition buildin_pwd (argc : Z) : M (sh K) unit :=
  if negb (argc =? 1) then say ("pwd: no argument support!" +:+ nl) []
  else
    cwd ← call (u_getcwd MAX_PATH_LEN);
    match cwd with
    | Some p => set_final p;; say ("%s" +:+ nl) [AStr p]
    | None => say ("pwd: get current work directory failed." +:+ nl) []
    end.

(** Whether a path is returned, which is [final_path]. *)
Definition buildin_cd (argc : Z) : M (sh K) bool :=
  if 2 <? argc then (say ("cd: only support 1 argument!" +:+ nl) [];; mret false)
  else
    (if argc =? 1 then
       p ← gets final_path;
       p ← lift (poke p 0 SLASH);
       p ← lift (poke p 1 0);
       set_final p
     else
       a ← arg_str 1;
       make_clear_abs_path a);;
    p ← gets final_path;
    r ← call (u_chdir p);
    if r =? -1 then (say ("cd: no such directory %s" +:+ nl) [AStr p];; mret false)
    else mret true.

(** The options and the path among the arguments: [None] when the command ends here. *)
Fixpoint ls_args (n : nat) (arg_idx argc : Z) (pathname : option ptr) (long_info : bool)
    : M (sh K) (option (option ptr * bool)) :=
  match n with
  | O => λ _, NoFuel
  | S n =>
      if arg_idx <? argc then
        p ← arg_at arg_idx;
        a ← deref p;
        if first_char a =? 45 then
          l ← lift (strcmp (bs "-l") a);
          if l =? 0 then ls_args n (arg_idx + 1) argc pathname true
          else
            h ← lift (strcmp (bs "-h") a);
            if h =? 0 then
              say ("usage: -l list all infomation about the file." +:+ nl +:+ "-h for help" +:+ nl +:+
                   "list all files in the current dirctory if no option" +:+ nl) [];; mret None
            else
              say ("ls: invalid option %s" +:+ nl +:+ "Try `ls -h' for more information." +:+ nl) [AStr a];; mret None
        else
          match pathname with
          | None => ls_args n (arg_idx + 1) argc (Some p) long_info
          | Some _ => say ("ls: only support one path" +:+ nl) [];; mret None
          end
      else mret (Some (pathname, long_info))
  end.

(** The two loops over the entries of a directory; [false] when [stat] fails. *)
Fixpoint ls_long (fuel : nat) (dir : Z) (sub_pathname : bytes) (pathname_len : Z) : M (sh K) bool :=
  match fuel with
  | O => λ _, NoFuel
  | S fuel =>
      dir_e ← call (u_readdir dir);
      match dir_e with
      | None => mret true
      | Some e =>
          let ftype := if f_type e =? ft_code FT_REGULAR then 45 else 100 in
          sub ← lift (poke sub_pathname pathname_len 0);
          sub ← lift (strcat sub (filename e));
          st ← call (u_stat sub);
          if fst st =? -1 then
            say ("ls: cannot access %s: No such file or directory" +:+ nl) [AStr (filename e)];; mret false
          else
            let size := match snd st with Some s => st_size s | None => 0 end in
            say ("%c  %d  %d  %s" +:+ nl) [AInt ftype; AInt (de_i_no e); AInt size; AStr (filename e)];;
            ls_long fuel dir sub pathname_len
      end
  end.
Fixpoint ls_short (fuel : nat) (dir : Z) : M (sh K) unit :=
  match fuel with
  | O => λ _, NoFuel
  | S fuel =>
      dir_e ← call (u_readdir dir);
      match dir_e with
      | None => say nl []
      | Some e => say "%s " [AStr (filename e)];; ls_short fuel dir
      end
  end.

Definition buildin_ls (fuel : nat) (argc : Z) : M (sh K) unit :=
  o ← ls_args (S (Z.to_nat argc)) 1 argc None false;
  match o with
  | None => mret tt
  | Some (pathname, long_info) =>
      found ← match pathname with
              | None =>
                  cwd ← call (u_getcwd MAX_PATH_LEN);
                  match cwd with
                  | Some p => set_final p;; mret true
                  | None => say ("ls: getcwd for default path failed" +:+ nl) [];; mret false
                  end
              | Some p => a ← deref p; make_clear_abs_path a;; mret true
              end;
      if negb found then mret tt
      else
        pathname ← gets final_path;
        st ← call (u_stat pathname);
        if fst st =? -1 then
          say ("ls: cannot access %s: No such file or directory" +:+ nl) [AStr pathname]
        else
          let file_stat := default (Stat 0 0 0) (snd st) in
          if st_filetype file_stat =? ft_code FT_DIRECTORY then
            dir ← call (u_opendir pathname);
            pathname_len ← lift (strlen pathname);
            sub ← lift (memcpy (zeros MAX_PATH_LEN) pathname pathname_len);
            last ← lift (of_option (znth sub (u32 (pathname_len - 1))));
            sl ← (if negb (last =? SLASH) then
                    sub ← lift (poke sub pathname_len SLASH); mret (sub, pathname_len + 1)
                  else mret (sub, pathname_len));
            call (u_rewinddir dir);;
            if (long_info : bool) then
              say ("total: %d" +:+ nl) [AInt (st_size file_stat)];;
              all ← ls_long fuel dir (fst sl) (snd sl);
              if (all : bool) then (_ ← call (u_closedir dir); mret tt) else mret tt
            else
              ls_short fuel dir;;
              _ ← call (u_closedir dir);
              mret tt
          else if (long_info : bool) then
            say ("-  %d  %d  %s" +:+ nl) [AInt (st_ino file_stat); AInt (st_size file_stat); AStr pathname]
          else say ("%s" +:+ nl) [AStr pathname]
  end.

Definition buildin_ps (argc : Z) : M (sh K) unit :=
  if negb (argc =? 1) then say ("ps: no argument support!" +:+ nl) [] else call u_ps.
Definition buildin_clear (argc : Z) : M (sh K) unit :=
  if negb (argc =? 1) then say ("clear: no argument support!" +:+ nl) [] else call u_clear.

(** [mkdir], [rmdir] and [rm] differ in the call and the messages. *)
Definition on_path (usage failed : string) (op : bytes -> M K Z) (argc : Z) : M (sh K) Z :=
  if negb (argc =? 2) then (say usage [];; mret (-1))
  else
    a ← arg_str 1;
    make_clear_abs_path a;;
    p ← gets final_path;
    root ← lift (strcmp [SLASH; 0] p);
    if negb (root =? 0) then
      r ← call (op p);
      if r =? 0 then mret 0
      else (a ← arg_str 1; say failed [AStr a];; mret (-1))
    else mret (-1).
Definition buildin_mkdir : Z -> M (sh K) Z :=
  on_path ("mkdir: only support 1 argument!" +:+ nl) ("mkdir: create directory %s failed." +:+ nl) u_mkdir.
Definition buildin_rmdir : Z -> M (sh K) Z :=
  on_path ("rmdir: only support 1 argument!" +:+ nl) ("rmdir: remove %s failed." +:+ nl) u_rmdir.
Definition buildin_rm : Z -> M (sh K) Z :=
  on_path ("rm: only support 1 argument!" +:+ nl) ("rm: delete %s failed." +:+ nl) u_unlink.
Definition buildin_help : M (sh K) unit := call u_help.

(** ** shell.c *)

Definition print_prompt : M (sh K) unit :=
  c ← gets cwd_cache;
  say "[swings@localhost %s]$ " [AStr c].

(** [*pos = x] *)
Definition poke_line (pos x : Z) : M (sh K) unit :=
  l ← gets cmd_line;
  l ← lift (poke l pos x);
  set_line l.

(** ctrl+u: [pos] goes back to [buf]. *)
Fixpoint erase_line (pos : nat) : M (sh K) unit :=
  match pos with
  | O => mret tt
  | S pos' =>
      call (u_putchar 8);;
      poke_line (Z.of_nat pos) 0;;
      erase_line pos'
  end.

(** One key: where [pos] goes, or that the line is finished. *)
Definition readline_key (pos : Z) : M (sh K) (Z + unit) :=
  l ← gets cmd_line;
  c ← lift (of_option (znth l pos));
  if (c =? 10) || (c =? 13) then
    poke_line pos 0;;
    call (u_putchar 10);;
    mret (inr tt)
  else if c =? 8 then
    b ← lift (of_option (znth l 0));
    if negb (b =? 8) then (call (u_putchar 8);; mret (inl (pos - 1))) else mret (inl pos)
  else if c =? 11 then                                  (* 'l' - 'a' *)
    poke_line pos 0;;
    call u_clear;;
    print_prompt;;
    l ← gets cmd_line;
    say "%s" [AStr l];;
    mret (inl pos)
  else if c =? 20 then                                  (* 'u' - 'a' *)
    erase_line (Z.to_nat pos);;
    mret (inl 0)
  else (call (u_putchar c);; mret (inl (pos + 1))).

(** [fuel] bounds the number of keys typed; the buffer is [cmd_line]. *)
Fixpoint readline_loop (fuel : nat) (count pos : Z) : M (sh K) unit :=
  match fuel with
  | O => λ _, NoFuel
  | S fuel =>
      r ← call (u_read stdin_no 1);
      (match snd r with c :: _ => poke_line pos c | [] => mret tt end);;
      if negb (fst r =? -1) && (pos <? count) then
        x ← readline_key pos;
        match x with
        | inl pos => readline_loop fuel count pos
        | inr _ => mret tt
        end
      else say "readline: can`t find enter_key in the cmd_line, max num of char is 128" []
  end.
Definition readline (fuel : nat) (count : Z) : M (sh K) unit := readline_loop fuel count 0.

(** [cmd_parse(each_cmd, argv, ' ')] for the command at offset [off] of the line. *)
Definition parse_at (off : Z) : M (sh K) Z :=
  l ← gets cmd_line;
  r ← lift (cmd_parse (drop (Z.to_nat off) l) 32);
  let '(argc, argv, mem) := r in
  set_line (take (Z.to_nat off) l ++ mem);;
  set_argv (map (λ p, match p with Some o => PLine (off + o) | None => PNull end) argv);;
  mret argc.

Definition is_cmd (name : string) : M (sh K) bool :=
  a ← arg_str 0;
  r ← lift (strcmp (bs name) a);
  mret (r =? 0).

(** The strings [argv] points to, for the program that is started. *)
Fixpoint argv_strings (l : list ptr) : M (sh K) (list (option bytes)) :=
  match l with
  | [] => mret []
  | PNull :: l => r ← argv_strings l; mret (None :: r)
  | p :: l => a ← deref p; r ← argv_strings l; mret (Some a :: r)
  end.

Definition external : M (sh K) unit :=
  pid ← call u_fork;
  if negb (pid =? 0) then
    w ← call u_wait;
    let '(child_pid, status) := w in
    if child_pid =? -1 then panicM "my_shell: no child"
    else say ("child_pid %d, it's status: %d" +:+ nl) [AInt child_pid; AInt status]
  else
    a ← arg_str 0;
    make_clear_abs_path a;;
    argv ← gets sh_argv;
    set_argv (match argv with _ :: rest => PFinal :: rest | [] => [] end);;
    p ← gets final_path;
    st ← call (u_stat p);
    if fst st =? -1 then
      say ("my_shell: cannot access %s: No such file or directory" +:+ nl) [AStr p];;
      call (u_exit (-1))
    else
      argv ← gets sh_argv;
      strs ← argv_strings argv;
      _ ← call (u_execv p strs);
      mret tt.

Definition cmd_execute (fuel : nat) (argc : Z) : M (sh K) unit :=
  let argc := u32 argc in
  ls ← is_cmd "ls";
  if ls : bool then buildin_ls fuel argc
  else
    cd ← is_cmd "cd";
    if cd : bool then
      moved ← buildin_cd argc;
      if (moved : bool) then
        p ← gets final_path;
        c ← lift (strcpy (zeros MAX_PATH_LEN) p);
        set_cache c
      else mret tt
    else
      pwd ← is_cmd "pwd";
      if pwd : bool then buildin_pwd argc
      else
        ps ← is_cmd "ps";
        if ps : bool then buildin_ps argc
        else
          clear ← is_cmd "clear";
          if clear : bool then buildin_clear argc
          else
            mkdir ← is_cmd "mkdir";
            if mkdir : bool then (_ ← buildin_mkdir argc; mret tt)
            else
              rmdir ← is_cmd "rmdir";
              if rmdir : bool then (_ ← buildin_rmdir argc; mret tt)
              else
                rm ← is_cmd "rm";
                if rm : bool then (_ ← buildin_rm argc; mret tt)
                else
                  help ← is_cmd "help";
                  if help : bool then buildin_help else external.

(** The next pipe symbol from offset [off] on, as an offset. *)
Definition pipe_symbol (off : Z) : M (sh K) (option Z) :=
  l ← gets cmd_line;
  r ← lift (strchr (drop (Z.to_nat off) l) 124);
  mret (option_map (λ o, off + o) r).

(** The commands between the first and the last; [n] bounds their number. *)
Fixpoint middle_commands (fuel n : nat) (each_cmd : Z) : M (sh K) Z :=
  match n with
  | O => λ _, NoFuel
  | S n =>
      p ← pipe_symbol each_cmd;
      match p with
      | None => mret each_cmd
      | Some o =>
          poke_line o 0;;
          argc ← parse_at each_cmd;
          cmd_execute fuel argc;;
          middle_commands fuel n (o + 1)
      end
  end.

(** The body of the loop of [my_shell]. *)
Definition my_shell_round (fuel : nat) : M (sh K) unit :=
  print_prompt;;
  set_final (zeros MAX_PATH_LEN);;
  set_line (zeros MAX_PATH_LEN);;
  readline fuel MAX_PATH_LEN;;
  l ← gets cmd_line;
  if first_char l =? 0 then mret tt
  else
    p ← pipe_symbol 0;
    match p with
    | Some o =>
        fd ← call u_pipe;
        fd0 ← lift (of_option (znth fd 0));
        fd1 ← lift (of_option (znth fd 1));
        call (u_fd_redirect 1 (u32 fd1));;
        poke_line o 0;;
        argc ← parse_at 0;
        cmd_execute fuel argc;;
        call (u_fd_redirect 0 (u32 fd0));;
        each_cmd ← middle_commands fuel fuel (o + 1);
        call (u_fd_redirect 1 1);;
        argc ← parse_at each_cmd;
        cmd_execute fuel argc;;
        call (u_fd_redirect 0 0);;
        _ ← call (u_close fd0);
        _ ← call (u_close fd1);
        mret tt
    | None =>
        argc ← parse_at 0;
        if argc =? -1 then say ("num of arguments exceed %d" +:+ nl) [AInt MAX_ARG_NR]
        else cmd_execute fuel argc
    end.
End shell.
