(* ===== verification/Os.v ===== *)
(** The system calls that reach more than one component: [sys_read],
    [sys_write], [sys_close], [sys_putchar], [sys_help] of fs/fs.c, the console of
    device/console.c, [sys_ps] of thread/thread.c and [sys_getpid] of
    userprog/syscall-init.c.

    [os] puts the components together: the file system, the keyboard with the
    threads, the ring buffers of the pipes, and the screen as the characters
    put on it since it was last cleared.  A component's code runs on its part
    of the state; the running task's struct, the interrupt flag and the file
    table are shared, and each component sees the same ones. *)

From Stdlib Require Import Ascii.
From Stdlib Require String.
From S2P Require Import Prelude Bitmap Bytes CString Stdio Interrupt Thread Sync IoQueue Keyboard Ide Layout Inode File Pipe Dir Path Fs CmdLine Shell.

Open Scope Z_scope.

Record os {H : Type} := Os {
  o_fs : fs H; o_kbd : kbd; o_qs : gmap Z ioqueue; console_lock : lock; o_scr : bytes
}.
Global Arguments os : clear implicits.
Global Arguments Os {H}.

Definition stdout_no : Z := 1.
Definition stderr_no : Z := 2.

Section os.
Context {H : Type} `{Heap H} (v2p : Z -> Z).

Definition o_thr (s : os H) : kthreads := io_thr (kbd_buf (o_kbd s)).
Definition set_thr (k : kthreads) (s : os H) : os H :=
  Os (o_fs s) (Kbd (k_fl (o_kbd s)) (IoS k (ioq (kbd_buf (o_kbd s)))) (kbd_screen (o_kbd s)))
     (o_qs s) (console_lock s) (o_scr s).
Definition set_ofs (f : fs H) (s : os H) : os H := Os f (o_kbd s) (o_qs s) (console_lock s) (o_scr s).
Definition set_scr (b : bytes) (s : os H) : os H := Os (o_fs s) (o_kbd s) (o_qs s) (console_lock s) b.
Definition set_con (l : lock) (s : os H) : os H := Os (o_fs s) (o_kbd s) (o_qs s) l (o_scr s).

(** *** The components inside the whole *)

Definition o_on_thr {A} (m : M kthreads A) : M (os H) A := zoom o_thr set_thr m.

Definition on_keys {A} (m : M iosys A) : M (os H) A :=
  zoom (λ s, kbd_buf (o_kbd s))
    (λ q s, Os (o_fs s) (Kbd (k_fl (o_kbd s)) q (kbd_screen (o_kbd s))) (o_qs s) (console_lock s) (o_scr s)) m.

Definition on_pipes {A} (m : M psys A) : M (os H) A :=
  zoom (λ s, PS (o_thr s) (file_table (o_fs s)) (o_qs s))
    (λ p s, set_thr (p_thr p) (Os (set_files (p_files p) (o_fs s)) (o_kbd s) (p_qs p) (console_lock s) (o_scr s))) m.

(** The file system works on the running task and its interrupt flag. *)
Definition on_fs {A} (m : M (fs H) A) : M (os H) A := λ s,
  let k := o_thr s in
  match k_tasks k !! k_cur k with
  | None => Fault
  | Some t =>
      zoom (λ s, set_fcpu (k_cpu k) (set_cur t (o_fs s)))
        (λ f s, set_thr (upd_cpu (fcpu f) (upd_tasks (<[k_cur k := cur f]> (k_tasks k)) k)) (set_ofs f s)) m s
  end.

(** *** The console *)

(** The characters up to the terminator. *)
Definition put_chars (str : bytes) : M (os H) unit :=
  n ← lift (strlen str);
  modify (λ s, set_scr (o_scr s ++ take (Z.to_nat n) str) s).

Definition console_acquire : M (os H) unit :=
  me ← o_on_thr running_thread;
  l ← gets console_lock;
  l ← lift (Seq.lock_acquire me l);
  modify (set_con l).
Definition console_release : M (os H) unit :=
  me ← o_on_thr running_thread;
  l ← gets console_lock;
  wl ← lift (Seq.lock_release me l);
  modify (set_con (snd wl));;
  match fst wl with Some t => o_on_thr (thread_unblock t) | None => mret tt end.

Definition console_put_str (str : bytes) : M (os H) unit := console_acquire;; put_chars str;; console_release.
Definition console_put_char (char_asci : Z) : M (os H) unit :=
  console_acquire;; modify (λ s, set_scr (o_scr s ++ [u8 char_asci]) s);; console_release.

Definition console_init : M (os H) unit := modify (set_con lock_init).

Definition cls_screen : M (os H) unit := modify (set_scr []).
Definition sys_putchar (char_asci : Z) : M (os H) unit := console_put_char char_asci.

(** [printk] formats and puts the result on the console. *)
Definition o_printk (format : string) (args : list arg) : M (os H) unit :=
  out ← lift (Stdio.printk (bs format) args);
  console_put_str (out ++ [0]).

(** *** Files, pipes, keyboard and screen behind one descriptor *)

Definition waits {A B} (r : A + B) : res A := match r with inl a => Ok a | inr _ => Block end.

Definition sys_write (fd : Z) (buf : bytes) (count : Z) : M (os H) Z :=
  if fd <? 0 then (o_printk ("sys_write: fd error" +:+ nl) [];; mret (-1))
  else if fd =? stdout_no then
    p ← on_pipes (is_pipe fd);
    if p : bool then r ← on_pipes (pipe_write v2p fd buf count); lift (waits r)
    else
      tmp_buf ← lift (memcpy (zeros 1024) buf count);
      console_put_str tmp_buf;;
      mret (s32 count)
  else
    p ← on_pipes (is_pipe fd);
    if p : bool then r ← on_pipes (pipe_write v2p fd buf count); lift (waits r)
    else
      _fd ← on_fs (fd_local2global fd);
      e ← on_fs (rd_file _fd);
      if negb (Z.land (fd_flag e) O_WRONLY =? 0) || negb (Z.land (fd_flag e) O_RDWR =? 0) then
        r ← on_fs (file_write _fd buf count); mret (s32 r)
      else
        console_put_str (bs ("sys_write: not allowed to write file without flag O_RDWR or O_WRONLY" +:+ nl));;
        mret (-1).

(** [count] characters from the keyboard. *)
Fixpoint read_keys (count : nat) : M (os H) bytes :=
  match count with
  | O => mret []
  | S count =>
      r ← on_keys (ioq_getchar v2p);
      c ← lift (waits r);
      rest ← read_keys count;
      mret (u8 c :: rest)
  end.

(** The value returned and the bytes stored in [buf]. *)
Definition sys_read (fd count : Z) : M (os H) (Z * bytes) :=
  if (fd <? 0) || (fd =? stdout_no) || (fd =? stderr_no) then
    o_printk ("sys_read: fd error" +:+ nl) [];; mret (-1, [])
  else
    p ← on_pipes (is_pipe fd);
    if p : bool then r ← on_pipes (pipe_read v2p fd count); lift (waits r)
    else if fd =? stdin_no then
      buf ← read_keys (Z.to_nat count);
      mret ((if zlen buf =? 0 then -1 else s32 (zlen buf)), buf)
    else
      global_fd ← on_fs (fd_local2global fd);
      on_fs (file_read global_fd count).

(** The last close of a pipe frees the page of its ring buffer. *)
Definition sys_close (fd : Z) : M (os H) Z :=
  if 2 <? fd then
    global_fd ← on_pipes (p_local2global fd);
    p ← on_pipes (is_pipe fd);
    ret ← (if p : bool then
             on_pipes (p_upd_file global_fd (λ e, File (u32 (fd_pos e - 1)) (fd_flag e) (fd_inode e)));;
             e ← on_pipes (p_file global_fd);
             (if fd_pos e =? 0 then
                modify (λ s, Os (o_fs s) (o_kbd s) (delete (fd_inode e) (o_qs s)) (console_lock s) (o_scr s));;
                on_pipes (p_upd_file global_fd (λ e, File (fd_pos e) (fd_flag e) 0))
              else mret tt);;
             mret 0
           else on_fs (file_close global_fd));
    on_pipes (p_set_fd fd (-1));;
    mret ret
  else mret (-1).

Definition sys_help : M (os H) unit :=
  o_printk (" buildin commands:" +:+ nl +:+
    "       ls: show directory or file information" +:+ nl +:+
    "       cd: change current work directory" +:+ nl +:+
    "       mkdir: create a directory" +:+ nl +:+
    "       rmdir: remove a empty directory" +:+ nl +:+
    "       rm: remove a regular file" +:+ nl +:+
    "       pwd: show current work directory" +:+ nl +:+
    "       ps: show process information" +:+ nl +:+
    "       clear: clear screen" +:+ nl +:+
    " shortcut key:" +:+ nl +:+
    "       ctrl+l: clear screen" +:+ nl +:+
    "       ctrl+u: clear input" +:+ nl +:+ nl) [].

Definition sys_getpid : M (os H) Z :=
  me ← o_on_thr running_thread;
  t ← o_on_thr (rd_task me);
  mret (u32 (pid t)).

(** *** ps *)

(** [pad_print] on a buffer of [buf_len] bytes; the text is formatted by
    [sprintf] and padded with blanks. *)
Fixpoint pad_blanks (n : nat) (buf : bytes) (idx buf_len : Z) : res bytes :=
  match n with
  | O => Ok buf
  | S n => if idx <? buf_len then buf ← poke buf idx 32; pad_blanks n buf (u8 (idx + 1)) buf_len else Ok buf
  end.
Definition pad_print (buf_len : Z) (format : string) (a : arg) : M (os H) unit :=
  r ← lift (sprintf (zeros buf_len) (bs format) [a]);
  buf ← lift (pad_blanks (Z.to_nat buf_len) (snd r) (u8 (fst r)) buf_len);
  _ ← sys_write stdout_no buf (buf_len - 1);
  mret tt.

Definition status_name (st : task_status) : string :=
  match st with
  | TASK_RUNNING => "RUNNING"
  | TASK_READY => "READY"
  | TASK_BLOCKED => "BLOCKED"
  | TASK_WAITING => "WAITING"
  | TASK_HANGING => "HANGING"
  | TASK_DIED => "DIED"
  end.

Definition elem2thread_info (pthread : Z) : M (os H) bool :=
  t ← o_on_thr (rd_task pthread);
  pad_print 16 "%d" (AInt (s16 (pid t)));;
  (if s16 (parent_pid t) =? -1 then pad_print 16 "%s" (AStr (bs "NULL"))
   else pad_print 16 "%d" (AInt (s16 (parent_pid t))));;
  pad_print 16 "%s" (AStr (bs (status_name (status t))));;
  pad_print 16 "%x" (AInt (elapsed_ticks t));;
  n ← lift (strlen (name t));
  assertM (n <? 17) "strlen(pthread->name) < 17";;
  out_pad ← lift (memcpy (zeros 16) (name t) n);
  out_pad ← lift (strcat out_pad (bs nl));
  n ← lift (strlen out_pad);
  _ ← sys_write stdout_no out_pad n;
  mret false.

Fixpoint ps_loop (all : list Z) : M (os H) unit :=
  match all with
  | [] => mret tt
  | t :: all => stop ← elem2thread_info t; if stop : bool then mret tt else ps_loop all
  end.
Definition sys_ps : M (os H) unit :=
  let ps_title := bs ("PID            PPID           STAT           TICKS          COMMAND" +:+ nl) in
  n ← lift (strlen ps_title);
  _ ← sys_write stdout_no ps_title n;
  all ← gets (λ s, thread_all_list (o_thr s));
  ps_loop all.

(** ** The kernel as the shell sees it

    [junk] and [name_junk] are the contents of uninitialised locals of the
    file system's calls, [fuel] bounds the depth of the directory tree and
    [page] is what the page allocator gives [sys_pipe].  Starting programs is
    not part of this instance. *)
Definition os_sys (junk : dir_entry) (name_junk : bytes) (fuel : nat) (page : os H -> Z * bytes) : Sys (os H) := {|
  u_write fd b := sys_write fd b (zlen b);
  u_read := sys_read;
  u_putchar := sys_putchar;
  u_clear := cls_screen;
  u_getcwd size := on_fs (sys_getcwd fuel size);
  u_close := sys_close;
  u_unlink p := on_fs (sys_unlink junk p);
  u_mkdir p := on_fs (sys_mkdir junk name_junk p);
  u_rmdir p := on_fs (sys_rmdir junk p);
  u_opendir p := on_fs (sys_opendir junk p);
  u_closedir d := on_fs (sys_closedir d);
  u_readdir d := on_fs (sys_readdir d);
  u_rewinddir d := on_fs (sys_rewinddir d);
  u_chdir p := on_fs (sys_chdir junk p);
  u_stat p := on_fs (sys_stat junk p);
  u_ps := sys_ps;
  u_help := sys_help;
  u_fork := faultM;
  u_wait := faultM;
  u_execv _ _ := faultM;
  u_exit _ := faultM;
  u_pipe := (s ← get; r ← on_pipes (sys_pipe (fst (page s)) (snd (page s))); mret (snd r));
  u_fd_redirect old new := on_pipes (sys_fd_redirect old new)
|}.
End os.

(** ** The console through the system calls *)

Section console.
Context {H : Type} `{Heap H} (v2p : Z -> Z).
Implicit Types s : os H.

(** Descriptor [fd] of the running task is not redirected to a pipe. *)
Definition straight (fd : Z) s : Prop :=
  exists t g e, k_tasks (o_thr s) !! k_cur (o_thr s) = Some t /\ znth (fd_table t) fd = Some g /\
    0 <= g < MAX_FILE_OPEN /\ znth (file_table (o_fs s)) g = Some e /\ fd_flag e <> PIPE_FLAG.

(** A task with its standard descriptors runs with interrupts off, and the
    console is not held by another. *)
Record os_console s : Prop := {
  oc_io : io_ok (kbd_buf (o_kbd s));
  oc_prod : producer (ioq (kbd_buf (o_kbd s))) = 0;
  oc_bytes : Forall is_byte (contents (ioq (kbd_buf (o_kbd s))));
  oc_in : straight stdin_no s;
  oc_out : straight stdout_no s;
  oc_lock : Seq.quiet (k_cur (o_thr s)) (console_lock s)
}.

Lemma set_thr_same s : set_thr (o_thr s) s = s.
Proof. by destruct s as [f [fl [? ?] sc] q l scr]. Qed.

Lemma not_pipe fd (Q : bool -> os H -> Prop) s : straight fd s -> Q false s -> wp (on_pipes (is_pipe fd)) Q s.
Proof.
  intros (t & g & e & Ht & Hg & Hr & He & Hf) HQ. apply wp_zoom.
  assert (E : is_pipe fd (PS (o_thr s) (file_table (o_fs s)) (o_qs s)) =
    Ok (false, PS (o_thr s) (file_table (o_fs s)) (o_qs s))).
  { unfold is_pipe, p_local2global, p_cur, p_on_thr, running_thread, rd_task, zoom, gets, lift, assertM, p_file, mbind, M_bind, mret, M_ret.
    cbn [p_thr p_files p_qs]. rewrite Ht, Hg. cbn [of_option]. unfold ASSERT.
    rewrite (proj2 (Z.leb_le 0 g)), (proj2 (Z.ltb_lt g MAX_FILE_OPEN)) by lia. cbn [andb lift p_files].
    rewrite He. by rewrite (proj2 (Z.eqb_neq _ _) Hf). }
  unfold wp. rewrite E. cbn [p_thr p_files p_qs].
  replace (set_thr (o_thr s) _) with s; [done|]. destruct s as [[] [fl [? ?] sc] q l scr]. done.
Qed.

Lemma os_cur_nonzero s : os_console s -> k_cur (o_thr s) <> 0.
Proof. intros Hs. apply (cur_nonzero (o_thr s)), (io_kinv _ (oc_io s Hs)). Qed.

Lemma os_console_scr b s : os_console s -> os_console (set_scr b s).
Proof. intros [H1 H2 H3 H4 H5 H6]. by split. Qed.

(** Output between acquiring and releasing the console. *)
Lemma console_bracket s (m : M (os H) unit) b : os_console s ->
  (forall l, m (set_con l s) = Ok (tt, set_scr b (set_con l s))) ->
  (console_acquire;; m;; console_release) s = Ok (tt, set_scr b s).
Proof.
  intros Hs Hm. destruct (Seq.acquire_release _ _ (os_cur_nonzero s Hs) (oc_lock s Hs)) as (l & Ha & _ & Hr).
  unfold console_acquire, console_release, o_on_thr, running_thread, zoom, gets, lift, modify, mbind, M_bind, mret, M_ret.
  rewrite set_thr_same, Ha, Hm.
  change (o_thr (set_scr b (set_con l s))) with (o_thr s).
  replace (set_thr (o_thr s) (set_scr b (set_con l s))) with (set_scr b (set_con l s))
    by (symmetry; apply (set_thr_same (set_scr b (set_con l s)))).
  cbn [console_lock set_scr set_con]. rewrite Hr. cbn [fst snd]. by destruct s.
Qed.

Lemma put_char_ok c s : os_console s -> console_put_char c s = Ok (tt, set_scr (o_scr s ++ [u8 c]) s).
Proof. intros Hs. unfold console_put_char. by apply console_bracket. Qed.

Lemma put_str_ok b r s : os_console s -> cstr b -> console_put_str (b ++ 0 :: r) s = Ok (tt, set_scr (o_scr s ++ b) s).
Proof.
  intros Hs Hb. unfold console_put_str. apply console_bracket; [done|]. intros l.
  unfold put_chars, lift, modify, mbind, M_bind. rewrite strlen_ok by done. unfold zlen.
  by rewrite Nat2Z.id, take_app_length.
Qed.

(** [write(1, b, strlen(b))] *)
Lemma sys_write_ok b s : os_console s -> cstr b -> zlen b < 1024 ->
  sys_write v2p stdout_no b (zlen b) s = Ok (s32 (zlen b), set_scr (o_scr s ++ b) s).
Proof.
  intros Hs Hb Hl. assert (Hwp : wp (sys_write v2p stdout_no b (zlen b))
    (λ r s', r = s32 (zlen b) /\ s' = set_scr (o_scr s ++ b) s) s).
  { unfold sys_write. change (stdout_no <? 0) with false. change (stdout_no =? stdout_no) with true. cbv iota.
    apply wp_bind. apply not_pipe; [apply (oc_out s Hs)|]. apply wp_bind.
    assert (Em : memcpy (zeros 1024) b (zlen b) = Ok (b ++ 0 :: zeros (1023 - zlen b))).
    { unfold memcpy. rewrite (proj2 (Z.ltb_ge (zlen (zeros 1024)) (zlen b))), Z.ltb_irrefl by (rewrite zeros_length; lia).
      cbn [orb]. rewrite take_ge by (unfold zlen; lia). do 2 f_equal. unfold zeros, zlen in *. rewrite drop_replicate, Nat2Z.id.
      replace (Z.to_nat 1024 - length b)%nat with (S (Z.to_nat (1023 - Z.of_nat (length b)))) by lia. done. }
    eapply wp_lift; [exact Em|]. apply wp_bind. unfold wp at 1. rewrite put_str_ok by done. by apply wp_ret. }
  by apply wp_run in Hwp as (r & s' & Hrun & -> & ->).
Qed.

(** One character from the keyboard. *)
Lemma sys_read_ok c l s : os_console s -> contents (ioq (kbd_buf (o_kbd s))) = c :: l ->
  exists s', sys_read v2p stdin_no 1 s = Ok ((1, [c]), s') /\ os_console s' /\
    contents (ioq (kbd_buf (o_kbd s'))) = l /\ o_scr s' = o_scr s.
Proof.
  intros Hs Hc. pose proof Hs as [Hio Hprod Hby Hin Hout Hlk].
  assert (Hl : qlen (ioq (kbd_buf (o_kbd s))) <> 0) by (rewrite <- contents_len, Hc; unfold zlen; simpl; lia).
  rewrite Hc in Hby. apply Forall_cons in Hby as [Hcb Hlb].
  assert (Hwp : wp (sys_read v2p stdin_no 1) (λ r s', r = (1, [c]) /\ os_console s' /\
    contents (ioq (kbd_buf (o_kbd s'))) = l /\ o_scr s' = o_scr s) s).
  { unfold sys_read. change ((stdin_no <? 0) || (stdin_no =? stdout_no) || (stdin_no =? stderr_no)) with false. cbv iota.
    apply wp_bind. apply not_pipe; [done|]. change (stdin_no =? stdin_no) with true. cbv iota.
    apply wp_bind. change (Z.to_nat 1) with 1%nat. cbn [read_keys]. apply wp_bind. apply wp_zoom.
    unfold ioq_getchar. apply wp_bind, wp_intr_off; [apply (io_off _ Hio)|].
    eapply wp_mono; [by apply getchar_ok|]. intros r q (Hok & Hw & Hq & b & -> & Hb). rewrite Hc in Hb. injection Hb as <- Hb.
    apply wp_bind. eapply wp_lift; [reflexivity|]. apply wp_bind, wp_ret, wp_ret, wp_ret.
    rewrite u8_byte by done. split; [done|]. cbn [o_kbd kbd_buf o_scr]. split; [|done].
    assert (Hthr : io_thr q = io_thr (kbd_buf (o_kbd s))) by (apply Hw; exact Hprod).
    split; cbn [o_kbd kbd_buf]; try done.
    - rewrite Hq. done.
    - by rewrite <- Hb.
    - unfold straight, o_thr in *. cbn [o_kbd kbd_buf o_fs]. by rewrite Hthr.
    - unfold straight, o_thr in *. cbn [o_kbd kbd_buf o_fs]. by rewrite Hthr.
    - unfold o_thr in *. cbn [o_kbd kbd_buf console_lock]. by rewrite Hthr. }
  apply wp_run in Hwp as (r & s' & Hrun & -> & ?). by exists s'.
Qed.
End console.
