(* ===== verification/ShellSpec.v ===== *)
(** What the user of the shell gets: line editing, and what is typed at the
    keyboard arriving as a line.

    [Console] states what [readline] needs of the kernel: keys come in order,
    and what is put on the screen appears there, a backspace removing the last
    character.  The keyboard's queue of Keyboard.v with a screen is an instance
    ([kcon]), so the theorems on typing and on line editing compose. *)

From S2P Require Import Prelude Bitmap Bytes CString Stdio Interrupt Thread Sync IoQueue Keyboard Ide Layout Inode InodeSpec File Pipe Dir Path CmdLine Fs Shell Os.

Open Scope Z_scope.

(** A character on the screen. *)
Definition see (scr : bytes) (c : Z) : bytes := if c =? 8 then removelast scr else scr ++ [c].

Class Console (K : Type) `{Sys K} := {
  keys : K -> bytes;
  shown : K -> bytes;
  con_ok : K -> Prop;
  read_key k c r : con_ok k -> keys k = c :: r ->
    exists k', u_read stdin_no 1 k = Ok ((1, [c]), k') /\ con_ok k' /\ keys k' = r /\ shown k' = shown k;
  putchar_ok c k : con_ok k -> is_byte c ->
    exists k', u_putchar c k = Ok (tt, k') /\ con_ok k' /\ keys k' = keys k /\ shown k' = see (shown k) c;
  clear_ok k : con_ok k ->
    exists k', u_clear k = Ok (tt, k') /\ con_ok k' /\ keys k' = keys k /\ shown k' = [];
  write_ok b k : con_ok k -> cstr b -> zlen b < 1024 ->
    exists k' n, u_write 1 b k = Ok (n, k') /\ con_ok k' /\ keys k' = keys k /\ shown k' = fold_left see b (shown k)
}.

(** ** Line editing *)

(** The line after one more key. *)
Definition edit (line : bytes) (key : Z) : bytes :=
  if key =? 8 then removelast line
  else if key =? 11 then line
  else if key =? 20 then []
  else line ++ [key].

(** The line always leaves room for the next key and the terminator. *)
Fixpoint fits (count : Z) (line ks : bytes) : Prop :=
  zlen line < count /\ match ks with [] => True | k :: ks => fits count (edit line k) ks end.

Definition prompt_text (cw : bytes) : bytes :=
  removelast (bs "[swings@localhost ") ++ cw ++ removelast (bs "]$ ").

(** A key that does not end the line. *)
Definition inner_key (k : Z) : Prop := 0 < k < 256 /\ k <> 10 /\ k <> 13.

(** A character that a line can hold. *)
Definition line_char (c : Z) : Prop := 0 < c < 256 /\ c <> 8.

Section spec.
Context {K : Type} `{Console K}.
Implicit Types s : sh K.

(** [line] is being edited; [base] is on the screen before it. *)
Record editing (base line : bytes) (s0 s : sh K) : Prop := {
  ed_ok : con_ok (kern s);
  ed_line : exists junk, cmd_line s = line ++ junk;
  ed_len : zlen (cmd_line s) = MAX_PATH_LEN;
  ed_chars : Forall line_char line;
  ed_shown : shown (kern s) = base ++ line;
  ed_rest : final_path s = final_path s0 /\ cwd_cache s = cwd_cache s0 /\ sh_argv s = sh_argv s0
}.

Lemma see_text b scr : 8 ∉ b -> fold_left see b scr = scr ++ b.
Proof.
  revert scr. induction b as [|c b IH]; intros scr Hb; simpl; [by rewrite app_nil_r|].
  apply not_elem_of_cons in Hb as [Hc Hb]. unfold see at 2.
  rewrite (proj2 (Z.eqb_neq c 8)), IH by congruence. by rewrite <- app_assoc.
Qed.

Lemma line_char_8 line : Forall line_char line -> 8 ∉ line.
Proof. rewrite Forall_forall. intros Hl Hin. by destruct (Hl 8 Hin). Qed.

Lemma line_char_cstr line : Forall line_char line -> cstr line.
Proof. intros Hl. eapply Forall_impl; [exact Hl|]. by intros c [? _]. Qed.

Lemma wp_call {A} (m : M K A) (Q : A -> sh K -> Prop) s a k :
  m (kern s) = Ok (a, k) -> Q a (Sh k (cmd_line s) (final_path s) (cwd_cache s) (sh_argv s)) -> wp (call m) Q s.
Proof. intros Hm HQ. unfold call. apply wp_zoom. unfold wp. by rewrite Hm. Qed.

Lemma wp_poke_line pos x (a b : bytes) y (Q : unit -> sh K -> Prop) s : cmd_line s = a ++ y :: b -> pos = zlen a ->
  Q tt (Sh (kern s) (a ++ x :: b) (final_path s) (cwd_cache s) (sh_argv s)) -> wp (poke_line pos x) Q s.
Proof.
  intros Hl -> HQ. unfold poke_line. apply wp_bind, wp_gets. apply wp_bind. rewrite Hl.
  eapply wp_lift; [apply poke_at|]. by apply wp_modify.
Qed.

Lemma plain_cstr ps : Forall piece_ok ps -> Forall plain ps -> cstr (concat (map text ps)).
Proof.
  intros Hp Hpl. induction Hp as [|p ps Hp _ IH]; [constructor|]. apply Forall_cons in Hpl as [Hpp Hps].
  simpl. apply Forall_app. split; [|by apply IH]. destruct p; cbn [text piece_ok] in *; try done.
  apply Forall_singleton. apply Hp.
Qed.

(** Printing text without numbers. *)
Lemma wp_say ps fmt (Q : unit -> sh K -> Prop) s : con_ok (kern s) -> bs fmt = format_of ps ++ [0] ->
  Forall piece_ok ps -> Forall plain ps -> zlen (concat (map text ps)) < 1024 -> 8 ∉ concat (map text ps) ->
  (forall k', con_ok k' -> keys k' = keys (kern s) -> shown k' = shown (kern s) ++ concat (map text ps) ->
     Q tt (Sh k' (cmd_line s) (final_path s) (cwd_cache s) (sh_argv s))) ->
  wp (say fmt (args_of ps)) Q s.
Proof.
  intros Hok Hf Hp Hpl Hlen H8 HQ. unfold say, printf. apply wp_bind. rewrite Hf.
  eapply wp_lift.
  { rewrite <- (app_nil_r (args_of ps)). by apply print_buf_plain. }
  apply wp_bind. destruct (write_ok (concat (map text ps)) (kern s) Hok) as (k' & n & E & Hok' & Hk & Hs);
    [by apply plain_cstr|done|].
  eapply wp_call; [exact E|]. apply wp_ret. apply HQ; [done|done|]. by rewrite Hs, see_text.
Qed.

(** The state with the key just read stored at [pos]. *)
Record keyed (base line : bytes) (c : Z) (s0 s : sh K) : Prop := {
  kd_ok : con_ok (kern s);
  kd_line : exists junk, cmd_line s = line ++ c :: junk;
  kd_len : zlen (cmd_line s) = MAX_PATH_LEN;
  kd_chars : Forall line_char line;
  kd_shown : shown (kern s) = base ++ line;
  kd_rest : final_path s = final_path s0 /\ cwd_cache s = cwd_cache s0 /\ sh_argv s = sh_argv s0
}.

Lemma removelast_app_r (a b : bytes) : b <> [] -> removelast (a ++ b) = a ++ removelast b.
Proof. apply removelast_app. Qed.

Lemma erase_ok base line : forall s0 s y, keyed base line y s0 s ->
  wp (erase_line (length line)) (λ _ s', editing base [] s0 s' /\ keys (kern s') = keys (kern s)) s.
Proof.
  induction line as [|x line IH] using rev_ind; intros s0 s y [Hok [junk Hl] Hlen Hch Hsh Hr].
  - apply wp_ret. split; [|done]. split; try done. by exists (cmd_line s).
  - rewrite length_app, Nat.add_comm. cbn [length plus erase_line].
    destruct (putchar_ok 8 (kern s) Hok ltac:(done)) as (k' & E & Hok' & Hk & Hs). apply wp_bind. eapply wp_call; [exact E|].
    apply wp_bind. eapply (wp_poke_line _ _ (line ++ [x]) junk y).
    { exact Hl. }
    { unfold zlen. rewrite length_app. simpl. lia. }
    apply Forall_app in Hch as [Hch _].
    eapply wp_mono; [apply (IH s0 _ x)|].
    + split; cbn [kern cmd_line final_path cwd_cache sh_argv]; try done.
      * exists (0 :: junk). by rewrite <- app_assoc.
      * rewrite <- Hlen, Hl. unfold zlen. by rewrite !length_app.
      * rewrite Hs, Hsh. unfold see. change (8 =? 8) with true. cbv iota.
        by rewrite app_assoc, removelast_last.
    + intros [] s' [He Hk']. split; [exact He|]. rewrite Hk'. exact Hk.
Qed.

(** A key moves from one edited line to the next. *)
Definition rebase (cw base : bytes) (c : Z) : bytes := if c =? 11 then prompt_text cw else base.

(** The working directory the prompt shows. *)
Definition shows_cwd (cw : bytes) s : Prop :=
  cstr cw /\ (8 ∉ cw) /\ zlen cw < 900 /\ exists r, cwd_cache s = cw ++ 0 :: r.

Definition prompt_pieces (cw r : bytes) : list piece :=
  map PLit (removelast (bs "[swings@localhost ")) ++ PStr cw r :: map PLit (removelast (bs "]$ ")).

Lemma prompt_pieces_ok cw r : cstr cw ->
  Forall piece_ok (prompt_pieces cw r) /\ Forall plain (prompt_pieces cw r) /\
  concat (map text (prompt_pieces cw r)) = prompt_text cw.
Proof.
  intros Hc. split; [|split; [repeat constructor|]].
  - unfold prompt_pieces. rewrite Forall_app, Forall_cons. cbn [piece_ok].
    split; [|split; [done|]]; repeat apply Forall_cons_2; try apply Forall_nil_2; vm_compute; split; congruence || done.
  - reflexivity.
Qed.

Lemma prompt_ok cw s (Q : unit -> sh K -> Prop) : con_ok (kern s) -> shows_cwd cw s ->
  (forall k', con_ok k' -> keys k' = keys (kern s) -> shown k' = shown (kern s) ++ prompt_text cw ->
     Q tt (Sh k' (cmd_line s) (final_path s) (cwd_cache s) (sh_argv s))) ->
  wp print_prompt Q s.
Proof.
  intros Hok (Hc & H8 & Hl & r & Hr) HQ. unfold print_prompt. apply wp_bind, wp_gets. rewrite Hr.
  destruct (prompt_pieces_ok cw r Hc) as (P1 & P2 & P3).
  change [AStr (cw ++ 0 :: r)] with (args_of (prompt_pieces cw r)).
  apply wp_say; [done|reflexivity|done|done| | |]; rewrite P3.
  - unfold prompt_text, zlen in *. rewrite !length_app. simpl. lia.
  - unfold prompt_text. rewrite !elem_of_app. intros [Hin|[Hin|Hin]]; [|done|];
      apply list_elem_of_In in Hin; simpl in Hin; intuition discriminate.
  - done.
Qed.

Lemma znth_at (a : bytes) x b : znth (a ++ x :: b) (zlen a) = Some x.
Proof. rewrite znth_app_r, Z.sub_diag by lia. done. Qed.

Lemma key_cases c : inner_key c ->
  ((c =? 10) || (c =? 13)) = false /\ (c <> 8 -> line_char c).
Proof. intros (H1 & H2 & H3). split; [zbool; lia|]. intros H8. by split. Qed.

(** ctrl+l: a new screen with the prompt and the line. *)
Lemma redraw_ok cw base line s0 s : shows_cwd cw s0 -> zlen line < MAX_PATH_LEN -> keyed base line 11 s0 s ->
  wp (poke_line (zlen line) 0;; call u_clear;; print_prompt;; l ← gets cmd_line; say "%s" [AStr l];;
      mret (inl (zlen line) : Z + unit))
    (λ r s', r = inl (zlen line) /\ editing (prompt_text cw) line s0 s' /\ keys (kern s') = keys (kern s)) s.
Proof.
  intros Hcw Hlt [Hok [junk Hl] Hlen Hch Hsh (R1 & R2 & R3)].
  apply wp_bind. eapply (wp_poke_line _ _ line junk 11); [exact Hl|done|].
  destruct (clear_ok (kern s) Hok) as (k1 & E1 & Hok1 & Hk1 & Hs1).
  apply wp_bind. eapply wp_call; [exact E1|]. apply wp_bind.
  apply (prompt_ok cw); [done|unfold shows_cwd in *; cbn [cwd_cache]; by rewrite R2|].
  intros k2 Hok2 Hk2 Hs2. cbn [kern cmd_line final_path cwd_cache sh_argv] in *. apply wp_bind, wp_gets.
  cbn [cmd_line]. apply wp_bind. change [AStr (line ++ 0 :: junk)] with (args_of [PStr line junk]).
  pose proof (line_char_cstr line Hch) as Hcl.
  apply wp_say; cbn [kern]; [done|reflexivity|by apply Forall_singleton|by apply Forall_singleton| | |];
    cbn [map text concat]; rewrite app_nil_r.
  - unfold MAX_PATH_LEN in Hlt. lia.
  - by apply line_char_8.
  - intros k3 Hok3 Hk3 Hs3. apply wp_ret. split; [done|]. split; [|cbn [kern cmd_line] in *; congruence].
    split; cbn [kern cmd_line final_path cwd_cache sh_argv] in *; try done.
    + by exists (0 :: junk).
    + rewrite <- Hlen, Hl. unfold zlen. rewrite !length_app. done.
    + by rewrite Hs3, Hs2, Hs1.
Qed.

Lemma readline_key_ok cw base line c s0 s : shows_cwd cw s0 -> zlen line < MAX_PATH_LEN -> inner_key c ->
  keyed base line c s0 s ->
  wp (readline_key (zlen line)) (λ r s', r = inl (zlen (edit line c)) /\
    editing (rebase cw base c) (edit line c) s0 s' /\ keys (kern s') = keys (kern s)) s.
Proof.
  intros Hcw Hlt Hc Hkd. pose proof Hkd as [Hok [junk Hl] Hlen Hch Hsh Hr].
  destruct (key_cases c Hc) as [E13 Hlc]. unfold readline_key, rebase, edit. apply wp_bind, wp_gets. apply wp_bind.
  rewrite Hl at 1. eapply wp_lift; [by rewrite znth_at|]. rewrite E13.
  destruct (Z.eqb_spec c 8) as [->|H8].
  - change (8 =? 11) with false. cbv iota. apply wp_bind. rewrite Hl. destruct line as [|x line].
    + eapply wp_lift; [reflexivity|]. apply wp_ret. split; [done|]. split; [|done].
      split; try done. by exists (8 :: junk).
    + eapply wp_lift; [reflexivity|]. apply Forall_cons in Hch as [[Hx Hx8] Hch].
      rewrite (proj2 (Z.eqb_neq x 8) Hx8). cbn [negb].
      destruct (putchar_ok 8 (kern s) Hok ltac:(done)) as (k' & E & Hok' & Hk & Hs). apply wp_bind. eapply wp_call; [exact E|].
      apply wp_ret. set (line' := x :: line) in *.
      destruct (exists_last (l := line')) as (pre & z & Ez); [done|]. rewrite Ez, removelast_last. split; [|split; [|done]].
      * f_equal. unfold zlen. rewrite length_app. simpl. lia.
      * split; cbn [kern cmd_line final_path cwd_cache sh_argv]; try done.
        -- exists (z :: 8 :: junk). rewrite Hl, Ez. by rewrite <- app_assoc.
        -- assert (Hall : Forall line_char line') by (by constructor). rewrite Ez in Hall. by apply Forall_app in Hall as [? _].
        -- rewrite Hs, Hsh, Ez. unfold see. change (8 =? 8) with true. cbv iota. by rewrite app_assoc, removelast_last.
  - destruct (Z.eqb_spec c 11) as [->|H11].
    { change (11 =? 20) with false. cbv iota. by apply (redraw_ok cw base line s0 s). }
    destruct (Z.eqb_spec c 20) as [->|H20].
    + apply wp_bind. unfold zlen at 1. rewrite Nat2Z.id. eapply wp_mono; [by apply (erase_ok base line s0 s 20)|].
      intros [] s' [He Hk]. by apply wp_ret.
    + assert (Hcb : is_byte c) by (destruct Hc; unfold is_byte; lia).
      destruct (putchar_ok c (kern s) Hok Hcb) as (k' & E & Hok' & Hk & Hs). apply wp_bind. eapply wp_call; [exact E|].
      apply wp_ret. split; [f_equal; unfold zlen; rewrite length_app; simpl; lia|]. split; [|done].
      split; cbn [kern cmd_line final_path cwd_cache sh_argv]; try done.
      * exists junk. rewrite Hl. by rewrite <- app_assoc.
      * apply Forall_app. rewrite Forall_singleton. by split; [|apply Hlc].
      * rewrite Hs, Hsh. unfold see. rewrite (proj2 (Z.eqb_neq c 8)) by done. by rewrite app_assoc.
Qed.

(** The screen before the line after a sequence of keys. *)
Definition rebases (cw base : bytes) (ks : bytes) : bytes := fold_left (rebase cw) ks base.

Lemma wp_store_key base line c s0 s (Q : unit -> sh K -> Prop) : zlen line < MAX_PATH_LEN -> editing base line s0 s ->
  (forall s', kern s' = kern s -> keyed base line c s0 s' -> Q tt s') -> wp (poke_line (zlen line) c) Q s.
Proof.
  intros Hlt [Hok [junk Hl] Hlen Hch Hsh Hr] HQ. destruct junk as [|y junk].
  { exfalso. rewrite Hl, app_nil_r in Hlen. lia. }
  eapply (wp_poke_line _ _ line junk y); [exact Hl|done|]. apply HQ; [done|].
  split; cbn [kern cmd_line final_path cwd_cache sh_argv]; try done; [by exists junk|].
  rewrite <- Hlen, Hl. unfold zlen. by rewrite !length_app.
Qed.

Lemma readline_loop_ok cw ks e more : (e = 10 \/ e = 13) -> Forall inner_key ks ->
  forall base line s0 s fuel, shows_cwd cw s0 -> fits MAX_PATH_LEN line ks -> editing base line s0 s ->
  keys (kern s) = ks ++ e :: more -> (length ks < fuel)%nat ->
  wp (readline_loop fuel MAX_PATH_LEN (zlen line))
    (λ _ s', (exists junk, cmd_line s' = fold_left edit ks line ++ 0 :: junk) /\ zlen (cmd_line s') = MAX_PATH_LEN /\
       con_ok (kern s') /\ keys (kern s') = more /\
       shown (kern s') = rebases cw base ks ++ fold_left edit ks line ++ [10] /\
       final_path s' = final_path s0 /\ cwd_cache s' = cwd_cache s0 /\ sh_argv s' = sh_argv s0) s.
Proof.
  intros He. induction 1 as [|c ks Hc Hks IH]; intros base line s0 s fuel Hcw Hfit Hed Hkeys Hf;
    (destruct fuel as [|fuel]; [lia|]); cbn [readline_loop]; destruct Hfit as [Hlt Hfit];
    pose proof (ed_ok _ _ _ _ Hed) as Hok;
    (edestruct (read_key (kern s)) as (k' & Er & Hok' & Hk' & Hs'); [exact Hok|exact Hkeys|]);
    apply wp_bind; (eapply wp_call; [exact Er|]); cbn [fst snd]; apply wp_bind;
    (eapply (wp_store_key base line _ s0); [exact Hlt| |]; [|intros s1 Hkern Hkd]);
    try (destruct Hed as [? ? ? ? Hsh ?]; split; cbn [kern cmd_line final_path cwd_cache sh_argv]; [done..|by rewrite Hs'|done]);
    cbn [kern] in Hkern; change (negb (1 =? -1)) with true; rewrite (proj2 (Z.ltb_lt _ _) Hlt); cbn [andb];
    apply wp_bind.
  - pose proof Hkd as [Hok1 [junk Hl1] Hlen1 Hch1 Hsh1 Hr1]. unfold readline_key. apply wp_bind, wp_gets, wp_bind.
    rewrite Hl1 at 1. eapply wp_lift; [by rewrite znth_at|].
    rewrite (proj2 (orb_true_iff (e =? 10) (e =? 13))) by (destruct He as [-> | ->]; [by left|by right]).
    apply wp_bind. eapply (wp_poke_line _ _ line junk e); [exact Hl1|done|]. apply wp_bind.
    destruct (putchar_ok 10 (kern s1) Hok1 ltac:(done)) as (k2 & E2 & Hok2 & Hk2 & Hs2).
    eapply wp_call; [exact E2|]. apply wp_ret, wp_ret. cbn [kern cmd_line final_path cwd_cache sh_argv].
    split; [by exists junk|]. split; [rewrite <- Hlen1, Hl1; unfold zlen; by rewrite !length_app|].
    split; [done|]. split; [by rewrite Hk2, Hkern, Hk'|]. split; [|done].
    rewrite Hs2, Hsh1. unfold see. change (10 =? 8) with false. cbv iota. unfold rebases. simpl. by rewrite app_assoc.
  - eapply wp_mono; [by apply (readline_key_ok cw base line c s0)|]. intros r s2 (-> & Hed2 & Hk2). cbv beta iota.
    apply (IH (rebase cw base c) (edit line c) s0 s2 fuel); try done; [|simpl in Hf; lia].
    by rewrite Hk2, Hkern, Hk'.
Qed.

(** C24: line editing.  When keys and then enter arrive at [readline] and the
    line never fills the buffer, it returns with the buffer holding the edited
    line and a terminator: a backspace takes back the last character, ctrl+u
    the whole line, ctrl+l nothing.  The screen shows the line behind what was
    there before - or behind a new prompt after ctrl+l - and a backspace
    never eats into what is not part of the line. *)
Theorem readline_edits cw ks e more s fuel : (e = 10 \/ e = 13) -> Forall inner_key ks ->
  shows_cwd cw s -> con_ok (kern s) -> fits MAX_PATH_LEN [] ks -> zlen (cmd_line s) = MAX_PATH_LEN ->
  keys (kern s) = ks ++ e :: more -> (length ks < fuel)%nat ->
  exists s' junk, readline fuel MAX_PATH_LEN s = Ok (tt, s') /\
    cmd_line s' = fold_left edit ks [] ++ 0 :: junk /\ zlen (cmd_line s') = MAX_PATH_LEN /\
    con_ok (kern s') /\ keys (kern s') = more /\
    shown (kern s') = (if decide (11 ∈ ks) then prompt_text cw else shown (kern s)) ++ fold_left edit ks [] ++ [10].
Proof.
  intros He Hks Hcw Hok Hfit Hlen Hkeys Hf.
  assert (Hed : editing (shown (kern s)) [] s s).
  { split; try done; [by exists (cmd_line s)|by rewrite app_nil_r]. }
  pose proof (readline_loop_ok cw ks e more He Hks _ [] s s fuel Hcw Hfit Hed Hkeys Hf) as Hwp.
  apply wp_run in Hwp as ([] & s' & Hrun & (junk & Hl) & Hlen' & Hok' & Hk' & Hs' & _).
  exists s', junk. split; [exact Hrun|]. split; [exact Hl|]. split; [done|]. split; [done|]. split; [done|].
  rewrite Hs'. f_equal. unfold rebases, rebase. generalize (shown (kern s)). clear. intros base.
  assert (Hp : forall ks, fold_left (λ base c, if c =? 11 then prompt_text cw else base) ks (prompt_text cw) = prompt_text cw).
  { induction ks0 as [|c ks0 IH]; simpl; [done|]. by destruct (c =? 11). }
  induction ks as [|c ks IH]; simpl; [done|]. destruct (Z.eqb_spec c 11) as [->|Hne].
  - rewrite Hp, decide_True by left. done.
  - rewrite IH. destruct (decide (11 ∈ ks)); [rewrite decide_True by (by right)|rewrite decide_False by set_solver]; done.
Qed.
End spec.

(** ** The shell over the modelled kernel *)

Section kernel.
Context {H : Type} `{Heap H} (v2p : Z -> Z) (junk : dir_entry) (name_junk : bytes) (depth : nat) (page : os H -> Z * bytes).

#[local] Instance kernel_sys : Sys (os H) := os_sys v2p junk name_junk depth page.

Lemma fold_see_app b scr : fold_left see b (fold_left see scr []) = fold_left see (scr ++ b) [].
Proof. by rewrite fold_left_app. Qed.

#[local, refine] Instance kernel_console : Console (os H) := {|
  keys s := contents (ioq (kbd_buf (o_kbd s)));
  shown s := fold_left see (o_scr s) [];
  con_ok := os_console
|}.
Proof.
  - intros k c r Hok Hk. destruct (sys_read_ok v2p c r k Hok Hk) as (k' & E & Hok' & Hc & Hs).
    exists k'. by rewrite Hs.
  - intros c k Hok Hc. exists (set_scr (o_scr k ++ [u8 c]) k).
    split; [by apply put_char_ok|]. split; [by apply os_console_scr|]. split; [done|].
    rewrite u8_byte by done. cbn [o_scr set_scr]. by rewrite <- fold_see_app.
  - intros k Hok. exists (set_scr [] k). split; [done|]. split; [by apply os_console_scr|done].
  - intros b k Hok Hb Hl. exists (set_scr (o_scr k ++ b) k), (s32 (zlen b)).
    split; [by apply sys_write_ok|]. split; [by apply os_console_scr|]. split; [done|].
    cbn [o_scr set_scr]. by rewrite <- fold_see_app.
Defined.

Definition set_kbd (k : kbd) (s : os H) : os H := Os (o_fs s) k (o_qs s) (console_lock s) (o_scr s).
Definition with_kern (k : os H) (s : sh (os H)) : sh (os H) := Sh k (cmd_line s) (final_path s) (cwd_cache s) (sh_argv s).

Lemma typed_state k kb chars : os_console k -> unwatched (kbd_buf (o_kbd k)) ->
  io_ok (kbd_buf kb) -> contents (ioq (kbd_buf kb)) = chars -> Forall is_byte chars ->
  unwatched (kbd_buf kb) -> io_thr (kbd_buf kb) = o_thr k -> os_console (set_kbd kb k).
Proof.
  intros [Hio Hprod Hby Hin Hout Hlk] _ Hok Hc Hb [Hp _] Ht.
  assert (Hthr : o_thr (set_kbd kb k) = o_thr k) by exact Ht.
  split; try done.
  - cbn [o_kbd set_kbd]. by rewrite Hc.
  - unfold straight in *. by rewrite Hthr.
  - unfold straight in *. by rewrite Hthr.
  - by rewrite Hthr.
Qed.

(** C6: from the keyboard to the shell.  A user types any keys of the key map
    and then enter, with any modifiers, while nobody waits for the keyboard:
    the interrupt handler queues the characters, and the shell's [readline],
    reading them with system calls one by one, returns with the line those
    keys mean to an editor - its backspaces, ctrl+u and ctrl+l done - and the
    queue empty again. *)
Theorem typed_line cw ss hd s fuel : os_console (kern s) -> unwatched (kbd_buf (o_kbd (kern s))) ->
  resting (k_fl (o_kbd (kern s))) -> contents (ioq (kbd_buf (o_kbd (kern s)))) = [] ->
  Forall stroke_ok ss -> shows_cwd cw s -> zlen (cmd_line s) = MAX_PATH_LEN ->
  let typed := concat (map stroke_chars ss) in
  Forall inner_key typed -> fits MAX_PATH_LEN [] typed -> zlen typed < 2047 -> (length typed < fuel)%nat ->
  exists kb s' rest,
    interrupts v2p (codes_of (caps_lock_status (k_fl (o_kbd (kern s)))) (ss ++ [SType enter hd])) (o_kbd (kern s)) = Ok (tt, kb) /\
    readline fuel MAX_PATH_LEN (with_kern (set_kbd kb (kern s)) s) = Ok (tt, s') /\
    cmd_line s' = fold_left edit typed [] ++ 0 :: rest /\
    contents (ioq (kbd_buf (o_kbd (kern s')))) = [] /\ os_console (kern s').
Proof.
  intros Hok Hun Hrest Hempty Hss Hcw Hlen typed Hin Hfit Hshort Hfuel.
  set (kb0 := o_kbd (kern s)) in *. set (caps := caps_lock_status (k_fl kb0)).
  assert (Hf : k_fl kb0 = rest caps).
  { destruct Hrest as (? & ? & ? & ?). unfold rest, caps. destruct (k_fl kb0); simpl in *; congruence. }
  assert (Hss' : Forall stroke_ok (ss ++ [SType enter hd])).
  { apply Forall_app. split; [done|]. apply Forall_singleton, (bool_decide_unpack _). by vm_compute. }
  destruct (strokes_decode _ caps Hss') as (_ & D2 & _).
  pose proof (interrupts_decodes v2p (codes_of caps (ss ++ [SType enter hd])) kb0 (oc_io _ Hok)) as Hwp.
  rewrite Hf in Hwp. apply wp_run in Hwp as ([] & kb & Hrun & _ & Hok' & Hc & _ & Hu).
  destruct (Hu Hun) as [Hun' Hthr]. rewrite D2, map_app, concat_app, Hempty in Hc. fold typed in Hc. cbn in Hc.
  rewrite take_ge in Hc by (rewrite length_app; unfold zlen in Hshort; simpl; lia).
  assert (Hby : Forall is_byte (typed ++ [13])).
  { apply Forall_app. split; [|by apply Forall_singleton]. eapply Forall_impl; [exact Hin|]. unfold is_byte. intros c [? _]. lia. }
  pose proof (typed_state (kern s) kb _ Hok Hun Hok' Hc Hby Hun' Hthr) as Hcon.
  set (s0 := with_kern (set_kbd kb (kern s)) s).
  assert (Hed : editing (shown (kern s0)) [] s0 s0).
  { split; try done; [by exists (cmd_line s)|by rewrite app_nil_r]. }
  pose proof (readline_loop_ok cw typed 13 [] (or_intror eq_refl) Hin _ [] s0 s0 fuel Hcw Hfit Hed Hc Hfuel) as Hrl.
  apply wp_run in Hrl. destruct Hrl as ([] & s' & Hr & (rst & Hl) & _ & Hcon' & Hk & _).
  exists kb, s', rst. split; [exact Hrun|]. split; [exact Hr|]. split; [exact Hl|]. split; [exact Hk|exact Hcon'].
Qed.
End kernel.

(** ** The theorems on an example: main is the shell, in the root directory *)

Definition demo_os (chars : bytes) : os (gset Z) :=
  Os demo_fs
    (Kbd (rest false) (IoS demo_threads (IoQ lock_init 0 0 (chars ++ zeros (2048 - zlen chars)) (zlen chars) 0)) [])
    ∅ lock_init [].

Definition demo_sh (chars : bytes) : sh (os (gset Z)) :=
  Sh (demo_os chars) (zeros 512) (zeros 512) ([47] ++ zeros 511) (replicate 16 PNull).

Lemma demo_con chars : zlen chars <= 16 -> Forall is_byte chars ->
  contents (ioq (kbd_buf (o_kbd (demo_os chars)))) = chars -> os_console (demo_os chars).
Proof.
  intros Hl Hb Hc. assert (Hfd : forall fd, 0 <= fd < 2 -> straight fd (demo_os chars)).
  { intros fd Hfd. exists (Thread.demo_task 2 TASK_RUNNING 31), fd, (File 0 0 0).
    assert (Hcase : fd = 0 \/ fd = 1) by lia. destruct Hcase as [-> | ->]; (split_and!; [reflexivity|reflexivity|done|done|reflexivity|vm_compute; congruence]). }
  split; [|done|by rewrite Hc|by apply Hfd|by apply Hfd|by split; [|left]].
  split; [apply demo_threads_kinv|done| |by intros []|done].
  pose proof (Zle_0_nat (length chars)). split; cbn; unfold zlen in *; [|unfold bufsize; lia..].
  unfold zeros. rewrite length_app, length_replicate. unfold bufsize. lia.
Qed.

(** An x, a backspace, "ls", ctrl+l, enter. *)
Lemma readline_edits_witness :
  exists s' rst, @readline _ (os_sys (λ z, z) (DirEntry (zeros 16) 0 0) [] 9 (λ _, (0, []))) 9 MAX_PATH_LEN
      (demo_sh [120; 8; 108; 115; 11; 13; 97]) = Ok (tt, s') /\
    cmd_line s' = [108; 115] ++ 0 :: rst /\ contents (ioq (kbd_buf (o_kbd (kern s')))) = [97] /\
    fold_left see (o_scr (kern s')) [] = removelast (bs "[swings@localhost /]$ ls") ++ [10].
Proof.
  destruct (@readline_edits _ _ (kernel_console (λ z, z) (DirEntry (zeros 16) 0 0) [] 9 (λ _, (0, [])))
    [47] [120; 8; 108; 115; 11] 13 [97] (demo_sh [120; 8; 108; 115; 11; 13; 97]) 9)
    as (s' & rst & Hr & Hl & _ & _ & Hk & Hs); [by right| | | | |reflexivity| |simpl; lia|].
  - repeat apply Forall_cons_2; try apply Forall_nil_2; done.
  - split_and!; [by apply Forall_singleton|set_solver|done|by eexists].
  - apply demo_con; [done| |by vm_compute]. repeat apply Forall_cons_2; try apply Forall_nil_2; done.
  - split_and!; done.
  - by vm_compute.
  - exists s', rst. split; [exact Hr|]. split; [exact Hl|]. split; [exact Hk|]. exact Hs.
Defined.

(** Capital L, backspace, "l", ctrl+l and enter, at the keys. *)
Lemma typed_line_witness :
  let sys := os_sys (λ z, z) (DirEntry (zeros 16) 0 0) [] 9 (λ _, (0, [])) in
  exists kb s' rst,
    interrupts (λ z, z) (codes_of false [SType 76 HLeft; SType 8 HLeft; SType 108 HLeft; SCtrl 108 HLeft HRight; SType enter HLeft])
      (o_kbd (demo_os [])) = Ok (tt, kb) /\
    @readline _ sys 9 MAX_PATH_LEN (with_kern (set_kbd kb (demo_os [])) (demo_sh [])) = Ok (tt, s') /\
    cmd_line s' = [108] ++ 0 :: rst.
Proof.
  destruct (typed_line (λ z, z) (DirEntry (zeros 16) 0 0) [] 9 (λ _, (0, [])) [47]
    [SType 76 HLeft; SType 8 HLeft; SType 108 HLeft; SCtrl 108 HLeft HRight] HLeft (demo_sh []) 9)
    as (kb & s' & rst & Hi & Hr & Hl & _);
    [by apply demo_con; [|apply Forall_nil_2|]|done|done|by vm_compute| | |reflexivity| | |by vm_compute|simpl; lia|].
  - repeat apply Forall_cons_2; try apply Forall_nil_2; apply (bool_decide_unpack _); vm_compute; exact I.
  - split_and!; [by apply Forall_singleton|set_solver|done|by eexists].
  - repeat apply Forall_cons_2; try apply Forall_nil_2; done.
  - split_and!; done.
  - exists kb, s', rst. split; [exact Hi|]. split; [exact Hr|exact Hl].
Defined.
