(* ===== verification/Process.v ===== *)
(** userprog/process.c, userprog/tss.c and the creation of threads in
    thread/thread.c.

    [proc] is the whole kernel as processes see it: the state of Os.v (threads,
    files, pipes, console), the memory of Paging.v and Malloc.v, the pid pool of
    Sync.v, and what lies in the pages of the PCBs besides the task struct:
    interrupt frames, the frames [switch_to] pops, and - in pages of its own -
    the bitmap of each process's virtual addresses, whose value is in the task
    struct and whose address is kept here.  Memory is seen through the page
    directory that [page_dir_activate] loaded last, by the running task. *)

From S2P Require Import Prelude Bitmap Bytes CString Interrupt LinkedList Thread Sync Paging Malloc IoQueue Keyboard Inode File Pipe Fs Shell Os.

Open Scope Z_scope.

(** ** Segment descriptors and the task state segment *)

Module Tss.
Record gdt_desc := GdtDesc {
  limit_low_word : Z; base_low_word : Z; base_mid_byte : Z;
  attr_low_byte : Z; limit_high_attr_high : Z; base_high_byte : Z
}.

Definition make_gdt_desc (desc_addr limit attr_low attr_high : Z) : gdt_desc :=
  {| limit_low_word := u16 (Z.land limit 0x0000ffff);
     base_low_word := u16 (Z.land desc_addr 0x0000ffff);
     base_mid_byte := u8 (Z.shiftr (Z.land desc_addr 0x00ff0000) 16);
     attr_low_byte := u8 attr_low;
     limit_high_attr_high := u8 (Z.shiftr (Z.land limit 0x000f0000) 16 + u8 attr_high);
     base_high_byte := u8 (Z.shiftr desc_addr 24) |}.

(** The attribute bytes of kernel/global.h. *)
Definition GDT_ATTR_HIGH : Z := Z.shiftl 1 7 + Z.shiftl 1 6 + Z.shiftl 0 5 + Z.shiftl 0 4.
Definition GDT_CODE_ATTR_LOW_DPL3 : Z := Z.shiftl 1 7 + Z.shiftl 3 5 + Z.shiftl 1 4 + 8.
Definition GDT_DATA_ATTR_LOW_DPL3 : Z := Z.shiftl 1 7 + Z.shiftl 3 5 + Z.shiftl 1 4 + 2.
Definition TSS_ATTR_HIGH : Z := Z.shiftl 1 7 + Z.shiftl 0 6 + Z.shiftl 0 5 + Z.shiftl 0 4 + 0.
Definition TSS_ATTR_LOW : Z := Z.shiftl 1 7 + Z.shiftl 0 5 + Z.shiftl 0 4 + 9.
Definition SELECTOR_K_STACK : Z := Z.shiftl 2 3 + Z.shiftl 0 2 + 0.
Definition SELECTOR_TSS : Z := Z.shiftl 4 3 + Z.shiftl 0 2 + 0.
Definition SELECTOR_U_CODE : Z := Z.shiftl 5 3 + Z.shiftl 0 2 + 3.
Definition SELECTOR_U_DATA : Z := Z.shiftl 6 3 + Z.shiftl 0 2 + 3.

(** The fields of struct tss that the kernel gives a value. *)
Record tss := TssS { esp0 : Z; ss0 : Z; io_base : Z }.
Definition sizeof_tss : Z := 27 * 4.

Definition update_tss_esp (pthread : Z) (t : tss) : tss := TssS (u32 (pthread + PG_SIZE)) (ss0 t) (io_base t).

(** [tss_init] with the struct at [tss_addr]: the struct, the descriptors
    stored at their addresses, the operand of [lgdt] and the selector for
    [ltr]. *)
Definition tss_init (tss_addr : Z) (gdt : gmap Z gdt_desc) : tss * gmap Z gdt_desc * Z * Z :=
  let tss_size := sizeof_tss in
  (TssS 0 SELECTOR_K_STACK tss_size,
   <[0xc0000930 := make_gdt_desc 0 0xfffff GDT_DATA_ATTR_LOW_DPL3 GDT_ATTR_HIGH]>
   (<[0xc0000928 := make_gdt_desc 0 0xfffff GDT_CODE_ATTR_LOW_DPL3 GDT_ATTR_HIGH]>
   (<[0xc0000920 := make_gdt_desc tss_addr (tss_size - 1) TSS_ATTR_LOW TSS_ATTR_HIGH]> gdt)),
   Z.lor (8 * 7 - 1) (Z.shiftl 0xc0000900 16),
   SELECTOR_TSS).

(** *** What the processor reads in a descriptor *)

Definition seg_base (d : gdt_desc) : Z := base_low_word d + 65536 * base_mid_byte d + 16777216 * base_high_byte d.
(** The last valid offset: the limit counts pages when the G bit is set. *)
Definition seg_limit (d : gdt_desc) : Z :=
  let l := limit_low_word d + 65536 * (limit_high_attr_high d mod 16) in
  if Z.testbit (limit_high_attr_high d) 7 then 4096 * l + 4095 else l.
Definition seg_present (d : gdt_desc) : bool := Z.testbit (attr_low_byte d) 7.
Definition seg_dpl (d : gdt_desc) : Z := Z.land (Z.shiftr (attr_low_byte d) 5) 3.
Inductive seg_type := SegCode | SegData (writable : bool) | SegTss | SegOther.
Definition seg_kind (d : gdt_desc) : seg_type :=
  if Z.testbit (attr_low_byte d) 4 then
    if Z.testbit (attr_low_byte d) 3 then SegCode else SegData (Z.testbit (attr_low_byte d) 1)
  else if Z.land (attr_low_byte d) 15 =? 9 then SegTss else SegOther.

(** The descriptor a selector names, in the table that [lgdt] was given. *)
Definition select (gdtr sel : Z) (gdt : gmap Z gdt_desc) : option gdt_desc :=
  if 8 * Z.shiftr sel 3 + 7 <=? Z.land gdtr 0xffff then gdt !! (Z.shiftr gdtr 16 + 8 * Z.shiftr sel 3) else None.

Lemma byte_field x n : 0 <= n -> u8 (Z.shiftr (Z.land x (Z.shiftl 0xff n)) n) = Z.shiftr x n mod 256.
Proof.
  intros Hn. rewrite Z.shiftr_land, Z.shiftr_shiftl_l, Z.sub_diag, Z.shiftl_0_r by lia.
  change 0xff with (Z.ones 8). rewrite Z.land_ones by lia. unfold u8. rewrite Z.mod_mod by lia. done.
Qed.
Lemma low_word x : u16 (Z.land x 0x0000ffff) = x mod 65536.
Proof. change 0x0000ffff with (Z.ones 16). rewrite Z.land_ones by lia. unfold u16. by rewrite Z.mod_mod by lia. Qed.

(** Base and byte-granular limit come back out of a descriptor. *)
Lemma make_gdt_desc_base a l lo hi : 0 <= a < 4294967296 -> seg_base (make_gdt_desc a l lo hi) = a.
Proof.
  intros Ha. unfold seg_base. cbn [base_low_word base_mid_byte base_high_byte make_gdt_desc].
  rewrite low_word. change 0x00ff0000 with (Z.shiftl 0xff 16). rewrite byte_field by lia.
  rewrite !Z.shiftr_div_pow2 by lia. change (2 ^ 16) with 65536. change (2 ^ 24) with 16777216. unfold u8. dlia.
Qed.

Lemma select_stored gdtr sel (gdt : gmap Z gdt_desc) d : 8 * Z.shiftr sel 3 + 7 <= Z.land gdtr 0xffff ->
  gdt !! (Z.shiftr gdtr 16 + 8 * Z.shiftr sel 3) = Some d -> select gdtr sel gdt = Some d.
Proof. intros Hl Hd. unfold select. by rewrite (proj2 (Z.leb_le _ _) Hl). Qed.


End Tss.

(** ** Frames in the page of a PCB *)

Record intr_stack := IntrStack {
  vec_no : Z; is_edi : Z; is_esi : Z; is_ebp : Z; esp_dummy : Z; is_ebx : Z; is_edx : Z; is_ecx : Z; is_eax : Z;
  is_gs : Z; is_fs : Z; is_es : Z; is_ds : Z; err_code : Z; is_eip : Z; is_cs : Z; is_eflags : Z; is_esp : Z; is_ss : Z
}.

(** The words [switch_to] pops; the arguments are there for the first time
    only. *)
Record thread_stack := TStack {
  ts_ebp : Z; ts_ebx : Z; ts_edi : Z; ts_esi : Z; ts_eip : Z; ts_call : option (Z * Z)
}.

Definition EFLAGS_MBS : Z := Z.shiftl 1 1.
Definition EFLAGS_IF_1 : Z := Z.shiftl 1 9.
Definition EFLAGS_IOPL_0 : Z := Z.shiftl 0 12.
Definition default_prio : Z := 31.
Definition USER_STACK3_VADDR : Z := 0xc0000000 - 0x1000.
Definition USER_VADDR_START : Z := 0x8048000.
(** [u_block_desc] in struct task_struct. *)
Definition u_block_desc_at (pcb : Z) : Z := pcb + 100.

(** Where the linker put the code that new stacks return into. *)
Record image := Image { kernel_thread_at : Z; start_process_at : Z; intr_exit_at : Z; idle_at : Z; init_at : Z }.

(** ** The state *)

Record proc {H : Type} := Proc {
  p_os : os H;
  p_heap : mheap;              (* memory, as the running task sees it *)
  p_pids : pid_pool;
  p_vbits : gmap Z Z;          (* userprog_vaddr.vaddr_bitmap.bits of a PCB *)
  p_frames : gmap Z intr_stack;
  p_stacks : gmap Z thread_stack
}.
Global Arguments proc : clear implicits.
Global Arguments Proc {H}.

Section process.
Context {H : Type} `{Heap H} (im : image).
Implicit Types s : proc H.

Definition thr s : kthreads := o_thr (p_os s).
Definition put_os (x : os H) s : proc H := Proc x (p_heap s) (p_pids s) (p_vbits s) (p_frames s) (p_stacks s).
Definition put_heap (x : mheap) s : proc H := Proc (p_os s) x (p_pids s) (p_vbits s) (p_frames s) (p_stacks s).
Definition put_pids (x : pid_pool) s : proc H := Proc (p_os s) (p_heap s) x (p_vbits s) (p_frames s) (p_stacks s).
Definition put_vbits (x : gmap Z Z) s : proc H := Proc (p_os s) (p_heap s) (p_pids s) x (p_frames s) (p_stacks s).
Definition put_frames (x : gmap Z intr_stack) s : proc H := Proc (p_os s) (p_heap s) (p_pids s) (p_vbits s) x (p_stacks s).
Definition put_stacks (x : gmap Z thread_stack) s : proc H := Proc (p_os s) (p_heap s) (p_pids s) (p_vbits s) (p_frames s) x.
Definition put_thr (k : kthreads) s : proc H := put_os (set_thr k (p_os s)) s.

Definition on_os {A} (m : M (os H) A) : M (proc H) A := zoom p_os put_os m.
Definition on_threads {A} (m : M kthreads A) : M (proc H) A := on_os (o_on_thr m).

(** Memory as task [t] at [a] sees it through the loaded page directory. *)
Definition view (k : kthreads) (t : task_struct) (v : vm) : vm :=
  VM (ram v) (k_cr3 k) (kernel_pool v) (user_pool v) (kernel_vaddr v) (k_cur k) t.
Definition on_heap {A} (m : M mheap A) : M (proc H) A := λ s,
  let k := thr s in
  match k_tasks k !! k_cur k with
  | None => Fault
  | Some t =>
      zoom (λ s, set_hv (view k t (hv (p_heap s))) (p_heap s))
        (λ h s, put_thr (upd_tasks (<[k_cur k := mcur (hv h)]> (k_tasks k)) k) (put_heap h s)) m s
  end.
Definition on_mem {A} (m : M vm A) : M (proc H) A := on_heap (on_vm m).

(** [addr_v2p] on the current page tables, for [schedule]; kernel addresses
    are mapped alike in every page directory. *)
Definition phys (va : Z) s : Z :=
  match on_mem (addr_v2p va) s with Ok (pa, _) => pa | _ => 0 end.

Definition alloc_pid : M (proc H) Z :=
  me ← on_threads running_thread;
  p ← gets p_pids;
  r ← lift (allocate_pid me p);
  modify (put_pids (snd r));;
  mret (fst r).
Definition free_pid (pid : Z) : M (proc H) unit :=
  me ← on_threads running_thread;
  p ← gets p_pids;
  p ← lift (release_pid me pid p);
  modify (put_pids p).

Definition put_task (a : Z) (t : task_struct) : M (proc H) unit :=
  modify (λ s, put_thr (upd_tasks (<[a := t]> (k_tasks (thr s))) (thr s)) s).

(** ** Threads *)

(** The PCB is cleared and filled; a page at address 0 is not one. *)
Definition init_task (pthread : Z) (name : bytes) (prio : Z) : M (proc H) unit :=
  if pthread =? 0 then faultM
  else
    pid ← alloc_pid;
    nm ← lift (strcpy (zeros TASK_NAME_LEN) name);
    main ← gets (λ s, main_thread (thr s));
    put_task pthread (init_thread pthread main pid nm prio).

Definition thread_create (pthread function func_arg : Z) : M (proc H) unit :=
  t ← on_threads (rd_task pthread);
  let kstack := thread_create_kstack (self_kstack t) in
  on_threads (upd_task pthread (set_kstack kstack));;
  modify (λ s, put_stacks (<[kstack := TStack 0 0 0 0 (kernel_thread_at im) (Some (function, func_arg))]> (p_stacks s)) s).

Definition all_append (t : Z) : M kthreads unit := modify (λ k, upd_all (thread_all_list k ++ [t]) k).
Definition on_all (t : Z) (k : kthreads) : bool := bool_decide (t ∈ thread_all_list k).

(** Into the ready queue and the list of all tasks. *)
Definition enlist (t : Z) : M kthreads unit :=
  found ← gets (on_ready t);
  assertM (negb found) "!elem_find(&thread_ready_list, &thread->general_tag)";;
  ready_append t;;
  found ← gets (on_all t);
  assertM (negb found) "!elem_find(&thread_all_list, &thread->all_list_tag)";;
  all_append t.

Definition thread_start (name : bytes) (prio function func_arg : Z) : M (proc H) Z :=
  thread ← on_mem (get_kernel_pages 1);
  init_task thread name prio;;
  thread_create thread function func_arg;;
  on_threads (enlist thread);;
  mret thread.

Definition make_main_thread : M (proc H) unit :=
  me ← on_threads running_thread;
  on_threads (modify (λ k, KT (k_cpu k) (k_tasks k) (k_cur k) (thread_ready_list k) (thread_all_list k)
    (idle_thread k) me (k_cr3 k) (tss_esp0 k) (k_ticks k)));;
  init_task me (bs "main") 31;;
  on_threads (found ← gets (on_all me);
              assertM (negb found) "!elem_find(&thread_all_list, &main_thread->all_list_tag)";;
              all_append me).

(** ** Processes *)

(** [memcpy] of [n] words. *)
Fixpoint copy_words (n : nat) (dst src : Z) : M vm unit :=
  match n with
  | O => mret tt
  | S n =>
      w ← load src;
      store dst w;;
      copy_words n (u32 (dst + 4)) (u32 (src + 4))
  end.

Definition create_page_dir : M (proc H) Z :=
  page_dir_vaddr ← on_mem (get_kernel_pages 1);
  if page_dir_vaddr =? 0 then
    on_os (console_put_str (bs "create_page_dir: get_kernel_pages failed!"));;
    mret 0
  else
    on_mem (copy_words 256 (u32 (page_dir_vaddr + 0x300 * 4)) (u32 (0xfffff000 + 0x300 * 4)));;
    new_page_dir_phy_addr ← on_mem (addr_v2p page_dir_vaddr);
    on_mem (store (u32 (page_dir_vaddr + 4 * 1023))
              (Z.lor (Z.lor (Z.lor new_page_dir_phy_addr PG_US_U) PG_RW_W) PG_P_1));;
    mret page_dir_vaddr.

Definition user_bitmap_len : Z := (0xc0000000 - USER_VADDR_START) / PG_SIZE / 8.
Definition user_bitmap_pages : Z := DIV_ROUND_UP user_bitmap_len PG_SIZE.

(** The pages come zeroed; [bitmap_init] clears the bitmap's bytes again. *)
Definition create_user_vaddr_bitmap (user_prog : Z) : M (proc H) unit :=
  bits ← on_mem (get_kernel_pages user_bitmap_pages);
  if bits =? 0 then faultM
  else
    modify (λ s, put_vbits (<[user_prog := bits]> (p_vbits s)) s);;
    b ← lift (bitmap_init (Bitmap user_bitmap_len (zeros (user_bitmap_pages * PG_SIZE))));
    on_threads (upd_task user_prog (set_uvaddr (VirtualAddr b USER_VADDR_START))).

Definition set_pgdir (a : Z) (t : task_struct) : task_struct :=
  Task (self_kstack t) (pid t) (status t) (name t) (priority t) (ticks t) (elapsed_ticks t)
    (fd_table t) a (userprog_vaddr t) (cwd_inode_nr t) (parent_pid t) (exit_status t) (stack_magic t).

(** The list heads of the descriptors are memory of the PCB's page. *)
Definition desc_cells (desc_array : Z) : list Z :=
  concat (map (λ i, [desc_array + sizeof_desc * i + 8; desc_array + sizeof_desc * i + 16]) (seqZ 0 DESC_CNT)).
Definition pcb_cells (pcb : Z) : M (proc H) unit :=
  modify (λ s, put_heap (upd_nodes (zero_cells (desc_cells (u_block_desc_at pcb))) (p_heap s)) s).

Definition process_execute (filename : Z) (name : bytes) : M (proc H) unit :=
  thread ← on_mem (get_kernel_pages 1);
  init_task thread name default_prio;;
  create_user_vaddr_bitmap thread;;
  thread_create thread (start_process_at im) filename;;
  pgdir ← create_page_dir;
  on_threads (upd_task thread (set_pgdir pgdir));;
  pcb_cells thread;;
  on_heap (block_desc_init (u_block_desc_at thread));;
  old_status ← on_threads (on_kcpu intr_disable);
  on_threads (enlist thread);;
  _ ← on_threads (on_kcpu (intr_set_status old_status));
  mret tt.

(** [sizeof] is added to a [uint32_t*]; the frame is then left for with
    [intr_exit]. *)
Definition start_process (filename : Z) : M (proc H) intr_stack :=
  cur ← on_threads running_thread;
  t ← on_threads (rd_task cur);
  let kstack := u32 (self_kstack t + 4 * sizeof_thread_stack) in
  on_threads (upd_task cur (set_kstack kstack));;
  stack ← on_mem (get_a_page PF_USER USER_STACK3_VADDR);
  let proc_stack := IntrStack 0 0 0 0 0 0 0 0 0 0 Tss.SELECTOR_U_DATA Tss.SELECTOR_U_DATA Tss.SELECTOR_U_DATA 0
    filename Tss.SELECTOR_U_CODE (Z.lor (Z.lor EFLAGS_IOPL_0 EFLAGS_MBS) EFLAGS_IF_1) (u32 (stack + PG_SIZE))
    Tss.SELECTOR_U_DATA in
  modify (λ s, put_frames (<[kstack := proc_stack]> (p_frames s)) s);;
  mret proc_stack.

(** [thread_init] on the pid bitmap's memory. *)
Definition thread_init (pid_bitmap_bits : list Z) : M (proc H) unit :=
  on_threads (modify (λ k, upd_ready [] (upd_all [] k)));;
  p ← lift (pid_pool_init pid_bitmap_bits);
  modify (put_pids p);;
  process_execute (init_at im) (bs "init");;
  make_main_thread;;
  idle ← thread_start (bs "idle") 10 (idle_at im) 0;
  on_threads (modify (λ k, KT (k_cpu k) (k_tasks k) (k_cur k) (thread_ready_list k) (thread_all_list k)
    idle (main_thread k) (k_cr3 k) (tss_esp0 k) (k_ticks k))).
End process.
