(* ===== verification/WaitExit.v ===== *)
(** userprog/wait_exit.c and [thread_exit] of thread/thread.c: how a process
    ends and its parent learns of it.

    [sys_wait] and [sys_exit] block; as in Thread.v a definition stops where
    the processor goes to another task.  [sys_wait_round] is one turn of the
    loop of [sys_wait]: it either returns (status, pid) or goes to sleep, and
    [sys_wait_resume] is what happens when the task runs again.  The status is
    returned beside the pid instead of stored through the caller's pointer. *)

From S2P Require Import Prelude Bitmap Bytes CString Interrupt Thread Sync Paging Malloc IoQueue Keyboard Inode File Pipe Fs Shell Os Process.

Open Scope Z_scope.

Section wait_exit.
Context {H : Type} `{Heap H}.
Implicit Types s : proc H.

(** ** Ending a thread *)

Definition list_drop (t : Z) (l : list Z) : list Z := filter (λ x, x <> t) l.

(** The PCB is gone with its page.  The pid is read after that, which works
    because the processor still has the old translation: [invlpg] names the
    page of a local variable.  With [need_schedule] the thread is switched
    out for good; the panic behind the call is not reached. *)
Definition thread_exit (thread_over : Z) (need_schedule : bool) : M (proc H) unit :=
  _ ← on_threads (on_kcpu intr_disable);
  t ← on_threads (rd_task thread_over);
  on_threads (upd_task thread_over (set_status TASK_DIED));;
  found ← on_threads (gets (on_ready thread_over));
  (if (found : bool) then on_threads (modify (λ k, upd_ready (list_drop thread_over (thread_ready_list k)) k))
   else mret tt);;
  (if negb (pgdir t =? 0) then on_mem (mfree_page PF_KERNEL (pgdir t) 1) else mret tt);;
  on_threads (modify (λ k, upd_all (list_drop thread_over (thread_all_list k)) k));;
  main ← gets (λ s, main_thread (thr s));
  (if negb (thread_over =? main) then
     on_mem (mfree_page PF_KERNEL thread_over 1);;
     on_threads (modify (λ k, upd_tasks (delete thread_over (k_tasks k)) k))
   else mret tt);;
  free_pid (pid t);;
  if need_schedule then
    v2p ← gets (λ s va, phys va s);
    on_threads (schedule v2p)
  else mret tt.

(** ** The memory and files of a process *)

Fixpoint release_ptes (n : nat) (first_pte_vaddr_in_pde pte_idx : Z) : M vm unit :=
  match n with
  | O => mret tt
  | S n =>
      pte ← load (u32 (first_pte_vaddr_in_pde + 4 * pte_idx));
      (if present pte then free_a_phy_page (Z.land pte 0xfffff000) else mret tt);;
      release_ptes n first_pte_vaddr_in_pde (pte_idx + 1)
  end.

Fixpoint release_pdes (n : nat) (pgdir_vaddr pde_idx : Z) : M vm unit :=
  match n with
  | O => mret tt
  | S n =>
      pde ← load (u32 (pgdir_vaddr + 4 * pde_idx));
      (if present pde then
         release_ptes 1024 (pte_ptr (u32 (pde_idx * 0x400000))) 0;;
         free_a_phy_page (Z.land pde 0xfffff000)
       else mret tt);;
      release_pdes n pgdir_vaddr (pde_idx + 1)
  end.

(** The reference a pipe holds on its ring buffer, or the file. *)
Definition close_fd (fd_idx : Z) : M (proc H) unit :=
  p ← on_os (on_pipes (is_pipe fd_idx));
  if p : bool then
    global_fd ← on_os (on_pipes (p_local2global fd_idx));
    on_os (on_pipes (p_upd_file global_fd (λ e, File (u32 (fd_pos e - 1)) (fd_flag e) (fd_inode e))));;
    e ← on_os (on_pipes (p_file global_fd));
    if fd_pos e =? 0 then
      on_mem (mfree_page PF_KERNEL (fd_inode e) 1);;
      on_os (modify (λ o, Os (o_fs o) (o_kbd o) (delete (fd_inode e) (o_qs o)) (console_lock o) (o_scr o)));;
      on_os (on_pipes (p_upd_file global_fd (λ e, File (fd_pos e) (fd_flag e) 0)))
    else mret tt
  else
    _ ← on_os (sys_close fd_idx);
    mret tt.

Fixpoint close_fds (n : nat) (release_thread fd_idx : Z) : M (proc H) unit :=
  match n with
  | O => mret tt
  | S n =>
      t ← on_threads (rd_task release_thread);
      fd ← lift (of_option (znth (fd_table t) fd_idx));
      (if negb (fd =? -1) then close_fd fd_idx else mret tt);;
      close_fds n release_thread (fd_idx + 1)
  end.

Definition release_prog_resource (release_thread : Z) : M (proc H) unit :=
  t ← on_threads (rd_task release_thread);
  on_mem (release_pdes 768 (pgdir t) 0);;
  let bitmap_pg_cnt := btmp_bytes_len (vaddr_bitmap (userprog_vaddr t)) / PG_SIZE in
  user_vaddr_pool_bitmap ← (λ s, lift (of_option (p_vbits s !! release_thread)) s);
  on_mem (mfree_page PF_KERNEL user_vaddr_pool_bitmap bitmap_pg_cnt);;
  close_fds (Z.to_nat (MAX_FILES_OPEN_PER_PROC - 3)) release_thread 3.

(** ** wait and exit *)

Definition find_child (ppid : Z) (t : task_struct) : bool := parent_pid t =? ppid.
Definition find_hanging_child (ppid : Z) (t : task_struct) : bool :=
  (parent_pid t =? ppid) && bool_decide (status t = TASK_HANGING).

Definition set_parent (p : Z) (t : task_struct) : task_struct :=
  Task (self_kstack t) (pid t) (status t) (name t) (priority t) (ticks t) (elapsed_ticks t)
    (fd_table t) (pgdir t) (userprog_vaddr t) (cwd_inode_nr t) p (exit_status t) (stack_magic t).
Definition set_exit (x : Z) (t : task_struct) : task_struct :=
  Task (self_kstack t) (pid t) (status t) (name t) (priority t) (ticks t) (elapsed_ticks t)
    (fd_table t) (pgdir t) (userprog_vaddr t) (cwd_inode_nr t) (parent_pid t) x (stack_magic t).

Definition init_adopt_a_child (pid : Z) (t : task_struct) : task_struct :=
  if parent_pid t =? pid then set_parent 1 t else t.
(** [list_traversal(&thread_all_list, init_adopt_a_child, pid)] *)
Fixpoint adopt_children (pid : Z) (all : list Z) : M kthreads unit :=
  match all with
  | [] => mret tt
  | t :: all => upd_task t (init_adopt_a_child pid);; adopt_children pid all
  end.

Definition search (p : task_struct -> bool) : M kthreads Z := λ k,
  lift (find_thread p (k_tasks k) (thread_all_list k)) k.

Definition sys_wait_round : M (proc H) ((option Z * Z) + intr_status) :=
  parent_thread ← on_threads running_thread;
  parent ← on_threads (rd_task parent_thread);
  child_elem ← on_threads (search (find_hanging_child (pid parent)));
  if negb (child_elem =? 0) then
    child_thread ← on_threads (rd_task child_elem);
    let status := exit_status child_thread in
    let child_pid := u16 (pid child_thread) in
    thread_exit child_elem false;;
    mret (inl (Some status, s16 child_pid))
  else
    child_elem ← on_threads (search (find_child (pid parent)));
    if child_elem =? 0 then mret (inl (None, -1))
    else
      v2p ← gets (λ s va, phys va s);
      old_status ← on_threads (thread_block_enter v2p TASK_WAITING);
      mret (inr old_status).
Definition sys_wait : M (proc H) ((option Z * Z) + intr_status) := sys_wait_round.
Definition sys_wait_resume (old_status : intr_status) : M (proc H) ((option Z * Z) + intr_status) :=
  on_threads (thread_block_exit old_status);;
  sys_wait_round.

Definition sys_exit (status : Z) : M (proc H) unit :=
  child_thread ← on_threads running_thread;
  on_threads (upd_task child_thread (set_exit (s8 status)));;
  t ← on_threads (rd_task child_thread);
  (if parent_pid t =? -1 then panicM "sys_exit: child_thread->parent_pid is -1" else mret tt);;
  all ← gets (λ s, thread_all_list (thr s));
  on_threads (adopt_children (pid t) all);;
  release_prog_resource child_thread;;
  t ← on_threads (rd_task child_thread);
  parent_thread ← on_threads (pid2thread (parent_pid t));
  p ← on_threads (rd_task parent_thread);
  (if bool_decide (Thread.status p = TASK_WAITING) then on_threads (thread_unblock parent_thread) else mret tt);;
  v2p ← gets (λ s va, phys va s);
  _ ← on_threads (thread_block_enter v2p TASK_HANGING);
  mret tt.
End wait_exit.
