(* ===== verification/WaitExitSpec.v ===== *)
(** The end of a process: its memory is given back whole, its children go to
    init, its parent wakes up and collects its status and its pid. *)

From S2P Require Import Prelude Bitmap Bytes CString Interrupt LinkedList Thread Sync Paging PagingSpec Malloc IoQueue Keyboard Inode InodeSpec File Pipe Fs Shell Os Process WaitExit.

Open Scope Z_scope.

(** ** The memory of a process *)

Section release.
Implicit Types s : vm.

Lemma frame_frame e : frame (frame e) = frame e.
Proof.
  rewrite <- (Z.add_0_r (frame e)) at 1. apply frame_id; [apply frame_aligned| |lia].
  pose proof (frame_range e). unfold is_addr. lia.
Qed.

(** The frames [fs] have been returned to their pools; memory is as before. *)
Record let_go s s' (fs : list Z) : Prop := {
  lg_ram : ram s' = ram s;
  lg_cfg : same_cfg s s';
  lg_pools : pools_wf s';
  lg_free : forall g, is_free s' g <-> is_free s g \/ g ∈ fs
}.

Lemma let_go_nil s : pools_wf s -> let_go s s [].
Proof. intros Hp. split; [done|apply same_cfg_refl|done|]. set_solver. Qed.
Lemma let_go_trans s s1 s2 f1 f2 : let_go s s1 f1 -> let_go s1 s2 f2 -> let_go s s2 (f1 ++ f2).
Proof.
  intros [R1 C1 P1 F1] [R2 C2 P2 F2]. split; [congruence|by eapply same_cfg_trans|done|].
  intros g. rewrite F2, F1, elem_of_app. tauto.
Qed.

Lemma same_cfg_cr3 s s' : same_cfg s s' -> cr3 s' = cr3 s.
Proof. by intros (r & kb & ub & -> & _). Qed.
Lemma owned_same pf s s' f : same_cfg s s' -> owned pf s f -> owned pf s' f.
Proof. apply owned_cfg. Qed.

(** Only memory and the directory register decide about translation. *)
Lemma let_go_word s s' fs x : let_go s s' fs -> word s' x = word s x.
Proof. intros [R _ _ _]. unfold word. by rewrite R. Qed.
Lemma let_go_mmu s s' fs va : let_go s s' fs -> mmu s' va = mmu s va.
Proof.
  intros Hl. unfold mmu, pte_addr, pde_of. rewrite !(let_go_word s s' fs) by done.
  by rewrite (same_cfg_cr3 s s' (lg_cfg _ _ _ Hl)).
Qed.
Lemma let_go_pdir s s' fs i : let_go s s' fs -> pdir s' i = pdir s i.
Proof. intros Hl. unfold pdir. by rewrite (let_go_word s s' fs), (same_cfg_cr3 s s' (lg_cfg _ _ _ Hl)). Qed.
Lemma let_go_selfmap s s' fs : let_go s s' fs -> selfmap s -> selfmap s'.
Proof.
  intros Hl [S1 S2 S3 S4]. pose proof (same_cfg_cr3 s s' (lg_cfg _ _ _ Hl)) as Hc.
  split; unfold tframe in *; rewrite ?(let_go_pdir s s' fs), ?Hc by done; done.
Qed.

(** [f] belongs to one of the pools. *)
Definition pooled s f : Prop := exists pf, valid_pf pf /\ owned pf s f.

Lemma let_go_pooled s s' fs f : let_go s s' fs -> pooled s f -> pooled s' f.
Proof. intros Hl (pf & Hpf & Ho). exists pf. split; [done|]. by eapply owned_cfg; [apply (lg_cfg _ _ _ Hl)|]. Qed.

Lemma free_frame s f : pools_wf s -> pooled s f -> wp (free_a_phy_page f) (λ _ s', let_go s s' [f]) s.
Proof.
  intros Hp (pf & Hpf & Ho). eapply wp_mono; [by apply (pfree_ok pf s f)|].
  intros [] s' (b & Hs & Hp' & Hc & Hf). split; [|done|done|].
  - rewrite Hs. by unfold set_pool; destruct (is_kernel pf).
  - intros g. rewrite Hf. set_solver.
Qed.

(** Entry [j] of the page table of directory entry [i], and the frames its
    entries name. *)
Definition entry_at s (i j : Z) : Z := word s (tframe s i + 4 * j).
Definition named s (i j : Z) (n : nat) : list Z :=
  omap (λ j, if present (entry_at s i j) then Some (frame (entry_at s i j)) else None) (seqZ j (Z.of_nat n)).
Definition ptes : nat := 1024.
Definition released s (i : Z) : list Z := if present (pdir s i) then named s i 0 ptes ++ [tframe s i] else [].

Lemma let_go_entry s s' fs i j : let_go s s' fs -> entry_at s' i j = entry_at s i j.
Proof. intros Hl. unfold entry_at, tframe. by rewrite (let_go_word s s' fs), (let_go_pdir s s' fs). Qed.
Lemma let_go_named s s' fs i j n : let_go s s' fs -> named s' i j n = named s i j n.
Proof. intros Hl. unfold named. apply list_omap_ext, Forall_Forall2_diag, Forall_forall. intros k _. by rewrite !(let_go_entry s s' fs). Qed.

Lemma named_S s i j n : named s i j (S n) =
  (if present (entry_at s i j) then [frame (entry_at s i j)] else []) ++ named s i (j + 1) n.
Proof. unfold named. rewrite seqZ_cons by lia. simpl. replace (Z.pred (Z.of_nat (S n))) with (Z.of_nat n) by lia.
  replace (Z.succ j) with (j + 1) by lia. by destruct (present (entry_at s i j)). Qed.

(** All frames below directory entry [i] belong to a pool. *)
Definition table_pooled s (i : Z) : Prop := forall j, 0 <= j < 1024 -> present (entry_at s i j) = true ->
  pooled s (frame (entry_at s i j)).

Lemma release_ptes_ok i n : forall j s, 0 <= i < 1023 -> 0 <= j -> j + Z.of_nat n = 1024 -> selfmap s -> pools_wf s ->
  present (pdir s i) = true -> table_pooled s i ->
  wp (release_ptes n (0xffc00000 + 4096 * i) j) (λ _ s', let_go s s' (named s i j n)) s.
Proof.
  induction n as [|n IH]; intros j s Hi Hj Hn Hs Hp Hpr Ht; cbn [release_ptes].
  - apply wp_ret. by apply let_go_nil.
  - rewrite named_S. apply wp_bind. rewrite u32_small by lia.
    eapply (wp_load _ (tframe s i + 4 * j)); [dlia| |].
    { replace (0xffc00000 + 4096 * i + 4 * j) with (0xffc00000 + 4096 * i + (4 * j)) by lia.
      rewrite mmu_window by (done || lia). by rewrite Hpr. }
    fold (entry_at s i j). apply wp_bind.
    assert (Hstep : wp (if present (entry_at s i j) then free_a_phy_page (Z.land (entry_at s i j) 0xfffff000) else mret tt)
      (λ _ s', let_go s s' (if present (entry_at s i j) then [frame (entry_at s i j)] else [])) s).
    { destruct (present (entry_at s i j)) eqn:E; [|by apply wp_ret, let_go_nil].
      apply free_frame; [done|]. apply Ht; [lia|done]. }
    eapply wp_mono; [exact Hstep|]. intros [] s1 Hl. eapply wp_mono.
    { apply (IH (j + 1) s1); try done; [lia|lia|by eapply let_go_selfmap|apply (lg_pools _ _ _ Hl)|by rewrite (let_go_pdir s s1 _ i Hl)|].
      intros k Hk. rewrite (let_go_entry s s1 _ i k Hl). intros Hk'. eapply let_go_pooled; [exact Hl|]. by apply Ht. }
    intros [] s2 Hl2. rewrite (let_go_named s s1 _ i (j + 1) n Hl) in Hl2. by eapply let_go_trans.
Qed.

Lemma let_go_released s s' fs i : let_go s s' fs -> released s' i = released s i.
Proof.
  intros Hl. unfold released, tframe. by rewrite (let_go_pdir s s' fs), (let_go_named s s' fs) by done.
Qed.

Lemma table_window i : 0 <= i < 768 -> pte_ptr (u32 (i * 0x400000)) = 0xffc00000 + 4096 * i.
Proof.
  intros Hi. rewrite u32_small by lia. assert (Ha : is_addr (i * 0x400000)) by (unfold is_addr; lia).
  rewrite pte_ptr_eq, PDE_IDX_div, PTE_IDX_div by done. dlia.
Qed.

(** The page directory at [pg], and the frames of the user half. *)
Record user_space (pg : Z) s : Prop := {
  us_self : selfmap s;
  us_pools : pools_wf s;
  us_page : page_aligned pg /\ is_addr pg;
  us_dir : mmu s pg = Some (cr3 s);
  us_tables : forall i, 0 <= i < 768 -> present (pdir s i) = true -> pooled s (tframe s i);
  us_frames : forall va pa, 0 <= va < 0xc0000000 -> mmu s va = Some pa -> pooled s (frame pa)
}.

Lemma let_go_space pg s s' fs : let_go s s' fs -> user_space pg s -> user_space pg s'.
Proof.
  intros Hl [U1 U2 U3 U4 U5 U6]. split; [by eapply let_go_selfmap|apply (lg_pools _ _ _ Hl)|done| | |].
  - by rewrite (let_go_mmu s s' fs), (same_cfg_cr3 s s' (lg_cfg _ _ _ Hl)).
  - intros i Hi. unfold tframe. rewrite (let_go_pdir s s' fs) by done. intros Hp. eapply let_go_pooled; [done|]. by apply U5.
  - intros va pa Hva. rewrite (let_go_mmu s s' fs) by done. intros Hm. eapply let_go_pooled; [done|]. by eapply U6.
Qed.

(** The address an entry of a table translates. *)
Lemma entry_mmu s i j : 0 <= i < 1024 -> 0 <= j < 1024 ->
  let va := 4194304 * i + 4096 * j in
  is_addr va /\ PDE_IDX va = i /\ PTE_IDX va = j /\
  (present (pdir s i) = true -> present (entry_at s i j) = true -> mmu s va = Some (frame (entry_at s i j))).
Proof.
  intros Hi Hj va. assert (Ha : is_addr va) by (unfold is_addr, va; lia).
  assert (E1 : PDE_IDX va = i) by (rewrite PDE_IDX_div by done; unfold va; dlia).
  assert (E2 : PTE_IDX va = j) by (rewrite PTE_IDX_div by done; unfold va; dlia).
  split; [done|]. split; [done|]. split; [done|]. intros Hp Hq.
  unfold mmu, pte_addr, pde_of. rewrite E1, E2. fold (pdir s i). rewrite Hp. fold (tframe s i). fold (entry_at s i j).
  rewrite Hq, offset_mod. f_equal. unfold va. dlia.
Qed.

Lemma space_pooled pg s i : user_space pg s -> 0 <= i < 768 -> present (pdir s i) = true -> table_pooled s i.
Proof.
  intros U Hi Hp j Hj He. destruct (entry_mmu s i j) as (_ & _ & _ & Hm); [lia|done|].
  pose proof (us_frames _ _ U (4194304 * i + 4096 * j) _ ltac:(lia) (Hm Hp He)) as Hf.
  by rewrite frame_frame in Hf.
Qed.

Lemma release_pdes_ok pg n : forall i s, 0 <= i -> i + Z.of_nat n = 768 -> user_space pg s ->
  wp (release_pdes n pg i) (λ _ s', let_go s s' (concat (map (released s) (seqZ i (Z.of_nat n))))) s.
Proof.
  induction n as [|n IH]; intros i s Hi Hn U; cbn [release_pdes].
  - apply wp_ret. by apply let_go_nil, (us_pools _ _ U).
  - rewrite seqZ_cons by lia. replace (Z.pred (Z.of_nat (S n))) with (Z.of_nat n) by lia.
    replace (Z.succ i) with (i + 1) by lia. cbn [map concat]. pose proof (us_page _ _ U) as [Hal Had].
    unfold page_aligned, is_addr in *. apply wp_bind. rewrite u32_small by dlia.
    eapply (wp_load _ (cr3 s + 4 * i)); [dlia| |].
    { pose proof (us_dir _ _ U) as Hd.
      apply (mmu_page s pg (pg + 4 * i)) in Hd; [|done|unfold is_addr; dlia|dlia].
      rewrite Hd. f_equal. dlia. }
    fold (pdir s i). apply wp_bind.
    assert (Hstep : wp (if present (pdir s i) then release_ptes 1024 (pte_ptr (u32 (i * 0x400000))) 0;;
        free_a_phy_page (Z.land (pdir s i) 0xfffff000) else mret tt) (λ _ s', let_go s s' (released s i)) s).
    { unfold released. destruct (present (pdir s i)) eqn:E; [|by apply wp_ret, let_go_nil, (us_pools _ _ U)].
      apply wp_bind. rewrite table_window by lia. eapply wp_mono.
      { apply (release_ptes_ok i ptes 0 s); try done; [lia|apply (us_self _ _ U)|apply (us_pools _ _ U)|].
        apply (space_pooled pg); [done|lia|done]. }
      intros [] s1 Hl. eapply wp_mono; [apply (free_frame s1 (tframe s i))|].
      { apply (lg_pools _ _ _ Hl). }
      { eapply let_go_pooled; [exact Hl|]. apply (us_tables _ _ U); [lia|done]. }
      intros [] s2 Hl2. by eapply let_go_trans. }
    eapply wp_mono; [exact Hstep|]. intros [] s1 Hl. eapply wp_mono.
    { apply (IH (i + 1) s1); [lia|lia|by eapply let_go_space]. }
    intros [] s2 Hl2. eapply let_go_trans; [exact Hl|].
    erewrite map_ext; [exact Hl2|]. intros k. symmetry. by apply (let_go_released s s1 _ k Hl).
Qed.

Lemma elem_named s i j n g : g ∈ named s i j n <->
  exists k, j <= k < j + Z.of_nat n /\ present (entry_at s i k) = true /\ g = frame (entry_at s i k).
Proof.
  unfold named. rewrite list_elem_of_omap. split.
  - intros (k & Hk & Hg). apply elem_of_seqZ in Hk. exists k. destruct (present (entry_at s i k)); [|done].
    injection Hg as <-. done.
  - intros (k & Hk & Hp & ->). exists k. rewrite elem_of_seqZ, Hp. done.
Qed.

(** What the frames are: everything the user half maps, and its tables. *)
Lemma released_frames s g :
  g ∈ concat (map (released s) (seqZ 0 768)) <->
  (exists va pa, 0 <= va < 0xc0000000 /\ mmu s va = Some pa /\ frame pa = g) \/
  (exists i, 0 <= i < 768 /\ present (pdir s i) = true /\ tframe s i = g).
Proof.
  assert (Hin : g ∈ concat (map (released s) (seqZ 0 768)) <-> exists i, 0 <= i < 768 /\ g ∈ released s i).
  { rewrite list_elem_of_In, in_concat. split.
    - intros (l & Hl & Hg). apply in_map_iff in Hl as (i & <- & Hi). exists i.
      rewrite <- list_elem_of_In in Hg, Hi. apply elem_of_seqZ in Hi. split; [lia|done].
    - intros (i & Hi & Hg). exists (released s i). split; [|by apply list_elem_of_In].
      apply in_map, list_elem_of_In, elem_of_seqZ. lia. }
  rewrite Hin. unfold released. split.
  - intros (i & Hi & Hg). destruct (present (pdir s i)) eqn:E; [|by apply elem_of_nil in Hg].
    apply elem_of_app in Hg as [Hg|Hg].
    + left. apply elem_named in Hg as (j & Hj & Ee & ->). change (Z.of_nat ptes) with 1024 in Hj.
      destruct (entry_mmu s i j) as (_ & _ & _ & Hm); [lia|lia|].
      exists (4194304 * i + 4096 * j), (frame (entry_at s i j)). split; [lia|]. split; [by apply Hm|].
      apply frame_frame.
    + right. apply list_elem_of_singleton in Hg as ->. by exists i.
  - intros [(va & pa & Hva & Hm & <-)|(i & Hi & Hp & <-)].
    + assert (Ha : is_addr va) by (unfold is_addr; lia). exists (PDE_IDX va).
      assert (Hd : 0 <= PDE_IDX va < 768) by (rewrite PDE_IDX_div by done; dlia). split; [done|].
      unfold mmu, pte_addr, pde_of in Hm. fold (pdir s (PDE_IDX va)) in Hm. destruct (present (pdir s (PDE_IDX va))); [|done].
      apply elem_of_app. left. fold (tframe s (PDE_IDX va)) in Hm. fold (entry_at s (PDE_IDX va) (PTE_IDX va)) in Hm.
      apply elem_named. exists (PTE_IDX va). destruct (idx_range va Ha). change (Z.of_nat ptes) with 1024. split; [lia|].
      destruct (present (entry_at s (PDE_IDX va) (PTE_IDX va))); [|done]. injection Hm as <-. split; [done|].
      rewrite offset_mod. apply frame_id; [apply frame_aligned| |apply Z.mod_pos_bound; lia].
      pose proof (frame_range (entry_at s (PDE_IDX va) (PTE_IDX va))). unfold is_addr. lia.
    + exists i. split; [done|]. rewrite Hp. apply elem_of_app. right. by apply list_elem_of_singleton.
Qed.

Lemma release_frees_user pg s : user_space pg s ->
  exists s', release_pdes 768 pg 0 s = Ok (tt, s') /\ ram s' = ram s /\ same_cfg s s' /\ pools_wf s' /\
    forall g, is_free s' g <-> is_free s g \/
      (exists va pa, 0 <= va < 0xc0000000 /\ mmu s va = Some pa /\ frame pa = g) \/
      (exists i, 0 <= i < 768 /\ present (pdir s i) = true /\ tframe s i = g).
Proof.
  intros U. pose proof (release_pdes_ok pg 768 0 s ltac:(lia) ltac:(lia) U) as Hwp.
  apply wp_run in Hwp as ([] & s' & Hr & [R C P F]). exists s'. split; [exact Hr|]. split; [done|]. split; [done|].
  split; [done|]. intros g. by rewrite F, <- released_frames.
Qed.

(** C13: a process leaves nothing behind.  When the loops over the page
    directory of the running process are done, exactly the frames that its
    user half of the address space maps, and the page tables of that half, are
    free in addition to those that were: no other frame is freed, none of
    these is forgotten, memory and the page tables are untouched, and every
    frame returns to the pool it came from. *)
Theorem release_frees_user_half pg s : user_space pg s ->
  exists s', release_pdes 768 pg 0 s = Ok (tt, s') /\ ram s' = ram s /\ same_cfg s s' /\ pools_wf s' /\
    forall g, is_free s' g <-> is_free s g \/
      (exists va pa, 0 <= va < 0xc0000000 /\ mmu s va = Some pa /\ frame pa = g) \/
      (exists i, 0 <= i < 768 /\ present (pdir s i) = true /\ tframe s i = g).
Proof. apply release_frees_user. Qed.
End release.

(** ** The kernel as a process sees it *)

Lemma wp_and {S A} (m : M S A) (P Q : A -> S -> Prop) s : wp m P s -> wp m Q s -> wp m (λ a s', P a s' /\ Q a s') s.
Proof. unfold wp. destruct (m s) as [[a s']| | | |]; tauto. Qed.

Section views.
Context {H : Type} `{Heap H}.
Implicit Types s : proc H.

Lemma wp_on_threads {A} (m : M kthreads A) (Q : A -> proc H -> Prop) s :
  wp m (λ a k, Q a (put_thr k s)) (thr s) -> wp (on_threads m) Q s.
Proof. intros Hm. apply wp_zoom, wp_zoom. exact Hm. Qed.

Lemma thr_put k s : thr (put_thr k s) = k.
Proof. done. Qed.
Lemma put_thr_put k k' s : put_thr k (put_thr k' s) = put_thr k s.
Proof. done. Qed.
Lemma put_thr_same s : put_thr (thr s) s = s.
Proof. by destruct s as [[f [fl [? ?] sc] q l scr] ? ? ? ? ?]. Qed.

(** Collapse updates of the thread state. *)
Ltac norm_thr := rewrite ?put_thr_put, ?thr_put, ?put_thr_same.

(** Memory as the running task sees it. *)
Definition mem s (t : task_struct) : vm := view (thr s) t (hv (p_heap s)).
Definition put_mem (v : vm) s : proc H := put_heap (set_hv v (p_heap s)) s.

Lemma wp_on_mem {A} (m : M vm A) (Q : A -> proc H -> Prop) s t : k_tasks (thr s) !! k_cur (thr s) = Some t ->
  wp m (λ a v, mcur v = t /\ Q a (put_mem v s)) (mem s t) -> wp (on_mem m) Q s.
Proof.
  intros Ht Hm. unfold on_mem, on_heap. unfold wp. rewrite Ht. unfold zoom, on_vm, zoom.
  unfold mem in Hm. apply wp_run in Hm as (a & v & E & Hc & HQ). cbn [hv set_hv]. rewrite E. cbn [hv set_hv]. rewrite Hc.
  rewrite insert_id by done. replace (upd_tasks (k_tasks (thr s)) (thr s)) with (thr s) by (by destruct (thr s)).
  replace (put_thr (thr s) _) with (put_mem v s); [exact HQ|]. unfold put_mem.
  by destruct s as [[f [fl [? ?] sc] q l scr] ? ? ? ? ?].
Qed.

Lemma mem_put_thr k s t : k_cr3 k = k_cr3 (thr s) -> k_cur k = k_cur (thr s) -> mem (put_thr k s) t = mem s t.
Proof. intros H1 H2. unfold mem, view. rewrite thr_put. by rewrite H1, H2. Qed.

Lemma mem_put_mem v s t : cr3 v = k_cr3 (thr s) -> me v = k_cur (thr s) -> mcur v = t -> mem (put_mem v s) t = v.
Proof. intros H1 H2 H3. unfold mem, view. cbn. rewrite <- H3. change (thr (put_mem v s)) with (thr s). rewrite <- H1, <- H2. by destruct v. Qed.
End views.

(** One page of the kernel heap is given back; the other kernel pages stay. *)
Record freed_page (v v' : vm) (r : Z) : Prop := {
  fp_wf : vm_wf v';
  fp_regs : cr3 v' = cr3 v /\ me v' = me v /\ mcur v' = mcur v;
  fp_page : forall i, vpage PF_KERNEL v' i = vpage PF_KERNEL v i;
  fp_count : vcount PF_KERNEL v' = vcount PF_KERNEL v;
  fp_old : forall i f, i <> r -> page_held PF_KERNEL v (vpage PF_KERNEL v i) f -> page_held PF_KERNEL v' (vpage PF_KERNEL v' i) f;
  fp_gone : mmu v' (vpage PF_KERNEL v r) = None;
  fp_same : forall i, i <> r -> 0 <= i < vcount PF_KERNEL v -> mmu v' (vpage PF_KERNEL v i) = mmu v (vpage PF_KERNEL v i)
}.

Lemma free_kernel_page v r f : vm_wf v -> 0 <= r < vcount PF_KERNEL v -> page_held PF_KERNEL v (vpage PF_KERNEL v r) f ->
  wp (mfree_page PF_KERNEL (vpage PF_KERNEL v r) 1) (λ _ v', freed_page v v' r) v.
Proof.
  intros Hwf Hr Hh. assert (Hact : active PF_KERNEL v) by (by left).
  assert (Hall : forall k g, znth [f] k = Some g -> page_held PF_KERNEL v (vpage PF_KERNEL v (r + k)) g).
  { intros k g Hk. pose proof (znth_lt _ _ _ Hk) as Hk1. unfold zlen in Hk1. simpl in Hk1. assert (k = 0) by lia. subst.
    injection Hk as <-. by rewrite Z.add_0_r. }
  eapply wp_mono; [apply wp_and; [apply (mfree_page_gave PF_KERNEL v r 1 [f])|apply (mfree_page_ok PF_KERNEL v r [f])];
    try done; try lia; unfold zlen; simpl; lia|].
  intros [] v' [[W S O R] (v1 & b & Hv' & U & _)]. destruct (vpage_in_range v PF_KERNEL r Hwf Hact Hr) as [Hir Hal].
  destruct (same_cfg_vpool PF_KERNEL v v1 (ur_cfg _ _ _ _ U)) as (_ & Em & Ec & Eme & _).
  split; [done| |apply (so_page _ _ _ S)|apply (so_count _ _ _ S)| | |].
  - rewrite Hv'. unfold set_vbits. change (PF_KERNEL =? PF_KERNEL) with true. cbn. by rewrite Ec, Eme, Em.
  - intros i g Hi Hg. rewrite (so_page _ _ _ S). apply O; [|done].
    pose proof (vp_aligned _ _ (v_vpool _ Hwf _ Hact)) as Ha. unfold vpage, page_aligned in *. dlia.
  - rewrite Hv'. transitivity (mmu v1 (vpage PF_KERNEL v r)); [done|]. rewrite (ur_mmu _ _ _ _ U) by done.
    by rewrite Z.sub_diag.
  - intros i Hi Hin. destruct (vpage_in_range v PF_KERNEL i Hwf Hact Hin) as [Hir' _].
    rewrite Hv'. transitivity (mmu v1 (vpage PF_KERNEL v i)); [done|]. rewrite (ur_mmu _ _ _ _ U) by done.
    destruct (znth [f] _) eqn:E; [|done]. apply znth_lt in E. unfold zlen, vpage in E. simpl in E. exfalso. dlia.
Qed.

Lemma release_pid_ok me n p : me <> 0 -> pid_wf me p -> 1 <= n <= 1024 ->
  exists p', release_pid me n p = Ok p' /\ pid_wf me p' /\
    forall j, 1 <= j -> pid_used p' j = if decide (j = n) then false else pid_used p j.
Proof.
  intros Hme [Hwf Hlen Hst Hq] Hn.
  destruct (Seq.acquire_release me (pid_lock p) Hme Hq) as (lk & Hacq & _ & Hrel).
  destruct (bitmap_set_ok (pid_bitmap p) (n - 1) 0) as (b & Hb & Hwb & Hlb & Hzb & Hbit); [done|lia|by left|].
  exists (PidPool b (pid_start p) (pid_lock p)). split; [|split].
  - unfold release_pid. rewrite Hacq. rcbn. rewrite Hst, (u32_small (n - 1)), s32_small, u32_small by lia.
    rewrite Hb. rcbn. rewrite Hrel. rcbn. done.
  - split; simpl; congruence || done.
  - intros j Hj. unfold pid_used. cbn [pid_bitmap]. rewrite Hbit by lia. repeat case_decide; lia || done.
Qed.

Lemma find_first (p : task_struct -> bool) ts l1 c l2 tc : ts !! c = Some tc -> p tc = true ->
  (forall x, x ∈ l1 -> exists tx, ts !! x = Some tx /\ p tx = false) -> find_thread p ts (l1 ++ c :: l2) = Ok c.
Proof.
  intros Hc Hp. induction l1 as [|x l1 IH]; intros Hl; simpl; [by rewrite Hc, Hp|].
  destruct (Hl x) as (tx & -> & ->); [set_solver|]. apply IH. set_solver.
Qed.

Lemma list_drop_mid t l1 l2 : t ∉ l1 -> t ∉ l2 -> list_drop t (l1 ++ t :: l2) = l1 ++ l2.
Proof.
  intros H1 H2. unfold list_drop. rewrite filter_app, filter_cons_False by naive_solver. by rewrite !filter_ne_id.
Qed.

(** ** A zombie is reaped *)

(** A child that has called exit, in the list of all tasks behind [l1]: its PCB
    and its page directory are pages of the kernel heap. *)
Record zombie {H} (s : proc H) (tp : task_struct) (c : Z) (tc : task_struct) (l1 l2 : list Z) : Prop := {
  z_all : thread_all_list (thr s) = l1 ++ c :: l2;
  z_once : (c ∉ l1) /\ (c ∉ l2);
  z_task : k_tasks (thr s) !! c = Some tc;
  z_child : parent_pid tc = pid tp /\ status tc = TASK_HANGING;
  z_first : forall x, x ∈ l1 -> exists tx, k_tasks (thr s) !! x = Some tx /\ find_hanging_child (pid tp) tx = false;
  z_other : c <> idle_thread (thr s) /\ c <> main_thread (thr s);
  z_pid : 1 <= pid tc <= 1024;
  z_pages : exists r rd f fd, r <> rd /\ 0 <= r < vcount PF_KERNEL (mem s tp) /\ 0 <= rd < vcount PF_KERNEL (mem s tp) /\
    c = vpage PF_KERNEL (mem s tp) r /\ pgdir tc = vpage PF_KERNEL (mem s tp) rd /\
    page_held PF_KERNEL (mem s tp) c f /\ page_held PF_KERNEL (mem s tp) (pgdir tc) fd
}.

Section reap.
Context {H : Type} `{Heap H}.
Implicit Types s : proc H.

(** The state when the child is gone, before its pid is. *)
Lemma kinv_without k c tc l : kinv k -> k_tasks k !! c = Some tc -> c <> k_cur k -> c ∉ thread_ready_list k -> c <> idle_thread k ->
  kinv (upd_tasks (delete c (k_tasks k)) (upd_all l k)).
Proof.
  intros [Hnd Hcur Hrd (t & Ht & Hst) Hoff Hz Hid Hmg] Hc Hne Hni Hidl. split; cbn; try done.
  - intros x Hx. rewrite lookup_delete_ne by (intros <-; done). by apply Hrd.
  - exists t. by rewrite lookup_delete_ne.
  - intros x tx Hx. apply lookup_delete_Some in Hx as [? ?]. by apply (Hoff x).
  - by rewrite lookup_delete_None; right.
  - by rewrite lookup_delete_ne.
  - intros x tx Hx. apply lookup_delete_Some in Hx as [? ?]. by apply (Hmg x).
Qed.

Lemma zombie_off s tp c tc l1 l2 : kinv (thr s) -> zombie s tp c tc l1 l2 ->
  c <> k_cur (thr s) /\ c ∉ thread_ready_list (thr s).
Proof.
  intros Hk Z. destruct (z_child _ _ _ _ _ _ Z) as [_ Hst]. split.
  - intros ->. destruct (q_run _ _ Hk) as (t & Ht & Hr). pose proof (z_task _ _ _ _ _ _ Z). congruence.
  - intros Hin. destruct (q_ready _ _ Hk c Hin) as (t & Ht & Hr). pose proof (z_task _ _ _ _ _ _ Z). congruence.
Qed.

(** What is left after a zombie is reaped. *)
Record reaped s s' (tp : task_struct) (c : Z) (tc : task_struct) (l1 l2 : list Z) : Prop := {
  rp_kinv : kinv (thr s');
  rp_cur : k_cur (thr s') = k_cur (thr s);
  rp_ready : thread_ready_list (thr s') = thread_ready_list (thr s);
  rp_tasks : k_tasks (thr s') = delete c (k_tasks (thr s));
  rp_all : thread_all_list (thr s') = l1 ++ l2;
  rp_pids : pid_wf (k_cur (thr s')) (p_pids s');
  rp_pid : forall j, 1 <= j -> pid_used (p_pids s') j = if decide (j = pid tc) then false else pid_used (p_pids s) j;
  rp_wf : vm_wf (mem s' tp);
  rp_unmapped : mmu (mem s' tp) c = None /\ mmu (mem s' tp) (pgdir tc) = None
}.

Lemma thread_exit_ok s tp c tc l1 l2 : kinv (thr s) -> k_tasks (thr s) !! k_cur (thr s) = Some tp -> vm_wf (mem s tp) ->
  pid_wf (k_cur (thr s)) (p_pids s) -> zombie s tp c tc l1 l2 ->
  wp (thread_exit c false) (λ _ s', reaped s s' tp c tc l1 l2) s.
Proof.
  intros Hk Htp Hwf Hpw Z. destruct (zombie_off s tp c tc l1 l2 Hk Z) as [Hcur Hrd].
  destruct Z as [Zall [Zo1 Zo2] Ztask _ _ [Zidle Zmain] Zpid (r & rd & f & fd & Hne & Hr & Hrdr & Hc & Hpg & Hh & Hhd)].
  set (k1 := upd_tasks (<[c := set_status TASK_DIED tc]> (k_tasks (thr s)))
    (upd_cpu (if IF_on (k_cpu (thr s)) then cli (k_cpu (thr s)) else k_cpu (thr s)) (thr s))).
  assert (Hm1 : forall v, mem (put_thr k1 s) v = mem s v) by (intros v; by apply mem_put_thr).
  unfold thread_exit. apply wp_bind, wp_on_threads, wp_kcpu_disable. apply wp_bind, wp_on_threads, (wp_rd_task _ tc); [exact Ztask|].
  apply wp_bind, wp_on_threads, (wp_upd_task _ _ tc); [exact Ztask|]. fold k1.
  rewrite ?put_thr_put, ?thr_put, ?put_thr_same. fold k1.
  apply wp_bind, wp_on_threads, wp_gets. unfold on_ready. rewrite bool_decide_eq_false_2 by exact Hrd. apply wp_bind, wp_ret.
  rewrite ?put_thr_put, ?thr_put, ?put_thr_same.
  assert (Hpz : pgdir tc <> 0).
  { rewrite Hpg. pose proof (vp_start _ _ (v_vpool _ Hwf PF_KERNEL ltac:(by left))) as Hs. simpl in Hs.
    unfold vpage. lia. }
  rewrite (proj2 (Z.eqb_neq _ _) Hpz). cbn [negb]. apply wp_bind.
  assert (Hcur1 : k_tasks (thr (put_thr k1 s)) !! k_cur (thr (put_thr k1 s)) = Some tp).
  { cbn. by rewrite lookup_insert_ne. }
  apply (wp_on_mem _ _ _ tp Hcur1). rewrite Hm1, Hpg. eapply wp_mono; [apply (free_kernel_page _ rd fd); [done|done|by rewrite <- Hpg]|].
  intros [] v1 [W1 (C1 & E1 & T1) P1 N1 O1 G1 F1]. split; [exact T1|].
  set (s1 := put_mem v1 (put_thr k1 s)). apply wp_bind, wp_on_threads, wp_modify.
  change (thread_all_list (thr s1)) with (thread_all_list (thr s)). rewrite Zall, list_drop_mid by done.
  apply wp_bind, wp_gets. change (main_thread (thr _)) with (main_thread (thr s)).
  rewrite (proj2 (Z.eqb_neq _ _) Zmain). cbn [negb]. apply wp_bind, wp_bind.
  set (k2 := upd_all (l1 ++ l2) (thr s1)).
  assert (Hm2 : mem (put_thr k2 s1) tp = v1) by (rewrite mem_put_thr by done; by apply mem_put_mem).
  assert (Hcur2 : k_tasks (thr (put_thr k2 s1)) !! k_cur (thr (put_thr k2 s1)) = Some tp) by exact Hcur1.
  apply (wp_on_mem _ _ _ tp Hcur2). rewrite Hm2. replace c with (vpage PF_KERNEL v1 r) by (by rewrite P1, Hc).
  assert (Hh1 : page_held PF_KERNEL v1 (vpage PF_KERNEL v1 r) f) by (apply O1; [done|by rewrite <- Hc]).
  eapply wp_mono; [by apply (free_kernel_page _ r f); [done|rewrite N1|]|]. rewrite P1, <- Hc.
  intros [] v2 [W2 (C2 & E2 & T2) P2 N2 O2 G2 F2]. split; [by rewrite T2, T1|]. apply wp_on_threads, wp_modify.
  unfold free_pid. apply wp_bind, wp_bind, wp_on_threads, wp_gets. apply wp_bind, wp_gets, wp_bind.
  destruct (release_pid_ok (k_cur (thr s)) (pid tc) (p_pids s)) as (p' & Hp & Hpw' & Hpu); [by apply (cur_nonzero (thr s))|done|done|].
  eapply wp_lift; [exact Hp|]. apply wp_modify, wp_ret.
  assert (Hdel : delete c (<[c := set_status TASK_DIED tc]> (k_tasks (thr s))) = delete c (k_tasks (thr s))) by apply delete_insert_eq.
  split; try done; cbn.
  - pose proof (kinv_without _ c tc (l1 ++ l2) Hk Ztask Hcur Hrd Zidle) as Hk'.
    apply (queued_cpu _ (if IF_on (k_cpu (thr s)) then cli (k_cpu (thr s)) else k_cpu (thr s))) in Hk'.
    rewrite <- Hdel in Hk'. exact Hk'.
  - replace (mem _ tp) with v2; [done|]. symmetry. by apply (mem_put_mem v2 s tp); [rewrite C2, C1|rewrite E2, E1|rewrite T2, T1].
  - replace (mem _ tp) with v2; [|symmetry; by apply (mem_put_mem v2 s tp); [rewrite C2, C1|rewrite E2, E1|rewrite T2, T1]].
    split; [by rewrite Hc, <- P1|]. rewrite Hpg, <- P1, F2, P1 by congruence. exact G1.
Qed.
End reap.

(** ** Blocking with somebody ready *)

Section block.
Context (v2p : Z -> Z).

Lemma block_tasks stat k next rest tc tn : kinv k -> is_blocked stat = true -> thread_ready_list k = next :: rest ->
  k_tasks k !! k_cur k = Some tc -> k_tasks k !! next = Some tn ->
  wp (thread_block_enter v2p stat)
    (λ _ k', k_tasks k' = <[next := set_status TASK_RUNNING tn]> (<[k_cur k := set_status stat tc]> (k_tasks k))) k.
Proof.
  intros Hk Hb Hrd Htc Htn. assert (Hne : next <> k_cur k).
  { intros ->. apply (q_cur _ _ Hk). rewrite Hrd. set_solver. }
  assert (Hnz : next <> 0) by (intros ->; rewrite (q_null _ _ Hk) in Htn; done).
  unfold thread_block_enter. apply wp_bind, wp_assert; [done|].
  apply wp_bind, wp_kcpu_disable, wp_bind, wp_gets. apply wp_bind, (wp_upd_task _ _ tc); [exact Htc|]. apply wp_bind.
  unfold schedule. apply wp_bind, wp_kcpu_get. apply wp_bind, wp_assert.
  { unfold status_of. cbn. by rewrite disable_off. }
  apply wp_bind, wp_gets, wp_bind, (wp_rd_task _ (set_status stat tc)); [apply lookup_insert_eq|].
  apply wp_bind. rewrite bool_decide_eq_false_2 by (cbn; intros ->; done). apply wp_ret, wp_bind, wp_gets. cbn [thread_ready_list upd_tasks upd_cpu].
  rewrite Hrd, bool_decide_eq_false_2 by done. apply wp_bind, wp_ret.
  unfold schedule_pick. apply wp_bind, wp_gets. cbn [thread_ready_list upd_tasks upd_cpu]. rewrite Hrd.
  apply wp_bind, wp_assert; [done|]. apply wp_bind, wp_modify. apply wp_bind, (wp_upd_task _ _ tn).
  { cbn. by rewrite lookup_insert_ne. }
  apply wp_bind. unfold process_activate. apply wp_bind, wp_assert; [by rewrite (proj2 (Z.eqb_neq _ _) Hnz)|].
  apply wp_bind, (wp_rd_task _ (set_status TASK_RUNNING tn)); [apply lookup_insert_eq|]. apply wp_modify, wp_modify, wp_ret.
  reflexivity.
Qed.

Lemma block_next stat k next rest tc tn : kinv k -> is_blocked stat = true -> thread_ready_list k = next :: rest ->
  k_tasks k !! k_cur k = Some tc -> k_tasks k !! next = Some tn ->
  wp (thread_block_enter v2p stat) (λ old k', old = status_of (k_cpu k) /\ kinv k' /\ k_cur k' = next /\
    thread_ready_list k' = rest /\ thread_all_list k' = thread_all_list k /\
    k_tasks k' = <[next := set_status TASK_RUNNING tn]> (<[k_cur k := set_status stat tc]> (k_tasks k))) k.
Proof.
  intros Hk Hb Hrd Htc Htn. eapply wp_mono; [apply wp_and; [by apply (thread_block_ok v2p stat)|by apply (block_tasks stat k next rest tc tn)]|].
  intros old k' [(Ho & Hk' & (_ & _ & _ & Ha) & _ & Hc & Hr & _) Ht]. rewrite Hrd in *. by split_and!.
Qed.
End block.

(** ** wait *)

Section wait.
Context {H : Type} `{Heap H}.
Implicit Types s : proc H.

Lemma find_none (p : task_struct -> bool) ts l :
  (forall x, x ∈ l -> exists tx, ts !! x = Some tx /\ p tx = false) -> find_thread p ts l = Ok 0.
Proof.
  induction l as [|x l IH]; intros Hl; simpl; [done|].
  destruct (Hl x) as (tx & -> & ->); [set_solver|]. apply IH. set_solver.
Qed.

Lemma find_some (p : task_struct -> bool) ts l c tc : (forall x, x ∈ l -> is_Some (ts !! x)) ->
  c ∈ l -> ts !! c = Some tc -> p tc = true -> exists a, find_thread p ts l = Ok a /\ is_Some (ts !! a).
Proof.
  induction l as [|x l IH]; intros Hl Hc Htc Hp; [by apply elem_of_nil in Hc|]. simpl.
  destruct (Hl x) as [tx Hx]; [set_solver|]. rewrite Hx. destruct (p tx) eqn:E; [by exists x|].
  apply elem_of_cons in Hc as [->|Hc]; [congruence|]. apply IH; [set_solver|done..].
Qed.

Lemma wp_search p a (Q : Z -> proc H -> Prop) s : find_thread p (k_tasks (thr s)) (thread_all_list (thr s)) = Ok a ->
  Q a s -> wp (on_threads (search p)) Q s.
Proof.
  intros Hf HQ. apply wp_on_threads. unfold search, wp, lift. rewrite Hf. by rewrite put_thr_same.
Qed.

(** No task of the list satisfies [p]. *)
Definition nobody (p : task_struct -> bool) s : Prop :=
  forall x, x ∈ thread_all_list (thr s) -> exists tx, k_tasks (thr s) !! x = Some tx /\ p tx = false.

Lemma wait_start (Q : (option Z * Z) + intr_status -> proc H -> Prop) s tp : k_tasks (thr s) !! k_cur (thr s) = Some tp ->
  wp (child_elem ← on_threads (search (find_hanging_child (pid tp)));
    if negb (child_elem =? 0) then
      child_thread ← on_threads (rd_task child_elem);
      thread_exit child_elem false;;
      mret (inl (Some (exit_status child_thread), s16 (u16 (pid child_thread))))
    else
      child_elem ← on_threads (search (find_child (pid tp)));
      if child_elem =? 0 then mret (inl (None, -1))
      else
        v2p ← gets (λ s va, phys va s);
        old_status ← on_threads (thread_block_enter v2p TASK_WAITING);
        mret (inr old_status)) Q s -> wp sys_wait_round Q s.
Proof.
  intros Htp HQ. unfold sys_wait_round. apply wp_bind, wp_on_threads, wp_gets. rewrite put_thr_same.
  apply wp_bind, wp_on_threads, (wp_rd_task _ tp); [exact Htp|]. rewrite put_thr_same. exact HQ.
Qed.

End wait.

(** ** Page frames that are given back do not matter to what follows

    After [release_pdes] the user half of the running process still maps frames
    that are free, and [vm_wf] does not hold.  The calls that follow never look
    at the bitmaps of the frame pools to decide anything, so they run as they
    would have run before: [twin] states differ in those bitmaps only. *)

Definition same_size (b b' : bitmap) : Prop := btmp_bytes_len b' = btmp_bytes_len b /\ zlen (bits b') = zlen (bits b).

Definition twin (s s' : vm) : Prop := exists kb ub,
  s' = set_kpool (set_pbits kb (kernel_pool s)) (set_upool (set_pbits ub (user_pool s)) s) /\
  same_size (pool_bitmap (kernel_pool s)) kb /\ same_size (pool_bitmap (user_pool s)) ub.

Definition sim {A} (m : M vm A) : Prop := forall s s' a t, twin s s' -> m s = Ok (a, t) ->
  exists t', m s' = Ok (a, t') /\ twin t t'.

Section twin.
Implicit Types s : vm.

Lemma twin_refl s : twin s s.
Proof. exists (pool_bitmap (kernel_pool s)), (pool_bitmap (user_pool s)). split; [by destruct s as [? ? [] [] ? ? ?]|done]. Qed.
Lemma twin_trans s1 s2 s3 : twin s1 s2 -> twin s2 s3 -> twin s1 s3.
Proof.
  intros (k & u & -> & [] & []) (k' & u' & -> & [] & []). exists k', u'. cbn in *.
  split; [done|]. unfold same_size. split; split; congruence.
Qed.
Lemma twin_mmu s s' va : twin s s' -> mmu s' va = mmu s va.
Proof. by intros (k & u & -> & _). Qed.

Lemma sim_ret {A} (a : A) : sim (mret a).
Proof. intros s s' b t Ht [= <- <-]. by exists s'. Qed.
Lemma sim_bind {A B} (m : M vm A) (f : A -> M vm B) : sim m -> (forall a, sim (f a)) -> sim (m ≫= f).
Proof.
  intros Hm Hf s s' b t Ht. unfold mbind, M_bind. destruct (m s) as [[a s1]| | | |] eqn:E; try done.
  destruct (Hm s s' a s1 Ht E) as (s1' & -> & Ht1). intros Hr. by apply (Hf a s1 s1' b t).
Qed.
Lemma sim_lift {A} (r : res A) : sim (lift r).
Proof. intros s s' a t Ht. unfold lift. destruct r; try done. intros [= <- <-]. by exists s'. Qed.
Lemma sim_gets {A} (f : vm -> A) : (forall s s', twin s s' -> f s' = f s) -> sim (gets f).
Proof. intros Hf s s' a t Ht [= <- <-]. exists s'. unfold gets. by rewrite (Hf s s' Ht). Qed.
Lemma sim_modify (f : vm -> vm) : (forall s s', twin s s' -> twin (f s) (f s')) -> sim (modify f).
Proof. intros Hf s s' a t Ht [= <- <-]. exists (f s'). split; [done|by apply Hf]. Qed.
Lemma sim_load va : sim (load va).
Proof.
  intros s s' a t Ht. unfold load. rewrite (twin_mmu s s' va Ht). destruct (negb _); [done|].
  destruct (mmu s va); [|done]. intros [= <- <-]. exists s'. split; [|done]. by destruct Ht as (k & u & -> & _).
Qed.
Lemma sim_store va x : sim (store va x).
Proof.
  intros s s' a t Ht. unfold store. rewrite (twin_mmu s s' va Ht). destruct (negb _); [done|].
  destruct (mmu s va); [|done]. intros [= <- <-]. eexists. split; [done|].
  destruct Ht as (k & u & -> & ? & ?). by exists k, u.
Qed.

Lemma bitmap_set_size b b' i v c : same_size b b' -> bitmap_set b i v = Ok c ->
  same_size b c /\ exists c', bitmap_set b' i v = Ok c' /\ same_size c c'.
Proof.
  intros [Hl Hz]. unfold bitmap_set, bits_get. destruct (ASSERT _ _); try done. rcbn.
  destruct (znth (bits b) (i / 8)) as [x|] eqn:E; [|done]. apply znth_lt in E. rcbn.
  destruct (znth_is_Some (bits b') (i / 8)) as [x' ->]; [lia|]. rcbn.
  destruct (negb (v =? 0)); intros [= <-]; unfold bits_put, same_size; cbn [btmp_bytes_len bits];
    rewrite zlen_upd; (split; [done|]); eexists; (split; [done|]); cbn [btmp_bytes_len bits]; by rewrite !zlen_upd.
Qed.

Lemma pool_twin pf s s' b b' : twin s s' -> same_size (pool_bitmap (mem_pool pf s)) b -> same_size b b' ->
  twin (set_pool pf (set_pbits b (mem_pool pf s)) s) (set_pool pf (set_pbits b' (mem_pool pf s')) s').
Proof.
  intros (k & u & -> & [] & []) [] []. unfold set_pool, mem_pool. destruct (is_kernel pf).
  - exists b', u. cbn in *. split; [done|]. unfold same_size in *. split; split; congruence.
  - exists k, b'. cbn in *. split; [done|]. unfold same_size in *. split; split; congruence.
Qed.

Lemma twin_sizes pf s s' : twin s s' -> phy_addr_start (mem_pool pf s') = phy_addr_start (mem_pool pf s) /\
  same_size (pool_bitmap (mem_pool pf s)) (pool_bitmap (mem_pool pf s')).
Proof. intros (k & u & -> & ? & ?). unfold mem_pool. by destruct (is_kernel pf). Qed.

Lemma pfree_run f s t : pfree f s = Ok (tt, t) ->
  let pf := if phy_addr_start (user_pool s) <=? f then PF_USER else PF_KERNEL in
  exists b, bitmap_set (pool_bitmap (mem_pool pf s)) (u32 (f - phy_addr_start (mem_pool pf s)) / PG_SIZE) 0 = Ok b /\
    t = set_pool pf (set_pbits b (mem_pool pf s)) s.
Proof.
  unfold pfree, gets, lift, modify, mbind, M_bind. set (pf := if phy_addr_start (user_pool s) <=? f then PF_USER else PF_KERNEL).
  destruct (bitmap_set _ _ 0) as [b| | | |]; try done. intros [= <-]. by exists b.
Qed.

Lemma sim_pfree f : sim (pfree f).
Proof.
  intros s s' [] t Ht Hr. destruct (pfree_run f s t Hr) as (b & Hb & ->). set (pf := if phy_addr_start (user_pool s) <=? f then PF_USER else PF_KERNEL) in *.
  destruct (twin_sizes pf s s' Ht) as [Hst Hsz]. destruct (bitmap_set_size _ _ _ _ _ Hsz Hb) as (Hsb & b' & Hb' & Hbb).
  exists (set_pool pf (set_pbits b' (mem_pool pf s')) s'). split; [|by apply pool_twin].
  unfold pfree, gets, lift, modify, mbind, M_bind.
  replace (phy_addr_start (user_pool s')) with (phy_addr_start (user_pool s)) by (by destruct Ht as (k & u & -> & _)).
  fold pf. by rewrite Hst, Hb'.
Qed.

(** Giving a frame back leads to a twin. *)
Lemma pfree_twin f s t : pfree f s = Ok (tt, t) -> twin s t.
Proof.
  intros Hr. destruct (pfree_run f s t Hr) as (b & Hb & ->). set (pf := if phy_addr_start (user_pool s) <=? f then PF_USER else PF_KERNEL) in *.
  assert (Hs : same_size (pool_bitmap (mem_pool pf s)) (pool_bitmap (mem_pool pf s))) by done.
  destruct (bitmap_set_size _ _ _ _ _ Hs Hb) as (Hsb & _). replace s with (set_pool pf (set_pbits (pool_bitmap (mem_pool pf s)) (mem_pool pf s)) s) at 1.
  - by apply pool_twin; [apply twin_refl| |].
  - unfold set_pool, mem_pool. destruct (is_kernel pf); by destruct s as [? ? [] [] ? ? ?].
Qed.

Create HintDb twins.
Hint Resolve sim_ret sim_lift sim_load sim_store sim_pfree : twins.

Ltac twins := repeat first [ solve [auto with twins] | apply sim_bind; [|intros ?] | case_match
  | apply sim_gets; intros ? ? (? & ? & -> & _ & _); reflexivity ].

Lemma sim_addr_v2p va : sim (addr_v2p va).
Proof. unfold addr_v2p. twins. Qed.
Lemma sim_pte_remove va : sim (page_table_pte_remove va).
Proof. unfold page_table_pte_remove. twins. Qed.
Hint Resolve sim_addr_v2p sim_pte_remove : twins.

Lemma sim_unmap n ok : (forall pa s s', twin s s' -> ok pa s' = ok pa s) -> forall va, sim (unmap_pages n ok va).
Proof.
  intros Hok. induction n as [|n IH]; intros va; cbn [unmap_pages]; [twins|].
  apply sim_bind; [twins|intros pa]. apply sim_bind; [by apply sim_gets, Hok|intros good]. unfold assertM. twins.
Qed.

Lemma sim_vaddr_remove pf va n : sim (vaddr_remove pf va n).
Proof.
  unfold vaddr_remove. apply sim_bind; [|intros v].
  { apply sim_gets. intros s s' (k & u & -> & _ & _). reflexivity. }
  apply sim_bind; [twins|intros b]. apply sim_modify. intros s s' (k & u & -> & H1 & H2). exists k, u.
  unfold set_vbits. by destruct (pf =? PF_KERNEL).
Qed.

Lemma sim_mfree_page pf va n : sim (mfree_page pf va n).
Proof.
  unfold mfree_page, assertM. apply sim_bind; [twins|intros ?]. apply sim_bind; [twins|intros pa]. apply sim_bind; [twins|intros ?].
  apply sim_bind; [twins|intros st]. apply sim_bind; [|intros ?; apply sim_vaddr_remove].
  case_match; apply sim_unmap; intros x s s' (k & u & -> & _ & _); reflexivity.
Qed.

(** The loops over the page directory only give frames back. *)
Lemma load_same va s a t : load va s = Ok (a, t) -> t = s.
Proof. unfold load. destruct (negb _); [done|]. destruct (mmu s va); [|done]. by intros [= _ <-]. Qed.

Definition twinning {A} (m : M vm A) : Prop := forall s a t, m s = Ok (a, t) -> twin s t.
Lemma twinning_bind {A B} (m : M vm A) (f : A -> M vm B) : twinning m -> (forall a, twinning (f a)) -> twinning (m ≫= f).
Proof.
  intros Hm Hf s b t. unfold mbind, M_bind. destruct (m s) as [[a s1]| | | |] eqn:E; try done. intros Hr.
  eapply twin_trans; [by apply (Hm s a s1)|by apply (Hf a s1 b t)].
Qed.
Lemma twinning_ret {A} (a : A) : twinning (mret a).
Proof. intros s b t [= _ <-]. apply twin_refl. Qed.
Lemma twinning_load va : twinning (load va).
Proof. intros s a t Hr. rewrite (load_same va s a t Hr). apply twin_refl. Qed.
Lemma twinning_free f : twinning (free_a_phy_page f).
Proof. intros s [] t. apply pfree_twin. Qed.

Lemma release_pdes_twin n : forall pg i, twinning (release_pdes n pg i).
Proof.
  assert (Hp : forall n first j, twinning (release_ptes n first j)).
  { induction n0 as [|n0 IH]; intros first j; cbn [release_ptes]; [apply twinning_ret|].
    apply twinning_bind; [apply twinning_load|intros pte]. apply twinning_bind; [|intros ?; apply IH].
    case_match; [apply twinning_free|apply twinning_ret]. }
  induction n as [|n IH]; intros pg i; cbn [release_pdes]; [apply twinning_ret|].
  apply twinning_bind; [apply twinning_load|intros pde]. apply twinning_bind; [|intros ?; apply IH].
  case_match; [|apply twinning_ret]. apply twinning_bind; [apply Hp|intros ?; apply twinning_free].
Qed.
End twin.

(** ** exit *)

(** A process that can leave: its memory is in order, its page directory and
    the [n] pages of its bitmap are pages of the kernel, and it has no file
    open besides the standard ones. *)
Record leaving (v : vm) (bits_at : Z) (t : task_struct) : Prop := {
  lv_wf : vm_wf v;
  lv_space : user_space (pgdir t) v;
  lv_bits : exists r fs, bits_at = vpage PF_KERNEL v r /\ 0 <= r /\ r + zlen fs <= vcount PF_KERNEL v /\ fs <> [] /\
    zlen fs = btmp_bytes_len (vaddr_bitmap (userprog_vaddr t)) / PG_SIZE /\
    forall k f, znth fs k = Some f -> page_held PF_KERNEL v (vpage PF_KERNEL v (r + k)) f;
  lv_files : forall i, 3 <= i < 8 -> znth (fd_table t) i = Some (-1)
}.

Lemma wp_sim {A} (m : M vm A) (Q : A -> vm -> Prop) v v' : sim m -> twin v v' -> wp m Q v ->
  wp m (λ a w', exists w, twin w w' /\ Q a w) v'.
Proof.
  intros Hs Ht Hm. apply wp_run in Hm as (a & w & E & HQ). destruct (Hs v v' a w Ht E) as (w' & E' & Hw).
  unfold wp. rewrite E'. by exists w.
Qed.

Lemma twin_mcur v v' : twin v v' -> mcur v' = mcur v.
Proof. by intros (k & u & -> & _). Qed.

(** The memory part of leaving runs to its end. *)
Lemma release_memory_ok v bits_at t : mcur v = t -> leaving v bits_at t ->
  wp (release_pdes 768 (pgdir t) 0;;
      mfree_page PF_KERNEL bits_at (btmp_bytes_len (vaddr_bitmap (userprog_vaddr t)) / PG_SIZE)) (λ _ v', mcur v' = t) v.
Proof.
  intros Hm [Hwf Hsp (r & fs & -> & Hr & Hend & Hne & Hn & Hh) _]. apply wp_bind.
  destruct (release_frees_user (pgdir t) v Hsp) as (v1 & Hrun & _).
  unfold wp at 1. rewrite Hrun. pose proof (release_pdes_twin 768 (pgdir t) 0 v tt v1 Hrun) as Htw. rewrite <- Hn.
  pose proof (mfree_page_ok PF_KERNEL v r fs Hwf ltac:(by left) Hr Hne Hend Hh) as Hfree.
  eapply wp_mono; [exact (wp_sim _ _ v v1 (sim_mfree_page _ _ _) Htw Hfree)|].
  intros [] v' (w & Hw & v2 & b & -> & U & _). rewrite (twin_mcur _ _ Hw).
  destruct (same_cfg_vpool PF_KERNEL v v2 (ur_cfg _ _ _ _ U)) as (_ & Em & _).
  unfold set_vbits. change (PF_KERNEL =? PF_KERNEL) with true. cbn. congruence.
Qed.

Section exit.
Context {H : Type} `{Heap H}.
Implicit Types s : proc H.

Lemma put_mem_thr v s : thr (put_mem v s) = thr s.
Proof. done. Qed.

Lemma close_none n t : forall i s, k_tasks (thr s) !! k_cur (thr s) = Some t -> 3 <= i -> i + Z.of_nat n <= 8 ->
  (forall j, 3 <= j < 8 -> znth (fd_table t) j = Some (-1)) ->
  wp (close_fds n (k_cur (thr s)) i) (λ _ s', s' = s) s.
Proof.
  induction n as [|n IH]; intros i s Ht Hi Hn Hfd; cbn [close_fds]; [by apply wp_ret|].
  apply wp_bind, wp_on_threads, (wp_rd_task _ t); [exact Ht|]. rewrite put_thr_same. apply wp_bind.
  eapply wp_lift; [by rewrite Hfd by lia|]. apply wp_bind, wp_ret. apply IH; [done|lia|lia|done].
Qed.

Lemma release_prog_ok s t bits_at : k_tasks (thr s) !! k_cur (thr s) = Some t -> leaving (mem s t) bits_at t ->
  p_vbits s !! k_cur (thr s) = Some bits_at ->
  wp (release_prog_resource (k_cur (thr s))) (λ _ s', exists v, s' = put_mem v s) s.
Proof.
  intros Ht Hlv Hb. pose proof (release_memory_ok (mem s t) bits_at t eq_refl Hlv) as Hwp. apply wp_bind_inv in Hwp.
  unfold release_prog_resource. apply wp_bind, wp_on_threads, (wp_rd_task _ t); [exact Ht|]. rewrite put_thr_same.
  apply wp_bind. apply (wp_on_mem _ _ _ t Ht).
  assert (Hcr : wp (release_pdes 768 (pgdir t) 0) (λ _ v, cr3 v = k_cr3 (thr s) /\ me v = k_cur (thr s) /\ mcur v = t) (mem s t)).
  { destruct (release_frees_user (pgdir t) (mem s t) (lv_space _ _ _ Hlv)) as (v1 & Hrun & _). unfold wp. rewrite Hrun.
    destruct (release_pdes_twin 768 (pgdir t) 0 (mem s t) tt v1 Hrun) as (k & u & -> & _). done. }
  eapply wp_mono; [exact (wp_and _ _ _ _ Hcr Hwp)|]. intros [] v ((Hc & Hm & Hcur) & Hfree). split; [done|].
  apply wp_bind. eapply wp_lift; [change (p_vbits (put_mem v s)) with (p_vbits s); by rewrite Hb|].
  apply wp_bind. assert (Ht1 : k_tasks (thr (put_mem v s)) !! k_cur (thr (put_mem v s)) = Some t) by exact Ht.
  apply (wp_on_mem _ _ _ t Ht1). rewrite mem_put_mem by done. eapply wp_mono; [exact Hfree|].
  intros [] v' Hv'. split; [done|]. eapply wp_mono; [apply (close_none _ t 3 (put_mem v' (put_mem v s))); [exact Ht|lia|vm_compute; congruence|apply (lv_files _ _ _ Hlv)]|].
  intros [] s' ->. by exists v'.
Qed.
End exit.

(** What the scheduler sees of a task. *)
Definition sched_view (t : task_struct) : task_status * Z := (status t, stack_magic t).

Lemma queued_ext st k ts : queued st k -> (forall x, sched_view <$> ts !! x = sched_view <$> (k_tasks k !! x)) ->
  queued st (upd_tasks ts k).
Proof.
  intros [Hnd Hcur Hrd (t & Ht & Hst) Hoff Hz Hid Hmg] Hx.
  assert (Hto : forall x t, k_tasks k !! x = Some t -> exists t', ts !! x = Some t' /\ status t' = status t /\ stack_magic t' = stack_magic t).
  { intros x u Hu. specialize (Hx x). rewrite Hu in Hx. destruct (ts !! x) as [u'|]; [|done].
    exists u'. unfold sched_view in Hx. simpl in Hx. by injection Hx. }
  assert (Hfrom : forall x t', ts !! x = Some t' -> exists t, k_tasks k !! x = Some t /\ status t' = status t /\ stack_magic t' = stack_magic t).
  { intros x u Hu. specialize (Hx x). rewrite Hu in Hx. destruct (k_tasks k !! x) as [u'|]; [|done].
    exists u'. unfold sched_view in Hx. simpl in Hx. by injection Hx. }
  split; cbn; try done.
  - intros x Hin. destruct (Hrd x Hin) as (u & Hu & Hs). destruct (Hto x u Hu) as (u' & ? & ? & _). exists u'. split; congruence.
  - destruct (Hto _ _ Ht) as (u' & ? & E & _). exists u'. by rewrite E.
  - intros x u Hu Hne Hni. destruct (Hfrom x u Hu) as (u' & Hu' & -> & _). by apply (Hoff x).
  - specialize (Hx 0). rewrite Hz in Hx. by destruct (ts !! 0).
  - destruct Hid as [u Hu]. destruct (Hto _ _ Hu) as (u' & ? & _). by exists u'.
  - intros x u Hu. destruct (Hfrom x u Hu) as (u' & Hu' & _ & ->). by apply (Hmg x).
Qed.

Lemma adopt_view p t : sched_view (init_adopt_a_child p t) = sched_view t.
Proof. unfold init_adopt_a_child. by destruct (parent_pid t =? p). Qed.

(** The task table when the children of [p] in [all] are adopted. *)
Lemma adopt_ok p all : NoDup all -> forall k, (forall x, x ∈ all -> is_Some (k_tasks k !! x)) ->
  wp (adopt_children p all) (λ _ k', exists ts, k' = upd_tasks ts k /\
    forall x, ts !! x = if decide (x ∈ all) then init_adopt_a_child p <$> (k_tasks k !! x) else k_tasks k !! x) k.
Proof.
  induction 1 as [|a all Ha Hnd IH]; intros k Hin; cbn [adopt_children].
  - apply wp_ret. exists (k_tasks k). split; [by destruct k|]. intros x. by rewrite decide_False by apply not_elem_of_nil.
  - destruct (Hin a) as [ta Hta]; [set_solver|]. apply wp_bind, (wp_upd_task _ _ ta); [exact Hta|].
    eapply wp_mono; [apply IH|].
    + intros x Hx. cbn. rewrite lookup_insert. case_decide; [done|]. apply Hin. set_solver.
    + intros [] k' (ts & -> & Hts). exists ts. split; [done|]. intros x. rewrite Hts. cbn.
      destruct (decide (x = a)) as [->|Hne].
      * rewrite decide_False by done. rewrite (decide_True (P := a ∈ a :: all)) by (apply elem_of_cons; by left). by rewrite lookup_insert_eq, Hta.
      * rewrite lookup_insert_ne by done. destruct (decide (x ∈ all)) as [Hx|Hx].
        -- by rewrite (decide_True (P := x ∈ a :: all)) by (apply elem_of_cons; by right).
        -- by rewrite (decide_False (P := x ∈ a :: all)) by (by apply not_elem_of_cons).
Qed.

Lemma unblock_tasks st u tu k : queued st k -> offq u k -> k_tasks k !! u = Some tu ->
  wp (thread_unblock u) (λ _ k', (k_tasks k' = <[u := set_status TASK_READY tu]> (k_tasks k) /\ k_cr3 k' = k_cr3 k) /\ queued st k' /\ k_cur k' = k_cur k /\
    thread_ready_list k' = u :: thread_ready_list k /\ thread_all_list k' = thread_all_list k) k.
Proof.
  intros Hq Ho Htu. pose proof Ho as ([tu' Htu'] & Hne & Hni). replace tu' with tu in * by congruence.
  pose proof (q_off _ _ Hq u tu Htu Hne Hni) as Hb.
  assert (Hex : wp (thread_unblock u) (λ _ k', k_tasks k' = <[u := set_status TASK_READY tu]> (k_tasks k) /\ k_cr3 k' = k_cr3 k) k).
  { unfold thread_unblock. apply wp_bind, wp_kcpu_disable, wp_bind, (wp_rd_task _ tu); [done|]. apply wp_bind, wp_assert; [done|].
    apply wp_bind. rewrite bool_decide_eq_false_2 by (intros E; rewrite E in Hb; done).
    apply wp_bind, wp_gets. unfold on_ready. cbn [thread_ready_list upd_cpu]. rewrite bool_decide_eq_false_2 by done.
    apply wp_bind, wp_assert; [done|]. apply wp_bind, wp_ret, wp_bind, wp_modify, (wp_upd_task _ _ tu); [done|].
    apply wp_bind, wp_kcpu_set. intros r c _. by apply wp_ret. }
  eapply wp_mono; [apply (wp_and _ _ _ _ Hex (thread_unblock_ok st u k Hq Ho))|].
  intros [] k' ([Ht Hcr] & Hq' & (_ & _ & _ & Ha) & Hc & _ & Hr & _). by split_and!.
Qed.

Section exit_parent.
Context {H : Type} `{Heap H}.
Implicit Types s : proc H.

(** The parent [p] sleeps in [sys_wait], and nobody else has its pid. *)
Record parent_waits s (t : task_struct) (p : Z) (tp : task_struct) : Prop := {
  pw_all : NoDup (thread_all_list (thr s)) /\ p ∈ thread_all_list (thr s) /\
    (forall x, x ∈ thread_all_list (thr s) -> is_Some (k_tasks (thr s) !! x));
  pw_task : k_tasks (thr s) !! p = Some tp;
  pw_wait : status tp = TASK_WAITING;
  pw_child : parent_pid t = pid tp;
  pw_pids : parent_pid t <> -1 /\ parent_pid t <> pid t /\
    (forall x tx, x ∈ thread_all_list (thr s) -> k_tasks (thr s) !! x = Some tx -> pid tx = pid tp -> x = p)
}.

(** A child of the process [pid] becomes a child of init, whose pid is 1. *)
Definition to_init (pid : Z) (t : task_struct) : task_struct := if decide (parent_pid t = pid) then set_parent 1 t else t.
Lemma adopt_to_init pid t : init_adopt_a_child pid t = to_init pid t.
Proof. unfold init_adopt_a_child, to_init. by destruct (Z.eqb_spec (parent_pid t) pid); case_decide. Qed.

(** Tasks after [sys_exit] of the task [t] at [me] with the parent at [p]. *)
Definition after_exit (me p : Z) (t tp : task_struct) (status : Z) s (x : Z) : option task_struct :=
  if decide (x = me) then Some (set_status TASK_HANGING (set_exit (s8 status) t))
  else if decide (x = p) then Some (set_status TASK_RUNNING (to_init (pid t) tp))
  else if decide (x ∈ thread_all_list (thr s)) then to_init (pid t) <$> (k_tasks (thr s) !! x)
  else k_tasks (thr s) !! x.

Lemma adopt_pid p t : pid (init_adopt_a_child p t) = pid t.
Proof. unfold init_adopt_a_child. by destruct (parent_pid t =? p). Qed.
Lemma adopt_status p t : status (init_adopt_a_child p t) = status t.
Proof. unfold init_adopt_a_child. by destruct (parent_pid t =? p). Qed.

(** The tasks while the process leaves. *)
Definition leaving_tasks (all : list Z) (me : Z) (t1 : task_struct) (tasks ts : gmap Z task_struct) : Prop :=
  forall x, ts !! x = if decide (x = me) then Some t1
    else if decide (x ∈ all) then init_adopt_a_child (pid t1) <$> (tasks !! x) else tasks !! x.

Lemma exit_adopts s t status : kinv (thr s) -> k_tasks (thr s) !! k_cur (thr s) = Some t ->
  NoDup (thread_all_list (thr s)) -> (forall x, x ∈ thread_all_list (thr s) -> is_Some (k_tasks (thr s) !! x)) ->
  parent_pid t <> pid t -> let t1 := set_exit (s8 status) t in
  wp (adopt_children (pid t1) (thread_all_list (thr s)))
    (λ _ k', exists ts, k' = upd_tasks ts (thr s) /\ leaving_tasks (thread_all_list (thr s)) (k_cur (thr s)) t1 (k_tasks (thr s)) ts /\
       kinv k') (upd_tasks (<[k_cur (thr s) := t1]> (k_tasks (thr s))) (thr s)).
Proof.
  intros Hk Ht Hnd Hin Hp t1. eapply wp_mono; [apply adopt_ok; [done|]|].
  { intros x Hx. cbn. rewrite lookup_insert. case_decide; [done|by apply Hin]. }
  intros [] k' (ts & -> & Hts). exists ts. split; [done|]. cbn [k_tasks upd_tasks] in Hts.
  assert (Hl : leaving_tasks (thread_all_list (thr s)) (k_cur (thr s)) t1 (k_tasks (thr s)) ts).
  { intros x. rewrite Hts. destruct (decide (x = k_cur (thr s))) as [->|Hne]; [|by rewrite lookup_insert_ne].
    rewrite lookup_insert_eq. cbn [fmap option_fmap option_map]. unfold init_adopt_a_child.
    change (parent_pid t1) with (parent_pid t). change (pid t1) with (pid t). rewrite (proj2 (Z.eqb_neq _ _) Hp). by case_decide. }
  split; [exact Hl|]. apply (queued_ext _ (thr s) ts Hk). intros x. rewrite Hl.
  destruct (decide (x = k_cur (thr s))) as [->|Hne]; [by rewrite Ht|]. destruct (decide (x ∈ thread_all_list (thr s))); [|done].
  destruct (k_tasks (thr s) !! x) as [u|]; [|done]. cbn. by rewrite adopt_view.
Qed.

(** The parent is found, woken up and switched to. *)
Lemma exit_wakes k p tp1 t1 : kinv k -> k_tasks k !! k_cur k = Some t1 -> NoDup (thread_all_list k) -> p ∈ thread_all_list k ->
  k_tasks k !! p = Some tp1 -> status tp1 = TASK_WAITING -> parent_pid t1 = pid tp1 ->
  (forall x, x ∈ thread_all_list k -> exists tx, k_tasks k !! x = Some tx /\ (pid tx = pid tp1 -> x = p)) ->
  find_thread (pid_check (parent_pid t1)) (k_tasks k) (thread_all_list k) = Ok p /\
  wp (thread_unblock p) (λ _ k1, forall v2p, wp (thread_block_enter v2p TASK_HANGING) (λ _ k', kinv k' /\ k_cur k' = p /\
    thread_ready_list k' = thread_ready_list k /\ thread_all_list k' = thread_all_list k /\
    k_tasks k' = <[p := set_status TASK_RUNNING tp1]> (<[k_cur k := set_status TASK_HANGING t1]> (k_tasks k))) k1) k.
Proof.
  intros Hk Ht Hnd Hin Htp Hw Hpp Huniq.
  assert (Hne : p <> k_cur k).
  { intros ->. destruct (q_run _ _ Hk) as (t' & Ht' & Hr). congruence. }
  assert (Hnr : p ∉ thread_ready_list k).
  { intros Hr. destruct (q_ready _ _ Hk p Hr) as (t' & Ht' & Hr'). congruence. }
  split.
  - apply list_elem_of_split in Hin as (l1 & l2 & E). rewrite E in *. apply (find_first _ _ _ _ _ tp1); [done|unfold pid_check; by apply Z.eqb_eq|].
    intros x Hx. destruct (Huniq x) as (tx & Hxt & Hu); [set_solver|]. exists tx. split; [done|]. apply Z.eqb_neq. rewrite Hpp. intros Ep.
    specialize (Hu Ep). subst x. apply NoDup_app in Hnd as (_ & Hd & _). apply (Hd p Hx). set_solver.
  - assert (Ho : offq p k) by (split; [by eexists|done]).
    eapply wp_mono; [by apply (unblock_tasks _ p tp1 k Hk Ho)|]. intros [] k1 ([Ht1 _] & Hk1 & Hc1 & Hr1 & Ha1) v2p.
    eapply wp_mono; [apply (block_next v2p TASK_HANGING k1 p (thread_ready_list k) t1 (set_status TASK_READY tp1)); try done|].
    + by rewrite Ht1, Hc1, lookup_insert_ne.
    + by rewrite Ht1, lookup_insert_eq.
    + intros old k' (_ & Hk' & Hc' & Hr' & Ha' & Ht'). split; [done|]. split; [done|]. split; [done|]. split; [congruence|].
      rewrite Ht', Hc1, Ht1. rewrite (insert_insert_ne _ (k_cur k) p) by congruence. by rewrite insert_insert_eq.
Qed.

End exit_parent.

(** ** The theorems on an example

    The directory of the kernel is at 1 MB, the one of a process in frame
    0x202000; both share the page table 0x101000 of the kernel, which maps
    three pages of the kernel heap: the PCB of the process, the bitmap of its
    virtual addresses and its page directory.  The process itself uses one
    page, 0x8048000. *)

Definition z_words : list (Z * Z) :=
  [(0x100c00, 0x101007); (0x100ffc, 0x100007);
   (0x202080, 0x203007); (0x202c00, 0x101007); (0x202ffc, 0x202007);
   (0x101400, 0x200007); (0x101404, 0x201007); (0x101408, 0x202007);
   (0x203120, 0x210007)].

Definition z_vm (cr : Z) (me : Z) (t : task_struct) : vm :=
  VM (list_to_map z_words) cr
    (Pool (Bitmap 2 [15; 0; 0]) 0x200000 0x10000 lock_init)
    (Pool (Bitmap 2 [1; 0; 0]) 0x210000 0x10000 lock_init)
    (VirtualAddr (Bitmap 2 [7; 0; 0]) 0xc0100000) me t.

Definition z_proc (st : task_status) (parent : Z) : task_struct :=
  Task 0xc0101000 7 st [] 31 31 0 [0; 1; 2; -1; -1; -1; -1; -1] 0xc0102000
    (VirtualAddr (Bitmap 4096 (1 :: zeros 4096)) 0x8048000) 0 parent 0 STACK_MAGIC.

Lemma z_word cr me t x : present (word (z_vm cr me t) x) = true -> (x, word (z_vm cr me t) x) ∈ z_words.
Proof.
  unfold word. cbn [ram z_vm]. destruct (list_to_map z_words !! x) as [w|] eqn:E; [|done].
  intros _. by apply elem_of_list_to_map_2 in E.
Qed.

Ltac z_cases H :=
  unfold z_words in H;
  repeat (apply elem_of_cons in H as [H|H]; [injection H as ? ?|]); [..|by apply elem_of_nil in H].

Lemma z_kernel_dir me t i : 0 <= i < 1024 -> present (pdir (z_vm 0x100000 me t) i) = true ->
  (i = 768 /\ tframe (z_vm 0x100000 me t) i = 0x101000) \/ (i = 1023 /\ tframe (z_vm 0x100000 me t) i = 0x100000).
Proof.
  intros Hi Hp. apply z_word in Hp. fold (pdir (z_vm 0x100000 me t) i) in Hp. cbn [cr3 z_vm] in Hp. unfold tframe.
  z_cases Hp; try lia; [left|right]; (split; [lia|]);
    match goal with E : pdir _ i = _ |- _ => rewrite E end; reflexivity.
Qed.

Lemma z_proc_dir me t i : 0 <= i < 1024 -> present (pdir (z_vm 0x202000 me t) i) = true ->
  (i = 32 /\ tframe (z_vm 0x202000 me t) i = 0x203000) \/ (i = 768 /\ tframe (z_vm 0x202000 me t) i = 0x101000) \/
  (i = 1023 /\ tframe (z_vm 0x202000 me t) i = 0x202000).
Proof.
  intros Hi Hp. apply z_word in Hp. fold (pdir (z_vm 0x202000 me t) i) in Hp. cbn [cr3 z_vm] in Hp. unfold tframe.
  z_cases Hp; try lia; [left|right; left|right; right]; (split; [lia|]);
    match goal with E : pdir _ i = _ |- _ => rewrite E end; reflexivity.
Qed.

Definition z_kernel_pages : list (Z * Z) := [(0xc0100, 0x200000); (0xc0101, 0x201000); (0xc0102, 0x202000)].

Lemma z_entry cr me t va pa tf : present (pde_of (z_vm cr me t) va) = true ->
  tframe (z_vm cr me t) (PDE_IDX va) = tf -> mmu (z_vm cr me t) va = Some pa ->
  (tf + 4 * PTE_IDX va, word (z_vm cr me t) (tf + 4 * PTE_IDX va)) ∈ z_words /\
  frame pa = frame (word (z_vm cr me t) (tf + 4 * PTE_IDX va)).
Proof.
  intros Hp Ht. unfold mmu, pte_addr. rewrite Hp. fold (tframe (z_vm cr me t) (PDE_IDX va)) in Ht.
  change (frame (pde_of (z_vm cr me t) va)) with (tframe (z_vm cr me t) (PDE_IDX va)). rewrite Ht.
  destruct (present (word _ _)) eqn:E; [|done]. intros [= <-]. split; [by apply z_word|].
  rewrite offset_mod. apply frame_id; [apply frame_aligned| |apply Z.mod_pos_bound; lia].
  pose proof (frame_range (word (z_vm cr me t) (tf + 4 * PTE_IDX va))). unfold is_addr. lia.
Qed.

Lemma z_table cr me t va pa : in_range va -> PDE_IDX va = 768 -> present (pde_of (z_vm cr me t) va) = true ->
  tframe (z_vm cr me t) (PDE_IDX va) = 0x101000 -> mmu (z_vm cr me t) va = Some pa -> (va / 4096, frame pa) ∈ z_kernel_pages.
Proof.
  intros Hr Hd Hp Ht Hm. destruct (in_range_addr va Hr) as (Ha & _ & Hj). rewrite (page_of va Ha), Hd.
  destruct (z_entry cr me t va pa _ Hp Ht Hm) as [Hin ->].
  z_cases Hin; try lia; match goal with E : word _ _ = _ |- _ => rewrite E end.
  - replace (PTE_IDX va) with 256 by lia. apply (bool_decide_unpack _). vm_compute. exact I.
  - replace (PTE_IDX va) with 257 by lia. apply (bool_decide_unpack _). vm_compute. exact I.
  - replace (PTE_IDX va) with 258 by lia. apply (bool_decide_unpack _). vm_compute. exact I.
Qed.

Lemma z_kernel_mmu me t va pa : in_range va -> mmu (z_vm 0x100000 me t) va = Some pa -> (va / 4096, frame pa) ∈ z_kernel_pages.
Proof.
  intros Hr Hm. destruct (in_range_addr va Hr) as (Ha & Hi & Hj).
  assert (Hp : present (pde_of (z_vm 0x100000 me t) va) = true).
  { unfold mmu in Hm. by destruct (present (pde_of _ va)). }
  destruct (z_kernel_dir me t (PDE_IDX va) ltac:(lia) Hp) as [[Hd Ht]|[Hd _]]; [|lia].
  by apply (z_table 0x100000 me t).
Qed.

Lemma z_proc_mmu me t va pa : in_range va -> mmu (z_vm 0x202000 me t) va = Some pa ->
  (va / 4096, frame pa) ∈ (0x8048, 0x210000) :: z_kernel_pages.
Proof.
  intros Hr Hm. destruct (in_range_addr va Hr) as (Ha & Hi & Hj).
  assert (Hp : present (pde_of (z_vm 0x202000 me t) va) = true).
  { unfold mmu in Hm. by destruct (present (pde_of _ va)). }
  destruct (z_proc_dir me t (PDE_IDX va) ltac:(lia) Hp) as [[Hd Ht]|[[Hd Ht]|[Hd _]]]; [| |lia].
  - apply elem_of_cons. left. destruct (z_entry _ me t va pa _ Hp Ht Hm) as [Hin ->]. rewrite (page_of va Ha), Hd.
    z_cases Hin; try lia. match goal with E : word _ _ = _ |- _ => rewrite E end.
    replace (PTE_IDX va) with 72 by lia. reflexivity.
  - apply elem_of_cons. right. by apply (z_table 0x202000 me t).
Qed.

(** Frames that are not free. *)
Definition z_used (f : Z) : Prop := f < 0x204000 \/ f = 0x210000.

Lemma z_free cr me t g : is_free (z_vm cr me t) g -> ~ z_used g.
Proof.
  unfold z_used. intros [(i & Hi & -> & Hb)|(i & Hi & -> & Hb)]; unfold pool_frame; cbn [phy_addr_start kernel_pool user_pool z_vm];
    cbn [pool_bitmap kernel_pool user_pool z_vm] in Hb; unfold pool_bits in Hi; cbn in Hi.
  - assert (i <> 0) by (intros ->; discriminate Hb). assert (i <> 1) by (intros ->; discriminate Hb).
    assert (i <> 2) by (intros ->; discriminate Hb). assert (i <> 3) by (intros ->; discriminate Hb). lia.
  - assert (i <> 0) by (intros ->; discriminate Hb). lia.
Qed.

Lemma snd_inj (l : list (Z * Z)) a b f : NoDup (map snd l) -> (a, f) ∈ l -> (b, f) ∈ l -> a = b.
Proof.
  induction l as [|[x y] l IH]; intros Hnd Ha Hb; [by apply elem_of_nil in Ha|].
  apply NoDup_cons in Hnd as [Hni Hnd]. assert (Hin : forall c, (c, y) ∈ l -> False).
  { intros c Hc. apply Hni. apply (list_elem_of_fmap_2 snd) in Hc. exact Hc. }
  apply elem_of_cons in Ha as [Ea|Ha]; apply elem_of_cons in Hb as [Eb|Hb]; simplify_eq; try done;
    [by destruct (Hin b)|by destruct (Hin a)|by apply IH].
Qed.

Lemma z_bitmap_wf x : is_byte x -> bitmap_wf (Bitmap 2 [x; 0; 0]).
Proof.
  intros Hx. split; simpl; [lia|lia|unfold zlen; simpl; lia|].
  rewrite !Forall_cons, Forall_nil. unfold is_byte in *. split_and!; try done; lia.
Qed.

Lemma z_wf cr me t dirs pages : let v := z_vm cr me t in selfmap v -> z_used cr ->
  (forall i, 0 <= i < 1023 -> present (pdir v i) = true -> (i, tframe v i) ∈ dirs) ->
  (forall va pa, in_range va -> mmu v va = Some pa -> (va / 4096, frame pa) ∈ pages) ->
  Forall (λ x, snd x <> cr /\ z_used (snd x)) dirs -> NoDup (map snd dirs) ->
  Forall (λ x, z_used (snd x)) pages -> NoDup (map snd pages) ->
  (forall pf, active pf v -> vpool_wf pf v) -> vm_wf v.
Proof.
  intros v Hs Hcr Hd Hm HD HDn HP HPn Hv. rewrite Forall_forall in HD, HP. split; [split| | | |done].
  - exact Hs.
  - intros i Hi Hp. apply (HD (i, tframe v i)). by apply Hd.
  - intros i j Hi Hj Hp Hq E. apply (snd_inj dirs i j (tframe v i) HDn); [by apply Hd; [lia|]|rewrite E; by apply Hd; [lia|]].
  - intros Hf. by apply z_free in Hf.
  - intros i Hi Hp Hf. apply z_free in Hf. apply Hf, (HD (i, tframe v i)). by apply Hd.
  - split; [split|split|]; cbn [kernel_pool user_pool z_vm v]; try (apply z_bitmap_wf; unfold is_byte; lia);
      unfold pool_bits, page_aligned; cbn; done || lia.
  - intros va pa Hr Hx Hf. apply z_free in Hf. apply Hf, (HP (va / 4096, frame pa)). by apply Hm.
  - intros va va' pa pa' Hr Hr' Hx Hx' E. apply (snd_inj pages _ _ (frame pa) HPn); [by apply Hm|rewrite E; by apply Hm].
Qed.

Lemma z_kernel_vpool cr me t (pages : list (Z * Z)) : (forall va pa, in_range va -> mmu (z_vm cr me t) va = Some pa -> (va / 4096, frame pa) ∈ pages) ->
  (forall i f, 3 <= i < 16 -> (0xc0100 + i, f) ∉ pages) -> vpool_wf PF_KERNEL (z_vm cr me t).
Proof.
  intros Hm Hno. split; unfold vcount, vpage, vbits;
    change (vpool PF_KERNEL (z_vm cr me t)) with (VirtualAddr (Bitmap 2 [7; 0; 0]) 0xc0100000);
    change (is_kernel PF_KERNEL) with true; cbn; try (apply z_bitmap_wf; unfold is_byte; lia);
    unfold zlen, page_aligned; cbn; try done; try lia.
  intros i Hi Hb. assert (i <> 0) by (intros ->; discriminate Hb). assert (i <> 1) by (intros ->; discriminate Hb).
  assert (i <> 2) by (intros ->; discriminate Hb). destruct (mmu _ _) as [pa|] eqn:E; [|done]. exfalso.
  apply Hm in E; [|unfold in_range; lia]. apply (Hno i (frame pa)); [lia|].
  replace ((3222274048 + 4096 * i) / 4096) with (0xc0100 + i) in E by dlia. exact E.
Qed.

Ltac list_done := unfold z_kernel_pages, z_used; repeat (apply Forall_cons; split); try apply Forall_nil_2; cbn; try done; try lia; auto.

Lemma z_kernel_wf me t : pgdir t = 0 -> vm_wf (z_vm 0x100000 me t).
Proof.
  intros Hpg. apply (z_wf _ _ _ [(768, 0x101000)] z_kernel_pages).
  - by split.
  - left. lia.
  - intros i Hi Hp. destruct (z_kernel_dir me t i ltac:(lia) Hp) as [[-> ->]|[-> _]]; [by apply list_elem_of_singleton|lia].
  - intros va pa Hr Hm. by apply (z_kernel_mmu me t).
  - list_done.
  - apply (bool_decide_unpack _). by vm_compute.
  - list_done.
  - apply (bool_decide_unpack _). by vm_compute.
  - intros pf [->|[-> Hx]]; [|done]. apply (z_kernel_vpool _ _ _ z_kernel_pages (z_kernel_mmu me t)).
    intros i f Hi Hin. unfold z_kernel_pages in Hin. repeat (apply elem_of_cons in Hin as [[= ? ?]|Hin]; [lia|]). by apply elem_of_nil in Hin.
Qed.

Lemma z_user_bitmap : bitmap_wf (Bitmap 4096 (1 :: zeros 4096)).
Proof.
  split; cbn [btmp_bytes_len bits]; [lia|lia|unfold zlen, zeros; cbn [length]; rewrite length_replicate; lia|].
  apply Forall_cons. split; [unfold is_byte; lia|]. apply Forall_replicate. unfold is_byte; lia.
Qed.

Lemma z_task_wf me t : userprog_vaddr t = VirtualAddr (Bitmap 4096 (1 :: zeros 4096)) 0x8048000 -> vm_wf (z_vm 0x202000 me t).
Proof.
  intros Hu. apply (z_wf _ _ _ [(32, 0x203000); (768, 0x101000)] ((0x8048, 0x210000) :: z_kernel_pages)).
  - by split.
  - left. lia.
  - intros i Hi Hp. destruct (z_proc_dir me t i ltac:(lia) Hp) as [[-> ->]|[[-> ->]|[-> _]]]; [set_solver|set_solver|lia].
  - intros va pa Hr Hm. by apply (z_proc_mmu me t).
  - list_done.
  - apply (bool_decide_unpack _). by vm_compute.
  - list_done.
  - apply (bool_decide_unpack _). by vm_compute.
  - assert (Hno : forall i f, 3 <= i < 16 -> (0xc0100 + i, f) ∉ (0x8048, 0x210000) :: z_kernel_pages).
    { intros i f Hi Hin. unfold z_kernel_pages in Hin. repeat (apply elem_of_cons in Hin as [[= ? ?]|Hin]; [lia|]). by apply elem_of_nil in Hin. }
    intros pf [->|[-> Hx]]; [by apply (z_kernel_vpool _ _ _ _ (z_proc_mmu me t))|].
    split; unfold vcount, vpage, vbits;
      change (vpool PF_USER (z_vm 0x202000 me t)) with (userprog_vaddr t); rewrite Hu;
      change (is_kernel PF_USER) with false; cbn [vaddr_bitmap vaddr_start].
    + apply z_user_bitmap.
    + unfold zlen, zeros. cbn [bits btmp_bytes_len length]. rewrite length_replicate. lia.
    + done.
    + cbn. lia.
    + cbn. lia.
    + intros i Hi Hb. assert (Hi0 : i <> 0) by (intros ->; discriminate Hb). destruct (mmu _ _) as [pa|] eqn:E; [|done]. exfalso.
      cbn [btmp_bytes_len] in Hi. apply z_proc_mmu in E; [|unfold in_range; lia]. replace ((0x8048000 + 4096 * i) / 4096) with (0x8048 + i) in E by dlia.
      unfold z_kernel_pages in E. repeat (apply elem_of_cons in E as [[= ? ?]|E]; [lia|]). by apply elem_of_nil in E.
Qed.

Lemma z_proc_wf me st parent ex : vm_wf (z_vm 0x202000 me (set_exit ex (z_proc st parent))).
Proof. by apply z_task_wf. Qed.

(** Kernel page [i] of the example, mapped to its frame. *)
Lemma z_held cr me t (dirs pages : list (Z * Z)) i : 0 <= i < 3 -> let v := z_vm cr me t in cr <> 0x200000 + 4096 * i ->
  mmu v (vpage PF_KERNEL v i) = Some (0x200000 + 4096 * i) ->
  (forall j, 0 <= j < 1023 -> present (pdir v j) = true -> (j, tframe v j) ∈ dirs) ->
  (forall j, (j, 0x200000 + 4096 * i) ∉ dirs) ->
  (active PF_USER v -> vpage PF_USER v (vcount PF_USER v) <= 0xc0000000) ->
  page_held PF_KERNEL v (vpage PF_KERNEL v i) (0x200000 + 4096 * i).
Proof.
  intros Hi v Hcr Hm Hd Hno Hu. split; [|done| | | |done].
  - unfold vpage, in_range. change (vpool PF_KERNEL v) with (VirtualAddr (Bitmap 2 [7; 0; 0]) 0xc0100000). cbn. lia.
  - intros pf j Hact Hj E. assert (Hk : vpage PF_KERNEL v i = 0xc0100000 + 4096 * i) by done. rewrite Hk in E.
    destruct Hact as [->|[-> Hpg]].
    + change (vpage PF_KERNEL v j) with (0xc0100000 + 4096 * j) in E. assert (j = i) by dlia. subst j.
      assert (Hc : i = 0 \/ i = 1 \/ i = 2) by lia. by destruct Hc as [->|[->| ->]].
    + exfalso. specialize (Hu (or_intror (conj eq_refl Hpg))). unfold vpage in *. dlia.
  - exists i. split; [|done]. change (pool_bits (mem_pool PF_KERNEL v)) with 16. lia.
  - intros (j & Hj & Hp & E). apply (Hno j). rewrite <- E. by apply Hd.
Qed.

Lemma z_kernel_held me t i : pgdir t = 0 -> 0 <= i < 3 ->
  page_held PF_KERNEL (z_vm 0x100000 me t) (0xc0100000 + 4096 * i) (0x200000 + 4096 * i).
Proof.
  intros Hpg Hi. apply (z_held 0x100000 me t [(768, 0x101000)] z_kernel_pages i Hi).
  - lia.
  - assert (Hc : i = 0 \/ i = 1 \/ i = 2) by lia. by destruct Hc as [->|[->| ->]].
  - intros j Hj Hp. destruct (z_kernel_dir me t j ltac:(lia) Hp) as [[-> ->]|[-> _]]; [by apply list_elem_of_singleton|lia].
  - intros j Hin. apply list_elem_of_singleton in Hin as [= _ E]. lia.
  - intros [?|[_ ?]]; done.
Qed.

Lemma z_proc_held me st parent ex i : i = 1 -> let t := set_exit ex (z_proc st parent) in
  page_held PF_KERNEL (z_vm 0x202000 me t) (0xc0100000 + 4096 * i) (0x200000 + 4096 * i).
Proof.
  intros -> t. apply (z_held 0x202000 me t [(32, 0x203000); (768, 0x101000)] z_kernel_pages 1); [lia|lia|reflexivity| | |].
  - intros j Hj Hp. destruct (z_proc_dir me t j ltac:(lia) Hp) as [[-> ->]|[[-> ->]|[-> _]]]; [set_solver|set_solver|lia].
  - intros j Hin. repeat (apply elem_of_cons in Hin as [Hin|Hin]; [discriminate Hin|]). by apply elem_of_nil in Hin.
  - intros _. vm_compute. congruence.
Qed.

Lemma z_space me st parent ex : user_space 0xc0102000 (z_vm 0x202000 me (set_exit ex (z_proc st parent))).
Proof.
  set (t := set_exit ex (z_proc st parent)). split.
  - by split.
  - apply (v_pools _ (z_proc_wf me st parent ex)).
  - split; [done|unfold is_addr; lia].
  - reflexivity.
  - intros i Hi Hp. destruct (z_proc_dir me t i ltac:(lia) Hp) as [[-> ->]|[[-> _]|[-> _]]]; [|lia|lia].
    exists PF_KERNEL. split; [by left|]. exists 3. split; [|done]. change (0 <= 3 < 16). lia.
  - intros va pa Hva Hm. assert (Hr : in_range va).
    { unfold in_range. split; [|lia]. destruct (Z.le_gt_cases 0x400000 va); [done|]. exfalso.
      assert (Ha : is_addr va) by (unfold is_addr; lia). unfold mmu in Hm.
      destruct (present (pde_of (z_vm 0x202000 me t) va)) eqn:E; [|done].
      assert (Hd : PDE_IDX va = 0) by (rewrite PDE_IDX_div by done; dlia). unfold pde_of in E. rewrite Hd in E. discriminate E. }
    apply z_proc_mmu in Hm; [|done]. apply elem_of_cons in Hm as [Hm|Hm].
    + injection Hm as _ ->. exists PF_USER. split; [by right|]. exists 0. split; [|done]. change (0 <= 0 < 16). lia.
    + exfalso. unfold z_kernel_pages in Hm. repeat (apply elem_of_cons in Hm as [[= E _]|Hm]; [dlia|]). by apply elem_of_nil in Hm.
Qed.

Lemma release_frees_user_half_witness :
  exists s', release_pdes 768 0xc0102000 0 (z_vm 0x202000 0 (set_exit 0 (z_proc TASK_RUNNING 2))) = Ok (tt, s') /\
    is_free s' 0x210000 /\ is_free s' 0x203000 /\ ~ is_free s' 0x202000.
Proof.
  destruct (release_frees_user_half 0xc0102000 (z_vm 0x202000 0 (set_exit 0 (z_proc TASK_RUNNING 2))) (z_space 0 TASK_RUNNING 2 0))
    as (s' & Hr & _ & _ & _ & Hf).
  exists s'. split; [exact Hr|]. split; [|split].
  - apply Hf. right. left. exists 0x8048000, 0x210000. split; [lia|]. split; reflexivity.
  - apply Hf. right. right. exists 32. split; [lia|]. split; reflexivity.
  - rewrite Hf. intros [Hx|[(va & pa & Hva & Hm & E)|(i & Hi & Hp & E)]].
    + apply z_free in Hx. apply Hx. left. lia.
    + pose proof (us_frames _ _ (z_space 0 TASK_RUNNING 2 0) va pa Hva Hm) as (pf & Hpf & j & Hj & Ef). rewrite E in Ef.
      assert (Hr' : in_range va).
      { unfold in_range. split; [|lia]. destruct (Z.le_gt_cases 0x400000 va); [done|]. exfalso.
        unfold mmu in Hm. destruct (present (pde_of _ va)) eqn:Ep; [|done].
        assert (Hd : PDE_IDX va = 0) by (rewrite PDE_IDX_div by (unfold is_addr; lia); dlia). unfold pde_of in Ep. rewrite Hd in Ep. discriminate Ep. }
      apply z_proc_mmu in Hm; [|done]. rewrite E in Hm. unfold z_kernel_pages in Hm.
      repeat (apply elem_of_cons in Hm as [Hm|Hm]; [inversion Hm; dlia|]). by apply elem_of_nil in Hm.
    + destruct (z_proc_dir 0 (set_exit 0 (z_proc TASK_RUNNING 2)) i ltac:(lia) Hp) as [[-> Et]|[[-> _]|[-> _]]]; [|lia|lia]. rewrite Et in E. lia.
Defined.

(** Main, the parent, at its place in low memory; the process; and idle. *)
Definition z_main (st : task_status) : task_struct := Thread.demo_task 2 st 31.
Definition z_threads (cur cr : Z) (sp sc : task_status) : kthreads :=
  KT (Cpu 0x2)
     (<[0xc009e000 := z_main sp]> (<[0xc0100000 := z_proc sc 2]> (<[0xc0109000 := Thread.demo_task 3 TASK_BLOCKED 10]> ∅)))
     cur [] [0xc009e000; 0xc0100000; 0xc0109000] 0xc0109000 0xc009e000 cr 0 0.

Definition z_state (cur cr : Z) (sp sc : task_status) (t : task_struct) : proc (gset Z) :=
  Proc (Os demo_fs (Kbd (rest false) (IoS (z_threads cur cr sp sc) (ioqueue_init (zeros 2048))) []) ∅ lock_init [])
    (MHeap (z_vm cr cur t) ∅ ∅ (Lst (Cpu 0) ∅)) demo_pids {[0xc0100000 := 0xc0101000]} ∅ ∅.

Lemma z_kinv cur cr sp sc : (cur = 0xc009e000 /\ sp = TASK_RUNNING /\ is_blocked sc = true) \/
  (cur = 0xc0100000 /\ sc = TASK_RUNNING /\ is_blocked sp = true) -> kinv (z_threads cur cr sp sc).
Proof.
  intros Hc. split; cbn [thread_ready_list k_tasks k_cur idle_thread z_threads].
  - by apply NoDup_nil.
  - by apply not_elem_of_nil.
  - by intros t Ht%elem_of_nil.
  - destruct Hc as [(-> & -> & _)|(-> & -> & _)]; by eexists.
  - intros t ts Ht Hne _. lookup_cases Ht; injection Ht as <-; destruct Hc as [(-> & -> & ?)|(-> & -> & ?)]; done.
  - done.
  - by eexists.
  - intros t ts Ht. lookup_cases Ht; by injection Ht as <-.
Qed.

Lemma z_zombie : zombie (z_state 0xc009e000 0x100000 TASK_RUNNING TASK_HANGING (z_main TASK_RUNNING)) (z_main TASK_RUNNING)
  0xc0100000 (z_proc TASK_HANGING 2) [0xc009e000] [0xc0109000].
Proof.
  split; try done.
  - split; apply not_elem_of_cons; (split; [done|apply not_elem_of_nil]).
  - intros x Hx%list_elem_of_singleton. subst x. by exists (z_main TASK_RUNNING).
  - exists 0, 2, 0x200000, 0x202000. assert (Hp : pgdir (z_main TASK_RUNNING) = 0) by done. split_and!; try done.
    + apply (z_kernel_held 0xc009e000 (z_main TASK_RUNNING) 0 Hp). lia.
    + apply (z_kernel_held 0xc009e000 (z_main TASK_RUNNING) 2 Hp). lia.
Qed.


