(* ===== verification/Exec.v ===== *)
(** userprog/exec.c: the loader of ELF programs and [sys_execv].

    The file is read through the system calls of Fs.v and Os.v, the segments
    go to the memory of Paging.v byte by byte through the page tables of the
    running process.  The two headers are local variables: the bytes read from
    the file.  [path] is the object its pointer points into and is not part of
    the memory that loading overwrites; [argv] is an address. *)

From S2P Require Import Prelude Bitmap Bytes CString Interrupt LinkedList Thread Sync Paging Malloc IoQueue Keyboard Layout Inode File Pipe Fs CmdLine Shell Os Process.

Open Scope Z_scope.

(** ** Headers *)

Definition half_at (b : bytes) (off : Z) : Z := default 0 (znth b off) + 256 * default 0 (znth b (off + 1)).

Record Elf32_Ehdr := Ehdr {
  e_ident : bytes; e_type : Z; e_machine : Z; e_version : Z; e_entry : Z; e_phoff : Z; e_shoff : Z; e_flags : Z;
  e_ehsize : Z; e_phentsize : Z; e_phnum : Z; e_shentsize : Z; e_shnum : Z; e_shstrndx : Z
}.
Record Elf32_Phdr := Phdr {
  p_type : Z; p_offset : Z; p_vaddr : Z; p_paddr : Z; p_filesz : Z; p_memsz : Z; p_flags : Z; p_align : Z
}.
Definition sizeof_Ehdr : Z := 52.
Definition sizeof_Phdr : Z := 32.
Definition PT_LOAD : Z := 1.

Definition ehdr_at (b : bytes) : Elf32_Ehdr :=
  Ehdr (slice b 0 16) (half_at b 16) (half_at b 18) (word_at b 20) (word_at b 24) (word_at b 28) (word_at b 32) (word_at b 36)
    (half_at b 40) (half_at b 42) (half_at b 44) (half_at b 46) (half_at b 48) (half_at b 50).
Definition phdr_at (b : bytes) : Elf32_Phdr :=
  Phdr (word_at b 0) (word_at b 4) (word_at b 8) (word_at b 12) (word_at b 16) (word_at b 20) (word_at b 24) (word_at b 28).

(** "\177ELF\1\1\1" *)
Definition elf_magic : bytes := [127; 69; 76; 70; 1; 1; 1].

(** [e_phentsize] is only compared when the other tests pass. *)
Definition bad_header (h : Elf32_Ehdr) : res bool :=
  c ← memcmp (e_ident h) elf_magic 7;
  Ok (negb (c =? 0) || negb (e_type h =? 2) || negb (e_machine h =? 3) || negb (e_version h =? 1) ||
      (1024 <? e_phnum h) || negb (e_phentsize h =? sizeof_Phdr)).

(** ** Bytes of memory *)

Definition byte_of (w k : Z) : Z := w / 256 ^ k mod 256.
Definition set_byte (w k b : Z) : Z := w + (b - byte_of w k) * 256 ^ k.

Definition store_byte (va b : Z) : M vm unit := λ s,
  match mmu s va with
  | Some pa =>
      let a := pa - pa mod 4 in
      Ok (tt, set_ram (<[a := set_byte (word s a) (pa mod 4) b]> (ram s)) s)
  | None => Fault
  end.
Definition load_byte (va : Z) : M vm Z := λ s,
  match mmu s va with
  | Some pa => Ok (byte_of (word s (pa - pa mod 4)) (pa mod 4), s)
  | None => Fault
  end.
Fixpoint put_bytes (va : Z) (b : bytes) : M vm unit :=
  match b with
  | [] => mret tt
  | x :: b => store_byte va x;; put_bytes (u32 (va + 1)) b
  end.

(** ** Loading *)

Section exec.
Context {H : Type} `{Heap H} (v2p : Z -> Z) (junk : dir_entry) (name_junk : bytes).
Implicit Types s : proc H.

(** Both the entry of the directory and that of the table are present. *)
Definition page_present (vaddr_page : Z) : M (proc H) bool :=
  pde ← on_mem (load (pde_ptr vaddr_page));
  if present pde then pte ← on_mem (load (pte_ptr vaddr_page)); mret (present pte) else mret false.

(** [while (page_idx < occupy_pages)] *)
Fixpoint segment_pages (n : nat) (vaddr_page : Z) : M (proc H) bool :=
  match n with
  | O => mret true
  | S n =>
      there ← page_present vaddr_page;
      got ← (if there : bool then mret true
             else page ← on_mem (get_a_page PF_USER vaddr_page); mret (negb (page =? 0)));
      if got : bool then segment_pages n (u32 (vaddr_page + PG_SIZE)) else mret false
  end.

Definition occupy_pages (filesz vaddr : Z) : Z :=
  let size_in_first_page := PG_SIZE - Z.land vaddr 0x00000fff in
  if size_in_first_page <? filesz then
    let left_size := u32 (filesz - size_in_first_page) in
    u32 (u32 (left_size + PG_SIZE - 1) / PG_SIZE + 1)
  else 1.

(** [sys_read] into memory. *)
Definition read_to (fd vaddr count : Z) : M (proc H) Z :=
  r ← on_os (sys_read v2p fd count);
  on_mem (put_bytes vaddr (snd r));;
  mret (fst r).

Definition segment_load (fd offset filesz vaddr : Z) : M (proc H) bool :=
  let vaddr_first_page := Z.land vaddr 0xfffff000 in
  ok ← segment_pages (Z.to_nat (occupy_pages filesz vaddr)) vaddr_first_page;
  if ok : bool then
    _ ← on_os (on_fs (sys_lseek fd (s32 offset) SEEK_SET));
    _ ← read_to fd vaddr filesz;
    mret true
  else mret false.

(** [while (prog_idx < e_phnum)]; false is the jump to [done] with -1. *)
Fixpoint load_segments (n : nat) (fd prog_header_offset prog_header_size : Z) : M (proc H) bool :=
  match n with
  | O => mret true
  | S n =>
      _ ← on_os (on_fs (sys_lseek fd (s32 prog_header_offset) SEEK_SET));
      r ← on_os (sys_read v2p fd prog_header_size);
      if negb (fst r =? prog_header_size) then mret false
      else
        let prog_header := phdr_at (snd r) in
        ok ← (if p_type prog_header =? PT_LOAD then
                segment_load fd (p_offset prog_header) (p_filesz prog_header) (p_vaddr prog_header)
              else mret true);
        if ok : bool then load_segments n fd (u32 (prog_header_offset + prog_header_size)) prog_header_size
        else mret false
  end.

(** The part of [load] between opening and [done:]. *)
Definition load_file (fd : Z) : M (proc H) Z :=
  r ← on_os (sys_read v2p fd sizeof_Ehdr);
  if negb (fst r =? sizeof_Ehdr) then mret (-1)
  else
    let elf_header := ehdr_at (snd r) in
    bad ← lift (bad_header elf_header);
    if bad : bool then mret (-1)
    else
      ok ← load_segments (Z.to_nat (e_phnum elf_header)) fd (e_phoff elf_header) (e_phentsize elf_header);
      mret (if ok : bool then s32 (e_entry elf_header) else -1).

Definition load (pathname : bytes) : M (proc H) Z :=
  fd ← on_os (on_fs (sys_open junk name_junk pathname O_RDONLY));
  if fd =? -1 then mret (-1)
  else
    ret ← load_file fd;
    _ ← on_os (sys_close fd);
    mret ret.

(** ** execv *)

(** [while (argv[argc]) argc++]: memory has no more words than this. *)
Definition argv_words : nat := Z.to_nat 0x40000000.
Fixpoint count_args (fuel : nat) (argv argc : Z) : M vm Z :=
  match fuel with
  | O => λ _, NoFuel
  | S fuel =>
      w ← Paging.load (u32 (argv + 4 * argc));
      if w =? 0 then mret argc else count_args fuel argv (u32 (argc + 1))
  end.

Definition set_name (nm : bytes) (t : task_struct) : task_struct :=
  Task (self_kstack t) (pid t) (status t) nm (priority t) (ticks t) (elapsed_ticks t)
    (fd_table t) (pgdir t) (userprog_vaddr t) (cwd_inode_nr t) (parent_pid t) (exit_status t) (stack_magic t).

(** The frame that a system call pushed on the kernel stack of [pcb]. *)
Definition intr_0_stack_at (pcb : Z) : Z := u32 (pcb + PG_SIZE - sizeof_intr_stack).

Definition exec_frame (argv argc entry_point : Z) (f : intr_stack) : intr_stack :=
  IntrStack (vec_no f) (is_edi f) (is_esi f) (is_ebp f) (esp_dummy f) argv (is_edx f) argc (is_eax f)
    (is_gs f) (is_fs f) (is_es f) (is_ds f) (err_code f) (u32 entry_point) (is_cs f) (is_eflags f) 0xc0000000 (is_ss f).

(** -1, or the frame that [intr_exit] pops. *)
Definition sys_execv (path : bytes) (argv : Z) : M (proc H) (Z + intr_stack) :=
  argc ← on_mem (count_args argv_words argv 0);
  entry_point ← load path;
  if entry_point =? -1 then mret (inl (-1))
  else
    cur ← on_threads running_thread;
    t ← on_threads (rd_task cur);
    nm ← lift (memcpy (name t) path TASK_NAME_LEN);
    nm ← lift (poke nm (TASK_NAME_LEN - 1) 0);
    on_threads (upd_task cur (set_name nm));;
    f ← (λ s, lift (of_option (p_frames s !! intr_0_stack_at cur)) s);
    let f := exec_frame argv argc entry_point f in
    modify (λ s, put_frames (<[intr_0_stack_at cur := f]> (p_frames s)) s);;
    mret (inr f).
End exec.
