(* ===== verification/Fork.v ===== *)
(** userprog/fork.c: [sys_fork].

    The copy of the parent's PCB page copies what the model keeps of that page:
    the task struct, the interrupt frames and the [switch_to] frames of the
    kernel stack.  User memory is copied through a kernel page, with the page
    directory of the child loaded while the child's pages are mapped and
    written. *)

From S2P Require Import Prelude Bitmap Bytes CString Interrupt LinkedList Thread Sync Paging Malloc IoQueue Keyboard Layout Inode File Pipe Fs CmdLine Shell Os Process Exec.

Open Scope Z_scope.

Section fork.
Context {H : Type} `{Heap H} (im : image).
Implicit Types s : proc H.

(** What a map holds for the page at [from], moved to the page at [to]. *)
Definition copy_page {A} (to from : Z) (m : gmap Z A) : gmap Z A :=
  list_to_map (omap (λ kx, if (from <=? fst kx) && (fst kx <? from + PG_SIZE) then Some (to + (fst kx - from), snd kx) else None)
                 (map_to_list m)) ∪ m.

(** The fields of the copy that differ. *)
Definition child_task (p parent_pid : Z) (t : task_struct) : task_struct :=
  Task (self_kstack t) p TASK_READY (name t) (priority t) (priority t) 0
    (fd_table t) (pgdir t) (userprog_vaddr t) (cwd_inode_nr t) (s16 parent_pid) (exit_status t) (stack_magic t).

Definition copy_pcb_vaddrbitmap_stack0 (child_thread parent_thread : Z) : M (proc H) Z :=
  parent ← on_threads (rd_task parent_thread);
  put_task child_thread parent;;
  modify (λ s, put_frames (copy_page child_thread parent_thread (p_frames s))
                (put_stacks (copy_page child_thread parent_thread (p_stacks s)) s));;
  p ← alloc_pid;
  parent ← on_threads (rd_task parent_thread);
  on_threads (upd_task child_thread (child_task (s16 p) (pid parent)));;
  pcb_cells child_thread;;
  on_heap (block_desc_init (u_block_desc_at child_thread));;
  vaddr_btmp ← on_mem (get_kernel_pages user_bitmap_pages);
  if vaddr_btmp =? 0 then mret (-1)
  else
    modify (λ s, put_vbits (<[child_thread := vaddr_btmp]> (p_vbits s)) s);;
    child ← on_threads (rd_task child_thread);
    n ← lift (strlen (name child));
    assertM (n <? 11) "strlen(child_thread->name) < 11";;
    nm ← lift (strcat (name child) (bs "_fork"));
    on_threads (upd_task child_thread (set_name nm));;
    mret 0.

(** [page_dir_activate] *)
Definition load_cr3 (p_thread : Z) : M (proc H) unit :=
  t ← on_threads (rd_task p_thread);
  pa ← (if pgdir t =? 0 then mret 0x100000 else on_mem (addr_v2p (pgdir t)));
  on_threads (modify (λ k, upd_mmu pa (tss_esp0 k) k)).

(** One page, steps a to e. *)
Definition copy_user_page (child_thread parent_thread buf_page prog_vaddr : Z) : M (proc H) unit :=
  on_mem (copy_words 1024 buf_page prog_vaddr);;
  load_cr3 child_thread;;
  _ ← on_mem (get_a_page_without_opvaddrbitmap PF_USER prog_vaddr);
  on_mem (copy_words 1024 prog_vaddr buf_page);;
  load_cr3 parent_thread.

Fixpoint copy_bits (n : nat) (child_thread parent_thread buf_page vaddr_start byte idx_byte idx_bit : Z) : M (proc H) unit :=
  match n with
  | O => mret tt
  | S n =>
      (if negb (Z.land (Z.shiftl BITMAP_MASK idx_bit) byte =? 0) then
         copy_user_page child_thread parent_thread buf_page (u32 ((idx_byte * 8 + idx_bit) * PG_SIZE + vaddr_start))
       else mret tt);;
      copy_bits n child_thread parent_thread buf_page vaddr_start byte idx_byte (idx_bit + 1)
  end.
Fixpoint copy_bytes (n : nat) (child_thread parent_thread buf_page vaddr_start : Z) (vaddr_btmp : list Z) (idx_byte : Z) : M (proc H) unit :=
  match n with
  | O => mret tt
  | S n =>
      byte ← lift (of_option (znth vaddr_btmp idx_byte));
      (if negb (byte =? 0) then copy_bits 8 child_thread parent_thread buf_page vaddr_start byte idx_byte 0 else mret tt);;
      copy_bytes n child_thread parent_thread buf_page vaddr_start vaddr_btmp (idx_byte + 1)
  end.

Definition copy_body_stack3 (child_thread parent_thread buf_page : Z) : M (proc H) unit :=
  parent ← on_threads (rd_task parent_thread);
  let v := userprog_vaddr parent in
  copy_bytes (Z.to_nat (btmp_bytes_len (vaddr_bitmap v))) child_thread parent_thread buf_page (vaddr_start v)
    (bits (vaddr_bitmap v)) 0.

Definition set_eax (x : Z) (f : intr_stack) : intr_stack :=
  IntrStack (vec_no f) (is_edi f) (is_esi f) (is_ebp f) (esp_dummy f) (is_ebx f) (is_edx f) (is_ecx f) x
    (is_gs f) (is_fs f) (is_es f) (is_ds f) (err_code f) (is_eip f) (is_cs f) (is_eflags f) (is_esp f) (is_ss f).

(** The five words below the frame are the new stack. *)
Definition build_child_stack (child_thread : Z) : M (proc H) Z :=
  let intr_0_stack := intr_0_stack_at child_thread in
  f ← (λ s, lift (of_option (p_frames s !! intr_0_stack)) s);
  modify (λ s, put_frames (<[intr_0_stack := set_eax 0 f]> (p_frames s)) s);;
  let ebp_ptr_in_thread_stack := u32 (intr_0_stack - 4 * 5) in
  modify (λ s, put_stacks (<[ebp_ptr_in_thread_stack := TStack 0 0 0 0 (intr_exit_at im) None]> (p_stacks s)) s);;
  on_threads (upd_task child_thread (set_kstack ebp_ptr_in_thread_stack));;
  mret 0.

Definition open_again (i : inode) : inode := set_open_cnts (u32 (i_open_cnts i + 1)) i.

Fixpoint count_opens (n : nat) (thread local_fd : Z) : M (proc H) unit :=
  match n with
  | O => mret tt
  | S n =>
      t ← on_threads (rd_task thread);
      global_fd ← lift (of_option (znth (fd_table t) local_fd));
      assertM (global_fd <? MAX_FILE_OPEN) "global_fd < MAX_FILE_OPEN";;
      (if negb (global_fd =? -1) then
         p ← on_os (on_pipes (is_pipe local_fd));
         if p : bool then on_os (on_pipes (p_upd_file global_fd (λ e, File (u32 (fd_pos e + 1)) (fd_flag e) (fd_inode e))))
         else
           e ← on_os (on_fs (rd_file global_fd));
           on_os (on_fs (upd_inode (fd_inode e) open_again))
       else mret tt);;
      count_opens n thread (local_fd + 1)
  end.
Definition update_inode_open_cnts (thread : Z) : M (proc H) unit :=
  count_opens (Z.to_nat (MAX_FILES_OPEN_PER_PROC - 3)) thread 3.

Definition copy_process (child_thread parent_thread : Z) : M (proc H) Z :=
  buf_page ← on_mem (get_kernel_pages 1);
  if buf_page =? 0 then mret (-1)
  else
    r ← copy_pcb_vaddrbitmap_stack0 child_thread parent_thread;
    if r =? -1 then mret (-1)
    else
      pgdir ← create_page_dir;
      on_threads (upd_task child_thread (set_pgdir pgdir));;
      if pgdir =? 0 then mret (-1)
      else
        copy_body_stack3 child_thread parent_thread buf_page;;
        _ ← build_child_stack child_thread;
        update_inode_open_cnts child_thread;;
        on_mem (mfree_page PF_KERNEL buf_page 1);;
        mret 0.

Definition sys_fork : M (proc H) Z :=
  parent_thread ← on_threads running_thread;
  child_thread ← on_mem (get_kernel_pages 1);
  if child_thread =? 0 then mret (-1)
  else
    st ← on_threads (on_kcpu intr_get_status);
    parent ← on_threads (rd_task parent_thread);
    assertM (bool_decide (st = INTR_OFF) && negb (pgdir parent =? 0))
      "INTR_OFF == intr_get_status() && parent_thread->pgdir != NULL";;
    r ← copy_process child_thread parent_thread;
    if r =? -1 then mret (-1)
    else
      on_threads (enlist child_thread);;
      child ← on_threads (rd_task child_thread);
      mret (pid child).
End fork.
