(* ===== verification/UserMem.v ===== *)
(** The memory of a user process: its bytes, and how mapping a page and
    storing bytes change them.  Shared by ExecSpec.v and ForkSpec.v.

    [space_ok] is an address space of a process whose user pages hold data, never
    page tables, and [user_ok] one whose task can take the lock of the user pool; [space_ext] is an address space with more pages; [byte_at] is the
    byte a program reads at an address. *)

From S2P Require Import Prelude Bitmap Bytes Interrupt Thread Sync Paging PagingSpec Exec.

Open Scope Z_scope.

(** ** Bytes of a word *)

Lemma pow256 k : 0 <= k -> 0 < 256 ^ k.
Proof. intros Hk. apply Z.pow_pos_nonneg; lia. Qed.

Lemma byte_of_split w k : 0 <= k -> exists hi lo, 0 <= lo < 256 ^ k /\ w = (hi * 256 + byte_of w k) * 256 ^ k + lo.
Proof.
  intros Hk. pose proof (pow256 k Hk) as Hp. exists (w / 256 ^ k / 256), (w mod 256 ^ k).
  split; [by apply Z.mod_pos_bound|]. unfold byte_of.
  rewrite (Z.mul_comm (w / 256 ^ k / 256)), <- Z.div_mod by lia. rewrite Z.mul_comm. apply Z.div_mod. lia.
Qed.

Lemma set_byte_same w k b : 0 <= k -> is_byte b -> byte_of (set_byte w k b) k = b.
Proof.
  intros Hk Hb. destruct (byte_of_split w k Hk) as (hi & lo & Hlo & E). pose proof (pow256 k Hk) as Hp.
  unfold set_byte. set (x := byte_of w k) in *. unfold byte_of. rewrite E.
  replace ((hi * 256 + x) * 256 ^ k + lo + (b - x) * 256 ^ k) with ((hi * 256 + b) * 256 ^ k + lo) by lia.
  rewrite Z.div_add_l, Z.div_small, Z.add_0_r by lia. unfold is_byte in Hb.
  rewrite Z.add_comm, Z.mod_add, Z.mod_small by lia. done.
Qed.

Lemma set_byte_other w k j b : 0 <= k -> 0 <= j -> j <> k -> is_byte b -> byte_of (set_byte w k b) j = byte_of w j.
Proof.
  intros Hk Hj Hne Hb. destruct (byte_of_split w k Hk) as (hi & lo & Hlo & E). pose proof (pow256 k Hk) as Hp.
  pose proof (pow256 j Hj) as Hpj. unfold set_byte. set (x := byte_of w k) in *.
  assert (Hx : is_byte x) by (apply Z.mod_pos_bound; lia). unfold is_byte in *.
  replace (w + (b - x) * 256 ^ k) with ((hi * 256 + b) * 256 ^ k + lo) by lia. unfold byte_of. rewrite E.
  destruct (Z.lt_ge_cases j k) as [Hlt|Hge].
  - assert (Ek : 256 ^ k = 256 * 256 ^ (k - j - 1) * 256 ^ j).
    { rewrite <- Z.mul_assoc, <- Z.pow_add_r, <- (Z.pow_succ_r 256) by lia. f_equal. lia. }
    rewrite Ek. set (c := 256 ^ (k - j - 1)). assert (Hd : forall y, (y * (256 * c * 256 ^ j) + lo) / 256 ^ j mod 256 = lo / 256 ^ j mod 256).
    { intros y. replace (y * (256 * c * 256 ^ j) + lo) with (y * (256 * c) * 256 ^ j + lo) by lia.
      rewrite Z.div_add_l by lia. replace (y * (256 * c) + lo / 256 ^ j) with (lo / 256 ^ j + (y * c) * 256) by lia. apply Z.mod_add. lia. }
    by rewrite !Hd.
  - assert (Ej : 256 ^ j = 256 ^ k * 256 * 256 ^ (j - k - 1)).
    { rewrite <- Z.mul_assoc, <- (Z.pow_succ_r 256 (j - k - 1)), <- Z.pow_add_r by lia. f_equal. lia. }
    assert (Hc : 0 < 256 ^ (j - k - 1)) by (apply pow256; lia). rewrite Ej.
    assert (Hd : forall y, 0 <= y < 256 -> ((hi * 256 + y) * 256 ^ k + lo) / (256 ^ k * 256 * 256 ^ (j - k - 1)) = hi / 256 ^ (j - k - 1)).
    { intros y Hy. rewrite <- Z.div_div, <- Z.div_div by lia. rewrite Z.div_add_l, (Z.div_small lo), Z.add_0_r by lia.
      rewrite Z.div_add_l, (Z.div_small y), Z.add_0_r by lia. done. }
    rewrite !Hd by done. done.
Qed.

(** ** The bytes of an address space *)

Definition byte_at (s : vm) (va : Z) : option Z :=
  match mmu s va with Some pa => Some (byte_of (word s (pa - pa mod 4)) (pa mod 4)) | None => None end.

Definition user_va (va : Z) : Prop := 0x400000 <= va < 0xc0000000.

(** Frame [f] is neither the page directory nor a page table. *)
Definition data_frame (s : vm) (f : Z) : Prop := ~ table_frame s f /\ f <> cr3 s.

Record space_ok (s : vm) : Prop := {
  so_wf : vm_wf s;
  so_act : active PF_USER s;
  so_data : forall va pa, user_va va -> mmu s va = Some pa -> data_frame s (frame pa)
}.
Definition user_ok (s : vm) : Prop := space_ok s /\ me s <> 0 /\ Seq.quiet (me s) (plock_of PF_USER s).

(** [s'] runs the same task on the same page directory; pages may have been
    added. *)
Record space_ext (s s' : vm) : Prop := {
  se_cfg : cr3 s' = cr3 s /\ me s' = me s /\ plock_of PF_USER s' = plock_of PF_USER s;
  se_cur : exists b, mcur s' = set_uvaddr (VirtualAddr b (vaddr_start (userprog_vaddr (mcur s)))) (mcur s) /\
    btmp_bytes_len b = btmp_bytes_len (vbits PF_USER s);
  se_mmu : forall va pa, in_range va -> mmu s va = Some pa -> mmu s' va = Some pa
}.

Section user_memory.
Implicit Types (s : vm) (va : Z).

Lemma user_in_range va : user_va va -> in_range va.
Proof. unfold user_va, in_range. lia. Qed.

Lemma space_ext_refl s : space_ext s s.
Proof.
  split; [done| |done]. exists (vbits PF_USER s). split; [|done]. unfold vbits, vpool, set_uvaddr. cbn.
  by destruct (mcur s) as [? ? ? ? ? ? ? ? ? [] ? ? ? ?].
Qed.
Lemma space_ext_trans s1 s2 s3 : space_ext s1 s2 -> space_ext s2 s3 -> space_ext s1 s3.
Proof.
  intros [(C1 & M1 & L1) (b1 & T1 & B1) P1] [(C2 & M2 & L2) (b2 & T2 & B2) P2]. split.
  - split_and!; congruence.
  - exists b2. split; [by rewrite T2, T1|]. rewrite B2. unfold vbits, vpool in *. cbn in *. by rewrite T1.
  - auto.
Qed.

Lemma space_ext_vpage s s' i : space_ext s s' -> vpage PF_USER s' i = vpage PF_USER s i /\ vcount PF_USER s' = vcount PF_USER s.
Proof.
  intros [_ (b & T & B) _]. unfold vpage, vcount, vbits, vpool in *. cbn in *. rewrite T. split; [done|]. f_equal. exact B.
Qed.

(** *** Mapping a page *)

Lemma map_page_ok s va n : vm_wf s -> active PF_USER s -> in_range va -> page_aligned va -> mmu s va = None ->
  reserved s va -> rooms PF_USER s (S n) ->
  wp (palloc PF_USER) (λ f s1, f <> 0 /\ wp (page_table_add va f) (λ _ s',
    exists g, mapped_run PF_USER s s' va [g] /\ rooms PF_USER s' n) s1) s.
Proof.
  intros Hwf Hact Hr Hal Hm Hres Hroom.
  assert (Hw : wp (map_pages 1 PF_USER va) (λ r s', r = true /\ exists fs, length fs = 1%nat /\ mapped_run PF_USER s s' va fs) s).
  { apply map_pages_ok; try done.
    - intros k Hk. replace (va + 4096 * k) with va by lia. done.
    - destruct Hroom as [Hu Hk]. split; (eapply frames_room_le; [|done]); lia. }
  cbn [map_pages] in Hw. apply wp_bind_inv in Hw. eapply wp_mono; [exact Hw|]. intros f s1 Ha. cbn beta in Ha. destruct (Z.eqb_spec f 0) as [->|Hf].
  { by destruct Ha. }
  apply wp_bind_inv in Ha. split; [exact Hf|]. eapply wp_mono; [exact Ha|]. intros [] s' (_ & fs & Hl & Hmr).
  destruct fs as [|g [|? ?]]; [discriminate Hl| |discriminate Hl]. exists g. split; [exact Hmr|].
  apply (mr_room _ _ _ _ _ Hmr). exact Hroom.
Qed.

(** What a new page leaves alone. *)
Lemma mapped_page s s' va g : space_ok s -> user_va va -> page_aligned va -> mmu s va = None ->
  mapped_run PF_USER s s' va [g] -> space_ok s' /\ space_ext s s' /\ mmu s' va = Some g /\
  (forall x, in_range x -> x / 4096 <> va / 4096 -> mmu s' x = mmu s x) /\
  (forall x y, user_va x -> byte_at s x = Some y -> byte_at s' x = Some y).
Proof.
  intros [Wf Hact Hdata] Hr%user_in_range Hal Hm [W C N F I Mm T R L K X P V].
  destruct (same_cfg_vpool PF_USER s s' C) as (Ev & Ec & Ecr & Eme & Ea).
  assert (Hmm : forall x, in_range x -> x / 4096 <> va / 4096 -> mmu s' x = mmu s x).
  { intros x Hx Hne. rewrite Mm by done. rewrite (proj2 (znth_None [g] _)); [done|].
    unfold zlen, page_aligned in *. cbn. dlia. }
  assert (Hold : forall x pa, in_range x -> mmu s x = Some pa -> mmu s' x = Some pa).
  { intros x pa Hx Hp. rewrite Hmm; [done|done|]. intros E.
    assert (Hy : mmu s va = Some (pa - x mod 4096 + va mod 4096)) by (apply (mmu_page s x va); [unfold in_range, is_addr in *; lia..|done|done]).
    congruence. }
  assert (Hnew : mmu s' va = Some g).
  { rewrite Mm by done. rewrite Z.sub_diag. cbn. unfold page_aligned in Hal. rewrite Hal. f_equal. lia. }
  assert (Hg : pool_free (mem_pool PF_USER s) g) by (apply F; set_solver).
  assert (Hdf : forall f, ~ is_free s f -> data_frame s f -> data_frame s' f).
  { intros f Hnf [Hnt Hnc]. split; [|by rewrite Ecr]. intros (i & Hi & Hp & <-). destruct (T i Hi Hp) as [[[Hp0 E]|Hfr] _]; [|done].
    apply Hnt. exists i. by rewrite E. }
  split; [split|split; [split|split; [done|split; [done|]]]].
  - done.
  - by rewrite Ea.
  - intros x pa Hx Hp. destruct (decide (x / 4096 = va / 4096)) as [E|Hne].
    + assert (Hpx : mmu s' x = Some (g - va mod 4096 + x mod 4096)).
      { apply (mmu_page s' va x); [unfold user_va, in_range, is_addr in *; lia..|done|done]. }
      destruct (pool_free_addr _ _ (mem_pool_wf PF_USER s (v_pools _ Wf)) Hg) as (Hga & Hgi & _ & _).
      assert (Hfr : frame pa = g).
      { rewrite Hp in Hpx. injection Hpx as ->. unfold page_aligned in Hal. rewrite Hal, Z.sub_0_r.
        apply frame_id; [done|done|apply Z.mod_pos_bound; lia]. }
      rewrite Hfr. split.
      * intros (i & Hi & Hpi & Eg). destruct (T i Hi Hpi) as [_ Hn]. apply Hn. rewrite Eg. set_solver.
      * intros ->. apply (t_cr3 s (v_tables _ Wf)). rewrite <- Ecr. by eapply mem_free_is_free.
    + rewrite Hmm in Hp by (done || by apply user_in_range). apply Hdf; [|by apply (Hdata x)].
      apply (v_used _ Wf x); [by apply user_in_range|done].
  - split_and!; [done|done|by apply same_cfg_lock].
  - exists (vbits PF_USER s). split; [|done]. rewrite Ec. unfold vbits, vpool, set_uvaddr. cbn.
    by destruct (mcur s) as [? ? ? ? ? ? ? ? ? [] ? ? ? ?].
  - done.
  - intros x y Hx. unfold byte_at. destruct (mmu s x) as [pa|] eqn:Ep; [|done].
    rewrite (Hold x pa) by (done || by apply user_in_range). intros [= <-]. do 2 f_equal.
    destruct (decide (word s' (pa - pa mod 4) = word s (pa - pa mod 4))) as [|Hne]; [done|]. exfalso.
    apply X in Hne as (f & Hf & Hin).
    assert (Hpf : data_frame s' (frame pa)).
    { apply Hdf; [|by apply (Hdata x)]. apply (v_used _ Wf x); [by apply user_in_range|done]. }
    assert (Ef : f = frame pa).
    { assert (page_aligned f) as Hfa.
      { destruct Hf as [->|(i & _ & _ & <-)]; [apply (sm_cr3 _ (t_self _ (v_tables _ W)))|apply tframe_aligned]. }
      pose proof (frame_aligned pa) as Hpa. pose proof (frame_mmu s x pa Ep) as Epa.
      pose proof (Z.mod_pos_bound x 4096 ltac:(lia)). unfold page_aligned in *. dlia. }
    subst f. destruct Hpf as [Hnt Hnc]. by destruct Hf.
Qed.

(** *** Locks and bitmaps do not change the address space *)

Lemma byte_at_ext s s' : (forall x, mmu s' x = mmu s x) -> (forall x, word s' x = word s x) -> forall x, byte_at s' x = byte_at s x.
Proof. intros Hm Hw x. unfold byte_at. rewrite Hm. destruct (mmu s x); [|done]. by rewrite Hw. Qed.

Lemma space_ok_ext s s' : vm_wf s' -> ram s' = ram s -> cr3 s' = cr3 s -> pgdir (mcur s') = pgdir (mcur s) ->
  space_ok s -> space_ok s'.
Proof.
  intros Hwf Hr Hc Hp [_ Ha Hd]. split; [done| |].
  - unfold active in *. by rewrite Hp.
  - intros va pa Hva Hm. assert (Hm' : mmu s va = Some pa) by (rewrite <- Hm; unfold mmu, pte_addr, pde_of, word; by rewrite Hr, Hc).
    destruct (Hd va pa Hva Hm') as [Hnt Hnc]. split; [|by rewrite Hc]. intros (i & Hi & Hpi & E). apply Hnt. exists i.
    unfold tframe, pdir, word in *. rewrite Hr, Hc in *. done.
Qed.

Lemma relock_ext k s : space_ok s -> space_ok (relock PF_USER k s) /\ (forall x, mmu (relock PF_USER k s) x = mmu s x) /\
  (forall x, byte_at (relock PF_USER k s) x = byte_at s x).
Proof.
  intros Hs. pose proof (relock_same PF_USER k s) as (Er & Ec & _ & Em & _). split; [|split].
  - eapply space_ok_ext, Hs; [apply vm_wf_relock, Hs|done|done|by rewrite Em].
  - apply relock_mmu.
  - apply byte_at_ext; [apply relock_mmu|]. intros x. unfold word. by rewrite Er.
Qed.

(** *** get_a_page *)

(** One more page at [va], and nothing else. *)
Record page_added s s' va : Prop := {
  pg_user : user_ok s';
  pg_ext : space_ext s s';
  pg_new : is_Some (mmu s' va);
  pg_mmu : forall x, in_range x -> x / 4096 <> va / 4096 -> mmu s' x = mmu s x;
  pg_bytes : forall x y, user_va x -> byte_at s x = Some y -> byte_at s' x = Some y
}.

Lemma rooms_cfg s s' n : kernel_pool s' = kernel_pool s -> pool_bitmap (user_pool s') = pool_bitmap (user_pool s) ->
  phy_addr_start (user_pool s') = phy_addr_start (user_pool s) -> rooms PF_USER s n -> rooms PF_USER s' n.
Proof. intros Hk Hb Hp. unfold rooms. cbn. rewrite Hk. unfold pool_room, pool_bits. by rewrite Hb. Qed.

Lemma vpool_bounds s : vm_wf s -> active PF_USER s ->
  0x400000 <= vaddr_start (vpool PF_USER s) /\ vaddr_start (vpool PF_USER s) + 4096 * vcount PF_USER s <= 0xc0000000.
Proof. intros Hwf Ha. destruct (v_vpool _ Hwf PF_USER Ha) as [_ _ _ S E _]. exact (conj S E). Qed.

Lemma get_a_page_ok s va i n : user_ok s -> 0 <= i < vcount PF_USER s -> va = vpage PF_USER s i -> mmu s va = None ->
  rooms PF_USER s (S n) ->
  wp (get_a_page PF_USER va) (λ r s', r = va /\ page_added s s' va /\ rooms PF_USER s' n) s.
Proof.
  intros (Hs & Hme & Hq) Hi Hva Hm Hroom. pose proof (so_wf s Hs) as Hwf. pose proof (so_act s Hs) as Hact.
  destruct (Seq.acquire_release _ _ Hme Hq) as (k & Hacq & _ & Hrel). set (s0 := relock PF_USER k s).
  pose proof (relock_same PF_USER k s) as (Er0 & Ec0 & Ekv0 & Em0 & Eme0). fold s0 in Er0, Ec0, Ekv0, Em0, Eme0.
  destruct (relock_ext k s Hs) as (Hs0 & Hmm0 & Hb0). fold s0 in Hs0, Hmm0, Hb0.
  pose proof (v_vpool _ Hwf PF_USER Hact) as Hv. pose proof (wf_small _ (vp_bits _ _ Hv)) as Hsm.
  destruct (vpool_bounds s Hwf Hact) as [Hst Hen].
  assert (Hvl : user_va va /\ page_aligned va).
  { destruct (vpage_in_range s PF_USER i) as [? ?]; try done. subst va. unfold user_va, vpage in *. split; [lia|done]. }
  destruct Hvl as [Huv Hal].
  unfold get_a_page. apply wp_bind. eapply acquire_ok; [exact Hacq|]. fold s0. apply wp_bind, wp_gets.
  destruct Hact as [?|[_ Hpg]]; [done|]. rewrite Em0, (proj2 (Z.eqb_neq _ _) Hpg). cbn [negb andb].
  change (PF_USER =? PF_USER) with true. cbn iota. cbv zeta.
  assert (Hidx : s32 (u32 (va - vaddr_start (userprog_vaddr (mcur s))) / PG_SIZE) = i).
  { rewrite Hva. unfold vpage, PG_SIZE. change (vpool PF_USER s) with (userprog_vaddr (mcur s)) in *.
    replace (_ + 4096 * i - _) with (4096 * i) by lia. rewrite u32_small by lia. rewrite (Z.mul_comm 4096), Z.div_mul by lia. apply s32_small. lia. }
  rewrite Hidx. destruct (bitmap_set_ok (vbits PF_USER s) i 1 (vp_bits _ _ Hv)) as (b & Hb & Hwb & Hlb & Hzb & Hbit); [exact Hi|by right|].
  apply wp_bind, wp_bind, wp_assert; [apply Z.leb_le; lia|]. rewrite u32_small by lia. apply wp_bind. eapply wp_lift; [exact Hb|].
  apply wp_modify. set (s1 := set_vbits PF_USER b s0).
  assert (Hvb0 : vbits PF_USER s0 = vbits PF_USER s /\ forall j, vpage PF_USER s0 j = vpage PF_USER s j).
  { unfold vbits, vpage, s0. by rewrite relock_vpool. }
  destruct Hvb0 as [Hvb0 Hvp0]. destruct (set_vbits_same PF_USER b s0) as (Er1 & Ec1 & Ek1 & Eu1 & Eme1 & Ep1).
  fold s1 in Er1, Ec1, Ek1, Eu1, Eme1, Ep1.
  assert (Hmm1 : forall x, mmu s1 x = mmu s x).
  { intros x. rewrite <- Hmm0. unfold mmu, pte_addr, pde_of, word. by rewrite Er1, Ec1. }
  assert (Hwf1 : vm_wf s1).
  { apply vm_wf_vbits; rewrite ?Hvb0; try done; [apply Hs0|apply Hs0|]. intros j Hj Hbj. rewrite Hvp0, Hmm0.
    rewrite Hbit in Hbj by lia. case_decide; [done|]. apply (vp_unmapped _ _ Hv); [|done]. unfold vcount in *. by rewrite Hvb0 in Hj. }
  assert (Hs1 : space_ok s1) by (eapply space_ok_ext, Hs0; done).
  assert (Hres : reserved s1 va).
  { rewrite Hva, <- Hvp0. apply reserved_run; [apply Hs0|apply Hs0|by rewrite Hvb0|unfold vcount in *; by rewrite Hvb0|].
    by rewrite Hbit, decide_True by lia. }
  assert (Hroom1 : rooms PF_USER s1 (S n)).
  { assert (Hr0 : rooms PF_USER s0 (S n)) by (by apply relock_rooms). unfold rooms in *. by rewrite Ek1, Eu1. }
  apply wp_bind. eapply wp_mono; [apply (map_page_ok s1 va n); [done|apply Hs1|by apply user_in_range|done|by rewrite Hmm1|done|done]|].
  intros f sf [Hf Hadd]. rewrite (proj2 (Z.eqb_neq _ _) Hf). apply wp_bind. eapply wp_mono; [exact Hadd|].
  intros [] s2 (g & Hmr & Hroom2). pose proof (mr_cfg _ _ _ _ _ Hmr) as C.
  destruct (mapped_page s1 s2 va g Hs1 Huv Hal) as (Hs2 & [_ (b2 & T2 & B2) M2] & Hnew & Hoth & Hby); [by rewrite Hmm1|done|].
  destruct (same_cfg_vpool PF_USER s1 s2 C) as (_ & Em2 & Ec2 & Eme2 & _).
  assert (Hlk2 : plock_of PF_USER s2 = k).
  { rewrite (same_cfg_lock PF_USER s1 s2 C). unfold s1. rewrite set_vbits_lock. unfold plock_of, s0, relock. by rewrite mem_pool_set. }
  apply wp_bind. eapply release_ok; [rewrite Hlk2, Eme2, Eme1, Eme0; exact Hrel|]. apply wp_ret.
  split; [reflexivity|]. split; [|apply relock_rooms; exact Hroom2].
  destruct (relock_ext (plock_of PF_USER s) s2 Hs2) as (Hs3 & Hmm3 & Hb3).
  pose proof (relock_same PF_USER (plock_of PF_USER s) s2) as (_ & Ec3 & _ & Em3 & Eme3).
  assert (Hlk3 : plock_of PF_USER (relock PF_USER (plock_of PF_USER s) s2) = plock_of PF_USER s)
    by (unfold plock_of, relock; by rewrite mem_pool_set).
  split.
  - split; [exact Hs3|]. rewrite Hlk3, Eme3, Eme2, Eme1, Eme0. exact (conj Hme Hq).
  - split; [split_and!; congruence| |].
    + exists b. split; [|exact Hlb]. rewrite Em3, Em2. unfold s1, set_vbits. change (PF_USER =? PF_KERNEL) with false. cbv iota.
      cbn [mcur set_mcur]. by rewrite Em0.
    + intros x pa Hx Hp. rewrite Hmm3. apply M2; [exact Hx|]. rewrite Hmm1. exact Hp.
  - rewrite Hmm3. exists g. exact Hnew.
  - intros x Hx Hne. rewrite Hmm3, Hoth by assumption. apply Hmm1.
  - intros x y Hx Hy. rewrite Hb3. apply Hby; [exact Hx|]. rewrite <- Hy. apply byte_at_ext; [exact Hmm1|].
    intros z. unfold word. rewrite Er1, Er0. reflexivity.
Qed.

(** *** Storing bytes *)

(** Only bytes of user pages have changed: now they are [m]. *)
Record written s s' (m : Z -> option Z) : Prop := {
  wr_only : only_ram s s';
  wr_space : space_ok s';
  wr_mmu : forall x, in_range x -> mmu s' x = mmu s x;
  wr_bytes : forall x, in_range x -> byte_at s' x = m x
}.

Lemma written_trans s1 s2 s3 m m' : written s1 s2 m -> written s2 s3 m' -> written s1 s3 m'.
Proof.
  intros [O1 S1 M1 B1] [O2 S2 M2 B2]. split; [by eapply only_ram_trans|done| |done].
  intros x Hx. by rewrite M2, M1.
Qed.

Lemma frame_bounds s va pa : mmu s va = Some pa -> frame pa <= pa < frame pa + 4096.
Proof. intros Hm. pose proof (frame_mmu s va pa Hm). pose proof (Z.mod_pos_bound va 4096 ltac:(lia)). lia. Qed.

Lemma space_ok_data s s' f : space_ok s -> data_frame s f -> data_write s s' [f] -> space_ok s'.
Proof.
  intros [Hwf Ha Hd] Hf Hdw. pose proof (sm_cr3 _ (t_self _ (v_tables _ Hwf))) as Hc.
  assert (Ec : cr3 s' = cr3 s) by (by rewrite (dw_only _ _ _ Hdw)). split.
  - by apply (vm_wf_data s s' [f]).
  - by rewrite (dw_only _ _ _ Hdw).
  - intros va pa Hva Hm. rewrite (data_write_mmu s s' [f] va (v_tables _ Hwf) Hdw (user_in_range va Hva)) in Hm.
    destruct (Hd va pa Hva Hm) as [Hnt Hnc]. split; [|by rewrite Ec]. intros (i & Hi & Hp & E). apply Hnt. exists i.
    unfold tframe in *. rewrite (data_write_pdir s s' [f] i Hc Hdw) in * by lia. done.
Qed.

Lemma store_byte_ok s va b : space_ok s -> user_va va -> is_Some (mmu s va) -> is_byte b ->
  wp (store_byte va b) (λ _ s', written s s' (λ x, if decide (x = va) then Some b else byte_at s x)) s.
Proof.
  intros Hs Hva [pa Hm] Hb. unfold store_byte, wp. rewrite Hm. set (a := pa - pa mod 4). set (s' := set_ram _ s).
  pose proof (frame_bounds s va pa Hm) as Hfb. pose proof (Z.mod_pos_bound pa 4 ltac:(lia)) as Hp4.
  assert (Ha : frame pa <= a < frame pa + 4096).
  { pose proof (frame_aligned pa) as Hal. unfold page_aligned, a in *. split; [|lia]. dlia. }
  pose proof (so_data s Hs va pa Hva Hm) as Hdf.
  assert (Hdw : data_write s s' [frame pa]).
  { split; [apply only_ram_insert| |].
    - intros x Hx. exists (frame pa). split; [set_solver|]. unfold s' in Hx. rewrite word_insert in Hx. case_decide; [by subst x|done].
    - intros f ->%list_elem_of_singleton. split; [apply frame_aligned|]. destruct Hdf. by split. }
  assert (Hmm : forall x, in_range x -> mmu s' x = mmu s x)
    by (intros x Hx; apply (data_write_mmu s s' [frame pa] x (v_tables _ (so_wf s Hs)) Hdw Hx)).
  split; [apply only_ram_insert|by apply (space_ok_data s s' (frame pa))|done|].
  intros x Hx. unfold byte_at. rewrite Hmm by done. case_decide as E.
  - subst x. rewrite Hm. fold a. unfold s'. rewrite word_insert, decide_True by done. f_equal. apply set_byte_same; [lia|done].
  - destruct (mmu s x) as [px|] eqn:Ex; [|done]. f_equal. unfold s'. rewrite word_insert. case_decide as Ew; [|done].
    rewrite <- Ew. pose proof (Z.mod_pos_bound px 4 ltac:(lia)) as Hx4. apply set_byte_other; [lia|lia| |done]. intros Em.
    assert (Epx : px = pa) by (unfold a in Ew; lia). subst px. apply E.
    pose proof (v_inj _ (so_wf s Hs) x va pa pa Hx (user_in_range va Hva) Ex Hm eq_refl).
    pose proof (frame_mmu s x pa Ex). pose proof (frame_mmu s va pa Hm). dlia.
Qed.

(** The bytes [b] from [va] on, over [m]. *)
Definition over (va : Z) (b : bytes) (m : Z -> option Z) (x : Z) : option Z :=
  match znth b (x - va) with Some y => Some y | None => m x end.

Lemma put_bytes_ok b : forall s va, space_ok s -> (forall k, 0 <= k < zlen b -> user_va (va + k) /\ is_Some (mmu s (va + k))) ->
  Forall is_byte b -> wp (put_bytes va b) (λ _ s', written s s' (over va b (byte_at s))) s.
Proof.
  induction b as [|y b IH]; intros s va Hs Hm Hb.
  { apply wp_ret. split; [apply only_ram_refl|done|done|]. intros x Hx. unfold over. by rewrite (proj2 (znth_None [] _)) by (unfold zlen; cbn; lia). }
  apply Forall_cons in Hb as [Hy Hb]. assert (Hl : zlen (y :: b) = 1 + zlen b) by (unfold zlen; cbn; lia).
  pose proof (zlen_nonneg b). destruct (Hm 0 ltac:(lia)) as [Hva Hma]. rewrite Z.add_0_r in Hva, Hma.
  cbn [put_bytes]. apply wp_bind. eapply wp_mono; [by apply store_byte_ok|]. intros [] s1 W1.
  rewrite u32_small by (unfold user_va in Hva; lia).
  eapply wp_mono; [apply IH; [apply (wr_space _ _ _ W1)| |done]|].
  - intros k Hk. destruct (Hm (1 + k) ltac:(lia)) as [Hu Hs']. rewrite Z.add_assoc in Hu, Hs'. split; [done|].
    rewrite (wr_mmu _ _ _ W1) by (by apply user_in_range). done.
  - intros [] s2 W2. pose proof (written_trans _ _ _ _ _ W1 W2) as [O Sp M B]. split; try done. intros x Hx. rewrite B by done.
    unfold over. rewrite (wr_bytes _ _ _ W1) by done. destruct (decide (x = va)) as [->|Hne].
    + rewrite (proj2 (znth_None b _)) by lia. by rewrite Z.sub_diag.
    + replace (znth (y :: b) (x - va)) with (znth b (x - (va + 1))); [done|].
      unfold znth. destruct (Z.ltb_spec (x - (va + 1)) 0), (Z.ltb_spec (x - va) 0); try lia; [done|].
      replace (Z.to_nat (x - va)) with (S (Z.to_nat (x - (va + 1)))) by lia. done.
Qed.
End user_memory.
