(* ===== verification/FileSpec.v ===== *)
(** What [file_write] and [file_read] do to the contents of a file.

    The contents are the bytes the inode's blocks hold on disk, cut at
    [i_size].  [mk] names the parts of the state the two functions change:
    the disk, the block bitmap, one inode, one file table entry, the heap and
    the messages.  Every step of the code is shown to go from one [mk] to
    another. *)

From S2P Require Import Prelude Bitmap Bytes CString Interrupt Thread Sync Ide Layout Inode InodeSpec File.

Open Scope Z_scope.

Section spec.
Context {H : Type} `{HeapLaws H}.

(** ** The partition *)

Definition DS (f : fs H) : Z := data_start_lba (sb (part f)).
Definition BB (f : fs H) : Z := block_bitmap_lba (sb (part f)).
Definition IT (f : fs H) : Z := inode_table_lba (sb (part f)).
Definition BL (f : fs H) : Z := btmp_bytes_len (block_bitmap (part f)).

(** Bitmap, inode table and data lie in this order, inside the disk. *)
Record geom (f : fs H) : Prop := {
  g_len : 0 < BL f /\ BL f mod 512 = 0;
  g_order : 0 <= BB f /\ BB f + BL f / 512 <= IT f /\ IT f + 608 <= DS f;
  g_max : IT f + 608 <= max_lba;
  g_part : IT f + 608 <= start_lba (part f) + sec_cnt (part f) < 4294967296;
  g_small : DS f + 8 * BL f < 2147483648;
  g_bbsec : forall l, BB f <= l < BB f + BL f / 512 -> is_Some (dsk f !! l);
  g_itsec : forall l, IT f <= l < IT f + 608 -> is_Some (dsk f !! l)
}.

Lemma geom_nums f : geom f -> 0 <= BB f /\ 0 < BL f /\ 1 <= BL f / 512 /\ BB f + BL f / 512 <= IT f /\
  IT f + 608 <= DS f /\ 608 < DS f /\ DS f + 8 * BL f < 2147483648 /\ IT f + 608 <= 163839.
Proof.
  intros [[Hp Hm] Ho Hmx Hpt Hsm _ _]. change max_lba with 163839 in Hmx.
  pose proof (Z.div_mod (BL f) 512). lia.
Qed.

(** A sector that can be a data block. *)
Definition usable (f : fs H) (l : Z) : Prop := is_Some (dsk f !! l) /\ DS f < l <= max_lba.

(** Disk and block bitmap while the functions run. *)
Record geo (f : fs H) (d : disk) (b : bitmap) : Prop := {
  ge_disk : disk_wf d;
  ge_dom : dom d = dom (dsk f);
  ge_bits : bitmap_wf b;
  ge_len : btmp_bytes_len b = BL f /\ zlen (bits b) = BL f;
  ge_free : forall k, 0 <= k < 8 * BL f -> bit b k = false -> usable f (DS f + k)
}.

(** Block [l] is marked as taken. *)
Definition taken (f : fs H) (b : bitmap) (l : Z) : Prop :=
  usable f l /\ l < DS f + 8 * BL f /\ bit b (l - DS f) = true.

(** At least [n] free blocks. *)
Definition room (f : fs H) (b : bitmap) (n : nat) : Prop :=
  exists l : list Z, NoDup l /\ (n <= length l)%nat /\
    forall k, k ∈ l -> 0 <= k < 8 * BL f /\ bit b k = false.

(** Sectors other than those of the block bitmap are the same. *)
Definition same_but_bitmap (f : fs H) (d d' : disk) : Prop :=
  forall l, ~ (BB f <= l < BB f + BL f / 512) -> d' !! l = d !! l.

Definition mk (f : fs H) (a idx : Z) (d : disk) (b : bitmap) (i : inode) (e : file) (h : H)
    (lg : list string) : fs H :=
  Fs _ d (set_bbmp b (part f)) (open_inodes f) (<[a := i]> (inodes f)) (dirs f)
    (zupd (file_table f) idx e) (cur f) (fcpu f) h lg.

Lemma mk_self f a idx i e : inodes f !! a = Some i -> znth (file_table f) idx = Some e ->
  f = mk f a idx (dsk f) (block_bitmap (part f)) i e (heap f) (klog f).
Proof.
  intros Hi He. unfold mk. rewrite insert_id by done.
  replace (zupd (file_table f) idx e) with (file_table f).
  2: { unfold zupd, znth in *. destruct (idx <? 0); [done|]. by rewrite list_insert_id. }
  destruct f as [d p oi ii di ft c cp h lg]. simpl. f_equal. by destruct p.
Qed.

Lemma usable_dom f d b l : geo f d b -> usable f l -> is_Some (d !! l).
Proof. intros Hg [Hs _]. apply elem_of_dom. rewrite (ge_dom _ _ _ Hg). by apply elem_of_dom. Qed.

Lemma room_le f b n m : room f b n -> (m <= n)%nat -> room f b m.
Proof. intros (l & ? & ? & ?) Hm. exists l. split_and!; [done|lia|done]. Qed.

Lemma disk_wf_insert d l s : disk_wf d -> zlen s = 512 -> Forall is_byte s -> disk_wf (<[l := s]> d).
Proof. intros Hd Hl Hb. by apply map_Forall_insert_2. Qed.

Lemma geo_write (f : fs H) d b l s : geo f d b -> is_Some (d !! l) -> zlen s = 512 -> Forall is_byte s ->
  geo f (<[l := s]> d) b.
Proof.
  intros [Hd Hdom Hb Hl Hf] Hs Hlen Hby. split; try done; [by apply disk_wf_insert|].
  rewrite dom_insert_L, <- Hdom. apply elem_of_dom in Hs. set_solver.
Qed.

Lemma room_step (f : fs H) b b' k n : room f b (S n) ->
  (forall j, 0 <= j -> bit b' j = if decide (j = k) then true else bit b j) -> room f b' n.
Proof.
  intros (l & Hnd & Hn & Hl) Hb'. exists (filter (λ x, x <> k) l). split_and!.
  - by apply NoDup_filter.
  - clear Hl Hb'. assert (Hle : (length l <= S (length (filter (λ x, x <> k) l)))%nat); [|lia].
    clear Hn. induction Hnd as [|x l Hx Hnd IH]; [simpl; lia|].
    rewrite filter_cons. case_decide as Hd; [simpl; lia|].
    subst x.
    rewrite filter_ne_id by done. simpl. lia.
  - intros x [Hxk Hx]%list_elem_of_filter. destruct (Hl x Hx) as [Hr Hf]. split; [done|].
    rewrite Hb' by lia. by rewrite decide_False.
Qed.

(** *** Steps on [mk] *)

Section steps.
Context (f : fs H) (a idx : Z) (Hidx : 0 <= idx < zlen (file_table f)) (G : geom f).
Implicit Types (d : disk) (b : bitmap) (i : inode) (e : file) (h : H) (lg : list string).

Local Abbreviation ST := (mk f a idx).

Lemma wp_rd_inode d b i e h lg (Q : inode -> fs H -> Prop) :
  Q i (ST d b i e h lg) -> wp (rd_inode a) Q (ST d b i e h lg).
Proof. intros HQ. unfold wp, rd_inode. cbn [inodes mk]. by rewrite lookup_insert_eq. Qed.

Lemma wp_upd_inode g d b i e h lg (Q : unit -> fs H -> Prop) :
  Q tt (ST d b (g i) e h lg) -> wp (upd_inode a g) Q (ST d b i e h lg).
Proof.
  intros HQ. unfold wp, upd_inode. cbn [inodes mk]. rewrite lookup_insert_eq.
  unfold set_inodes, mk in *. cbn. by rewrite insert_insert_eq.
Qed.

Lemma wp_rd_file d b i e h lg (Q : file -> fs H -> Prop) :
  Q e (ST d b i e h lg) -> wp (rd_file idx) Q (ST d b i e h lg).
Proof. intros HQ. unfold wp, rd_file. cbn [file_table mk]. by rewrite znth_upd_eq. Qed.

Lemma wp_upd_file g d b i e h lg (Q : unit -> fs H -> Prop) :
  Q tt (ST d b i (g e) h lg) -> wp (upd_file idx g) Q (ST d b i e h lg).
Proof.
  intros HQ. unfold wp, upd_file. cbn [file_table mk]. rewrite znth_upd_eq by done.
  unfold set_files, mk in *. cbn. by rewrite zupd_zupd.
Qed.

Lemma wp_printk m d b i e h lg (Q : unit -> fs H -> Prop) :
  Q tt (ST d b i e h (lg ++ [m])) -> wp (printk m) Q (ST d b i e h lg).
Proof. done. Qed.

Lemma wp_get_sb d b i e h lg (Q : super_block -> fs H -> Prop) :
  Q (sb (part f)) (ST d b i e h lg) -> wp get_sb Q (ST d b i e h lg).
Proof. done. Qed.

Lemma wp_ide_rd1 d b i e h lg l s (Q : bytes -> fs H -> Prop) :
  d !! l = Some s -> l <= max_lba -> Q s (ST d b i e h lg) -> wp (ide_rd l 1) Q (ST d b i e h lg).
Proof.
  intros Hs Hl HQ. unfold wp, ide_rd, disk_read, ASSERT. cbn [dsk mk].
  rewrite (proj2 (Z.leb_le l max_lba)) by done. rcbn. change (0 <? 1) with true. rcbn.
  change ((1 - 1) / 256 * 256) with 0. rewrite Z.add_0_r, (proj2 (Z.leb_le l max_lba)) by done. rcbn.
  change (Z.to_nat 1) with 1%nat. cbn [sectors]. rewrite Hs. cbn. by rewrite app_nil_r.
Qed.

(** Writing one sector. *)
Lemma wp_ide_wr1 d b i e h lg l buf (Q : unit -> fs H -> Prop) :
  is_Some (d !! l) -> l <= max_lba -> zlen buf = 512 ->
  Q tt (ST (<[l := buf]> d) b i e h lg) -> wp (ide_wr l buf 1) Q (ST d b i e h lg).
Proof.
  intros [s Hs] Hl Hb HQ. unfold wp, ide_wr, disk_write, ASSERT. cbn [dsk mk].
  rewrite (proj2 (Z.leb_le l max_lba)) by done. rcbn. change (0 <? 1) with true. rcbn.
  change ((1 - 1) / 256 * 256) with 0. rewrite Z.add_0_r, (proj2 (Z.leb_le l max_lba)) by done. rcbn.
  change (Z.to_nat 1) with 1%nat. cbn [sectors]. rewrite Hs. cbn [mbind option_bind].
  rewrite (proj2 (Z.ltb_ge (zlen buf) (1 * 512))) by lia. cbn [put_sectors].
  rewrite take_ge by (unfold zlen in Hb; lia). done.
Qed.

(** *** Allocation *)

Lemma alloc_ok d b i e h lg n : geo f d b -> room f b (S n) ->
  wp block_bitmap_alloc (λ r s, exists k b', r = DS f + k /\ 0 <= k < 8 * BL f /\
    bit b k = false /\ (forall j, 0 <= j -> bit b' j = if decide (j = k) then true else bit b j) /\
    geo f d b' /\ room f b' n /\ usable f (DS f + k) /\ s = ST d b' i e h lg) (ST d b i e h lg).
Proof.
  intros Hg Hr. pose proof Hg as [Hd Hdom Hb [Hl Hz] Hfr].
  destruct Hr as ([|x l] & Hnd & Hn & Hin); [simpl in Hn; lia|].
  destruct (Hin x) as [Hx Hxf]; [set_solver|].
  destruct (bitmap_scan_one_ok b x Hb) as (k & Hk & Hkx & Hkf & _); [lia|done|].
  destruct (bitmap_set_ok b k 1) as (b' & Hb' & Hwf' & Hl' & Hz' & Hbit); [done|lia|by right|].
  pose proof (g_small f G) as Hsm. destruct (Hfr k) as [Hus Hu2]; [lia|done|].
  pose proof (g_order f G) as Hord. pose proof (g_len f G) as Hlen0.
  assert (0 <= BL f / 512) by (apply Z.div_pos; lia).
  unfold block_bitmap_alloc. apply wp_bind, wp_gets. apply wp_bind. cbn [part mk block_bitmap set_bbmp].
  eapply wp_lift; [exact Hk|]. rewrite (proj2 (Z.eqb_neq k (-1))) by lia.
  apply wp_bind. unfold set_block_bit. apply wp_bind, wp_gets, wp_bind. cbn [part mk block_bitmap set_bbmp].
  rewrite u32_small by lia. eapply wp_lift; [exact Hb'|]. apply wp_modify, wp_ret.
  change (data_start_lba (sb (set_bbmp b (part f)))) with (DS f).
  rewrite u32_small, s32_small by lia. change (1 =? 1) with true in Hbit.
  exists k, b'. split_and!; try done; try lia.
  - split; try done; [split; congruence|].
    intros j Hj Hjf. apply Hfr; [done|]. rewrite Hbit in Hjf by lia. by case_decide.
  - eapply room_step; [|exact Hbit]. exists (x :: l). done.
Qed.

Lemma bitmap_sector b k : btmp_bytes_len b = BL f -> zlen (bits b) = BL f ->
  0 <= k < 8 * BL f -> 0 <= k / 4096 < BL f / 512 /\ zlen (slice (bits b) (k / 4096 * 512) 512) = 512.
Proof.
  intros Hl Hz Hk. destruct (g_len f G) as [Hp Hm].
  pose proof (Z.div_mod (BL f) 512). pose proof (Z.div_mod k 4096). pose proof (Z.mod_pos_bound k 4096).
  assert (0 <= k / 4096) by (apply Z.div_pos; lia). split; [lia|]. apply slice_length; lia.
Qed.

Lemma sync_block_ok d b i e h lg k : geo f d b -> 0 <= k < 8 * BL f ->
  wp (sync_block (DS f + k)) (λ _ s, exists d', geo f d' b /\ same_but_bitmap f d d' /\
    s = ST d' b i e h lg) (ST d b i e h lg).
Proof.
  intros Hg Hk. pose proof Hg as [Hd Hdom Hb [Hl Hz] Hfr].
  destruct (bitmap_sector b k) as [Hsec Hlen]; [done|done|done|].
  pose proof (geom_nums f G). unfold sync_block. apply wp_bind, wp_get_sb. fold (DS f). rewrite Z.add_simpl_l, u32_small by lia.
  unfold bitmap_sync. apply wp_bind, wp_gets. cbn [part mk set_bbmp sb block_bitmap]. fold (BB f).
  unfold BLOCK_SIZE, SECTOR_SIZE. rewrite u32_small by lia.
  assert (Hs : is_Some (d !! (BB f + k / 4096))).
  { apply elem_of_dom. rewrite Hdom. apply elem_of_dom, (g_bbsec f G). lia. }
  eapply (wp_ide_wr1 d b i e h lg (BB f + k / 4096)); [done|change max_lba with 163839; lia|done|].
  exists (<[BB f + k / 4096 := slice (bits b) (k / 4096 * 512) 512]> d).
  split_and!; [|intros l Hnl; rewrite lookup_insert_ne; [done|lia]|reflexivity].
  apply geo_write; [done|done|done|]. apply slice_bytes, (wf_bytes b Hb).
Qed.
End steps.

(** ** Blocks of a file *)

(** [bl] are the data blocks in order and [tb] the indirect table, 0 if there
    is none. *)
Record ino_blocks (i : inode) (bl : list Z) (tb : Z) : Prop := {
  ib_len : length (i_sectors i) = 13%nat;
  ib_dir : forall k, 0 <= k < 12 -> sector_of i k = default 0 (znth bl k);
  ib_tab : sector_of i 12 = tb
}.

Record blocks_in (f : fs H) (b : bitmap) (bl : list Z) (tb : Z) : Prop := {
  bi_nodup : NoDup bl;
  bi_taken : forall x, x ∈ bl -> taken f b x;
  bi_tab : tb <> 0 -> taken f b tb /\ (tb ∉ bl)
}.

(** The indirect table holds the addresses from block 12 on. *)
Definition table_ok (d : disk) (tb : Z) (bl : list Z) : Prop :=
  12 < zlen bl -> exists s, d !! tb = Some s /\
    forall k, 12 <= k < zlen bl -> znth (to_words s) (k - 12) = znth bl k.

(** The local [all_blocks] agrees with [bl] from entry [m] on. *)
Definition ab_from (m : Z) (ab bl : list Z) : Prop :=
  zlen ab = 140 /\ forall k, m <= k < zlen bl -> znth ab k = znth bl k.

Record grown (f : fs H) (b0 b : bitmap) (bl0 bl : list Z) : Prop := {
  gr_mono : forall k, 0 <= k -> bit b0 k = true -> bit b k = true;
  gr_new : exists new, bl = bl0 ++ new /\ forall x, x ∈ new -> bit b0 (x - DS f) = false
}.

Definition same_meta (i0 i : inode) : Prop :=
  i_no i = i_no i0 /\ i_size i = i_size i0 /\ i_open_cnts i = i_open_cnts i0 /\
  write_deny i = write_deny i0.

Lemma taken_range f b x : taken f b x -> 0 <= x - DS f.
Proof. intros ((_ & ?) & _). lia. Qed.

Lemma taken_mono f b b' x : (forall k, 0 <= k -> bit b k = true -> bit b' k = true) ->
  taken f b x -> taken f b' x.
Proof. intros Hm Ht. pose proof (taken_range f b x Ht). destruct Ht as (? & ? & ?). split_and!; auto. Qed.

Lemma znth_snoc {A} (l : list A) x k : 0 <= k ->
  znth (l ++ [x]) k = if decide (k = zlen l) then Some x else znth l k.
Proof.
  intros Hk. case_decide as Hd.
  - subst k. rewrite znth_app_r by lia. by rewrite Z.sub_diag.
  - destruct (decide (k < zlen l)); [by rewrite znth_app_l by lia|].
    rewrite (proj2 (znth_None l k)) by lia. apply znth_None. rewrite zlen_app. unfold zlen. simpl.
    unfold zlen in *. lia.
Qed.

Section grow.
Context (f : fs H).

(** One more block, at bit [k], which was free. *)
Context (b b' : bitmap) (k : Z) (Hk : 0 <= k < 8 * BL f) (Hfree : bit b k = false)
  (Hb' : forall j, 0 <= j -> bit b' j = if decide (j = k) then true else bit b j)
  (Hus : usable f (DS f + k)).

Local Abbreviation x := (DS f + k).

Lemma set_bit_mono j : 0 <= j -> bit b j = true -> bit b' j = true.
Proof. intros Hj Hb. rewrite Hb' by done. by case_decide. Qed.

Lemma new_taken : taken f b' x.
Proof. split_and!; [done|lia|]. rewrite Hb' by lia. by rewrite decide_True by lia. Qed.

Lemma not_taken y : taken f b y -> y <> x.
Proof.
  intros (_ & _ & Hy) ->. rewrite Z.add_simpl_l in Hy. congruence.
Qed.

Lemma grow_blocks bl tb : blocks_in f b bl tb -> blocks_in f b' (bl ++ [x]) tb.
Proof.
  intros [Hnd Ht Htb]. split.
  - apply NoDup_app. split_and!; [done| |apply NoDup_singleton].
    intros y Hy ->%list_elem_of_singleton. by apply (not_taken x); [apply Ht|].
  - intros y [Hy| ->%list_elem_of_singleton]%elem_of_app; [|apply new_taken].
    apply (taken_mono f b); [apply set_bit_mono|by apply Ht].
  - intros Hne. destruct (Htb Hne) as [Htt Hni]. split; [apply (taken_mono f b); [apply set_bit_mono|done]|].
    rewrite elem_of_app, list_elem_of_singleton. intros [?|E]; [done|]. by apply (not_taken tb).
Qed.

Lemma grow_grown b0 bl0 bl : grown f b0 b bl0 bl -> grown f b0 b' bl0 (bl ++ [x]).
Proof.
  intros [Hm (new & -> & Hn)]. split.
  - intros j Hj Hj0. apply set_bit_mono; auto.
  - exists (new ++ [x]). split; [by rewrite app_assoc|].
    intros y [Hy| ->%list_elem_of_singleton]%elem_of_app; [by apply Hn|]. rewrite Z.add_simpl_l.
    destruct (bit b0 k) eqn:E; [|done]. rewrite (Hm k) in Hfree by (done || lia). done.
Qed.

Lemma grow_ab m ab bl : ab_from m ab bl -> zlen bl < 140 -> ab_from m (zupd ab (zlen bl) x) (bl ++ [x]).
Proof.
  intros [Hl Hab] Hlt. pose proof (zlen_nonneg bl). split; [by rewrite zlen_upd|].
  intros j Hj. rewrite zlen_app in Hj. unfold zlen in Hj at 2. simpl in Hj.
  destruct (decide (j = zlen bl)) as [->|].
  - rewrite znth_upd_eq by lia. rewrite znth_snoc by lia. by rewrite decide_True.
  - rewrite znth_upd_ne by done. destruct (decide (j < 0)).
    { rewrite !(proj2 (znth_None _ j)); [done|by left|by left]. }
    rewrite znth_snoc by lia. rewrite decide_False by done. apply Hab. lia.
Qed.

Lemma grow_ino_direct i bl tb : ino_blocks i bl tb -> zlen bl < 12 ->
  ino_blocks (set_sectors (zupd (i_sectors i) (zlen bl) x) i) (bl ++ [x]) tb.
Proof.
  intros [Hl Hd Ht] Hlt. pose proof (zlen_nonneg bl).
  assert (Hz : zlen (i_sectors i) = 13) by (unfold zlen; lia). split.
  - simpl. pose proof (zlen_upd (i_sectors i) (zlen bl) x) as E. unfold zlen in E at 1 3. lia.
  - intros j Hj. unfold sector_of; simpl. rewrite znth_snoc by lia.
    destruct (decide (j = zlen bl)) as [->|]; [by rewrite znth_upd_eq by lia|].
    rewrite znth_upd_ne by done. by apply Hd.
  - unfold sector_of; simpl. rewrite znth_upd_ne by lia. done.
Qed.

Lemma grow_ino_indirect i bl tb : ino_blocks i bl tb -> 12 <= zlen bl -> ino_blocks i (bl ++ [x]) tb.
Proof.
  intros [Hl Hd Ht] Hlt. split; [done| |done]. intros j Hj. rewrite znth_app_l by lia. by apply Hd.
Qed.
End grow.

(** ** The allocation loops *)

Section alloc.
Context (f : fs H) (a idx : Z) (Hidx : 0 <= idx < zlen (file_table f)) (G : geom f).
Context (d0 : disk) (b0 : bitmap) (i0 : inode) (bl0 : list Z) (tb m will : Z) (e : file) (h : H).
Context (Hwill : will <= 140).

Local Abbreviation ST := (mk f a idx).

(** The state with block list [bl] reached from the start. *)
Record reached (bl ab : list Z) (r : nat) (s : fs H) : Prop := {
  re_state : exists d b i lg, s = ST d b i e h lg /\ geo f d b /\ room f b r /\
    ino_blocks i bl tb /\ blocks_in f b bl tb /\ same_but_bitmap f d0 d /\ same_meta i0 i /\
    grown f b0 b bl0 bl;
  re_ab : ab_from m ab bl
}.

Definition AInv (r n : nat) (l : Z * list Z) (s : fs H) : Prop :=
  exists bl, reached bl l.2 (n + r) s /\ l.1 = zlen bl /\ Z.of_nat n = will - zlen bl.
Definition APost (r : nat) (x : option (list Z)) (s : fs H) : Prop :=
  exists bl ab, x = Some ab /\ reached bl ab r s /\ zlen bl = will.
Definition next (r n : nat) (x : Z * list Z + option (list Z)) (s : fs H) : Prop :=
  match x with inl l => exists n', (n' < n)%nat /\ AInv r n' l s | inr y => APost r y s end.

(** The step all loops share: the new block has its bit set and written back,
    and the inode is updated by [g]. *)
Lemma grow_reached bl ab r d b i lg k b' d' g :
  geo f d b -> ino_blocks i bl tb -> blocks_in f b bl tb -> same_but_bitmap f d0 d -> same_meta i0 i ->
  grown f b0 b bl0 bl -> ab_from m ab bl -> zlen bl < will ->
  0 <= k < 8 * BL f -> bit b k = false ->
  (forall j, 0 <= j -> bit b' j = if decide (j = k) then true else bit b j) ->
  usable f (DS f + k) -> geo f d' b' -> room f b' r -> same_but_bitmap f d d' ->
  same_meta i (g i) -> ino_blocks (g i) (bl ++ [DS f + k]) tb ->
  reached (bl ++ [DS f + k]) (zupd ab (zlen bl) (DS f + k)) r (ST d' b' (g i) e h lg).
Proof.
  intros Hg Hi Hbi Hsd Hsm Hgr Hab Hlt Hk Hfree Hb' Hus Hg' Hr' Hsd' Hsm' Hi'. split.
  - exists d', b', (g i), lg. split_and!; try done.
    + by eapply grow_blocks.
    + intros l Hl. by rewrite Hsd', Hsd.
    + destruct Hsm as (? & ? & ? & ?), Hsm' as (? & ? & ? & ?). split_and!; congruence.
    + by eapply grow_grown.
  - apply grow_ab; [done|lia].
Qed.

Lemma addr_facts k : 0 <= k < 8 * BL f -> (DS f + k =? -1) = false /\ u32 (DS f + k) = DS f + k.
Proof.
  intros Hk. pose proof (geom_nums f G). split; [apply Z.eqb_neq; lia|apply u32_small; lia].
Qed.

Lemma next_inl r n bl ab k s : Z.of_nat n = will - zlen bl -> zlen bl < will ->
  reached (bl ++ [DS f + k]) (zupd ab (zlen bl) (DS f + k)) (pred n + r) s ->
  next r n (inl (zlen bl + 1, zupd ab (zlen bl) (DS f + k))) s.
Proof.
  intros Hn Hlt Hre. exists (pred n). split; [lia|]. exists (bl ++ [DS f + k]). split; [done|].
  rewrite zlen_app. change (zlen [DS f + k]) with 1. split; [done|lia].
Qed.

Lemma direct_round r n l s : will <= 12 -> AInv r n l s -> wp (alloc_direct a will l) (next r n) s.
Proof.
  intros H12 (bl & [(d & b & i & lg & -> & Hg & Hr & Hi & Hbi & Hsd & Hsm & Hgr) Hab] & Hl1 & Hn).
  destruct l as [bi ab]. simpl in Hl1, Hab. subst bi. unfold alloc_direct.
  destruct (Z.ltb_spec (zlen bl) will) as [Hlt|Hge].
  2: { apply wp_ret. exists bl, ab. split_and!; [done| |lia]. replace n with 0%nat in Hr by lia.
       split; [|done]. exists d, b, i, lg. by split_and!. }
  destruct n as [|n]; [lia|].
  apply wp_bind. eapply wp_mono; [by apply (alloc_ok f a idx Hidx G d b i e h lg (n + r))|].
  intros x s (k & b' & -> & Hk & Hfree & Hb' & Hg' & Hr' & Hus & ->).
  destruct (addr_facts k Hk) as [-> ->].
  apply wp_bind, wp_rd_inode. apply wp_bind, wp_assert.
  { apply Z.eqb_eq. pose proof (zlen_nonneg bl). rewrite (ib_dir _ _ _ Hi) by lia.
    by rewrite (proj2 (znth_None bl (zlen bl))) by lia. }
  apply wp_bind. unfold set_sector. apply wp_upd_inode.
  apply wp_bind. eapply wp_mono; [by apply (sync_block_ok f a idx G)|].
  intros _ s (d' & Hg2 & Hsd2 & ->). apply wp_ret, next_inl; [done|done|].
  eapply (grow_reached bl ab (n + r) d b i lg k b' d' (λ i, set_sectors (zupd (i_sectors i) (zlen bl) (DS f + k)) i)); try done.
  apply grow_ino_direct; [done|lia].
Qed.

Lemma mixed_round r n l s : AInv r n l s -> wp (alloc_mixed a will l) (next r n) s.
Proof.
  intros (bl & [(d & b & i & lg & -> & Hg & Hr & Hi & Hbi & Hsd & Hsm & Hgr) Hab] & Hl1 & Hn).
  destruct l as [bi ab]. simpl in Hl1, Hab. subst bi. unfold alloc_mixed.
  destruct (Z.ltb_spec (zlen bl) will) as [Hlt|Hge].
  2: { apply wp_ret. exists bl, ab. split_and!; [done| |lia]. replace n with 0%nat in Hr by lia.
       split; [|done]. exists d, b, i, lg. by split_and!. }
  destruct n as [|n]; [lia|].
  apply wp_bind. eapply wp_mono; [by apply (alloc_ok f a idx Hidx G d b i e h lg (n + r))|].
  intros x s (k & b' & -> & Hk & Hfree & Hb' & Hg' & Hr' & Hus & ->).
  destruct (addr_facts k Hk) as [-> ->]. apply wp_bind.
  destruct (Z.ltb_spec (zlen bl) 12) as [Hd|Hd].
  - apply wp_bind, wp_rd_inode. apply wp_bind, wp_assert.
    { apply Z.eqb_eq. pose proof (zlen_nonneg bl). rewrite (ib_dir _ _ _ Hi) by lia.
      by rewrite (proj2 (znth_None bl (zlen bl))) by lia. }
    unfold set_sector. apply wp_upd_inode.
    apply wp_bind. eapply wp_mono; [by apply (sync_block_ok f a idx G)|].
    intros _ s (d' & Hg2 & Hsd2 & ->). apply wp_ret, next_inl; [done|done|].
    eapply (grow_reached bl ab (n + r) d b i lg k b' d' (λ i, set_sectors (zupd (i_sectors i) (zlen bl) (DS f + k)) i)); try done.
    apply grow_ino_direct; [done|lia].
  - apply wp_ret, wp_bind. eapply wp_mono; [by apply (sync_block_ok f a idx G)|].
    intros _ s (d' & Hg2 & Hsd2 & ->). apply wp_ret, next_inl; [done|done|].
    eapply (grow_reached bl ab (n + r) d b i lg k b' d' (λ i, i)); try done.
    apply grow_ino_indirect; [done|lia].
Qed.

Lemma indirect_round r n l s : 12 <= l.1 -> AInv r n l s ->
  wp (alloc_indirect will l) (λ x s, next r n x s /\ match x with inl l' => l'.1 = l.1 + 1 | _ => True end) s.
Proof.
  intros H12 (bl & [(d & b & i & lg & -> & Hg & Hr & Hi & Hbi & Hsd & Hsm & Hgr) Hab] & Hl1 & Hn).
  destruct l as [bi ab]. simpl in Hl1, Hab, H12. subst bi. unfold alloc_indirect.
  destruct (Z.ltb_spec (zlen bl) will) as [Hlt|Hge].
  2: { apply wp_ret. split; [|done]. exists bl, ab. split_and!; [done| |lia]. replace n with 0%nat in Hr by lia.
       split; [|done]. exists d, b, i, lg. by split_and!. }
  destruct n as [|n]; [lia|].
  apply wp_bind. eapply wp_mono; [by apply (alloc_ok f a idx Hidx G d b i e h lg (n + r))|].
  intros x s (k & b' & -> & Hk & Hfree & Hb' & Hg' & Hr' & Hus & ->).
  destruct (addr_facts k Hk) as [-> ->].
  apply wp_bind. eapply wp_mono; [by apply (sync_block_ok f a idx G)|].
  intros _ s (d' & Hg2 & Hsd2 & ->). apply wp_ret. split; [|done]. apply next_inl; [done|done|].
  eapply (grow_reached bl ab (n + r) d b i lg k b' d' (λ i, i)); try done.
  apply grow_ino_indirect; [done|lia].
Qed.

Lemma loop_direct r n l s : will <= 12 -> AInv r n l s -> (n < 141)%nat ->
  wp (loop 141 (alloc_direct a will) l) (APost r) s.
Proof.
  intros H12 HI Hn. apply (wp_loop (AInv r) (alloc_direct a will) (APost r)) with (n := n); [|done|done].
  intros n' l' s' HI'. eapply wp_mono; [by apply (direct_round r n')|]. by intros [l2|y] s2.
Qed.

Lemma loop_mixed r n l s : AInv r n l s -> (n < 141)%nat ->
  wp (loop 141 (alloc_mixed a will) l) (APost r) s.
Proof.
  intros HI Hn. apply (wp_loop (AInv r) (alloc_mixed a will) (APost r)) with (n := n); [|done|done].
  intros n' l' s' HI'. eapply wp_mono; [by apply (mixed_round r n')|]. by intros [l2|y] s2.
Qed.

Lemma loop_indirect r n l s : 12 <= l.1 -> AInv r n l s -> (n < 141)%nat ->
  wp (loop 141 (alloc_indirect will) l) (APost r) s.
Proof.
  intros H12 HI Hn.
  apply (wp_loop (λ n l s, 12 <= l.1 /\ AInv r n l s) (alloc_indirect will) (APost r)) with (n := n); [|done|done].
  intros n' l' s' [Hl' HI']. eapply wp_mono; [by apply (indirect_round r n')|].
  intros [l2|y] s2 [Hx Hy]; [|done]. destruct Hx as (n2 & ? & ?). exists n2. split_and!; [done|lia|done].
Qed.
End alloc.

(** ** [collect_blocks] *)

Lemma znth_default {A} (l : list A) x k : 0 <= k < zlen l -> Some (default x (znth l k)) = znth l k.
Proof. intros Hk. destruct (znth_is_Some l k Hk) as [y ->]. done. Qed.

Lemma all_blocks_0_len : zlen all_blocks_0 = 140.
Proof. reflexivity. Qed.

(** A file's blocks, with the table when they go beyond the direct ones. *)
Record file_blocks (f : fs H) (d : disk) (b : bitmap) (i : inode) (bl : list Z) (tb : Z) : Prop := {
  fb_ino : ino_blocks i bl tb;
  fb_in : blocks_in f b bl tb;
  fb_tab : table_ok d tb bl;
  fb_has : tb <> 0 <-> 12 < zlen bl
}.

Lemma grown_refl f b bl : grown f b b bl bl.
Proof. split; [done|]. exists []. rewrite app_nil_r. split; [done|set_solver]. Qed.

Section collect.
Context (f : fs H) (G : geom f).

Lemma taken_pos b x : taken f b x -> 608 < x <= max_lba /\ x < 2147483648 /\ is_Some (dsk f !! x).
Proof. intros ((? & ?) & ? & _). pose proof (geom_nums f G). split_and!; try done; lia. Qed.

Lemma taken_sector d b x : geo f d b -> taken f b x -> is_Some (d !! x).
Proof. intros Hg [Hu _]. by apply (usable_dom f d b). Qed.

Context (a idx : Z) (Hidx : 0 <= idx < zlen (file_table f)).
Local Abbreviation ST := (mk f a idx).

(** The table as [read_table] brings it in. *)
Lemma read_table_ok d b i e h lg bl tb : geo f d b -> blocks_in f b bl tb -> table_ok d tb bl ->
  tb <> 0 -> 12 < zlen bl -> zlen bl <= 140 ->
  wp (read_table tb all_blocks_0) (λ ab s, ab_from 12 ab bl /\ s = ST d b i e h lg) (ST d b i e h lg).
Proof.
  intros Hg Hbi Htab Htb Hl Hle. destruct (bi_tab _ _ _ _ Hbi Htb) as [Ht _].
  destruct (taken_pos b tb Ht) as (Hpos & _ & _).
  destruct (Htab Hl) as (s & Hs & Hw). destruct (ge_disk _ _ _ Hg _ _ Hs) as [Hlen _].
  unfold read_table. apply wp_bind, (wp_ide_rd1 f a idx d b i e h lg tb s); [done|lia|]. apply wp_ret.
  split; [|done]. assert (Hz : zlen (to_words s) = 128).
  { unfold zlen in *. rewrite (to_words_length 128); lia. }
  assert (H12 : zlen (take 12 all_blocks_0) = 12) by reflexivity.
  split; [by rewrite zlen_app, Hz|].
  intros k Hk. rewrite znth_app_r by lia. rewrite H12. by apply Hw.
Qed.

Lemma write_table_ok d b i e h lg ab bl tb m : geo f d b -> taken f b tb -> ab_from m ab bl -> m <= 12 ->
  (forall x, x ∈ bl -> taken f b x) -> zlen bl <= 140 ->
  wp (write_table tb ab) (λ _ s, exists d', s = ST d' b i e h lg /\ geo f d' b /\ table_ok d' tb bl /\
    forall l, l <> tb -> d' !! l = d !! l) (ST d b i e h lg).
Proof.
  intros Hg Ht [Hab Habk] Hm Hbl Hle. destruct (taken_pos b tb Ht) as (Hpos & _ & _).
  set (buf := of_words (drop 12 ab)).
  assert (Hbuf : zlen buf = 512).
  { unfold zlen in *. unfold buf. rewrite of_words_length, length_drop. lia. }
  unfold write_table. apply (wp_ide_wr1 f a idx d b i e h lg tb buf); [by eapply taken_sector|lia|done|].
  exists (<[tb := buf]> d). split_and!; [done| | |].
  - apply geo_write; [done|by eapply taken_sector|done|apply of_words_bytes].
  - intros _. exists buf. rewrite lookup_insert_eq. split; [done|]. intros k Hk.
    unfold buf. rewrite to_words_u32.
    assert (Hx : znth (drop 12 ab) (k - 12) = znth bl k).
    { rewrite <- Habk by lia. unfold znth. destruct (Z.ltb_spec (k - 12) 0), (Z.ltb_spec k 0); try lia.
      rewrite lookup_drop. f_equal. lia. }
    destruct (znth_is_Some bl k) as [x Hk']; [lia|]. rewrite Hk' in Hx. rewrite Hk'.
    unfold znth in *. destruct (Z.ltb_spec (k - 12) 0); [lia|]. rewrite list_lookup_fmap, Hx. simpl.
    f_equal. apply u32_small.
    assert (Hin : x ∈ bl) by (destruct (k <? 0); [done|]; by eapply list_elem_of_lookup_2).
    destruct (taken_pos b x (Hbl x Hin)) as (? & ? & _). lia.
  - intros l Hl. by rewrite lookup_insert_ne.
Qed.

(** What [collect_blocks] gives: a longer block list and a table of addresses
    that is right from the last old block on. *)
Definition collected (d : disk) (b : bitmap) (i : inode) (bl : list Z) (tb has will : Z) (e : file) (h : H)
    (x : option (list Z)) (s : fs H) : Prop :=
  exists ab bl' tb' d' b' i' lg', x = Some ab /\ s = ST d' b' i' e h lg' /\ geo f d' b' /\
    file_blocks f d' b' i' bl' tb' /\ zlen bl' = will /\ ab_from (has - 1) ab bl' /\
    same_meta i i' /\ grown f b b' bl bl' /\
    (tb' = tb \/ tb = 0 /\ bit b (tb' - DS f) = false) /\
    (forall l, ~ (BB f <= l < BB f + BL f / 512) -> l <> tb' -> d' !! l = d !! l).

Lemma last_block_ab i bl tb : ino_blocks i bl tb -> 1 <= zlen bl <= 12 ->
  ab_from (zlen bl - 1) (zupd all_blocks_0 (zlen bl - 1) (sector_of i (zlen bl - 1))) bl.
Proof.
  intros Hi Hb. split; [by rewrite zlen_upd|]. intros k Hk. replace k with (zlen bl - 1) by lia.
  rewrite znth_upd_eq by (rewrite all_blocks_0_len; lia). rewrite (ib_dir _ _ _ Hi) by lia.
  apply znth_default. lia.
Qed.

Lemma last_block_nz b i bl tb : ino_blocks i bl tb -> blocks_in f b bl tb -> 1 <= zlen bl <= 12 ->
  sector_of i (zlen bl - 1) <> 0.
Proof.
  intros Hi Hbi Hb. rewrite (ib_dir _ _ _ Hi) by lia.
  destruct (znth_is_Some bl (zlen bl - 1)) as [x Hx]; [lia|]. rewrite Hx. simpl.
  assert (Hin : x ∈ bl).
  { unfold znth in Hx. destruct (_ <? 0); [done|]. by eapply list_elem_of_lookup_2. }
  destruct (taken_pos b x (bi_taken _ _ _ _ Hbi x Hin)) as (? & _ & _). lia.
Qed.

(** From the end of an allocation loop to [collected], without a table. *)
Lemma collected_direct d b i bl tb has will e h r x s : file_blocks f d b i bl tb -> tb = 0 ->
  will <= 12 -> has = zlen bl ->
  APost f a idx d b i bl tb (has - 1) will e h r x s -> collected d b i bl tb has will e h x s.
Proof.
  intros Hfb -> H12 -> (bl' & ab & -> & [(d' & b' & i' & lg' & -> & Hg & Hr & Hi & Hbi & Hsd & Hsm & Hgr) Hab] & Hlen).
  exists ab, bl', 0, d', b', i', lg'. split_and!; try done.
  - split; [done|done| |split; [done|lia]]. intros Hx. lia.
  - by left.
  - intros l Hl _. by apply Hsd.
Qed.

(** With a table: it is written back at the end. *)
Lemma collected_table d b i bl tb0 tb has will e h r m x s i1 b1 :
  tb <> 0 -> 12 < will <= 140 -> has = zlen bl -> m <= 12 -> m <= has - 1 ->
  same_meta i i1 -> (tb = tb0 /\ b1 = b \/ tb0 = 0 /\ bit b (tb - DS f) = false /\
    forall j, 0 <= j -> bit b1 j = if decide (j = tb - DS f) then true else bit b j) ->
  APost f a idx d b1 i1 bl tb m will e h r x s ->
  wp (match x with None => mret None | Some ab => write_table tb ab;; mret (Some ab) end)
     (collected d b i bl tb0 has will e h) s.
Proof.
  intros Htb Hw -> Hm Hm' Hsm1 Hb1
    (bl' & ab & -> & [(d' & b' & i' & lg' & -> & Hg & Hr & Hi & Hbi & Hsd & Hsm & Hgr) Hab] & Hlen).
  destruct (bi_tab _ _ _ _ Hbi Htb) as [Ht Hni].
  apply wp_bind. eapply wp_mono.
  { apply (write_table_ok d' b' i' e h lg' ab bl' tb m); try done; [apply (bi_taken _ _ _ _ Hbi)|lia]. }
  intros _ s (d2 & -> & Hg2 & Htab & Hoth). apply wp_ret.
  exists ab, bl', tb, d2, b', i', lg'. split_and!; try done.
  - split; [done|done|done|split; [lia|done]].
  - destruct Hab as [Hl Hab]. split; [done|]. intros k Hk. apply Hab. lia.
  - destruct Hsm1 as (? & ? & ? & ?), Hsm as (? & ? & ? & ?). split_and!; congruence.
  - destruct Hb1 as [[-> ->]|(-> & Hfr & Hb1)]; [done|]. destruct Hgr as [Hmo (new & -> & Hnew)]. split.
    + intros k Hk Hbk. apply Hmo; [done|]. rewrite Hb1 by done. by case_decide.
    + exists new. split; [done|]. intros x Hx.
      assert (Hx1 : taken f b' x) by (apply (bi_taken _ _ _ _ Hbi); set_solver).
      pose proof (taken_range f b' x Hx1). specialize (Hnew x Hx). rewrite Hb1 in Hnew by done.
      by case_decide.
  - destruct Hb1 as [[-> _]|(-> & ? & _)]; [by left|by right].
  - intros l Hl Hne. rewrite Hoth by done. by apply Hsd.
Qed.

Lemma collect_blocks_ok d b i e h lg bl tb has will : geo f d b -> file_blocks f d b i bl tb ->
  has = zlen bl -> 1 <= has <= will -> will <= 140 -> room f b (S (Z.to_nat (will - has))) ->
  wp (collect_blocks a has will) (collected d b i bl tb has will e h) (ST d b i e h lg).
Proof.
  intros Hg Hfb -> Hh Hw Hr. pose proof Hfb as [Hi Hbi Htab Hhas].
  unfold collect_blocks. apply wp_bind, wp_rd_inode. rewrite u32_small by lia.
  assert (Hinv : forall b1 i1 tb1 m ab r, geo f d b1 -> room f b1 (Z.to_nat (will - zlen bl) + r) ->
    ino_blocks i1 bl tb1 -> blocks_in f b1 bl tb1 -> ab_from m ab bl ->
    AInv f a idx d b1 i1 bl tb1 m will e h r (Z.to_nat (will - zlen bl)) (zlen bl, ab) (ST d b1 i1 e h lg)).
  { intros b1 i1 tb1 m ab r Hg1 Hr1 Hi1 Hbi1 Hab1. exists bl. split_and!; [|done|lia].
    split; [|done]. exists d, b1, i1, lg. split_and!; try done. apply grown_refl. }
  destruct (Z.eqb_spec (will - zlen bl) 0) as [E0|E0].
  - (* the last block has room for everything *)
    assert (Hdone : forall ab, ab_from (zlen bl - 1) ab bl ->
      collected d b i bl tb (zlen bl) will e h (Some ab) (ST d b i e h lg)).
    { intros ab Hab. exists ab, bl, tb, d, b, i, lg. split_and!; try done; [lia|apply grown_refl|by left]. }
    destruct (Z.leb_spec (zlen bl) 12) as [H12|H12].
    + apply wp_ret, Hdone, (last_block_ab i bl tb); [done|lia].
    + assert (Htb : tb <> 0) by (apply Hhas; lia). rewrite (ib_tab _ _ _ Hi).
      apply wp_bind, wp_assert; [by apply negb_true_iff, Z.eqb_neq|]. apply wp_bind.
      eapply wp_mono; [by apply (read_table_ok d b i e h lg bl tb); try lia|].
      intros ab s [[Hl Hab] ->]. apply wp_ret, Hdone. split; [done|]. intros k Hk. apply Hab. lia.
  - destruct (Z.leb_spec will 12) as [H12|H12].
    + assert (tb = 0) as -> by (destruct (decide (tb = 0)); [done|]; exfalso; apply Hhas in n; lia).
      apply wp_bind, wp_assert.
      { apply negb_true_iff, Z.eqb_neq. eapply (last_block_nz b); try done. lia. }
      eapply wp_mono.
      { apply (loop_direct f a idx Hidx G d b i bl 0 (zlen bl - 1) will e h Hw 1
                 (Z.to_nat (will - zlen bl))); [done| |lia].
        apply Hinv; try done; [|apply (last_block_ab i bl 0); [done|lia]].
        eapply room_le; [done|lia]. }
      intros x s Hp. by apply (collected_direct d b i bl 0 (zlen bl) will e h 1).
    + destruct (Z.leb_spec (zlen bl) 12) as [Hh12|Hh12].
      * assert (tb = 0) as -> by (destruct (decide (tb = 0)); [done|]; exfalso; apply Hhas in n; lia).
        rewrite (proj2 (Z.ltb_lt 12 will)) by done. cbn [andb].
        apply wp_bind. eapply wp_mono.
        { apply (alloc_ok f a idx Hidx G d b i e h lg (Z.to_nat (will - zlen bl))); [done|done]. }
        intros x s (k & b' & -> & Hk & Hfree & Hb' & Hg' & Hr' & Hus & ->).
        destruct (addr_facts f G k Hk) as [-> ->].
        apply wp_bind, wp_rd_inode. rewrite (ib_tab _ _ _ Hi).
        apply wp_bind, wp_assert; [done|]. apply wp_bind. unfold set_sector. apply wp_upd_inode.
        set (i1 := set_sectors _ i). assert (Htk : taken f b' (DS f + k)) by (by apply (new_taken f b b' k)).
        assert (Hi1 : ino_blocks i1 bl (DS f + k)).
        { pose proof Hi as [Hl Hd Ht]. assert (Hz : zlen (i_sectors i) = 13) by (unfold zlen; lia).
          split.
          - simpl. pose proof (zlen_upd (i_sectors i) 12 (DS f + k)) as E. unfold zlen in E. lia.
          - intros j Hj. unfold sector_of, i1; simpl. rewrite znth_upd_ne by lia. by apply Hd.
          - unfold sector_of, i1; simpl. rewrite znth_upd_eq by lia. done. }
        assert (Hbi1 : blocks_in f b' bl (DS f + k)).
        { pose proof Hbi as [Hnd Ht _]. split; [done| |].
          - intros y Hy. apply (taken_mono f b); [by apply (set_bit_mono b b' k)|by apply Ht].
          - intros _. split; [done|]. intros Hin. by apply (not_taken f b k Hfree (DS f + k)); [apply Ht|]. }
        assert (Hne : DS f + k <> 0) by (pose proof (geom_nums f G); lia).
        apply wp_bind. eapply wp_mono.
        { apply (loop_mixed f a idx Hidx G d b' i1 bl (DS f + k) (zlen bl - 1) will e h Hw 0
                   (Z.to_nat (will - zlen bl))); [|lia].
          apply Hinv; try done; [|apply (last_block_ab i bl 0); [done|lia]].
          by rewrite Nat.add_0_r. }
        intros x s Hp.
        apply (collected_table d b i bl 0 (DS f + k) (zlen bl) will e h 0 (zlen bl - 1) x s i1 b');
          try done; try lia.
        right. split_and!; [done|by rewrite Z.add_simpl_l|]. rewrite Z.add_simpl_l. done.
      * assert (Htb : tb <> 0) by (apply Hhas; lia). cbn [andb]. rewrite (ib_tab _ _ _ Hi).
        apply wp_bind, wp_assert; [by apply negb_true_iff, Z.eqb_neq|]. apply wp_bind.
        eapply wp_mono; [by apply (read_table_ok d b i e h lg bl tb); try lia|].
        intros ab s [Hab ->]. apply wp_bind. eapply wp_mono.
        { apply (loop_indirect f a idx Hidx G d b i bl tb 12 will e h Hw 1
                   (Z.to_nat (will - zlen bl))); [simpl; lia| |lia].
          apply Hinv; try done. eapply room_le; [done|lia]. }
        intros x s Hp.
        apply (collected_table d b i bl tb tb (zlen bl) will e h 1 12 x s i b); try done; try lia.
        by left.
Qed.
End collect.

(** ** Contents *)

(** Byte [j] of the file whose blocks are [bl]. *)
Definition cbyte (d : disk) (bl : list Z) (j : Z) : option Z :=
  znth bl (j / 512) ≫= λ l, d !! l ≫= λ s, znth s (j mod 512).

Definition holds (d : disk) (bl c : list Z) : Prop :=
  forall j, 0 <= j < zlen c -> cbyte d bl j = znth c j.

Lemma holds_frame d d' bl c : (forall l, l ∈ bl -> d' !! l = d !! l) -> holds d bl c -> holds d' bl c.
Proof.
  intros Hf Hh j Hj. rewrite <- Hh by done. unfold cbyte.
  destruct (znth bl (j / 512)) as [l|] eqn:E; [|done]. simpl. rewrite Hf; [done|].
  unfold znth in E. destruct (_ <? 0); [done|]. by eapply list_elem_of_lookup_2.
Qed.

Lemma holds_grow d bl new c : zlen c <= 512 * zlen bl -> holds d bl c -> holds d (bl ++ new) c.
Proof.
  intros Hl Hh j Hj. rewrite <- Hh by done. unfold cbyte. rewrite znth_app_l; [done|].
  apply Z.div_lt_upper_bound; lia.
Qed.

Lemma u32_add x y : u32 (u32 x + y) = u32 (x + y).
Proof. unfold u32. rewrite Zplus_mod_idemp_l. done. Qed.

Lemma znth_elem {A} (l : list A) k x : znth l k = Some x -> x ∈ l.
Proof. unfold znth. destruct (_ <? 0); [done|]. apply list_elem_of_lookup_2. Qed.

Lemma znth_inj (l : list Z) j k x : NoDup l -> znth l j = Some x -> znth l k = Some x -> j = k.
Proof.
  unfold znth. intros Hnd. destruct (Z.ltb_spec j 0), (Z.ltb_spec k 0); try done.
  intros Hj1 Hk1. pose proof (NoDup_lookup l _ _ x Hnd Hj1 Hk1). lia.
Qed.

Lemma znth_drop {A} (l : list A) w j : 0 <= w -> 0 <= j -> znth (drop (Z.to_nat w) l) j = znth l (w + j).
Proof.
  intros Hw Hj. unfold znth. destruct (Z.ltb_spec j 0), (Z.ltb_spec (w + j) 0); try lia.
  rewrite lookup_drop. f_equal. lia.
Qed.

Lemma znth_take {A} (l : list A) w j : j < w -> znth (take (Z.to_nat w) l) j = znth l j.
Proof.
  intros Hj. unfold znth. destruct (Z.ltb_spec j 0); [done|]. apply lookup_take_lt. lia.
Qed.

Lemma zlen_take {A} (l : list A) w : 0 <= w <= zlen l -> zlen (take (Z.to_nat w) l) = w.
Proof. unfold zlen. intros. rewrite length_take. lia. Qed.

Lemma zlen_drop {A} (l : list A) w : 0 <= w <= zlen l -> zlen (drop (Z.to_nat w) l) = zlen l - w.
Proof. unfold zlen. intros. rewrite length_drop. lia. Qed.

(** Storing [src] at the end [sz] of the contents, inside one block. *)
Lemma holds_append d bl c lba io src : NoDup bl ->
  znth bl (zlen c / 512) = Some lba -> zlen io = 512 -> zlen c mod 512 + zlen src <= 512 -> 0 < zlen src ->
  (zlen c mod 512 = 0 \/ d !! lba = Some io) -> holds d bl c ->
  holds (<[lba := splice io (zlen c mod 512) src]> d) bl (c ++ src).
Proof.
  intros Hnd Hlba Hio Hfit Hsrc Hfirst Hh j Hj. rewrite zlen_app in Hj.
  pose proof (Z.div_mod j 512 ltac:(lia)) as Ej. pose proof (Z.mod_pos_bound j 512 ltac:(lia)).
  pose proof (Z.div_mod (zlen c) 512 ltac:(lia)) as Ec. pose proof (Z.mod_pos_bound (zlen c) 512 ltac:(lia)).
  destruct (decide (j < zlen c)) as [Hlt|Hge].
  - rewrite znth_app_l by done. rewrite <- Hh by lia. unfold cbyte.
    destruct (znth bl (j / 512)) as [l|] eqn:El; [simpl|done].
    destruct (decide (l = lba)) as [->|Hne]; [|by rewrite lookup_insert_ne].
    pose proof (znth_inj _ _ _ _ Hnd El Hlba) as Eq.
    destruct Hfirst as [Hz0|Hs]; [lia|]. rewrite lookup_insert_eq, Hs. simpl.
    rewrite znth_splice by lia. rewrite decide_False by lia. done.
  - rewrite znth_app_r by lia. unfold cbyte.
    assert (Eq : j / 512 = zlen c / 512) by lia. rewrite Eq, Hlba. simpl.
    rewrite lookup_insert_eq. simpl. rewrite znth_splice by lia. rewrite decide_True by lia.
    f_equal. lia.
Qed.

Section write.
Context (f : fs H) (a idx : Z) (Hidx : 0 <= idx < zlen (file_table f)) (G : geom f).
Local Abbreviation ST := (mk f a idx).

(** The loop that writes the data: from contents [c] to [c ++ buf]. *)
Lemma write_loop_ok d0 b i0 e0 h lg0 ab bl tb c buf m : geo f d0 b -> blocks_in f b bl tb ->
  i_size i0 = zlen c -> Forall is_byte buf -> zlen c + zlen buf < 71680 ->
  zlen bl = (zlen c + zlen buf) / 512 + 1 -> m <= zlen c / 512 -> ab_from m ab bl -> holds d0 bl c ->
  wp (loop (S (Z.to_nat (zlen buf))) (write_chunk idx a (zlen buf) ab) (buf, 0, true))
     (λ r s, r = zlen buf /\ exists d lg, s = ST d b (set_isize (zlen c + zlen buf) i0)
        (set_fd_pos (u32 (fd_pos e0 + zlen buf)) e0) h lg /\ geo f d b /\ holds d bl (c ++ buf) /\
        (forall l, l ∉ bl -> d !! l = d0 !! l))
     (ST d0 b i0 (set_fd_pos (u32 (fd_pos e0)) e0) h lg0).
Proof.
  intros Hg0 Hbi Hsz Hbytes Htot Hbl Hm Hab Hh0. pose proof (zlen_nonneg c). pose proof (zlen_nonneg buf).
  set (I := λ (n : nat) (l : bytes * Z * bool) (s : fs H), let '(src, w, first) := l in
    n = Z.to_nat (zlen buf - w) /\ 0 <= w <= zlen buf /\ src = drop (Z.to_nat w) buf /\
    (w = 0 \/ (zlen c + w) mod 512 = 0 \/ w = zlen buf) /\ (first = true -> w = 0) /\
    (first = false -> w = 0 -> False) /\
    exists d lg, s = ST d b (set_isize (zlen c + w) i0) (set_fd_pos (u32 (fd_pos e0 + w)) e0) h lg /\
      geo f d b /\ holds d bl (c ++ take (Z.to_nat w) buf) /\ (forall l, l ∉ bl -> d !! l = d0 !! l)).
  set (Q := λ (r : Z) (s : fs H), r = zlen buf /\ exists d lg, s = ST d b (set_isize (zlen c + zlen buf) i0)
        (set_fd_pos (u32 (fd_pos e0 + zlen buf)) e0) h lg /\ geo f d b /\ holds d bl (c ++ buf) /\
        (forall l, l ∉ bl -> d !! l = d0 !! l)).
  assert (Hbody : forall n l s, I n l s -> wp (write_chunk idx a (zlen buf) ab l)
    (λ x s', match x with inl l' => exists n', (n' < n)%nat /\ I n' l' s' | inr r => Q r s' end) s).
  { intros n [[src w] first] s (-> & Hw & -> & Hmod & Hf1 & Hf2 & d & lg & -> & Hg & Hh & Hoth).
    unfold write_chunk. destruct (Z.ltb_spec w (zlen buf)) as [Hlt|Hge].
    2: { apply wp_ret. replace w with (zlen buf) in * by lia. split; [done|].
         exists d, lg. split_and!; try done. by rewrite take_ge in Hh by (unfold zlen; lia). }
    apply wp_bind, wp_rd_inode. unfold BLOCK_SIZE, SECTOR_SIZE. cbn [i_size set_isize].
    set (sz := zlen c + w) in *.
    set (off := sz mod 512). pose proof (Z.mod_pos_bound sz 512 ltac:(lia)) as Hoff. fold off in Hoff.
    set (chunk := if zlen buf - w <? 512 - off then zlen buf - w else 512 - off).
    assert (Hchunk : 0 < chunk /\ chunk <= zlen buf - w /\ off + chunk <= 512 /\
      (chunk = zlen buf - w \/ off + chunk = 512)).
    { unfold chunk. destruct (Z.ltb_spec (zlen buf - w) (512 - off)); lia. }
    clearbody chunk. destruct Hchunk as (Hc1 & Hc2 & Hc3 & Hc4).
    assert (Hzc : zlen (c ++ take (Z.to_nat w) buf) = sz) by (rewrite zlen_app, zlen_take by lia; done).
    pose proof (Z.div_mod sz 512 ltac:(lia)) as Esz. fold off in Esz.
    pose proof (Z.div_le_mono (zlen c) sz 512 ltac:(lia) ltac:(lia)).
    pose proof (Z.div_le_mono sz (zlen c + zlen buf) 512 ltac:(lia) ltac:(lia)).
    destruct (znth_is_Some bl (sz / 512)) as [lba Hlba].
    { split; [apply Z.div_pos; lia|lia]. }
    destruct Hab as [Hab1 Hab2]. rewrite Hab2, Hlba by lia. cbn [default].
    pose proof (bi_taken _ _ _ _ Hbi lba (znth_elem _ _ _ Hlba)) as Htk.
    destruct (taken_pos f G b lba Htk) as (Hpos & _ & _).
    destruct (taken_sector f d b lba Hg Htk) as [sec Hsec].
    destruct (ge_disk _ _ _ Hg _ _ Hsec) as [Hseclen Hsecb].
    set (src := take (Z.to_nat chunk) (drop (Z.to_nat w) buf)).
    assert (Hsrc : zlen src = chunk) by (unfold src; rewrite zlen_take; rewrite ?zlen_drop; lia).
    assert (Hnext : forall io, zlen io = 512 -> Forall is_byte io -> (off = 0 \/ d !! lba = Some io) ->
      wp (ide_wr lba (splice io off src) 1;; printk "file write at lba";;
          upd_inode a (λ i, set_isize (u32 (i_size i + chunk)) i);;
          upd_file idx (λ e, set_fd_pos (u32 (fd_pos e + chunk)) e);;
          mret (inl (drop (Z.to_nat chunk) (drop (Z.to_nat w) buf), w + chunk, false)))
        (λ x s', match x with inl l' => exists n', (n' < Z.to_nat (zlen buf - w))%nat /\ I n' l' s' | inr r => Q r s' end)
        (ST d b (set_isize sz i0) (set_fd_pos (u32 (fd_pos e0 + w)) e0) h lg)).
    { intros io Hio Hiob Hfirst.
      apply wp_bind, (wp_ide_wr1 f a idx d b); [done|lia|rewrite splice_length; lia|].
      apply wp_bind, wp_printk. apply wp_bind, wp_upd_inode. apply wp_bind, wp_upd_file; [done|].
      apply wp_ret. cbn [i_size set_isize fd_pos set_fd_pos].
      exists (Z.to_nat (zlen buf - (w + chunk))). split; [lia|].
      split_and!; [done|lia|lia| | |done|intros _; lia|].
      - rewrite drop_drop. f_equal. lia.
      - destruct Hc4 as [Hc4|Hc4]; [right; right; lia|right; left].
        replace (zlen c + (w + chunk)) with ((sz / 512 + 1) * 512) by lia. apply Z.mod_mul. lia.
      - exists (<[lba := splice io off src]> d), (lg ++ ["file write at lba"]).
        split_and!.
        + f_equal; [unfold set_isize; simpl; f_equal; rewrite u32_small; lia|].
          unfold set_fd_pos; simpl. f_equal. rewrite u32_add. f_equal. lia.
        + apply geo_write; [done|by eexists|rewrite splice_length; lia|].
          apply splice_bytes; [done|]. by apply Forall_take, Forall_drop.
        + replace (take (Z.to_nat (w + chunk)) buf) with (take (Z.to_nat w) buf ++ src).
          2: { rewrite Z2Nat.inj_add by lia. by rewrite take_add. }
          rewrite app_assoc. replace off with (zlen (c ++ take (Z.to_nat w) buf) mod 512) by (by rewrite Hzc).
          apply holds_append; rewrite ?Hzc; try done; [apply (bi_nodup _ _ _ _ Hbi)|fold off; lia|lia].
        + intros l Hl. rewrite lookup_insert_ne; [by apply Hoth|].
          intros <-. apply Hl. by eapply znth_elem. }
    apply wp_bind. destruct first.
    - apply (wp_ide_rd1 f a idx d b _ _ h lg lba sec); [done|lia|].
      apply Hnext; [done|done|by right].
    - apply wp_ret. apply Hnext; [by apply zeros_length|apply zeros_bytes|left].
      specialize (Hf2 eq_refl). destruct Hmod as [|[|]]; [done|done|lia]. }
  apply (wp_loop I _ Q Hbody _ (Z.to_nat (zlen buf))); [|lia].
  split_and!; [f_equal; lia|lia|lia|done|by left|done|done|].
  exists d0, lg0. split_and!; try done.
  - f_equal; [|by rewrite Z.add_0_r]. rewrite Z.add_0_r, <- Hsz. by destruct i0.
  - rewrite take_0, app_nil_r. done.
Qed.
End write.

(** ** Open files *)

(** Entry [idx] of the file table is an open file whose blocks are [bl], with
    indirect table [tb], and which holds the bytes [c]. *)
Record open_file (f : fs H) (idx : Z) (e : file) (i : inode) (bl : list Z) (tb : Z) (c : bytes) : Prop := {
  of_geom : geom f;
  of_geo : geo f (dsk f) (block_bitmap (part f));
  of_entry : znth (file_table f) idx = Some e;
  of_inode : inodes f !! fd_inode e = Some i;
  of_wf : inode_wf i;
  of_blocks : file_blocks f (dsk f) (block_bitmap (part f)) i bl tb;
  of_size : i_size i = zlen c;
  of_count : bl = [] /\ c = [] \/ zlen bl = zlen c / 512 + 1;
  of_holds : holds (dsk f) bl c
}.

(** The final states have the geometry of [f]. *)
Section same_geometry.
Context (f : fs H) (a idx : Z) (d : disk) (b : bitmap) (i : inode) (e : file) (h : H) (lg : list string).
Context (G : geom f) (Hg : geo f d b).
Local Abbreviation F := (mk f a idx d b i e h lg).

Lemma BL_mk : BL F = BL f.
Proof. apply (ge_len _ _ _ Hg). Qed.

Lemma usable_mk l : usable F l <-> usable f l.
Proof. unfold usable. cbn [dsk mk]. rewrite <- !elem_of_dom, (ge_dom _ _ _ Hg). done. Qed.

Lemma dom_mk l : is_Some (d !! l) <-> is_Some (dsk f !! l).
Proof. rewrite <- !elem_of_dom, (ge_dom _ _ _ Hg). done. Qed.

Lemma geom_mk : geom F.
Proof.
  destruct G. split; rewrite ?BL_mk; try done.
  - intros l Hl. cbn [dsk mk]. apply dom_mk. auto.
  - intros l Hl. cbn [dsk mk]. apply dom_mk. auto.
Qed.

Lemma geo_mk : geo F d b.
Proof.
  destruct Hg as [? ? ? ? Hf]. split; rewrite ?BL_mk; try done.
  intros k Hk Hb. apply usable_mk. by apply Hf.
Qed.

Lemma taken_mk x b' : taken F b' x <-> taken f b' x.
Proof. unfold taken. rewrite usable_mk, BL_mk. done. Qed.

Lemma file_blocks_mk d' b' i' bl tb : file_blocks f d' b' i' bl tb -> file_blocks F d' b' i' bl tb.
Proof.
  intros [? [Hnd Ht Htab] ? ?]. split; try done. split; [done| |].
  - intros x Hx. apply taken_mk. auto.
  - intros Hne. rewrite taken_mk. auto.
Qed.
End same_geometry.

(** Sectors outside the bitmap and the inode table. *)
Lemma taken_outside f b x : geom f -> taken f b x ->
  ~ (BB f <= x < BB f + BL f / 512) /\ ~ (IT f <= x < IT f + 608).
Proof. intros G ((_ & ?) & _). pose proof (geom_nums f G). lia. Qed.

Lemma blocks_wf f d b i bl tb : geom f -> file_blocks f d b i bl tb -> Forall is_u32 (i_sectors i).
Proof.
  intros G [[Hl Hd Ht] [_ Htk Htab] _ _]. apply Forall_lookup. intros k x Hx.
  assert (Hk : (k < 13)%nat) by (apply lookup_lt_Some in Hx; lia).
  assert (Hs : sector_of i (Z.of_nat k) = x).
  { unfold sector_of, znth. destruct (Z.ltb_spec (Z.of_nat k) 0); [lia|]. by rewrite Nat2Z.id, Hx. }
  unfold is_u32. destruct (decide (k = 12%nat)) as [->|].
  - change (Z.of_nat 12) with 12 in Hs. rewrite Ht in Hs. subst x. destruct (decide (tb = 0)); [lia|].
    destruct (Htab n) as [Htt _]. pose proof (taken_pos f G b tb Htt). lia.
  - rewrite Hd in Hs by lia. destruct (znth bl (Z.of_nat k)) as [y|] eqn:Ey; simpl in Hs; subst; [|lia].
    pose proof (taken_pos f G b x (Htk x (znth_elem _ _ _ Ey))). lia.
Qed.

Lemma file_blocks_frame f d d' b i bl tb : (taken f b tb -> tb ∉ bl -> d' !! tb = d !! tb) ->
  file_blocks f d b i bl tb -> file_blocks f d' b i bl tb.
Proof.
  intros Hfr [? [? ? Hb] Ht Hh]. split; try done. intros Hl. destruct (Ht Hl) as (s & Hs & Hw).
  exists s. split; [|done]. apply Hh, Hb in Hl as [Htk Hni]. by rewrite Hfr.
Qed.

Lemma grown_trans f b0 b1 b2 bl0 bl1 bl2 : (forall x, x ∈ bl2 -> 0 <= x - DS f) ->
  grown f b0 b1 bl0 bl1 -> grown f b1 b2 bl1 bl2 -> grown f b0 b2 bl0 bl2.
Proof.
  intros Hp [Hm (n1 & -> & Hn1)] [Hm' (n2 & -> & Hn2)]. split; [auto|].
  exists (n1 ++ n2). split; [by rewrite app_assoc|]. intros x [Hx|Hx]%elem_of_app; [auto|].
  specialize (Hn2 x Hx). destruct (bit b0 (x - DS f)) eqn:E; [|done].
  rewrite Hm in Hn2; [done| |done]. apply Hp. set_solver.
Qed.

(** ** [file_write] *)

Section file_write.
Context (f : fs H) (a idx : Z) (Hidx : 0 <= idx < zlen (file_table f)) (G : geom f).
Local Abbreviation ST := (mk f a idx).

Lemma first_block_ok d b i e h lg bl tb (c : bytes) n : geo f d b -> file_blocks f d b i bl tb ->
  bl = [] /\ c = [] \/ zlen bl = zlen c / 512 + 1 -> room f b (S n) ->
  wp (first_block a i) (λ r s, r = true /\ exists bl1 d1 b1 i1, s = ST d1 b1 i1 e h lg /\ geo f d1 b1 /\
    file_blocks f d1 b1 i1 bl1 tb /\ zlen bl1 = zlen c / 512 + 1 /\ same_meta i i1 /\
    grown f b b1 bl bl1 /\ same_but_bitmap f d d1 /\ room f b1 (S n + length bl - length bl1))
    (ST d b i e h lg).
Proof.
  intros Hg Hfb Hc Hr. pose proof Hfb as [Hi Hbi Htab Hhas]. unfold first_block.
  rewrite (ib_dir _ _ _ Hi) by lia. destruct Hc as [[-> ->]|Hc].
  - assert (tb = 0) as ->.
    { destruct (decide (tb = 0)) as [|Hne]; [done|]. apply Hhas in Hne. change (zlen []) with 0 in Hne. lia. }
    cbn [znth default]. change (default 0 (znth [] 0) =? 0) with true. cbv iota.
    apply wp_bind. eapply wp_mono; [by apply (alloc_ok f a idx Hidx G d b i e h lg n)|].
    intros x s (k & b' & -> & Hk & Hfree & Hb' & Hg' & Hr' & Hus & ->).
    destruct (addr_facts f G k Hk) as [-> ->].
    apply wp_bind. unfold set_sector. apply wp_upd_inode. apply wp_bind, wp_get_sb. fold (DS f).
    pose proof (geom_nums f G). rewrite Z.add_simpl_l, u32_small by lia.
    apply wp_bind, wp_assert.
    { apply negb_true_iff, Z.eqb_neq. destruct Hus as [_ Hus]. lia. }
    apply wp_bind. pose proof (sync_block_ok f a idx G d b') as Hsync. unfold sync_block in Hsync.
    eapply wp_mono.
    { specialize (Hsync (set_sectors (zupd (i_sectors i) 0 (DS f + k)) i) e h lg k Hg' Hk).
      apply wp_bind_inv in Hsync. unfold get_sb, wp, gets in Hsync. fold (DS f) in Hsync.
      cbn [part mk set_bbmp sb] in Hsync. fold (DS f) in Hsync.
      rewrite Z.add_simpl_l, u32_small in Hsync by lia. exact Hsync. }
    intros _ s (d' & Hg2 & Hsd2 & ->). apply wp_ret. split; [done|].
    exists [DS f + k], d', b', (set_sectors (zupd (i_sectors i) 0 (DS f + k)) i).
    split_and!; try done.
    + split.
      * by apply (grow_ino_direct f k i [] 0).
      * by apply (grow_blocks f b b' k Hk Hfree Hb' Hus [] 0).
      * intros Hx. unfold zlen in Hx. simpl in Hx. lia.
      * split; [done|]. unfold zlen. simpl. lia.
    + by apply (grow_grown f b b' k Hk Hfree Hb' b [] []), grown_refl.
    + eapply room_le; [done|]. simpl. lia.
  - destruct (znth_is_Some bl 0) as [x Hx].
    { pose proof (zlen_nonneg c). pose proof (Z.div_pos (zlen c) 512). lia. }
    rewrite Hx. change (default 0 (Some x)) with x.
    destruct (taken_pos f G b x) as (Hpos & _ & _); [apply (bi_taken _ _ _ _ Hbi), (znth_elem _ _ _ Hx)|].
    rewrite (proj2 (Z.eqb_neq x 0)) by lia. apply wp_ret. split; [done|].
    exists bl, d, b, i. split_and!; try done; [apply grown_refl|]. eapply room_le; [done|lia].
Qed.

(** The final state of a write of [buf] to a file that holds [c]. *)
Record written (i : inode) (bl : list Z) (tb : Z) (c buf : bytes) (bl' : list Z) (tb' : Z)
    (d' : disk) (b' : bitmap) (i' : inode) (h' : H) : Prop := {
  wr_geo : geo f d' b';
  wr_blocks : file_blocks f d' b' i' bl' tb';
  wr_count : zlen bl' = (zlen c + zlen buf) / 512 + 1;
  wr_holds : holds d' bl' (c ++ buf);
  wr_wf : inode_wf i';
  wr_size : i_size i' = zlen c + zlen buf;
  wr_meta : i_no i' = i_no i /\ i_open_cnts i' = i_open_cnts i /\ write_deny i' = write_deny i;
  wr_grown : grown f (block_bitmap (part f)) b' bl bl';
  wr_table : tb' = tb \/ tb = 0 /\ bit (block_bitmap (part f)) (tb' - DS f) = false;
  wr_frame : forall l, ~ (BB f <= l < BB f + BL f / 512) -> ~ (IT f <= l < IT f + 608) ->
    (l ∉ tb' :: bl') -> d' !! l = dsk f !! l;
  wr_inode : disk_inode d' (IT f) (u8 (i_no i)) = pure_inode i';
  wr_heap : forall x, h_live h' x <-> h_live (heap f) x;
  wr_room : forall n, h_room (heap f) (S (S n)) -> h_room h' n
}.

(** The end of the function, from the final disk contents on. *)
Lemma sync_inode_ok d b i e h lg bl tb c : geo f d b -> file_blocks f d b i bl tb -> holds d bl c -> inode_wf i ->
  wp (inode_sync i) (λ _ s, exists d', s = ST d' b i e h lg /\ geo f d' b /\ file_blocks f d' b i bl tb /\
    holds d' bl c /\ disk_inode d' (IT f) (u8 (i_no i)) = pure_inode i /\
    forall l, ~ (IT f <= l < IT f + 608) -> d' !! l = d !! l) (ST d b i e h lg).
Proof.
  intros Hg Hfb Hh Hi. pose proof (geom_nums f G) as Hn. destruct G as [_ _ Hmx Hpt _ _ Hits].
  eapply wp_mono.
  { apply inode_sync_ok; [|done]. split; [by destruct Hg|..]; try done.
    - change (0 <= IT f /\ IT f + 608 <= max_lba). lia.
    - intros l Hl. cbn [dsk mk]. apply elem_of_dom. rewrite (ge_dom _ _ _ Hg). apply elem_of_dom, Hits. done. }
  intros _ s (d' & -> & [Hwf Hdom Hfr Hthis _]). change (TL (ST d b i e h lg)) with (IT f) in *. cbn [dsk mk] in *.
  assert (Htk : forall l, taken f b l -> d' !! l = d !! l).
  { intros l Hl. apply Hfr. by apply (taken_outside f b l G). }
  exists d'. split_and!; try done.
  - destruct Hg as [? Hd ? ? ?]. split; try done. congruence.
  - apply (file_blocks_frame f d); [intros ? _; auto|done].
  - apply (holds_frame d); [|done]. intros l Hl. apply Htk, (bi_taken _ _ _ _ (fb_in _ _ _ _ _ _ Hfb)). done.
Qed.

Lemma ab_from_le m m' ab bl : ab_from m ab bl -> m <= m' -> ab_from m' ab bl.
Proof. intros [? Hab] Hm. split; [done|]. intros k Hk. apply Hab. lia. Qed.

(** From the blocks on: the data is written and the inode saved. *)
Lemma write_data_ok d b i e h lg bl tb c buf ab m (k : Z -> M (fs H) Z) (Q : Z -> fs H -> Prop) :
  geo f d b -> file_blocks f d b i bl tb ->
  inode_wf i -> i_size i = zlen c -> Forall is_byte buf -> zlen c + zlen buf < 71680 ->
  zlen bl = (zlen c + zlen buf) / 512 + 1 -> m <= zlen c / 512 -> ab_from m ab bl -> holds d bl c ->
  (forall d' lg', let i' := set_isize (zlen c + zlen buf) i in
    geo f d' b -> file_blocks f d' b i' bl tb -> holds d' bl (c ++ buf) -> inode_wf i' ->
    disk_inode d' (IT f) (u8 (i_no i)) = pure_inode i' ->
    (forall l, ~ (IT f <= l < IT f + 608) -> (l ∉ bl) -> d' !! l = d !! l) ->
    wp (k (zlen buf)) Q (ST d' b i' (set_fd_pos (u32 (zlen c + zlen buf - 1)) e) h lg')) ->
  wp (upd_file idx (set_fd_pos (u32 (zlen c - 1)));;
      bytes_written ← loop (S (Z.to_nat (zlen buf))) (write_chunk idx a (zlen buf) ab) (buf, 0, true);
      i ← rd_inode a; inode_sync i;; k bytes_written) Q (ST d b i e h lg).
Proof.
  intros Hg Hfb Hwf Hsz Hby Htot Hbl Hm Hab Hh HQ. pose proof (zlen_nonneg c). pose proof (zlen_nonneg buf).
  set (e0 := set_fd_pos (zlen c - 1) e).
  apply wp_bind, wp_upd_file; [done|]. apply wp_bind. eapply wp_mono.
  { apply (write_loop_ok f a idx Hidx G d b i e0 h lg ab bl tb c buf m); try done. by destruct Hfb. }
  intros r s (-> & d2 & lg2 & -> & Hg2 & Hh2 & Hoth2).
  set (i2 := set_isize (zlen c + zlen buf) i).
  assert (Hfb2 : file_blocks f d2 b i2 bl tb).
  { apply (file_blocks_frame f d); [intros _ Hni; by apply Hoth2|]. by destruct Hfb as [[? ? ?] ? ? ?]. }
  assert (Hwf2 : inode_wf i2) by (destruct Hwf; split; try done; unfold is_u32; simpl; lia).
  apply wp_bind, wp_rd_inode. apply wp_bind. eapply wp_mono.
  { apply (sync_inode_ok d2 b i2 _ h lg2 bl tb (c ++ buf)); done. }
  intros _ s (d3 & -> & Hg3 & Hfb3 & Hh3 & Hdi & Hoth3).
  replace (set_fd_pos (u32 (fd_pos e0 + zlen buf)) e0) with (set_fd_pos (u32 (zlen c + zlen buf - 1)) e).
  2: { unfold e0, set_fd_pos. cbn. do 2 f_equal. lia. }
  apply HQ; try done. intros l Hl Hn. rewrite Hoth3 by done. by apply Hoth2.
Qed.

Lemma same_meta_wf d b i i' bl tb : geo f d b -> file_blocks f d b i' bl tb -> same_meta i i' -> inode_wf i -> inode_wf i'.
Proof.
  intros Hg Hfb (E1 & E2 & E3 & E4) []. split; try congruence.
  - apply (ib_len _ _ _ (fb_ino _ _ _ _ _ _ Hfb)).
  - by eapply blocks_wf.
Qed.

(** Getting new blocks does not change the old contents. *)
Lemma old_contents d d1 d2 b b2 i i2 bl bl' tb tb' c : geo f d b -> file_blocks f d b i bl tb ->
  file_blocks f d2 b2 i2 bl' tb' -> bl = [] /\ c = [] \/ zlen bl = zlen c / 512 + 1 ->
  grown f b b2 bl bl' -> same_but_bitmap f d d1 ->
  (forall l, ~ (BB f <= l < BB f + BL f / 512) -> l <> tb' -> d2 !! l = d1 !! l) ->
  holds d bl c -> holds d2 bl' c.
Proof.
  intros Hg [_ Hb _ _] [_ Hb2 _ _] Hcnt [_ (new & -> & _)] Hsd1 Hsd2 Hh.
  apply holds_grow.
  - destruct Hcnt as [[-> ->]|Hc]; [done|]. pose proof (Z.div_mod (zlen c) 512).
    pose proof (Z.mod_pos_bound (zlen c) 512). lia.
  - apply (holds_frame d); [|done]. intros l Hl. pose proof (bi_taken _ _ _ _ Hb l Hl) as Ht.
    pose proof (proj1 (taken_outside f b l G Ht)). rewrite Hsd2, Hsd1; [done|done|done|].
    intros ->. pose proof (taken_pos f G b tb' Ht). apply (bi_tab _ _ _ _ Hb2); [lia|]. set_solver.
Qed.

Lemma file_write_ok e i bl tb c buf : open_file f idx e i bl tb c -> a = fd_inode e ->
  Forall is_byte buf -> zlen c + zlen buf < 71680 ->
  room f (block_bitmap (part f)) (S (Z.to_nat ((zlen c + zlen buf) / 512 + 1 - zlen bl))) ->
  h_room (heap f) 2 ->
  wp (file_write idx buf (zlen buf)) (λ r s, r = zlen buf /\ exists bl' tb' d' b' i' h' lg',
    s = ST d' b' i' (set_fd_pos (u32 (zlen c + zlen buf - 1)) e) h' lg' /\
    written i bl tb c buf bl' tb' d' b' i' h') f.
Proof.
  intros [_ Hg He Hin Hwf Hfb Hsz Hcnt Hh] Ha Hby Htot Hroom Hheap.
  rewrite <- Ha in Hin.
  pose proof (zlen_nonneg c). pose proof (zlen_nonneg buf).
  pose proof (mk_self f a idx i e Hin He) as Hself.
  match goal with |- wp ?m ?Q f => refine (eq_ind_r (λ s0, wp m Q s0) _ Hself) end.
  set (b := block_bitmap (part f)) in *.
  unfold file_write. apply wp_bind, wp_rd_file; [done|]. rewrite <- Ha. apply wp_bind, wp_rd_inode. cbv zeta.
  unfold BLOCK_SIZE, SECTOR_SIZE. rewrite Hsz, (u32_small (zlen c + zlen buf)) by lia.
  rewrite (proj2 (Z.ltb_ge (512 * 140) (zlen c + zlen buf))) by lia.
  (* the two buffers *)
  apply wp_bind, wp_sys_malloc. intros p1 h1 Hm1. cbn [heap mk cur] in Hm1.
  rewrite (proj2 (Z.eqb_neq p1 0)) by (apply (malloc_new _ _ _ 1 _ _ Hm1); done).
  apply wp_bind, wp_sys_malloc. intros p2 h2 Hm2. cbn [heap mk set_heap cur] in Hm2.
  pose proof (two_bufs_ok _ _ _ _ _ _ _ _ _ Hm1 Hm2 ltac:(lia) ltac:(lia) Hheap) as Hbufs.
  rewrite (proj2 (Z.eqb_neq p2 0)) by (apply (tb_2 _ _ _ _ Hbufs)).
  change (set_heap h2 (set_heap h1 (ST (dsk f) b i e (heap f) (klog f)))) with (ST (dsk f) b i e h2 (klog f)).
  (* the blocks *)
  apply wp_bind. eapply wp_mono; [by apply (first_block_ok (dsk f) b i e h2 (klog f) bl tb c _ Hg Hfb Hcnt Hroom)|].
  intros r s (-> & bl1 & d1 & b1 & i1 & -> & Hg1 & Hfb1 & Hc1 & Hsm1 & Hgr1 & Hsd1 & Hr1').
  cbn [negb]. set (has := zlen c / 512 + 1) in *. set (will := (zlen c + zlen buf) / 512 + 1) in *.
  assert (Hhw : 1 <= has <= will).
  { pose proof (Z.div_pos (zlen c) 512). pose proof (Z.div_le_mono (zlen c) (zlen c + zlen buf) 512). lia. }
  assert (Hw140 : will <= 140).
  { unfold will. pose proof (Z.div_lt_upper_bound (zlen c + zlen buf) 512 140). lia. }
  apply wp_bind, wp_assert; [by apply Z.leb_le|].
  apply wp_bind. eapply wp_mono.
  { apply (collect_blocks_ok f G a idx Hidx d1 b1 i1 e h2 (klog f) bl1 tb has will); try done.
    eapply room_le; [exact Hr1'|].
    destruct Hgr1 as [_ (new & Enew & _)]. rewrite Enew in *. rewrite zlen_app in Hc1.
    pose proof (zlen_nonneg new). rewrite length_app. unfold zlen in *. lia. }
  intros x s (ab & bl' & tb' & d2 & b2 & i2 & lg2 & -> & -> & Hg2 & Hfb2 & Hbl2 & Hab2 & Hsm2 & Hgr2 & Htb2 & Hsd2).
  assert (Hsm : same_meta i i2).
  { destruct Hsm1 as (? & ? & ? & ?), Hsm2 as (? & ? & ? & ?). split_and!; congruence. }
  assert (Hgr : grown f b b2 bl bl').
  { eapply grown_trans; [|done|done]. intros x Hx.
    apply (taken_range f b2), (bi_taken _ _ _ _ (fb_in _ _ _ _ _ _ Hfb2)). done. }
  assert (Htb : tb' = tb \/ tb = 0 /\ bit b (tb' - DS f) = false).
  { destruct (decide (tb' = tb)) as [|Hne']; [by left|]. destruct Htb2 as [|[-> Hf0]]; [done|right].
    split; [done|]. destruct (bit b (tb' - DS f)) eqn:E; [|done].
    rewrite (gr_mono _ _ _ _ _ Hgr1) in Hf0; [done| |done]. rename Hne' into Hne.
    apply (taken_range f b2), (bi_tab _ _ _ _ (fb_in _ _ _ _ _ _ Hfb2) Hne). }
  eapply (write_data_ok d2 b2 i2 e h2 lg2 bl' tb' c buf ab (has - 1)); try done.
  - by eapply same_meta_wf.
  - destruct Hsm as (_ & -> & _). done.
  - unfold has. lia.
  - by apply (old_contents (dsk f) d1 d2 b b2 i i2 bl bl' tb tb' c).
  - intros d' lg' i' Hg' Hfb' Hh' Hwf' Hdi' Hoth'.
    apply (wp_free_bufs _ (heap f)); [done|]. intros h4 Hl4 Hr4. split; [done|].
    exists bl', tb', d', b2, i', h4, lg'. split; [done|]. split; try done.
    + by destruct Hsm as (? & ? & ? & ?).
    + intros l Hbb Hit [Hntb Hnbl]%not_elem_of_cons. rewrite Hoth', Hsd2 by done. by apply Hsd1.
    + by destruct Hsm as (<- & _).
Qed.
End file_write.

(** Blocks of two files that have none in common. *)
Definition apart (bl : list Z) (tb : Z) (bl2 : list Z) (tb2 : Z) : Prop :=
  forall x, x <> 0 -> x ∈ tb2 :: bl2 -> x ∉ tb :: bl.

Section after.
Context (f : fs H) (a idx : Z) (e : file) (i : inode) (bl : list Z) (tb : Z) (c buf : bytes).
Context (bl' : list Z) (tb' : Z) (d' : disk) (b' : bitmap) (i' : inode) (h' : H) (lg' : list string) (p : Z).
Context (O : open_file f idx e i bl tb c) (Ha : a = fd_inode e).
Context (W : written f i bl tb c buf bl' tb' d' b' i' h').
Local Abbreviation F := (mk f a idx d' b' i' (set_fd_pos p e) h' lg').

Lemma open_file_self : open_file F idx (set_fd_pos p e) i' bl' tb' (c ++ buf).
Proof.
  destruct O as [HG Hg He Hin Hwf Hfb Hsz Hcnt Hh], W as [Hg' Hfb' Hc' Hh' Hwf' Hsz' _ _ _ _ _ _ _].
  pose proof (znth_lt _ _ _ He). split; try done.
  - by apply geom_mk.
  - by apply geo_mk.
  - cbn [file_table mk]. by apply znth_upd_eq.
  - cbn [inodes mk fd_inode set_fd_pos]. rewrite Ha. by apply lookup_insert_eq.
  - by apply file_blocks_mk.
  - by rewrite zlen_app.
  - right. by rewrite zlen_app.
Qed.

Lemma open_file_other idx2 e2 i2 bl2 tb2 c2 : open_file f idx2 e2 i2 bl2 tb2 c2 -> idx2 <> idx ->
  fd_inode e2 <> fd_inode e -> apart bl tb bl2 tb2 -> open_file F idx2 e2 i2 bl2 tb2 c2.
Proof.
  intros [_ Hg He Hin Hwf Hfb Hsz Hcnt Hh] Hidx Hne Hap. destruct O as [HG _ _ _ _ Hfb0 _ _ _].
  destruct W as [Hg' Hfb' _ _ _ _ _ [Hmono (new & -> & Hnew)] Htab Hfr _ _ _].
  assert (Hsame : forall l, taken f (block_bitmap (part f)) l -> l ∈ tb2 :: bl2 -> d' !! l = dsk f !! l).
  { intros l Ht Hl. destruct (taken_outside f _ l HG Ht) as [Ho1 Ho2].
    pose proof (taken_pos f HG _ l Ht). assert (Hnz : l <> 0) by lia.
    specialize (Hap l Hnz Hl). apply not_elem_of_cons in Hap as [Hn1 Hn2]. destruct Ht as (_ & _ & Hbit).
    apply Hfr; [done|done|]. apply not_elem_of_cons. split.
    - intros ->. destruct Htab as [|[_ Hx]]; congruence.
    - intros [?|Hx]%elem_of_app; [done|]. apply Hnew in Hx. congruence. }
  destruct Hfb as [Hino [Hnd Htk Htab2] Htable Hhas].
  split; try done.
  - by apply geom_mk.
  - by apply geo_mk.
  - cbn [file_table mk]. by rewrite znth_upd_ne.
  - cbn [inodes mk]. rewrite lookup_insert_ne by congruence. done.
  - apply file_blocks_mk; [done|]. split; try done.
    + split; [done| |].
      * intros x Hx. by apply (taken_mono f (block_bitmap (part f))), Htk.
      * intros Hn. destruct (Htab2 Hn) as [? ?]. split; [|done]. by apply (taken_mono f (block_bitmap (part f))).
    + intros Hl. destruct (Htable Hl) as (s & Hs & Hw). exists s. split; [|done]. rewrite <- Hs.
      apply Hsame; [|set_solver]. by apply Htab2, Hhas.
  - apply (holds_frame (dsk f)); [|done]. intros l Hl. apply Hsame; [by apply Htk|set_solver].
Qed.
End after.

End spec.

(** ** The example state has two open files *)

Lemma demo_geom : geom demo_fs.
Proof.
  split; [..|intros l Hl|intros l Hl].
  1-5: vm_compute; split_and?; congruence.
  - apply demo_sector. change (BB demo_fs) with 10 in Hl. change (BL demo_fs / 512) with 1 in Hl. lia.
  - apply demo_sector. change (IT demo_fs) with 12 in Hl. lia.
Qed.

Lemma demo_free k : 0 <= k < 4096 -> bit demo_bbmp k = false -> 2 <= k < 96.
Proof.
  intros Hk Hb. pose proof (Z.div_mod k 8). pose proof (Z.mod_pos_bound k 8).
  assert (Hd : k / 8 < 12).
  { destruct (decide (k / 8 < 12)) as [|Hn]; [done|]. unfold bit in Hb.
    cbn [bits demo_bbmp] in Hb. rewrite znth_app_r in Hb by (unfold zlen; simpl; lia).
    rewrite znth_app_r in Hb by (unfold zlen; simpl; lia).
    set (j := k / 8 - zlen [3] - zlen (replicate 11 0)) in *.
    assert (Hj : 0 <= j < 500) by (unfold j, zlen; simpl; lia).
    unfold znth in Hb. destruct (Z.ltb_spec j 0); [lia|]. rewrite lookup_replicate_2 in Hb by lia.
    assert (Hm : k mod 8 = 0 \/ k mod 8 = 1 \/ k mod 8 = 2 \/ k mod 8 = 3 \/ k mod 8 = 4 \/ k mod 8 = 5 \/
      k mod 8 = 6 \/ k mod 8 = 7) by lia.
    destruct Hm as [E|[E|[E|[E|[E|[E|[E|E]]]]]]]; rewrite E in Hb; discriminate Hb. }
  assert (k <> 0) by (intros ->; discriminate Hb). assert (k <> 1) by (intros ->; discriminate Hb). lia.
Qed.

Lemma demo_usable l : 620 < l < 720 -> usable demo_fs l.
Proof. intros Hl. split; [apply demo_sector; lia|]. change (DS demo_fs) with 620. change max_lba with 163839. lia. Qed.

Lemma demo_geo : geo demo_fs demo_dsk demo_bbmp.
Proof.
  split; [apply demo_dsk_wf|done| |done|].
  - split; try (vm_compute; congruence). repeat constructor; vm_compute; congruence.
  - intros k Hk Hf. change (BL demo_fs) with 512 in Hk. destruct (demo_free k) as [? ?]; [lia|done|].
    apply demo_usable. change (DS demo_fs) with 620. lia.
Qed.

Lemma demo_taken : taken demo_fs demo_bbmp 621.
Proof. split_and!; [apply demo_usable; lia|vm_compute; congruence|reflexivity]. Qed.

Lemma demo_open1 : open_file demo_fs 3 (File 0 2 100) demo_ino1 [621] 0 [104; 105].
Proof.
  split; [apply demo_geom|apply demo_geo|reflexivity|reflexivity| | |reflexivity|by right|].
  - split; try (unfold is_u32; simpl; lia). repeat constructor; unfold is_u32; lia.
  - split; [| |intros Hx; vm_compute in Hx; congruence|].
    + split; [done| |done]. intros k Hk. assert (Hc : k = 0 \/ 1 <= k < 12) by lia.
      destruct Hc as [->|Hc]; [done|]. unfold sector_of, znth. destruct (Z.ltb_spec k 0); [lia|].
      cbn [i_sectors demo_ino1]. destruct (Z.to_nat k) as [|n] eqn:E; [lia|].
      do 11 (destruct n as [|n]; [reflexivity|]). lia.
    + split; [apply NoDup_singleton| |done]. intros x ->%list_elem_of_singleton. apply demo_taken.
    + split; [done|]. intros Hx. vm_compute in Hx. congruence.
  - intros j Hj. change (zlen [104; 105]) with 2 in Hj. assert (Hc : j = 0 \/ j = 1) by lia.
    assert (Hb : forall s, demo_dsk !! 621 = Some s -> cbyte demo_dsk [621] j = znth s j).
    { intros s Hs. unfold cbyte. replace (j / 512) with 0 by (destruct Hc as [-> | ->]; reflexivity).
      change (znth [621] 0) with (Some 621). cbn [mbind option_bind]. rewrite Hs. cbn [mbind option_bind].
      by rewrite Z.mod_small by lia. }
    change (dsk demo_fs) with demo_dsk. rewrite (Hb _ (demo_lookup 621)). by destruct Hc as [-> | ->].
Qed.

Lemma demo_open2 : open_file demo_fs 4 (File 0 0 200) demo_ino2 [] 0 [].
Proof.
  split; [apply demo_geom|apply demo_geo|reflexivity|reflexivity| | |reflexivity|by left|].
  - split; try (unfold is_u32; simpl; lia). repeat constructor; unfold is_u32; lia.
  - split; [| |intros Hx; vm_compute in Hx; congruence|].
    + split; [reflexivity| |reflexivity]. intros k Hk. unfold sector_of, znth. destruct (Z.ltb_spec k 0); [lia|].
      destruct (Z.to_nat k) as [|n] eqn:E; [reflexivity|]. do 11 (destruct n as [|n]; [reflexivity|]). lia.
    + split; [constructor| |done]. intros x Hx. by apply elem_of_nil in Hx.
    + split; [done|]. intros Hx. vm_compute in Hx. congruence.
  - intros j Hj. change (zlen []) with 0 in Hj. lia.
Qed.

Lemma demo_room : room demo_fs demo_bbmp 10.
Proof.
  exists (seqZ 2 90). split_and!; [apply NoDup_seqZ|rewrite length_seqZ; lia|].
  intros k Hk%elem_of_seqZ. change (BL demo_fs) with 512. split; [lia|].
  assert (Hall : Forall (λ k, bit demo_bbmp k = false) (seqZ 2 90)) by (repeat constructor).
  rewrite Forall_forall in Hall. apply Hall, elem_of_seqZ. lia.
Qed.

