(* ===== verification/ReadSpec.v ===== *)
(** [file_read] against the contents of a file, and writing then reading. *)

From S2P Require Import Prelude Bitmap Bytes CString Interrupt Thread Sync Ide Layout Inode InodeSpec File Dir Path Fs FileSpec.

Open Scope Z_scope.

(** A loop that stores [g k] at every index of [l]. *)
Lemma znth_foldl_upd (g : Z -> Z) l ab k : (forall j, j ∈ l -> 0 <= j < zlen ab) ->
  znth (foldl (λ ab k, zupd ab k (g k)) ab l) k = if decide (k ∈ l) then Some (g k) else znth ab k.
Proof.
  revert ab. induction l as [|x l IH]; intros ab Hl; [done|]. simpl. rewrite IH.
  2: { intros j Hj. rewrite zlen_upd. apply Hl. set_solver. }
  destruct (decide (k ∈ l)); [rewrite decide_True by set_solver; done|].
  destruct (decide (k = x)) as [->|].
  - rewrite decide_True by set_solver. apply znth_upd_eq, Hl. set_solver.
  - rewrite decide_False by set_solver. by apply znth_upd_ne.
Qed.

Lemma znth_copy_direct i from to ab k : 0 <= from -> to <= zlen ab ->
  znth (copy_direct i from to ab) k = if decide (from <= k < to) then Some (sector_of i k) else znth ab k.
Proof.
  intros Hf Ht. unfold copy_direct. rewrite znth_foldl_upd.
  - assert (E : k ∈ seqZ from (to - from) <-> from <= k < to) by (rewrite elem_of_seqZ; lia).
    by destruct (decide (k ∈ seqZ from (to - from))), (decide (from <= k < to)); tauto.
  - intros j Hj%elem_of_seqZ. lia.
Qed.

Lemma zlen_foldl_upd (g : Z -> Z) l ab : zlen (foldl (λ ab k, zupd ab k (g k)) ab l) = zlen ab.
Proof. revert ab. induction l as [|x l IH]; intros ab; [done|]. simpl. by rewrite IH, zlen_upd. Qed.

Section read.
Context {H : Type} `{HeapLaws H}.
Context (f : fs H) (a idx : Z) (Hidx : 0 <= idx < zlen (file_table f)) (G : geom f).
Local Abbreviation ST := (mk f a idx).

(** The local table of addresses is right for blocks [s .. t]. *)
Definition ab_range (s t : Z) (ab bl : list Z) : Prop := forall k, s <= k <= t -> znth ab k = znth bl k.

Lemma gather_table d b i e h lg bl tb s t ab0 : geo f d b -> file_blocks f d b i bl tb ->
  0 <= s <= t -> 12 <= t < zlen bl -> zlen bl <= 140 -> zlen ab0 = 140 ->
  (forall k, s <= k < 12 -> znth ab0 k = znth bl k) ->
  wp (read_table (sector_of i 12) ab0) (λ ab st, ab_range s t ab bl /\ st = ST d b i e h lg) (ST d b i e h lg).
Proof.
  intros Hg [Hi Hbi Htab Hhas] Hs Ht H140 Hab0 Hdir. rewrite (ib_tab _ _ _ Hi).
  assert (Htb : tb <> 0) by (apply Hhas; lia). destruct (bi_tab _ _ _ _ Hbi Htb) as [Htk _].
  destruct (taken_pos f G b tb Htk) as (Hpos & _ & _).
  destruct Htab as (sec & Hsec & Hw); [lia|]. destruct (ge_disk _ _ _ Hg _ _ Hsec) as [Hlen _].
  unfold read_table. apply wp_bind, (wp_ide_rd1 f a idx d b i e h lg tb sec); [done|lia|]. apply wp_ret.
  split; [|done]. intros k Hk.
  assert (H12 : zlen (take 12 ab0) = 12) by (unfold zlen in *; rewrite length_take; lia).
  destruct (decide (k < 12)).
  - rewrite znth_app_l by lia. rewrite <- Hdir by lia. change 12%nat with (Z.to_nat 12). apply znth_take. lia.
  - rewrite znth_app_r by lia. rewrite H12. apply Hw. lia.
Qed.

Lemma dir_sector i bl tb k : ino_blocks i bl tb -> 0 <= k < 12 -> k < zlen bl ->
  Some (sector_of i k) = znth bl k.
Proof. intros Hi Hk Hl. rewrite (ib_dir _ _ _ Hi) by done. apply znth_default. lia. Qed.

Lemma gather_ok d b i e h lg bl tb s t : geo f d b -> file_blocks f d b i bl tb ->
  0 <= s <= t -> t < zlen bl -> zlen bl <= 140 ->
  wp (gather_blocks i s t) (λ ab st, ab_range s t ab bl /\ st = ST d b i e h lg) (ST d b i e h lg).
Proof.
  intros Hg Hfb Hs Ht H140. pose proof Hfb as [Hi Hbi Htab Hhas]. unfold gather_blocks.
  assert (Hgt : forall ab0, 12 <= t -> zlen ab0 = 140 -> (forall k, s <= k < 12 -> znth ab0 k = znth bl k) ->
    wp (read_table (sector_of i 12) ab0) (λ ab st, ab_range s t ab bl /\ st = ST d b i e h lg) (ST d b i e h lg)).
  { intros. by apply (gather_table d b i e h lg bl tb). }
  assert (Hnz : 12 <= t -> negb (sector_of i 12 =? 0) = true).
  { intros H12. rewrite (ib_tab _ _ _ Hi). apply negb_true_iff, Z.eqb_neq, Hhas. lia. }
  destruct (decide (s = t)) as [<-|Hne].
  - rewrite Z.sub_diag. change (u32 0 =? 0) with true. cbv iota.
    apply wp_bind, wp_assert; [apply Z.eqb_refl|]. destruct (Z.ltb_spec s 12).
    + apply wp_ret. split; [|done]. intros k Hk. replace k with s by lia.
      rewrite znth_upd_eq by (rewrite all_blocks_0_len; lia). apply (dir_sector i bl tb); [done|lia|lia].
    + apply Hgt; [lia|done|]. intros k Hk. lia.
  - rewrite (proj2 (Z.eqb_neq (u32 (s - t)) 0)).
    2: { unfold u32. replace (s - t) with (s - t + 4294967296 + (-1) * 4294967296) by lia.
         rewrite Z.mod_add, Z.mod_small by lia. lia. }
    destruct (Z.ltb_spec t 12).
    + apply wp_ret. split; [|done]. intros k Hk. rewrite znth_copy_direct by (rewrite ?all_blocks_0_len; lia).
      rewrite decide_True by lia. apply (dir_sector i bl tb); [done|lia|lia].
    + rewrite (proj2 (Z.leb_le 12 t)) by lia. destruct (Z.ltb_spec s 12); cbn [andb].
      * apply wp_bind, wp_assert; [auto|]. apply Hgt; [lia|apply zlen_foldl_upd|]. intros k Hk.
        rewrite znth_copy_direct by (rewrite ?all_blocks_0_len; lia).
        rewrite decide_True by lia. apply (dir_sector i bl tb); [done|lia|lia].
      * apply wp_bind, wp_assert; [auto|]. apply Hgt; [lia|done|]. intros k Hk. lia.
Qed.

(** Part of one block, seen in the contents. *)
Lemma slice_block d bl c q n lba sec : holds d bl c -> 0 <= q -> 0 <= n -> q + n <= zlen c ->
  q mod 512 + n <= 512 -> znth bl (q / 512) = Some lba -> d !! lba = Some sec -> zlen sec = 512 ->
  slice sec (q mod 512) n = slice c q n.
Proof.
  intros Hh Hq Hn Hlen Hfit Hlba Hsec Hz.
  pose proof (Z.div_mod q 512 ltac:(lia)) as Eq. pose proof (Z.mod_pos_bound q 512 ltac:(lia)).
  apply zlist_eq; [rewrite !slice_length by lia; done|]. intros j Hj. rewrite slice_length in Hj by lia.
  rewrite !znth_slice by lia. rewrite <- Hh by lia. unfold cbyte.
  destruct (divmod_512 (q / 512) (q mod 512 + j)) as [E1 E2]; [lia|].
  replace (512 * (q / 512) + (q mod 512 + j)) with (q + j) in E1, E2 by lia.
  rewrite E1, Hlba. simpl. rewrite Hsec. simpl. by rewrite E2.
Qed.

Lemma read_loop_ok d b i e h lg ab bl tb c p size : geo f d b -> blocks_in f b bl tb -> holds d bl c ->
  0 <= p -> 0 <= size -> p + size <= zlen c -> zlen c < 71680 -> zlen bl = zlen c / 512 + 1 ->
  ab_range (p / 512) ((p + size) / 512) ab bl ->
  wp (loop (S (Z.to_nat size)) (read_chunk idx size ab) ([], 0))
    (λ r s, r = slice c p size /\ s = ST d b i (set_fd_pos (p + size) e) h lg)
    (ST d b i (set_fd_pos p e) h lg).
Proof.
  intros Hg Hbi Hh Hp Hsz Hlen H71 Hbl Hab.
  set (I := λ (n : nat) (l : bytes * Z) (s : fs H), let '(dst, r) := l in
    n = Z.to_nat (size - r) /\ 0 <= r <= size /\ dst = slice c p r /\
    s = ST d b i (set_fd_pos (p + r) e) h lg).
  set (Q := λ (r : bytes) (s : fs H), r = slice c p size /\ s = ST d b i (set_fd_pos (p + size) e) h lg).
  assert (Hbody : forall n l s, I n l s -> wp (read_chunk idx size ab l)
    (λ x s', match x with inl l' => exists n', (n' < n)%nat /\ I n' l' s' | inr r => Q r s' end) s).
  { intros n [dst r] s (-> & Hr & -> & ->). unfold read_chunk.
    destruct (Z.ltb_spec r size) as [Hlt|Hge].
    2: { apply wp_ret. replace r with size by lia. done. }
    apply wp_bind, wp_rd_file; [done|]. cbn [fd_pos set_fd_pos]. unfold BLOCK_SIZE, SECTOR_SIZE.
    set (q := p + r) in *. pose proof (Z.mod_pos_bound q 512 ltac:(lia)).
    set (chunk := if size - r <? 512 - q mod 512 then size - r else 512 - q mod 512).
    assert (Hc : 0 < chunk <= size - r /\ q mod 512 + chunk <= 512).
    { unfold chunk. destruct (Z.ltb_spec (size - r) (512 - q mod 512)); lia. }
    clearbody chunk. pose proof (Z.div_le_mono p q 512 ltac:(lia) ltac:(lia)).
    pose proof (Z.div_le_mono q (p + size) 512 ltac:(lia) ltac:(lia)).
    pose proof (Z.div_le_mono q (zlen c) 512 ltac:(lia) ltac:(lia)).
    pose proof (Z.div_pos q 512 ltac:(lia) ltac:(lia)).
    destruct (znth_is_Some bl (q / 512)) as [lba Hlba]; [lia|].
    rewrite Hab, Hlba by lia. change (default 0 (Some lba)) with lba.
    pose proof (bi_taken _ _ _ _ Hbi lba (znth_elem _ _ _ Hlba)) as Htk.
    destruct (taken_pos f G b lba Htk) as (Hpos & _ & _).
    destruct (taken_sector f d b lba Hg Htk) as [sec Hsec].
    destruct (ge_disk _ _ _ Hg _ _ Hsec) as [Hseclen _].
    apply wp_bind, (wp_ide_rd1 f a idx d b i _ h lg lba sec); [done|lia|].
    apply wp_bind, wp_upd_file; [done|]. apply wp_ret. exists (Z.to_nat (size - (r + chunk))). split; [lia|].
    split_and!; [done|lia|lia| |].
    - rewrite <- slice_app by lia. f_equal. apply (slice_block d bl c q chunk lba sec); try done; lia.
    - unfold set_fd_pos. cbn. f_equal. f_equal. rewrite u32_small by lia. lia. }
  apply (wp_loop I _ Q Hbody _ (Z.to_nat size)); [|lia].
  split_and!; [f_equal; lia|lia|lia|done|by rewrite Z.add_0_r].
Qed.
End read.

Section file_read.
Context {H : Type} `{HeapLaws H}.
Implicit Types f : fs H.

(** The state after a read: the position moved, the heap has the same live
    blocks. *)
Definition after_read (f : fs H) (idx : Z) (e : file) (p : Z) (f' : fs H) : Prop :=
  exists h, f' = set_heap h (set_files (zupd (file_table f) idx (set_fd_pos p e)) f) /\
    (forall x, h_live h x <-> h_live (heap f) x) /\ (forall n, h_room (heap f) (S (S n)) -> h_room h n).

(** A file has at most 140 blocks. *)
Lemma file_blocks_max (f : fs H) d b i bl tb : geo f d b -> file_blocks f d b i bl tb -> zlen bl <= 140.
Proof.
  intros Hg [_ _ Ht _]. destruct (decide (zlen bl <= 140)) as [|Hn]; [done|].
  destruct Ht as (s & Hs & Hw); [lia|]. destruct (ge_disk _ _ _ Hg _ _ Hs) as [Hl _].
  destruct (znth_is_Some bl 140) as [x Hx]; [lia|]. specialize (Hw 140 ltac:(lia)). rewrite Hx in Hw.
  apply znth_lt in Hw. unfold zlen in *. rewrite (to_words_length 128) in Hw by lia. lia.
Qed.

Lemma file_read_ok f idx e i bl tb c count : open_file f idx e i bl tb c ->
  0 <= fd_pos e < zlen c -> 0 <= count -> fd_pos e + count < 4294967296 ->
  let n := Z.min count (zlen c - fd_pos e) in fd_pos e + n < 139 * 512 -> h_room (heap f) 2 ->
  wp (file_read idx count) (λ r f', r = (n, slice c (fd_pos e) n) /\ after_read f idx e (fd_pos e + n) f') f.
Proof.
  intros [HG Hg He Hin Hwf Hfb Hsz Hcnt Hh] Hpos Hc Hov n Hlim Hheap.
  pose proof (znth_lt _ _ _ He) as Hidx. set (a := fd_inode e) in *.
  pose proof (mk_self f a idx i e Hin He) as Hself. set (p := fd_pos e) in *.
  assert (H71 : zlen c < 71680 /\ zlen bl = zlen c / 512 + 1).
  { destruct Hcnt as [[_ ->]|Hcnt]; [change (zlen []) with 0 in Hpos; lia|]. split; [|done].
    pose proof (file_blocks_max f _ _ i bl tb Hg Hfb). pose proof (Z.div_mod (zlen c) 512).
    pose proof (Z.mod_pos_bound (zlen c) 512). lia. }
  destruct H71 as [H71 Hbl]. pose proof (file_blocks_max f _ _ i bl tb Hg Hfb) as Hmax.
  match goal with |- wp ?m ?Q f => refine (eq_ind_r (λ s0, wp m Q s0) _ Hself) end.
  set (b := block_bitmap (part f)) in *.
  unfold file_read. apply wp_bind, wp_rd_file; [done|]. fold a p. apply wp_bind, wp_rd_inode. cbv zeta.
  unfold BLOCK_SIZE, SECTOR_SIZE. rewrite Hsz, (u32_small (p + count)) by lia.
  set (size := if zlen c <? p + count then u32 (zlen c - p) else count).
  assert (Hsize : size = n).
  { unfold size, n. destruct (Z.ltb_spec (zlen c) (p + count)); [rewrite u32_small by lia|]; lia. }
  assert (Hn0 : 0 <= n <= zlen c - p) by (unfold n; lia). clearbody size. subst size.
  assert (Hgo : (zlen c <? p + count) && (n =? 0) = false).
  { apply andb_false_iff. destruct (Z.ltb_spec (zlen c) (p + count)); [right|by left].
    apply Z.eqb_neq. unfold n. lia. }
  rewrite Hgo. apply wp_bind, wp_sys_malloc. intros p1 h1 Hm1. cbn [heap mk cur] in Hm1.
  rewrite (proj2 (Z.eqb_neq p1 0)) by (apply (malloc_new _ _ _ 1 _ _ Hm1); done). apply wp_bind, wp_ret.
  apply wp_bind, wp_sys_malloc. intros p2 h2 Hm2. cbn [heap mk set_heap cur] in Hm2.
  pose proof (two_bufs_ok _ _ _ _ _ _ _ _ _ Hm1 Hm2 ltac:(lia) ltac:(lia) Hheap) as Hbufs.
  rewrite (proj2 (Z.eqb_neq p2 0)) by (apply (tb_2 _ _ _ _ Hbufs)).
  change (set_heap h2 (set_heap h1 (mk f a idx (dsk f) b i e (heap f) (klog f))))
    with (mk f a idx (dsk f) b i e h2 (klog f)).
  rewrite (u32_small (p + n)) by lia.
  pose proof (Z.div_le_mono p (p + n) 512 ltac:(lia) ltac:(lia)).
  pose proof (Z.div_le_mono (p + n) (zlen c) 512 ltac:(lia) ltac:(lia)).
  pose proof (Z.div_pos p 512 ltac:(lia) ltac:(lia)).
  pose proof (Z.div_lt_upper_bound (p + n) 512 139 ltac:(lia) ltac:(lia)).
  apply wp_bind, wp_assert; [apply andb_true_iff; split; apply Z.ltb_lt; lia|].
  apply wp_bind. eapply wp_mono.
  { apply (gather_ok f a idx HG (dsk f) b i e h2 (klog f) bl tb (p / 512) ((p + n) / 512)); try done; lia. }
  intros ab s [Hab ->]. apply wp_bind, wp_ret.
  apply wp_bind. replace e with (set_fd_pos p e) at 1 by (by destruct e).
  eapply wp_mono.
  { by apply (read_loop_ok f a idx Hidx HG (dsk f) b i e h2 (klog f) ab bl tb c p n); try lia; destruct Hfb. }
  intros dst s [-> ->].
  apply (wp_free_bufs _ (heap f)); [done|]. intros h4 Hl4 Hr4. split; [by rewrite slice_length by lia|].
  exists h4. split; [|by split]. unfold mk, set_heap, set_files. cbn. rewrite insert_id by done. f_equal. by destruct (part f).
Qed.

(** The position is no part of the contents. *)
Lemma open_file_pos f idx e i bl tb c p h : open_file f idx e i bl tb c ->
  open_file (set_heap h (set_files (zupd (file_table f) idx (set_fd_pos p e)) f)) idx (set_fd_pos p e) i bl tb c.
Proof.
  intros [HG Hg He Hin Hwf Hfb Hsz Hcnt Hh]. pose proof (znth_lt _ _ _ He).
  split; try done; [by destruct HG|by destruct Hg| |].
  - cbn. by apply znth_upd_eq.
  - destruct Hfb as [? [? ? ?] ? ?]. by split.
Qed.

(** [sys_lseek] with [SEEK_SET]. *)
Lemma sys_lseek_set f fd idx e i bl tb c off : open_file f idx e i bl tb c -> 0 <= fd ->
  fd_local2global fd f = Ok (idx, f) -> 0 <= off < zlen c -> zlen c < 71680 ->
  sys_lseek fd off SEEK_SET f = Ok (off, set_files (zupd (file_table f) idx (set_fd_pos off e)) f).
Proof.
  intros [_ _ He Hin _ _ Hsz _ _] Hfd Hl Hoff Hlen. unfold sys_lseek.
  rewrite (proj2 (Z.ltb_ge fd 0)) by lia. erewrite bind_ok by reflexivity. erewrite bind_ok by done.
  erewrite bind_ok by (unfold rd_file; by rewrite He). erewrite bind_ok by (unfold rd_inode; by rewrite Hin).
  cbv zeta. change (SEEK_SET =? SEEK_SET) with true. cbv iota. rewrite Hsz, (s32_small (zlen c)), s32_small by lia.
  rewrite (proj2 (Z.ltb_ge off 0)), (proj2 (Z.ltb_ge (zlen c - 1) off)) by lia. cbn [orb].
  rewrite u32_small by lia. erewrite bind_ok by (unfold upd_file; by rewrite He). done.
Qed.

Lemma fd_local2global_ok f fd idx : znth (fd_table (cur f)) fd = Some idx -> 0 <= idx < MAX_FILE_OPEN ->
  fd_local2global fd f = Ok (idx, f).
Proof.
  intros Hfd Hidx. unfold fd_local2global. erewrite bind_ok by done. rewrite Hfd. erewrite bind_ok by done.
  rewrite (proj2 (Z.leb_le 0 idx)), (proj2 (Z.ltb_lt idx MAX_FILE_OPEN)) by lia. done.
Qed.

Lemma slice_app_r (c buf : bytes) : slice (c ++ buf) (zlen c) (zlen buf) = buf.
Proof.
  unfold slice, zlen. rewrite !Nat2Z.id, drop_app_length. by rewrite take_ge.
Qed.

(** C29: [file_read] reads the contents.  At position [p] inside a file that
    holds [c] it returns the bytes from [p] on, [count] of them or as many as
    are left, through direct and indirect blocks alike, moves the position
    behind them, and changes nothing else; the code's own bound is that the
    read ends below byte 71168. *)
Theorem file_read_contents f idx e i bl tb c count : open_file f idx e i bl tb c ->
  0 <= fd_pos e < zlen c -> 0 <= count -> fd_pos e + count < 4294967296 ->
  let n := Z.min count (zlen c - fd_pos e) in fd_pos e + n < 139 * 512 -> h_room (heap f) 2 ->
  exists f', file_read idx count f = Ok ((n, slice c (fd_pos e) n), f') /\
    after_read f idx e (fd_pos e + n) f' /\
    open_file f' idx (set_fd_pos (fd_pos e + n) e) i bl tb c.
Proof.
  intros O Hpos Hc Hov n Hlim Hheap.
  pose proof (file_read_ok f idx e i bl tb c count O Hpos Hc Hov Hlim Hheap) as Hwp.
  apply wp_run in Hwp as (r & f' & Hrun & -> & Ha). exists f'. split_and!; [done|done|].
  destruct Ha as (h & -> & _). by apply open_file_pos.
Qed.

(** At the end of the file [file_read] returns -1 and changes nothing. *)
Theorem file_read_eof f idx e i bl tb c count : open_file f idx e i bl tb c -> fd_pos e = zlen c ->
  0 < count -> zlen c + count < 4294967296 -> file_read idx count f = Ok ((-1, []), f).
Proof.
  intros [_ _ He Hin _ _ Hsz _ _] Hp Hc Hov. pose proof (zlen_nonneg c). unfold file_read.
  erewrite bind_ok by (unfold rd_file; by rewrite He). erewrite bind_ok by (unfold rd_inode; by rewrite Hin).
  cbv zeta. rewrite Hp, Hsz, u32_small by lia. rewrite (proj2 (Z.ltb_lt (zlen c) (zlen c + count))) by lia.
  by rewrite Z.sub_diag.
Qed.


(** The size limit.  A write that would make the file larger than 71680
    bytes returns -1 and changes nothing; one that would fill it to exactly
    71680 bytes, which that test and its message allow, stops the kernel at
    the assertion that at most 140 blocks are used. *)
Theorem file_write_limit f idx e i bl tb c buf : open_file f idx e i bl tb c ->
  room f (block_bitmap (part f)) 1 -> h_room (heap f) 2 -> zlen c + zlen buf < 4294967296 ->
  (71680 < zlen c + zlen buf -> file_write idx buf (zlen buf) f =
     Ok (-1, set_klog (klog f ++ ["exceed max file_size 71680 bytes, write file failed"]) f)) /\
  (zlen c + zlen buf = 71680 -> file_write idx buf (zlen buf) f = Panic "file_will_use_blocks <= 140").
Proof.
  intros [HG Hg He Hin Hwf Hfb Hsz Hcnt Hh] Hroom Hheap Hov.
  pose proof (zlen_nonneg c). pose proof (zlen_nonneg buf). pose proof (znth_lt _ _ _ He) as Hidx.
  unfold file_write. erewrite bind_ok by (unfold rd_file; by rewrite He).
  erewrite bind_ok by (unfold rd_inode; by rewrite Hin). cbv zeta. unfold BLOCK_SIZE, SECTOR_SIZE.
  rewrite Hsz, u32_small by lia. split; intros Htot.
  - by rewrite (proj2 (Z.ltb_lt (512 * 140) (zlen c + zlen buf))) by lia.
  - rewrite Htot. change (512 * 140 <? 71680) with false. cbv iota.
    destruct (h_malloc (pgdir (cur f) =? 0) 512 (heap f)) as [p1 h1] eqn:Hm1.
    rewrite (bind_ok (sys_malloc 512) _ f p1 (set_heap h1 f)) by (unfold sys_malloc; by rewrite Hm1).
    rewrite (proj2 (Z.eqb_neq p1 0)) by (apply (malloc_new _ _ _ 1 _ _ Hm1); done).
    destruct (h_malloc (pgdir (cur f) =? 0) (512 + 48) h1) as [p2 h2] eqn:Hm2.
    rewrite (bind_ok (sys_malloc (512 + 48)) _ _ p2 (set_heap h2 f)) by (unfold sys_malloc; cbn [heap set_heap cur]; by rewrite Hm2).
    pose proof (two_bufs_ok _ _ _ _ _ _ _ _ _ Hm1 Hm2 ltac:(lia) ltac:(lia) Hheap) as Hbufs.
    rewrite (proj2 (Z.eqb_neq p2 0)) by (apply (tb_2 _ _ _ _ Hbufs)).
    replace (set_heap h2 f) with (mk f (fd_inode e) idx (dsk f) (block_bitmap (part f)) i e h2 (klog f)).
    2: { transitivity (set_heap h2 (mk f (fd_inode e) idx (dsk f) (block_bitmap (part f)) i e (heap f) (klog f)));
         [reflexivity|]. f_equal. symmetry. by apply mk_self. }
    pose proof (first_block_ok f (fd_inode e) idx Hidx HG (dsk f) (block_bitmap (part f)) i e h2 (klog f)
      bl tb c 0 Hg Hfb Hcnt Hroom) as Hfbk.
    apply wp_run in Hfbk as (r & s & Hrun & -> & _). rewrite (bind_ok _ _ _ _ _ Hrun). done.
Qed.
End file_read.

(** ** The theorems on the example state *)

Lemma file_read_contents_witness :
  exists f', file_read 3 10 demo_fs = Ok ((2, [104; 105]), f') /\
    after_read demo_fs 3 (File 0 2 100) 2 f'.
Proof.
  destruct (file_read_contents demo_fs 3 (File 0 2 100) demo_ino1 [621] 0 [104; 105] 10) as (f' & Hr & Ha & _);
    [apply demo_open1|vm_compute; split; congruence|lia|reflexivity|reflexivity|exact I|].
  exists f'. split; [exact Hr|exact Ha].
Defined.

Lemma file_read_eof_witness : file_read 4 1 demo_fs = Ok ((-1, []), demo_fs).
Proof.
  apply (file_read_eof demo_fs 4 (File 0 0 200) demo_ino2 [] 0 [] 1); [apply demo_open2|reflexivity|lia|reflexivity].
Defined.


Lemma file_write_limit_witness :
  file_write 4 (zeros 71681) 71681 demo_fs =
    Ok (-1, set_klog ["exceed max file_size 71680 bytes, write file failed"] demo_fs) /\
  file_write 4 (zeros 71680) 71680 demo_fs = Panic "file_will_use_blocks <= 140".
Proof.
  assert (Hr : room demo_fs demo_bbmp 1) by (eapply room_le; [apply demo_room|repeat constructor]).
  pose proof (file_write_limit demo_fs 4 (File 0 0 200) demo_ino2 [] 0 [] (zeros 71681)
    demo_open2 Hr I) as [T1 _]; [rewrite zeros_length by lia; reflexivity|].
  pose proof (file_write_limit demo_fs 4 (File 0 0 200) demo_ino2 [] 0 [] (zeros 71680)
    demo_open2 Hr I) as [_ T2]; [rewrite zeros_length by lia; reflexivity|].
  rewrite zeros_length in T1, T2 by lia. split; [apply T1|apply T2]; reflexivity.
Defined.
