(* ===== verification/DirSpec.v ===== *)
(** Directories against their entries: what a sector of entries holds as a
    list of named slots, [search_dir_entry] finding the first slot of a name,
    [sync_dir_entry] taking the first free slot, and what goes wrong when it
    has to open a new block. *)

From S2P Require Import Prelude Bitmap Bytes CString Interrupt Thread Sync Ide Layout Inode InodeSpec File Dir FileSpec.

Open Scope Z_scope.

(** ** Slots *)

(** The string at the start of a buffer. *)
Fixpoint cname (b : bytes) : bytes :=
  match b with
  | [] => []
  | x :: b => if x =? 0 then [] else x :: cname b
  end.

Lemma cname_split b : Forall is_byte b -> 0 ∈ b -> exists r, b = cname b ++ 0 :: r /\ cstr (cname b).
Proof.
  induction 1 as [|x b Hx Hb IH]; intros Hin; [by apply elem_of_nil in Hin|]. simpl.
  destruct (Z.eqb_spec x 0) as [->|Hne]; [exists b; split; [done|constructor]|].
  apply elem_of_cons in Hin as [?|Hin]; [done|]. destruct (IH Hin) as (r & E & Hc).
  exists r. simpl. split; [by f_equal|]. constructor; [unfold is_byte in Hx; lia|done].
Qed.

Lemma cname_app s r : cstr s -> cname (s ++ 0 :: r) = s.
Proof. induction 1 as [|x s Hx _ IH]; [done|]. simpl. destruct (Z.eqb_spec x 0); [lia|]. by f_equal. Qed.

Definition slot_name (buf : bytes) (k : Z) : bytes := cname (slice buf (24 * k) 16).

(** A sector of [n] slots, each with a terminated name. *)
Record slots_wf (buf : bytes) (n : Z) : Prop := {
  sw_len : zlen buf = 512;
  sw_fit : 0 <= n /\ 24 * n <= 512;
  sw_bytes : Forall is_byte buf;
  sw_term : forall k, 0 <= k < n -> 0 ∈ slice buf (24 * k) 16
}.

(** [strcmp] on a slot's name sees the name only. *)
Lemma strcmp_slot buf n k nm r : slots_wf buf n -> 0 <= k < n -> cstr nm ->
  strcmp (name_at buf k) (nm ++ 0 :: r) = Ok (lex (csig (slot_name buf k)) (csig nm)).
Proof.
  intros [Hl Hf Hb Ht] Hk Hnm. unfold name_at, slot_name.
  destruct (cname_split (slice buf (24 * k) 16)) as (r1 & E & Hc); [by apply slice_bytes|by apply Ht|].
  assert (Hd : drop (Z.to_nat (24 * k)) buf = slice buf (24 * k) 16 ++ drop 16 (drop (Z.to_nat (24 * k)) buf)).
  { unfold slice. by rewrite (take_drop (Z.to_nat 16)). }
  rewrite Hd, E at 1. rewrite <- app_assoc. simpl. by apply strcmp_ok.
Qed.

(** The first slot from [k] on that satisfies [p]. *)
Fixpoint first_slot (p : Z -> bool) (k : Z) (n : nat) : option Z :=
  match n with
  | O => None
  | S n => if p k then Some k else first_slot p (k + 1) n
  end.

Lemma first_slot_Some p k n j : first_slot p k n = Some j <->
  k <= j < k + Z.of_nat n /\ p j = true /\ forall i, k <= i < j -> p i = false.
Proof.
  revert k. induction n as [|n IH]; intros k; simpl; [split; [done|lia]|].
  destruct (p k) eqn:E.
  - split; [intros [= <-]; split_and!; [lia|lia|done|lia]|]. intros (Hj & Hp & Hi).
    destruct (decide (j = k)) as [->|]; [done|]. rewrite Hi in E by lia. done.
  - rewrite IH. split; intros (Hj & Hp & Hi); split_and!; try lia; try done.
    + intros i Hir. destruct (decide (i = k)) as [->|]; [done|]. apply Hi. lia.
    + destruct (decide (j = k)) as [->|]; [congruence|lia].
    + intros i Hir. apply Hi. lia.
Qed.

Lemma first_slot_None p k n : first_slot p k n = None <-> forall i, k <= i < k + Z.of_nat n -> p i = false.
Proof.
  revert k. induction n as [|n IH]; intros k; simpl; [split; [lia|done]|].
  destruct (p k) eqn:E.
  - split; [done|]. intros Hi. rewrite Hi in E by lia. done.
  - rewrite IH. split; intros Hi i Hir; [|apply Hi; lia].
    destruct (decide (i = k)) as [->|]; [done|]. apply Hi. lia.
Qed.

Lemma first_slot_ext p q k n : (forall i, k <= i < k + Z.of_nat n -> p i = q i) -> first_slot p k n = first_slot q k n.
Proof.
  revert k. induction n as [|n IH]; intros k Hpq; [done|]. simpl. rewrite Hpq by lia.
  destruct (q k); [done|]. apply IH. intros i Hi. apply Hpq. lia.
Qed.

Lemma slot_cstr buf n k : slots_wf buf n -> 0 <= k < n -> cstr (slot_name buf k).
Proof.
  intros [Hl Hf Hb Ht] Hk. destruct (cname_split (slice buf (24 * k) 16)) as (r & _ & Hc);
    [by apply slice_bytes|by apply Ht|done].
Qed.

Lemma lex_eqb a b : cstr a -> cstr b -> (lex (csig a) (csig b) =? 0) = bool_decide (a = b).
Proof.
  intros Ha Hb. case_bool_decide as Hd; [subst; apply Z.eqb_eq; by apply lex_zero|].
  apply Z.eqb_neq. intros E%lex_zero. by apply Hd, csig_inj.
Qed.

Lemma search_sector_ok buf n m k nm r : slots_wf buf n -> cstr nm -> 0 <= k -> k + Z.of_nat m <= n ->
  search_sector buf (nm ++ 0 :: r) k m =
    Ok (entry_at buf <$> first_slot (λ k, bool_decide (slot_name buf k = nm)) k m).
Proof.
  intros Hw Hnm. revert k. induction m as [|m IH]; intros k Hk Hm; [done|]. cbn [search_sector first_slot].
  rewrite (strcmp_slot buf n k nm r Hw) by (done || lia). rcbn.
  rewrite lex_eqb by (done || apply (slot_cstr buf n); (done || lia)).
  destruct (bool_decide _); [done|]. apply IH; lia.
Qed.

Lemma free_entry_ok buf k m : free_entry buf k m = first_slot (λ k, f_type (entry_at buf k) =? 0) k m.
Proof. revert k. induction m as [|m IH]; intros k; [done|]. simpl. destruct (_ =? _); [done|apply IH]. Qed.

(** ** Storing an entry *)

Section store.
Context (buf : bytes) (n k : Z) (de : dir_entry) (Hw : slots_wf buf n) (Hk : 0 <= k < n) (Hde : de_wf de).
Local Abbreviation buf' := (splice buf (24 * k) (encode_de de)).

Lemma store_len : zlen buf' = 512.
Proof.
  destruct Hw as [Hl Hf _ _]. rewrite splice_length; [done|lia|].
  rewrite encode_de_length by done. unfold sizeof_dir_entry. lia.
Qed.

Lemma store_slice j o m : 0 <= j < n -> 0 <= o -> 0 <= m -> o + m <= 24 -> j <> k ->
  slice buf' (24 * j + o) m = slice buf (24 * j + o) m.
Proof.
  intros Hj Ho Hm Hom Hne. destruct Hw as [Hl Hf _ _]. pose proof (encode_de_length de Hde) as Hel.
  unfold sizeof_dir_entry in Hel. apply slice_splice_disjoint; lia.
Qed.

Lemma store_entry j : 0 <= j < n -> entry_at buf' j = if decide (j = k) then de else entry_at buf j.
Proof.
  intros Hj. unfold entry_at. pose proof (encode_de_length de Hde) as Hel. unfold sizeof_dir_entry in Hel.
  destruct Hw as [Hl Hf _ _]. case_decide as Hd.
  - subst j. assert (E : slice buf' (24 * k) (zlen (encode_de de)) = encode_de de) by (apply slice_splice; lia).
    rewrite Hel in E. rewrite E. by apply decode_encode_de.
  - pose proof (store_slice j 0 24) as E. rewrite Z.add_0_r in E. rewrite E by lia. done.
Qed.

Lemma store_name_bytes j : 0 <= j < n ->
  slice buf' (24 * j) 16 = if decide (j = k) then filename de else slice buf (24 * j) 16.
Proof.
  intros Hj. case_decide as Hd.
  - subst j. pose proof (store_entry k Hk) as E. rewrite decide_True in E by done.
    assert (F : filename (entry_at buf' k) = slice buf' (24 * k) 16).
    { unfold entry_at, decode_de. simpl. unfold slice. by rewrite drop_0, take_take. }
    by rewrite <- F, E.
  - pose proof (store_slice j 0 16) as E. rewrite Z.add_0_r in E. apply E; lia.
Qed.

Lemma store_wf : 0 ∈ filename de -> slots_wf buf' n.
Proof.
  intros H0. pose proof Hw as [Hl Hf Hb Ht]. split; [apply store_len|done| |].
  - apply splice_bytes; [done|]. destruct Hde as [_ Hdb _ _]. unfold encode_de.
    apply Forall_app. split; [done|]. apply Forall_app. split; apply le32_bytes.
  - intros j Hj. rewrite store_name_bytes by done. case_decide; [done|by apply Ht].
Qed.

Lemma store_name j : 0 <= j < n ->
  slot_name buf' j = if decide (j = k) then cname (filename de) else slot_name buf j.
Proof. intros Hj. unfold slot_name. rewrite store_name_bytes by done. by case_decide. Qed.
End store.

Lemma zeros_slots : slots_wf (zeros 512) 21.
Proof.
  split; [reflexivity|lia|apply zeros_bytes|]. intros k Hk. unfold slice, zeros.
  rewrite drop_replicate, take_replicate. apply elem_of_replicate. split; [done|]. lia.
Qed.

(** ** Directories of one block *)

Section dir.
Context {H : Type} `{HeapLaws H}.
Implicit Types f : fs H.

Lemma wp_loop_step {S L R} (body : L -> M S (L + R)) l n (Q : R -> S -> Prop) s :
  wp (body l) (λ x s', match x with inl l' => wp (loop n body l') Q s' | inr r => Q r s' end) s ->
  wp (loop (Datatypes.S n) body l) Q s.
Proof. intros Hb. apply wp_bind. eapply wp_mono; [exact Hb|]. by intros [l'|r] s'. Qed.

(** Directory [pd] is open, has one block [b0], and that block is [sec]. *)
Record one_block_dir (f : fs H) (pd : Z) (dd : dir) (i : inode) (b0 : Z) (sec : bytes) : Prop := {
  od_geom : geom f;
  od_geo : geo f (dsk f) (block_bitmap (part f));
  od_files : 0 < zlen (file_table f);
  od_dir : dirs f !! pd = Some dd;
  od_inode : inodes f !! d_inode dd = Some i;
  od_blocks : i_sectors i = b0 :: replicate 12 0;
  od_taken : DS f <= b0 <= max_lba /\ bit (block_bitmap (part f)) (b0 - DS f) = true;
  od_sec : dsk f !! b0 = Some sec;
  od_slots : slots_wf sec 21;
  od_esize : dir_entry_size (sb (part f)) = 24;
  od_size : 0 <= i_size i /\ i_size i mod 24 = 0 /\ i_size i + 48 < 4294967296
}.

Lemma dir_pos f pd dd i b0 sec : one_block_dir f pd dd i b0 sec ->
  608 < b0 <= max_lba /\ ~ (BB f <= b0 < BB f + BL f / 512).
Proof.
  intros O. pose proof (geom_nums f (od_geom _ _ _ _ _ _ O)). destruct (od_taken _ _ _ _ _ _ O) as [? _]. lia.
Qed.

Lemma search_blocks_zeros nm cnt n (Q : option dir_entry -> fs H -> Prop) s :
  Q None s -> wp (search_blocks nm cnt (replicate n 0)) Q s.
Proof. intros HQ. induction n as [|n IH]; [done|]. exact IH. Qed.

Lemma wp_rd_inode_at f a i (Q : inode -> fs H -> Prop) : inodes f !! a = Some i -> Q i f -> wp (rd_inode a) Q f.
Proof. intros Hi HQ. unfold wp, rd_inode. by rewrite Hi. Qed.
Lemma wp_rd_dir_at f a d (Q : dir -> fs H -> Prop) : dirs f !! a = Some d -> Q d f -> wp (rd_dir a) Q f.
Proof. intros Hi HQ. unfold wp, rd_dir. by rewrite Hi. Qed.

Lemma disk_read1 d l s : d !! l = Some s -> l <= max_lba -> disk_read d l 1 = Ok s.
Proof.
  intros Hs Hl. unfold disk_read, ASSERT. rewrite (proj2 (Z.leb_le l max_lba)) by done. rcbn.
  change (0 <? 1) with true. rcbn. change ((1 - 1) / 256 * 256) with 0.
  rewrite Z.add_0_r, (proj2 (Z.leb_le l max_lba)) by done. rcbn.
  change (Z.to_nat 1) with 1%nat. cbn [sectors]. rewrite Hs. cbn. by rewrite app_nil_r.
Qed.

(** [search_dir_entry] finds the first slot with the name. *)
Lemma search_dir_entry_ok f pd dd i b0 sec nm r : one_block_dir f pd dd i b0 sec -> cstr nm -> h_room (heap f) 2 ->
  wp (search_dir_entry pd (nm ++ 0 :: r)) (λ x f', x = entry_at sec <$> first_slot (λ k, bool_decide (slot_name sec k = nm)) 0 21 /\
    exists h, f' = set_heap h f /\ forall x, h_live h x <-> h_live (heap f) x) f.
Proof.
  intros O Hnm Hheap. unfold search_dir_entry.
  apply wp_bind, wp_sys_malloc. intros p1 h1 Hm1.
  rewrite (proj2 (Z.eqb_neq p1 0)) by (apply (malloc_new _ _ _ 1 _ _ Hm1); done).
  apply wp_bind. unfold dir_inode. apply wp_bind. eapply wp_rd_dir_at; [apply (od_dir _ _ _ _ _ _ O)|].
  eapply wp_rd_inode_at; [apply (od_inode _ _ _ _ _ _ O)|].
  apply wp_bind. unfold collect_all, sector_of. rewrite (od_blocks _ _ _ _ _ _ O). cbn [znth negb].
  change (default 0 (znth (b0 :: replicate 12 0) 12) =? 0) with true. cbn [negb]. apply wp_ret.
  apply wp_bind, wp_sys_malloc. intros p2 h2 Hm2. cbn [heap set_heap cur] in Hm2.
  pose proof (two_bufs_ok _ _ _ _ _ _ _ _ _ Hm1 Hm2 ltac:(lia) ltac:(done) Hheap) as Hbufs.
  apply wp_bind, wp_gets. apply wp_bind. rewrite (proj2 (Z.eqb_neq p2 0)) by (apply (tb_2 _ _ _ _ Hbufs)).
  apply wp_ret. cbn [part set_heap]. rewrite (od_esize _ _ _ _ _ _ O). change (Z.to_nat (SECTOR_SIZE / 24)) with 21%nat.
  destruct (dir_pos f pd dd i b0 sec O) as [Hpos _].
  apply wp_bind. change (take 12 (b0 :: replicate 12 0) ++ replicate 128 0) with (b0 :: replicate 139 0).
  cbn [search_blocks]. rewrite (proj2 (Z.eqb_neq b0 0)) by lia.
  apply wp_bind. eapply wp_ide_rd; [apply disk_read1; [apply (od_sec _ _ _ _ _ _ O)|lia]|].
  apply wp_bind. eapply wp_lift; [apply (search_sector_ok sec 21); [apply (od_slots _ _ _ _ _ _ O)|done|lia|lia]|].
  assert (Hend : forall x : option dir_entry, wp (sys_free p2;; sys_free p1;; mret x)
    (λ x' f', x' = x /\ exists h, f' = set_heap h f /\ forall x, h_live h x <-> h_live (heap f) x)
    (set_heap h2 (set_heap h1 f))).
  { intros x. apply (wp_free_bufs _ (heap f)); [exact Hbufs|]. intros h Hl _. split; [done|]. by exists h. }
  destruct (first_slot _ 0 21) as [k|]; [apply wp_ret, Hend|].
  apply search_blocks_zeros, Hend.
Qed.

(** *** [sync_dir_entry] *)

Section sync.
Context (f : fs H) (pd : Z) (dd : dir) (i : inode) (b0 : Z) (sec : bytes) (O : one_block_dir f pd dd i b0 sec).
Context (e0 : file) (He0 : znth (file_table f) 0 = Some e0).
Local Abbreviation a := (d_inode dd).
Local Abbreviation ST := (mk f a 0).

Lemma files_range : 0 <= 0 < zlen (file_table f).
Proof. pose proof (od_files _ _ _ _ _ _ O). lia. Qed.

Lemma grow_dir_ok d b j e h lg (Q : unit -> fs H -> Prop) : 0 <= i_size j -> i_size j + 24 < 4294967296 ->
  Q tt (ST d b (set_isize (i_size j + 24) j) e h lg) -> wp (grow_dir a) Q (ST d b j e h lg).
Proof.
  intros H0' H1' HQ. unfold grow_dir. apply wp_bind, wp_get_sb. apply wp_upd_inode.
  rewrite (od_esize _ _ _ _ _ _ O), u32_small by lia. done.
Qed.

(** The start of the function. *)
Lemma sync_start de (Q : bool -> fs H -> Prop) :
  wp (loop 141 (sync_block_round a de) (0, b0 :: replicate 139 0)) Q f -> wp (sync_dir_entry pd de) Q f.
Proof.
  intros Hl. unfold sync_dir_entry. apply wp_bind. eapply wp_rd_dir_at; [apply (od_dir _ _ _ _ _ _ O)|].
  apply wp_bind. eapply wp_rd_inode_at; [apply (od_inode _ _ _ _ _ _ O)|].
  apply wp_bind, wp_gets. rewrite (od_esize _ _ _ _ _ _ O). apply wp_bind, wp_assert.
  { apply Z.eqb_eq, (od_size _ _ _ _ _ _ O). }
  rewrite (od_blocks _ _ _ _ _ _ O). exact Hl.
Qed.

Lemma self_state : f = ST (dsk f) (block_bitmap (part f)) i e0 (heap f) (klog f).
Proof. apply mk_self; [apply (od_inode _ _ _ _ _ _ O)|done]. Qed.

(** Block 0 has a free slot. *)
Lemma sync_free_slot k de : free_entry sec 0 21 = Some k -> de_wf de ->
  wp (sync_dir_entry pd de) (λ r f', r = true /\
    f' = ST (<[b0 := splice sec (24 * k) (encode_de de)]> (dsk f)) (block_bitmap (part f))
            (set_isize (i_size i + 24) i) e0 (heap f) (klog f)) f.
Proof.
  intros Hfree Hde. pose proof (od_slots _ _ _ _ _ _ O) as Hsl. pose proof (od_size _ _ _ _ _ _ O).
  assert (Hk : 0 <= k < 21) by (rewrite free_entry_ok in Hfree; apply first_slot_Some in Hfree; lia).
  destruct (dir_pos f pd dd i b0 sec O) as [Hpos _].
  apply sync_start, wp_loop_step. unfold sync_block_round. change (0 <? 140) with true. cbv iota.
  match goal with |- wp ?m ?Q f => refine (eq_ind_r (λ s0, wp m Q s0) _ self_state) end.
  apply wp_bind, wp_get_sb. rewrite (od_esize _ _ _ _ _ _ O). change (Z.to_nat (512 / 24)) with 21%nat.
  change (default 0 (znth (b0 :: replicate 139 0) 0)) with b0.
  apply wp_bind. rewrite (proj2 (Z.eqb_neq b0 0)) by lia. apply wp_ret.
  change (default 0 (znth (b0 :: replicate 139 0) 0)) with b0.
  apply wp_bind. eapply wp_ide_rd1; [apply (od_sec _ _ _ _ _ _ O)|lia|]. rewrite Hfree.
  apply wp_bind. eapply wp_ide_wr1; [eexists; apply (od_sec _ _ _ _ _ _ O)|lia|by apply (store_len sec 21 k de)|].
  apply wp_bind, grow_dir_ok; [lia|lia|]. by apply wp_ret.
Qed.

(** The directory afterwards. *)
Lemma dir_after k de : 0 <= k < 21 -> de_wf de -> 0 ∈ filename de -> i_size i + 72 < 4294967296 ->
  one_block_dir (ST (<[b0 := splice sec (24 * k) (encode_de de)]> (dsk f)) (block_bitmap (part f))
    (set_isize (i_size i + 24) i) e0 (heap f) (klog f)) pd dd (set_isize (i_size i + 24) i) b0
    (splice sec (24 * k) (encode_de de)).
Proof.
  intros Hk Hde H0' Hsz. pose proof O as [HG Hg Hf Hd Hi Hbl Htk Hsec Hsl Hes Hsize].
  pose proof (store_wf sec 21 k de Hsl Hk Hde H0') as Hw.
  assert (Hg' : geo f (<[b0 := splice sec (24 * k) (encode_de de)]> (dsk f)) (block_bitmap (part f))).
  { apply geo_write; [done|by eexists|apply (sw_len _ _ Hw)|apply (sw_bytes _ _ Hw)]. }
  split; try done.
  - by apply geom_mk.
  - by apply geo_mk.
  - cbn [file_table mk]. by rewrite zlen_upd.
  - cbn [inodes mk]. by rewrite lookup_insert_eq.
  - cbn [dsk mk]. by rewrite lookup_insert_eq.
  - cbn. split_and!; [lia| |lia]. rewrite Z.add_mod, (proj1 (proj2 Hsize)) by lia. done.
Qed.
End sync.

Lemma lookup_after sec k de nm : slots_wf sec 21 -> 0 <= k < 21 -> de_wf de -> cstr nm ->
  let sec' := splice sec (24 * k) (encode_de de) in
  let look s n := entry_at s <$> first_slot (λ j, bool_decide (slot_name s j = n)) 0 21 in
  (nm = cname (filename de) -> (forall j, 0 <= j < 21 -> slot_name sec j <> nm) -> look sec' nm = Some de) /\
  (nm <> cname (filename de) -> nm <> slot_name sec k -> look sec' nm = look sec nm).
Proof.
  intros Hw Hk Hde Hnm sec' look. unfold look, sec'. split.
  - intros -> Hfresh. rewrite (proj2 (first_slot_Some _ 0 21 k)).
    + simpl. rewrite (store_entry sec 21) by done. by rewrite decide_True.
    + split_and!; [lia|lia| |].
      * rewrite bool_decide_eq_true. rewrite (store_name sec 21) by done. by rewrite decide_True.
      * intros j Hj. rewrite bool_decide_eq_false. rewrite (store_name sec 21) by (done || lia).
        rewrite decide_False by lia. apply Hfresh. lia.
  - intros Hne Hnk.
    assert (Hext : first_slot (λ j, bool_decide (slot_name (splice sec (24 * k) (encode_de de)) j = nm)) 0 21
                   = first_slot (λ j, bool_decide (slot_name sec j = nm)) 0 21).
    { apply first_slot_ext. intros j Hj. rewrite (store_name sec 21) by (done || lia).
      case_decide as Hd; [subst j|done]. by rewrite !bool_decide_eq_false_2. }
    rewrite Hext. destruct (first_slot (λ j, bool_decide (slot_name sec j = nm)) 0 21) as [j|] eqn:Ej; [|reflexivity]. simpl. f_equal.
    apply first_slot_Some in Ej as (Hj & Hb & _). apply bool_decide_eq_true in Hb.
    rewrite (store_entry sec 21) by (done || lia). case_decide; congruence.
Qed.


(** ** A directory that needs a second block *)

(** The sector [sync_dir_entry] leaves behind: the entry in slots 0 and 1. *)
Definition twice (de : dir_entry) : bytes := splice (splice (zeros 512) (24 * 0) (encode_de de)) (24 * 1) (encode_de de).

Section full.
Context (f : fs H) (pd : Z) (dd : dir) (i : inode) (b0 : Z) (sec : bytes) (O : one_block_dir f pd dd i b0 sec).
Context (e0 : file) (He0 : znth (file_table f) 0 = Some e0).
Context (de : dir_entry) (Hde : de_wf de) (Hterm : 0 ∈ filename de) (Hty : f_type de <> 0).
Local Abbreviation a := (d_inode dd).
Local Abbreviation ST := (mk f a 0).

Lemma once_slots : slots_wf (splice (zeros 512) (24 * 0) (encode_de de)) 21.
Proof. apply (store_wf _ 21 0 de); [apply zeros_slots|lia|done|done]. Qed.

Lemma once_free : free_entry (splice (zeros 512) (24 * 0) (encode_de de)) 0 21 = Some 1.
Proof.
  rewrite free_entry_ok. apply first_slot_Some. split_and!; [lia|lia| |].
  - rewrite (store_entry (zeros 512) 21 0 de zeros_slots ltac:(lia) Hde 1 ltac:(lia)). reflexivity.
  - intros j Hj. replace j with 0 by lia. apply Z.eqb_neq.
    rewrite (store_entry (zeros 512) 21 0 de zeros_slots ltac:(lia) Hde 0 ltac:(lia)). by rewrite decide_True.
Qed.

(** The inode with its new block [x]. *)
Definition grown_inode (x : Z) : inode :=
  set_isize (i_size i + 24 + 24) (set_sectors (zupd (i_sectors i) 1 x) i).

Lemma new_dir_block d b e h lg n : geo f d b -> room f b (S n) ->
  wp (dir_new_block a 1 (b0 :: replicate 139 0)) (λ r s, exists x b' d', taken f b' x /\ bit b (x - DS f) = false /\
    r = Some (zupd (b0 :: replicate 139 0) 1 x) /\ geo f d' b' /\ same_but_bitmap f d d' /\
    s = ST d' b' (set_sectors (zupd (i_sectors i) 1 x) i) e h lg) (ST d b i e h lg).
Proof.
  intros Hg Hr. pose proof (od_geom _ _ _ _ _ _ O) as HG. pose proof (geom_nums f HG).
  pose proof (files_range f pd dd i b0 sec O) as Hidx. unfold dir_new_block.
  apply wp_bind. eapply wp_mono; [by apply (alloc_ok f a 0 Hidx HG d b i e h lg n)|].
  intros r s (k & b' & -> & Hk & Hfree & Hb' & Hg' & Hr' & Hus & ->).
  destruct (addr_facts f HG k Hk) as [-> ->]. apply wp_bind, wp_get_sb. fold (DS f).
  rewrite Z.add_simpl_l, (u32_small k), s32_small by lia.
  apply wp_bind, wp_assert; [apply negb_true_iff, Z.eqb_neq; lia|]. rewrite (u32_small k) by lia.
  pose proof (sync_block_ok f a 0 HG d b' i e h lg k Hg' Hk) as Hsync.
  unfold sync_block in Hsync. apply wp_bind_inv in Hsync. unfold get_sb, wp, gets in Hsync.
  cbn [part mk set_bbmp sb] in Hsync. fold (DS f) in Hsync. rewrite Z.add_simpl_l, u32_small in Hsync by lia.
  apply wp_bind. eapply wp_mono; [exact Hsync|]. intros _ s (d' & Hg2 & Hsd & ->).
  change (1 <? 12) with true. cbv iota. apply wp_bind. unfold set_sector. apply wp_upd_inode. apply wp_ret.
  exists (DS f + k), b', d'. split_and!; try done.
  - by apply (new_taken f b b').
  - by rewrite Z.add_simpl_l.
Qed.

Lemma sync_full_block : free_entry sec 0 21 = None -> room f (block_bitmap (part f)) 1 ->
  wp (sync_dir_entry pd de) (λ r f', r = true /\ exists x b' d', 608 < x <= max_lba /\
    d' !! x = Some (twice de) /\ d' !! b0 = Some sec /\
    f' = ST d' b' (grown_inode x) e0 (heap f) (klog f)) f.
Proof.
  intros Hfull Hroom. pose proof (od_slots _ _ _ _ _ _ O) as Hsl. pose proof (od_size _ _ _ _ _ _ O).
  pose proof (od_geom _ _ _ _ _ _ O) as HG. pose proof (od_taken _ _ _ _ _ _ O) as Htk0.
  destruct (dir_pos f pd dd i b0 sec O) as [Hpos Hnb].
  apply (sync_start f pd dd i b0 sec O). apply wp_loop_step. unfold sync_block_round at 1. change (0 <? 140) with true. cbv iota.
  match goal with |- wp ?m ?Q f => refine (eq_ind_r (λ s0, wp m Q s0) _ (self_state f pd dd i b0 sec O e0 He0)) end.
  apply wp_bind, wp_get_sb. rewrite (od_esize _ _ _ _ _ _ O). change (Z.to_nat (512 / 24)) with 21%nat.
  change (default 0 (znth (b0 :: replicate 139 0) 0)) with b0.
  apply wp_bind. rewrite (proj2 (Z.eqb_neq b0 0)) by lia. apply wp_ret.
  change (default 0 (znth (b0 :: replicate 139 0) 0)) with b0.
  apply wp_bind. eapply wp_ide_rd1; [apply (od_sec _ _ _ _ _ _ O)|lia|]. rewrite Hfull. apply wp_ret.
  (* the second block *)
  cbv beta iota. refine (wp_loop_step _ _ 139 _ _ _). unfold sync_block_round at 1. change (0 + 1 <? 140) with true. cbv iota. change (0 + 1) with 1.
  apply wp_bind, wp_get_sb. rewrite (od_esize _ _ _ _ _ _ O). change (Z.to_nat (512 / 24)) with 21%nat.
  change (default 0 (znth (b0 :: replicate 139 0) 1) =? 0) with true. cbv iota.
  apply wp_bind, wp_bind. eapply wp_mono; [by apply (new_dir_block _ _ e0 (heap f) (klog f) 0 (od_geo _ _ _ _ _ _ O))|].
  intros r s (x & b' & d' & Htk & Hfree & -> & Hg' & Hsd & ->).
  destruct (taken_pos f HG _ x Htk) as (Hx & _ & _). destruct (taken_sector f d' b' x Hg' Htk) as [s0 Hs0].
  change (default 0 (znth (zupd (b0 :: replicate 139 0) 1 x) 1)) with x.
  apply wp_bind. eapply wp_ide_wr1; [by eexists|lia|apply (sw_len _ _ once_slots)|].
  apply wp_bind, (grow_dir_ok f pd dd i b0 sec O); [cbn; lia|cbn; lia|]. apply wp_ret, wp_bind.
  change (default 0 (znth (zupd (b0 :: replicate 139 0) 1 x) 1)) with x.
  eapply wp_ide_rd1; [apply lookup_insert_eq|lia|]. change 0 with (24 * 0) at 1. rewrite once_free.
  apply wp_bind. eapply wp_ide_wr1; [rewrite lookup_insert_eq; by eexists|lia|
    apply (store_len _ 21 1 de once_slots); [lia|done]|].
  apply wp_bind, (grow_dir_ok f pd dd i b0 sec O); [cbn; lia|cbn; lia|]. apply wp_ret.
  split; [done|]. eexists x, b', _. split; [done|]. split; [apply lookup_insert_eq|]. split; [|reflexivity].
  assert (x <> b0). { intros ->. destruct Htk0 as (_ & E). congruence. }
  rewrite !lookup_insert_ne by done. by rewrite Hsd; [apply (od_sec _ _ _ _ _ _ O)|].
Qed.

(** *** Deleting it *)

Lemma delete_scan_hit buf k n st ino : slots_wf buf 21 -> 0 <= k < 21 ->
  f_type (entry_at buf k) <> 0 -> de_i_no (entry_at buf k) = ino ->
  slot_name buf k <> [46] -> slot_name buf k <> [46; 46] ->
  delete_scan buf ino k (S n) st =
    match entry_found st with
    | None => delete_scan buf ino (k + 1) n (Scan (is_dir_first_block st) (u8 (dir_entry_cnt st + 1)) (Some k))
    | Some _ => Panic "dir_entry_found == NULL"
    end.
Proof.
  intros Hw Hk Ht Hi H1' H2'. cbn [delete_scan]. change (ft_code FT_UNKNOWN) with 0.
  rewrite (proj2 (Z.eqb_neq _ 0) Ht). cbn [negb].
  pose proof (slot_cstr buf 21 k Hw Hk) as Hc.
  assert (Hd1 : cstr [46]) by (repeat constructor; lia). assert (Hd2 : cstr [46; 46]) by (repeat constructor; lia).
  pose proof (strcmp_slot buf 21 k [46] [] Hw Hk Hd1) as E1. pose proof (strcmp_slot buf 21 k [46; 46] [] Hw Hk Hd2) as E2.
  change ([46] ++ [0]) with dot in E1. change ([46; 46] ++ [0]) with dotdot in E2. rewrite E1. rcbn. rewrite lex_eqb by done.
  rewrite (bool_decide_eq_false_2 _ H1').
  rewrite E2. rcbn. rewrite lex_eqb by done.
  rewrite (bool_decide_eq_false_2 _ H2'). cbn [negb]. rewrite Hi, Z.eqb_refl.
  destruct (entry_found st); [|rewrite bool_decide_eq_true_2 by done; reflexivity].
  rewrite bool_decide_eq_false_2 by done. reflexivity.
Qed.

Lemma twice_slots : slots_wf (twice de) 21.
Proof. apply store_wf; [apply once_slots|lia|done|done]. Qed.

Lemma twice_entry k : k = 0 \/ k = 1 -> entry_at (twice de) k = de /\ slot_name (twice de) k = cname (filename de).
Proof.
  intros Hk. unfold twice. rewrite (store_entry _ 21 1 de once_slots), (store_name _ 21 1 de once_slots) by (done || lia).
  destruct Hk as [-> | ->]; [|by rewrite !decide_True].
  rewrite !(decide_False (P := 0 = 1)) by lia.
  rewrite (store_entry _ 21 0 de zeros_slots), (store_name _ 21 0 de zeros_slots) by (done || lia).
  by rewrite !decide_True.
Qed.

Lemma delete_scan_twice : cname (filename de) <> [46] -> cname (filename de) <> [46; 46] ->
  delete_scan (twice de) (de_i_no de) 0 21 (Scan false 0 None) = Panic "dir_entry_found == NULL".
Proof.
  intros Hn1 Hn2. destruct (twice_entry 0 ltac:(auto)) as [E0 N0]. destruct (twice_entry 1 ltac:(auto)) as [E1 N1].
  rewrite (delete_scan_hit _ 0 20); [|apply twice_slots|lia|by rewrite E0|by rewrite E0|by rewrite N0|by rewrite N0].
  cbn [entry_found]. change (0 + 1) with 1.
  rewrite (delete_scan_hit _ 1 19); [|apply twice_slots|lia|by rewrite E1|by rewrite E1|by rewrite N1|by rewrite N1].
  done.
Qed.

(** What happens on the blocks [b0] and [x] of the grown directory. *)
Lemma delete_panics d b x h lg st : 608 < x <= max_lba -> 608 < b0 <= max_lba ->
  d !! x = Some (twice de) -> d !! b0 = Some sec ->
  cname (filename de) <> [46] -> cname (filename de) <> [46; 46] ->
  delete_scan sec (de_i_no de) 0 21 (Scan false 0 None) = Ok st -> entry_found st = None ->
  delete_dir_entry pd (de_i_no de) (ST d b (grown_inode x) e0 h lg) = Panic "dir_entry_found == NULL".
Proof.
  intros Hx Hb0 Hdx Hdb Hn1 Hn2 Hst Hnone. unfold delete_dir_entry.
  set (s := ST d b (grown_inode x) e0 h lg).
  assert (Hd : rd_dir pd s = Ok (dd, s)) by (unfold rd_dir; cbn [dirs mk s]; by rewrite (od_dir _ _ _ _ _ _ O)).
  assert (Hi : rd_inode a s = Ok (grown_inode x, s)) by (unfold rd_inode; cbn [inodes mk s]; by rewrite lookup_insert_eq).
  rewrite (bind_ok _ _ _ _ _ Hd), (bind_ok _ _ _ _ _ Hi).
  assert (Hc : collect_all (grown_inode x) s = Ok (b0 :: x :: replicate 138 0, s)).
  { unfold collect_all, sector_of, grown_inode. cbn [i_sectors set_isize set_sectors].
    by rewrite (od_blocks _ _ _ _ _ _ O). }
  rewrite (bind_ok _ _ _ _ _ Hc). set (ab := b0 :: x :: replicate 138 0).
  assert (Hrd : forall l sc, d !! l = Some sc -> l <= max_lba -> ide_rd l 1 s = Ok (sc, s)).
  { intros l sc Hl Hm. unfold ide_rd. cbn [dsk mk s]. by rewrite (disk_read1 d l sc). }
  assert (Hsb : get_sb s = Ok (sb (part f), s)) by done.
  assert (Hr0 : delete_round a (de_i_no de) ab 0 s = Ok (inl 1, s)).
  { unfold delete_round. change (default 0 (znth ab 0)) with b0. change (0 <? 140) with true.
    rewrite (proj2 (Z.eqb_neq b0 0)) by lia. cbv iota zeta.
    rewrite (bind_ok _ _ _ _ _ Hsb), (bind_ok _ _ _ _ _ (Hrd b0 sec Hdb ltac:(lia))).
    rewrite (od_esize _ _ _ _ _ _ O). change (Z.to_nat (SECTOR_SIZE / 24)) with 21%nat. rewrite Hst.
    erewrite bind_ok by reflexivity. by rewrite Hnone. }
  assert (Hr1 : delete_round a (de_i_no de) ab 1 s = Panic "dir_entry_found == NULL").
  { unfold delete_round. change (default 0 (znth ab 1)) with x. change (1 <? 140) with true.
    rewrite (proj2 (Z.eqb_neq x 0)) by lia. cbv iota zeta.
    rewrite (bind_ok _ _ _ _ _ Hsb), (bind_ok _ _ _ _ _ (Hrd x _ Hdx ltac:(lia))).
    rewrite (od_esize _ _ _ _ _ _ O). change (Z.to_nat (SECTOR_SIZE / 24)) with 21%nat.
    rewrite delete_scan_twice by done. by apply bind_panic. }
  change 141%nat with (S (S 139)). cbn [loop]. rewrite (bind_ok _ _ _ _ _ Hr0). by apply bind_panic.
Qed.
End full.

(** C38: an entry that opens a new block is stored twice.  When the only block
    of a directory is full, [sync_dir_entry] writes the new entry to slot 0 of
    a new block, goes on as if the block had been there before and writes it
    to slot 1 as well, counting it twice in the directory's size; deleting
    the entry afterwards ([sys_unlink], [sys_rmdir]) then runs into the
    assertion that an inode number occurs once, and the kernel stops. *)
Theorem dir_entry_stored_twice f pd dd i b0 sec de st : one_block_dir f pd dd i b0 sec ->
  free_entry sec 0 21 = None -> room f (block_bitmap (part f)) 1 ->
  de_wf de -> 0 ∈ filename de -> f_type de <> 0 ->
  cname (filename de) <> [46] -> cname (filename de) <> [46; 46] ->
  delete_scan sec (de_i_no de) 0 21 (Scan false 0 None) = Ok st -> entry_found st = None ->
  exists f' j, sync_dir_entry pd de f = Ok (true, f') /\ inodes f' !! d_inode dd = Some j /\
    i_size j = i_size i + 48 /\ delete_dir_entry pd (de_i_no de) f' = Panic "dir_entry_found == NULL".
Proof.
  intros O Hfull Hroom Hde Hterm Hty Hn1 Hn2 Hst Hnone.
  destruct (znth_is_Some (file_table f) 0 (files_range f pd dd i b0 sec O)) as [e0 He0].
  destruct (dir_pos f pd dd i b0 sec O) as [Hpos _].
  pose proof (sync_full_block f pd dd i b0 sec O e0 He0 de Hde Hterm Hty Hfull Hroom) as Hs.
  apply wp_run in Hs as (r & f' & Hrun & -> & x & b' & d' & Hx & Hdx & Hdb & ->).
  eexists _, (grown_inode i x). split; [exact Hrun|]. split_and!.
  - cbn [inodes mk]. apply lookup_insert_eq.
  - simpl. lia.
  - by eapply delete_panics.
Qed.

(** C39: the loop of [delete_dir_entry] that counts the indirect blocks never
    ends: whatever the table holds, no number of rounds is enough. *)
Theorem count_indirect_diverges fuel ab f : count_indirect fuel ab f = NoFuel.
Proof.
  unfold count_indirect.
  match goal with |- loop _ ?g _ _ = _ => enough (Hn : forall n, loop fuel g (12, n) f = NoFuel) by apply Hn end.
  induction fuel as [|fuel IH]; intros n; [done|]. cbn [loop]. erewrite bind_ok by reflexivity. apply IH.
Qed.
End dir.

Lemma geom_set_dirs {H} (f : fs H) x : geom f -> geom (set_dirs x f).
Proof. by intros []. Qed.
Lemma geo_set_dirs {H} (f : fs H) x d b : geo f d b -> geo (set_dirs x f) d b.
Proof. by intros []. Qed.

(** ** The theorems on an example: the root directory, with free slots and full *)

Definition demo_entry (c no : Z) : dir_entry := DirEntry ([c] ++ replicate 15 0) no 1.
Definition demo_slots (n : Z) : bytes :=
  concat (map (λ k, encode_de (demo_entry (97 + k) (5 + k))) (seqZ 0 n)) ++ zeros (512 - 24 * n).

Definition demo_dir (n : Z) : fs (gset Z) :=
  set_dirs {[ROOT_DIR := Dir 300 0 (zeros 512)]}
    (mk demo_fs 300 0 (<[620 := demo_slots n]> demo_dsk) demo_bbmp
      (Inode 0 (24 * n) 1 0 (620 :: replicate 12 0)) (File 0 0 0) {[100; 200; 300]} []).

Lemma demo_slots_wf n : n = 5 \/ n = 21 -> slots_wf (demo_slots n) 21.
Proof.
  intros Hn. assert (Hall : Forall (λ k, 0 ∈ slice (demo_slots n) (24 * k) 16) (seqZ 0 21)).
  { destruct Hn as [-> | ->]; apply (bool_decide_unpack _); vm_compute; exact I. }
  rewrite Forall_forall in Hall. split; [by destruct Hn as [-> | ->]|lia| |].
  - destruct Hn as [-> | ->]; apply (bool_decide_unpack _); vm_compute; exact I.
  - intros k Hk. apply Hall, elem_of_seqZ. lia.
Qed.

Lemma demo_dir_ok n : n = 5 \/ n = 21 ->
  one_block_dir (demo_dir n) ROOT_DIR (Dir 300 0 (zeros 512)) (Inode 0 (24 * n) 1 0 (620 :: replicate 12 0)) 620 (demo_slots n).
Proof.
  intros Hn. pose proof (demo_slots_wf n Hn) as Hw.
  assert (Hg : geo demo_fs (<[620 := demo_slots n]> demo_dsk) demo_bbmp).
  { apply geo_write; [apply demo_geo|apply demo_sector; lia|apply (sw_len _ _ Hw)|apply (sw_bytes _ _ Hw)]. }
  pose proof (geom_mk demo_fs 300 0 _ _ (Inode 0 (24 * n) 1 0 (620 :: replicate 12 0)) (File 0 0 0) {[100; 200; 300]} []
    demo_geom Hg) as HG.
  pose proof (geo_mk demo_fs 300 0 _ _ (Inode 0 (24 * n) 1 0 (620 :: replicate 12 0)) (File 0 0 0) {[100; 200; 300]} [] Hg) as Hg'.
  split.
  - by apply geom_set_dirs.
  - by apply geo_set_dirs.
  - reflexivity.
  - apply lookup_insert_eq.
  - apply lookup_insert_eq.
  - reflexivity.
  - split; [vm_compute; split; congruence|reflexivity].
  - apply lookup_insert_eq.
  - exact Hw.
  - reflexivity.
  - destruct Hn as [-> | ->]; vm_compute; split_and!; congruence.
Qed.

Lemma demo_de_wf : de_wf (demo_entry 122 77).
Proof. split; [reflexivity|apply (bool_decide_unpack _); vm_compute; exact I|split; vm_compute; congruence|split; vm_compute; congruence]. Qed.


Lemma dir_entry_stored_twice_witness :
  exists f', sync_dir_entry ROOT_DIR (demo_entry 122 77) (demo_dir 21) = Ok (true, f') /\
    delete_dir_entry ROOT_DIR 77 f' = Panic "dir_entry_found == NULL".
Proof.
  destruct (dir_entry_stored_twice (demo_dir 21) ROOT_DIR (Dir 300 0 (zeros 512))
    (Inode 0 504 1 0 (620 :: replicate 12 0)) 620 (demo_slots 21) (demo_entry 122 77) (Scan false 21 None))
    as (f' & j & Hs & _ & _ & Hd).
  - apply (demo_dir_ok 21). by right.
  - vm_compute. reflexivity.
  - eapply room_le; [apply demo_room|vm_compute; repeat constructor].
  - apply demo_de_wf.
  - apply (bool_decide_unpack _). vm_compute. exact I.
  - discriminate.
  - discriminate.
  - discriminate.
  - vm_compute. reflexivity.
  - reflexivity.
  - exists f'. split; [exact Hs|exact Hd].
Defined.
