(* ===== verification/FormatSpec.v ===== *)
(** fs/fs.c: what [partition_format] writes is what [mount_partition] reads. *)

From S2P Require Import Prelude Bitmap Bytes CString Interrupt Thread Sync Ide Layout Inode InodeSpec File Dir Path Fs FileSpec.

Open Scope Z_scope.

Lemma zupd_bytes l i x : Forall is_byte l -> is_byte x -> Forall is_byte (zupd l i x).
Proof. intros Hl Hx. unfold zupd. destruct (i <? 0); [done|]. by apply Forall_insert. Qed.

(** ** The layout, in numbers *)

Section numbers.
Context (st cnt : Z) (Hst : 0 <= st) (Hcnt : 620 <= cnt) (Hend : st + cnt <= max_lba).

(** Free sectors, the blocks the bitmap is meant to have, its sectors. *)
Definition fmt_free : Z := cnt - 611.
Definition fmt_blocks : Z := fmt_free - (fmt_free + 4095) / 4096.
Definition fmt_sects : Z := (fmt_blocks + 4095) / 4096.

Lemma fmt_bounds : 8 <= fmt_blocks <= 163839 /\ 1 <= fmt_sects <= 40 /\ fmt_blocks <= 4096 * fmt_sects < fmt_blocks + 4096 /\
  fmt_sects <= (fmt_free + 4095) / 4096 /\ fmt_blocks + fmt_sects + 611 <= cnt.
Proof. change max_lba with 163839 in Hend. unfold fmt_sects, fmt_blocks, fmt_free. dlia. Qed.

Definition fmt_sb : super_block :=
  SuperBlock FS_MAGIC cnt 4096 st (st + 2) fmt_sects (st + 2 + fmt_sects) 1 (st + 3 + fmt_sects) 608 (st + 611 + fmt_sects) 0 24.

Lemma div_round_up_eq x s : 0 <= x < 4294000000 -> 0 < s <= 4096 -> DIV_ROUND_UP x s = (x + (s - 1)) / s.
Proof. intros Hx Hs. unfold DIV_ROUND_UP. rewrite u32_small by lia. f_equal. lia. Qed.

Lemma format_sb_eq : format_sb st cnt = (fmt_sb, fmt_blocks).
Proof.
  pose proof fmt_bounds as Hb. change max_lba with 163839 in Hend. unfold format_sb.
  change (DIV_ROUND_UP MAX_FILES_PER_PART BITS_PER_SECTOR) with 1.
  change (DIV_ROUND_UP (sizeof_inode * MAX_FILES_PER_PART) SECTOR_SIZE) with 608. change (1 + 1 + 1 + 608) with 611.
  unfold BITS_PER_SECTOR. cbv zeta. rewrite (u32_small (cnt - 611)) by lia. fold fmt_free.
  assert (Hf : 0 <= fmt_free < 4294000000) by (unfold fmt_free; lia).
  rewrite (div_round_up_eq fmt_free) by lia. change (4096 - 1) with 4095.
  assert (E : u32 (fmt_free - (fmt_free + 4095) / 4096) = fmt_blocks) by (rewrite u32_small; [done|unfold fmt_blocks in Hb; lia]).
  rewrite E, (div_round_up_eq fmt_blocks) by lia. change (4096 - 1) with 4095. fold fmt_sects.
  rewrite !u32_small by lia. unfold fmt_sb. do 2 f_equal; lia.
Qed.

Lemma fmt_sb_words : Forall is_u32 (sb_words fmt_sb).
Proof.
  pose proof fmt_bounds as Hb. change max_lba with 163839 in Hend.
  unfold sb_words, fmt_sb, is_u32, FS_MAGIC. cbn. repeat (apply Forall_cons; split; [lia|]). by apply Forall_nil.
Qed.

(** ** The block bitmap *)

Lemma clear_low_bits_bit last r : 0 <= last < 8 -> 0 <= r < 8 -> Z.testbit (clear_low_bits 255 last) r = (last <? r).
Proof.
  intros Hl Hr. assert (Hn : exists n m, (n < 8)%nat /\ (m < 8)%nat /\ last = Z.of_nat n /\ r = Z.of_nat m).
  { exists (Z.to_nat last), (Z.to_nat r). lia. }
  destruct Hn as (n & m & Hn & Hm & -> & ->). do 8 (destruct n as [|n]; [do 8 (destruct m as [|m]; [by vm_compute|]); lia|]). lia.
Qed.
Lemma clear_low_bits_byte last : 0 <= last < 8 -> is_byte (clear_low_bits 255 last).
Proof.
  intros Hl. assert (Hn : exists n, (n < 8)%nat /\ last = Z.of_nat n) by (exists (Z.to_nat last); lia). destruct Hn as (n & Hn & ->).
  unfold is_byte. do 8 (destruct n as [|n]; [by vm_compute|]). lia.
Qed.
(** The bitmap as [partition_format] makes it in a zeroed buffer. *)
Definition fmt_bits (n : Z) : bytes :=
  zupd (splice (zupd (zeros n) 0 1) (fmt_blocks / 8) (replicate (Z.to_nat (512 - fmt_blocks / 8 mod 512)) 255))
    (fmt_blocks / 8) (clear_low_bits 255 (fmt_blocks mod 8)).

Lemma fmt_splice_fits n : 40 * 512 + 512 <= n -> zlen (zeros n) = n /\ 0 <= fmt_blocks / 8 /\
  fmt_blocks / 8 + zlen (replicate (Z.to_nat (512 - fmt_blocks / 8 mod 512)) 255) <= zlen (zupd (zeros n) 0 1).
Proof.
  intros Hn. pose proof fmt_bounds as Hb. rewrite zlen_upd, zeros_length by lia. unfold zlen. rewrite length_replicate. dlia.
Qed.

Lemma format_block_bitmap_eq n : 40 * 512 + 512 <= n -> format_block_bitmap (zeros n) fmt_blocks = Ok (fmt_bits n).
Proof.
  intros Hn. pose proof fmt_bounds as Hb. destruct (fmt_splice_fits n Hn) as (Hz & H0 & Hfit). unfold format_block_bitmap.
  assert (E0 : znth (zeros n) 0 = Some 0) by (unfold znth, zeros; apply lookup_replicate_2; lia).
  rewrite E0. cbn [of_option mbind res_bind]. change (u8 (Z.lor 0 1)) with 1. unfold SECTOR_SIZE.
  unfold zlen at 1 in Hfit. rewrite length_replicate in Hfit.
  rewrite (proj2 (Z.ltb_ge _ _)) by dlia. rewrite znth_splice by (done || (unfold zlen at 1; rewrite length_replicate; lia)).
  rewrite decide_True by (unfold zlen; rewrite length_replicate; dlia). rewrite Z.sub_diag.
  assert (E1 : znth (replicate (Z.to_nat (512 - fmt_blocks / 8 mod 512)) 255) 0 = Some 255).
  { unfold znth. apply lookup_replicate_2. dlia. }
  rewrite E1. cbn [of_option mbind res_bind]. rewrite u8_small by dlia. done.
Qed.

Lemma fmt_bits_wf n : 40 * 512 + 512 <= n -> zlen (fmt_bits n) = n /\ Forall is_byte (fmt_bits n).
Proof.
  intros Hn. destruct (fmt_splice_fits n Hn) as (Hz & H0 & Hfit). unfold fmt_bits. split.
  - by rewrite zlen_upd, splice_length, zlen_upd.
  - apply zupd_bytes; [|by apply clear_low_bits_byte; dlia]. apply splice_bytes.
    + apply zupd_bytes; [apply zeros_bytes|unfold is_byte; lia].
    + apply Forall_replicate. unfold is_byte. lia.
Qed.

(** Block 0 and everything after block [fmt_blocks] is taken - the block with
    the number [fmt_blocks] itself is not. *)
Lemma fmt_bits_bit n k len : 40 * 512 + 512 <= n -> 0 <= k < 4096 * fmt_sects ->
  bit (Bitmap len (take (Z.to_nat (fmt_sects * 512)) (fmt_bits n))) k = negb ((1 <=? k) && (k <=? fmt_blocks)).
Proof.
  intros Hn Hk. pose proof fmt_bounds as Hb. destruct (fmt_splice_fits n Hn) as (Hz & H0 & Hfit).
  unfold bit. cbn [bits]. rewrite znth_take by dlia. unfold fmt_bits.
  set (lb := fmt_blocks / 8) in *. set (ones := replicate _ 255) in *.
  assert (Hones : zlen ones = 512 - lb mod 512) by (unfold ones, zlen; rewrite length_replicate; dlia).
  destruct (decide (k / 8 = lb)) as [E|E].
  - rewrite E, znth_upd_eq by (rewrite splice_length by done; dlia). rewrite clear_low_bits_bit by dlia. unfold lb in *.
    destruct (Z.ltb_spec (fmt_blocks mod 8) (k mod 8)), (Z.leb_spec 1 k), (Z.leb_spec k fmt_blocks); cbn; try done; dlia.
  - rewrite znth_upd_ne by done. rewrite znth_splice by done. case_decide as Hd.
    + assert (E1 : znth ones (k / 8 - lb) = Some 255).
      { unfold znth. destruct (Z.ltb_spec (k / 8 - lb) 0); [lia|]. apply lookup_replicate_2. rewrite Hones in Hd. lia. }
      rewrite E1. assert (Ht : Z.testbit 255 (k mod 8) = true).
      { change 255 with (Z.ones 8). apply Z.ones_spec_low. dlia. }
      rewrite Ht. unfold lb in *. destruct (Z.leb_spec k fmt_blocks); [dlia|]. by rewrite andb_false_r.
    + assert (Hlt : k / 8 < lb) by (unfold lb, fmt_sects in *; rewrite Hones in Hd; dlia).
      assert (Hle : (k <=? fmt_blocks) = true) by (apply Z.leb_le; unfold lb in *; dlia). rewrite Hle, andb_true_r.
      destruct (decide (k / 8 = 0)) as [E0|E0].
      * rewrite E0, znth_upd_eq by lia. destruct (Z.leb_spec 1 k); cbn [negb].
        -- change 1 with (2 ^ 0). apply Z.pow2_bits_false. dlia.
        -- replace (k mod 8) with 0 by dlia. done.
      * rewrite znth_upd_ne by done. unfold zeros, znth. destruct (Z.ltb_spec (k / 8) 0); [dlia|].
        rewrite lookup_replicate_2 by dlia. rewrite Z.bits_0. destruct (Z.leb_spec 1 k); [done|dlia].
Qed.
End numbers.

(** The first bit of a map of zeros. *)
Lemma first_bit n w len k : w <= n -> 0 <= k < 8 * w -> bit (Bitmap len (take (Z.to_nat w) (1 :: zeros n))) k = (k =? 0).
Proof.
  intros Hn Hk. unfold bit. cbn [bits]. rewrite znth_take by dlia. unfold zeros, znth. destruct (Z.ltb_spec (k / 8) 0); [dlia|].
  destruct (Z.to_nat (k / 8)) as [|m] eqn:E.
  - cbn. destruct (Z.eqb_spec k 0) as [->|Hne]; [done|]. change 1 with (2 ^ 0). apply Z.pow2_bits_false. dlia.
  - change ((1 :: replicate (Z.to_nat n) 0) !! S m) with (replicate (Z.to_nat n) 0 !! m). rewrite lookup_replicate_2 by dlia.
    rewrite Z.bits_0. destruct (Z.eqb_spec k 0); [|done]. subst k. discriminate E.
Qed.

(** ** Sectors written and read *)

Lemma put_sectors_dom d lba n buf : (forall l, lba <= l < lba + Z.of_nat n -> is_Some (d !! l)) -> dom (put_sectors d lba n buf) = dom d.
Proof.
  intros Hs. apply set_eq. intros l. rewrite !elem_of_dom, lookup_put_sectors. case_decide; [|done]. split; [intros _; by apply Hs|done].
Qed.

Lemma disk_write_ok d lba n buf : (forall l, lba <= l < lba + n -> is_Some (d !! l)) -> 0 <= lba -> 0 < n -> lba + n <= max_lba ->
  n * 512 <= zlen buf -> disk_write d lba buf n = Ok (put_sectors d lba (Z.to_nat n) buf).
Proof.
  intros Hs Hl Hn Hm Hb. unfold disk_write, ASSERT. rewrite (proj2 (Z.leb_le lba max_lba)) by lia. rewrite (proj2 (Z.ltb_lt 0 n)) by lia.
  rewrite (proj2 (Z.leb_le _ max_lba)) by dlia. cbn [mbind res_bind].
  destruct (proj2 (sectors_is_Some d lba (Z.to_nat n))) as [x ->]; [intros; apply Hs; lia|]. by rewrite (proj2 (Z.ltb_ge _ _)) by lia.
Qed.

Lemma sectors_ext d d' lba n : (forall l, lba <= l < lba + Z.of_nat n -> d' !! l = d !! l) -> sectors d' lba n = sectors d lba n.
Proof.
  revert lba. induction n as [|n IH]; intros lba Hl; [done|]. cbn [sectors]. rewrite Hl by lia. by rewrite IH by (intros; apply Hl; lia).
Qed.

(** [d] has [buf] in the [n] sectors from [lba]. *)
Definition has (d : disk) (lba n : Z) (buf : bytes) : Prop := sectors d lba (Z.to_nat n) = Some (take (Z.to_nat (n * 512)) buf).

Lemma has_put d lba n buf : 0 <= n -> has (put_sectors d lba (Z.to_nat n) buf) lba n buf.
Proof.
  intros Hn. unfold has. rewrite (sectors_put_same d lba (Z.to_nat n) buf (Z.to_nat n)) by lia.
  unfold slice. rewrite Z.sub_diag, drop_0. do 2 f_equal. lia.
Qed.
Lemma has_other d lba n buf lba' n' buf' : 0 <= n' -> lba + n <= lba' \/ lba' + n' <= lba -> has d lba n buf ->
  has (put_sectors d lba' (Z.to_nat n') buf') lba n buf.
Proof. intros Hn Hor Hh. unfold has. rewrite <- Hh. apply sectors_ext. intros l Hl. rewrite lookup_put_sectors. case_decide; [lia|done]. Qed.

Lemma has_read d lba n buf : has d lba n buf -> 0 < n -> lba + n <= max_lba -> disk_read d lba n = Ok (take (Z.to_nat (n * 512)) buf).
Proof.
  intros Hh Hn Hm. unfold disk_read, ASSERT. rewrite (proj2 (Z.leb_le lba max_lba)) by lia. rewrite (proj2 (Z.ltb_lt 0 n)) by lia.
  rewrite (proj2 (Z.leb_le _ max_lba)) by dlia. cbn [mbind res_bind]. by rewrite Hh.
Qed.

(** Bytes put at the start of a zeroed buffer are the first on the disk. *)
Lemma has_bytes d lba n N src : disk_wf d -> has d lba n (splice (zeros N) 0 src) -> 0 < n -> zlen src <= 512 <= N ->
  disk_bytes d (512 * lba) (zlen src) = src.
Proof.
  intros Hwf Hh Hn Hl. unfold has in Hh. destruct (Z.to_nat n) as [|m] eqn:E; [lia|]. cbn [sectors] in Hh.
  apply bind_Some in Hh as (s & Hs & (r & _ & Hr)%bind_Some). injection Hr as Hr. destruct (Hwf _ _ Hs) as [Hlen _].
  pose proof (zlen_nonneg src). pose proof (zeros_length N ltac:(lia)) as HzN.
  apply disk_bytes_eq; [done|]. intros k Hk. destruct (divmod_512 lba k ltac:(lia)) as [E1 E2]. unfold dbyte. rewrite E1, E2, Hs. cbn [mbind option_bind].
  transitivity (znth (s ++ r) k); [by rewrite znth_app_l by lia|]. rewrite Hr, znth_take by lia. rewrite znth_splice by lia.
  rewrite decide_True by lia. f_equal. lia.
Qed.

Section steps.
Context {H : Type} `{HeapLaws H}.
Implicit Types f : fs H.

(** A write into the part of the disk that starts at [st] and has [cnt]
    sectors. *)
Lemma wp_part_wr f st cnt lba n buf (Q : unit -> fs H -> Prop) : (forall l, st <= l < st + cnt -> is_Some (dsk f !! l)) ->
  disk_wf (dsk f) -> st + cnt <= max_lba -> 0 <= st <= lba -> 0 < n -> lba + n <= st + cnt -> n * 512 <= zlen buf -> Forall is_byte buf ->
  (forall d, d = put_sectors (dsk f) lba (Z.to_nat n) buf -> disk_wf d -> dom d = dom (dsk f) ->
    (forall l, st <= l < st + cnt -> is_Some (d !! l)) -> Q tt (set_dsk d f)) ->
  wp (ide_wr lba buf n) Q f.
Proof.
  intros Hs Hwf Hm Hl Hn Hend Hb Hby HQ.
  assert (Hw : disk_write (dsk f) lba buf n = Ok (put_sectors (dsk f) lba (Z.to_nat n) buf)) by (apply disk_write_ok; [intros; apply Hs| | | |]; lia).
  destruct (disk_write_wf (dsk f) lba buf n _ Hwf Hby ltac:(lia) Hw) as [Hwf' _].
  assert (Hdom : dom (put_sectors (dsk f) lba (Z.to_nat n) buf) = dom (dsk f)) by (apply put_sectors_dom; intros; apply Hs; lia).
  eapply wp_ide_wr; [exact Hw|]. apply HQ; try done. intros l Hr. apply elem_of_dom. rewrite Hdom. apply elem_of_dom. by apply Hs.
Qed.

Lemma wp_has_rd f lba n buf (Q : bytes -> fs H -> Prop) : has (dsk f) lba n buf -> 0 < n -> lba + n <= max_lba ->
  Q (take (Z.to_nat (n * 512)) buf) f -> wp (ide_rd lba n) Q f.
Proof. intros Hh Hn Hm HQ. eapply wp_ide_rd; [by apply has_read|exact HQ]. Qed.

(** An allocation of any size that succeeds. *)
Lemma wp_big_malloc f sz (Q : Z -> fs H -> Prop) : (forall kern sz (h : H), fst (h_malloc kern sz h) <> 0) ->
  (forall a h, a <> 0 -> ~ h_live (heap f) a -> (forall y, h_live h y <-> h_live (heap f) y \/ y = a) -> Q a (set_heap h f)) ->
  wp (sys_malloc sz) Q f.
Proof.
  intros Hroom HQ. unfold sys_malloc, wp. pose proof (malloc_live (pgdir (cur f) =? 0) sz (heap f)) as Hl.
  pose proof (Hroom (pgdir (cur f) =? 0) sz (heap f)) as Ha. destruct (h_malloc _ _ _) as [a h]. cbn [fst] in Ha.
  destruct Hl as [[? _]|(? & ? & ?)]; [done|]. by apply HQ.
Qed.
End steps.

(** ** Formatting and mounting *)

Definition root_entries : bytes :=
  encode_de (DirEntry (pad_name [46]) 0 (ft_code FT_DIRECTORY)) ++ encode_de (DirEntry (pad_name [46; 46]) 0 (ft_code FT_DIRECTORY)).
Definition root_inode (data_start : Z) : inode := Inode 0 48 0 0 (data_start :: replicate 12 0).
Definition fmt_buf : Z := 311296.

Section format.
Context {H : Type} `{HeapLaws H} (st cnt : Z).
Context (Hst : 0 <= st) (Hcnt : 620 <= cnt) (Hend : st + cnt <= max_lba).
Context (Hroom : forall kern sz (h : H), fst (h_malloc kern sz h) <> 0).
Implicit Types (f : fs H) (d : disk).
Abbreviation B := (fmt_sects cnt).

(** Disk [d] is [d0] with the partition formatted. *)
Record formatted d0 d : Prop := {
  fm_wf : disk_wf d;
  fm_dom : dom d = dom d0;
  fm_sb : exists pad, has d (st + 1) 1 (encode_sb (fmt_sb st cnt) pad);
  fm_bb : has d (st + 2) B (fmt_bits cnt fmt_buf);
  fm_ib : has d (st + 2 + B) 1 (1 :: zeros (fmt_buf - 1));
  fm_it : has d (st + 3 + B) 608 (splice (zeros fmt_buf) 0 (encode_inode (root_inode (st + 611 + B))));
  fm_root : has d (st + 611 + B) 1 (splice (zeros fmt_buf) 0 root_entries);
  fm_out : forall l, l < st \/ st + cnt <= l -> d !! l = d0 !! l
}.

Lemma root_inode_wf x : is_u32 x -> inode_wf (root_inode x).
Proof. intros Hx. split; try (unfold is_u32; simpl; lia). apply Forall_cons. split; [done|]. repeat constructor; unfold is_u32; lia. Qed.

Lemma fmt_buf_part (src : bytes) : zlen src <= 512 -> Forall is_byte src ->
  zlen (splice (zeros fmt_buf) 0 src) = fmt_buf /\ Forall is_byte (splice (zeros fmt_buf) 0 src).
Proof.
  intros Hl Hb. split; [|by apply splice_bytes; [apply zeros_bytes|]].
  rewrite splice_length; rewrite ?zeros_length; unfold fmt_buf; lia.
Qed.

Ltac has_chain := repeat (apply has_other; [lia|lia|]); apply has_put; lia.

Lemma format_ok f pad : disk_wf (dsk f) -> (forall l, st <= l < st + cnt -> is_Some (dsk f !! l)) -> zlen pad = 460 -> Forall is_byte pad ->
  wp (partition_format st cnt pad) (λ _ f', exists d h lg, f' = set_klog lg (set_heap h (set_dsk d f)) /\ formatted (dsk f) d /\
    (forall x, h_live h x <-> h_live (heap f) x)) f.
Proof.
  intros Hwf Hs Hpl Hpb. pose proof (fmt_bounds st cnt Hst Hcnt Hend) as Hb. change max_lba with 163839 in Hend.
  unfold partition_format. rewrite (format_sb_eq st cnt Hst Hcnt Hend).
  assert (Hsbl : zlen (encode_sb (fmt_sb st cnt) pad) = 512) by (unfold encode_sb; rewrite zlen_app, Hpl; reflexivity).
  assert (Hsbb : Forall is_byte (encode_sb (fmt_sb st cnt) pad)) by (apply Forall_app; split; [apply of_words_bytes|done]).
  destruct (fmt_bits_wf st cnt Hst Hcnt Hend fmt_buf ltac:(unfold fmt_buf; lia)) as [Hbl Hbb].
  assert (Hri : inode_wf (root_inode (st + 611 + B))) by (apply root_inode_wf; unfold is_u32; lia).
  destruct (fmt_buf_part (encode_inode (root_inode (st + 611 + B)))) as [Hil Hib]; [rewrite encode_inode_length by done; done|apply of_words_bytes|].
  destruct (fmt_buf_part root_entries) as [Hrl Hrb]; [by vm_compute|apply (bool_decide_unpack _); by vm_compute|].
  apply wp_bind, wp_modify. rewrite (u32_small (st + 1)) by lia. apply wp_bind.
  apply (wp_part_wr _ st cnt); [exact Hs|exact Hwf|exact Hend|lia|lia|lia|rewrite Hsbl; lia|exact Hsbb|]. cbn [dsk set_klog].
  intros d1 E1 W1 D1 S1. apply wp_bind, wp_modify.
  cbn [fmt_sb block_bitmap_sects inode_bitmap_sects inode_table_sects block_bitmap_lba inode_bitmap_lba inode_table_lba data_start_lba dir_entry_size].
  set (sects := if 608 <=? _ then _ else 608). assert (Es : sects = 608).
  { unfold sects. rewrite (proj2 (Z.leb_le 1 B)) by lia. by rewrite (proj2 (Z.leb_gt 608 B)) by lia. }
  rewrite Es. change (u32 (608 * SECTOR_SIZE)) with fmt_buf. apply wp_bind, wp_big_malloc; [exact Hroom|].
  intros a h Ha Hnew Hlive. rewrite (proj2 (Z.eqb_neq a 0) Ha). apply wp_bind, wp_ret, wp_bind.
  eapply wp_lift; [apply (format_block_bitmap_eq st cnt Hst Hcnt Hend); unfold fmt_buf; lia|].
  apply wp_bind, (wp_part_wr _ st cnt); [exact S1|exact W1|exact Hend|lia|lia|lia|rewrite Hbl; unfold fmt_buf; lia|exact Hbb|].
  intros d2 E2 W2 D2 S2. cbn [dsk set_dsk set_heap set_klog] in D1, E2, D2.
  assert (Hz1 : zlen (1 :: zeros (fmt_buf - 1)) = fmt_buf).
  { unfold zlen. cbn [length]. pose proof (zeros_length (fmt_buf - 1) ltac:(unfold fmt_buf; lia)) as Hz. unfold zlen in Hz. lia. }
  assert (Hz1b : Forall is_byte (1 :: zeros (fmt_buf - 1))) by (apply Forall_cons; split; [unfold is_byte; lia|apply zeros_bytes]).
  apply wp_bind, (wp_part_wr _ st cnt); [exact S2|exact W2|exact Hend|lia|lia|lia|rewrite Hz1; unfold fmt_buf; lia|exact Hz1b|].
  intros d3 E3 W3 D3 S3. cbn [dsk set_dsk set_heap set_klog] in E3, D3.
  change (u32 (24 * 2)) with 48. fold (root_inode (st + 611 + B)).
  apply wp_bind, (wp_part_wr _ st cnt); [exact S3|exact W3|exact Hend|lia|lia|lia|rewrite Hil; unfold fmt_buf; lia|exact Hib|].
  intros d4 E4 W4 D4 S4. cbn [dsk set_dsk set_heap set_klog] in E4, D4. fold root_entries.
  apply wp_bind, (wp_part_wr _ st cnt); [exact S4|exact W4|exact Hend|lia|lia|lia|rewrite Hrl; unfold fmt_buf; lia|exact Hrb|].
  intros d5 E5 W5 D5 S5. cbn [dsk set_dsk set_heap set_klog] in E5, D5.
  apply wp_bind, wp_modify, wp_bind, wp_modify, wp_sys_free; [apply Hlive; by right|]. intros h' Hl' _.
  clear Hbl Hbb Hil Hib Hrl Hrb Hz1 Hz1b. eexists d5, h', _. split; [reflexivity|]. split.
  - split; [exact W5|by rewrite D5, D4, D3, D2, D1|exists pad|..]; [rewrite E5, E4, E3, E2, E1; has_chain|rewrite E5, E4, E3, E2; has_chain|
      rewrite E5, E4, E3; has_chain|rewrite E5, E4; has_chain|rewrite E5; has_chain|].
    intros l Hl. rewrite E5, E4, E3, E2, E1, !lookup_put_sectors. repeat (rewrite decide_False by lia). reflexivity.
  - intros y. rewrite Hl'. cbn [heap set_heap set_klog set_dsk] in *. rewrite Hlive. clear - Hnew. split.
    + intros [[Hy|Hy] Hne]; [exact Hy|by destruct Hne].
    + intros Hy. split; [by left|]. intros ->. exact (Hnew Hy).
Qed.

Definition fmt_block_bitmap : bitmap := Bitmap (B * 512) (take (Z.to_nat (B * 512)) (fmt_bits cnt fmt_buf)).
Definition fmt_inode_bitmap : bitmap := Bitmap 512 (take (Z.to_nat (1 * 512)) (1 :: zeros (fmt_buf - 1))).
Definition fmt_part : partition := Partition st cnt (fmt_sb st cnt) fmt_block_bitmap fmt_inode_bitmap.

(** A partition with a file system: its super block, block bitmap [x] and
    inode bitmap [y]. *)
Record volume d (x y : bytes) : Prop := {
  vo_wf : disk_wf d;
  vo_sb : exists pad, has d (st + 1) 1 (encode_sb (fmt_sb st cnt) pad);
  vo_bb : has d (st + 2) B x;
  vo_ib : has d (st + 2 + B) 1 y
}.
Definition volume_part (x y : bytes) : partition :=
  Partition st cnt (fmt_sb st cnt) (Bitmap (B * 512) (take (Z.to_nat (B * 512)) x)) (Bitmap 512 (take (Z.to_nat (1 * 512)) y)).

Lemma formatted_volume d0 d : formatted d0 d -> volume d (fmt_bits cnt fmt_buf) (1 :: zeros (fmt_buf - 1)).
Proof. intros [? ? ? ? ? ? ? ?]. by split. Qed.

Lemma sb_decoded pad : decode_sb (take (Z.to_nat (1 * 512)) (encode_sb (fmt_sb st cnt) pad)) = fmt_sb st cnt.
Proof.
  unfold encode_sb. rewrite take_app_ge by (rewrite of_words_length; cbn; lia).
  apply decode_encode_sb, (fmt_sb_words st cnt Hst Hcnt Hend).
Qed.

Lemma mount_ok f x y : volume (dsk f) x y ->
  wp (mount_partition st cnt) (λ _ f', exists h lg, f' = set_klog lg (set_open [] (set_part (volume_part x y) (set_heap h f)))) f.
Proof.
  intros [Wf (pad & Hsb) Hbb Hib]. pose proof (fmt_bounds st cnt Hst Hcnt Hend) as Hb. change max_lba with 163839 in Hend.
  unfold mount_partition. apply wp_bind, wp_big_malloc; [exact Hroom|]. intros a1 h1 Ha1 _ _.
  apply wp_bind, wp_big_malloc; [exact Hroom|]. intros a2 h2 Ha2 _ _. rewrite (proj2 (Z.eqb_neq a2 0) Ha2), (proj2 (Z.eqb_neq a1 0) Ha1).
  apply wp_bind, wp_ret, wp_bind, wp_ret. rewrite (u32_small (st + 1)) by lia.
  apply wp_bind. eapply wp_has_rd; [exact Hsb|lia|change max_lba with 163839; lia|]. cbv zeta. rewrite sb_decoded. unfold SECTOR_SIZE.
  cbn [fmt_sb block_bitmap_sects inode_bitmap_sects inode_table_sects block_bitmap_lba inode_bitmap_lba inode_table_lba data_start_lba dir_entry_size].
  apply wp_bind, wp_big_malloc; [exact Hroom|]. intros a3 h3 Ha3 _ _. rewrite (proj2 (Z.eqb_neq a3 0) Ha3).
  apply wp_bind, wp_ret, wp_bind. eapply wp_has_rd; [exact Hbb|lia|change max_lba with 163839; lia|].
  apply wp_bind, wp_big_malloc; [exact Hroom|]. intros a4 h4 Ha4 _ _. rewrite (proj2 (Z.eqb_neq a4 0) Ha4).
  apply wp_bind, wp_ret, wp_bind. eapply wp_has_rd; [exact Hib|lia|change max_lba with 163839; lia|].
  rewrite (u32_small (B * 512)), (u32_small (1 * 512)) by lia.
  apply wp_bind, wp_modify, wp_bind, wp_modify, wp_modify. eexists h4, _. reflexivity.
Qed.

Lemma fmt_block_bitmap_wf : bitmap_wf fmt_block_bitmap /\ zlen (bits fmt_block_bitmap) = B * 512.
Proof.
  pose proof (fmt_bounds st cnt Hst Hcnt Hend) as Hb.
  destruct (fmt_bits_wf st cnt Hst Hcnt Hend fmt_buf ltac:(unfold fmt_buf; lia)) as [Hbl Hbb].
  assert (Hz : zlen (bits fmt_block_bitmap) = B * 512) by (cbn [bits fmt_block_bitmap]; apply zlen_take; rewrite Hbl; unfold fmt_buf; lia).
  split; [|exact Hz]. split; [cbn; lia|cbn; lia|rewrite Hz; cbn; lia|]. cbn [bits fmt_block_bitmap]. apply Forall_take. exact Hbb.
Qed.

Lemma fmt_block_bit k : 0 <= k < 4096 * B -> bit fmt_block_bitmap k = negb ((1 <=? k) && (k <=? fmt_blocks cnt)).
Proof. intros Hk. apply (fmt_bits_bit st cnt Hst Hcnt Hend); [unfold fmt_buf; lia|exact Hk]. Qed.

Lemma fmt_inode_bit k : 0 <= k < 4096 -> bit fmt_inode_bitmap k = (k =? 0).
Proof.
  intros Hk. assert (Hn : 512 <= fmt_buf - 1) by (unfold fmt_buf; lia). unfold fmt_inode_bitmap. revert Hn. generalize (fmt_buf - 1). intros n Hn.
  exact (first_bit n 512 512 k Hn Hk).
Qed.

(** The file system invariants hold of what is mounted. *)
Lemma fmt_geom f d0 : formatted d0 (dsk f) -> part f = fmt_part -> dom (dsk f) = dom d0 -> (forall l, st <= l < st + cnt -> is_Some (d0 !! l)) ->
  geom f /\ (is_Some (d0 !! (st + cnt)) -> geo f (dsk f) fmt_block_bitmap).
Proof.
  intros Hf Hp Hd Hs. pose proof (fmt_bounds st cnt Hst Hcnt Hend) as Hb. destruct fmt_block_bitmap_wf as [Hbw Hbl].
  assert (Hs' : forall l, is_Some (d0 !! l) -> is_Some (dsk f !! l)) by (intros l Hl; apply elem_of_dom; rewrite Hd; by apply elem_of_dom).
  assert (Hnum : BL f = B * 512 /\ BB f = st + 2 /\ IT f = st + 3 + B /\ DS f = st + 611 + B) by (unfold BL, BB, IT, DS; rewrite Hp; done).
  destruct Hnum as (E1 & E2 & E3 & E4). change max_lba with 163839 in Hend.
  split.
  - split; rewrite ?E1, ?E2, ?E3, ?E4, ?Z.div_mul by lia; try lia.
    + split; [lia|]. apply Z.mod_mul. lia.
    + change max_lba with 163839. lia.
    + rewrite Hp. cbn [start_lba sec_cnt fmt_part]. lia.
    + intros l Hl. apply Hs', Hs. lia.
    + intros l Hl. apply Hs', Hs. lia.
  - intros Hlast. split; [apply Hf|done|exact Hbw|rewrite E1; split; [done|exact Hbl]|]. rewrite E1. intros k Hk Hfree.
    rewrite fmt_block_bit in Hfree by lia. apply negb_false_iff, andb_true_iff in Hfree as [H1k HkL].
    apply Z.leb_le in H1k, HkL. split; [|rewrite E4; change max_lba with 163839; unfold fmt_blocks, fmt_sects in *; lia].
    rewrite E4. apply Hs'. destruct (decide (st + 611 + B + k = st + cnt)) as [->|Hne]; [done|]. apply Hs. lia.
Qed.
End format.


