(* ===== verification/FsInit.v ===== *)
(** fs/fs.c: [filesys_init].

    The state is that of the disks (Disks.v) and that of the file system
    (Fs.v), which works on one disk at a time: [on_hd] lets it work on the
    contents of a drive, with the heap, and puts both back.  What the driver
    does with the commands in between is the subject of Ide.v. *)

From S2P Require Import Prelude Bitmap Bytes CString Interrupt Irq Thread Sync Ide Layout Inode InodeSpec File Dir Path Fs FileSpec FormatSpec Disks.

Open Scope Z_scope.

Record fsinit {H : Type} := FsInit { i_disks : disks H; i_fs : fs H; cur_part : option part_id }.
Global Arguments fsinit : clear implicits.

Definition set_drives (x : list disk) (i : ide) : ide :=
  let a := dev i in
  Ide (ch i) (Ata (hw_base a) (r_cnt a) (r_lba_l a) (r_lba_m a) (r_lba_h a) (r_dev a) x (idents a) (mode a) (irq a) (busy a) (delays a))
    (ide_me i) (slept i).

Section fs_init.
Context {H : Type} `{Heap H} (pad : part_id -> bytes).
Implicit Types s : fsinit H.

Definition put_idisks (x : disks H) s : fsinit H := FsInit _ x (i_fs s) (cur_part s).
Definition put_ifs (x : fs H) s : fsinit H := FsInit _ (i_disks s) x (cur_part s).
Definition put_icur (x : option part_id) s : fsinit H := FsInit _ (i_disks s) (i_fs s) x.

(** The contents of a drive, and the state with other ones. *)
Definition drive_of (hd : hd_id) (ds : disks H) : option disk := i ← znth (chans ds) (fst hd); znth (drives (dev i)) (snd hd).
Definition set_drive (hd : hd_id) (d : disk) (ds : disks H) : disks H :=
  match znth (chans ds) (fst hd) with
  | Some i => put_chans (zupd (chans ds) (fst hd) (set_drives (zupd (drives (dev i)) (snd hd) d) i)) ds
  | None => ds
  end.

Definition on_hd {A} (hd : hd_id) (m : M (fs H) A) : M (fsinit H) A := λ s,
  match drive_of hd (i_disks s) with
  | Some d =>
      r ← m (set_dsk d (set_heap (d_heap (i_disks s)) (i_fs s)));
      let f := snd r in
      Ok (fst r, put_ifs f (put_idisks (put_dheap (heap f) (set_drive hd (dsk f) (i_disks s))) s))
  | None => Fault
  end.
Definition i_printk (msg : string) : M (fsinit H) unit := zoom i_fs put_ifs (printk msg).

(** One partition of the table: is there a file system on it? *)
Definition check_part (hd : hd_id) (part_idx : Z) : M (fsinit H) unit :=
  part ← gets (λ s, slot_at (i_disks s) (hd, part_idx));
  if negb (ps_cnt part =? 0) then
    sb_buf ← on_hd hd (ide_rd (u32 (ps_start part + 1)) 1);
    if word_at sb_buf 0 =? FS_MAGIC then i_printk "has filesystem"
    else
      i_printk "formatting";;
      on_hd hd (partition_format (ps_start part) (ps_cnt part) (pad (hd, part_idx)))
  else mret tt.

(** [while (part_idx < 12)]; the next disk goes on with the same [part_idx]. *)
Fixpoint check_parts (n : nat) (hd : hd_id) (part_idx : Z) : M (fsinit H) Z :=
  match n with
  | O => λ _, NoFuel
  | S n => if part_idx <? 12 then check_part hd part_idx;; check_parts n hd (u8 (part_idx + 1)) else mret part_idx
  end.

(** Device 0, the one with the kernel, is skipped. *)
Fixpoint check_channels (n : nat) (channel_no part_idx : Z) : M (fsinit H) unit :=
  match n with
  | O => mret tt
  | S n => part_idx ← check_parts 13 (channel_no, 1) part_idx; check_channels n (u8 (channel_no + 1)) part_idx
  end.

Definition default_part : bytes := bs "sdb1".

(** [mount_partition] with its test of the name. *)
Definition mount_elem (p : part_id) : M (fsinit H) bool :=
  part ← gets (λ s, slot_at (i_disks s) p);
  c ← lift (strcmp (ps_name part) default_part);
  if negb (c =? 0) then mret false
  else
    modify (put_icur (Some p));;
    on_hd (fst p) (mount_partition (ps_start part) (ps_cnt part));;
    mret true.

Definition clear_files (n : nat) : M (fs H) unit :=
  modify (λ f, set_files (imap (λ i e, if decide (i < n)%nat then File (fd_pos e) (fd_flag e) 0 else e) (file_table f)) f).

Definition filesys_init : M (fsinit H) unit :=
  sb_buf ← zoom i_disks put_idisks (d_malloc SECTOR_SIZE);
  (if sb_buf =? 0 then λ _, Panic "alloc memory failed!" else mret tt);;
  i_printk "searching filesystem......";;
  n ← gets (λ s, channel_cnt (i_disks s));
  check_channels (Z.to_nat n) 0 0;;
  zoom i_disks put_idisks (d_free sb_buf);;
  l ← gets (λ s, partition_list (i_disks s));
  traverse mount_elem l;;
  p ← gets cur_part;
  match p with
  | Some p => on_hd (fst p) (open_root_dir;; clear_files (Z.to_nat MAX_FILE_OPEN))
  | None => λ _, Fault
  end.
End fs_init.

(** ** Starting with one partitioned disk *)

Section boot.
Context {H : Type} `{HeapLaws H} (pad : part_id -> bytes) (st cnt : Z).
Context (Hst : 0 <= st) (Hcnt : 620 <= cnt) (Hend : st + cnt <= max_lba).
Context (Hmalloc : forall kern sz (h : H), fst (h_malloc kern sz h) <> 0) (Hroom : forall (h : H) n, h_room h n).
Context (Hpad : forall p, zlen (pad p) = 460 /\ Forall is_byte (pad p)).
Abbreviation hd := (0, 1).
Abbreviation B := (fmt_sects cnt).
Implicit Types (s : fsinit H) (f : fs H) (d : disk).

(** The second disk of the first channel holds [d]; its first partition,
    "sdb1", is the only one. *)
Record one_part d s : Prop := {
  op_drive : drive_of hd (i_disks s) = Some d;
  op_slot : slots (i_disks s) !! (hd, 0) = Some (Slot st cnt [115; 100; 98; 49; 0; 0; 0; 0]);
  op_others : forall k, k <> 0 -> slots (i_disks s) !! (hd, k) = None;
  op_list : partition_list (i_disks s) = [(hd, 0)] /\ channel_cnt (i_disks s) = 1
}.

Lemma drive_set d d' ds : drive_of hd ds = Some d -> drive_of hd (@set_drive H hd d' ds) = Some d'.
Proof.
  unfold drive_of, set_drive. cbn [fst snd]. intros (i & Hi & Hd)%bind_Some. rewrite Hi. cbn [chans put_chans].
  rewrite znth_upd_eq by (by apply znth_lt in Hi). cbn. rewrite znth_upd_eq by (by apply znth_lt in Hd). done.
Qed.
Lemma drive_set_same (d : disk) (ds : disks H) : drive_of hd ds = Some d -> set_drive hd d ds = ds.
Proof.
  unfold drive_of, set_drive. cbn [fst snd]. intros (i & Hi & Hd)%bind_Some. rewrite Hi.
  assert (E : forall A (l : list A) k x, znth l k = Some x -> zupd l k x = l).
  { intros A l k x. unfold znth, zupd. destruct (k <? 0); [done|]. apply list_insert_id. }
  rewrite (E _ _ _ _ Hd). unfold set_drives. destruct i as [c [] m sl]. cbn. rewrite (E _ _ _ _ Hi). by destruct ds.
Qed.

(** What a step of the file system on that disk does. *)
Lemma wp_on_hd {A} (m : M (fs H) A) (Q : A -> fsinit H -> Prop) s d : one_part d s ->
  wp m (λ a f, forall s', i_fs s' = f -> d_heap (i_disks s') = heap f -> cur_part s' = cur_part s -> one_part (dsk f) s' -> Q a s')
    (set_dsk d (set_heap (d_heap (i_disks s)) (i_fs s))) -> wp (on_hd hd m) Q s.
Proof.
  intros [Hd Hs Ho Hl] Hm. unfold on_hd, wp in *. rewrite Hd. destruct (m _) as [[a f]| | | |]; try done. cbn. apply Hm; [done..|].
  assert (E : forall x, slots (set_drive hd x (i_disks s)) = slots (i_disks s) /\ partition_list (set_drive hd x (i_disks s)) = partition_list (i_disks s) /\
    channel_cnt (set_drive hd x (i_disks s)) = channel_cnt (i_disks s)) by (intros x; unfold set_drive; by destruct (znth _ _)).
  destruct (E (dsk f)) as (E1 & E2 & E3). split; cbn [i_disks put_ifs put_idisks].
  - rewrite <- (drive_set d (dsk f) _ Hd). done.
  - cbn. by rewrite E1.
  - intros k Hk. cbn. rewrite E1. by apply Ho.
  - cbn. by rewrite E2, E3.
Qed.

(** A disk that is blank at the superblock, or has a file system. *)
Definition bootable d : Prop := disk_wf d /\ (forall l, st <= l < st + cnt -> is_Some (d !! l)) /\
  exists b, d !! (st + 1) = Some b /\ (word_at b 0 = FS_MAGIC -> exists x y, volume st cnt d x y).

(** The disk after the check: formatted if it was blank, else as it was. *)
Definition checked d d' : Prop := exists b x y, d !! (st + 1) = Some b /\ volume st cnt d' x y /\
  (word_at b 0 = FS_MAGIC -> d' = d) /\ (word_at b 0 <> FS_MAGIC -> formatted st cnt d d').

Definition live_same s s' : Prop := forall x, h_live (d_heap (i_disks s')) x <-> h_live (d_heap (i_disks s)) x.

Lemma check_part_ok s d : one_part d s -> bootable d ->
  wp (check_part pad hd 0) (λ _ s', exists d', one_part d' s' /\ checked d d' /\ dom d' = dom d /\ live_same s s') s.
Proof.
  intros Ho (Hwf & Hs & b & Hb & Hv). change max_lba with 163839 in Hend. unfold check_part. apply wp_bind, wp_gets. unfold slot_at.
  rewrite (op_slot _ _ Ho). cbn [from_option id ps_cnt ps_start]. rewrite (proj2 (Z.eqb_neq cnt 0)) by lia. cbn [negb].
  rewrite (u32_small (st + 1)) by lia. apply wp_bind, (wp_on_hd _ _ _ d Ho).
  assert (Hrd : disk_read d (st + 1) 1 = Ok b).
  { unfold disk_read, ASSERT. rewrite (proj2 (Z.leb_le (st + 1) max_lba)) by (change max_lba with 163839; lia). change (0 <? 1) with true.
    change ((1 - 1) / 256 * 256) with 0. rewrite Z.add_0_r, (proj2 (Z.leb_le (st + 1) max_lba)) by (change max_lba with 163839; lia).
    cbn [mbind res_bind]. change (Z.to_nat 1) with 1%nat. cbn [sectors]. rewrite Hb. cbn. by rewrite app_nil_r. }
  eapply wp_ide_rd; [exact Hrd|]. intros s1 _ Hh1 Hc1 Ho1. change (d_heap (i_disks s1) = d_heap (i_disks s)) in Hh1. cbn [dsk set_dsk set_heap] in Ho1. destruct (Z.eqb_spec (word_at b 0) FS_MAGIC) as [E|E].
  - apply wp_modify. exists d. split; [by destruct Ho1|]. split; [|split; [done|intros z; cbn; by rewrite Hh1]]. destruct (Hv E) as (x & y & Hvol).
    exists b, x, y. split; [done|]. split; [done|]. split; [done|]. intros Hn. by destruct Hn.
  - apply wp_bind, wp_modify. destruct (Hpad (hd, 0)) as [Hp1 Hp2].
    match goal with |- wp _ _ ?t => assert (Ho2 : one_part d t) by (by destruct Ho1) end. apply (wp_on_hd _ _ _ d Ho2).
    eapply wp_mono; [match goal with |- wp _ _ ?u => apply (format_ok st cnt Hst Hcnt Hend Hmalloc u _ Hwf Hs Hp1 Hp2) end|].
    intros _ f (d' & h & lg & -> & Hfm & Hlive) s3 _ Hh3 Hc3 Ho3. cbn [dsk set_dsk set_heap set_klog] in Ho3, Hfm. exists d'.
    split; [exact Ho3|]. split; [|split; [apply Hfm|intros z; rewrite Hh3; cbn; rewrite Hlive; cbn; by rewrite Hh1]]. eexists b, _, _. split; [done|]. split; [by eapply formatted_volume|]. by split.
Qed.

Lemma check_none s d k : one_part d s -> k <> 0 -> check_part pad hd k s = Ok (tt, s).
Proof. intros Ho Hk. unfold check_part, mbind, M_bind, gets, slot_at. by rewrite (op_others _ _ Ho k Hk). Qed.

Lemma check_rest n : forall s d k, one_part d s -> 1 <= k <= 12 -> 12 - k < Z.of_nat n -> check_parts pad n hd k s = Ok (12, s).
Proof.
  induction n as [|n IH]; intros s d k Ho Hk Hn; [lia|]. cbn [check_parts]. destruct (Z.ltb_spec k 12) as [Hlt|Hge].
  - unfold mbind at 1, M_bind at 1. rewrite (check_none s d k Ho) by lia. rewrite u8_small by lia. apply (IH s d); [done|lia|lia].
  - by replace k with 12 by lia.
Qed.

Lemma check_ok s d : one_part d s -> bootable d ->
  wp (check_channels pad (Z.to_nat 1) 0 0) (λ _ s', exists d', one_part d' s' /\ checked d d' /\ dom d' = dom d /\ live_same s s') s.
Proof.
  intros Ho Hb. change (Z.to_nat 1) with 1%nat. cbn [check_channels check_parts]. change (0 <? 12) with true. cbv iota.
  apply wp_bind, wp_bind. eapply wp_mono; [by apply (check_part_ok s d)|]. intros _ s' (d' & Ho' & Hc). change (u8 (0 + 1)) with 1.
  fold (check_parts pad 12 hd 1). unfold wp. rewrite (check_rest 12 s' d' 1 Ho') by lia. by exists d'.
Qed.

Lemma volume_geom f x y : volume st cnt (dsk f) x y -> part f = volume_part st cnt x y ->
  (forall l, st <= l < st + cnt -> is_Some (dsk f !! l)) -> table_geom f.
Proof.
  intros Hv Hp Hs. pose proof (fmt_bounds st cnt Hst Hcnt Hend) as Hb. change max_lba with 163839 in Hend.
  assert (E : TL f = st + 3 + B) by (unfold TL; by rewrite Hp). split; rewrite ?E.
  - apply Hv.
  - change max_lba with 163839. lia.
  - rewrite Hp. cbn. lia.
  - intros l Hl. apply Hs. lia.
Qed.

(** The disk with the file system, [d'], is mounted and its root open. *)
Record booted d' s : Prop := {
  bo_drive : drive_of hd (i_disks s) = Some d';
  bo_cur : cur_part s = Some (hd, 0);
  bo_part : exists x y, volume st cnt d' x y /\ part (i_fs s) = volume_part st cnt x y;
  bo_dsk : dsk (i_fs s) = d';
  bo_root : exists a, a <> 0 /\ open_inodes (i_fs s) = [a] /\ dirs (i_fs s) !! ROOT_DIR = Some (Dir a 0 (zeros 512)) /\
    inodes (i_fs s) !! a = Some (set_open_cnts 1 (disk_inode d' (st + 3 + B) 0));
  bo_files : forall i e, file_table (i_fs s) !! i = Some e -> (i < 32)%nat -> fd_inode e = 0
}.

Lemma mount_default_ok s d x y : one_part d s -> volume st cnt d x y ->
  wp (traverse mount_elem [(hd, 0)]) (λ _ s', one_part d s' /\ cur_part s' = Some (hd, 0) /\
    part (i_fs s') = volume_part st cnt x y /\ open_inodes (i_fs s') = []) s.
Proof.
  intros Ho Hv. cbn [traverse]. apply wp_bind. unfold mount_elem. apply wp_bind, wp_gets. unfold slot_at. rewrite (op_slot _ _ Ho).
  cbn [from_option id ps_name ps_start ps_cnt]. apply wp_bind. eapply wp_lift; [vm_compute; reflexivity|].
  change (negb (0 =? 0)) with false. cbv iota. apply wp_bind, wp_modify. cbn [fst].
  assert (Ho1 : one_part d (put_icur (Some (hd, 0)) s)) by (by destruct Ho). apply wp_bind, (wp_on_hd _ _ _ d Ho1).
  eapply wp_mono; [match goal with |- wp _ _ ?u => apply (mount_ok st cnt Hst Hcnt Hend Hmalloc u x y Hv) end|].
  intros _ f (h & lg & ->) s1 Hf _ Hc Ho2. cbn [dsk set_dsk set_heap set_klog set_open set_part] in Ho2.
  apply wp_ret. cbv iota. apply wp_ret. split; [exact Ho2|]. rewrite Hf, Hc. done.
Qed.

Lemma open_root_ok s d x y : one_part d s -> volume st cnt d x y -> (forall l, st <= l < st + cnt -> is_Some (d !! l)) ->
  cur_part s = Some (hd, 0) -> part (i_fs s) = volume_part st cnt x y -> open_inodes (i_fs s) = [] ->
  wp (on_hd hd (open_root_dir;; clear_files (Z.to_nat MAX_FILE_OPEN))) (λ _ s', booted d s') s.
Proof.
  intros Ho Hv Hs Hc Hp Hop. apply (wp_on_hd _ _ _ d Ho). unfold open_root_dir. apply wp_bind, wp_bind, wp_gets, wp_bind.
  set (f := set_dsk d _). assert (Hg : table_geom f) by (by apply (volume_geom f x y)).
  assert (Er : root_inode_no (sb (part f)) = 0) by (change (part f) with (part (i_fs s)); by rewrite Hp). rewrite Er.
  eapply wp_mono; [apply (inode_open_new f 0 Hg ltac:(lia)); [change (open_inodes f) with (open_inodes (i_fs s)); by rewrite Hop|apply Hroom]|].
  intros a f1 (Hsv & Ha & _ & Hi & Ho1 & _). apply wp_modify. unfold clear_files. apply wp_modify. intros s1 Hf1 _ Hc1 Hone.
  cbn [dsk set_files set_dirs] in Hone. destruct Hsv as (E1 & E2 & _ & E4 & _). change (dsk f) with d in E1. rewrite E1 in Hone.
  assert (Et : TL f = st + 3 + B) by (unfold TL; change (part f) with (part (i_fs s)); by rewrite Hp).
  split; rewrite ?Hf1; cbn [dsk part open_inodes inodes dirs file_table set_files set_dirs].
  - apply Hone.
  - by rewrite Hc1.
  - exists x, y. split; [exact Hv|]. by rewrite E2.
  - exact E1.
  - exists a. split; [exact Ha|]. split; [rewrite Ho1; change (open_inodes f) with (open_inodes (i_fs s)); by rewrite Hop|].
    split; [apply lookup_insert_eq|]. rewrite Hi, lookup_insert_eq, Et. done.
  - intros i e. rewrite list_lookup_imap. intros (e0 & _ & He)%fmap_Some Hlt. cbn in He. rewrite decide_True in He by exact Hlt. by rewrite He.
Qed.
End boot.


(** The example disk of zeros, with sectors 1 to 700 as its partition. *)
Definition demo_start : fsinit (gset Z) :=
  FsInit _ (Disks _ [Ide (Channel 0x1f0 0x2e lock_init false (sema_init 0)) (Ata 0x1f0 0 0 0 0 0 [∅; demo_dsk] [] ModeIdle false 0 []) 0xc009e000 0]
    ∅ 1 ∅ {[(0, 1, 0) := Slot 1 700 [115; 100; 98; 49; 0; 0; 0; 0]]} [(0, 1, 0)] 0 0 0 (exception_init 7) ∅ []) demo_fs None.

