(* ===== verification/ExecSpec.v ===== *)
(** Loading a program: the bytes of the segments of an ELF file end up where
    its program headers say. *)

From S2P Require Import Prelude Bitmap Bytes CString Interrupt LinkedList Thread Sync Paging PagingSpec Malloc Ide IoQueue Keyboard Layout Inode InodeSpec File Pipe Fs CmdLine Shell Os Process FileSpec ReadSpec WaitExitSpec Exec UserMem.

Open Scope Z_scope.

(** ** Memory and files of the running process *)

Section process_view.
Context {H : Type} `{HeapLaws H}.
Implicit Types (s : proc H) (v : vm).

(** [v] is the memory the running task sees. *)
Definition sees s v : Prop := k_tasks (thr s) !! k_cur (thr s) = Some (mcur v) /\ mem s (mcur v) = v.
Definition back v s : proc H :=
  put_thr (upd_tasks (<[k_cur (thr s) := mcur v]> (k_tasks (thr s))) (thr s)) (put_heap (set_hv v (p_heap s)) s).

Lemma wp_sees {A} (m : M vm A) (Q : A -> proc H -> Prop) s v : sees s v ->
  wp m (λ a v', Q a (back v' s)) v -> wp (on_mem m) Q s.
Proof.
  intros [Ht Hv] Hm. unfold on_mem, on_heap, wp. rewrite Ht. unfold zoom, on_vm, zoom.
  unfold mem in Hv. cbn [hv set_hv]. rewrite Hv. unfold wp in Hm. destruct (m v) as [[a v']| | | |]; try done.
Qed.

Lemma back_back v1 v2 s : back v2 (back v1 s) = back v2 s.
Proof.
  unfold back. cbn. rewrite insert_insert_eq. done.
Qed.

Lemma sees_back v v' s : sees s v -> cr3 v' = cr3 v -> me v' = me v -> sees (back v' s) v'.
Proof.
  intros [Ht Hv] Hc Hm. split; [apply lookup_insert_eq|]. unfold mem, view in *. cbn.
  assert (E1 : cr3 v = k_cr3 (thr s)) by (by rewrite <- Hv). assert (E2 : me v = k_cur (thr s)) by (by rewrite <- Hv).
  change (k_cr3 (o_thr (p_os s))) with (k_cr3 (thr s)). change (k_cur (o_thr (p_os s))) with (k_cur (thr s)).
  rewrite <- E1, <- E2, <- Hc, <- Hm. by destruct v'.
Qed.

Definition put_fs (f : fs H) s : proc H := put_os (set_ofs f (p_os s)) s.

Lemma sees_put_fs f v s : sees s v -> sees (put_fs f s) v.
Proof. done. Qed.
Lemma back_put_fs f v s : back v (put_fs f s) = put_fs f (back v s).
Proof. done. Qed.
End process_view.

Section files.
Context {H : Type} `{HeapLaws H}.
Implicit Types (o : os H).

(** Descriptor [fd] of the running task is open on a file that holds [c], at
    position [p]; [n] heap allocations will succeed. *)
Record reads o (fd : Z) (c : bytes) (p : Z) (n : nat) : Prop := {
  rd_fd : 2 < fd;
  rd_open : exists t idx e i bl tb, k_tasks (o_thr o) !! k_cur (o_thr o) = Some t /\ znth (fd_table t) fd = Some idx /\
    0 <= idx < MAX_FILE_OPEN /\ open_file (o_fs o) idx e i bl tb c /\ fd_flag e <> PIPE_FLAG /\ fd_pos e = p;
  rd_room : h_room (heap (o_fs o)) n
}.

Lemma open_file_view (f : fs H) idx e i bl tb c k t : open_file f idx e i bl tb c -> open_file (set_fcpu k (set_cur t f)) idx e i bl tb c.
Proof.
  intros [HG Hg He Hin Hwf Hfb Hsz Hcnt Hh]. split; try done; [by destruct HG|by destruct Hg|].
  destruct Hfb as [? [? ? ?] ? ?]. by split.
Qed.

(** The file system's view of the state. *)
Definition fview (t : task_struct) o : fs H := set_fcpu (k_cpu (o_thr o)) (set_cur t (o_fs o)).

Lemma wp_on_fs {A} (m : M (fs H) A) (Q : A -> os H -> Prop) o t : k_tasks (o_thr o) !! k_cur (o_thr o) = Some t ->
  wp m (λ a f, cur f = t /\ fcpu f = k_cpu (o_thr o) /\ Q a (set_ofs f o)) (fview t o) -> wp (on_fs m) Q o.
Proof.
  intros Ht Hm. unfold on_fs, wp. rewrite Ht. unfold zoom. unfold wp, fview in Hm.
  destruct (m _) as [[a f]| | | |]; try done. destruct Hm as (Hc & Hk & HQ). rewrite Hc, Hk, insert_id by done.
  replace (upd_cpu _ _) with (o_thr o) by (by destruct (o_thr o)).
  replace (set_thr (o_thr o) (set_ofs f o)) with (set_ofs f o); [done|]. by destruct o as [g [fl [? ?] sc] q l scr].
Qed.

Lemma wp_not_pipe fd c p n (Q : bool -> os H -> Prop) o : reads o fd c p n -> Q false o -> wp (on_pipes (is_pipe fd)) Q o.
Proof.
  intros [_ (t & idx & e & i & bl & tb & Ht & Hidx & Hr & Ho & He & Hp) _] HQ. apply not_pipe; [|done].
  exists t, idx, e. pose proof (of_entry _ _ _ _ _ _ _ Ho). split_and!; try done; apply Hr.
Qed.

(** [sys_read] and [sys_lseek] on such a descriptor. *)
Lemma fd_read_ok v2p fd c p n count o : reads o fd c p (S (S n)) -> 0 <= p < zlen c -> zlen c < 71168 -> 0 <= count < 4294000000 ->
  let k := Z.min count (zlen c - p) in
  wp (sys_read v2p fd count) (λ r o', r = (k, slice c p k) /\ exists f', o' = set_ofs f' o /\ reads o' fd c (p + k) n) o.
Proof.
  intros Hrd Hp Hc Hn k. pose proof Hrd as [Hfd (t & idx & e & i & bl & tb & Ht & Hidx & Hr & Ho & He & Hpos) Hroom].
  unfold sys_read. rewrite (proj2 (Z.ltb_ge fd 0)) by lia.
  rewrite (proj2 (Z.eqb_neq fd stdout_no)), (proj2 (Z.eqb_neq fd stderr_no)), (proj2 (Z.eqb_neq fd stdin_no)) by (unfold stdout_no, stderr_no, stdin_no; lia).
  cbn [orb]. apply wp_bind, (wp_not_pipe fd c p _ _ o Hrd). apply wp_bind, (wp_on_fs _ _ o t Ht).
  unfold wp at 1. rewrite (fd_local2global_ok _ fd idx) by (done || apply Hr). split; [done|]. split; [done|].
apply (wp_on_fs _ _ _ t); [exact Ht|].
  pose proof (open_file_view _ idx e i bl tb c (k_cpu (o_thr o)) t Ho) as Hv. fold (fview t o) in Hv.
  change (fview t (set_ofs (fview t o) o)) with (fview t o).
  eapply wp_mono; [apply (file_read_ok (fview t o) idx e i bl tb c count Hv); rewrite ?Hpos; try lia|].
  { eapply Inode.room_le; [exact Hroom|lia]. }
  rewrite Hpos. fold k. intros r f' [Er (h & -> & Hl & Hrm)]. split; [done|]. split; [done|]. split; [done|].
  eexists. split; [reflexivity|]. split; [done| |by apply Hrm].
  exists t, idx, (set_fd_pos (p + k) e), i, bl, tb. split_and!; try done; [apply Hr..|by apply (open_file_pos (fview t o) idx e i bl tb c)].
Qed.

Lemma seek_ok fd c p n off o : reads o fd c p n -> 0 <= off < zlen c -> zlen c < 71168 ->
  wp (on_fs (sys_lseek fd (s32 off) SEEK_SET)) (λ _ o', exists f', o' = set_ofs f' o /\ reads o' fd c off n) o.
Proof.
  intros [Hfd (t & idx & e & i & bl & tb & Ht & Hidx & Hr & Ho & He & Hpos) Hroom] Hoff Hc. rewrite s32_small by lia.
  apply (wp_on_fs _ _ _ t Ht). pose proof (open_file_view _ idx e i bl tb c (k_cpu (o_thr o)) t Ho) as Hv. fold (fview t o) in Hv.
  unfold wp. rewrite (sys_lseek_set (fview t o) fd idx e i bl tb c off) by (try done; try lia; by apply fd_local2global_ok).
  split; [done|]. split; [done|]. eexists. split; [reflexivity|]. split; [done| |done].
  exists t, idx, (set_fd_pos off e), i, bl, tb. split_and!; try done; [apply Hr..|].
  exact (open_file_pos (fview t o) idx e i bl tb c off (heap (fview t o)) Hv).
Qed.
End files.

(** ** Segments *)

Section segments.
Context {H : Type} `{HeapLaws H}.
Implicit Types (s : proc H) (v : vm).

(** From [s] to [s'] the running process has come to see [v'] as its memory
    and [f'] as the file system; nothing else has changed. *)
Record moved s s' v' (f' : fs H) : Prop := {
  mv_sees : sees s' v';
  mv_os : p_os s' = set_thr (upd_tasks (<[k_cur (thr s) := mcur v']> (k_tasks (thr s))) (thr s)) (set_ofs f' (p_os s));
  mv_rest : p_pids s' = p_pids s /\ p_vbits s' = p_vbits s /\ p_frames s' = p_frames s /\ p_stacks s' = p_stacks s /\
    arenas (p_heap s') = arenas (p_heap s)
}.

Lemma moved_refl s v : sees s v -> moved s s v (o_fs (p_os s)).
Proof.
  intros Hs. split; [done| |done]. destruct Hs as [Ht _]. rewrite insert_id by done. unfold thr.
  by destruct s as [[g [fl [[] ?] sc] q l scr] ? ? ? ? ?].
Qed.
Lemma moved_back s s1 v1 v2 f : moved s s1 v1 f -> cr3 v2 = cr3 v1 -> me v2 = me v1 -> moved s (back v2 s1) v2 f.
Proof.
  intros [Hs Ho (R1 & R2 & R3 & R4 & R5)] Hc Hm. split; [by apply (sees_back v1)| |done].
  assert (Et : thr s1 = upd_tasks (<[k_cur (thr s) := mcur v1]> (k_tasks (thr s))) (thr s)) by (unfold thr at 1; by rewrite Ho).
  unfold back, put_thr. cbn [p_os put_os put_heap]. rewrite Et, Ho. cbn. by rewrite insert_insert_eq.
Qed.
Lemma moved_fs s s1 v1 f f' : moved s s1 v1 f -> moved s (put_fs f' s1) v1 f'.
Proof.
  intros [Hs Ho R]. split; [by apply sees_put_fs| |done]. cbn [p_os put_fs put_os]. by rewrite Ho.
Qed.

Lemma moved_trans s s1 s2 v1 v2 f1 f2 : moved s s1 v1 f1 -> moved s1 s2 v2 f2 -> moved s s2 v2 f2.
Proof.
  intros [_ Ho (R1 & R2 & R3 & R4 & R5)] [Hs2 Ho2 (Q1 & Q2 & Q3 & Q4 & Q5)]. split; [done| |split_and!; congruence].
  assert (Et : thr s1 = upd_tasks (<[k_cur (thr s) := mcur v1]> (k_tasks (thr s))) (thr s)) by (unfold thr at 1; by rewrite Ho).
  rewrite Ho2, Et, Ho. cbn. by rewrite insert_insert_eq.
Qed.

(** The address space has at least the pages and the bytes it had. *)
Record grown v v' : Prop := {
  gr_user : user_ok v';
  gr_ext : space_ext v v';
  gr_bytes : forall x y, user_va x -> byte_at v x = Some y -> byte_at v' x = Some y
}.
Lemma pages_grown_refl v : user_ok v -> grown v v.
Proof. intros Hv. split; [done|apply space_ext_refl|done]. Qed.
Lemma pages_grown_trans v1 v2 v3 : grown v1 v2 -> grown v2 v3 -> grown v1 v3.
Proof. intros [U1 E1 B1] [U2 E2 B2]. split; [done|by eapply space_ext_trans|auto]. Qed.

Lemma moved_step s s1 v1 v2 f : moved s s1 v1 f -> grown v1 v2 -> moved s (back v2 s1) v2 f.
Proof. intros Hm [_ [(Hc & Hme & _) _ _] _]. by eapply moved_back. Qed.

Lemma reads_back s v v' fd c p n : sees s v -> grown v v' -> reads (p_os s) fd c p n -> reads (p_os (back v' s)) fd c p n.
Proof.
  intros [Ht _] [_ [_ (b & Hu & _) _] _] [Hfd (t & idx & e & i & bl & tb & Ht' & Hidx & Hr & Ho & He & Hp) Hroom].
  split; [done| |done]. exists (mcur v'), idx, e, i, bl, tb. split; [apply lookup_insert_eq|]. split; [|done].
  unfold thr in Ht. rewrite Ht in Ht'. injection Ht' as <-. by rewrite Hu.
Qed.

Lemma rooms_le v n m : (m <= n)%nat -> rooms PF_USER v n -> rooms PF_USER v m.
Proof. intros Hle [Hu Hk]. split; by eapply frames_room_le. Qed.

Lemma page_present_ok s1 v va : sees s1 v -> user_ok v -> user_va va -> page_aligned va ->
  wp (page_present va) (λ r s', s' = back v s1 /\ r = bool_decide (is_Some (mmu v va))) s1.
Proof.
  intros Hs [Hv _] Hu Hal. pose proof (t_self _ (v_tables _ (so_wf v Hv))) as Hself.
  assert (Ha : is_addr va) by (unfold user_va, is_addr in *; lia). destruct (ptr_aligned va Ha) as [Hpa Hta].
  unfold page_present. apply wp_bind, (wp_sees _ _ s1 v Hs). eapply wp_load; [done|by apply mmu_pde|].
  fold (pde_of v va). assert (Hs2 : sees (back v s1) v) by (by apply (sees_back v)).
  pose proof (mmu_pte v va Hself Ha) as Hmp.
  assert (Em : mmu v va = if present (pde_of v va) then if present (word v (pte_addr v va))
    then Some (frame (word v (pte_addr v va)) + Z.land va 0x00000fff) else None else None) by reflexivity.
  destruct (present (pde_of v va)) eqn:Epr.
  - apply wp_bind, (wp_sees _ _ _ v Hs2). eapply wp_load; [done|exact Hmp|]. apply wp_ret. rewrite back_back. split; [done|].
    destruct (present (word v (pte_addr v va))); [by rewrite bool_decide_eq_true_2 by (rewrite Em; by eexists)|].
    by rewrite bool_decide_eq_false_2 by (rewrite Em; by intros [? ?]).
  - apply wp_ret. split; [done|]. by rewrite bool_decide_eq_false_2 by (rewrite Em; by intros [? ?]).
Qed.

Lemma vpage_user v i : user_ok v -> 0 <= i < vcount PF_USER v -> user_va (vpage PF_USER v i) /\ page_aligned (vpage PF_USER v i).
Proof.
  intros [Hv _] Hi. destruct (vpage_in_range v PF_USER i (so_wf v Hv) (so_act v Hv) Hi) as [_ Hal].
  destruct (vpool_bounds v (so_wf v Hv) (so_act v Hv)) as [Hst Hen]. split; [|done]. unfold user_va, vpage. lia.
Qed.

Lemma added_grown v v' va : user_ok v -> page_added v v' va -> grown v v'.
Proof. intros Hu [Hu' He Hn Hm Hb]. by split. Qed.

Definition pages_there v' (va : Z) (n : nat) : Prop := forall k, 0 <= k < Z.of_nat n -> is_Some (mmu v' (va + 4096 * k)).

Lemma moved_ofs s s' v f : moved s s' v f -> o_fs (p_os s') = f.
Proof. intros [_ Ho _]. by rewrite Ho. Qed.

Lemma segment_pages_ok n : forall s v i m, sees s v -> user_ok v -> 0 <= i -> i + Z.of_nat n <= vcount PF_USER v ->
  rooms PF_USER v (n + m) ->
  wp (segment_pages n (vpage PF_USER v i)) (λ r s', r = true /\ exists v', moved s s' v' (o_fs (p_os s)) /\ grown v v' /\
    pages_there v' (vpage PF_USER v i) n /\ rooms PF_USER v' m) s.
Proof.
  induction n as [|n IH]; intros s v i m Hs Hu Hi Hn Hroom.
  { apply wp_ret. split; [done|]. exists v. split; [by apply moved_refl|]. split; [by apply pages_grown_refl|].
    split; [|done]. intros k Hk. lia. }
  destruct (vpage_user v i Hu ltac:(lia)) as [Huv Hal]. set (va := vpage PF_USER v i) in *.
  cbn [segment_pages]. apply wp_bind. eapply wp_mono; [by apply page_present_ok|].
  intros there s2 [-> ->].
  assert (Hmv : moved s (back v s) v (o_fs (p_os s))) by (eapply moved_back; [by apply moved_refl|done|done]).
  assert (Hgo : wp (got ← (if bool_decide (is_Some (mmu v va)) then mret true
      else page ← on_mem (get_a_page PF_USER va); mret (negb (page =? 0))); mret got)
    (λ r s', r = true /\ exists v', moved s s' v' (o_fs (p_os s)) /\ grown v v' /\ is_Some (mmu v' va) /\
      rooms PF_USER v' (n + m)) (back v s)).
  { apply wp_bind. case_bool_decide as Hp.
    - apply wp_ret, wp_ret. split; [done|]. exists v. split_and!; try done; [by apply pages_grown_refl|]. eapply rooms_le, Hroom. lia.
    - apply wp_bind, (wp_sees _ _ _ v (mv_sees _ _ _ _ Hmv)).
      eapply wp_mono; [apply (get_a_page_ok v va i (n + m) Hu); [lia|done| |done]|].
      { destruct (mmu v va) eqn:E; [|done]. destruct Hp. by eexists. }
      intros r v' (-> & Hadd & Hrm). apply wp_ret. rewrite (proj2 (Z.eqb_neq va 0)) by (unfold user_va in Huv; lia). apply wp_ret.
      split; [done|]. pose proof (added_grown v v' va Hu Hadd) as Hg. exists v'.
      split; [by eapply moved_step|]. split; [done|]. split; [apply (pg_new _ _ _ Hadd)|done]. }
  apply wp_bind_inv in Hgo. apply wp_bind. eapply wp_mono; [exact Hgo|].
  intros got s3 (-> & v3 & Hmv3 & Hg3 & Hp3 & Hr3).
  destruct (space_ext_vpage v v3 (i + 1) (gr_ext _ _ Hg3)) as [Evp Evc].
  assert (Enext : u32 (va + PG_SIZE) = vpage PF_USER v3 (i + 1)).
  { rewrite Evp. unfold va, PG_SIZE. rewrite u32_small; [unfold vpage; lia|]. unfold user_va in Huv. fold va. lia. }
  rewrite Enext. eapply wp_mono; [apply (IH s3 v3 (i + 1) m (mv_sees _ _ _ _ Hmv3) (gr_user _ _ Hg3)); [lia|rewrite Evc; lia|done]|].
  intros r s4 (-> & v4 & Hmv4 & Hg4 & Hp4 & Hr4). split; [done|]. exists v4. rewrite (moved_ofs _ _ _ _ Hmv3) in Hmv4.
  split; [by eapply moved_trans|]. split; [by eapply pages_grown_trans|]. split; [|done].
  intros k Hk. destruct (decide (k = 0)) as [->|Hk0].
  - rewrite Z.mul_0_r, Z.add_0_r. destruct Hp3 as [pa Hpa]. exists pa.
    apply (se_mmu _ _ (gr_ext _ _ Hg4)); [by apply user_in_range|done].
  - replace (va + 4096 * k) with (vpage PF_USER v3 (i + 1) + 4096 * (k - 1)) by (rewrite Evp; unfold va, vpage; lia).
    apply Hp4. lia.
Qed.

Lemma reads_moved s s' v v' fd c p n : sees s v -> moved s s' v' (o_fs (p_os s)) -> space_ext v v' ->
  reads (p_os s) fd c p n -> reads (p_os s') fd c p n.
Proof.
  intros [Ht _] [_ Ho _] [_ (b & Hu & _) _] [Hfd (t & idx & e & i & bl & tb & Ht' & Hidx & Hr & Hop & He & Hp) Hroom].
  rewrite Ho. split; [done| |done]. exists (mcur v'), idx, e, i, bl, tb. split; [apply lookup_insert_eq|]. split; [|done].
  unfold thr in Ht. rewrite Ht in Ht'. injection Ht' as <-. by rewrite Hu.
Qed.

(** The segment lies in the file and in the pages the process may map. *)
Record segment_fits v (c : bytes) (h : Elf32_Phdr) : Prop := {
  sf_file : 0 <= p_offset h < zlen c /\ 0 <= p_filesz h /\ p_offset h + p_filesz h <= zlen c;
  sf_mem : vpage PF_USER v 0 <= p_vaddr h /\ p_vaddr h + Z.max 1 (p_filesz h) <= vpage PF_USER v (vcount PF_USER v)
}.

Lemma occupy_pages_eq n va : 0 <= n < 71168 -> occupy_pages n va = (va mod 4096 + Z.max 1 n + 4095) / 4096.
Proof.
  intros Hn. unfold occupy_pages. rewrite offset_mod. unfold PG_SIZE. pose proof (Z.mod_pos_bound va 4096 ltac:(lia)).
  set (o := va mod 4096) in *. clearbody o. destruct (Z.ltb_spec (4096 - o) n) as [Hlt|Hge].
  - rewrite (u32_small (n - (4096 - o))) by lia. rewrite (u32_small (n - (4096 - o) + 4096 - 1)) by lia.
    rewrite u32_small by dlia. rewrite Z.max_r by lia. dlia.
  - destruct (Z.max_spec 1 n) as [[? ->]|[? ->]]; dlia.
Qed.

(** The pages of the segment, by their number in the process's pool. *)
Lemma segment_span v c h : user_ok v -> zlen c < 71168 -> segment_fits v c h ->
  let i := (p_vaddr h - vpage PF_USER v 0) / 4096 in let n := occupy_pages (p_filesz h) (p_vaddr h) in
  Z.land (p_vaddr h) 0xfffff000 = vpage PF_USER v i /\ 0 <= i /\ 0 <= n /\ i + n <= vcount PF_USER v /\
  vpage PF_USER v i <= p_vaddr h /\ p_vaddr h + p_filesz h <= vpage PF_USER v i + 4096 * n /\
  (forall k, 0 <= k < p_filesz h -> user_va (p_vaddr h + k)).
Proof.
  intros [Hv _] Hc [(Ho & Hf & Hof) (Hlo & Hhi)] i n. pose proof (vp_aligned _ _ (v_vpool _ (so_wf v Hv) PF_USER (so_act v Hv))) as Hal.
  destruct (vpool_bounds v (so_wf v Hv) (so_act v Hv)) as [Hst Hen]. unfold n. rewrite occupy_pages_eq by lia.
  unfold vpage in *. set (st := vaddr_start (vpool PF_USER v)) in *. set (cnt := vcount PF_USER v) in *.
  assert (Hfr : Z.land (p_vaddr h) 0xfffff000 = 4096 * (p_vaddr h / 4096)).
  { fold (frame (p_vaddr h)). rewrite frame_div. f_equal. apply Z.mod_small. dlia. }
  rewrite Hfr. unfold i, page_aligned, user_va in *. clear Hfr Ho Hof i n. clearbody st cnt.
  split_and!; try dlia.
Qed.

Lemma over_mono va b (m m' : Z -> option Z) x y : (forall z, m x = Some z -> m' x = Some z) -> over va b m x = Some y -> over va b m' x = Some y.
Proof. intros Hm. unfold over. destruct (znth b (x - va)); [done|]. apply Hm. Qed.

Lemma written_user v v' m : user_ok v -> written v v' m -> user_ok v' /\ space_ext v v' /\ forall n, rooms PF_USER v n -> rooms PF_USER v' n.
Proof.
  intros (Hs & Hme & Hq) [Ho Hs' Hm _]. assert (E : me v' = me v /\ plock_of PF_USER v' = plock_of PF_USER v /\ cr3 v' = cr3 v /\
    mcur v' = mcur v /\ kernel_pool v' = kernel_pool v /\ user_pool v' = user_pool v) by (by rewrite Ho).
  destruct E as (E1 & E2 & E3 & E4 & E5 & E6). split; [|split].
  - split; [done|]. rewrite E1, E2. exact (conj Hme Hq).
  - split; [done| |].
    + rewrite E4. apply space_ext_refl.
    + intros va pa Hr. by rewrite Hm.
  - intros n. by apply rooms_cfg; rewrite ?E5, ?E6.
Qed.

(** What loading a part of the file does: more pages, and [m] in memory. *)
Record loaded s s' v v' (m : Z -> option Z) (fd : Z) (c : bytes) (n : nat) (k : nat) : Prop := {
  ld_moved : exists f, moved s s' v' f;
  ld_user : user_ok v';
  ld_ext : space_ext v v';
  ld_bytes : forall x y, user_va x -> m x = Some y -> byte_at v' x = Some y;
  ld_reads : exists p, reads (p_os s') fd c p n;
  ld_rooms : rooms PF_USER v' k
}.

Lemma page_mapped v va n x : user_va va -> page_aligned va -> pages_there v va n -> va <= x < va + 4096 * Z.of_nat n -> user_va x ->
  is_Some (mmu v x).
Proof.
  intros Hva Hal Hp Hx Hux. destruct (Hp ((x - va) / 4096)) as [pa Hpa]; [dlia|]. exists (pa - (va + 4096 * ((x - va) / 4096)) mod 4096 + x mod 4096).
  unfold user_va, page_aligned in *. apply (mmu_page v (va + 4096 * ((x - va) / 4096)) x); [unfold is_addr; dlia|unfold is_addr; lia|dlia|done].
Qed.

Lemma segment_load_ok v2p s v fd c p n k h : sees s v -> user_ok v -> reads (p_os s) fd c p (S (S n)) -> zlen c < 71168 ->
  Forall is_byte c -> segment_fits v c h -> rooms PF_USER v (Z.to_nat (occupy_pages (p_filesz h) (p_vaddr h)) + k) ->
  wp (segment_load v2p fd (p_offset h) (p_filesz h) (p_vaddr h)) (λ r s', r = true /\
    exists v', loaded s s' v v' (over (p_vaddr h) (slice c (p_offset h) (p_filesz h)) (byte_at v)) fd c n k) s.
Proof.
  intros Hs Hu Hrd Hc Hby Hfit Hroom. pose proof (segment_span v c h Hu Hc Hfit) as Hspan. cbv zeta in Hspan.
  destruct Hspan as (Hfirst & Hi & Hn & Hin & Hlo & Hhi & Huva). destruct (sf_file _ _ _ Hfit) as (Ho & Hf & Hof).
  set (i := (p_vaddr h - vpage PF_USER v 0) / 4096) in *. set (np := occupy_pages (p_filesz h) (p_vaddr h)) in *.
  unfold segment_load. fold np. rewrite Hfirst. apply wp_bind.
  eapply wp_mono; [apply (segment_pages_ok (Z.to_nat np) s v i k Hs Hu Hi); [lia|done]|].
  intros ok s1 (-> & v1 & Hmv1 & [Hu1 He1 Hb1] & Hp1 & Hr1).
  pose proof (reads_moved s s1 v v1 fd c p _ Hs Hmv1 He1 Hrd) as Hrd1.
  apply wp_bind, wp_zoom. eapply wp_mono; [by apply (seek_ok fd c p _ (p_offset h) _ Hrd1)|].
  intros _ o2 (f2 & -> & Hrd2). change (put_os (set_ofs f2 (p_os s1)) s1) with (put_fs f2 s1).
  pose proof (moved_fs _ _ _ _ f2 Hmv1) as Hmv2.
  apply wp_bind. unfold read_to. apply wp_bind, wp_zoom.
  eapply wp_mono; [by apply (fd_read_ok v2p fd c (p_offset h) n (p_filesz h) _ Hrd2); lia|].
  rewrite Z.min_l by lia. intros r o3 (-> & f3 & -> & Hrd3). cbn [fst snd].
  change (put_os (set_ofs f3 (p_os (put_fs f2 s1))) (put_fs f2 s1)) with (put_fs f3 s1).
  pose proof (moved_fs _ _ _ _ f3 Hmv1) as Hmv3. set (data := slice c (p_offset h) (p_filesz h)).
  assert (Hzd : zlen data = p_filesz h) by (apply slice_length; lia).
  apply wp_bind, (wp_sees _ _ _ v1 (mv_sees _ _ _ _ Hmv3)).
  eapply wp_mono; [apply (put_bytes_ok data v1 (p_vaddr h) (proj1 Hu1)); [|by apply slice_bytes]|].
  { intros j Hj. rewrite Hzd in Hj. split; [by apply Huva|]. eapply (page_mapped v1 (vpage PF_USER v i)); [| |exact Hp1| |by apply Huva].
    - apply (vpage_user v i Hu). unfold np in *. rewrite occupy_pages_eq in * by lia. dlia.
    - apply (vpage_user v i Hu). unfold np in *. rewrite occupy_pages_eq in * by lia. dlia.
    - lia. }
  intros [] v4 W. destruct (written_user v1 v4 _ Hu1 W) as (Hu4 & He4 & Hr4). apply wp_ret, wp_ret. split; [done|]. exists v4.
  pose proof He4 as [(Ec4 & Em4 & _) _ _].
  assert (Hmv4 : moved (put_fs f3 s1) (back v4 (put_fs f3 s1)) v4 (o_fs (p_os (put_fs f3 s1)))).
  { eapply moved_back; [apply moved_refl, (mv_sees _ _ _ _ Hmv3)|done|done]. }
  split.
  - exists f3. by eapply moved_back.
  - done.
  - by eapply space_ext_trans.
  - intros x y Hx Hxy. rewrite (wr_bytes _ _ _ W) by (by apply user_in_range). unfold over in *.
    destruct (znth data (x - p_vaddr h)); [done|]. by apply Hb1.
  - exists (p_offset h + p_filesz h). eapply reads_moved; [apply (mv_sees _ _ _ _ Hmv3)|exact Hmv4|exact He4|exact Hrd3].
  - by apply Hr4.
Qed.

(** *** All program headers *)

Fixpoint phdrs (n : nat) (c : bytes) (off : Z) : list Elf32_Phdr :=
  match n with O => [] | S n => phdr_at (slice c off 32) :: phdrs n c (off + 32) end.

(** The segments of [hs] over [m], the later ones over the earlier ones. *)
Definition load_image (c : bytes) (hs : list Elf32_Phdr) (m : Z -> option Z) : Z -> option Z :=
  foldl (λ m h, if p_type h =? PT_LOAD then over (p_vaddr h) (slice c (p_offset h) (p_filesz h)) m else m) m hs.

Definition segment_page_count (h : Elf32_Phdr) : nat :=
  if p_type h =? PT_LOAD then Z.to_nat (occupy_pages (p_filesz h) (p_vaddr h)) else 0%nat.

Lemma load_image_mono c hs m m' : (forall x y, user_va x -> m x = Some y -> m' x = Some y) ->
  forall x y, user_va x -> load_image c hs m x = Some y -> load_image c hs m' x = Some y.
Proof.
  revert m m'. induction hs as [|h hs IH]; intros m m' Hm x y Hx; [by apply Hm|]. cbn. apply IH; [|done].
  intros z w Hz. destruct (p_type h =? PT_LOAD); [|by apply Hm]. unfold over. destruct (znth _ _); [done|by apply Hm].
Qed.

Lemma segment_fits_ext v v' c h : space_ext v v' -> segment_fits v c h -> segment_fits v' c h.
Proof.
  intros He [Hf [Hm1 Hm2]]. destruct (space_ext_vpage v v' 0 He) as [E0 Ec]. destruct (space_ext_vpage v v' (vcount PF_USER v) He) as [En _].
  split; [done|]. by rewrite Ec, E0, En.
Qed.

Lemma load_segments_ok v2p n : forall s v fd c p m k off, sees s v -> user_ok v -> reads (p_os s) fd c p (4 * n + m) ->
  zlen c < 71168 -> Forall is_byte c -> 0 <= off -> off + 32 * Z.of_nat n <= zlen c ->
  Forall (λ h, p_type h = PT_LOAD -> segment_fits v c h) (phdrs n c off) ->
  rooms PF_USER v (sum_list_with segment_page_count (phdrs n c off) + k) ->
  wp (load_segments v2p n fd off 32) (λ r s', r = true /\
    exists v', loaded s s' v v' (load_image c (phdrs n c off) (byte_at v)) fd c m k) s.
Proof.
  induction n as [|n IH]; intros s v fd c p m k off Hs Hu Hrd Hc Hby Hoff Hend Hfit Hroom.
  { apply wp_ret. split; [done|]. exists v. split; [eexists; by apply moved_refl|done|apply space_ext_refl|done|by exists p|done]. }
  cbn [phdrs] in *. set (h := phdr_at (slice c off 32)) in *. apply Forall_cons in Hfit as [Hh Hfit].
  cbn [load_segments]. apply wp_bind, wp_zoom. eapply wp_mono; [by apply (seek_ok fd c p _ off _ Hrd); lia|].
  intros _ o1 (f1 & -> & Hrd1). change (put_os (set_ofs f1 (p_os s)) s) with (put_fs f1 s).
  pose proof (moved_fs _ _ _ _ f1 (moved_refl s v Hs)) as Hmv1.
  replace (4 * S n + m)%nat with (S (S (S (S (4 * n + m))))) in * by lia.
  apply wp_bind, wp_zoom. eapply wp_mono; [by apply (fd_read_ok v2p fd c off (S (S (4 * n + m))) 32 _ Hrd1); lia|].
  rewrite Z.min_l by lia. intros r o2 (-> & f2 & -> & Hrd2). cbn [fst snd].
  change (put_os (set_ofs f2 (p_os (put_fs f1 s))) (put_fs f1 s)) with (put_fs f2 s).
  pose proof (moved_fs _ _ _ _ f2 (moved_refl s v Hs)) as Hmv2. change (negb (32 =? 32)) with false. cbv iota zeta. fold h.
  set (m1 := if p_type h =? PT_LOAD then over (p_vaddr h) (slice c (p_offset h) (p_filesz h)) (byte_at v) else byte_at v).
  set (rest := sum_list_with segment_page_count (phdrs n c (off + 32))) in *.
  assert (Hone : wp (if p_type h =? PT_LOAD then segment_load v2p fd (p_offset h) (p_filesz h) (p_vaddr h) else mret true)
    (λ r s', r = true /\ exists v1, loaded (put_fs f2 s) s' v v1 m1 fd c (4 * n + m) (rest + k)) (put_fs f2 s)).
  { cbn [sum_list_with] in Hroom. unfold segment_page_count at 1 in Hroom. unfold m1. destruct (Z.eqb_spec (p_type h) PT_LOAD) as [E|E].
    - apply (segment_load_ok v2p _ v fd c (off + 32)); [apply Hmv2|done|done|done|done|by apply Hh|]. eapply rooms_le, Hroom. fold rest. lia.
    - apply wp_ret. split; [done|]. exists v. split; [eexists; apply moved_refl, Hmv2|done|apply space_ext_refl|done| |].
      + exists (off + 32). destruct Hrd2 as [R1 R2 R3]. split; [done|done|]. eapply Inode.room_le; [exact R3|lia].
      + eapply rooms_le, Hroom. fold rest. lia. }
  apply wp_bind. eapply wp_mono; [exact Hone|]. intros r s2 (-> & v1 & [(g1 & Mv1) U1 E1 B1 (p1 & R1) K1]).
  rewrite u32_small by lia. eapply wp_mono; [apply (IH s2 v1 fd c p1 m k (off + 32) (mv_sees _ _ _ _ Mv1) U1 R1); try done; try lia|].
  { eapply Forall_impl; [exact Hfit|]. intros h' Hh' Ht. by eapply segment_fits_ext, Hh'. }
  intros r s3 (-> & v3 & [(g3 & Mv3) U3 E3 B3 R3 K3]). split; [done|]. exists v3. split; try done.
  - exists g3. eapply moved_trans; [|exact Mv3]. eapply moved_trans; [exact Hmv2|exact Mv1].
  - by eapply space_ext_trans.
  - intros x y Hx Hxy. apply B3; [done|]. unfold load_image in Hxy. cbn [foldl] in Hxy. fold m1 in Hxy.
    eapply load_image_mono, Hxy; done.
Qed.
End segments.

(** ** load *)

Section load.
Context {H : Type} `{HeapLaws H} (v2p : Z -> Z).
Implicit Types (s : proc H) (v : vm).

Lemma word_at_nonneg b off : Forall is_byte b -> 0 <= word_at b off.
Proof. intros Hb. unfold word_at. pose proof (of_le32_range (slice b off 4) (slice_bytes b off 4 Hb)) as [? _]. done. Qed.

Lemma half_at_nonneg b off : Forall is_byte b -> 0 <= half_at b off.
Proof.
  intros Hb. assert (Hn : forall i, 0 <= default 0 (znth b i)).
  { intros i. unfold znth. destruct (i <? 0); [done|]. destruct (b !! Z.to_nat i) as [x|] eqn:E; [|done]. cbn.
    rewrite Forall_forall in Hb. apply list_elem_of_lookup_2, Hb in E. unfold is_byte in E. lia. }
  unfold half_at. pose proof (Hn off). pose proof (Hn (off + 1)). lia.
Qed.

Lemma good_header h : bad_header h = Ok false -> e_phentsize h = 32 /\ e_phnum h <= 1024.
Proof.
  unfold bad_header, mbind, res_bind. destruct (memcmp _ _ _); try done. intros [= E].
  repeat apply orb_false_iff in E as [E ?].
  match goal with A : (1024 <? e_phnum h) = false, B : negb (e_phentsize h =? sizeof_Phdr) = false |- _ =>
    apply Z.ltb_ge in A; apply negb_false_iff, Z.eqb_eq in B end. done.
Qed.

(** C7: loading a program.  When a file opens with a good ELF header, has its
    program headers inside, and its PT_LOAD segments lie in the file and in the
    pages of the process, [load] succeeds with the entry point.  Then a
    program reads, at every address a segment covers, the byte the last such
    segment has in the file, and everywhere else in its memory what was there
    before - bytes beyond the file size of a segment are not cleared, whatever
    its memory size; no page of the process went away, nobody else's task or
    frames changed. *)
Theorem load_file_loads s v fd c m k : sees s v -> user_ok v -> zlen c < 71168 -> 52 <= zlen c -> Forall is_byte c ->
  let h := ehdr_at (slice c 0 52) in let hs := phdrs (Z.to_nat (e_phnum h)) c (e_phoff h) in
  reads (p_os s) fd c 0 (S (S (4 * Z.to_nat (e_phnum h) + m))) ->
  bad_header h = Ok false -> e_phoff h + 32 * e_phnum h <= zlen c ->
  Forall (λ p, p_type p = PT_LOAD -> segment_fits v c p) hs ->
  rooms PF_USER v (sum_list_with segment_page_count hs + k) ->
  exists s' v', load_file v2p fd s = Ok (s32 (e_entry h), s') /\
    loaded s s' v v' (load_image c hs (byte_at v)) fd c m k.
Proof.
  intros Hs Hu Hc H52 Hby h hs Hrd Hbad Hph Hfit Hroom.
  destruct (good_header h Hbad) as [Hsize Hnum]. pose proof (slice_bytes c 0 52 Hby) as Hsb.
  assert (Hoff : 0 <= e_phoff h) by (by apply word_at_nonneg). assert (Hn0 : 0 <= e_phnum h) by (by apply half_at_nonneg).
  assert (Hw : wp (load_file v2p fd) (λ r s', r = s32 (e_entry h) /\ exists v', loaded s s' v v' (load_image c hs (byte_at v)) fd c m k) s).
  2: { apply wp_run in Hw as (r & s' & Hrun & -> & v' & Hl). by exists s', v'. }
  unfold load_file. apply wp_bind, wp_zoom. unfold sizeof_Ehdr.
  eapply wp_mono; [apply (fd_read_ok v2p fd c 0 _ 52 _ Hrd); lia|]. rewrite Z.min_l by lia.
  intros r o (-> & f & -> & Hrd1). change (put_os (set_ofs f (p_os s)) s) with (put_fs f s). cbn [fst snd].
  change (negb (52 =? 52)) with false. cbv iota zeta. fold h. apply wp_bind. eapply wp_lift; [exact Hbad|].
  pose proof (moved_fs _ _ _ _ f (moved_refl s v Hs)) as Hmv. rewrite Hsize.
  apply wp_bind. eapply wp_mono.
  { apply (load_segments_ok v2p (Z.to_nat (e_phnum h)) (put_fs f s) v fd c (0 + 52) m k (e_phoff h)); try done; try lia. }
  intros ok s1 (-> & v1 & [(g & Mv) U E B R K]). apply wp_ret. split; [done|]. exists v1. split; try done.
  exists g. by eapply moved_trans.
Qed.

(** C25: what is not a program is refused.  A file shorter than an ELF header, or
    with a header that fails one of the tests, makes [load] return -1; the
    address space and the tasks are as before. *)
Theorem load_file_rejects s v fd c n : sees s v -> zlen c < 71168 -> 0 < zlen c -> reads (p_os s) fd c 0 (S (S n)) ->
  zlen c < 52 \/ bad_header (ehdr_at (slice c 0 52)) = Ok true ->
  exists s' f, load_file v2p fd s = Ok (-1, s') /\ moved s s' v f.
Proof.
  intros Hs Hc H0c Hrd Hbad.
  assert (Hw : wp (load_file v2p fd) (λ r s', r = -1 /\ exists f, moved s s' v f) s).
  2: { apply wp_run in Hw as (r & s' & Hrun & -> & f & Hl). by exists s', f. }
  unfold load_file. apply wp_bind, wp_zoom. unfold sizeof_Ehdr.
  eapply wp_mono; [apply (fd_read_ok v2p fd c 0 _ 52 _ Hrd); lia|].
  intros r o (-> & f & -> & _). change (put_os (set_ofs f (p_os s)) s) with (put_fs f s). cbn [fst snd].
  pose proof (moved_fs _ _ _ _ f (moved_refl s v Hs)) as Hmv. destruct (Z.eqb_spec (Z.min 52 (zlen c - 0)) 52) as [E|E]; cbn [negb].
  - rewrite E. apply wp_bind. destruct Hbad as [?|Hbad]; [lia|]. eapply wp_lift; [exact Hbad|]. apply wp_ret. split; [done|]. by exists f.
  - apply wp_ret. split; [done|]. by exists f.
Qed.
End load.

(** ** A program on disk

    File 3 of the example disk becomes an ELF file with one program header,
    whose four bytes go across the end of the first page of the process. *)

Definition e_elf : bytes :=
  [127; 69; 76; 70; 1; 1; 1] ++ zeros 9 ++ [2; 0; 3; 0; 1; 0; 0; 0; 0; 128; 4; 8; 52; 0; 0; 0] ++ zeros 8 ++
  [52; 0; 32; 0; 1; 0; 0; 0; 0; 0; 0; 0] ++
  [1; 0; 0; 0; 84; 0; 0; 0; 254; 143; 4; 8; 254; 143; 4; 8; 4; 0; 0; 0; 4; 0; 0; 0; 5; 0; 0; 0; 0; 16; 0; 0] ++
  [11; 22; 33; 44].
Definition e_ino (c : bytes) : inode := Inode 1 (zlen c) 1 1 (621 :: replicate 12 0).

Definition e_task : task_struct :=
  Task 0xc0101000 7 TASK_RUNNING [] 31 31 0 [0; 1; 2; 3; -1; -1; -1; -1] 0xc0102000
    (VirtualAddr (Bitmap 4096 (1 :: zeros 4096)) 0x8048000) 0 2 0 STACK_MAGIC.
Definition e_fs (c : bytes) : fs (gset Z) :=
  Fs _ (<[621 := c ++ zeros (512 - zlen c)]> demo_dsk) (Partition 0 720 demo_sb demo_bbmp (Bitmap 512 (7 :: zeros 511)))
    [100; 200] (<[100 := e_ino c]> (<[200 := demo_ino2]> ∅)) ∅
    ([File 0 0 0; File 0 0 0; File 0 0 0; File 0 0 100; File 0 0 200] ++ replicate 27 (File 0 0 0))
    e_task (Cpu 2) {[100; 200]} [].
Definition e_threads : kthreads :=
  KT (Cpu 0x2)
     (<[0xc0100000 := e_task]> (<[0xc0109000 := Thread.demo_task 3 TASK_BLOCKED 10]> ∅))
     0xc0100000 [] [0xc0100000; 0xc0109000] 0xc0109000 0xc009e000 0x202000 0 0.
Definition e_state (c : bytes) : proc (gset Z) :=
  Proc (Os (e_fs c) (Kbd (rest false) (IoS e_threads (ioqueue_init (zeros 2048))) []) ∅ lock_init [])
    (MHeap (z_vm 0x202000 0xc0100000 e_task) ∅ ∅ (Lst (Cpu 0) ∅)) demo_pids {[0xc0100000 := 0xc0101000]} ∅ ∅.
Definition e_vm : vm := z_vm 0x202000 0xc0100000 e_task.

Lemma e_sees c : sees (e_state c) e_vm.
Proof. split; [apply lookup_insert_eq|reflexivity]. Qed.

Lemma e_user : user_ok e_vm.
Proof.
  split; [split|split; [done|split; [reflexivity|by left]]].
  - by apply z_task_wf.
  - right. done.
  - intros va pa Hva Hm. apply z_proc_mmu in Hm; [|by apply user_in_range]. apply elem_of_cons in Hm as [Hm|Hm].
    + injection Hm as _ ->. split; [|done]. intros (i & Hi & Hp & E).
      destruct (z_proc_dir 0xc0100000 e_task i ltac:(lia) Hp) as [[-> Et]|[[-> Et]|[-> _]]]; [| |lia]; change (tframe e_vm) with (tframe (z_vm 0x202000 0xc0100000 e_task)) in E; lia.
    + exfalso. unfold user_va, z_kernel_pages in *. repeat (apply elem_of_cons in Hm as [[= E _]|Hm]; [dlia|]). by apply elem_of_nil in Hm.
Qed.

Lemma e_disk_wf c : 0 < zlen c <= 512 -> Forall is_byte c -> disk_wf (<[621 := c ++ zeros (512 - zlen c)]> demo_dsk).
Proof.
  intros Hc Hby l x. rewrite lookup_insert. case_decide as E; [|apply demo_dsk_wf]. intros [= <-]. split.
  - rewrite zlen_app, zeros_length by lia. lia.
  - apply Forall_app. split; [done|]. apply Forall_replicate. unfold is_byte. lia.
Qed.

Lemma e_open c : 0 < zlen c < 512 -> Forall is_byte c -> open_file (e_fs c) 3 (File 0 0 100) (e_ino c) [621] 0 c.
Proof.
  intros Hc Hby. assert (Hd : dom (dsk (e_fs c)) = dom demo_dsk).
  { cbn [dsk e_fs]. apply dom_insert_lookup_L, demo_sector. lia. }
  assert (Hin : forall l, 0 <= l < 720 -> is_Some (dsk (e_fs c) !! l)).
  { intros l Hl. apply elem_of_dom. rewrite Hd. apply elem_of_dom, demo_sector. lia. }
  assert (Hus : forall l, usable demo_fs l -> usable (e_fs c) l).
  { intros l [U1 U2]. split; [|exact U2]. apply elem_of_dom. rewrite Hd. by apply elem_of_dom. }
  split; [|split; [apply e_disk_wf; lia || done|done|apply demo_geo..|]|reflexivity|reflexivity| | |reflexivity|right|].
  - destruct demo_geom as [G1 G2 G3 G4 G5 G6 G7]. split; [exact G1|exact G2|exact G3|exact G4|exact G5| |]; intros l Hl; apply Hin.
    + change (BB (e_fs c)) with 10 in Hl. change (BL (e_fs c) / 512) with 1 in Hl. lia.
    + change (IT (e_fs c)) with 12 in Hl. lia.
  - intros k Hk Hf. apply Hus. by apply demo_geo.
  - split; try (unfold is_u32; simpl; lia). repeat constructor; unfold is_u32; lia.
  - pose proof (of_blocks _ _ _ _ _ _ _ demo_open1) as [[B1 B2 B3] [B4 B5 B6] B7 B8].
    split; [split; [exact B1|exact B2|exact B3]| |exact B7|exact B8]. split; [exact B4| |exact B6].
    intros x Hx. destruct (B5 x Hx) as (T1 & T2 & T3). split; [by apply Hus|by split].
  - rewrite Z.div_small by lia. done.
  - intros j Hj. unfold cbyte. rewrite Z.div_small, Z.mod_small by lia. change (znth [621] 0) with (Some 621). cbn [mbind option_bind].
    cbn [dsk e_fs]. rewrite lookup_insert_eq. cbn [mbind option_bind]. by rewrite znth_app_l by lia.
Qed.

Lemma e_reads c n : 0 < zlen c < 512 -> Forall is_byte c -> reads (p_os (e_state c)) 3 c 0 n.
Proof.
  intros Hc Hby. split; [lia| |exact I]. exists e_task, 3, (File 0 0 100), (e_ino c), [621], 0.
  split; [apply lookup_insert_eq|]. split; [reflexivity|]. split; [done|]. split; [by apply e_open|]. by split.
Qed.

Lemma e_rooms : rooms PF_USER e_vm 5.
Proof.
  assert (Hr : forall x i, x = 1 \/ x = 15 -> 4 <= i < 16 -> bit (Bitmap 2 [x; 0; 0]) i = false).
  { intros x i Hx Hi. assert (Hc : exists n, (n < 12)%nat /\ i = Z.of_nat n + 4) by (exists (Z.to_nat (i - 4)); lia).
    destruct Hc as (n & Hn & ->). destruct Hx as [-> | ->]; do 12 (destruct n as [|n]; [reflexivity|]); lia. }
  split; exists (seqZ 4 5); (split_and!; [apply NoDup_seqZ|by rewrite length_seqZ|]); intros i Hi%elem_of_seqZ;
    (split; [unfold pool_bits; cbn; lia|]); apply Hr; lia.
Qed.

(** The last two bytes are on a page that was not there. *)
Lemma load_file_loads_witness : exists s' v',
  load_file (λ x, x) 3 (e_state e_elf) = Ok (0x8048000, s') /\ sees s' v' /\ mmu e_vm 0x8049000 = None /\ byte_at v' 0x8048ffe = Some 11 /\ byte_at v' 0x8048fff = Some 22 /\ byte_at v' 0x8049000 = Some 33 /\ byte_at v' 0x8049001 = Some 44.
Proof.
  assert (Hby : Forall is_byte e_elf) by (apply (bool_decide_unpack _); by vm_compute).
  destruct (load_file_loads (λ x, x) (e_state e_elf) e_vm 3 e_elf 0 1 (e_sees e_elf) e_user) as (s' & v' & Hr & [[f Hmv] _ _ Hb _ _]).
  - reflexivity.
  - by vm_compute.
  - exact Hby.
  - apply e_reads; [by vm_compute|exact Hby].
  - by vm_compute.
  - by vm_compute.
  - apply Forall_cons. split; [|by apply Forall_nil]. intros _. split; [by vm_compute|]. split; by vm_compute.
  - eapply rooms_le, e_rooms. vm_compute. lia.
  - exists s', v'. split; [exact Hr|]. split; [apply Hmv|]. split; [by vm_compute|].
    repeat split; apply Hb; unfold user_va; (lia || reflexivity).
Defined.

Lemma load_file_rejects_witness : exists s', load_file (λ x, x) 3 (e_state [35; 33; 47]) = Ok (-1, s').
Proof.
  assert (Hby : Forall is_byte [35; 33; 47]) by (apply (bool_decide_unpack _); by vm_compute).
  destruct (load_file_rejects (λ x, x) (e_state [35; 33; 47]) e_vm 3 [35; 33; 47] 0) as (s' & f & Hr & _).
  - apply e_sees.
  - reflexivity.
  - reflexivity.
  - apply e_reads; [by vm_compute|exact Hby].
  - by left.
  - by exists s'.
Defined.
