(* ===== verification/ForkSpec.v ===== *)
(** What [sys_fork] copies: after [create_page_dir] and [copy_body_stack3] the
    child has a copy of the parent's memory, in frames of its own.

    [twins v w] are two address spaces over one memory: they have the kernel in
    common, and neither the page tables nor the pages of one are touched through
    the other ([twins_write], [twins_map]). *)

From S2P Require Import Prelude Bitmap Bytes CString Interrupt LinkedList Thread Sync Paging PagingSpec Malloc Ide IoQueue Keyboard Layout Inode InodeSpec File Pipe Fs CmdLine Shell Os Process FileSpec ReadSpec WaitExitSpec Exec Fork UserMem ExecSpec.

Open Scope Z_scope.

(** ** Two address spaces over one memory *)

Definition at_dir (c : Z) (v : vm) : vm :=
  VM (ram v) c (kernel_pool v) (user_pool v) (kernel_vaddr v) (me v) (mcur v).

(** The frames of the page directory and of the page tables of the user half. *)
Definition own (v : vm) (f : Z) : Prop :=
  f = cr3 v \/ exists i, 1 <= i < 768 /\ present (pdir v i) = true /\ tframe v i = f.

Definition kernel_va (va : Z) : Prop := 0xc0000000 <= va < 0xffc00000.

Record twins (v w : vm) : Prop := {
  tw_same : w = at_dir (cr3 w) v;
  tw_v : space_ok v;
  tw_w : space_ok w;
  tw_kern : forall i, 768 <= i < 1023 -> pdir w i = pdir v i;
  tw_tabs_w : forall f, own w f -> data_frame v f;
  tw_tabs_v : forall f, own v f -> data_frame w f;
  tw_data_w : forall va pa, user_va va -> mmu w va = Some pa -> data_frame v (frame pa);
  tw_data_v : forall va pa, user_va va -> mmu v va = Some pa -> data_frame w (frame pa);
  tw_apart : forall x y pa pb, user_va x -> user_va y -> mmu v x = Some pa -> mmu w y = Some pb -> frame pa <> frame pb
}.

Section twins.
Implicit Types (v w s : vm) (va x f : Z).

Lemma at_dir_id v : at_dir (cr3 v) v = v.
Proof. by destruct v. Qed.

Lemma twins_sym v w : twins v w -> twins w v.
Proof.
  intros [E V W K TW TV DW DV A]. split; [| | |by symmetry; apply K| | | | |]; try done.
  - rewrite E. cbn. by destruct v.
  - intros x y pa pb Hx Hy Hp Hq Ef. by eapply (A y x).
Qed.

Lemma kernel_in_range va : kernel_va va -> in_range va /\ 768 <= PDE_IDX va < 1023.
Proof.
  unfold kernel_va, in_range. intros Hk. split; [lia|]. rewrite PDE_IDX_div by (unfold is_addr; lia). dlia.
Qed.
Lemma user_idx va : user_va va -> in_range va /\ 1 <= PDE_IDX va < 768.
Proof.
  unfold user_va, in_range. intros Hk. split; [lia|]. rewrite PDE_IDX_div by (unfold is_addr; lia). dlia.
Qed.

Lemma twins_word v w x : twins v w -> word w x = word v x.
Proof. intros T. rewrite (tw_same _ _ T). done. Qed.

Lemma kernel_mmu v w va : twins v w -> kernel_va va -> mmu w va = mmu v va.
Proof.
  intros T Hk. destruct (kernel_in_range va Hk) as [_ Hi]. pose proof (tw_kern _ _ T _ Hi) as E.
  unfold mmu, pte_addr, pde_of. unfold pdir in E. rewrite E. by rewrite !(twins_word v w) by done.
Qed.

(** The same tables, read in a machine that differs elsewhere. *)
Record like_tables v v' : Prop := {
  sa_cr3 : cr3 v' = cr3 v;
  sa_pdir : forall i, 0 <= i < 1024 -> pdir v' i = pdir v i;
  sa_mmu : forall va, in_range va -> mmu v' va = mmu v va
}.

Lemma same_data v v' f : like_tables v v' -> data_frame v' f <-> data_frame v f.
Proof.
  intros [Ec Ep _]. unfold data_frame, table_frame, tframe. rewrite Ec.
  split; intros [Hn Hc]; (split; [|done]); intros (i & Hi & Hp & E); apply Hn; exists i; [rewrite Ep|rewrite Ep in Hp, E]; (done || lia).
Qed.
Lemma same_own v v' f : like_tables v v' -> own v' f <-> own v f.
Proof.
  intros [Ec Ep _]. unfold own, tframe. rewrite Ec.
  split; (intros [E|(i & Hi & Hp & E)]; [by left|right; exists i]); [rewrite Ep in Hp, E|rewrite Ep]; (done || lia).
Qed.

(** Both keep their tables. *)
Lemma twins_same v w v' : twins v w -> like_tables v v' -> like_tables w (at_dir (cr3 w) v') ->
  space_ok v' -> space_ok (at_dir (cr3 w) v') -> twins v' (at_dir (cr3 w) v').
Proof.
  intros [E V W K TW TV DW DV A] Sv Sw V' W'. pose proof (sa_mmu _ _ Sv) as Mv. pose proof (sa_mmu _ _ Sw) as Mw.
  split; try done.
  - intros i Hi. rewrite (sa_pdir _ _ Sw), (sa_pdir _ _ Sv) by lia. by apply K.
  - intros f Hf%(same_own _ _ _ Sw). rewrite (same_data _ _ _ Sv). by apply TW.
  - intros f Hf%(same_own _ _ _ Sv). rewrite (same_data _ _ _ Sw). by apply TV.
  - intros va pa Hu. rewrite Mw, (same_data _ _ _ Sv) by (by apply user_in_range). by apply DW.
  - intros va pa Hu. rewrite Mv, (same_data _ _ _ Sw) by (by apply user_in_range). by apply DV.
  - intros x y pa pb Hx Hy. rewrite Mv, Mw by (by apply user_in_range). by apply A.
Qed.

Lemma ram_tables v v' : ram v' = ram v -> cr3 v' = cr3 v -> like_tables v v'.
Proof. intros Er Ec. split; [done|..]; intros; unfold mmu, pte_addr, pde_of, pdir, word; by rewrite Er, Ec. Qed.

(** Locks and bitmaps. *)
Lemma twins_ram v w v' : twins v w -> ram v' = ram v -> cr3 v' = cr3 v -> space_ok v' -> space_ok (at_dir (cr3 w) v') ->
  twins v' (at_dir (cr3 w) v').
Proof.
  intros T Er Ec V' W'. apply (twins_same v); try done; apply ram_tables; try done. cbn. rewrite Er, (tw_same _ _ T). done.
Qed.

(** *** Writing to a page *)

Lemma write_tables v v' f : space_ok v -> data_write v v' [f] -> like_tables v v'.
Proof.
  intros V Hd. pose proof (v_tables _ (so_wf v V)) as Ht. split; [by rewrite (dw_only _ _ _ Hd)| |].
  - intros i Hi. apply (data_write_pdir v v' [f]); [apply (sm_cr3 _ (t_self _ Ht))|done|done].
  - intros va Hr. by apply (data_write_mmu v v' [f]).
Qed.

Lemma write_other v w v' f : twins v w -> data_frame w f -> data_write v v' [f] -> data_write w (at_dir (cr3 w) v') [f].
Proof.
  intros T [Hn Hc] [Ho Hw Hf]. split.
  - unfold only_ram in *. transitivity (set_ram (ram v') (at_dir (cr3 w) v)); [by rewrite Ho|by rewrite <- (tw_same _ _ T)].
  - intros x. rewrite (twins_word v w x T). exact (Hw x).
  - intros g ->%list_elem_of_singleton. split; [apply Hf; by left|done].
Qed.

Lemma twins_write v w v' f : twins v w -> data_frame v f -> data_frame w f -> data_write v v' [f] ->
  twins v' (at_dir (cr3 w) v') /\ like_tables v v' /\ like_tables w (at_dir (cr3 w) v').
Proof.
  intros T Hv Hw Hd. pose proof (write_other v w v' f T Hw Hd) as Hd'.
  pose proof (write_tables v v' f (tw_v _ _ T) Hd) as Sv. pose proof (write_tables w _ f (tw_w _ _ T) Hd') as Sw.
  split; [|done]. apply (twins_same v); try done.
  - by apply (space_ok_data v v' f (tw_v _ _ T)).
  - by apply (space_ok_data w _ f (tw_w _ _ T)).
Qed.
End twins.

(** *** Mapping a page *)

Section mapping.
Context (v w v' : vm) (pf va : Z) (fs : list Z).
Context (T : twins v w) (R : mapped_run pf v v' va fs).
Implicit Types (x f h : Z).

Lemma run_cr3 : cr3 v' = cr3 v.
Proof. by destruct (same_cfg_vpool pf v v' (mr_cfg _ _ _ _ _ R)) as (_ & _ & -> & _). Qed.

(** A frame in use that holds no tables of [v] is left alone. *)
Lemma untouched h : page_aligned h -> data_frame v h -> ~ is_free v h ->
  (forall x, h <= x < h + 4096 -> word v' x = word v x) /\ data_frame v' h.
Proof.
  intros Hal [Hn Hc] Hfr. assert (Hd : data_frame v' h).
  { split; [|by rewrite run_cr3]. intros (i & Hi & Hp & <-).
    destruct (mr_tabs _ _ _ _ _ R i Hi Hp) as [[[Hp0 E]|Hf] _]; [|done]. apply Hn. exists i. by rewrite E. }
  split; [|done]. intros x Hx. destruct (decide (word v' x = word v x)) as [|Hne]; [done|]. exfalso.
  apply (mr_words _ _ _ _ _ R) in Hne as (f & Hf & Hin). destruct Hd as [Hn' Hc'].
  assert (Hfa : page_aligned f).
  { destruct Hf as [->|(i & _ & _ & <-)]; [apply (sm_cr3 _ (t_self _ (v_tables _ (mr_wf _ _ _ _ _ R))))|apply tframe_aligned]. }
  assert (f = h) as -> by (unfold page_aligned in *; dlia). by destruct Hf.
Qed.

Lemma free_other f : is_free w f <-> is_free v f.
Proof. rewrite (tw_same _ _ T). done. Qed.

(** Tables and mapped frames of the other space are in use. *)
Lemma other_table f : own w f -> page_aligned f /\ data_frame v f /\ ~ is_free v f.
Proof.
  intros Ho. pose proof (v_tables _ (so_wf _ (tw_w _ _ T))) as [S1 _ _ Hc Hu]. split; [|split].
  - destruct Ho as [->|(i & _ & _ & <-)]; [apply (sm_cr3 _ S1)|apply tframe_aligned].
  - by apply (tw_tabs_w _ _ T).
  - rewrite <- free_other. destruct Ho as [->|(i & Hi & Hp & <-)]; [done|]. apply Hu; [lia|done].
Qed.
Lemma other_page x pa : user_va x -> mmu w x = Some pa ->
  page_aligned (frame pa) /\ data_frame v (frame pa) /\ ~ is_free v (frame pa).
Proof.
  intros Hx Hp. split; [apply frame_aligned|]. split; [by apply (tw_data_w _ _ T x)|].
  rewrite <- free_other. apply (v_used _ (so_wf _ (tw_w _ _ T)) x); [by apply user_in_range|done].
Qed.

Local Abbreviation w' := (at_dir (cr3 w) v').

Lemma other_word x : word w x = word v x.
Proof. by apply twins_word. Qed.

Lemma other_pdir i : 0 <= i < 1024 -> pdir w' i = pdir w i.
Proof.
  intros Hi. unfold pdir. change (cr3 w') with (cr3 w). change (word w') with (word v'). rewrite other_word.
  destruct (other_table (cr3 w)) as (Ha & Hd & Hf); [by left|]. apply (untouched (cr3 w) Ha Hd Hf). lia.
Qed.

(** Only the user half of [v]'s directory gets new tables. *)
Definition user_run : Prop := forall k, 0 <= k < zlen fs -> user_va (va + 4096 * k).
Context (Hal : page_aligned va) (U : user_run).

Lemma kernel_pdir i : 768 <= i < 1023 -> pdir v' i = pdir v i.
Proof.
  intros Hi. destruct (mr_pdes _ _ _ _ _ R i) as [E|(k & Hk & E)]; [lia|done|].
  destruct (user_idx _ (U k Hk)) as [_ ?]. lia.
Qed.

Lemma kernel_kept x : kernel_va x -> mmu v' x = mmu v x.
Proof.
  intros Hx. destruct (kernel_in_range x Hx) as [Hr _]. rewrite (mr_mmu _ _ _ _ _ R) by done.
  destruct (znth fs ((x - va) / 4096)) as [f|] eqn:E; [|done]. exfalso.
  assert (Hk : 0 <= (x - va) / 4096 < zlen fs).
  { destruct (decide (0 <= (x - va) / 4096 < zlen fs)) as [|Hk]; [done|]. by rewrite (proj2 (znth_None fs _)) in E by lia. }
  pose proof (U _ Hk) as Hu. unfold user_va, kernel_va, page_aligned in *. dlia.
Qed.

Lemma other_mmu x : in_range x -> mmu w' x = mmu w x.
Proof.
  intros Hr. destruct (in_range_addr x Hr) as (Ha & Hi1 & Hi2).
  destruct (decide (kernel_va x)) as [Hk|Hk].
  - destruct (kernel_in_range x Hk) as [_ Hi]. rewrite (kernel_mmu v w) by done. rewrite <- kernel_kept by done.
    unfold mmu, pte_addr, pde_of. fold (pdir w' (PDE_IDX x)) (pdir v' (PDE_IDX x)).
    rewrite other_pdir by lia. rewrite kernel_pdir by lia. by rewrite (tw_kern _ _ T) by lia.
  - assert (Hu : user_va x) by (unfold user_va, kernel_va, in_range in *; lia). destruct (user_idx x Hu) as [_ Hi].
    apply mmu_ext; [done|by apply other_pdir; lia|]. intros Hp. change (word w') with (word v'). rewrite other_word.
    destruct (other_table (tframe w (PDE_IDX x))) as (Hta & Hd & Hf); [right; exists (PDE_IDX x); split_and!; [lia|lia|exact Hp|done]|].
    apply (untouched _ Hta Hd Hf). change (pte_addr w x) with (tframe w (PDE_IDX x) + 4 * PTE_IDX x). lia.
Qed.

Lemma other_bytes x : user_va x -> byte_at w' x = byte_at w x.
Proof.
  intros Hx. unfold byte_at. rewrite other_mmu by (by apply user_in_range). destruct (mmu w x) as [pa|] eqn:E; [|done].
  do 2 f_equal. change (word w') with (word v'). rewrite other_word. destruct (other_page x pa Hx E) as (Ha & Hd & Hf).
  apply (untouched _ Ha Hd Hf). pose proof (frame_bounds w x pa E) as Hb. pose proof (Z.mod_pos_bound pa 4 ltac:(lia)).
  unfold page_aligned in Ha. dlia.
Qed.

Lemma other_free f : is_free w' f -> is_free w f.
Proof. rewrite free_other. exact (mr_isfree _ _ _ _ _ R f). Qed.

Lemma other_tables : like_tables w w'.
Proof. split; [done|exact other_pdir|exact other_mmu]. Qed.

Lemma other_space : space_ok w'.
Proof.
  destruct (tw_w _ _ T) as [[[[A B C D] T2 T3 T4 T5] Wp Wu Wi Wv] Ha Hdt].
  destruct (same_cfg_vpool pf v v' (mr_cfg _ _ _ _ _ R)) as (_ & Em & _ & Eme & _).
  assert (Cw : same_cfg w w').
  { destruct (mr_cfg _ _ _ _ _ R) as (r & kb & ub & Ev & Hk & Hu). exists r, kb, ub. rewrite Ev, (tw_same _ _ T). done. }
  split; [split; [split; [split|..]|..]|..]; unfold tframe in *.
  - done.
  - done.
  - rewrite other_pdir by lia. done.
  - rewrite other_pdir by lia. done.
  - intros i Hi. rewrite other_pdir by lia. by apply T2.
  - intros i j Hi Hj. rewrite !other_pdir by lia. by apply T3.
  - by intros Hf%other_free.
  - intros i Hi. rewrite other_pdir by lia. intros Hp Hf%other_free. by apply (T5 i).
  - destruct (v_pools _ (mr_wf _ _ _ _ _ R)). by split.
  - intros x pa Hx. rewrite other_mmu by done. intros Hp Hf%other_free. by apply (Wu x pa).
  - intros x y pa pb Hx Hy. rewrite !other_mmu by done. by apply Wi.
  - apply (vpool_keep w w' Cw Wv). intros x Hx _. by apply other_mmu.
  - destruct (same_cfg_vpool PF_USER w w' Cw) as (_ & _ & _ & _ & E). by rewrite E.
  - intros x pa Hx. rewrite other_mmu, (same_data _ _ _ other_tables) by (by apply user_in_range). by apply Hdt.
Qed.
End mapping.

(** A page of the new space is the new one or was there. *)
Lemma new_page v v' va g : pools_wf v -> mapped_run PF_USER v v' va [g] ->
  forall x pa, user_va x -> mmu v' x = Some pa -> frame pa = g \/ mmu v x = Some pa.
Proof.
  intros Hp R x pa Hx. rewrite (mr_mmu _ _ _ _ _ R) by (by apply user_in_range).
  destruct (znth [g] ((x - va) / 4096)) as [f|] eqn:E; [|by right]. intros [= <-]. left.
  assert (f = g) as ->.
  { unfold znth in E. destruct (Z.ltb_spec ((x - va) / 4096) 0); [done|]. destruct (Z.to_nat _) as [|n]; [by injection E|]. by destruct n. }
  destruct (pool_free_addr _ _ (mem_pool_wf PF_USER v Hp) (proj1 (mr_free _ _ _ _ _ R g ltac:(by left)))) as (Hga & Hgi & _).
  apply frame_id; [done|done|apply Z.mod_pos_bound; lia].
Qed.

(** The new page and its table come from free frames, so neither space
    reaches into the other. *)
Lemma twins_map v w v' va g : twins v w -> user_va va -> page_aligned va -> mmu v va = None ->
  mapped_run PF_USER v v' va [g] -> twins v' (at_dir (cr3 w) v').
Proof.
  intros T Hu Hal Hm R. assert (U : user_run va [g]).
  { intros k Hk. assert (k = 0) as -> by (unfold zlen in Hk; cbn in Hk; lia). by rewrite Z.mul_0_r, Z.add_0_r. }
  destruct (mapped_page v v' va g (tw_v _ _ T) Hu Hal Hm R) as (V' & _ & _ & Hoth & _).
  pose proof (other_tables v w v' PF_USER va [g] T R Hal U) as Sw.
  assert (Hg : is_free v g) by (eapply mem_free_is_free, (mr_free _ _ _ _ _ R); by left).
  assert (Hnew : forall f, is_free v f -> data_frame w f).
  { intros f Hf. rewrite <- (free_other v w T) in Hf. pose proof (v_tables _ (so_wf _ (tw_w _ _ T))) as Ht. split.
    - intros (i & Hi & Hp & <-). by apply (t_used _ Ht i).
    - intros ->. by apply (t_cr3 _ Ht). }
  pose proof (new_page v v' va g (v_pools _ (so_wf _ (tw_v _ _ T))) R) as Hpage.
  split; try done.
  - by apply (other_space v w v' PF_USER va [g]).
  - intros i Hi. rewrite (sa_pdir _ _ Sw) by lia. rewrite (kernel_pdir v v' PF_USER va [g]) by done. by apply (tw_kern _ _ T).
  - intros f Hf%(same_own _ _ _ Sw). destruct (other_table v w T f Hf) as (Ha & Hd & Hfr).
    by apply (untouched v v' PF_USER va [g] R f).
  - intros f [->|(i & Hi & Hp & <-)]; rewrite (same_data _ _ _ Sw).
    + rewrite (run_cr3 v v' PF_USER va [g]) by done. apply (tw_tabs_v _ _ T). by left.
    + destruct (mr_tabs _ _ _ _ _ R i ltac:(lia) Hp) as [[[Hp0 E]|Hf] _]; [|by apply Hnew].
      rewrite E. apply (tw_tabs_v _ _ T). right. by exists i.
  - intros x pa Hx. rewrite (sa_mmu _ _ Sw) by (by apply user_in_range). intros Hp.
    destruct (other_page v w T x pa Hx Hp) as (Ha & Hd & Hfr). by apply (untouched v v' PF_USER va [g] R _ Ha).
  - intros x pa Hx Hp. rewrite (same_data _ _ _ Sw). destruct (Hpage x pa Hx Hp) as [->|Hp0]; [by apply Hnew|].
    by apply (tw_data_v _ _ T x).
  - intros x y pa pb Hx Hy Hp. rewrite (sa_mmu _ _ Sw) by (by apply user_in_range). intros Hq E.
    destruct (Hpage x pa Hx Hp) as [Eg|Hp0]; [|by apply (tw_apart _ _ T x y pa pb)].
    destruct (other_page v w T y pb Hy Hq) as (_ & _ & Hfr). apply Hfr. by rewrite <- E, Eg.
Qed.

(** ** One page *)

Section page.
Implicit Types (v w s : vm) (va x f : Z).

(** The running task, its bitmap and the locks are as before. *)
Record same_task v v' : Prop := {
  st_me : me v' = me v;
  st_mcur : mcur v' = mcur v;
  st_cr3 : cr3 v' = cr3 v;
  st_lock : plock_of PF_USER v' = plock_of PF_USER v
}.

Lemma same_task_trans v1 v2 v3 : same_task v1 v2 -> same_task v2 v3 -> same_task v1 v3.
Proof. intros [A B C D] [A' B' C' D']. split; congruence. Qed.
Lemma same_task_user v v' : user_ok v -> same_task v v' -> space_ok v' -> user_ok v'.
Proof. intros (_ & Hme & Hq) [A _ _ D] Hs. split; [done|]. by rewrite A, D. Qed.
Lemma same_task_vpage v v' : same_task v v' -> vbits PF_USER v' = vbits PF_USER v /\ forall i, vpage PF_USER v' i = vpage PF_USER v i.
Proof. intros [_ B _ _]. unfold vbits, vpage, vpool. cbn. by rewrite B. Qed.

(** A page of the process is reserved while its bit is set. *)
Lemma reserved_bit v i : vm_wf v -> active PF_USER v -> 0 <= i < vcount PF_USER v -> bit (vbits PF_USER v) i = true ->
  reserved v (vpage PF_USER v i).
Proof.
  intros Hwf Ha Hi Hb. pose proof (reserved_run PF_USER (vbits PF_USER v) v i Hwf Ha eq_refl Hi Hb) as Hr.
  replace (set_vbits PF_USER (vbits PF_USER v) v) with v in Hr; [done|].
  unfold set_vbits, vbits, vpool. cbn. destruct v as [? ? ? ? ? ? [? ? ? ? ? ? ? ? ? [? ?] ? ? ? ?]]. done.
Qed.

(** What [get_a_page_without_opvaddrbitmap] does to a space and to its twin. *)
Record got_page v w v' va : Prop := {
  gp_twins : twins v' (at_dir (cr3 w) v');
  gp_task : same_task v v';
  gp_new : is_Some (mmu v' va);
  gp_mmu : forall x, in_range x -> x / 4096 <> va / 4096 -> mmu v' x = mmu v x;
  gp_bytes : forall x y, user_va x -> byte_at v x = Some y -> byte_at v' x = Some y;
  gp_other_mmu : forall x, in_range x -> mmu (at_dir (cr3 w) v') x = mmu w x;
  gp_other : forall x, user_va x -> byte_at (at_dir (cr3 w) v') x = byte_at w x;
  gp_data : forall f, page_aligned f -> data_frame v f -> data_frame w f -> ~ is_free v f ->
    (forall x, f <= x < f + 4096 -> word v' x = word v x) /\ data_frame v' f /\ data_frame (at_dir (cr3 w) v') f /\ ~ is_free v' f
}.

Lemma relock_twins v w k : twins v w -> twins (relock PF_USER k v) (relock PF_USER k w).
Proof.
  intros T. replace (relock PF_USER k w) with (at_dir (cr3 w) (relock PF_USER k v)).
  - pose proof (relock_same PF_USER k v) as (Er & Ec & _). apply (twins_ram v w); try done.
    + apply (relock_ext k v (tw_v _ _ T)).
    + replace (at_dir (cr3 w) (relock PF_USER k v)) with (relock PF_USER k w); [apply (relock_ext k w (tw_w _ _ T))|].
      rewrite (tw_same _ _ T). done.
  - rewrite (tw_same _ _ T) at 2. done.
Qed.

(** The same without the lock. *)
Lemma map_twin v w v' va g : twins v w -> user_va va -> page_aligned va -> mmu v va = None ->
  mapped_run PF_USER v v' va [g] -> got_page v w v' va.
Proof.
  intros T Hva Hal Hm R. assert (U : user_run va [g]).
  { intros k Hk. assert (k = 0) as -> by (unfold zlen in Hk; cbn in Hk; lia). by rewrite Z.mul_0_r, Z.add_0_r. }
  destruct (mapped_page v v' va g (tw_v _ _ T) Hva Hal Hm R) as (V' & _ & Hnew & Hoth & Hby).
  destruct (same_cfg_vpool PF_USER v v' (mr_cfg _ _ _ _ _ R)) as (_ & Em & Ec & Eme & _).
  assert (St : same_task v v') by (split; try done; by apply same_cfg_lock, (mr_cfg _ _ _ _ _ R)).
  pose proof (other_tables v w v' PF_USER va [g] T R Hal U) as Sw. split; try done.
  - by apply (twins_map v w v' va g).
  - exact (sa_mmu _ _ Sw).
  - intros x Hx. by apply (other_bytes v w v' PF_USER va [g]).
  - intros f Ha Hd Hdw Hf. destruct (untouched v v' PF_USER va [g] R f Ha Hd Hf) as [Hw Hd']. split_and!; try done.
    + by rewrite (same_data _ _ _ Sw).
    + intros Hf'. by apply Hf, (mr_isfree _ _ _ _ _ R).
Qed.

Lemma got_relock v w v' va k : twins v w -> got_page (relock PF_USER k v) (relock PF_USER k w) v' va ->
  got_page v w (relock PF_USER (plock_of PF_USER v) v') va.
Proof.
  intros T [Tw [Hme Hmc Hc Hlk] Hn Hm Hb Hom Ho Hd]. set (v'' := relock PF_USER (plock_of PF_USER v) v').
  pose proof (relock_same PF_USER k v) as (Er & Ec & _ & Em & Eme).
  pose proof (relock_same PF_USER (plock_of PF_USER v) v') as (Er' & Ec' & _ & Em' & Eme'). fold v'' in Er', Ec', Em', Eme'.
  pose proof (relock_mmu PF_USER (plock_of PF_USER v) v') as Mm'. fold v'' in Mm'.
  destruct (relock_ext k v (tw_v _ _ T)) as (_ & _ & Bv). destruct (relock_ext k w (tw_w _ _ T)) as (_ & Mw & Bw).
  destruct (relock_ext (plock_of PF_USER v) v' (tw_v _ _ Tw)) as (_ & _ & Bv').
  destruct (relock_ext (plock_of PF_USER v) _ (tw_w _ _ Tw)) as (_ & Mw' & Bw').
  assert (Sv : like_tables v (relock PF_USER k v)) by (by apply ram_tables). assert (Sv' : like_tables v' v'') by (by apply ram_tables).
  assert (Sw : like_tables w (relock PF_USER k w)) by (apply ram_tables; apply (relock_same PF_USER k w)).
  assert (Sw' : like_tables (at_dir (cr3 w) v') (at_dir (cr3 w) v'')) by (by apply ram_tables).
  assert (Ecw : cr3 (relock PF_USER k w) = cr3 w) by apply (relock_same PF_USER k w). rewrite Ecw in *.
  split.
  - exact (relock_twins v' _ (plock_of PF_USER v) Tw).
  - split; [congruence..|]. unfold plock_of, v'', relock. by rewrite mem_pool_set.
  - by rewrite Mm'.
  - intros x Hx Hne. rewrite Mm', Hm by done. apply relock_mmu.
  - intros x y Hx Hy. unfold v''. rewrite Bv'. apply Hb; [done|]. by rewrite Bv.
  - intros x Hx. etransitivity; [exact (Mw' x)|]. by rewrite Hom.
  - intros x Hx. etransitivity; [exact (Bw' x)|]. by rewrite Ho.
  - intros f Hf. rewrite (same_data _ _ f Sv'), (same_data _ _ f Sw'), <- (same_data _ _ f Sv), <- (same_data _ _ f Sw).
    unfold v''. rewrite relock_is_free, <- (relock_is_free PF_USER k v). intros Hdv Hdw Hfr.
    destruct (Hd f Hf Hdv Hdw Hfr) as (Hw1 & Hrest). split; [|exact Hrest]. intros x Hx.
    transitivity (word v' x); [done|]. by rewrite Hw1.
Qed.

Lemma get_page_twin v w i va n : twins v w -> user_ok v -> 0 <= i < vcount PF_USER v -> va = vpage PF_USER v i ->
  bit (vbits PF_USER v) i = true -> mmu v va = None -> rooms PF_USER v (S n) ->
  wp (get_a_page_without_opvaddrbitmap PF_USER va) (λ r v', r = va /\ got_page v w v' va /\ rooms PF_USER v' n) v.
Proof.
  intros T Hu Hi Hva Hb Hm Hroom. pose proof Hu as (Hs & Hme & Hq). pose proof (vpage_user v i Hu Hi) as [Huv Hal]. rewrite <- Hva in Huv, Hal.
  destruct (Seq.acquire_release _ _ Hme Hq) as (k & Hacq & _ & Hrel). set (v0 := relock PF_USER k v).
  pose proof (relock_same PF_USER k v) as (Er0 & Ec0 & Ekv0 & Em0 & Eme0). fold v0 in Er0, Ec0, Ekv0, Em0, Eme0.
  destruct (relock_ext k v Hs) as (Hs0 & Hmm0 & Hb0). fold v0 in Hs0, Hmm0, Hb0.
  pose proof (relock_twins v w k T) as T0. fold v0 in T0.
  assert (Hlk0 : plock_of PF_USER v0 = k) by (unfold plock_of, v0, relock; by rewrite mem_pool_set).
  assert (Ev0 : vbits PF_USER v0 = vbits PF_USER v /\ vpage PF_USER v0 i = vpage PF_USER v i) by (unfold vbits, vpage, v0; by rewrite relock_vpool).
  destruct Ev0 as [Evb Evp].
  unfold get_a_page_without_opvaddrbitmap. apply wp_bind. eapply acquire_ok; [exact Hacq|]. fold v0. apply wp_bind.
  eapply wp_mono; [apply (map_page_ok v0 va n); [apply Hs0|apply Hs0|by apply user_in_range|done|by rewrite Hmm0| |by apply relock_rooms]|].
  { rewrite Hva, <- Evp. apply reserved_bit; [apply Hs0|apply Hs0|unfold vcount; by rewrite Evb|by rewrite Evb]. }
  intros f v1 [Hf Hadd]. rewrite (proj2 (Z.eqb_neq _ _) Hf). apply wp_bind. eapply wp_mono; [exact Hadd|].
  intros [] v2 (g & R & Hroom2).
  destruct (same_cfg_vpool PF_USER v0 v2 (mr_cfg _ _ _ _ _ R)) as (_ & Em2 & Ec2 & Eme2 & _).
  assert (Hlk2 : plock_of PF_USER v2 = k) by (by rewrite (same_cfg_lock PF_USER v0 v2 (mr_cfg _ _ _ _ _ R))).
  apply wp_bind. eapply release_ok; [rewrite Hlk2, Eme2, Eme0; exact Hrel|]. apply wp_ret. split; [done|]. split; [|by apply relock_rooms].
  apply (got_relock v w v2 va k T). apply (map_twin v0 _ v2 va g); [done..|by rewrite Hmm0|done].
Qed.

(** *** Copying a page *)

Lemma page_mmu s va f k : in_range va -> page_aligned va -> mmu s va = Some f -> 0 <= k < 4096 ->
  in_range (va + k) /\ mmu s (va + k) = Some (f + k).
Proof.
  intros Hr Hal Hm Hk. unfold page_aligned in Hal. assert (Hr' : in_range (va + k)) by (unfold in_range in *; dlia).
  split; [done|]. rewrite (mmu_page s va (va + k) f); [f_equal; dlia|unfold in_range, is_addr in *; lia..|dlia|done].
Qed.

Lemma mmu_frame_aligned s va f : page_aligned va -> mmu s va = Some f -> page_aligned f.
Proof. intros Hal Hm. pose proof (frame_mmu s va f Hm) as E. pose proof (frame_aligned f). unfold page_aligned in *. rewrite E, Hal. dlia. Qed.

Lemma aligned_frame s va f : page_aligned va -> mmu s va = Some f -> frame f = f.
Proof. intros Hal Hm. pose proof (frame_mmu s va f Hm) as E. unfold page_aligned in Hal. lia. Qed.

(** The page at [va] is the frame [f], whatever is written to data pages. *)
Definition steady s va f : Prop := page_aligned va /\ page_aligned f /\ is_addr va /\
  forall s' k, space_ok s' -> like_tables s s' -> 0 <= k < 4096 -> mmu s' (va + k) = Some (f + k).

Lemma steady_page s va f : in_range va -> page_aligned va -> mmu s va = Some f -> steady s va f.
Proof.
  intros Hr Hal Hm. split; [done|]. split; [by apply (mmu_frame_aligned s va)|]. split; [unfold in_range, is_addr in *; lia|].
  intros s' k _ S Hk. apply (page_mmu s' va f k); [done|done| |done]. by rewrite (sa_mmu _ _ S).
Qed.
Lemma like_tables_trans s1 s2 s3 : like_tables s1 s2 -> like_tables s2 s3 -> like_tables s1 s3.
Proof. intros [A B C] [A' B' C']. split; [congruence|..]; intros; [by rewrite B', B|by rewrite C', C]. Qed.
Lemma like_tables_refl s : like_tables s s.
Proof. by split. Qed.
Lemma steady_same s s1 va f : steady s va f -> like_tables s s1 -> steady s1 va f.
Proof. intros (A & B & C & D) S. split_and!; try done. intros s' k Hs' S'. apply D; [done|]. by eapply like_tables_trans. Qed.

Lemma copy_words_ok n : forall s j dst src fd fs, space_ok s -> steady s dst fd -> steady s src fs ->
  data_frame s fd -> fd <> fs -> 0 <= j -> j + Z.of_nat n <= 1024 ->
  wp (copy_words n (dst + 4 * j) (src + 4 * j)) (λ _ s', data_write s s' [fd] /\ forall x, word s' x =
    if decide (fd + 4 * j <= x < fd + 4 * (j + Z.of_nat n) /\ (x - fd) mod 4 = 0) then word s (fs + (x - fd)) else word s x) s.
Proof.
  induction n as [|n IH]; intros s j dst src fd fs Hs Sd Ss Hfd Hne Hj Hn.
  all: pose proof Sd as (Ad & Afd & Hd & Md); pose proof Ss as (As & Afs & Hsr & Ms).
  { apply wp_ret. split.
    - apply data_write_refl. intros f ->%list_elem_of_singleton. destruct Hfd. by split.
    - intros x. rewrite decide_False by lia. done. }
  specialize (Md s (4 * j) Hs (like_tables_refl s) ltac:(lia)) as Mdj. specialize (Ms s (4 * j) Hs (like_tables_refl s) ltac:(lia)) as Msj.
  cbn [copy_words]. apply wp_bind. eapply wp_load; [unfold page_aligned in As; dlia|exact Msj|].
  apply wp_bind. eapply wp_store; [unfold page_aligned in Ad; dlia|exact Mdj|]. set (s1 := set_ram _ s).
  assert (W1 : data_write s s1 [fd]).
  { split; [apply only_ram_insert| |intros f ->%list_elem_of_singleton; destruct Hfd; by split].
    intros x. unfold s1. rewrite word_insert. case_decide as E; [|done]. intros _. exists fd. split; [by left|lia]. }
  pose proof (write_tables s s1 fd Hs W1) as S1.
  replace (copy_words n (u32 (dst + 4 * j + 4)) (u32 (src + 4 * j + 4))) with (copy_words n (dst + 4 * (j + 1)) (src + 4 * (j + 1))).
  2: { destruct n as [|n]; [done|]. unfold page_aligned, is_addr in *. rewrite !u32_small by dlia. f_equal; lia. }
  eapply wp_mono; [apply (IH s1 (j + 1) dst src fd fs)|]; try lia; try done.
  - by apply (space_ok_data s s1 fd).
  - by apply (steady_same s).
  - by apply (steady_same s).
  - by rewrite (same_data s s1).
  - intros [] s2 [W2 E2]. split.
    + apply (data_write_trans s s1 s2); [apply (sm_cr3 _ (t_self _ (v_tables _ (so_wf s Hs))))|done|done].
    + intros x. rewrite E2. unfold s1. rewrite !word_insert. unfold page_aligned in *.
      destruct (decide (x = fd + 4 * j)) as [->|Hx].
      * rewrite decide_False by lia. rewrite decide_True by dlia. f_equal. lia.
      * destruct (decide (fd + 4 * (j + 1) <= x < fd + 4 * (j + 1 + Z.of_nat n) /\ (x - fd) mod 4 = 0)) as [Hin|Hout].
        -- rewrite decide_False by dlia. rewrite decide_True by lia. done.
        -- rewrite decide_False; [done|]. dlia.
Qed.

(** The bytes of the page are copied, and nothing else changes. *)
Lemma copy_page_ok s dst src fd fs : space_ok s -> in_range dst -> in_range src -> page_aligned dst -> page_aligned src ->
  mmu s dst = Some fd -> mmu s src = Some fs -> data_frame s fd -> fd <> fs ->
  wp (copy_words 1024 dst src) (λ _ s', data_write s s' [fd] /\
    (forall k, 0 <= k < 4096 -> k mod 4 = 0 -> word s' (fd + k) = word s (fs + k)) /\
    (forall x, ~ (fd <= x < fd + 4096) -> word s' x = word s x)) s.
Proof.
  intros Hs Hd Hsr Ad As Md Ms Hfd Hne. pose proof (copy_words_ok 1024 s 0 dst src fd fs) as Hc.
  rewrite !Z.mul_0_r, !Z.add_0_r in Hc. eapply wp_mono; [apply Hc; try done; by apply steady_page|]. intros [] s' [Hw Hx]. split; [done|]. split.
  - intros k Hk Hk4. rewrite Hx. replace (fd + k - fd) with k by lia. rewrite decide_True by lia. done.
  - intros x Hnx. rewrite Hx. rewrite decide_False by lia. done.
Qed.
End page.

(** ** One page from parent to child *)

Section copied.
Implicit Types (v w s : vm) (va x f : Z).

(** Bytes outside the frame that is written. *)
Lemma bytes_kept s s' f x : space_ok s -> data_write s s' [f] -> in_range x ->
  (forall pa, mmu s x = Some pa -> frame pa <> f) -> byte_at s' x = byte_at s x.
Proof.
  intros Hs Hd Hx Hne. destruct (write_tables s s' f Hs Hd) as [_ _ Mm]. unfold byte_at. rewrite Mm by done.
  destruct (mmu s x) as [pa|] eqn:E; [|done]. do 2 f_equal.
  destruct (decide (word s' (pa - pa mod 4) = word s (pa - pa mod 4))) as [|Hw]; [done|]. exfalso.
  apply (dw_words _ _ _ Hd) in Hw as (g & ->%list_elem_of_singleton & Hin). apply (Hne pa eq_refl).
  destruct (dw_frames _ _ _ Hd f ltac:(by left)) as (Ha & _). pose proof (frame_bounds s x pa E). pose proof (frame_aligned pa).
  pose proof (Z.mod_pos_bound pa 4 ltac:(lia)). unfold page_aligned in *. dlia.
Qed.

Lemma byte_in_page s va f k : in_range va -> page_aligned va -> mmu s va = Some f -> 0 <= k < 4096 ->
  byte_at s (va + k) = Some (byte_of (word s (f + (k - k mod 4))) (k mod 4)).
Proof.
  intros Hr Hal Hm Hk. pose proof (mmu_frame_aligned s va f Hal Hm) as Hf. destruct (page_mmu s va f k Hr Hal Hm Hk) as [_ E].
  unfold byte_at. rewrite E. unfold page_aligned in Hf. replace ((f + k) mod 4) with (k mod 4) by dlia. do 3 f_equal. lia.
Qed.

(** A kernel page that both spaces use as a buffer. *)
Record buffer v w buf fb : Prop := {
  bf_va : kernel_va buf;
  bf_al : page_aligned buf;
  bf_mmu : mmu v buf = Some fb;
  bf_v : data_frame v fb;
  bf_w : data_frame w fb
}.

Lemma buffer_apart s buf fb x pa : space_ok s -> kernel_va buf -> page_aligned buf -> mmu s buf = Some fb -> user_va x -> mmu s x = Some pa -> frame pa <> fb.
Proof.
  intros Hs Hk Hal Hb Hx Hp E. pose proof (mmu_frame_aligned s buf fb Hal Hb) as Hf.
  pose proof (aligned_frame s buf fb Hal Hb) as Ef.
  pose proof (v_inj _ (so_wf s Hs) x buf pa fb (user_in_range x Hx) (proj1 (kernel_in_range buf Hk)) Hp Hb ltac:(congruence)) as Ei.
  unfold user_va, kernel_va, page_aligned in *. dlia.
Qed.

(** The page at [va] of the space [v] has been copied to its twin [w]. *)
Record copied v w v' va fb : Prop := {
  cp_twins : twins v' (at_dir (cr3 w) v');
  cp_user : user_ok v';
  cp_task : same_task v v';
  cp_bytes : forall x, user_va x -> byte_at v' x = byte_at v x;
  cp_mmu : forall x, in_range x -> mmu v' x = mmu v x;
  cp_buf_v : data_frame v' fb;
  cp_buf_w : data_frame (at_dir (cr3 w) v') fb;
  cp_copy : forall k, 0 <= k < 4096 -> byte_at (at_dir (cr3 w) v') (va + k) = byte_at v (va + k);
  cp_other_mmu : forall x, in_range x -> x / 4096 <> va / 4096 -> mmu (at_dir (cr3 w) v') x = mmu w x;
  cp_other : forall x y, user_va x -> byte_at w x = Some y -> byte_at (at_dir (cr3 w) v') x = Some y
}.

(** Step a: into the buffer. *)
Lemma copy_out v w buf fb va f : twins v w -> buffer v w buf fb -> user_va va -> page_aligned va -> mmu v va = Some f ->
  wp (copy_words 1024 buf va) (λ _ v1, twins v1 (at_dir (cr3 w) v1) /\ only_ram v v1 /\ like_tables v v1 /\ like_tables w (at_dir (cr3 w) v1) /\
    (forall k, 0 <= k < 4096 -> k mod 4 = 0 -> word v1 (fb + k) = word v (f + k)) /\
    (forall x, user_va x -> byte_at v1 x = byte_at v x) /\ (forall x, user_va x -> byte_at (at_dir (cr3 w) v1) x = byte_at w x)) v.
Proof.
  intros T [Hb Hbl Hm Hv Hw] Hu Hal Hf. pose proof (tw_v _ _ T) as Hs.
  destruct (kernel_in_range buf Hb) as [Hbr _].
  assert (Hne : fb <> f).
  { intros ->. apply (buffer_apart v buf f va f Hs Hb Hbl Hm Hu Hf). by apply (aligned_frame v va). }
  eapply wp_mono; [apply (copy_page_ok v buf va fb f Hs Hbr (user_in_range va Hu) Hbl Hal Hm Hf Hv Hne)|].
  intros [] v1 (Hd & Hx & _). destruct (twins_write v w v1 fb T Hv Hw Hd) as (T1 & S1 & S2).
  split; [done|]. split; [apply Hd|]. split; [done|]. split; [done|]. split; [done|]. split; intros x Hux.
  - apply (bytes_kept v v1 fb x Hs Hd (user_in_range x Hux)). intros pa. by apply (buffer_apart v buf).
  - apply (bytes_kept w _ fb x (tw_w _ _ T) (write_other v w v1 fb T Hw Hd) (user_in_range x Hux)). intros pa.
    apply (buffer_apart w buf); [apply (tw_w _ _ T)|done|done| |done]. by rewrite (kernel_mmu v w).
Qed.

(** Step d: from the buffer to the new page [va] of [w]. *)
Lemma copy_in w v buf fb va g : twins w v -> kernel_va buf -> page_aligned buf -> mmu w buf = Some fb -> user_va va -> page_aligned va -> mmu w va = Some g ->
  wp (copy_words 1024 va buf) (λ _ w1, twins w1 (at_dir (cr3 v) w1) /\ only_ram w w1 /\ like_tables w w1 /\ like_tables v (at_dir (cr3 v) w1) /\
    (forall k, 0 <= k < 4096 -> k mod 4 = 0 -> word w1 (g + k) = word w (fb + k)) /\
    (forall x, user_va x -> x / 4096 <> va / 4096 -> byte_at w1 x = byte_at w x) /\
    (forall x, user_va x -> byte_at (at_dir (cr3 v) w1) x = byte_at v x)) w.
Proof.
  intros T Hb Hbl Hm Hu Hal Hg. pose proof (tw_v _ _ T) as Hs. destruct (kernel_in_range buf Hb) as [Hbr _].
  pose proof (aligned_frame w va g Hal Hg) as Eg.
  assert (Hne : g <> fb) by (rewrite <- Eg; by apply (buffer_apart w buf fb va g)).
  assert (Hw : data_frame w g) by (rewrite <- Eg; by apply (so_data w Hs va)).
  assert (Hv : data_frame v g) by (rewrite <- Eg; by apply (tw_data_v _ _ T va)).
  eapply wp_mono; [apply (copy_page_ok w va buf g fb Hs (user_in_range va Hu) Hbr Hal Hbl Hg Hm Hw Hne)|].
  intros [] w1 (Hd & Hx & _). destruct (twins_write w v w1 g T Hw Hv Hd) as (T1 & S1 & S2).
  split; [done|]. split; [apply Hd|]. split; [done|]. split; [done|]. split; [done|]. split; intros x Hux.
  - intros Hpg. apply (bytes_kept w w1 g x Hs Hd (user_in_range x Hux)). intros pa Hp E. apply Hpg.
    apply (v_inj _ (so_wf w Hs) x va pa g); [by apply user_in_range|by apply user_in_range|done|done|congruence].
  - apply (bytes_kept v _ g x (tw_w _ _ T) (write_other w v w1 g T Hv Hd) (user_in_range x Hux)). intros pa Hp E.
    apply (tw_apart _ _ T va x g pa); [done..|congruence].
Qed.

Lemma at_dir_back c v w : cr3 w = c -> at_dir c (at_dir (cr3 v) w) = w.
Proof. intros <-. by destruct w. Qed.

Lemma only_ram_task v v' : only_ram v v' -> same_task v v' /\ forall n, rooms PF_USER v n -> rooms PF_USER v' n.
Proof. intros ->. split; [by split|done]. Qed.

Lemma at_dir_user c v : user_ok v -> space_ok (at_dir c v) -> user_ok (at_dir c v).
Proof. intros (_ & Hme & Hq) Hs. split; [exact Hs|]. exact (conj Hme Hq). Qed.

(** Steps a, c and d, with the page directory changed in between. *)
Lemma page_copied v w buf fb va i n : user_ok v -> twins v w -> buffer v w buf fb -> 0 <= i < vcount PF_USER v -> va = vpage PF_USER v i ->
  bit (vbits PF_USER v) i = true -> is_Some (mmu v va) -> mmu w va = None -> rooms PF_USER v (S n) ->
  wp (copy_words 1024 buf va) (λ _ v1, same_task v v1 /\ like_tables v v1 /\ space_ok v1 /\
    wp (get_a_page_without_opvaddrbitmap PF_USER va) (λ _ w2, same_task (at_dir (cr3 w) v1) w2 /\
      wp (copy_words 1024 va buf) (λ _ w3, same_task w2 w3 /\
        copied v w (at_dir (cr3 v) w3) va fb /\ rooms PF_USER w3 n) w2) (at_dir (cr3 w) v1)) v.
Proof.
  intros Hu T Hbf Hi Hva Hb [f Hf] Hnone Hroom. destruct (vpage_user v i Hu Hi) as [Huv Hal]. rewrite <- Hva in Huv, Hal.
  pose proof Hbf as [Bk Ba Bm Bv Bw]. pose proof (user_in_range va Huv) as Hr. destruct (kernel_in_range buf Bk) as [Hbr _].
  eapply wp_mono; [by apply (copy_out v w buf fb va f)|]. intros [] v1 (T1 & O1 & Sv1 & Sw1 & X1 & Bv1 & Bw1).
  destruct (only_ram_task v v1 O1) as [K1 R1]. pose proof (same_task_user v v1 Hu K1 (tw_v _ _ T1)) as U1.
  split; [done|]. split; [done|]. split; [apply (tw_v _ _ T1)|]. set (w1 := at_dir (cr3 w) v1) in *.
  destruct (same_task_vpage v v1 K1) as [Evb Evp].
  eapply wp_mono; [apply (get_page_twin w1 v1 i va n (twins_sym _ _ T1))|].
  { apply at_dir_user; [done|apply (tw_w _ _ T1)]. }
  { unfold vcount. change (vbits PF_USER w1) with (vbits PF_USER v1). by rewrite Evb. }
  { change (vpage PF_USER w1 i) with (vpage PF_USER v1 i). by rewrite Evp. }
  { change (vbits PF_USER w1) with (vbits PF_USER v1). by rewrite Evb. }
  { by rewrite (sa_mmu _ _ Sw1). }
  { exact (R1 _ Hroom). }
  intros r w2 (_ & G & R2). pose proof G as [T2 K2 [g Hg] M2 B2 OM2 O2 D2].
  assert (Hbw2 : mmu w2 buf = Some fb).
  { rewrite M2 by (done || unfold user_va, kernel_va, page_aligned in *; dlia). rewrite (sa_mmu _ _ Sw1) by done. by rewrite (kernel_mmu v w). }
  split; [done|].
  eapply wp_mono; [by apply (copy_in w2 _ buf fb va g T2)|]. intros [] w3 (T3 & O3 & Sw3 & Sv3 & X3 & Bw3 & Bv3).
  destruct (only_ram_task w2 w3 O3) as [K3 R3]. pose proof (same_task_trans _ _ _ K2 K3) as [A1 A2 A3 A4].
  change (cr3 (at_dir (cr3 v1) w2)) with (cr3 v1) in *. rewrite (st_cr3 _ _ K1) in *.
  assert (Ew : at_dir (cr3 w) (at_dir (cr3 v) w3) = w3) by (apply at_dir_back; exact A3).
  assert (Hfb : page_aligned fb) by (by apply (mmu_frame_aligned v buf)).
  assert (Hnf : ~ is_free w1 fb).
  { pose proof (v_used _ (so_wf v (tw_v _ _ T)) buf fb Hbr Bm) as Hx. rewrite (aligned_frame v buf fb) in Hx by done.
    intros Hx'. apply Hx. change (is_free v1 fb) in Hx'. rewrite O1 in Hx'. exact Hx'. }
  destruct (D2 fb Hfb) as (X2 & Dw2 & Dv2 & _); [by rewrite (same_data w)|by rewrite (same_data v)|done|].
  assert (Kf : same_task v (at_dir (cr3 v) w3)).
  { split; [rewrite <- (st_me _ _ K1); exact A1|rewrite <- (st_mcur _ _ K1); exact A2|done|rewrite <- (st_lock _ _ K1); exact A4]. }
  split; [done|]. split; [|by apply R3]. split; rewrite ?Ew.
  - exact (twins_sym _ _ T3).
  - apply (same_task_user v); [done|done|apply (tw_w _ _ T3)].
  - done.
  - intros x Hx. rewrite Bv3, O2, Bv1 by done. done.
  - intros x Hx. rewrite (sa_mmu _ _ Sv3), OM2 by done. by apply (sa_mmu _ _ Sv1).
  - by rewrite (same_data _ _ _ Sv3).
  - by rewrite (same_data _ _ _ Sw3).
  - intros k Hk. rewrite (byte_in_page w3 va g k Hr Hal), (byte_in_page v va f k Hr Hal) by (done || by rewrite (sa_mmu _ _ Sw3)).
    rewrite X3 by dlia. rewrite X2 by dlia. change (word w1) with (word v1). rewrite X1 by dlia. done.
  - intros x Hx Hne. rewrite (sa_mmu _ _ Sw3), M2 by done. by apply (sa_mmu _ _ Sw1).
  - intros x y Hx Hy. destruct (decide (x / 4096 = va / 4096)) as [E|Hne].
    + exfalso. unfold byte_at in Hy. destruct (mmu w x) as [px|] eqn:Ep; [|done].
      apply (mmu_page w x va) in Ep; [congruence|unfold user_va, is_addr in *; lia..|done].
    + rewrite Bw3 by done. apply B2; [done|]. by rewrite Bw1.
Qed.
End copied.

(** ** The page directory of the child *)

Section new_dir.
Implicit Types (v w s : vm) (va x f : Z).

(** A fresh page of the kernel: zeros, in a frame nobody uses; the process has
    the memory it had. *)
Record fresh_page v v' va f : Prop := {
  fp_user : user_ok v';
  fp_task : same_task v v';
  fp_va : kernel_va va /\ page_aligned va;
  fp_mmu : mmu v' va = Some f;
  fp_data : data_frame v' f;
  fp_zero : forall x, f <= x < f + 4096 -> x mod 4 = 0 -> word v' x = 0;
  fp_keep : forall x pa, in_range x -> mmu v x = Some pa -> mmu v' x = Some pa;
  fp_space : forall x, user_va x -> mmu v' x = mmu v x;
  fp_bytes : forall x, user_va x -> byte_at v' x = byte_at v x;
  fp_frames : forall h, page_aligned h -> data_frame v h -> ~ is_free v h -> data_frame v' h /\ h <> f;
  fp_room : forall n, rooms PF_KERNEL v (S n) -> rooms PF_USER v n -> rooms PF_USER v' n
}.

Lemma kernel_vpage v i : vm_wf v -> 0 <= i < vcount PF_KERNEL v -> kernel_va (vpage PF_KERNEL v i).
Proof.
  intros Hwf Hi. destruct (v_vpool _ Hwf PF_KERNEL (or_introl eq_refl)) as [_ _ _ Hst Hen _].
  change (is_kernel PF_KERNEL) with true in Hst, Hen. unfold kernel_va, vpage in *. lia.
Qed.

(** The one page that [get_pages] has got. *)
Section one_page.
Context (v s1 s2 : vm) (k : lock) (r f : Z) (b : bitmap) (Hu : user_ok v) (G : pages_got PF_KERNEL v 1 k r b [f] s1 s2).
Local Abbreviation va := (vpage PF_KERNEL v r).
Local Abbreviation v0 := (set_vbits PF_KERNEL b (relock PF_KERNEL k v)).
Local Abbreviation v' := (relock PF_KERNEL (plock_of PF_KERNEL v) s2).

Local Lemma one_wf : vm_wf v.
Proof. apply Hu. Qed.
Local Lemma one_map : mapped_run PF_KERNEL v0 s1 va [f].
Proof. apply (pg_map _ _ _ _ _ _ _ _ _ G). Qed.
Local Lemma one_clear : data_write s1 s2 [f].
Proof. apply (pg_clear _ _ _ _ _ _ _ _ _ G). Qed.
Local Lemma one_range : 0 <= r < vcount PF_KERNEL v.
Proof. destruct (pg_range _ _ _ _ _ _ _ _ _ G) as (Hr & Hc & _). lia. Qed.

Lemma one_va : kernel_va va /\ page_aligned va.
Proof.
  split; [apply kernel_vpage; [apply one_wf|apply one_range]|]. apply vpage_in_range; [apply one_wf|by left|apply one_range].
Qed.

Lemma one_tables : like_tables s1 v'.
Proof.
  pose proof (mr_wf _ _ _ _ _ one_map) as W1. pose proof one_clear as Hd. apply (like_tables_trans _ s2); [|by apply ram_tables].
  split; [by rewrite (dw_only _ _ _ Hd)| |].
  - intros i Hi. apply (data_write_pdir s1 s2 [f]); [apply (sm_cr3 _ (t_self _ (v_tables _ W1)))|done|done].
  - intros x Hx. apply (data_write_mmu s1 s2 [f]); [apply (v_tables _ W1)|done|done].
Qed.

Lemma one_frame : is_free v f.
Proof. apply (relock_is_free PF_KERNEL k v f). eapply (mem_free_is_free PF_KERNEL v0), (mr_free _ _ _ _ _ one_map). by left. Qed.

Lemma one_untouched h : page_aligned h -> data_frame v h -> ~ is_free v h ->
  (forall x, h <= x < h + 4096 -> word v' x = word v x) /\ data_frame v' h /\ h <> f.
Proof.
  intros Ha Hdh Hfh. pose proof one_clear as Hd. assert (Hne : h <> f) by (intros ->; apply Hfh, one_frame).
  destruct (untouched v0 s1 PF_KERNEL va [f] one_map h Ha) as [Hw Hd']; [by apply (same_data v); [apply ram_tables|]| |].
  { intros Hx. by apply Hfh, (relock_is_free PF_KERNEL k v h). }
  split; [|by rewrite (same_data _ _ _ one_tables)]. intros x Hx. transitivity (word s1 x); [|by apply Hw].
  destruct (decide (word s2 x = word s1 x)) as [|Hc]; [done|]. exfalso.
  apply (dw_words _ _ _ Hd) in Hc as (g & ->%list_elem_of_singleton & Hin).
  destruct (dw_frames _ _ _ Hd f ltac:(by left)) as (Hfa & _). unfold page_aligned in *. dlia.
Qed.

Lemma one_page_mapped x pa : user_va x -> mmu v x = Some pa ->
  (forall y, frame pa <= y < frame pa + 4096 -> word v' y = word v y) /\ data_frame v' (frame pa) /\ frame pa <> f.
Proof.
  intros Hx Hp. apply one_untouched; [apply frame_aligned|by apply (so_data v (proj1 Hu) x)|].
  apply (v_used _ one_wf x); [by apply user_in_range|done].
Qed.

Lemma one_mmu x : in_range x -> mmu v' x = match znth [f] ((x - va) / 4096) with Some g => Some (g + x mod 4096) | None => mmu v x end.
Proof. intros Hx. rewrite (sa_mmu _ _ one_tables), (mr_mmu _ _ _ _ _ one_map) by done. done. Qed.

Lemma one_old x : in_range x -> x / 4096 <> va / 4096 -> mmu v' x = mmu v x.
Proof.
  intros Hx Hne. destruct one_va as [_ Hal]. rewrite one_mmu by done. rewrite (proj2 (znth_None [f] _)); [done|].
  unfold zlen, page_aligned in *. cbn [length]. dlia.
Qed.
Lemma one_user x : user_va x -> mmu v' x = mmu v x.
Proof.
  intros Hx. destruct one_va as [Hk Hal]. apply one_old; [by apply user_in_range|]. unfold user_va, kernel_va, page_aligned in *. dlia.
Qed.

Lemma one_task : same_task v v'.
Proof.
  destruct (same_cfg_vpool PF_KERNEL v0 s1 (mr_cfg _ _ _ _ _ one_map)) as (_ & Em & Ec & Eme & _).
  pose proof (same_cfg_lock PF_USER v0 s1 (mr_cfg _ _ _ _ _ one_map)) as Elk.
  pose proof (only_ram_task s1 s2 (dw_only _ _ _ one_clear)) as [[A B C D] _].
  split; [exact (eq_trans A Eme)|exact (eq_trans B Em)|exact (eq_trans C Ec)|exact (eq_trans D Elk)].
Qed.

Lemma one_space : space_ok v'.
Proof.
  split.
  - apply vm_wf_relock, (vm_wf_data s1 s2 [f]); [apply (mr_wf _ _ _ _ _ one_map)|apply one_clear].
  - destruct (so_act v (proj1 Hu)) as [?|[_ ?]]; [done|right; split; [done|by rewrite (st_mcur _ _ one_task)]].
  - intros x pa Hx. rewrite one_user by done. intros Hp. by apply (one_page_mapped x pa).
Qed.

Lemma one_rooms n : rooms PF_KERNEL v (S n) -> rooms PF_USER v n -> rooms PF_USER v' n.
Proof.
  intros Hk [Hn _]. assert (Hk1 : rooms PF_KERNEL s1 n) by (apply (mr_room _ _ _ _ _ one_map); exact Hk).
  pose proof (mr_upool _ _ _ _ _ one_map eq_refl) as Eu. pose proof (dw_only _ _ _ one_clear) as Ho. unfold only_ram in Ho. split.
  - change (pool_room (user_pool s2) n). rewrite Ho. change (pool_room (user_pool s1) n). by rewrite Eu.
  - change (pool_room (kernel_pool s2) n). rewrite Ho. eapply frames_room_le; [|exact Hk1]. lia.
Qed.

Lemma one_fresh : fresh_page v v' va f.
Proof.
  destruct one_va as [Hk Hal]. pose proof one_clear as Hd. split; try done.
  - apply (same_task_user v); [done|apply one_task|apply one_space].
  - apply one_task.
  - rewrite one_mmu by (by apply kernel_in_range). rewrite Z.sub_diag. cbn [znth]. unfold page_aligned in Hal. rewrite Hal.
    change (znth [f] (0 / 4096)) with (Some f). f_equal. lia.
  - rewrite (same_data _ _ _ one_tables). destruct (dw_frames _ _ _ Hd f ltac:(by left)) as (_ & A & B). by split.
  - intros x Hx Hx4. change (word s2 x = 0). apply (pg_zero _ _ _ _ _ _ _ _ _ G f); [by left|done|done].
  - intros x pa Hx Hp. rewrite one_old; [done|done|]. intros E.
    assert (Hvm : mmu v va = None).
    { apply (vp_unmapped _ _ (v_vpool _ one_wf PF_KERNEL (or_introl eq_refl))); [apply one_range|]. apply (pg_was _ _ _ _ _ _ _ _ _ G). lia. }
    apply (mmu_page v x va) in Hp; [congruence|unfold in_range, kernel_va, is_addr in *; lia..|done].
  - exact one_user.
  - intros x Hx. unfold byte_at. rewrite one_user by done. destruct (mmu v x) as [pa|] eqn:E; [|done]. do 2 f_equal.
    apply (one_page_mapped x pa Hx E). pose proof (frame_bounds v x pa E). pose proof (frame_aligned pa).
    pose proof (Z.mod_pos_bound pa 4 ltac:(lia)). unfold page_aligned in *. dlia.
  - intros h Ha Hdh Hfh. destruct (one_untouched h Ha Hdh Hfh) as (_ & ? & ?). done.
  - exact one_rooms.
Qed.
End one_page.

Lemma kernel_page_ok v r0 : user_ok v -> Seq.quiet (me v) (plock_of PF_KERNEL v) ->
  0 <= r0 < vcount PF_KERNEL v -> bit (vbits PF_KERNEL v) r0 = false -> rooms PF_KERNEL v 1 ->
  wp (get_kernel_pages 1) (λ va v', exists f, fresh_page v v' va f) v.
Proof.
  intros Hu Hq Hr0 Hbit Hroom. assert (Hrun : run_free (vbits PF_KERNEL v) r0 1) by (intros j Hj; by replace j with r0 by lia).
  destruct (get_pages_ok PF_KERNEL v 1 r0 (so_wf v (proj1 Hu)) (or_introl eq_refl) ltac:(lia) ltac:(lia) ltac:(lia) Hrun ltac:(done) Hroom
    (proj1 (proj2 Hu)) Hq) as (k & r & b & fs & s1 & s2 & G).
  destruct (pg_range _ _ _ _ _ _ _ _ _ G) as (_ & _ & Hfs).
  destruct fs as [|f [|? ?]]; try (unfold zlen in Hfs; cbn in Hfs; lia).
  unfold wp, get_kernel_pages. rewrite (pg_run _ _ _ _ _ _ _ _ _ G). exists f. by apply (one_fresh v s1 s2 k r f b).
Qed.

(** *** A directory with the kernel half of the running one *)

Section directory.
Context (v : vm) (va f : Z) (Hs : space_ok v) (Hva : kernel_va va) (Hal : page_aligned va) (Hm : mmu v va = Some f) (Hf : data_frame v f).
Context (D0 : forall i, 0 <= i < 768 -> word v (f + 4 * i) = 0)
  (DK : forall i, 768 <= i < 1023 -> word v (f + 4 * i) = pdir v i) (DS : word v (f + 4 * 1023) = entry f).
Local Abbreviation w := (at_dir f v).

Lemma dir_pdir i : 0 <= i < 1024 -> pdir w i = if decide (i < 768) then 0 else if decide (i < 1023) then pdir v i else entry f.
Proof.
  intros Hi. change (pdir w i) with (word v (f + 4 * i)). repeat case_decide; [apply D0; lia|apply DK; lia|].
  by replace i with 1023 by lia.
Qed.
Lemma dir_kernel i : 0 <= i < 1023 -> present (pdir w i) = true -> 768 <= i /\ pdir w i = pdir v i.
Proof. intros Hi. rewrite dir_pdir by lia. repeat case_decide; [by rewrite present_0|by split; [lia|]|lia]. Qed.

Lemma dir_frame : page_aligned f /\ is_addr f.
Proof.
  split; [by apply (mmu_frame_aligned v va)|]. rewrite <- (aligned_frame v va f Hal Hm). pose proof (frame_range f). unfold is_addr. lia.
Qed.

Lemma dir_mmu x : in_range x -> mmu w x = if decide (kernel_va x) then mmu v x else None.
Proof.
  intros Hr. destruct (in_range_addr x Hr) as (Ha & Hi & _). case_decide as Hk.
  - destruct (kernel_in_range x Hk) as [_ Hi']. unfold mmu, pte_addr, pde_of. fold (pdir w (PDE_IDX x)) (pdir v (PDE_IDX x)).
    rewrite dir_pdir, decide_False, decide_True by lia. done.
  - unfold mmu, pde_of. fold (pdir w (PDE_IDX x)). rewrite dir_pdir by lia. rewrite decide_True; [by rewrite present_0|].
    apply (user_idx x). unfold user_va, kernel_va, in_range in *. lia.
Qed.

Lemma dir_user x : user_va x -> mmu w x = None.
Proof. intros Hx. rewrite dir_mmu by (by apply user_in_range). rewrite decide_False; [done|]. unfold user_va, kernel_va in *. lia. Qed.

Lemma dir_mmu_some x pa : in_range x -> mmu w x = Some pa -> mmu v x = Some pa.
Proof. intros Hr. rewrite dir_mmu by done. by case_decide. Qed.

Lemma dir_used : ~ is_free v f.
Proof.
  pose proof (v_used _ (so_wf v Hs) va f (proj1 (kernel_in_range va Hva)) Hm) as Hx. by rewrite (aligned_frame v va) in Hx.
Qed.

Lemma dir_tables : tables_wf w.
Proof.
  destruct (v_tables _ (so_wf v Hs)) as [_ T2 T3 T4 T5]. destruct dir_frame as [Fa Fi]. destruct Hf as [Hn Hc].
  split; [split|..]; unfold tframe in *.
  - exact Fa.
  - exact Fi.
  - rewrite dir_pdir, decide_False, decide_False by lia. apply entry_present.
  - rewrite dir_pdir, decide_False, decide_False by lia. by apply entry_frame.
  - intros i Hi Hp E. destruct (dir_kernel i Hi Hp) as [Hk Ek]. rewrite Ek in Hp, E. apply Hn. by exists i.
  - intros i j Hi Hj Hp Hq. destruct (dir_kernel i ltac:(lia) Hp) as [_ Ei], (dir_kernel j ltac:(lia) Hq) as [_ Ej]. rewrite Ei, Ej in *. by apply T3.
  - exact dir_used.
  - intros i Hi Hp. destruct (dir_kernel i Hi Hp) as [_ Ei]. rewrite Ei in *. by apply T5.
Qed.

Lemma dir_space : space_ok w.
Proof.
  pose proof (so_wf v Hs) as [_ [Pk Pu Po] Wu Wi Wv]. split; [split|apply (so_act v Hs)|].
  - exact dir_tables.
  - by split.
  - intros x pa Hx Hp. by apply (Wu x pa Hx), dir_mmu_some.
  - intros x y pa pb Hx Hy Hp Hq. by apply (Wi x y pa pb Hx Hy); apply dir_mmu_some.
  - intros pf Ha. destruct (Wv pf Ha) as [V1 V2 V3 V4 V5 V6]. split; try done. intros i Hi Hb.
    change (vpage pf w i) with (vpage pf v i). rewrite dir_mmu; [case_decide; [by apply V6|done]|].
    apply (vpage_in_range v pf i (so_wf v Hs) Ha Hi).
  - intros x pa Hx. by rewrite dir_user.
Qed.

(** A frame that is no table of [v] is none of the new directory. *)
Lemma dir_data g : data_frame v g -> g <> f -> data_frame w g.
Proof.
  intros [Hn Hc] Hne. split; [|done]. intros (i & Hi & Hp & <-). destruct (dir_kernel i Hi Hp) as [_ E]. apply Hn. exists i.
  unfold tframe in *. rewrite E in *. done.
Qed.

Lemma dir_twins : twins v w.
Proof.
  destruct (v_tables _ (so_wf v Hs)) as [T1 T2 T3 _ _]. pose proof dir_frame as [Fa _]. split; try done.
  - exact dir_space.
  - intros g [->|(i & Hi & Hp & _)]; [exact Hf|]. destruct (dir_kernel i ltac:(lia) Hp). lia.
  - intros g Hg. assert (Hne : g <> f).
    { intros ->. destruct Hf as [Hn Hc]. destruct Hg as [->|(i & Hi & Hp & E)]; [done|]. apply Hn. exists i. split; [lia|done]. }
    split; [|done]. intros (j & Hj & Hq & E). destruct (dir_kernel j Hj Hq) as [Hk Ej]. unfold tframe in E. rewrite Ej in *.
    destruct Hg as [->|(i & Hi & Hp & Eg)]; [by apply (T2 j Hj Hq)|].
    assert (i = j) by (apply T3; [lia|lia|done|done|unfold tframe in *; congruence]). lia.
  - intros x pa Hx. by rewrite dir_user.
  - intros x pa Hx Hp. apply dir_data; [by apply (so_data v Hs x)|]. by apply (buffer_apart v va f x pa).
  - intros x y pa pb Hx Hy _. by rewrite dir_user.
Qed.
End directory.

Lemma steady_window v : space_ok v -> steady v 0xfffff000 (cr3 v).
Proof.
  intros Hs. pose proof (sm_cr3 _ (t_self _ (v_tables _ (so_wf v Hs)))) as Hc. split; [done|]. split; [done|]. split; [unfold is_addr; lia|].
  intros s' k Hs' S Hk. pose proof (t_self _ (v_tables _ (so_wf s' Hs'))) as Hself.
  replace (0xfffff000 + k) with (0xffc00000 + 4096 * 1023 + k) by lia. rewrite mmu_window by (done || lia).
  rewrite (sm_present _ Hself), (sm_frame _ Hself). by rewrite (sa_cr3 _ _ S).
Qed.

(** The directory, filled in as [create_page_dir] does. *)
Lemma fill_dir v va f : space_ok v -> kernel_va va -> page_aligned va -> mmu v va = Some f -> data_frame v f ->
  (forall x, f <= x < f + 4096 -> x mod 4 = 0 -> word v x = 0) ->
  wp (copy_words 256 (u32 (va + 0x300 * 4)) (u32 (0xfffff000 + 0x300 * 4))) (λ _ v2, same_task v v2 /\ data_write v v2 [f] /\
    wp (store (u32 (va + 4 * 1023)) (entry f)) (λ _ v3, same_task v2 v3 /\ data_write v2 v3 [f] /\ twins v3 (at_dir f v3) /\
      (forall x, user_va x -> mmu (at_dir f v3) x = None) /\ forall g, data_frame v3 g -> g <> f -> data_frame (at_dir f v3) g) v2) v.
Proof.
  intros Hs Hva Hal Hm Hf Hz. destruct (kernel_in_range va Hva) as [Hr _]. pose proof (mmu_frame_aligned v va f Hal Hm) as Hfa.
  pose proof (copy_words_ok 256 v 768 va 0xfffff000 f (cr3 v) Hs (steady_page v va f Hr Hal Hm) (steady_window v Hs) Hf (proj2 Hf)) as Hc.
  replace (u32 (va + 0x300 * 4)) with (va + 4 * 768) by (unfold kernel_va in Hva; rewrite u32_small by lia; lia).
  change (u32 (0xfffff000 + 0x300 * 4)) with (0xfffff000 + 4 * 768).
  eapply wp_mono; [apply Hc; lia|]. intros [] v2 [Hd2 Hx2]. split; [by apply only_ram_task, Hd2|]. split; [done|].
  pose proof (write_tables v v2 f Hs Hd2) as S2. pose proof (space_ok_data v v2 f Hs Hf Hd2) as Hs2.
  assert (Hm2 : mmu v2 va = Some f) by (by rewrite (sa_mmu _ _ S2)).
  replace (u32 (va + 4 * 1023)) with (va + 4 * 1023) by (unfold kernel_va in Hva; by rewrite u32_small by lia).
  destruct (page_mmu v2 va f (4 * 1023) Hr Hal Hm2 ltac:(lia)) as [_ Hm3].
  eapply wp_store; [unfold page_aligned in Hal; dlia|exact Hm3|]. set (v3 := set_ram _ v2).
  assert (Hf2 : data_frame v2 f) by (by rewrite (same_data _ _ _ S2)).
  assert (Hw3 : forall x, word v3 x = if decide (x = f + 4 * 1023) then entry f else word v2 x) by (intros x; apply word_insert).
  assert (Hd3 : data_write v2 v3 [f]).
  { split; [apply only_ram_insert| |intros g ->%list_elem_of_singleton; destruct Hf2; by split].
    intros x. rewrite Hw3. case_decide as E; [|done]. intros _. exists f. split; [by left|lia]. }
  pose proof (write_tables v2 v3 f Hs2 Hd3) as S3. pose proof (space_ok_data v2 v3 f Hs2 Hf2 Hd3) as Hs3.
  assert (D0 : forall i, 0 <= i < 768 -> word v3 (f + 4 * i) = 0).
  { intros i Hi. rewrite Hw3, decide_False, Hx2, decide_False by lia. apply Hz; [lia|]. unfold page_aligned in Hfa. dlia. }
  assert (DK : forall i, 768 <= i < 1023 -> word v3 (f + 4 * i) = pdir v3 i).
  { intros i Hi. rewrite (sa_pdir _ _ S3), (sa_pdir _ _ S2) by lia. rewrite Hw3, decide_False, Hx2, decide_True by dlia.
    unfold pdir. f_equal. lia. }
  assert (DS : word v3 (f + 4 * 1023) = entry f) by (by rewrite Hw3, decide_True).
  assert (Hmf : mmu v3 va = Some f) by (by rewrite (sa_mmu _ _ S3)).
  assert (Hf3 : data_frame v3 f) by (by rewrite (same_data _ _ _ S3)).
  split; [by apply only_ram_task, Hd3|]. split; [done|]. split; [by apply (dir_twins v3 va)|]. split; [by apply dir_user|by apply dir_data].
Qed.

(** A new address space beside the running one. *)
Record new_space v v' va f : Prop := {
  ns_fresh : exists v1, fresh_page v v1 va f /\ like_tables v1 v' /\ only_ram v1 v' /\ forall x, user_va x -> byte_at v' x = byte_at v1 x;
  ns_twins : twins v' (at_dir f v');
  ns_empty : forall x, user_va x -> mmu (at_dir f v') x = None;
  ns_data : forall g, data_frame v' g -> g <> f -> data_frame (at_dir f v') g
}.
End new_dir.

(** ** Changing the page directory *)

Section fork_memory.
Context {H : Type} `{HeapLaws H}.
Implicit Types (s : proc H) (v w : vm) (va x : Z).

Definition put_mmu (c e : Z) s : proc H := put_thr (upd_mmu c e (thr s)) s.

Lemma sees_mmu c e v s : sees s v -> sees (put_mmu c e s) (at_dir c v).
Proof. intros [Ht Hv]. split; [exact Ht|]. rewrite <- Hv. done. Qed.

(** Only memory, CR3 and the esp0 of the TSS have changed. *)
Definition ran s s' : Prop := exists h c e, s' = put_thr (upd_mmu c e (thr s)) (put_heap (set_hv h (p_heap s)) s).

Lemma ran_refl s : ran s s.
Proof.
  exists (hv (p_heap s)), (k_cr3 (thr s)), (tss_esp0 (thr s)). unfold thr.
  destruct s as [[? [? [[] ?] ?] ? ? ?] [] ? ? ? ?]; reflexivity.
Qed.
Lemma ran_trans s1 s2 s3 : ran s1 s2 -> ran s2 s3 -> ran s1 s3.
Proof. intros (h & c & e & ->) (h' & c' & e' & ->). by exists h', c', e'. Qed.
Lemma ran_tasks s s' : ran s s' -> k_cur (thr s') = k_cur (thr s) /\ k_tasks (thr s') = k_tasks (thr s).
Proof. intros (h & c & e & ->). done. Qed.
Lemma ran_back s u : k_tasks (thr s) !! k_cur (thr s) = Some (mcur u) -> ran s (back u s).
Proof.
  intros Hu. exists u, (k_cr3 (thr s)), (tss_esp0 (thr s)). unfold back. rewrite insert_id by done. by destruct (thr s).
Qed.
Lemma ran_mmu s c e : ran s (put_mmu c e s).
Proof. exists (hv (p_heap s)), c, e. unfold put_mmu, thr. destruct s as [[? [? [[] ?] ?] ? ? ?] [] ? ? ? ?]; reflexivity. Qed.

(** An operation on memory that keeps the directory and the task. *)
Lemma wp_ran {A} (m : M vm A) (Q : A -> vm -> Prop) (P : A -> proc H -> Prop) s v : sees s v ->
  wp m (λ a v', same_task v v' /\ Q a v') v ->
  (forall a v' s', sees s' v' -> ran s s' -> same_task v v' -> Q a v' -> P a s') -> wp (on_mem m) P s.
Proof.
  intros Hs Hm HP. apply (wp_sees _ _ s v Hs). eapply wp_mono; [exact Hm|]. intros a v' (K & HQ). pose proof K as [Hme Ht Hc _].
  apply (HP a v'); [by apply (sees_back v)| |done|done]. apply ran_back. rewrite Ht. apply Hs.
Qed.

Lemma load_cr3_ok (P : unit -> proc H -> Prop) s v t tc c : sees s v -> k_tasks (thr s) !! t = Some tc ->
  kernel_va (pgdir tc) -> mmu v (pgdir tc) = Some c -> selfmap v ->
  (forall s', sees s' (at_dir c v) -> ran s s' -> P tt s') -> wp (load_cr3 t) P s.
Proof.
  intros Hs Ht Hk Hm Hself HP. unfold load_cr3. apply wp_bind, wp_on_threads, (wp_rd_task _ tc); [done|].
  rewrite (proj2 (Z.eqb_neq _ _)) by (unfold kernel_va in Hk; lia). apply wp_bind.
  apply (wp_ran _ (λ pa v', pa = c /\ v' = v) _ _ v Hs).
  { apply (addr_v2p_ok v (pgdir tc) c); [done|unfold kernel_va, is_addr in *; lia|done|]. by split. }
  intros pa v' s' Hs' R' _ [-> ->]. apply wp_on_threads, wp_modify. apply (HP (put_mmu c (tss_esp0 (thr s')) s')).
  - by apply sees_mmu.
  - eapply ran_trans; [exact R'|apply ran_mmu].
Qed.

(** [create_page_dir]: the kernel half shared, the user half empty. *)
Lemma create_page_dir_ok s v r0 : sees s v -> user_ok v -> Seq.quiet (me v) (plock_of PF_KERNEL v) ->
  0 <= r0 < vcount PF_KERNEL v -> bit (vbits PF_KERNEL v) r0 = false -> rooms PF_KERNEL v 1 ->
  wp create_page_dir (λ va s', ran s s' /\ exists v' f, sees s' v' /\ new_space v v' va f) s.
Proof.
  intros Hs Hu Hq Hr0 Hb Hroom. unfold create_page_dir. apply wp_bind.
  apply (wp_ran _ (λ va v1, exists f, fresh_page v v1 va f) _ s v Hs).
  { eapply wp_mono; [by apply (kernel_page_ok v r0)|]. intros va v1 (f & F). split; [apply (fp_task _ _ _ _ F)|by exists f]. }
  intros va v1 s1 Hs1 R1 _ (f & F). destruct (fp_va _ _ _ _ F) as [Hva Hal]. pose proof (fp_user _ _ _ _ F) as [V1 _].
  rewrite (proj2 (Z.eqb_neq va 0)) by (unfold kernel_va in Hva; lia).
  pose proof (fill_dir v1 va f V1 Hva Hal (fp_mmu _ _ _ _ F) (fp_data _ _ _ _ F) (fp_zero _ _ _ _ F)) as Hfill.
  apply wp_bind, (wp_ran _ _ _ s1 v1 Hs1 Hfill).
  intros [] v2 s2 Hs2 R2 _ (Hd2 & Hst). pose proof (write_tables v1 v2 f V1 Hd2) as S2.
  pose proof (space_ok_data v1 v2 f V1 (fp_data _ _ _ _ F) Hd2) as V2.
  apply wp_bind. apply (wp_ran _ (λ pa v', pa = f /\ v' = v2) _ s2 v2 Hs2).
  { apply (addr_v2p_ok v2 va f); [apply (t_self _ (v_tables _ (so_wf v2 V2)))|unfold kernel_va, is_addr in *; lia| |by split].
    rewrite (sa_mmu _ _ S2) by (by apply kernel_in_range). apply (fp_mmu _ _ _ _ F). }
  intros pa v2' s3 Hs3 R3 _ [-> ->]. fold (entry f). apply wp_bind, (wp_ran _ _ _ s3 v2 Hs3 Hst).
  intros [] v3 s4 Hs4 R4 _ (Hd3 & T & He & Hg). apply wp_ret. split; [by do 3 (eapply ran_trans; [eassumption|])|].
  exists v3, f. split; [done|]. pose proof (write_tables v2 v3 f V2 Hd3) as S3. split; try done. exists v1.
  split; [done|]. split; [by eapply like_tables_trans|]. split; [eapply only_ram_trans; [apply Hd2|apply Hd3]|].
  assert (Hb1 : forall u, like_tables v1 u -> forall x pa, user_va x -> mmu u x = Some pa -> frame pa <> f).
  { intros u Su x pa Hx. rewrite (sa_mmu _ _ Su) by (by apply user_in_range). apply (buffer_apart v1 va f x pa V1 Hva Hal (fp_mmu _ _ _ _ F) Hx). }
  intros x Hx. rewrite (bytes_kept v2 v3 f x V2 Hd3 (user_in_range x Hx)) by (intros pa; by apply (Hb1 v2)).
  apply (bytes_kept v1 v2 f x V1 Hd2 (user_in_range x Hx)). intros pa. apply (Hb1 v1); [apply like_tables_refl|done].
Qed.

(** ** Copying a page through the buffer *)

(** Parent and child, the buffer, and the address space of each. *)
Record forking s v w (child parent buf fb : Z) tc : Prop := {
  fk_sees : sees s v;
  fk_cur : k_cur (thr s) = parent;
  fk_child : k_tasks (thr s) !! child = Some tc;
  fk_user : user_ok v;
  fk_twins : twins v w;
  fk_buf : buffer v w buf fb;
  fk_dir_c : kernel_va (pgdir tc) /\ mmu v (pgdir tc) = Some (cr3 w);
  fk_dir_p : kernel_va (pgdir (mcur v)) /\ mmu v (pgdir (mcur v)) = Some (cr3 v)
}.

Lemma copy_user_page_ok s v w child parent buf fb tc i n : forking s v w child parent buf fb tc ->
  0 <= i < vcount PF_USER v -> bit (vbits PF_USER v) i = true -> is_Some (mmu v (vpage PF_USER v i)) ->
  mmu w (vpage PF_USER v i) = None -> rooms PF_USER v (S n) ->
  wp (copy_user_page child parent buf (vpage PF_USER v i)) (λ _ s', ran s s' /\ exists v', 
    forking s' v' (at_dir (cr3 w) v') child parent buf fb tc /\ copied v w v' (vpage PF_USER v i) fb /\ rooms PF_USER v' n) s.
Proof.
  intros [Hs Hcur Hch Hu T Hbf [Kc Mc] [Kp Mp]] Hi Hb Hsome Hnone Hroom. set (va := vpage PF_USER v i) in *.
  pose proof (page_copied v w buf fb va i n Hu T Hbf Hi eq_refl Hb Hsome Hnone Hroom) as Hpage.
  destruct (kernel_in_range _ Kc) as [Rc _], (kernel_in_range _ Kp) as [Rp _].
  assert (Htasks : forall s', ran s s' -> k_tasks (thr s') !! child = Some tc /\ k_tasks (thr s') !! parent = Some (mcur v)).
  { intros s' R'. destruct (ran_tasks _ _ R') as [_ ->]. split; [done|]. rewrite <- Hcur. apply Hs. }
  unfold copy_user_page. apply wp_bind, (wp_ran _ _ _ s v Hs Hpage). intros [] v1 s1 Hs1 R1 K1 (S1 & V1 & Hget).
  assert (Mc1 : mmu v1 (pgdir tc) = Some (cr3 w)) by (by rewrite (sa_mmu _ _ S1)).
  apply wp_bind, (load_cr3_ok _ s1 v1 child tc (cr3 w) Hs1 (proj1 (Htasks s1 R1)) Kc Mc1 (t_self _ (v_tables _ (so_wf _ V1)))).
  intros s2 Hs2 R2. apply wp_bind, (wp_ran _ _ _ s2 _ Hs2 Hget). intros _ w2 s3 Hs3 R3 K2 Hin.
  apply wp_bind, (wp_ran _ _ _ s3 w2 Hs3 Hin). intros [] w3 s4 Hs4 R4 K3 (Hcp & Hroom').
  assert (R : ran s s4) by (eapply ran_trans; [exact R1|]; eapply ran_trans; [exact R2|]; eapply ran_trans; [exact R3|exact R4]).
  assert (Ec3 : cr3 w3 = cr3 w) by (by rewrite (st_cr3 _ _ K3), (st_cr3 _ _ K2)).
  pose proof (at_dir_back (cr3 w) v w3 Ec3) as Ew.
  pose proof Hcp as [T' U' K' _ Mm Bv' Bw' _ _ _]. rewrite Ew in T', Bw'. pose proof (st_mcur _ _ K') as Et.
  assert (Mp3 : mmu w3 (pgdir (mcur v)) = Some (cr3 v)) by (rewrite (kernel_mmu _ _ _ T') by done; by rewrite Mm).
  apply (load_cr3_ok _ s4 w3 parent (mcur v) (cr3 v) Hs4 (proj2 (Htasks s4 R)) Kp Mp3 (t_self _ (v_tables _ (so_wf _ (tw_w _ _ T'))))).
  intros s5 Hs5 R5. assert (Rf : ran s s5) by (eapply ran_trans; [exact R|exact R5]). split; [done|].
  exists (at_dir (cr3 v) w3). split; [|exact (conj Hcp Hroom')]. destruct (ran_tasks _ _ Rf) as [Ec _]. split; rewrite ?Ew, ?Et; try done.
  - by rewrite Ec.
  - by apply Htasks.
  - destruct Hbf as [B1 B2 B3 _ _]. split; try done. rewrite Mm; [done|]. by apply kernel_in_range.
  - split; [done|]. by rewrite Mm, Ec3.
  - split; [done|]. by rewrite Mm.
Qed.

(** ** All pages of the process *)

(** How many of the [n] bits from [i] on are set. *)
Fixpoint bits_set (b : bitmap) (n : nat) (i : Z) : nat :=
  match n with
  | O => O
  | S n => ((if bit b i then 1 else 0) + bits_set b n (i + 1))%nat
  end.

(** Every page that the bitmap of the process has given away is mapped. *)
Definition backed v : Prop :=
  forall i, 0 <= i < vcount PF_USER v -> bit (vbits PF_USER v) i = true -> is_Some (mmu v (vpage PF_USER v i)).

(** The first [m] pages of the parent's space [v0] are copied; [n] frames are
    left. *)
Record progress s0 v0 (c child parent buf fb : Z) (tc : task_struct) (m : Z) (n : nat) s v w : Prop := {
  pr_fork : forking s v w child parent buf fb tc;
  pr_ran : ran s0 s;
  pr_dir : cr3 w = c;
  pr_task : same_task v0 v;
  pr_bytes : forall x, user_va x -> byte_at v x = byte_at v0 x;
  pr_mmu : forall x, in_range x -> mmu v x = mmu v0 x;
  pr_done : forall i k, 0 <= i < m -> 0 <= k < 4096 -> byte_at w (vpage PF_USER v0 i + k) = byte_at v0 (vpage PF_USER v0 i + k);
  pr_todo : forall i, m <= i < vcount PF_USER v0 -> mmu w (vpage PF_USER v0 i) = None;
  pr_room : rooms PF_USER v n
}.

Section loops.
Context s0 v0 (c child parent buf fb : Z) (tc : task_struct) (U0 : user_ok v0) (B0 : backed v0).
Abbreviation prog m n s := (exists v w, progress s0 v0 c child parent buf fb tc m n s v w).

Lemma pool_page i k : 0 <= i < vcount PF_USER v0 -> 0 <= k < 4096 ->
  user_va (vpage PF_USER v0 i + k) /\ (vpage PF_USER v0 i + k) / 4096 = vpage PF_USER v0 i / 4096 /\
  forall j, j <> i -> vpage PF_USER v0 i / 4096 <> vpage PF_USER v0 j / 4096.
Proof.
  intros Hi Hk. destruct (vpage_user v0 i U0 Hi) as [Hu Hal]. unfold user_va, page_aligned, vpage in *. split_and!; [dlia|dlia|dlia|].
  intros j Hj. dlia.
Qed.

Lemma unmapped_byte v x : mmu v x = None -> byte_at v x = None.
Proof. unfold byte_at. by intros ->. Qed.
Lemma unmapped_page v i k : mmu v (vpage PF_USER v0 i) = None -> 0 <= i < vcount PF_USER v0 -> 0 <= k < 4096 ->
  byte_at v (vpage PF_USER v0 i + k) = None.
Proof.
  intros Hm Hi Hk. apply unmapped_byte. destruct (mmu v (vpage PF_USER v0 i + k)) as [pa|] eqn:E; [|done]. exfalso.
  destruct (pool_page i k Hi Hk) as (Hu & Hp & _). destruct (vpage_user v0 i U0 Hi) as [Hu0 _].
  apply (mmu_page v _ (vpage PF_USER v0 i)) in E; [congruence|unfold user_va, is_addr in *; lia..|done].
Qed.

Lemma copied_other v w v' va x : copied v w v' va fb -> user_va x -> x / 4096 <> va / 4096 -> byte_at (at_dir (cr3 w) v') x = byte_at w x.
Proof.
  intros Hc Hu Hne. destruct (byte_at w x) as [y|] eqn:E; [by apply (cp_other _ _ _ _ _ Hc)|].
  apply unmapped_byte. rewrite (cp_other_mmu _ _ _ _ _ Hc) by (done || by apply user_in_range).
  unfold byte_at in E. by destruct (mmu w x).
Qed.

Lemma page_step m n s : 0 <= m < vcount PF_USER v0 -> prog m ((if bit (vbits PF_USER v0) m then 1 else 0) + n)%nat s ->
  wp (if bit (vbits PF_USER v0) m then copy_user_page child parent buf (vpage PF_USER v0 m) else mret tt)
    (λ _ s', prog (m + 1) n s') s.
Proof.
  intros Hm (v & w & [F R D K B M Dn Td Hroom]). destruct (same_task_vpage v0 v K) as [Evb Evp].
  destruct (bit (vbits PF_USER v0) m) eqn:Eb; cbn [Nat.add] in Hroom.
  - rewrite <- Evp. eapply wp_mono; [apply (copy_user_page_ok s v w child parent buf fb tc m n F)|].
    + unfold vcount in *. by rewrite Evb.
    + by rewrite Evb.
    + rewrite Evp, M; [by apply B0|]. apply user_in_range, (vpage_user v0 m U0 Hm).
    + rewrite Evp. apply Td. lia.
    + done.
    + intros [] s' (R' & v' & F' & C & Hroom'). rewrite Evp in C. exists v', (at_dir (cr3 w) v'). split; try done.
      * by eapply ran_trans.
      * by apply (same_task_trans _ v), C.
      * intros x Hx. by rewrite (cp_bytes _ _ _ _ _ C), B.
      * intros x Hx. by rewrite (cp_mmu _ _ _ _ _ C), M.
      * intros i k Hi Hk. destruct (decide (i = m)) as [->|Hne].
        -- rewrite (cp_copy _ _ _ _ _ C) by done. apply B. by apply pool_page.
        -- destruct (pool_page i k ltac:(lia) Hk) as (Hu & Hp & Hd). rewrite (copied_other v w v' _ _ C Hu) by (rewrite Hp; apply Hd; lia).
           apply Dn; [lia|done].
      * intros i Hi. destruct (pool_page i 0 ltac:(lia) ltac:(lia)) as (Hu & _ & Hd). rewrite Z.add_0_r in Hu.
        rewrite (cp_other_mmu _ _ _ _ _ C) by (by apply user_in_range || (apply Hd; lia)). apply Td. lia.
  - apply wp_ret. exists v, w. split; try done.
    + intros i k Hi Hk. destruct (decide (i = m)) as [->|Hne]; [|apply Dn; [lia|done]].
      rewrite (unmapped_page w m k) by (done || (apply Td; lia)). symmetry. apply unmapped_page; [|done|done].
      apply (vp_unmapped _ _ (v_vpool _ (so_wf _ (proj1 U0)) PF_USER (so_act _ (proj1 U0)))); done.
    + intros i Hi. apply Td. lia.
Qed.

Local Abbreviation b0 := (vbits PF_USER v0).
Local Abbreviation start := (vaddr_start (vpool PF_USER v0)).

Lemma bit_of_byte byte j m : znth (bits b0) j = Some byte -> 0 <= m < 8 ->
  negb (Z.land (Z.shiftl BITMAP_MASK m) byte =? 0) = bit b0 (8 * j + m).
Proof.
  intros Hb Hm. unfold bit. replace ((8 * j + m) / 8) with j by dlia. rewrite Hb. replace ((8 * j + m) mod 8) with m by dlia.
  unfold BITMAP_MASK. rewrite Z.land_comm, testbit_mask by lia. by rewrite negb_involutive.
Qed.

Lemma page_address j m : 0 <= 8 * j + m < vcount PF_USER v0 -> u32 ((j * 8 + m) * PG_SIZE + start) = vpage PF_USER v0 (8 * j + m).
Proof.
  intros Hi. destruct (vpage_user v0 _ U0 Hi) as [Hu _]. unfold user_va, vpage in *. unfold PG_SIZE. rewrite u32_small by lia. lia.
Qed.

Lemma copy_bits_ok byte j r : znth (bits b0) j = Some byte -> 0 <= j -> 8 * j + 8 <= vcount PF_USER v0 ->
  forall k m s, m + Z.of_nat k = 8 -> 0 <= m -> prog (8 * j + m) (bits_set b0 k (8 * j + m) + r)%nat s ->
  wp (copy_bits k child parent buf start byte j m) (λ _ s', prog (8 * j + 8) r s') s.
Proof.
  intros Hb Hj Hc. induction k as [|k IH]; intros m s Hk Hm Hp.
  { apply wp_ret. replace (8 * j + 8) with (8 * j + m) by lia. exact Hp. }
  cbn [copy_bits bits_set] in *. rewrite (bit_of_byte byte j m Hb) by lia. rewrite page_address by lia. apply wp_bind.
  rewrite <- Nat.add_assoc in Hp. eapply wp_mono; [apply page_step; [lia|exact Hp]|]. intros [] s' Hp'.
  rewrite <- Z.add_assoc in Hp'. apply IH; [lia|lia|]. rewrite Z.add_assoc. rewrite Z.add_assoc in Hp'. exact Hp'.
Qed.

Lemma no_bits k : forall m j s, copy_bits k child parent buf start 0 j m s = Ok (tt, s).
Proof. induction k as [|k IH]; intros m j s; [done|]. cbn [copy_bits]. rewrite Z.land_0_r. apply IH. Qed.

Lemma bits_set_add k n : forall i, bits_set b0 (k + n) i = (bits_set b0 k i + bits_set b0 n (i + Z.of_nat k))%nat.
Proof.
  induction k as [|k IH]; intros i; [by rewrite Z.add_0_r|]. cbn [Nat.add bits_set]. rewrite IH.
  replace (i + 1 + Z.of_nat k) with (i + Z.of_nat (S k)) by lia. lia.
Qed.

Lemma copy_bytes_ok r : forall k j s, 0 <= j -> j + Z.of_nat k = btmp_bytes_len b0 ->
  prog (8 * j) (bits_set b0 (8 * k) (8 * j) + r)%nat s ->
  wp (copy_bytes k child parent buf start (bits b0) j) (λ _ s', prog (vcount PF_USER v0) r s') s.
Proof.
  induction k as [|k IH]; intros j s Hj Hk Hp.
  { apply wp_ret. unfold vcount. replace (8 * btmp_bytes_len b0) with (8 * j) by lia. exact Hp. }
  pose proof (vp_byte _ _ (v_vpool _ (so_wf _ (proj1 U0)) PF_USER (so_act _ (proj1 U0)))) as Hl.
  destruct (znth_is_Some (bits b0) j) as [byte Hb]; [lia|]. cbn [copy_bytes]. apply wp_bind. eapply wp_lift; [by rewrite Hb|].
  replace (8 * S k)%nat with (8 + 8 * k)%nat in Hp by lia. rewrite bits_set_add, <- Nat.add_assoc in Hp.
  replace (8 * j + Z.of_nat 8) with (8 * (j + 1)) in Hp by lia. set (rest := (bits_set b0 (8 * k) _ + r)%nat) in *.
  assert (Hbyte : wp (copy_bits 8 child parent buf start byte j 0) (λ _ s', prog (8 * j + 8) rest s') s).
  { apply copy_bits_ok; [done|done|unfold vcount; lia|lia|lia|]. by rewrite Z.add_0_r. }
  apply wp_bind. eapply wp_mono.
  { instantiate (1 := λ _ s', prog (8 * j + 8) rest s'). destruct (Z.eqb_spec byte 0) as [->|]; [|exact Hbyte].
    unfold wp in Hbyte. rewrite no_bits in Hbyte. exact Hbyte. }
  intros [] s' Hp'. apply IH; [lia|lia|]. replace (8 * j + 8) with (8 * (j + 1)) in Hp' by lia. exact Hp'.
Qed.

(** Everything of the parent is in the child, at the same addresses. *)
Lemma copy_body_ok s w r : forking s v0 w child parent buf fb tc -> cr3 w = c ->
  (forall i, 0 <= i < vcount PF_USER v0 -> mmu w (vpage PF_USER v0 i) = None) ->
  rooms PF_USER v0 (bits_set b0 (Z.to_nat (vcount PF_USER v0)) 0 + r)%nat -> s0 = s ->
  wp (copy_body_stack3 child parent buf) (λ _ s', prog (vcount PF_USER v0) r s') s.
Proof.
  intros F Hc Hw Hroom E0. destruct F as [Hs Hcur Hch Hu T Hbf Dc Dp]. unfold copy_body_stack3. apply wp_bind, wp_on_threads, (wp_rd_task _ (mcur v0)).
  { rewrite <- Hcur. apply Hs. }
  pose proof (wf_len _ (vp_bits _ _ (v_vpool _ (so_wf _ (proj1 U0)) PF_USER (so_act _ (proj1 U0))))) as Hl.
  rewrite put_thr_same.
  change (vaddr_bitmap (userprog_vaddr (mcur v0))) with b0. change (vaddr_start (userprog_vaddr (mcur v0))) with start.
  apply (copy_bytes_ok r (Z.to_nat (btmp_bytes_len b0)) 0); [lia|lia|]. exists v0, w.
  replace (8 * Z.to_nat (btmp_bytes_len b0))%nat with (Z.to_nat (vcount PF_USER v0)) by (unfold vcount; lia). rewrite Z.mul_0_r.
  split; try done; [rewrite E0; apply ran_refl|intros i k Hi; lia].
Qed.
End loops.

(** ** Two processes *)

(** A store through one space leaves the other alone. *)
Lemma twins_store v w va y v1 : twins v w -> user_va va -> store_byte va y v = Ok (tt, v1) ->
  forall x, user_va x -> byte_at (at_dir (cr3 w) v1) x = byte_at w x.
Proof.
  intros T Hva Hst x Hx. unfold store_byte in Hst. destruct (mmu v va) as [pa|] eqn:E; [|done]. injection Hst as <-.
  set (v1 := set_ram _ v). pose proof (so_data v (tw_v _ _ T) va pa Hva E) as [Hn Hc]. pose proof (tw_data_v _ _ T va pa Hva E) as Hw.
  assert (Hd : data_write v v1 [frame pa]).
  { split; [apply only_ram_insert| |intros g ->%list_elem_of_singleton; by split; [apply frame_aligned|]].
    intros z. unfold v1. rewrite word_insert. case_decide as Ez; [|done]. intros _. exists (frame pa). split; [by left|].
    pose proof (frame_bounds v va pa E). pose proof (frame_aligned pa). pose proof (Z.mod_pos_bound pa 4 ltac:(lia)). unfold page_aligned in *. dlia. }
  apply (bytes_kept w _ (frame pa) x (tw_w _ _ T) (write_other v w v1 _ T Hw Hd) (user_in_range x Hx)).
  intros pb Hp Ef. by apply (tw_apart _ _ T va x pa pb).
Qed.

(** The running process [parent] can be forked through the page at [buf]. *)
Record forkable s v (child parent buf : Z) tc : Prop := {
  fo_sees : sees s v;
  fo_user : user_ok v;
  fo_backed : backed v;
  fo_cur : k_cur (thr s) = parent;
  fo_child : child <> parent /\ k_tasks (thr s) !! child = Some tc;
  fo_dir : kernel_va (pgdir (mcur v)) /\ mmu v (pgdir (mcur v)) = Some (cr3 v);
  fo_buf : kernel_va buf /\ page_aligned buf /\ exists fb, mmu v buf = Some fb /\ data_frame v fb;
  fo_lock : Seq.quiet (me v) (plock_of PF_KERNEL v);
  fo_page : exists r0, 0 <= r0 < vcount PF_KERNEL v /\ bit (vbits PF_KERNEL v) r0 = false
}.

(** The pages a process has. *)
Definition pages_of v : nat := bits_set (vbits PF_USER v) (Z.to_nat (vcount PF_USER v)) 0.

Lemma new_space_forking s s1 v v' va f child parent buf tc : forkable s v child parent buf tc -> ran s s1 -> sees s1 v' -> new_space v v' va f ->
  let s2 := put_thr (upd_tasks (<[child := set_pgdir va tc]> (k_tasks (thr s1))) (thr s1)) s1 in
  exists fb, forking s2 v' (at_dir f v') child parent buf fb (set_pgdir va tc).
Proof.
  intros [Fs Fu Fb Fc [Fne Ft] [Fd Fm] (Bk & Ba & fb & Bm & Bd) Fl _] R Hs1 [(v1 & F & S & O & _) T _ Hdt] s2.
  destruct (ran_tasks _ _ R) as [Ec Et]. exists fb. pose proof (so_wf v (proj1 Fu)) as Hwf.
  assert (Hkeep : forall x pa, kernel_va x -> mmu v x = Some pa -> mmu v' x = Some pa).
  { intros x pa Hx Hp. destruct (kernel_in_range x Hx) as [Hr _]. rewrite (sa_mmu _ _ S) by done. by apply (fp_keep _ _ _ _ F). }
  destruct (fp_frames _ _ _ _ F fb) as [Hd1 Hne]; [by apply (mmu_frame_aligned v buf)|done| |].
  { pose proof (v_used _ Hwf buf fb (proj1 (kernel_in_range buf Bk)) Bm) as Hx. by rewrite (aligned_frame v buf) in Hx. }
  assert (Hd' : data_frame v' fb) by (by rewrite (same_data _ _ _ S)).
  pose proof (fp_task _ _ _ _ F) as K1. destruct (only_ram_task v1 v' O) as [K2 _]. pose proof (same_task_trans _ _ _ K1 K2) as K.
  split.
  - destruct Hs1 as [Hcur Hmem]. split; [|exact Hmem]. cbn. rewrite lookup_insert_ne; [exact Hcur|]. rewrite Ec, Fc. done.
  - cbn. by rewrite Ec.
  - apply lookup_insert_eq.
  - apply (same_task_user v); [done|done|apply (tw_v _ _ T)].
  - done.
  - split; [done|done|by apply Hkeep|done|by apply Hdt].
  - cbn. destruct (fp_va _ _ _ _ F) as [Hk _]. split; [done|]. rewrite (sa_mmu _ _ S) by (by apply kernel_in_range). apply (fp_mmu _ _ _ _ F).
  - rewrite (st_mcur _ _ K), (st_cr3 _ _ K). split; [done|by apply Hkeep].
Qed.

Lemma rooms_kernel_le v n m : (m <= n)%nat -> rooms PF_KERNEL v n -> rooms PF_KERNEL v m.
Proof. intros Hle. apply frames_room_le. lia. Qed.

(** The process is as it was. *)
Lemma new_space_same v v' va f : user_ok v -> new_space v v' va f -> backed v ->
  same_task v v' /\ backed v' /\ pages_of v' = pages_of v /\ (forall x, user_va x -> byte_at v' x = byte_at v x) /\
  forall n, rooms PF_KERNEL v (S n) -> rooms PF_USER v n -> rooms PF_USER v' n.
Proof.
  intros Hu [(v1 & F & S & O & B) _ _ _] Hb. destruct (only_ram_task v1 v' O) as [K2 R2].
  pose proof (same_task_trans _ _ _ (fp_task _ _ _ _ F) K2) as K. destruct (same_task_vpage v v' K) as [Evb Evp].
  split; [done|]. split; [|split; [|split]].
  - intros i. unfold vcount. rewrite Evb, Evp. intros Hi Hbit. destruct (vpage_user v i Hu Hi) as [Hv _].
    rewrite (sa_mmu _ _ S) by (by apply user_in_range). rewrite (fp_space _ _ _ _ F) by done. by apply Hb.
  - unfold pages_of, vcount. by rewrite Evb.
  - intros x Hx. rewrite B by done. by apply (fp_bytes _ _ _ _ F).
  - intros n Hk Hn. apply R2. by apply (fp_room _ _ _ _ F).
Qed.

Lemma upd_task_run t y g s : k_tasks (thr s) !! t = Some y ->
  on_threads (upd_task t g) s = Ok (tt, put_thr (upd_tasks (<[t := g y]> (k_tasks (thr s))) (thr s)) s).
Proof. intros Hx. unfold on_threads, on_os, o_on_thr, zoom, upd_task. fold (thr s). by rewrite Hx. Qed.

(** C9: the memory of a forked process.  Creating the child's page directory
    and copying the parent's pages, as [copy_process] does, succeeds when there
    are frames for all pages.  Then the child reads, at every address of the
    parent's pool of pages, the byte the parent had there; the parent's own
    memory has not changed; and the two are independent: what one of them
    stores at any address, the other does not see. *)
Theorem fork_copies_memory s v child parent buf tc : forkable s v child parent buf tc ->
  rooms PF_KERNEL v (S (pages_of v)) -> rooms PF_USER v (pages_of v) ->
  exists s' v' va c,
    (pgdir ← create_page_dir; on_threads (upd_task child (set_pgdir pgdir));; copy_body_stack3 child parent buf) s = Ok (tt, s') /\
    sees s' v' /\ k_tasks (thr s') = <[child := set_pgdir va tc]> (k_tasks (thr s)) /\ mmu v' va = Some c /\ user_ok (at_dir c v') /\
    (forall x, user_va x -> byte_at v' x = byte_at v x) /\
    (forall i k, 0 <= i < vcount PF_USER v -> 0 <= k < 4096 ->
       byte_at (at_dir c v') (vpage PF_USER v i + k) = byte_at v (vpage PF_USER v i + k)) /\
    (forall x y w1, user_va x -> store_byte x y (at_dir c v') = Ok (tt, w1) -> forall z, user_va z -> byte_at (at_dir (cr3 v') w1) z = byte_at v' z) /\
    (forall x y v1, user_va x -> store_byte x y v' = Ok (tt, v1) -> forall z, user_va z -> byte_at (at_dir c v1) z = byte_at (at_dir c v') z).
Proof.
  intros F Hrk Hru. pose proof F as [Fs Fu Fb _ [_ Ft] _ _ Fl (r0 & Hr0 & Hb0)].
  pose proof (create_page_dir_ok s v r0 Fs Fu Fl Hr0 Hb0 (rooms_kernel_le v (S (pages_of v)) 1 ltac:(lia) Hrk)) as Hdir.
  apply wp_run in Hdir as (va & s1 & E1 & R1 & v1 & f & Hs1 & N).
  destruct (new_space_forking s s1 v v1 va f child parent buf tc F R1 Hs1 N) as (fb & Fk).
  set (s2 := put_thr _ s1) in *. destruct (new_space_same v v1 va f Fu N Fb) as (K & Hb1 & Hn & Hby & Hrm).
  destruct (same_task_vpage v v1 K) as [Evb Evp]. pose proof (fk_twins _ _ _ _ _ _ _ _ Fk) as T1.
  assert (Hcopy : wp (copy_body_stack3 child parent buf) (λ _ s', exists v' w', progress s2 v1 f child parent buf fb (set_pgdir va tc) (vcount PF_USER v1) 0 s' v' w') s2).
  { apply (copy_body_ok s2 v1 f child parent buf fb (set_pgdir va tc) (fk_user _ _ _ _ _ _ _ _ Fk) Hb1 s2 (at_dir f v1)); try done.
    - intros i Hi. apply (ns_empty _ _ _ _ N), (vpage_user v1 i (fk_user _ _ _ _ _ _ _ _ Fk) Hi).
    - fold (pages_of v1). rewrite Hn, Nat.add_0_r. by apply Hrm. }
  apply wp_run in Hcopy as ([] & s' & E2 & v' & w' & [Fk' R' Dc K' B' M' Dn _ _]).
  destruct (ran_tasks _ _ R1) as [_ Et1], (ran_tasks _ _ R') as [_ Et']. pose proof (fk_twins _ _ _ _ _ _ _ _ Fk') as T'.
  assert (Ew : at_dir f v' = w') by (rewrite <- Dc; symmetry; apply (tw_same _ _ T')).
  exists s', v', va, f. rewrite Ew. split.
  { rewrite (bind_ok _ _ _ _ _ E1). rewrite (bind_ok _ _ _ tt s2); [exact E2|]. apply (upd_task_run child tc). by rewrite Et1. }
  split; [apply (fk_sees _ _ _ _ _ _ _ _ Fk')|]. split; [rewrite Et'; unfold s2; cbn; by rewrite Et1|].
  split; [pose proof (fk_dir_c _ _ _ _ _ _ _ _ Fk') as [_ Hc]; rewrite <- Dc; exact Hc|].
  split; [rewrite <- Ew; apply at_dir_user; [apply (fk_user _ _ _ _ _ _ _ _ Fk')|rewrite Ew; apply (tw_w _ _ T')]|].
  split; [intros x Hx; by rewrite B', Hby|]. split; [|split].
  - intros i k Hi Hk. rewrite <- Evp, Dn; [|unfold vcount; by rewrite Evb|done]. rewrite Evp. apply Hby.
    by apply (pool_page v Fu).
  - intros x y w1 Hx Hst z Hz. by apply (twins_store w' v' x y w1 (twins_sym _ _ T')).
  - intros x y u1 Hx Hst z Hz. rewrite <- Dc. by apply (twins_store v' w' x y u1 T').
Qed.
End fork_memory.

(** ** An example

    The process of ExecSpec.v has one page; the buffer is its page at
    0xc0101000. *)

Lemma e_bit i : 0 < i < 32768 -> bit (vbits PF_USER e_vm) i = false.
Proof.
  intros Hi. change (vbits PF_USER e_vm) with (Bitmap 4096 (1 :: zeros 4096)). unfold bit. cbn [bits].
  destruct (decide (i < 8)) as [Hlt|Hge].
  - replace (i / 8) with 0 by dlia. replace (i mod 8) with i by dlia. change (znth (1 :: zeros 4096) 0) with (Some 1).
    apply Z.bits_above_log2; [lia|]. exact (proj1 Hi).
  - replace (znth (1 :: zeros 4096) (i / 8)) with (znth (zeros 4096) (i / 8 - 1)).
    + unfold znth, zeros. destruct (Z.ltb_spec (i / 8 - 1) 0); [dlia|]. rewrite lookup_replicate_2 by dlia. apply Z.bits_0.
    + symmetry. apply (znth_app_r [1] (zeros 4096)). unfold zlen. cbn. dlia.
Qed.

Lemma bits_set_none b n : forall i, (forall j, i <= j < i + Z.of_nat n -> bit b j = false) -> bits_set b n i = O.
Proof.
  induction n as [|n IH]; intros i Hb; [done|]. cbn [bits_set]. rewrite Hb by lia. rewrite IH; [done|]. intros j Hj. apply Hb. lia.
Qed.

Lemma bits_set_one b n : bit b 0 = true -> (forall j, 0 < j < 1 + Z.of_nat n -> bit b j = false) -> bits_set b (S n) 0 = 1%nat.
Proof. intros H0 Hb. cbn [bits_set]. rewrite H0, bits_set_none; [done|]. intros j Hj. apply Hb. lia. Qed.

Lemma e_pages : pages_of e_vm = 1%nat.
Proof.
  unfold pages_of. replace (vcount PF_USER e_vm) with (Z.succ 32767) by reflexivity. rewrite Z2Nat.inj_succ by lia.
  apply bits_set_one; [reflexivity|]. intros j Hj. apply e_bit. rewrite Z2Nat.id in Hj by lia. lia.
Qed.

Lemma e_forkable c : forkable (e_state c) e_vm 0xc0109000 0xc0100000 0xc0101000 (Thread.demo_task 3 TASK_BLOCKED 10).
Proof.
  split.
  - apply e_sees.
  - apply e_user.
  - intros i Hi Hb. destruct (decide (i = 0)) as [->|Hne]; [by eexists|]. change (vcount PF_USER e_vm) with 32768 in Hi.
    rewrite e_bit in Hb by lia. done.
  - done.
  - done.
  - by split.
  - split; [done|]. split; [done|]. exists 0x201000. split; [done|]. split; [|done]. intros (i & Hi & Hp & E).
    destruct (z_proc_dir 0xc0100000 e_task i ltac:(lia) Hp) as [[-> Et]|[[-> Et]|[-> _]]]; [| |lia];
      change (tframe e_vm) with (tframe (z_vm 0x202000 0xc0100000 e_task)) in E; lia.
  - split; [reflexivity|by left].
  - exists 3. done.
Qed.

Lemma fork_copies_memory_witness : exists s' v' c,
  (pgdir ← create_page_dir; on_threads (upd_task 0xc0109000 (set_pgdir pgdir));; copy_body_stack3 0xc0109000 0xc0100000 0xc0101000)
    (e_state []) = Ok (tt, s') /\ sees s' v' /\
  is_Some (byte_at v' 0x8048123) /\ byte_at (at_dir c v') 0x8048123 = byte_at v' 0x8048123.
Proof.
  destruct (fork_copies_memory (e_state []) e_vm 0xc0109000 0xc0100000 0xc0101000 (Thread.demo_task 3 TASK_BLOCKED 10))
    as (s' & v' & va & c & E & Hs & _ & _ & _ & Hp & Hc & _).
  - apply e_forkable.
  - rewrite e_pages. destruct e_rooms as [_ Hk]. exact (frames_room_le _ 5 4 ltac:(lia) Hk).
  - rewrite e_pages. apply (rooms_le e_vm 5 1); [lia|exact e_rooms].
  - exists s', v', c. split; [exact E|]. split; [exact Hs|]. rewrite Hp by (unfold user_va; lia). split; [by eexists|].
    assert (Hx : 0 <= 0 < vcount PF_USER e_vm) by (replace (vcount PF_USER e_vm) with 32768 by reflexivity; lia).
    specialize (Hc 0 0x123 Hx ltac:(lia)). replace (vpage PF_USER e_vm 0 + 0x123) with 0x8048123 in Hc by reflexivity. exact Hc.
Defined.
